(* ===== verification/_CoqProject ===== *)
-Q . S2P
Prelude.v
PyStr.v
PyData.v
Ranges.v
Vni.v
Vrf.v
Neutron.v
NeutronStore.v
Trunk.v
Svi.v
Routers.v
Mech.v
Ironic.v
PaloAlto.v
Flavor.v
Topology.v
PortHooks.v
Portgroup.v
IronicNode.v
Netdev.v
NetdevStore.v
Nautobot.v
InterfaceSync.v
InterfaceStore.v
PortEvents.v
DeviceSync.v
NetappValues.v
Netapp.v
StorageEvents.v
Tenancy.v
Dispatch.v
VniGroup.v
Bmc.v
Raid.v
Enroll.v
Ovn.v
OvnChassis.v
UplinkScripts.v
CinderDriver.v
NovaNetwork.v
NovaDriver.v
PortAudit.v
SvmCleanup.v
CiscoAsa.v
OpenstackSync.v
UsNet.v
ImageConvert.v
TenantCleanup.v
WorkflowClients.v
DiffTool.v
ArgoDepends.v
ArgoDocs.v
BmcTools.v
NodeConfiguration.v
ComponentDocs.v
RedfishModels.v
