(* ===== verification/Prelude.v ===== *)
(** * UnderStack: a verification development

    ** The program

    UnderStack runs bare-metal OpenStack.  Its own logic is the Python code under
    [src/python]: drivers loaded into Neutron ([neutron-understack]), inspection
    hooks and a middleware loaded into Ironic ([ironic-understack]), drivers loaded
    into Cinder and Nova ([cinder-understack], [nova-understack]), workflows started
    by Argo ([understack-workflows]), hooks and tools for operators
    ([openstack-sync], [kubectl-us-net], [diff-nautobot-understack]), and the scripts of [src/scripts] that
    repair what went wrong.  The parts meet at the objects they
    share: a baremetal port's [physical_network] and [local_link_connection], which
    the inspection hooks write, decide how the mechanism driver binds it; the VLAN
    segments that binding allocates are released by the trunk driver and by the
    driver's delete and unbind paths; a router flavor draws a VNI, an uplink or an
    appliance node, the latter enrolled by the netdev workflow.  A server is
    enrolled by way of its management controller; from then on the events of
    Ironic, Keystone and Cinder, received from a queue, keep Nautobot and the
    NetApp storage in step, and resynchronisations repair what events missed.  The
    SVM that a project's event creates is found by the Cinder driver under the
    project's name; the storage addresses in Nautobot become the storage network of
    the config drive that the Nova driver writes.  The scripts read the objects the
    drivers left in OVN, Neutron and Nautobot and remove or complete them.

    ** The files

    - [Prelude]: exceptions, programs with third-party calls, their weakest
      preconditions, runs and traces; [PyStr], [PyData]: Python strings, integers,
      dicts and JSON.
    - [Ranges]: [merge_overlapped_ranges], [fetch_gaps_in_ranges] and the like of
      [neutron_understack/utils.py].
    - [Vni]: [l3_router/understack_vni_db.py], [db/understack_vni.py]; the state is
      the allocation table, the operations are allocation, release, look-up and the
      deletion of a router's row.  [Vrf]: [l3_router/vrf.py].
    - [Neutron]: Neutron's objects, the calls the drivers make ([neutronE]) and
      the helpers of [utils.py]; [NeutronStore]: the class [SegmentStore], what the
      drivers rely on in Neutron's segment and binding tables, with an instance.
    - [Trunk]: [trunk.py].  [Mech]: [neutron_understack_mech.py],
      [undersync_mech.py], [undersync.py], [evpn_compat.py].  [Routers]:
      [routers.py].  [Svi]: [l3_router/svi.py].
    - [Ironic]: [neutron_understack/ironic.py].  [PaloAlto]:
      [l3_router/palo_alto.py].
    - [Flavor]: [flavor_matcher/], [resource_class.py],
      [redfish_inspect_understack.py].
    - [Topology]: [inspected_port.py], [vlan_group_name_convention.py] and the PXE
      switches of [inspect_hook_update_baremetal_ports.py].  [PortHooks]: the rest of
      that hook, [port_bios_name_hook.py], [inspect_hook_chassis_model.py],
      [inspect_hook_node_name_check.py].  [Portgroup]:
      [portgroup_name_middleware.py].
    - [IronicNode]: [understack_workflows/ironic_node.py].  [Netdev]:
      [netdev_reconciler.py], [firewall.py], [main/enroll_netdev.py],
      [main/enroll_fw.py]; [NetdevStore]: that enrolment run against Ironic.
    - [Nautobot]: the objects and requests of Nautobot ([NbAPI]),
      [ironic/provision_state_mapper.py], [interface_normalization.py].
      [InterfaceSync]: [oslo_event/nautobot_device_interface_sync.py];
      [InterfaceStore]: its runs against a table of interfaces.  [PortEvents]:
      [oslo_event/ironic_port.py], [ironic_portgroup.py].  [DeviceSync]:
      [oslo_event/nautobot_device_sync.py].
    - [NetappValues]: [netapp/value_objects.py].  [Netapp]: [netapp/config.py],
      [client.py], the services and [manager.py]; the state is the host of the
      SDK's connection.  [StorageEvents]: [oslo_event/keystone_project.py],
      [cinder_volume_type.py], [ironic_node.py], [main/netapp_configure_net.py].
    - [Tenancy]: [oslo_event/neutron_network.py], [neutron_subnet.py],
      [main/sync_keystone.py], [resync.py] and [main/resync_*.py].  [VniGroup]:
      [main/sync_ucvni_group_range.py].  [Dispatch]:
      [main/openstack_oslo_event.py], which calls the handlers of [PortEvents],
      [DeviceSync] and [StorageEvents].
    - [Bmc]: [bmc.py], [bmc_credentials.py], [bmc_bios.py], [bmc_settings.py],
      [bmc_hostname.py], [bmc_chassis_info.py]; the state is the paths a [Bmc]
      object has cached.  [Raid]: [raid.py].  [Enroll]: [main/enroll_server.py],
      composed of [Bmc], [IronicNode] and [Raid].  [WorkflowClients]: [nautobot.py],
      [undersync/client.py], [main/undersync_switch.py].  [BmcTools]:
      [bmc_password_standard.py], [bmc_network_config.py], [bmc_power.py],
      [bmc_disk.py], [main/print_bmc_password.py], with the key derivation a
      parameter.  [NodeConfiguration]: [node_configuration.py],
      [redfish_driver_info.py].  [RedfishModels]: [models.py].
    - [CinderDriver]: [cinder_understack/dynamic_netapp_driver.py]; the state is the
      libraries by SVM and the hosts of volumes.  [NovaNetwork]:
      [nova-understack/ironic_understack/nautobot_client.py] and its options;
      [NovaDriver]: [argo_client.py], [driver.py].
    - [CiscoAsa]: [cisco_asa.py], [l3_service_cisco_asa.py].  [OpenstackSync]:
      [openstack_sync/].  [UsNet]: [us_net/].  [DiffTool]:
      [diff_nautobot_understack/], with the comparison of two sides a call.
    - [Ovn]: tables that [ovn-nbctl] prints, as the scripts read them.
      [OvnChassis]: [scripts/cleanup_dead_ovn_ha_chassis.py].  [UplinkScripts]:
      [scripts/cleanup_flavored_router_uplinks.py],
      [cleanup_orphaned_ovn_uplinks.py].  [PortAudit]:
      [scripts/audit_ports_missing_physical_network.py].  [SvmCleanup]:
      [scripts/delete_volumes_and_svms_netapp.py].  [ImageConvert]:
      [scripts/convert_image_to_4k.py].  [TenantCleanup]:
      [scripts/cleanup_storage_stuff_in_nautobot.py].
    - [ArgoDepends]: [parse_depends] of [scripts/argo-workflows-to-mkdocs.py], a
      tokenizer and a recursive-descent parser; [ArgoDocs]: the rest of that script,
      whose drawing numbers its links.  [ComponentDocs]: [docs/macros.py],
      [scripts/check-component-docs.py].

    ** How code is modelled

    Pure code is a function; code that may raise returns [res].  Effectful code is a
    [prog]: a tree of third-party calls ([E], one constructor per call with its
    arguments), each answered by a value or an exception, around the program's own
    state ([G]).  [try]/[except], loops and early returns are operations on such
    trees.  Nothing is assumed about answers: [every_run] quantifies over all of
    them and speaks of the outcome and the trace of calls.  Where a property needs
    the other side to behave, [wp] takes a step relation and [run] a function for it
    ([SegmentStore], [Ironic.node_step], [Routers.uplink_env], [PortHooks.db_step],
    [NetdevStore.ironic_env], [InterfaceStore.nb_step], [DeviceSync.dev_step],
    [Tenancy.tn_step], [VniGroup.range_step], [Bmc.bmc_step], [Bmc.bios_step],
    [OvnChassis.ovn_step], [UplinkScripts.cloud_step], [NovaDriver.clock_step]), which
    states only what the service documents.  [faulty] turns such a relation into one in
    which any request may also fail, before or after it took effect, and remembers
    that one has; the claims about it say what holds all the same and what holds
    unless a request failed.  Which calls may follow which others is stated with
    [disciplined], and proved compositionally with [keeps].  An
    exception is its class and the values interpolated in its message; wording and
    logging are left out, and so are the log-only branches.  Each definition carries
    the source lines it translates.

    ** What is shown

    - VNIs: no reachable table gives a router two VNIs or a VNI two routers, also
      when allocations race, of which the later one is then refused;
      allocation takes the least free VNI and fails exactly when none is left;
      allocation and release round-trip; the range configuration parses exactly as
      documented and back ([Ranges], [Vni], [Vrf]).
    - Segments: binding, unbinding, deleting and trunk operations release exactly
      the dynamic segments that nobody uses any more, refuse before they write, and
      synchronise the switch last ([Trunk], [Mech]).
    - Routers: uplinks are created and removed exactly once, and a removal in which
      requests fail still writes only to the uplink it has read, its port last; the SVI
      rules accept exactly the documented attachments; adoption of an appliance is all or
      nothing as far as Ironic answers the recovery, and reports its cause, except for
      the race shown by a theorem ([Routers],
      [Svi], [Ironic], [PaloAlto]).
    - Inspection: the matcher, the wiring check and the PXE choice are characterised
      completely; the port hooks converge, whichever requests fail they write only
      what should be there, and they keep PXE ports on physical networks
      ([Flavor], [Topology], [PortHooks], [Portgroup]).
    - Enrolment: requests are validated exactly, plans converge, ports are written
      only after planning and out of the allocatable pool, a second run changes
      nothing, and firewalls in service are not disturbed ([IronicNode], [Netdev],
      [NetdevStore]); a server is offered last, after its inspection and ready to boot, its controller has
      the production password and keeps no session, the BIOS settings converge and
      the RAID volumes do not depend on the order of a set ([Bmc], [Raid],
      [Enroll]).
    - Nautobot: two synchronisations bring a device's interfaces to what Ironic
      describes unless a request fails, and leave other devices alone in any case; a synchronisation ends after at most five attempts; a re-enrolled
      machine keeps its place; port events mirror the port, from the queue on, and
      round-trip; a resynchronisation exits with 0 only when Nautobot mirrors
      Neutron or Keystone; segment ranges change exactly the VNIs they name; the
      receiver's exit code says how far an event came ([InterfaceStore],
      [PortEvents], [DeviceSync], [Tenancy], [VniGroup], [Dispatch]).
    - Storage: nothing is deleted on a backend that has not just shown the
      project's SVM, the least used aggregate is chosen, interface configurations
      and routes are well formed ([NetappValues], [Netapp], [StorageEvents]).
    - Drivers: a volume in a pool that the Cinder driver reports reaches the library
      of its SVM, and a refresh drops and adds libraries only for what the cluster
      listed; the storage configuration of a node is complete and its wait for a
      playbook ends; a floating IP becomes exactly its commands, whatever characters
      it has ([CinderDriver], [NovaNetwork], [NovaDriver], [CiscoAsa]).
    - Scripts and tools: none writes unless asked to, each writes only what it has
      read to be in need of it, an executed repair of HA chassis groups, uplinks or
      ports is complete, a rescaled partition table describes the same bytes, and
      exit codes and printed lists say what was found ([OvnChassis],
      [UplinkScripts], [PortAudit], [SvmCleanup], [TenantCleanup], [ImageConvert],
      [UsNet], [OpenstackSync], [DiffTool], [WorkflowClients]).
    - Documentation: the parser of dependencies agrees with a grammar and reads back
      whatever an expression is written as; every link of a drawing is styled once;
      the check of the pages is exact ([ArgoDepends], [ArgoDocs], [ComponentDocs]).
    - Inventory: a standard password is refused exactly for a missing key or a text
      that is no address; the request for a node has exactly four fields; the
      interfaces of a chassis are those of its cards, and the ports of an iLO 4
      are numbered by their place ([BmcTools], [NodeConfiguration], [RedfishModels]).
    - Examples that run the model show where the code falls short: transient
      refusals that lose a device, LAGs that a synchronisation removes, a volume
      deleted for another project, a masked exit code, events without handlers.

    ** Bounds

    Loops of the source are over lists and are structural here.  Fuel occurs in
    [PyStr.remove_sub], [PyStr.drop_parens], [Topology.natural_go], [Bmc.after_sub]
    and [Bmc.before_sub], each given the length of the text, of which every step
    consumes at least one character, and in [Bmc.hex_digits], given the binary
    length of the number, of which every step divides by 16.  [NovaDriver.poll],
    the wait for a workflow, takes its fuel as an argument, and 121 rounds are shown
    to be enough; so does [DiffTool._fetch_paginated_data], for which the number of
    pages is.  The parser of [ArgoDepends] gets three times the number of tokens plus
    three ([enough]), which its equivalence with the grammar shows to suffice.
    Integers are Python's and unbounded; the VXLAN and VLAN bounds are explicit.
    Texts are ASCII.

    ** Not modelled

    Option and policy declarations, settings modules and migrations, which hold no
    logic of the program's own; argument parsing, logging and the making of clients;
    data classes without operations ([port_configuration.py], [network_data.py]);
    [main/bmc_display_password.py], which prints the standard password for a key that
    [kubectl] prints.  Disk sizes are whole numbers below [2 ^ 53], where Python's
    division is exact after rounding up.  What is left has no behaviour beyond the
    library calls it makes. *)
From stdpp Require Export base tactics option list strings gmap sorting pretty.

(** ** Exceptions *)

(** A Python exception is its class name and the values interpolated in its
    message; the wording of the message is not modelled. *)
Record exn := Exn { exn_cls : string; exn_args : list string }.

#[export] Instance exn_eq_dec : EqDecision exn.
Proof. solve_decision. Defined.

(** The outcome of a Python expression or statement. *)
Abbreviation res A := (exn + A)%type.
Abbreviation Ok := inr (only parsing).
Abbreviation Err := inl (only parsing).

Definition ValueError (args : list string) : exn := Exn "ValueError" args.
Definition KeyError (key : string) : exn := Exn "KeyError" [key].
Definition TypeError (args : list string) : exn := Exn "TypeError" args.
Definition AttributeError (attr : string) : exn := Exn "AttributeError" [attr].
Definition IndexError : exn := Exn "IndexError" [].
Definition RuntimeError (args : list string) : exn := Exn "RuntimeError" args.
(** [raise Exception(...)]: the base class itself. *)
Definition PlainException (args : list string) : exn := Exn "Exception" args.

#[export] Instance res_mret : MRet (sum exn) := fun A a => inr a.
#[export] Instance res_mbind : MBind (sum exn) := fun A B f m =>
  match m with inl e => inl e | inr a => f a end.

(** [for x in l: acc.append(f(x))] where [f] may raise. *)
Fixpoint res_map {A B} (f : A -> res B) (l : list A) : res (list B) :=
  match l with
  | [] => Ok []
  | x :: l => match f x with
              | Err e => Err e
              | Ok y => match res_map f l with
                        | Err e => Err e
                        | Ok ys => Ok (y :: ys)
                        end
              end
  end.

(** [for x in l: acc = f(acc, x)] where [f] may raise. *)
Fixpoint res_fold {A B} (f : B -> A -> res B) (l : list A) (acc : B) : res B :=
  match l with
  | [] => Ok acc
  | x :: l => match f acc x with Err e => Err e | Ok b => res_fold f l b end
  end.

(** A loop that only checks succeeds exactly when every check does. *)
Lemma res_fold_checks {A} (f : A -> res unit) l :
  res_fold (fun _ x => f x) l tt = inr tt <-> forall x, x ∈ l -> f x = inr tt.
Proof.
  induction l as [|x l IH]; simpl.
  - split; [|done]. intros _ x Hx. by apply elem_of_nil in Hx.
  - destruct (f x) as [e|[]] eqn:Hx.
    + split; [done|]. intros Hall. rewrite Hall in Hx by left. done.
    + rewrite IH. split.
      * intros Hall y [->|Hy]%elem_of_cons; [done|by apply Hall].
      * intros Hall y Hy. apply Hall. by right.
Qed.

Lemma res_map_ok_iff {A B} (f : A -> res B) l ys :
  res_map f l = inr ys <-> Forall2 (fun x y => f x = inr y) l ys.
Proof.
  revert ys. induction l as [|x l IH]; intros ys; simpl.
  - split; [intros [= <-]; constructor | by inversion 1].
  - destruct (f x) as [e|y] eqn:Hx; [split; [done|]; inversion 1; congruence|].
    destruct (res_map f l) as [e|ys'] eqn:Hl.
    + split; [done|]. inversion 1 as [|? ? ? ? ? Hrest]; subst.
      apply IH in Hrest. congruence.
    + split.
      * intros [= <-]. constructor; [done|]. by apply IH.
      * inversion 1 as [|? y' ? ? Hy Hrest]; subst. apply IH in Hrest. congruence.
Qed.

Lemma res_map_err_elem {A B} (f : A -> res B) l e :
  res_map f l = inl e -> exists x, x ∈ l /\ f x = inl e.
Proof.
  induction l as [|x l IH]; simpl; [done|]. destruct (f x) as [e'|y] eqn:Hx.
  - intros [= <-]. exists x. split; [left|done].
  - destruct (res_map f l) as [e'|ys]; [|done]. intros [= <-].
    destruct IH as (z & Hz & Hf); [done|]. exists z. split; [by right|done].
Qed.

(** ** Truth values *)

(** [bool(x)] for the Python types the sources test with [if x]. *)
Class Truthy (A : Type) := truthy : A -> bool.
#[export] Instance truthy_bool : Truthy bool := fun b => b.
#[export] Instance truthy_string : Truthy string :=
  fun s => match s with EmptyString => false | _ => true end.
#[export] Instance truthy_Z : Truthy Z := fun z => negb (Z.eqb z 0).
#[export] Instance truthy_list {A} : Truthy (list A) :=
  fun l => match l with [] => false | _ => true end.
#[export] Instance truthy_option {A} `{Truthy A} : Truthy (option A) :=
  fun o => match o with None => false | Some x => truthy x end.

(** [x or y] for an optional string. *)
Definition str_or (x : option string) (y : string) : string :=
  match x with Some s => if truthy s then s else y | None => y end.

(** ** Programs *)

(** Effectful Python code.  [G] is the state the program owns (module globals,
    caches), [E] the third-party calls it makes: a call answers a value or
    raises, and nothing is assumed about which.  [Call] hands the answer to the
    continuation, so [try]/[except] is a program transformation. *)
Inductive prog (G : Type) (E : Type -> Type) (A : Type) : Type :=
| Ret (a : A)
| Raise (e : exn)
| Call {R : Type} (op : E R) (k : res R -> prog G E A)
| Get (k : G -> prog G E A)
| Put (g : G) (p : prog G E A).
Arguments Ret {G E A} a.
Arguments Raise {G E A} e.
Arguments Call {G E A R} op k.
Arguments Get {G E A} k.
Arguments Put {G E A} g p.

Section programs.
Context {G : Type} {E : Type -> Type}.

Fixpoint pbind {A B} (p : prog G E A) (f : A -> prog G E B) : prog G E B :=
  match p with
  | Ret a => f a
  | Raise e => Raise e
  | Call op k => Call op (fun r => pbind (k r) f)
  | Get k => Get (fun g => pbind (k g) f)
  | Put g p => Put g (pbind p f)
  end.

(** [try: p except Exception as e: h(e)] *)
Fixpoint try_except {A} (p : prog G E A) (h : exn -> prog G E A) : prog G E A :=
  match p with
  | Ret a => Ret a
  | Raise e => h e
  | Call op k => Call op (fun r => try_except (k r) h)
  | Get k => Get (fun g => try_except (k g) h)
  | Put g p => Put g (try_except p h)
  end.

(** A third-party call whose exception propagates. *)
Definition call {R} (op : E R) : prog G E R :=
  Call op (fun r => match r with inl e => Raise e | inr v => Ret v end).

Definition lift {A} (r : res A) : prog G E A :=
  match r with inl e => Raise e | inr a => Ret a end.

Definition get_state : prog G E G := Get (fun g => Ret g).
Definition put_state (g : G) : prog G E unit := Put g (Ret tt).

(** [for x in l: f(x)] *)
Fixpoint for_each {A} (l : list A) (f : A -> prog G E unit) : prog G E unit :=
  match l with
  | [] => Ret tt
  | x :: l => pbind (f x) (fun _ => for_each l f)
  end.

(** [[f(x) for x in l]] *)
Fixpoint map_each {A B} (l : list A) (f : A -> prog G E B) : prog G E (list B) :=
  match l with
  | [] => Ret []
  | x :: l => pbind (f x) (fun y => pbind (map_each l f) (fun ys => Ret (y :: ys)))
  end.

(** [for x in l: acc = f(acc, x)] *)
Fixpoint fold_each {A B} (f : B -> A -> prog G E B) (l : list A) (acc : B) : prog G E B :=
  match l with
  | [] => Ret acc
  | x :: l => pbind (f acc x) (fun acc' => fold_each f l acc')
  end.

End programs.

#[export] Instance prog_mret G E : MRet (prog G E) := fun A a => Ret a.
#[export] Instance prog_mbind G E : MBind (prog G E) := fun A B f p => pbind p f.

(** ** Weakest preconditions *)

(** [wp step p Q g s]: whatever answers the environment gives (as the relation
    [step] allows them in its state [s]), the run of [p] from the program state
    [g] ends in an outcome and states that satisfy [Q]. *)
Section wp.
Context {G : Type} {E : Type -> Type} {S : Type}.
Variable step : forall R, E R -> S -> res R -> S -> Prop.

Fixpoint wp {A} (p : prog G E A) (Q : res A -> G -> S -> Prop) (g : G) (s : S) : Prop :=
  match p with
  | Ret a => Q (inr a) g s
  | Raise e => Q (inl e) g s
  | Call op k => forall r s', step _ op s r s' -> wp (k r) Q g s'
  | Get k => wp (k g) Q g s
  | Put g' p => wp p Q g' s
  end.

Lemma wp_mono {A} (p : prog G E A) (Q Q' : res A -> G -> S -> Prop) g s :
  (forall r g s, Q r g s -> Q' r g s) -> wp p Q g s -> wp p Q' g s.
Proof.
  intros HQ. revert g s.
  induction p as [a|e|R op k IH|k IH|g' p IH]; simpl; intros g s; auto.
Qed.

Lemma wp_conj {A} (p : prog G E A) (Q Q' : res A -> G -> S -> Prop) g s :
  wp p Q g s -> wp p Q' g s -> wp p (fun r g s => Q r g s /\ Q' r g s) g s.
Proof.
  revert g s. induction p as [a|e|R op k IH|k IH|g' p IH]; simpl; intros g s; auto.
Qed.

Lemma wp_bind {A B} (p : prog G E A) (f : A -> prog G E B) Q g s :
  wp (pbind p f) Q g s <->
  wp p (fun r g s => match r with inl e => Q (inl e) g s | inr a => wp (f a) Q g s end) g s.
Proof.
  revert g s.
  induction p as [a|e|R op k IH|k IH|g' p IH]; simpl; intros g s; try done.
  split; intros H r s' Hs; apply IH; auto.
Qed.

Lemma wp_try {A} (p : prog G E A) (h : exn -> prog G E A) Q g s :
  wp (try_except p h) Q g s <->
  wp p (fun r g s => match r with inl e => wp (h e) Q g s | inr a => Q (inr a) g s end) g s.
Proof.
  revert g s.
  induction p as [a|e|R op k IH|k IH|g' p IH]; simpl; intros g s; try done.
  split; intros H r s' Hs; apply IH; auto.
Qed.

(** A loop keeps an invariant that each iteration keeps; an iteration that
    raises ends the loop. *)
Lemma wp_for_each {A} (l : list A) (f : A -> prog G E unit)
    (I : G -> S -> Prop) (Q : res unit -> G -> S -> Prop) g s :
  I g s ->
  (forall x g s, x ∈ l -> I g s ->
     wp (f x) (fun r g s => match r with inl e => Q (inl e) g s | inr _ => I g s end) g s) ->
  (forall g s, I g s -> Q (inr tt) g s) ->
  wp (for_each l f) Q g s.
Proof.
  intros HI Hstep Hend. revert g s HI.
  induction l as [|x l IH]; intros g s HI; simpl; [auto|].
  rewrite wp_bind. eapply wp_mono; [|apply Hstep; [left|done]].
  intros [e|[]] g' s'; simpl; [auto|]. intros HI'.
  apply IH; [|done]. intros y g'' s'' Hy. apply Hstep. by right.
Qed.

Lemma wp_fold_each {A B} (f : B -> A -> prog G E B) (l : list A) (acc : B)
    (I : B -> G -> S -> Prop) (Q : res B -> G -> S -> Prop) g s :
  I acc g s ->
  (forall x acc g s, x ∈ l -> I acc g s ->
     wp (f acc x) (fun r g s => match r with inl e => Q (inl e) g s | inr b => I b g s end) g s) ->
  (forall b g s, I b g s -> Q (inr b) g s) ->
  wp (fold_each f l acc) Q g s.
Proof.
  intros HI Hstep Hend. revert acc g s HI.
  induction l as [|x l IH]; intros acc g s HI; simpl; [auto|].
  rewrite wp_bind. eapply wp_mono; [|apply Hstep; [left|done]].
  intros [e|b] g' s'; simpl; [auto|]. intros HI'.
  apply IH; [|done]. intros y c g'' s'' Hy. apply Hstep. by right.
Qed.

(** The same with an invariant that knows the elements already seen. *)
Lemma wp_fold_each_seen {A B} (f : B -> A -> prog G E B) (l : list A) (acc : B)
    (I : list A -> B -> G -> S -> Prop) (Q : res B -> G -> S -> Prop) g s :
  I [] acc g s ->
  (forall seen x later acc g s, l = seen ++ x :: later -> I seen acc g s ->
     wp (f acc x) (fun r g s => match r with inl e => Q (inl e) g s | inr b => I (seen ++ [x]) b g s end) g s) ->
  (forall b g s, I l b g s -> Q (inr b) g s) ->
  wp (fold_each f l acc) Q g s.
Proof.
  intros HI Hstep Hend. pose (seen := @nil A). fold seen in HI.
  assert (l = seen ++ l) as Hl by done. revert Hl HI. generalize seen as sn. clear seen.
  generalize l at 2 3 as todo. intros todo. revert acc g s.
  induction todo as [|x todo IH]; intros acc g s sn Hl HI; simpl.
  - apply Hend. by rewrite app_nil_r in Hl; subst.
  - rewrite wp_bind. eapply wp_mono; [|by eapply Hstep].
    intros [e|b] g' s'; [auto|]. intros HI'. apply (IH b g' s' (sn ++ [x])); [|done].
    by rewrite Hl, <- app_assoc.
Qed.

Lemma wp_for_each_seen {A} (l : list A) (f : A -> prog G E unit)
    (I : list A -> G -> S -> Prop) (Q : res unit -> G -> S -> Prop) g s :
  I [] g s ->
  (forall seen x later g s, l = seen ++ x :: later -> I seen g s ->
     wp (f x) (fun r g s => match r with inl e => Q (inl e) g s | inr _ => I (seen ++ [x]) g s end) g s) ->
  (forall g s, I l g s -> Q (inr tt) g s) ->
  wp (for_each l f) Q g s.
Proof.
  intros HI Hstep Hend. pose (seen := @nil A). fold seen in HI.
  assert (l = seen ++ l) as Hl by done. revert Hl HI. generalize seen as sn. clear seen.
  generalize l at 2 3 as todo. intros todo. revert g s.
  induction todo as [|x todo IH]; intros g s sn Hl HI; simpl.
  - apply Hend. by rewrite app_nil_r in Hl; subst.
  - rewrite wp_bind. eapply wp_mono; [|by eapply Hstep].
    intros [e|[]] g' s'; [auto|]. intros HI'. apply (IH g' s' (sn ++ [x])); [|done].
    by rewrite Hl, <- app_assoc.
Qed.

(** A program that handles every exception does not raise. *)
Lemma wp_try_total {A} (p : prog G E A) (a : A) g s :
  wp (try_except p (fun _ => mret a)) (fun r _ _ => exists a', r = inr a') g s.
Proof.
  revert g s. induction p as [a'|e|R op k IH|k IH|g' p IH]; intros g s;
    [by eexists|by eexists|intros r s' _; apply IH|apply IH|apply IH].
Qed.

(** *** Symbolic execution *)

Lemma wp_mbind {A B} (p : prog G E A) (f : A -> prog G E B) Q g s :
  wp p (fun r g s => match r with inl e => Q (inl e) g s | inr a => wp (f a) Q g s end) g s ->
  wp (mbind f p) Q g s.
Proof. apply wp_bind. Qed.
Lemma wp_mret {A} (a : A) (Q : res A -> G -> S -> Prop) g s : Q (inr a) g s -> wp (mret a) Q g s.
Proof. done. Qed.
Lemma wp_raise {A} e (Q : res A -> G -> S -> Prop) g s : Q (inl e) g s -> wp (Raise e) Q g s.
Proof. done. Qed.
Lemma wp_call {R} (op : E R) (Q : res R -> G -> S -> Prop) g s :
  (forall r s', step R op s r s' -> Q r g s') -> wp (call op) Q g s.
Proof. intros HQ r s' Hs. by destruct r; apply HQ. Qed.
Lemma wp_lift {A} (r : res A) (Q : res A -> G -> S -> Prop) g s : Q r g s -> wp (lift r) Q g s.
Proof. by destruct r. Qed.
Lemma wp_get_state (Q : res G -> G -> S -> Prop) g s : Q (inr g) g s -> wp get_state Q g s.
Proof. done. Qed.
Lemma wp_put_state g' (Q : res unit -> G -> S -> Prop) g s :
  Q (inr tt) g' s -> wp (put_state g') Q g s.
Proof. done. Qed.
Lemma wp_try_except {A} (p : prog G E A) (h : exn -> prog G E A) Q g s :
  wp p (fun r g s => match r with inl e => wp (h e) Q g s | inr a => Q (inr a) g s end) g s ->
  wp (try_except p h) Q g s.
Proof. apply wp_try. Qed.
Lemma wp_for_each_cons {A} x (l : list A) (f : A -> prog G E unit) Q g s :
  wp (f x) (fun r g s => match r with inl e => Q (inl e) g s | inr _ => wp (for_each l f) Q g s end) g s ->
  wp (for_each (x :: l) f) Q g s.
Proof. intros H. simpl. apply wp_bind. exact H. Qed.

End wp.
#[global] Arguments wp : simpl never.

(** An environment with fewer behaviours allows fewer runs. *)
Lemma wp_step_mono {G E S A} (step step' : forall R, E R -> S -> res R -> S -> Prop) (p : prog G E A) Q g s :
  (forall R (op : E R) s r s', step' R op s r s' -> step R op s r s') -> wp step p Q g s -> wp step' p Q g s.
Proof.
  intros Hstep. revert g s. induction p as [a|e|R op k IH|k IH|g' p IH]; intros g s Hp; [done|done| |by apply IH|by apply IH].
  intros r s' Hs. apply IH, Hp. by apply Hstep.
Qed.

Ltac wp_simp := cbn beta iota delta [negb andb orb].

(** One step of a program in the goal [wp step p Q g s], calls excepted. *)
Ltac wp_pure :=
  match goal with
  | |- wp _ (mbind _ _) _ _ _ => apply wp_mbind
  | |- wp _ (pbind _ _) _ _ _ => apply wp_bind
  | |- wp _ (mret _) _ _ _ => apply wp_mret
  | |- wp _ (Ret _) _ _ _ => apply wp_mret
  | |- wp _ (Raise _) _ _ _ => apply wp_raise
  | |- wp _ (lift _) _ _ _ => apply wp_lift
  | |- wp _ get_state _ _ _ => apply wp_get_state
  | |- wp _ (put_state _) _ _ _ => apply wp_put_state
  | |- wp _ (try_except _ _) _ _ _ => apply wp_try_except
  end; wp_simp.

(** A call with an arbitrary answer. *)
Ltac wp_answer r s' H := apply wp_call; intros r s' H; wp_simp.

(** ** Runs against a concrete environment *)

Section run.
Context {G : Type} {E : Type -> Type} {S : Type}.
Variable handler : forall R, E R -> S -> res R * S.

(** The run of a program against an environment given as a function. *)
Fixpoint run {A} (p : prog G E A) (g : G) (s : S) : res A * G * S :=
  match p with
  | Ret a => (inr a, g, s)
  | Raise e => (inl e, g, s)
  | Call op k => let '(r, s') := handler _ op s in run (k r) g s'
  | Get k => run (k g) g s
  | Put g' p => run p g' s
  end.

Lemma run_bind {A B} (p : prog G E A) (f : A -> prog G E B) g s :
  run (pbind p f) g s =
  match run p g s with
  | (inl e, g', s') => (inl e, g', s')
  | (inr a, g', s') => run (f a) g' s'
  end.
Proof.
  revert g s. induction p as [a|e|R op k IH|k IH|g' p IH]; simpl; intros g s; try done.
  destruct (handler R op s). apply IH.
Qed.

Lemma run_call {R} (op : E R) (g : G) s :
  run (call op) g s = ((handler R op s).1, g, (handler R op s).2).
Proof. unfold call. simpl. by destruct (handler R op s) as [[e|v] s']. Qed.

Lemma run_try {A} (p : prog G E A) (h : exn -> prog G E A) g s :
  run (try_except p h) g s =
  match run p g s with
  | (inl e, g', s') => run (h e) g' s'
  | (inr a, g', s') => (inr a, g', s')
  end.
Proof.
  revert g s. induction p as [a|e|R op k IH|k IH|g' p IH]; simpl; intros g s; try done.
  destruct (handler R op s). apply IH.
Qed.

(** A loop whose body only computes, on the answers of the environment. *)
Lemma run_fold_each {A B} (f : B -> A -> prog G E B) (fp : B -> A -> res B) l acc g s :
  (forall acc x, x ∈ l -> run (f acc x) g s = (fp acc x, g, s)) ->
  run (fold_each f l acc) g s = (res_fold fp l acc, g, s).
Proof.
  revert acc. induction l as [|x l IH]; intros acc Hf; simpl; [done|].
  rewrite run_bind, Hf by left. destruct (fp acc x) as [e|b]; [done|].
  apply IH. intros b' y Hy. apply Hf. by right.
Qed.

Lemma run_for_each {A} (f : A -> prog G E unit) (fp : A -> res unit) l g s :
  (forall x, x ∈ l -> run (f x) g s = (fp x, g, s)) ->
  run (for_each l f) g s = (res_fold (fun _ x => fp x) l tt, g, s).
Proof.
  induction l as [|x l IH]; intros Hf; simpl; [done|].
  rewrite run_bind, Hf by left. destruct (fp x) as [e|[]]; [done|].
  apply IH. intros y Hy. apply Hf. by right.
Qed.

Lemma wp_run step {A} (p : prog G E A) Q g s :
  (forall R (op : E R) s, step R op s (fst (handler R op s)) (snd (handler R op s))) ->
  wp step p Q g s ->
  let '(r, g', s') := run p g s in Q r g' s'.
Proof.
  intros Hh. revert g s.
  induction p as [a|e|R op k IH|k IH|g' p IH]; simpl; intros g s Hwp; try done.
  - specialize (Hh R op s). destruct (handler R op s) as [r s'] eqn:Hr.
    by apply IH, Hwp.
  - by apply IH.
  - by apply IH.
Qed.

End run.

Create HintDb py_run.
#[export] Hint Rewrite @run_bind @run_call @run_try : py_run.
(** Runs the calls at the head of a program. *)
Ltac run_step := unfold mbind, prog_mbind; autorewrite with py_run.

(** ** Traces *)

(** One third-party call with its answer. *)
Inductive event (E : Type -> Type) : Type :=
| Ev {R : Type} (op : E R) (answer : res R).
Arguments Ev {E R} op answer.

Definition step_trace {E : Type -> Type} (R : Type) (op : E R) (tr : list (event E))
    (r : res R) (tr' : list (event E)) : Prop :=
  tr' = tr ++ [Ev op r].

(** [every_run p g Q]: against every environment, the outcome, the final program
    state and the trace of the calls made satisfy [Q]. *)
Definition every_run {G E A} (p : prog G E A) (g : G)
    (Q : res A -> G -> list (event E) -> Prop) : Prop :=
  wp step_trace p Q g [].

(** A run only extends the trace. *)
Lemma wp_trace_prefix {G E A} (p : prog G E A) g (tr : list (event E)) :
  wp step_trace p (fun _ _ tr' => tr `prefix_of` tr') g tr.
Proof.
  revert g tr. induction p as [a|e|R op k IH|k IH|g' p IH]; intros g tr;
    [by apply wp_mret|by apply wp_raise| |apply IH|apply IH].
  intros r tr' ->. eapply wp_mono; [|apply IH]. intros r' g'' tr'' Hp. etrans; [|exact Hp].
  by apply prefix_app_r.
Qed.

(** What a program does from the empty trace it does after any other. *)
Lemma wp_trace_shift {G E A} (p : prog G E A) (Q : res A -> G -> list (event E) -> Prop) tr : forall g tr0,
  wp step_trace p Q g tr0 -> wp step_trace p (fun r g' tr' => exists new, tr' = tr ++ new /\ Q r g' new) g (tr ++ tr0).
Proof.
  induction p as [a|e|R op k IH|k IH|g' p IH]; intros g tr0 Hp;
    [apply wp_mret; eauto|apply wp_raise; eauto| |by apply IH|by apply IH].
  intros r tr' ->. rewrite <- app_assoc. apply IH. by apply Hp.
Qed.
Lemma wp_trace_frame {G E A} (p : prog G E A) (Q : res A -> G -> list (event E) -> Prop) g tr :
  every_run p g Q -> wp step_trace p (fun r g' tr' => exists new, tr' = tr ++ new /\ Q r g' new) g tr.
Proof. intros Hp. pose proof (wp_trace_shift p Q tr g [] Hp) as H. by rewrite app_nil_r in H. Qed.

(** [runs p g tr r g']: a run of [p] from [g] that makes the calls [tr], ends with [r] and
    leaves [g']. *)
Inductive runs {G : Type} {E : Type -> Type} {A : Type} : prog G E A -> G -> list (event E) -> res A -> G -> Prop :=
| runs_ret a g : runs (Ret a) g [] (inr a) g
| runs_raise e g : runs (Raise e) g [] (inl e) g
| runs_call {R} (op : E R) k answer g tr r g' : runs (k answer) g tr r g' -> runs (Call op k) g (Ev op answer :: tr) r g'
| runs_get k g tr r g' : runs (k g) g tr r g' -> runs (Get k) g tr r g'
| runs_put g0 p g tr r g' : runs p g0 tr r g' -> runs (Put g0 p) g tr r g'.
Lemma wp_runs {G E A} (p : prog G E A) g (tr : list (event E)) :
  wp step_trace p (fun r g' tr' => exists new, tr' = tr ++ new /\ runs p g new r g') g tr.
Proof.
  revert g tr. induction p as [a|e|R op k IH|k IH|g0 p IH]; intros g tr.
  - apply wp_mret. exists []. rewrite app_nil_r. split; [done|constructor].
  - apply wp_raise. exists []. rewrite app_nil_r. split; [done|constructor].
  - intros r tr' ->. eapply wp_mono; [|apply IH]. intros r' g' tr' (new & -> & Hr). exists (Ev op r :: new).
    rewrite <- app_assoc. split; [done|by constructor].
  - eapply wp_mono; [|apply IH]. intros r' g' tr' (new & -> & Hr). exists new. split; [done|by constructor].
  - eapply wp_mono; [|apply IH]. intros r' g' tr' (new & -> & Hr). exists new. split; [done|by constructor].
Qed.

(** *** Environments that fail *)

Section faults.
Context {G : Type} {E : Type -> Type} {S : Type}.
Variable step : forall R, E R -> S -> res R -> S -> Prop.

(** The environment [step] in which any call may fail besides, with or without
    having taken effect; the flag remembers that one did. *)
Definition faulty (R : Type) (op : E R) (st : S * bool) (r : res R) (st' : S * bool) : Prop :=
  (step R op st.1 r st'.1 /\ st'.2 = st.2) \/
  ((exists e, r = inl e) /\ st'.2 = true /\ (st'.1 = st.1 \/ exists a, step R op st.1 (inr a) st'.1)).

Lemma wp_faulted {A} (p : prog G E A) g st : st.2 = true -> wp faulty p (fun _ _ st' => st'.2 = true) g st.
Proof.
  revert g st. induction p as [a|e|R op k IH|k IH|g' p IH]; intros g st Hst; [done|done| |by apply IH|by apply IH].
  intros r st' Hs. apply IH. destruct Hs as [[_ Hf]|(_ & Ht & _)]; congruence.
Qed.
(** What holds in [step] holds in the environment that fails, unless a call failed. *)
Lemma wp_faulty {A} (p : prog G E A) Q g s :
  wp step p Q g s -> wp faulty p (fun r g' st => st.2 = false -> Q r g' st.1) g (s, false).
Proof.
  revert g s. induction p as [a|e|R op k IH|k IH|g' p IH]; intros g s Hp; [intros _; exact Hp|intros _; exact Hp| |by apply IH|by apply IH].
  intros r [s' f] [[Hs Hf]|(_ & Ht & _)]; cbn in *; subst f.
  - by apply IH, Hp.
  - eapply wp_mono; [|by apply wp_faulted]. intros r' g' st Ht Hf. congruence.
Qed.
End faults.

(** *** The calls a program can make *)

(** A stateless program as part of a program with more calls. *)
Fixpoint embed {G} {E E' : Type -> Type} (f : forall R, E R -> E' R) {A} (p : prog unit E A)
    : prog G E' A :=
  match p with
  | Ret a => Ret a
  | Raise e => Raise e
  | Call op k => Call (f _ op) (fun r => embed f (k r))
  | Get k => embed f (k tt)
  | Put _ p => embed f p
  end.

(** A program as part of a program with more calls and the same state. *)
Fixpoint widen {G} {E E' : Type -> Type} (f : forall R, E R -> E' R) {A} (p : prog G E A) : prog G E' A :=
  match p with
  | Ret a => Ret a
  | Raise e => Raise e
  | Call op k => Call (f _ op) (fun r => widen f (k r))
  | Get k => Get (fun g => widen f (k g))
  | Put g p => Put g (widen f p)
  end.

Lemma wp_embed {G} {E E' : Type -> Type} {S A} (f : forall R, E R -> E' R) step (p : prog unit E A) Q (g : G) (s : S) :
  wp (fun R (op : E R) => step R (f R op)) p (fun r _ s => Q r g s) tt s -> wp step (embed f p) Q g s.
Proof.
  revert s. induction p as [a|e|R op k IH|k IH|[] p IH]; intros s Hp; [done|done| |by apply IH|by apply IH].
  intros r s' Hs. apply IH. by apply Hp.
Qed.

Section calls.
Context {G : Type} {E : Type -> Type}.
Variable P : forall R, E R -> Prop.

(** Every call of every run satisfies [P]. *)
Fixpoint calls_only {A} (p : prog G E A) : Prop :=
  match p with
  | Ret _ | Raise _ => True
  | Call op k => P _ op /\ forall r, calls_only (k r)
  | Get k => forall g, calls_only (k g)
  | Put _ p => calls_only p
  end.

Lemma calls_bind {A B} (p : prog G E A) (f : A -> prog G E B) :
  calls_only p -> (forall a, calls_only (f a)) -> calls_only (pbind p f).
Proof.
  intros Hp Hf. induction p as [a|e|R op k IH|k IH|g' p IH]; simpl in *; auto.
  destruct Hp as [? ?]. auto.
Qed.
Lemma calls_try {A} (p : prog G E A) h :
  calls_only p -> (forall e, calls_only (h e)) -> calls_only (try_except p h).
Proof.
  intros Hp Hf. induction p as [a|e|R op k IH|k IH|g' p IH]; simpl in *; auto.
  destruct Hp as [? ?]. auto.
Qed.
Lemma calls_call {R} (op : E R) : P R op -> calls_only (call op).
Proof. intros HP. split; [done|]. by intros []. Qed.
Lemma calls_lift {A} (r : res A) : calls_only (lift r).
Proof. by destruct r. Qed.
Lemma calls_fold_each {A B} (f : B -> A -> prog G E B) l acc :
  (forall acc x, calls_only (f acc x)) -> calls_only (fold_each f l acc).
Proof.
  intros Hf. revert acc. induction l as [|x l IH]; intros acc; simpl; [done|].
  apply calls_bind; auto.
Qed.
Lemma calls_for_each {A} (f : A -> prog G E unit) l :
  (forall x, calls_only (f x)) -> calls_only (for_each l f).
Proof. intros Hf. induction l as [|x l IH]; simpl; [done|]. apply calls_bind; auto. Qed.

Lemma wp_calls_only {A} (p : prog G E A) g tr :
  calls_only p ->
  wp step_trace p (fun _ _ tr' => exists tr2, tr' = tr ++ tr2 /\
    Forall (fun ev => match ev with Ev op _ => P _ op end) tr2) g tr.
Proof.
  revert g tr. induction p as [a|e|R op k IH|k IH|g' p IH]; intros g tr Hp.
  - apply wp_mret. exists []. by rewrite app_nil_r.
  - apply wp_raise. exists []. by rewrite app_nil_r.
  - destruct Hp as [Hop Hk]. intros r tr' ->. eapply wp_mono; [|by apply IH].
    intros r' g' tr'' (tr2 & -> & Hall). exists (Ev op r :: tr2). split; [by rewrite <- app_assoc|].
    by constructor.
  - by apply IH.
  - by apply IH.
Qed.
End calls.

Lemma calls_all {G E} (P : forall R, E R -> Prop) {A} (p : prog G E A) :
  (forall R (op : E R), P R op) -> calls_only P p.
Proof. intros HP. induction p as [a|e|R op k IH|k IH|g' p IH]; cbn; auto. Qed.
Lemma calls_embed {G} {E E' : Type -> Type} (f : forall R, E R -> E' R) (P : forall R, E' R -> Prop) {A}
    (p : prog unit E A) :
  (forall R (op : E R), P R (f R op)) -> calls_only P (embed (G := G) f p).
Proof. intros HP. induction p as [a|e|R op k IH|k IH|g' p IH]; cbn; auto. Qed.
Lemma calls_embed_only {G} {E E' : Type -> Type} (f : forall R, E R -> E' R) (P : forall R, E' R -> Prop) {A}
    (p : prog unit E A) :
  calls_only (fun R op => P R (f R op)) p -> calls_only P (embed (G := G) f p).
Proof. induction p as [a|e|R op k IH|k IH|g p IH]; cbn; naive_solver. Qed.
Lemma calls_widen {G} {E E' : Type -> Type} (f : forall R, E R -> E' R) (P : forall R, E' R -> Prop) {A} (p : prog G E A) :
  (forall R (op : E R), P R (f R op)) -> calls_only P (widen f p).
Proof. intros HP. induction p as [a|e|R op k IH|k IH|g p IH]; cbn; auto. Qed.

Lemma wp_true {G E S A} step (p : prog G E A) g (s : S) : wp step p (fun _ _ _ => True) g s.
Proof.
  revert g s. induction p as [a|e|R op k IH|k IH|g' p IH]; intros g s; [done|done| |apply IH|apply IH].
  intros r s' _. apply IH.
Qed.

(** A value that a program returns is returned by its last step. *)
Lemma wp_returns {G E S A B} step (p : prog G E A) (f : A -> prog G E B) (P : B -> Prop) g (s : S) :
  (forall a g s, wp step (f a) (fun r _ _ => match r with inr b => P b | inl _ => True end) g s) ->
  wp step (mbind f p) (fun r _ _ => match r with inr b => P b | inl _ => True end) g s.
Proof. intros Hf. apply wp_mbind. eapply wp_mono; [|apply wp_true]. intros [e|a] g' s' _; [done|apply Hf]. Qed.

(** *** Calls allowed by what went before *)

Section discipline.
Context {G : Type} {E : Type -> Type}.
Variable allowed : list (event E) -> event E -> Prop.

(** Every call was allowed after the calls before it. *)
Definition disciplined (tr : list (event E)) : Prop :=
  forall pre ev post, tr = pre ++ ev :: post -> allowed pre ev.

Lemma disciplined_nil : disciplined [].
Proof. intros pre ev post Heq. by destruct pre. Qed.
Lemma disciplined_snoc tr ev : disciplined tr -> allowed tr ev -> disciplined (tr ++ [ev]).
Proof.
  intros Htr Hev pre ev' post Heq. destruct post as [|y post _] using rev_ind.
  - by apply app_inj_tail in Heq as [-> ->].
  - rewrite app_comm_cons, app_assoc in Heq. apply app_inj_tail in Heq as [-> _]. by eapply Htr.
Qed.

(** [p] keeps the discipline and satisfies [Q] of its outcome and the longer trace. *)
Definition keeps {A} (p : prog G E A) (g : G) (tr : list (event E)) (Q : res A -> G -> list (event E) -> Prop) : Prop :=
  wp step_trace p (fun r g' tr' => disciplined tr' /\ tr `prefix_of` tr' /\ Q r g' tr') g tr.

Lemma keeps_mono {A} (p : prog G E A) g tr (Q Q' : res A -> G -> list (event E) -> Prop) :
  keeps p g tr Q -> (forall r g' tr', tr `prefix_of` tr' -> Q r g' tr' -> Q' r g' tr') -> keeps p g tr Q'.
Proof. intros Hp HQ. eapply wp_mono; [|exact Hp]. intros r g' tr' (Hd & Hpre & Hq). auto. Qed.
Lemma keeps_call {R} (op : E R) g tr (Q : res R -> G -> list (event E) -> Prop) :
  disciplined tr -> (forall r, allowed tr (Ev op r)) -> (forall r, Q r g (tr ++ [Ev op r])) -> keeps (call op) g tr Q.
Proof.
  intros Hd Hop HQ. apply wp_call. intros r tr' ->. split; [by apply disciplined_snoc|].
  split; [by apply prefix_app_r|done].
Qed.
Lemma keeps_ret {A} (a : A) g tr (Q : res A -> G -> list (event E) -> Prop) :
  disciplined tr -> Q (inr a) g tr -> keeps (mret a) g tr Q.
Proof. intros Hd HQ. by apply wp_mret. Qed.
Lemma keeps_raise {A} e g tr (Q : res A -> G -> list (event E) -> Prop) :
  disciplined tr -> Q (inl e) g tr -> keeps (Raise e) g tr Q.
Proof. intros Hd HQ. by apply wp_raise. Qed.
Lemma keeps_lift {A} (r : res A) g tr (Q : res A -> G -> list (event E) -> Prop) :
  disciplined tr -> Q r g tr -> keeps (lift r) g tr Q.
Proof. intros Hd HQ. by apply wp_lift. Qed.
Lemma keeps_bind {A B} (p : prog G E A) (f : A -> prog G E B) g tr (Q1 : res A -> G -> list (event E) -> Prop) Q :
  keeps p g tr Q1 ->
  (forall e g' tr', tr `prefix_of` tr' -> Q1 (inl e) g' tr' -> Q (inl e) g' tr') ->
  (forall a g' tr', disciplined tr' -> tr `prefix_of` tr' -> Q1 (inr a) g' tr' -> keeps (f a) g' tr' Q) ->
  keeps (mbind f p) g tr Q.
Proof.
  intros Hp He Hf. apply wp_mbind. eapply wp_mono; [|exact Hp]. intros [e|a] g' tr' (Hd & Hpre & Hq); [auto|].
  eapply wp_mono; [|by apply Hf]. intros r g2 tr2 (Hd2 & Hpre2 & Hq2). split_and!; [done|by etrans|done].
Qed.
Lemma keeps_try {A} (p : prog G E A) (h : exn -> prog G E A) g tr (Q1 Q : res A -> G -> list (event E) -> Prop) :
  keeps p g tr Q1 ->
  (forall a g' tr', tr `prefix_of` tr' -> Q1 (inr a) g' tr' -> Q (inr a) g' tr') ->
  (forall e g' tr', disciplined tr' -> tr `prefix_of` tr' -> Q1 (inl e) g' tr' -> keeps (h e) g' tr' Q) ->
  keeps (try_except p h) g tr Q.
Proof.
  intros Hp Ha Hh. apply wp_try_except. eapply wp_mono; [|exact Hp]. intros [e|a] g' tr' (Hd & Hpre & Hq); [|auto].
  eapply wp_mono; [|by apply Hh]. intros r g2 tr2 (Hd2 & Hpre2 & Hq2). split_and!; [done|by etrans|done].
Qed.
(** A program whose calls are always allowed. *)
Lemma keeps_calls {A} (p : prog G E A) g tr :
  calls_only (fun R (op : E R) => forall pre r, allowed pre (Ev op r)) p -> disciplined tr ->
  keeps p g tr (fun _ _ _ => True).
Proof.
  unfold keeps. revert g tr. induction p as [a|e|R op k IH|k IH|g' p IH]; intros g tr Hp Hd; [done|done| |by apply IH|by apply IH].
  destruct Hp as [Hop Hk]. intros r tr' ->. eapply wp_mono; [|apply IH; [done|by apply disciplined_snoc]].
  intros r' g' tr' (Hd' & Hpre & _). split_and!; [done| |done]. etrans; [|exact Hpre]. by apply prefix_app_r.
Qed.
Lemma keeps_fold_each {A B} (f : B -> A -> prog G E B) (l : list A) acc (I : B -> G -> list (event E) -> Prop) g tr :
  disciplined tr -> I acc g tr ->
  (forall x acc g tr, x ∈ l -> disciplined tr -> I acc g tr ->
     keeps (f acc x) g tr (fun r g' tr' => match r with inr b => I b g' tr' | inl _ => True end)) ->
  keeps (fold_each f l acc) g tr (fun r g' tr' => match r with inr b => I b g' tr' | inl _ => True end).
Proof.
  revert acc g tr. induction l as [|x l IH]; intros acc g tr Hd HI Hf; [by apply keeps_ret|].
  eapply keeps_bind; [apply Hf; [left|done..]|done|]. intros b g' tr' Hd' _ HI'. apply IH; [done..|].
  intros y c g2 tr2 Hy. apply Hf. by right.
Qed.
Lemma keeps_for_each {A} (f : A -> prog G E unit) (l : list A) (I : G -> list (event E) -> Prop) g tr :
  disciplined tr -> I g tr ->
  (forall x g tr, x ∈ l -> disciplined tr -> I g tr ->
     keeps (f x) g tr (fun r g' tr' => match r with inr _ => I g' tr' | inl _ => True end)) ->
  keeps (for_each l f) g tr (fun r g' tr' => match r with inr _ => I g' tr' | inl _ => True end).
Proof.
  revert g tr. induction l as [|x l IH]; intros g tr Hd HI Hf; [by apply keeps_ret|].
  eapply keeps_bind; [apply Hf; [left|done..]|done|]. intros u g' tr' Hd' _ HI'. apply IH; [done..|].
  intros y g2 tr2 Hy. apply Hf. by right.
Qed.
End discipline.

(** Walks a program and checks its calls. *)
Ltac calls_go :=
  repeat (first
    [ apply calls_call; reflexivity
    | apply calls_lift
    | apply calls_fold_each; intros ? ?
    | apply calls_for_each; intros ?
    | apply calls_try; [|intros ?]
    | lazymatch goal with |- calls_only _ (mbind _ _) => apply calls_bind; [|intros ?] end
    | lazymatch goal with
      | |- calls_only _ (mret _) => exact I
      | |- calls_only _ (Raise _) => exact I
      | |- calls_only _ (match ?x with _ => _ end) => destruct x
      | |- calls_only _ (let '(_, _) := ?x in _) => destruct x
      end
    ]).

(** A handler together with the trace it leaves. *)
Definition traced {E : Type -> Type} {S} (handler : forall R, E R -> S -> res R * S)
    (R : Type) (op : E R) (s : S * list (event E)) : res R * (S * list (event E)) :=
  let '(r, s') := handler R op s.1 in (r, (s', s.2 ++ [Ev op r])).

Lemma wp_forget_state {G E A S} (p : prog G E A) Q g (st : S * list (event E)) :
  wp step_trace p Q g st.2 ->
  wp (fun R op (s : S * list (event E)) r s' => step_trace R op s.2 r s'.2)
     p (fun r g s => Q r g s.2) g st.
Proof.
  revert g st. induction p as [a|e|R op k IH|k IH|g' p IH]; simpl; intros g st Hp; try done.
  - intros r s' Hs. by apply IH, Hp.
  - by apply IH.
  - by apply IH.
Qed.

(** What holds of every run holds of the run against any given environment. *)
Lemma every_run_run {G E A S} (handler : forall R, E R -> S -> res R * S)
    (p : prog G E A) g Q (s : S) :
  every_run p g Q ->
  let '(r, g', s') := run (traced handler) p g (s, []) in Q r g' s'.2.
Proof.
  intros Hp.
  apply (wp_run (traced handler)
    (fun R op (s : S * list (event E)) r s' => step_trace R op s.2 r s'.2)
    p (fun r g s => Q r g s.2)).
  - intros R op [s0 tr]. unfold traced, step_trace. simpl.
    by destruct (handler R op s0).
  - exact (wp_forget_state p Q g (s, []) Hp).
Qed.
