(* ===== verification/PyStr.v ===== *)
(** * Python string operations

    The string methods the sources use, on ASCII strings: [strip], [lower],
    [upper], [split], [rsplit], [startswith], [endswith], [in], [replace] of a
    character, [int(text)].  [str(n)] of an integer is stdpp's [pretty]. *)
From S2P Require Import Prelude.
From Stdlib Require Export Ascii.
From stdpp Require Import ssreflect.
Local Open Scope string_scope.
#[global] Arguments String.append : simpl nomatch.


(** ** Characters *)

Definition in_codes (lo hi : N) (c : ascii) : bool :=
  let n := Ascii.N_of_ascii c in ((lo <=? n) && (n <=? hi))%N.

(** [c.isspace()]: tab to carriage return, the separators 28-31, and space. *)
Definition is_space (c : ascii) : bool := in_codes 9 13 c || in_codes 28 32 c.
Definition is_digit (c : ascii) : bool := in_codes 48 57 c.
Definition is_upper (c : ascii) : bool := in_codes 65 90 c.
Definition is_lower (c : ascii) : bool := in_codes 97 122 c.
Definition is_alnum (c : ascii) : bool := is_digit c || is_upper c || is_lower c.

Definition lower_char (c : ascii) : ascii :=
  if is_upper c then Ascii.ascii_of_N (Ascii.N_of_ascii c + 32) else c.
Definition upper_char (c : ascii) : ascii :=
  if is_lower c then Ascii.ascii_of_N (Ascii.N_of_ascii c - 32) else c.

(** ** Whole strings *)

Fixpoint str_map (f : ascii -> ascii) (s : string) : string :=
  match s with "" => "" | String c r => String (f c) (str_map f r) end.
Definition lower : string -> string := str_map lower_char.
Definition upper : string -> string := str_map upper_char.
(** [s.replace(a, b)] for one-character strings. *)
Definition replace_char (a b : ascii) : string -> string :=
  str_map (fun c => if Ascii.eqb c a then b else c).

Fixpoint str_all (f : ascii -> bool) (s : string) : bool :=
  match s with "" => true | String c r => f c && str_all f r end.
Fixpoint has_char (c : ascii) (s : string) : bool :=
  match s with "" => false | String c' r => Ascii.eqb c' c || has_char c r end.

Fixpoint startswith (p s : string) : bool :=
  match p, s with
  | "", _ => true
  | String a p', String b s' => Ascii.eqb a b && startswith p' s'
  | _, "" => false
  end.
(** [p in s] *)
Fixpoint contains (p s : string) : bool :=
  startswith p s || match s with "" => false | String _ r => contains p r end.
Definition endswith (p s : string) : bool := startswith (String.rev p) (String.rev s).
(** [s.removeprefix(p)] *)
Fixpoint drop_str (n : nat) (s : string) : string :=
  match n, s with O, _ => s | S n, String _ r => drop_str n r | _, "" => "" end.
Definition removeprefix (p s : string) : string :=
  if startswith p s then drop_str (String.length p) s else s.

Fixpoint lstrip_by (f : ascii -> bool) (s : string) : string :=
  match s with String c r => if f c then lstrip_by f r else s | "" => "" end.
Definition rstrip_by (f : ascii -> bool) (s : string) : string :=
  String.rev (lstrip_by f (String.rev s)).
(** [s.strip()] *)
Definition strip (s : string) : string := rstrip_by is_space (lstrip_by is_space s).
(** The longest prefix of characters with [f], and the rest. *)
Fixpoint span (f : ascii -> bool) (s : string) : string * string :=
  match s with
  | String c r => if f c then let '(a, b) := span f r in (String c a, b) else ("", s)
  | "" => ("", "")
  end.

(** [s.split(c, 1)] when [c] occurs. *)
Fixpoint split_once (c : ascii) (s : string) : option (string * string) :=
  match s with
  | "" => None
  | String a r => if Ascii.eqb a c then Some ("", r)
                  else match split_once c r with
                       | Some (x, y) => Some (String a x, y)
                       | None => None
                       end
  end.
(** [s.rsplit(c, 1)] when [c] occurs. *)
Fixpoint rsplit_once (c : ascii) (s : string) : option (string * string) :=
  match s with
  | "" => None
  | String a r => match rsplit_once c r with
                  | Some (x, y) => Some (String a x, y)
                  | None => if Ascii.eqb a c then Some ("", r) else None
                  end
  end.
(** [s.split(c)] *)
Fixpoint split (c : ascii) (s : string) : list string :=
  match s with
  | "" => [""]
  | String a r => if Ascii.eqb a c then "" :: split c r
                  else match split c r with
                       | x :: rest => String a x :: rest
                       | [] => [String a ""]
                       end
  end.

(** ** Integers *)

Definition digit (c : ascii) : option Z :=
  if is_digit c then Some (Z.of_N (Ascii.N_of_ascii c) - 48)%Z else None.

(** The digits after the first one: single underscores may separate them. *)
Fixpoint digits_go (acc : Z) (s : string) : option Z :=
  match s with
  | "" => Some acc
  | String c r =>
      match digit c with
      | Some d => digits_go (10 * acc + d) r
      | None =>
          if Ascii.eqb c "_"%char then
            match r with
            | String c' r' => match digit c' with
                              | Some d => digits_go (10 * acc + d) r'
                              | None => None
                              end
            | "" => None
            end
          else None
      end
  end%Z.

Definition digits (s : string) : option Z :=
  match s with
  | String c r => match digit c with Some d => digits_go d r | None => None end
  | "" => None
  end.

(** [int(text)]: surrounding whitespace, a sign, decimal digits. *)
Definition py_int (text : string) : option Z :=
  match strip text with
  | String c r => if Ascii.eqb c "-"%char then Z.opp <$> digits r
                  else if Ascii.eqb c "+"%char then digits r
                  else digits (String c r)
  | "" => None
  end.

(** A digit of [int(text, 16)]. *)
Definition hex_digit (c : ascii) : option Z :=
  if is_digit c then Some (Z.of_N (Ascii.N_of_ascii c) - 48)%Z
  else if in_codes 97 102 c then Some (Z.of_N (Ascii.N_of_ascii c) - 87)%Z
  else if in_codes 65 70 c then Some (Z.of_N (Ascii.N_of_ascii c) - 55)%Z
  else None.

(** Base 16 digits; [sep] says that an underscore may stand here. *)
Fixpoint hex_go (sep : bool) (acc : Z) (s : string) : option Z :=
  match s with
  | "" => if sep then Some acc else None
  | String c r =>
      match hex_digit c with
      | Some d => hex_go true (16 * acc + d) r
      | None => if Ascii.eqb c "_"%char && sep then hex_go false acc r else None
      end
  end%Z.

Definition hex_unsigned (s : string) : option Z :=
  if startswith "0x" s || startswith "0X" s then
    match drop_str 2 s with
    | String "_" r => hex_go false 0 r
    | r => hex_go false 0 r
    end
  else hex_go false 0 s.

(** [int(text, 16)] *)
Definition py_int16 (text : string) : option Z :=
  match strip text with
  | String "-" r => Z.opp <$> hex_unsigned r
  | String "+" r => hex_unsigned r
  | s => hex_unsigned s
  end.

(** [s.replace(p, "")] for a non-empty [p]; every step consumes a character. *)
Fixpoint remove_sub_go (fuel : nat) (p s : string) : string :=
  match fuel with
  | O => s
  | S fuel =>
      match s with
      | "" => ""
      | String c r => if startswith p s then remove_sub_go fuel p (drop_str (String.length p) s)
                      else String c (remove_sub_go fuel p r)
      end
  end.
Definition remove_sub (p s : string) : string := remove_sub_go (String.length s) p s.

(** [uuid.UUID(value).int], where the value is accepted. *)
Definition uuid_int (value : string) : option Z :=
  let hex := remove_sub "uuid:" (remove_sub "urn:" value) in
  let brace c := Ascii.eqb c "{"%char || Ascii.eqb c "}"%char in
  let hex := remove_sub "-" (rstrip_by brace (lstrip_by brace hex)) in
  if Nat.eqb (String.length hex) 32 then
    match py_int16 hex with Some z => if (0 <=? z)%Z then Some z else None | None => None end
  else None.
(** Whether [uuid.UUID(value)] returns. *)
Definition is_uuid_text (value : string) : bool := match uuid_int value with Some _ => true | None => false end.
Definition hex_lower (n : Z) : ascii := Ascii.ascii_of_N (Z.to_N (if n <? 10 then n + 48 else n + 87))%Z.
(** The last [n] hexadecimal digits of a number. *)
Fixpoint hex_fixed (n : nat) (z : Z) : string :=
  match n with O => "" | S n => String (hex_lower (z / 16 ^ Z.of_nat n mod 16)%Z) (hex_fixed n z) end.
(** [UUID(...).hex] and [str(UUID(...))] *)
Definition uuid_hex (z : Z) : string := hex_fixed 32 z.
Definition uuid_str (z : Z) : string :=
  let hex := uuid_hex z in
  String.substring 0 8 hex +:+ "-" +:+ String.substring 8 4 hex +:+ "-" +:+ String.substring 12 4 hex +:+ "-" +:+
  String.substring 16 4 hex +:+ "-" +:+ String.substring 20 12 hex.

(** What follows the last closing parenthesis of the line. *)
Fixpoint after_last_paren (s : string) : option string :=
  match s with
  | EmptyString => None
  | String c r => if Ascii.eqb c (ascii_of_nat 10) then None
                  else match after_last_paren r with
                       | Some t => Some t
                       | None => if Ascii.eqb c ")"%char then Some r else None
                       end
  end.
(** [re.sub(r" \(.*\)", "", s)] *)
Fixpoint drop_parens (fuel : nat) (s : string) : string :=
  match fuel, s with
  | S fuel, String c r =>
      match (if startswith " (" s then after_last_paren (drop_str 2 s) else None) with
      | Some t => drop_parens fuel t
      | None => String c (drop_parens fuel r)
      end
  | _, _ => EmptyString
  end.

(** [urllib.parse.quote(s, safe="")] *)
Definition hex_upper (n : N) : ascii :=
  Ascii.ascii_of_N (if n <? 10 then n + 48 else n + 55)%N.
Fixpoint url_quote (s : string) : string :=
  match s with
  | "" => ""
  | String c r =>
      if is_alnum c || has_char c "_.-~" then String c (url_quote r)
      else let n := Ascii.N_of_ascii c in
           String "%" (String (hex_upper (n / 16)%N) (String (hex_upper (n mod 16)%N) (url_quote r)))
  end.

(** ** Lemmas *)

Lemma str_app_nil_r (s : string) : s +:+ "" = s.
Proof. induction s; simpl; congruence. Qed.
Lemma str_app_assoc (a b c : string) : a +:+ (b +:+ c) = (a +:+ b) +:+ c.
Proof. induction a; simpl; congruence. Qed.
Lemma str_length_app a b : String.length (a +:+ b) = (String.length a + String.length b)%nat.
Proof. induction a as [|x a IH]; [done|]. cbn. by rewrite IH. Qed.

Lemma str_rev_app_acc a b : String.rev_app a b = String.rev_app a "" +:+ b.
Proof.
  revert b. induction a as [|c a IH]; intros b; simpl; [done|].
  rw (IH (String c b)) (IH (String c "")). by rw -str_app_assoc.
Qed.

Lemma str_rev_cons c s : String.rev (String c s) = String.rev s +:+ String c "".
Proof. unfold String.rev. simpl. apply str_rev_app_acc. Qed.
Lemma str_rev_app a b : String.rev (a +:+ b) = String.rev b +:+ String.rev a.
Proof.
  induction a as [|c a IH]; simpl; [by rw str_app_nil_r|].
  by rw !str_rev_cons IH str_app_assoc.
Qed.
Lemma str_rev_involutive s : String.rev (String.rev s) = s.
Proof. induction s as [|c s IH]; [done|]. by rw str_rev_cons str_rev_app IH. Qed.

Lemma str_all_app f a b : str_all f (a +:+ b) = str_all f a && str_all f b.
Proof. induction a; simpl; [done|]. by rw IHa andb_assoc. Qed.
Lemma str_all_rev f a : str_all f (String.rev a) = str_all f a.
Proof.
  induction a as [|c a IH]; [done|].
  rw str_rev_cons str_all_app IH /=. rw andb_true_r. apply andb_comm.
Qed.
Lemma str_all_impl (f g : ascii -> bool) s :
  (forall c, f c = true -> g c = true) -> str_all f s = true -> str_all g s = true.
Proof.
  intros Hfg. induction s; simpl; [done|]. rw !andb_true_iff. naive_solver.
Qed.

Lemma lstrip_none f s : str_all (fun c => negb (f c)) s = true -> lstrip_by f s = s.
Proof. destruct s; simpl; [done|]. by destruct (f a). Qed.

Lemma strip_id s : str_all (fun c => negb (is_space c)) s = true -> strip s = s.
Proof.
  intros Hs. unfold strip, rstrip_by. rw (lstrip_none _ s Hs).
  rw lstrip_none ?str_all_rev //. apply str_rev_involutive.
Qed.

Lemma split_once_none c s : has_char c s = false -> split_once c s = None.
Proof.
  induction s as [|a s IH]; simpl; [done|].
  destruct (Ascii.eqb a c); [done|]. intros H. by rw IH.
Qed.
Lemma split_once_app c a b :
  has_char c a = false -> split_once c (a +:+ String c b) = Some (a, b).
Proof.
  induction a as [|x a IH]; simpl; [by rw Ascii.eqb_refl|].
  destruct (Ascii.eqb x c); [done|]. intros H. by rw IH.
Qed.
Lemma has_char_app c a b : has_char c (a +:+ b) = has_char c a || has_char c b.
Proof. induction a; simpl; [done|]. by rw IHa orb_assoc. Qed.
Lemma str_all_no_char f c s : f c = false -> str_all f s = true -> has_char c s = false.
Proof.
  intros Hc. induction s as [|a s IH]; simpl; [done|].
  rw andb_true_iff. intros [Ha Hs]. rw (IH Hs) orb_false_r.
  destruct (Ascii.eqb_spec a c); congruence.
Qed.
Lemma rsplit_once_app c a b :
  has_char c b = false -> rsplit_once c (a +:+ String c b) = Some (a, b).
Proof.
  intros Hb. assert (rsplit_once c b = None) as Hn.
  { induction b as [|x b IH]; simpl in *; [done|]. apply orb_false_iff in Hb as [-> Hb]. by rw (IH Hb). }
  induction a as [|x a IH]; simpl; [by rw Hn Ascii.eqb_refl|]. by rw IH.
Qed.
Lemma rsplit_once_inv c s a b :
  rsplit_once c s = Some (a, b) -> s = a +:+ String c b /\ has_char c b = false.
Proof.
  revert a b. induction s as [|x s IH]; intros a b; simpl; [done|].
  destruct (rsplit_once c s) as [[u v]|] eqn:Hs.
  - intros [= <- <-]. destruct (IH u v eq_refl) as [-> Hv]. by split.
  - destruct (Ascii.eqb_spec x c) as [->|]; [|done]. intros [= <- <-]. split; [done|].
    clear IH. induction s as [|y s IH]; simpl in *; [done|].
    destruct (rsplit_once c s) as [[? ?]|]; [done|]. destruct (Ascii.eqb y c); [done|]. by apply IH.
Qed.

(** [startswith] is the existence of a remainder. *)
Lemma startswith_spec p s : startswith p s = true <-> exists r, s = p +:+ r.
Proof.
  revert s. induction p as [|a p IH]; intros s; simpl; [split; [by eexists|done]|].
  destruct s as [|b s]; simpl; [split; [done|by intros [? ?]]|].
  rw andb_true_iff Ascii.eqb_eq IH. split.
  - intros [-> [r ->]]. by exists r.
  - intros [r [= -> ->]]. split; [done|by exists r].
Qed.
Lemma endswith_spec p s : endswith p s = true <-> exists r, s = r +:+ p.
Proof.
  unfold endswith. rw startswith_spec. split.
  - intros [r Hr]. exists (String.rev r).
    rw -(str_rev_involutive s) Hr str_rev_app. by rw !str_rev_involutive.
  - intros [r ->]. exists (String.rev r). by rw str_rev_app.
Qed.
Lemma drop_str_app p s : drop_str (String.length p) (p +:+ s) = s.
Proof. by induction p. Qed.

(** ** [int(str(n)) = n] *)

Lemma pretty_digit (x : N) : (x < 10)%N -> digit (pretty_N_char x) = Some (Z.of_N x).
Proof.
  intros Hx. assert (x ∈ [0;1;2;3;4;5;6;7;8;9])%N as Hin.
  { rw !elem_of_cons. lia. }
  repeat (apply elem_of_cons in Hin as [->|Hin]; [done|]). by apply elem_of_nil in Hin.
Qed.

Lemma pretty_is_digit (x : N) : (x < 10)%N -> is_digit (pretty_N_char x) = true.
Proof.
  intros Hx%pretty_digit. unfold digit in Hx. by destruct (is_digit (pretty_N_char x)).
Qed.

Lemma digits_pretty_go (x : N) s :
  (0 < x)%N -> digits (pretty_N_go x s) = digits_go (Z.of_N x) s.
Proof.
  revert s. induction (N.lt_wf_0 x) as [x _ IH]; intros s Hx.
  rw pretty_N_go_step //.
  assert (x `mod` 10 < 10)%N as Hm by (apply N.mod_lt; lia).
  destruct (decide (x < 10)%N) as [Hs|Hs].
  - rw (N.div_small x 10) // pretty_N_go_0 /= (N.mod_small x 10) // pretty_digit //.
  - assert (0 < x `div` 10)%N by (apply N.div_str_pos; lia).
    rw IH //; [|apply N.div_lt; lia]. simpl. rw pretty_digit //.
    f_equal. rw {3}(N.div_mod x 10); lia.
Qed.

Lemma pretty_go_digits (x : N) s :
  str_all is_digit s = true -> str_all is_digit (pretty_N_go x s) = true.
Proof.
  revert s. induction (N.lt_wf_0 x) as [x _ IH]; intros s Hs.
  destruct (decide (x = 0)%N) as [->|Hx]; [done|].
  rw pretty_N_go_step; [|lia]. apply IH; [apply N.div_lt; lia|].
  rw /= pretty_is_digit //. apply N.mod_lt; lia.
Qed.

Lemma pretty_N_digits (x : N) : str_all is_digit (pretty x) = true.
Proof.
  unfold pretty, pretty_N. destruct (decide (x = 0)%N); [done|]. by apply pretty_go_digits.
Qed.

Lemma digits_pretty_N (x : N) : digits (pretty x) = Some (Z.of_N x).
Proof.
  unfold pretty, pretty_N. destruct (decide (x = 0)%N) as [->|]; [done|].
  rw digits_pretty_go; [done|lia].
Qed.

(** [str(n)] of an integer that is not negative: digits only. *)
Lemma pretty_Z_digits (z : Z) : (0 <= z)%Z -> str_all is_digit (pretty z) = true.
Proof.
  destruct z as [|p|p]; [done| |lia]. intros _. apply (pretty_N_digits (Npos p)).
Qed.

Lemma digit_not_space c : is_digit c = true -> negb (is_space c) = true.
Proof. by destruct c as [[] [] [] [] [] [] [] []]. Qed.

Lemma py_int_digits s : str_all is_digit s = true -> py_int s = digits s.
Proof.
  intros Hs. unfold py_int. rw strip_id; [|by eapply str_all_impl, Hs; apply digit_not_space].
  destruct s as [|c s]; [done|]. simpl in Hs. apply andb_true_iff in Hs as [Hc _].
  by destruct c as [[] [] [] [] [] [] [] []].
Qed.

Lemma py_int_pretty (z : Z) : (0 <= z)%Z -> py_int (pretty z) = Some z.
Proof.
  intros Hz. rw py_int_digits; [|by apply pretty_Z_digits].
  destruct z as [|p|p]; [done| |lia]. apply (digits_pretty_N (Npos p)).
Qed.
