(* ===== verification/PyData.v ===== *)
(** * Dicts and JSON values

    A Python dict with string keys is an association list in insertion order;
    [json.loads] reads a text as a [json] value (numbers are integers). *)
From S2P Require Import Prelude PyStr.

(** ** Dicts *)

Abbreviation dict V := (list (string * V)).
Fixpoint dict_get {V} (k : string) (d : dict V) : option V :=
  match d with
  | [] => None
  | (k', v) :: r => if decide (k' = k) then Some v else dict_get k r
  end.
(** [d[k] = v]: an existing key keeps its place. *)
Fixpoint dict_set {V} (k : string) (v : V) (d : dict V) : dict V :=
  match d with
  | [] => [(k, v)]
  | (k', v') :: r => if decide (k' = k) then (k', v) :: r else (k', v') :: dict_set k v r
  end.

Lemma dict_get_set {V} k k' (v : V) d :
  dict_get k' (dict_set k v d) = if decide (k = k') then Some v else dict_get k' d.
Proof.
  induction d as [|[k0 v0] d IH]; simpl; [done|].
  destruct (decide (k0 = k)) as [->|Hne]; simpl; [by destruct (decide (k = k'))|].
  destruct (decide (k0 = k')) as [->|]; [|exact IH]. by rewrite decide_False by congruence.
Qed.
Lemma dict_set_keys {V} k k' (v : V) d :
  k' ∈ (dict_set k v d).*1 <-> k' = k \/ k' ∈ d.*1.
Proof.
  induction d as [|[k0 v0] d IH]; simpl; [set_solver|].
  destruct (decide (k0 = k)) as [->|]; simpl; [set_solver|].
  rewrite !elem_of_cons, IH. naive_solver.
Qed.
Lemma dict_set_NoDup {V} k (v : V) d : NoDup (d.*1) -> NoDup ((dict_set k v d).*1).
Proof.
  induction d as [|[k0 v0] d IH]; simpl; [intros _; apply NoDup_singleton|].
  intros [Hk0 Hd]%NoDup_cons. destruct (decide (k0 = k)) as [->|Hne]; simpl; [by apply NoDup_cons|].
  apply NoDup_cons. split; [|by apply IH]. rewrite dict_set_keys. naive_solver.
Qed.
Lemma dict_get_elem {V} k (v : V) d : NoDup (d.*1) -> dict_get k d = Some v <-> (k, v) ∈ d.
Proof.
  induction d as [|[k0 v0] d IH]; simpl; [set_solver|]. intros [Hk0 Hd]%NoDup_cons.
  rewrite elem_of_cons. destruct (decide (k0 = k)) as [->|Hne].
  - split; [intros [= ->]; by left|]. intros [[= ->]|Hin]; [done|]. destruct Hk0.
    apply list_elem_of_fmap. by exists (k, v).
  - rewrite (IH Hd). naive_solver.
Qed.
Lemma dict_get_keys {V} k (d : dict V) : is_Some (dict_get k d) <-> k ∈ d.*1.
Proof.
  induction d as [|[k0 v0] d IH]; simpl; [split; [by intros [? ?]|set_solver]|].
  rewrite elem_of_cons. destruct (decide (k0 = k)) as [->|]; [naive_solver|]. rewrite IH. naive_solver.
Qed.
(** [d.update(l)], with the values translated by [f] *)
Lemma dict_get_update {V W} (f : W -> V) k (l : dict W) : forall d : dict V, NoDup l.*1 ->
  dict_get k (foldl (fun d '(k, v) => dict_set k (f v) d) d l) =
    match dict_get k l with Some v => Some (f v) | None => dict_get k d end.
Proof.
  induction l as [|[k' v] l IH]; intros d Hnd; [done|]. apply NoDup_cons in Hnd as [Hk Hnd]. cbn [foldl]. rewrite IH by done.
  cbn [dict_get]. rewrite dict_get_set. case_decide as Hk'; [subst k'|done].
  destruct (dict_get k l) eqn:Hg; [|done]. destruct Hk. apply dict_get_keys. eauto.
Qed.

(** ** Sorting *)

(** Python's order on strings. *)
Definition str_le (a b : string) : Prop := String.leb a b = true.
#[export] Instance str_le_dec : RelDecision str_le.
Proof. intros a b. unfold str_le. apply _. Defined.

Lemma str_leb_cons a s b t :
  String.leb (String a s) (String b t)
  = ((N_of_ascii a <? N_of_ascii b)%N || ((N_of_ascii a =? N_of_ascii b)%N && String.leb s t)).
Proof.
  unfold String.leb. cbn [String.compare]. unfold Ascii.compare.
  destruct (N.compare_spec (N_of_ascii a) (N_of_ascii b)) as [He|Hl|Hg].
  - rewrite He, N.ltb_irrefl, N.eqb_refl. done.
  - by rewrite (proj2 (N.ltb_lt _ _) Hl).
  - rewrite (proj2 (N.ltb_ge _ _)), (proj2 (N.eqb_neq _ _)) by lia. done.
Qed.
Lemma str_leb_trans a b c :
  String.leb a b = true -> String.leb b c = true -> String.leb a c = true.
Proof.
  revert b c. induction a as [|x a IH]; intros [|y b] [|z c]; try done.
  rewrite !str_leb_cons, !orb_true_iff, !andb_true_iff, !N.ltb_lt, !N.eqb_eq.
  intros [Hxy|[Hxy Hab]] [Hyz|[Hyz Hbc]]; [left; lia|left; lia|left; lia|right].
  split; [lia|by eapply IH].
Qed.
#[export] Instance str_le_trans : Transitive str_le.
Proof. intros a b c. apply str_leb_trans. Qed.
#[export] Instance str_le_total : Total str_le.
Proof. intros a b. apply String.leb_total. Qed.

(** ** JSON values *)

Inductive json : Type :=
| JNull | JBool (b : bool) | JNum (z : Z) | JStr (s : string)
| JArr (l : list json) | JObj (d : list (string * json)).

#[export] Instance truthy_json : Truthy json := fun v =>
  match v with
  | JNull => false | JBool b => b | JNum z => truthy z | JStr s => truthy s
  | JArr l => truthy l | JObj d => truthy d
  end.

(** [v.get(k)] *)
Definition jget (k : string) (v : json) : res json :=
  match v with
  | JObj d => Ok (default JNull (dict_get k d))
  | _ => Err (AttributeError "get")
  end.

(** [v.get(k, d)] *)
Definition jget_or (k : string) (d v : json) : res json :=
  match v with JObj o => Ok (default d (dict_get k o)) | _ => Err (AttributeError "get") end.

(** [v[k]] *)
Definition jitem (k : string) (v : json) : res json :=
  match v with
  | JObj d => match dict_get k d with Some w => Ok w | None => Err (KeyError k) end
  | _ => Err (TypeError ["not subscriptable by a string"])
  end.

Fixpoint chars (s : string) : list string :=
  match s with EmptyString => [] | String c r => String c EmptyString :: chars r end.
(** [for x in v] *)
Definition jiter (v : json) : res (list json) :=
  match v with
  | JArr l => Ok l
  | JObj d => Ok (map (fun kv => JStr kv.1) d)
  | JStr s => Ok (map JStr (chars s))
  | _ => Err (TypeError ["object is not iterable"])
  end.

(** ** [str(v)] and [repr(v)] *)

Definition hex_of (n : N) : ascii := ascii_of_N (if (n <? 10)%N then 48 + n else 87 + n).
Definition backslash (s : string) : string := String (ascii_of_nat 92) s.
(** A character of [repr(s)] between quotes [q]. *)
Definition repr_char (q c : ascii) : string :=
  let n := N_of_ascii c in
  if Ascii.eqb c q || (n =? 92)%N then backslash (String c "")
  else if (n =? 9)%N then backslash "t"
  else if (n =? 10)%N then backslash "n"
  else if (n =? 13)%N then backslash "r"
  else if in_codes 32 126 c then String c ""
  else backslash (String "x"%char (String (hex_of (n / 16)) (String (hex_of (n mod 16)) ""))).
Definition single_quote : ascii := "'"%char.
Definition double_quote : ascii := ascii_of_nat 34.
Definition repr_str (s : string) : string :=
  let q := if has_char single_quote s && negb (has_char double_quote s) then double_quote else single_quote in
  String q (String.concat "" (map (repr_char q) (String.list_ascii_of_string s)) +:+ String q "").
Fixpoint py_repr (v : json) : string :=
  match v with
  | JNull => "None"
  | JBool b => if b then "True" else "False"
  | JNum z => pretty z
  | JStr s => repr_str s
  | JArr l => "[" +:+ String.concat ", " (map py_repr l) +:+ "]"
  | JObj d => "{" +:+ String.concat ", " (map (fun kv => repr_str kv.1 +:+ ": " +:+ py_repr kv.2) d) +:+ "}"
  end.
(** [f"{v}"] *)
Definition py_str (v : json) : string := match v with JStr s => s | _ => py_repr v end.
(** ** [split] and [join] *)

Lemma split_nil c s : has_char c s = false -> split c s = [s].
Proof.
  induction s as [|a s IH]; cbn; [done|]. destruct (Ascii.eqb a c); cbn; [done|]. intros Hs. by rewrite IH.
Qed.
Lemma split_app c a b : has_char c a = false -> split c (a +:+ String c b) = a :: split c b.
Proof.
  induction a as [|x a IH]; cbn; [by rewrite Ascii.eqb_refl|].
  destruct (Ascii.eqb x c); cbn; [done|]. intros Ha. by rewrite IH.
Qed.
Lemma split_cons c s : exists x rest, split c s = x :: rest.
Proof.
  induction s as [|a s (x & rest & Hs)]; cbn; [eauto|]. destruct (Ascii.eqb a c); [eauto|]. rewrite Hs. eauto.
Qed.
Lemma split_join c s :
  s = String.concat (String c "") (split c s) /\ Forall (fun x => has_char c x = false) (split c s).
Proof.
  induction s as [|a s [Hs Hall]]; cbn; [split; [done|by repeat constructor]|].
  destruct (split_cons c s) as (x & rest & Hsp). rewrite Hsp in *. destruct (Ascii.eqb a c) eqn:Ha.
  - apply Ascii.eqb_eq in Ha as ->. split; [|by constructor]. by rewrite Hs at 1.
  - apply Forall_cons in Hall as [Hx Hrest].
    split; [rewrite Hs at 1; by destruct rest|]. constructor; [cbn; rewrite Ha; exact Hx|done].
Qed.
(** [sep.join(l).split(sep)] is [l], when there is no separator inside. *)
Lemma split_concat c l :
  l <> [] -> Forall (fun x => has_char c x = false) l -> split c (String.concat (String c "") l) = l.
Proof.
  intros Hne Hall. induction Hall as [|x l Hx Hall IH]; [done|]. destruct l as [|y l]; [by apply split_nil|].
  change (String.concat (String c "") (x :: y :: l)) with (x +:+ String c (String.concat (String c "") (y :: l))).
  rewrite split_app by done. by rewrite IH.
Qed.

(** Python's [int] of a run of digits is never negative. *)
Lemma digit_nonneg c d : digit c = Some d -> (0 <= d)%Z.
Proof.
  unfold digit, is_digit, in_codes. destruct (_ && _) eqn:Hc; [|done]. intros [= <-].
  apply andb_true_iff in Hc as [Hc _]. apply N.leb_le in Hc. lia.
Qed.
Lemma digits_go_nonneg s : forall acc z, (0 <= acc)%Z -> digits_go acc s = Some z -> (0 <= z)%Z.
Proof.
  cut (forall n s acc z, (String.length s <= n)%nat -> (0 <= acc)%Z -> digits_go acc s = Some z -> (0 <= z)%Z); [eauto|].
  clear s. induction n as [|n IH]; intros [|c r] acc z Hn Hacc; cbn in *; try (intros [= <-]; lia); [lia|].
  destruct (digit c) as [d|] eqn:Hd; [apply digit_nonneg in Hd; apply IH; lia|].
  destruct (Ascii.eqb c "_"); [|done]. destruct r as [|c' r]; [done|]. cbn in Hn.
  destruct (digit c') as [d|] eqn:Hd'; [|done]. apply digit_nonneg in Hd'. apply IH; lia.
Qed.
Lemma digits_nonneg s z : digits s = Some z -> (0 <= z)%Z.
Proof.
  destruct s as [|c r]; cbn; [done|]. destruct (digit c) eqn:Hd; [|done]. apply digit_nonneg in Hd.
  by apply digits_go_nonneg.
Qed.

(** The values that are there. *)
Definition somes {A} (l : list (option A)) : list A := omap (fun o => o) l.

(** Elements told apart by a key. *)
Lemma NoDup_map_inj {A B} (f : A -> B) l x y :
  NoDup (map f l) -> x ∈ l -> y ∈ l -> f x = f y -> x = y.
Proof.
  induction l as [|z l IH]; [intros _ []%elem_of_nil|]. cbn.
  intros [Hz Hl]%NoDup_cons [->|Hx]%elem_of_cons [->|Hy]%elem_of_cons Hf; auto.
  - destruct Hz. rewrite Hf. by apply (list_elem_of_fmap_2 f).
  - destruct Hz. rewrite <- Hf. by apply (list_elem_of_fmap_2 f).
Qed.
