(* ===== verification/Ranges.v ===== *)
(** * VLAN and VNI ranges

    Models the range arithmetic of
    [src/python/neutron-understack/neutron_understack/utils.py]
    ([merge_overlapped_ranges], [fetch_gaps_in_ranges],
    [segmentation_id_in_ranges], [printable_ranges]).  A range is an inclusive
    pair of integers; [sorted] is Python's lexicographic order on tuples.  The
    specification is the set of identifiers a list of ranges covers
    ([in_ranges]) and the normal form [normal]: every range non-empty, ranges
    ascending, with at least one identifier between two neighbours. *)
From S2P Require Import Prelude.
Local Open Scope Z_scope.

Abbreviation range := (Z * Z)%type.

(** ** Definitions *)

(** Python's order on pairs of integers. *)
Definition pair_le (p q : range) : Prop := p.1 < q.1 \/ (p.1 = q.1 /\ p.2 <= q.2).

#[export] Instance pair_le_dec : RelDecision pair_le.
Proof. intros [a b] [c d]. unfold pair_le. simpl. apply _. Defined.
#[export] Instance pair_le_total : Total pair_le.
Proof. intros [a b] [c d]. unfold pair_le. simpl. lia. Qed.
#[export] Instance pair_le_trans : Transitive pair_le.
Proof. intros [a b] [c d] [e f]. unfold pair_le. simpl. lia. Qed.

(** [sorted(ranges)] *)
Definition sorted_ranges (l : list range) : list range := merge_sort pair_le l.

(** One iteration of the merging loop: [merged[-1]] is the last element. *)
(* neutron_understack/utils.py:536-540 merge_overlapped_ranges *)
Definition merge_step (merged : list range) (r : range) : list range :=
  let '(start, end_) := r in
  match last merged with
  | None => merged ++ [(start, end_)]
  | Some (s0, e0) =>
      if e0 + 1 <? start then merged ++ [(start, end_)]
      else removelast merged ++ [(s0, Z.max e0 end_)]
  end.

(* neutron_understack/utils.py:534-541 merge_overlapped_ranges *)
Definition merge_overlapped_ranges (ranges : list range) : list range :=
  foldl merge_step [] (sorted_ranges ranges).

(** One iteration of the gap loop, on [(free_ranges, prev_end)]. *)
(* neutron_understack/utils.py:549-552 fetch_gaps_in_ranges *)
Definition gap_step (st : list range * Z) (r : range) : list range * Z :=
  let '(free_ranges, prev_end) := st in
  let '(start, end_) := r in
  (if prev_end + 1 <? start then free_ranges ++ [(prev_end + 1, start - 1)] else free_ranges,
   end_).

(* neutron_understack/utils.py:544-555 fetch_gaps_in_ranges *)
Definition fetch_gaps_in_ranges (ranges : list range) (default_range : range) : list range :=
  let '(free_ranges, prev_end) := foldl gap_step ([], default_range.1 - 1) ranges in
  if prev_end <? default_range.2 then free_ranges ++ [(prev_end + 1, default_range.2)]
  else free_ranges.

(* neutron_understack/utils.py:558-561 segmentation_id_in_ranges *)
Definition segmentation_id_in_ranges (segmentation_id : Z) (ranges : list range) : bool :=
  existsb (fun r : range => (r.1 <=? segmentation_id) && (segmentation_id <=? r.2)) ranges.

(* neutron_understack/utils.py:564-570 printable_ranges *)
Definition printable_ranges (ranges : list range) : string :=
  String.concat "," (map (fun tpl : range =>
    if tpl.1 =? tpl.2 then pretty tpl.1 else pretty tpl.1 +:+ "-" +:+ pretty tpl.2) ranges).

(** ** Specification *)

Definition in_range (x : Z) (r : range) : Prop := r.1 <= x <= r.2.
Definition in_ranges (x : Z) (l : list range) : Prop := exists r, r ∈ l /\ in_range x r.

Definition valid_range (r : range) : Prop := r.1 <= r.2.

(** [a] ends before [b] starts, with an identifier in between. *)
Definition apart (a b : range) : Prop := a.2 + 1 < b.1.

Definition normal (l : list range) : Prop := Forall valid_range l /\ StronglySorted apart l.

#[export] Instance in_range_dec x r : Decision (in_range x r).
Proof. unfold in_range. apply _. Defined.

(** ** Coverage of a list of ranges *)

Lemma in_ranges_nil x : in_ranges x [] <-> False.
Proof. split; [|done]. intros (r & Hr & _). by apply elem_of_nil in Hr. Qed.

Lemma in_ranges_cons x r l : in_ranges x (r :: l) <-> in_range x r \/ in_ranges x l.
Proof.
  unfold in_ranges. setoid_rewrite elem_of_cons. split.
  - intros (r' & [->|Hr] & Hx); eauto.
  - intros [Hx|(r' & Hr & Hx)]; eauto.
Qed.

Lemma in_ranges_app x l k : in_ranges x (l ++ k) <-> in_ranges x l \/ in_ranges x k.
Proof.
  induction l as [|r l IH]; simpl; [rewrite in_ranges_nil; tauto|].
  rewrite !in_ranges_cons, IH. tauto.
Qed.

Lemma in_ranges_singleton x r : in_ranges x [r] <-> in_range x r.
Proof. rewrite in_ranges_cons, in_ranges_nil. tauto. Qed.

Lemma in_ranges_perm x l k : l ≡ₚ k -> in_ranges x l <-> in_ranges x k.
Proof. intros H. unfold in_ranges. by setoid_rewrite H. Qed.

Create Rewrite HintDb ranges.
#[export] Hint Rewrite in_ranges_nil in_ranges_cons in_ranges_app in_ranges_singleton : ranges.

Lemma segmentation_id_in_ranges_true x l :
  segmentation_id_in_ranges x l = true <-> in_ranges x l.
Proof.
  unfold segmentation_id_in_ranges. rewrite existsb_exists. unfold in_ranges, in_range.
  split; intros (r & Hr & Hx); exists r; rewrite list_elem_of_In in *; split; try done; lia.
Qed.

Lemma True_iff_intro {P : Prop} : P -> P <-> True.
Proof. tauto. Qed.
Lemma False_iff_intro {P : Prop} : ~ P -> P <-> False.
Proof. tauto. Qed.

#[export] Instance in_ranges_dec x l : Decision (in_ranges x l).
Proof.
  refine (cast_if (decide (segmentation_id_in_ranges x l = true)));
    by rewrite <- segmentation_id_in_ranges_true.
Defined.

(** Case split on every coverage statement of the goal, for [lia]. *)
Ltac in_ranges_cases :=
  repeat match goal with
  | |- context [in_ranges ?x ?l] =>
      let H := fresh "Hcov" in
      destruct (decide (in_ranges x l)) as [H|H];
      [ rewrite (True_iff_intro H) in * | rewrite (False_iff_intro H) in * ]
  end.

Lemma normal_nil : normal [].
Proof. split; constructor. Qed.

Lemma normal_cons_inv r l :
  normal (r :: l) -> valid_range r /\ Forall (apart r) l /\ normal l.
Proof.
  intros [Hv Hs]. inversion Hv; subst. apply StronglySorted_inv in Hs as [Hs Hr].
  repeat split; auto.
Qed.

Lemma StronglySorted_snoc {A} (R : A -> A -> Prop) l x :
  StronglySorted R l -> Forall (fun y => R y x) l -> StronglySorted R (l ++ [x]).
Proof.
  induction 1 as [|y l Hl IH Hy]; simpl; intros Hall; [repeat constructor|].
  inversion Hall; subst. constructor; [auto|]. apply Forall_app; auto.
Qed.

Lemma StronglySorted_snoc_inv {A} (R : A -> A -> Prop) l x :
  StronglySorted R (l ++ [x]) -> StronglySorted R l /\ Forall (fun y => R y x) l.
Proof.
  induction l as [|y l IH]; simpl; intros Hs; [split; constructor|].
  apply StronglySorted_inv in Hs as [Hs Hy]. apply Forall_app in Hy as [Hy1 Hy2].
  apply IH in Hs as [Hs1 Hs2]. inversion Hy2; subst. split; constructor; auto.
Qed.

Lemma normal_snoc l r :
  normal (l ++ [r]) <-> normal l /\ valid_range r /\ Forall (fun y => apart y r) l.
Proof.
  unfold normal. rewrite Forall_app, Forall_singleton. split.
  - intros [[? ?] [? ?]%StronglySorted_snoc_inv]. auto.
  - intros ([? ?] & ? & ?). auto using StronglySorted_snoc.
Qed.

(** ** Merging *)

(** What the merging loop has established about the ranges processed so far:
    [lo] is a bound below which no further range starts. *)
Definition merge_inv (done_ : list range) (lo : Z) (merged : list range) : Prop :=
  normal merged /\
  (forall x, in_ranges x merged <-> in_ranges x done_) /\
  (forall s e, last merged = Some (s, e) -> s <= lo).

Lemma merge_step_inv done_ lo merged r :
  merge_inv done_ lo merged -> valid_range r -> lo <= r.1 ->
  merge_inv (done_ ++ [r]) r.1 (merge_step merged r).
Proof.
  destruct r as [start end_]. unfold valid_range. simpl. intros (Hn & Hin & Hlo) Hv Hle.
  unfold merge_step.
  destruct merged as [|[s0 e0] m _] using rev_ind.
  - simpl. split; [|split].
    + apply (normal_snoc [] (start, end_)). repeat split; try constructor. done.
    + intros x. rewrite in_ranges_app, <- Hin. autorewrite with ranges. tauto.
    + intros s e [= <- <-]. lia.
  - rewrite last_snoc. assert (s0 <= lo) as Hs0 by (eapply Hlo; apply last_snoc).
    pose proof Hn as (Hn0 & Hv0 & Hap)%normal_snoc. unfold valid_range in Hv0. simpl in Hv0.
    destruct (Z.ltb_spec (e0 + 1) start) as [Hlt|Hge].
    + split; [|split].
      * apply normal_snoc. split; [done|]. split; [done|].
        apply Forall_app. split; [|apply Forall_singleton; unfold apart; simpl; lia].
        eapply Forall_impl; [exact Hap|]. intros [a b]. unfold apart. simpl. lia.
      * intros x. rewrite in_ranges_app, Hin, in_ranges_app. tauto.
      * intros s e. rewrite last_snoc. intros [= <- <-]. lia.
    + rewrite removelast_last. split; [|split].
      * apply normal_snoc. split; [done|]. split; [unfold valid_range; simpl; lia|].
        eapply Forall_impl; [exact Hap|]. intros [a b]. unfold apart. simpl. lia.
      * intros x. rewrite !in_ranges_app, <- Hin, in_ranges_app.
        autorewrite with ranges. unfold in_range. simpl. in_ranges_cases; lia.
      * intros s e. rewrite last_snoc. intros [= <- <-]. lia.
Qed.

Lemma merge_loop_inv rest done_ lo merged :
  merge_inv done_ lo merged -> Forall valid_range rest ->
  StronglySorted pair_le rest -> Forall (fun r : range => lo <= r.1) rest ->
  normal (foldl merge_step merged rest) /\
  (forall x, in_ranges x (foldl merge_step merged rest) <-> in_ranges x (done_ ++ rest)).
Proof.
  revert done_ lo merged. induction rest as [|r rest IH]; intros done_ lo merged Hinv Hv Hs Hlo.
  - rewrite app_nil_r. destruct Hinv as (? & ? & ?). auto.
  - simpl. inversion Hv; subst. inversion Hlo; subst.
    apply StronglySorted_inv in Hs as [Hs Hr].
    replace (done_ ++ r :: rest) with ((done_ ++ [r]) ++ rest) by (by rewrite <- app_assoc).
    apply (IH _ r.1); [by apply (merge_step_inv _ lo)|done|done|].
    eapply Forall_impl; [exact Hr|]. intros [a b]. unfold pair_le. destruct r. simpl. lia.
Qed.

Lemma merge_ranges_spec ranges :
  Forall valid_range ranges ->
  normal (merge_overlapped_ranges ranges) /\
  (forall x, in_ranges x (merge_overlapped_ranges ranges) <-> in_ranges x ranges).
Proof.
  intros Hv. unfold merge_overlapped_ranges, sorted_ranges.
  pose proof (merge_sort_Permutation pair_le ranges) as Hp.
  pose proof (StronglySorted_merge_sort pair_le ranges) as Hs.
  destruct (merge_sort pair_le ranges) as [|r rest] eqn:Hsort.
  - simpl. apply Permutation_nil_l in Hp as <-. split; [apply normal_nil|done].
  - destruct (merge_loop_inv (r :: rest) [] r.1 []) as [Hn Hin].
    + split; [apply normal_nil|]. split; [done|]. done.
    + by rewrite Hp.
    + done.
    + apply StronglySorted_inv in Hs as [_ Hr]. constructor; [lia|].
      eapply Forall_impl; [exact Hr|]. intros [a b]. unfold pair_le. destruct r. simpl. lia.
    + split; [done|]. intros x. rewrite Hin. simpl. by apply in_ranges_perm.
Qed.

(** ** Gaps *)

(** The gap loop as a recursion on the remaining ranges. *)
Fixpoint gaps_from (prev_end hi : Z) (ranges : list range) : list range :=
  match ranges with
  | [] => if prev_end <? hi then [(prev_end + 1, hi)] else []
  | (start, end_) :: rest =>
      (if prev_end + 1 <? start then [(prev_end + 1, start - 1)] else [])
      ++ gaps_from end_ hi rest
  end.

Lemma fetch_gaps_loop ranges free prev hi :
  (let '(f, p) := foldl gap_step (free, prev) ranges in
   if p <? hi then f ++ [(p + 1, hi)] else f) = free ++ gaps_from prev hi ranges.
Proof.
  revert free prev. induction ranges as [|[s e] rest IH]; intros free prev; simpl.
  - destruct (prev <? hi); [done|by rewrite app_nil_r].
  - rewrite IH. destruct (prev + 1 <? s); simpl; [by rewrite <- app_assoc|done].
Qed.

Lemma fetch_gaps_eq ranges lo hi :
  fetch_gaps_in_ranges ranges (lo, hi) = gaps_from (lo - 1) hi ranges.
Proof. apply (fetch_gaps_loop ranges [] (lo - 1) hi). Qed.

(** The largest end of a normal list, or [d]. *)
Definition last_end (ranges : list range) (d : Z) : Z :=
  match last ranges with Some (_, e) => e | None => d end.

Lemma last_end_cons r ranges d : last_end (r :: ranges) d = last_end ranges r.2.
Proof. unfold last_end. rewrite last_cons. by destruct (last ranges) as [[]|]; destruct r. Qed.

Lemma normal_in_ge x r ranges :
  normal (r :: ranges) -> in_ranges x ranges -> r.2 + 1 < x.
Proof.
  intros (_ & Hap & _)%normal_cons_inv (r' & Hr' & Hx).
  rewrite Forall_forall in Hap. specialize (Hap _ Hr'). unfold apart, in_range in *. lia.
Qed.

Lemma last_end_ge r ranges d : normal (r :: ranges) -> r.2 <= last_end ranges d \/ ranges = [].
Proof.
  intros Hn. destruct ranges as [|q ranges _] using rev_ind; [by right|left].
  apply normal_cons_inv in Hn as (_ & Hap & Hn). apply Forall_app in Hap as [_ Hap].
  apply normal_snoc in Hn as (_ & Hv & _).
  unfold last_end. rewrite last_snoc. inversion Hap; subst.
  unfold apart, valid_range in *. destruct q. simpl in *. lia.
Qed.

Lemma gaps_from_spec ranges prev hi x :
  normal ranges ->
  in_ranges x (gaps_from prev hi ranges) <->
  ~ in_ranges x ranges /\
  match ranges with
  | [] => prev < x <= hi
  | (s, _) :: _ => Z.min (prev + 1) s <= x <= Z.max hi (last_end ranges hi)
  end.
Proof.
  revert prev. induction ranges as [|[s e] rest IH]; intros prev Hn; simpl.
  - destruct (Z.ltb_spec prev hi); autorewrite with ranges; unfold in_range; simpl; lia.
  - pose proof Hn as (Hv & Hap & Hn')%normal_cons_inv. unfold valid_range in Hv. simpl in Hv.
    pose proof (normal_in_ge x _ _ Hn) as Hge. simpl in Hge.
    pose proof (last_end_ge _ _ e Hn) as Hlast. simpl in Hlast.
    rewrite in_ranges_app, (IH e Hn'), in_ranges_cons, last_end_cons. simpl.
    assert (in_ranges x (if prev + 1 <? s then [(prev + 1, s - 1)] else [])
            <-> prev + 1 <= x <= s - 1) as ->.
    { destruct (Z.ltb_spec (prev + 1) s); autorewrite with ranges; unfold in_range; simpl; lia. }
    unfold in_range. simpl.
    destruct rest as [|[s2 e2] rest].
    + unfold last_end. simpl. rewrite in_ranges_nil. lia.
    + inversion Hap as [|? ? Hap1 _]; subst. unfold apart in Hap1. simpl in Hap1.
      rewrite (last_end_cons _ _ hi). simpl.
      assert (last_end ((s2, e2) :: rest) e = last_end rest e2) as Hle
        by apply last_end_cons.
      rewrite Hle in *. destruct Hlast as [Hlast|]; [|done].
      revert Hge. in_ranges_cases; lia.
Qed.

(** ** Canonicity of the normal form *)

Lemma normal_lower_bound x s e ranges :
  normal ((s, e) :: ranges) -> in_ranges x ((s, e) :: ranges) -> s <= x.
Proof.
  intros Hn. rewrite in_ranges_cons. intros [Hx|Hx]; [unfold in_range in Hx; simpl in Hx; lia|].
  pose proof (normal_in_ge _ _ _ Hn Hx) as H. apply normal_cons_inv in Hn as (Hv & _).
  unfold valid_range in Hv. simpl in *. lia.
Qed.

Lemma normal_head_covered s e ranges x :
  s <= x <= e -> in_ranges x ((s, e) :: ranges).
Proof. intros Hx. apply in_ranges_cons. left. done. Qed.

Lemma normal_head_end s e ranges : normal ((s, e) :: ranges) -> ~ in_ranges (e + 1) ((s, e) :: ranges).
Proof.
  intros Hn. rewrite in_ranges_cons. intros [Hx|Hx]; [unfold in_range in Hx; simpl in Hx; lia|].
  pose proof (normal_in_ge _ _ _ Hn Hx) as H. simpl in H. lia.
Qed.

Lemma normal_tail_covered x s e ranges :
  normal ((s, e) :: ranges) -> in_ranges x ranges <-> in_ranges x ((s, e) :: ranges) /\ e < x.
Proof.
  intros Hn. pose proof (normal_in_ge x _ _ Hn) as Hge. simpl in Hge.
  rewrite in_ranges_cons. unfold in_range. simpl. revert Hge. in_ranges_cases; lia.
Qed.

(** A set of identifiers has one normal list of ranges. *)
Lemma normal_unique l k :
  normal l -> normal k -> (forall x, in_ranges x l <-> in_ranges x k) -> l = k.
Proof.
  revert k. induction l as [|[s e] l IH]; intros [|[s' e'] k] Hl Hk Hlk; [done| | |].
  1,2: exfalso.
  - pose proof (normal_cons_inv _ _ Hk) as (Hv & _). unfold valid_range in Hv; simpl in Hv.
    apply (in_ranges_nil s'), Hlk, normal_head_covered. lia.
  - pose proof (normal_cons_inv _ _ Hl) as (Hv & _). unfold valid_range in Hv; simpl in Hv.
    apply (in_ranges_nil s), Hlk, normal_head_covered. lia.
  - pose proof (normal_cons_inv _ _ Hk) as (Hvk & _ & Hk'). unfold valid_range in Hvk; simpl in Hvk.
    pose proof (normal_cons_inv _ _ Hl) as (Hvl & _ & Hl'). unfold valid_range in Hvl; simpl in Hvl.
    assert (s = s') as <-.
    { apply Z.le_antisymm.
      - apply (normal_lower_bound _ _ _ _ Hl), Hlk, normal_head_covered. lia.
      - apply (normal_lower_bound _ _ _ _ Hk), Hlk, normal_head_covered. lia. }
    assert (e = e') as <-.
    { destruct (Z.lt_trichotomy e e') as [?|[?|?]]; [exfalso|done|exfalso].
      - apply (normal_head_end _ _ _ Hl), Hlk, normal_head_covered. lia.
      - apply (normal_head_end _ _ _ Hk), Hlk, normal_head_covered. lia. }
    f_equal. apply IH; [done|done|]. intros x.
    by rewrite (normal_tail_covered x _ _ _ Hl), (normal_tail_covered x _ _ _ Hk), Hlk.
Qed.

(** ** Properties *)

(** C31. Merging is correct and canonical: on non-empty ranges the result covers
    exactly the identifiers of the input, is in normal form (ascending, with an
    identifier missing between neighbours), and two inputs merge to the same
    list exactly when they cover the same identifiers. *)
Theorem merge_overlapped_ranges_canonical a b :
  Forall valid_range a -> Forall valid_range b ->
  normal (merge_overlapped_ranges a) /\
  (forall x, in_ranges x (merge_overlapped_ranges a) <-> in_ranges x a) /\
  (merge_overlapped_ranges a = merge_overlapped_ranges b <->
   forall x, in_ranges x a <-> in_ranges x b).
Proof.
  intros Ha Hb. destruct (merge_ranges_spec a Ha) as [Hna Hca].
  destruct (merge_ranges_spec b Hb) as [Hnb Hcb]. split; [done|]. split; [done|]. split.
  - intros Heq x. by rewrite <- Hca, <- Hcb, Heq.
  - intros Hab. apply normal_unique; [done..|]. intros x. by rewrite Hca, Hcb.
Qed.

Lemma merge_overlapped_ranges_canonical_witness :
  merge_overlapped_ranges [(100, 200); (1, 5); (6, 9); (150, 250)]
  = merge_overlapped_ranges [(1, 9); (100, 250)].
Proof.
  refine (proj2 (proj2 (proj2 (merge_overlapped_ranges_canonical
    [(100, 200); (1, 5); (6, 9); (150, 250)] [(1, 9); (100, 250)] _ _))) _).
  - repeat constructor; unfold valid_range; simpl; lia.
  - repeat constructor; unfold valid_range; simpl; lia.
  - intros x. autorewrite with ranges. unfold in_range. simpl. lia.
Defined.

(** The gaps of merged ranges: an identifier is in a gap exactly when no
    range covers it and it lies between the smaller of the default minimum and
    the first range's start and the larger of the default maximum and the last
    range's end.  When all ranges lie inside the default range this is the
    default range minus the ranges; a range outside it makes the gaps leave the
    default range. *)
Theorem fetch_gaps_in_ranges_exact ranges lo hi x :
  Forall valid_range ranges ->
  let merged := merge_overlapped_ranges ranges in
  in_ranges x (fetch_gaps_in_ranges merged (lo, hi)) <->
  ~ in_ranges x ranges /\
  match merged with
  | [] => lo <= x <= hi
  | (s, _) :: _ => Z.min lo s <= x <= Z.max hi (last_end merged hi)
  end.
Proof.
  intros Hv merged. destruct (merge_ranges_spec ranges Hv) as [Hn Hc]. fold merged in Hn, Hc.
  rewrite fetch_gaps_eq, (gaps_from_spec _ _ _ _ Hn), Hc.
  destruct merged as [|[s e] rest]; [apply and_iff_compat_l; lia|].
  replace (lo - 1 + 1) with lo by lia. done.
Qed.

(** A shared range above the default range puts identifiers outside the default
    range among the gaps. *)
Lemma fetch_gaps_in_ranges_exact_witness :
  in_ranges 3800 (fetch_gaps_in_ranges (merge_overlapped_ranges [(3900, 4000)]) (1, 3799)).
Proof.
  refine (proj2 (fetch_gaps_in_ranges_exact [(3900, 4000)] 1 3799 3800 _) _).
  - repeat constructor; unfold valid_range; simpl; lia.
  - split; [autorewrite with ranges; unfold in_range; simpl; lia|vm_compute; split; discriminate].
Defined.
