(* ===== verification/Vni.v ===== *)
(** * Router VNI allocations

    Models [src/python/neutron-understack/neutron_understack/l3_router/understack_vni_db.py]
    and the table of [db/understack_vni.py].  The table is a finite map from the
    primary key (the VNI) to the row; a query is a filter over the rows in key
    order, and [session.flush()] enforces the unique constraint on [router_id].
    The values of neutron_lib's VXLAN bounds, the database's place for NULL in an
    ascending [ORDER BY] and the clock are parameters.  The operations run inside
    the caller's transaction: an operation that raises leaves no new table.
    Allocations may race: the search for a never used VNI is a plain read, so the row
    it leads to may be inserted into a table that has changed since ([insert_row]);
    the other queries lock the rows they read. *)
From S2P Require Import Prelude PyStr Ranges.
Local Open Scope Z_scope.

(** ** Errors *)

(* l3_router/understack_vni_db.py:13-14 UnderstackVNIInvalidRange *)
Definition UnderstackVNIInvalidRange (entry reason : string) : exn :=
  Exn "UnderstackVNIInvalidRange" [entry; reason].
(* l3_router/understack_vni_db.py:17-20 UnderstackVNINotInRange *)
Definition UnderstackVNINotInRange (vni : Z) (ranges : string) : exn :=
  Exn "UnderstackVNINotInRange" [pretty vni; ranges].
(* l3_router/understack_vni_db.py:23-24 UnderstackVNIInUse *)
Definition UnderstackVNIInUse (vni : Z) (router_id : string) : exn :=
  Exn "UnderstackVNIInUse" [pretty vni; router_id].
(* l3_router/understack_vni_db.py:34-35 UnderstackVNINoAvailable *)
Definition UnderstackVNINoAvailable (ranges : string) : exn :=
  Exn "UnderstackVNINoAvailable" [ranges].
(** SQLAlchemy's (oslo.db's) report of a violated unique or primary key. *)
Definition DBDuplicateEntry : exn := Exn "DBDuplicateEntry" [].

(** ** Requested values *)

(** The request's [understack_vni] attribute. *)
Inductive requested : Type :=
| NotSpecified            (** [ATTR_NOT_SPECIFIED] *)
| ReqNone
| ReqInt (z : Z)
| ReqStr (s : string).

#[export] Instance requested_eq_dec : EqDecision requested.
Proof. solve_decision. Defined.

Definition requested_str (r : requested) : string :=
  match r with
  | NotSpecified => "<neutron_lib.constants.Sentinel>"
  | ReqNone => "None"
  | ReqInt z => pretty z
  | ReqStr s => s
  end.

(* l3_router/understack_vni_db.py:27-31 UnderstackVNIRouterHasVNI *)
Definition UnderstackVNIRouterHasVNI (router_id : string) (existing_vni : Z) (r : requested) : exn :=
  Exn "UnderstackVNIRouterHasVNI" [router_id; pretty existing_vni; requested_str r].

(* l3_router/understack_vni_db.py:38-39 is_auto_vni *)
Definition is_auto_vni (vni : requested) : bool :=
  match vni with
  | NotSpecified | ReqNone => true
  | ReqInt z => z =? 0
  | ReqStr _ => false
  end.

(** [requested_vni == existing.vni]: a string is never equal to an integer. *)
Definition requested_eq (r : requested) (vni : Z) : bool :=
  match r with ReqInt z => z =? vni | _ => false end.

(** [int(requested_vni)] *)
Definition requested_int (r : requested) : res Z :=
  match r with
  | ReqInt z => Ok z
  | ReqStr s => match py_int s with Some z => Ok z | None => Err (ValueError [s]) end
  | NotSpecified | ReqNone => Err (TypeError [requested_str r])
  end.

(** ** Ranges *)

(* l3_router/understack_vni_db.py:42-43 format_vni_ranges *)
Definition format_vni_ranges (ranges : list range) : string :=
  String.concat "," (map (fun r : range => pretty r.1 +:+ ":" +:+ pretty r.2) ranges).

(* l3_router/understack_vni_db.py:85-92 _merge_ranges *)
Definition _merge_ranges (ranges : list range) : list range :=
  foldl merge_step [] (sorted_ranges ranges).

(** ** The table *)

Abbreviation time := Z.

(* db/understack_vni.py:6-28 UnderstackRouterVNIAllocation *)
Record row := Row {
  router_id : option string;
  allocated_at : time;
  released_at : option time;
}.
Abbreviation table := (gmap Z row).

(** The rows in primary key order. *)
Definition key_le (a b : Z * row) : Prop := a.1 <= b.1.
#[export] Instance key_le_dec : RelDecision key_le.
Proof. intros a b. unfold key_le. apply _. Defined.
#[export] Instance key_le_total : Total key_le.
Proof. intros a b. unfold key_le. lia. Qed.
#[export] Instance key_le_trans : Transitive key_le.
Proof. intros a b c. unfold key_le. lia. Qed.

Definition rows (tbl : table) : list (Z * row) := merge_sort key_le (map_to_list tbl).

(** The unique constraint on [router_id] (NULLs do not count). *)
(* db/understack_vni.py:22-28 UnderstackRouterVNIAllocation *)
Definition session_flush (tbl : table) : res table :=
  if decide (NoDup (omap (fun p : Z * row => p.2.(router_id)) (rows tbl)))
  then Ok tbl else Err DBDuplicateEntry.

(** [session.add] of a new row: the primary key must be free at the flush. *)
Definition session_add (tbl : table) (vni : Z) (r : row) : res table :=
  match tbl !! vni with
  | Some _ => Err DBDuplicateEntry
  | None => Ok (<[vni := r]> tbl)
  end.

Section vni.
(** neutron_lib's [MIN_VXLAN_VNI] and [MAX_VXLAN_VNI]. *)
Variables MIN_VNI MAX_VNI : Z.
(** Whether the database sorts NULL before every timestamp. *)
Variable nulls_first : bool.

(* l3_router/understack_vni_db.py:48-75 parse_vni_ranges *)
Definition parse_vni_entry (entry : string) : res range :=
  let entry := strip entry in
  if negb (truthy entry) then Err (UnderstackVNIInvalidRange entry "empty range") else
  let '(start_text, end_text) :=
    match split_once ":"%char entry with Some p => p | None => (entry, entry) end in
  match py_int start_text, py_int end_text with
  | Some start, Some end_ =>
      if end_ <? start then
        Err (UnderstackVNIInvalidRange entry "range start must be less than or equal to end")
      else if (start <? MIN_VNI) || (MAX_VNI <? end_) then
        Err (UnderstackVNIInvalidRange entry
               ("range must be within " +:+ pretty MIN_VNI +:+ ":" +:+ pretty MAX_VNI))
      else Ok (start, end_)
  | _, _ => Err (UnderstackVNIInvalidRange entry "range bounds must be integers")
  end.

(* l3_router/understack_vni_db.py:46-82 parse_vni_ranges *)
Definition parse_vni_ranges (vni_ranges : option (list string)) : res (list range) :=
  let entries := default [] vni_ranges in
  match res_map parse_vni_entry entries with
  | Err e => Err e
  | Ok [] => Err (UnderstackVNIInvalidRange (String.concat "," entries)
                    "at least one range is required")
  | Ok parsed => Ok (_merge_ranges parsed)
  end.

(** [UnderstackVniDbHelper]: the constructor's ranges and the configured ones. *)
(* l3_router/understack_vni_db.py:95-97 UnderstackVniDbHelper *)
Record helper := Helper {
  _vni_ranges : option (list string);
  conf_vni_ranges : option (list string);
}.

(* l3_router/understack_vni_db.py:99-106 UnderstackVniDbHelper.ranges *)
Definition ranges (self : helper) : res (list range) :=
  parse_vni_ranges (match self.(_vni_ranges) with
                    | Some r => Some r
                    | None => self.(conf_vni_ranges)
                    end).

(* l3_router/understack_vni_db.py:232-237 UnderstackVniDbHelper._validate_vni_in_ranges *)
Definition _validate_vni_in_ranges (vni : Z) (ranges : list range) : res unit :=
  if existsb (fun r : range => (r.1 <=? vni) && (vni <=? r.2)) ranges then Ok tt
  else Err (UnderstackVNINotInRange vni (format_vni_ranges ranges)).

(* l3_router/understack_vni_db.py:183-189 UnderstackVniDbHelper._get_router_allocation *)
Definition _get_router_allocation (tbl : table) (rid : string) : option (Z * row) :=
  head (filter (fun p : Z * row => p.2.(router_id) = Some rid) (rows tbl)).

(* l3_router/understack_vni_db.py:224-230 UnderstackVniDbHelper._range_filter *)
Definition _range_filter (ranges : list range) (vni : Z) : bool :=
  existsb (fun r : range => (r.1 <=? vni) && (vni <=? r.2)) ranges.

(** The inner loop over the allocated VNIs of one range, in order. *)
(* l3_router/understack_vni_db.py:200-208 UnderstackVniDbHelper._find_never_used_vni *)
Fixpoint scan_range (end_ candidate : Z) (vnis : list Z) : option Z :=
  match vnis with
  | [] => if candidate <=? end_ then Some candidate else None
  | vni :: rest =>
      if candidate <? vni then Some candidate else
      let candidate := if vni =? candidate then candidate + 1 else candidate in
      if end_ <? candidate
      then if candidate <=? end_ then Some candidate else None
      else scan_range end_ candidate rest
  end.

(* l3_router/understack_vni_db.py:191-209 UnderstackVniDbHelper._find_never_used_vni *)
Fixpoint _find_never_used_vni (tbl : table) (ranges : list range) : option Z :=
  match ranges with
  | [] => None
  | (start, end_) :: ranges =>
      match scan_range end_ start
              (filter (fun v => start <= v /\ v <= end_) (rows tbl).*1) with
      | Some v => Some v
      | None => _find_never_used_vni tbl ranges
      end
  end.

(** [ORDER BY released_at, vni] *)
Definition null_or_le (a b : option time) : Prop :=
  match a, b with
  | None, None => True
  | None, Some _ => nulls_first = true
  | Some _, None => nulls_first = false
  | Some x, Some y => x <= y
  end.
Definition release_le (a b : Z * row) : Prop :=
  null_or_le a.2.(released_at) b.2.(released_at) /\
  (null_or_le b.2.(released_at) a.2.(released_at) -> a.1 <= b.1).

#[local] Instance null_or_le_dec a b : Decision (null_or_le a b).
Proof. unfold null_or_le. destruct a, b; apply _. Defined.
#[local] Instance release_le_dec : RelDecision release_le.
Proof. intros a b. unfold release_le. apply _. Defined.

(* l3_router/understack_vni_db.py:211-222 UnderstackVniDbHelper._find_released_allocation *)
Definition _find_released_allocation (tbl : table) (ranges : list range) : option (Z * row) :=
  head (merge_sort release_le
    (filter (fun p : Z * row => p.2.(router_id) = None /\ _range_filter ranges p.1 = true)
       (rows tbl))).

(** A new row: [allocated_at] is the server's default [now()]. *)
Definition new_row (rid : string) (now : time) : row := Row (Some rid) now None.
(** [allocation.router_id = rid; allocation.released_at = None] *)
Definition take_row (r : row) (rid : string) : row := Row (Some rid) r.(allocated_at) None.

(* l3_router/understack_vni_db.py:141-159 UnderstackVniDbHelper._allocate_auto_vni *)
Definition _allocate_auto_vni (tbl : table) (now : time) (rid : string) (ranges : list range)
    : res (Z * table) :=
  match _find_never_used_vni tbl ranges with
  | Some v => tbl ← session_add tbl v (new_row rid now); tbl ← session_flush tbl; mret (v, tbl)
  | None =>
      match _find_released_allocation tbl ranges with
      | Some (v, r) => tbl ← session_flush (<[v := take_row r rid]> tbl); mret (v, tbl)
      | None => Err (UnderstackVNINoAvailable (format_vni_ranges ranges))
      end
  end.

(* l3_router/understack_vni_db.py:161-181 UnderstackVniDbHelper._allocate_specific_vni *)
Definition _allocate_specific_vni (tbl : table) (now : time) (rid : string) (vni : Z)
    : res (Z * table) :=
  tbl ← match tbl !! vni with
        | Some r => if truthy r.(router_id)
                    then Err (UnderstackVNIInUse vni (default "None" r.(router_id)))
                    else Ok (<[vni := take_row r rid]> tbl)
        | None => session_add tbl vni (new_row rid now)
        end;
  tbl ← session_flush tbl; mret (vni, tbl).

(* l3_router/understack_vni_db.py:108-125 UnderstackVniDbHelper.allocate_vni_for_router *)
Definition allocate_vni_for_router (self : helper) (tbl : table) (now : time)
    (rid : string) (requested_vni : requested) : res (Z * table) :=
  ranges ← ranges self;
  match _get_router_allocation tbl rid with
  | Some (existing, _) =>
      if is_auto_vni requested_vni || requested_eq requested_vni existing
      then mret (existing, tbl)
      else Err (UnderstackVNIRouterHasVNI rid existing requested_vni)
  | None =>
      if is_auto_vni requested_vni then _allocate_auto_vni tbl now rid ranges else
      vni ← requested_int requested_vni;
      _ ← _validate_vni_in_ranges vni ranges;
      _allocate_specific_vni tbl now rid vni
  end.

(* l3_router/understack_vni_db.py:127-133 UnderstackVniDbHelper.release_vni_for_router *)
Definition release_vni_for_router (tbl : table) (now : time) (rid : string) : res table :=
  match _get_router_allocation tbl rid with
  | None => Ok tbl
  | Some (v, r) => session_flush (<[v := Row None r.(allocated_at) (Some now)]> tbl)
  end.

(* l3_router/understack_vni_db.py:135-139 UnderstackVniDbHelper.get_vni_for_router *)
Definition get_vni_for_router (tbl : table) (rid : string) : option Z :=
  fst <$> _get_router_allocation tbl rid.

(** The foreign key's [ON DELETE SET NULL]: the router row goes, the VNI row
    stays without a release time. *)
(* db/understack_vni.py:10-14 UnderstackRouterVNIAllocation *)
Definition router_row_deleted (tbl : table) (rid : string) : table :=
  (fun r => if decide (r.(router_id) = Some rid)
            then Row None r.(allocated_at) r.(released_at) else r) <$> tbl.

End vni.

(** ** Specification *)

(** The router that holds a VNI. *)
Definition owner (tbl : table) (v : Z) : option string := (tbl !! v) ≫= router_id.

(** No router holds two VNIs. *)
Definition unique_owner (tbl : table) : Prop :=
  forall v1 v2 rid, owner tbl v1 = Some rid -> owner tbl v2 = Some rid -> v1 = v2.

(** ** Rows and queries *)

Lemma elem_of_rows tbl v r : (v, r) ∈ rows tbl <-> tbl !! v = Some r.
Proof. unfold rows. rewrite merge_sort_Permutation. apply elem_of_map_to_list. Qed.

Lemma elem_of_rows_fst tbl v : v ∈ (rows tbl).*1 <-> is_Some (tbl !! v).
Proof.
  rewrite list_elem_of_fmap. split.
  - intros ([v' r] & -> & H%elem_of_rows). by exists r.
  - intros [r H%elem_of_rows]. by exists (v, r).
Qed.

Lemma rows_keys_NoDup tbl : NoDup (rows tbl).*1.
Proof. unfold rows. rewrite merge_sort_Permutation. apply NoDup_fst_map_to_list. Qed.

Lemma StronglySorted_strict (l : list (Z * row)) :
  StronglySorted key_le l -> NoDup l.*1 -> StronglySorted Z.lt l.*1.
Proof.
  induction 1 as [|[v r] l Hl IH Hall]; simpl; [constructor|].
  intros [Hnin Hnd]%NoDup_cons. constructor; [by apply IH|].
  apply Forall_forall. intros x Hx. apply list_elem_of_fmap in Hx as ([w q] & -> & Hw). simpl.
  assert (v <= w) by exact (proj1 (Forall_forall _ _) Hall _ Hw).
  assert (v <> w); [|lia]. intros ->. apply Hnin, list_elem_of_fmap. by exists (w, q).
Qed.

Lemma rows_keys_sorted tbl : StronglySorted Z.lt (rows tbl).*1.
Proof.
  apply StronglySorted_strict; [|apply rows_keys_NoDup]. apply (StronglySorted_merge_sort key_le).
Qed.

Lemma StronglySorted_filter {A} (R : A -> A -> Prop) (P : A -> Prop) `{forall x, Decision (P x)} l :
  StronglySorted R l -> StronglySorted R (filter P l).
Proof.
  induction 1 as [|x l Hl IH Hx]; [constructor|]. rewrite filter_cons.
  destruct (decide (P x)); [|done]. constructor; [done|].
  apply Forall_forall. intros y [_ Hy]%list_elem_of_filter. by eapply Forall_forall in Hx.
Qed.

Lemma router_allocation_some tbl rid v r :
  _get_router_allocation tbl rid = Some (v, r) ->
  tbl !! v = Some r /\ r.(router_id) = Some rid.
Proof.
  unfold _get_router_allocation. intros H%head_Some_elem_of.
  apply list_elem_of_filter in H as [Hr Hin]. by rewrite elem_of_rows in Hin.
Qed.

Lemma router_allocation_none tbl rid :
  _get_router_allocation tbl rid = None <-> forall v, owner tbl v <> Some rid.
Proof.
  unfold _get_router_allocation. rewrite head_None. split.
  - intros Hf v Hv. unfold owner in Hv. apply bind_Some in Hv as (r & Hr & Hrid).
    assert ((v, r) ∈ filter (fun p : Z * row => p.2.(router_id) = Some rid) (rows tbl)) as Hin.
    { apply list_elem_of_filter. split; [done|]. by apply elem_of_rows. }
    rewrite Hf in Hin. by apply elem_of_nil in Hin.
  - intros Hn. destruct (filter _ _) as [|[v r] l] eqn:Hf; [done|]. exfalso. apply (Hn v).
    assert ((v, r) ∈ (v, r) :: l) as Hin by left. rewrite <- Hf in Hin.
    apply list_elem_of_filter in Hin as [Hr Hin]. apply elem_of_rows in Hin.
    unfold owner. by rewrite Hin.
Qed.

Lemma router_allocation_owner tbl rid v r :
  _get_router_allocation tbl rid = Some (v, r) -> owner tbl v = Some rid.
Proof. intros [H1 H2]%router_allocation_some. unfold owner. by rewrite H1. Qed.

(** The unique constraint is the injectivity of ownership. *)
Lemma omap_owner_NoDup (l : list (Z * row)) :
  NoDup l.*1 ->
  NoDup (omap (fun p : Z * row => p.2.(router_id)) l) <->
  forall v1 r1 v2 r2 rid, (v1, r1) ∈ l -> (v2, r2) ∈ l ->
    r1.(router_id) = Some rid -> r2.(router_id) = Some rid -> v1 = v2.
Proof.
  induction l as [|[v r] l IH]; simpl; intros Hnd.
  { split; [|constructor]. intros _ ????? H. by apply elem_of_nil in H. }
  apply NoDup_cons in Hnd as [Hv Hnd]. specialize (IH Hnd).
  assert (forall rid, rid ∈ omap (fun p : Z * row => p.2.(router_id)) l <->
            exists w q, (w, q) ∈ l /\ q.(router_id) = Some rid) as Hom.
  { intros rid. rewrite list_elem_of_omap. split; [intros ([w q] & ? & ?)|intros (w & q & ? & ?)].
    - by exists w, q.
    - by exists (w, q). }
  split.
  - intros Hnd' v1 r1 v2 r2 rid H1 H2 E1 E2. apply elem_of_cons in H1, H2.
    destruct (router_id r) as [rid0|] eqn:Er.
    + apply NoDup_cons in Hnd' as [Hrid Hnd'].
      destruct H1 as [[= -> ->]|H1], H2 as [[= -> ->]|H2]; [done| | |by eapply IH].
      * exfalso. apply Hrid, Hom. exists v2, r2. split; [done|congruence].
      * exfalso. apply Hrid, Hom. exists v1, r1. split; [done|congruence].
    + destruct H1 as [[= -> ->]|H1], H2 as [[= -> ->]|H2]; try congruence. by eapply IH.
  - intros Hinj. assert (NoDup (omap (fun p : Z * row => p.2.(router_id)) l)).
    { apply IH. intros. by eapply Hinj; [right|right|..]. }
    destruct (router_id r) as [rid|] eqn:Er; [|done]. constructor; [|done].
    intros (w & q & Hq & Eq)%Hom. apply Hv, list_elem_of_fmap. exists (w, q).
    split; [|done]. simpl. by eapply (Hinj v r w q); [left|right|..].
Qed.

Lemma session_flush_unique tbl : unique_owner tbl -> session_flush tbl = inr tbl.
Proof.
  intros Hu. unfold session_flush. rewrite decide_True; [done|].
  apply omap_owner_NoDup; [apply rows_keys_NoDup|].
  intros v1 r1 v2 r2 rid H1%elem_of_rows H2%elem_of_rows E1 E2.
  apply (Hu v1 v2 rid); unfold owner; [by rewrite H1|by rewrite H2].
Qed.

(** ** The search for a VNI *)

Lemma scan_range_spec end_ vnis candidate :
  StronglySorted Z.lt vnis -> Forall (fun v => candidate <= v <= end_) vnis ->
  match scan_range end_ candidate vnis with
  | Some c => candidate <= c <= end_ /\ (c ∉ vnis) /\ forall x, candidate <= x < c -> x ∈ vnis
  | None => forall x, candidate <= x <= end_ -> x ∈ vnis
  end.
Proof.
  revert candidate. induction vnis as [|v vnis IH]; intros cand Hs Hall; simpl.
  - destruct (Z.leb_spec cand end_).
    + split; [lia|]. split; [apply not_elem_of_nil|]. lia.
    + intros x Hx. lia.
  - apply StronglySorted_inv in Hs as [Hs Hv]. apply Forall_cons in Hall as [Hr Hall].
    rewrite Forall_forall in Hv.
    destruct (Z.ltb_spec cand v) as [Hlt|Hge].
    + split; [lia|]. split; [|lia]. intros [Heq|Hin]%elem_of_cons; [lia|].
      specialize (Hv _ Hin). lia.
    + assert (cand = v) as -> by lia. rewrite Z.eqb_refl.
      destruct (Z.ltb_spec end_ (v + 1)) as [Hend|Hend].
      * destruct (Z.leb_spec (v + 1) end_); [lia|]. intros x Hx.
        assert (x = v) as -> by lia. left.
      * ospecialize (IH (v + 1) Hs _).
        { rewrite Forall_forall in Hall |- *. intros x Hx.
          specialize (Hv _ Hx). specialize (Hall _ Hx). lia. }
        destruct (scan_range end_ (v + 1) vnis) as [c|].
        -- destruct IH as (Hc & Hnin & Hbelow). split; [lia|]. split.
           ++ intros [Heq|Hin]%elem_of_cons; [lia|done].
           ++ intros x Hx. destruct (decide (x = v)) as [->|]; [left|right]. apply Hbelow. lia.
        -- intros x Hx. destruct (decide (x = v)) as [->|]; [left|right]. apply IH. lia.
Qed.

Lemma scan_rows_spec tbl start end_ :
  match scan_range end_ start (filter (fun v => start <= v /\ v <= end_) (rows tbl).*1) with
  | Some c => start <= c <= end_ /\ tbl !! c = None /\
              forall x, start <= x < c -> is_Some (tbl !! x)
  | None => forall x, start <= x <= end_ -> is_Some (tbl !! x)
  end.
Proof.
  pose proof (scan_range_spec end_
    (filter (fun v => start <= v /\ v <= end_) (rows tbl).*1) start
    (StronglySorted_filter _ _ _ (rows_keys_sorted tbl))) as H.
  ospecialize (H _); [apply Forall_forall; by intros x [? _]%list_elem_of_filter|].
  destruct (scan_range _ _ _) as [c|].
  - destruct H as (Hc & Hnin & Hbelow). split; [done|]. split.
    + apply eq_None_not_Some. intros Hs%elem_of_rows_fst.
      apply Hnin, list_elem_of_filter. split; [lia|done].
    + intros x Hx. apply Hbelow, list_elem_of_filter in Hx as [_ Hx]. by apply elem_of_rows_fst.
  - intros x Hx. apply H, list_elem_of_filter in Hx as [_ Hx]. by apply elem_of_rows_fst.
Qed.

(** The search returns the least VNI of the ranges that has no row. *)
Lemma find_never_used_spec tbl ranges :
  normal ranges ->
  match _find_never_used_vni tbl ranges with
  | Some v => in_ranges v ranges /\ tbl !! v = None /\
              forall x, in_ranges x ranges -> x < v -> is_Some (tbl !! x)
  | None => forall x, in_ranges x ranges -> is_Some (tbl !! x)
  end.
Proof.
  induction ranges as [|[s e] ranges IH]; simpl; intros Hn.
  { intros x Hx. by apply in_ranges_nil in Hx. }
  pose proof (scan_rows_spec tbl s e) as Hscan.
  destruct (scan_range _ _ _) as [c|].
  - destruct Hscan as (Hc & Hnone & Hbelow). split; [apply in_ranges_cons; by left|].
    split; [done|]. intros x [Hx|Hx]%in_ranges_cons Hlt.
    + apply Hbelow. unfold in_range in Hx. simpl in Hx. lia.
    + apply (normal_in_ge x _ _ Hn) in Hx. simpl in Hx. lia.
  - specialize (IH (proj2 (proj2 (normal_cons_inv _ _ Hn)))).
    destruct (_find_never_used_vni tbl ranges) as [v|].
    + destruct IH as (Hv & Hnone & Hbelow). split; [apply in_ranges_cons; by right|].
      split; [done|]. intros x [Hx|Hx]%in_ranges_cons Hlt; [by apply Hscan|by apply Hbelow].
    + intros x [Hx|Hx]%in_ranges_cons; [by apply Hscan|by apply IH].
Qed.

Lemma range_filter_true ranges v : _range_filter ranges v = true <-> in_ranges v ranges.
Proof. apply segmentation_id_in_ranges_true. Qed.

Section search.
Variable nulls_first : bool.

#[local] Existing Instance release_le_dec.

#[local] Instance release_le_total : Total (release_le nulls_first).
Proof.
  intros [v r] [w q]. unfold release_le, null_or_le. simpl.
  destruct (released_at r), (released_at q), nulls_first; try lia; naive_solver lia.
Qed.
#[local] Instance release_le_trans : Transitive (release_le nulls_first).
Proof.
  intros [v r] [w q] [x p]. unfold release_le, null_or_le. simpl.
  destruct (released_at r), (released_at q), (released_at p), nulls_first;
    try lia; naive_solver lia.
Qed.

(** A row the query considers: in the ranges, without a router. *)
Definition reusable (tbl : table) (ranges : list range) (v : Z) (r : row) : Prop :=
  tbl !! v = Some r /\ r.(router_id) = None /\ in_ranges v ranges.

Lemma elem_of_reusable tbl ranges v r :
  (v, r) ∈ filter (fun p : Z * row => p.2.(router_id) = None /\ _range_filter ranges p.1 = true)
             (rows tbl) <-> reusable tbl ranges v r.
Proof.
  rewrite list_elem_of_filter, elem_of_rows. simpl. rewrite range_filter_true.
  unfold reusable. tauto.
Qed.

Lemma StronglySorted_head_le {A} (R : A -> A -> Prop) `{!Reflexive R} l x y :
  StronglySorted R l -> head l = Some x -> y ∈ l -> R x y.
Proof.
  destruct 1 as [|z l Hl Hall]; [done|]. intros [= ->] [->|Hy]%elem_of_cons; [done|].
  by eapply Forall_forall in Hall.
Qed.

Lemma release_le_refl : Reflexive (release_le nulls_first).
Proof. intros x. by destruct (total (release_le nulls_first) x x). Qed.

Lemma find_released_spec tbl ranges :
  match _find_released_allocation nulls_first tbl ranges with
  | Some (v, r) => reusable tbl ranges v r /\
      forall w q, reusable tbl ranges w q -> release_le nulls_first (v, r) (w, q)
  | None => forall w q, ~ reusable tbl ranges w q
  end.
Proof.
  unfold _find_released_allocation.
  set (l := filter _ (rows tbl)).
  assert (forall w q, reusable tbl ranges w q <-> (w, q) ∈ merge_sort (release_le nulls_first) l) as Hin.
  { intros w q. rewrite merge_sort_Permutation. symmetry. apply elem_of_reusable. }
  pose proof (StronglySorted_merge_sort (release_le nulls_first) l) as Hs.
  destruct (head (merge_sort (release_le nulls_first) l)) as [[v r]|] eqn:Hh.
  - split; [by apply Hin, head_Some_elem_of|]. intros w q Hw%Hin.
    pose proof release_le_refl. by eapply StronglySorted_head_le.
  - intros w q Hw%Hin. apply head_None in Hh. rewrite Hh in Hw. by apply elem_of_nil in Hw.
Qed.

End search.

(** ** Writes *)

Lemma owner_insert tbl v r w :
  owner (<[v := r]> tbl) w = if decide (w = v) then r.(router_id) else owner tbl w.
Proof.
  unfold owner. destruct (decide (w = v)) as [->|Hne].
  - by rewrite lookup_insert_eq.
  - by rewrite lookup_insert_ne.
Qed.

(** Giving a VNI to a router that holds none keeps ownership injective. *)
Lemma unique_owner_take tbl v r rid :
  unique_owner tbl -> (forall w, owner tbl w <> Some rid) -> r.(router_id) = Some rid ->
  unique_owner (<[v := r]> tbl).
Proof.
  intros Hu Hfree Hr w1 w2 x. rewrite !owner_insert.
  destruct (decide (w1 = v)) as [->|], (decide (w2 = v)) as [->|]; intros H1 H2; [done| | |by eapply Hu].
  - exfalso. apply (Hfree w2). congruence.
  - exfalso. apply (Hfree w1). congruence.
Qed.

Lemma unique_owner_free tbl v r :
  unique_owner tbl -> r.(router_id) = None -> unique_owner (<[v := r]> tbl).
Proof.
  intros Hu Hr w1 w2 x. rewrite !owner_insert.
  destruct (decide (w1 = v)), (decide (w2 = v)); try congruence. apply Hu.
Qed.

(** [taken tbl tbl' v rid]: [v], held by nobody, now belongs to [rid]; every
    other row is as it was. *)
Definition taken (tbl tbl' : table) (v : Z) (rid : string) : Prop :=
  owner tbl' v = Some rid /\
  (forall w, w <> v -> tbl' !! w = tbl !! w) /\
  (exists r, tbl' !! v = Some r /\ r.(released_at) = None).

Lemma taken_insert tbl v r rid :
  r.(router_id) = Some rid -> r.(released_at) = None -> taken tbl (<[v := r]> tbl) v rid.
Proof.
  intros Hr Hrel. split; [by rewrite owner_insert, decide_True|]. split.
  - intros w Hne. by rewrite lookup_insert_ne.
  - exists r. by rewrite lookup_insert_eq.
Qed.

Lemma flush_take tbl v r rid :
  unique_owner tbl -> (forall w, owner tbl w <> Some rid) -> r.(router_id) = Some rid ->
  session_flush (<[v := r]> tbl) = inr (<[v := r]> tbl).
Proof. intros. by eapply session_flush_unique, unique_owner_take. Qed.

(** ** Parsing of the configured ranges *)

Section operations.
Variables MIN_VNI MAX_VNI : Z.
Variable nulls_first : bool.
Abbreviation parse_entry := (parse_vni_entry MIN_VNI MAX_VNI).
Abbreviation parse := (parse_vni_ranges MIN_VNI MAX_VNI).
Abbreviation allocate := (allocate_vni_for_router MIN_VNI MAX_VNI nulls_first).

Lemma parse_entry_bounds entry r :
  parse_entry entry = inr r -> MIN_VNI <= r.1 <= r.2 /\ r.2 <= MAX_VNI.
Proof.
  unfold parse_vni_entry. destruct (negb (truthy (strip entry))); [done|].
  destruct (match split_once _ _ with Some p => p | None => _ end) as [st et].
  destruct (py_int st) as [s|]; [|done]. destruct (py_int et) as [e|]; [|done].
  destruct (Z.ltb_spec e s); [done|].
  destruct (Z.ltb_spec s MIN_VNI); [done|]. destruct (Z.ltb_spec MAX_VNI e); [done|].
  intros [= <-]. simpl. lia.
Qed.

Lemma parsed_valid entries parsed :
  res_map parse_entry entries = inr parsed -> Forall valid_range parsed.
Proof.
  intros H%res_map_ok_iff. apply Forall_forall. intros r Hr.
  apply list_elem_of_lookup in Hr as [i Hi].
  destruct (Forall2_lookup_r _ _ _ _ _ H Hi) as (x & _ & Hx%parse_entry_bounds).
  unfold valid_range. lia.
Qed.

Lemma parsed_covers entries parsed x :
  res_map parse_entry entries = inr parsed ->
  in_ranges x parsed <-> exists entry r, entry ∈ entries /\ parse_entry entry = inr r /\ in_range x r.
Proof.
  intros H%res_map_ok_iff. split.
  - intros (r & Hr & Hx). apply list_elem_of_lookup in Hr as [i Hi].
    destruct (Forall2_lookup_r _ _ _ _ _ H Hi) as (e & He & Hp).
    exists e, r. split; [by eapply list_elem_of_lookup_2|done].
  - intros (e & r & He & Hp & Hx). apply list_elem_of_lookup in He as [i Hi].
    destruct (Forall2_lookup_l _ _ _ _ _ H Hi) as (r' & Hr' & Hp').
    exists r. split; [|done]. assert (r' = r) as -> by congruence. by eapply list_elem_of_lookup_2.
Qed.

Lemma parse_ok entries rs :
  parse (Some entries) = inr rs ->
  normal rs /\
  forall x, in_ranges x rs <-> exists entry r, entry ∈ entries /\ parse_entry entry = inr r /\ in_range x r.
Proof.
  unfold parse_vni_ranges. simpl. destruct (res_map parse_entry entries) as [?|parsed] eqn:Hp; [done|].
  destruct parsed as [|r parsed]; [done|]. intros [= <-].
  destruct (merge_ranges_spec (r :: parsed)) as [Hn Hc]; [by eapply parsed_valid|].
  split; [done|]. intros x. rewrite <- (parsed_covers _ _ _ Hp). apply Hc.
Qed.

(** What a successful read of the configuration gives. *)
Lemma ranges_ok self rs :
  ranges MIN_VNI MAX_VNI self = inr rs ->
  normal rs /\ forall x, in_ranges x rs -> MIN_VNI <= x <= MAX_VNI.
Proof.
  unfold ranges. intros H.
  assert (exists entries, parse (Some entries) = inr rs) as [entries He].
  { destruct (match _vni_ranges self with Some r => Some r | None => _ end) as [l|];
      [by eexists|done]. }
  apply parse_ok in He as [Hn Hc]. split; [done|]. intros x (e & r & _ & Hp & Hx)%Hc.
  apply parse_entry_bounds in Hp. unfold in_range in Hx. lia.
Qed.

(** Reading the configuration fails with the range error and nothing else. *)
Lemma ranges_err self e : ranges MIN_VNI MAX_VNI self = inl e -> e <> DBDuplicateEntry.
Proof.
  unfold ranges, parse_vni_ranges.
  destruct (res_map parse_entry _) as [e'|parsed] eqn:Hm.
  - intros [= <-]. apply res_map_err_elem in Hm as (entry & _ & He). unfold parse_vni_entry in He.
    destruct (negb (truthy (strip entry))); [by injection He as <-|].
    destruct (match split_once _ _ with Some p => p | None => _ end) as [st et].
    destruct (py_int st), (py_int et); [|by injection He as <-..].
    destruct (_ <? _); [by injection He as <-|]. destruct (_ || _); [by injection He as <-|done].
  - destruct parsed; [|done]. by intros [= <-].
Qed.

Definition show_entry (r : range) : string := pretty r.1 +:+ ":" +:+ pretty r.2.

Lemma parse_show_entry r :
  0 <= MIN_VNI -> valid_range r -> MIN_VNI <= r.1 -> r.2 <= MAX_VNI ->
  parse_entry (show_entry r) = inr r.
Proof.
  destruct r as [s e]. unfold valid_range, show_entry. simpl. intros H0 Hv Hs He.
  assert (str_all is_digit (pretty s) = true) as Ds by (apply pretty_Z_digits; lia).
  assert (str_all is_digit (pretty e) = true) as De by (apply pretty_Z_digits; lia).
  assert (strip (pretty s +:+ String ":" (pretty e)) = pretty s +:+ String ":" (pretty e)) as Hstrip.
  { apply strip_id. rewrite str_all_app. simpl. rewrite andb_true_iff. split.
    - by eapply str_all_impl, Ds; apply digit_not_space.
    - by eapply str_all_impl, De; apply digit_not_space. }
  unfold parse_vni_entry. rewrite Hstrip.
  assert (split_once ":" (pretty s +:+ String ":" (pretty e)) = Some (pretty s, pretty e)) as ->.
  { apply split_once_app. by eapply str_all_no_char, Ds. }
  rewrite !py_int_pretty by lia.
  assert (truthy (pretty s +:+ String ":" (pretty e)) = true) as -> by (by destruct (pretty s)).
  simpl. destruct (Z.ltb_spec e s); [lia|].
  destruct (Z.ltb_spec s MIN_VNI); [lia|]. destruct (Z.ltb_spec MAX_VNI e); [lia|]. done.
Qed.

(** Merging leaves a list in normal form as it is. *)
Lemma merge_normal rs : normal rs -> _merge_ranges rs = rs.
Proof.
  intros Hn. destruct (merge_ranges_spec rs (proj1 Hn)) as [Hn' Hc]. by apply normal_unique.
Qed.

(** ** The operations on a table with unique owners *)

Lemma allocate_auto_vni_cases tbl now rid rs :
  unique_owner tbl -> (forall w, owner tbl w <> Some rid) -> normal rs ->
  match _allocate_auto_vni nulls_first tbl now rid rs with
  | inr (v, tbl') =>
      taken tbl tbl' v rid /\ in_ranges v rs /\ unique_owner tbl' /\
      ((tbl !! v = None /\ forall x, in_ranges x rs -> x < v -> is_Some (tbl !! x)) \/
       ((forall x, in_ranges x rs -> is_Some (tbl !! x)) /\
        exists r, reusable tbl rs v r /\
          forall w q, reusable tbl rs w q -> release_le nulls_first (v, r) (w, q)))
  | inl e => e = UnderstackVNINoAvailable (format_vni_ranges rs) /\
             forall x, in_ranges x rs -> is_Some (owner tbl x)
  end.
Proof.
  intros Hu Hfree Hn. unfold _allocate_auto_vni.
  pose proof (find_never_used_spec tbl rs Hn) as Hnever.
  destruct (_find_never_used_vni tbl rs) as [v|].
  - destruct Hnever as (Hin & Hnone & Hleast). unfold session_add. rewrite Hnone. simpl.
    rewrite (flush_take _ _ _ rid) by done. simpl.
    split; [by apply taken_insert|]. split; [done|].
    split; [by eapply unique_owner_take|]. by left.
  - pose proof (find_released_spec nulls_first tbl rs) as Hrel.
    destruct (_find_released_allocation nulls_first tbl rs) as [[v r]|].
    + destruct Hrel as [Hre Hleast]. simpl. rewrite (flush_take _ _ _ rid) by done. simpl.
      split; [by apply taken_insert|]. split; [by destruct Hre as (_ & _ & ?)|].
      split; [by eapply unique_owner_take|]. right. split; [done|]. by exists r.
    + split; [done|]. intros x Hx. destruct (Hnever x Hx) as [q Hq].
      unfold owner. rewrite Hq. simpl. destruct (router_id q) eqn:Eq; [by eexists|].
      exfalso. by apply (Hrel x q).
Qed.

Lemma allocate_specific_vni_cases tbl now rid v :
  unique_owner tbl -> (forall w, owner tbl w <> Some rid) ->
  match _allocate_specific_vni tbl now rid v with
  | inr (v', tbl') => v' = v /\ truthy (owner tbl v) = false /\
                      taken tbl tbl' v rid /\ unique_owner tbl'
  | inl e => exists holder, owner tbl v = Some holder /\ truthy holder = true /\
                            e = UnderstackVNIInUse v holder
  end.
Proof.
  intros Hu Hfree. unfold _allocate_specific_vni, owner, session_add.
  destruct (tbl !! v) as [r|]; simpl.
  - destruct (router_id r) as [holder|].
    + change (truthy (Some holder)) with (truthy holder).
      destruct (truthy holder) eqn:Ht; [by exists holder|]. simpl.
      rewrite (flush_take _ _ _ rid) by done. simpl.
      split; [done|]. split; [done|]. split; [by apply taken_insert|by eapply unique_owner_take].
    + simpl. rewrite (flush_take _ _ _ rid) by done. simpl.
      split; [done|]. split; [done|]. split; [by apply taken_insert|by eapply unique_owner_take].
  - rewrite (flush_take _ _ _ rid) by done. simpl.
    split; [done|]. split; [done|]. split; [by apply taken_insert|by eapply unique_owner_take].
Qed.

Lemma validate_in_ranges_spec v rs :
  _validate_vni_in_ranges v rs =
  if decide (in_ranges v rs) then inr tt
  else inl (UnderstackVNINotInRange v (format_vni_ranges rs)).
Proof.
  unfold _validate_vni_in_ranges.
  pose proof (segmentation_id_in_ranges_true v rs) as H. unfold segmentation_id_in_ranges in H.
  destruct (existsb _ rs), (decide (in_ranges v rs)) as [Hin|Hin]; try done.
  - exfalso. by apply Hin, H.
  - by apply H in Hin.
Qed.

(** Every table an allocation returns: the old one, or the old one with one VNI
    of the configured ranges given to the router. *)
Lemma allocate_cases self tbl now rid req :
  unique_owner tbl ->
  match allocate self tbl now rid req with
  | inr (v, tbl') =>
      (owner tbl v = Some rid /\ tbl' = tbl) \/
      (truthy (owner tbl v) = false /\ taken tbl tbl' v rid /\ unique_owner tbl' /\
       exists rs, ranges MIN_VNI MAX_VNI self = inr rs /\ in_ranges v rs)
  | inl e => e <> DBDuplicateEntry
  end.
Proof.
  intros Hu. unfold allocate_vni_for_router.
  destruct (ranges MIN_VNI MAX_VNI self) as [e|rs] eqn:Hr; simpl.
  { by apply (ranges_err self). }
  destruct (_get_router_allocation tbl rid) as [[v r]|] eqn:Hg.
  { apply router_allocation_owner in Hg. destruct (is_auto_vni req || _); [by left|done]. }
  pose proof (proj1 (router_allocation_none _ _) Hg) as Hfree.
  destruct (ranges_ok _ _ Hr) as [Hn _].
  destruct (is_auto_vni req).
  - pose proof (allocate_auto_vni_cases tbl now rid rs Hu Hfree Hn) as Ha.
    destruct (_allocate_auto_vni _ _ _ _ _) as [e|[v tbl']]; [by destruct Ha as [-> _]|].
    destruct Ha as (Ht & Hin & Hu' & Hwhich). right.
    split; [|by eauto]. unfold owner.
    by destruct Hwhich as [[-> _]|(_ & r & (-> & Hnone & _) & _)]; simpl; rewrite ?Hnone.
  - destruct (requested_int req) as [e|v] eqn:Hv; simpl.
    { destruct req as [| |z|str]; simpl in Hv; [by injection Hv as <-..|done|].
      destruct (py_int str); [done|by injection Hv as <-]. }
    rewrite validate_in_ranges_spec. destruct (decide (in_ranges v rs)); simpl; [|done].
    pose proof (allocate_specific_vni_cases tbl now rid v Hu Hfree) as Ha.
    destruct (_allocate_specific_vni _ _ _ _) as [e|[v' tbl']];
      [by destruct Ha as (h & _ & _ & ->)|].
    destruct Ha as (-> & Ht & Htk & Hu'). right. eauto 6.
Qed.

(** An allocation that gives a VNI without a row has inserted one. *)
Lemma allocated_new_row self tbl now rid req v tbl' :
  allocate self tbl now rid req = inr (v, tbl') -> tbl !! v = None -> tbl' = <[v := new_row rid now]> tbl.
Proof.
  intros Ha Hv. unfold allocate_vni_for_router in Ha. destruct (ranges _ _ self) as [|rs]; [done|]. simpl in Ha.
  assert (forall t t', session_flush t = inr t' -> t' = t) as Hfl
    by (unfold session_flush; intros t t'; case_decide; congruence).
  assert (forall t w t', (tbl ← session_flush t; mret (w, tbl)) = (inr (v, t') : res _) -> w = v /\ t' = t) as Hf.
  { intros t w t'. destruct (session_flush t) as [|t0] eqn:Ht; [done|]. apply Hfl in Ht as ->. by intros [= -> ->]. }
  destruct (_get_router_allocation tbl rid) as [[w r]|] eqn:Hg.
  - apply router_allocation_some in Hg as [Hw _]. destruct (_ || _); [|done]. injection Ha as -> _. congruence.
  - destruct (is_auto_vni req).
    + unfold _allocate_auto_vni, session_add in Ha. destruct (_find_never_used_vni tbl rs) as [w|].
      * destruct (tbl !! w) eqn:Hw; [done|]. simpl in Ha. by apply Hf in Ha as [-> ->].
      * pose proof (find_released_spec nulls_first tbl rs) as Hr.
        destruct (_find_released_allocation nulls_first tbl rs) as [[w r]|]; [|done].
        apply Hf in Ha as [-> _]. destruct Hr as [(Hw & _) _]. congruence.
    + destruct (requested_int req) as [|w]; [done|]. simpl in Ha. destruct (_validate_vni_in_ranges w rs); [done|]. simpl in Ha.
      unfold _allocate_specific_vni, session_add in Ha. destruct (tbl !! w) as [r|] eqn:Hw.
      * destruct (truthy (router_id r)); [done|]. simpl in Ha. apply Hf in Ha as [-> _]. congruence.
      * simpl in Ha. by apply Hf in Ha as [-> ->].
Qed.

Lemma release_cases tbl now rid :
  unique_owner tbl ->
  exists tbl', release_vni_for_router tbl now rid = inr tbl' /\ unique_owner tbl' /\
    (forall w, owner tbl' w = if decide (owner tbl w = Some rid) then None else owner tbl w) /\
    dom tbl' = dom tbl.
Proof.
  intros Hu. unfold release_vni_for_router.
  destruct (_get_router_allocation tbl rid) as [[v r]|] eqn:Hg.
  - pose proof (router_allocation_some _ _ _ _ Hg) as [Hv Hr].
    pose proof (router_allocation_owner _ _ _ _ Hg) as Ho.
    rewrite session_flush_unique; [|by apply unique_owner_free].
    eexists. split; [done|]. split; [by apply unique_owner_free|]. split.
    + intros w. rewrite owner_insert. simpl.
      destruct (decide (w = v)) as [->|Hne]; [by rewrite decide_True|].
      rewrite decide_False; [done|]. intros Hw. by apply Hne, (Hu _ _ rid).
    + apply dom_insert_lookup_L. by exists r.
  - exists tbl. split; [done|]. split; [done|]. split; [|done].
    intros w. rewrite decide_False; [done|]. by apply router_allocation_none.
Qed.

Lemma owner_router_deleted tbl rid w :
  owner (router_row_deleted tbl rid) w =
  if decide (owner tbl w = Some rid) then None else owner tbl w.
Proof.
  unfold owner, router_row_deleted. rewrite lookup_fmap.
  destruct (tbl !! w) as [r|]; simpl; [|by destruct (decide (None = Some rid))].
  destruct (decide (router_id r = Some rid)); [done|done].
Qed.

Lemma unique_owner_drop tbl tbl' rid :
  unique_owner tbl ->
  (forall w, owner tbl' w = if decide (owner tbl w = Some rid) then None else owner tbl w) ->
  unique_owner tbl'.
Proof.
  intros Hu Hd w1 w2 x. rewrite !Hd. destruct (decide (owner tbl w1 = Some rid)); [done|].
  destruct (decide (owner tbl w2 = Some rid)); [done|]. apply Hu.
Qed.

(** *** Histories *)

(** The insertion of an allocation's new row into the table as it is by then. *)
Definition insert_row (tbl : table) (v : Z) (rid : string) (now : time) : res table :=
  tbl ← session_add tbl v (new_row rid now); session_flush tbl.

Lemma insert_row_cases tbl v rid now :
  unique_owner tbl ->
  match insert_row tbl v rid now with
  | inr tbl' => tbl !! v = None /\ (forall w, owner tbl w <> Some rid) /\ taken tbl tbl' v rid /\ unique_owner tbl'
  | inl e => e = DBDuplicateEntry /\ (is_Some (tbl !! v) \/ exists w, owner tbl w = Some rid)
  end.
Proof.
  intros Hu. unfold insert_row, session_add. destruct (tbl !! v) as [r|] eqn:Hv; simpl; [by eauto|].
  destruct (_get_router_allocation tbl rid) as [[w r]|] eqn:Hg.
  - apply router_allocation_owner in Hg. unfold session_flush. case_decide as Hnd; [|by eauto].
    exfalso. assert (w <> v) as Hwv by (intros ->; unfold owner in Hg; by rewrite Hv in Hg).
    pose proof (proj1 (omap_owner_NoDup _ (rows_keys_NoDup _)) Hnd) as Hinj.
    unfold owner in Hg. destruct (tbl !! w) as [q|] eqn:Hw; [|done]. simpl in Hg.
    apply Hwv, (Hinj w q v (new_row rid now) rid); [| |done|done]; apply elem_of_rows.
    + by rewrite lookup_insert_ne.
    + by rewrite lookup_insert_eq.
  - pose proof (proj1 (router_allocation_none _ _) Hg) as Hfree. rewrite (flush_take _ _ _ rid) by done.
    split_and!; [done|done|by apply taken_insert|by eapply unique_owner_take].
Qed.

(** The tables that sequences of operations, each with its own configuration,
    can produce from the empty table.  An allocation that decided for a new row on
    an earlier table [seen] inserts it into the current one ([reach_raced]). *)
Inductive reachable : table -> Prop :=
| reach_empty : reachable ∅
| reach_allocate tbl self now rid req v tbl' :
    reachable tbl -> allocate self tbl now rid req = inr (v, tbl') -> reachable tbl'
| reach_raced seen tbl self now rid req v new tbl' :
    reachable seen -> reachable tbl ->
    allocate self seen now rid req = inr (v, new) -> seen !! v = None ->
    insert_row tbl v rid now = inr tbl' -> reachable tbl'
| reach_release tbl now rid tbl' :
    reachable tbl -> release_vni_for_router tbl now rid = inr tbl' -> reachable tbl'
| reach_deleted tbl rid :
    reachable tbl -> reachable (router_row_deleted tbl rid).

Definition keys_in_bounds (tbl : table) : Prop :=
  forall v, v ∈ dom tbl -> MIN_VNI <= v <= MAX_VNI.

Lemma taken_dom tbl tbl' v rid w : taken tbl tbl' v rid -> w ∈ dom tbl' -> w = v \/ w ∈ dom tbl.
Proof.
  intros (_ & Hsame & _) Hw. destruct (decide (w = v)) as [->|Hne]; [by left|right].
  rewrite elem_of_dom in *. by rewrite <- Hsame.
Qed.

Lemma reachable_inv tbl : reachable tbl -> unique_owner tbl /\ keys_in_bounds tbl.
Proof.
  induction 1 as [|tbl self now rid req v tbl' _ [Hu Hb] Ha
                 |seen tbl self now rid req v new tbl' _ [Hus Hbs] _ [Hu Hb] Ha Hnone Hins
                 |tbl now rid tbl' _ [Hu Hb] Hr|tbl rid _ [Hu Hb]].
  - split; [intros ? ? ?; unfold owner; by rewrite lookup_empty|].
    intros v. by rewrite dom_empty_L.
  - pose proof (allocate_cases self tbl now rid req Hu) as Hc. rewrite Ha in Hc.
    destruct Hc as [[_ ->]|(_ & Htk & Hu' & rs & Hrs & Hin)]; [done|].
    split; [done|]. intros w Hw. destruct (taken_dom _ _ _ _ _ Htk Hw) as [->|Hw']; [|by apply Hb].
    by apply (ranges_ok _ _ Hrs).
  - pose proof (allocate_cases self seen now rid req Hus) as Hc. rewrite Ha in Hc.
    pose proof (insert_row_cases tbl v rid now Hu) as Hi. rewrite Hins in Hi. destruct Hi as (_ & _ & Htk & Hu').
    split; [done|]. intros w Hw. destruct (taken_dom _ _ _ _ _ Htk Hw) as [->|Hw']; [|by apply Hb].
    destruct Hc as [[Ho _]|(_ & _ & _ & rs & Hrs & Hin)]; [unfold owner in Ho; by rewrite Hnone in Ho|].
    by apply (ranges_ok _ _ Hrs).
  - destruct (release_cases tbl now rid Hu) as (tbl2 & Hr2 & Hu2 & _ & Hdom).
    assert (tbl2 = tbl') as -> by congruence. split; [done|]. intros w. rewrite Hdom. apply Hb.
  - split; [eapply unique_owner_drop; [done|apply owner_router_deleted]|].
    intros w. unfold router_row_deleted. rewrite dom_fmap_L. apply Hb.
Qed.

End operations.

(** ** Properties *)

Section properties.
Variables MIN_VNI MAX_VNI : Z.
Variable nulls_first : bool.
Abbreviation allocate := (allocate_vni_for_router MIN_VNI MAX_VNI nulls_first).

(** C1. In every table that a history of allocations, some of them racing, of releases
    and of router deletions can produce, under any configurations: no router holds
    two VNIs and every VNI lies within the VXLAN bounds; a release always succeeds; an
    allocation that runs on the current table is never stopped by the database's unique
    constraints.  One that decided for a new row on an earlier table is stopped by them
    exactly when meanwhile the VNI got a row or the router a VNI; otherwise it gives the
    VNI to the router and changes no other row. *)
Theorem reachable_table_invariant tbl :
  reachable MIN_VNI MAX_VNI nulls_first tbl ->
  unique_owner tbl /\ keys_in_bounds MIN_VNI MAX_VNI tbl /\
  (forall now rid, exists tbl', release_vni_for_router tbl now rid = inr tbl') /\
  (forall self now rid req, allocate self tbl now rid req <> inl DBDuplicateEntry) /\
  (forall seen self now rid req v new,
     reachable MIN_VNI MAX_VNI nulls_first seen -> allocate self seen now rid req = inr (v, new) -> seen !! v = None ->
     new = <[v := new_row rid now]> seen /\
     match insert_row tbl v rid now with
     | inr tbl' => taken tbl tbl' v rid /\ tbl !! v = None /\ forall w, owner tbl w <> Some rid
     | inl e => e = DBDuplicateEntry /\ (is_Some (tbl !! v) \/ exists w, owner tbl w = Some rid)
     end).
Proof.
  intros Hreach. destruct (reachable_inv _ _ _ _ Hreach) as [Hu Hb].
  split_and!; [done|done| | |].
  - intros now rid. destruct (release_cases tbl now rid Hu) as (tbl' & Ht & _). by exists tbl'.
  - intros self now rid req Ha.
    pose proof (allocate_cases MIN_VNI MAX_VNI nulls_first self tbl now rid req Hu) as Hc.
    by rewrite Ha in Hc.
  - intros seen self now rid req v new Hseen Ha Hnone. destruct (reachable_inv _ _ _ _ Hseen) as [Hus _].
    split; [by eapply allocated_new_row|].
    pose proof (insert_row_cases tbl v rid now Hu) as Hi. destruct (insert_row tbl v rid now); [done|]. naive_solver.
Qed.

(** C2. Automatic allocation to a router without a VNI: it gives the least VNI of
    the configured ranges that never had a row; when every VNI of the ranges has
    a row, the unassigned one that was released first (ties by VNI); it fails
    with [UnderstackVNINoAvailable] exactly in the remaining case, when routers
    hold every VNI of the ranges.  No other row changes. *)
Theorem allocate_auto_vni_spec self tbl now rid req rs :
  unique_owner tbl -> (forall w, owner tbl w <> Some rid) ->
  ranges MIN_VNI MAX_VNI self = inr rs -> is_auto_vni req = true ->
  match allocate self tbl now rid req with
  | inr (v, tbl') =>
      taken tbl tbl' v rid /\ in_ranges v rs /\ unique_owner tbl' /\
      ((tbl !! v = None /\ forall x, in_ranges x rs -> x < v -> is_Some (tbl !! x)) \/
       ((forall x, in_ranges x rs -> is_Some (tbl !! x)) /\
        exists r, reusable tbl rs v r /\
          forall w q, reusable tbl rs w q -> release_le nulls_first (v, r) (w, q)))
  | inl e => e = UnderstackVNINoAvailable (format_vni_ranges rs) /\
             forall x, in_ranges x rs -> is_Some (owner tbl x)
  end.
Proof.
  intros Hu Hfree Hr Hauto. unfold allocate_vni_for_router. rewrite Hr. simpl.
  rewrite (proj2 (router_allocation_none tbl rid) Hfree), Hauto.
  apply allocate_auto_vni_cases; [done..|]. by eapply ranges_ok.
Qed.

(** Allocation of a requested VNI: a router that holds that VNI keeps it; one
    that holds another is refused; otherwise a VNI outside the ranges is refused,
    one held by a router is refused, and any other becomes the router's, with no
    other row changed. *)
Theorem allocate_requested_vni_spec self tbl now rid z rs :
  unique_owner tbl -> ranges MIN_VNI MAX_VNI self = inr rs -> z <> 0 ->
  (forall w, owner tbl w <> Some "") ->
  match allocate self tbl now rid (ReqInt z) with
  | inr (v, tbl') => v = z /\
      ((owner tbl z = Some rid /\ tbl' = tbl) \/
       ((forall w, owner tbl w <> Some rid) /\ owner tbl z = None /\ in_ranges z rs /\
        taken tbl tbl' z rid))
  | inl e =>
      (exists v, owner tbl v = Some rid /\ v <> z /\
                 e = UnderstackVNIRouterHasVNI rid v (ReqInt z)) \/
      ((forall w, owner tbl w <> Some rid) /\
       ((~ in_ranges z rs /\ e = UnderstackVNINotInRange z (format_vni_ranges rs)) \/
        (exists holder, in_ranges z rs /\ owner tbl z = Some holder /\ e = UnderstackVNIInUse z holder)))
  end.
Proof.
  intros Hu Hr Hz Hne. unfold allocate_vni_for_router. rewrite Hr. simpl.
  destruct (_get_router_allocation tbl rid) as [[v r]|] eqn:Hg.
  - apply router_allocation_owner in Hg. rewrite (proj2 (Z.eqb_neq z 0) Hz). simpl.
    destruct (Z.eqb_spec z v) as [->|Hzv]; simpl; [by auto|]. left. by exists v.
  - pose proof (proj1 (router_allocation_none _ _) Hg) as Hfree.
    rewrite (proj2 (Z.eqb_neq z 0) Hz). simpl. rewrite validate_in_ranges_spec.
    destruct (decide (in_ranges z rs)) as [Hin|Hin]; simpl; [|by auto].
    pose proof (allocate_specific_vni_cases tbl now rid z Hu Hfree) as Ha.
    destruct (_allocate_specific_vni _ _ _ _) as [e|[v tbl']].
    + destruct Ha as (h & Ho & _ & ->). right. split; [done|]. right. by exists h.
    + destruct Ha as (-> & Ht & Htk & _). split; [done|]. right.
      split; [done|]. split; [|done].
      destruct (owner tbl z) as [h|] eqn:Ho; [|done]. destruct h; [|done]. by apply Hne in Ho.
Qed.

(** Round trips: after an allocation the router's VNI is the one returned and
    asking again, automatically or for that VNI, returns it and leaves the table
    alone; after a release the router has no VNI and every other router keeps
    its own. *)
Theorem allocate_release_roundtrip self tbl now rid req v tbl' :
  unique_owner tbl -> allocate self tbl now rid req = inr (v, tbl') ->
  get_vni_for_router tbl' rid = Some v /\
  (forall later again, is_auto_vni again = true \/ again = ReqInt v ->
     allocate self tbl' later rid again = inr (v, tbl')) /\
  exists tbl2, release_vni_for_router tbl' now rid = inr tbl2 /\
    get_vni_for_router tbl2 rid = None /\
    forall w other, other <> rid -> owner tbl2 w = Some other <-> owner tbl' w = Some other.
Proof.
  intros Hu Ha.
  pose proof (allocate_cases MIN_VNI MAX_VNI nulls_first self tbl now rid req Hu) as Hc.
  rewrite Ha in Hc.
  assert (owner tbl' v = Some rid /\ unique_owner tbl') as [Ho Hu'].
  { destruct Hc as [[? ->]|(_ & (? & _) & ? & _)]; done. }
  assert (exists r, _get_router_allocation tbl' rid = Some (v, r)) as [r Hg].
  { destruct (_get_router_allocation tbl' rid) as [[v' r']|] eqn:Hg.
    - exists r'. do 2 f_equal. eapply Hu'; [|exact Ho]. by eapply router_allocation_owner.
    - by apply router_allocation_none with (v := v) in Hg. }
  split; [unfold get_vni_for_router; by rewrite Hg|]. split.
  - intros later again Hagain. unfold allocate_vni_for_router in *.
    destruct (ranges MIN_VNI MAX_VNI self) as [e|rs]; [done|]. simpl in *. rewrite Hg.
    destruct Hagain as [->| ->]; [done|]. simpl. by rewrite Z.eqb_refl, orb_true_r.
  - destruct (release_cases tbl' now rid Hu') as (tbl2 & Hr2 & _ & Hown & _).
    exists tbl2. split; [done|]. split.
    + unfold get_vni_for_router. rewrite (proj2 (router_allocation_none tbl2 rid)); [done|].
      intros w. rewrite Hown. destruct (decide _); [done|]. done.
    + intros w other Hne. rewrite Hown. destruct (decide (owner tbl' w = Some rid)); [|done].
      naive_solver.
Qed.

(** Parsing: when [parse_vni_ranges] succeeds the result is the normal form of
    the union of the entries' ranges and lies within the VXLAN bounds; it
    succeeds exactly when there is an entry and every entry parses. *)
Theorem parse_vni_ranges_spec entries :
  match parse_vni_ranges MIN_VNI MAX_VNI (Some entries) with
  | inr rs =>
      entries <> [] /\ normal rs /\
      (forall entry, entry ∈ entries -> exists r, parse_vni_entry MIN_VNI MAX_VNI entry = inr r) /\
      (forall x, in_ranges x rs ->  MIN_VNI <= x <= MAX_VNI) /\
      (forall x, in_ranges x rs <->
         exists entry r, entry ∈ entries /\ parse_vni_entry MIN_VNI MAX_VNI entry = inr r /\ in_range x r)
  | inl e =>
      entries = [] \/ exists entry, entry ∈ entries /\ parse_vni_entry MIN_VNI MAX_VNI entry = inl e
  end.
Proof.
  destruct (parse_vni_ranges MIN_VNI MAX_VNI (Some entries)) as [e|rs] eqn:Hp.
  - unfold parse_vni_ranges in Hp. simpl in Hp.
    destruct (res_map (parse_vni_entry MIN_VNI MAX_VNI) entries) as [e'|[|r parsed]] eqn:Hm; [| |done].
    + injection Hp as ->. right. by apply res_map_err_elem.
    + left. apply res_map_ok_iff in Hm. by inversion Hm.
  - pose proof (parse_ok _ _ _ _ Hp) as [Hn Hc].
    assert (entries <> []) by (by intros ->).
    split; [done|]. split; [done|]. split; [|split; [|done]].
    + intros entry Hin. unfold parse_vni_ranges in Hp. simpl in Hp.
      destruct (res_map _ entries) as [e'|parsed] eqn:Hm; [done|].
      apply res_map_ok_iff in Hm. apply list_elem_of_lookup in Hin as [i Hi].
      destruct (Forall2_lookup_l _ _ _ _ _ Hm Hi) as (r & _ & Hr). by exists r.
    + intros x (e & r & _ & Hpe & Hx)%Hc. apply parse_entry_bounds in Hpe. unfold in_range in Hx. lia.
Qed.

(** Printing and parsing: ranges in normal form within the bounds, written as
    [start:end] entries (the text [format_vni_ranges] joins with commas), parse
    back to themselves. *)
Theorem parse_format_roundtrip rs :
  0 <= MIN_VNI -> normal rs -> rs <> [] ->
  Forall (fun r : range => MIN_VNI <= r.1 /\ r.2 <= MAX_VNI) rs ->
  format_vni_ranges rs = String.concat "," (map show_entry rs) /\
  parse_vni_ranges MIN_VNI MAX_VNI (Some (map show_entry rs)) = inr rs.
Proof.
  intros H0 Hn Hne Hb. split; [done|]. unfold parse_vni_ranges. simpl.
  assert (res_map (parse_vni_entry MIN_VNI MAX_VNI) (map show_entry rs) = inr rs) as ->.
  { apply res_map_ok_iff. apply Forall2_fmap_l. apply Forall2_same_length_lookup_2; [done|].
    intros i x y Hx Hy. assert (x = y) as -> by congruence.
    destruct Hn as [Hv _]. pose proof (Forall_lookup_1 _ _ _ _ Hv Hy).
    pose proof (Forall_lookup_1 _ _ _ _ Hb Hy) as [? ?]. by apply parse_show_entry. }
  destruct rs as [|r rs]; [done|]. by rewrite merge_normal.
Qed.

End properties.

(** ** Concrete runs *)

Definition sample_helper : helper := Helper (Some ["100:101"; "103"]) None.
(** Two live allocations and one released. *)
Definition sample_table : table :=
  <[100 := Row (Some "r1") 1 None]> (<[101 := Row None 2 (Some 9)]>
    (<[103 := Row (Some "r3") 3 None]> ∅)).

Lemma sample_table_owner w rid :
  owner sample_table w = Some rid -> (w = 100 /\ rid = "r1") \/ (w = 103 /\ rid = "r3").
Proof.
  unfold sample_table. rewrite !owner_insert. simpl.
  repeat (destruct (decide _); [naive_solver|]). unfold owner. by rewrite lookup_empty.
Qed.
Lemma sample_table_unique : unique_owner sample_table.
Proof.
  intros w1 w2 rid H1%sample_table_owner H2%sample_table_owner. naive_solver.
Qed.

(** Two routers race for VNI 100: the second insertion is stopped, its retry gets 101. *)
Lemma reachable_table_invariant_witness :
  exists tbl, allocate_vni_for_router 1 16777215 true sample_helper ∅ 5 "r1" NotSpecified
              = inr (100, tbl) /\ unique_owner tbl /\
    insert_row tbl 100 "r2" 5 = inl DBDuplicateEntry /\
    exists tbl', allocate_vni_for_router 1 16777215 true sample_helper tbl 6 "r2" NotSpecified = inr (101, tbl').
Proof.
  eexists. split; [vm_compute; reflexivity|]. split.
  - refine (proj1 (reachable_table_invariant 1 16777215 true _ _)).
    eapply (reach_allocate 1 16777215 true ∅ sample_helper 5 "r1" NotSpecified 100);
      [apply reach_empty|vm_compute; reflexivity].
  - split; [vm_compute; reflexivity|]. eexists. vm_compute. reflexivity.
Defined.

(** Every VNI of the ranges has a row: the released one is reused. *)
Lemma allocate_auto_vni_spec_witness :
  match allocate_vni_for_router 1 16777215 true sample_helper sample_table 10 "r2" ReqNone with
  | inr (v, tbl') => v = 101 /\ taken sample_table tbl' v "r2"
  | inl _ => False
  end.
Proof.
  pose proof (allocate_auto_vni_spec 1 16777215 true sample_helper sample_table 10 "r2" ReqNone
    [(100, 101); (103, 103)] sample_table_unique) as H.
  assert (exists tbl', allocate_vni_for_router 1 16777215 true sample_helper sample_table 10 "r2" ReqNone
    = inr (101, tbl')) as [tbl' Ht] by (eexists; vm_compute; reflexivity).
  rewrite Ht in *. split; [reflexivity|]. apply H.
  - intros w Hw%sample_table_owner. naive_solver.
  - vm_compute. reflexivity.
  - reflexivity.
Defined.

(** VNI 103 is held by another router. *)
Lemma allocate_requested_vni_spec_witness :
  match allocate_vni_for_router 1 16777215 true sample_helper sample_table 10 "r2" (ReqInt 103) with
  | inr _ => False
  | inl e => e = UnderstackVNIInUse 103 "r3"
  end.
Proof.
  pose proof (allocate_requested_vni_spec 1 16777215 true sample_helper sample_table 10 "r2" 103
    [(100, 101); (103, 103)] sample_table_unique) as H.
  assert (allocate_vni_for_router 1 16777215 true sample_helper sample_table 10 "r2" (ReqInt 103)
    = inl (UnderstackVNIInUse 103 "r3")) as Ht by (vm_compute; reflexivity).
  rewrite Ht in *. destruct H as [H|H].
  - vm_compute. reflexivity.
  - discriminate.
  - intros w Hw%sample_table_owner. naive_solver.
  - reflexivity.
  - reflexivity.
Defined.

Lemma allocate_release_roundtrip_witness :
  exists tbl', allocate_vni_for_router 1 16777215 true sample_helper sample_table 10 "r2" NotSpecified
               = inr (101, tbl') /\ get_vni_for_router tbl' "r2" = Some 101.
Proof.
  eexists. split; [vm_compute; reflexivity|].
  refine (proj1 (allocate_release_roundtrip 1 16777215 true sample_helper sample_table 10 "r2"
    NotSpecified 101 _ sample_table_unique _)).
  vm_compute. reflexivity.
Defined.

Lemma parse_format_roundtrip_witness :
  parse_vni_ranges 1 16777215 (Some ["100:199"; "300:300"]) = inr [(100, 199); (300, 300)].
Proof.
  refine (proj2 (parse_format_roundtrip 1 16777215 [(100, 199); (300, 300)] _ _ _ _)).
  - lia.
  - split; repeat constructor; unfold valid_range, apart; simpl; lia.
  - discriminate.
  - repeat constructor; simpl; lia.
Defined.
