(* ===== verification/Vrf.v ===== *)
(** * The VNI service plugin of VRF routers

    Models [src/python/neutron-understack/neutron_understack/l3_router/vrf.py] and
    [evpn_compat.py]: the allocation mode of a router's flavor and the precommit
    callbacks that allocate and release its VNI.  The program state is the
    allocation table of [Vni]; the flavors plugin is the environment, and
    [jsonutils.loads] a parameter. *)
From S2P Require Import Prelude PyStr Ranges Vni.

(** A value of a metainfo object; [JOther] carries what [str] and [bool] make of it. *)
Inductive jval : Type := JStr (s : string) | JOther (text : string) (truth : bool).
Definition jval_str (v : jval) : string := match v with JStr s | JOther s _ => s end.
#[export] Instance truthy_jval : Truthy jval := fun v =>
  match v with JStr s => truthy s | JOther _ b => b end.

Abbreviation metainfo_dict := (gmap string jval).

(** A service profile's [metainfo]: absent, JSON text, or already an object. *)
Inductive metainfo : Type :=
| MetaNone
| MetaText (raw : string)
| MetaDict (d : metainfo_dict).

(** What [jsonutils.loads] returns. *)
Inductive loaded : Type := LDict (d : metainfo_dict) | LOther.

Inductive flavor_ref : Type := FlavorNone | FlavorNotSpecified | FlavorId (id : string).

(** The router being created ([payload.latest_state]). *)
Record router_dict := RouterDict {
  flavor_id : flavor_ref;
  evpn_vni : option requested;
}.

(** Calls to the plugin directory and the flavors plugin. *)
Inductive flavorE : Type -> Type :=
| GetFlavorsPlugin : flavorE bool
| GetFlavor (id : string) : flavorE (option (list string))
| GetServiceProfile (id : string) : flavorE metainfo.

Definition VNI_ALLOC_KEY : string := "vni_alloc".
Definition VNI_ALLOC_OFF : string := "off".
Definition VNI_ALLOC_ON : string := "on".
Definition VNI_ALLOC_AUTO : string := "auto".
Definition VNI_ALLOC_DEFAULT : string := VNI_ALLOC_OFF.
(* l3_router/vrf.py:27-38 _VALID_VNI_ALLOC *)
Definition _VALID_VNI_ALLOC : list string := [VNI_ALLOC_OFF; VNI_ALLOC_ON; VNI_ALLOC_AUTO].

Definition is_value_or_type_error (e : exn) : bool :=
  bool_decide (e.(exn_cls) ∈ ["ValueError"; "JSONDecodeError"; "TypeError"]).

Definition BadRequest (resource msg : string) : exn := Exn "BadRequest" [resource; msg].

Section vrf.
Variable jsonutils_loads : string -> res loaded.
Variables MIN_VNI MAX_VNI : Z.
Variable nulls_first : bool.

Abbreviation M := (prog table flavorE).

(* l3_router/vrf.py:49-74 _service_profile_metainfo *)
Fixpoint _service_profile_metainfo (profiles : list string) : M metainfo_dict :=
  match profiles with
  | [] => mret ∅
  | sp_id :: rest =>
      raw ← call (GetServiceProfile sp_id);
      match raw with
      | MetaNone => _service_profile_metainfo rest
      | MetaText raw =>
          if negb (truthy raw) then _service_profile_metainfo rest else
          match jsonutils_loads raw with
          | Err e => if is_value_or_type_error e
                     then _service_profile_metainfo rest else Raise e
          | Ok (LDict d) => mret d
          | Ok LOther => _service_profile_metainfo rest
          end
      | MetaDict d => if decide (d = ∅) then _service_profile_metainfo rest else mret d
      end
  end.

(** [mode] of a metainfo object, before validation. *)
(* l3_router/vrf.py:91-102 _router_vni_alloc *)
Definition mode_of_metainfo (d : metainfo_dict) : string :=
  let mode := lower (match d !! VNI_ALLOC_KEY with
                     | Some v => jval_str v
                     | None => VNI_ALLOC_DEFAULT
                     end) in
  if decide (mode ∈ _VALID_VNI_ALLOC) then mode else VNI_ALLOC_DEFAULT.

(* l3_router/vrf.py:77-102 _router_vni_alloc *)
Definition _router_vni_alloc (router : router_dict) : M string :=
  match router.(flavor_id) with
  | FlavorNone | FlavorNotSpecified => mret VNI_ALLOC_OFF
  | FlavorId flavor_id =>
      flavor_plugin ← call GetFlavorsPlugin;
      if negb flavor_plugin then Raise (AttributeError "get_flavor") else
      flavor ← call (GetFlavor flavor_id);
      metainfo ← _service_profile_metainfo (default [] flavor);
      mret (mode_of_metainfo metainfo)
  end.

(** The allocation inside the router's transaction. *)
Definition allocate_in_session (self : helper) (now : time) (rid : string) (r : requested) : M Z :=
  tbl ← get_state;
  '(vni, tbl') ← lift (allocate_vni_for_router MIN_VNI MAX_VNI nulls_first self tbl now rid r);
  _ ← put_state tbl';
  mret vni.

(** Returns the router as the callback leaves it. *)
(* l3_router/vrf.py:151-188 UnderstackVniPlugin._process_router_create *)
Definition _process_router_create (self : helper) (now : time) (resource_id : string)
    (router : router_dict) : M router_dict :=
  let requested_vni := default NotSpecified router.(evpn_vni) in
  let explicit := negb (is_auto_vni requested_vni) in
  mode ← _router_vni_alloc router;
  if decide (mode = VNI_ALLOC_OFF) then
    if explicit then Raise (BadRequest "router" "evpn_vni cannot be set on routers of this flavor")
    else mret router
  else if bool_decide (mode = VNI_ALLOC_ON) && negb explicit then mret router
  else
    vni ← allocate_in_session self now resource_id requested_vni;
    mret (RouterDict router.(flavor_id) (Some (ReqInt vni))).

(* l3_router/vrf.py:191-192 UnderstackVniPlugin._process_router_delete *)
Definition _process_router_delete (now : time) (resource_id : string) : M unit :=
  tbl ← get_state;
  tbl' ← lift (release_vni_for_router tbl now resource_id);
  put_state tbl'.

(** The [evpn_vni] a router shows, from the allocation row of its ORM
    relationship, looked up as an item and then as an attribute. *)
(* l3_router/vrf.py:134-144 UnderstackVniPlugin._extend_router_dict *)
Definition _extend_router_dict (item attribute : option (Z * row)) : option Z :=
  let allocation := match item with Some a => Some a | None => attribute end in
  match allocation with
  | Some (vni, r) => if truthy r.(router_id) then Some vni else None
  | None => None
  end.

(* neutron_understack/evpn_compat.py:36-44 core_provides_evpn *)
Definition core_provides_evpn (rule_names : list string) : bool :=
  existsb (fun name => bool_decide (name = "create_router:evpn_vni")) rule_names.

(** [None] stands for Understack's own definition. *)
(* neutron_understack/evpn_compat.py:47-56 api_definition *)
Definition api_definition {A} (rule_names : list string) (core_evpn_apidef : option A) : option A :=
  if core_provides_evpn rule_names then core_evpn_apidef else None.

(** ** Lemmas *)

Lemma mode_of_metainfo_valid d : mode_of_metainfo d ∈ _VALID_VNI_ALLOC.
Proof. unfold mode_of_metainfo. destruct (decide _); [done|left]. Qed.

(** *** A flavors plugin given by its contents *)

(** The metainfo object a service profile contributes, if any. *)
Definition profile_object (m : metainfo) : option metainfo_dict :=
  match m with
  | MetaNone => None
  | MetaText raw => if negb (truthy raw) then None else
                    match jsonutils_loads raw with Ok (LDict d) => Some d | _ => None end
  | MetaDict d => if decide (d = ∅) then None else Some d
  end.

Variable flavors : string -> option (list string).
Variable profiles : string -> metainfo.

Definition flavor_env (R : Type) (op : flavorE R) (s : unit) : res R * unit :=
  match op in flavorE R return res R * unit with
  | GetFlavorsPlugin => (Ok true, s)
  | GetFlavor id => (Ok (flavors id), s)
  | GetServiceProfile id => (Ok (profiles id), s)
  end.

(** The mode as the operator configures it: the first service profile of the
    flavor that carries an object decides. *)
Definition configured_mode (router : router_dict) : string :=
  match router.(flavor_id) with
  | FlavorId id => mode_of_metainfo
      (default ∅ (head (omap (fun sp => profile_object (profiles sp)) (default [] (flavors id)))))
  | _ => VNI_ALLOC_OFF
  end.

Hypothesis loads_raises : forall raw e, jsonutils_loads raw = inl e -> is_value_or_type_error e = true.

Lemma run_service_profile_metainfo sps tbl :
  run flavor_env (_service_profile_metainfo sps) tbl tt =
  (inr (default ∅ (head (omap (fun sp => profile_object (profiles sp)) sps))), tbl, tt).
Proof.
  induction sps as [|sp sps IH]; [done|].
  cbn [_service_profile_metainfo omap list_omap head]. simpl.
  destruct (profiles sp) as [|raw|d]; simpl; [done| |].
  - destruct (truthy raw); simpl; [|done].
    destruct (jsonutils_loads raw) as [e|[d|]] eqn:Hl; [|done..]. by rewrite (loads_raises _ _ Hl).
  - by destruct (decide (d = ∅)).
Qed.

Lemma run_router_vni_alloc router tbl :
  run flavor_env (_router_vni_alloc router) tbl tt = (inr (configured_mode router), tbl, tt).
Proof.
  unfold _router_vni_alloc, configured_mode. destruct (flavor_id router) as [| |id]; [done..|].
  simpl. unfold mbind, prog_mbind. by rewrite run_bind, run_service_profile_metainfo.
Qed.

Lemma configured_mode_valid router : configured_mode router ∈ _VALID_VNI_ALLOC.
Proof.
  unfold configured_mode. destruct (flavor_id router); [left..|apply mode_of_metainfo_valid].
Qed.

(** ** Properties *)

(** Router creation follows the flavor's allocation mode (the lower-cased
    [vni_alloc] of the first service profile that carries a metainfo object;
    [off] without flavor, setting or with an unknown value): [off] refuses an
    explicit VNI and otherwise leaves router and table alone; [on] without an
    explicit VNI leaves them alone too; [auto], and [on] with an explicit VNI,
    allocate, and then the router carries exactly the VNI the table records. *)
Theorem process_router_create_spec self now rid router tbl :
  let req := default NotSpecified router.(evpn_vni) in
  let explicit := negb (is_auto_vni req) in
  let mode := configured_mode router in
  run flavor_env (_process_router_create self now rid router) tbl tt =
  if decide (mode = VNI_ALLOC_OFF /\ explicit = true) then
    (inl (BadRequest "router" "evpn_vni cannot be set on routers of this flavor"), tbl, tt)
  else if decide (mode = VNI_ALLOC_AUTO \/ explicit = true) then
    match allocate_vni_for_router MIN_VNI MAX_VNI nulls_first self tbl now rid req with
    | inl e => (inl e, tbl, tt)
    | inr (v, tbl') => (inr (RouterDict router.(flavor_id) (Some (ReqInt v))), tbl', tt)
    end
  else (inr router, tbl, tt).
Proof.
  intros req explicit mode. unfold _process_router_create.
  fold req. fold explicit. unfold mbind at 1, prog_mbind at 1. rewrite run_bind, run_router_vni_alloc.
  fold mode. pose proof (configured_mode_valid router) as Hv. fold mode in Hv.
  assert (forall r, run flavor_env
    (pbind (allocate_in_session self now rid req)
       (fun vni => mret (RouterDict r (Some (ReqInt vni))))) tbl tt =
    match allocate_vni_for_router MIN_VNI MAX_VNI nulls_first self tbl now rid req with
    | inl e => (inl e, tbl, tt)
    | inr (v, tbl') => (inr (RouterDict r (Some (ReqInt v))), tbl', tt)
    end) as Halloc.
  { intros r. unfold allocate_in_session. simpl.
    by destruct (allocate_vni_for_router _ _ _ _ _ _ _ _) as [e|[v tbl']]. }
  repeat (apply elem_of_cons in Hv as [->|Hv]); [..|by apply elem_of_nil in Hv];
    destruct explicit; simpl; try apply Halloc; done.
Qed.

End vrf.

(** ** Concrete runs *)

Definition no_loads (raw : string) : res loaded := inl (ValueError [raw]).

Lemma process_router_create_spec_witness :
  run (flavor_env (fun _ => Some ["sp"]) (fun _ => MetaDict {[ "vni_alloc" := JStr "Auto" ]}))
    (_process_router_create no_loads 1 16777215 true sample_helper 7 "r1"
       (RouterDict (FlavorId "vrf") None)) ∅ tt
  = (inr (RouterDict (FlavorId "vrf") (Some (ReqInt 100))),
     {[ 100%Z := Row (Some "r1") 7 None ]}, tt).
Proof.
  rewrite (process_router_create_spec no_loads 1 16777215 true (fun _ => Some ["sp"])
    (fun _ => MetaDict {[ "vni_alloc" := JStr "Auto" ]})).
  - vm_compute. reflexivity.
  - intros raw e [= <-]. reflexivity.
Defined.
