(* ===== verification/Neutron.v ===== *)
(** * Neutron objects, calls and utilities

    The data the Neutron drivers handle, the signature [neutronE] of the calls
    they make to Neutron, OVN, Ironic and Undersync, and the helpers of
    [src/python/neutron-understack/neutron_understack/utils.py] and
    [undersync.py].  The program state holds the two module-level caches.
    Nothing is assumed about the answers of a call. *)
From S2P Require Import Prelude PyStr Ranges.

(** ** Constants of neutron_lib *)

Definition TYPE_VLAN : string := "vlan".
Definition TYPE_VXLAN : string := "vxlan".
Definition VIF_TYPE_OTHER : string := "other".
Definition VIF_TYPE_UNBOUND : string := "unbound".
Definition VNIC_BAREMETAL : string := "baremetal".
Definition VNIC_NORMAL : string := "normal".
Definition DEVICE_OWNER_ROUTER_INTF : string := "network:router_interface".
Definition DEVICE_OWNER_ROUTER_GW : string := "network:router_gateway".
Definition PORT_STATUS_ACTIVE : string := "ACTIVE".

(** ** Data *)

Abbreviation profile_dict := (gmap string string).

Record binding := Binding {
  vif_type : string; vnic_type : string; profile : profile_dict; host : string;
}.

(** [neutron.objects.ports.Port] *)
Record port := Port {
  port_id : string; port_network_id : string; port_name : option string;
  port_device_owner : string; bindings : list binding;
}.

(** A network segment, as an object and as a dict. *)
Record segment := Segment {
  segment_id : string; network_type : string; physical_network : option string;
  segmentation_id : option Z; is_dynamic : bool;
}.

Record binding_level := BindingLevel {
  pbl_port_id : string; pbl_host : string; pbl_level : Z; pbl_driver : string;
  pbl_segment_id : string;
}.

Record subport := SubPort { sp_port_id : string; sp_segmentation_id : Z }.
Record trunk := Trunk { trunk_id : string; trunk_port_id : string; sub_ports : list subport }.
(** The [trunk_details] of a port dict. *)
Record trunk_details := TrunkDetails {
  td_trunk_id : option string; td_sub_ports : option (list subport);
}.

Record fixed_ip := FixedIp { ip_subnet_id : option string; ip_address : string }.

(** The dict of a port in an ML2 context or a callback payload. *)
Record port_dict := PortDict {
  pd_id : string; pd_network_id : string; pd_mac_address : string;
  pd_vnic_type : option string; pd_profile : profile_dict;
  pd_device_owner : string; pd_device_id : option string;
  pd_fixed_ips : list fixed_ip; pd_trunk_details : option trunk_details;
}.

(** ML2's [PortContext]. *)
Record port_context := PortContext {
  current : port_dict; original : port_dict;
  ctx_vif_type : string; original_vif_type : string; original_host : string;
  original_top_bound_segment : option segment;
  network_segments : list segment; segments_to_bind : list segment;
}.

Record agent := Agent { agent_host : string; agent_id : string }.
Record ironic_node := IronicNode { node_name : option string; node_id : string }.

(** Module globals: [utils._cached_network_node_trunk_id] and
    [routers._cached_ovn_client]. *)
Record globals := Globals { cached_trunk_id : option string; cached_ovn_client : option nat }.

#[export] Instance binding_level_eq_dec : EqDecision binding_level.
Proof. solve_decision. Defined.
#[export] Instance fixed_ip_eq_dec : EqDecision fixed_ip.
Proof. solve_decision. Defined.
#[export] Instance truthy_profile : Truthy profile_dict := fun d => negb (bool_decide (d = ∅)).
#[export] Instance truthy_trunk_details : Truthy trunk_details := fun td =>
  match td.(td_trunk_id), td.(td_sub_ports) with None, None => false | _, _ => true end.

(** The options of the [ml2_understack] group the drivers read. *)
Record conf := Conf {
  default_tenant_vlan_id_range : Z * Z;
  network_node_switchport_physnet : option string;
  provisioning_network : option string;
  undersync_dry_run : bool;
  undersync_api_url : string;
}.

(** A router as the L3 plugin returns it. *)
Inductive router_flavor : Type := NoFlavor | FlavorUnset | Flavor (id : string).
Record router := Router { r_id : string; r_flavor : router_flavor; r_name : option string }.

Record subnet := Subnet { ip_version : Z; subnetpool_id : option string }.

(** OVN rows, reduced to the columns that are read. *)
Record ha_chassis_group := HaChassisGroup { hcg_name : string; hcg_ha_chassis : list string }.

(** ** Calls *)

Inductive neutronE : Type -> Type :=
(* plugin directory *)
| GetCorePlugin : neutronE bool
| GetTrunkPlugin : neutronE bool
| GetL3Plugin : neutronE bool
| GetFlavorsPlugin' : neutronE bool
| TypeManagerHas (method : string) : neutronE bool
(* ports *)
| GetPort (id : string) : neutronE (option port)
| PortsOnNetwork (network_id : string) (owners : option (list string)) : neutronE (list port)
| CreatePort (name network_id : string) : neutronE string
| DeletePort (id : string) : neutronE unit
| QueryUpdatePort (id : string) (fields : list (string * string)) : neutronE unit
| SessionCommit : neutronE unit
| SessionRollback : neutronE unit
| SessionClose : neutronE unit
| PortBindingsOnHost (host : string) : neutronE (list string)
| PortsOfRouter (router_id : string) : neutronE (list port_dict)
(* trunks *)
| GetTrunks : neutronE (list trunk)
| AddSubports (trunk_id port_id : string) (segmentation_id : option Z) : neutronE unit
| RemoveSubports (trunk_id port_id : string) : neutronE unit
(* segments and binding levels *)
| GetSegment (id : string) : neutronE (option segment)
| VlanSegmentsOf (network_id physnet : string) : neutronE (list segment)
| AllocateDynamicSegment (network_id network_type : string) (physnet : option string)
    : neutronE (option segment)
| ReleaseDynamicSegment (id : string) : neutronE unit
| GetBindingLevel (port_id host : string) (level : Z) : neutronE (option binding_level)
| GetBindingLevelExact (pbl : binding_level) : neutronE (option binding_level)
| CreateBindingLevel (pbl : binding_level) : neutronE unit
| DeleteBindingLevel (pbl : binding_level) : neutronE unit
| BindingLevelsOfSegment (segment_id : string) : neutronE (list binding_level)
| VlanSegmentRanges : neutronE (list (Z * Z))
(* the ML2 port context *)
| CtxAllocateDynamicSegment (network_type physnet : string) : neutronE segment
| ContinueBinding (segment_id : string) (next_segments : list segment) : neutronE unit
| SetBinding (segment_id vif_type status : string) : neutronE unit
(* agents and Ironic *)
| GatewayAgents : neutronE (list agent)
| NewIronicClient : neutronE unit
| IronicGetNode (name_or_id : string) : neutronE (option ironic_node)
(* Undersync *)
| HttpPost (url : string) : neutronE Z
(* OVN *)
| OrderedMechDrivers : neutronE (list (string * nat))
| CreateLswitchPort (lport_name lswitch_name : string) (tag : option Z) (network_name : option string)
    : neutronE nat
| DeleteLswitchPort (lport_name lswitch_name : string) : neutronE nat
| OvnTransaction (cmds : list nat) : neutronE unit
| LookupHCG (name : string) : neutronE (option ha_chassis_group)
| ListHaChassis : neutronE (list string)
| LookupChassis (name : string) : neutronE bool
| NbTransactionBegin : neutronE unit
| NbTransactionCommit : neutronE unit
| NbTransactionAbort : neutronE unit
| SyncNetworkHCG (network_id router_id : string) (chassis_prio : list (string * Z)) : neutronE string
| LookupLogicalRouter (name : string) : neutronE (option (gmap string string))
| LookupLogicalRouterPort (name : string) : neutronE bool
| SetLrpHCG (lrp_name hcg : string) : neutronE unit
(* L3, flavors, subnets *)
| GetRouter (id : string) : neutronE router
| GetFlavorId (id : string) : neutronE string
| GetFlavorNextProviders (flavor_id : string) : neutronE (list string)
| GetSubnet (id : string) : neutronE subnet
| GetSubnetPoolScope (id : string) : neutronE (option string).

(** The calls that change Neutron, OVN or a switch. *)
Definition writes {R} (op : neutronE R) : bool :=
  match op with
  | CreatePort _ _ | DeletePort _ | QueryUpdatePort _ _ | SessionCommit
  | AddSubports _ _ _ | RemoveSubports _ _
  | AllocateDynamicSegment _ _ _ | ReleaseDynamicSegment _
  | CreateBindingLevel _ | DeleteBindingLevel _
  | CtxAllocateDynamicSegment _ _ | ContinueBinding _ _ | SetBinding _ _ _
  | HttpPost _ | CreateLswitchPort _ _ _ _ | DeleteLswitchPort _ _ | OvnTransaction _
  | NbTransactionCommit | SyncNetworkHCG _ _ _ | SetLrpHCG _ _ => true
  | _ => false
  end.

Definition is_write (ev : event neutronE) : bool := match ev with Ev op _ => writes op end.

Abbreviation N := (prog globals neutronE).

Section utils.
Variable CONF : conf.

(** ** Ports *)

(* neutron_understack/utils.py:29-34 fetch_port_object *)
Definition fetch_port_object (port_id : string) : N port :=
  p ← call (GetPort port_id);
  match p with
  | None => Raise (ValueError [port_id])
  | Some p => mret p
  end.

(* neutron_understack/utils.py:37-56 create_neutron_port_for_segment *)
Definition create_neutron_port_for_segment (seg : segment) (context : port_context) : N string :=
  core_plugin ← call GetCorePlugin;
  if negb core_plugin then Raise (PlainException ["Unable to retrieve core_plugin."]) else
  call (CreatePort ("uplink-" +:+ seg.(segment_id)) context.(current).(pd_network_id)).

(* neutron_understack/utils.py:104-108 fetch_trunk_plugin *)
Definition fetch_trunk_plugin : N unit :=
  trunk_plugin ← call GetTrunkPlugin;
  if negb trunk_plugin then Raise (PlainException ["unable to obtain trunk plugin"]) else mret tt.

(* neutron_understack/utils.py:59-73 remove_subport_from_trunk *)
Definition remove_subport_from_trunk (trunk_id subport_id : string) : N unit :=
  _ ← fetch_trunk_plugin;
  call (RemoveSubports trunk_id subport_id).

(** [with get_admin_session() as session: body]: commit on success, roll back and
    re-raise on an exception, close in any case. *)
(* neutron_understack/utils.py:76-86 get_admin_session *)
Definition with_admin_session (body : N unit) : N unit :=
  let closing (p : N unit) : N unit :=
    _ ← try_except p (fun e => _ ← call SessionClose; Raise e);
    call SessionClose in
  closing (try_except (_ ← body; call SessionCommit)
             (fun e => _ ← call SessionRollback; Raise e)).

(* neutron_understack/utils.py:89-91 update_port_fields *)
Definition update_port_fields (port_id : string) (fields : list (string * string)) : N unit :=
  with_admin_session (call (QueryUpdatePort port_id fields)).

(* neutron_understack/utils.py:94-95 clear_device_id_for_port *)
Definition clear_device_id_for_port (port_id : string) : N unit :=
  update_port_fields port_id [("device_id", "")].

(* neutron_understack/utils.py:98-101 set_device_id_and_owner_for_port *)
Definition set_device_id_and_owner_for_port (port_id device_id device_owner : string) : N unit :=
  update_port_fields port_id [("device_id", device_id); ("device_owner", device_owner)].

(** ** The network node's trunk *)

(* neutron_understack/utils.py:111-117 _is_uuid *)
Definition _is_uuid (value : string) : bool := is_uuid_text value.

(* neutron_understack/utils.py:120-154 _get_gateway_agent_host *)
Definition _get_gateway_agent_host : N string :=
  gateway_agents ← call GatewayAgents;
  match gateway_agents with
  | [] => Raise (PlainException ["No alive OVN Controller Gateway agents found."])
  | a :: _ => mret a.(agent_host)
  end.

(* neutron_understack/ironic.py:63-68 IronicClient.baremetal_node_name *)
Definition baremetal_node_name (node_uuid : string) : N (option string) :=
  try_except (node ← call (IronicGetNode node_uuid);
              mret (match node with Some n => n.(node_name) | None => None end))
    (fun _ => mret None).

(* neutron_understack/ironic.py:70-75 IronicClient.baremetal_node_uuid *)
Definition baremetal_node_uuid (node_name : string) : N (option string) :=
  try_except (node ← call (IronicGetNode node_name);
              mret (match node with Some n => Some n.(node_id) | None => None end))
    (fun _ => mret None).

(* neutron_understack/utils.py:157-216 _resolve_gateway_host *)
Definition _resolve_gateway_host (gateway_host : string) : N (string * string) :=
  _ ← call NewIronicClient;
  if _is_uuid gateway_host then
    resolved_name ← baremetal_node_name gateway_host;
    match resolved_name with
    | Some name => if truthy name then mret (name, gateway_host)
                   else Raise (PlainException [gateway_host])
    | None => Raise (PlainException [gateway_host])
    end
  else
    resolved_uuid ← baremetal_node_uuid gateway_host;
    match resolved_uuid with
    | Some uuid => if truthy uuid then mret (gateway_host, uuid)
                   else Raise (PlainException [gateway_host])
    | None => Raise (PlainException [gateway_host])
    end.

(** The set of port ids is kept in order of first appearance. *)
(* neutron_understack/utils.py:219-260 _find_ports_bound_to_hosts *)
Definition _find_ports_bound_to_hosts (host_filters : list string) : N (list port) :=
  gateway_port_ids ← fold_each (fun ids host =>
      bs ← call (PortBindingsOnHost host);
      mret (foldl (fun ids id => if decide (id ∈ ids) then ids else ids ++ [id]) ids bs))
    host_filters [];
  match gateway_port_ids with
  | [] => Raise (PlainException host_filters)
  | _ =>
      found ← map_each gateway_port_ids (fun id => call (GetPort id));
      match omap id found with
      | [] => Raise (PlainException host_filters)
      | gateway_ports => mret gateway_ports
      end
  end.

(* neutron_understack/utils.py:263-301 _find_trunk_by_port_ids *)
Definition _find_trunk_by_port_ids (port_ids : list string) (gateway_host : string) : N string :=
  trunks ← call GetTrunks;
  match trunks with
  | [] => Raise (PlainException ["No trunks found in the system"])
  | _ =>
      match list_find (fun t => t.(trunk_port_id) ∈ port_ids) trunks with
      | Some (_, t) => mret t.(trunk_id)
      | None => Raise (PlainException [gateway_host; pretty (length port_ids); pretty (length trunks)])
      end
  end.

(* neutron_understack/utils.py:307-372 fetch_network_node_trunk_id *)
Definition fetch_network_node_trunk_id : N string :=
  g ← get_state;
  match g.(cached_trunk_id) with
  | Some (String _ _ as cached) => mret cached
  | _ =>
      core_plugin ← call GetCorePlugin;
      if negb core_plugin then Raise (PlainException ["Unable to obtain core plugin"]) else
      gateway_host ← _get_gateway_agent_host;
      '(gateway_host, gateway_node_uuid) ← _resolve_gateway_host gateway_host;
      let host_filters := [gateway_host] ++
        (if truthy gateway_node_uuid then [gateway_node_uuid] else []) in
      gateway_ports ← _find_ports_bound_to_hosts host_filters;
      found ← _find_trunk_by_port_ids (map port_id gateway_ports) gateway_host;
      g ← get_state;
      _ ← put_state (Globals (Some found) g.(cached_ovn_client));
      mret found
  end.

(** ** Segments *)

(* neutron_understack/utils.py:375-397 allocate_dynamic_segment *)
Definition allocate_dynamic_segment (network_id network_type : string) (physnet : option string)
    : N (option segment) :=
  core_plugin ← call GetCorePlugin;
  if negb core_plugin then Raise (PlainException ["unable to obtain core_plugin"]) else
  supported ← call (TypeManagerHas "allocate_dynamic_segment");
  if (supported : bool) then call (AllocateDynamicSegment network_id network_type physnet)
  else Raise (PlainException ["core type_manager does not support dynamic segment allocation."]).

(* neutron_understack/utils.py:400-416 create_binding_profile_level *)
Definition create_binding_profile_level (port_id host : string) (level : Z) (segment_id : string)
    : N binding_level :=
  let params := BindingLevel port_id host level "understack" segment_id in
  pbl ← call (GetBindingLevelExact params);
  match pbl with
  | Some pbl => mret pbl
  | None => _ ← call (CreateBindingLevel params); mret params
  end.

(* neutron_understack/utils.py:419-423 port_binding_level_by_port_id *)
Definition port_binding_level_by_port_id (port_id host : string) : N (option binding_level) :=
  call (GetBindingLevel port_id host 0).

(* neutron_understack/utils.py:426-428 ports_bound_to_segment *)
Definition ports_bound_to_segment (segment_id : string) : N (list binding_level) :=
  call (BindingLevelsOfSegment segment_id).

(* neutron_understack/utils.py:431-433 network_segment_by_id *)
Definition network_segment_by_id (id : string) : N (option segment) := call (GetSegment id).

(* neutron_understack/utils.py:436-453 network_segment_by_physnet *)
Definition network_segment_by_physnet (network_id physnet : string) : N (option segment) :=
  segments ← call (VlanSegmentsOf network_id physnet);
  mret (head segments).

(* neutron_understack/utils.py:456-461 release_dynamic_segment *)
Definition release_dynamic_segment (segment_id : string) : N unit :=
  core_plugin ← call GetCorePlugin;
  if negb core_plugin then Raise (AttributeError "type_manager") else
  supported ← call (TypeManagerHas "release_dynamic_segment");
  if (supported : bool) then call (ReleaseDynamicSegment segment_id) else mret tt.

(* neutron_understack/utils.py:464-466 is_dynamic_network_segment *)
Definition is_dynamic_network_segment (segment_id : string) : N bool :=
  segment ← network_segment_by_id segment_id;
  match segment with
  | Some s => mret s.(is_dynamic)
  | None => Raise (AttributeError "is_dynamic")
  end.

(* neutron_understack/utils.py:469-472 release_segment_if_unused *)
Definition release_segment_if_unused (s : segment) : N unit :=
  bound ← ports_bound_to_segment s.(segment_id);
  if negb (truthy bound) && s.(is_dynamic) then release_dynamic_segment s.(segment_id)
  else mret tt.

(** ** Predicates *)

(** [port.bindings[0]] *)
Definition first_binding (p : port) : res binding :=
  match p.(bindings) with b :: _ => Ok b | [] => Err IndexError end.

(* neutron_understack/utils.py:475-482 parent_port_is_bound *)
Definition parent_port_is_bound (p : port) : res bool :=
  b ← first_binding p;
  mret (bool_decide (b.(vif_type) = VIF_TYPE_OTHER) && bool_decide (b.(vnic_type) = VNIC_BAREMETAL)
        && truthy b.(profile)).

(* neutron_understack/utils.py:485-487 fetch_subport_network_id *)
Definition fetch_subport_network_id (subport_id : string) : N string :=
  p ← fetch_port_object subport_id; mret p.(port_network_id).

(* neutron_understack/utils.py:490-494 is_valid_vlan_network_segment *)
Definition is_valid_vlan_network_segment (s : segment) : bool :=
  bool_decide (s.(network_type) = TYPE_VLAN) && bool_decide (s.(physical_network) <> None).

(* neutron_understack/utils.py:497-498 is_baremetal_port *)
Definition is_baremetal_port (context : port_context) : res bool :=
  match context.(current).(pd_vnic_type) with
  | Some v => Ok (bool_decide (v = VNIC_BAREMETAL))
  | None => Err (KeyError "binding:vnic_type")
  end.

(* neutron_understack/utils.py:501-506 is_router_interface *)
Definition is_router_interface (context : port_context) : bool :=
  bool_decide (context.(current).(pd_device_owner)
                 ∈ [DEVICE_OWNER_ROUTER_INTF; DEVICE_OWNER_ROUTER_GW]).

(* neutron_understack/utils.py:509-517 vlan_segment_for_physnet *)
Definition vlan_segment_for_physnet (context : port_context) (physnet : string) : option segment :=
  snd <$> list_find (fun s => s.(network_type) = TYPE_VLAN /\ s.(physical_network) = Some physnet)
            context.(network_segments).

(** ** Tenant VLAN ranges *)

(* neutron_understack/utils.py:520-523 fetch_vlan_network_segment_ranges *)
Definition fetch_vlan_network_segment_ranges : N (list range) := call VlanSegmentRanges.

(* neutron_understack/utils.py:526-531 allowed_tenant_vlan_id_ranges *)
Definition allowed_tenant_vlan_id_ranges : N (list range) :=
  all_vlan_ranges ← fetch_vlan_network_segment_ranges;
  let merged_ranges := merge_overlapped_ranges all_vlan_ranges in
  mret (fetch_gaps_in_ranges merged_ranges CONF.(default_tenant_vlan_id_range)).

(** ** Undersync *)

Definition UndersyncError : exn := Exn "UndersyncError" [].

(** [response.raise_for_status()] raises [HTTPError] on the 4xx and 5xx codes. *)
(* neutron_understack/undersync.py:38-43 Undersync._log_and_raise_for_status *)
Definition _log_and_raise_for_status (status : Z) : res unit :=
  if ((400 <=? status) && (status <? 600))%Z then Err UndersyncError else Ok tt.

(* neutron_understack/undersync.py:45-58 Undersync._undersync_post *)
Definition _undersync_post (action vlan_group : string) : N Z :=
  let vlan_group := url_quote vlan_group in
  status ← call (HttpPost (CONF.(undersync_api_url) +:+ "/v1/vlan-group/" +:+ vlan_group
                             +:+ "/" +:+ action));
  _ ← lift (_log_and_raise_for_status status);
  mret status.

(* neutron_understack/undersync.py:60-63 Undersync.sync *)
Definition undersync_sync (vlan_group : string) : N Z :=
  if CONF.(undersync_dry_run) then _undersync_post "dry-run" vlan_group
  else _undersync_post "sync" vlan_group.

(* neutron_understack/undersync.py:65-66 Undersync.dry_run *)
Definition undersync_dry (vlan_group : string) : N Z := _undersync_post "dry-run" vlan_group.

(* neutron_understack/undersync.py:68-69 Undersync.force *)
Definition undersync_force (vlan_group : string) : N Z := _undersync_post "force" vlan_group.

End utils.
