(* ===== verification/NeutronStore.v ===== *)
(** * Neutron's database as the drivers rely on it

    [SegmentStore] states what Neutron's documented object API promises about
    network segments and port binding levels: reads answer from the tables,
    [create]/[delete] change the one row, [release_dynamic_segment] removes the
    segment.  The drivers' theorems about segments are proved against this
    interface; [store_env] is an executable environment that implements it. *)
From S2P Require Import Prelude PyStr Ranges Neutron.

(** What a table operation leaves alone. *)
Abbreviation levels_t := (list binding_level).
Abbreviation segments_t := (gmap string segment).

(** The rows a level query selects. *)
Definition level_key (p h : string) (n : Z) (l : binding_level) : Prop :=
  l.(pbl_port_id) = p /\ l.(pbl_host) = h /\ l.(pbl_level) = n.
#[export] Instance level_key_dec p h n l : Decision (level_key p h n l).
Proof. unfold level_key. apply _. Defined.

Definition find_level (p h : string) (n : Z) (ls : levels_t) : option binding_level :=
  head (filter (level_key p h n) ls).
Definition levels_of_segment (sid : string) (ls : levels_t) : levels_t :=
  filter (fun l => l.(pbl_segment_id) = sid) ls.

Class SegmentStore {S : Type}
    (step : forall R, neutronE R -> S -> res R -> S -> Prop)
    (levels : S -> levels_t) (segments : S -> segments_t)
    {F : Type} (frame : S -> F) : Prop := {
  core_plugin_law s r s' : step _ GetCorePlugin s r s' -> r = inr true /\ s' = s;
  type_manager_law m s r s' : step _ (TypeManagerHas m) s r s' -> r = inr true /\ s' = s;
  get_segment_law id s r s' :
    step _ (GetSegment id) s r s' -> r = inr (segments s !! id) /\ s' = s;
  get_level_law p h n s r s' :
    step _ (GetBindingLevel p h n) s r s' -> r = inr (find_level p h n (levels s)) /\ s' = s;
  levels_of_segment_law sid s r s' :
    step _ (BindingLevelsOfSegment sid) s r s' ->
    r = inr (levels_of_segment sid (levels s)) /\ s' = s;
  delete_level_law l s r s' :
    step _ (DeleteBindingLevel l) s r s' ->
    r = inr tt /\ levels s' = filter (fun l' => l' <> l) (levels s) /\ segments s' = segments s /\
    frame s' = frame s;
  release_segment_law id s r s' :
    step _ (ReleaseDynamicSegment id) s r s' ->
    r = inr tt /\ levels s' = levels s /\ segments s' = delete id (segments s) /\
    frame s' = frame s;
}.

(** ** An executable environment *)

Record store := Store {
  st_ports : gmap string port;
  st_levels : levels_t;
  st_segments : segments_t;
  (** the network of each segment *)
  st_segment_network : gmap string string;
  st_ranges : list range;
  (** URLs posted, and other writes, in order *)
  st_posts : list string;
}.

Definition set_levels (s : store) (ls : levels_t) : store :=
  Store s.(st_ports) ls s.(st_segments) s.(st_segment_network) s.(st_ranges) s.(st_posts).
Definition set_segments (s : store) (sg : segments_t) : store :=
  Store s.(st_ports) s.(st_levels) sg s.(st_segment_network) s.(st_ranges) s.(st_posts).
Definition add_post (s : store) (url : string) : store :=
  Store s.(st_ports) s.(st_levels) s.(st_segments) s.(st_segment_network) s.(st_ranges)
    (s.(st_posts) ++ [url]).

Definition unavailable {R} : res R := Err (Exn "NotImplementedError" []).

Definition store_env (R : Type) (op : neutronE R) (s : store) : res R * store :=
  match op in neutronE R return res R * store with
  | GetCorePlugin => (Ok true, s)
  | TypeManagerHas _ => (Ok true, s)
  | GetPort id => (Ok (s.(st_ports) !! id), s)
  | GetSegment id => (Ok (s.(st_segments) !! id), s)
  | VlanSegmentsOf net phys =>
      (Ok (snd <$> filter (fun p : string * segment =>
              s.(st_segment_network) !! p.1 = Some net /\ p.2.(network_type) = TYPE_VLAN /\
              p.2.(physical_network) = Some phys) (map_to_list s.(st_segments))), s)
  | GetBindingLevel p h n => (Ok (find_level p h n s.(st_levels)), s)
  | GetBindingLevelExact l => (Ok (head (filter (fun l' => l' = l) s.(st_levels))), s)
  | BindingLevelsOfSegment sid => (Ok (levels_of_segment sid s.(st_levels)), s)
  | DeleteBindingLevel l =>
      (Ok tt, set_levels s (filter (fun l' => l' <> l) s.(st_levels)))
  | CreateBindingLevel l => (Ok tt, set_levels s (s.(st_levels) ++ [l]))
  | ReleaseDynamicSegment id => (Ok tt, set_segments s (delete id s.(st_segments)))
  | VlanSegmentRanges => (Ok s.(st_ranges), s)
  | HttpPost url => (Ok 200%Z, add_post s url)
  | _ => (unavailable, s)
  end.

Definition store_step (R : Type) (op : neutronE R) (s : store) (r : res R) (s' : store) : Prop :=
  store_env R op s = (r, s').

(** What segment operations leave alone. *)
Definition st_frame (s : store) : gmap string port * list range * list string :=
  (s.(st_ports), s.(st_ranges), s.(st_posts)).

#[export] Instance store_is_segment_store :
  SegmentStore store_step st_levels st_segments st_frame.
Proof.
  split; unfold store_step; simpl; intros; by simplify_eq.
Qed.

(** A [wp] against [store_step] is a fact about the run. *)
Lemma wp_store_run {A} (p : N A) Q g s :
  wp store_step p Q g s -> let '(r, g', s') := run store_env p g s in Q r g' s'.
Proof.
  apply wp_run. intros R op s0. unfold store_step. by destruct (store_env R op s0).
Qed.

(** Steps through the calls whose answer the interface fixes. *)
Ltac store_call :=
  match goal with |- wp _ (call _) _ _ _ => idtac end;
  let r := fresh "r" in let s' := fresh "s'" in let Hs := fresh "Hs" in
  wp_answer r s' Hs;
  first [ apply core_plugin_law in Hs as [-> ->]
        | apply type_manager_law in Hs as [-> ->]
        | apply get_segment_law in Hs as [-> ->]
        | apply get_level_law in Hs as [-> ->]
        | apply levels_of_segment_law in Hs as [-> ->]
        | apply delete_level_law in Hs as (-> & ? & ? & ?)
        | apply release_segment_law in Hs as (-> & ? & ? & ?) ]; wp_simp.
Ltac store_go := repeat first [wp_pure | store_call].

(** What releasing an unused dynamic segment does to the segment table. *)
Definition release_unused (sid : string) (ls : levels_t) (sg : segments_t) : segments_t :=
  match levels_of_segment sid ls, sg !! sid with
  | [], Some seg => if seg.(is_dynamic) then delete sid sg else sg
  | _, _ => sg
  end.

Section segment_store.
Context {S : Type} {step : forall R, neutronE R -> S -> res R -> S -> Prop}
  {levels : S -> levels_t} {segments : S -> segments_t} {F : Type} {frame : S -> F}
  `{!SegmentStore step levels segments frame}.

Lemma wp_release_segment_if_unused seg (Q : res unit -> globals -> S -> Prop) g s :
  segments s !! seg.(segment_id) = Some seg ->
  (forall s', levels s' = levels s -> frame s' = frame s ->
     segments s' = release_unused seg.(segment_id) (levels s) (segments s) -> Q (inr tt) g s') ->
  wp step (release_segment_if_unused seg) Q g s.
Proof.
  intros Hseg HQ. unfold release_segment_if_unused, ports_bound_to_segment, release_unused in *.
  rewrite Hseg in HQ. store_go.
  destruct (levels_of_segment (segment_id seg) (levels s)); cbn [truthy truthy_list]; wp_simp;
    [|store_go; by apply HQ].
  destruct (is_dynamic seg); [|store_go; by apply HQ].
  unfold release_dynamic_segment. store_go. by apply HQ.
Qed.

End segment_store.
