(* ===== verification/Trunk.v ===== *)
(** * The trunk driver

    Models [src/python/neutron-understack/neutron_understack/trunk.py]: the
    callbacks of [UnderStackTrunkDriver] on trunks and subports.  Subports are
    checked and their VLAN segments allocated before the commit; segments are
    released and the switch is synchronised after it. *)
From S2P Require Import Prelude PyStr Ranges Neutron NeutronStore.

Definition SubportSegmentationIDError (seg_id : Z) (subport_id ranges : string) : exn :=
  Exn "SubportSegmentationIDError" [pretty seg_id; subport_id; ranges].
Definition TrunkBadRequest (resource port_id : string) : exn :=
  Exn "BadRequest" [resource; port_id].

(** The callback payload: [states[0]], [latest_state], [metadata["subports"]]. *)
Record trunk_payload := TrunkPayload {
  tp_state : trunk; tp_latest_state : trunk; tp_subports : list subport;
}.

Section trunk.
Variable CONF : conf.

(** [profile.get("physical_network")] when it is a non-empty name. *)
Definition physnet_of (p : profile_dict) : option string :=
  match p !! "physical_network" with
  | Some s => if truthy s then Some s else None
  | None => None
  end.

(* neutron_understack/trunk.py:138-165 UnderStackTrunkDriver._check_subports_segmentation_id *)
Definition _check_subports_segmentation_id (subports : list subport) (trunk_id : string) : N unit :=
  nn ← fetch_network_node_trunk_id;
  if decide (trunk_id = nn) then mret tt else
  ns_ranges ← allowed_tenant_vlan_id_ranges CONF;
  for_each subports (fun sp =>
    if negb (segmentation_id_in_ranges sp.(sp_segmentation_id) ns_ranges)
    then Raise (SubportSegmentationIDError sp.(sp_segmentation_id) sp.(sp_port_id)
                  (printable_ranges ns_ranges))
    else mret tt).

(** The segment dict or object; [None] is not subscriptable. *)
(* neutron_understack/trunk.py:178-197 UnderStackTrunkDriver._handle_segment_allocation *)
Definition allocate_for_subport (vlan_group_name binding_host : string)
    (allowed_vlan_ids : list Z) (sp : subport) : N (list Z) :=
  subport_network_id ← fetch_subport_network_id sp.(sp_port_id);
  current_segment ← network_segment_by_physnet subport_network_id vlan_group_name;
  network_segment ← match current_segment with
                    | Some s => mret (Some s)
                    | None => allocate_dynamic_segment subport_network_id TYPE_VLAN
                                (Some vlan_group_name)
                    end;
  match network_segment with
  | None => Raise (TypeError ["NoneType"; "segmentation_id"])
  | Some s =>
      match s.(segmentation_id) with
      | None => Raise (TypeError ["int"; "NoneType"])
      | Some vlan =>
          _ ← create_binding_profile_level sp.(sp_port_id) binding_host 0 s.(segment_id);
          mret (if decide (vlan ∈ allowed_vlan_ids) then allowed_vlan_ids
                else allowed_vlan_ids ++ [vlan])
      end
  end.

(* neutron_understack/trunk.py:174-198 UnderStackTrunkDriver._handle_segment_allocation *)
Definition _handle_segment_allocation (subports : list subport)
    (vlan_group_name binding_host : string) : N (list Z) :=
  fold_each (allocate_for_subport vlan_group_name binding_host) subports [].

(* neutron_understack/trunk.py:200-214 UnderStackTrunkDriver._add_subports_networks_to_parent_port_switchport *)
Definition _add_subports_networks_to_parent_port_switchport
    (parent_port : port) (subports : list subport) : N unit :=
  b ← lift (first_binding parent_port);
  match physnet_of b.(profile) with
  | None => Raise (TrunkBadRequest "port" parent_port.(port_id))
  | Some vlan_group_name =>
      _ ← _handle_segment_allocation subports vlan_group_name b.(host); mret tt
  end.

(* neutron_understack/trunk.py:127-136 UnderStackTrunkDriver._handle_tenant_vlan_id_and_switchport_config *)
Definition _handle_tenant_vlan_id_and_switchport_config (subports : list subport) (t : trunk) : N unit :=
  _ ← _check_subports_segmentation_id subports t.(trunk_id);
  parent_port_obj ← fetch_port_object t.(trunk_port_id);
  bound ← lift (parent_port_is_bound parent_port_obj);
  if (bound : bool) then _add_subports_networks_to_parent_port_switchport parent_port_obj subports
  else mret tt.

(* neutron_understack/trunk.py:167-172 UnderStackTrunkDriver.configure_trunk *)
Definition configure_trunk (td : trunk_details) (port_id : string) : N unit :=
  parent_port_obj ← fetch_port_object port_id;
  _add_subports_networks_to_parent_port_switchport parent_port_obj (default [] td.(td_sub_ports)).

(* neutron_understack/trunk.py:252-258 UnderStackTrunkDriver._delete_unused_segment *)
Definition _delete_unused_segment (segment_id : string) : N (option segment) :=
  network_segment ← network_segment_by_id segment_id;
  bound ← ports_bound_to_segment segment_id;
  _ ← (if truthy bound then mret tt else
       dynamic ← is_dynamic_network_segment segment_id;
       if (dynamic : bool) then release_dynamic_segment segment_id else mret tt);
  mret network_segment.

(* neutron_understack/trunk.py:260-267 UnderStackTrunkDriver._handle_segment_deallocation *)
Definition deallocate_subport (host : string) (sp : subport) : N unit :=
  level ← port_binding_level_by_port_id sp.(sp_port_id) host;
  match level with
  | None => mret tt
  | Some binding_level =>
      _ ← call (DeleteBindingLevel binding_level);
      _ ← _delete_unused_segment binding_level.(pbl_segment_id);
      mret tt
  end.

(* neutron_understack/trunk.py:260-267 UnderStackTrunkDriver._handle_segment_deallocation *)
Definition _handle_segment_deallocation (subports : list subport) (host : string) : N unit :=
  for_each subports (deallocate_subport host).

(* neutron_understack/trunk.py:269-279 UnderStackTrunkDriver._handle_subports_removal *)
Definition _handle_subports_removal (binding_host : string) (subports : list subport)
    (invoke_undersync : bool) (vlan_group_name : option string) : N unit :=
  _ ← _handle_segment_deallocation subports binding_host;
  match vlan_group_name with
  | Some g => if invoke_undersync && truthy g then _ ← undersync_sync CONF g; mret tt else mret tt
  | None => mret tt
  end.

(* neutron_understack/trunk.py:216-225 UnderStackTrunkDriver.clean_trunk *)
Definition clean_trunk (td : trunk_details) (host : string) : N unit :=
  _handle_subports_removal host (default [] td.(td_sub_ports)) false None.

(* neutron_understack/trunk.py:227-250 UnderStackTrunkDriver._clean_parent_port_switchport_config *)
Definition _clean_parent_port_switchport_config (t : trunk) (subports : list subport) : N unit :=
  parent_port_obj ← fetch_port_object t.(trunk_port_id);
  bound ← lift (parent_port_is_bound parent_port_obj);
  if negb bound then mret tt else
  b ← lift (first_binding parent_port_obj);
  _handle_subports_removal b.(host) subports true (physnet_of b.(profile)).

(* neutron_understack/trunk.py:303-316 UnderStackTrunkDriver._validate_parent_port_physnet *)
Definition _validate_parent_port_physnet (t : trunk) : N unit :=
  parent_port_obj ← fetch_port_object t.(trunk_port_id);
  bound ← lift (parent_port_is_bound parent_port_obj);
  if negb bound then mret tt else
  b ← lift (first_binding parent_port_obj);
  match physnet_of b.(profile) with
  | None => Raise (TrunkBadRequest "port" parent_port_obj.(port_id))
  | Some _ => mret tt
  end.

(* neutron_understack/trunk.py:281-284 UnderStackTrunkDriver.subports_added *)
Definition subports_added (payload : trunk_payload) : N unit :=
  _handle_tenant_vlan_id_and_switchport_config payload.(tp_subports) payload.(tp_state).

(* neutron_understack/trunk.py:286-301 UnderStackTrunkDriver.subports_added_post *)
Definition subports_added_post (payload : trunk_payload) : N unit :=
  parent_port ← fetch_port_object payload.(tp_state).(trunk_port_id);
  bound ← lift (parent_port_is_bound parent_port);
  if negb bound then mret tt else
  b ← lift (first_binding parent_port);
  match physnet_of b.(profile) with
  | None => mret tt
  | Some vlan_group_name => _ ← undersync_sync CONF vlan_group_name; mret tt
  end.

(* neutron_understack/trunk.py:318-319 UnderStackTrunkDriver.subports_deleted_precommit *)
Definition subports_deleted_precommit (payload : trunk_payload) : N unit :=
  _validate_parent_port_physnet payload.(tp_state).

(* neutron_understack/trunk.py:321-324 UnderStackTrunkDriver.subports_deleted *)
Definition subports_deleted (payload : trunk_payload) : N unit :=
  _clean_parent_port_switchport_config payload.(tp_state) payload.(tp_subports).

(* neutron_understack/trunk.py:326-330 UnderStackTrunkDriver.trunk_created *)
Definition trunk_created (payload : trunk_payload) : N unit :=
  let t := payload.(tp_latest_state) in
  if truthy t.(sub_ports) then _handle_tenant_vlan_id_and_switchport_config t.(sub_ports) t
  else mret tt.

(* neutron_understack/trunk.py:332-335 UnderStackTrunkDriver.trunk_deleted_precommit *)
Definition trunk_deleted_precommit (payload : trunk_payload) : N unit :=
  if truthy payload.(tp_state).(sub_ports) then _validate_parent_port_physnet payload.(tp_state)
  else mret tt.

(* neutron_understack/trunk.py:337-341 UnderStackTrunkDriver.trunk_deleted *)
Definition trunk_deleted (payload : trunk_payload) : N unit :=
  let t := payload.(tp_state) in
  if truthy t.(sub_ports) then _clean_parent_port_switchport_config t t.(sub_ports) else mret tt.

(** The subscriptions: which callback an event reaches. *)
Inductive trunk_resource := SUBPORTS | TRUNK.
Inductive trunk_event := PRECOMMIT_CREATE | AFTER_CREATE | PRECOMMIT_DELETE | AFTER_DELETE.

(* neutron_understack/trunk.py:80-125 UnderStackTrunkDriver.register *)
Definition trunk_callback (r : trunk_resource) (e : trunk_event) (p : trunk_payload) : N unit :=
  match r, e with
  | SUBPORTS, PRECOMMIT_CREATE => subports_added p
  | SUBPORTS, AFTER_CREATE => subports_added_post p
  | SUBPORTS, PRECOMMIT_DELETE => subports_deleted_precommit p
  | SUBPORTS, AFTER_DELETE => subports_deleted p
  | TRUNK, PRECOMMIT_CREATE => trunk_created p
  | TRUNK, PRECOMMIT_DELETE => trunk_deleted_precommit p
  | TRUNK, AFTER_DELETE => trunk_deleted p
  | TRUNK, AFTER_CREATE => mret tt
  end.

End trunk.

(** ** Deallocation as a function on the tables *)

(** What removing one subport does to binding levels and segments. *)
Definition dealloc (h : string) (st : levels_t * segments_t) (sp : subport) : levels_t * segments_t :=
  match find_level sp.(sp_port_id) h 0 st.1 with
  | None => st
  | Some l =>
      let ls := filter (fun l' => l' <> l) st.1 in
      (ls, release_unused l.(pbl_segment_id) ls st.2)
  end.

(** Neutron's schema: [(port_id, host, level)] is the primary key of the levels,
    and a level refers to an existing segment. *)
Definition tables_ok (st : levels_t * segments_t) : Prop :=
  (forall l1 l2, l1 ∈ st.1 -> l2 ∈ st.1 ->
     level_key l1.(pbl_port_id) l1.(pbl_host) l1.(pbl_level) l2 -> l1 = l2) /\
  (forall l, l ∈ st.1 -> is_Some (st.2 !! l.(pbl_segment_id))).

Lemma find_level_some p h n ls l :
  find_level p h n ls = Some l -> l ∈ ls /\ level_key p h n l.
Proof.
  intros Hl%head_Some_elem_of. by apply list_elem_of_filter in Hl as [? ?].
Qed.
Lemma find_level_none p h n ls : find_level p h n ls = None <-> forall l, l ∈ ls -> ~ level_key p h n l.
Proof.
  unfold find_level. rewrite head_None. split.
  - intros Hf l Hl Hk. assert (l ∈ filter (level_key p h n) ls) as Hin by by apply list_elem_of_filter.
    rewrite Hf in Hin. by apply elem_of_nil in Hin.
  - intros Hno. destruct (filter (level_key p h n) ls) as [|l r] eqn:Hf; [done|].
    assert (l ∈ filter (level_key p h n) ls) as Hin by (rewrite Hf; left).
    apply list_elem_of_filter in Hin as [Hk Hl]. by apply Hno in Hk.
Qed.

Lemma levels_of_segment_nil sid ls :
  levels_of_segment sid ls = [] <-> forall l, l ∈ ls -> l.(pbl_segment_id) <> sid.
Proof.
  unfold levels_of_segment. split.
  - intros Hf l Hl Hk. assert (l ∈ filter (fun l => pbl_segment_id l = sid) ls) as Hin
      by by apply list_elem_of_filter.
    rewrite Hf in Hin. by apply elem_of_nil in Hin.
  - intros Hno. destruct (filter _ ls) as [|l r] eqn:Hf; [done|].
    assert (l ∈ l :: r) as Hin by left. rewrite <- Hf in Hin.
    apply list_elem_of_filter in Hin as [Hk Hl]. by apply Hno in Hk.
Qed.

(** A level of one of the subports on the host. *)
Definition removed (h : string) (sps : list subport) (l : binding_level) : Prop :=
  l.(pbl_host) = h /\ l.(pbl_level) = 0%Z /\ exists sp, sp ∈ sps /\ sp.(sp_port_id) = l.(pbl_port_id).

#[export] Instance removed_dec h sps l : Decision (removed h sps l).
Proof.
  refine (cast_if (decide (l.(pbl_host) = h /\ l.(pbl_level) = 0%Z /\
    Exists (fun sp => sp.(sp_port_id) = l.(pbl_port_id)) sps)));
    unfold removed; by rewrite <- Exists_exists.
Defined.

(** Deallocation as a relation: exactly the subports' levels go, and a segment
    goes exactly when it is dynamic, one of those levels used it and no
    remaining level does. *)
Definition deallocated (h : string) (sps : list subport) (st st' : levels_t * segments_t) : Prop :=
  (forall l, l ∈ st'.1 <-> l ∈ st.1 /\ ~ removed h sps l) /\
  st'.2 ⊆ st.2 /\
  (forall id seg, st.2 !! id = Some seg ->
     st'.2 !! id = None <->
     seg.(is_dynamic) = true /\
     (exists l, l ∈ st.1 /\ removed h sps l /\ l.(pbl_segment_id) = id) /\
     (forall l, l ∈ st'.1 -> l.(pbl_segment_id) <> id)).

Lemma release_unused_cases sid ls sg seg :
  sg !! sid = Some seg ->
  let unused := seg.(is_dynamic) = true /\ (forall l, l ∈ ls -> l.(pbl_segment_id) <> sid) in
  (unused /\ release_unused sid ls sg = delete sid sg) \/ (~ unused /\ release_unused sid ls sg = sg).
Proof.
  intros Hs unused. unfold release_unused. rewrite Hs.
  destruct (levels_of_segment sid ls) eqn:Hl.
  - pose proof (proj1 (levels_of_segment_nil sid ls) Hl).
    destruct (is_dynamic seg) eqn:Hd; [left|right]; unfold unused; [done|].
    split; [|done]. by intros [? _].
  - right. split; [|done]. intros [_ Hno].
    apply levels_of_segment_nil in Hno. congruence.
Qed.

Lemma removed_one h sp l : removed h [sp] l <-> level_key sp.(sp_port_id) h 0 l.
Proof.
  unfold removed, level_key. split.
  - intros (? & ? & ? & ->%list_elem_of_singleton & ->). done.
  - intros (-> & ? & ?). split; [done|]. split; [done|]. exists sp.
    split; [by apply list_elem_of_singleton|done].
Qed.

Lemma dealloc_one h sp st :
  tables_ok st -> tables_ok (dealloc h st sp) /\ deallocated h [sp] st (dealloc h st sp).
Proof.
  intros [Hpk Hfk]. unfold dealloc.
  destruct (find_level (sp_port_id sp) h 0 st.1) as [l|] eqn:Hf.
  2: { rewrite find_level_none in Hf. split; [done|]. split; [|split; [done|]].
       - intros l. rewrite removed_one. naive_solver.
       - intros id seg Hs. rewrite Hs. split; [done|]. intros (_ & (l & Hl & Hr & _) & _).
         apply removed_one in Hr. by apply Hf in Hr. }
  apply find_level_some in Hf as [Hl Hk]. set (ls := filter (fun l' => l' <> l) st.1).
  assert (forall l', l' ∈ ls <-> l' ∈ st.1 /\ ~ removed h [sp] l') as Hls.
  { intros l'. unfold ls. rewrite list_elem_of_filter, removed_one. split.
    - intros [Hne Hin]. split; [done|]. intros Hk'. apply Hne, (Hpk l' l Hin Hl).
      unfold level_key in *. intuition congruence.
    - intros [Hin Hno]. split; [|done]. by intros ->. }
  destruct (Hfk l Hl) as [seg Hseg].
  pose proof (release_unused_cases (pbl_segment_id l) ls st.2 seg Hseg) as Hrel.
  assert (l ∈ st.1 /\ removed h [sp] l) as [_ Hrem] by (split; [done|by apply removed_one]).
  split; [split; simpl|split; [done|split; simpl]].
  - intros l1 l2 [H1 _]%Hls [H2 _]%Hls. by apply Hpk.
  - intros l' Hin. pose proof (proj1 (Hls l') Hin) as [Hl' _].
    destruct Hrel as [[[_ Hun] ->]|[_ ->]]; [|by apply Hfk].
    rewrite lookup_delete_ne; [by apply Hfk|]. intros Heq. by apply (Hun l' Hin).
  - destruct Hrel as [[_ ->]|[_ ->]]; [apply delete_subseteq|done].
  - intros id seg' Hid. destruct (decide (id = pbl_segment_id l)) as [->|Hne].
    + assert (seg' = seg) as -> by congruence.
      destruct Hrel as [[Hun ->]|[Hun ->]].
      * rewrite lookup_delete_eq. split; [|done]. intros _. destruct Hun. eauto 6.
      * rewrite Hseg. split; [done|]. intros (Hd & _ & Hno). by destruct Hun.
    + assert (release_unused (pbl_segment_id l) ls st.2 !! id = Some seg') as ->.
      { destruct Hrel as [[_ ->]|[_ ->]]; [by rewrite lookup_delete_ne|done]. }
      split; [done|]. intros (_ & (l' & Hl' & Hr' & <-) & _). exfalso. apply Hne.
      assert (l' = l) as ->; [|done]. apply removed_one in Hr'. apply (Hpk l' l Hl' Hl).
      unfold level_key in *. intuition congruence.
Qed.

Lemma removed_cons h sp sps l : removed h (sp :: sps) l <-> removed h [sp] l \/ removed h sps l.
Proof.
  unfold removed. setoid_rewrite elem_of_cons. setoid_rewrite elem_of_nil. naive_solver.
Qed.

Lemma deallocated_trans h sp sps st st1 st2 :
  deallocated h [sp] st st1 -> deallocated h sps st1 st2 -> deallocated h (sp :: sps) st st2.
Proof.
  intros (HL1 & Hsub1 & HS1) (HL2 & Hsub2 & HS2). split; [|split].
  - intros l. rewrite HL2, HL1, (removed_cons h sp sps l). tauto.
  - by etrans.
  - intros id seg Hid. specialize (HS1 id seg Hid).
    destruct (st1.2 !! id) as [seg1|] eqn:H1.
    + assert (seg1 = seg) as -> by (eapply lookup_weaken in H1; [|done]; congruence).
      rewrite (HS2 id seg H1). split.
      * intros (Hd & (l & Hl & Hr & Hid') & Hno). split; [done|]. split; [|done].
        exists l. rewrite removed_cons. split; [by apply HL1|]. auto.
      * intros (Hd & (l & Hl & Hr & Hid') & Hno). split; [done|]. split; [|done].
        destruct (decide (Exists (fun l' => pbl_segment_id l' = id) st1.1)) as [Hex|Hnex].
        -- apply Exists_exists in Hex as (l' & Hl' & Hid''). exists l'.
           split; [done|]. split; [|done].
           destruct (decide (removed h sps l')) as [|Hnr]; [done|]. exfalso.
           apply (Hno l'); [|done]. by apply HL2.
        -- exfalso. assert (Some seg = None) as [=]. apply HS1. split; [done|]. split.
           ++ exists l. split; [done|]. split; [|done].
              destruct (decide (removed h [sp] l)) as [|Hnr]; [done|]. exfalso.
              apply Hnex, Exists_exists. exists l. split; [by apply HL1|done].
           ++ intros l' Hl' Hid''. apply Hnex, Exists_exists. eauto.
    + assert (st2.2 !! id = None) as H2.
      { apply eq_None_not_Some. intros [x Hx]. eapply lookup_weaken in Hx; [|done]. congruence. }
      split; [intros _|done]. destruct HS1 as [HS1 _]. destruct HS1 as (Hd & (l & Hl & Hr & Hid') & Hno); [done|].
      split; [done|]. split; [exists l; rewrite removed_cons; auto|].
      intros l' Hl'. apply HL2 in Hl' as [Hl' _]. by apply Hno.
Qed.

Lemma dealloc_all h sps st :
  tables_ok st ->
  tables_ok (foldl (dealloc h) st sps) /\ deallocated h sps st (foldl (dealloc h) st sps).
Proof.
  revert st. induction sps as [|sp sps IH]; intros st Hok; simpl.
  - split; [done|]. split; [|split; [done|]].
    + intros l. unfold removed. setoid_rewrite elem_of_nil. naive_solver.
    + intros id seg Hs. rewrite Hs. split; [done|].
      intros (_ & (l & _ & (_ & _ & sp & Hsp%elem_of_nil & _) & _) & _). done.
  - destruct (dealloc_one h sp st Hok) as [Hok1 Hd1].
    destruct (IH _ Hok1) as [Hok2 Hd2]. split; [done|]. by eapply deallocated_trans.
Qed.

(** ** The driver implements it *)

Section deallocation.
Context {S : Type} {step : forall R, neutronE R -> S -> res R -> S -> Prop}
  {levels : S -> levels_t} {segments : S -> segments_t} {F : Type} {frame : S -> F}
  `{!SegmentStore step levels segments frame}.

Definition tables (s : S) : levels_t * segments_t := (levels s, segments s).

Lemma wp_delete_unused_segment sid g s :
  is_Some (segments s !! sid) ->
  wp step (_delete_unused_segment sid) (fun r g' s' =>
    (exists seg, r = inr seg) /\ g' = g /\ levels s' = levels s /\ frame s' = frame s /\
    segments s' = release_unused sid (levels s) (segments s)) g s.
Proof.
  intros [seg Hseg]. unfold _delete_unused_segment, release_unused, network_segment_by_id,
    ports_bound_to_segment. rewrite Hseg. store_go.
  destruct (levels_of_segment sid (levels s)) as [|l ls]; cbn [truthy truthy_list];
    [|by store_go; eauto 6].
  unfold is_dynamic_network_segment, network_segment_by_id. store_go. rewrite Hseg. store_go.
  destruct (is_dynamic seg); [|by store_go; eauto 6].
  unfold release_dynamic_segment. store_go. eauto 6.
Qed.

Lemma wp_deallocate_subport h sp g s :
  tables_ok (tables s) ->
  wp step (deallocate_subport h sp) (fun r g' s' =>
    r = inr tt /\ g' = g /\ frame s' = frame s /\ tables s' = dealloc h (tables s) sp) g s.
Proof.
  intros [Hpk Hfk]. unfold deallocate_subport, dealloc, tables, port_binding_level_by_port_id in *.
  store_go. cbn [fst snd] in *.
  destruct (find_level (sp_port_id sp) h 0 (levels s)) as [l|] eqn:Hl; [|by store_go].
  store_go.
  assert (is_Some (segments s' !! pbl_segment_id l)) as Hseg.
  { replace (segments s') with (segments s). apply Hfk. by eapply find_level_some. }
  eapply wp_mono; [|by apply wp_delete_unused_segment].
  intros r g' s2 ((seg & ->) & -> & HL & HF & HS). store_go. split; [done|]. split; [done|].
  split; [congruence|]. rewrite HS, HL. congruence.
Qed.

Lemma wp_segment_deallocation sps h g s :
  tables_ok (tables s) ->
  wp step (_handle_segment_deallocation sps h) (fun r g' s' =>
    r = inr tt /\ g' = g /\ frame s' = frame s /\
    tables s' = foldl (dealloc h) (tables s) sps) g s.
Proof.
  unfold _handle_segment_deallocation. revert s.
  induction sps as [|sp sps IH]; intros s Hok; [done|].
  apply wp_for_each_cons. eapply wp_mono; [|by apply wp_deallocate_subport].
  intros r g' s1 (-> & -> & HF & HT). eapply wp_mono; [|apply IH; rewrite HT; by apply dealloc_one].
  intros r g' s2 (-> & -> & HF2 & HT2). rewrite HT2, HT. split; [done|]. split; [done|].
  split; [congruence|done].
Qed.

(** C6. Removing subports releases exactly what they held.  Against any Neutron
    whose tables behave as documented: [clean_trunk] deletes the level-0 binding
    levels of the given subports on the host and no other, and releases a
    segment exactly when it is dynamic, one of the deleted levels used it and no
    remaining level of any port does - no VLAN in use is released and none
    leaks. *)
Theorem clean_trunk_releases_exactly_unused CONF td h g s :
  tables_ok (tables s) ->
  wp step (clean_trunk CONF td h) (fun r g' s' =>
    r = inr tt /\ g' = g /\ tables_ok (tables s') /\
    deallocated h (default [] td.(td_sub_ports)) (tables s) (tables s')) g s.
Proof.
  intros Hok. unfold clean_trunk, _handle_subports_removal. wp_pure.
  eapply wp_mono; [|by apply wp_segment_deallocation].
  intros r g' s' (-> & -> & _ & HT). wp_pure. rewrite HT. split; [done|]. split; [done|].
  by apply dealloc_all.
Qed.

End deallocation.

(** ** Rejection before any write *)

(** An environment whose shared VLAN segment ranges are [rs]; everything else may
    answer anything.  The state says whether a write was made. *)
Definition ranges_step (rs : list range) (R : Type) (op : neutronE R) (w : bool)
    (r : res R) (w' : bool) : Prop :=
  w' = w || writes op /\
  match op in neutronE R return res R -> Prop with
  | VlanSegmentRanges => fun r => r = inr rs
  | _ => fun _ => True
  end r.

Definition tenant_ranges (CONF : conf) (rs : list range) : list range :=
  fetch_gaps_in_ranges (merge_overlapped_ranges rs) CONF.(default_tenant_vlan_id_range).

(** What the check must decide: the first subport outside the tenant ranges is
    refused, unless the trunk is the network node's. *)
Definition check_outcome (CONF : conf) (rs : list range) (nn tid : string) (sps : list subport) : res unit :=
  if decide (tid = nn) then inr tt else
  match list_find (fun sp => ~ in_ranges sp.(sp_segmentation_id) (tenant_ranges CONF rs)) sps with
  | None => inr tt
  | Some (_, sp) => inl (SubportSegmentationIDError sp.(sp_segmentation_id) sp.(sp_port_id)
                           (printable_ranges (tenant_ranges CONF rs)))
  end.

Lemma wp_cached_trunk_id {S} (step : forall R, neutronE R -> S -> res R -> S -> Prop) nn Q g s :
  g.(cached_trunk_id) = Some nn -> nn <> "" -> Q (inr nn) g s ->
  wp step fetch_network_node_trunk_id Q g s.
Proof.
  intros Hc Hne HQ. unfold fetch_network_node_trunk_id. wp_pure. wp_pure. rewrite Hc.
  destruct nn; [done|]. by wp_pure.
Qed.

Lemma wp_check_subports CONF rs sps tid nn g w :
  g.(cached_trunk_id) = Some nn -> nn <> "" ->
  wp (ranges_step rs) (_check_subports_segmentation_id CONF sps tid)
    (fun r g' w' => r = check_outcome CONF rs nn tid sps /\ g' = g /\ w' = w) g w.
Proof.
  intros Hc Hne. unfold _check_subports_segmentation_id, check_outcome. wp_pure.
  apply (wp_cached_trunk_id _ nn); [done..|]. destruct (decide (tid = nn)); [by wp_pure|].
  unfold allowed_tenant_vlan_id_ranges, fetch_vlan_network_segment_ranges. repeat wp_pure.
  wp_answer r w' Hs. destruct Hs as [-> ->]. rewrite orb_false_r. repeat wp_pure.
  fold (tenant_ranges CONF rs).
  induction sps as [|sp sps IH]; [done|]. apply wp_for_each_cons. simpl.
  pose proof (segmentation_id_in_ranges_true (sp_segmentation_id sp) (tenant_ranges CONF rs)) as Hin.
  destruct (segmentation_id_in_ranges _ _), (decide _) as [Hd|Hd]; simpl.
  - exfalso. by apply Hd, Hin.
  - wp_pure. eapply wp_mono; [|exact IH]. intros r g' w' (-> & -> & ->).
    destruct (list_find _ sps) as [[]|]; done.
  - by wp_pure.
  - exfalso. apply Hd. by intros ?%Hin.
Qed.

(** Subports whose VLAN id the tenants may not use are refused before
    anything is written: when the check of a trunk's subports fails, both
    creation callbacks fail with that error - for the first offending subport -
    and no call that changes Neutron, OVN or a switch has been made, whatever
    the other calls answer. *)
Theorem subports_refused_before_writes CONF rs payload nn g e :
  g.(cached_trunk_id) = Some nn -> nn <> "" ->
  (check_outcome CONF rs nn payload.(tp_state).(trunk_id) payload.(tp_subports) = inl e ->
   wp (ranges_step rs) (subports_added CONF payload) (fun r _ w => r = inl e /\ w = false) g false) /\
  (check_outcome CONF rs nn payload.(tp_latest_state).(trunk_id)
     payload.(tp_latest_state).(sub_ports) = inl e ->
   wp (ranges_step rs) (trunk_created CONF payload) (fun r _ w => r = inl e /\ w = false) g false).
Proof.
  intros Hc Hne.
  assert (forall sps t, check_outcome CONF rs nn t.(trunk_id) sps = inl e ->
    wp (ranges_step rs) (_handle_tenant_vlan_id_and_switchport_config CONF sps t)
      (fun r _ w => r = inl e /\ w = false) g false) as Hh.
  { intros sps t He. unfold _handle_tenant_vlan_id_and_switchport_config. wp_pure.
    eapply wp_mono; [|by apply wp_check_subports]. intros r g' w (-> & -> & ->). by rewrite He. }
  split; [apply Hh|]. intros He. unfold trunk_created.
  destruct (sub_ports (tp_latest_state payload)) as [|sp sps] eqn:Hs;
    [|by apply (Hh (sp :: sps))].
  unfold check_outcome in He. by destruct (decide (trunk_id _ = nn)).
Qed.

(** ** Cleanup after the commit *)

(** Removing subports from a bound parent port: before the commit the request
    is refused exactly when the port names no physical network; after it the
    subports' binding levels and unused dynamic segments are gone in either
    case, and the switch is synchronised once, last, exactly when there is a
    physical network to synchronise. *)
Theorem subports_deleted_spec CONF payload p b g s :
  s.(st_ports) !! payload.(tp_state).(trunk_port_id) = Some p ->
  first_binding p = inr b -> parent_port_is_bound p = inr true ->
  tables_ok (s.(st_levels), s.(st_segments)) ->
  run store_env (subports_deleted_precommit payload) g s =
    (match physnet_of b.(profile) with
     | None => inl (TrunkBadRequest "port" p.(port_id))
     | Some _ => inr tt
     end, g, s) /\
  let '(r, g', s') := run store_env (subports_deleted CONF payload) g s in
  r = inr tt /\ g' = g /\
  deallocated b.(host) payload.(tp_subports) (s.(st_levels), s.(st_segments))
    (s'.(st_levels), s'.(st_segments)) /\
  s'.(st_posts) = s.(st_posts) ++
    match physnet_of b.(profile) with
    | None => []
    | Some grp => [CONF.(undersync_api_url) +:+ "/v1/vlan-group/" +:+ url_quote grp +:+ "/" +:+
                   (if CONF.(undersync_dry_run) then "dry-run" else "sync")]
    end.
Proof.
  intros Hp Hb Hbound Hok.
  split.
  { unfold subports_deleted_precommit, _validate_parent_port_physnet, fetch_port_object. simpl.
    rewrite Hp. simpl. rewrite Hbound. simpl. rewrite Hb. simpl. by destruct (physnet_of (profile b)). }
  apply wp_store_run. unfold subports_deleted, _clean_parent_port_switchport_config,
    fetch_port_object. repeat wp_pure. wp_answer r s' Hs. injection Hs as <- <-. rewrite Hp.
  wp_simp. repeat wp_pure. rewrite Hbound. wp_simp. repeat wp_pure. rewrite Hb. wp_simp.
  unfold _handle_subports_removal. wp_pure.
  eapply wp_mono; [|by apply (wp_segment_deallocation (S := store) (levels := st_levels)
                                (segments := st_segments) (frame := st_frame))].
  intros r g' s' (-> & -> & HF & HT). unfold tables in HT. injection HF as _ _ HF.
  pose proof (proj2 (dealloc_all (host b) (tp_subports payload) _ Hok)) as Hd. rewrite <- HT in Hd.
  destruct (physnet_of (profile b)) as [grp|] eqn:Hg.
  - assert (truthy grp = true) as ->.
    { unfold physnet_of in Hg. destruct (profile b !! _) as [x|]; [|done].
      destruct (truthy x) eqn:Ht; [|done]. by injection Hg as <-. }
    unfold undersync_sync. wp_simp.
    destruct (undersync_dry_run CONF); unfold _undersync_post; repeat wp_pure;
      wp_answer r s2 Hs; injection Hs as <- <-; repeat wp_pure;
      change (_log_and_raise_for_status 200) with (@inr exn unit tt); repeat wp_pure; wp_simp;
      repeat wp_pure; simpl; by rewrite HF.
  - wp_pure. rewrite app_nil_r. done.
Qed.

(** ** Concrete runs *)

Definition sample_conf : conf := Conf (1, 3799)%Z (Some "f20-1-network") (Some "prov-net") false
  "http://undersync".
Definition sample_parent : port := Port "parent" "net-a" None "" [Binding VIF_TYPE_OTHER
  VNIC_BAREMETAL {[ "physical_network" := "f20-1-network" ]} "host1"].
Definition level_of (p seg : string) : binding_level := BindingLevel p "host1" 0 "understack" seg.
(** Two subports share one dynamic segment; a third uses a static one. *)
Definition sample_store : store := Store {[ "parent" := sample_parent ]}
  [level_of "sub1" "seg1"; level_of "sub2" "seg1"; level_of "sub3" "seg2"]
  (<["seg1" := Segment "seg1" TYPE_VLAN (Some "f20-1-network") (Some 1800%Z) true]>
    {["seg2" := Segment "seg2" TYPE_VLAN (Some "f20-1-network") (Some 1801%Z) false]})
  ∅ [] [].
Definition sample_subports : list subport := [SubPort "sub1" 100; SubPort "sub2" 101].
Definition sample_trunk : trunk := Trunk "tr1" "parent" sample_subports.
Definition sample_payload : trunk_payload := TrunkPayload sample_trunk sample_trunk sample_subports.

Lemma sample_tables_ok : tables_ok (st_levels sample_store, st_segments sample_store).
Proof.
  split; simpl.
  - intros l1 l2 H1 H2. rewrite !elem_of_cons, elem_of_nil in H1, H2. unfold level_key.
    destruct H1 as [->|[->|[->|[]]]], H2 as [->|[->|[->|[]]]]; simpl; intros (? & ? & ?); done.
  - intros l Hl. rewrite !elem_of_cons, elem_of_nil in Hl.
    destruct Hl as [->|[->|[->|[]]]]; vm_compute; by eexists.
Qed.

Lemma clean_trunk_releases_exactly_unused_witness :
  let '(r, _, s') := run store_env
     (clean_trunk sample_conf (TrunkDetails (Some "tr1") (Some sample_subports)) "host1")
     (Globals None None) sample_store in
  r = inr tt /\ deallocated "host1" sample_subports
     (st_levels sample_store, st_segments sample_store) (st_levels s', st_segments s').
Proof.
  pose proof (wp_store_run _ _ _ _ (clean_trunk_releases_exactly_unused sample_conf
    (TrunkDetails (Some "tr1") (Some sample_subports)) "host1" (Globals None None) sample_store
    sample_tables_ok)) as H.
  destruct (run _ _ _ _) as [[r g'] s']. destruct H as (-> & _ & _ & Hd). split; [reflexivity|exact Hd].
Defined.

Lemma subports_refused_before_writes_witness :
  run store_env (subports_added sample_conf sample_payload) (Globals (Some "nn") None)
    (Store ∅ [] ∅ ∅ [(50, 150)%Z] [])
  = (inl (SubportSegmentationIDError 100 "sub1" "1-49,151-3799"), Globals (Some "nn") None,
     Store ∅ [] ∅ ∅ [(50, 150)%Z] []) /\
  wp (ranges_step [(50, 150)%Z]) (subports_added sample_conf sample_payload)
    (fun r _ w => r = inl (SubportSegmentationIDError 100 "sub1" "1-49,151-3799") /\ w = false)
    (Globals (Some "nn") None) false.
Proof.
  split; [vm_compute; reflexivity|].
  refine (proj1 (subports_refused_before_writes sample_conf [(50, 150)%Z] sample_payload "nn"
    (Globals (Some "nn") None) _ _ _) _); [reflexivity|discriminate|vm_compute; reflexivity].
Defined.

Lemma subports_deleted_spec_witness :
  run store_env (subports_deleted_precommit sample_payload) (Globals None None) sample_store =
    (inr tt, Globals None None, sample_store).
Proof.
  refine (proj1 (subports_deleted_spec sample_conf sample_payload sample_parent
    (Binding VIF_TYPE_OTHER VNIC_BAREMETAL {[ "physical_network" := "f20-1-network" ]} "host1")
    (Globals None None) sample_store _ _ _ _)).
  - vm_compute. reflexivity.
  - reflexivity.
  - vm_compute. reflexivity.
  - exact sample_tables_ok.
Defined.
