(* ===== verification/Svi.v ===== *)
(** * SVI routers

    Models [src/python/neutron-understack/neutron_understack/l3_router/svi.py]:
    which subnets may be attached to a router of the SVI flavor (IPv4 only, one
    address scope per IP version) and the refusal of external gateways. *)
From S2P Require Import Prelude PyStr Ranges Neutron.
Local Open Scope Z_scope.

(** [n_exc.BadRequest(resource="router", msg=...)]: the rule and its values. *)
Definition SviBadRequest (rule : string) (args : list string) : exn :=
  Exn "BadRequest" ("router" :: rule :: args).

(* l3_router/svi.py:15-16 _svi_provider_driver *)
Definition _svi_provider_driver : string := "neutron_understack.l3_router.svi.Svi".

(* l3_router/svi.py:19-36 _is_svi_router *)
Definition _is_svi_router (r : router) : N bool :=
  match r.(r_flavor) with
  | NoFlavor | FlavorUnset => mret false
  | Flavor flavor_id =>
      if negb (truthy flavor_id) then mret false else
      flavor_plugin ← call GetFlavorsPlugin';
      if negb flavor_plugin then Raise (AttributeError "get_flavor") else
      flavor ← call (GetFlavorId flavor_id);
      providers ← call (GetFlavorNextProviders flavor);
      match providers with
      | [] => Raise IndexError
      | driver :: _ => mret (bool_decide (driver = _svi_provider_driver))
      end
  end.

(* l3_router/svi.py:39-57 _get_subnet_address_scope *)
Definition _get_subnet_address_scope (subnet_id : string) : N (Z * option string) :=
  core_plugin ← call GetCorePlugin;
  if negb core_plugin then Raise (AttributeError "get_subnet") else
  subnet ← call (GetSubnet subnet_id);
  match subnet.(subnetpool_id) with
  | Some pool => if truthy pool
                 then scope_id ← call (GetSubnetPoolScope pool); mret (subnet.(ip_version), scope_id)
                 else mret (subnet.(ip_version), None)
  | None => mret (subnet.(ip_version), None)
  end.

(** [[ip["subnet_id"] for ip in port.get("fixed_ips", []) if ip.get("subnet_id")]] *)
Definition subnet_ids_of (ips : list fixed_ip) : list string :=
  omap (fun ip => match ip.(ip_subnet_id) with
                  | Some s => if truthy s then Some s else None
                  | None => None
                  end) ips.

(* l3_router/svi.py:60-82 _get_existing_router_subnet_ids *)
Definition _get_existing_router_subnet_ids (router_id : string) : N (list string) :=
  core_plugin ← call GetCorePlugin;
  if negb core_plugin then Raise (AttributeError "get_ports") else
  ports ← call (PortsOfRouter router_id);
  mret (concat (map (fun p => subnet_ids_of p.(pd_fixed_ips)) ports)).

(* l3_router/svi.py:85-90 _router_interface_attach_mode *)
Definition _router_interface_attach_mode (keys : list string) : string :=
  if decide ("port_id" ∈ keys) then "port"
  else if decide ("subnet_id" ∈ keys) then "subnet"
  else "unknown".

Abbreviation scopes_dict := (gmap Z string).

(** The body of the first loop once the subnet's version and scope are known. *)
(* l3_router/svi.py:108-153 _validate_address_scope_rules *)
Definition add_new_scope (new_scopes : scopes_dict) (subnet_id : string)
    (v : Z * option string) : res scopes_dict :=
  let '(ip_version, scope_id) := v in
  if ip_version =? 6 then Err (SviBadRequest "IPv6 subnet" [subnet_id]) else
  match scope_id with
  | Some ((String _ _) as scope_id) =>
      match new_scopes !! ip_version with
      | Some previous =>
          if decide (previous = scope_id) then Ok (<[ip_version := scope_id]> new_scopes)
          else Err (SviBadRequest "scopes in the same request" [pretty ip_version; scope_id; previous])
      | None => Ok (<[ip_version := scope_id]> new_scopes)
      end
  | _ => Err (SviBadRequest "no address scope" [subnet_id])
  end.

(** The body of the second loop. *)
(* l3_router/svi.py:171-232 _validate_address_scope_rules *)
Definition check_existing_scope (new_scopes : scopes_dict) (router_id existing_subnet_id : string)
    (v : Z * option string) : res unit :=
  let '(ip_version, existing_scope) := v in
  match new_scopes !! ip_version with
  | None => Ok tt
  | Some new_scope =>
      match existing_scope with
      | Some ((String _ _) as existing_scope) =>
          if decide (existing_scope = new_scope) then Ok tt
          else Err (SviBadRequest "scope in use"
                      [pretty ip_version; new_scope; existing_scope; router_id])
      | _ => Err (SviBadRequest "existing subnet without scope" [existing_subnet_id; router_id])
      end
  end.

(* l3_router/svi.py:93-234 _validate_address_scope_rules *)
Definition _validate_address_scope_rules (router_id : string) (new_subnet_ids : list string)
    : N scopes_dict :=
  new_scopes ← fold_each (fun new_scopes subnet_id =>
      v ← _get_subnet_address_scope subnet_id;
      lift (add_new_scope new_scopes subnet_id v)) new_subnet_ids ∅;
  existing ← _get_existing_router_subnet_ids router_id;
  _ ← for_each existing (fun existing_subnet_id =>
      v ← _get_subnet_address_scope existing_subnet_id;
      lift (check_existing_scope new_scopes router_id existing_subnet_id v));
  mret new_scopes.

(* l3_router/svi.py:237-311 validate_svi_router_port *)
Definition validate_svi_router_port (port : port_dict) : N bool :=
  if negb (bool_decide (port.(pd_device_owner) = DEVICE_OWNER_ROUTER_INTF)) then mret false else
  match port.(pd_device_id) with
  | Some ((String _ _) as router_id) =>
      l3_plugin ← call GetL3Plugin;
      if negb l3_plugin then Raise (AttributeError "get_router") else
      router ← call (GetRouter router_id);
      is_svi ← _is_svi_router router;
      if negb is_svi then mret false else
      _ ← _validate_address_scope_rules router_id (subnet_ids_of port.(pd_fixed_ips));
      mret true
  | _ => mret false
  end.

(* l3_router/svi.py:338-369 Svi._reject_svi_external_gateway *)
Definition _reject_svi_external_gateway (router_id : string) : N unit :=
  router ← call (GetRouter router_id);
  is_svi ← _is_svi_router router;
  if negb is_svi then mret tt else Raise (SviBadRequest "external gateway" []).

(* l3_router/svi.py:371-424 Svi._validate_svi_router_interface *)
Definition _validate_svi_router_interface (router_id : string) (r : router) (port : port_dict) : N unit :=
  is_svi ← _is_svi_router r;
  if negb is_svi then mret tt else
  _ ← _validate_address_scope_rules router_id (subnet_ids_of port.(pd_fixed_ips));
  mret tt.

(** ** A Neutron given by its contents *)

Section contents.
Variable subnets : string -> subnet.
Variable pools : string -> option string.
Variable routers : string -> router.
Variable router_ports : string -> list port_dict.
(** The first provider of each flavor. *)
Variable provider : string -> string.

Definition svi_env (R : Type) (op : neutronE R) (s : unit) : res R * unit :=
  match op in neutronE R return res R * unit with
  | GetCorePlugin => (Ok true, s)
  | GetL3Plugin => (Ok true, s)
  | GetFlavorsPlugin' => (Ok true, s)
  | GetFlavorId id => (Ok id, s)
  | GetFlavorNextProviders id => (Ok [provider id], s)
  | GetSubnet id => (Ok (subnets id), s)
  | GetSubnetPoolScope id => (Ok (pools id), s)
  | PortsOfRouter id => (Ok (router_ports id), s)
  | GetRouter id => (Ok (routers id), s)
  | _ => (Err (Exn "NotImplementedError" []), s)
  end.

(** The subnet's address scope, when it has one. *)
Definition scope_of (id : string) : option string :=
  match (subnets id).(subnetpool_id) with
  | Some ((String _ _) as pool) => match pools pool with Some (String a b) => Some (String a b) | _ => None end
  | _ => None
  end.
Definition version_of (id : string) : Z := (subnets id).(ip_version).

Definition existing_subnets (router_id : string) : list string :=
  concat (map (fun p => subnet_ids_of p.(pd_fixed_ips)) (router_ports router_id)).

Definition is_svi (r : router) : bool :=
  match r.(r_flavor) with
  | Flavor id => truthy id && bool_decide (provider id = _svi_provider_driver)
  | _ => false
  end.

(** The rules: new subnets are not IPv6 and have a scope; subnets of one IP
    version, new or attached, share it. *)
Definition attachable (router_id : string) (new_ids : list string) : Prop :=
  (forall n, n ∈ new_ids -> version_of n <> 6 /\ is_Some (scope_of n)) /\
  (forall n m, n ∈ new_ids -> m ∈ new_ids ++ existing_subnets router_id ->
     version_of n = version_of m -> scope_of n = scope_of m).

(** What the lookup returns, up to an empty scope name. *)
Definition looked_up (id : string) : Z * option string :=
  (version_of id,
   match (subnets id).(subnetpool_id) with
   | Some pool => if truthy pool then pools pool else None
   | None => None
   end).

Lemma run_subnet_scope id g s :
  run svi_env (_get_subnet_address_scope id) g s = (inr (looked_up id), g, s).
Proof.
  unfold _get_subnet_address_scope, looked_up, version_of. simpl.
  destruct (subnetpool_id (subnets id)) as [pool|]; [|done]. by destruct (truthy pool).
Qed.

Lemma looked_up_cases id :
  (exists a b, looked_up id = (version_of id, Some (String a b)) /\ scope_of id = Some (String a b)) \/
  (scope_of id = None /\
   (looked_up id = (version_of id, None) \/ looked_up id = (version_of id, Some EmptyString))).
Proof.
  unfold looked_up, scope_of. destruct (subnetpool_id (subnets id)) as [[|x y]|]; simpl; [by auto| |by auto].
  destruct (pools (String x y)) as [[|a b]|]; simpl; eauto.
Qed.

Lemma run_is_svi r g s : run svi_env (_is_svi_router r) g s = (inr (is_svi r), g, s).
Proof.
  unfold _is_svi_router, is_svi. destruct (r_flavor r) as [| |id]; [done..|].
  by destruct (truthy id).
Qed.

(** *** The first loop *)

(** [sc] holds the scope of every version in [ids], and nothing else. *)
Definition scopes_of (ids : list string) (sc : scopes_dict) : Prop :=
  forall v x, sc !! v = Some x <-> exists n, n ∈ ids /\ version_of n = v /\ scope_of n = Some x.

Definition new_ok (ids : list string) : Prop :=
  (forall n, n ∈ ids -> version_of n <> 6 /\ is_Some (scope_of n)) /\
  (forall n m, n ∈ ids -> m ∈ ids -> version_of n = version_of m -> scope_of n = scope_of m).

Lemma scopes_of_snoc done_ sc id x :
  scopes_of done_ sc -> new_ok (done_ ++ [id]) -> scope_of id = Some x ->
  scopes_of (done_ ++ [id]) (<[version_of id := x]> sc).
Proof.
  intros Hsc [_ Hsame] Hx v y. setoid_rewrite elem_of_app. setoid_rewrite list_elem_of_singleton.
  destruct (decide (v = version_of id)) as [->|Hne].
  - rewrite lookup_insert_eq. split.
    + intros [= <-]. exists id. auto.
    + intros (n & Hn & Hv & Hy). rewrite <- Hy, <- Hx. symmetry.
      apply Hsame; [by rewrite elem_of_app, list_elem_of_singleton|
                    rewrite elem_of_app, list_elem_of_singleton; by right|done].
  - rewrite lookup_insert_ne by done. rewrite (Hsc v y). split.
    + intros (n & Hn & Hrest). exists n. auto.
    + intros (n & [Hn|Hn] & Hv & Hy); [by exists n|subst; congruence].
Qed.

Lemma new_ok_snoc done_ id x :
  new_ok done_ -> version_of id <> 6 -> scope_of id = Some x ->
  (forall n, n ∈ done_ -> version_of n = version_of id -> scope_of n = Some x) ->
  new_ok (done_ ++ [id]).
Proof.
  intros [Hok Hsame] H6 Hx Hd. split.
  - intros n Hn. apply elem_of_app in Hn as [Hn|Hn]; [by apply Hok|].
    apply list_elem_of_singleton in Hn as ->. by rewrite Hx.
  - intros n m Hn Hm Hv. apply elem_of_app in Hn, Hm.
    rewrite list_elem_of_singleton in Hn, Hm. destruct Hn as [Hn| ->], Hm as [Hm| ->]; [by apply Hsame| | |done].
    + rewrite Hx. by apply Hd.
    + rewrite Hx. symmetry. by apply Hd.
Qed.

Lemma add_new_scope_spec done_ sc id :
  scopes_of done_ sc -> new_ok done_ ->
  match add_new_scope sc id (looked_up id) with
  | inr sc' => new_ok (done_ ++ [id]) /\ scopes_of (done_ ++ [id]) sc'
  | inl _ => ~ new_ok (done_ ++ [id])
  end.
Proof.
  intros Hsc Hok.
  assert (id ∈ done_ ++ [id]) as Hin by (apply elem_of_app; right; by apply list_elem_of_singleton).
  unfold add_new_scope.
  destruct (looked_up_cases id) as [(a & b & -> & Hs)|[Hs Hl]].
  2: { destruct Hl as [-> | ->]; destruct (version_of id =? 6);
       intros [Hn _]; destruct (Hn _ Hin) as [_ [? ?]]; congruence. }
  destruct (Z.eqb_spec (version_of id) 6) as [H6|H6]; [intros [Hn _]; by destruct (Hn _ Hin)|].
  destruct (sc !! version_of id) as [prev|] eqn:Hp.
  - apply Hsc in Hp as Hp'. destruct Hp' as (n & Hn & Hv & Hpn). destruct (decide (prev = String a b)) as [->|Hne].
    + assert (new_ok (done_ ++ [id])) as Hok'.
      { apply (new_ok_snoc _ _ (String a b)); try done. intros m Hm Hvm.
        rewrite <- Hpn. apply (proj2 Hok); [done..|congruence]. }
      split; [done|]. by apply scopes_of_snoc.
    + intros [_ Hsame]. apply Hne. assert (scope_of n = scope_of id); [|congruence].
      apply Hsame; [apply elem_of_app; by left|done..].
  - assert (new_ok (done_ ++ [id])) as Hok'.
    { apply (new_ok_snoc _ _ (String a b)); try done. intros m Hm Hvm. exfalso.
      destruct (proj1 Hok m Hm) as [_ [x Hx]].
      assert (sc !! version_of id = Some x); [|congruence]. apply Hsc. eauto. }
    split; [done|]. by apply scopes_of_snoc.
Qed.

Lemma new_ok_prefix l k : new_ok (l ++ k) -> new_ok l.
Proof. intros [H1 H2]. split; intros; [apply H1|apply H2]; try apply elem_of_app; auto. Qed.

Lemma new_scopes_loop ids done_ sc :
  scopes_of done_ sc -> new_ok done_ ->
  match res_fold (fun sc id => add_new_scope sc id (looked_up id)) ids sc with
  | inr sc' => new_ok (done_ ++ ids) /\ scopes_of (done_ ++ ids) sc'
  | inl _ => ~ new_ok (done_ ++ ids)
  end.
Proof.
  revert done_ sc. induction ids as [|id ids IH]; intros done_ sc Hsc Hok; cbn [res_fold].
  - by rewrite app_nil_r.
  - pose proof (add_new_scope_spec done_ sc id Hsc Hok) as Hstep.
    replace (done_ ++ id :: ids) with ((done_ ++ [id]) ++ ids) by (by rewrite <- app_assoc).
    destruct (add_new_scope sc id (looked_up id)) as [e|sc'].
    + intros H%new_ok_prefix. done.
    + destruct Hstep as [Hok' Hsc']. by apply IH.
Qed.

(** *** The second loop *)

Lemma check_existing_scope_spec ids sc router_id m :
  scopes_of ids sc -> new_ok ids ->
  check_existing_scope sc router_id m (looked_up m) = inr tt <->
  forall n, n ∈ ids -> version_of n = version_of m -> scope_of n = scope_of m.
Proof.
  intros Hsc [Hok Hsame]. unfold check_existing_scope.
  assert (forall n, n ∈ ids -> version_of n = version_of m ->
            exists x, scope_of n = Some x /\ sc !! version_of m = Some x) as Hnew.
  { intros n Hn Hv. destruct (Hok n Hn) as [_ [x Hx]]. exists x. split; [done|].
    apply Hsc. eauto. }
  destruct (looked_up_cases m) as [(a & b & -> & Hs)|[Hs Hl]].
  - destruct (sc !! version_of m) as [x|] eqn:Hx.
    + apply Hsc in Hx as Hx'. destruct Hx' as (n & Hn & Hv & Hxn).
      destruct (decide (String a b = x)) as [<-|Hne].
      * split; [|done]. intros _ n' Hn' Hv'. destruct (Hnew n' Hn' Hv') as (y & Hy & Hy'). congruence.
      * split; [done|]. intros Hall. specialize (Hall n Hn Hv). congruence.
    + split; [|done]. intros _ n Hn Hv. destruct (Hnew n Hn Hv) as (y & _ & Hy). congruence.
  - assert (check_existing_scope sc router_id m (looked_up m) = inr tt <-> sc !! version_of m = None) as Hc.
    { unfold check_existing_scope. destruct Hl as [-> | ->], (sc !! version_of m); done. }
    unfold check_existing_scope in Hc. rewrite Hc. split.
    + intros Hn0 n Hn Hv. destruct (Hnew n Hn Hv) as (y & _ & Hy). congruence.
    + intros Hall. apply eq_None_not_Some. intros [x Hx]. apply Hsc in Hx as (n & Hn & Hv & Hxn).
      specialize (Hall n Hn Hv). congruence.
Qed.

(** ** Properties *)

Lemma run_existing router_id g s :
  run svi_env (_get_existing_router_subnet_ids router_id) g s =
  (inr (existing_subnets router_id), g, s).
Proof. done. Qed.

Lemma run_validate_rules router_id new_ids g s :
  run svi_env (_validate_address_scope_rules router_id new_ids) g s =
  (match res_fold (fun sc id => add_new_scope sc id (looked_up id)) new_ids ∅ with
   | inl e => inl e
   | inr sc =>
       match res_fold (fun _ id => check_existing_scope sc router_id id (looked_up id))
               (existing_subnets router_id) tt with
       | inl e => inl e
       | inr _ => inr sc
       end
   end, g, s).
Proof.
  unfold _validate_address_scope_rules, mbind, prog_mbind. rewrite run_bind.
  erewrite (run_fold_each _ _ (fun sc id => add_new_scope sc id (looked_up id))).
  2: { intros sc id _. cbn beta. rewrite run_bind, run_subnet_scope. by destruct (add_new_scope _ _ _). }
  destruct (res_fold _ new_ids ∅) as [e|sc]; [done|]. rewrite run_bind, run_existing.
  cbn beta iota. rewrite run_bind.
  erewrite (run_for_each _ _ (fun id => check_existing_scope sc router_id id (looked_up id))).
  2: { intros id _. cbn beta. rewrite run_bind, run_subnet_scope. by destruct (check_existing_scope _ _ _ _). }
  by destruct (res_fold _ _ tt).
Qed.

(** C32. The address scope rules accept an attachment exactly when it is
    [attachable] - every new subnet is not IPv6 and has an address scope, and
    subnets of one IP version, whether new or already on the router, have the
    same scope - and then return the scope of each IP version among the new
    subnets. *)
Theorem validate_address_scope_rules_iff router_id new_ids g s :
  match run svi_env (_validate_address_scope_rules router_id new_ids) g s with
  | (inr sc, g', s') => g' = g /\ s' = s /\ attachable router_id new_ids /\ scopes_of new_ids sc
  | (inl e, g', s') => g' = g /\ s' = s /\ ~ attachable router_id new_ids
  end.
Proof.
  rewrite run_validate_rules.
  pose proof (new_scopes_loop new_ids [] ∅) as H1. simpl in H1. ospecialize (H1 _ _).
  { intros v x. rewrite lookup_empty. split; [done|]. intros (n & Hn%elem_of_nil & _). done. }
  { split; [intros n Hn%elem_of_nil|intros n m Hn%elem_of_nil]; done. }
  assert (attachable router_id new_ids <-> new_ok new_ids /\
    forall m, m ∈ existing_subnets router_id -> forall n, n ∈ new_ids ->
      version_of n = version_of m -> scope_of n = scope_of m) as Hatt.
  { unfold attachable, new_ok. setoid_rewrite elem_of_app. naive_solver. }
  destruct (res_fold _ new_ids ∅) as [e|sc].
  { split; [done|]. split; [done|]. rewrite Hatt. tauto. }
  destruct H1 as [Hok Hsc].
  pose proof (res_fold_checks (fun id => check_existing_scope sc router_id id (looked_up id))
    (existing_subnets router_id)) as H2.
  setoid_rewrite (check_existing_scope_spec new_ids sc router_id _ Hsc Hok) in H2.
  destruct (res_fold _ _ tt) as [e|[]].
  - split; [done|]. split; [done|]. rewrite Hatt. intros [_ Hex]. by apply H2 in Hex.
  - split; [done|]. split; [done|]. split; [|done]. apply Hatt. split; [done|]. by apply H2.
Qed.

Lemma validate_port_eq router_id port :
  port.(pd_device_owner) = DEVICE_OWNER_ROUTER_INTF ->
  port.(pd_device_id) = Some router_id -> router_id <> "" ->
  validate_svi_router_port port =
    (l3_plugin ← call GetL3Plugin;
     if negb l3_plugin then Raise (AttributeError "get_router") else
     router ← call (GetRouter router_id);
     is_svi ← _is_svi_router router;
     if negb is_svi then mret false else
     _ ← _validate_address_scope_rules router_id (subnet_ids_of port.(pd_fixed_ips));
     mret true).
Proof.
  intros Ho Hd Hne. unfold validate_svi_router_port. rewrite Ho, Hd, bool_decide_true by done.
  by destruct router_id.
Qed.

(** The checks of the SVI flavor agree.  On an internal interface of a router,
    the precommit check of the port and the router-interface callback accept or
    refuse alike, both leave routers of other flavors alone, and only SVI
    routers are refused an external gateway. *)
Theorem svi_checks_agree router_id port g s :
  port.(pd_device_owner) = DEVICE_OWNER_ROUTER_INTF ->
  port.(pd_device_id) = Some router_id -> router_id <> "" ->
  let r := routers router_id in
  let rules := run svi_env
    (_validate_address_scope_rules router_id (subnet_ids_of port.(pd_fixed_ips))) g s in
  run svi_env (validate_svi_router_port port) g s =
    (if is_svi r then match rules.1.1 with inl e => inl e | inr _ => inr true end else inr false, g, s) /\
  run svi_env (_validate_svi_router_interface router_id r port) g s =
    (if is_svi r then match rules.1.1 with inl e => inl e | inr _ => inr tt end else inr tt, g, s) /\
  run svi_env (_reject_svi_external_gateway router_id) g s =
    (if is_svi r then inl (SviBadRequest "external gateway" []) else inr tt, g, s).
Proof.
  intros Ho Hd Hne r rules.
  assert (forall {B} (k : scopes_dict -> B),
    run svi_env (pbind (_validate_address_scope_rules router_id (subnet_ids_of (pd_fixed_ips port)))
      (fun x => mret (k x))) g s =
    (match rules.1.1 with inl e => inl e | inr x => inr (k x) end, g, s)) as Hrules.
  { intros B k. rewrite run_bind. unfold rules. rewrite run_validate_rules. simpl.
    by destruct (match res_fold _ _ _ with inl _ => _ | inr _ => _ end). }
  split; [|split].
  - rewrite (validate_port_eq router_id) by done. unfold mbind, prog_mbind, call.
    cbn [run pbind svi_env negb].
    rewrite run_bind, run_is_svi. fold r.
    destruct (is_svi r); simpl; [|done]. apply (Hrules bool (fun _ => true)).
  - unfold _validate_svi_router_interface, mbind, prog_mbind. rewrite run_bind, run_is_svi.
    destruct (is_svi r); simpl; [|done]. apply (Hrules unit (fun _ => tt)).
  - unfold _reject_svi_external_gateway, mbind, prog_mbind. simpl. rewrite run_bind, run_is_svi.
    fold r. by destruct (is_svi r).
Qed.

End contents.

(** ** Concrete runs *)

Lemma svi_checks_agree_witness :
  run (svi_env (fun _ => Subnet 4 (Some "pool")) (fun _ => Some "scope") (fun id => Router id (Flavor "f") None)
         (fun _ => []) (fun _ => _svi_provider_driver))
    (_reject_svi_external_gateway "r1") (Globals None None) tt
  = (inl (SviBadRequest "external gateway" []), Globals None None, tt).
Proof.
  refine (proj2 (proj2 (svi_checks_agree (fun _ => Subnet 4 (Some "pool")) (fun _ => Some "scope")
    (fun id => Router id (Flavor "f") None) (fun _ => []) (fun _ => _svi_provider_driver) "r1"
    (PortDict "p" "n" "" None ∅ DEVICE_OWNER_ROUTER_INTF (Some "r1") [] None)
    (Globals None None) tt _ _ _))); [reflexivity|reflexivity|discriminate].
Defined.
