(* ===== verification/Routers.v ===== *)
(** * Router uplinks

    Models [src/python/neutron-understack/neutron_understack/routers.py]: the
    uplink (shared Neutron port, trunk subport and OVN localnet port) that
    connects a router's network to the network node, its removal, and the repair
    of the HA chassis group of vxlan networks.  The OVN naming functions
    ([ovn_utils.ovn_name], [ovn_lrouter_port_name]) are parameters.  The round trip
    runs against [uplink_env], the ports, subports and logical switch ports with their
    switch, trunk and tag; removals that fail are shown to keep a discipline on
    every run. *)
From S2P Require Import Prelude PyStr Ranges Neutron.

Definition ROUTER_INTERFACE_AND_GW : list string := [DEVICE_OWNER_ROUTER_INTF; DEVICE_OWNER_ROUTER_GW].

Section routers.
Variable CONF : conf.
Variables ovn_name ovn_lrouter_port_name : string -> string.

(* neutron_understack/routers.py:30-34 _router_has_flavor *)
Definition _router_has_flavor (router_id : string) : N bool :=
  l3_plugin ← call GetL3Plugin;
  if negb l3_plugin then Raise (AttributeError "get_router") else
  router ← call (GetRouter router_id);
  mret (match router.(r_flavor) with Flavor id => truthy id | NoFlavor | FlavorUnset => false end).

(* neutron_understack/routers.py:86-99 is_only_router_port_on_network *)
Definition is_only_router_port_on_network (network_id : string) : N bool :=
  other_router_ports ← call (PortsOnNetwork network_id (Some ROUTER_INTERFACE_AND_GW));
  mret (negb (1 <? length other_router_ports)%nat).

(* neutron_understack/routers.py:102-122 add_subport_to_trunk *)
Definition add_subport_to_trunk (shared_port_id : string) (seg : segment) : N unit :=
  trunk_id ← fetch_network_node_trunk_id;
  _ ← fetch_trunk_plugin;
  call (AddSubports trunk_id shared_port_id seg.(segmentation_id)).

(* neutron_understack/routers.py:125-148 fetch_or_create_router_segment *)
Definition fetch_or_create_router_segment (context : port_context) : N segment :=
  let network_id := context.(current).(pd_network_id) in
  match CONF.(network_node_switchport_physnet) with
  | Some ((String _ _) as physnet) =>
      seg ← allocate_dynamic_segment network_id TYPE_VLAN (Some physnet);
      match seg with
      | Some s => mret s
      | None => Raise (PlainException [network_id; physnet])
      end
  | _ => Raise (ValueError ["ml2_understack.network_node_switchport_physnet"])
  end.

(* neutron_understack/routers.py:154-180 ovn_client *)
Definition ovn_client : N (option nat) :=
  g ← get_state;
  match g.(cached_ovn_client) with
  | Some c => mret (Some c)
  | None =>
      ml2_plugin ← call GetCorePlugin;
      if negb ml2_plugin then mret None else
      drivers ← call OrderedMechDrivers;
      match last (filter (fun d : string * nat => d.1 = "ovn") drivers) with
      | None => Raise (PlainException ["No OVN Plugin available"])
      | Some (_, client) =>
          g ← get_state;
          _ ← put_state (Globals g.(cached_trunk_id) (Some client));
          mret (Some client)
      end
  end.

(** [ovn_client()._nb_idl] *)
Definition ovn_nb_idl (attribute : string) : N unit :=
  client ← ovn_client;
  match client with None => Raise (AttributeError attribute) | Some _ => mret tt end.

(* neutron_understack/routers.py:183-203 create_uplink_port *)
Definition create_uplink_port (seg : option segment) (network_id : string) : N unit :=
  match seg with
  | None => Raise (AttributeError "get")
  | Some s =>
      _ ← ovn_nb_idl "_nb_idl";
      cmd ← call (CreateLswitchPort ("uplink-" +:+ s.(segment_id)) (ovn_name network_id)
                    s.(segmentation_id) s.(physical_network));
      _ ← ovn_nb_idl "_transaction";
      call (OvnTransaction [cmd])
  end.

(* neutron_understack/routers.py:37-83 create_port_postcommit *)
Definition create_port_postcommit (context : port_context) : N unit :=
  let network_id := context.(current).(pd_network_id) in
  only ← is_only_router_port_on_network network_id;
  if negb only then mret tt else
  flavored ← match context.(current).(pd_device_id) with
             | Some ((String _ _) as router_id) => _router_has_flavor router_id
             | _ => mret false
             end;
  if (flavored : bool) then mret tt else
  seg ← fetch_or_create_router_segment context;
  shared_port ← create_neutron_port_for_segment seg context;
  _ ← add_subport_to_trunk shared_port seg;
  segment_obj ← network_segment_by_id seg.(segment_id);
  create_uplink_port segment_obj network_id.

(* neutron_understack/routers.py:344-349 delete_uplink_port *)
Definition delete_uplink_port (segment_id network_id : string) : N unit :=
  _ ← ovn_nb_idl "_nb_idl";
  cmd ← call (DeleteLswitchPort ("uplink-" +:+ segment_id) (ovn_name network_id));
  _ ← ovn_nb_idl "_transaction";
  call (OvnTransaction [cmd]).

(* neutron_understack/routers.py:352-360 delete_shared_port_lsp *)
Definition delete_shared_port_lsp (port_id network_id : string) : N unit :=
  _ ← ovn_nb_idl "_nb_idl";
  cmd ← call (DeleteLswitchPort port_id (ovn_name network_id));
  _ ← ovn_nb_idl "_transaction";
  call (OvnTransaction [cmd]).

(* neutron_understack/routers.py:468-476 handle_subport_removal *)
Definition handle_subport_removal (p : port) : N unit :=
  trunk_id ← fetch_network_node_trunk_id;
  try_except (remove_subport_from_trunk trunk_id p.(port_id)) (fun _ => mret tt).

Definition is_uplink_port (p : port) : bool :=
  match p.(port_name) with
  | Some n => truthy n && startswith "uplink-" n
  | None => false
  end.

(* neutron_understack/routers.py:479-486 fetch_shared_router_port *)
Definition fetch_shared_router_port (network_id : string) : N (option port) :=
  ports ← call (PortsOnNetwork network_id None);
  mret (head (filter (fun p => is_uplink_port p = true) ports)).

(* neutron_understack/routers.py:363-374 _do_uplink_cleanup *)
Definition _do_uplink_cleanup (network_id : string) : N unit :=
  shared_port ← fetch_shared_router_port network_id;
  match shared_port with
  | None => mret tt
  | Some p =>
      let segment_id := removeprefix "uplink-" (default "" p.(port_name)) in
      _ ← handle_subport_removal p;
      _ ← delete_uplink_port segment_id network_id;
      _ ← delete_shared_port_lsp p.(port_id) network_id;
      call (DeletePort p.(port_id))
  end.

(* neutron_understack/routers.py:377-420 handle_router_interface_removal *)
Definition handle_router_interface_removal (device_owner network_id : string) : N unit :=
  if decide (device_owner ∉ ROUTER_INTERFACE_AND_GW) then mret tt else
  only ← is_only_router_port_on_network network_id;
  if negb only then mret tt else _do_uplink_cleanup network_id.

(* neutron_understack/routers.py:423-465 handle_router_interface_after_delete *)
Definition handle_router_interface_after_delete (p : port_dict) : N unit :=
  if decide (p.(pd_device_owner) ∉ ROUTER_INTERFACE_AND_GW) then mret tt else
  remaining ← call (PortsOnNetwork p.(pd_network_id) (Some ROUTER_INTERFACE_AND_GW));
  if truthy remaining then mret tt else
  try_except (_do_uplink_cleanup p.(pd_network_id)) (fun _ => mret tt).

(** [with nb_idl.transaction(check_error=True) as txn: body] *)
Definition with_nb_transaction (body : N unit) : N unit :=
  _ ← call NbTransactionBegin;
  _ ← try_except body (fun e => _ ← call NbTransactionAbort; Raise e);
  call NbTransactionCommit.

(** The live rows' chassis names, as a set in order of appearance. *)
(* neutron_understack/routers.py:268-272 link_vxlan_network_ha_chassis_group *)
Definition live_chassis_names (all_ha_chassis : list string) : N (list string) :=
  fold_each (fun names name =>
    live ← call (LookupChassis name);
    mret (if (live : bool) then if decide (name ∈ names) then names else names ++ [name] else names))
    all_ha_chassis [].

(* neutron_understack/routers.py:296-330 link_vxlan_network_ha_chassis_group *)
Definition link_network_hcg (router_id port_id network_id chassis : string) : N unit :=
  let lrp_name := ovn_lrouter_port_name port_id in
  with_nb_transaction (
    hcg ← call (SyncNetworkHCG network_id router_id [(chassis, 32767%Z)]);
    lr ← call (LookupLogicalRouter (ovn_name router_id));
    let router_is_centralized :=
      match lr with
      | Some options => truthy ((options : gmap string string) !! "chassis")
      | None => false
      end in
    if (router_is_centralized : bool) then mret tt else
    lrp ← call (LookupLogicalRouterPort lrp_name);
    if (lrp : bool) then call (SetLrpHCG lrp_name hcg) else mret tt).

(* neutron_understack/routers.py:206-341 link_vxlan_network_ha_chassis_group *)
Definition link_vxlan_network_ha_chassis_group (router_id port_id network_id : string) : N unit :=
  try_except (
    client ← ovn_client;
    match client with
    | None => mret tt
    | Some _ =>
        network_hcg ← call (LookupHCG (ovn_name network_id));
        if match network_hcg with Some h => truthy h.(hcg_ha_chassis) | None => false end
        then mret tt else
        all_ha_chassis ← call ListHaChassis;
        chassis_names ← live_chassis_names all_ha_chassis;
        match chassis_names with
        | [chassis] => link_network_hcg router_id port_id network_id chassis
        | _ => mret tt
        end
    end) (fun _ => mret tt).

End routers.

(** ** The uplink is kept while it is used *)

(** Neither removal handler touches anything - Neutron, the trunk or OVN -
    unless the deleted port is a router port and, at that moment, the database
    shows no router port of the network other than the one being deleted: at
    most one before the commit, none after it. *)
Theorem uplink_kept_while_used ovn_name owner p g :
  let router_ports n := PortsOnNetwork n (Some ROUTER_INTERFACE_AND_GW) in
  every_run (handle_router_interface_removal ovn_name owner p.(pd_network_id)) g (fun _ _ tr =>
    (exists ev, ev ∈ tr /\ is_write ev = true) ->
    owner ∈ ROUTER_INTERFACE_AND_GW /\
    exists ports, Ev (router_ports p.(pd_network_id)) (inr ports) ∈ tr /\ length ports <= 1) /\
  every_run (handle_router_interface_after_delete ovn_name p) g (fun _ _ tr =>
    (exists ev, ev ∈ tr /\ is_write ev = true) ->
    p.(pd_device_owner) ∈ ROUTER_INTERFACE_AND_GW /\
    Ev (router_ports p.(pd_network_id)) (inr []) ∈ tr).
Proof.
  intros router_ports.
  assert (forall ans, ~ exists ev,
    ev ∈ [Ev (router_ports p.(pd_network_id)) ans] /\ is_write ev = true) as Hread.
  { by intros ans (ev & ->%list_elem_of_singleton & Hw). }
  assert (~ exists ev, ev ∈ @nil (event neutronE) /\ is_write ev = true) as Hnil.
  { by intros (ev & Hin%elem_of_nil & _). }
  split; unfold every_run.
  - unfold handle_router_interface_removal.
    destruct (decide (owner ∉ ROUTER_INTERFACE_AND_GW)) as [|Hin]; [wp_pure; tauto|].
    apply dec_stable in Hin. wp_pure. unfold is_only_router_port_on_network. wp_pure.
    wp_answer r tr Hs. rewrite Hs. destruct r as [e|ports]; [intros H; by apply Hread in H|]. repeat wp_pure.
    destruct (Nat.ltb_spec 1 (length ports)) as [Hlt|Hle]; wp_simp.
    + wp_pure. intros H. by apply Hread in H.
    + eapply wp_mono; [|apply wp_trace_prefix]. intros _ _ tr' [suffix ->] _. split; [done|].
      exists ports. split; [|lia]. apply elem_of_app. left. by apply list_elem_of_singleton.
  - unfold handle_router_interface_after_delete.
    destruct (decide (pd_device_owner p ∉ ROUTER_INTERFACE_AND_GW)) as [|Hin]; [wp_pure; tauto|].
    apply dec_stable in Hin. wp_pure.
    wp_answer r tr Hs. rewrite Hs. destruct r as [e|ports]; [intros H; by apply Hread in H|].
    destruct ports as [|q ports]; cbn [truthy truthy_list].
    + eapply wp_mono; [|apply wp_trace_prefix]. intros _ _ tr' [suffix ->] _. split; [done|].
      apply elem_of_app. left. by apply list_elem_of_singleton.
    + wp_pure. intros H. by apply Hread in H.
Qed.

(** ** The HA chassis group of a vxlan network *)

Inductive ovn_write : Type :=
| WBegin | WCommit | WAbort
| WSync (network_id router_id : string) (chassis_prio : list (string * Z))
| WSetLrp (lrp_name hcg : string).

Section hcg.
Variables ovn_name ovn_lrouter_port_name : string -> string.
(** The contents of the Northbound and Southbound databases. *)
Variable network_hcg : option ha_chassis_group.
Variable ha_chassis_rows : list string.
Variable live : string -> bool.
Variable logical_router : option (gmap string string).
Variable lrp_exists : bool.
Variable hcg_id : string.

Definition ovn_env (R : Type) (op : neutronE R) (s : list ovn_write) : res R * list ovn_write :=
  match op in neutronE R return res R * list ovn_write with
  | LookupHCG _ => (Ok network_hcg, s)
  | ListHaChassis => (Ok ha_chassis_rows, s)
  | LookupChassis c => (Ok (live c), s)
  | NbTransactionBegin => (Ok tt, s ++ [WBegin])
  | NbTransactionCommit => (Ok tt, s ++ [WCommit])
  | NbTransactionAbort => (Ok tt, s ++ [WAbort])
  | SyncNetworkHCG n r prio => (Ok hcg_id, s ++ [WSync n r prio])
  | LookupLogicalRouter _ => (Ok logical_router, s)
  | LookupLogicalRouterPort _ => (Ok lrp_exists, s)
  | SetLrpHCG lrp h => (Ok tt, s ++ [WSetLrp lrp h])
  | _ => (Err (Exn "NotImplementedError" []), s)
  end.

Definition add_live (names : list string) (name : string) : res (list string) :=
  inr (if live name then if decide (name ∈ names) then names else names ++ [name] else names).

Lemma run_live_names rows g s :
  run ovn_env (live_chassis_names rows) g s = (res_fold add_live rows [], g, s).
Proof. unfold live_chassis_names. apply run_fold_each. intros names name _. done. Qed.

Lemma live_names_spec rows names :
  NoDup names ->
  exists out, res_fold add_live rows names = inr out /\ NoDup out /\
    forall x, x ∈ out <-> x ∈ names \/ (x ∈ rows /\ live x = true).
Proof.
  revert names. induction rows as [|r rows IH]; intros names Hnd; simpl.
  - exists names. split; [done|]. split; [done|]. intros x. rewrite elem_of_nil. tauto.
  - assert (NoDup (if live r then if decide (r ∈ names) then names else names ++ [r] else names)) as Hnd'.
    { destruct (live r); [|done]. destruct (decide (r ∈ names)); [done|].
      apply NoDup_app. split; [done|]. split; [|apply NoDup_singleton].
      by intros x Hx ->%list_elem_of_singleton. }
    destruct (IH _ Hnd') as (out & Hout & Hndo & Hin). exists out. split; [done|]. split; [done|].
    intros x. rewrite Hin, elem_of_cons. destruct (live r) eqn:Hl.
    + destruct (decide (r ∈ names)).
      * split; [tauto|]. intros [|[[->|] ?]]; auto.
      * rewrite elem_of_app, list_elem_of_singleton. split; [|naive_solver].
        intros [[?| ->]|[? ?]]; auto.
    + split; [tauto|]. intros [|[[->|] ?]]; auto. congruence.
Qed.

(** Exactly one chassis of the HA_Chassis rows is alive. *)
Definition only_live_chassis (c : string) : Prop :=
  c ∈ ha_chassis_rows /\ live c = true /\
  forall c', c' ∈ ha_chassis_rows -> live c' = true -> c' = c.

Definition populated : bool :=
  match network_hcg with Some h => truthy h.(hcg_ha_chassis) | None => false end.
Definition centralized : bool :=
  match logical_router with Some options => truthy (options !! "chassis") | None => false end.

Lemma live_names_singleton :
  exists out, res_fold add_live ha_chassis_rows [] = inr out /\
    forall c, out = [c] <-> only_live_chassis c.
Proof.
  destruct (live_names_spec ha_chassis_rows []) as (out & Hout & Hnd & Hin); [constructor|].
  exists out. split; [done|]. intros c. unfold only_live_chassis. split.
  - intros ->. setoid_rewrite list_elem_of_singleton in Hin. setoid_rewrite elem_of_nil in Hin.
    split; [naive_solver|]. split; naive_solver.
  - intros (Hc & Hl & Hu).
    assert (forall x, x ∈ out -> x = c) as Hall.
    { intros x Hx. apply Hin in Hx as [Hx%elem_of_nil|[? ?]]; [done|auto]. }
    assert (c ∈ out) as Hcin by (apply Hin; by right).
    destruct out as [|x [|y out]].
    + by apply elem_of_nil in Hcin.
    + by rewrite (Hall x) by left.
    + apply NoDup_cons in Hnd as [Hx _]. exfalso. apply Hx.
      rewrite (Hall x) by left. rewrite (Hall y) by (right; left). left.
Qed.

(** The repair of a vxlan network's HA chassis group.  It writes only when the
    group is empty and exactly one chassis of the HA_Chassis rows is alive; then,
    in one transaction, it synchronises the group with that chassis alone at
    priority 32767 and anchors the interface's router port to the group unless
    the router is centralized or the port does not exist.  In every environment,
    whatever fails, the handler does not raise. *)
Theorem link_vxlan_hcg_spec router_id port_id network_id g :
  g.(cached_ovn_client) <> None ->
  let link := link_vxlan_network_ha_chassis_group ovn_name ovn_lrouter_port_name
                router_id port_id network_id in
  (forall c, populated = false -> only_live_chassis c ->
     run ovn_env link g [] = (inr tt, g,
       [WBegin; WSync network_id router_id [(c, 32767%Z)]] ++
       (if negb centralized && lrp_exists then [WSetLrp (ovn_lrouter_port_name port_id) hcg_id] else [])
       ++ [WCommit])) /\
  (populated = true \/ (forall c, ~ only_live_chassis c) -> run ovn_env link g [] = (inr tt, g, [])) /\
  every_run link g (fun r _ _ => r = inr tt).
Proof.
  intros Hc link.
  assert (run ovn_env link g [] =
    if populated then (inr tt, g, []) else
    match res_fold add_live ha_chassis_rows [] with
    | inr [c] => run ovn_env (try_except (link_network_hcg ovn_name ovn_lrouter_port_name
                   router_id port_id network_id c) (fun _ => mret tt)) g []
    | _ => (inr tt, g, [])
    end) as Hrun.
  { unfold link, link_vxlan_network_ha_chassis_group. rewrite run_try.
    unfold ovn_client. simpl. destruct (cached_ovn_client g) as [c0|] eqn:Hc0; [|done]. simpl.
    fold populated. destruct populated; [done|]. unfold mbind, prog_mbind. simpl.
    rewrite run_bind, run_live_names.
    destruct live_names_singleton as (out & -> & _).
    destruct out as [|x [|y out]]; [done| |done]. by rewrite run_try. }
  rewrite Hrun. destruct live_names_singleton as (out & -> & Hout). split; [|split].
  - intros c -> Hl. apply Hout in Hl as ->. rewrite run_try. simpl. unfold centralized.
    destruct logical_router as [opts|]; simpl; [destruct (truthy _); simpl|]; destruct lrp_exists; done.
  - intros [->|Hno]; [done|]. destruct populated; [done|].
    destruct out as [|x [|y out]]; [done| |done]. exfalso. by apply (Hno x), Hout.
  - eapply wp_mono; [|apply wp_try_total]. by intros r g' tr [[] ->].
Qed.

End hcg.

(** ** Removals that fail *)

Section removal.
Variable ovn_name : string -> string.
Variable n : string.

(** [q] was read on the network and is an uplink port. *)
Definition read_uplink (pre : list (event neutronE)) (q : port) : Prop :=
  exists ports, Ev (PortsOnNetwork n None) (inr ports) ∈ pre /\ q ∈ ports /\ is_uplink_port q = true.
(** The command that deletes the port [l] from the network's switch was committed. *)
Definition lsp_deleted (pre : list (event neutronE)) (l : string) : Prop :=
  exists c, Ev (DeleteLswitchPort l (ovn_name n)) (inr c) ∈ pre /\ Ev (OvnTransaction [c]) (inr tt) ∈ pre.

(** What a removal may write: the parts of an uplink port that it has read, and the
    port itself only when OVN no longer has its two logical switch ports. *)
Definition uplink_removal (pre : list (event neutronE)) (ev : event neutronE) : Prop :=
  match ev with
  | Ev op _ => writes op = true -> exists q, read_uplink pre q /\
      match op with
      | RemoveSubports _ id => id = q.(port_id)
      | DeleteLswitchPort l switch => switch = ovn_name n /\ (l = q.(port_id) \/ Some l = q.(port_name))
      | OvnTransaction cmds => exists l c, cmds = [c] /\ Ev (DeleteLswitchPort l (ovn_name n)) (inr c) ∈ pre
      | DeletePort id =>
          id = q.(port_id) /\ lsp_deleted pre q.(port_id) /\ forall name, q.(port_name) = Some name -> lsp_deleted pre name
      | _ => False
      end
  end.

Lemma read_uplink_prefix tr tr' q : read_uplink tr q -> tr `prefix_of` tr' -> read_uplink tr' q.
Proof. intros (ports & Hin & Hq) [k ->]. exists ports. split; [|done]. apply elem_of_app. by left. Qed.
Lemma lsp_deleted_prefix tr tr' l : lsp_deleted tr l -> tr `prefix_of` tr' -> lsp_deleted tr' l.
Proof. intros (c & H1 & H2) [k ->]. exists c. rewrite !elem_of_app. tauto. Qed.

Lemma removal_reads {A} (p : N A) g tr :
  calls_only (fun R (op : neutronE R) => writes op = false) p -> disciplined uplink_removal tr ->
  keeps uplink_removal p g tr (fun _ _ _ => True).
Proof.
  intros Hp. apply keeps_calls. revert Hp. induction p as [a|e|R op k IH|k IH|g' p IH]; cbn; [done|done| |auto|auto].
  intros [Hop Hk]. split; [|auto]. intros pre r Hw. rewrite Hop in Hw. done.
Qed.

Lemma calls_map_each {G E A B} (P : forall R, E R -> Prop) (f : A -> prog G E B) l :
  (forall x, calls_only P (f x)) -> calls_only P (map_each l f).
Proof.
  intros Hf. induction l as [|x l IH]; cbn; [done|]. apply calls_bind; [done|]. intros y. by apply calls_bind.
Qed.
Lemma trunk_id_reads : calls_only (fun R (op : neutronE R) => writes op = false) fetch_network_node_trunk_id.
Proof.
  unfold fetch_network_node_trunk_id. apply calls_bind; [by intros g|]. intros g.
  unfold _get_gateway_agent_host, _resolve_gateway_host, _find_ports_bound_to_hosts, _find_trunk_by_port_ids,
    baremetal_node_name, baremetal_node_uuid.
  calls_go. all: first [apply calls_map_each; intros; by apply calls_call | by intros ? | done].
Qed.
Lemma nb_idl_reads a : calls_only (fun R (op : neutronE R) => writes op = false) (ovn_nb_idl a).
Proof.
  unfold ovn_nb_idl, ovn_client. apply calls_bind; [|by intros []]. apply calls_bind; [by intros g|]. intros g.
  calls_go. all: first [by intros ? | done].
Qed.

Lemma elem_snoc {A} (x : A) l : x ∈ l ++ [x].
Proof. apply elem_of_app. right. by apply list_elem_of_singleton. Qed.

(** One logical switch port of the uplink port [q] is deleted. *)
Lemma delete_lsp_keeps l q g tr (prog_ : N unit) :
  prog_ = (_ ← ovn_nb_idl "_nb_idl"; cmd ← call (DeleteLswitchPort l (ovn_name n));
           _ ← ovn_nb_idl "_transaction"; call (OvnTransaction [cmd])) ->
  disciplined uplink_removal tr -> read_uplink tr q -> l = q.(port_id) \/ Some l = q.(port_name) ->
  keeps uplink_removal prog_ g tr (fun r _ tr' => r = inr tt -> lsp_deleted tr' l).
Proof.
  intros -> Hd Hq Hl. eapply keeps_bind; [apply removal_reads; [apply nb_idl_reads|done]|done|].
  intros [] g1 tr1 Hd1 Hp1 _.
  eapply (keeps_bind _ _ _ _ _ (fun r _ tr' => forall c, r = inr c -> Ev (DeleteLswitchPort l (ovn_name n)) (inr c) ∈ tr'));
    [apply keeps_call; [done| |]|done|].
  - intros r _. exists q. split; [by eapply read_uplink_prefix|done].
  - intros r c ->. apply elem_snoc.
  - intros c g2 tr2 Hd2 Hp2 Hc. specialize (Hc c eq_refl).
    eapply keeps_bind; [apply removal_reads; [apply nb_idl_reads|done]|done|]. intros [] g3 tr3 Hd3 Hp3 _.
    assert (Ev (DeleteLswitchPort l (ovn_name n)) (inr c) ∈ tr3) as Hin.
    { destruct Hp3 as [k ->]. apply elem_of_app. by left. }
    apply keeps_call; [done| |].
    + intros r _. exists q. split; [|by exists l, c].
      eapply read_uplink_prefix; [done|]. etrans; [done|]. by etrans.
    + intros r ->. exists c. split; [apply elem_of_app; by left|apply elem_snoc].
Qed.

Lemma removeprefix_name (name : string) :
  startswith "uplink-" name = true -> "uplink-" +:+ removeprefix "uplink-" name = name.
Proof.
  intros Hs. unfold removeprefix. rewrite Hs. apply startswith_spec in Hs as [r ->]. by rewrite drop_str_app.
Qed.

Lemma cleanup_keeps g tr :
  disciplined uplink_removal tr -> keeps uplink_removal (_do_uplink_cleanup ovn_name n) g tr (fun _ _ _ => True).
Proof.
  intros Hd. unfold _do_uplink_cleanup, fetch_shared_router_port.
  eapply (keeps_bind _ _ _ _ _ (fun r _ tr' => forall q, r = inr (Some q) -> read_uplink tr' q)).
  { eapply (keeps_bind _ _ _ _ _ (fun r _ tr' => forall ps, r = inr ps -> Ev (PortsOnNetwork n None) (inr ps) ∈ tr'));
      [apply keeps_call; [done|done|]|done|].
    - intros r ps ->. apply elem_snoc.
    - intros ps g1 tr1 Hd1 _ Hps. apply keeps_ret; [done|]. intros q [= Hq].
      apply head_Some_elem_of, list_elem_of_filter in Hq as [Hu Hin]. exists ps. auto. }
  { done. }
  intros [q|] g1 tr1 Hd1 _ Hq; [|by apply keeps_ret]. specialize (Hq q eq_refl).
  assert (exists name, q.(port_name) = Some name /\ "uplink-" +:+ removeprefix "uplink-" name = name) as (name & Hname & Hre).
  { destruct Hq as (_ & _ & _ & Hu). unfold is_uplink_port in Hu. destruct (port_name q) as [name|]; [|done].
    exists name. split; [done|]. apply removeprefix_name. by apply andb_true_iff in Hu as [_ ?]. }
  rewrite Hname. cbn [default].
  apply (keeps_bind _ _ _ _ _ (fun _ _ _ => True)); [|done|].
  { unfold handle_subport_removal. eapply keeps_bind; [apply removal_reads; [apply trunk_id_reads|done]|done|].
    intros t g2 tr2 Hd2 Hp2 _. apply (keeps_try _ _ _ _ _ (fun _ _ _ => True)); [|done|by intros; apply keeps_ret].
    unfold remove_subport_from_trunk. eapply keeps_bind; [apply removal_reads; [|done]|done|].
    - unfold fetch_trunk_plugin. calls_go.
    - intros [] g3 tr3 Hd3 Hp3 _. apply keeps_call; [done| |done]. intros r _. exists q. split; [|done].
      eapply read_uplink_prefix; [done|]. by etrans. }
  intros [] g2 tr2 Hd2 Hp2 _. assert (read_uplink tr2 q) as Hq2 by by eapply read_uplink_prefix.
  eapply keeps_bind; [apply (delete_lsp_keeps ("uplink-" +:+ removeprefix "uplink-" name) q); [done..|]| done|].
  { right. by rewrite Hre, Hname. }
  intros [] g3 tr3 Hd3 Hp3 Hdel1. specialize (Hdel1 eq_refl). rewrite Hre in Hdel1.
  assert (read_uplink tr3 q) as Hq3 by by eapply read_uplink_prefix.
  eapply keeps_bind; [apply (delete_lsp_keeps q.(port_id) q); [done..|by left]| done|].
  intros [] g4 tr4 Hd4 Hp4 Hdel2. specialize (Hdel2 eq_refl).
  apply keeps_call; [done| |done]. intros r _. exists q. split; [by eapply read_uplink_prefix|].
  split; [done|]. split; [done|]. intros name' Hn'. rewrite Hname in Hn'. injection Hn' as <-.
  by eapply lsp_deleted_prefix.
Qed.

(** Whatever fails, the handler returns unless the ports cannot be read, and keeps to
    the uplink port that it found. *)
Lemma after_delete_keeps p g :
  p.(pd_network_id) = n ->
  every_run (handle_router_interface_after_delete ovn_name p) g (fun r _ tr =>
    disciplined uplink_removal tr /\
    (r = inr tt \/ exists e, Ev (PortsOnNetwork n (Some ROUTER_INTERFACE_AND_GW)) (inl e) ∈ tr)).
Proof.
  intros Hn. unfold every_run, handle_router_interface_after_delete. rewrite Hn.
  destruct (decide _); [apply wp_mret; split; [apply disciplined_nil|by left]|].
  wp_pure. wp_answer r tr Hs. unfold step_trace in Hs. subst tr. cbn [app].
  assert (disciplined uplink_removal [Ev (PortsOnNetwork n (Some ROUTER_INTERFACE_AND_GW)) r]) as Hd.
  { apply (disciplined_snoc uplink_removal []); [apply disciplined_nil|done]. }
  destruct r as [e|ports].
  - split; [done|]. right. exists e. by apply list_elem_of_singleton.
  - destruct (truthy ports); [apply wp_mret; auto|].
    eapply wp_mono; [|apply wp_conj; [apply wp_try_total|
      apply (keeps_try uplink_removal _ _ _ _ (fun _ _ _ => True) (fun _ _ _ => True)); [by apply cleanup_keeps|done|by intros; apply keeps_ret]]].
    intros r g' tr' [[[] ->] (Hd' & _)]. auto.
Qed.

End removal.

(** ** Creating and removing the uplink *)

(** A logical switch port of OVN with its switch, and a subport of a trunk. *)
Record lsp := Lsp { lsp_switch : string; lsp_name : string; lsp_tag : option Z; lsp_network : option string }.
Record trunk_subport := TrunkSubport { ts_trunk : string; ts_port : string; ts_vlan : option Z }.
Inductive ovn_cmd : Type := CmdCreate (l : lsp) | CmdDelete (switch name : string).

(** The ports of Neutron, OVN's logical switch ports, the subports of trunks, and
    the OVN commands built so far. *)
Record uplink_state := Uplink {
  u_ports : list port; u_lsps : list lsp; u_subports : list trunk_subport; u_cmds : list ovn_cmd;
}.

Definition is_lsp (switch name : string) (l : lsp) : Prop := l.(lsp_switch) = switch /\ l.(lsp_name) = name.
#[export] Instance is_lsp_dec switch name l : Decision (is_lsp switch name l).
Proof. apply _. Defined.
Definition is_subport (trunk_id port_id : string) (t : trunk_subport) : Prop :=
  t.(ts_trunk) = trunk_id /\ t.(ts_port) = port_id.
#[export] Instance is_subport_dec trunk_id port_id t : Decision (is_subport trunk_id port_id t).
Proof. apply _. Defined.

(** A port of the same name is left as it is; a port is deleted from the switch
    it is said to be on. *)
Definition run_cmd (lsps : list lsp) (c : ovn_cmd) : list lsp :=
  match c with
  | CmdCreate l => if decide (l.(lsp_name) ∈ map lsp_name lsps) then lsps else lsps ++ [l]
  | CmdDelete switch name => filter (fun l => ~ is_lsp switch name l) lsps
  end.

Definition on_network (network_id : string) (owners : option (list string)) (p : port) : bool :=
  bool_decide (p.(port_network_id) = network_id) &&
  match owners with None => true | Some l => bool_decide (p.(port_device_owner) ∈ l) end.

Section uplink.
Variable CONF : conf.
Variables ovn_name : string -> string.
(** The flavors of routers. *)
Variable flavor : string -> router_flavor.
(** The dynamic segment of the network [net], and the id of the next port. *)
Variables (net : string) (seg : segment).
Variable new_id : string.

(** A Neutron with an OVN driver: a new port gets a logical switch port on its
    network's switch; the dynamic segment is that of one network, type and
    physical network; a trunk refuses to remove what is not its subport. *)
Definition uplink_env (R : Type) (op : neutronE R) (s : uplink_state) : res R * uplink_state :=
  match op in neutronE R return res R * uplink_state with
  | GetCorePlugin => (Ok true, s)
  | GetTrunkPlugin => (Ok true, s)
  | TypeManagerHas _ => (Ok true, s)
  | GetL3Plugin => (Ok true, s)
  | GetRouter id => (Ok (Router id (flavor id) None), s)
  | PortsOnNetwork n owners => (Ok (filter (fun p => on_network n owners p = true) s.(u_ports)), s)
  | AllocateDynamicSegment n t physnet =>
      (Ok (if decide (n = net /\ t = seg.(network_type) /\ physnet = seg.(physical_network)) then Some seg else None), s)
  | GetSegment id => (Ok (if decide (id = seg.(segment_id)) then Some seg else None), s)
  | CreatePort name n =>
      (Ok new_id, Uplink (s.(u_ports) ++ [Port new_id n (Some name) "" []])
                    (s.(u_lsps) ++ [Lsp (ovn_name n) new_id None None]) s.(u_subports) s.(u_cmds))
  | DeletePort id =>
      (Ok tt, Uplink (filter (fun p => p.(port_id) <> id) s.(u_ports)) s.(u_lsps) s.(u_subports) s.(u_cmds))
  | AddSubports t p vlan =>
      (Ok tt, Uplink s.(u_ports) s.(u_lsps) (s.(u_subports) ++ [TrunkSubport t p vlan]) s.(u_cmds))
  | RemoveSubports t p =>
      if decide (Exists (is_subport t p) s.(u_subports))
      then (Ok tt, Uplink s.(u_ports) s.(u_lsps) (filter (fun x => ~ is_subport t p x) s.(u_subports)) s.(u_cmds))
      else (Err (Exn "SubPortNotFound" [t; p]), s)
  | CreateLswitchPort l switch tag physnet =>
      (Ok (length s.(u_cmds)),
       Uplink s.(u_ports) s.(u_lsps) s.(u_subports) (s.(u_cmds) ++ [CmdCreate (Lsp switch l tag physnet)]))
  | DeleteLswitchPort l switch =>
      (Ok (length s.(u_cmds)),
       Uplink s.(u_ports) s.(u_lsps) s.(u_subports) (s.(u_cmds) ++ [CmdDelete switch l]))
  | OvnTransaction ids =>
      (Ok tt, Uplink s.(u_ports) (foldl run_cmd s.(u_lsps) (omap (fun i => s.(u_cmds) !! i) ids))
                s.(u_subports) s.(u_cmds))
  | _ => (Err (Exn "NotImplementedError" []), s)
  end.

Lemma filter_none {A} (P : A -> Prop) `{forall x, Decision (P x)} (l : list A) :
  (forall x, x ∈ l -> P x) -> filter P l = l.
Proof.
  induction l as [|x l IH]; intros Hall; [done|]. rewrite filter_cons_True by (apply Hall; left).
  f_equal. apply IH. intros y Hy. apply Hall. by right.
Qed.

(** Removing what was added last, when nothing before it is like it. *)
Lemma filter_not_snoc {A} (P : A -> Prop) `{forall x, Decision (P x)} (l : list A) x :
  (forall y, y ∈ l -> ~ P y) -> P x -> filter (fun y => ~ P y) (l ++ [x]) = l.
Proof.
  intros Hl Hx. rewrite filter_app, filter_none, filter_cons_False by (done || tauto).
  apply app_nil_r.
Qed.

Lemma run_cmd_snoc ports lsps subs cmds c (g : globals) :
  run uplink_env (call (OvnTransaction [length cmds])) g (Uplink ports lsps subs (cmds ++ [c])) =
  (inr tt, g, Uplink ports (run_cmd lsps c) subs (cmds ++ [c])).
Proof. simpl. by rewrite lookup_app_r, Nat.sub_diag by done. Qed.

Definition uplink_name : string := "uplink-" +:+ seg.(segment_id).

(** The parts of the uplink: the shared port with its logical switch port, the
    localnet port that carries the segment's VLAN on the physical network, and the
    subport of the trunk [t]. *)
Definition shared_port : port := Port new_id net (Some uplink_name) "" [].
Definition shared_lsp : lsp := Lsp (ovn_name net) new_id None None.
Definition localnet_lsp : lsp := Lsp (ovn_name net) uplink_name seg.(segmentation_id) seg.(physical_network).
Definition uplink_subport (t : string) : trunk_subport := TrunkSubport t new_id seg.(segmentation_id).

(** The state once the uplink exists. *)
Definition with_uplink (t : string) (s : uplink_state) : uplink_state :=
  Uplink (s.(u_ports) ++ [shared_port]) (s.(u_lsps) ++ [shared_lsp; localnet_lsp])
    (s.(u_subports) ++ [uplink_subport t]) (s.(u_cmds) ++ [CmdCreate localnet_lsp]).

(** The router that a port belongs to has a flavor. *)
Definition flavored (device_id : option string) : Prop :=
  exists id f, device_id = Some id /\ id <> "" /\ flavor id = Flavor f /\ f <> "".

Variable g : globals.
Variables nn : string.
Hypothesis trunk_cached : g.(cached_trunk_id) = Some nn.
Hypothesis nn_not_empty : nn <> "".
Hypothesis client_cached : g.(cached_ovn_client) <> None.

Lemma run_trunk_id s : run uplink_env fetch_network_node_trunk_id g s = (inr nn, g, s).
Proof.
  unfold fetch_network_node_trunk_id. simpl. rewrite trunk_cached. by destruct nn.
Qed.

Lemma run_nb_idl a s : run uplink_env (ovn_nb_idl a) g s = (inr tt, g, s).
Proof.
  unfold ovn_nb_idl, ovn_client. simpl. by destruct (cached_ovn_client g).
Qed.

Lemma run_create_uplink s :
  uplink_name ∉ map lsp_name s.(u_lsps) ->
  run uplink_env (create_uplink_port ovn_name (Some seg) net) g s =
  (inr tt, g, Uplink s.(u_ports) (s.(u_lsps) ++ [localnet_lsp]) s.(u_subports)
                (s.(u_cmds) ++ [CmdCreate localnet_lsp])).
Proof.
  intros Hnew. unfold create_uplink_port, mbind, prog_mbind. rewrite run_bind, run_nb_idl.
  rewrite run_bind. cbn [run call uplink_env]. rewrite run_bind, run_nb_idl. rewrite run_cmd_snoc.
  unfold run_cmd. rewrite decide_False by done. done.
Qed.

Lemma run_delete_lsp l n s (prog_ : N unit) :
  prog_ = (_ ← ovn_nb_idl "_nb_idl"; cmd ← call (DeleteLswitchPort l (ovn_name n));
           _ ← ovn_nb_idl "_transaction"; call (OvnTransaction [cmd])) ->
  run uplink_env prog_ g s =
  (inr tt, g, Uplink s.(u_ports) (filter (fun x => ~ is_lsp (ovn_name n) l x) s.(u_lsps)) s.(u_subports)
                (s.(u_cmds) ++ [CmdDelete (ovn_name n) l])).
Proof.
  intros ->. unfold mbind, prog_mbind. rewrite run_bind, run_nb_idl.
  rewrite run_bind. cbn [run call uplink_env]. rewrite run_bind, run_nb_idl. by rewrite run_cmd_snoc.
Qed.

Definition no_uplink (n : string) (ps : list port) : Prop :=
  forall p, p ∈ ps -> p.(port_network_id) = n -> is_uplink_port p = false.

Lemma removeprefix_app p s : removeprefix p (p +:+ s) = s.
Proof.
  unfold removeprefix. rewrite (proj2 (startswith_spec p (p +:+ s))) by eauto. apply drop_str_app.
Qed.

Lemma no_uplink_filter n ps :
  no_uplink n ps ->
  filter (fun p => is_uplink_port p = true) (filter (fun p => on_network n None p = true) ps) = [].
Proof.
  intros Hno. apply elem_of_nil_inv. intros p (Hu & (Hn & Hp)%list_elem_of_filter)%list_elem_of_filter.
  unfold on_network in Hn. rewrite andb_true_r in Hn. apply bool_decide_eq_true in Hn.
  rewrite (Hno p Hp Hn) in Hu. done.
Qed.

Lemma fetch_shared_new ps lsps subs cmds :
  no_uplink net ps ->
  run uplink_env (fetch_shared_router_port net) g (Uplink (ps ++ [shared_port]) lsps subs cmds) =
  (inr (Some shared_port), g, Uplink (ps ++ [shared_port]) lsps subs cmds).
Proof.
  intros Hno. unfold fetch_shared_router_port. simpl. rewrite !filter_app, no_uplink_filter by done.
  rewrite filter_cons_True, filter_nil; [|unfold on_network; simpl; by rewrite bool_decide_true].
  by rewrite filter_cons_True.
Qed.

Lemma run_remove_subport subs s :
  (forall x, x ∈ subs -> x.(ts_port) <> new_id) -> s.(u_subports) = subs ++ [uplink_subport nn] ->
  run uplink_env (handle_subport_removal shared_port) g s =
  (inr tt, g, Uplink s.(u_ports) s.(u_lsps) subs s.(u_cmds)).
Proof.
  intros Hfresh Hs. unfold handle_subport_removal, mbind, prog_mbind. rewrite run_bind, run_trunk_id.
  cbn beta iota. rewrite run_try. unfold remove_subport_from_trunk, fetch_trunk_plugin. run_step. cbn [uplink_env fst snd negb].
  cbn [run mret prog_mret].
  rewrite run_call. cbn [uplink_env fst snd]. rewrite Hs. rewrite decide_True by (apply Exists_app; right; by constructor). cbn [fst snd].
  rewrite filter_not_snoc; [done| |done]. intros y Hy [_ Hp]. by apply (Hfresh y).
Qed.

Lemma run_cleanup ps lsps subs cmds :
  no_uplink net ps -> (forall p, p ∈ ps -> p.(port_id) <> new_id) -> (forall x, x ∈ subs -> x.(ts_port) <> new_id) ->
  run uplink_env (_do_uplink_cleanup ovn_name net) g
    (Uplink (ps ++ [shared_port]) lsps (subs ++ [uplink_subport nn]) cmds) =
  (inr tt, g, Uplink ps (filter (fun x => ~ is_lsp (ovn_name net) new_id x)
       (filter (fun x => ~ is_lsp (ovn_name net) uplink_name x) lsps))
     subs ((cmds ++ [CmdDelete (ovn_name net) uplink_name]) ++ [CmdDelete (ovn_name net) new_id])).
Proof.
  intros Hno Hfresh Hsub. unfold _do_uplink_cleanup, mbind, prog_mbind.
  rewrite run_bind, fetch_shared_new by done. cbn beta iota.
  rewrite run_bind, (run_remove_subport subs) by done. cbn beta iota.
  rewrite run_bind. erewrite (run_delete_lsp uplink_name net);
    [|simpl; unfold uplink_name; rewrite removeprefix_app; reflexivity].
  cbn beta iota. rewrite run_bind. erewrite (run_delete_lsp new_id net); [|reflexivity].
  cbn beta iota. simpl. rewrite filter_app, filter_none by done.
  rewrite filter_cons_False by (simpl; tauto). by rewrite app_nil_r.
Qed.

Lemma run_no_uplink n s :
  no_uplink n s.(u_ports) -> run uplink_env (_do_uplink_cleanup ovn_name n) g s = (inr tt, g, s).
Proof.
  intros Hno. unfold _do_uplink_cleanup, fetch_shared_router_port. simpl. by rewrite no_uplink_filter.
Qed.

(** The port table once the network's router ports are gone. *)
Definition without_router_ports (n : string) (ps : list port) : list port :=
  filter (fun p => on_network n (Some ROUTER_INTERFACE_AND_GW) p = false) ps.

(** Nothing of the state uses the names of the new uplink. *)
Definition fresh_for_uplink (s : uplink_state) : Prop :=
  no_uplink net s.(u_ports) /\ (forall p, p ∈ s.(u_ports) -> p.(port_id) <> new_id) /\
  new_id ∉ map lsp_name s.(u_lsps) /\ uplink_name ∉ map lsp_name s.(u_lsps) /\ new_id <> uplink_name /\
  (forall x, x ∈ s.(u_subports) -> x.(ts_port) <> new_id).

Lemma run_only n s :
  length (filter (fun p => on_network n (Some ROUTER_INTERFACE_AND_GW) p = true) s.(u_ports)) <= 1 ->
  run uplink_env (is_only_router_port_on_network n) g s = (inr true, g, s).
Proof.
  intros Hlen. unfold is_only_router_port_on_network. simpl.
  by destruct (Nat.ltb_spec 1 (length (filter
    (fun p => on_network n (Some ROUTER_INTERFACE_AND_GW) p = true) (u_ports s)))) as [|_]; [lia|].
Qed.

Lemma run_flavored (d : option string) s :
  exists b : bool, run uplink_env (match d with
                  | Some ((String _ _) as router_id) => _router_has_flavor router_id
                  | _ => mret false
                  end) g s = (inr b, g, s) /\ (b = true <-> flavored d).
Proof.
  destruct d as [[|a r]|].
  - exists false. split; [done|]. split; [done|]. by intros (id & f & [= <-] & Hid & _).
  - unfold _router_has_flavor. run_step. cbn [uplink_env fst snd negb r_flavor].
    eexists. split; [reflexivity|]. unfold flavored.
    destruct (flavor (String a r)) as [| |[|c f]] eqn:Hf; cbn.
    1-3: split; [done|]; intros (id & f & [= <-] & _ & Hf' & Hne); rewrite Hf in Hf'; congruence.
    split; [|done]. intros _. by exists (String a r), (String c f).
  - exists false. split; [done|]. split; [done|]. by intros (id & f & [=] & _).
Qed.

(** The segment is the dynamic VLAN segment of the configured physical network. *)
Definition router_segment : Prop :=
  seg.(network_type) = TYPE_VLAN /\ seg.(physical_network) = CONF.(network_node_switchport_physnet) /\
  exists a b, CONF.(network_node_switchport_physnet) = Some (String a b).

Lemma run_router_segment context s :
  context.(current).(pd_network_id) = net -> router_segment ->
  run uplink_env (fetch_or_create_router_segment CONF context) g s = (inr seg, g, s).
Proof.
  intros Hn (Ht & Hp & a & b & Hphys). unfold fetch_or_create_router_segment. rewrite Hn, Hphys.
  assert (run uplink_env (allocate_dynamic_segment net TYPE_VLAN (Some (String a b))) g s = (inr (Some seg), g, s)) as Hseg.
  { unfold allocate_dynamic_segment. simpl. rewrite decide_True by (split_and!; congruence). done. }
  unfold mbind, prog_mbind. by rewrite run_bind, Hseg.
Qed.

Lemma run_shared_port context s :
  context.(current).(pd_network_id) = net ->
  run uplink_env (create_neutron_port_for_segment seg context) g s =
  (inr new_id, g,
   Uplink (s.(u_ports) ++ [shared_port]) (s.(u_lsps) ++ [shared_lsp]) s.(u_subports) s.(u_cmds)).
Proof. intros Hn. unfold shared_port, shared_lsp. by rewrite <- Hn. Qed.

Lemma run_add_subport s :
  run uplink_env (add_subport_to_trunk new_id seg) g s =
  (inr tt, g, Uplink s.(u_ports) s.(u_lsps) (s.(u_subports) ++ [uplink_subport nn]) s.(u_cmds)).
Proof.
  unfold add_subport_to_trunk, mbind, prog_mbind. by rewrite run_bind, run_trunk_id.
Qed.

Lemma run_segment_obj s :
  run uplink_env (network_segment_by_id seg.(segment_id)) g s = (inr (Some seg), g, s).
Proof. unfold network_segment_by_id. simpl. by rewrite decide_True. Qed.

Lemma run_create context s :
  context.(current).(pd_network_id) = net -> router_segment -> fresh_for_uplink s ->
  length (filter (fun p => on_network net (Some ROUTER_INTERFACE_AND_GW) p = true) s.(u_ports)) <= 1 ->
  (flavored context.(current).(pd_device_id) ->
     run uplink_env (create_port_postcommit CONF ovn_name context) g s = (inr tt, g, s)) /\
  (~ flavored context.(current).(pd_device_id) ->
     run uplink_env (create_port_postcommit CONF ovn_name context) g s = (inr tt, g, with_uplink nn s)).
Proof.
  intros Hn Hphys (_ & _ & _ & Hl & Hne & _) Hlen.
  destruct (run_flavored context.(current).(pd_device_id) s) as (b & Hb & Hflav). rewrite <- Hflav.
  unfold create_port_postcommit, mbind, prog_mbind. rewrite Hn.
  rewrite run_bind, run_only by done. cbn beta iota delta [negb].
  rewrite run_bind, Hb. cbn beta iota. destruct b; (split; intros Hc; [|]); try done.
  rewrite run_bind, run_router_segment by done. cbn beta iota.
  rewrite run_bind, run_shared_port by done. cbn beta iota.
  rewrite run_bind, run_add_subport. cbn beta iota.
  rewrite run_bind, run_segment_obj. cbn beta iota.
  rewrite run_create_uplink.
  - unfold with_uplink. cbn [u_ports u_lsps u_subports u_cmds]. by rewrite <- app_assoc.
  - cbn [u_lsps]. rewrite map_app, elem_of_app. cbn. rewrite list_elem_of_singleton. intros [?|Heq]; [done|by apply Hne].
Qed.

(** The removal handler once no router port of the network is left. *)
Lemma run_after_delete p ps lsps subs cmds :
  p.(pd_network_id) = net -> p.(pd_device_owner) ∈ ROUTER_INTERFACE_AND_GW ->
  (forall q, q ∈ ps -> on_network net (Some ROUTER_INTERFACE_AND_GW) q = false) ->
  run uplink_env (handle_router_interface_after_delete ovn_name p) g (Uplink ps lsps subs cmds) =
  run uplink_env (try_except (_do_uplink_cleanup ovn_name net) (fun _ => mret tt)) g (Uplink ps lsps subs cmds).
Proof.
  intros Hp Ho Hps. unfold handle_router_interface_after_delete. rewrite decide_False by tauto.
  unfold mbind, prog_mbind. rewrite run_bind, run_call. cbn [uplink_env fst snd u_ports]. rewrite Hp.
  assert (filter (fun q => on_network net (Some ROUTER_INTERFACE_AND_GW) q = true) ps = []) as ->; [|done].
  apply elem_of_nil_inv. intros q (Hq & Hin)%list_elem_of_filter. rewrite Hps in Hq by done. done.
Qed.

Lemma run_removal p s :
  p.(pd_network_id) = net -> p.(pd_device_owner) ∈ ROUTER_INTERFACE_AND_GW -> fresh_for_uplink s ->
  exists cmds,
    run uplink_env (handle_router_interface_after_delete ovn_name p) g
      (Uplink (without_router_ports net (with_uplink nn s).(u_ports)) (with_uplink nn s).(u_lsps)
         (with_uplink nn s).(u_subports) (with_uplink nn s).(u_cmds)) =
    (inr tt, g, Uplink (without_router_ports net s.(u_ports)) s.(u_lsps) s.(u_subports) cmds).
Proof.
  intros Hp Ho (Hno & Hids & Hl1 & Hl2 & Hne & Hsub).
  assert (without_router_ports net (u_ports (with_uplink nn s)) =
    without_router_ports net (u_ports s) ++ [shared_port]) as ->.
  { unfold without_router_ports, with_uplink. simpl. rewrite filter_app. f_equal.
    rewrite filter_cons_True; [done|]. unfold on_network. simpl. by rewrite andb_false_r. }
  rewrite run_after_delete; [|done|done|].
  2: { intros q [Hin|Hin]%elem_of_app; [by apply list_elem_of_filter in Hin as [? _]|].
       apply list_elem_of_singleton in Hin as ->. unfold on_network. simpl. by rewrite andb_false_r. }
  rewrite run_try. cbn [with_uplink u_subports u_lsps u_cmds]. rewrite run_cleanup; [|..|done].
  - eexists. do 2 f_equal.
    change [shared_lsp; localnet_lsp] with ([shared_lsp] ++ [localnet_lsp]). rewrite app_assoc.
    rewrite filter_not_snoc; [apply filter_not_snoc| |]; [|done| |done].
    + intros y Hy [_ Hn]. apply Hl1. rewrite <- Hn. by apply list_elem_of_fmap_2.
    + intros y [Hy|Hy]%elem_of_app [_ Hn].
      * apply Hl2. rewrite <- Hn. by apply list_elem_of_fmap_2.
      * apply list_elem_of_singleton in Hy as ->. by apply Hne.
  - intros q [_ Hq]%list_elem_of_filter. by apply Hno.
  - intros q [_ Hq]%list_elem_of_filter. by apply Hids.
Qed.

(** C9. Round trip of a network's uplink.  The first router port of a network
    creates nothing when its router has a flavor, and otherwise exactly one shared
    port on the network, one subport with the segment's VLAN on the network node's
    trunk and one localnet port with that VLAN on the network's switch, all named
    after the segment.  When the last router port is gone and no request is refused,
    the removal deletes exactly these and nothing else, although the segment is only
    known from the shared port's name; repeated, or where there is no uplink, it
    changes nothing.  Whichever requests fail, the removal does not raise once the
    router ports are read, writes only to the parts of an uplink port it has read on
    that network, and deletes that port only when both its logical switch ports are
    deleted, so that what is left is still found by its name. *)
Theorem uplink_roundtrip context p s :
  context.(current).(pd_network_id) = net ->
  p.(pd_network_id) = net -> p.(pd_device_owner) ∈ ROUTER_INTERFACE_AND_GW ->
  router_segment ->
  length (filter (fun p => on_network net (Some ROUTER_INTERFACE_AND_GW) p = true) s.(u_ports)) <= 1 ->
  fresh_for_uplink s ->
  let create := run uplink_env (create_port_postcommit CONF ovn_name context) g in
  let remove := run uplink_env (handle_router_interface_after_delete ovn_name p) g in
  let detached (s : uplink_state) :=
    Uplink (without_router_ports net s.(u_ports)) s.(u_lsps) s.(u_subports) s.(u_cmds) in
  (flavored context.(current).(pd_device_id) -> create s = (inr tt, g, s)) /\
  (~ flavored context.(current).(pd_device_id) -> create s = (inr tt, g, with_uplink nn s)) /\
  remove (detached s) = (inr tt, g, detached s) /\
  (exists cmds, let s2 := Uplink (without_router_ports net s.(u_ports)) s.(u_lsps) s.(u_subports) cmds in
     remove (detached (with_uplink nn s)) = (inr tt, g, s2) /\ remove s2 = (inr tt, g, s2)) /\
  forall g0, every_run (handle_router_interface_after_delete ovn_name p) g0 (fun r _ tr =>
    disciplined (uplink_removal ovn_name net) tr /\
    (r = inr tt \/ exists e, Ev (PortsOnNetwork net (Some ROUTER_INTERFACE_AND_GW)) (inl e) ∈ tr)).
Proof.
  intros Hn Hp Ho Hphys Hlen Hfresh create remove detached.
  pose proof (run_create context s Hn Hphys Hfresh Hlen) as [Hflav Hplain].
  assert (forall cmds, let s2 := Uplink (without_router_ports net s.(u_ports)) s.(u_lsps) s.(u_subports) cmds in
    remove s2 = (inr tt, g, s2)) as Hidem.
  { intros cmds s2. unfold remove, s2. rewrite run_after_delete; [|done|done|].
    - rewrite run_try, run_no_uplink; [done|]. intros q [_ Hq]%list_elem_of_filter. by apply (proj1 Hfresh).
    - by intros q [? _]%list_elem_of_filter. }
  split; [done|]. split; [done|]. split; [apply Hidem|]. split.
  - destruct (run_removal p s Hp Ho Hfresh) as [cmds Hr]. exists cmds. split; [exact Hr|apply Hidem].
  - intros g0. by apply after_delete_keeps.
Qed.

End uplink.

(** ** Concrete runs *)

Definition sample_segment : segment := Segment "seg9" TYPE_VLAN (Some "physnet") (Some 1800%Z) true.
Definition sample_router_port : port_dict :=
  PortDict "rp" "net1" "" None ∅ DEVICE_OWNER_ROUTER_INTF (Some "r1") [] None.
Definition sample_context : port_context :=
  PortContext sample_router_port sample_router_port "" "" "" None [] [].
Definition sample_routers_conf : conf :=
  Conf (1, 3799)%Z (Some "physnet") None false "http://undersync".

Lemma uplink_roundtrip_witness :
  let s := Uplink [Port "rp" "net1" None DEVICE_OWNER_ROUTER_INTF []]
             [Lsp "neutron-net1" "rp" None None] [TrunkSubport "nn" "other" (Some 7%Z)] [] in
  let env := uplink_env (fun n => "neutron-" +:+ n) (fun r => if decide (r = "f1") then Flavor "svi" else NoFlavor)
               "net1" sample_segment "port1" in
  run env (create_port_postcommit sample_routers_conf (fun n => "neutron-" +:+ n) sample_context)
    (Globals (Some "nn") (Some 1)) s
  = (inr tt, Globals (Some "nn") (Some 1), with_uplink (fun n => "neutron-" +:+ n) "net1" sample_segment "port1" "nn" s).
Proof.
  refine (proj1 (proj2 (uplink_roundtrip sample_routers_conf (fun n => "neutron-" +:+ n)
    (fun r => if decide (r = "f1") then Flavor "svi" else NoFlavor) "net1" sample_segment
    "port1" (Globals (Some "nn") (Some 1)) "nn" _ _ _ sample_context sample_router_port
    (Uplink [Port "rp" "net1" None DEVICE_OWNER_ROUTER_INTF []]
       [Lsp "neutron-net1" "rp" None None] [TrunkSubport "nn" "other" (Some 7%Z)] []) _ _ _ _ _ _)) _).
  - reflexivity.
  - discriminate.
  - discriminate.
  - reflexivity.
  - reflexivity.
  - left.
  - split; [reflexivity|]. split; [reflexivity|]. repeat eexists.
  - vm_compute. lia.
  - repeat split.
    + intros p Hp%list_elem_of_singleton. by subst p.
    + intros p Hp%list_elem_of_singleton. by subst p.
    + intros Hp%list_elem_of_singleton. discriminate.
    + intros Hp%list_elem_of_singleton. discriminate.
    + discriminate.
    + intros x Hx%list_elem_of_singleton. by subst x.
  - intros (id & f & Hid & _ & Hf & _). injection Hid as <-. discriminate Hf.
Defined.

Lemma link_vxlan_hcg_spec_witness :
  run (ovn_env None ["c1"; "old"; "c1"] (fun c => bool_decide (c = "c1")) None true "hcg")
    (link_vxlan_network_ha_chassis_group (fun n => "neutron-" +:+ n) (fun p => "lrp-" +:+ p) "r1" "p1" "n1")
    (Globals None (Some 1)) []
  = (inr tt, Globals None (Some 1),
     [WBegin; WSync "n1" "r1" [("c1", 32767%Z)]; WSetLrp "lrp-p1" "hcg"; WCommit]).
Proof.
  refine (proj1 (link_vxlan_hcg_spec (fun n => "neutron-" +:+ n) (fun p => "lrp-" +:+ p) None
    ["c1"; "old"; "c1"] (fun c => bool_decide (c = "c1")) None true "hcg" "r1" "p1" "n1"
    (Globals None (Some 1)) _) "c1" _ _).
  - discriminate.
  - reflexivity.
  - split; [left|]. split; [reflexivity|]. intros c' _ Hc. by apply bool_decide_eq_true in Hc.
Defined.
