(* ===== verification/Mech.v ===== *)
(** * The mechanism drivers

    Models [src/python/neutron-understack/neutron_understack/neutron_understack_mech.py]
    ([UnderstackDriver], the ML2 callbacks on ports) and [undersync_mech.py]
    ([UndersyncDriver.bind_port]).  The network and subnet callbacks of the driver
    are empty in the source. *)
From S2P Require Import Prelude PyStr Ranges Neutron NeutronStore Trunk Svi Routers.

Definition SUPPORTED_VNIC_TYPES : list string := [VNIC_BAREMETAL; VNIC_NORMAL].

Section mech.
Variable CONF : conf.
Variables ovn_name ovn_lrouter_port_name : string -> string.

(* neutron_understack/neutron_understack_mech.py:34-35 _is_router_interface_port *)
Definition _is_router_interface_port (p : port_dict) : bool :=
  bool_decide (p.(pd_device_owner) ∈ [DEVICE_OWNER_ROUTER_INTF; DEVICE_OWNER_ROUTER_GW]).

(* neutron_understack/neutron_understack_mech.py:439-440 is_provisioning_network *)
Definition is_provisioning_network (network_id : string) : bool :=
  bool_decide (CONF.(provisioning_network) = Some network_id).

(* neutron_understack/neutron_understack_mech.py:117-152 UnderstackDriver.create_port_precommit *)
Definition create_port_precommit (context : port_context) : N unit :=
  if is_router_interface context then _ ← validate_svi_router_port context.(current); mret tt
  else mret tt.

(* neutron_understack/neutron_understack_mech.py:154-192 UnderstackDriver.create_port_postcommit *)
Definition mech_create_port_postcommit (context : port_context) : N unit :=
  if is_router_interface context
  then try_except (create_port_postcommit CONF ovn_name context) (fun e => Raise e)
  else mret tt.

(* neutron_understack/neutron_understack_mech.py:194-250 UnderstackDriver.update_port_precommit *)
Definition update_port_precommit (context : port_context) : N unit :=
  if negb (is_router_interface context) then mret tt else
  let became_router_interface :=
    negb (_is_router_interface_port context.(original)) && _is_router_interface_port context.(current) in
  let fixed_ips_changed :=
    negb (bool_decide (context.(original).(pd_fixed_ips) = context.(current).(pd_fixed_ips))) in
  if negb (became_router_interface || fixed_ips_changed) then mret tt else
  _ ← validate_svi_router_port context.(current); mret tt.

(* neutron_understack/neutron_understack_mech.py:275-306 UnderstackDriver._tenant_network_port_cleanup *)
Definition _tenant_network_port_cleanup (context : port_context) : N unit :=
  match context.(original_top_bound_segment) with
  | None => Raise (TypeError ["NoneType"; "id"])
  | Some top =>
      seg ← network_segment_by_id top.(segment_id);
      _ ← match seg with Some s => release_segment_if_unused s | None => mret tt end;
      match context.(current).(pd_trunk_details) with
      | Some td => if truthy td then clean_trunk CONF td context.(original_host) else mret tt
      | None => mret tt
      end
  end.

(* neutron_understack/neutron_understack_mech.py:256-273 UnderstackDriver._update_port_baremetal *)
Definition _update_port_baremetal (context : port_context) : N unit :=
  let current_vif_unbound := bool_decide (context.(ctx_vif_type) = VIF_TYPE_UNBOUND) in
  let original_vif_other := bool_decide (context.(original_vif_type) = VIF_TYPE_OTHER) in
  let current_vif_other := bool_decide (context.(ctx_vif_type) = VIF_TYPE_OTHER) in
  let port := if current_vif_unbound && original_vif_other
              then context.(original) else context.(current) in
  let vlan_group_name := physnet_of port.(pd_profile) in
  if current_vif_unbound && original_vif_other then
    _ ← _tenant_network_port_cleanup context;
    match vlan_group_name with
    | Some grp => _ ← undersync_sync CONF grp; mret tt
    | None => mret tt
    end
  else if current_vif_other then
    match vlan_group_name with
    | Some grp => _ ← undersync_sync CONF grp; mret tt
    | None => mret tt
    end
  else mret tt.

(* neutron_understack/neutron_understack_mech.py:252-254 UnderstackDriver.update_port_postcommit *)
Definition update_port_postcommit (context : port_context) : N unit :=
  baremetal ← lift (is_baremetal_port context);
  if (baremetal : bool) then _update_port_baremetal context else mret tt.

(* neutron_understack/neutron_understack_mech.py:315-340 UnderstackDriver._delete_port_baremetal *)
Definition _delete_port_baremetal (context : port_context) : N unit :=
  let port := context.(current) in
  match physnet_of port.(pd_profile) with
  | None => mret tt
  | Some vlan_group_name =>
      if is_provisioning_network port.(pd_network_id)
      then _ ← undersync_sync CONF vlan_group_name; mret tt else
      seg ← network_segment_by_physnet port.(pd_network_id) vlan_group_name;
      _ ← match seg with Some s => release_segment_if_unused s | None => mret tt end;
      _ ← undersync_sync CONF vlan_group_name; mret tt
  end.

(* neutron_understack/neutron_understack_mech.py:311-313 UnderstackDriver.delete_port_postcommit *)
Definition delete_port_postcommit (context : port_context) : N unit :=
  baremetal ← lift (is_baremetal_port context);
  if (baremetal : bool) then _delete_port_baremetal context else mret tt.

(* neutron_understack/neutron_understack_mech.py:380-433 UnderstackDriver._bind_port_segment *)
Definition _bind_port_segment (context : port_context) (seg : segment) : N unit :=
  let port := context.(current) in
  match physnet_of port.(pd_profile) with
  | None => mret tt
  | Some vlan_group_name =>
      dynamic_segment ← match vlan_segment_for_physnet context vlan_group_name with
                        | Some s => mret s
                        | None => call (CtxAllocateDynamicSegment TYPE_VLAN vlan_group_name)
                        end;
      _ ← match port.(pd_trunk_details) with
          | Some td => if truthy td then configure_trunk td port.(pd_id) else mret tt
          | None => mret tt
          end;
      call (ContinueBinding seg.(segment_id) [dynamic_segment])
  end.

(* neutron_understack/neutron_understack_mech.py:342-378 UnderstackDriver.bind_port *)
Definition bind_port (context : port_context) : N unit :=
  let vnic_type := default VNIC_NORMAL context.(current).(pd_vnic_type) in
  if decide (vnic_type ∉ SUPPORTED_VNIC_TYPES) then mret tt else
  match list_find (fun s => s.(network_type) = TYPE_VXLAN) context.(segments_to_bind) with
  | Some (_, seg) => _bind_port_segment context seg
  | None => mret tt
  end.

(* neutron_understack/undersync_mech.py:23-55 UndersyncDriver.bind_port *)
Definition undersync_bind_port (context : port_context) : N unit :=
  let vnic_type := default VNIC_NORMAL context.(current).(pd_vnic_type) in
  if decide (vnic_type ∉ [VNIC_BAREMETAL]) then mret tt else
  match list_find (fun s => s.(network_type) = TYPE_VLAN) context.(segments_to_bind) with
  | Some (_, seg) => call (SetBinding seg.(segment_id) VIF_TYPE_OTHER PORT_STATUS_ACTIVE)
  | None => mret tt
  end.

(** The registry subscriptions of the driver. *)
Inductive registry_event : Type :=
| PortPrecommitDelete (device_owner network_id : string)
| RouterInterfaceAfterCreate (router_id port_id network_id : string)
| RouterInterfaceAfterDelete (p : port_dict).

(* neutron_understack/neutron_understack_mech.py:54-79 UnderstackDriver.subscribe *)
Definition mech_callback (e : registry_event) : N unit :=
  match e with
  | PortPrecommitDelete owner net => handle_router_interface_removal ovn_name owner net
  | RouterInterfaceAfterCreate rid pid net =>
      link_vxlan_network_ha_chassis_group ovn_name ovn_lrouter_port_name rid pid net
  | RouterInterfaceAfterDelete p => handle_router_interface_after_delete ovn_name p
  end.

End mech.

(** ** Which calls a program can make *)

Definition not_binding {R} (op : neutronE R) : bool :=
  match op with ContinueBinding _ _ | SetBinding _ _ _ => false | _ => true end.
Definition ev_not_binding (ev : event neutronE) : Prop :=
  match ev with Ev op _ => not_binding op = true end.

Lemma configure_trunk_calls td pid :
  calls_only (fun R (op : neutronE R) => not_binding op = true) (configure_trunk td pid).
Proof.
  unfold configure_trunk, fetch_port_object, _add_subports_networks_to_parent_port_switchport,
    _handle_segment_allocation, allocate_for_subport, fetch_subport_network_id, fetch_port_object,
    network_segment_by_physnet, allocate_dynamic_segment, create_binding_profile_level.
  calls_go.
Qed.

(** ** Binding *)

(** What [bind_port] has to bind: the first vxlan segment, for a supported VNIC
    type and a named VLAN group. *)
Definition binding_target (context : port_context) : option (segment * string) :=
  if decide (default VNIC_NORMAL context.(current).(pd_vnic_type) ∈ SUPPORTED_VNIC_TYPES) then
    match list_find (fun s => s.(network_type) = TYPE_VXLAN) context.(segments_to_bind),
          physnet_of context.(current).(pd_profile) with
    | Some (_, seg), Some grp => Some (seg, grp)
    | _, _ => None
    end
  else None.

(** [d] is the VLAN segment of the group: already on the network, or allocated. *)
Definition vlan_segment_ready (context : port_context) (grp : string)
    (tr : list (event neutronE)) (d : segment) : Prop :=
  vlan_segment_for_physnet context grp = Some d \/
  (vlan_segment_for_physnet context grp = None /\
   Ev (CtxAllocateDynamicSegment TYPE_VLAN grp) (inr d) ∈ tr).

Lemma wp_configure_trunk_of context tr g Q :
  (forall r g' tr2, Forall ev_not_binding tr2 -> Q r g' (tr ++ tr2)) ->
  wp step_trace (match context.(current).(pd_trunk_details) with
                 | Some td => if truthy td then configure_trunk td context.(current).(pd_id) else mret tt
                 | None => mret tt
                 end) Q g tr.
Proof.
  intros HQ. assert (forall r g', Q r g' tr) as HQ0.
  { intros r g'. specialize (HQ r g' []). rewrite app_nil_r in HQ. apply HQ. constructor. }
  destruct (pd_trunk_details (current context)) as [td|]; [|by wp_pure].
  destruct (truthy td); [|by wp_pure].
  eapply wp_mono; [|apply wp_calls_only, configure_trunk_calls].
  intros r g' tr' (tr2 & -> & Hall). by apply HQ.
Qed.

(** C8. Binding a port.  Against every environment: when there is nothing to bind
    (unsupported VNIC type, no VLAN group, or no vxlan segment, although the
    documentation of the method promises that a VLAN segment is bound then) the
    driver makes no call; otherwise it returns only after binding the first vxlan segment, in
    its last call and exactly once, with the VLAN segment of the port's group -
    the one the network has, or the newly allocated one; and whenever it raises,
    no binding has succeeded. *)
Theorem bind_port_spec context g :
  every_run (bind_port context) g (fun r _ tr =>
    match binding_target context with
    | None => r = inr tt /\ tr = []
    | Some (seg, grp) =>
        (exists tr0, Forall ev_not_binding tr0 /\
          match r with
          | inr _ => exists d, tr = tr0 ++ [Ev (ContinueBinding seg.(segment_id) [d]) (inr tt)] /\
                               vlan_segment_ready context grp tr0 d
          | inl e => tr = tr0 \/
                     exists d, tr = tr0 ++ [Ev (ContinueBinding seg.(segment_id) [d]) (inl e)]
          end)
    end).
Proof.
  unfold every_run, bind_port, binding_target.
  destruct (decide (_ ∉ _)) as [Hn|Hn]; [rewrite decide_False by done; by wp_pure|].
  apply dec_stable in Hn. rewrite decide_True by done.
  destruct (list_find _ (segments_to_bind context)) as [[i seg]|]; [|by wp_pure].
  unfold _bind_port_segment. destruct (physnet_of _) as [grp|]; [|by wp_pure].
  assert (forall d tr, Forall ev_not_binding tr -> vlan_segment_ready context grp tr d ->
    wp step_trace (
      _ ← match pd_trunk_details (current context) with
          | Some td => if truthy td then configure_trunk td (pd_id (current context)) else mret tt
          | None => mret tt
          end;
      call (ContinueBinding (segment_id seg) [d])) (fun r _ tr' =>
      exists tr0, Forall ev_not_binding tr0 /\
        match r with
        | inr _ => exists d, tr' = tr0 ++ [Ev (ContinueBinding seg.(segment_id) [d]) (inr tt)] /\
                             vlan_segment_ready context grp tr0 d
        | inl e => tr' = tr0 \/
                   exists d, tr' = tr0 ++ [Ev (ContinueBinding seg.(segment_id) [d]) (inl e)]
        end) g tr) as Hrest.
  { intros d tr Hall Hd. wp_pure. apply wp_configure_trunk_of. intros r g' tr2 Htr2.
    assert (Forall ev_not_binding (tr ++ tr2)) as Hall2 by (by apply Forall_app).
    destruct r as [e|[]]; [eauto|]. wp_answer r tr' Hs. exists (tr ++ tr2). split; [done|].
    destruct r as [e|[]]; [eauto|]. exists d. split; [done|].
    destruct Hd as [?|[? ?]]; [by left|right]. split; [done|]. apply elem_of_app. by left. }
  wp_pure. destruct (vlan_segment_for_physnet context grp) as [d|] eqn:Hv.
  - wp_pure. apply Hrest; [constructor|]. by left.
  - wp_answer r tr Hs. rewrite Hs. destruct r as [e|d].
    + exists [Ev (CtxAllocateDynamicSegment TYPE_VLAN grp) (inl e)]. split; [by repeat constructor|]. by left.
    + apply Hrest; [by repeat constructor|]. right. split; [done|]. by apply list_elem_of_singleton.
Qed.

(** ** Deleting a port *)

(** Segments are stored under their id. *)
Definition segments_keyed (sg : segments_t) : Prop :=
  forall id seg, sg !! id = Some seg -> seg.(segment_id) = id.

Definition vlan_segments (s : store) (net phys : string) : list segment :=
  snd <$> filter (fun p : string * segment =>
    s.(st_segment_network) !! p.1 = Some net /\ p.2.(network_type) = TYPE_VLAN /\
    p.2.(physical_network) = Some phys) (map_to_list s.(st_segments)).

Definition sync_url (CONF : conf) (grp : string) : string :=
  CONF.(undersync_api_url) +:+ "/v1/vlan-group/" +:+ url_quote grp +:+ "/" +:+
  (if CONF.(undersync_dry_run) then "dry-run" else "sync").

Lemma wp_store_sync CONF grp Q g s :
  Q (inr 200%Z) g (add_post s (sync_url CONF grp)) -> wp store_step (undersync_sync CONF grp) Q g s.
Proof.
  intros HQ. unfold undersync_sync, sync_url in *.
  destruct (undersync_dry_run CONF); unfold _undersync_post; repeat wp_pure; wp_answer r s' Hs;
    injection Hs as <- <-; repeat wp_pure;
    change (_log_and_raise_for_status 200) with (@inr exn unit tt); repeat wp_pure; wp_simp; by wp_pure.
Qed.

Lemma vlan_segments_lookup s net phys seg :
  segments_keyed s.(st_segments) -> head (vlan_segments s net phys) = Some seg ->
  s.(st_segments) !! seg.(segment_id) = Some seg.
Proof.
  intros Hk Hh%head_Some_elem_of. unfold vlan_segments in Hh.
  apply list_elem_of_fmap in Hh as ([id seg'] & -> & Hin). simpl.
  apply list_elem_of_filter in Hin as [_ Hin]. apply elem_of_map_to_list in Hin.
  by rewrite (Hk _ _ Hin).
Qed.

(** Deleting a bound baremetal port: without a VLAN group nothing happens; on
    the provisioning network the switch is synchronised and nothing else; on any
    other network the network's VLAN segment of the group is released when it is
    dynamic and no port uses it any more - never otherwise - and then the switch
    is synchronised once. *)
Theorem delete_port_postcommit_spec CONF context g s :
  context.(current).(pd_vnic_type) = Some VNIC_BAREMETAL -> segments_keyed s.(st_segments) ->
  let port := context.(current) in
  let '(r, g', s') := run store_env (delete_port_postcommit CONF context) g s in
  r = inr tt /\ g' = g /\ s'.(st_levels) = s.(st_levels) /\
  match physnet_of port.(pd_profile) with
  | None => s' = s
  | Some grp =>
      s'.(st_posts) = s.(st_posts) ++ [sync_url CONF grp] /\
      s'.(st_segments) =
        if is_provisioning_network CONF port.(pd_network_id) then s.(st_segments)
        else match head (vlan_segments s port.(pd_network_id) grp) with
             | Some seg => release_unused seg.(segment_id) s.(st_levels) s.(st_segments)
             | None => s.(st_segments)
             end
  end.
Proof.
  intros Hv Hk port. apply wp_store_run. unfold delete_port_postcommit, is_baremetal_port.
  rewrite Hv. wp_pure. wp_pure. rewrite bool_decide_true by done. unfold _delete_port_baremetal.
  fold port. destruct (physnet_of (pd_profile port)) as [grp|]; [|by wp_pure].
  destruct (is_provisioning_network CONF (pd_network_id port)).
  { wp_pure. apply wp_store_sync. wp_pure. done. }
  wp_pure. unfold network_segment_by_physnet. wp_pure. wp_answer r s' Hs.
  injection Hs as <- <-. repeat wp_pure.
  fold (vlan_segments s (pd_network_id port) grp).
  destruct (head (vlan_segments s (pd_network_id port) grp)) as [seg|] eqn:Hh.
  - apply (wp_release_segment_if_unused (S := store) (levels := st_levels) (segments := st_segments)
      (frame := st_frame)); [by eapply vlan_segments_lookup|].
    intros s' HL HF HS. wp_pure. apply wp_store_sync. wp_pure. injection HF as _ _ HP.
    split; [done|]. split; [done|]. split; [done|]. simpl. by rewrite HP.
  - repeat wp_pure. apply wp_store_sync. wp_pure. done.
Qed.

(** ** Unbinding a port *)

(** Unbinding a baremetal port: its top bound segment is released when unused
    and dynamic, then the subports of its trunk are deallocated (their binding
    levels on the old host, and segments no port uses any more), and only then,
    when the old binding named a VLAN group, the switch is synchronised once. *)
Theorem unbind_port_spec CONF context top seg g s :
  context.(current).(pd_vnic_type) = Some VNIC_BAREMETAL ->
  context.(ctx_vif_type) = VIF_TYPE_UNBOUND -> context.(original_vif_type) = VIF_TYPE_OTHER ->
  context.(original_top_bound_segment) = Some top ->
  s.(st_segments) !! top.(segment_id) = Some seg -> seg.(segment_id) = top.(segment_id) ->
  let sg1 := release_unused top.(segment_id) s.(st_levels) s.(st_segments) in
  tables_ok (s.(st_levels), sg1) ->
  let sps := match context.(current).(pd_trunk_details) with
             | Some td => default [] td.(td_sub_ports)
             | None => []
             end in
  let '(r, g', s') := run store_env (update_port_postcommit CONF context) g s in
  r = inr tt /\ g' = g /\
  deallocated context.(original_host) sps (s.(st_levels), sg1) (s'.(st_levels), s'.(st_segments)) /\
  s'.(st_posts) = s.(st_posts) ++
    match physnet_of context.(original).(pd_profile) with
    | Some grp => [sync_url CONF grp]
    | None => []
    end.
Proof.
  intros Hv Hun Hot Htop Hseg Hid sg1 Hok sps. apply wp_store_run.
  unfold update_port_postcommit, is_baremetal_port. rewrite Hv. wp_pure. wp_pure.
  rewrite bool_decide_true by done. unfold _update_port_baremetal. rewrite Hun, Hot.
  rewrite !bool_decide_true by done. wp_simp. wp_pure.
  assert (forall s1, st_levels s1 = st_levels s -> st_segments s1 = sg1 -> st_posts s1 = st_posts s ->
    wp store_step (match pd_trunk_details (current context) with
      | Some td => if truthy td then clean_trunk CONF td (original_host context) else mret tt
      | None => mret tt end)
    (fun r g' s' => r = inr tt /\ g' = g /\ st_posts s' = st_posts s /\
       deallocated (original_host context) sps (st_levels s, sg1) (st_levels s', st_segments s')) g s1)
    as Hclean.
  { intros s1 HL HS HP.
    assert (deallocated (original_host context) [] (st_levels s, sg1) (st_levels s1, st_segments s1)) as Hnone.
    { rewrite HL, HS. exact (proj2 (dealloc_all (original_host context) [] _ Hok)). }
    unfold sps. destruct (pd_trunk_details (current context)) as [td|]; [|by wp_pure].
    destruct (truthy td) eqn:Ht.
    - unfold clean_trunk, _handle_subports_removal. wp_pure.
      eapply wp_mono; [|apply (wp_segment_deallocation (S := store) (levels := st_levels)
                                (segments := st_segments) (frame := st_frame)); unfold tables; by rewrite HL, HS].
      intros r g' s2 (-> & -> & HF & HT). wp_pure. injection HF as _ _ HF.
      split; [done|]. split; [done|]. split; [congruence|]. unfold tables in HT. rewrite HT, HL, HS.
      by apply dealloc_all.
    - destruct td as [[]  [|]]; try discriminate. by wp_pure. }
  unfold _tenant_network_port_cleanup. rewrite Htop. unfold network_segment_by_id. repeat wp_pure.
  wp_answer r s' Hs. injection Hs as <- <-. rewrite Hseg. wp_pure.
  apply (wp_release_segment_if_unused (S := store) (levels := st_levels) (segments := st_segments)
      (frame := st_frame)); [by rewrite Hid|].
  intros s1 HL HF HS. wp_simp. rewrite Hid in HS. injection HF as _ _ HP.
  eapply wp_mono; [|by apply Hclean]. intros r g' s2 (-> & -> & HP2 & Hd). wp_simp.
  destruct (physnet_of (pd_profile (original context))) as [grp|].
  - wp_pure. apply wp_store_sync. wp_pure. simpl. by rewrite HP2.
  - wp_pure. by rewrite app_nil_r, HP2.
Qed.

(** ** Concrete runs *)

Definition sample_port : port_dict := PortDict "p1" "net-a" "aa:bb" (Some VNIC_BAREMETAL)
  {[ "physical_network" := "f20-1-network" ]} "" None [] (Some (TrunkDetails (Some "tr1") (Some sample_subports))).
Definition unbind_context : port_context := PortContext sample_port sample_port VIF_TYPE_UNBOUND
  VIF_TYPE_OTHER "host1" (Some (Segment "seg2" TYPE_VLAN (Some "f20-1-network") (Some 1801%Z) false)) [] [].

Lemma sample_segments_keyed : segments_keyed (st_segments sample_store).
Proof.
  intros id seg. unfold sample_store. simpl.
  rewrite lookup_insert_Some, lookup_singleton_Some. by intros [[<- <-]|[_ [<- <-]]].
Qed.

Lemma delete_port_postcommit_spec_witness :
  let '(r, _, s') := run store_env (delete_port_postcommit sample_conf unbind_context)
                       (Globals None None) sample_store in
  r = inr tt /\ s'.(st_posts) = ["http://undersync/v1/vlan-group/f20-1-network/sync"].
Proof.
  pose proof (delete_port_postcommit_spec sample_conf unbind_context (Globals None None) sample_store
    eq_refl sample_segments_keyed) as H. cbv zeta in H.
  destruct (run _ _ _ _) as [[r g'] s']. destruct H as (-> & _ & _ & H).
  split; [reflexivity|]. exact (proj1 H).
Defined.

Lemma unbind_port_spec_witness :
  let '(r, _, s') := run store_env (update_port_postcommit sample_conf unbind_context)
                       (Globals None None) sample_store in
  r = inr tt /\ s'.(st_posts) = ["http://undersync/v1/vlan-group/f20-1-network/sync"].
Proof.
  pose proof (unbind_port_spec sample_conf unbind_context
    (Segment "seg2" TYPE_VLAN (Some "f20-1-network") (Some 1801%Z) false)
    (Segment "seg2" TYPE_VLAN (Some "f20-1-network") (Some 1801%Z) false)
    (Globals None None) sample_store eq_refl eq_refl eq_refl eq_refl eq_refl eq_refl sample_tables_ok) as H.
  cbv zeta in H. destruct (run _ _ _ _) as [[r g'] s']. destruct H as (-> & _ & _ & H).
  split; [reflexivity|exact H].
Defined.
