(* ===== verification/Ironic.v ===== *)
(** * Adoption and release of network appliances

    Models the node lifecycle of [IronicClient] in
    [src/python/neutron-understack/neutron_understack/ironic.py]: adopting an
    available node for a router, rolling a failed adoption back, and releasing
    the node.  Ironic is the environment ([ironicE]); the specification section
    describes it as a state machine on the node, where every call may fail, before or
    after taking effect, and an adoption ends on its own. *)
From S2P Require Import Prelude.

(* neutron_understack/ironic.py:17-31 _PROVISION_MANAGE *)
Inductive verb : Type := MANAGE | ADOPT | PROVIDE | UNDEPLOY.

#[export] Instance verb_eq_dec : EqDecision verb.
Proof. solve_decision. Defined.

Definition _STATE_ACTIVE : string := "active".
Definition _STATE_MANAGEABLE : string := "manageable".
Definition _STATE_AVAILABLE : string := "available".
Definition _NETDEV_DRIVER : string := "netdev".

(** openstacksdk's [Node]. *)
Record node := Node {
  id : string; name : option string; provision_state : string;
  lessee : option string; instance_id : option string; instance_name : option string;
}.

(** Server-side filters of [nodes()]. *)
Inductive node_filter : Type :=
| ByPool (driver resource_class provision_state : string) (is_maintenance : bool)
| ByInstance (instance_id : string).

Inductive ironicE : Type -> Type :=
| Nodes (f : node_filter) : ironicE (list node)
| GetNode (id : string) : ironicE node
| SetProvisionState (id : string) (target : verb) (wait : bool) : ironicE unit
| UpdateNode (id : string) (lessee instance_id instance_name : option string) : ironicE unit
| WaitForState (id state : string) : ironicE (list node).

Abbreviation I := (prog unit ironicE).

(* neutron_understack/ironic.py:77-115 IronicClient.available_node_for_resource_class *)
Definition available_node_for_resource_class (resource_class : string) : I (option node) :=
  nodes ← call (Nodes (ByPool _NETDEV_DRIVER resource_class "available" false));
  mret (head nodes).

(* neutron_understack/ironic.py:117-122 IronicClient.node_by_instance_uuid *)
Definition node_by_instance_uuid (instance_uuid : string) : I (option node) :=
  nodes ← call (Nodes (ByInstance instance_uuid));
  mret (head nodes).

(* neutron_understack/ironic.py:258-270 IronicClient._clear_ownership *)
Definition _clear_ownership (node_id : string) : I unit :=
  try_except (call (UpdateNode node_id None None None)) (fun _ => mret tt).

(* neutron_understack/ironic.py:272-287 IronicClient._guarded_provision *)
Definition _guarded_provision (node_id : string) (target : verb) : I unit :=
  try_except (call (SetProvisionState node_id target true)) (fun _ => mret tt).

(* neutron_understack/ironic.py:227-256 IronicClient._return_node_to_available *)
Definition recover (n : node) : I unit :=
  if decide (n.(provision_state) = _STATE_AVAILABLE) then _clear_ownership n.(id)
  else if decide (n.(provision_state) = _STATE_MANAGEABLE) then
    _ ← _clear_ownership n.(id); _guarded_provision n.(id) PROVIDE
  else if decide (n.(provision_state) = _STATE_ACTIVE) then
    _ ← _guarded_provision n.(id) UNDEPLOY; _clear_ownership n.(id)
  else mret tt.

(** The [try] covers the fetch alone, so its outcome is a value here. *)
(* neutron_understack/ironic.py:211-256 IronicClient._return_node_to_available *)
Definition _return_node_to_available (node_id : string) : I unit :=
  fetched ← try_except (n ← call (GetNode node_id); mret (Some n)) (fun _ => mret None);
  match fetched with
  | None => mret tt
  | Some n => recover n
  end.

(* neutron_understack/ironic.py:154-186 IronicClient.adopt_node_for_router *)
Definition adopt_steps (node_id : string) (project_id router_id router_name : option string) : I unit :=
  _ ← call (SetProvisionState node_id MANAGE true);
  _ ← call (UpdateNode node_id project_id router_id router_name);
  _ ← call (SetProvisionState node_id ADOPT false);
  adopted ← call (WaitForState node_id _STATE_ACTIVE);
  match adopted with
  | [] => Raise IndexError
  | _ :: _ => mret tt
  end.

(* neutron_understack/ironic.py:124-209 IronicClient.adopt_node_for_router *)
Definition adopt_node_for_router (node_id : string) (project_id : option string)
    (router_id router_name : string) : I unit :=
  try_except (adopt_steps node_id project_id (Some router_id) (Some router_name))
    (fun e => _ ← _return_node_to_available node_id; Raise e).

(* neutron_understack/ironic.py:289-306 IronicClient.release_node_for_router *)
Definition release_node_for_router (router_id : string) : I (option node) :=
  node ← node_by_instance_uuid router_id;
  match node with
  | None => mret None
  | Some n => _ ← _return_node_to_available n.(id); mret (Some n)
  end.

(** ** Ironic as a state machine on one node *)

Definition _STATE_ADOPTING : string := "adopting".
Definition _STATE_ADOPT_FAILED : string := "adopt failed".
Definition in_state (n : node) (st : string) : node :=
  Node n.(id) n.(name) st n.(lessee) n.(instance_id) n.(instance_name).
(** What a verb does to a node, where Ironic accepts it.  An adoption is only begun. *)
Definition transition (n : node) (v : verb) : option node :=
  match v with
  | MANAGE => if decide (n.(provision_state) = _STATE_AVAILABLE) then Some (in_state n _STATE_MANAGEABLE) else None
  | ADOPT => if decide (n.(provision_state) = _STATE_MANAGEABLE) then Some (in_state n _STATE_ADOPTING) else None
  | PROVIDE => if decide (n.(provision_state) = _STATE_MANAGEABLE) then Some (in_state n _STATE_AVAILABLE) else None
  | UNDEPLOY => if decide (n.(provision_state) = _STATE_ACTIVE)
                then Some (Node n.(id) n.(name) _STATE_AVAILABLE n.(lessee) None None) else None
  end.
Definition stamped (n : node) (l i nm : option string) : node :=
  Node n.(id) n.(name) n.(provision_state) l i nm.
(** An adoption ends at any time, well or badly. *)
Definition settles (n n' : node) : Prop :=
  n' = n \/ (n.(provision_state) = _STATE_ADOPTING /\ (n' = in_state n _STATE_ACTIVE \/ n' = in_state n _STATE_ADOPT_FAILED)).
(** The verbs that only the recovery uses. *)
Definition recovering (v : verb) : bool := match v with PROVIDE | UNDEPLOY => true | MANAGE | ADOPT => false end.

(** A call on the node [nid].  Every call may fail, before or after taking effect, and
    an adoption may end before it.  The flag remembers that a call of the recovery
    failed: the reading of the node, a verb of the recovery, which may leave the node
    in any state, or the clearing of its owner. *)
Definition node_step (nid : string) (R : Type) (op : ironicE R) (st : node * bool) (r : res R) (st' : node * bool) : Prop :=
  exists n, settles st.1 n /\
  match op in ironicE R return res R -> Prop with
  | GetNode i => fun r => i = nid -> st'.1 = n /\
      match r with inr x => x = n /\ st'.2 = st.2 | inl _ => st'.2 = true end
  | SetProvisionState i v _ => fun r => i = nid ->
      match r with
      | inr _ => transition n v = Some st'.1 /\ st'.2 = st.2
      | inl _ => (recovering v = true /\ st'.2 = true) \/
                 (recovering v = false /\ st'.2 = st.2 /\ (st'.1 = n \/ transition n v = Some st'.1))
      end
  | UpdateNode i l inst nm => fun r => i = nid ->
      match r with
      | inr _ => st'.1 = stamped n l inst nm /\ st'.2 = st.2
      | inl _ => (st'.1 = n \/ st'.1 = stamped n l inst nm) /\ st'.2 = (if inst then st.2 else true)
      end
  | WaitForState i target => fun r => i = nid -> st' = (n, st.2) /\
      match r with inr ns => ns = [n] /\ n.(provision_state) = target | inl _ => True end
  | Nodes f => fun r => st' = (n, st.2) /\
      match f, r with
      | ByInstance i, inr ns => ns = if decide (n.(instance_id) = Some i) then [n] else []
      | _, _ => True
      end
  end r.

Definition unowned (n : node) : Prop :=
  n.(lessee) = None /\ n.(instance_id) = None /\ n.(instance_name) = None.
(** The node is free in the pool, unless a call of the recovery failed. *)
Definition returned (st : node * bool) : Prop :=
  st.2 = true \/ (st.1.(provision_state) = _STATE_AVAILABLE /\ unowned st.1).

(** Once a call of the recovery has failed, that is remembered. *)
Lemma wp_provision_failed nid v st : recovering v = true -> st.2 = true ->
  wp (node_step nid) (_guarded_provision nid v) (fun r _ st' => r = inr tt /\ st'.2 = true) tt st.
Proof.
  intros Hv Hst. unfold _guarded_provision. wp_pure. wp_answer r st' Hs. destruct Hs as (m & _ & Hs). specialize (Hs eq_refl).
  destruct r as [e|[]]; [wp_pure|]; (split; [done|]).
  - destruct Hs as [[_ ?]|(_ & ? & _)]; congruence.
  - destruct Hs; congruence.
Qed.
Lemma wp_clear_failed nid st : st.2 = true ->
  wp (node_step nid) (_clear_ownership nid) (fun r _ st' => r = inr tt /\ st'.2 = true) tt st.
Proof.
  intros Hst. unfold _clear_ownership. wp_pure. wp_answer r st' Hs. destruct Hs as (m & _ & Hs). specialize (Hs eq_refl).
  destruct r as [e|[]]; [wp_pure|]; (split; [done|]); destruct Hs; congruence.
Qed.

Definition settled (n : node) : Prop := n.(provision_state) <> _STATE_ADOPTING.
Lemma settles_settled n n' : settled n -> settles n n' -> n' = n.
Proof. intros Hs [->|[? _]]; [done|]. by destruct Hs. Qed.

Lemma wp_clear_ownership nid st (Q : res unit -> unit -> node * bool -> Prop) :
  settled st.1 ->
  (forall st', (st'.2 = true \/ st' = (stamped st.1 None None None, st.2)) -> Q (inr tt) tt st') ->
  wp (node_step nid) (_clear_ownership nid) Q tt st.
Proof.
  intros Hset HQ. unfold _clear_ownership. wp_pure. wp_answer r st' Hs. destruct Hs as (n & Hn & Hs). specialize (Hs eq_refl).
  apply settles_settled in Hn as ->; [|done]. destruct r as [e|[]].
  - wp_pure. apply HQ. left. by destruct Hs as [_ ->].
  - apply HQ. right. destruct st' as [n' f]; cbn in Hs. by destruct Hs as [-> ->].
Qed.

Lemma wp_guarded_provision nid v st n' (Q : res unit -> unit -> node * bool -> Prop) :
  settled st.1 -> recovering v = true -> transition st.1 v = Some n' ->
  (forall st', (st'.2 = true \/ st' = (n', st.2)) -> Q (inr tt) tt st') ->
  wp (node_step nid) (_guarded_provision nid v) Q tt st.
Proof.
  intros Hset Hv Ht HQ. unfold _guarded_provision. wp_pure. wp_answer r st' Hs. destruct Hs as (n & Hn & Hs). specialize (Hs eq_refl).
  apply settles_settled in Hn as ->; [|done]. destruct r as [e|[]].
  - wp_pure. apply HQ. left. destruct Hs as [[_ ?]|(? & _)]; [done|congruence].
  - apply HQ. right. destruct st' as [m f]; cbn in Hs. destruct Hs as [Hm ->]. congruence.
Qed.

(** The recovery leaves the node free in the pool, from every state it handles,
    unless one of its calls fails. *)
Lemma wp_return_node nid st (Q : res unit -> unit -> node * bool -> Prop) :
  st.1.(id) = nid ->
  (forall st', returned st' -> st'.2 = true \/ st'.1.(id) = nid -> Q (inr tt) tt st') ->
  (forall n, settles st.1 n -> n.(provision_state) ∉ [_STATE_AVAILABLE; _STATE_MANAGEABLE; _STATE_ACTIVE] -> Q (inr tt) tt (n, st.2)) ->
  wp (node_step nid) (_return_node_to_available nid) Q tt st.
Proof.
  intros Hid HQ HQ'. unfold _return_node_to_available. repeat wp_pure. wp_answer r st' Hs. destruct Hs as (n & Hn & Hs).
  specialize (Hs eq_refl). destruct st' as [n1 f]; cbn in Hs. destruct Hs as [-> Hr].
  destruct r as [e|x]; [subst f; repeat wp_pure; apply HQ; by left|]. destruct Hr as [-> ->]. repeat wp_pure.
  assert (n.(id) = nid) as Hid' by (by destruct Hn as [->|[_ [->| ->]]]).
  assert (forall st', st'.2 = true -> Q (inr tt) tt st') as Hfail by (intros st' ?; apply HQ; by left).
  unfold recover. rewrite Hid'. destruct (decide (provision_state n = _STATE_AVAILABLE)) as [H1|H1].
  { apply wp_clear_ownership; [by unfold settled; cbn; rewrite H1|]. intros st' [Hf| ->]; [by apply Hfail|]. apply HQ; [right|right]; done. }
  destruct (decide (provision_state n = _STATE_MANAGEABLE)) as [H2|H2].
  { wp_pure. apply wp_clear_ownership; [by unfold settled; cbn; rewrite H2|]. intros st' [Hf| ->]; wp_simp.
    { eapply wp_mono; [|by apply wp_provision_failed]. intros r [] st2 [-> ?]. by apply Hfail. }
    eapply wp_guarded_provision; [by unfold settled; cbn; rewrite H2|done|cbn; by rewrite decide_True|].
    intros st' [Hf| ->]; [by apply Hfail|]. apply HQ; [right|right]; done. }
  destruct (decide (provision_state n = _STATE_ACTIVE)) as [H3|H3].
  { wp_pure. eapply wp_guarded_provision; [by unfold settled; cbn; rewrite H3|done|cbn; by rewrite decide_True|].
    intros st' [Hf| ->]; wp_simp.
    { eapply wp_mono; [|by apply wp_clear_failed]. intros r [] st2 [-> ?]. by apply Hfail. }
    apply wp_clear_ownership; [done|]. intros st' [Hf| ->]; [by apply Hfail|]. apply HQ; [right|right]; done. }
  wp_pure. apply HQ'; [done|]. rewrite !elem_of_cons, elem_of_nil. tauto.
Qed.

(** ** Properties *)


(** A failed adoption reports its cause.  Against every environment, the
    exception that leaves [adopt_node_for_router] is the one a forward call
    raised (or the [IndexError] of an empty wait result): the rollback, all of
    whose failures are contained, never replaces it. *)
Theorem adopt_reports_cause node_id project rid rname :
  every_run (_return_node_to_available node_id) tt (fun r _ _ => r = inr tt) /\
  every_run (adopt_node_for_router node_id project rid rname) tt (fun r _ tr =>
    match r with
    | inr _ => exists n ns, Ev (WaitForState node_id _STATE_ACTIVE) (inr (n :: ns)) ∈ tr
    | inl e =>
        Ev (SetProvisionState node_id MANAGE true) (inl e) ∈ tr \/
        Ev (UpdateNode node_id project (Some rid) (Some rname)) (inl e) ∈ tr \/
        Ev (SetProvisionState node_id ADOPT false) (inl e) ∈ tr \/
        Ev (WaitForState node_id _STATE_ACTIVE) (inl e) ∈ tr \/
        (e = IndexError /\ Ev (WaitForState node_id _STATE_ACTIVE) (inr []) ∈ tr)
    end).
Proof.
  assert (forall (Q : res unit -> unit -> list (event ironicE) -> Prop) g tr,
    (forall tr2, Q (inr tt) tt (tr ++ tr2)) ->
    wp step_trace (_return_node_to_available node_id) Q g tr) as Hret.
  { intros Q [] tr HQ. eapply wp_mono with (Q := fun r g tr' => r = inr tt /\ tr `prefix_of` tr').
    { intros r [] tr' [-> [suffix ->]]. apply HQ. }
    apply wp_conj; [|apply wp_trace_prefix].
    unfold _return_node_to_available, recover, _clear_ownership, _guarded_provision.
    repeat wp_pure. wp_answer r tr' Hs. destruct r as [e|n]; repeat wp_pure; [done|].
    repeat (destruct (decide _); [repeat wp_pure; wp_answer r1 tr1 Hs1; destruct r1 as [?|[]];
      repeat wp_pure; try done; wp_answer r2 tr2 Hs2; destruct r2 as [?|[]]; by repeat wp_pure|]).
    by wp_pure. }
  split; [apply Hret; done|].
  unfold every_run, adopt_node_for_router. wp_pure. unfold adopt_steps.
  assert (forall x (tr tr2 : list (event ironicE)), x ∈ tr -> x ∈ tr ++ tr2) as Hmono.
  { intros x tr tr2 Hx. apply elem_of_app. by left. }
  assert (forall x (tr : list (event ironicE)), x ∈ tr ++ [x]) as Hlast.
  { intros x tr. apply elem_of_app. right. by apply list_elem_of_singleton. }
  repeat wp_pure. wp_answer r tr1 Hs1. rewrite Hs1. destruct r as [e|[]].
  { wp_pure. apply Hret. intros tr2. wp_simp. wp_pure. auto 10. }
  repeat wp_pure. wp_answer r tr2 Hs2. rewrite Hs2. destruct r as [e|[]].
  { wp_pure. apply Hret. intros tr3. wp_simp. wp_pure. auto 10. }
  repeat wp_pure. wp_answer r tr3 Hs3. rewrite Hs3. destruct r as [e|[]].
  { wp_pure. apply Hret. intros tr4. wp_simp. wp_pure. auto 10. }
  repeat wp_pure. wp_answer r tr4 Hs4. rewrite Hs4. destruct r as [e|[|n ns]].
  - wp_pure. apply Hret. intros tr5. wp_simp. wp_pure. auto 10.
  - wp_pure. wp_pure. apply Hret. intros tr5. wp_simp. wp_pure. auto 10.
  - wp_pure. eauto.
Qed.

(** Releasing a router: when the search answers and the node is in one of the states the
    lifecycle handles, the node is returned and ends in the pool without owner, unless a
    call of the recovery fails; a router without node changes nothing. *)
Theorem release_returns_node n rid :
  n.(provision_state) ∈ [_STATE_AVAILABLE; _STATE_MANAGEABLE; _STATE_ACTIVE] ->
  wp (node_step n.(id)) (release_node_for_router rid) (fun r _ st =>
    match r with
    | inl _ => st = (n, false)
    | inr None => n.(instance_id) <> Some rid /\ st = (n, false)
    | inr (Some x) => x = n /\ n.(instance_id) = Some rid /\ returned st
    end) tt (n, false).
Proof.
  intros Hst. assert (settled n) as Hsn by (unfold settled; intros Heq; rewrite Heq, !elem_of_cons in Hst; by destruct Hst as [?|[?|[?|?%elem_of_nil]]]).
  unfold release_node_for_router, node_by_instance_uuid. repeat wp_pure.
  wp_answer r st' Hs. destruct Hs as (m & Hm & -> & Hr). apply settles_settled in Hm as ->; [|done]. cbn in Hr.
  destruct r as [e|ns]; [done|]. subst ns. wp_pure.
  case_decide as Hd; cbn [head]; [|by wp_pure]. wp_pure. apply wp_return_node; [done| |].
  - intros st' Hret _. by wp_pure.
  - intros m Hm Hno. apply settles_settled in Hm as ->; [|done]. by destruct Hno.
Qed.

(** The rollback does not check whose node it rolls back: when the chosen node
    has meanwhile been adopted for another router (so it is active and manage is
    refused), the failed adoption undeploys that router's node and clears its
    ownership, unless a call of the recovery fails. *)
Theorem adopt_race_undeploys_other_router n other project rid rname :
  n.(provision_state) = _STATE_ACTIVE -> n.(instance_id) = Some other -> other <> rid ->
  wp (node_step n.(id)) (adopt_node_for_router n.(id) project rid rname) (fun r _ st =>
    (exists e, r = inl e) /\ returned st) tt (n, false).
Proof.
  intros Hst Ho Hne. unfold adopt_node_for_router. wp_pure. unfold adopt_steps.
  assert (settled n) as Hsn by (unfold settled; by rewrite Hst).
  repeat wp_pure. wp_answer r st1 Hs. destruct Hs as (m & Hm & Hs). specialize (Hs eq_refl).
  apply settles_settled in Hm as ->; [|done].
  assert (transition n MANAGE = None) as Ht.
  { cbn. rewrite decide_False; [done|]. by rewrite Hst. }
  destruct st1 as [n1 f1]; cbn [fst snd] in Hs. rewrite Ht in Hs. destruct r as [e|[]]; [|by destruct Hs].
  destruct Hs as [[? _]|(_ & -> & [->|?])]; [done| |done]. wp_pure. apply wp_return_node; [done| |].
  - intros st' Hret _. wp_pure. eauto.
  - intros m Hm Hno. apply settles_settled in Hm as ->; [|done]. exfalso. apply Hno. cbn. rewrite Hst. right; right; left.
Qed.

(** ** Concrete runs *)

(** Ironic without failures: a refused verb raises, an adoption ends well. *)
Definition node_env (R : Type) (op : ironicE R) (n : node) : res R * node :=
  match op in ironicE R return res R * node with
  | GetNode _ => (inr n, n)
  | SetProvisionState _ v _ =>
      match transition n v with
      | Some n' => (inr tt, n')
      | None => (inl (Exn "BadRequestException" []), n)
      end
  | UpdateNode _ l i nm => (inr tt, stamped n l i nm)
  | WaitForState _ st =>
      let n := if decide (n.(provision_state) = _STATE_ADOPTING) then in_state n _STATE_ACTIVE else n in
      (if decide (n.(provision_state) = st) then inr [n] else inl (Exn "ResourceTimeout" []), n)
  | Nodes (ByInstance i) => (inr (if decide (n.(instance_id) = Some i) then [n] else []), n)
  | Nodes _ => (inr [n], n)
  end.

Definition free_node : node := Node "n1" (Some "pa-1") _STATE_AVAILABLE None None None.
Definition busy_node : node := Node "n1" (Some "pa-1") _STATE_ACTIVE (Some "projB") (Some "rB") (Some "b").


Lemma release_returns_node_witness :
  run node_env (release_node_for_router "rB") tt busy_node
  = (inr (Some busy_node), tt, Node "n1" (Some "pa-1") _STATE_AVAILABLE None None None) /\
  wp (node_step "n1") (release_node_for_router "rB") (fun r _ st =>
    match r with
    | inl _ => st = (busy_node, false)
    | inr None => busy_node.(instance_id) <> Some "rB" /\ st = (busy_node, false)
    | inr (Some x) => x = busy_node /\ busy_node.(instance_id) = Some "rB" /\ returned st
    end) tt (busy_node, false).
Proof.
  split; [vm_compute; reflexivity|].
  refine (release_returns_node busy_node "rB" _). right; right; left.
Defined.

Lemma adopt_race_undeploys_other_router_witness :
  run node_env (adopt_node_for_router "n1" (Some "projA") "rA" "a") tt busy_node
  = (inl (Exn "BadRequestException" []), tt, Node "n1" (Some "pa-1") _STATE_AVAILABLE None None None) /\
  wp (node_step "n1") (adopt_node_for_router "n1" (Some "projA") "rA" "a") (fun r _ st =>
    (exists e, r = inl e) /\ returned st) tt (busy_node, false).
Proof.
  split; [vm_compute; reflexivity|].
  refine (adopt_race_undeploys_other_router busy_node "rB" (Some "projA") "rA" "a" _ _ _);
    [reflexivity|reflexivity|discriminate].
Defined.
