(* ===== verification/PaloAlto.v ===== *)
(** * The Palo Alto router flavor

    Models [src/python/neutron-understack/neutron_understack/l3_router/palo_alto.py]:
    a router of this flavor is realised on an appliance adopted from the Ironic
    pool named in the flavor's metainfo ([Ironic]).  [json.loads] is a parameter;
    the lazily created references of the provider are the program state. *)
From S2P Require Import Prelude PyStr Ranges Vni Vrf Ironic.

Definition ANCHOR_NETWORK_NAME : string := "palo_alto_router_anchor_network".
Definition PALO_ALTO_PROVIDER : string := "neutron_understack.l3_router.palo_alto.PaloAlto".

(* l3_router/palo_alto.py:24-28 NoNetdevNodeAvailable *)
Definition NoNetdevNodeAvailable (resource_class router_id : string) : exn :=
  Exn "NoNetdevNodeAvailable" [resource_class; router_id].
(* l3_router/palo_alto.py:32-36 PaloAltoFlavorMisconfigured *)
Definition PaloAltoFlavorMisconfigured (router_id flavor_id : string) : exn :=
  Exn "PaloAltoFlavorMisconfigured" [router_id; flavor_id].

(** The router of the callback payload. *)
Record pa_router := PaRouter {
  pa_id : string; pa_flavor : flavor_ref; pa_project : option string; pa_name : option string;
}.

Record pa_flavor_dict := PaFlavor { fl_id : string; fl_service_profiles : option (list string) }.

Inductive paE : Type -> Type :=
| PaFlavorsPlugin : paE bool
| PaGetFlavor (id : string) : paE pa_flavor_dict
| PaNextProviders (id : string) : paE (list string)
| PaServiceProfile (id : string) : paE metainfo
| PaCorePlugin : paE bool
| NetworksNamed (name : string) : paE (list string)
| CreateNetwork (name : string) (shared external : bool) : paE string
| NewPaIronicClient : paE unit
| OnIronic {R : Type} (op : ironicE R) : paE R.

(** [_flavor_plugin_ref] and [_ironic_ref], once set. *)
Record pa_refs := PaRefs { flavor_plugin_ref : option bool; ironic_ref : bool }.

Section palo_alto.
Variable json_loads : string -> res loaded.

Abbreviation M := (prog pa_refs paE).

(* l3_router/palo_alto.py:39-51 _parse_metainfo *)
Definition _parse_metainfo (raw : metainfo) : res metainfo_dict :=
  match raw with
  | MetaNone => Ok ∅
  | MetaDict d => Ok d
  | MetaText raw =>
      if negb (truthy raw) then Ok ∅ else
      match json_loads raw with
      | Err e => if is_value_or_type_error e then Ok ∅ else Err e
      | Ok (LDict d) => Ok d
      | Ok LOther => Ok ∅
      end
  end.

(* l3_router/palo_alto.py:76-82 PaloAlto._flavor_plugin *)
Definition _flavor_plugin : M bool :=
  g ← get_state;
  match g.(flavor_plugin_ref) with
  | Some p => mret p
  | None =>
      p ← call PaFlavorsPlugin;
      g ← get_state;
      _ ← put_state (PaRefs (Some p) g.(ironic_ref));
      mret p
  end.

(* l3_router/palo_alto.py:84-92 PaloAlto._ironic *)
Definition _ironic : M unit :=
  g ← get_state;
  if g.(ironic_ref) then mret tt else
  _ ← call NewPaIronicClient;
  g ← get_state;
  put_state (PaRefs g.(flavor_plugin_ref) true).

(** A method of the Ironic client. *)
Definition on_ironic {A} (p : I A) : M A := _ ← _ironic; embed (fun R op => OnIronic op) p.

(** [self._flavor_plugin.get_flavor(context, flavor_id)] *)
Definition get_flavor (flavor_id : string) : M pa_flavor_dict :=
  plugin ← _flavor_plugin;
  if negb plugin then Raise (AttributeError "get_flavor") else call (PaGetFlavor flavor_id).

(* l3_router/palo_alto.py:94-125 PaloAlto._is_palo_alto_provider *)
Definition _is_palo_alto_provider (r : pa_router) : M bool :=
  match r.(pa_flavor) with
  | FlavorNone | FlavorNotSpecified => mret false
  | FlavorId flavor_id =>
      flavor ← get_flavor flavor_id;
      _ ← _flavor_plugin;
      providers ← call (PaNextProviders flavor.(fl_id));
      match providers with
      | [] => Raise IndexError
      | actual_driver :: _ => mret (bool_decide (actual_driver = PALO_ALTO_PROVIDER))
      end
  end.

(* l3_router/palo_alto.py:135-144 PaloAlto._resource_class_for_router *)
Fixpoint first_resource_class (r : pa_router) (flavor_id : string) (profiles : list string) : M string :=
  match profiles with
  | [] => Raise (PaloAltoFlavorMisconfigured r.(pa_id) flavor_id)
  | sp_id :: rest =>
      _ ← _flavor_plugin;
      raw ← call (PaServiceProfile sp_id);
      d ← lift (_parse_metainfo raw);
      match d !! "resource_class" with
      | Some v => if truthy v then mret (jval_str v) else first_resource_class r flavor_id rest
      | None => first_resource_class r flavor_id rest
      end
  end.

(* l3_router/palo_alto.py:127-144 PaloAlto._resource_class_for_router *)
Definition _resource_class_for_router (r : pa_router) : M string :=
  match r.(pa_flavor) with
  | FlavorId flavor_id =>
      flavor ← get_flavor flavor_id;
      first_resource_class r flavor_id (default [] flavor.(fl_service_profiles))
  | FlavorNone | FlavorNotSpecified => Raise (KeyError "flavor_id")
  end.

(* l3_router/palo_alto.py:146-178 PaloAlto._ensure_anchor_network *)
Definition _ensure_anchor_network : M string :=
  core_plugin ← call PaCorePlugin;
  if negb core_plugin then Raise (AttributeError "get_networks") else
  existing ← call (NetworksNamed ANCHOR_NETWORK_NAME);
  match existing with
  | net :: _ => mret net
  | [] => call (CreateNetwork ANCHOR_NETWORK_NAME false false)
  end.

(* l3_router/palo_alto.py:180-221 PaloAlto._process_router_create *)
Definition pa_process_router_create (r : pa_router) : M unit :=
  mine ← _is_palo_alto_provider r;
  if negb mine then mret tt else
  resource_class ← _resource_class_for_router r;
  node ← on_ironic (available_node_for_resource_class resource_class);
  match node with
  | None => Raise (NoNetdevNodeAvailable resource_class r.(pa_id))
  | Some n =>
      _ ← _ensure_anchor_network;
      on_ironic (adopt_node_for_router n.(id) r.(pa_project) r.(pa_id) (str_or r.(pa_name) r.(pa_id)))
  end.

(* l3_router/palo_alto.py:225-245 PaloAlto._process_router_delete *)
Definition pa_process_router_delete (r : pa_router) : M unit :=
  mine ← _is_palo_alto_provider r;
  if negb mine then mret tt else
  _ ← on_ironic (release_node_for_router r.(pa_id));
  mret tt.

(** ** Calls *)

(** Whether a call changes the hardware, or Neutron. *)
Definition touches_hardware (ev : event paE) : bool :=
  match ev with
  | Ev (OnIronic op) _ =>
      match op with SetProvisionState _ _ _ | UpdateNode _ _ _ _ => true | _ => false end
  | _ => false
  end.
Definition pa_quiet (R : Type) (op : paE R) : Prop :=
  match op with
  | CreateNetwork _ _ _ => False
  | OnIronic op' => match op' with SetProvisionState _ _ _ | UpdateNode _ _ _ _ => False | _ => True end
  | _ => True
  end.

Ltac pa_quiet := repeat (first
  [ apply calls_call; exact Logic.I
  | apply calls_lift
  | lazymatch goal with |- calls_only _ (mbind _ _) => apply calls_bind; [|intros ?] end
  | lazymatch goal with
    | |- calls_only _ (mret _) => exact Logic.I
    | |- calls_only _ (Raise _) => exact Logic.I
    | |- calls_only _ get_state => intros ?; exact Logic.I
    | |- calls_only _ (put_state _) => exact Logic.I
    | |- calls_only _ (match ?x with _ => _ end) => destruct x
    end ]).

Lemma flavor_plugin_quiet : calls_only pa_quiet _flavor_plugin.
Proof. unfold _flavor_plugin. pa_quiet. Qed.
Lemma get_flavor_quiet f : calls_only pa_quiet (get_flavor f).
Proof. unfold get_flavor. apply calls_bind; [apply flavor_plugin_quiet|intros ?]. pa_quiet. Qed.
Lemma is_palo_alto_quiet r : calls_only pa_quiet (_is_palo_alto_provider r).
Proof.
  unfold _is_palo_alto_provider. destruct (pa_flavor r); [exact Logic.I..|].
  apply calls_bind; [apply get_flavor_quiet|intros ?].
  apply calls_bind; [apply flavor_plugin_quiet|intros ?]. pa_quiet.
Qed.
Lemma first_resource_class_quiet r f sps : calls_only pa_quiet (first_resource_class r f sps).
Proof.
  induction sps as [|sp sps IH]; [exact Logic.I|]. cbn [first_resource_class].
  apply calls_bind; [apply flavor_plugin_quiet|intros ?].
  apply calls_bind; [apply calls_call; exact Logic.I|intros ?].
  apply calls_bind; [apply calls_lift|intros d].
  destruct (d !! "resource_class"); [|done]. destruct (truthy _); [exact Logic.I|done].
Qed.
Lemma resource_class_quiet r : calls_only pa_quiet (_resource_class_for_router r).
Proof.
  unfold _resource_class_for_router. destruct (pa_flavor r); [exact Logic.I..|].
  apply calls_bind; [apply get_flavor_quiet|intros ?]. apply first_resource_class_quiet.
Qed.

Lemma quiet_no_touch (tr : list (event paE)) :
  Forall (fun ev => match ev with Ev op _ => pa_quiet _ op end) tr ->
  ~ exists ev, ev ∈ tr /\ touches_hardware ev = true.
Proof.
  rewrite Forall_forall. intros Hall (ev & Hin & Ht). specialize (Hall ev Hin).
  destruct ev as [R op a]. destruct op; try done. by destruct op.
Qed.

Lemma wp_quiet {A} (p : M A) (Q : res A -> pa_refs -> list (event paE) -> Prop) g tr :
  calls_only pa_quiet p ->
  (forall r g' tr2, Forall (fun ev => match ev with Ev op _ => pa_quiet _ op end) tr2 ->
     Q r g' (tr ++ tr2)) ->
  wp step_trace p Q g tr.
Proof.
  intros Hp HQ. eapply wp_mono; [|by apply wp_calls_only].
  intros r g' tr' (tr2 & -> & Hall). by apply HQ.
Qed.

Lemma ironic_quiet : calls_only pa_quiet _ironic.
Proof. unfold _ironic. pa_quiet. Qed.

Definition pool_query (rc : string) : paE (list node) :=
  OnIronic (Nodes (ByPool _NETDEV_DRIVER rc "available" false)).
Definition anchor_ready (tr : list (event paE)) : Prop :=
  (exists net nets, Ev (NetworksNamed ANCHOR_NETWORK_NAME) (inr (net :: nets)) ∈ tr) \/
  (exists net, Ev (CreateNetwork ANCHOR_NETWORK_NAME false false) (inr net) ∈ tr).

Lemma anchor_ready_app tr tr2 : anchor_ready tr -> anchor_ready (tr ++ tr2).
Proof.
  unfold anchor_ready. setoid_rewrite elem_of_app.
  intros [(net & nets & ?)|(net & ?)]; [left|right]; eauto.
Qed.

(** The hardware is untouched, or the checks are on record. *)
Definition checked (tr : list (event paE)) : Prop :=
  (exists ev, ev ∈ tr /\ touches_hardware ev = true) ->
  exists rc n ns, Ev (pool_query rc) (inr (n :: ns)) ∈ tr /\ anchor_ready tr.

Lemma checked_quiet (tr : list (event paE)) : Forall (fun ev => match ev with Ev op _ => pa_quiet _ op end) tr -> checked tr.
Proof. intros Hq Ht. by apply quiet_no_touch in Hq. Qed.

Lemma checked_no_touch (tr : list (event paE)) :
  (forall ev, ev ∈ tr -> touches_hardware ev = false) -> checked tr.
Proof. intros Hno (ev & Hin & Ht). rewrite (Hno ev Hin) in Ht. done. Qed.

Lemma quiet_untouched (tr : list (event paE)) ev :
  Forall (fun ev => match ev with Ev op _ => pa_quiet _ op end) tr -> ev ∈ tr -> touches_hardware ev = false.
Proof.
  intros Hq Hin. destruct (touches_hardware ev) eqn:Ht; [|done].
  exfalso. apply (quiet_no_touch tr Hq). eauto.
Qed.

(** The anchor network is ensured without touching the hardware. *)
Lemma wp_anchor (Q : res string -> pa_refs -> list (event paE) -> Prop) g tr :
  (forall r g' tr2, (forall ev, ev ∈ tr2 -> touches_hardware ev = false) ->
     (forall net, r = inr net -> anchor_ready (tr ++ tr2)) -> Q r g' (tr ++ tr2)) ->
  wp step_trace _ensure_anchor_network Q g tr.
Proof.
  intros HQ. unfold _ensure_anchor_network. wp_pure. wp_answer r1 tr1 Hs1. rewrite Hs1.
  destruct r1 as [e|b]; [apply HQ; [by intros ev ->%list_elem_of_singleton|done]|].
  destruct b; wp_simp; [|wp_pure; apply HQ; [by intros ev ->%list_elem_of_singleton|done]].
  wp_pure. wp_answer r2 tr2 Hs2. rewrite Hs2. rewrite <- app_assoc.
  assert (forall a (b : event paE), touches_hardware b = false -> forall ev,
    ev ∈ [Ev PaCorePlugin a] ++ [b] -> touches_hardware ev = false) as Htwo.
  { intros a b Hb ev. rewrite elem_of_app, !list_elem_of_singleton. by intros [->| ->]. }
  destruct r2 as [e|[|net nets]]; [apply HQ; [by apply Htwo|done]| |].
  - wp_answer r3 tr3 Hs3. rewrite Hs3. rewrite <- !app_assoc. apply HQ.
    + intros ev. simpl. rewrite !elem_of_cons, elem_of_nil. by intros [->|[->|[->|[]]]].
    + intros net ->. right. exists net. rewrite !elem_of_app, !list_elem_of_singleton. auto.
  - wp_pure. apply HQ; [by apply Htwo|]. intros _ _. left. exists net, nets.
    rewrite !elem_of_app, !list_elem_of_singleton. auto.
Qed.

Lemma wp_pool rc (Q : res (option node) -> pa_refs -> list (event paE) -> Prop) g tr :
  (forall e, Q (inl e) g (tr ++ [Ev (pool_query rc) (inl e)])) ->
  (forall ns, Q (inr (head ns)) g (tr ++ [Ev (pool_query rc) (inr ns)])) ->
  wp step_trace (embed (fun R op => OnIronic op) (available_node_for_resource_class rc)) Q g tr.
Proof. intros H1 H2 r tr' Hs. rewrite Hs. destruct r as [e|ns]; [apply H1|apply H2]. Qed.

(** Hardware is adopted only after all checks.  Against every environment,
    creating a router calls an Ironic operation that changes a node only if the
    pool query for available, non-maintenance netdev nodes of the flavor's
    resource class returned a node and the anchor network exists or was just
    created. *)
Theorem palo_alto_adopts_after_checks r g :
  every_run (pa_process_router_create r) g (fun _ _ tr => checked tr).
Proof.
  unfold every_run, pa_process_router_create. wp_pure.
  apply wp_quiet; [apply is_palo_alto_quiet|]. intros [e|mine] g1 tr1 Hq1; [by apply checked_quiet|].
  destruct mine; wp_simp; [|wp_pure; by apply checked_quiet]. wp_pure.
  apply wp_quiet; [apply resource_class_quiet|]. intros [e|rc] g2 tr2 Hq2;
    [apply checked_quiet; by apply Forall_app|]. cbn [app].
  unfold on_ironic. wp_pure. wp_pure.
  apply wp_quiet; [apply ironic_quiet|]. intros [e|[]] g3 tr3 Hq3;
    [apply checked_quiet; rewrite !Forall_app; auto|].
  assert (Forall (fun ev => match ev with Ev op _ => pa_quiet _ op end) ((tr1 ++ tr2) ++ tr3)) as Hq
    by (rewrite !Forall_app; auto).
  remember ((tr1 ++ tr2) ++ tr3) as tr eqn:Htr. clear Htr.
  apply wp_pool.
  { intros e. apply checked_quiet. rewrite Forall_app. by repeat constructor. }
  intros [|n ns]; cbn [head]; wp_simp; repeat wp_pure.
  { apply checked_quiet. rewrite Forall_app. by repeat constructor. }
  apply wp_anchor. intros res g4 tr5 Hno Hready.
  assert (forall ev, ev ∈ (tr ++ [Ev (pool_query rc) (inr (n :: ns))]) ++ tr5 ->
            touches_hardware ev = false) as Huntouched.
  { intros ev. rewrite !elem_of_app, list_elem_of_singleton.
    intros [[?| ->]|?]; [by eapply quiet_untouched|done|by apply Hno]. }
  destruct res as [e|net]; [by apply checked_no_touch|].
  eapply wp_mono; [|apply wp_trace_prefix]. intros res' g5 tr6 [suffix ->] _.
  exists rc, n, ns. split; [rewrite !elem_of_app, list_elem_of_singleton; auto|].
  apply anchor_ready_app. by eapply Hready.
Qed.

End palo_alto.
