(* ===== verification/Flavor.v ===== *)
(** * Flavors: matching a machine to a resource class

    Models [src/python/ironic-understack/ironic_understack/flavor_matcher/]
    ([device_type.py], [machine.py], [matcher.py]) and the two inspection hooks
    that use it ([resource_class.py], [redfish_inspect_understack.py]).  A YAML
    document is given as its keys with values of the types the dataclasses
    declare ([yaml.safe_load] is a parameter); a disk capacity is a fraction, so
    that both integral and divided capacities compare as in the source (sizes
    below 2^52 bytes, where the float division is exact or rounds down). *)
From S2P Require Import Prelude PyStr.
Local Open Scope Z_scope.

(** ** Device types *)

(* flavor_matcher/device_type.py:10-46 ResourceClass *)
Record ResourceClass := MkResourceClass {
  rc_name : string; cpu_cores_spec : Z; cpu_model : string;
  memory_size : Z; drives : list Z; nic_count : Z;
}.
(* flavor_matcher/device_type.py:26-37 InterfaceSpec *)
Record InterfaceSpec := MkInterface { if_name : string; if_type : string; mgmt_only : bool }.
Record PowerPortSpec := MkPowerPort { pp_name : string; pp_type : string; maximum_draw : option Z }.
(* flavor_matcher/device_type.py:49-58 DeviceType *)
Record DeviceType := MkDeviceType {
  class_ : string; dt_manufacturer : string; dt_model : string; u_height : string;
  is_full_depth : bool; resource_class : list ResourceClass;
  interfaces : option (list InterfaceSpec); power_ports : option (list PowerPortSpec);
}.

(** The YAML document: [None] is a missing key. *)
Record rc_data := RcData {
  y_name : option string; y_cpu : option (option Z * option string);
  y_memory : option (option Z); y_drives : option (list (option Z)); y_nic_count : option Z;
}.
Record if_data := IfData { y_if_name : option string; y_if_type : option string; y_mgmt_only : option bool }.
Record pp_data := PpData { y_pp_name : option string; y_pp_type : option string; y_draw : option Z }.
Record dt_data := DtData {
  y_class : option string; y_manufacturer : option string; y_model : option string;
  y_u_height : option string; y_full_depth : option bool; y_resource_class : option (list rc_data);
  y_interfaces : option (list if_data); y_power_ports : option (list pp_data);
}.

(** [d[key]] *)
Definition key {A} (name : string) (v : option A) : res A :=
  match v with Some x => Ok x | None => Err (KeyError name) end.

(* flavor_matcher/device_type.py:66-78 DeviceType.from_yaml *)
Definition parse_resource_class (d : rc_data) : res ResourceClass :=
  cpu ← key "cpu" d.(y_cpu); cores ← key "cores" cpu.1;
  cpu ← key "cpu" d.(y_cpu); model ← key "model" cpu.2;
  memory ← key "memory" d.(y_memory); size ← key "size" memory;
  ds ← key "drives" d.(y_drives); drives ← res_map (key "size") ds;
  name ← key "name" d.(y_name);
  nic_count ← key "nic_count" d.(y_nic_count);
  mret (MkResourceClass name cores model size drives nic_count).

(* flavor_matcher/device_type.py:81-90 DeviceType.from_yaml *)
Definition parse_interface (d : if_data) : res InterfaceSpec :=
  name ← key "name" d.(y_if_name); type ← key "type" d.(y_if_type);
  mret (MkInterface name type (default false d.(y_mgmt_only))).
(* flavor_matcher/device_type.py:93-102 DeviceType.from_yaml *)
Definition parse_power_port (d : pp_data) : res PowerPortSpec :=
  name ← key "name" d.(y_pp_name); type ← key "type" d.(y_pp_type);
  mret (MkPowerPort name type d.(y_draw)).

Definition parse_optional {A B} (f : A -> res B) (v : option (list A)) : res (option (list B)) :=
  match v with None => Ok None | Some l => r ← res_map f l; mret (Some r) end.

(* flavor_matcher/device_type.py:61-113 DeviceType.from_yaml *)
Definition from_data (d : dt_data) : res DeviceType :=
  rcs ← res_map parse_resource_class (default [] d.(y_resource_class));
  ifs ← parse_optional parse_interface d.(y_interfaces);
  pps ← parse_optional parse_power_port d.(y_power_ports);
  class_ ← key "class" d.(y_class);
  manufacturer ← key "manufacturer" d.(y_manufacturer);
  model ← key "model" d.(y_model);
  u_height ← key "u_height" d.(y_u_height);
  is_full_depth ← key "is_full_depth" d.(y_full_depth);
  mret (MkDeviceType class_ manufacturer model u_height is_full_depth rcs ifs pps).

(** [DeviceType.from_directory]: the files of the two patterns in order; a file
    that cannot be read, loaded or parsed is logged and left out. *)
(* flavor_matcher/device_type.py:116-132 DeviceType.from_directory *)
Definition from_directory (safe_load : string -> res dt_data) (exists_ : bool)
    (yaml_files yml_files : list (res string)) : list DeviceType :=
  if negb exists_ then [] else
  omap (fun content =>
    match content with
    | Err _ => None
    | Ok text => match safe_load text with
                 | Err _ => None
                 | Ok data => match from_data data with Err _ => None | Ok dt => Some dt end
                 end
    end) (yaml_files ++ yml_files).

(* flavor_matcher/device_type.py:134-139 DeviceType.get_resource_class *)
Definition get_resource_class (dt : DeviceType) (name : string) : option ResourceClass :=
  snd <$> list_find (fun rc => rc.(rc_name) = name) dt.(resource_class).

(** ** Machines *)

(** A capacity [num / den] in GB. *)
Record capacity := Capacity { num : Z; den : positive }.
Definition capacity_lt (c : capacity) (z : Z) : bool := c.(num) <? z * Zpos c.(den).

(* flavor_matcher/machine.py:4-11 Machine *)
Record Machine := MkMachine {
  memory_mb : Z; cpu : string; cpu_cores : Z; disk_gb : capacity;
  manufacturer : option string; model : string;
}.
(* flavor_matcher/machine.py:13-15 Machine.memory_gb *)
Definition memory_gb (m : Machine) : Z := m.(memory_mb) / 1024.

(** ** The matcher *)

(** [min(d.size for d in drives)] *)
Definition min_size (l : list Z) : res Z :=
  match l with
  | [] => Err (ValueError ["min() arg is an empty sequence"])
  | x :: l => Ok (foldl Z.min x l)
  end.

(* flavor_matcher/matcher.py:32-49 Matcher.match *)
Fixpoint match_classes (m : Machine) (rcs : list ResourceClass) : res (option ResourceClass) :=
  match rcs with
  | [] => Ok None
  | rc :: rest =>
      if negb (bool_decide (rc.(cpu_model) = m.(cpu))) then match_classes m rest else
      if negb (rc.(memory_size) =? m.(memory_mb)) then match_classes m rest else
      match min_size rc.(drives) with
      | Err e => Err e
      | Ok min_drive_size =>
          if capacity_lt m.(disk_gb) min_drive_size then match_classes m rest else Ok (Some rc)
      end
  end.

(* flavor_matcher/matcher.py:10-51 Matcher.match *)
Fixpoint match_machine (device_types : list DeviceType) (m : Machine)
    : res (option (DeviceType * ResourceClass)) :=
  match device_types with
  | [] => Ok None
  | dt :: rest =>
      if negb (bool_decide (Some dt.(dt_manufacturer) = m.(manufacturer)))
         || negb (bool_decide (dt.(dt_model) = m.(model)))
      then match_machine rest m else
      match match_classes m dt.(resource_class) with
      | Err e => Err e
      | Ok (Some rc) => Ok (Some (dt, rc))
      | Ok None => match_machine rest m
      end
  end.

(** ** The hooks *)

(** A value of a JSON dict: missing key, null, or a string. *)
Inductive field : Type := Missing | Null | Text (s : string).
(** [d.get(key, default)]: [None] is [null]. *)
Definition get_default (f : field) (d : string) : option string :=
  match f with Missing => Some d | Null => None | Text s => Some s end.

Record disk := Disk { disk_size : option Z }.
Record cpu_data := CpuData { model_name : option string; cpu_count : option Z }.

Record inventory := Inventory {
  inv_memory : option (option Z);      (** ["memory"]["physical_mb"] *)
  inv_disks : option (list disk);
  inv_cpu : option cpu_data;
  inv_manufacturer : field;
  inv_product_name : field;
}.

(** What a hook leaves: its outcome, the node's resource class, whether saved. *)
Record hook_state := HookState { node_resource_class : option string; saved : bool }.

Definition InvalidNodeInventory (node : string) : exn := Exn "InvalidNodeInventory" [node].
Definition NoMatchError : exn := Exn "NoMatchError" [].

Section hooks.
Variable DEVICE_TYPES : list DeviceType.

(* ironic_understack/resource_class.py:81-88 ResourceClassHook.classify *)
Definition classify (m : Machine) : res string :=
  r ← match_machine DEVICE_TYPES m;
  match r with
  | None => Err NoMatchError
  | Some (_, rc) => mret rc.(rc_name)
  end.

(** [manufacturer.replace("Inc.", "").strip()], then HP -> HPE. *)
(* ironic_understack/resource_class.py:41-45 ResourceClassHook.__call__ *)
Definition normalise_manufacturer (name : string) : string :=
  let name := strip (remove_sub "Inc." name) in
  if decide (name = "HP") then "HPE" else name.
(* ironic_understack/resource_class.py:46-47 ResourceClassHook.__call__ *)
Definition normalise_model (name : string) : string :=
  strip (match split_once "("%char name with Some (x, _) => x | None => name end).

(** A method call on [null]. *)
Definition non_null (attr : string) (v : option string) : res string :=
  match v with Some s => Ok s | None => Err (AttributeError attr) end.

(* ironic_understack/resource_class.py:32-58 ResourceClassHook.__call__ *)
Definition inventory_class (inv : inventory) : res string :=
  memory ← key "memory" inv.(inv_memory); memory_mb ← key "physical_mb" memory;
  disks ← key "disks" inv.(inv_disks);
  d ← match disks with [] => Err IndexError | d :: _ => Ok d end;
  size ← key "size" d.(disk_size);
  let disk_size_gb := Z.quot size (10 ^ 9) in
  c ← key "cpu" inv.(inv_cpu); cpu_model_name ← key "model_name" c.(model_name);
  let cpu_cores := default 0 c.(cpu_count) in
  m ← non_null "replace" (get_default inv.(inv_manufacturer) "");
  p ← non_null "split" (get_default inv.(inv_product_name) "");
  classify (MkMachine memory_mb cpu_model_name cpu_cores (Capacity disk_size_gb 1)
              (Some (normalise_manufacturer m)) (normalise_model p)).

(* ironic_understack/resource_class.py:26-79 ResourceClassHook.__call__ *)
Definition resource_class_hook (uuid : string) (inv : inventory) : res unit * hook_state :=
  match inventory_class inv with
  | Ok name => (Ok tt, HookState (Some name) true)
  | Err e =>
      if decide (e.(exn_cls) ∈ ["KeyError"; "ValueError"; "TypeError"])
      then (Err (InvalidNodeInventory uuid), HookState None false)
      else if decide (e.(exn_cls) = "NoMatchError") then (Ok tt, HookState None true)
      else (Err e, HookState None false)
  end.

(** [re.search(r"ModelName=(.*)\)", text).group(1)]: greedy, within one line. *)
Fixpoint first_line (s : string) : string :=
  match s with
  | EmptyString => EmptyString
  | String c r => if Ascii.eqb c "010"%char then EmptyString else String c (first_line r)
  end.
Fixpoint search_model_name (s : string) : option string :=
  match (if startswith "ModelName=" s then rsplit_once ")"%char (first_line (drop_str 10 s)) else None) with
  | Some (x, _) => Some x
  | None => match s with EmptyString => None | String _ r => search_model_name r end
  end.

(** The smallest of the disks, in units of 2^30 bytes. *)
Definition smallest_disk (disks : list disk) : res capacity :=
  sizes ← res_map (fun d => key "size" d.(disk_size)) disks;
  m ← min_size sizes;
  mret (Capacity m (2 ^ 30)%positive).

(* ironic_understack/redfish_inspect_understack.py:57-114 FlavorInspectMixin.inspect_hardware *)
Definition match_inventory (inv : inventory) (old : hook_state) : res unit * hook_state :=
  match inv.(inv_memory) with
  | Some (Some memory_mb) =>
      match inv.(inv_disks) with
      | Some (d :: ds) =>
          if negb (truthy d.(disk_size)) then (Ok tt, old) else
          match inv.(inv_cpu) with
          | Some c =>
              (* an empty dict is false; otherwise the model name must be there *)
              match c.(model_name), c.(cpu_count) with
              | None, None => (Ok tt, old)
              | None, Some _ => (Err (KeyError "model_name"), old)
              | Some mn, _ =>
                  if negb (truthy mn) then (Ok tt, old) else
                  match smallest_disk (d :: ds) with
                  | Err e => (Err e, old)
                  | Ok smallest =>
                      match get_default inv.(inv_product_name) "" with
                      | None => (Ok tt, old)
                      | Some text =>
                          match search_model_name text with
                          | None => (Ok tt, old)
                          | Some model =>
                              match match_machine DEVICE_TYPES
                                      (MkMachine memory_mb mn (default 0 c.(cpu_count)) smallest
                                         (get_default inv.(inv_manufacturer) "") model) with
                              | Err e => (Err e, old)
                              | Ok None => (Ok tt, old)
                              | Ok (Some (_, rc)) => (Ok tt, HookState (Some rc.(rc_name)) true)
                              end
                          end
                      end
                  end
              end
          | None => (Ok tt, old)
          end
      | _ => (Ok tt, old)
      end
  | _ => (Ok tt, old)
  end.

(** [inspection_data] may be absent, and then there is no ["inventory"] key. *)
(* ironic_understack/redfish_inspect_understack.py:36-114 FlavorInspectMixin.inspect_hardware *)
Definition inspect_hardware (upstream_state : res string) (inspection_data : option inventory)
    (old : hook_state) : res string * hook_state :=
  match upstream_state with
  | Err e => (Err e, old)
  | Ok state =>
      match inspection_data with
      | None => (Err (KeyError "inventory"), old)
      | Some inv => match match_inventory inv old with
                    | (Err e, st) => (Err e, st)
                    | (Ok _, st) => (Ok state, st)
                    end
      end
  end.

End hooks.

(** ** Specification *)

(** The class is for the machine's manufacturer, model, CPU model and memory. *)
Definition same_hardware (m : Machine) (p : DeviceType * ResourceClass) : Prop :=
  Some p.1.(dt_manufacturer) = m.(manufacturer) /\ p.1.(dt_model) = m.(model) /\
  p.2.(cpu_model) = m.(cpu) /\ p.2.(memory_size) = m.(memory_mb).
(** Besides, the machine's disk is at least as large as one of the class's drives;
    or the class has no drives. *)
Definition fits (m : Machine) (p : DeviceType * ResourceClass) : Prop :=
  same_hardware m p /\ Exists (fun d => d * Zpos m.(disk_gb).(den) <= m.(disk_gb).(num)) p.2.(drives).
Definition diskless (m : Machine) (p : DeviceType * ResourceClass) : Prop :=
  same_hardware m p /\ p.2.(drives) = [].
Definition passed_over (m : Machine) (p : DeviceType * ResourceClass) : Prop := ~ fits m p /\ ~ diskless m p.

#[export] Instance same_hardware_dec m p : Decision (same_hardware m p).
Proof. unfold same_hardware. apply _. Defined.
#[export] Instance fits_dec m p : Decision (fits m p).
Proof. unfold fits. apply _. Defined.

(** Every class of every device type, in the order of the definitions. *)
Definition all_classes (dts : list DeviceType) : list (DeviceType * ResourceClass) :=
  concat (map (fun dt => map (pair dt) dt.(resource_class)) dts).

Lemma foldl_min_spec l x :
  foldl Z.min x l ∈ x :: l /\ forall y, y ∈ x :: l -> foldl Z.min x l <= y.
Proof.
  revert x. induction l as [|z l IH]; intros x; simpl.
  - split; [left|]. intros y Hy%list_elem_of_singleton. lia.
  - destruct (IH (Z.min x z)) as [Hin Hle]. split.
    + apply elem_of_cons in Hin as [->|Hin]; [|right; by right].
      destruct (Z.min_spec x z) as [[_ ->]|[_ ->]]; [left|right; left].
    + intros y Hy. rewrite !elem_of_cons in Hy.
      assert (foldl Z.min (Z.min x z) l <= Z.min x z) by (apply Hle; left).
      destruct Hy as [->|[->|Hy]]; [lia..|]. apply Hle. by right.
Qed.

Lemma min_size_ok l : l <> [] -> exists x, min_size l = inr x /\ x ∈ l /\ forall y, y ∈ l -> x <= y.
Proof.
  destruct l as [|x l]; [done|]. intros _. exists (foldl Z.min x l). split; [done|].
  apply foldl_min_spec.
Qed.

(** The outcome [r] of a search through the classes [l] in order. *)
Definition searched {A} (m : Machine) (l : list (DeviceType * ResourceClass)) (found : A -> DeviceType * ResourceClass)
    (r : res (option A)) : Prop :=
  match r with
  | inr (Some x) => exists before after, l = before ++ found x :: after /\ fits m (found x) /\ Forall (passed_over m) before
  | inr None => Forall (passed_over m) l
  | inl e => e.(exn_cls) = "ValueError" /\
      exists before p after, l = before ++ p :: after /\ diskless m p /\ Forall (passed_over m) before
  end.
Lemma searched_app {A} m l k (found : A -> DeviceType * ResourceClass) r :
  Forall (passed_over m) l -> searched m k found r -> searched m (l ++ k) found r.
Proof.
  intros Hl. destruct r as [e|[x|]]; cbn.
  - intros (He & before & p & after & -> & Hp & Hb). split; [done|]. exists (l ++ before), p, after.
    rewrite app_assoc. split; [done|]. split; [done|]. by apply Forall_app.
  - intros (before & after & -> & Hp & Hb). exists (l ++ before), after. rewrite app_assoc. split; [done|].
    split; [done|]. by apply Forall_app.
  - intros Hk. by apply Forall_app.
Qed.
Lemma other_hardware m p : ~ same_hardware m p -> passed_over m p.
Proof. intros Hn. split; [intros [? _]|intros [? _]]; by apply Hn. Qed.

Lemma match_classes_spec m dt rcs :
  Some dt.(dt_manufacturer) = m.(manufacturer) -> dt.(dt_model) = m.(model) ->
  searched m (map (pair dt) rcs) (pair dt) (match_classes m rcs).
Proof.
  intros Hmf Hmo. induction rcs as [|rc rcs IH]; [constructor|].
  assert (forall r, passed_over m (dt, rc) -> searched m (map (pair dt) rcs) (pair dt) r ->
    searched m (map (pair dt) (rc :: rcs)) (pair dt) r) as Hskip.
  { intros r Hp Hr. apply (searched_app m [(dt, rc)]); [by constructor|done]. }
  cbn [match_classes]. destruct (bool_decide_reflect (cpu_model rc = cpu m)) as [Hc|Hc]; cbn [negb].
  2: { apply Hskip; [|done]. apply other_hardware. by intros (_ & _ & ? & _). }
  destruct (Z.eqb_spec (memory_size rc) (memory_mb m)) as [Hm|Hm]; cbn [negb].
  2: { apply Hskip; [|done]. apply other_hardware. by intros (_ & _ & _ & ?). }
  assert (same_hardware m (dt, rc)) as Hsame by done.
  destruct (drives rc) as [|d ds] eqn:Hds; [split; [done|]; by exists [], (dt, rc), (map (pair dt) rcs)|].
  destruct (min_size_ok (d :: ds)) as (x & -> & Hx & Hle); [done|]. rewrite <- Hds in Hx, Hle.
  unfold capacity_lt. destruct (Z.ltb_spec (num (disk_gb m)) (x * Zpos (den (disk_gb m)))) as [Hlt|Hge].
  - apply Hskip; [|done]. split.
    + intros [_ Hex]. apply Exists_exists in Hex as (y & Hy & Hyle). specialize (Hle y Hy). nia.
    + intros [_ Hnil]. cbn in Hnil. congruence.
  - exists [], (map (pair dt) rcs). split; [done|]. split; [|done]. split; [done|]. apply Exists_exists. eauto.
Qed.

Lemma match_machine_searched dts m : searched m (all_classes dts) id (match_machine dts m).
Proof.
  induction dts as [|dt dts IH]; [constructor|]. unfold all_classes. cbn [map concat match_machine]. fold (all_classes dts).
  assert (~ (Some dt.(dt_manufacturer) = m.(manufacturer) /\ dt.(dt_model) = m.(model)) ->
    searched m (map (pair dt) (resource_class dt) ++ all_classes dts) id (match_machine dts m)) as Hother.
  { intros Hn. apply searched_app; [|done]. apply Forall_fmap, Forall_true. intros rc. apply other_hardware.
    intros (? & ? & _). by apply Hn. }
  destruct (bool_decide_reflect (Some (dt_manufacturer dt) = manufacturer m)) as [H1|H1]; [|apply Hother; tauto].
  destruct (bool_decide_reflect (dt_model dt = model m)) as [H2|H2]; [|apply Hother; tauto]. cbn [negb orb].
  pose proof (match_classes_spec m dt (resource_class dt) H1 H2) as Hs.
  destruct (match_classes m (resource_class dt)) as [e|[rc|]].
  - destruct Hs as (He & before & p & after & Heq & Hp & Hb). split; [done|]. exists before, p, (after ++ all_classes dts).
    rewrite Heq, <- app_assoc. done.
  - destruct Hs as (before & after & Heq & Hp & Hb). exists before, (after ++ all_classes dts).
    rewrite Heq, <- app_assoc. done.
  - by apply searched_app.
Qed.

(** ** Properties *)

(** C40. The matcher searches the resource classes in the order of the device types and
    of their classes, and the first one decides whose manufacturer, model, CPU model
    and memory are the machine's and that either has a drive the machine's disk
    reaches, and is returned, or has no drives at all, and a value error is raised;
    none is returned exactly when there is no such class. *)
Theorem match_first_fitting dts m :
  match match_machine dts m with
  | inr (Some p) => exists before after, all_classes dts = before ++ p :: after /\ fits m p /\
      Forall (fun q => ~ fits m q /\ ~ diskless m q) before
  | inr None => Forall (fun q => ~ fits m q /\ ~ diskless m q) (all_classes dts)
  | inl e => e.(exn_cls) = "ValueError" /\ exists before p after,
      all_classes dts = before ++ p :: after /\ diskless m p /\ Forall (fun q => ~ fits m q /\ ~ diskless m q) before
  end.
Proof.
  pose proof (match_machine_searched dts m) as Hs. by destruct (match_machine dts m) as [e|[p|]].
Qed.

(** Every class names a drive. *)
Definition drives_given (dts : list DeviceType) : Prop :=
  forall p, p ∈ all_classes dts -> p.2.(drives) <> [].
Lemma filter_passed_over m l : Forall (passed_over m) l -> filter (fits m) l = [].
Proof.
  intros Hl. apply elem_of_nil_inv. intros p (Hf & Hp)%list_elem_of_filter.
  by apply (proj1 (proj1 (Forall_forall _ _) Hl p Hp)).
Qed.
Lemma match_machine_head dts m :
  drives_given dts -> match_machine dts m = inr (head (filter (fits m) (all_classes dts))).
Proof.
  intros Hd. pose proof (match_machine_searched dts m) as Hs. destruct (match_machine dts m) as [e|[p|]].
  - destruct Hs as (_ & before & p & after & Heq & [_ Hp] & _). exfalso. apply (Hd p); [|done].
    rewrite Heq. apply elem_of_app. right. left.
  - destruct Hs as (before & after & -> & Hp & Hb). unfold id in *.
    rewrite filter_app, (filter_passed_over m before Hb), filter_cons_True by done. done.
  - cbn in Hs. by rewrite (filter_passed_over m _ Hs).
Qed.

(** The resource class hook.  On a complete inventory it sets the name of the
    first fitting class, or clears the resource class when none fits, and saves
    the node in both cases; a missing key is reported as an invalid inventory
    and nothing is saved; but an inventory that lists no disk escapes as an
    [IndexError], which the hook does not translate. *)
Theorem resource_class_hook_spec dts uuid :
  drives_given dts ->
  (forall mem size ds mn cnt mf pn,
     let m := MkMachine mem mn (default 0 cnt) (Capacity (Z.quot size (10 ^ 9)) 1)
                (Some (normalise_manufacturer mf)) (normalise_model pn) in
     resource_class_hook dts uuid
       (Inventory (Some (Some mem)) (Some (Disk (Some size) :: ds)) (Some (CpuData (Some mn) cnt))
          (Text mf) (Text pn))
     = (inr tt, HookState (rc_name ∘ snd <$> head (filter (fits m) (all_classes dts))) true)) /\
  (forall disks c mf pn,
     resource_class_hook dts uuid (Inventory None disks c mf pn)
     = (inl (InvalidNodeInventory uuid), HookState None false)) /\
  (forall mem c mf pn,
     resource_class_hook dts uuid (Inventory (Some (Some mem)) (Some []) c mf pn)
     = (inl IndexError, HookState None false)).
Proof.
  intros Hd. split; [|split].
  - intros mem size ds mn cnt mf pn m. unfold resource_class_hook, inventory_class, classify. simpl.
    fold m. rewrite match_machine_head by done. simpl.
    by destruct (head (filter (fits m) (all_classes dts))) as [[dt rc]|].
  - intros. vm_compute. done.
  - intros. vm_compute. done.
Qed.

(** ** Concrete runs *)

Definition sample_class : ResourceClass := MkResourceClass "gp2.small" 16 "AMD EPYC 9124" 131072 [480; 480] 2.
Definition sample_types : list DeviceType :=
  [MkDeviceType "server" "Dell" "PowerEdge R7615" "2.0" true [sample_class] None None].
Definition sample_machine : Machine :=
  MkMachine 131072 "AMD EPYC 9124" 16 (Capacity 480 1) (Some "Dell") "PowerEdge R7615".

Lemma sample_drives_given : drives_given sample_types.
Proof. intros p Hp%list_elem_of_singleton. by subst p. Qed.

(** A class without drives, as the schema allows, stops the search for its machines. *)
Example diskless_class_raises :
  let diskless_class := MkResourceClass "m1.diskless" 16 "AMD EPYC 9124" 131072 [] 2 in
  match_machine [MkDeviceType "server" "Dell" "PowerEdge R7615" "2.0" true [diskless_class; sample_class] None None] sample_machine
  = inl (ValueError ["min() arg is an empty sequence"]).
Proof. by vm_compute. Qed.

Lemma resource_class_hook_spec_witness :
  resource_class_hook sample_types "node1"
    (Inventory (Some (Some 131072)) (Some [Disk (Some 480103981056)])
       (Some (CpuData (Some "AMD EPYC 9124") (Some 16))) (Text "Dell Inc.") (Text "PowerEdge R7615 (SKU=1)"))
  = (inr tt, HookState (Some "gp2.small") true) /\
  resource_class_hook sample_types "node1"
    (Inventory (Some (Some 131072)) (Some []) None Missing Missing)
  = (inl IndexError, HookState None false).
Proof.
  destruct (resource_class_hook_spec sample_types "node1" sample_drives_given) as (H1 & _ & H3).
  split; [rewrite H1; vm_compute; reflexivity|apply H3].
Defined.
