(* ===== verification/Topology.v ===== *)
(** * Switch topology and PXE switches

    Models, under [src/python/ironic-understack/ironic_understack/]:
    [inspected_port.py], [vlan_group_name_convention.py] and the choice of PXE
    switches of [inspect_hook_update_baremetal_ports.py].  A set of names is the
    list of its elements without repetition (only sizes, membership and sorted
    order are observed). *)
From S2P Require Import Prelude PyStr PyData.

(** ** Inspected ports *)

(* ironic_understack/inspected_port.py:4-12 InspectedPort *)
Record InspectedPort := MkInspected {
  mac_address : string; ip_name : string; switch_system_name : string;
  switch_port_id : string; switch_chassis_id : string;
}.

Abbreviation llc := (gmap string string).
(* ironic_understack/inspected_port.py:14-20 InspectedPort.local_link_connection *)
Definition local_link_connection (p : InspectedPort) : llc :=
  <["port_id" := p.(switch_port_id)]> (<["switch_id" := p.(switch_chassis_id)]>
    {["switch_info" := p.(switch_system_name)]}).

Record parsed := Parsed { p_rack_name : string; p_switch_suffix : string; p_data_center_name : string }.

(* ironic_understack/inspected_port.py:22-44 InspectedPort.parsed_name *)
Definition parsed_name (p : InspectedPort) : res parsed :=
  match split "."%char p.(switch_system_name) with
  | switch_name :: data_center_name :: _ =>
      match rsplit_once "-"%char switch_name with
      | Some (rack_name, switch_suffix) => Ok (Parsed rack_name switch_suffix data_center_name)
      | None => Err (ValueError [switch_name])
      end
  | _ => Err (ValueError [p.(switch_system_name)])
  end.

(* ironic_understack/inspected_port.py:46-48 InspectedPort.rack_name *)
Definition rack_name (p : InspectedPort) : res string := x ← parsed_name p; mret x.(p_rack_name).
(* ironic_understack/inspected_port.py:50-52 InspectedPort.switch_suffix *)
Definition switch_suffix (p : InspectedPort) : res string := x ← parsed_name p; mret x.(p_switch_suffix).
(* ironic_understack/inspected_port.py:54-56 InspectedPort.data_center_name *)
Definition data_center_name (p : InspectedPort) : res string :=
  x ← parsed_name p; mret x.(p_data_center_name).

(** ** VLAN groups *)

Definition TopologyError (what : string) : exn := Exn "TopologyError" [what].

(* ironic_understack/vlan_group_name_convention.py:51-54 assert_consistent_data_center *)
Definition assert_consistent_data_center (ports : list InspectedPort) : res unit :=
  dcs ← res_map data_center_name ports;
  if (1 <? length (remove_dups dcs))%nat then Err (TopologyError "data centers") else mret tt.

(* ironic_understack/vlan_group_name_convention.py:57-60 assert_single_or_paired_racks *)
Definition assert_single_or_paired_racks (ports : list InspectedPort) : res unit :=
  racks ← res_map rack_name ports;
  if (2 <? length (remove_dups racks))%nat then Err (TopologyError "racks") else mret tt.

(* ironic_understack/vlan_group_name_convention.py:63-73 assert_switch_names_have_known_suffixes *)
Definition assert_switch_names_have_known_suffixes (ports : list InspectedPort)
    (mapping : gmap string string) : res unit :=
  res_fold (fun _ p =>
    suffix ← switch_suffix p;
    match mapping !! suffix with
    | Some _ => mret tt
    | None => Err (TopologyError p.(switch_system_name))
    end) ports tt.

Abbreviation groups_t := (dict (list InspectedPort)).

(* ironic_understack/vlan_group_name_convention.py:91-97 group_by_switch_category *)
Definition add_to_group (mapping : gmap string string) (groups : groups_t) (p : InspectedPort)
    : res groups_t :=
  suffix ← switch_suffix p;
  match mapping !! suffix with
  | None => Err (KeyError suffix)
  | Some switch_category =>
      mret (dict_set switch_category (default [] (dict_get switch_category groups) ++ [p]) groups)
  end.
(* ironic_understack/vlan_group_name_convention.py:86-99 group_by_switch_category *)
Definition group_by_switch_category (ports : list InspectedPort) (mapping : gmap string string)
    : res groups_t := res_fold (add_to_group mapping) ports [].

(* ironic_understack/vlan_group_name_convention.py:76-83 assert_redundant_network_connections *)
Definition assert_redundant_network_connections (vlan_groups : groups_t) : res unit :=
  let network_ports := default [] (dict_get "network" vlan_groups) in
  if decide (length (remove_dups (map switch_system_name network_ports)) = 2) then mret tt
  else Err (TopologyError "network switches").

(* ironic_understack/vlan_group_name_convention.py:43-47 vlan_group_names *)
Definition name_group (names : dict string) (g : string * list InspectedPort) : res (dict string) :=
  let '(switch_category, ports_in_group) := g in
  racks ← res_map rack_name ports_in_group;
  let vlan_group_name :=
    String.concat "/" (merge_sort str_le (remove_dups racks)) +:+ "-" +:+ switch_category in
  mret (foldl (fun names p => dict_set p.(switch_system_name) vlan_group_name names) names ports_in_group).

(* ironic_understack/vlan_group_name_convention.py:10-48 vlan_group_names *)
Definition vlan_group_names (ports : list InspectedPort) (mapping : gmap string string)
    : res (dict string) :=
  _ ← assert_consistent_data_center ports;
  _ ← assert_single_or_paired_racks ports;
  _ ← assert_switch_names_have_known_suffixes ports mapping;
  vlan_groups ← group_by_switch_category ports mapping;
  _ ← assert_redundant_network_connections vlan_groups;
  res_fold name_group vlan_groups [].

(** ** The PXE switches *)

(** An element of a natural sort key. *)
Inductive nat_key : Type := KText (s : string) | KNum (z : Z).

(** [re.split(r"(\d+)", value)]: texts and runs of digits alternate. *)
Fixpoint span_digits (s : string) : string * string :=
  match s with
  | EmptyString => (EmptyString, EmptyString)
  | String c r => if is_digit c then let '(x, y) := span_digits r in (String c x, y)
                  else (EmptyString, s)
  end.
Fixpoint span_text (s : string) : string * string :=
  match s with
  | EmptyString => (EmptyString, EmptyString)
  | String c r => if is_digit c then (EmptyString, s) else let '(x, y) := span_text r in (String c x, y)
  end.
Fixpoint natural_go (fuel : nat) (s : string) : list nat_key :=
  match fuel with
  | O => []
  | S fuel =>
      let '(text, rest) := span_text s in
      match rest with
      | EmptyString => [KText text]
      | _ => let '(num, rest) := span_digits rest in
             KText text :: KNum (default 0%Z (py_int num)) :: natural_go fuel rest
      end
  end.
(* ironic_understack/inspect_hook_update_baremetal_ports.py:226-227 _natural_sort_key *)
Definition _natural_sort_key (value : string) : list nat_key := natural_go (S (String.length value)) value.

(** Python's comparison of two such lists ([<=]). *)
Fixpoint key_leb (a b : list nat_key) : bool :=
  match a, b with
  | [], _ => true
  | _, [] => false
  | KText x :: a, KText y :: b => if decide (x = y) then key_leb a b else String.leb x y
  | KNum x :: a, KNum y :: b => if decide (x = y) then key_leb a b else (x <=? y)%Z
  | KText _ :: _, KNum _ :: _ => true
  | KNum _ :: _, KText _ :: _ => false
  end.
Definition natural_le (a b : string) : Prop := key_leb (_natural_sort_key a) (_natural_sort_key b) = true.
#[export] Instance natural_le_dec : RelDecision natural_le.
Proof. intros a b. unfold natural_le. apply _. Defined.

(* ironic_understack/inspect_hook_update_baremetal_ports.py:222-223 _natural_sorted_switch_names *)
Definition _natural_sorted_switch_names (names : list string) : list string := merge_sort natural_le names.

(* ironic_understack/inspect_hook_update_baremetal_ports.py:211-213 _pxe_switch_names *)
Definition add_network_switch (groups : dict (list string)) (p : string * string) : dict (list string) :=
  let '(switch_name, vlan_group) := p in
  if truthy vlan_group && endswith "-network" vlan_group
  then dict_set vlan_group (default [] (dict_get vlan_group groups) ++ [switch_name]) groups
  else groups.

(* ironic_understack/inspect_hook_update_baremetal_ports.py:208-219 _pxe_switch_names *)
Definition _pxe_switch_names (vlan_groups : dict string) : list string :=
  remove_dups (omap (fun g : string * list string => head (_natural_sorted_switch_names g.2))
    (foldl add_network_switch [] vlan_groups)).

(** ** Specification of the VLAN groups *)

(** What a switch name says, when it follows the convention. *)
Definition rack_of (p : InspectedPort) : option string :=
  match parsed_name p with inr x => Some x.(p_rack_name) | inl _ => None end.
Definition data_center_of (p : InspectedPort) : option string :=
  match parsed_name p with inr x => Some x.(p_data_center_name) | inl _ => None end.
Definition category_of (mapping : gmap string string) (p : InspectedPort) : option string :=
  match parsed_name p with inr x => mapping !! x.(p_switch_suffix) | inl _ => None end.

(** The distinct racks of the ports of a category, in order, then the category. *)
Definition group_name (mapping : gmap string string) (ports : list InspectedPort) (c : string) : string :=
  String.concat "/" (merge_sort str_le (remove_dups
    (omap rack_of (filter (fun p => category_of mapping p = Some c) ports)))) +:+ "-" +:+ c.

(** A supported wiring: every switch is of a known kind, all are in one data
    center and in at most two racks, and exactly two are network switches. *)
Record supported (mapping : gmap string string) (ports : list InspectedPort) : Prop := {
  known : forall p, p ∈ ports -> is_Some (category_of mapping p);
  one_data_center : forall p q, p ∈ ports -> q ∈ ports -> data_center_of p = data_center_of q;
  two_racks : exists r1 r2, forall p r, p ∈ ports -> rack_of p = Some r -> r = r1 \/ r = r2;
  two_switches : exists s1 s2, s1 <> s2 /\ forall s, (s = s1 \/ s = s2) <->
    exists p, p ∈ ports /\ category_of mapping p = Some "network" /\ p.(switch_system_name) = s;
}.

(** *** Distinct values *)

Lemma distinct_incl {A} `{EqDecision A} (l k : list A) :
  (forall x, x ∈ l -> x ∈ k) -> (length (remove_dups l) <= length k)%nat.
Proof.
  intros Hlk. apply submseteq_length, NoDup_submseteq; [apply NoDup_remove_dups|].
  intros x. rewrite elem_of_remove_dups. apply Hlk.
Qed.
Lemma distinct_one {A} `{EqDecision A} (l : list A) :
  (length (remove_dups l) <= 1)%nat <-> forall x y, x ∈ l -> y ∈ l -> x = y.
Proof.
  split.
  - intros Hl x y Hx Hy. rewrite <- elem_of_remove_dups in Hx, Hy.
    destruct (remove_dups l) as [|a [|b k]]; simpl in *; [by apply elem_of_nil in Hx| |lia].
    apply list_elem_of_singleton in Hx, Hy. congruence.
  - intros Hl. destruct l as [|a l]; [simpl; lia|].
    apply (distinct_incl _ [a]). intros x Hx. rewrite list_elem_of_singleton.
    apply Hl; [done|left].
Qed.
Lemma distinct_two {A} `{EqDecision A} `{Inhabited A} (l : list A) :
  (length (remove_dups l) <= 2)%nat <-> exists a b, forall x, x ∈ l -> x = a \/ x = b.
Proof.
  split.
  - intros Hl. destruct (remove_dups l) as [|a [|b [|? ?]]] eqn:Hd; simpl in Hl; [| | |lia].
    1: exists inhabitant, inhabitant. 2: exists a, a. 3: exists a, b.
    all: intros x; rewrite <- elem_of_remove_dups, Hd, ?elem_of_cons, elem_of_nil; naive_solver.
  - intros (a & b & Hab). apply (distinct_incl _ [a; b]). intros x Hx.
    rewrite !elem_of_cons, elem_of_nil. destruct (Hab x Hx); auto.
Qed.
Lemma distinct_exactly_two {A} `{EqDecision A} (l : list A) :
  length (remove_dups l) = 2 <-> exists a b, a <> b /\ forall x, (x = a \/ x = b) <-> x ∈ l.
Proof.
  pose proof (NoDup_remove_dups l) as Hnd. split.
  - destruct (remove_dups l) as [|a [|b [|? ?]]] eqn:Hd; simpl; try done. intros _.
    exists a, b. split; [by inversion Hnd; set_solver|].
    intros x. rewrite <- elem_of_remove_dups, Hd. set_solver.
  - intros (a & b & Hab & Hl). apply Nat.le_antisymm.
    + apply (distinct_incl _ [a; b]). intros x Hx%Hl. set_solver.
    + change 2 with (length [a; b]). apply submseteq_length, NoDup_submseteq.
      * apply NoDup_cons. split; [set_solver|]. apply NoDup_singleton.
      * intros x Hx. rewrite elem_of_remove_dups. apply Hl. set_solver.
Qed.

(** *** The checks *)

Definition parses (p : InspectedPort) : Prop := exists x, parsed_name p = inr x.

(** A loop over an attribute of the parsed names. *)
Lemma res_map_attr {B} (f : InspectedPort -> res B) (g : InspectedPort -> option B) ports :
  (forall p, f p = match parsed_name p with inl e => inl e | inr _ => f p end /\
             (parses p -> exists y, f p = inr y /\ g p = Some y)) ->
  (Forall parses ports -> res_map f ports = inr (omap g ports)) /\
  (forall ys, res_map f ports = inr ys -> Forall parses ports).
Proof.
  intros Hfg. induction ports as [|p ports [IH1 IH2]]; simpl; [by split|].
  destruct (Hfg p) as [Hf Hp]. split.
  - intros [Hpp Hps]%Forall_cons. destruct (Hp Hpp) as (y & -> & ->). by rewrite (IH1 Hps).
  - intros ys Hys. destruct (f p) as [e|y] eqn:Hy; [done|].
    destruct (res_map f ports) as [e|ys'] eqn:Hr; [done|]. apply Forall_cons. split; [|by eapply IH2].
    destruct (parsed_name p) as [e|x] eqn:Hx; [done|by exists x].
Qed.

Ltac attr_go := intros p; unfold rack_name, data_center_name, rack_of, data_center_of, parses;
  destruct (parsed_name p); split; [reflexivity|intros [? ?]; discriminate|reflexivity|intros _; eexists; split; reflexivity].
Lemma rack_names_ok : forall ports,
  (Forall parses ports -> res_map rack_name ports = inr (omap rack_of ports)) /\
  (forall ys, res_map rack_name ports = inr ys -> Forall parses ports).
Proof. intros ports. apply res_map_attr. attr_go. Qed.
Lemma data_center_names_ok : forall ports,
  (Forall parses ports -> res_map data_center_name ports = inr (omap data_center_of ports)) /\
  (forall ys, res_map data_center_name ports = inr ys -> Forall parses ports).
Proof. intros ports. apply res_map_attr. attr_go. Qed.

Lemma parses_data_center p : parses p -> exists d, data_center_of p = Some d.
Proof. intros [x Hx]. unfold data_center_of. rewrite Hx. eauto. Qed.

Lemma data_center_check ports :
  assert_consistent_data_center ports = inr tt <->
  Forall parses ports /\ forall p q, p ∈ ports -> q ∈ ports -> data_center_of p = data_center_of q.
Proof.
  unfold assert_consistent_data_center. destruct (data_center_names_ok ports) as [H1 H2].
  destruct (res_map data_center_name ports) as [e|ds] eqn:Hd; cbn [mbind res_mbind].
  { split; [done|]. intros [Hp _]. specialize (H1 Hp). congruence. }
  pose proof (H2 _ eq_refl) as Hp. specialize (H1 Hp). simplify_eq.
  destruct (Nat.ltb_spec 1 (length (remove_dups (omap data_center_of ports)))) as [Hlt|Hle].
  - split; [done|]. intros [_ Hall]. exfalso.
    assert (length (remove_dups (omap data_center_of ports)) <= 1)%nat; [|lia].
    apply distinct_one. intros x y (p & Hpin & Hx)%list_elem_of_omap (q & Hq & Hy)%list_elem_of_omap.
    specialize (Hall p q Hpin Hq). congruence.
  - split; [|done]. intros _. split; [done|]. intros p q Hpin Hq.
    rewrite Forall_forall in Hp. destruct (parses_data_center p) as [d Hd']; [by apply Hp|].
    destruct (parses_data_center q) as [d' Hd'']; [by apply Hp|]. rewrite Hd', Hd''. f_equal.
    rewrite distinct_one in Hle. apply Hle; apply list_elem_of_omap; eauto.
Qed.

Lemma rack_check ports :
  assert_single_or_paired_racks ports = inr tt <->
  Forall parses ports /\ exists r1 r2, forall p r, p ∈ ports -> rack_of p = Some r -> r = r1 \/ r = r2.
Proof.
  unfold assert_single_or_paired_racks. destruct (rack_names_ok ports) as [H1 H2].
  destruct (res_map rack_name ports) as [e|rs] eqn:Hr; cbn [mbind res_mbind].
  { split; [done|]. intros [Hp _]. specialize (H1 Hp). congruence. }
  pose proof (H2 _ eq_refl) as Hp. specialize (H1 Hp). simplify_eq.
  destruct (Nat.ltb_spec 2 (length (remove_dups (omap rack_of ports)))) as [Hlt|Hle].
  - split; [done|]. intros (_ & r1 & r2 & Hall). exfalso.
    assert (length (remove_dups (omap rack_of ports)) <= 2)%nat; [|lia].
    apply distinct_two. exists r1, r2. intros x (p & Hpin & Hx)%list_elem_of_omap. eauto.
  - split; [|done]. intros _. split; [done|]. apply distinct_two in Hle as (r1 & r2 & Hle).
    exists r1, r2. intros p r Hpin Hr'. apply Hle. apply list_elem_of_omap. eauto.
Qed.

Lemma known_parses mapping p : is_Some (category_of mapping p) -> parses p.
Proof. unfold category_of, parses. destruct (parsed_name p); [by intros [? ?]|eauto]. Qed.

Lemma suffix_check ports mapping :
  assert_switch_names_have_known_suffixes ports mapping = inr tt <->
  forall p, p ∈ ports -> is_Some (category_of mapping p).
Proof.
  unfold assert_switch_names_have_known_suffixes. rewrite res_fold_checks.
  assert (forall p, (suffix ← switch_suffix p;
    match mapping !! suffix with
    | Some _ => mret tt
    | None => inl (TopologyError (switch_system_name p))
    end) = inr tt <-> is_Some (category_of mapping p)) as Hiff; [|by setoid_rewrite Hiff].
  intros p. unfold switch_suffix, category_of. destruct (parsed_name p) as [e|x]; cbn; [by split; [|intros [? ?]]|].
  destruct (mapping !! p_switch_suffix x); cbn; [by split; [eexists|]|by split; [|intros [? ?]]].
Qed.

(** *** Grouping and naming *)

Section grouping.
Context (mapping : gmap string string).

Definition members (ports : list InspectedPort) (c : string) : list InspectedPort :=
  filter (fun p => category_of mapping p = Some c) ports.

(** [gs] holds, under each category that occurs, its ports in order. *)
Record grouped (ports : list InspectedPort) (gs : groups_t) : Prop := {
  grouped_keys : NoDup (gs.*1);
  grouped_get : forall c, dict_get c gs = match members ports c with [] => None | l => Some l end;
}.

Lemma grouped_default ports gs c : grouped ports gs -> default [] (dict_get c gs) = members ports c.
Proof. intros [_ ->]. by destruct (members ports c). Qed.

Lemma add_to_group_ok ports gs p c :
  grouped ports gs -> category_of mapping p = Some c ->
  exists gs', add_to_group mapping gs p = inr gs' /\ grouped (ports ++ [p]) gs'.
Proof.
  intros Hg Hc. pose proof (grouped_default ports gs c Hg) as Hd. destruct Hg as [Hk Hget].
  unfold add_to_group, switch_suffix. pose proof Hc as Hc'. unfold category_of in Hc'.
  destruct (parsed_name p) as [e|x]; [done|]. cbn. rewrite Hc', Hd. eexists. split; [done|]. split.
  - by apply dict_set_NoDup.
  - intros c'. rewrite dict_get_set. unfold members. rewrite filter_app, filter_cons, filter_nil.
    destruct (decide (c = c')) as [->|Hne].
    + rewrite decide_True by done. by destruct (filter _ ports).
    + rewrite decide_False by congruence. by rewrite app_nil_r, Hget.
Qed.

Lemma grouping_ok ports gs todo :
  grouped ports gs -> (forall p, p ∈ todo -> is_Some (category_of mapping p)) ->
  exists gs', res_fold (add_to_group mapping) todo gs = inr gs' /\ grouped (ports ++ todo) gs'.
Proof.
  revert ports gs. induction todo as [|p todo IH]; intros ports gs Hg Hall; simpl.
  - exists gs. by rewrite app_nil_r.
  - destruct (Hall p ltac:(left)) as [c Hc].
    destruct (add_to_group_ok ports gs p c Hg Hc) as (gs1 & -> & Hg1).
    destruct (IH _ _ Hg1) as (gs2 & -> & Hg2); [by intros; apply Hall; right|].
    exists gs2. by rewrite <- app_assoc in Hg2.
Qed.

Lemma group_by_switch_category_ok ports :
  (forall p, p ∈ ports -> is_Some (category_of mapping p)) ->
  exists gs, group_by_switch_category ports mapping = inr gs /\ grouped ports gs.
Proof. apply (grouping_ok [] []). by split; [apply NoDup_nil_2|]. Qed.

Lemma redundancy_check ports gs :
  grouped ports gs ->
  assert_redundant_network_connections gs = inr tt <->
  exists s1 s2, s1 <> s2 /\ forall s, (s = s1 \/ s = s2) <->
    exists p, p ∈ ports /\ category_of mapping p = Some "network" /\ p.(switch_system_name) = s.
Proof.
  intros Hg. unfold assert_redundant_network_connections. rewrite (grouped_default _ _ _ Hg).
  set (l := map switch_system_name (members ports "network")).
  assert (forall s, s ∈ l <-> exists p, p ∈ ports /\ category_of mapping p = Some "network" /\
    p.(switch_system_name) = s) as Hl.
  { intros s. unfold l, members. rewrite list_elem_of_fmap. setoid_rewrite list_elem_of_filter. naive_solver. }
  setoid_rewrite <- Hl. rewrite <- distinct_exactly_two. destruct (decide _); by split.
Qed.

(** Naming: every member of a group is given the group's name. *)
Lemma dict_get_name_all (ps : list InspectedPort) (v : string) (names : dict string) s :
  dict_get s (foldl (fun names p => dict_set p.(switch_system_name) v names) names ps)
  = if decide (s ∈ map switch_system_name ps) then Some v else dict_get s names.
Proof.
  revert names. induction ps as [|p ps IH]; intros names; simpl; [done|].
  rewrite IH, dict_get_set. repeat case_decide; try done; set_solver.
Qed.

Lemma dict_name_all_keys (ps : list InspectedPort) (v : string) (names : dict string) :
  NoDup (names.*1) ->
  NoDup ((foldl (fun names p => dict_set p.(switch_system_name) v names) names ps).*1).
Proof.
  revert names. induction ps as [|p ps IH]; intros names Hn; simpl; [done|].
  by apply IH, dict_set_NoDup.
Qed.

(** The name of a group as the code computes it. *)
Definition computed_name (g : string * list InspectedPort) : string :=
  String.concat "/" (merge_sort str_le (remove_dups (omap rack_of g.2))) +:+ "-" +:+ g.1.

Lemma name_group_ok names g :
  Forall parses g.2 ->
  name_group names g = inr (foldl (fun names p => dict_set p.(switch_system_name) (computed_name g) names)
    names g.2).
Proof.
  destruct g as [c l]. intros Hp. unfold name_group, computed_name.
  by rewrite (proj1 (rack_names_ok l) Hp).
Qed.

Lemma naming_ok (gs : groups_t) (names : dict string) :
  Forall (fun g : string * list InspectedPort => Forall parses g.2) gs -> NoDup (names.*1) ->
  exists names', res_fold name_group gs names = inr names' /\ NoDup (names'.*1) /\
    forall s, match dict_get s names' with
      | Some v => (exists g, g ∈ gs /\ s ∈ map switch_system_name g.2 /\ v = computed_name g)
                  \/ dict_get s names = Some v
      | None => (forall g, g ∈ gs -> s ∉ map switch_system_name g.2) /\ dict_get s names = None
      end.
Proof.
  revert names. induction gs as [|g gs IH]; intros names Hp Hn; cbn [res_fold].
  - exists names. split; [done|split; [done|]]. intros s.
    destruct (dict_get s names); [by right|]. split; [|done]. intros g Hg. by apply elem_of_nil in Hg.
  - apply Forall_cons in Hp as [Hg Hp]. rewrite (name_group_ok _ _ Hg).
    destruct (IH _ Hp (dict_name_all_keys g.2 (computed_name g) names Hn)) as (names' & -> & Hn' & Hs).
    exists names'. split; [done|split; [done|]]. intros s. specialize (Hs s).
    rewrite dict_get_name_all in Hs. destruct (dict_get s names') as [v|].
    + destruct Hs as [(g' & Hg' & Hsv)|Hs]; [left; exists g'; split; [by right|done]|].
      case_decide; [|by right]. left. exists g. split; [left|]. by simplify_eq.
    + destruct Hs as [Hs Hnone]. case_decide; [done|]. split; [|done].
      intros g' [->|Hg']%elem_of_cons; [done|by apply Hs].
Qed.

Lemma grouped_elem ports gs g :
  grouped ports gs -> g ∈ gs -> g.2 = members ports g.1.
Proof.
  intros [Hk Hget] Hg. destruct g as [c l]. apply (dict_get_elem _ _ _ Hk) in Hg.
  rewrite Hget in Hg. simpl. by destruct (members ports c); simplify_eq.
Qed.
Lemma grouped_member ports gs p c :
  grouped ports gs -> p ∈ ports -> category_of mapping p = Some c -> (c, members ports c) ∈ gs.
Proof.
  intros [Hk Hget] Hp Hc. apply (dict_get_elem _ _ _ Hk). rewrite Hget.
  assert (p ∈ members ports c) as Hm by (by apply list_elem_of_filter).
  destruct (members ports c); [by apply elem_of_nil in Hm|done].
Qed.
Lemma category_by_name p q :
  p.(switch_system_name) = q.(switch_system_name) -> category_of mapping p = category_of mapping q.
Proof. intros H. unfold category_of, parsed_name. by rewrite H. Qed.

Lemma elem_of_members s ports c :
  s ∈ map switch_system_name (members ports c) <->
  exists p, p ∈ ports /\ category_of mapping p = Some c /\ p.(switch_system_name) = s.
Proof.
  unfold members. rewrite list_elem_of_fmap. setoid_rewrite list_elem_of_filter. naive_solver.
Qed.

Lemma naming_spec ports gs :
  grouped ports gs -> (forall p, p ∈ ports -> is_Some (category_of mapping p)) ->
  exists names, res_fold name_group gs [] = inr names /\ NoDup (names.*1) /\
    forall s v, dict_get s names = Some v <->
      exists p c, p ∈ ports /\ p.(switch_system_name) = s /\ category_of mapping p = Some c /\
        v = group_name mapping ports c.
Proof.
  intros Hg Hall. destruct (naming_ok gs []) as (names & Hr & Hn & Hs); [|apply NoDup_nil_2|].
  { apply Forall_forall. intros g Hgin. rewrite (grouped_elem _ _ _ Hg Hgin). apply Forall_forall.
    intros p [Hc _]%list_elem_of_filter. eapply known_parses. by rewrite Hc. }
  exists names. split; [done|split; [done|]].
  assert (forall s v, dict_get s names = Some v ->
    exists p c, p ∈ ports /\ p.(switch_system_name) = s /\ category_of mapping p = Some c /\
      v = group_name mapping ports c) as Hsound.
  { intros s v Hv. specialize (Hs s). rewrite Hv in Hs. destruct Hs as [(g & Hgin & Hsg & ->)|?]; [|done].
    pose proof (grouped_elem _ _ _ Hg Hgin) as Hg2. rewrite Hg2 in Hsg.
    apply elem_of_members in Hsg as (p & Hp & Hc & <-). exists p, g.1. repeat split; try done.
    unfold computed_name, group_name. by rewrite Hg2. }
  intros s v. split; [apply Hsound|]. intros (p & c & Hp & <- & Hc & ->).
  destruct (dict_get (switch_system_name p) names) as [v|] eqn:Hv.
  - destruct (Hsound _ _ Hv) as (q & c' & _ & Hq & Hc' & ->).
    rewrite (category_by_name q p Hq) in Hc'. congruence.
  - specialize (Hs (switch_system_name p)). rewrite Hv in Hs. destruct Hs as [Hno _].
    destruct (Hno _ (grouped_member _ _ _ _ Hg Hp Hc)). apply elem_of_members. eauto.
Qed.

End grouping.

Lemma vlan_group_names_ok ports mapping :
  ((exists names, vlan_group_names ports mapping = inr names) <-> supported mapping ports) /\
  forall names, vlan_group_names ports mapping = inr names ->
    NoDup (names.*1) /\
    forall s v, dict_get s names = Some v <->
      exists p c, p ∈ ports /\ p.(switch_system_name) = s /\ category_of mapping p = Some c /\
        v = group_name mapping ports c.
Proof.
  unfold vlan_group_names.
  destruct (assert_consistent_data_center ports) as [e|[]] eqn:H1; cbn [mbind res_mbind].
  { split; [|done]. split; [by intros [? ?]|]. intros [K D _ _].
    assert (assert_consistent_data_center ports = inr tt); [|congruence]. apply data_center_check.
    split; [|done]. apply Forall_forall. intros p Hp. eapply known_parses, K, Hp. }
  destruct (assert_single_or_paired_racks ports) as [e|[]] eqn:H2; cbn [mbind res_mbind].
  { split; [|done]. split; [by intros [? ?]|]. intros [K _ R _].
    assert (assert_single_or_paired_racks ports = inr tt); [|congruence]. apply rack_check.
    split; [|done]. apply Forall_forall. intros p Hp. eapply known_parses, K, Hp. }
  destruct (assert_switch_names_have_known_suffixes ports mapping) as [e|[]] eqn:H3; cbn [mbind res_mbind].
  { split; [|done]. split; [by intros [? ?]|]. intros [K _ _ _]. apply suffix_check in K. congruence. }
  apply data_center_check in H1 as [_ H1]. apply rack_check in H2 as [_ H2]. rewrite suffix_check in H3.
  destruct (group_by_switch_category_ok mapping ports H3) as (gs & -> & Hg); cbn [mbind res_mbind].
  pose proof (redundancy_check mapping ports gs Hg) as Hred.
  destruct (assert_redundant_network_connections gs) as [e|[]]; cbn [mbind res_mbind].
  { split; [|done]. split; [by intros [? ?]|]. intros [_ _ _ S]. apply Hred in S. congruence. }
  destruct (naming_spec mapping ports gs Hg H3) as (names & -> & Hspec).
  split; [|by intros names' [= <-]]. split; [|by eexists]. intros _. split; try done. by apply Hred.
Qed.

(** C39. The topology check accepts exactly the supported wirings (every switch
    name parses and has a mapped suffix, one data center, at most two racks,
    exactly two distinct network switches), and then names the VLAN group of every
    connected switch, and of no other: the sorted distinct racks of the ports of
    its category joined with slashes, a dash, and the category. *)
Theorem vlan_group_names_spec ports mapping :
  ((exists names, vlan_group_names ports mapping = inr names) <-> supported mapping ports) /\
  forall names, vlan_group_names ports mapping = inr names ->
    NoDup (names.*1) /\
    forall s v, dict_get s names = Some v <->
      exists p c, p ∈ ports /\ p.(switch_system_name) = s /\ category_of mapping p = Some c /\
        v = group_name mapping ports c.
Proof. apply vlan_group_names_ok. Qed.

(** ** Natural order *)

Lemma key_leb_trans a b c : key_leb a b = true -> key_leb b c = true -> key_leb a c = true.
Proof.
  revert b c. induction a as [|[x|x] a IH]; intros [|[y|y] b] [|[z|z] c]; simpl; try done.
  - destruct (decide (x = y)) as [->|Hxy], (decide (y = z)) as [->|Hyz]; try done;
      [apply IH|by rewrite decide_False|].
    intros H1 H2. case_decide as Hxz; [|by eapply str_leb_trans]. subst.
    destruct Hxy. by apply String.leb_antisym.
  - destruct (decide (x = y)) as [->|Hxy], (decide (y = z)) as [->|Hyz]; try done;
      [apply IH|by rewrite decide_False|].
    rewrite !Z.leb_le. intros H1 H2. case_decide; lia.
Qed.
Lemma key_leb_total a b : key_leb a b = true \/ key_leb b a = true.
Proof.
  revert b. induction a as [|[x|x] a IH]; intros [|[y|y] b]; simpl; auto.
  - destruct (decide (x = y)) as [->|Hxy]; [rewrite decide_True by done; apply IH|].
    rewrite (decide_False (P:=y = x)) by congruence. apply String.leb_total.
  - destruct (decide (x = y)) as [->|Hxy]; [rewrite decide_True by done; apply IH|].
    rewrite (decide_False (P:=y = x)) by congruence. lia.
Qed.
#[export] Instance natural_le_trans : Transitive natural_le.
Proof. intros a b c. apply key_leb_trans. Qed.
#[export] Instance natural_le_total : Total natural_le.
Proof. intros a b. apply key_leb_total. Qed.

Lemma natural_first_least (l : list string) s :
  head (_natural_sorted_switch_names l) = Some s -> s ∈ l /\ forall t, t ∈ l -> natural_le s t.
Proof.
  intros Hh. pose proof (merge_sort_Permutation natural_le l) as Hp.
  pose proof (StronglySorted_merge_sort natural_le l) as Hs.
  unfold _natural_sorted_switch_names in Hh. destruct (merge_sort natural_le l) as [|x k]; [done|].
  injection Hh as ->. split; [rewrite <- Hp; left|]. intros t. rewrite <- Hp, elem_of_cons.
  apply StronglySorted_inv in Hs as [_ Hs]. rewrite Forall_forall in Hs. intros [->|Ht]; [|by apply Hs].
  by destruct (total natural_le s s).
Qed.
Lemma natural_head_exists (l : list string) :
  l <> [] -> exists s, head (_natural_sorted_switch_names l) = Some s.
Proof.
  intros Hl. pose proof (merge_sort_Permutation natural_le l) as Hp. unfold _natural_sorted_switch_names.
  destruct (merge_sort natural_le l) as [|x k]; [|by exists x].
  apply Permutation_nil_l in Hp. done.
Qed.

(** ** The PXE switches *)

Definition is_network (g : string) : Prop := endswith "-network" g = true.

Lemma network_truthy g : is_network g -> truthy g && endswith "-network" g = true.
Proof. intros Hg. rewrite andb_true_iff. split; [|exact Hg]. by destruct g. Qed.

(** The switches of a group, as listed by the dict. *)
Definition switches_of (vg : dict string) (g : string) : list string :=
  map fst (filter (fun p : string * string => p.2 = g) vg).

(** [gs] holds, under each network group that occurs, its switches in order. *)
Record network_grouped (vg : dict string) (gs : dict (list string)) : Prop := {
  ng_keys : NoDup (gs.*1);
  ng_get : forall g, dict_get g gs =
    if decide (is_network g) then match switches_of vg g with [] => None | l => Some l end else None;
}.

Lemma add_network_switch_ok vg gs s g :
  network_grouped vg gs -> network_grouped (vg ++ [(s, g)]) (add_network_switch gs (s, g)).
Proof.
  intros [Hk Hget]. unfold add_network_switch.
  assert (forall g', switches_of (vg ++ [(s, g)]) g'
    = switches_of vg g' ++ if decide (g = g') then [s] else []) as Hsw.
  { intros g'. unfold switches_of. rewrite filter_app, map_app, filter_cons, filter_nil. simpl.
    by case_decide. }
  destruct (decide (is_network g)) as [Hn|Hn].
  - rewrite (network_truthy g Hn). split; [by apply dict_set_NoDup|]. intros g'.
    rewrite dict_get_set, Hsw, (Hget g'), (Hget g). rewrite (decide_True (P:=is_network g)) by done.
    destruct (decide (g = g')) as [<-|Hne]; [|by rewrite app_nil_r].
    rewrite decide_True by done. by destruct (switches_of vg g).
  - assert (endswith "-network" g = false) as Hf by (by apply not_true_iff_false).
    rewrite Hf, andb_false_r. split; [done|]. intros g'. rewrite Hget, Hsw.
    case_decide; [|done]. rewrite decide_False by congruence. by rewrite app_nil_r.
Qed.
Lemma network_groups_ok vg : network_grouped vg (foldl add_network_switch [] vg).
Proof.
  enough (forall todo done_ gs, network_grouped done_ gs ->
    network_grouped (done_ ++ todo) (foldl add_network_switch gs todo)) as H.
  { apply (H vg [] []). split; [apply NoDup_nil_2|]. intros g. by case_decide. }
  induction todo as [|[s g] todo IH]; intros done_ gs Hg; simpl; [by rewrite app_nil_r|].
  apply (add_network_switch_ok _ _ s g), IH in Hg. by rewrite <- app_assoc in Hg.
Qed.

Lemma elem_of_switches vg g s : NoDup (vg.*1) -> s ∈ switches_of vg g <-> dict_get s vg = Some g.
Proof.
  intros Hn. rewrite (dict_get_elem _ _ _ Hn). unfold switches_of. rewrite list_elem_of_fmap.
  setoid_rewrite list_elem_of_filter. split.
  - by intros ([s' g'] & -> & <- & Hin).
  - intros Hin. by exists (s, g).
Qed.

Lemma elem_of_pxe vg s :
  NoDup (vg.*1) ->
  s ∈ _pxe_switch_names vg <->
  exists g, is_network g /\ head (_natural_sorted_switch_names (switches_of vg g)) = Some s.
Proof.
  intros Hn. destruct (network_groups_ok vg) as [Hk Hget]. unfold _pxe_switch_names.
  rewrite elem_of_remove_dups, list_elem_of_omap. split.
  - intros ([g l] & Hin & Hh). apply (dict_get_elem _ _ _ Hk) in Hin. rewrite Hget in Hin.
    case_decide as Hg; [|done]. exists g. split; [done|]. destruct (switches_of vg g); by simplify_eq.
  - intros (g & Hg & Hh). exists (g, switches_of vg g). split; [|done].
    apply (dict_get_elem _ _ _ Hk). rewrite Hget, decide_True by done.
    by destruct (switches_of vg g).
Qed.

(** Every VLAN group whose name ends in "-network" has exactly one PXE switch,
    and it comes first in natural order among the switches of its group; no other
    switch is a PXE switch. *)
Theorem one_pxe_switch_per_group (vlan_groups : dict string) :
  NoDup (vlan_groups.*1) ->
  (forall s, s ∈ _pxe_switch_names vlan_groups ->
     exists g, dict_get s vlan_groups = Some g /\ is_network g) /\
  (forall t g, dict_get t vlan_groups = Some g -> is_network g ->
     exists s, s ∈ _pxe_switch_names vlan_groups /\ dict_get s vlan_groups = Some g /\
       (forall t', dict_get t' vlan_groups = Some g -> natural_le s t') /\
       (forall s', s' ∈ _pxe_switch_names vlan_groups -> dict_get s' vlan_groups = Some g -> s' = s)).
Proof.
  intros Hn. split.
  - intros s (g & Hg & Hh)%(elem_of_pxe _ _ Hn). exists g. split; [|done].
    apply natural_first_least in Hh as [Hs _]. by apply elem_of_switches.
  - intros t g Ht Hg. apply (elem_of_switches _ _ _ Hn) in Ht as Ht'.
    destruct (natural_head_exists (switches_of vlan_groups g)) as [s Hs].
    { intros He. rewrite He in Ht'. by apply elem_of_nil in Ht'. }
    destruct (natural_first_least _ _ Hs) as [Hsin Hleast]. exists s.
    split; [apply elem_of_pxe; eauto|]. split; [by apply elem_of_switches|]. split.
    + intros t' Ht2. apply Hleast. by apply elem_of_switches.
    + intros s' (g' & Hg' & Hs')%(elem_of_pxe _ _ Hn) Hin.
      destruct (natural_first_least _ _ Hs') as [Hs'in _]. apply (elem_of_switches _ _ _ Hn) in Hs'in.
      congruence.
Qed.

(** *** A wiring *)

(* ironic-understack/ironic_understack/conf.py:14-28 switch_name_vlan_group_mapping *)
Definition default_mapping : gmap string string :=
  <["1" := "network"]> (<["2" := "network"]> (<["3" := "network"]> (<["4" := "network"]>
  (<["1f" := "storage"]> (<["2f" := "storage"]> (<["3f" := "storage-appliance"]>
  (<["4f" := "storage-appliance"]> {["1d" := "bmc"]}))))))).

Definition sample_vlan_groups : dict string :=
  [("f20-3-2.iad3.rackspace.net", "f20-10/f20-3-network"); ("f20-10-1.iad3.rackspace.net", "f20-10/f20-3-network");
   ("f20-3-1f.iad3.rackspace.net", "f20-3-storage")].
Definition sample_port (name switch : string) : InspectedPort :=
  MkInspected "11:11:11:11:11:11" name switch "Ethernet1/18" "88:5a:92:ec:54:59".
(** Two racks; the storage switch is in a group of its own. *)
Example vlan_group_names_sample :
  vlan_group_names [sample_port "ex1" "f20-3-2.iad3.rackspace.net"; sample_port "ex3" "f20-3-1f.iad3.rackspace.net";
    sample_port "ex2" "f20-10-1.iad3.rackspace.net"] default_mapping = inr sample_vlan_groups.
Proof. by vm_compute. Qed.
(** A single network switch is refused. *)
Example vlan_group_names_unpaired :
  vlan_group_names [sample_port "ex1" "f20-3-2.iad3.rackspace.net"] default_mapping
  = inl (TopologyError "network switches").
Proof. by vm_compute. Qed.
Lemma one_pxe_switch_per_group_witness :
  _pxe_switch_names sample_vlan_groups = ["f20-3-2.iad3.rackspace.net"] /\
  exists s, s ∈ _pxe_switch_names sample_vlan_groups /\
    forall t', dict_get t' sample_vlan_groups = Some "f20-10/f20-3-network" -> natural_le s t'.
Proof.
  split; [by vm_compute|].
  assert (NoDup (sample_vlan_groups.*1)) as Hn by (apply (bool_decide_unpack _); by vm_compute).
  destruct (proj2 (one_pxe_switch_per_group sample_vlan_groups Hn)
    "f20-10-1.iad3.rackspace.net" "f20-10/f20-3-network" ltac:(by vm_compute) ltac:(by vm_compute))
    as (s & Hs & _ & Hl & _).
  by exists s.
Defined.
