(* ===== verification/PortHooks.v ===== *)
(** * Inspection hooks that maintain baremetal ports and node traits

    Models, under [src/python/ironic-understack/ironic_understack/]:
    [inspect_hook_update_baremetal_ports.py] (its choice of PXE switches is in
    [Topology]), [port_bios_name_hook.py], [inspect_hook_chassis_model.py] and
    [inspect_hook_node_name_check.py].

    The Ironic objects the hooks read and save are third-party calls
    ([IronicDB]); a port object that a hook mutates is threaded through the
    operations and every [save()] carries the object's value at that point.
    Values of [extra] and of the LLDP data are strings. *)
From S2P Require Import Prelude PyStr PyData Topology.

(** ** Ironic's objects *)

Record BaremetalPort := MkPort {
  uuid : string; address : string; name : option string;
  link : llc; physical_network : option string; category : option string;
  pxe_enabled : bool; extra : gmap string string;
}.
#[export] Instance BaremetalPort_eq_dec : EqDecision BaremetalPort.
Proof. solve_decision. Defined.

Record node_t := MkNode { node_id : Z; node_uuid : string; node_name : string }.

Inductive IronicDB : Type -> Type :=
| ListPorts (node : Z) : IronicDB (list BaremetalPort)        (* Port.list_by_node_id *)
| SavePort (p : BaremetalPort) : IronicDB unit                (* Port.save *)
| TraitNames (node : Z) : IronicDB (list string)              (* node.traits.get_trait_names *)
| CreateTraits (node : Z) (names : gset string) : IronicDB unit  (* TraitList.create *)
| SaveNode (node : Z) : IronicDB unit.                        (* node.save *)

Abbreviation hook A := (prog unit IronicDB A).

Definition with_link (v : llc) (p : BaremetalPort) : BaremetalPort :=
  MkPort p.(uuid) p.(address) p.(name) v p.(physical_network) p.(category) p.(pxe_enabled) p.(extra).
Definition with_physical_network (v : option string) (p : BaremetalPort) : BaremetalPort :=
  MkPort p.(uuid) p.(address) p.(name) p.(link) v p.(category) p.(pxe_enabled) p.(extra).
Definition with_category (v : option string) (p : BaremetalPort) : BaremetalPort :=
  MkPort p.(uuid) p.(address) p.(name) p.(link) p.(physical_network) v p.(pxe_enabled) p.(extra).
Definition with_pxe_enabled (v : bool) (p : BaremetalPort) : BaremetalPort :=
  MkPort p.(uuid) p.(address) p.(name) p.(link) p.(physical_network) p.(category) v p.(extra).
Definition with_extra (v : gmap string string) (p : BaremetalPort) : BaremetalPort :=
  MkPort p.(uuid) p.(address) p.(name) p.(link) p.(physical_network) p.(category) p.(pxe_enabled) v.
Definition with_name (v : option string) (p : BaremetalPort) : BaremetalPort :=
  MkPort p.(uuid) p.(address) v p.(link) p.(physical_network) p.(category) p.(pxe_enabled) p.(extra).

(** [set_if_changed get set v p]: [if p.attr != v: p.attr = v]. *)
Definition set_if_changed {A} `{EqDecision A} (get : BaremetalPort -> A)
    (set : A -> BaremetalPort -> BaremetalPort) (v : A) (p : BaremetalPort) : BaremetalPort :=
  if decide (get p = v) then p else set v p.

(** ** Inspection data *)

Record interface := MkIf { i_name : option string; i_mac : option string }.
Record lldp_t := MkLldp { l_chassis : option string; l_port : option string; l_system : option string }.
Record plugin_data_t := MkPlugin {
  all_interfaces : option (dict interface); parsed_lldp : option (dict lldp_t);
}.

Definition getitem {A} (k : string) (v : option A) : res A :=
  match v with Some x => Ok x | None => Err (KeyError k) end.

(* inspect_hook_update_baremetal_ports.py:92-96 _normalise_switch_name *)
Definition _normalise_switch_name (name : string) : string :=
  let suffix := ".rackspace.net" in
  let name := lower name in
  if endswith suffix name then name else name +:+ suffix.

(* inspect_hook_update_baremetal_ports.py:75-78 _parse_plugin_data *)
Definition interface_macs (plugin_data : plugin_data_t) : res (dict string) :=
  interfaces ← getitem "all_interfaces" plugin_data.(all_interfaces);
  res_fold (fun mac (i : string * interface) =>
    n ← getitem "name" i.2.(i_name);
    m ← getitem "mac_address" i.2.(i_mac);
    mret (dict_set n m mac)) interfaces [].

(* inspect_hook_update_baremetal_ports.py:74-89 _parse_plugin_data *)
Definition _parse_plugin_data (plugin_data : plugin_data_t) : res (list InspectedPort) :=
  mac ← interface_macs plugin_data;
  lldps ← getitem "parsed_lldp" plugin_data.(parsed_lldp);
  res_map (fun e : string * lldp_t =>
    let '(name, lldp) := e in
    m ← getitem name (dict_get name mac);
    system ← getitem "switch_system_name" lldp.(l_system);
    chassis ← getitem "switch_chassis_id" lldp.(l_chassis);
    port ← getitem "switch_port_id" lldp.(l_port);
    mret (MkInspected m name (_normalise_switch_name system) port (lower chassis))) lldps.

(** ** Updating the ports *)

Section hooks.
(** [isinstance(e, ironic.common.exception.IronicException)] *)
Context (is_ironic : exn -> bool).

(** [try: port.save() except IronicException: LOG.warning(...)] *)
Definition save_logged (p : BaremetalPort) : hook unit :=
  try_except (call (SavePort p)) (fun e => if is_ironic e then mret tt else Raise e).

(* inspect_hook_update_baremetal_ports.py:138-184 _set_port_attributes *)
Definition assign_attributes (port : BaremetalPort) (inspected_port : InspectedPort)
    (physical : option string) (pxe : bool) : BaremetalPort :=
  let category_ := match physical with
    | Some g => if truthy g then last (split "-"%char g) else None
    | None => None end in
  let port := set_if_changed link with_link (local_link_connection inspected_port) port in
  let physical := match physical with
    | Some g => if truthy g && negb (endswith "-network" g) then None else Some g
    | None => None end in
  let port := set_if_changed physical_network with_physical_network physical port in
  let port := set_if_changed category with_category category_ port in
  set_if_changed pxe_enabled with_pxe_enabled pxe port.

(* inspect_hook_update_baremetal_ports.py:131-191 _set_port_attributes *)
Definition _set_port_attributes (port : BaremetalPort) (inspected_port : InspectedPort)
    (physical : option string) (pxe : bool) : hook unit :=
  save_logged (assign_attributes port inspected_port physical pxe).

(* inspect_hook_update_baremetal_ports.py:194-205 _clear_port_attributes *)
Definition _clear_port_attributes (port : BaremetalPort) : hook unit :=
  save_logged (with_pxe_enabled false (with_category None
    (with_physical_network None (with_link ∅ port)))).

(* inspect_hook_update_baremetal_ports.py:99-128 _update_port_attrs *)
Definition _update_port_attrs (node : node_t) (ports_by_mac : dict InspectedPort)
    (vlan_groups : dict string) (pxe_switch_names : list string) : hook unit :=
  ports ← call (ListPorts node.(node_id));
  for_each ports (fun baremetal_port =>
    match dict_get baremetal_port.(address) ports_by_mac with
    | Some inspected_port =>
        let vlan_group := dict_get inspected_port.(switch_system_name) vlan_groups in
        let pxe := bool_decide (inspected_port.(switch_system_name) ∈ pxe_switch_names) in
        _set_port_attributes baremetal_port inspected_port vlan_group pxe
    | None => _clear_port_attributes baremetal_port
    end).

(** ** Traits *)

(* inspect_hook_update_baremetal_ports.py:267-269 _trait_name *)
Definition _trait_name (vlan_group_name : string) : string :=
  "CUSTOM_" +:+ default "" (last (split "-"%char (upper vlan_group_name))) +:+ "_SWITCH".

(** [^CUSTOM_[A-Z0-9]+_SWITCH], to the end of the text. *)
Definition our_trait_text (s : string) : bool :=
  startswith "CUSTOM_" s &&
  let r := drop_str 7 s in
  endswith "_SWITCH" r &&
  let m := String.rev (drop_str 7 (String.rev r)) in
  truthy m && str_all (fun c => is_upper c || is_digit c) m.
(** [$] also matches before a last newline. *)
Definition newline : string := String (ascii_of_nat 10) "".
Definition dollar (f : string -> bool) (s : string) : bool :=
  f s || (endswith newline s && f (String.rev (drop_str 1 (String.rev s)))).
(* inspect_hook_update_baremetal_ports.py:272-273 _is_our_trait *)
Definition _is_our_trait (name : string) : bool := dollar our_trait_text name.

(* inspect_hook_update_baremetal_ports.py:244-248 _set_node_traits *)
Definition required_switch_traits (existing : gset string) (vlan_groups : list string) : gset string :=
  filter (fun x => _is_our_trait x = false) existing
  ∪ list_to_set (map _trait_name (filter (fun x => truthy x = true) vlan_groups)).

(* inspect_hook_update_baremetal_ports.py:230-264 _set_node_traits *)
Definition _set_node_traits (node : node_t) (vlan_groups : list string) : hook unit :=
  names ← call (TraitNames node.(node_id));
  let existing_traits : gset string := list_to_set names in
  let required_traits := required_switch_traits existing_traits vlan_groups in
  if decide (existing_traits = required_traits) then mret tt
  else
    _ ← call (CreateTraits node.(node_id) required_traits);
    call (SaveNode node.(node_id)).

(* inspect_hook_update_baremetal_ports.py:25-71 InspectHookUpdateBaremetalPorts.__call__ *)
Definition update_baremetal_ports (mapping : gmap string string) (node : node_t)
    (plugin_data : plugin_data_t) : hook unit :=
  inspected_ports ← lift (_parse_plugin_data plugin_data);
  if negb (truthy inspected_ports) then mret tt
  else
    let ports_by_mac := foldl (fun d p => dict_set p.(mac_address) p d) [] inspected_ports in
    vlan_groups ← lift (vlan_group_names inspected_ports mapping);
    let pxe_switch_names := _pxe_switch_names vlan_groups in
    _ ← _update_port_attrs node ports_by_mac vlan_groups pxe_switch_names;
    _set_node_traits node (remove_dups (filter (fun x => truthy x = true) (map snd vlan_groups))).

End hooks.

(** ** BIOS names *)

Abbreviation bios_names := (dict string).

(* port_bios_name_hook.py:64-66 PortBiosNameHook.__call__ *)
Definition interface_names (interfaces : list interface) : res bios_names :=
  res_fold (fun d i =>
    m ← getitem "mac_address" i.(i_mac);
    n ← getitem "name" i.(i_name);
    mret (dict_set (upper m) n d)) interfaces [].

(** [if changed: ...; baremetal_port.save()] on the mutable port. *)
Definition save_port (p : BaremetalPort) : hook BaremetalPort :=
  _ ← call (SavePort p); mret p.

(* port_bios_name_hook.py:113-128 _set_port_extra *)
Definition _set_port_extra (p : BaremetalPort) (required_bios_name : option string) : hook BaremetalPort :=
  if decide (p.(extra) !! "bios_name" = required_bios_name) then mret p
  else match required_bios_name with
       | Some n => if (truthy n : bool) then save_port (with_extra (<["bios_name" := n]> p.(extra)) p)
                   else save_port (with_extra (delete "bios_name" p.(extra)) p)
       | None => save_port (with_extra (delete "bios_name" p.(extra)) p)
       end.

(* port_bios_name_hook.py:131-142 _set_port_name *)
Definition _set_port_name (p : BaremetalPort) (required_bios_name : option string) (node_name : string)
    : hook BaremetalPort :=
  match required_bios_name with
  | Some n =>
      if (truthy n : bool) then
        let required_port_name := node_name +:+ ":" +:+ n in
        if decide (p.(name) = Some required_port_name) then mret p
        else save_port (with_name (Some required_port_name) p)
      else mret p
  | None => mret p
  end.

(* port_bios_name_hook.py:101-110 _clear_unwanted_pxe *)
Definition _clear_unwanted_pxe (p : BaremetalPort) : hook BaremetalPort :=
  if (truthy p.(physical_network) : bool) then mret p
  else if (negb p.(pxe_enabled) : bool) then mret p
  else save_port (with_pxe_enabled false p).

Definition placeholder_link : llc :=
  <["port_id" := "None"]> (<["switch_id" := "00:00:00:00:00:00"]> {["switch_info" := "None"]}).
(* port_bios_name_hook.py:85-98 _set_port_pxe_placeholder *)
Definition _set_port_pxe_placeholder (p : BaremetalPort) : hook BaremetalPort :=
  save_port (with_link placeholder_link (with_physical_network (Some "enrol") (with_pxe_enabled true p))).

(* port_bios_name_hook.py:73-79 PortBiosNameHook.__call__ *)
Definition settle_port (names : bios_names) (node_name : string) (p : BaremetalPort) : hook BaremetalPort :=
  let bios_name := dict_get (upper p.(address)) names in
  p ← _set_port_extra p bios_name;
  p ← _set_port_name p bios_name node_name;
  _clear_unwanted_pxe p.

(* port_bios_name_hook.py:58-82 PortBiosNameHook.__call__ *)
Definition port_bios_name (node : node_t) (inspected_interfaces : option (list interface)) : hook unit :=
  if negb (truthy inspected_interfaces) then mret tt
  else
    names ← lift (interface_names (default [] inspected_interfaces));
    ports ← call (ListPorts node.(node_id));
    if negb (truthy ports) then mret tt
    else
      ports ← map_each ports (settle_port names node.(node_name));
      if existsb pxe_enabled ports then mret tt
      else match ports with
           | p :: _ => _ ← _set_port_pxe_placeholder p; mret tt
           | [] => Raise IndexError
           end.

(** ** Chassis model and node name *)

Definition InvalidNodeInventory (node reason : string) : exn := Exn "InvalidNodeInventory" [node; reason].
(** [inventory.get("system_vendor", {})] *)
Abbreviation system_vendor := (gmap string string).

(* inspect_hook_chassis_model.py:45-55 _extract_chassis_model *)
Definition _extract_chassis_model (node : node_t) (sv : system_vendor) : res string :=
  match sv !! "product_name" with
  | None => Err (InvalidNodeInventory node.(node_uuid) "Missing product_name in inventory data.")
  | Some chassis_model => Ok (drop_parens (String.length chassis_model) chassis_model)
  end.

(* inspect_hook_node_name_check.py:52-59 _manufacturer_slug *)
Definition _manufacturer_slug (manufacturer_name : string) : string :=
  let name := upper manufacturer_name in
  if contains "DELL" name then "Dell"
  else if contains "HP" name then "HP"
  else replace_char " "%char "_"%char manufacturer_name.

(* inspect_hook_chassis_model.py:58-74 _extract_manufacturer *)
Definition _extract_manufacturer (node : node_t) (sv : system_vendor) : res string :=
  match sv !! "manufacturer" with
  | None => Err (InvalidNodeInventory node.(node_uuid) "No manufacturer found in inventory data.")
  | Some name =>
      if contains "DELL" (upper name) then Ok "Dell"
      else if contains "HP" (upper name) then Ok "HP"
      else Ok (replace_char " "%char "_"%char name)
  end.

(* inspect_hook_chassis_model.py:77-79 _trait_name *)
Definition chassis_trait_name (manufacturer chassis_model : string) : string :=
  replace_char " "%char "_"%char (upper (manufacturer +:+ "_" +:+ chassis_model)).

(** The traits kept, with the required one: every other name with the prefix goes. *)
(* inspect_hook_chassis_model.py:28-32 _set_node_traits *)
Definition required_chassis_traits (prefix : string) (existing : list string) (required_trait : string)
    : gset string :=
  list_to_set (filter (fun x => startswith prefix x = false) existing) ∪ {[prefix +:+ required_trait]}.

(** [existing_traits != required_traits] compares a list with a set: they always
    differ, so the traits are always written. *)
(* inspect_hook_chassis_model.py:25-42 _set_node_traits *)
Definition set_chassis_traits (node : node_t) (prefix required_trait : string) : hook unit :=
  existing_traits ← call (TraitNames node.(node_id));
  _ ← call (CreateTraits node.(node_id) (required_chassis_traits prefix existing_traits required_trait));
  call (SaveNode node.(node_id)).

(* inspect_hook_chassis_model.py:17-22 InspectHookChassisModel.__call__ *)
Definition chassis_model_hook (node : node_t) (sv : system_vendor) : hook unit :=
  chassis_model ← lift (_extract_chassis_model node sv);
  manufacturer ← lift (_extract_manufacturer node sv);
  set_chassis_traits node "CUSTOM_" (chassis_trait_name manufacturer chassis_model).

(* inspect_hook_node_name_check.py:18-49 InspectHookNodeNameCheck.__call__ *)
Definition node_name_check (node : node_t) (sv : system_vendor) : res unit :=
  match sv !! "serial_number" with
  | None => Err (InvalidNodeInventory node.(node_uuid) "No serial number found in inventory data.")
  | Some serial_number =>
      match sv !! "manufacturer" with
      | None => Err (InvalidNodeInventory node.(node_uuid) "No manufacturer found in inventory data.")
      | Some manufacturer =>
          let manufacturer_slug := _manufacturer_slug manufacturer in
          if decide (node.(node_name) = manufacturer +:+ "_" +:+ serial_number) then mret tt
          else Err (RuntimeError [node.(node_uuid); node.(node_name); manufacturer_slug; serial_number])
      end
  end.

#[local] Arguments endswith : simpl never.
#[local] Arguments startswith : simpl never.
#[local] Arguments truthy_string : simpl never.

(** ** Ironic as a store *)

(** The ports of one node in the order they are listed, and its traits. *)
Record db := MkDb { db_ports : list BaremetalPort; db_traits : gset string }.
Definition save_in (p : BaremetalPort) (ps : list BaremetalPort) : list BaremetalPort :=
  map (fun q => if decide (q.(uuid) = p.(uuid)) then p else q) ps.

(** Ironic's answers about the node [this]: any request may fail, a write with or
    without effect.  Requests about another node tell nothing of this one. *)
Definition db_step (this : Z) (R : Type) (op : IronicDB R) : db -> res R -> db -> Prop :=
  match op in IronicDB R return db -> res R -> db -> Prop with
  | ListPorts node => fun d r d' => d' = d /\ (node = this -> forall ports, r = inr ports -> ports = d.(db_ports))
  | SavePort p => fun d r d' =>
      d' = MkDb (save_in p d.(db_ports)) d.(db_traits) \/ (exists e, r = inl e /\ d' = d)
  | TraitNames node => fun d r d' => d' = d /\ (node = this -> forall names, r = inr names -> list_to_set names = d.(db_traits))
  | CreateTraits node names => fun d r d' =>
      d' = (if decide (node = this) then MkDb d.(db_ports) names else d) \/ (exists e, r = inl e /\ d' = d)
  | SaveNode _ => fun d r d' => d' = d
  end.
(** A step relation together with the trace of the calls. *)
Definition logged {E : Type -> Type} {S} (step : forall R, E R -> S -> res R -> S -> Prop)
    (R : Type) (op : E R) (st : S * list (event E)) (r : res R) (st' : S * list (event E)) : Prop :=
  step R op st.1 r st'.1 /\ st'.2 = st.2 ++ [Ev op r].

(** An Ironic that answers everything about the node [this], except that saving the
    port with uuid [u] raises [broken u], if that is an exception. *)
Definition ironic_store (this : Z) (broken : string -> option exn) (R : Type) (op : IronicDB R) : db -> res R * db :=
  let NodeNotFound node := Exn "NodeNotFound" [pretty (node : Z)] in
  match op with
  | ListPorts node => fun d => (if decide (node = this) then inr d.(db_ports) else inl (NodeNotFound node), d)
  | SavePort p => fun d => match broken p.(uuid) with
                           | Some e => (inl e, d)
                           | None => (inr tt, MkDb (save_in p d.(db_ports)) d.(db_traits))
                           end
  | TraitNames node => fun d => (if decide (node = this) then inr (elements d.(db_traits)) else inl (NodeNotFound node), d)
  | CreateTraits node names => fun d =>
      if decide (node = this) then (inr tt, MkDb d.(db_ports) names) else (inl (NodeNotFound node), d)
  | SaveNode node => fun d => (if decide (node = this) then inr tt else inl (NodeNotFound node), d)
  end.
Lemma ironic_store_step this broken R (op : IronicDB R) st :
  logged (db_step this) R op st (traced (ironic_store this broken) R op st).1 (traced (ironic_store this broken) R op st).2.
Proof.
  destruct st as [d tr]. unfold logged, traced. cbn [fst snd].
  assert (db_step this R op d (ironic_store this broken R op d).1 (ironic_store this broken R op d).2) as Hs.
  { destruct op as [node|p|node|node names|node]; cbn.
    - split; [done|]. intros -> ports. rewrite decide_True by done. by intros [= <-].
    - destruct (broken (uuid p)); cbn; eauto.
    - split; [done|]. intros -> names. rewrite decide_True by done. intros [= <-]. by apply list_to_set_elements_L.
    - destruct (decide (node = this)); cbn; eauto.
    - done. }
  destruct (ironic_store this broken R op d). done.
Qed.

Lemma save_in_id p ps : p.(uuid) ∉ map uuid ps -> save_in p ps = ps.
Proof.
  induction ps as [|q ps IH]; simpl; [done|]. intros Hp. rewrite decide_False by set_solver.
  f_equal. apply IH. set_solver.
Qed.
(** Saving replaces the one port of that uuid. *)
Lemma save_in_replaces p q pre post :
  NoDup (map uuid (pre ++ p :: post)) -> q.(uuid) = p.(uuid) ->
  save_in q (pre ++ p :: post) = pre ++ q :: post.
Proof.
  rewrite map_app. simpl. intros (_ & Hpre & [Hp Hpost]%NoDup_cons)%NoDup_app Hq.
  unfold save_in. rewrite map_app. simpl. rewrite decide_True by done.
  change (save_in q pre ++ q :: save_in q post = pre ++ q :: post).
  rewrite !save_in_id; [done|by rewrite Hq|]. rewrite Hq. intros Hin. apply (Hpre _ Hin). left.
Qed.

(** *** What an inspection makes of a port *)

(** The port's LLDP neighbour: of several entries for a MAC, the last. *)
Definition neighbour (ips : list InspectedPort) (p : BaremetalPort) : option InspectedPort :=
  last (filter (fun ip => ip.(mac_address) = p.(address)) ips).

(** The kind of a VLAN group: what its name has after the last dash. *)
Definition kind_of (group : string) : option string :=
  match rsplit_once "-"%char group with Some (_, kind) => Some kind | None => Some group end.

Definition desired (ips : list InspectedPort) (vg : dict string) (p : BaremetalPort) : BaremetalPort :=
  match neighbour ips p with
  | None => MkPort p.(uuid) p.(address) p.(name) ∅ None None false p.(extra)
  | Some ip =>
      let group := dict_get ip.(switch_system_name) vg in
      MkPort p.(uuid) p.(address) p.(name) (local_link_connection ip)
        (group ≫= fun g => if decide (is_network g) then Some g else None)
        (group ≫= kind_of)
        (bool_decide (ip.(switch_system_name) ∈ _pxe_switch_names vg)) p.(extra)
  end.

Lemma ports_by_mac_get ips (d : dict InspectedPort) a :
  dict_get a (foldl (fun d p => dict_set p.(mac_address) p d) d ips)
  = match last (filter (fun ip => ip.(mac_address) = a) ips) with Some ip => Some ip | None => dict_get a d end.
Proof.
  revert d. induction ips as [|ip ips IH] using rev_ind; intros d; [done|].
  rewrite foldl_snoc, filter_app, dict_get_set, IH, filter_cons, filter_nil.
  case_decide; [by rewrite last_snoc|]. by rewrite app_nil_r.
Qed.

Lemma set_if_changed_eq {A} `{EqDecision A} (get : BaremetalPort -> A) set v p :
  set (get p) p = p -> set_if_changed get set v p = set v p.
Proof. intros Hs. unfold set_if_changed. case_decide as Hd; [|done]. by rewrite <- Hd. Qed.

(** A group name that the convention produces is not empty. *)
Definition named_groups (vg : dict string) : Prop := forall s g, dict_get s vg = Some g -> truthy g = true.

Lemma split_rsplit c s :
  match rsplit_once c s with
  | None => split c s = [s]
  | Some (_, v) => exists x y rest, split c s = x :: y :: rest /\ last (y :: rest) = Some v
  end.
Proof.
  induction s as [|a r IH]; [done|]. cbn [rsplit_once split]. destruct (rsplit_once c r) as [[u v]|].
  - destruct IH as (x & y & rest & -> & Hl). destruct (Ascii.eqb a c); [by exists "", x, (y :: rest)|].
    by exists (String a x), y, rest.
  - rewrite IH. destruct (Ascii.eqb a c); [by exists "", r, []|done].
Qed.
Lemma split_kind group : last (split "-"%char group) = kind_of group.
Proof.
  unfold kind_of. pose proof (split_rsplit "-"%char group) as H. destruct (rsplit_once "-" group) as [[u v]|]; [|by rewrite H].
  destruct H as (x & y & rest & -> & Hl). exact Hl.
Qed.

Lemma assign_desired ips vg p ip :
  named_groups vg -> neighbour ips p = Some ip ->
  assign_attributes p ip (dict_get ip.(switch_system_name) vg)
    (bool_decide (ip.(switch_system_name) ∈ _pxe_switch_names vg)) = desired ips vg p.
Proof.
  intros Hvg Hip. unfold desired, assign_attributes. rewrite Hip.
  rewrite !set_if_changed_eq by (match goal with |- _ = ?q => by destruct q end). destruct p. cbn.
  destruct (dict_get (switch_system_name ip) vg) as [g|] eqn:Hg; [|done].
  rewrite (Hvg _ _ Hg). cbn. unfold with_pxe_enabled, with_category, with_physical_network. cbn. f_equal.
  - destruct (decide (is_network g)) as [Hn|Hn]; unfold is_network in Hn; [by rewrite Hn|].
    by apply not_true_is_false in Hn as ->.
  - apply split_kind.
Qed.

Lemma vlan_groups_named ips mapping vg : vlan_group_names ips mapping = inr vg -> named_groups vg.
Proof.
  intros Hvg s g Hg. destruct (proj2 (vlan_group_names_ok ips mapping) vg Hvg) as [_ Hs].
  apply Hs in Hg as (p & c & _ & _ & _ & ->). unfold group_name.
  by destruct (String.concat _ _).
Qed.

Lemma desired_uuid ips vg p : (desired ips vg p).(uuid) = p.(uuid).
Proof. unfold desired. by destruct (neighbour ips p). Qed.
Lemma desired_idempotent ips vg p : desired ips vg (desired ips vg p) = desired ips vg p.
Proof.
  assert (neighbour ips (desired ips vg p) = neighbour ips p) as Hn.
  { assert ((desired ips vg p).(address) = p.(address)) as Ha.
    { unfold desired. by destruct (neighbour ips p). }
    unfold neighbour at 1. by rewrite Ha. }
  unfold desired at 1. rewrite Hn. unfold desired. by destruct (neighbour ips p).
Qed.

(** A PXE port is on a network VLAN group, at the switch of it that comes first. *)
Lemma desired_pxe ips vg p :
  NoDup (vg.*1) -> (desired ips vg p).(pxe_enabled) = true ->
  exists ip g, neighbour ips p = Some ip /\ dict_get ip.(switch_system_name) vg = Some g /\ is_network g /\
    (desired ips vg p).(physical_network) = Some g /\
    forall s, dict_get s vg = Some g -> natural_le ip.(switch_system_name) s.
Proof.
  intros Hk. unfold desired. destruct (neighbour ips p) as [ip|]; [|done]. cbn.
  intros Hp%bool_decide_eq_true. apply (elem_of_pxe _ _ Hk) in Hp as (g & Hg & Hh).
  apply natural_first_least in Hh as [Hs Hleast]. apply (elem_of_switches _ _ _ Hk) in Hs.
  exists ip, g. rewrite Hs. cbn. rewrite decide_True by done. split_and!; [done..|].
  intros s Hget. apply Hleast. by apply elem_of_switches.
Qed.

(** *** Traits *)

(** [CUSTOM_*_SWITCH], where the regular expression also allows a last newline. *)
Definition switch_trait (x : string) : Prop :=
  exists m, m <> "" /\ str_all (fun c => is_upper c || is_digit c) m = true /\
    (x = "CUSTOM_" +:+ m +:+ "_SWITCH" \/ x = "CUSTOM_" +:+ m +:+ "_SWITCH" +:+ newline).
(** The traits [after] of a node with the VLAN groups [vg] and the traits [before]:
    those that are no switch traits, and one named after the kind of each group. *)
Definition switch_traits (vg : dict string) (before after : gset string) : Prop :=
  forall x, x ∈ after <-> (x ∈ before /\ ~ switch_trait x) \/
    exists switch group kind, dict_get switch vg = Some group /\ kind_of group = Some kind /\
      x = "CUSTOM_" +:+ upper kind +:+ "_SWITCH".

Lemma our_trait_text_spec x :
  our_trait_text x = true <->
  exists m, m <> "" /\ str_all (fun c => is_upper c || is_digit c) m = true /\ x = "CUSTOM_" +:+ m +:+ "_SWITCH".
Proof.
  unfold our_trait_text. split.
  - intros [[r ->]%startswith_spec H]%andb_true_iff. change (drop_str 7 ("CUSTOM_" +:+ r)) with r in H. cbn zeta in H.
    apply andb_true_iff in H as [[m ->]%endswith_spec H]. rewrite str_rev_app in H.
    change (drop_str 7 (String.rev "_SWITCH" +:+ String.rev m)) with (String.rev m) in H.
    rewrite str_rev_involutive in H. apply andb_true_iff in H as [Hm Hall]. exists m. split; [by intros ->|done].
  - intros (m & Hne & Hall & ->). rewrite (proj2 (startswith_spec _ _)) by eauto. cbn zeta.
    change (drop_str 7 ("CUSTOM_" +:+ (m +:+ "_SWITCH"))) with (m +:+ "_SWITCH").
    rewrite (proj2 (endswith_spec _ _)) by eauto. rewrite str_rev_app.
    change (drop_str 7 (String.rev "_SWITCH" +:+ String.rev m)) with (String.rev m).
    rewrite str_rev_involutive, Hall. by destruct m.
Qed.
Lemma is_our_trait_spec x : _is_our_trait x = true <-> switch_trait x.
Proof.
  unfold _is_our_trait, dollar, switch_trait. rewrite orb_true_iff, andb_true_iff, our_trait_text_spec, our_trait_text_spec. split.
  - intros [(m & ? & ? & ->)|[[r ->]%endswith_spec (m & ? & ? & Hr)]]; [eauto|].
    rewrite str_rev_app in Hr. change (drop_str 1 (String.rev newline +:+ String.rev r)) with (String.rev r) in Hr.
    rewrite str_rev_involutive in Hr. subst r. exists m. split_and!; [done|done|right]. by rewrite !str_app_assoc.
  - intros (m & ? & ? & [-> | ->]); [left; eauto|right]. split.
    + apply endswith_spec. exists ("CUSTOM_" +:+ m +:+ "_SWITCH"). by rewrite !str_app_assoc.
    + exists m. split_and!; [done|done|].
      replace ("CUSTOM_" +:+ m +:+ "_SWITCH" +:+ newline) with (("CUSTOM_" +:+ m +:+ "_SWITCH") +:+ newline) by by rewrite !str_app_assoc.
      rewrite str_rev_app. change (drop_str 1 (String.rev newline +:+ ?r)) with r. by rewrite str_rev_involutive.
Qed.

Lemma upper_dash c : Ascii.eqb (upper_char c) "-"%char = Ascii.eqb c "-"%char.
Proof. destruct c as [[] [] [] [] [] [] [] []]; reflexivity. Qed.
Lemma split_upper group : split "-"%char (upper group) = map upper (split "-"%char group).
Proof.
  induction group as [|c group IH]; [done|]. change (upper (String c group)) with (String (upper_char c) (upper group)).
  cbn [split]. rewrite upper_dash, IH. destruct (Ascii.eqb c "-"); [done|]. by destruct (split "-" group).
Qed.
Lemma trait_name_kind group kind : kind_of group = Some kind -> _trait_name group = "CUSTOM_" +:+ upper kind +:+ "_SWITCH".
Proof.
  intros Hk. unfold _trait_name. rewrite split_upper. change (map upper (split "-" group)) with (upper <$> split "-"%char group).
  by rewrite fmap_last, split_kind, Hk.
Qed.

(** The names of the groups of [vg]. *)
Definition group_names (vg : dict string) : list string :=
  remove_dups (filter (fun x => truthy x = true) (map snd vg)).
Lemma required_switch_traits_spec vg ts :
  NoDup (vg.*1) -> named_groups vg -> switch_traits vg ts (required_switch_traits ts (group_names vg)).
Proof.
  intros Hk Hvg x. unfold required_switch_traits. rewrite elem_of_union, elem_of_filter, elem_of_list_to_set.
  rewrite <- is_our_trait_spec, not_true_iff_false. f_equiv; [tauto|].
  rewrite list_elem_of_fmap. split.
  - intros (g & -> & [Ht Hg]%list_elem_of_filter). apply elem_of_remove_dups, list_elem_of_filter in Hg as [_ Hg].
    apply list_elem_of_fmap in Hg as ([switch g'] & -> & Hin). cbn in *. apply (dict_get_elem _ _ _ Hk) in Hin.
    destruct (kind_of g') as [kind|] eqn:Hkind; [|unfold kind_of in Hkind; by repeat case_match].
    exists switch, g', kind. split_and!; [done|done|by apply trait_name_kind].
  - intros (switch & g & kind & Hg & Hkind & ->). exists g. split; [by rewrite (trait_name_kind _ _ Hkind)|].
    pose proof (Hvg _ _ Hg) as Ht. apply list_elem_of_filter. split; [done|]. apply elem_of_remove_dups, list_elem_of_filter.
    split; [done|]. apply list_elem_of_fmap. exists (switch, g). split; [done|]. by apply (dict_get_elem _ _ _ Hk).
Qed.
Lemma switch_traits_fixed vg ts ts' :
  NoDup (vg.*1) -> named_groups vg -> switch_traits vg ts ts' -> required_switch_traits ts' (group_names vg) = ts'.
Proof.
  intros Hk Hvg Hts. apply set_eq. intros x. rewrite (required_switch_traits_spec vg ts' Hk Hvg x), !(Hts x). naive_solver.
Qed.

(** *** The hook against Ironic *)

Section update.
Context (is_ironic : exn -> bool) (this : Z).
Local Abbreviation st := (db * list (event IronicDB))%type.
Local Abbreviation step := (logged (db_step this)).

(** A port after its turn: as desired, or Ironic refused to save it. *)
Definition settled_or_refused (tr : list (event IronicDB)) (want : BaremetalPort -> BaremetalPort) (p q : BaremetalPort) : Prop :=
  q = want p \/ exists e, is_ironic e = true /\ Ev (SavePort (want p)) (inl e) ∈ tr.

Lemma wp_save_logged p want pre post ts (tr : list (event IronicDB)) :
  want.(uuid) = p.(uuid) -> NoDup (map uuid (pre ++ p :: post)) ->
  wp step (save_logged is_ironic want) (fun r _ (s : st) => exists q a, s.1 = MkDb (pre ++ q :: post) ts /\
    s.2 = tr ++ [Ev (SavePort want) a] /\ (q = want \/ q = p) /\
    match r with
    | inr _ => q = want \/ exists e, is_ironic e = true /\ a = inl e
    | inl e => a = inl e /\ is_ironic e = false
    end) tt (MkDb (pre ++ p :: post) ts, tr).
Proof.
  intros Hu Hn. unfold save_logged. wp_pure. apply wp_call. intros a [d' tr'] [Hs Htr]. cbn [fst snd db_step db_ports db_traits] in Hs, Htr. subst tr'.
  rewrite (save_in_replaces p want pre post Hn Hu) in Hs.
  assert (exists q, d' = MkDb (pre ++ q :: post) ts /\ (q = want \/ q = p) /\ (forall u, a = inr u -> q = want)) as (q & -> & Hq & Hok).
  { destruct Hs as [->|(e & -> & ->)]; [exists want|exists p]; (split; [done|]); (split; [auto|]); [done|by intros u [=]]. }
  destruct a as [e|u]; wp_simp; [|exists q, (inr u); eauto 8].
  destruct (is_ironic e) eqn:He; wp_pure; exists q, (inl e); eauto 9.
Qed.

Lemma wp_save_all (want : BaremetalPort -> BaremetalPort) (body : BaremetalPort -> hook unit) ps ts tr :
  (forall p, (want p).(uuid) = p.(uuid)) -> (forall p, body p = save_logged is_ironic (want p)) ->
  NoDup (map uuid ps) ->
  wp step (for_each ps body) (fun r _ (s : st) => s.1.(db_traits) = ts /\ tr `prefix_of` s.2 /\
    Forall2 (fun p q => q = want p \/ q = p) ps s.1.(db_ports) /\
    match r with
    | inr _ => Forall2 (settled_or_refused s.2 want) ps s.1.(db_ports)
    | inl e => is_ironic e = false /\ exists q, Ev (SavePort q) (inl e) ∈ s.2
    end) tt (MkDb ps ts, tr).
Proof.
  intros Hu Hbody Hn.
  apply (wp_for_each_seen _ _ _ (fun seen _ (s : st) => exists qs later, ps = seen ++ later /\ s.1 = MkDb (qs ++ later) ts /\
    map uuid qs = map uuid seen /\ tr `prefix_of` s.2 /\ Forall2 (fun p q => q = want p \/ q = p) seen qs /\
    Forall2 (settled_or_refused s.2 want) seen qs)).
  - exists [], ps. by split_and!.
  - intros seen p later [] [d tr1] Heq (qs & later' & Heq' & Hd & Hids & Hpre & Hq & Hs). cbn in Hd, Hpre, Hs. subst d.
    rewrite Heq in Heq'. apply app_inv_head in Heq'. subst later'. rewrite Hbody.
    assert (NoDup (map uuid (qs ++ p :: later))) as Hn' by (rewrite map_app, Hids, <- map_app, <- Heq; done).
    eapply wp_mono; [|by apply (wp_save_logged p (want p))].
    intros r [] [d tr2] (q & a & Hd & Htr & Hqq & Hr). cbn in Hd, Htr. subst d tr2. cbn [fst snd db_ports db_traits].
    assert (tr `prefix_of` tr1 ++ [Ev (SavePort (want p)) a]) as Hpre' by (etrans; [done|by apply prefix_app_r]).
    assert (Forall2 (settled_or_refused (tr1 ++ [Ev (SavePort (want p)) a]) want) seen qs) as Hs'.
    { eapply Forall2_impl; [exact Hs|]. intros x y [?|(e & ? & ?)]; [by left|]. right. exists e. rewrite elem_of_app. auto. }
    destruct r as [e|u].
    + destruct Hr as [-> He]. split; [done|]. split; [done|]. split.
      * rewrite Heq. apply Forall2_app; [done|]. constructor; [done|]. clear. induction later; constructor; auto.
      * split; [done|]. exists (want p). apply elem_of_app. right. by left.
    + exists (qs ++ [q]), later. rewrite <- !app_assoc. cbn [app]. split_and!; [done|done| |done| |].
      * rewrite !map_app, Hids. cbn. do 2 f_equal. destruct Hqq as [-> | ->]; [apply Hu|done].
      * apply Forall2_app; [done|by constructor].
      * apply Forall2_app; [done|]. constructor; [|done]. destruct Hr as [->|(e & He & ->)]; [by left|].
        right. exists e. split; [done|]. apply elem_of_app. right. by left.
  - intros [] [d tr1] (qs & later & Heq & Hd & _ & Hpre & Hq & Hs). cbn in *.
    assert (later = []) as -> by (apply (f_equal length) in Heq; rewrite length_app in Heq; destruct later; cbn in Heq; [done|lia]).
    rewrite app_nil_r in Hd. by subst d.
Qed.

(** The traits of the node, set from its groups. *)
Lemma wp_set_node_traits node gs ps ts tr :
  node.(node_id) = this ->
  wp step (_set_node_traits node gs) (fun r _ (s : st) => s.1.(db_ports) = ps /\ tr `prefix_of` s.2 /\
    match r with
    | inr _ => s.1.(db_traits) = required_switch_traits ts gs
    | inl e => (s.1.(db_traits) = ts \/ s.1.(db_traits) = required_switch_traits ts gs) /\
        (Ev (TraitNames this) (inl e) ∈ s.2 \/ (exists names, Ev (CreateTraits this names) (inl e) ∈ s.2) \/
         Ev (SaveNode this) (inl e) ∈ s.2)
    end) tt (MkDb ps ts, tr).
Proof.
  intros <-. unfold _set_node_traits. wp_pure. apply wp_call. intros a [d1 tr1] [[Hd1 Ha] Htr1]. cbn in Hd1, Ha, Htr1. subst d1 tr1.
  assert (forall x : event IronicDB, x ∈ tr ++ [x]) as Hlast by (intros x; apply elem_of_app; right; by left).
  destruct a as [e|names]; wp_simp.
  { split; [done|]. split; [by apply prefix_app_r|]. split; [by left|]. by left. }
  rewrite (Ha eq_refl names eq_refl). case_decide as Heq.
  { wp_pure. split; [done|]. split; [by apply prefix_app_r|]. done. }
  wp_pure. apply wp_call. intros a2 [d2 tr2] [Hd2 Htr2]. cbn in Hd2, Htr2. subst tr2. rewrite decide_True in Hd2 by done. cbn in Hd2.
  destruct a2 as [e|u]; wp_simp.
  { split; [destruct Hd2 as [->|(? & _ & ->)]; done|]. split; [rewrite <- app_assoc; by apply prefix_app_r|].
    split; [destruct Hd2 as [->|(? & _ & ->)]; auto|]. right. left. eexists. apply elem_of_app. right. by left. }
  destruct Hd2 as [->|(e & [=] & _)]. apply wp_call. intros a3 [d3 tr3] [Hd3 Htr3]. cbn in Hd3, Htr3. subst d3 tr3.
  split; [done|]. split; [rewrite <- !app_assoc; by apply prefix_app_r|].
  destruct a3 as [e|u']; [|done]. split; [by right|]. right. right. apply elem_of_app. right. by left.
Qed.
End update.

(** What the hook leaves of a node whose ports were [ps] and traits [ts]. *)
Record updated (is_ironic : exn -> bool) (node : node_t) (ips : list InspectedPort) (vg : dict string)
    (ps : list BaremetalPort) (ts : gset string) (r : res unit) (d' : db) (tr : list (event IronicDB)) : Prop := {
  (** Whatever fails, no port and no trait is changed but to what it should be. *)
  updated_only : Forall2 (fun p q => q = desired ips vg p \/ q = p) ps d'.(db_ports) /\
    (d'.(db_traits) = ts \/ switch_traits vg ts d'.(db_traits));
  (** Every port is as desired or was refused by Ironic, unless the hook raised an
      exception because the ports could not be listed or that was not Ironic's. *)
  updated_ports : Forall2 (settled_or_refused is_ironic tr (desired ips vg)) ps d'.(db_ports) \/
    exists e, r = inl e /\ (Ev (ListPorts node.(node_id)) (inl e) ∈ tr \/
      (is_ironic e = false /\ exists q, Ev (SavePort q) (inl e) ∈ tr));
  (** If the hook returns, the traits are right; else the call that failed is known,
      and it is not a port that Ironic refused. *)
  updated_traits : match r with
    | inr _ => switch_traits vg ts d'.(db_traits)
    | inl e => Ev (ListPorts node.(node_id)) (inl e) ∈ tr \/ Ev (TraitNames node.(node_id)) (inl e) ∈ tr \/
        (exists names, Ev (CreateTraits node.(node_id) names) (inl e) ∈ tr) \/ Ev (SaveNode node.(node_id)) (inl e) ∈ tr \/
        (is_ironic e = false /\ exists q, Ev (SavePort q) (inl e) ∈ tr)
    end }.

Lemma wp_update_port_attrs is_ironic node ips vg ps ts :
  named_groups vg -> NoDup (map uuid ps) ->
  wp (logged (db_step node.(node_id))) (_update_port_attrs is_ironic node
    (foldl (fun d p => dict_set p.(mac_address) p d) [] ips) vg (_pxe_switch_names vg)) (fun r _ s =>
    s.1.(db_traits) = ts /\ Forall2 (fun p q => q = desired ips vg p \/ q = p) ps s.1.(db_ports) /\
    match r with
    | inr _ => Forall2 (settled_or_refused is_ironic s.2 (desired ips vg)) ps s.1.(db_ports)
    | inl e => Ev (ListPorts node.(node_id)) (inl e) ∈ s.2 \/ (is_ironic e = false /\ exists q, Ev (SavePort q) (inl e) ∈ s.2)
    end) tt (MkDb ps ts, []).
Proof.
  intros Hvg Hn. unfold _update_port_attrs. wp_pure. apply wp_call. intros a [d tr] [[Hd Ha] Htr]. cbn in Hd, Ha, Htr. subst d tr.
  destruct a as [e|ports]; wp_simp.
  { split; [done|]. split; [|left; by left]. cbn. clear. induction ps; constructor; auto. }
  rewrite (Ha eq_refl ports eq_refl).
  eapply wp_mono; [|apply (wp_save_all is_ironic _ (desired ips vg)); [apply desired_uuid| |done]].
  - intros r [] [d tr] (Ht & _ & Hq & Hr). split; [done|]. split; [done|]. destruct r as [e|u]; [by right|done].
  - intros p. rewrite ports_by_mac_get. cbn [dict_get].
    change (last (filter (fun ip => mac_address ip = address p) ips)) with (neighbour ips p).
    destruct (neighbour ips p) as [ip|] eqn:Hip.
    + unfold _set_port_attributes. by rewrite (assign_desired ips vg p ip Hvg Hip).
    + unfold _clear_port_attributes, desired. by rewrite Hip.
Qed.

Lemma wp_update_ports is_ironic mapping node pd ips vg ps ts :
  _parse_plugin_data pd = inr ips -> ips <> [] -> vlan_group_names ips mapping = inr vg -> NoDup (map uuid ps) ->
  wp (logged (db_step node.(node_id))) (update_baremetal_ports is_ironic mapping node pd) (fun r _ s =>
    updated is_ironic node ips vg ps ts r s.1 s.2 /\
    (s.1.(db_traits) = ts \/ s.1.(db_traits) = required_switch_traits ts (group_names vg))) tt (MkDb ps ts, []).
Proof.
  intros Hpd Hips Hvg Hn. unfold update_baremetal_ports. rewrite Hpd. wp_pure. wp_pure.
  destruct ips as [|ip ips]; [done|]. cbn [truthy truthy_list negb]. set (l := ip :: ips) in *. rewrite Hvg.
  wp_pure. wp_pure. pose proof (vlan_groups_named _ _ _ Hvg) as Hnamed.
  assert (NoDup (vg.*1)) as Hk by by apply (vlan_group_names_ok l mapping).
  pose proof (required_switch_traits_spec vg ts Hk Hnamed) as Hreq.
  wp_pure. eapply wp_mono; [|by apply (wp_update_port_attrs is_ironic node l vg ps ts)].
  intros r [] [[ports traits] tr] (Ht & Hq & Hr). cbn in Ht, Hq, Hr. subst traits. destruct r as [e|u]; cbn beta iota.
  { split; [|by left]. split; cbn; [by auto|right; eauto|tauto]. }
  eapply wp_mono; [|by apply (wp_set_node_traits node.(node_id) node)].
  intros r [] [[ports' traits] tr'] (Hp & Hpre & Ht). cbn in Hp, Hpre, Ht. subst ports'. cbn [fst snd db_ports db_traits].
  assert (Forall2 (settled_or_refused is_ironic tr' (desired l vg)) ps ports) as Hr'.
  { eapply Forall2_impl; [exact Hr|]. intros x y [?|(e & ? & ?)]; [by left|]. right. exists e. split; [done|].
    destruct Hpre as [k ->]. apply elem_of_app. by left. }
  destruct r as [e|u']; (split; [split; cbn|]).
  - destruct Ht as [[-> | ->] _]; auto.
  - by left.
  - tauto.
  - tauto.
  - subst traits. auto.
  - by left.
  - by subst traits.
  - by right.
Qed.

(** C38. The LLDP hook, whatever requests Ironic fails.  Without inspection data, or when
    they do not parse or the wiring is refused, it asks nothing of Ironic.  Otherwise
    every port of the node gets the link, VLAN group, category and PXE flag of its
    neighbour, and a port without one is cleared; a port that Ironic refuses to save
    stops nothing; when the hook returns, the node's CUSTOM_*_SWITCH traits are
    exactly those named after the kinds of its VLAN groups, and all other traits are
    as before; it raises only when a list, the traits or the node cannot be read or
    written or a save fails otherwise, and leaves nothing but old and desired values
    then.  A PXE port is on a network VLAN group, at its first switch.  Once all is
    as desired, a further run of the hook changes nothing. *)
Theorem update_baremetal_ports_spec is_ironic mapping node pd ps ts :
  NoDup (map uuid ps) ->
  let hook_runs d Q := wp (logged (db_step node.(node_id))) (update_baremetal_ports is_ironic mapping node pd)
                         (fun r _ s => Q r s.1 s.2) tt (d, []) in
  match _parse_plugin_data pd with
  | inl e => hook_runs (MkDb ps ts) (fun r d' tr => r = inl e /\ d' = MkDb ps ts /\ tr = [])
  | inr [] => hook_runs (MkDb ps ts) (fun r d' tr => r = inr tt /\ d' = MkDb ps ts /\ tr = [])
  | inr ips =>
      match vlan_group_names ips mapping with
      | inl e => hook_runs (MkDb ps ts) (fun r d' tr => r = inl e /\ d' = MkDb ps ts /\ tr = [])
      | inr vg =>
          hook_runs (MkDb ps ts) (updated is_ironic node ips vg ps ts) /\
          (forall ts', switch_traits vg ts ts' ->
             let d := MkDb (map (desired ips vg) ps) ts' in hook_runs d (fun _ d' _ => d' = d)) /\
          (forall p, (desired ips vg p).(pxe_enabled) = true ->
             exists ip g, neighbour ips p = Some ip /\ dict_get ip.(switch_system_name) vg = Some g /\ is_network g /\
               (desired ips vg p).(physical_network) = Some g /\
               forall s, dict_get s vg = Some g -> natural_le ip.(switch_system_name) s)
      end
  end.
Proof.
  intros Hn hook_runs. unfold hook_runs. destruct (_parse_plugin_data pd) as [e|ips] eqn:Hpd.
  { unfold update_baremetal_ports. rewrite Hpd. by repeat wp_pure. }
  destruct ips as [|ip ips]; [unfold update_baremetal_ports; rewrite Hpd; by repeat wp_pure|]. set (l := ip :: ips) in *.
  destruct (vlan_group_names l mapping) as [e|vg] eqn:Hvg.
  { unfold update_baremetal_ports. rewrite Hpd. wp_pure. wp_pure. cbn [truthy truthy_list negb]. rewrite Hvg. by repeat wp_pure. }
  pose proof (vlan_groups_named _ _ _ Hvg) as Hnamed.
  assert (NoDup (vg.*1)) as Hk by by apply (vlan_group_names_ok l mapping).
  split; [|split; [|intros p; by apply desired_pxe]].
  - eapply wp_mono; [|by apply (wp_update_ports is_ironic mapping node pd l vg)]. by intros r [] s [? _].
  - intros ts' Hts. cbn zeta. eapply wp_mono; [|apply (wp_update_ports is_ironic mapping node pd l vg); [done..|]].
    + intros r [] [[ports traits] tr] [[[Hq _] _ _] Ht]. cbn in *. rewrite (switch_traits_fixed vg ts ts' Hk Hnamed Hts) in Ht.
      f_equal; [|by destruct Ht]. clear -Hq. revert ports Hq. induction ps as [|p ps IH]; intros ports Hq; inversion Hq as [|? q ? qs Hpq Hrest]; subst; [done|].
      cbn. f_equal; [|by apply IH]. by destruct Hpq as [-> | ->]; [apply desired_idempotent|].
    + rewrite map_map. erewrite map_ext; [exact Hn|]. intros p. apply desired_uuid.
Qed.

(** *** A node with a network and a storage connection, and one port without LLDP *)

Definition sample_plugin : plugin_data_t := MkPlugin
  (Some [("ex1", MkIf (Some "ex1") (Some "11:11:11:11:11:11")); ("ex2", MkIf (Some "ex2") (Some "22:22:22:22:22:22"));
         ("ex3", MkIf (Some "ex3") (Some "33:33:33:33:33:33"))])
  (Some [("ex1", MkLldp (Some "88:5A") (Some "Ethernet1/18") (Some "F20-3-1.iad3"));
         ("ex2", MkLldp (Some "88:5B") (Some "Ethernet1/18") (Some "f20-3-2.iad3"));
         ("ex3", MkLldp (Some "88:5C") (Some "Ethernet1/3") (Some "f20-3-1f.iad3.rackspace.net"))]).
Definition sample_node : node_t := MkNode 1 "n-uuid" "Dell_ABC".
Definition fresh_port (u mac : string) : BaremetalPort := MkPort u mac None ∅ None None true ∅.
Definition sample_db_ports : list BaremetalPort :=
  [fresh_port "p1" "11:11:11:11:11:11"; fresh_port "p2" "22:22:22:22:22:22";
   fresh_port "p3" "33:33:33:33:33:33"; fresh_port "p4" "44:44:44:44:44:44"].
Definition sample_broken (u : string) : option exn :=
  if decide (u = "p2") then Some (Exn "IronicException" []) else None.
Definition sample_ironic (e : exn) : bool := bool_decide (e.(exn_cls) = "IronicException").
Definition sample_ips : list InspectedPort :=
  match _parse_plugin_data sample_plugin with inr l => l | inl _ => [] end.

Definition sample_vg : dict string :=
  [("f20-3-1.iad3.rackspace.net", "f20-3-network"); ("f20-3-2.iad3.rackspace.net", "f20-3-network");
   ("f20-3-1f.iad3.rackspace.net", "f20-3-storage")].

(** Saving [p2] fails: it stays as it was, and the other ports and the traits are updated. *)
Lemma update_baremetal_ports_spec_witness :
  exists d' tr, vlan_group_names sample_ips default_mapping = inr sample_vg /\
    run (traced (ironic_store 1 sample_broken)) (update_baremetal_ports sample_ironic default_mapping sample_node sample_plugin) tt
      (MkDb sample_db_ports {["CUSTOM_BMC_SWITCH"; "bar"]}, []) = (inr tt, tt, (d', tr)) /\
    updated sample_ironic sample_node sample_ips sample_vg sample_db_ports {["CUSTOM_BMC_SWITCH"; "bar"]} (inr tt) d' tr /\
    map physical_network d'.(db_ports) = [Some "f20-3-network"; None; None; None] /\
    map pxe_enabled d'.(db_ports) = [true; true; false; false] /\
    d'.(db_traits) = {["bar"; "CUSTOM_NETWORK_SWITCH"; "CUSTOM_STORAGE_SWITCH"]}.
Proof.
  assert (NoDup (map uuid sample_db_ports)) as Hn by (apply (bool_decide_unpack _); by vm_compute).
  pose proof (update_baremetal_ports_spec sample_ironic default_mapping sample_node sample_plugin
    sample_db_ports {["CUSTOM_BMC_SWITCH"; "bar"]} Hn) as H. cbv zeta in H.
  assert (vlan_group_names sample_ips default_mapping = inr sample_vg) as Hvg by (vm_compute; reflexivity).
  assert (_parse_plugin_data sample_plugin = inr sample_ips) as Hpd by (vm_compute; reflexivity).
  rewrite Hpd in H. destruct sample_ips as [|ip ips] eqn:Hips; [vm_compute in Hips; discriminate|]. rewrite <- Hips in *.
  rewrite Hvg in H. destruct H as [H _].
  pose proof (wp_run (traced (ironic_store 1 sample_broken)) _ _ _ _ _ (ironic_store_step 1 sample_broken) H) as Hrun.
  set (x := run (traced (ironic_store 1 sample_broken)) _ tt _) in *.
  assert (x.1.1 = inr tt) as H1 by (vm_compute; reflexivity).
  assert (map physical_network x.2.1.(db_ports) = [Some "f20-3-network"; None; None; None]) as H2 by (vm_compute; reflexivity).
  assert (map pxe_enabled x.2.1.(db_ports) = [true; true; false; false]) as H3 by (vm_compute; reflexivity).
  assert (x.2.1.(db_traits) = {["bar"; "CUSTOM_NETWORK_SWITCH"; "CUSTOM_STORAGE_SWITCH"]}) as H4 by (apply (bool_decide_unpack _); by vm_compute).
  destruct x as [[r []] [d' tr]]. cbn in H1. subst r. exists d', tr. by split_and!.
Defined.

(** ** What the BIOS-name hook makes of the ports *)

Section bios.
Context (this : Z) (names : bios_names) (nn : string).
Hypothesis names_given : forall m n, dict_get m names = Some n -> truthy n = true.

Definition bios_name_of (p : BaremetalPort) : option string := dict_get (upper p.(address)) names.

(** Name and BIOS name as inspected; a PXE flag without a physical network goes. *)
Definition settled (p : BaremetalPort) : BaremetalPort :=
  MkPort p.(uuid) p.(address)
    (match bios_name_of p with Some n => Some (nn +:+ ":" +:+ n) | None => p.(name) end)
    p.(link) p.(physical_network) p.(category)
    (p.(pxe_enabled) && truthy p.(physical_network))
    (match bios_name_of p with Some n => <["bios_name" := n]> p.(extra) | None => delete "bios_name" p.(extra) end).

(** Without any PXE port, the first one is made the placeholder. *)
Definition settled_ports (ps : list BaremetalPort) : list BaremetalPort :=
  let qs := map settled ps in
  if existsb pxe_enabled qs then qs
  else match qs with
       | q :: r => MkPort q.(uuid) q.(address) q.(name) placeholder_link (Some "enrol") q.(category) true q.(extra) :: r
       | [] => []
       end.

Definition reliable : string -> option exn := fun _ => None.

(** An operation that turns [p] into [q], saving it when it changes. *)
Definition turns (op : hook BaremetalPort) (p q : BaremetalPort) : Prop :=
  q.(uuid) = p.(uuid) /\
  (op = save_port q \/ (op = mret q /\ p = q)).

Lemma run_turns op p q pre post ts :
  turns op p q -> NoDup (map uuid (pre ++ p :: post)) ->
  run (ironic_store this reliable) op tt (MkDb (pre ++ p :: post) ts) = (inr q, tt, MkDb (pre ++ q :: post) ts).
Proof.
  intros [Hu [->|[-> ->]]] Hn; [|done]. unfold save_port. run_step.
  cbn [fst snd ironic_store reliable db_ports db_traits]. by rewrite (save_in_replaces p q pre post Hn Hu).
Qed.

Lemma extra_turns p :
  turns (_set_port_extra p (bios_name_of p)) p
    (with_extra (match bios_name_of p with Some n => <["bios_name" := n]> p.(extra)
                 | None => delete "bios_name" p.(extra) end) p).
Proof.
  split; [done|]. unfold _set_port_extra. destruct (bios_name_of p) as [n|] eqn:Hn; case_decide as Hd.
  - right. rewrite insert_id by done. by destruct p.
  - left. by rewrite (names_given _ _ Hn).
  - right. rewrite delete_id by done. by destruct p.
  - by left.
Qed.
Lemma name_turns p b :
  (forall n, b = Some n -> truthy n = true) ->
  turns (_set_port_name p b nn) p
    (with_name (match b with Some n => Some (nn +:+ ":" +:+ n) | None => p.(name) end) p).
Proof.
  intros Hb. split; [done|]. unfold _set_port_name. destruct b as [n|]; [|right; by destruct p].
  rewrite (Hb n eq_refl). case_decide as Hd; [|by left]. right. rewrite <- Hd. by destruct p.
Qed.
Lemma pxe_turns p :
  turns (_clear_unwanted_pxe p) p (with_pxe_enabled (p.(pxe_enabled) && truthy p.(physical_network)) p).
Proof.
  split; [done|]. unfold _clear_unwanted_pxe. destruct (truthy (physical_network p)); [right|].
  - rewrite andb_true_r. by destruct p.
  - rewrite andb_false_r. destruct p as [? ? ? ? ? ? [] ?]; simpl; [by left|by right].
Qed.

Lemma turns_uuid op p q pre post :
  turns op p q -> NoDup (map uuid (pre ++ p :: post)) -> NoDup (map uuid (pre ++ q :: post)).
Proof. intros [Hu _]. rewrite !map_app. simpl. by rewrite Hu. Qed.

Lemma run_settle_port p pre post ts :
  NoDup (map uuid (pre ++ p :: post)) ->
  run (ironic_store this reliable) (settle_port names nn p) tt (MkDb (pre ++ p :: post) ts)
  = (inr (settled p), tt, MkDb (pre ++ settled p :: post) ts).
Proof.
  intros Hn. unfold settle_port, mbind, prog_mbind. fold (bios_name_of p).
  pose proof (extra_turns p) as Ht1. rewrite run_bind, (run_turns _ _ _ _ _ _ Ht1 Hn).
  apply (turns_uuid _ _ _ _ _ Ht1) in Hn. set (p1 := with_extra _ p) in *.
  pose proof (name_turns p1 (bios_name_of p) (fun n => names_given _ n)) as Ht2.
  rewrite run_bind, (run_turns _ _ _ _ _ _ Ht2 Hn). apply (turns_uuid _ _ _ _ _ Ht2) in Hn.
  set (p2 := with_name _ p1) in *. rewrite (run_turns _ _ _ _ _ _ (pxe_turns p2) Hn). done.
Qed.

Lemma run_settle_all pre todo ts :
  NoDup (map uuid (pre ++ todo)) ->
  run (ironic_store this reliable) (map_each todo (settle_port names nn)) tt (MkDb (pre ++ todo) ts)
  = (inr (map settled todo), tt, MkDb (pre ++ map settled todo) ts).
Proof.
  revert pre. induction todo as [|p todo IH]; intros pre Hn; [done|]. cbn [map_each].
  rewrite run_bind, (run_settle_port p pre todo ts Hn). specialize (IH (pre ++ [settled p])).
  rewrite <- !app_assoc in IH. rewrite run_bind. simpl app in IH. rewrite IH; [done|].
  rewrite map_app in Hn |- *. exact Hn.
Qed.

(** *** A settled port is not saved again *)

Definition quiet (p : BaremetalPort) : Prop := settled p = p.
Lemma settled_quiet p : quiet (settled p).
Proof.
  unfold quiet, settled, bios_name_of. destruct p; simpl. destruct (dict_get _ names); f_equal.
  - by rewrite <- andb_assoc, andb_diag.
  - by rewrite insert_insert, decide_True.
  - by rewrite <- andb_assoc, andb_diag.
  - by rewrite delete_delete_eq.
Qed.

Lemma settle_quiet p : quiet p -> settle_port names nn p = mret p.
Proof.
  intros Hq. destruct p as [u a nm l ph c px ex]. unfold quiet, settled, bios_name_of in Hq. simpl in Hq.
  unfold settle_port, _set_port_extra. simpl. injection Hq as Hnm Hpx Hex.
  assert (ex !! "bios_name" = dict_get (upper a) names) as ->.
  { rewrite <- Hex. destruct (dict_get (upper a) names); [by simplify_map_eq|by simplify_map_eq]. }
  rewrite decide_True by done. cbn [mbind prog_mbind pbind mret prog_mret].
  assert (_set_port_name (MkPort u a nm l ph c px ex) (dict_get (upper a) names) nn
    = mret (MkPort u a nm l ph c px ex)) as Hname.
  { unfold _set_port_name. destruct (dict_get (upper a) names) as [n|]; [|done].
    destruct (truthy n); [|done]. by rewrite decide_True. }
  rewrite Hname. cbn [mbind prog_mbind pbind mret prog_mret]. unfold _clear_unwanted_pxe. simpl.
  destruct (truthy ph); [done|]. rewrite andb_false_r in Hpx. by subst px.
Qed.

Lemma map_each_quiet (ps : list BaremetalPort) :
  Forall quiet ps -> map_each ps (settle_port names nn) = mret ps.
Proof.
  induction 1 as [|p ps Hp Hps IH]; [done|]. cbn [map_each]. rewrite (settle_quiet p Hp).
  cbn [pbind mret prog_mret]. by rewrite IH.
Qed.

Lemma settled_ports_quiet ps : Forall quiet (settled_ports ps).
Proof.
  unfold settled_ports. assert (Forall quiet (map settled ps)) as Hq.
  { apply Forall_map, Forall_forall. intros p _. apply settled_quiet. }
  destruct (existsb pxe_enabled (map settled ps)); [done|].
  destruct (map settled ps) as [|q r]; [done|]. apply Forall_cons in Hq as [Hq Hr]. apply Forall_cons.
  split; [|done]. unfold quiet, settled, bios_name_of in *. destruct q. simpl in *. injection Hq as Hn _ He.
  by rewrite Hn, He.
Qed.
Lemma settled_ports_pxe ps : ps <> [] -> existsb pxe_enabled (settled_ports ps) = true.
Proof.
  intros Hps. unfold settled_ports. destruct (existsb pxe_enabled (map settled ps)) eqn:He; [done|].
  destruct ps; [done|]. done.
Qed.
Lemma settled_ports_network ps p :
  p ∈ settled_ports ps -> p.(pxe_enabled) = true -> truthy p.(physical_network) = true.
Proof.
  intros Hp. pose proof (settled_ports_quiet ps) as Hq. rewrite Forall_forall in Hq.
  specialize (Hq p Hp). unfold quiet, settled in Hq. destruct p; simpl in *. injection Hq as _ Hpx _.
  intros ->. done.
Qed.

End bios.

(** The BIOS-name hook, on a node with interfaces and ports: every port gets
    the node-qualified BIOS name of its MAC address (or loses a stale one); a PXE
    flag is kept exactly on the ports that have a physical network; when no PXE
    port is left the first port becomes the enrolment placeholder.  So some port is
    always PXE enabled, every PXE port has a physical network, and a second run
    saves nothing at all, whatever saving would do. *)
Theorem port_bios_name_spec node ifs names ps ts :
  ifs <> [] -> interface_names ifs = inr names ->
  (forall m n, dict_get m names = Some n -> truthy n = true) ->
  ps <> [] -> NoDup (map uuid ps) ->
  let d' := MkDb (settled_ports names node.(node_name) ps) ts in
  run (ironic_store node.(node_id) reliable) (port_bios_name node (Some ifs)) tt (MkDb ps ts) = (inr tt, tt, d') /\
  existsb pxe_enabled d'.(db_ports) = true /\
  (forall p, p ∈ d'.(db_ports) -> p.(pxe_enabled) = true -> truthy p.(physical_network) = true) /\
  (forall broken, run (ironic_store node.(node_id) broken) (port_bios_name node (Some ifs)) tt d' = (inr tt, tt, d')).
Proof.
  intros Hifs Hnames Hgiven Hps Hn. cbn zeta. cbn [db_ports].
  assert (truthy (Some ifs) = true) as Ht by (by destruct ifs).
  unfold port_bios_name. rewrite Ht. change (default [] (Some ifs)) with ifs. cbn [negb]. rewrite Hnames.
  unfold mbind, prog_mbind. cbn [lift pbind]. split; [|split; [by apply settled_ports_pxe|split]].
  - rewrite run_bind, run_call. cbn [fst snd ironic_store db_ports]. rewrite decide_True by done.
    assert (truthy ps = true) as -> by (by destruct ps). cbn [negb].
    pose proof (run_settle_all node.(node_id) names (node_name node) Hgiven [] ps ts Hn) as Hall. cbn [app] in Hall.
    rewrite run_bind, Hall.
    unfold settled_ports. destruct (existsb pxe_enabled (map (settled names (node_name node)) ps)); [done|].
    destruct ps as [|p ps]; [done|]. cbn [map] in *. unfold _set_port_pxe_placeholder, save_port, mbind, prog_mbind.
    rewrite run_bind, run_bind, run_call. cbn [fst snd ironic_store reliable db_ports db_traits].
    rewrite (save_in_replaces (settled names (node_name node) p) _ [] (map (settled names (node_name node)) ps)); try done.
    simpl. simpl in Hn. rewrite map_map. exact Hn.
  - intros p. apply settled_ports_network.
  - intros broken. rewrite run_bind, run_call. cbn [fst snd ironic_store db_ports]. rewrite decide_True by done.
    pose proof (settled_ports_pxe names (node_name node) ps Hps) as Hpxe.
    assert (truthy (settled_ports names (node_name node) ps) = true) as ->
      by (by destruct (settled_ports names (node_name node) ps)).
    cbn [negb]. rewrite run_bind, map_each_quiet by apply settled_ports_quiet. cbn [mret prog_mret run].
    by rewrite Hpxe.
Qed.

Definition sample_ifs : list interface := [MkIf (Some "NIC.Integrated.1-1") (Some "11:11:11:11:11:aa")].
Definition sample_names : bios_names := [("11:11:11:11:11:AA", "NIC.Integrated.1-1")].
Lemma port_bios_name_spec_witness :
  run (ironic_store sample_node.(node_id) reliable) (port_bios_name sample_node (Some sample_ifs)) tt
    (MkDb [fresh_port "p1" "11:11:11:11:11:aa"; fresh_port "p2" "22:22:22:22:22:22"] ∅)
  = (inr tt, tt, MkDb
      [MkPort "p1" "11:11:11:11:11:aa" (Some "Dell_ABC:NIC.Integrated.1-1") placeholder_link (Some "enrol") None true
         {["bios_name" := "NIC.Integrated.1-1"]};
       MkPort "p2" "22:22:22:22:22:22" None ∅ None None false ∅] ∅).
Proof.
  destruct (port_bios_name_spec sample_node sample_ifs sample_names
    [fresh_port "p1" "11:11:11:11:11:aa"; fresh_port "p2" "22:22:22:22:22:22"] ∅) as [Hr _].
  - done.
  - by vm_compute.
  - intros m n. unfold sample_names, dict_get. case_decide; [|done]. by intros [= <-].
  - done.
  - apply (bool_decide_unpack _). by vm_compute.
  - rewrite Hr. vm_compute. reflexivity.
Defined.

(** ** Traits of two hooks *)

Lemma our_trait_prefix t : _is_our_trait t = true -> startswith "CUSTOM_" t = true.
Proof.
  unfold _is_our_trait, dollar, our_trait_text.
  intros [H|[Hnl H]%andb_true_iff]%orb_true_iff; apply andb_true_iff in H as [H _]; [done|].
  apply endswith_spec in Hnl as [r ->]. rewrite str_rev_app in H.
  change (drop_str 1 (String.rev newline +:+ String.rev r)) with (String.rev r) in H.
  rewrite str_rev_involutive in H. apply startswith_spec in H as [r' ->]. apply startswith_spec.
  exists (r' +:+ newline). by rewrite str_app_assoc.
Qed.

(** The chassis-model hook always rewrites the traits: of the traits that start
    with CUSTOM_, which include every switch trait the LLDP hook maintains, only
    the chassis trait is left; all others stay. *)
Theorem chassis_hook_drops_switch_traits broken node sv model manufacturer ps ts :
  _extract_chassis_model node sv = inr model -> _extract_manufacturer node sv = inr manufacturer ->
  let t := "CUSTOM_" +:+ chassis_trait_name manufacturer model in
  exists ts', run (ironic_store node.(node_id) broken) (chassis_model_hook node sv) tt (MkDb ps ts) = (inr tt, tt, MkDb ps ts') /\
    (forall x, x ∈ ts' <-> x = t \/ (x ∈ ts /\ startswith "CUSTOM_" x = false)) /\
    (forall x, _is_our_trait x = true -> x <> t -> x ∉ ts').
Proof.
  intros Hm Hv. cbn zeta. unfold chassis_model_hook. rewrite Hm, Hv. unfold mbind, prog_mbind. cbn [lift pbind].
  unfold set_chassis_traits, mbind, prog_mbind. rewrite run_bind, run_call. cbn [fst snd ironic_store db_traits].
  rewrite decide_True by done. eexists. split.
  { cbn beta iota. rewrite run_bind, run_call. cbn [ironic_store]. rewrite decide_True by done. cbn beta iota.
    rewrite run_call. cbn [ironic_store fst snd]. by rewrite decide_True. }
  assert (forall x, x ∈ required_chassis_traits "CUSTOM_" (elements ts) (chassis_trait_name manufacturer model) <->
    x = "CUSTOM_" +:+ chassis_trait_name manufacturer model \/ (x ∈ ts /\ startswith "CUSTOM_" x = false)) as Hx.
  { intros x. unfold required_chassis_traits. rewrite elem_of_union, elem_of_list_to_set, list_elem_of_filter,
      elem_of_elements, elem_of_singleton. naive_solver. }
  split; [exact Hx|]. intros x Hours Hne. rewrite Hx. apply our_trait_prefix in Hours. naive_solver congruence.
Qed.

Definition sample_vendor : system_vendor :=
  <["product_name" := "PowerEdge R7615 (SKU=NotProvided)"]> (<["manufacturer" := "Dell Inc."]> {["serial_number" := "ABC"]}).
Lemma chassis_hook_drops_switch_traits_witness :
  exists ts', run (ironic_store sample_node.(node_id) reliable) (chassis_model_hook sample_node sample_vendor) tt
      (MkDb [] {["CUSTOM_STORAGE_SWITCH"; "bar"]}) = (inr tt, tt, MkDb [] ts') /\
    "CUSTOM_STORAGE_SWITCH" ∉ ts' /\ "CUSTOM_DELL_POWEREDGE_R7615" ∈ ts'.
Proof.
  destruct (chassis_hook_drops_switch_traits reliable sample_node sample_vendor "PowerEdge R7615" "Dell" []
    {["CUSTOM_STORAGE_SWITCH"; "bar"]}) as (ts' & Hr & Hx & Ho); [by vm_compute|by vm_compute|].
  exists ts'. split; [exact Hr|]. split.
  - apply Ho; by vm_compute.
  - apply Hx. left. vm_compute. reflexivity.
Defined.

(** The name check compares with the manufacturer as reported, not with its short
    form: a node named by the convention of the documentation is refused. *)
Example node_name_check_raw_manufacturer :
  node_name_check sample_node sample_vendor = inl (RuntimeError ["n-uuid"; "Dell_ABC"; "Dell"; "ABC"]).
Proof. by vm_compute. Qed.
