(* ===== verification/Portgroup.v ===== *)
(** * Portgroup names

    Models [src/python/ironic-understack/ironic_understack/portgroup_name_middleware.py]:
    the WSGI middleware that refuses portgroup names from which undersync could
    not extract a port-channel number.  A request carries its body as
    [json.loads] reads it ([None]: not JSON); the response of the wrapped
    application is [Forward]. *)
From S2P Require Import Prelude PyStr PyData.
Local Open Scope Z_scope.

(** ** Names *)

(* portgroup_name_middleware.py:24-25 PORT_CHANNEL_MIN *)
Definition PORT_CHANNEL_MIN : Z := 100.
Definition PORT_CHANNEL_MAX : Z := 998.

Definition newline_char : ascii := ascii_of_nat 10.

(** [^.+-port-channel(\d+)], to the end of the text: the captured digits. *)
Definition match_to_end (s : string) : option string :=
  match rsplit_once "-"%char s with
  | Some (a, b) =>
      if startswith "channel" b && endswith "-port" a then
        let d := drop_str 7 b in
        let x := String.rev (drop_str 5 (String.rev a)) in
        if truthy d && str_all is_digit d && truthy x && negb (has_char newline_char x)
        then Some d else None
      else None
  | None => None
  end.
(** [$] also matches before a last newline. *)
(* portgroup_name_middleware.py:20-21 PORTGROUP_NAME_PATTERN *)
Definition PORTGROUP_NAME_PATTERN (s : string) : option string :=
  match match_to_end s with
  | Some d => Some d
  | None => if endswith (String newline_char "") s
            then match_to_end (String.rev (drop_str 1 (String.rev s))) else None
  end.

Inductive name_error : Type :=
| Empty | BadFormat (name : string) | BadNumber (name : string) (n : Z).

(** [None]: valid. *)
(* portgroup_name_middleware.py:28-53 validate_portgroup_name *)
Definition validate_portgroup_name (name : json) : res (option name_error) :=
  if negb (truthy name) then mret (Some Empty)
  else match name with
       | JStr s =>
           match PORTGROUP_NAME_PATTERN s with
           | None => mret (Some (BadFormat s))
           | Some d =>
               match py_int d with
               | None => Err (ValueError [d])
               | Some port_channel_num =>
                   if negb ((PORT_CHANNEL_MIN <=? port_channel_num) && (port_channel_num <=? PORT_CHANNEL_MAX))
                   then mret (Some (BadNumber s port_channel_num))
                   else mret None
               end
           end
       | _ => Err (TypeError ["expected string or bytes-like object"])
       end.

(** ** The middleware *)

Record request := MkRequest { method : string; path_info : string; body : option json }.
Inductive response := Forward | BadRequest (why : name_error).

(* portgroup_name_middleware.py:82-84 PortgroupNameValidationMiddleware._is_portgroup_request *)
Definition _is_portgroup_request (req : request) : bool := contains "/portgroups" req.(path_info).

Definition rstrip_slash : string -> string := rstrip_by (fun c => Ascii.eqb c "/"%char).
(** [^/v1/portgroups/[^/]+$]: [[^/]] matches a newline too, so [$] is the end. *)
(* portgroup_name_middleware.py:86-90 PortgroupNameValidationMiddleware._is_portgroup_patch *)
Definition _is_portgroup_patch (path : string) : bool :=
  let p := rstrip_slash path in
  startswith "/v1/portgroups/" p &&
  let rest := drop_str 15 p in truthy rest && negb (has_char "/"%char rest).

(* portgroup_name_middleware.py:92-106 PortgroupNameValidationMiddleware._validate_create *)
Definition _validate_create (req : request) : res response :=
  match req.(body) with
  | None => mret Forward
  | Some b =>
      name ← jget "name" b;
      verdict ← validate_portgroup_name name;
      match verdict with
      | Some error_msg => mret (BadRequest error_msg)
      | None => mret Forward
      end
  end.

(** [op.get("path") == "/name" and op.get("op") in ("add", "replace")] *)
Definition sets_name (op : json) : res bool :=
  path ← jget "path" op;
  match path with
  | JStr "/name" =>
      o ← jget "op" op;
      match o with JStr s => mret (bool_decide (s ∈ ["add"; "replace"])) | _ => mret false end
  | _ => mret false
  end.

(* portgroup_name_middleware.py:117-125 PortgroupNameValidationMiddleware._validate_patch *)
Fixpoint check_ops (ops : list json) : res response :=
  match ops with
  | [] => mret Forward
  | op :: ops =>
      b ← sets_name op;
      if (b : bool) then
        name ← jget "value" op;
        verdict ← validate_portgroup_name name;
        match verdict with
        | Some error_msg => mret (BadRequest error_msg)
        | None => check_ops ops
        end
      else check_ops ops
  end.

(* portgroup_name_middleware.py:108-127 PortgroupNameValidationMiddleware._validate_patch *)
Definition _validate_patch (req : request) : res response :=
  match req.(body) with
  | None => mret Forward
  | Some patch => ops ← jiter patch; check_ops ops
  end.

(* portgroup_name_middleware.py:66-80 PortgroupNameValidationMiddleware.__call__ *)
Definition middleware (req : request) : res response :=
  if negb (_is_portgroup_request req) then mret Forward
  else if bool_decide (req.(method) = "POST") && bool_decide (rstrip_slash req.(path_info) = "/v1/portgroups")
  then _validate_create req
  else if bool_decide (req.(method) = "PATCH") && _is_portgroup_patch req.(path_info)
  then _validate_patch req
  else mret Forward.

(** ** Specification *)

Definition decimal (d : string) : Z := default 0 (digits d).

(** A name from which undersync can extract a port-channel number in range. *)
Definition good_name (s : string) : Prop :=
  exists x d tail, s = x +:+ "-port-channel" +:+ d +:+ tail /\
    x <> "" /\ has_char newline_char x = false /\
    d <> "" /\ str_all is_digit d = true /\ (tail = "" \/ tail = String newline_char "") /\
    PORT_CHANNEL_MIN <= decimal d <= PORT_CHANNEL_MAX.

#[local] Arguments startswith : simpl never.
#[local] Arguments endswith : simpl never.

Lemma digits_go_total acc s : str_all is_digit s = true -> is_Some (digits_go acc s).
Proof.
  revert acc. induction s as [|c s IH]; intros acc; simpl; [done|].
  intros [Hc Hs]%andb_true_iff. unfold digit. rewrite Hc. by apply IH.
Qed.
Lemma py_int_decimal d : d <> "" -> str_all is_digit d = true -> py_int d = Some (decimal d).
Proof.
  intros Hd Ha. rewrite (py_int_digits d Ha). unfold decimal. destruct d as [|c d]; [done|].
  apply andb_true_iff in Ha as [Hc Ha]. simpl. unfold digit. rewrite Hc.
  by destruct (digits_go_total (Z.of_N (N_of_ascii c) - 48) d Ha) as [z ->].
Qed.

Lemma truthy_str_iff (s : string) : truthy s = true <-> s <> "".
Proof. by destruct s. Qed.

(** The end of a suffix split off by reversal. *)
Lemma drop_suffix p s : endswith p s = true ->
  s = String.rev (drop_str (String.length p) (String.rev s)) +:+ p.
Proof.
  intros [r ->]%endswith_spec. rewrite str_rev_app. f_equal.
  assert (String.length (String.rev p) = String.length p) as Hl.
  { clear. induction p as [|c p IH]; [done|]. rewrite str_rev_cons. simpl.
    rewrite <- IH. generalize (String.rev p) as q. induction q; simpl; congruence. }
  rewrite <- Hl, drop_str_app, str_rev_involutive. done.
Qed.

Lemma match_to_end_iff s d :
  match_to_end s = Some d <->
  exists x, s = x +:+ "-port-channel" +:+ d /\ x <> "" /\ has_char newline_char x = false /\
    d <> "" /\ str_all is_digit d = true.
Proof.
  unfold match_to_end. split.
  - destruct (rsplit_once "-" s) as [[a b]|] eqn:Hs; [|done]. apply rsplit_once_inv in Hs as [-> Hb].
    destruct (startswith "channel" b && endswith "-port" a) eqn:Hab; [|done].
    apply andb_true_iff in Hab as [Hb' Ha]. apply startswith_spec in Hb' as [r ->].
    change 7%nat with (String.length "channel"). rewrite drop_str_app.
    pose proof (drop_suffix _ _ Ha) as Hx. change (String.length "-port") with 5%nat in Hx.
    set (x := String.rev (drop_str 5 (String.rev a))) in *.
    destruct (truthy r && str_all is_digit r && truthy x && negb (has_char newline_char x)) eqn:Hc; [|done].
    rewrite !andb_true_iff, !truthy_str_iff, negb_true_iff in Hc. destruct Hc as [[[Hr Hd] Hx'] Hn].
    intros [= <-]. exists x. rewrite Hx. rewrite <- str_app_assoc. done.
  - intros (x & -> & Hx & Hn & Hd & Ha).
    replace (x +:+ "-port-channel" +:+ d) with ((x +:+ "-port") +:+ String "-" ("channel" +:+ d))
      by (by rewrite <- str_app_assoc).
    rewrite rsplit_once_app; [|by rewrite has_char_app, (str_all_no_char is_digit "-" d eq_refl Ha)].
    assert (startswith "channel" ("channel" +:+ d) = true) as -> by (apply startswith_spec; eauto).
    assert (endswith "-port" (x +:+ "-port") = true) as Hp by (apply endswith_spec; eauto).
    rewrite Hp. cbn [andb]. change 7%nat with (String.length "channel"). rewrite drop_str_app.
    pose proof (drop_suffix _ _ Hp) as Hs. change (String.length "-port") with 5%nat in Hs.
    rewrite str_rev_app in Hs |- *. change 5%nat with (String.length (String.rev "-port")) in Hs |- *.
    rewrite drop_str_app in Hs |- *. rewrite str_rev_involutive.
    apply truthy_str_iff in Hx as ->. apply truthy_str_iff in Hd as ->. by rewrite Ha, Hn.
Qed.

Lemma digits_no_newline_end d r : d <> "" -> str_all is_digit d = true ->
  endswith (String newline_char "") (r +:+ d) = false.
Proof.
  intros Hd Ha. apply not_true_iff_false. unfold endswith. rewrite str_rev_app.
  rewrite <- str_all_rev in Ha. assert (String.rev d <> "") as Hr.
  { intros He. apply Hd. by rewrite <- (str_rev_involutive d), He. }
  destruct (String.rev d) as [|c e]; [done|]. apply andb_true_iff in Ha as [Hc _].
  intros [t Ht]%startswith_spec. simpl in Ht. injection Ht as -> _. done.
Qed.

Lemma pattern_iff s d :
  PORTGROUP_NAME_PATTERN s = Some d <->
  exists x tail, s = x +:+ "-port-channel" +:+ d +:+ tail /\ x <> "" /\ has_char newline_char x = false /\
    d <> "" /\ str_all is_digit d = true /\ (tail = "" \/ tail = String newline_char "").
Proof.
  unfold PORTGROUP_NAME_PATTERN. split.
  - destruct (match_to_end s) as [d'|] eqn:Hm.
    + intros [= ->]. apply match_to_end_iff in Hm as (x & -> & Hx). exists x, "".
      rewrite str_app_nil_r. naive_solver.
    + destruct (endswith (String newline_char "") s) eqn:He; [|done].
      pose proof (drop_suffix _ _ He) as Hs. simpl String.length in Hs.
      intros (x & Hx & Hrest)%match_to_end_iff. exists x, (String newline_char ""). rewrite Hs, Hx.
      rewrite <- !str_app_assoc. naive_solver.
  - intros (x & tail & -> & Hx & Hn & Hd & Ha & [-> | ->]).
    + rewrite str_app_nil_r.
      assert (match_to_end (x +:+ "-port-channel" +:+ d) = Some d) as -> by (apply match_to_end_iff; eauto 10). done.
    + set (s := x +:+ "-port-channel" +:+ d +:+ String newline_char "").
      assert (s = (x +:+ "-port-channel" +:+ d) +:+ String newline_char "") as Hs
        by (unfold s; by rewrite <- !str_app_assoc).
      destruct (match_to_end s) as [d'|] eqn:Hm.
      { apply match_to_end_iff in Hm as (x' & Hs' & _ & _ & Hd' & Ha').
        exfalso. assert (endswith (String newline_char "") s = true) as He by (apply endswith_spec; eauto).
        rewrite Hs', str_app_assoc, digits_no_newline_end in He by done. done. }
      rewrite Hs. assert (endswith (String newline_char "") ((x +:+ "-port-channel" +:+ d) +:+ String newline_char "") = true)
        as -> by (apply endswith_spec; eauto).
      rewrite str_rev_app. change 1%nat with (String.length (String.rev (String newline_char ""))).
      rewrite drop_str_app, str_rev_involutive. apply match_to_end_iff. eauto 10.
Qed.

Lemma validate_iff name :
  validate_portgroup_name name = inr None <-> exists s, name = JStr s /\ good_name s.
Proof.
  unfold validate_portgroup_name. destruct (truthy name) eqn:Ht; cbn [negb].
  2: { split; [done|]. intros (s & -> & x & d & tail & -> & Hx & _). by destruct x. }
  destruct name as [| | |s| |]; try (split; [done|by intros (? & ? & _)]).
  destruct (PORTGROUP_NAME_PATTERN s) as [d|] eqn:Hp.
  - apply pattern_iff in Hp as (x & tail & Hs & Hx & Hn & Hd & Ha & Ht').
    rewrite (py_int_decimal d Hd Ha). destruct (_ && _) eqn:Hr; cbn [negb].
    + rewrite andb_true_iff, !Z.leb_le in Hr. split; [|done]. intros _. exists s. split; [done|].
      exists x, d, tail. naive_solver.
    + apply not_true_iff_false in Hr. rewrite andb_true_iff, !Z.leb_le in Hr. split; [done|].
      intros (s' & [= <-] & x' & d' & tail' & Hs' & Hx' & Hn' & Hd' & Ha' & Ht2 & Hrange). destruct Hr.
      assert (PORTGROUP_NAME_PATTERN s = Some d) as H1 by (apply pattern_iff; eauto 10).
      assert (PORTGROUP_NAME_PATTERN s = Some d') as H2 by (apply pattern_iff; eauto 10). congruence.
  - split; [done|]. intros (s' & [= <-] & x' & d' & tail' & Hs' & Hx' & Hn' & Hd' & Ha' & Ht2 & _).
    assert (PORTGROUP_NAME_PATTERN s = Some d') as H2 by (apply pattern_iff; eauto 10). congruence.
Qed.

(** The names a patch sets: the values of its add and replace operations on [/name]. *)
Definition name_ops (ops : list json) : list json := filter (fun op => sets_name op = inr true) ops.

Lemma check_ops_iff ops :
  Forall (fun op => exists d, op = JObj d) ops ->
  check_ops ops = inr Forward <->
  forall op, op ∈ name_ops ops -> exists s, jget "value" op = inr (JStr s) /\ good_name s.
Proof.
  induction 1 as [|op ops [d ->] _ IH]; [by split; [intros _ op Hop; apply elem_of_nil in Hop|]|].
  cbn [check_ops]. unfold name_ops. rewrite filter_cons.
  destruct (sets_name (JObj d)) as [e|[]] eqn:Hs; cbn [mbind res_mbind].
  - exfalso. cbn in Hs. destruct (default JNull (dict_get "path" d)) as [| | |s| |]; try done.
    repeat (case_match; try done).
  - rewrite decide_True by done. cbn [jget mbind res_mbind].
    pose proof (validate_iff (default JNull (dict_get "value" d))) as Hv.
    destruct (validate_portgroup_name (default JNull (dict_get "value" d))) as [e|[err|]]; cbn [mbind res_mbind].
    1, 2: split; [done|]; intros Hall; destruct (Hall (JObj d)) as (s & [= Hj] & Hg); [left|];
      assert (_ = inr None) as Hbad by (apply Hv; eauto); done.
    rewrite IH. destruct (proj1 Hv eq_refl) as (s & Hj & Hg). split.
    + intros Hall op [->|Hop]%elem_of_cons; [exists s; by rewrite <- Hj|by apply Hall].
    + intros Hall op Hop. apply Hall. by right.
  - rewrite decide_False by congruence. exact IH.
Qed.

(** The middleware lets a request through to Ironic exactly as intended: a
    create with an object body exactly when its name is
    [<something>-port-channel<digits>] with a number from 100 to 998; a patch made
    of operation objects exactly when every name it adds or replaces is such a
    name; a malformed body, and every request that is not one of the two,
    always. *)
Theorem middleware_forwards_iff req :
  _is_portgroup_request req = true ->
  (req.(method) = "POST" -> rstrip_slash req.(path_info) = "/v1/portgroups" ->
     (req.(body) = None -> middleware req = inr Forward) /\
     (forall d, req.(body) = Some (JObj d) ->
        (middleware req = inr Forward <-> exists s, dict_get "name" d = Some (JStr s) /\ good_name s))) /\
  (req.(method) = "PATCH" -> _is_portgroup_patch req.(path_info) = true ->
     (req.(body) = None -> middleware req = inr Forward) /\
     (forall ops, req.(body) = Some (JArr ops) -> Forall (fun op => exists d, op = JObj d) ops ->
        (middleware req = inr Forward <->
         forall op, op ∈ name_ops ops -> exists s, jget "value" op = inr (JStr s) /\ good_name s))) /\
  (req.(method) <> "POST" -> req.(method) <> "PATCH" -> middleware req = inr Forward).
Proof.
  intros Hp. unfold middleware. rewrite Hp. cbn [negb]. split; [|split].
  - intros Hm Hpath. rewrite !bool_decide_eq_true_2 by done. cbn [andb]. unfold _validate_create.
    split; [by intros ->|]. intros d ->. cbn [jget mbind res_mbind].
    pose proof (validate_iff (default JNull (dict_get "name" d))) as Hv.
    assert ((exists s, dict_get "name" d = Some (JStr s) /\ good_name s) <->
            (exists s, default JNull (dict_get "name" d) = JStr s /\ good_name s)) as ->.
    { destruct (dict_get "name" d); naive_solver. }
    rewrite <- Hv. destruct (validate_portgroup_name _) as [e|[err|]]; by split.
  - intros Hm Hpatch. rewrite (bool_decide_eq_false_2 (method req = "POST")) by (by rewrite Hm). cbn [andb].
    rewrite (bool_decide_eq_true_2 (method req = "PATCH")) by done. rewrite Hpatch. cbn [andb]. unfold _validate_patch.
    split; [by intros ->|]. intros ops -> Hops. cbn [jiter mbind res_mbind]. by apply check_ops_iff.
  - intros H1 H2. rewrite (bool_decide_eq_false_2 (method req = "POST")) by done. cbn [andb].
    by rewrite (bool_decide_eq_false_2 (method req = "PATCH")).
Qed.

Lemma middleware_forwards_iff_witness :
  middleware (MkRequest "POST" "/v1/portgroups/" (Some (JObj [("name", JStr "server01-port-channel100")]))) = inr Forward /\
  middleware (MkRequest "POST" "/v1/portgroups/" (Some (JObj [("name", JStr "server01-port-channel999")])))
    = inr (BadRequest (BadNumber "server01-port-channel999" 999)).
Proof.
  split; [|by vm_compute].
  destruct (middleware_forwards_iff
    (MkRequest "POST" "/v1/portgroups/" (Some (JObj [("name", JStr "server01-port-channel100")]))) eq_refl) as [Hpost _].
  destruct (Hpost eq_refl ltac:(vm_compute; reflexivity)) as [_ Hobj].
  apply (Hobj [("name", JStr "server01-port-channel100")] eq_refl).
  exists "server01-port-channel100". split; [done|]. exists "server01", "100", "".
  repeat split; try done. by left.
Defined.
