(* ===== verification/IronicNode.v ===== *)
(** * Ironic nodes as the workflows drive them

    Models, under [src/python/understack-workflows/understack_workflows/]:
    [ironic_node.py] and the [IronicClient] wrapper of [ironic/client.py] it
    calls.  A request to the Ironic API is a third-party call ([IronicAPI]); the
    wrapper's methods log and pass the request on.  [args_array_to_patch] is
    third-party code, so a node patch is carried as the [key=value] texts given
    to it. *)
From S2P Require Import Prelude PyStr PyData.

(** ** Data *)

(** A metadata value: the integers, texts and flags that the callers give. *)
Inductive scalar : Type := SInt (z : Z) | SStr (s : string) | SBool (b : bool).
#[export] Instance scalar_eq_dec : EqDecision scalar.
Proof. solve_decision. Defined.
#[export] Instance truthy_scalar : Truthy scalar := fun v =>
  match v with SInt z => truthy z | SStr s => truthy s | SBool b => b end.
(** [str(v)] *)
Definition scalar_text (v : scalar) : string := 
  match v with SInt z => pretty z | SStr s => s | SBool b => if b then "True" else "False" end.

Record Node := MkNode {
  node_uuid : string; driver : string; provision_state : string;
  resource_class : option string; driver_info : option (dict scalar); node_extra : option (dict scalar);
  inspect_interface : option string;
}.
Abbreviation llc_t := (gmap string string).
Record Port := MkPort {
  port_uuid : string; port_address : option string; port_name : option string;
  port_physical_network : option string; port_category : option string;
  port_llc : option llc_t; port_pxe_enabled : bool; port_extra : gmap string string;
}.

(** The body of a node creation request. *)
Record node_data_t := NodeData {
  nd_name : string; nd_driver : string; nd_automated_clean : option bool;
  nd_resource_class : option string; nd_driver_info : option (dict scalar); nd_extra : option (dict scalar);
  nd_boot_interface : option string; nd_deploy_interface : option string; nd_inspect_interface : option string;
}.
Record port_data_t := PortData {
  pd_address : string; pd_category : string; pd_llc : llc_t;
  pd_name : string; pd_node_uuid : string; pd_physical_network : string;
}.
(** One operation of a port patch, [{"op": "add", "path": ..., "value": ...}]. *)
Inductive port_patch : Type :=
| SetAddress (v : string) | SetPhysicalNetwork (v : string) | SetCategory (v : string) | SetLlc (v : llc_t).

Record inventory_if := InvIf { inv_name : option string; inv_mac : option string; inv_speed : option Z }.

Inductive IronicAPI : Type -> Type :=
| NodeGet (ident : string) (fields : option (list string)) : IronicAPI Node
| NodeCreate (d : node_data_t) : IronicAPI Node
| NodeUpdateAdd (uuid : string) (updates : list string) : IronicAPI unit
| NodeUpdateRemove (uuid : string) (attributes : list string) : IronicAPI unit
| NodeSetProvisionState (uuid target : string) (clean_steps : option json) (runbook : option string)
    (disable_ramdisk : option bool) : IronicAPI unit
| NodeWaitProvisionState (uuid expected : string) (timeout : Z) : IronicAPI unit
| NodeSetTargetRaid (uuid : string) (config : json) : IronicAPI unit
| NodeGetTraits (uuid : string) : IronicAPI (list string)
| NodeGetInventory (ident : string) : IronicAPI (option (list inventory_if))
| RunbookGet (ident : string) : IronicAPI string
| PortList (node : string) : IronicAPI (list Port)
| PortCreate (d : port_data_t) : IronicAPI Port
| PortUpdate (uuid : string) (patch : list port_patch) : IronicAPI unit.

Abbreviation flow A := (prog unit IronicAPI A).

Definition NotFound (e : exn) : bool := bool_decide (e.(exn_cls) = "NotFound").

(** ** Provision states *)

(* understack_workflows/ironic_node.py:24-26 NODE_STATE_TIMEOUT_SECS *)
Definition NODE_STATE_TIMEOUT_SECS : Z := (90 * 60)%Z.

(* understack_workflows/ironic_node.py:184-210 transition *)
Definition transition_with (node : Node) (target_state : string) (expected_state : option string)
    (clean_steps : option json) (runbook : option string) (disable_ramdisk : option bool) : flow unit :=
  _ ← call (NodeSetProvisionState node.(node_uuid) target_state clean_steps runbook disable_ramdisk);
  match expected_state with
  | Some s => if (truthy s : bool) then call (NodeWaitProvisionState node.(node_uuid) s NODE_STATE_TIMEOUT_SECS)
              else mret tt
  | None => mret tt
  end.
(** With the defaults of the other arguments. *)
Definition transition (node : Node) (target_state expected_state : string) : flow unit :=
  transition_with node target_state (Some expected_state) None None None.

(* understack_workflows/ironic_node.py:213-217 patch *)
Definition patch (node : Node) (updates : list string) : flow unit :=
  if negb (truthy updates) then mret tt else call (NodeUpdateAdd node.(node_uuid) updates).

(* understack_workflows/ironic_node.py:220-221 set_target_raid_config *)
Definition set_target_raid_config (node : Node) (raid_config : json) : flow unit :=
  call (NodeSetTargetRaid node.(node_uuid) raid_config).

(* understack_workflows/ironic_node.py:224-229 inspect_out_of_band *)
Definition inspect_out_of_band (node : Node) : flow unit :=
  _ ← call (NodeUpdateRemove node.(node_uuid) ["inspect_interface"]);
  transition node "inspect" "manageable".

(* understack_workflows/ironic_node.py:336-337 refresh *)
Definition refresh (node : Node) (fields : option (list string)) : flow Node :=
  call (NodeGet node.(node_uuid) fields).

(* understack_workflows/ironic_node.py:293-303 inspect *)
Definition inspect (node : Node) (interface : string) : flow unit :=
  refreshed_node ← refresh node (Some ["inspect_interface"]);
  _ ← (if decide (refreshed_node.(inspect_interface) = Some interface) then mret tt
       else patch node ["inspect_interface=" +:+ interface]);
  transition node "inspect" "manageable".

(** ** Interfaces *)

(* understack_workflows/ironic_node.py:29-33 NodeInterface *)
Record NodeInterface := MkNodeInterface { ni_name : string; ni_mac : string; ni_speed : Z }.

(* understack_workflows/ironic_node.py:237-248 get_node_interfaces *)
Definition get_node_interfaces (node : Node) : flow (list NodeInterface) :=
  interfaces_raw ← call (NodeGetInventory node.(node_uuid));
  lift (res_map (fun i =>
    n ← match i.(inv_name) with Some n => mret n | None => Err (KeyError "name") end;
    m ← match i.(inv_mac) with Some m => mret m | None => Err (KeyError "mac_address") end;
    mret (MkNodeInterface n m (default 0%Z i.(inv_speed)))) (default [] interfaces_raw)).

(** [port.extra.get("bios_name")], truthy. *)
Definition bios_name (p : Port) : option string :=
  match p.(port_extra) !! "bios_name" with
  | Some n => if truthy n then Some n else None
  | None => None
  end.
(* understack_workflows/ironic_node.py:268-274 pxe_enabled_bios_name *)
Fixpoint first_pxe_name (ports : list Port) : option string :=
  match ports with
  | [] => None
  | p :: ports =>
      match bios_name p with
      | Some n => if p.(port_pxe_enabled) && negb (bool_decide (p.(port_physical_network) = Some "enrol"))
                  then Some n else first_pxe_name ports
      | None => first_pxe_name ports
      end
  end.
(* understack_workflows/ironic_node.py:251-274 pxe_enabled_bios_name *)
Definition pxe_enabled_bios_name (node : Node) : flow (option string) :=
  ports ← call (PortList node.(node_uuid)); mret (first_pxe_name ports).

(** [parsed_lldp]: per interface, its [switch_port_id] when it has one. *)
(* understack_workflows/ironic_node.py:277-290 get_lldp_connected_interfaces *)
Definition get_lldp_connected_interfaces (interfaces : list NodeInterface)
    (parsed_lldp : dict (option string)) : list NodeInterface :=
  filter (fun i => default None (dict_get i.(ni_name) parsed_lldp) ∉ [None; Some "Not Available"]) interfaces.

(** ** Firmware updates *)

(* understack_workflows/ironic_node.py:12-12 FIRMWARE_UPDATE_TRAIT_PREFIX *)
Definition FIRMWARE_UPDATE_TRAIT_PREFIX : string := "CUSTOM_FIRMWARE_UPDATE_".

(* understack_workflows/ironic_node.py:328-333 firmware_trait_sort_key *)
Definition firmware_trait_sort_key (trait : string) : Z * string :=
  let parts := split "_"%char trait in
  let order := if (3 <? length parts)%nat then default "" (parts !! 3%nat) else "" in
  if truthy order && str_all is_digit order then (default 0%Z (py_int order), trait)
  else ((10 ^ 9)%Z, trait).

(** Python's order on such pairs. *)
Definition key_le (a b : Z * string) : Prop :=
  (a.1 < b.1)%Z \/ (a.1 = b.1 /\ String.leb a.2 b.2 = true).
#[export] Instance key_le_dec : RelDecision key_le.
Proof. intros a b. unfold key_le. apply _. Defined.
Definition trait_le (a b : string) : Prop := key_le (firmware_trait_sort_key a) (firmware_trait_sort_key b).
#[export] Instance trait_le_dec : RelDecision trait_le.
Proof. intros a b. unfold trait_le. apply _. Defined.

(* understack_workflows/ironic_node.py:306-325 apply_firmware_updates *)
Definition apply_firmware_updates (node : Node) : flow unit :=
  traits ← call (NodeGetTraits node.(node_uuid));
  let update_traits :=
    merge_sort trait_le (filter (fun t => startswith FIRMWARE_UPDATE_TRAIT_PREFIX t = true) traits) in
  if negb (truthy update_traits) then mret tt
  else for_each update_traits (fun trait =>
    runbook ← call (RunbookGet trait);
    transition_with node "clean" (Some "manageable") None (Some runbook) None).

(** ** Enrolling a server *)

Record Bmc := MkBmc { bmc_url : string; bmc_username : string; bmc_password : string }.

(* understack_workflows/ironic_node.py:36-36 ENROLLABLE_STATES *)
Definition ENROLLABLE_STATES : list string := ["clean failed"; "inspect failed"; "enroll"; "manageable"].
(* understack_workflows/ironic_node.py:14-14 STEADY_STATE_BOOT_INTERFACE *)
Definition STEADY_STATE_BOOT_INTERFACE : string := "http-ipxe".

(* understack_workflows/ironic_node.py:166-171 _driver_for *)
Definition _driver_for (manufacturer : string) : string * string :=
  if startswith "Dell" manufacturer then ("idrac", "idrac-redfish") else ("redfish", "redfish").

(* understack_workflows/ironic_node.py:16-22 _VIRTUAL_MEDIA_BOOT_INTERFACE *)
Definition _VIRTUAL_MEDIA_BOOT_INTERFACE : dict string :=
  [("idrac", "idrac-redfish-virtual-media"); ("redfish", "redfish-virtual-media");
   ("ilo", "ilo-virtual-media"); ("ilo5", "ilo-virtual-media"); ("fake-hardware", "fake")].
(* understack_workflows/ironic_node.py:174-181 virtual_media_boot_interface_for *)
Definition virtual_media_boot_interface_for (driver : string) : res string :=
  match dict_get driver _VIRTUAL_MEDIA_BOOT_INTERFACE with
  | Some i => mret i
  | None => Err (ValueError [driver])
  end.

(* understack_workflows/ironic_node.py:106-133 update_ironic_node *)
Definition update_ironic_node (bmc : Bmc) (node : Node) (name driver inspect_interface : string)
    (external_cmdb_id : option scalar) : flow unit :=
  let updates :=
    ["name=" +:+ name; "driver=" +:+ driver;
     "driver_info/redfish_address=" +:+ bmc.(bmc_url);
     "driver_info/redfish_verify_ca=false";
     "driver_info/redfish_username=" +:+ bmc.(bmc_username);
     "driver_info/redfish_password=" +:+ bmc.(bmc_password);
     "boot_interface=" +:+ STEADY_STATE_BOOT_INTERFACE;
     "inspect_interface=" +:+ inspect_interface] ++
    match external_cmdb_id with
    | Some v => if truthy v then ["extra/external_cmdb_id=" +:+ scalar_text v] else []
    | None => []
    end in
  call (NodeUpdateAdd node.(node_uuid) updates).

(* understack_workflows/ironic_node.py:136-163 create_ironic_node *)
Definition create_ironic_node (bmc : Bmc) (name driver inspect_interface : string)
    (external_cmdb_id : option scalar) : flow Node :=
  call (NodeCreate (NodeData name driver None
    (if decide (driver = "fake-hardware") then Some "fakehw" else None)
    (Some [("redfish_address", SStr bmc.(bmc_url)); ("redfish_verify_ca", SBool false);
           ("redfish_username", SStr bmc.(bmc_username)); ("redfish_password", SStr bmc.(bmc_password))])
    (match external_cmdb_id with
     | Some v => if truthy v then Some [("external_cmdb_id", v)] else None
     | None => None end)
    (Some STEADY_STATE_BOOT_INTERFACE) (Some "direct") (Some inspect_interface))).

(* understack_workflows/ironic_node.py:90-101 create_or_update *)
Definition create_if_missing (bmc : Bmc) (name driver inspect_interface : string)
    (external_cmdb_id : option scalar) (e : exn) : flow Node :=
  if NotFound e then
    node ← create_ironic_node bmc name driver inspect_interface external_cmdb_id;
    _ ← transition node "manage" "manageable";
    mret node
  else Raise e.

(* understack_workflows/ironic_node.py:41-103 create_or_update *)
Definition create_or_update (bmc : Bmc) (name manufacturer : string) (external_cmdb_id : option scalar)
    : flow Node :=
  let '(driver, inspect_interface) := _driver_for manufacturer in
  try_except
    (node ← call (NodeGet name None);
     _ ← (if decide (node.(provision_state) ∈ ENROLLABLE_STATES) then mret tt
          else Raise (PlainException [node.(node_uuid); node.(provision_state)]));
     _ ← (if decide (node.(provision_state) = "manageable") then mret tt
          else transition node "manage" "manageable");
     _ ← update_ironic_node bmc node name driver inspect_interface external_cmdb_id;
     mret node)
    (create_if_missing bmc name driver inspect_interface external_cmdb_id).

(** ** Firmware updates: order and stopping *)

#[export] Instance trait_le_total : Total trait_le.
Proof.
  intros a b. unfold trait_le, key_le.
  destruct (Z.lt_trichotomy (firmware_trait_sort_key a).1 (firmware_trait_sort_key b).1) as [H|[H|H]]; [by auto| |by auto].
  rewrite H. destruct (String.leb_total (firmware_trait_sort_key a).2 (firmware_trait_sort_key b).2); auto.
Qed.

Abbreviation log := (list (event IronicAPI)).

(** A call with an arbitrary answer, recorded in the trace. *)
Ltac wp_logged r :=
  let s := fresh "s" in let H := fresh "H" in
  apply wp_call; intros r s H; unfold step_trace in H; subst s; wp_simp.

Definition clean_request (node : Node) (runbook : string) : IronicAPI unit :=
  NodeSetProvisionState node.(node_uuid) "clean" None (Some runbook) None.
Definition await (node : Node) (state : string) : IronicAPI unit :=
  NodeWaitProvisionState node.(node_uuid) state NODE_STATE_TIMEOUT_SECS.

(** The calls made for a list of update traits, and the outcome: one trait after
    the other, each with its runbook, the node being manageable again before the
    next one; the first call that fails is the last one. *)
Inductive updates_ran (node : Node) : list string -> log -> res unit -> Prop :=
| ran_all : updates_ran node [] [] (inr tt)
| ran_one t rb ts tail r :
    updates_ran node ts tail r ->
    updates_ran node (t :: ts)
      (Ev (RunbookGet t) (inr rb) :: Ev (clean_request node rb) (inr tt) :: Ev (await node "manageable") (inr tt) :: tail) r
| ran_no_runbook t ts e : updates_ran node (t :: ts) [Ev (RunbookGet t) (inl e)] (inl e)
| ran_refused t rb ts e :
    updates_ran node (t :: ts) [Ev (RunbookGet t) (inr rb); Ev (clean_request node rb) (inl e)] (inl e)
| ran_stuck t rb ts e :
    updates_ran node (t :: ts) [Ev (RunbookGet t) (inr rb); Ev (clean_request node rb) (inr tt);
      Ev (await node "manageable") (inl e)] (inl e).

Lemma updates_loop node ts tr :
  wp step_trace (for_each ts (fun trait =>
      runbook ← call (RunbookGet trait);
      transition_with node "clean" (Some "manageable") None (Some runbook) None))
    (fun r _ tr' => exists tail, tr' = tr ++ tail /\ updates_ran node ts tail r) tt tr.
Proof.
  revert tr. induction ts as [|t ts IH]; intros tr.
  { apply wp_mret. exists []. rewrite app_nil_r. split; [done|constructor]. }
  apply wp_for_each_cons. wp_pure. wp_logged rb. destruct rb as [e|rb].
  { exists [Ev (RunbookGet t) (inl e)]. split; [done|constructor]. }
  unfold transition_with. wp_pure. wp_logged a. destruct a as [e|[]].
  { eexists. rewrite <- app_assoc. split; [done|apply ran_refused]. }
  change (truthy "manageable") with true. wp_simp. wp_logged w. destruct w as [e|[]].
  { eexists. rewrite <- !app_assoc. split; [done|apply ran_stuck]. }
  eapply wp_mono; [|apply IH]. intros r _ tr' (tail & -> & Hran). eexists. rewrite <- !app_assoc.
  split; [done|by apply ran_one].
Qed.

(** Firmware updates: exactly the traits with the update prefix, in the order
    of their number (an unnumbered trait after all numbers below 10^9), run one at
    a time, each waiting for the node to be manageable again; the first failure
    ends the workflow and is its outcome. *)
Theorem apply_firmware_updates_spec node :
  every_run (apply_firmware_updates node) tt (fun r _ tr =>
    exists answer tail, tr = Ev (NodeGetTraits node.(node_uuid)) answer :: tail /\
      match answer with
      | inl e => r = inl e /\ tail = []
      | inr traits => exists ts,
          Sorted trait_le ts /\
          ts ≡ₚ filter (fun t => startswith FIRMWARE_UPDATE_TRAIT_PREFIX t = true) traits /\
          updates_ran node ts tail r
      end).
Proof.
  unfold every_run, apply_firmware_updates. wp_pure. wp_logged ans. destruct ans as [e|traits]; [by do 2 eexists; split|].
  set (ts := merge_sort trait_le _).
  assert (Sorted trait_le ts) as Hs by apply Sorted_merge_sort, _.
  assert (ts ≡ₚ filter (fun t => startswith FIRMWARE_UPDATE_TRAIT_PREFIX t = true) traits) as Hp
    by apply merge_sort_Permutation.
  destruct ts as [|t ts'] eqn:Ht; cbn [truthy truthy_list negb].
  { apply wp_mret. do 2 eexists. split; [done|]. exists []. split; [done|split; [done|constructor]]. }
  eapply wp_mono; [|apply updates_loop]. intros r _ tr' (tail & -> & Hran). do 2 eexists. split; [done|].
  exists (t :: ts'). done.
Qed.

(** Unnumbered traits come last. *)
Example firmware_order :
  merge_sort trait_le ["CUSTOM_FIRMWARE_UPDATE_BIOS"; "CUSTOM_FIRMWARE_UPDATE_10_NIC"; "CUSTOM_FIRMWARE_UPDATE_9_BMC"]
  = ["CUSTOM_FIRMWARE_UPDATE_9_BMC"; "CUSTOM_FIRMWARE_UPDATE_10_NIC"; "CUSTOM_FIRMWARE_UPDATE_BIOS"].
Proof. by vm_compute. Qed.

(** ** Enrolling leaves a manageable node *)

(** The run brought [node] to a state: asked for it and saw it reached. *)
Definition reached (node : Node) (target state : string) (tr : log) : Prop :=
  exists pre post, tr = pre ++ Ev (NodeSetProvisionState node.(node_uuid) target None None None) (inr tt)
                           :: Ev (await node state) (inr tt) :: post.

Definition creates (ev : event IronicAPI) : bool :=
  match ev with Ev op _ => match op with NodeCreate _ => true | _ => false end end.
Definition said_not_found (ev : event IronicAPI) : bool :=
  match ev with Ev _ a => match a with inl e => NotFound e | inr _ => false end end.

Lemma wp_transition node target state tr (Q : res unit -> unit -> log -> Prop) :
  truthy state = true ->
  (forall e, Q (inl e) tt (tr ++ [Ev (NodeSetProvisionState node.(node_uuid) target None None None) (inl e)])) ->
  (forall a, Q a tt (tr ++ [Ev (NodeSetProvisionState node.(node_uuid) target None None None) (inr tt);
                            Ev (await node state) a])) ->
  wp step_trace (transition node target state) Q tt tr.
Proof.
  intros Hs Hfail Hok. unfold transition, transition_with. wp_pure. wp_logged a.
  destruct a as [e|[]]; [apply Hfail|]. rewrite Hs. wp_simp. wp_logged w. rewrite <- app_assoc. apply Hok.
Qed.

(** The answer of a call that asks for a node. *)
Definition node_answer (ev : event IronicAPI) : option (res Node) :=
  match ev with
  | @Ev _ R op a => match op in IronicAPI R return res R -> option (res Node) with
                    | NodeGet _ _ => Some
                    | _ => fun _ => None
                    end a
  end.
Definition first_answer (tr : log) : option (res Node) := head tr ≫= node_answer.

(** What a run that enrols a server leaves. *)
Record enrolled (r : res Node) (tr : log) : Prop := {
  (* a node in use is refused and not touched *)
  enrolled_busy : forall node, first_answer tr = Some (inr node) ->
    node.(provision_state) ∉ ENROLLABLE_STATES ->
    r = inl (PlainException [node.(node_uuid); node.(provision_state)]) /\ length tr = 1;
  (* success: the node is, or was brought, manageable *)
  enrolled_ok : forall node, r = inr node ->
    (first_answer tr = Some (inr node) /\ node.(provision_state) = "manageable")
    \/ reached node "manage" "manageable" tr;
  (* a node is created only after Ironic answered that something was not found *)
  enrolled_created : existsb creates tr = true -> existsb said_not_found tr = true;
}.

(** The part that handles a missing node: it creates one and brings it up. *)
Lemma wp_create_missing bmc name drv insp cmdb tr :
  tr <> [] ->
  existsb said_not_found tr = true ->
  (forall node, first_answer tr = Some (inr node) -> node.(provision_state) ∈ ENROLLABLE_STATES) ->
  wp step_trace (node ← create_ironic_node bmc name drv insp cmdb;
                 _ ← transition node "manage" "manageable"; mret node)
    (fun r _ tr' => enrolled r tr') tt tr.
Proof.
  intros Hne Hnf Hst.
  assert (forall r tail, (forall node, r = inr node -> reached node "manage" "manageable" (tr ++ tail)) ->
    enrolled r (tr ++ tail)) as Hdone.
  { intros r tail Hr. assert (first_answer (tr ++ tail) = first_answer tr) as Hf by (by destruct tr). split.
    - intros node. rewrite Hf. intros H Hn. by destruct (Hn (Hst node H)).
    - intros node H. right. by apply Hr.
    - intros _. by rewrite existsb_app, Hnf. }
  unfold create_ironic_node. wp_pure. wp_logged c. destruct c as [e|node]; [by apply Hdone|].
  wp_pure. apply wp_transition; [done| |].
  - intros e. rewrite <- app_assoc. by apply Hdone.
  - intros [e|[]]; [rewrite <- app_assoc; by apply Hdone|]. wp_pure. rewrite <- app_assoc. apply Hdone.
    intros node' [= <-]. eexists (tr ++ _), []. by rewrite <- app_assoc.
Qed.

Section enrolling.
Context (bmc : Bmc) (name drv insp : string) (cmdb : option scalar) (node : Node).
Hypothesis enrollable : node.(provision_state) ∈ ENROLLABLE_STATES.

(** A trace of a run that found [node] and has created nothing. *)
Definition found (tr : log) : Prop :=
  (exists tail, tr = Ev (NodeGet name None) (inr node) :: tail) /\ existsb creates tr = false.

Lemma found_app tr ev : found tr -> creates ev = false -> found (tr ++ [ev]).
Proof.
  intros [[tail ->] Hc] Hev. split; [by eexists|]. rewrite existsb_app, Hc. simpl. by rewrite Hev.
Qed.

Lemma wp_found_failed e tr :
  found tr -> (NotFound e = true -> existsb said_not_found tr = true) ->
  wp step_trace (create_if_missing bmc name drv insp cmdb e) (fun r _ tr' => enrolled r tr') tt tr.
Proof.
  intros [[tail ->] Hc] Hnf. unfold create_if_missing. destruct (NotFound e).
  - apply wp_create_missing; [done|by apply Hnf|]. by intros node' [= <-].
  - apply wp_raise. split; [|done|congruence]. by intros node' [= <-].
Qed.

Lemma said_last {R} (op : IronicAPI R) e tr :
  NotFound e = true -> existsb said_not_found (tr ++ [Ev op (inl e)]) = true.
Proof. intros He. rewrite existsb_app. simpl. by rewrite He, orb_true_r. Qed.

Lemma wp_found_update tr :
  found tr -> node.(provision_state) = "manageable" \/ reached node "manage" "manageable" tr ->
  wp step_trace (_ ← update_ironic_node bmc node name drv insp cmdb; mret node)
    (fun r g tr' => match r with
       | inl e => wp step_trace (create_if_missing bmc name drv insp cmdb e) (fun r _ tr' => enrolled r tr') g tr'
       | inr n => enrolled (inr n) tr' end) tt tr.
Proof.
  intros Hf Hm. unfold update_ironic_node. wp_pure. wp_logged u. destruct u as [e|[]].
  - apply wp_found_failed; [by apply found_app|apply said_last].
  - wp_pure. destruct Hf as [[tail ->] Hc]. split; [by intros node' [= <-]| |].
    + intros node' [= <-]. destruct Hm as [Hm|(pre & post & Hr)]; [by left|]. right.
      exists pre. eexists. rewrite Hr, <- app_assoc. cbn [app]. reflexivity.
    + rewrite existsb_app, Hc. done.
Qed.

Lemma wp_found :
  wp step_trace
    (_ ← (if decide (node.(provision_state) = "manageable") then mret tt
          else transition node "manage" "manageable");
     _ ← update_ironic_node bmc node name drv insp cmdb; mret node)
    (fun r g tr' => match r with
       | inl e => wp step_trace (create_if_missing bmc name drv insp cmdb e) (fun r _ tr' => enrolled r tr') g tr'
       | inr n => enrolled (inr n) tr' end) tt [Ev (NodeGet name None) (inr node)].
Proof.
  assert (found [Ev (NodeGet name None) (inr node)]) as Hf by (split; [by eexists|done]).
  wp_pure. destruct (decide (provision_state node = "manageable")) as [Hm|Hm].
  - wp_pure. apply wp_found_update; [done|by left].
  - apply wp_transition; [done| |].
    + intros e. apply wp_found_failed; [by apply found_app|apply said_last].
    + intros [e|[]].
      * apply wp_found_failed; [|apply (said_last _ _ [_; _])].
        apply (found_app [_; _]); [by apply (found_app [_])|done].
      * apply wp_found_update; [apply (found_app [_; _]); [by apply (found_app [_])|done]|].
        right. by eexists [_], [].
Qed.

End enrolling.

(** Enrolling a server, on every run: a node whose provision state is not one of
    the enrollable ones is refused after the look-up alone; a node is created only
    when Ironic reported one missing; and a successful enrolment returns a node
    that already was manageable or that was asked for and seen to become so. *)
Theorem create_or_update_spec bmc name manufacturer cmdb :
  every_run (create_or_update bmc name manufacturer cmdb) tt (fun r _ tr => enrolled r tr).
Proof.
  unfold every_run, create_or_update. destruct (_driver_for manufacturer) as [drv insp].
  apply wp_try_except. wp_pure. wp_logged a. destruct a as [e|node].
  { unfold create_if_missing. destruct (NotFound e) eqn:He; [|apply wp_raise; by split].
    apply wp_create_missing; [done| |done]. simpl. by rewrite He. }
  wp_pure. destruct (decide (provision_state node ∈ ENROLLABLE_STATES)) as [Hin|Hout].
  - wp_pure. by apply wp_found.
  - apply wp_raise. wp_simp. apply wp_raise. split; [|done|done]. by intros node' [= <-].
Qed.
