(* ===== verification/Netdev.v ===== *)
(** * Enrolling network devices

    Models [src/python/understack-workflows/understack_workflows/netdev_reconciler.py],
    [firewall.py], [main/enroll_netdev.py] and [main/enroll_fw.py]: the
    requested ports are validated, the node is found or created, what each port
    needs is planned without touching anything, and only then are the plans
    applied while the node is out of the allocatable pool. *)
From S2P Require Import Prelude PyStr PyData IronicNode.

(** ** The request *)

Definition DEFAULT_RESOURCE_CLASS : string := "generic".
Definition PLACEHOLDER_SWITCH_ID : string := "00:00:00:00:00:00".
(* netdev_reconciler.py:14-20 REENROLLABLE_STATES *)
Definition REENROLLABLE_STATES : list string := ["enroll"; "manageable"; "available"].
(* netdev_reconciler.py:26-28 REQUIRED_PORT_FIELDS *)
Definition REQUIRED_PORT_FIELDS : list string := ["label"; "mac"; "switch"; "intf"].
Definition ALLOWED_PORT_FIELDS : list string := REQUIRED_PORT_FIELDS ++ ["switch_id"].

(* netdev_reconciler.py:31-37 NetdevPort *)
Record NetdevPort := MkNetdevPort {
  label : string; mac : string; switch : string; interface : string; switch_id : option string;
}.

(* netdev_reconciler.py:40-45 _has_cmdb_id *)
Definition _has_cmdb_id (external_cmdb_id : option scalar) : bool :=
  match external_cmdb_id with
  | None => false
  | Some v => negb (bool_decide (v = SStr ""))
  end.

(** [raw] is the text of [--ports] as [json.loads] reads it. *)
(* netdev_reconciler.py:48-56 parse_ports_arg *)
Definition parse_ports_arg (raw : option json) : res (list json) :=
  match raw with
  | None => Err (ValueError ["--ports must be valid JSON"])
  | Some (JArr data) => mret data
  | Some _ => Err (ValueError ["--ports must be a JSON array of port objects"])
  end.

(** [entry.get(key)] and [isinstance(v, str)] *)
Definition field (key : string) (entry : dict json) : json := default JNull (dict_get key entry).
Definition is_str (v : json) : bool := match v with JStr _ => true | _ => false end.
Definition text (v : json) : string := match v with JStr s => s | _ => "" end.

(* netdev_reconciler.py:72-98 build_netdev_ports *)
Definition check_entry (index : nat) (entry : json) : res (dict json) :=
  match entry with
  | JObj d =>
      let missing := filter (fun k => truthy (field k d) = false) REQUIRED_PORT_FIELDS in
      if truthy missing then Err (ValueError (pretty index :: missing))
      else
        let non_string := filter (fun k => is_str (field k d) = false) REQUIRED_PORT_FIELDS in
        if truthy non_string then Err (ValueError (pretty index :: non_string))
        else match field "switch_id" d with
             | JNull | JStr _ =>
                 let unknown := merge_sort str_le (filter (fun k => k ∉ ALLOWED_PORT_FIELDS) (map fst d)) in
                 if truthy unknown then Err (ValueError (pretty index :: unknown)) else mret d
             | _ => Err (ValueError [pretty index; "switch_id must be a string"])
             end
  | _ => Err (ValueError [pretty index; "must be a JSON object"])
  end.

(* netdev_reconciler.py:109-117 build_netdev_ports *)
Definition to_port (d : dict json) : NetdevPort :=
  MkNetdevPort (text (field "label" d)) (text (field "mac" d)) (text (field "switch" d)) (text (field "intf" d))
    (match field "switch_id" d with JStr s => Some s | _ => None end).

(* netdev_reconciler.py:68-118 build_netdev_ports *)
Fixpoint build_go (index : nat) (seen_labels seen_macs : list string) (ports : list json)
    : res (list NetdevPort) :=
  match ports with
  | [] => mret []
  | entry :: ports =>
      d ← check_entry index entry;
      let p := to_port d in
      if decide (p.(label) ∈ seen_labels) then Err (ValueError ["Duplicate label"; p.(label)])
      else
        let mac_key := lower p.(mac) in
        if decide (mac_key ∈ seen_macs) then Err (ValueError ["Duplicate MAC"; p.(mac)])
        else
          rest ← build_go (S index) (p.(label) :: seen_labels) (mac_key :: seen_macs) ports;
          mret (p :: rest)
  end.
(* netdev_reconciler.py:59-118 build_netdev_ports *)
Definition build_netdev_ports (ports : list json) : res (list NetdevPort) :=
  if negb (truthy ports) then Err (ValueError ["At least one port must be provided"])
  else build_go 1 [] [] ports.

(** ** Nodes *)

Definition netdev_node_data (name resource_class : string) (driver_info extra : dict scalar) : node_data_t :=
  NodeData name "netdev" (Some false) (Some resource_class)
    (if truthy driver_info then Some driver_info else None)
    (if truthy extra then Some extra else None) None None None.
(* netdev_reconciler.py:357-386 create_netdev_node *)
Definition create_netdev_node (name resource_class : string) (driver_info extra : dict scalar) : flow Node :=
  call (NodeCreate (netdev_node_data name resource_class driver_info extra)).

(* netdev_reconciler.py:273-318 find_or_create_netdev_node *)
Definition find_or_create_netdev_node (name resource_class : string) (driver_info extra : dict scalar)
    : flow (Node * bool) :=
  found ← try_except (n ← call (NodeGet name None); mret (Some n))
    (fun e => if NotFound e then mret None else Raise e);
  match found with
  | None => node ← create_netdev_node name resource_class driver_info extra; mret (node, true)
  | Some node =>
      if decide (node.(driver) = "netdev") then
        if decide (node.(provision_state) ∈ REENROLLABLE_STATES) then mret (node, false)
        else Raise (RuntimeError [node.(node_uuid); node.(provision_state)])
      else Raise (RuntimeError [name; node.(node_uuid); node.(driver)])
  end.

(** The [key=value] texts for the entries of [wanted] that differ from [current]. *)
Definition changed_keys (prefix : string) (current : option (dict scalar)) (wanted : dict scalar) : list string :=
  map (fun kv : string * scalar => prefix +:+ "/" +:+ kv.1 +:+ "=" +:+ scalar_text kv.2)
    (filter (fun kv : string * scalar => dict_get kv.1 (default [] current) <> Some kv.2) wanted).

(* netdev_reconciler.py:335-347 update_node_metadata *)
Definition metadata_updates (node : Node) (rclass : string) (dinfo extra : dict scalar) : list string :=
  (if decide (node.(resource_class) = Some rclass) then [] else ["resource_class=" +:+ rclass])
  ++ changed_keys "driver_info" node.(driver_info) dinfo
  ++ changed_keys "extra" node.(node_extra) extra.

(* netdev_reconciler.py:321-354 update_node_metadata *)
Definition update_node_metadata (node : Node) (rclass : string) (dinfo extra : dict scalar) : flow bool :=
  let updates := metadata_updates node rclass dinfo extra in
  if negb (truthy updates) then mret false
  else _ ← call (NodeUpdateAdd node.(node_uuid) updates); mret true.

(** ** Ports *)

Definition addr_key (p : Port) : string := lower (default "" p.(port_address)).
(* netdev_reconciler.py:168-168 enroll *)
Definition by_mac (ports : list Port) : dict Port := foldl (fun d p => dict_set (addr_key p) p d) [] ports.
(* netdev_reconciler.py:169-169 enroll *)
Definition by_name (ports : list Port) : dict Port :=
  foldl (fun d p => match p.(port_name) with
                    | Some n => if truthy n then dict_set n p d else d
                    | None => d end) [] ports.

Inductive port_plan : Type :=
| Create (port : NetdevPort)
| Update (existing : Port) (patch : list port_patch).

Definition port_full_name (node_name : string) (port : NetdevPort) : string := node_name +:+ ":" +:+ port.(label).

Definition make_llc (switch_id switch_info port_id : string) : llc_t :=
  <["switch_id" := switch_id]> (<["switch_info" := switch_info]> {["port_id" := port_id]}).

(* netdev_reconciler.py:428-434 plan_netdev_port *)
Definition wanted_switch_id (port : NetdevPort) (current : option string) : string :=
  match port.(switch_id) with
  | Some (String c s) => String c s
  | _ => match current with
         | Some (String c s) => if decide (String c s = PLACEHOLDER_SWITCH_ID) then PLACEHOLDER_SWITCH_ID
                                else String c s
         | _ => PLACEHOLDER_SWITCH_ID
         end
  end.

(* netdev_reconciler.py:422-440 plan_netdev_port *)
Definition desired_llc (port : NetdevPort) (existing : Port) : llc_t :=
  make_llc (wanted_switch_id port (default ∅ existing.(port_llc) !! "switch_id")) port.(switch) port.(interface).

(** [any(current.get(key) != value for key, value in desired.items())] *)
Definition llc_differs (current desired : llc_t) : bool :=
  negb (bool_decide (map_Forall (fun k v => current !! k = Some v) desired)).

(* netdev_reconciler.py:389-475 plan_netdev_port *)
Definition plan_netdev_port (node : Node) (node_name physical_network : string) (port : NetdevPort)
    (existing : option Port) (ports_by_mac : dict Port) : res (option port_plan) :=
  let port_name := port_full_name node_name port in
  let mac_owner := dict_get (lower port.(mac)) ports_by_mac in
  match existing with
  | None =>
      match mac_owner with
      | Some owner => Err (RuntimeError [node.(node_uuid); port_name; port.(mac); owner.(port_uuid)])
      | None => mret (Some (Create port))
      end
  | Some existing =>
      let current_llc := default ∅ existing.(port_llc) in
      let llc := desired_llc port existing in
      address_patch ←
        (if decide (addr_key existing = lower port.(mac)) then mret []
         else match mac_owner with
              | Some owner =>
                  if decide (owner.(port_uuid) = existing.(port_uuid)) then mret [SetAddress port.(mac)]
                  else Err (RuntimeError [node.(node_uuid); port_name; port.(mac); owner.(port_uuid)])
              | None => mret [SetAddress port.(mac)]
              end);
      let patch := address_patch
        ++ (if decide (existing.(port_physical_network) = Some physical_network) then []
            else [SetPhysicalNetwork physical_network])
        ++ (if decide (existing.(port_category) = Some "network") then [] else [SetCategory "network"])
        ++ (if llc_differs current_llc llc then [SetLlc llc] else []) in
      if negb (truthy patch) then mret None else mret (Some (Update existing patch))
  end.

(* netdev_reconciler.py:521-534 create_netdev_port *)
Definition netdev_port_data (node : Node) (node_name physical_network : string) (port : NetdevPort) : port_data_t :=
  PortData port.(mac) "network"
    (make_llc (str_or port.(switch_id) PLACEHOLDER_SWITCH_ID) port.(switch) port.(interface))
    (port_full_name node_name port) node.(node_uuid) physical_network.

(* netdev_reconciler.py:513-554 create_netdev_port *)
Definition create_netdev_port (node : Node) (node_name physical_network : string) (port : NetdevPort) : flow unit :=
  _ ← call (PortCreate (netdev_port_data node node_name physical_network port)); mret tt.

(* netdev_reconciler.py:478-510 apply_port_plan *)
Definition apply_port_plan (node : Node) (node_name physical_network : string) (plan : port_plan) : flow unit :=
  match plan with
  | Create port => create_netdev_port node node_name physical_network port
  | Update existing patch => call (PortUpdate existing.(port_uuid) patch)
  end.

(* netdev_reconciler.py:557-587 make_available *)
Definition make_available (node : Node) (state : string) : flow unit :=
  if decide (state = "available") then mret tt
  else if decide (state ∈ REENROLLABLE_STATES) then
    _ ← (if decide (state = "enroll") then transition node "manage" "manageable" else mret tt);
    transition node "provide" "available"
  else Raise (RuntimeError [node.(node_uuid); state]).

(* netdev_reconciler.py:175-186 enroll *)
Definition plan_ports (node : Node) (name physical_network : string) (node_ports : list Port)
    (netdev_ports : list NetdevPort) : res (list port_plan) :=
  plans ← res_map (fun port => plan_netdev_port node name physical_network port
    (dict_get (port_full_name name port) (by_name node_ports)) (by_mac node_ports)) netdev_ports;
  mret (omap (fun p => p) (plans : list (option port_plan))).

(* netdev_reconciler.py:190-244 enroll *)
Definition apply_plans (node : Node) (created : bool) (name physical_network rclass : string)
    (dinfo extra : dict scalar) (pending : list port_plan) : flow unit :=
  let state := node.(provision_state) in
  state ← (if truthy pending && bool_decide (state = "available") then
             _ ← transition node "manage" "manageable"; mret "manageable"
           else mret state);
  _ ← (if negb created then update_node_metadata node rclass dinfo extra else mret false);
  if negb (truthy pending) && bool_decide (state = "available") then mret tt
  else
    _ ← for_each pending (apply_port_plan node name physical_network);
    make_available node state.

(** [external_cmdb_id] folded into [extra]. *)
(* netdev_reconciler.py:141-143 enroll *)
Definition with_cmdb_id (external_cmdb_id : option scalar) (extra : dict scalar) : dict scalar :=
  match external_cmdb_id with
  | Some v => if _has_cmdb_id external_cmdb_id then dict_set "external_cmdb_id" v extra else extra
  | None => extra
  end.

(* netdev_reconciler.py:121-249 enroll *)
Definition enroll (name physical_network : string) (ports : list json) (external_cmdb_id : option scalar)
    (rclass : option string) (dinfo extra : option (dict scalar)) : flow unit :=
  let effective_resource_class := str_or rclass DEFAULT_RESOURCE_CLASS in
  netdev_ports ← lift (build_netdev_ports ports);
  let node_driver_info := default [] dinfo in
  let node_extra := with_cmdb_id external_cmdb_id (default [] extra) in
  found ← find_or_create_netdev_node name effective_resource_class node_driver_info node_extra;
  let '(node, created) := found in
  node_ports ← call (PortList node.(node_uuid));
  pending ← lift (plan_ports node name physical_network node_ports netdev_ports);
  apply_plans node created name physical_network effective_resource_class node_driver_info node_extra pending.

(* main/enroll_netdev.py:11-33 main *)
Definition enroll_netdev_main (name physical_network : string) (ports : option json)
    (external_cmdb_id : option scalar) (rclass : option string) : flow unit :=
  entries ← lift (parse_ports_arg ports);
  enroll name physical_network entries external_cmdb_id rclass None None.

(** ** Firewalls *)

(* understack_workflows/firewall.py:15-39 firewall_metadata *)
Definition firewall_metadata (management_ip management_switch management_switch_port mate_serial : string)
    : dict scalar * dict scalar :=
  (filter (fun kv : string * scalar => truthy kv.2 = true)
     [("management_ip", SStr management_ip); ("management_switch", SStr management_switch);
      ("management_switch_port", SStr management_switch_port)],
   if truthy mate_serial then [("mate_serial", SStr mate_serial)] else []).

(* understack_workflows/firewall.py:42-64 apply_node_metadata *)
Definition apply_node_metadata (node : Node) (dinfo extra : dict scalar) : flow unit :=
  let updates := changed_keys "driver_info" node.(driver_info) dinfo
                 ++ changed_keys "extra" node.(node_extra) extra in
  if negb (truthy updates) then mret tt else call (NodeUpdateAdd node.(node_uuid) updates).

(* main/enroll_fw.py:38-51 _require_specific_resource_class *)
Definition _require_specific_resource_class (rclass : option string) : res string :=
  let normalized := strip (default "" rclass) in
  if negb (truthy normalized) || bool_decide (lower normalized = DEFAULT_RESOURCE_CLASS)
  then Err (ValueError ["resource_class"]) else mret normalized.

(* main/enroll_fw.py:109-114 _get_node_or_none *)
Definition _get_node_or_none (name : string) : flow (option Node) :=
  try_except (n ← call (NodeGet name None); mret (Some n))
    (fun e => if NotFound e then mret None else Raise e).

(* main/enroll_fw.py:172-207 _reject_structural_drift *)
Definition _reject_structural_drift (node : Node) (name physical_network : string)
    (netdev_ports : list NetdevPort) : flow unit :=
  node_ports ← call (PortList node.(node_uuid));
  lift (res_fold (fun _ port =>
    plan ← plan_netdev_port node name physical_network port
      (dict_get (port_full_name name port) (by_name node_ports)) (by_mac node_ports);
    match plan with
    | Some _ => Err (RuntimeError [node.(node_uuid); port_full_name name port])
    | None => mret tt
    end) netdev_ports tt).

(* main/enroll_fw.py:117-169 _update_active_firewall *)
Definition _update_active_firewall (node : Node) (name physical_network : string) (ports : list json)
    (rclass : string) (external_cmdb_id : option scalar) (dinfo extra : dict scalar) : flow unit :=
  if decide (node.(driver) = "netdev") then
    if decide (node.(resource_class) = Some rclass) then
      netdev_ports ← lift (build_netdev_ports ports);
      _ ← _reject_structural_drift node name physical_network netdev_ports;
      apply_node_metadata node dinfo (with_cmdb_id external_cmdb_id extra)
    else Raise (RuntimeError [node.(node_uuid); default "None" node.(resource_class); rclass])
  else Raise (RuntimeError [name; node.(node_uuid); node.(driver)]).

(* main/enroll_fw.py:54-106 enroll_fw *)
Definition enroll_fw (name physical_network : string) (ports : list json) (rclass : option string)
    (external_cmdb_id : option scalar)
    (management_ip management_switch management_switch_port mate_serial : string) : flow unit :=
  rclass ← lift (_require_specific_resource_class rclass);
  let '(dinfo, extra) := firewall_metadata management_ip management_switch management_switch_port mate_serial in
  found ← _get_node_or_none name;
  match found with
  | Some node =>
      if decide (node.(provision_state) = "active") then
        _update_active_firewall node name physical_network ports rclass external_cmdb_id dinfo extra
      else enroll name physical_network ports external_cmdb_id (Some rclass) (Some dinfo) (Some extra)
  | None => enroll name physical_network ports external_cmdb_id (Some rclass) (Some dinfo) (Some extra)
  end.

(** ** The ports of a request *)

(** What an entry must be, for the port it stands for. *)
Record entry_of (e : json) (p : NetdevPort) : Prop := EntryOf {
  entry_dict : dict json;
  entry_obj : e = JObj entry_dict;
  entry_label : dict_get "label" entry_dict = Some (JStr p.(label)) /\ p.(label) <> "";
  entry_mac : dict_get "mac" entry_dict = Some (JStr p.(mac)) /\ p.(mac) <> "";
  entry_switch : dict_get "switch" entry_dict = Some (JStr p.(switch)) /\ p.(switch) <> "";
  entry_intf : dict_get "intf" entry_dict = Some (JStr p.(interface)) /\ p.(interface) <> "";
  entry_switch_id : match p.(switch_id) with
    | Some s => dict_get "switch_id" entry_dict = Some (JStr s)
    | None => dict_get "switch_id" entry_dict = None \/ dict_get "switch_id" entry_dict = Some JNull
    end;
  entry_fields : forall k, k ∈ map fst entry_dict -> k ∈ ALLOWED_PORT_FIELDS;
}.

Lemma truthy_list_false {A} (l : list A) : truthy l = false <-> l = [].
Proof. by destruct l. Qed.
Lemma filter_empty {A} (P : A -> Prop) `{!forall x, Decision (P x)} (l : list A) :
  truthy (filter P l) = false <-> Forall (fun x => ~ P x) l.
Proof.
  rewrite truthy_list_false. induction l as [|x l IH]; [done|]. rewrite filter_cons, Forall_cons.
  case_decide; naive_solver.
Qed.

(** A required field that passes both checks. *)
Lemma required_field k d :
  truthy (field k d) = true /\ is_str (field k d) = true <->
  exists s, dict_get k d = Some (JStr s) /\ s <> "".
Proof.
  unfold field. destruct (dict_get k d) as [[| | |s| |]|]; simpl; try (split; [by intros []|by intros (? & ? & ?)]).
  split; [intros [Hs _]; exists s; by destruct s|]. intros (s' & [= ->] & Hs). by destruct s'.
Qed.

Lemma required_all d :
  truthy (filter (fun k => truthy (field k d) = false) REQUIRED_PORT_FIELDS) = false /\
  truthy (filter (fun k => is_str (field k d) = false) REQUIRED_PORT_FIELDS) = false <->
  Forall (fun k => exists s, dict_get k d = Some (JStr s) /\ s <> "") REQUIRED_PORT_FIELDS.
Proof.
  rewrite !filter_empty, <- Forall_and. apply Forall_iff. intros k.
  rewrite <- required_field, !not_false_iff_true. done.
Qed.

Lemma merge_sort_empty {A} (R : relation A) `{!RelDecision R} (l : list A) :
  truthy (merge_sort R l) = truthy l.
Proof.
  pose proof (merge_sort_Permutation R l) as Hp. destruct l, (merge_sort R _); try done.
  - by apply Permutation_nil_r in Hp.
  - by apply Permutation_nil_l in Hp.
Qed.

Lemma check_entry_iff i e p :
  (exists d, check_entry i e = inr d /\ to_port d = p) <-> entry_of e p.
Proof.
  split.
  - intros (d & Hd & <-). destruct e as [| | | | |d']; try done.
    unfold check_entry in Hd. cbn beta iota zeta in Hd.
    destruct (truthy (filter (fun k => truthy (field k d') = false) _)) eqn:H1; [done|].
    destruct (truthy (filter (fun k => is_str (field k d') = false) _)) eqn:H2; [done|].
    pose proof (proj1 (required_all d') (conj H1 H2)) as Hreq.
    apply Forall_cons in Hreq as [(l & Hl & ?) Hreq]. apply Forall_cons in Hreq as [(m & Hm & ?) Hreq].
    apply Forall_cons in Hreq as [(s & Hs & ?) Hreq]. apply Forall_cons in Hreq as [(t & Ht & ?) _].
    assert (d = d' /\ truthy (filter (fun k => k ∉ ALLOWED_PORT_FIELDS) (map fst d')) = false /\
      match field "switch_id" d' with JNull | JStr _ => True | _ => False end) as (-> & Hu & Hsw).
    { destruct (field "switch_id" d'); try done;
        (rewrite merge_sort_empty in Hd;
         destruct (truthy (filter _ (map fst d'))); [done|by injection Hd as ->]). }
    apply (EntryOf _ _ d' eq_refl); unfold to_port, field; cbn; rewrite ?Hl, ?Hm, ?Hs, ?Ht; try done.
    + unfold field in Hsw. destruct (dict_get "switch_id" d') as [[]|]; cbn in *; auto; done.
    + rewrite filter_empty, Forall_forall in Hu. intros k Hk. by apply dec_stable, Hu.
  - intros [d -> [Hl ?] [Hm ?] [Hs ?] [Ht ?] Hsw Hf]. exists d. unfold check_entry. cbn beta iota zeta.
    destruct (proj2 (required_all d)) as [-> ->].
    { repeat (apply Forall_cons; split); [by eauto..|done]. }
    rewrite merge_sort_empty, (proj2 (filter_empty (fun k => k ∉ ALLOWED_PORT_FIELDS) (map fst d))).
    2: { apply Forall_forall. intros k Hk Hn. apply Hn, Hf, Hk. }
    destruct p as [l m s t sw]. simpl in *. unfold to_port, field. rewrite Hl, Hm, Hs, Ht.
    destruct sw as [w|]; [by rewrite Hsw|]. destruct Hsw as [-> | ->]; done.
Qed.

Lemma entry_unique e p q : entry_of e p -> entry_of e q -> p = q.
Proof.
  intros (d1 & Hd1 & <-)%(check_entry_iff 0) (d2 & Hd2 & <-)%(check_entry_iff 0). congruence.
Qed.
Lemma entries_unique es ps qs : Forall2 entry_of es ps -> Forall2 entry_of es qs -> ps = qs.
Proof.
  intros Hp. revert qs. induction Hp as [|e p es ps Hep _ IH]; intros qs Hq; [by inversion Hq|].
  apply Forall2_cons_inv_l in Hq as (q & qs' & Heq & Hqs & ->). f_equal; [by eapply entry_unique|by apply IH].
Qed.

Lemma build_go_iff i labels macs es ps :
  build_go i labels macs es = inr ps <->
  Forall2 entry_of es ps /\ NoDup (map label ps) /\ NoDup (map (fun p => lower p.(mac)) ps) /\
  (forall p, p ∈ ps -> p.(label) ∉ labels /\ lower p.(mac) ∉ macs).
Proof.
  revert i labels macs ps. induction es as [|e es IH]; intros i labels macs ps; cbn [build_go].
  { split; [intros [= <-]; repeat split; try constructor; set_solver|]. by intros [->%Forall2_nil_inv_l _]. }
  destruct (check_entry i e) as [err|d] eqn:Hd; cbn [mbind res_mbind]; cbn zeta.
  { split; [done|]. intros [(p & ps' & He & _)%Forall2_cons_inv_l _].
    apply (check_entry_iff i) in He as (d & Hd' & _). congruence. }
  assert (entry_of e (to_port d)) as Hp by (apply (check_entry_iff i); eauto).
  assert (forall p, entry_of e p -> p = to_port d) as Huniq.
  { intros p Hp'. by eapply entry_unique. }
  destruct (decide (label (to_port d) ∈ labels)) as [Hlab|Hlab];
    [|destruct (decide (lower (mac (to_port d)) ∈ macs)) as [Hmac|Hmac]].
  - split; [done|]. intros (H2 & _ & _ & Hseen). apply Forall2_cons_inv_l in H2 as (p & ps' & ->%Huniq & _ & ->).
    destruct (Hseen (to_port d)) as [? _]; [left|done].
  - split; [done|]. intros (H2 & _ & _ & Hseen). apply Forall2_cons_inv_l in H2 as (p & ps' & ->%Huniq & _ & ->).
    destruct (Hseen (to_port d)) as [_ ?]; [left|done].
  - destruct (build_go _ _ _ es) as [err|rest] eqn:Hr; cbn [mbind res_mbind].
    + split; [done|]. intros (H2 & Hl & Hm & Hseen).
      apply Forall2_cons_inv_l in H2 as (p & ps' & ->%Huniq & Hes & ->).
      apply NoDup_cons in Hl as [Hl1 Hl2]. apply NoDup_cons in Hm as [Hm1 Hm2].
      enough (build_go (S i) (label (to_port d) :: labels) (lower (mac (to_port d)) :: macs) es = inr ps') by congruence.
      apply IH. split; [done|]. split; [done|]. split; [done|]. intros q Hq. destruct (Hseen q) as [Hq1 Hq2]; [by right|].
      rewrite !not_elem_of_cons. repeat split; try done; intros Heq; [apply Hl1|apply Hm1]; rewrite <- Heq;
        apply list_elem_of_fmap; eauto.
    + apply IH in Hr as (Hes & Hl & Hm & Hseen). split.
      * intros [= <-]. repeat split; try (apply NoDup_cons; split); try done.
        -- by constructor.
        -- intros (q & Hq & Hin)%list_elem_of_fmap. destruct (Hseen q Hin) as [Hn _]. set_solver.
        -- intros (q & Hq & Hin)%list_elem_of_fmap. destruct (Hseen q Hin) as [_ Hn]. simpl in Hq. set_solver.
        -- apply elem_of_cons in H as [->|Hin]; [done|]. destruct (Hseen p Hin) as [Hn _]. set_solver.
        -- apply elem_of_cons in H as [->|Hin]; [done|]. destruct (Hseen p Hin) as [_ Hn]. set_solver.
      * intros (H2 & _ & _ & _). apply Forall2_cons_inv_l in H2 as (p & ps' & ->%Huniq & Hes' & ->).
        do 2 f_equal. by eapply entries_unique.
Qed.

Lemma build_ports_iff es ps :
  build_netdev_ports es = inr ps <->
  es <> [] /\ Forall2 entry_of es ps /\ NoDup (map label ps) /\ NoDup (map (fun p => lower p.(mac)) ps).
Proof.
  unfold build_netdev_ports. destruct es as [|e es]; cbn [truthy truthy_list negb]; [by split; [|intros []]|].
  rewrite build_go_iff. naive_solver set_solver.
Qed.

(** A request is accepted exactly when it names at least one port, every entry is
    an object with non-empty texts for label, MAC, switch and interface, a text or
    nothing for the switch id and no other field, and labels and (case-folded) MAC
    addresses are all different; the ports are then those of the entries, in
    order. *)
Theorem build_netdev_ports_iff es ps :
  build_netdev_ports es = inr ps <->
  es <> [] /\ Forall2 entry_of es ps /\ NoDup (map label ps) /\ NoDup (map (fun p => lower p.(mac)) ps).
Proof. apply build_ports_iff. Qed.

(** ** Plans converge *)

(** The port as the request wants it: the recorded switch id only has to be the one
    asked for, or, when none is, to be there. *)
Record matches (physical_network : string) (port : NetdevPort) (p : Port) : Prop := {
  matches_mac : addr_key p = lower port.(mac);
  matches_network : p.(port_physical_network) = Some physical_network;
  matches_category : p.(port_category) = Some "network";
  matches_switch : default ∅ p.(port_llc) !! "switch_info" = Some port.(switch);
  matches_interface : default ∅ p.(port_llc) !! "port_id" = Some port.(interface);
  matches_switch_id : default ∅ p.(port_llc) !! "switch_id"
    = Some (wanted_switch_id port (default ∅ p.(port_llc) !! "switch_id"));
}.

(** What Ironic makes of a patch and of a creation request. *)
Definition patch_port (p : Port) (c : port_patch) : Port :=
  match c with
  | SetAddress v => MkPort p.(port_uuid) (Some v) p.(port_name) p.(port_physical_network) p.(port_category)
                      p.(port_llc) p.(port_pxe_enabled) p.(port_extra)
  | SetPhysicalNetwork v => MkPort p.(port_uuid) p.(port_address) p.(port_name) (Some v) p.(port_category)
                      p.(port_llc) p.(port_pxe_enabled) p.(port_extra)
  | SetCategory v => MkPort p.(port_uuid) p.(port_address) p.(port_name) p.(port_physical_network) (Some v)
                      p.(port_llc) p.(port_pxe_enabled) p.(port_extra)
  | SetLlc v => MkPort p.(port_uuid) p.(port_address) p.(port_name) p.(port_physical_network) p.(port_category)
                      (Some v) p.(port_pxe_enabled) p.(port_extra)
  end.
Definition patched (p : Port) (cs : list port_patch) : Port := foldl patch_port p cs.
Definition created (uuid : string) (d : port_data_t) : Port :=
  MkPort uuid (Some d.(pd_address)) (Some d.(pd_name)) (Some d.(pd_physical_network)) (Some d.(pd_category))
    (Some d.(pd_llc)) true ∅.

Lemma llc_differs_iff current sid sinfo pid :
  llc_differs current (make_llc sid sinfo pid) = false <->
  current !! "switch_id" = Some sid /\ current !! "switch_info" = Some sinfo /\ current !! "port_id" = Some pid.
Proof.
  unfold llc_differs. rewrite negb_false_iff, bool_decide_eq_true. unfold make_llc.
  rewrite !map_Forall_insert by by simplify_map_eq. rewrite map_Forall_singleton. done.
Qed.

(** An empty patch, part by part. *)
Lemma patch_empty (a b c d : list port_patch) :
  truthy (a ++ b ++ c ++ d) = false <-> a = [] /\ b = [] /\ c = [] /\ d = [].
Proof. destruct a, b, c, d; simpl; naive_solver. Qed.

Lemma wanted_idempotent port cur :
  wanted_switch_id port (Some (wanted_switch_id port cur)) = wanted_switch_id port cur.
Proof.
  unfold wanted_switch_id. destruct (switch_id port) as [[|c s]|]; try done;
    destruct cur as [[|c' s']|]; try done; by repeat (case_decide; simplify_eq).
Qed.

Section planning.
Context (node : Node) (nn net : string) (port : NetdevPort).

Lemma make_llc_lookup a b c :
  make_llc a b c !! "switch_id" = Some a /\ make_llc a b c !! "switch_info" = Some b /\
  make_llc a b c !! "port_id" = Some c.
Proof. unfold make_llc. repeat split; by simplify_map_eq. Qed.

#[local] Opaque llc_differs make_llc.

Lemma plan_matching ex macs :
  matches net port ex -> plan_netdev_port node nn net port (Some ex) macs = inr None.
Proof.
  intros [Hm Hn Hc Hs Hi Hw]. unfold plan_netdev_port. rewrite (decide_True (P:=addr_key ex = _)) by done.
  cbn [mbind res_mbind]. rewrite !decide_True by done. unfold desired_llc.
  assert (llc_differs (default ∅ (port_llc ex)) (make_llc (wanted_switch_id port (default ∅ (port_llc ex) !! "switch_id"))
    (switch port) (interface port)) = false) as -> by (by apply llc_differs_iff). done.
Qed.

(** The patch that a plan computes, after the address part. *)
Definition rest_patch (ex : Port) : list port_patch :=
  (if decide (ex.(port_physical_network) = Some net) then [] else [SetPhysicalNetwork net])
  ++ (if decide (ex.(port_category) = Some "network") then [] else [SetCategory "network"])
  ++ (if llc_differs (default ∅ ex.(port_llc)) (desired_llc port ex) then [SetLlc (desired_llc port ex)] else []).

Lemma rest_patched_fields ex u a n px e :
  patched (MkPort u a n ex.(port_physical_network) ex.(port_category) ex.(port_llc) px e) (rest_patch ex)
  = MkPort u a n (Some net) (Some "network")
      (if llc_differs (default ∅ ex.(port_llc)) (desired_llc port ex) then Some (desired_llc port ex) else ex.(port_llc))
      px e.
Proof.
  unfold rest_patch. generalize (desired_llc port ex) as D. intros D.
  destruct (llc_differs (default ∅ (port_llc ex)) D); repeat case_decide; unfold patched; cbn; congruence.
Qed.

Lemma rest_patched ex p :
  p.(port_physical_network) = ex.(port_physical_network) -> p.(port_category) = ex.(port_category) ->
  p.(port_llc) = ex.(port_llc) -> addr_key p = lower port.(mac) ->
  let q := patched p (rest_patch ex) in
  matches net port q /\ q.(port_uuid) = p.(port_uuid) /\ q.(port_name) = p.(port_name).
Proof.
  destruct p as [u a n ph c l px e]. cbn [port_physical_network port_category port_llc]. intros -> -> -> Ha.
  cbn zeta. rewrite rest_patched_fields. split; [|done].
  set (cur := default ∅ (port_llc ex)). pose proof (wanted_idempotent port (cur !! "switch_id")) as Hw.
  destruct (make_llc_lookup (wanted_switch_id port (cur !! "switch_id")) (switch port) (interface port)) as (H1 & H2 & H3).
  assert (desired_llc port ex = make_llc (wanted_switch_id port (cur !! "switch_id")) (switch port) (interface port)) as HD
    by reflexivity.
  destruct (llc_differs cur (desired_llc port ex)) eqn:Hd.
  - rewrite HD. split; [exact Ha|reflexivity|reflexivity|exact H2|exact H3|]. cbn [port_llc default from_option].
    unfold id. rewrite H1. f_equal. symmetry. exact Hw.
  - rewrite HD in Hd. apply llc_differs_iff in Hd as (D1 & D2 & D3).
    split; [exact Ha|reflexivity|reflexivity|exact D2|exact D3|exact D1].
Qed.

Lemma rest_matching ex :
  rest_patch ex = [] -> addr_key ex = lower port.(mac) -> matches net port ex.
Proof.
  unfold rest_patch. intros (Hn & Hr)%app_nil Ha. apply app_nil in Hr as [Hc Hd].
  destruct (decide (port_physical_network ex = Some net)) as [Hn'|]; [|discriminate Hn].
  destruct (decide (port_category ex = Some "network")) as [Hc'|]; [|discriminate Hc].
  destruct (llc_differs (default ∅ (port_llc ex)) (desired_llc port ex)) eqn:Hl; [discriminate Hd|].
  unfold desired_llc in Hl. apply llc_differs_iff in Hl as (D1 & D2 & D3).
  split; [exact Ha|exact Hn'|exact Hc'|exact D2|exact D3|exact D1].
Qed.

Definition address_patch (ex : Port) (macs : dict Port) : res (list port_patch) :=
  if decide (addr_key ex = lower port.(mac)) then mret []
  else match dict_get (lower port.(mac)) macs with
       | Some owner =>
           if decide (owner.(port_uuid) = ex.(port_uuid)) then mret [SetAddress port.(mac)]
           else inl (RuntimeError [node.(node_uuid); port_full_name nn port; port.(mac); owner.(port_uuid)])
       | None => mret [SetAddress port.(mac)]
       end.
Lemma plan_unfold ex macs :
  plan_netdev_port node nn net port (Some ex) macs =
  (a ← address_patch ex macs;
   if negb (truthy (a ++ rest_patch ex)) then mret None else mret (Some (Update ex (a ++ rest_patch ex)))).
Proof. reflexivity. Qed.

(** A patch brings the port to what is wanted. *)
Definition fixes (ex : Port) (cs : list port_patch) : Prop :=
  ~ matches net port ex /\ matches net port (patched ex cs) /\
  (patched ex cs).(port_uuid) = ex.(port_uuid) /\ (patched ex cs).(port_name) = ex.(port_name).

Lemma rest_fixes ex :
  addr_key ex = lower port.(mac) -> truthy (rest_patch ex) = true -> fixes ex (rest_patch ex).
Proof.
  intros Ha Ht. split; [|by apply rest_patched]. intros Hm.
  pose proof (plan_matching ex [] Hm) as Hp. rewrite plan_unfold in Hp. unfold address_patch in Hp.
  rewrite decide_True in Hp by done. cbn [mbind res_mbind app mret res_mret] in Hp. rewrite Ht in Hp. discriminate Hp.
Qed.
Lemma address_fixes ex :
  addr_key ex <> lower port.(mac) -> fixes ex (SetAddress port.(mac) :: rest_patch ex).
Proof.
  intros Ha. split; [by intros [? _ _ _ _ _]|]. by apply (rest_patched ex (patch_port ex (SetAddress (mac port)))).
Qed.

(** Planning for a port that exists. *)
Lemma plan_existing ex macs :
  match plan_netdev_port node nn net port (Some ex) macs with
  | inl _ => addr_key ex <> lower port.(mac) /\
      exists owner, dict_get (lower port.(mac)) macs = Some owner /\ owner.(port_uuid) <> ex.(port_uuid)
  | inr None => matches net port ex
  | inr (Some (Update e cs)) => e = ex /\ fixes ex cs
  | inr (Some (Create _)) => False
  end.
Proof.
  rewrite plan_unfold. unfold address_patch. destruct (decide (addr_key ex = lower (mac port))) as [Ha|Ha].
  - cbn [mbind res_mbind mret res_mret app]. destruct (truthy (rest_patch ex)) eqn:Ht; cbn [negb].
    + split; [done|by apply rest_fixes].
    + apply rest_matching; [|done]. by apply truthy_list_false.
  - pose proof (address_fixes ex Ha) as Hf.
    destruct (dict_get (lower (mac port)) macs) as [owner|]; [destruct (decide (port_uuid owner = port_uuid ex))|];
      cbn [mbind res_mbind mret res_mret app truthy truthy_list negb]; eauto.
Qed.

(** A port that was just created is as wanted. *)
Lemma created_matches u : matches net port (created u (netdev_port_data node nn net port)).
Proof.
  destruct (make_llc_lookup (str_or port.(switch_id) PLACEHOLDER_SWITCH_ID) (switch port) (interface port)) as (H1 & H2 & H3).
  split; [reflexivity|reflexivity|reflexivity|exact H2|exact H3|].
  change (default ∅ (port_llc (created u (netdev_port_data node nn net port)))) with
    (make_llc (str_or port.(switch_id) PLACEHOLDER_SWITCH_ID) (switch port) (interface port)).
  rewrite H1. f_equal. unfold wanted_switch_id, str_or. destruct (switch_id port) as [[|c s]|]; reflexivity.
Qed.

End planning.

(** Planning one port decides correctly and converges: a port is left alone exactly
    when it already is as requested; otherwise the patch it gets (or the request
    that creates it) makes it so, keeping its identity, and planning it again finds
    nothing to do.  The recorded switch id is overridden only by an explicit one. *)
Theorem plan_netdev_port_converges node nn net port existing macs plan :
  plan_netdev_port node nn net port existing macs = inr plan ->
  let settled p := matches net port p /\ forall macs', plan_netdev_port node nn net port (Some p) macs' = inr None in
  match existing, plan with
  | Some ex, None => matches net port ex
  | Some ex, Some (Update e cs) =>
      e = ex /\ ~ matches net port ex /\ settled (patched ex cs) /\
      (patched ex cs).(port_uuid) = ex.(port_uuid) /\ (patched ex cs).(port_name) = ex.(port_name)
  | None, Some (Create q) => q = port /\ forall u, settled (created u (netdev_port_data node nn net port))
  | _, _ => False
  end.
Proof.
  intros Hp. cbn zeta. destruct existing as [ex|].
  - pose proof (plan_existing node nn net port ex macs) as H. rewrite Hp in H.
    destruct plan as [[q|e cs]|]; [done| |done]. destruct H as (-> & Hn & Hm & Hu & Hname).
    repeat split; try done; try apply Hm. intros macs'. by apply plan_matching.
  - unfold plan_netdev_port in Hp. destruct (dict_get (lower (mac port)) macs); [done|].
    injection Hp as <-. split; [done|]. intros u. pose proof (created_matches node nn net port u) as Hm.
    split; [exact Hm|]. intros macs'. by apply plan_matching.
Qed.

(** ** Ports are written only after planning, out of the pool *)

Definition port_write {R} (op : IronicAPI R) : bool :=
  match op with PortCreate _ | PortUpdate _ _ => true | _ => false end.
Definition writes_port (ev : event IronicAPI) : bool := match ev with Ev op _ => port_write op end.

Section guarded.
(** [guard] stays true once it is. *)
Context (guard : log -> Prop).
Hypothesis guard_mono : forall tr tail, guard tr -> guard (tr ++ tail).

Definition guarded (tr : log) : Prop :=
  forall pre ev post, tr = pre ++ ev :: post -> writes_port ev = true -> guard pre.

Lemma guarded_snoc tr ev : guarded tr -> (writes_port ev = true -> guard tr) -> guarded (tr ++ [ev]).
Proof.
  intros Ht Hev pre ev' post. destruct post as [|x post _] using rev_ind.
  - intros [-> [= ->]]%app_inj_2; [|done]. exact Hev.
  - rewrite app_comm_cons, app_assoc. intros [Heq _]%app_inj_2; [|done]. exact (Ht pre ev' post Heq).
Qed.

Lemma guarded_snoc2 tr ev ev' :
  guarded tr -> writes_port ev = false -> writes_port ev' = false -> guarded (tr ++ [ev; ev']).
Proof.
  intros Ht H1 H2. assert (tr ++ [ev; ev'] = (tr ++ [ev]) ++ [ev']) as -> by (by rewrite <- app_assoc).
  apply guarded_snoc; [apply guarded_snoc; [done|]|]; intros H; congruence.
Qed.

Lemma guarded_nil : guarded [].
Proof. intros [|? ?] ev post H; discriminate H. Qed.

(** Once the guard holds, nothing can go wrong. *)
Lemma wp_guard_holds {A} (p : flow A) tr :
  guard tr -> guarded tr -> wp step_trace p (fun _ _ tr' => guarded tr') tt tr.
Proof.
  revert tr. induction p as [a|e|R op k IH|k IH|g p IH]; intros tr Hg Ht; try done.
  - intros r tr' ->. apply IH; [by apply guard_mono|by apply guarded_snoc].
  - by apply (IH tt).
  - destruct g. by apply IH.
Qed.

(** Code that writes no port keeps it, and only adds to the trace. *)
Lemma wp_guard_kept {A} (p : flow A) tr :
  calls_only (fun R op => port_write op = false) p -> guarded tr ->
  wp step_trace p (fun _ _ tr' => guarded tr' /\ exists tail, tr' = tr ++ tail) tt tr.
Proof.
  revert tr. induction p as [a|e|R op k IH|k IH|g p IH]; intros tr Hc Ht.
  - split; [done|]. exists []. by rewrite app_nil_r.
  - split; [done|]. exists []. by rewrite app_nil_r.
  - destruct Hc as [Hop Hk]. intros r tr' ->. eapply wp_mono; [|apply IH; [apply Hk|]].
    + intros _ _ tr' [? [tail ->]]. split; [done|]. exists (Ev op r :: tail). by rewrite <- app_assoc.
    + apply guarded_snoc; [done|]. simpl. by rewrite Hop.
  - apply (IH tt); [apply Hc|done].
  - destruct g. by apply IH.
Qed.

End guarded.

Section enroll_safety.
Context (name net : string) (reqs : list NetdevPort).

(** The node that the run works on, as Ironic returned it. *)
Definition node_known (node : Node) (tr : log) : Prop :=
  Ev (NodeGet name None) (inr node) ∈ tr \/ exists d, Ev (NodeCreate d) (inr node) ∈ tr.

(** Every port was planned, and the node is not in the allocatable pool. *)
Definition may_write (tr : log) : Prop :=
  exists node ports pending,
    node_known node tr /\ Ev (PortList node.(node_uuid)) (inr ports) ∈ tr /\
    plan_ports node name net ports reqs = inr pending /\
    (node.(provision_state) <> "available" \/ reached node "manage" "manageable" tr).

Lemma node_known_mono node tr tail : node_known node tr -> node_known node (tr ++ tail).
Proof. intros [?|[d ?]]; [left|right; exists d]; apply elem_of_app; by left. Qed.
Lemma reached_mono node target state tr tail : reached node target state tr -> reached node target state (tr ++ tail).
Proof. intros (pre & post & ->). exists pre, (post ++ tail). by rewrite <- app_assoc. Qed.
Lemma may_write_mono tr tail : may_write tr -> may_write (tr ++ tail).
Proof.
  intros (node & ports & pending & Hn & Hp & Hplan & Hs). exists node, ports, pending.
  split; [by apply node_known_mono|]. split; [apply elem_of_app; by left|]. split; [done|].
  destruct Hs as [?|Hs]; [by left|right]. by apply reached_mono.
Qed.

Abbreviation ok := (guarded may_write).

Lemma wp_find_or_create rc di ex tr :
  ok tr ->
  wp step_trace (find_or_create_netdev_node name rc di ex)
    (fun r _ tr' => ok tr' /\ match r with inr (node, _) => node_known node tr' | inl _ => True end) tt tr.
Proof.
  intros Ht. unfold find_or_create_netdev_node. wp_pure. apply wp_try_except. wp_pure. wp_logged a.
  assert (ok (tr ++ [Ev (NodeGet name None) a])) as Ht1 by (by apply guarded_snoc).
  destruct a as [e|node].
  - destruct (NotFound e); [|by apply wp_raise]. wp_pure. unfold create_netdev_node. wp_pure. wp_logged c.
    assert (ok ((tr ++ [Ev (NodeGet name None) (inl e)]) ++ [Ev (NodeCreate (netdev_node_data name rc di ex)) c]))
      as Ht2 by (by apply guarded_snoc).
    destruct c as [e'|node]; [done|]. wp_pure. split; [done|]. right. eexists. apply elem_of_app. right. left.
  - wp_pure. repeat case_decide; [|by apply wp_raise|by apply wp_raise]. wp_pure. split; [done|]. left.
    apply elem_of_app. right. left.
Qed.

(** The end of an enrolment, for a node that is known and planned. *)
Lemma wp_apply_plans node created rc di ex ports pending tr :
  ok tr -> node_known node tr -> Ev (PortList node.(node_uuid)) (inr ports) ∈ tr ->
  plan_ports node name net ports reqs = inr pending ->
  wp step_trace (apply_plans node created name net rc di ex pending) (fun _ _ tr' => ok tr') tt tr.
Proof.
  intros Ht Hn Hp Hplan.
  assert (forall tr', node.(provision_state) <> "available" \/ reached node "manage" "manageable" tr' ->
    (exists tail, tr' = tr ++ tail) -> may_write tr') as Hmay.
  { intros tr' Hs [tail ->]. exists node, ports, pending. split; [by apply node_known_mono|].
    split; [apply elem_of_app; by left|done]. }
  unfold apply_plans. wp_pure.
  destruct (bool_decide (provision_state node = "available")) eqn:Hav.
  - apply bool_decide_eq_true in Hav. destruct (truthy pending) eqn:Hpend; wp_simp.
    + wp_pure. apply wp_transition; [done| |].
      * intros e. by apply guarded_snoc.
      * intros w. assert (ok (tr ++ [Ev (NodeSetProvisionState (node_uuid node) "manage" None None None) (inr tt);
          Ev (await node "manageable") w])) as Ht2.
        { by apply guarded_snoc2. }
        destruct w as [e|[]]; [done|]. wp_pure. apply wp_guard_holds; [apply may_write_mono| |done].
        apply Hmay; [|by eexists]. right. by exists tr, [].
    + wp_pure. wp_pure. destruct created; wp_simp; [wp_pure; rewrite bool_decide_eq_true_2 by exact Hav; by wp_pure|].
      eapply wp_mono; [|apply wp_guard_kept; [|exact Ht]].
      * intros [e|b] [] tr' [Ht' _]; [done|].
        rewrite bool_decide_eq_true_2 by exact Hav. by wp_pure.
      * unfold update_node_metadata. calls_go.
  - apply bool_decide_eq_false in Hav. rewrite andb_false_r. wp_pure.
    apply wp_guard_holds; [apply may_write_mono| |done]. apply Hmay; [by left|]. exists []. by rewrite app_nil_r.
Qed.

Lemma enroll_guarded es cmdb rclass di ex :
  build_netdev_ports es = inr reqs ->
  every_run (enroll name net es cmdb rclass di ex) tt (fun _ _ tr => ok tr).
Proof.
  intros Hreqs. unfold every_run, enroll. wp_pure. rewrite Hreqs. wp_pure.
  wp_pure. eapply wp_mono; [|apply wp_find_or_create, guarded_nil].
  intros [e|[node created]] [] tr [Ht Hn]; [done|]. wp_pure. wp_logged l.
  assert (ok (tr ++ [Ev (PortList (node_uuid node)) l])) as Ht2 by (by apply guarded_snoc).
  destruct l as [e|ports]; [done|]. wp_pure. wp_pure.
  destruct (plan_ports node name net ports reqs) as [e|pending] eqn:Hplan; [done|].
  eapply wp_apply_plans; [done|by apply node_known_mono| |done]. apply elem_of_app. right. left.
Qed.

End enroll_safety.

(** On every run of the enrolment, whatever Ironic answers: before any port is
    created or changed, every requested port has been planned without conflict on
    the ports that Ironic listed, and the node was not available or was asked to
    leave the pool and seen to have left it.  So a conflict changes no port, and no
    port of an allocatable node is ever touched. *)
Theorem enroll_writes_guarded name net es reqs cmdb rclass di ex :
  build_netdev_ports es = inr reqs ->
  every_run (enroll name net es cmdb rclass di ex) tt (fun _ _ tr =>
    forall pre ev post, tr = pre ++ ev :: post -> writes_port ev = true ->
    exists node ports pending,
      (Ev (NodeGet name None) (inr node) ∈ pre \/ exists d, Ev (NodeCreate d) (inr node) ∈ pre) /\
      Ev (PortList node.(node_uuid)) (inr ports) ∈ pre /\
      plan_ports node name net ports reqs = inr pending /\
      (node.(provision_state) <> "available" \/ reached node "manage" "manageable" pre)).
Proof. apply enroll_guarded. Qed.

(** ** Firewalls in service *)

(** A call that reads, or that patches metadata keys of the node. *)
Definition metadata_call (node : Node) (ev : event IronicAPI) : Prop :=
  match ev with
  | Ev op _ => match op with
    | NodeGet _ _ | PortList _ => True
    | NodeUpdateAdd u us => u = node.(node_uuid) /\
        Forall (fun s => startswith "driver_info/" s = true \/ startswith "extra/" s = true) us
    | _ => False
    end
  end.
Definition updates_node (ev : event IronicAPI) : bool :=
  match ev with Ev op _ => match op with NodeUpdateAdd _ _ => true | _ => false end end.

Lemma changed_keys_prefix prefix cur wanted :
  Forall (fun s => startswith (prefix +:+ "/") s = true) (changed_keys prefix cur wanted).
Proof.
  unfold changed_keys. apply Forall_map, Forall_forall. intros kv _. apply startswith_spec.
  eexists. rewrite <- str_app_assoc. reflexivity.
Qed.

Lemma startswith_first tr tail node :
  tr <> [] -> first_answer (tr ++ tail) = Some (inr node) -> first_answer tr = Some (inr node).
Proof. by destruct tr. Qed.

(** Every requested port is there, as requested. *)
Definition all_match (name net : string) (reqs : list NetdevPort) (ports : list Port) : Prop :=
  forall req, req ∈ reqs -> exists ex,
    dict_get (port_full_name name req) (by_name ports) = Some ex /\ matches net req ex.

Lemma drift_check node name net reqs ports :
  res_fold (fun _ port =>
    plan ← plan_netdev_port node name net port
      (dict_get (port_full_name name port) (by_name ports)) (by_mac ports);
    match plan with
    | Some _ => inl (RuntimeError [node.(node_uuid); port_full_name name port])
    | None => mret tt
    end) reqs tt = inr tt -> all_match name net reqs ports.
Proof.
  rewrite res_fold_checks. intros Hall req Hreq. specialize (Hall req Hreq).
  destruct (dict_get (port_full_name name req) (by_name ports)) as [ex|] eqn:Hex.
  - pose proof (plan_existing node name net req ex (by_mac ports)) as Hp.
    destruct (plan_netdev_port node name net req (Some ex) (by_mac ports)) as [e|[[]|]]; try done. eauto.
  - unfold plan_netdev_port in Hall. by destruct (dict_get (lower (mac req)) (by_mac ports)).
Qed.

(** The part that deals with a node in service. *)
Lemma wp_update_active node name net es rclass cmdb di ex g0 :
  wp step_trace (_update_active_firewall node name net es rclass cmdb di ex)
    (fun _ _ tr => (exists tail, tr = [g0] ++ tail) /\ (metadata_call node g0 -> Forall (metadata_call node) tr) /\
       (existsb updates_node tr = true -> updates_node g0 = false ->
        node.(driver) = "netdev" /\ node.(resource_class) = Some rclass /\
        exists reqs ports, build_netdev_ports es = inr reqs /\
          Ev (PortList node.(node_uuid)) (inr ports) ∈ tr /\ all_match name net reqs ports)) tt [g0].
Proof.
  assert (forall tail, (forall ev, ev ∈ tail -> metadata_call node ev /\ updates_node ev = false) ->
    (exists t, g0 :: tail = [g0] ++ t) /\ (metadata_call node g0 -> Forall (metadata_call node) (g0 :: tail)) /\
    (existsb updates_node (g0 :: tail) = true -> updates_node g0 = false ->
     node.(driver) = "netdev" /\ node.(resource_class) = Some rclass /\
     exists reqs ports, build_netdev_ports es = inr reqs /\
       Ev (PortList node.(node_uuid)) (inr ports) ∈ g0 :: tail /\ all_match name net reqs ports)) as Hread.
  { intros tail Ht. split; [by eexists|]. split.
    - intros Hg. constructor; [done|]. apply Forall_forall. intros ev Hev. by apply Ht.
    - simpl. intros Hu Hg. rewrite Hg in Hu. apply existsb_exists in Hu as (ev & Hin & Hev).
      apply list_elem_of_In in Hin. destruct (Ht ev Hin). congruence. }
  unfold _update_active_firewall. destruct (decide (driver node = "netdev")) as [Hd|]; [|apply wp_raise, (Hread []); set_solver].
  destruct (decide (resource_class node = Some rclass)) as [Hr|]; [|apply wp_raise, (Hread []); set_solver].
  wp_pure. wp_pure. destruct (build_netdev_ports es) as [e|reqs] eqn:Hes; [apply (Hread []); set_solver|].
  wp_pure. unfold _reject_structural_drift. wp_pure. wp_logged l. destruct l as [e|ports].
  { apply (Hread [_]). intros ev ->%list_elem_of_singleton. done. }
  wp_pure. destruct (res_fold _ reqs tt) as [e|[]] eqn:Hdrift.
  { apply (Hread [_]). intros ev ->%list_elem_of_singleton. done. }
  apply drift_check in Hdrift. unfold apply_node_metadata.
  destruct (negb (truthy _)); [wp_pure; apply (Hread [_]); intros ev ->%list_elem_of_singleton; done|].
  wp_logged u. cbn [app]. split; [by eexists|]. split.
  - intros Hg. constructor; [done|]. repeat constructor. apply Forall_app. split;
      (eapply Forall_impl; [apply changed_keys_prefix|]); [by left|by right].
  - intros _ _. split; [done|]. split; [done|]. exists reqs, ports. split; [done|]. split; [|done]. set_solver.
Qed.

(** A firewall in service (state active) is never disturbed: on every run only
    look-ups and patches of driver_info/extra keys of that node happen, and a patch
    is sent only for a netdev node of the requested class on which every requested
    port exists exactly as requested. *)
Theorem active_firewall_metadata_only name net es rclass cmdb ip sw swport mate :
  every_run (enroll_fw name net es rclass cmdb ip sw swport mate) tt (fun _ _ tr =>
    forall node, first_answer tr = Some (inr node) -> node.(provision_state) = "active" ->
      Forall (metadata_call node) tr /\
      (existsb updates_node tr = true ->
       node.(driver) = "netdev" /\ (exists rc, _require_specific_resource_class rclass = inr rc /\
         node.(resource_class) = Some rc) /\
       exists reqs ports, build_netdev_ports es = inr reqs /\
         Ev (PortList node.(node_uuid)) (inr ports) ∈ tr /\ all_match name net reqs ports)).
Proof.
  assert (forall A (p : flow A) tr a, first_answer tr = Some a ->
    (forall node, a = inr node -> node.(provision_state) <> "active") ->
    forall (P : Node -> log -> Prop), wp step_trace p (fun _ _ tr' => forall node, first_answer tr' = Some (inr node) ->
      node.(provision_state) = "active" -> P node tr') tt tr) as Hother.
  { intros A p tr a Ha Hna P. eapply wp_mono; [|apply wp_trace_prefix]. intros _ _ tr' [tail ->] node Hf Hst.
    destruct tr as [|ev tr]; [done|]. change (first_answer ((ev :: tr) ++ tail)) with (first_answer (ev :: tr)) in Hf.
    rewrite Ha in Hf. injection Hf as ->. by destruct (Hna node eq_refl). }
  unfold every_run, enroll_fw. wp_pure. wp_pure.
  destruct (_require_specific_resource_class rclass) as [e|rc] eqn:Hrc; [done|].
  destruct (firewall_metadata ip sw swport mate) as [di ex]. wp_pure. unfold _get_node_or_none. wp_pure. wp_pure.
  wp_logged a. destruct a as [e|node].
  - destruct (NotFound e); [wp_pure; by apply (Hother _ _ _ (inl e))|].
    apply wp_raise. done.
  - wp_pure. destruct (decide (provision_state node = "active")) as [Hact|Hact];
      [|apply (Hother _ _ _ (inr node)); [done|by intros ? [= <-]]].
    eapply wp_mono; [|apply wp_update_active]. intros _ _ tr ([tail ->] & Hall & Hup) node' [= <-] _.
    split; [by apply Hall|]. intros Hu. destruct (Hup Hu eq_refl) as (? & ? & ?). split; [done|]. split; [by exists rc|done].
Qed.

(** *** A request for one port *)

Definition one_port : NetdevPort := MkNetdevPort "port1" "00:11:22:33:44:AA" "spine01" "Ethernet1/1" None.
Definition one_entry : json :=
  JObj [("label", JStr "port1"); ("mac", JStr "00:11:22:33:44:AA"); ("switch", JStr "spine01"); ("intf", JStr "Ethernet1/1")].
Definition stale_port : Port :=
  MkPort "u1" (Some "00:11:22:33:44:55") (Some "leaf01:port1") (Some "f20-1-network") None
    (Some {["switch_id" := "aa:bb:cc:dd:ee:ff"]}) true ∅.
Definition one_node : Node := MkNode "n1" "netdev" "manageable" None None None None.
Definition stale_patch : list port_patch :=
  [SetAddress "00:11:22:33:44:AA"; SetCategory "network"; SetLlc (make_llc "aa:bb:cc:dd:ee:ff" "spine01" "Ethernet1/1")].

(** The real switch id that was recorded is kept. *)
Lemma plan_netdev_port_converges_witness :
  plan_netdev_port one_node "leaf01" "f20-1-network" one_port (Some stale_port) (by_mac [stale_port])
    = inr (Some (Update stale_port stale_patch)) /\
  matches "f20-1-network" one_port (patched stale_port stale_patch).
Proof.
  assert (plan_netdev_port one_node "leaf01" "f20-1-network" one_port (Some stale_port) (by_mac [stale_port])
    = inr (Some (Update stale_port stale_patch))) as Hp by (vm_compute; reflexivity).
  split; [exact Hp|].
  exact (proj1 (proj1 (proj2 (proj2 (plan_netdev_port_converges _ _ _ _ _ _ _ Hp))))).
Defined.

Lemma enroll_writes_guarded_witness :
  build_netdev_ports [one_entry] = inr [one_port] /\
  every_run (enroll "leaf01" "f20-1-network" [one_entry] None None None None) tt (fun _ _ tr =>
    forall pre ev post, tr = pre ++ ev :: post -> writes_port ev = true ->
    exists node ports pending,
      (Ev (NodeGet "leaf01" None) (inr node) ∈ pre \/ exists d, Ev (NodeCreate d) (inr node) ∈ pre) /\
      Ev (PortList node.(node_uuid)) (inr ports) ∈ pre /\
      plan_ports node "leaf01" "f20-1-network" ports [one_port] = inr pending /\
      (node.(provision_state) <> "available" \/ reached node "manage" "manageable" pre)).
Proof.
  assert (build_netdev_ports [one_entry] = inr [one_port]) as Hb by (vm_compute; reflexivity).
  split; [exact Hb|]. exact (enroll_writes_guarded _ _ _ _ _ _ _ _ Hb).
Defined.
