(* ===== verification/NetdevStore.v ===== *)
(** * Enrolment against Ironic

    [Netdev.enroll] run against a store that behaves as Ironic documents for one
    node: provision states change only by the transitions that exist, ports of an
    available node cannot be written, and names and MAC addresses of ports are
    unique.  What a metadata patch does to the node's other attributes is left
    open: [apply_updates] is any function that keeps the node's identity, driver
    and provision state. *)
From S2P Require Import Prelude PyStr PyData IronicNode Netdev.

Record ironic := MkIronic { st_node : option Node; st_ports : list Port }.

Definition next_state (state target : string) : option string :=
  match state, target with
  | "enroll", "manage" | "available", "manage" => Some "manageable"
  | "manageable", "provide" => Some "available"
  | _, _ => None
  end.
Definition set_state (n : Node) (s : string) : Node :=
  MkNode n.(node_uuid) n.(driver) s n.(resource_class) n.(driver_info) n.(node_extra) n.(inspect_interface).

Definition refused (why : string) : exn := Exn "HttpError" [why].
Definition is_available (n : option Node) : bool :=
  match n with Some n => bool_decide (n.(provision_state) = "available") | None => false end.

(** The ports after a change to one of them. *)
Definition add_port (d : port_data_t) (ps : list Port) : list Port :=
  ps ++ [created (fresh (list_to_set (map port_uuid ps) : gset string)) d].
Definition change_port (u : string) (cs : list port_patch) (ps : list Port) : list Port :=
  map (fun p => if decide (p.(port_uuid) = u) then patched p cs else p) ps.

(** Names and MAC addresses stay unique. *)
Definition taken (d : port_data_t) (ps : list Port) : bool :=
  existsb (fun p => bool_decide (p.(port_name) = Some d.(pd_name) \/ addr_key p = lower d.(pd_address))) ps.
Definition clashes (u : string) (cs : list port_patch) (ps : list Port) : bool :=
  existsb (fun p => bool_decide (p.(port_uuid) = u) &&
    existsb (fun q => bool_decide (q.(port_uuid) <> u /\ addr_key q = addr_key (patched p cs))) ps) ps.

Section store.
Context (apply_updates : list string -> Node -> Node) (new_uuid : string).

Definition ironic_env (R : Type) (op : IronicAPI R) (s : ironic) : res R * ironic :=
  match op in IronicAPI R return res R * ironic with
  | NodeGet ident _ => match s.(st_node) with
                       | Some n => (inr n, s)
                       | None => (inl (Exn "NotFound" [ident]), s)
                       end
  | NodeCreate d =>
      let n := MkNode new_uuid d.(nd_driver) "enroll" d.(nd_resource_class) d.(nd_driver_info) d.(nd_extra)
                 d.(nd_inspect_interface) in
      (inr n, MkIronic (Some n) s.(st_ports))
  | NodeUpdateAdd _ us => (inr tt, MkIronic (apply_updates us <$> s.(st_node)) s.(st_ports))
  | NodeSetProvisionState _ target _ _ _ =>
      match s.(st_node) with
      | Some n => match next_state n.(provision_state) target with
                  | Some st => (inr tt, MkIronic (Some (set_state n st)) s.(st_ports))
                  | None => (inl (refused "invalid state transition"), s)
                  end
      | None => (inl (Exn "NotFound" []), s)
      end
  | NodeWaitProvisionState _ expected _ =>
      match s.(st_node) with
      | Some n => if decide (n.(provision_state) = expected) then (inr tt, s) else (inl (refused "timeout"), s)
      | None => (inl (Exn "NotFound" []), s)
      end
  | PortList _ => (inr s.(st_ports), s)
  | PortCreate d =>
      if is_available s.(st_node) || taken d s.(st_ports) then (inl (refused "conflict"), s)
      else (inr (created (fresh (list_to_set (map port_uuid s.(st_ports)) : gset string)) d),
            MkIronic s.(st_node) (add_port d s.(st_ports)))
  | PortUpdate u cs =>
      if is_available s.(st_node) || clashes u cs s.(st_ports) then (inl (refused "conflict"), s)
      else (inr tt, MkIronic s.(st_node) (change_port u cs s.(st_ports)))
  | _ => (inl (refused "not supported"), s)
  end.

End store.

(** ** Ports *)

(** Identities of ports are unique. *)
Record unique (ps : list Port) : Prop := {
  unique_uuid : forall p q, p ∈ ps -> q ∈ ps -> p.(port_uuid) = q.(port_uuid) -> p = q;
  unique_mac : forall p q, p ∈ ps -> q ∈ ps -> addr_key p = addr_key q -> p = q;
  unique_name : forall p q n, p ∈ ps -> q ∈ ps -> p.(port_name) = Some n -> q.(port_name) = Some n -> p = q;
}.

Lemma by_mac_snoc ps p m :
  dict_get m (by_mac (ps ++ [p])) = if decide (addr_key p = m) then Some p else dict_get m (by_mac ps).
Proof. unfold by_mac. rewrite foldl_snoc. apply dict_get_set. Qed.
Lemma by_mac_sound ps m p : dict_get m (by_mac ps) = Some p -> p ∈ ps /\ addr_key p = m.
Proof.
  revert p. induction ps as [|q ps IH] using rev_ind; intros p; [done|]. rewrite by_mac_snoc, elem_of_app, list_elem_of_singleton.
  case_decide; [intros [= <-]; auto|]. intros Hd. apply IH in Hd as [? ?]. auto.
Qed.
Lemma by_mac_complete ps p : p ∈ ps -> is_Some (dict_get (addr_key p) (by_mac ps)).
Proof.
  induction ps as [|q ps IH] using rev_ind; [intros Hp; by apply elem_of_nil in Hp|].
  rewrite by_mac_snoc, elem_of_app, list_elem_of_singleton. intros [Hp| ->]; [|by rewrite decide_True].
  case_decide; [done|by apply IH].
Qed.

Lemma by_name_snoc ps p n :
  n <> "" ->
  dict_get n (by_name (ps ++ [p])) = if decide (p.(port_name) = Some n) then Some p else dict_get n (by_name ps).
Proof.
  intros Hn. unfold by_name. rewrite foldl_snoc. destruct (port_name p) as [m|]; [|by rewrite decide_False].
  destruct (truthy m) eqn:Hm.
  - rewrite dict_get_set. destruct (decide (m = n)) as [->|]; [by rewrite decide_True|rewrite decide_False; congruence].
  - rewrite decide_False; [done|]. intros [= ->]. by destruct n.
Qed.
Lemma by_name_sound ps n p : n <> "" -> dict_get n (by_name ps) = Some p -> p ∈ ps /\ p.(port_name) = Some n.
Proof.
  intros Hn. revert p. induction ps as [|q ps IH] using rev_ind; intros p; [done|].
  rewrite (by_name_snoc _ _ _ Hn), elem_of_app, list_elem_of_singleton.
  case_decide; [intros [= <-]; auto|]. intros Hd. apply IH in Hd as [? ?]. auto.
Qed.
Lemma by_name_complete ps n p : n <> "" -> p ∈ ps -> p.(port_name) = Some n -> is_Some (dict_get n (by_name ps)).
Proof.
  intros Hn. induction ps as [|q ps IH] using rev_ind; [intros Hp; by apply elem_of_nil in Hp|].
  rewrite (by_name_snoc _ _ _ Hn), elem_of_app, list_elem_of_singleton. intros [Hp| ->] Hname; [|by rewrite decide_True].
  case_decide; [done|by apply IH].
Qed.

Lemma full_name_not_empty name req : port_full_name name req <> "".
Proof. unfold port_full_name. by destruct name. Qed.
Lemma full_name_inj name r r' : port_full_name name r = port_full_name name r' -> label r = label r'.
Proof.
  unfold port_full_name. intros Heq. induction name as [|c s IH]; [by injection Heq|].
  injection Heq as Heq. by apply IH.
Qed.

(** Among unique ports the look-up by name is decided by membership. *)
Lemma by_name_iff ps n p : n <> "" -> unique ps -> dict_get n (by_name ps) = Some p <-> p ∈ ps /\ p.(port_name) = Some n.
Proof.
  intros Hn Hu. split; [by apply by_name_sound|]. intros [Hp Hname].
  destruct (by_name_complete ps n p Hn Hp Hname) as [q Hq]. rewrite Hq. f_equal.
  apply by_name_sound in Hq as [Hq1 Hq2]; [|done]. by eapply (unique_name _ Hu).
Qed.

Section converge.
Context (name net : string).
Abbreviation full := (port_full_name name).

(** No other port has the MAC address that the request wants. *)
Definition fits (ps : list Port) (req : NetdevPort) : Prop :=
  forall p, p ∈ ps -> addr_key p = lower req.(mac) -> p.(port_name) = Some (full req).

(** One port was brought to what is requested, and nothing else changed. *)
Record settles (ps ps' : list Port) (req : NetdevPort) : Prop := {
  settles_unique : unique ps';
  settles_there : exists p, p ∈ ps' /\ p.(port_name) = Some (full req) /\ matches net req p;
  settles_frame : forall p, p.(port_name) <> Some (full req) -> (p ∈ ps <-> p ∈ ps');
}.

Lemma add_settles node ps req :
  unique ps -> fits ps req -> (forall p, p ∈ ps -> p.(port_name) <> Some (full req)) ->
  taken (netdev_port_data node name net req) ps = false /\
  settles ps (add_port (netdev_port_data node name net req) ps) req.
Proof.
  intros Hu Hfit Hno. split.
  - apply not_true_iff_false. intros (p & Hp & Hd)%existsb_exists. apply bool_decide_eq_true in Hd.
    apply list_elem_of_In in Hp. destruct Hd as [Hd|Hd]; [by apply (Hno p Hp)|]. by apply (Hno p Hp), Hfit.
  - unfold add_port. set (u := fresh _). assert (forall p, p ∈ ps -> p.(port_uuid) <> u) as Hfresh.
    { intros p Hp Heq. apply (is_fresh (list_to_set (map port_uuid ps) : gset string)). fold u. rewrite <- Heq.
      apply elem_of_list_to_set, list_elem_of_fmap. eauto. }
    set (q := created u _). pose proof (created_matches node name net req u) as Hm. fold q in Hm.
    assert (forall p, p ∈ ps -> addr_key p <> addr_key q) as Hmac.
    { intros p Hp Heq. apply (Hno p Hp), Hfit; [done|]. rewrite Heq. apply Hm. }
    split.
    + split.
      * intros a b [Ha| ->%list_elem_of_singleton]%elem_of_app [Hb| ->%list_elem_of_singleton]%elem_of_app Hab;
          [by apply (unique_uuid _ Hu)|by destruct (Hfresh a Ha)|by destruct (Hfresh b Hb)|done].
      * intros a b [Ha| ->%list_elem_of_singleton]%elem_of_app [Hb| ->%list_elem_of_singleton]%elem_of_app Hab;
          [by apply (unique_mac _ Hu)|by destruct (Hmac a Ha)|by destruct (Hmac b Hb)|done].
      * intros a b n [Ha| ->%list_elem_of_singleton]%elem_of_app [Hb| ->%list_elem_of_singleton]%elem_of_app Han Hbn;
          [by eapply (unique_name _ Hu)| | |done]; [destruct (Hno a Ha)|destruct (Hno b Hb)]; rewrite ?Han, ?Hbn;
          [rewrite <- Hbn|rewrite <- Han]; done.
    + exists q. split; [apply elem_of_app; right; left|]. done.
    + intros p Hp. rewrite elem_of_app, list_elem_of_singleton. split; [by left|]. intros [?| ->]; [done|]. by destruct Hp.
Qed.

Lemma elem_of_change u cs ps q :
  q ∈ change_port u cs ps <-> exists p, p ∈ ps /\ q = if decide (p.(port_uuid) = u) then patched p cs else p.
Proof. unfold change_port. rewrite list_elem_of_fmap. naive_solver. Qed.

Lemma change_settles ps ex cs req :
  unique ps -> fits ps req -> ex ∈ ps -> ex.(port_name) = Some (full req) -> fixes net req ex cs ->
  clashes ex.(port_uuid) cs ps = false /\ settles ps (change_port ex.(port_uuid) cs ps) req.
Proof.
  intros Hu Hfit Hex Hname (_ & Hm & Huu & Hnn).
  assert (forall p, p ∈ ps -> p.(port_uuid) = ex.(port_uuid) -> p = ex) as Hsame
    by (intros p Hp Heq; by apply (unique_uuid _ Hu)).
  assert (forall p, p ∈ ps -> p.(port_uuid) <> ex.(port_uuid) ->
    addr_key p <> addr_key (patched ex cs) /\ p.(port_name) <> Some (full req)) as Hother.
  { intros p Hp Hne. assert (p.(port_name) <> Some (full req)) as Hpn.
    { intros Hpn. apply Hne. f_equal. by eapply (unique_name _ Hu). }
    split; [|done]. intros Heq. apply Hpn, Hfit; [done|]. rewrite Heq. apply Hm. }
  assert (forall q, q ∈ change_port ex.(port_uuid) cs ps <->
    q = patched ex cs \/ (q ∈ ps /\ q.(port_uuid) <> ex.(port_uuid))) as Hin.
  { intros q. rewrite elem_of_change. split.
    - intros (p & Hp & ->). case_decide as Hd; [left; by rewrite (Hsame p Hp Hd)|by right].
    - intros [->|[Hq Hne]]; [exists ex; by rewrite decide_True|exists q; by rewrite decide_False]. }
  split.
  - apply not_true_iff_false. intros (p & Hp & Hd)%existsb_exists. apply list_elem_of_In in Hp.
    apply andb_true_iff in Hd as [Hd (q & Hq & Hc)%existsb_exists]. apply bool_decide_eq_true in Hd, Hc.
    apply list_elem_of_In in Hq. rewrite (Hsame p Hp Hd) in Hc. destruct Hc as [Hc1 Hc2]. by destruct (Hother q Hq Hc1).
  - split.
    + split; [intros a b Ha Hb|intros a b Ha Hb|intros a b n Ha Hb]; rewrite Hin in Ha, Hb;
        destruct Ha as [->|[Ha Hna]], Hb as [->|[Hb Hnb]]; try done;
        rewrite ?Huu, ?Hnn, ?Hname.
      * intros Heq. by destruct Hnb.
      * intros Heq. by destruct Hna.
      * by apply (unique_uuid _ Hu).
      * intros Heq. destruct (Hother b Hb Hnb) as [Hx _]. by destruct Hx.
      * intros Heq. by destruct (Hother a Ha Hna).
      * by apply (unique_mac _ Hu).
      * intros [= <-] Hbn. by destruct (Hother b Hb Hnb).
      * intros Han [= <-]. by destruct (Hother a Ha Hna).
      * by eapply (unique_name _ Hu).
    + exists (patched ex cs). split; [apply Hin; by left|]. by rewrite Hnn.
    + intros p Hp. rewrite Hin. split.
      * intros Hpin. right. split; [done|]. intros Heq. apply Hp. by rewrite (Hsame p Hpin Heq).
      * intros [->|[? _]]; [|done]. rewrite Hnn in Hp. done.
Qed.

(** ** Applying the plans *)

Context (apply_updates : list string -> Node -> Node) (new_uuid : string).
Abbreviation env := (ironic_env apply_updates new_uuid).

Lemma run_mbind {A B} (p : flow A) (f : A -> flow B) s :
  run env (p ≫= f) tt s =
  match run env p tt s with
  | (inl e, g, s') => (inl e, g, s')
  | (inr a, g, s') => run env (f a) g s'
  end.
Proof. apply run_bind. Qed.

(** A plan made for a request settles it. *)
Lemma run_plan node n ps req macs pl :
  unique ps -> fits ps req -> is_available n = false ->
  plan_netdev_port node name net req (dict_get (full req) (by_name ps)) macs = inr pl ->
  exists ps', settles ps ps' req /\
    match pl with
    | None => ps' = ps
    | Some plan => run env (apply_port_plan node name net plan) tt (MkIronic n ps) = (inr tt, tt, MkIronic n ps')
    end.
Proof.
  intros Hu Hfit Hav Hpl. pose proof (full_name_not_empty name req) as Hne.
  destruct (dict_get (full req) (by_name ps)) as [ex|] eqn:Hex.
  - apply by_name_sound in Hex as [Hin Hname]; [|done].
    pose proof (plan_existing node name net req ex macs) as Hp. rewrite Hpl in Hp.
    destruct pl as [[q|e cs]|]; [done| |].
    + destruct Hp as [-> Hfix]. destruct (change_settles ps ex cs req Hu Hfit Hin Hname Hfix) as [Hc Hs].
      eexists. split; [exact Hs|]. unfold apply_port_plan. rewrite run_call. cbn [ironic_env st_node st_ports].
      rewrite Hav, Hc. reflexivity.
    + exists ps. split; [|done]. split; [done|by exists ex|done].
  - assert (forall p, p ∈ ps -> p.(port_name) <> Some (full req)) as Hno.
    { intros p Hp Hn. destruct (by_name_complete ps _ p Hne Hp Hn) as [q Hq]. congruence. }
    unfold plan_netdev_port in Hpl. destruct (dict_get (lower (mac req)) macs); [done|]. injection Hpl as <-.
    destruct (add_settles node ps req Hu Hfit Hno) as [Ht Hs]. eexists. split; [exact Hs|].
    unfold apply_port_plan, create_netdev_port. run_step.
    cbn [ironic_env st_node st_ports]. rewrite Hav, Ht. reflexivity.
Qed.

(** Settling one request keeps what another one needs. *)
Lemma settles_other ps ps' req req' :
  unique ps -> settles ps ps' req -> label req' <> label req -> lower req'.(mac) <> lower req.(mac) ->
  fits ps req' ->
  fits ps' req' /\ dict_get (full req') (by_name ps') = dict_get (full req') (by_name ps).
Proof.
  intros Hu [Hu' (p0 & Hp0 & Hn0 & Hm0) Hframe] Hl Hmac Hfit.
  assert (full req' <> full req) as Hfull by (by intros Heq%full_name_inj).
  pose proof (full_name_not_empty name req') as Hne. split.
  - intros p Hp Ha. destruct (decide (p.(port_name) = Some (full req))) as [Hn|Hn].
    + rewrite (unique_name _ Hu' p p0 _ Hp Hp0 Hn Hn0) in Ha. destruct Hm0 as [Hm0 _ _ _ _ _]. congruence.
    + apply Hfit; [by apply Hframe|done].
  - apply option_eq. intros p. rewrite !by_name_iff by done. split; intros [Hp Hn]; (split; [|done]);
      apply Hframe; congruence.
Qed.

Lemma run_plans node n macs todo plans ps :
  unique ps -> is_available n = false ->
  NoDup (map label todo) -> NoDup (map (fun r => lower r.(mac)) todo) ->
  Forall (fits ps) todo ->
  Forall2 (fun req pl => plan_netdev_port node name net req (dict_get (full req) (by_name ps)) macs = inr pl) todo plans ->
  exists ps', run env (for_each (omap (fun p => p) plans) (apply_port_plan node name net)) tt (MkIronic n ps)
                = (inr tt, tt, MkIronic n ps') /\
    unique ps' /\
    (forall req, req ∈ todo -> exists p, p ∈ ps' /\ p.(port_name) = Some (full req) /\ matches net req p) /\
    (forall p, (forall req, req ∈ todo -> p.(port_name) <> Some (full req)) -> (p ∈ ps <-> p ∈ ps')).
Proof.
  intros Hu Hav. revert plans ps Hu. induction todo as [|req todo IH]; intros plans ps Hu Hl Hm Hfit Hplans.
  { apply Forall2_nil_inv_l in Hplans as ->. exists ps. split; [done|].
    split; [done|]. split; [|done]. intros req Hreq. by apply elem_of_nil in Hreq. }
  apply Forall2_cons_inv_l in Hplans as (pl & plans' & Hpl & Hplans & ->).
  apply NoDup_cons in Hl as [Hl1 Hl2]. apply NoDup_cons in Hm as [Hm1 Hm2]. apply Forall_cons in Hfit as [Hf1 Hf2].
  destruct (run_plan node n ps req macs pl Hu Hf1 Hav Hpl) as (ps1 & Hset & Hrun).
  assert (forall req', req' ∈ todo -> fits ps1 req' /\
    dict_get (full req') (by_name ps1) = dict_get (full req') (by_name ps)) as Hother.
  { intros req' Hr. rewrite Forall_forall in Hf2. apply (settles_other ps ps1 req req'); [done|done| | |by apply Hf2].
    - intros Heq. apply Hl1. rewrite <- Heq. apply list_elem_of_fmap. eauto.
    - intros Heq. apply Hm1. apply list_elem_of_fmap. eauto. }
  destruct (IH plans' ps1) as (ps' & Hrun' & Hu' & Hthere & Hframe); [apply Hset|done|done| | |].
  { apply Forall_forall. intros req' Hr. by apply Hother. }
  { clear -Hplans Hother. induction Hplans as [|r q todo plans' Hq _ IH]; constructor.
    - destruct (Hother r) as [_ ->]; [left|done].
    - apply IH. intros req' Hr. apply Hother. by right. }
  exists ps'. split.
  { cbn [omap list_omap]. destruct pl as [plan|]; [|by subst ps1]. cbn [for_each]. by rewrite run_bind, Hrun. }
  split; [done|]. destruct Hset as [Hu1 (p0 & Hp0 & Hn0 & Hm0) Hfr]. split.
  - intros r [->|Hr]%elem_of_cons; [|by apply Hthere]. exists p0. split; [|done]. apply Hframe; [|done].
    intros req' Hr Heq. rewrite Hn0 in Heq. apply Hl1. injection Heq as Heq.
    apply full_name_inj in Heq as ->. apply list_elem_of_fmap. eauto.
  - intros p Hp. rewrite Hfr; [|apply Hp; left]. apply Hframe. intros req' Hr. apply Hp. by right.
Qed.

(** Without a conflict, planning succeeds. *)
Lemma plan_one_ok node ps req :
  unique ps -> fits ps req ->
  exists pl, plan_netdev_port node name net req (dict_get (full req) (by_name ps)) (by_mac ps) = inr pl.
Proof.
  intros Hu Hfit. pose proof (full_name_not_empty name req) as Hne.
  assert (forall owner, dict_get (lower (mac req)) (by_mac ps) = Some owner ->
    dict_get (full req) (by_name ps) = Some owner) as Howner.
  { intros owner Ho. apply by_mac_sound in Ho as [Hin Ha]. apply by_name_iff; [done|done|]. auto. }
  destruct (dict_get (full req) (by_name ps)) as [ex|].
  - pose proof (plan_existing node name net req ex (by_mac ps)) as Hp.
    destruct (plan_netdev_port node name net req (Some ex) (by_mac ps)) as [e|pl]; [|eauto].
    destruct Hp as (_ & owner & Ho & Hx). destruct Hx. apply Howner in Ho. congruence.
  - unfold plan_netdev_port. destruct (dict_get (lower (mac req)) (by_mac ps)) as [owner|]; [|eauto].
    by specialize (Howner owner eq_refl).
Qed.

Lemma plan_ports_ok node ps reqs :
  unique ps -> Forall (fits ps) reqs ->
  exists plans, plan_ports node name net ps reqs = inr (omap (fun p => p) plans) /\
    Forall2 (fun req pl => plan_netdev_port node name net req (dict_get (full req) (by_name ps)) (by_mac ps) = inr pl)
      reqs plans.
Proof.
  intros Hu Hfit. assert (exists plans, Forall2 (fun req pl =>
    plan_netdev_port node name net req (dict_get (full req) (by_name ps)) (by_mac ps) = inr pl) reqs plans) as [plans Hp].
  { induction Hfit as [|req reqs Hreq _ [plans IH]]; [by exists []|].
    destruct (plan_one_ok node ps req Hu Hreq) as [pl Hpl]. exists (pl :: plans). by constructor. }
  exists plans. split; [|done]. unfold plan_ports. apply res_map_ok_iff in Hp. by rewrite Hp.
Qed.

(** ** The node *)

Hypothesis keeps : forall us n,
  (apply_updates us n).(provision_state) = n.(provision_state) /\ (apply_updates us n).(driver) = n.(driver).

Lemma run_transition node n ps target st :
  next_state n.(provision_state) target = Some st -> truthy st = true ->
  run env (transition node target st) tt (MkIronic (Some n) ps) = (inr tt, tt, MkIronic (Some (set_state n st)) ps).
Proof.
  intros Hn Ht. unfold transition, transition_with, mbind, prog_mbind. rewrite run_bind, run_call.
  cbn [ironic_env st_node]. rewrite Hn. cbn [fst snd]. rewrite Ht, run_call. cbn [ironic_env st_node set_state provision_state].
  by rewrite decide_True.
Qed.

Lemma run_metadata node n ps rc di ex (isnew : bool) :
  exists b n', run env (if negb isnew then update_node_metadata node rc di ex else mret false) tt (MkIronic (Some n) ps)
      = (inr b, tt, MkIronic (Some n') ps) /\
    n'.(provision_state) = n.(provision_state) /\ n'.(driver) = n.(driver).
Proof.
  destruct isnew; cbn [negb]; [by eexists _, n|]. unfold update_node_metadata.
  destruct (truthy (metadata_updates node rc di ex)); cbn [negb]; [|by eexists _, n].
  do 2 eexists. split; [reflexivity|]. apply keeps.
Qed.

Lemma run_make_available node n ps :
  n.(provision_state) = "enroll" \/ n.(provision_state) = "manageable" ->
  exists n', run env (make_available node n.(provision_state)) tt (MkIronic (Some n) ps)
      = (inr tt, tt, MkIronic (Some n') ps) /\ n'.(provision_state) = "available" /\ n'.(driver) = n.(driver).
Proof.
  intros Hs. unfold make_available, mbind, prog_mbind. destruct Hs as [Hs|Hs]; rewrite Hs; cbn [decide].
  - rewrite !decide_False, !decide_True by (done || set_solver). rewrite run_bind.
    rewrite (run_transition node n ps "manage" "manageable") by (by rewrite ?Hs).
    rewrite (run_transition node _ ps "provide" "available") by done. by eexists.
  - rewrite decide_False by done. rewrite decide_True by set_solver. rewrite decide_False by done. rewrite run_bind. cbn [run mret prog_mret].
    rewrite (run_transition node n ps "provide" "available") by (by rewrite ?Hs). by eexists.
Qed.

(** What the ports are afterwards. *)
Definition settled (reqs : list NetdevPort) (ps ps' : list Port) : Prop :=
  unique ps' /\
  (forall req, req ∈ reqs -> exists p, p ∈ ps' /\ p.(port_name) = Some (full req) /\ matches net req p) /\
  (forall p, (forall req, req ∈ reqs -> p.(port_name) <> Some (full req)) -> (p ∈ ps <-> p ∈ ps')).

Section applying.
Context (node : Node) (rc : string) (di ex : dict scalar) (reqs : list NetdevPort) (ps : list Port)
  (plans : list (option port_plan)).
Hypothesis ps_unique : unique ps.
Hypothesis labels_distinct : NoDup (map label reqs).
Hypothesis macs_distinct : NoDup (map (fun r => lower r.(mac)) reqs).
Hypothesis ports_fit : Forall (fits ps) reqs.
Hypothesis planned : Forall2 (fun req pl =>
  plan_netdev_port node name net req (dict_get (full req) (by_name ps)) (by_mac ps) = inr pl) reqs plans.
Abbreviation pending := (omap (fun p => p) plans).

Lemma run_pending n :
  is_available n = false ->
  exists ps', run env (for_each pending (apply_port_plan node name net)) tt (MkIronic n ps)
    = (inr tt, tt, MkIronic n ps') /\ settled reqs ps ps'.
Proof. intros Hav. by apply (run_plans node n (by_mac ps)). Qed.

Lemma nothing_pending : truthy pending = false -> settled reqs ps ps.
Proof.
  intros Hp%truthy_list_false. destruct (run_pending None eq_refl) as (ps' & Hrun & Hset).
  rewrite Hp in Hrun. cbn in Hrun. by injection Hrun as ->.
Qed.

(** The tail of the enrolment, once the node is out of the pool. *)
Lemma run_apply_tail n isnew :
  n.(provision_state) = "enroll" \/ n.(provision_state) = "manageable" ->
  exists n' ps', run env
    (_ ← (if negb isnew then update_node_metadata node rc di ex else mret false);
     if negb (truthy pending) && bool_decide (n.(provision_state) = "available") then mret tt
     else _ ← for_each pending (apply_port_plan node name net); make_available node n.(provision_state))
    tt (MkIronic (Some n) ps) = (inr tt, tt, MkIronic (Some n') ps') /\
    n'.(provision_state) = "available" /\ n'.(driver) = n.(driver) /\ settled reqs ps ps'.
Proof.
  intros Hs. assert (n.(provision_state) <> "available") as Hna by (destruct Hs as [-> | ->]; done).
  unfold mbind, prog_mbind. destruct (run_metadata node n ps rc di ex isnew) as (b & n1 & Hr1 & Hs1 & Hd1).
  rewrite run_bind, Hr1. rewrite bool_decide_eq_false_2 by done. rewrite andb_false_r.
  destruct (run_pending (Some n1)) as (ps' & Hr2 & Hset); [simpl; by rewrite Hs1, bool_decide_eq_false_2|].
  rewrite run_bind, Hr2. rewrite <- Hs1 in *.
  destruct (run_make_available node n1 ps' Hs) as (n2 & Hr3 & Hs3 & Hd3). rewrite Hr3.
  exists n2, ps'. rewrite Hd3, Hd1. done.
Qed.

Lemma run_apply_plans n isnew :
  node.(provision_state) = n.(provision_state) -> n.(provision_state) ∈ REENROLLABLE_STATES ->
  exists n' ps', run env (apply_plans node isnew name net rc di ex pending) tt (MkIronic (Some n) ps)
      = (inr tt, tt, MkIronic (Some n') ps') /\
    n'.(provision_state) = "available" /\ n'.(driver) = n.(driver) /\ settled reqs ps ps'.
Proof.
  intros Hnode Hst. unfold apply_plans. rewrite Hnode.
  destruct (decide (n.(provision_state) = "available")) as [Ha|Ha].
  - rewrite bool_decide_eq_true_2 by done. rewrite andb_true_r. destruct (truthy pending) eqn:Hp.
    + unfold mbind at 1, prog_mbind at 1. rewrite run_bind. unfold mbind at 1, prog_mbind at 1. rewrite run_bind.
      rewrite (run_transition node n ps "manage" "manageable") by (by rewrite ?Ha). cbn [run mret prog_mret].
      destruct (run_apply_tail (set_state n "manageable") isnew) as (n' & ps' & Hr & Hs & Hd & Hset); [by right|].
      cbn [set_state provision_state] in Hr. rewrite Hp in Hr. eauto 10.
    + unfold mbind, prog_mbind. rewrite run_bind. cbn [run mret prog_mret].
      destruct (run_metadata node n ps rc di ex isnew) as (b & n1 & Hr1 & Hs1 & Hd1). rewrite run_bind, Hr1.
      rewrite bool_decide_eq_true_2 by done. exists n1, ps. split; [done|]. split; [congruence|]. split; [done|].
      by apply nothing_pending.
  - rewrite bool_decide_eq_false_2 by done. rewrite andb_false_r. unfold mbind at 1, prog_mbind at 1. rewrite run_bind.
    cbn [run mret prog_mret]. apply run_apply_tail. set_solver.
Qed.

End applying.

Lemma settled_fits reqs ps ps' :
  settled reqs ps ps' -> Forall (fits ps') reqs.
Proof.
  intros (Hu & Hthere & _). apply Forall_forall. intros req Hreq p Hp Ha.
  destruct (Hthere req Hreq) as (q & Hq & Hn & Hm).
  rewrite (unique_mac _ Hu p q Hp Hq); [done|]. rewrite Ha. symmetry. apply Hm.
Qed.

(** When all is as requested, nothing is pending. *)
Lemma settled_plans node reqs ps ps' plans :
  settled reqs ps ps' ->
  Forall2 (fun req pl => plan_netdev_port node name net req (dict_get (full req) (by_name ps')) (by_mac ps') = inr pl)
    reqs plans -> omap (fun p => p) plans = [].
Proof.
  intros (Hu & Hthere & _) Hp. induction Hp as [|req pl reqs plans Hpl _ IH]; [done|].
  destruct (Hthere req) as (p & Hin & Hn & Hm); [left|].
  assert (dict_get (full req) (by_name ps') = Some p) as Hget.
  { apply by_name_iff; [apply full_name_not_empty|done|done]. }
  rewrite Hget, (plan_matching node name net req p _ Hm) in Hpl. injection Hpl as <-.
  apply IH. intros r Hr. apply Hthere. by right.
Qed.

(** ** The whole enrolment *)

Section whole.
Context (es : list json) (cmdb : option scalar) (rclass : option string) (di ex : option (dict scalar))
  (reqs : list NetdevPort).
Hypothesis request_ok : build_netdev_ports es = inr reqs.

Lemma run_find_existing n ps rc dinfo extra :
  n.(driver) = "netdev" -> n.(provision_state) ∈ REENROLLABLE_STATES ->
  run env (find_or_create_netdev_node name rc dinfo extra) tt (MkIronic (Some n) ps)
  = (inr (n, false), tt, MkIronic (Some n) ps).
Proof.
  intros Hd Hst. unfold find_or_create_netdev_node. run_step.
  cbn [ironic_env st_node fst snd run mret prog_mret]. by rewrite !decide_True by done.
Qed.

(** The node that the enrolment finds or creates. *)
Lemma run_find s rc dinfo extra :
  (forall n, s.(st_node) = Some n -> n.(driver) = "netdev" /\ n.(provision_state) ∈ REENROLLABLE_STATES) ->
  exists n isnew, run env (find_or_create_netdev_node name rc dinfo extra) tt s
      = (inr (n, isnew), tt, MkIronic (Some n) s.(st_ports)) /\
    n.(driver) = "netdev" /\ n.(provision_state) ∈ REENROLLABLE_STATES.
Proof.
  intros Hs. destruct s as [[n|] ps].
  - destruct (Hs n eq_refl) as [Hd Hst]. exists n, false. by rewrite run_find_existing.
  - unfold find_or_create_netdev_node. run_step.
    cbn [ironic_env st_node fst snd run mret prog_mret]. change (NotFound (Exn "NotFound" [name])) with true. cbn [run mret prog_mret].
    unfold create_netdev_node. rewrite run_bind, run_call. cbn [ironic_env fst snd run mret prog_mret].
    do 2 eexists. split; [reflexivity|]. split; [done|]. left.
Qed.

Lemma run_enroll s :
  unique s.(st_ports) -> Forall (fits s.(st_ports)) reqs ->
  NoDup (map label reqs) -> NoDup (map (fun r => lower r.(mac)) reqs) ->
  (forall n, s.(st_node) = Some n -> n.(driver) = "netdev" /\ n.(provision_state) ∈ REENROLLABLE_STATES) ->
  exists n' ps', run env (enroll name net es cmdb rclass di ex) tt s = (inr tt, tt, MkIronic (Some n') ps') /\
    n'.(provision_state) = "available" /\ n'.(driver) = "netdev" /\ settled reqs s.(st_ports) ps'.
Proof.
  intros Hu Hfit Hl Hm Hs. unfold enroll. rewrite request_ok. rewrite run_mbind. cbn [lift run].
  rewrite run_mbind.
  edestruct (run_find s) as (n & isnew & Hr & Hd & Hst); [exact Hs|]. rewrite Hr.
  rewrite run_mbind, run_call. cbn [ironic_env fst snd st_ports].
  destruct (plan_ports_ok n s.(st_ports) reqs Hu Hfit) as (plans & Hplan & Hplans). rewrite Hplan.
  rewrite run_mbind. cbn [lift run].
  edestruct (run_apply_plans n) as (n' & ps' & Hr' & Hst' & Hd' & Hset); [done..|exact Hst|].
  rewrite Hr'. exists n', ps'. split; [done|]. split; [done|]. split; [congruence|done].
Qed.

(** Once everything is as requested, only metadata can still be written. *)
Lemma run_enroll_again n ps ps' :
  settled reqs ps ps' -> n.(provision_state) = "available" -> n.(driver) = "netdev" ->
  exists n', run env (enroll name net es cmdb rclass di ex) tt (MkIronic (Some n) ps')
      = (inr tt, tt, MkIronic (Some n') ps') /\ n'.(provision_state) = "available".
Proof.
  intros Hset Hst Hd. unfold enroll. rewrite request_ok. rewrite run_mbind. cbn [lift run].
  rewrite run_mbind, run_find_existing by (done || (rewrite Hst; set_solver)).
  rewrite run_mbind, run_call. cbn [ironic_env fst snd st_ports].
  destruct (plan_ports_ok n ps' reqs) as (plans & Hplan & Hplans); [apply Hset|by eapply settled_fits|].
  rewrite Hplan, (settled_plans n reqs ps ps' plans Hset Hplans).
  rewrite run_mbind. cbn [lift run]. unfold apply_plans. cbn [truthy truthy_list negb andb].
  rewrite run_mbind. cbn [run mret prog_mret].
  destruct (run_metadata n n ps' (str_or rclass DEFAULT_RESOURCE_CLASS) (default [] di)
    (with_cmdb_id cmdb (default [] ex)) false) as (b & n1 & Hr1 & Hs1 & _). cbn [negb] in Hr1. rewrite run_mbind, Hr1.
  rewrite bool_decide_eq_true_2 by done. exists n1. split; [done|congruence].
Qed.

End whole.

End converge.

(** C11. Enrolment converges.  Against an Ironic that refuses port changes on available
    nodes, undefined transitions and duplicate names or MAC addresses, for a request
    without conflict on a new node or on a re-enrollable netdev node: the workflow
    succeeds and leaves the node available; every requested port exists under its
    name exactly as requested; every other port is untouched; and running it again
    succeeds and changes no port. *)
Theorem enroll_converges apply_updates new_uuid name net es reqs cmdb rclass di ex s :
  (forall us n, (apply_updates us n).(provision_state) = n.(provision_state) /\
                (apply_updates us n).(driver) = n.(driver)) ->
  build_netdev_ports es = inr reqs ->
  unique s.(st_ports) -> Forall (fits name s.(st_ports)) reqs ->
  (forall n, s.(st_node) = Some n -> n.(driver) = "netdev" /\ n.(provision_state) ∈ REENROLLABLE_STATES) ->
  let workflow := run (ironic_env apply_updates new_uuid) (enroll name net es cmdb rclass di ex) tt in
  exists n' ps', workflow s = (inr tt, tt, MkIronic (Some n') ps') /\
    n'.(provision_state) = "available" /\
    (forall req, req ∈ reqs -> exists p,
       p ∈ ps' /\ p.(port_name) = Some (port_full_name name req) /\ matches net req p) /\
    (forall p, (forall req, req ∈ reqs -> p.(port_name) <> Some (port_full_name name req)) ->
       (p ∈ s.(st_ports) <-> p ∈ ps')) /\
    exists n'', workflow (MkIronic (Some n') ps') = (inr tt, tt, MkIronic (Some n'') ps') /\
      n''.(provision_state) = "available".
Proof.
  intros Hkeeps Hes Hu Hfit Hs. cbn zeta.
  pose proof Hes as Hes'. apply build_ports_iff in Hes' as (_ & _ & Hl & Hm).
  destruct (run_enroll name net apply_updates new_uuid Hkeeps es cmdb rclass di ex reqs Hes s Hu Hfit Hl Hm Hs)
    as (n' & ps' & Hr & Hst & Hd & Hset).
  exists n', ps'. split; [exact Hr|]. split; [exact Hst|]. split; [apply Hset|]. split; [apply Hset|].
  by eapply run_enroll_again.
Qed.

(** *** A switch whose first port exists with another MAC address *)

Definition sample_entry (l m : string) : json :=
  JObj [("label", JStr l); ("mac", JStr m); ("switch", JStr "spine01"); ("intf", JStr "Ethernet1/1")].
Definition sample_request : list json := [sample_entry "port1" "00:11:22:33:44:AA"; sample_entry "port2" "00:11:22:33:44:66"].
Definition sample_reqs : list NetdevPort :=
  match build_netdev_ports sample_request with inr l => l | inl _ => [] end.
Definition sample_p1 : Port := MkPort "u1" (Some "00:11:22:33:44:55") (Some "leaf01:port1") None None None true ∅.
Definition sample_p9 : Port := MkPort "u9" (Some "00:11:22:33:44:99") (Some "leaf01:old") None None None true ∅.
Definition sample_store : ironic :=
  MkIronic (Some (MkNode "n1" "netdev" "available" (Some "generic") None None None)) [sample_p1; sample_p9].
Lemma sample_ports p : p ∈ st_ports sample_store -> p = sample_p1 \/ p = sample_p9.
Proof. cbn. set_solver. Qed.
Lemma sample_unique : unique (st_ports sample_store).
Proof.
  split; [intros p q Hp Hq|intros p q Hp Hq|intros p q n Hp Hq]; apply sample_ports in Hp, Hq;
    destruct Hp as [-> | ->], Hq as [-> | ->]; try done; cbn; congruence.
Qed.
Lemma sample_fits : Forall (fits "leaf01" (st_ports sample_store)) sample_reqs.
Proof.
  apply Forall_forall. intros req Hreq p Hp Ha. apply sample_ports in Hp.
  assert (req ∈ [MkNetdevPort "port1" "00:11:22:33:44:AA" "spine01" "Ethernet1/1" None;
                 MkNetdevPort "port2" "00:11:22:33:44:66" "spine01" "Ethernet1/1" None]) as Hr by exact Hreq.
  rewrite !elem_of_cons, elem_of_nil in Hr. destruct Hr as [-> |[-> |[]]], Hp as [-> | ->]; by vm_compute in Ha.
Qed.

Lemma enroll_converges_witness :
  exists n' ps', run (ironic_env (fun _ n => n) "new")
      (enroll "leaf01" "f20-1-network" sample_request None None None None) tt sample_store
    = (inr tt, tt, MkIronic (Some n') ps') /\ n'.(provision_state) = "available" /\
    forall req, req ∈ sample_reqs -> exists p,
      p ∈ ps' /\ p.(port_name) = Some (port_full_name "leaf01" req) /\ matches "f20-1-network" req p.
Proof.
  destruct (enroll_converges (fun _ n => n) "new" "leaf01" "f20-1-network" sample_request sample_reqs None None None None
    sample_store) as (n' & ps' & Hr & Hst & Hthere & _).
  - done.
  - vm_compute. reflexivity.
  - exact sample_unique.
  - exact sample_fits.
  - intros n [= <-]. split; [done|]. set_solver.
  - exists n', ps'. split; [exact Hr|]. split; [exact Hst|exact Hthere].
Defined.
