(* ===== verification/Nautobot.v ===== *)
(** * Nautobot as the workflows see it

    The objects and requests of the third-party client [pynautobot] that the
    workflows use ([NbAPI]), and two pure helpers of
    [src/python/understack-workflows/understack_workflows/]:
    [ironic/provision_state_mapper.py] and [interface_normalization.py].

    A [pynautobot] record is the value of its attributes when it was read;
    assigning an attribute changes the record only, and [save()] hands the
    assigned attributes to Nautobot, so a save is a request with a list of
    assignments.  [get()] answers nothing, one record or a list, and the code
    tells these apart ([found]). *)
From S2P Require Import Prelude PyStr PyData.

(** ** Answers *)

(** What [pynautobot]'s [get()] returns: [None], a record, or a list. *)
Inductive found (A : Type) : Type := FNone | FOne (a : A) | FMany (l : list A).
Arguments FNone {A}.
Arguments FOne {A} a.
Arguments FMany {A} l.
#[export] Instance found_eq_dec {A} `{EqDecision A} : EqDecision (found A).
Proof. solve_decision. Defined.
(** A record is true; a list is true when it is not empty. *)
#[export] Instance truthy_found {A} : Truthy (found A) := fun x =>
  match x with FNone => false | FOne _ => true | FMany l => truthy l end.
(** [x and not isinstance(x, list)] *)
Definition single {A} (x : found A) : option A := match x with FOne a => Some a | _ => None end.

(** [pynautobot.RequestError] carries the status code and the body of the
    response; the texts of other exceptions are their arguments. *)
Definition RequestError (status : Z) (body : string) : exn := Exn "RequestError" [pretty status; body].
Definition is_RequestError (e : exn) : bool := bool_decide (e.(exn_cls) = "RequestError").
Definition exn_status (e : exn) : option Z :=
  if is_RequestError e then match e.(exn_args) with st :: _ => py_int st | [] => None end else None.
(** [text in str(e).lower()] *)
Definition exn_mentions (text : string) (e : exn) : bool := existsb (fun a => contains text (lower a)) e.(exn_args).
(** [text in e.error], the body of the response *)
Definition body_mentions (text : string) (e : exn) : bool :=
  match e.(exn_args) with _ :: body :: _ => contains text body | _ => false end.

(** ** JSON documents *)

(** [v.get(k, d)] *)
Definition jget_or (k : string) (d v : json) : res json :=
  match v with
  | JObj o => Ok (default d (dict_get k o))
  | _ => Err (AttributeError "get")
  end.
(** [k in v] *)
Definition jin (k : string) (v : json) : res bool :=
  match v with
  | JObj o => Ok (bool_decide (k ∈ o.*1))
  | JArr l => Ok (existsb (fun x => match x with JStr s => bool_decide (s = k) | _ => false end) l)
  | JStr s => Ok (contains k s)
  | _ => Err (TypeError ["argument is not iterable"])
  end.
(** [v.lower()] *)
Definition jlower (v : json) : res string :=
  match v with JStr s => Ok (lower s) | _ => Err (AttributeError "lower") end.
Definition is_jobj (v : json) : bool := match v with JObj _ => true | _ => false end.

(** ** Objects *)

Record nb_cable := NbCable { cable_id : string; termination_a_id : string; termination_b_id : string }.
Record nb_if := NbIf {
  nif_id : string; nif_name : string; nif_mac : option string; nif_type : option string;
  nif_description : string; nif_mgmt_only : bool; nif_device : string; nif_cable : option nb_cable;
}.
(** The attributes given to [interfaces.create]. *)
Record if_attrs := IfAttrs {
  ia_id : option string; ia_name : string; ia_type : string; ia_status : string; ia_mac : option string;
  ia_device : string; ia_enabled : option bool; ia_mgmt_only : option bool; ia_description : option string;
}.
(** An assignment to an attribute of an interface. *)
Inductive if_assign : Type :=
| SetName (v : string) | SetMac (v : string) | SetType (v : string) | SetDescription (v : string)
| SetMgmtOnly (v : bool) | SetStatus (v : string) | SetDevice (v : string).

(** A device; relations are read by their [id], choices by their [name] or
    [value]. *)
Record nb_device := NbDevice {
  dev_id : string; dev_name : option string; dev_serial : option string; dev_status : option string;
  dev_location : option string; dev_rack : option string; dev_position : option Z; dev_face : option string;
  dev_tenant : option string; dev_custom_fields : dict (option string);
}.
Record device_attrs := DeviceAttrs {
  da_id : string; da_name : string; da_status : string; da_role : string;
  da_manufacturer : option string; da_model : option string; da_location : string;
}.
Inductive dev_assign : Type :=
| DStatus (v : string) | DName (v : string) | DSerial (v : string) | DLocation (v : string) | DRack (v : string)
| DPosition (v : Z) | DFace (v : string) | DTenant (v : string) | DCustomFields (v : dict (option string)).

#[export] Instance nb_cable_eq_dec : EqDecision nb_cable.
Proof. solve_decision. Defined.
#[export] Instance nb_if_eq_dec : EqDecision nb_if.
Proof. solve_decision. Defined.
#[export] Instance if_assign_eq_dec : EqDecision if_assign.
Proof. solve_decision. Defined.
#[export] Instance nb_device_eq_dec : EqDecision nb_device.
Proof. solve_decision. Defined.
#[export] Instance dev_assign_eq_dec : EqDecision dev_assign.
Proof. solve_decision. Defined.

(** The payloads of VNIs and prefixes. *)
Record ucvni_payload := UcvniPayload {
  uv_id : option string; uv_name : string; uv_tenant : string; uv_group : string; uv_ucvni_id : Z;
}.
Record prefix_payload := PrefixPayload {
  pp_id : string; pp_prefix : string; pp_namespace : string; pp_tenant : string;
}.

(** ** Requests *)

Inductive NbAPI : Type -> Type :=
| IfGetById (id : string) : NbAPI (found nb_if)
| IfGetByName (device_id name : string) : NbAPI (found nb_if)
| IfGetOnSwitch (device name : string) : NbAPI (found nb_if)
| IfFilter (device_id : string) : NbAPI (list nb_if)
| IfCreate (attrs : if_attrs) : NbAPI nb_if
| IfSave (id : string) (assigned : list if_assign) : NbAPI unit
| IfDelete (id : string) : NbAPI unit
| CableGetFrom (termination_a : string) : NbAPI (found nb_cable)
| CableCreate (a b : string) : NbAPI string
| CableSave (id a b : string) : NbAPI unit
| CableDelete (id : string) : NbAPI unit
| IpGet (address : string) : NbAPI (found string)
| IpCreate (address namespace : string) : NbAPI (option string)
| IpAssocGet (ip_id : string) : NbAPI (found (option string))
| IpAssocCreate (ip_id interface : string) : NbAPI unit
| DevGetById (id : string) : NbAPI (found nb_device)
| DevGetByName (name : string) : NbAPI (found nb_device)
| DevCreate (attrs : device_attrs) : NbAPI nb_device
| DevSave (id : string) (assigned : list dev_assign) : NbAPI unit
| DevDelete (id : string) : NbAPI unit
| DevFilterTenant (tenant : string) : NbAPI (list nb_device)
| DevUpdateTenants (tenants : list (string * option string)) : NbAPI unit
| TenantGet (id : string) : NbAPI (found string)
| TenantCreate (id name description : string) : NbAPI unit
| TenantUpdate (id name description : string) : NbAPI unit
| TenantDelete (id : string) : NbAPI unit
| NamespaceGet (name : string) : NbAPI (found string)
| NamespaceCreate (name : string) : NbAPI unit
| NamespaceDelete (id : string) : NbAPI unit
| PrefixFilter (namespace_id : string) : NbAPI (list string)
| PrefixDelete (id : string) : NbAPI unit
| PrefixUpdate (id : string) (data : prefix_payload) : NbAPI unit
| PrefixCreate (data : prefix_payload) : NbAPI unit
| UcvniUpdate (id : string) (data : ucvni_payload) : NbAPI unit
| UcvniCreate (data : ucvni_payload) : NbAPI unit
| UcvniDelete (id : string) : NbAPI unit.

(** The requests that change nothing. *)
Definition nb_reads {R} (op : NbAPI R) : bool :=
  match op with
  | IfGetById _ | IfGetByName _ _ | IfGetOnSwitch _ _ | IfFilter _ | CableGetFrom _ | IpGet _ | IpAssocGet _
  | DevGetById _ | DevGetByName _ | DevFilterTenant _ | TenantGet _ | NamespaceGet _ | PrefixFilter _ => true
  | _ => false
  end.

(** ** Provision states *)

(* understack_workflows/ironic/provision_state_mapper.py:5-20 STATUS_MAP *)
Definition STATUS_MAP : dict string :=
  [("active", "Active"); ("enroll", "Planned"); ("available", "Available"); ("deploy failed", "Quarantine");
   ("error", "Quarantine"); ("rescue", "Quarantine"); ("rescue failed", "Quarantine");
   ("unrescueing", "Quarantine"); ("manageable", "Staged"); ("inspecting", "Provisioning");
   ("deploying", "Provisioning"); ("cleaning", "Quarantine"); ("clean failed", "Quarantine");
   ("deleting", "Decommissioning")].
(* understack_workflows/ironic/provision_state_mapper.py:21-48 ALL_IRONIC_STATES *)
Definition ALL_IRONIC_STATES : list string :=
  ["enroll"; "verifying"; "manageable"; "inspecting"; "inspect wait"; "inspect failed"; "cleaning"; "clean wait";
   "clean failed"; "available"; "deploying"; "wait call-back"; "deploy failed"; "active"; "deleting"; "error";
   "adopting"; "rescuing"; "rescue wait"; "rescue failed"; "rescue"; "unrescuing"; "unrescue failed";
   "servicing"; "service wait"; "service failed"].

(* understack_workflows/ironic/provision_state_mapper.py:50-69 translate_to_nautobot *)
Definition translate_to_nautobot (provision_state : string) : res (option string) :=
  match dict_get provision_state STATUS_MAP with
  | Some status => Ok (Some status)
  | None => if bool_decide (provision_state ∈ ALL_IRONIC_STATES) then Ok None
            else Err (ValueError [provision_state])
  end.

(** Every status name is a display name; a known state never raises, and only
    the states below change nothing. *)
Lemma translate_known st :
  st ∈ ALL_IRONIC_STATES -> exists status, translate_to_nautobot st = inr status.
Proof.
  intros Hst. unfold translate_to_nautobot. destruct (dict_get st STATUS_MAP); [by eexists|].
  rewrite bool_decide_true by exact Hst. by eexists.
Qed.
Lemma translate_err st e :
  translate_to_nautobot st = inl e <->
  e = ValueError [st] /\ st ∉ ALL_IRONIC_STATES /\ st <> "unrescueing".
Proof.
  unfold translate_to_nautobot. split.
  - destruct (dict_get st STATUS_MAP) eqn:Hd; [intros [=]|]. case_bool_decide as Hst; [intros [=]|].
    intros [= <-]. split_and!; [done..|]. by intros ->.
  - intros (-> & Hst & Hne). assert (dict_get st STATUS_MAP = None) as ->; [|by rewrite bool_decide_false].
    apply eq_None_not_Some. rewrite dict_get_keys. intros Hin.
    repeat (apply elem_of_cons in Hin as [->|Hin];
      [first [by destruct Hne|by destruct Hst; apply (bool_decide_unpack _); vm_compute]|]).
    by apply elem_of_nil in Hin.
Qed.

(** The state Ironic calls [unrescuing] has no status: the table spells it
    [unrescueing], which is no state of Ironic. *)
Lemma unrescuing_has_no_status :
  translate_to_nautobot "unrescuing" = inr None /\
  translate_to_nautobot "unrescueing" = inr (Some "Quarantine") /\ "unrescueing" ∉ ALL_IRONIC_STATES.
Proof. split_and!; [reflexivity..|]. apply (bool_decide_unpack _). by vm_compute. Qed.

(** ** Interface names *)

(* understack_workflows/interface_normalization.py:3-14 ABBREVIATIONS *)
Definition ABBREVIATIONS : list (string * string) :=
  [("bundle-e", "Bundle-Ether"); ("be", "Bundle-Ether"); ("e", "Ethernet"); ("fa", "FastEthernet");
   ("four", "FourHundredGigE"); ("fo", "FortyGigabitEthernet"); ("gi", "GigabitEthernet");
   ("hu", "HundredGigE"); ("te", "TenGigabitEthernet"); ("tw", "TwentyFiveGigE")].

Definition name_char (c : ascii) : bool := is_upper c || is_lower c || Ascii.eqb c "-"%char.
(* understack_workflows/interface_normalization.py:17-24 normalize_interface_name *)
Definition normalize_interface_name (name : string) : string :=
  match List.find (fun kv => startswith kv.1 (lower name)) ABBREVIATIONS with
  | Some (_, full_prefix) => full_prefix +:+ lstrip_by name_char name
  | None => name
  end.

Lemma lstrip_by_idem f s : lstrip_by f (lstrip_by f s) = lstrip_by f s.
Proof. induction s as [|c s IH]; simpl; [done|]. destruct (f c) eqn:Hc; [done|]. simpl. by rewrite Hc. Qed.
Lemma lstrip_by_app f a s : str_all f a = true -> lstrip_by f (a +:+ s) = lstrip_by f s.
Proof.
  induction a as [|c a IH]; simpl; [done|]. intros [Hc Ha]%andb_true_iff. rewrite Hc. by apply IH.
Qed.
Lemma str_map_app f a b : str_map f (a +:+ b) = str_map f a +:+ str_map f b.
Proof. induction a as [|c a IH]; simpl; [done|]. by rewrite IH. Qed.

(** Normalising a name that is already normalised changes nothing. *)
Lemma normalize_interface_name_idempotent name :
  normalize_interface_name (normalize_interface_name name) = normalize_interface_name name.
Proof.
  unfold normalize_interface_name at 2 3.
  destruct (List.find _ ABBREVIATIONS) as [[abbr full]|] eqn:Hf.
  - apply List.find_some in Hf as [Hin _]. unfold normalize_interface_name, lower. rewrite str_map_app.
    repeat (destruct Hin as [[= <- <-]|Hin];
      [simpl; f_equal; rewrite ?lstrip_by_idem; reflexivity|]). destruct Hin.
  - unfold normalize_interface_name. by rewrite Hf.
Qed.
