(* ===== verification/InterfaceSync.v ===== *)
(** * Interfaces of a device, from Ironic to Nautobot

    Models
    [src/python/understack-workflows/understack_workflows/oslo_event/nautobot_device_interface_sync.py].
    The requests to Nautobot are [NbAPI]; an inventory is the JSON document that
    Ironic serves, ports are Ironic's port objects. *)
From S2P Require Import Prelude PyStr PyData IronicNode Nautobot.

Abbreviation nbp A := (prog unit NbAPI A).

Definition EXIT_STATUS_SUCCESS : Z := 0.
Definition EXIT_STATUS_FAILURE : Z := 1.

(** ** Names *)

(* oslo_event/nautobot_device_interface_sync.py:30-36 INTERFACE_TYPE_MAP *)
Definition INTERFACE_TYPE_MAP : dict string :=
  [("slot", "25gbase-x-sfp28"); ("embedded", "25gbase-x-sfp28"); ("integrated", "25gbase-x-sfp28")].
Definition DEFAULT_INTERFACE_TYPE : string := "other".

(* oslo_event/nautobot_device_interface_sync.py:68-74 _get_interface_type *)
Definition _get_interface_type (name : string) : string :=
  match List.find (fun kv => contains kv.1 (lower name)) INTERFACE_TYPE_MAP with
  | Some (_, iface_type) => iface_type
  | None => DEFAULT_INTERFACE_TYPE
  end.

(* oslo_event/nautobot_device_interface_sync.py:77-111 _get_interface_description *)
Definition _get_interface_description (name : string) : string :=
  if contains "idrac" (lower name) then "Dedicated iDRAC interface"
  else match rsplit_once "."%char name with
       | None => ""
       | Some (prefix, suffix) =>
           match dict_get (lower prefix)
                   [("nic.integrated", "Integrated NIC"); ("nic.embedded", "Embedded NIC");
                    ("nic.slot", "NIC in Slot")] with
           | None => ""
           | Some prefix =>
               match split "-"%char suffix with
               | [nic; port] => prefix +:+ " " +:+ nic +:+ " Port " +:+ port
               | [nic; port; partition] =>
                   prefix +:+ " " +:+ nic +:+ " Port " +:+ port +:+ " Partition " +:+ partition
               | _ => ""
               end
           end
       end.

(** The examples of the documentation of [_get_interface_description]. *)
Example interface_descriptions :
  map _get_interface_description
    ["NIC.Embedded.1-1"; "NIC.Embedded.1-1-1"; "NIC.Integrated.1-1"; "NIC.Integrated.1-1-1"; "NIC.Slot.1-1";
     "NIC.Slot.1-2"; "iDRAC.Embedded.1"; "eth0"] =
  ["Embedded NIC 1 Port 1"; "Embedded NIC 1 Port 1 Partition 1"; "Integrated NIC 1 Port 1";
   "Integrated NIC 1 Port 1 Partition 1"; "NIC in Slot 1 Port 1"; "NIC in Slot 1 Port 2";
   "Dedicated iDRAC interface"; ""].
Proof. by vm_compute. Qed.

(** ** Interfaces from inventory and ports *)

(* oslo_event/nautobot_device_interface_sync.py:40-57 InterfaceInfo *)
Record InterfaceInfo := MkInterfaceInfo {
  ii_uuid : string; ii_name : string; ii_mac_address : string; ii_device_uuid : string; ii_description : string;
  ii_interface_type : string; ii_enabled : bool; ii_mgmt_only : bool; ii_pxe_enabled : bool;
  ii_switch_port_id : option string; ii_switch_info : option string; ii_switch_id : option string;
  ii_physical_network : option string;
}.

(* oslo_event/nautobot_device_interface_sync.py:114-128 _build_interface_map_from_inventory *)
Definition _build_interface_map_from_inventory (inventory : json) : res (dict json) :=
  inv ← jget_or "inventory" (JObj []) inventory;
  ifs ← jget_or "interfaces" (JArr []) inv;
  interfaces ← jiter ifs;
  res_fold (fun d interface =>
    has_mac ← jin "mac_address" interface;
    has_name ← (if has_mac : bool then jin "name" interface else Ok false);
    if (has_name : bool) then
      mac ← jitem "mac_address" interface; key ← jlower mac; name ← jitem "name" interface;
      Ok (dict_set key name d)
    else Ok d) interfaces [].

(** [bios_name or inv_name or port.name or port.uuid], where the name is used
    as a text by the functions above. *)
Definition interface_name (bios_name : option string) (inv_name : json) (p : Port) : res string :=
  if truthy bios_name then Ok (default "" bios_name)
  else if truthy inv_name then match inv_name with JStr s => Ok s | _ => Err (AttributeError "lower") end
  else Ok (str_or p.(port_name) p.(port_uuid)).

(* oslo_event/nautobot_device_interface_sync.py:283-328 _build_interfaces_from_ports *)
Definition _build_interfaces_from_ports (node_uuid : string) (ports : list Port) (inventory_map : dict json)
    : res (list InterfaceInfo) :=
  res_map (fun port =>
    let mac := match port.(port_address) with Some a => lower a | None => "" end in
    let llc := default ∅ port.(port_llc) in
    name ← interface_name (port.(port_extra) !! "bios_name") (default (JStr "") (dict_get mac inventory_map)) port;
    Ok (MkInterfaceInfo port.(port_uuid) name (upper mac) node_uuid (_get_interface_description name)
          (_get_interface_type name) true false port.(port_pxe_enabled) (llc !! "port_id") (llc !! "switch_info")
          (llc !! "switch_id") port.(port_physical_network))) ports.

(** ** Management interface *)

(* oslo_event/nautobot_device_interface_sync.py:131-206 _assign_ip_to_interface *)
Definition _assign_ip_to_interface (interface_id ip_address : string) : nbp unit :=
  if negb (truthy ip_address) then mret tt else
  existing_ip ← call (IpGet ip_address);
  ip_id ← match single existing_ip with
          | Some id => mret (Some id)
          | None => try_except (new_ip ← call (IpCreate ip_address "Rackspace");
                                mret (if truthy new_ip then new_ip else None)) (fun _ => mret None)
          end;
  match ip_id with
  | None => mret tt
  | Some ip_id =>
      existing_assoc ← call (IpAssocGet ip_id);
      match single existing_assoc with
      | Some _ => mret tt
      | None => try_except (call (IpAssocCreate ip_id interface_id)) (fun _ => mret tt)
      end
  end.

(* oslo_event/nautobot_device_interface_sync.py:209-280 sync_idrac_interface *)
Definition sync_idrac_interface (device_uuid bmc_mac : string) (bmc_ip : option string) : nbp unit :=
  if negb (truthy bmc_mac) then mret tt else
  let mac_address := upper bmc_mac in
  existing ← call (IfGetByName device_uuid "iDRAC");
  idrac_interface ←
    match single existing with
    | Some intf =>
        let current_mac := upper <$> intf.(nif_mac) in
        _ ← (if decide (current_mac = Some mac_address) then mret tt
             else call (IfSave intf.(nif_id) [SetMac mac_address]));
        mret intf
    | None => call (IfCreate (IfAttrs None "iDRAC" "1000base-t" "Active" (Some mac_address) device_uuid (Some true)
                                (Some true) (Some "Dedicated iDRAC interface")))
    end;
  if truthy bmc_ip && truthy idrac_interface.(nif_id)
  then _assign_ip_to_interface idrac_interface.(nif_id) (default "" bmc_ip)
  else mret tt.

(** ** Ports *)

(* oslo_event/nautobot_device_interface_sync.py:331-361 _create_nautobot_interface *)
Definition _create_nautobot_interface (interface : InterfaceInfo) : nbp (found nb_if) :=
  let attrs := IfAttrs (Some interface.(ii_uuid)) interface.(ii_name) interface.(ii_interface_type) "Active"
                 (Some interface.(ii_mac_address)) interface.(ii_device_uuid) (Some interface.(ii_enabled))
                 (Some interface.(ii_mgmt_only))
                 (if truthy interface.(ii_description) then Some interface.(ii_description) else None) in
  try_except (i ← call (IfCreate attrs); mret (FOne i))
    (fun e => if exn_mentions "unique" e then call (IfGetById interface.(ii_uuid)) else Raise e).

(* oslo_event/nautobot_device_interface_sync.py:364-378 _delete_nautobot_interface *)
Definition _delete_nautobot_interface (nautobot_intf : nb_if) : nbp unit :=
  _ ← match nautobot_intf.(nif_cable) with
      | Some cable => try_except (call (CableDelete cable.(cable_id))) (fun _ => mret tt)
      | None => mret tt
      end;
  call (IfDelete nautobot_intf.(nif_id)).

(* oslo_event/nautobot_device_interface_sync.py:381-407 _cleanup_stale_interfaces *)
Definition _cleanup_stale_interfaces (node_uuid : string) (valid_interface_ids : list string) : nbp unit :=
  existing_interfaces ← call (IfFilter node_uuid);
  for_each existing_interfaces (fun intf =>
    if bool_decide (intf.(nif_name) = "iDRAC") then mret tt
    else if bool_decide (intf.(nif_id) ∈ valid_interface_ids) then mret tt
    else try_except (_delete_nautobot_interface intf) (fun _ => mret tt)).

(** The assignments of [_update_nautobot_interface], in its order. *)
Definition if_changes (interface : InterfaceInfo) (i : nb_if) : list if_assign :=
  (if truthy interface.(ii_name) && bool_decide (i.(nif_name) <> interface.(ii_name))
   then [SetName interface.(ii_name)] else []) ++
  (if truthy interface.(ii_mac_address) && bool_decide (i.(nif_mac) <> Some interface.(ii_mac_address))
   then [SetMac interface.(ii_mac_address)] else []) ++
  (if truthy interface.(ii_interface_type) && bool_decide (i.(nif_type) <> Some interface.(ii_interface_type))
   then [SetType interface.(ii_interface_type)] else []) ++
  (if truthy interface.(ii_description) && bool_decide (i.(nif_description) <> interface.(ii_description))
   then [SetDescription interface.(ii_description)] else []) ++
  (if bool_decide (i.(nif_mgmt_only) <> interface.(ii_mgmt_only)) then [SetMgmtOnly interface.(ii_mgmt_only)] else []).

(* oslo_event/nautobot_device_interface_sync.py:410-478 _update_nautobot_interface *)
Definition _update_nautobot_interface (interface : InterfaceInfo) (nautobot_intf : nb_if) : nbp unit :=
  _ ← (if truthy interface.(ii_name) && bool_decide (nautobot_intf.(nif_name) <> interface.(ii_name)) then
         existing ← call (IfGetByName interface.(ii_device_uuid) interface.(ii_name));
         match single existing with
         | Some other => if bool_decide (other.(nif_id) <> interface.(ii_uuid))
                         then _delete_nautobot_interface other else mret tt
         | None => mret tt
         end
       else mret tt);
  match if_changes interface nautobot_intf with
  | [] => mret tt
  | changes => call (IfSave nautobot_intf.(nif_id) changes)
  end.

(** The text the placeholder check refuses. *)
Definition usable (v : option string) : option string :=
  match v with Some s => if truthy s && bool_decide (s <> "None") then Some s else None | None => None end.

(* oslo_event/nautobot_device_interface_sync.py:481-557 _handle_cable_management *)
Definition _handle_cable_management (interface : InterfaceInfo) (nautobot_intf : found nb_if) : nbp unit :=
  match usable interface.(ii_switch_info), usable interface.(ii_switch_port_id) with
  | Some switch_info, Some switch_port_id =>
      switch_intf ← call (IfGetOnSwitch switch_info switch_port_id);
      match single switch_intf with
      | None => mret tt
      | Some switch_intf =>
          match nautobot_intf with
          | FOne i =>
              match i.(nif_cable) with
              | Some cable =>
                  let a := cable.(termination_a_id) in let b := cable.(termination_b_id) in
                  if bool_decide (({[a; b]} : gset string) = {[interface.(ii_uuid); switch_intf.(nif_id)]})
                  then mret tt
                  else call (CableSave cable.(cable_id) interface.(ii_uuid) switch_intf.(nif_id))
              | None =>
                  try_except (_ ← call (CableCreate interface.(ii_uuid) switch_intf.(nif_id)); mret tt)
                    (fun _ => mret tt)
              end
          | _ => Raise (AttributeError "cable")
          end
      end
  | _, _ => mret tt
  end.

(* oslo_event/nautobot_device_interface_sync.py:592-601 sync_interfaces_from_data *)
Definition sync_interface (interface : InterfaceInfo) : nbp unit :=
  nautobot_intf ← call (IfGetById interface.(ii_uuid));
  nautobot_intf ←
    (if truthy nautobot_intf
     then match nautobot_intf with
          | FOne i => _ ← _update_nautobot_interface interface i; mret nautobot_intf
          | _ => Raise (AttributeError "name")
          end
     else _create_nautobot_interface interface);
  if truthy nautobot_intf then _handle_cable_management interface nautobot_intf else mret tt.

(** The address of a BMC is a text where it is present. *)
(* oslo_event/nautobot_device_interface_sync.py:603-608 sync_interfaces_from_data *)
Definition sync_bmc (node_uuid : string) (inventory : json) : nbp unit :=
  inv ← lift (jget_or "inventory" (JObj []) inventory);
  bmc_mac ← lift (jget "bmc_mac" inv);
  bmc_ip ← lift (jget "bmc_address" inv);
  if truthy bmc_mac then
    match bmc_mac with
    | JStr mac => sync_idrac_interface node_uuid mac (match bmc_ip with JStr ip => Some ip | _ => None end)
    | _ => Raise (AttributeError "upper")
    end
  else mret tt.

(* oslo_event/nautobot_device_interface_sync.py:560-624 sync_interfaces_from_data *)
Definition sync_interfaces_from_data (node_uuid : string) (inventory : json) (ports : list Port) : nbp Z :=
  if negb (truthy node_uuid) then mret EXIT_STATUS_FAILURE else
  try_except
    (inventory_map ← lift (_build_interface_map_from_inventory inventory);
     interfaces ← lift (_build_interfaces_from_ports node_uuid ports inventory_map);
     _ ← for_each interfaces sync_interface;
     _ ← sync_bmc node_uuid inventory;
     _ ← _cleanup_stale_interfaces node_uuid (map ii_uuid interfaces);
     mret EXIT_STATUS_SUCCESS)
    (fun _ => mret EXIT_STATUS_FAILURE).

(** ** Entry points *)

(** An Ironic node as the synchronisation reads it. *)
Record ir_node := MkIrNode {
  irn_properties : option (dict scalar); irn_traits : list string; irn_provision_state : string;
  irn_lessee : option string; irn_extra : option (dict scalar);
}.
(** The requests of the synchronisation: Nautobot's and Ironic's. *)
Inductive syncE : Type -> Type :=
| OnNautobot {R} (op : NbAPI R) : syncE R
| NewIronicClient : syncE unit
| IrNodeGet (node : string) : syncE ir_node
| IrInventory (node : string) : syncE json
| IrPorts (node : string) : syncE (list Port)
| IrNodeList : syncE (list string).
Abbreviation syncp A := (prog unit syncE A).
Definition on_nb {A} (p : nbp A) : syncp A := embed (@OnNautobot) p.

(* oslo_event/nautobot_device_interface_sync.py:627-665 sync_interfaces_to_nautobot *)
Definition sync_interfaces_to_nautobot (node_uuid : string) : syncp Z :=
  try_except
    (_ ← call NewIronicClient;
     inventory ← try_except (call (IrInventory node_uuid)) (fun _ => mret (JObj []));
     ports ← call (IrPorts node_uuid);
     on_nb (sync_interfaces_from_data node_uuid inventory ports))
    (fun _ => mret EXIT_STATUS_FAILURE).

(** Identifiers in events are texts. *)
Definition jtext (v : json) : option string := match v with JStr s => Some s | _ => None end.

(* oslo_event/nautobot_device_interface_sync.py:668-680 _extract_node_uuid_from_event *)
Definition _extract_node_uuid_from_event (event_data : json) : res (option string) :=
  payload ← jget_or "payload" (JObj []) event_data;
  if negb (is_jobj payload) then Ok None else
  ironic_data ← jget_or "ironic_object.data" (JObj []) payload;
  if negb (is_jobj ironic_data) then Ok None else
  node_uuid ← jget "node_uuid" ironic_data;
  if truthy node_uuid then Ok (jtext node_uuid) else
  uuid ← jget "uuid" ironic_data;
  if truthy uuid then Ok (jtext uuid) else Ok None.

(* oslo_event/nautobot_device_interface_sync.py:683-711 handle_interface_sync_event *)
Definition handle_interface_sync_event (event_data : json) : syncp Z :=
  node_uuid ← lift (_extract_node_uuid_from_event event_data);
  match node_uuid with
  | Some u => if truthy u then sync_interfaces_to_nautobot u else mret EXIT_STATUS_FAILURE
  | None => mret EXIT_STATUS_FAILURE
  end.
