(* ===== verification/InterfaceStore.v ===== *)
(** * Interface synchronisation against Nautobot

    [InterfaceSync.sync_interfaces_from_data] run against what Nautobot documents
    of its interface table: identifiers are unique, and so are the names of the
    interfaces of one device; a request that would break this is refused with an
    error that says so.  Any request may also fail otherwise, with or without effect
    ([faulty]).  Cables and IP addresses are left open: the cable that an
    interface carries and the answers about addresses are any. *)
From S2P Require Import Prelude PyStr PyData IronicNode Nautobot InterfaceSync.

Record if_row := IfRow {
  row_name : string; row_mac : option string; row_type : option string; row_description : string;
  row_mgmt_only : bool; row_device : string;
}.
Abbreviation if_table := (gmap string if_row).
#[export] Instance if_row_eq_dec : EqDecision if_row.
Proof. solve_decision. Defined.

Definition view (id : string) (r : if_row) (c : option nb_cable) : nb_if :=
  NbIf id r.(row_name) r.(row_mac) r.(row_type) r.(row_description) r.(row_mgmt_only) r.(row_device) c.
Definition new_row (a : if_attrs) : if_row :=
  IfRow a.(ia_name) a.(ia_mac) (Some a.(ia_type)) (default "" a.(ia_description)) (default false a.(ia_mgmt_only))
    a.(ia_device).
Definition assign (r : if_row) (c : if_assign) : if_row :=
  let 'IfRow n m t d g v := r in
  match c with
  | SetName x => IfRow x m t d g v | SetMac x => IfRow n (Some x) t d g v | SetType x => IfRow n m (Some x) d g v
  | SetDescription x => IfRow n m t x g v | SetMgmtOnly x => IfRow n m t d x v | SetStatus _ => r
  | SetDevice x => IfRow n m t d g x
  end.

(** Another interface of the device carries the name. *)
Definition name_taken (s : if_table) (id : string) (r : if_row) : Prop :=
  exists id' r', s !! id' = Some r' /\ id' <> id /\ r'.(row_device) = r.(row_device) /\ r'.(row_name) = r.(row_name).
Definition names_unique (s : if_table) : Prop := forall id r, s !! id = Some r -> ~ name_taken s id r.

Section store.
(** Identifiers that Nautobot does not generate: those of Ironic's ports. *)
Context (reserved : list string).

Definition nb_step (R : Type) (op : NbAPI R) (s : if_table) : res R -> if_table -> Prop :=
  match op in NbAPI R return res R -> if_table -> Prop with
  | IfGetById id => fun r s' => s' = s /\
      match s !! id with
      | Some row => exists c, r = inr (FOne (view id row c))
      | None => r = inr FNone
      end
  | IfGetByName d n => fun r s' => s' = s /\
      ((exists id row c, s !! id = Some row /\ row.(row_device) = d /\ row.(row_name) = n /\
                         r = inr (FOne (view id row c))) \/
       ((forall id row, s !! id = Some row -> row.(row_device) = d -> row.(row_name) <> n) /\ r = inr FNone))
  | IfFilter d => fun r s' => s' = s /\ exists l, r = inr l /\
      (forall i, i ∈ l -> exists row c, s !! i.(nif_id) = Some row /\ row.(row_device) = d /\ i = view i.(nif_id) row c) /\
      (forall id row, s !! id = Some row -> row.(row_device) = d -> exists i, i ∈ l /\ i.(nif_id) = id)
  | IfCreate a => fun r s' =>
      (exists id, match a.(ia_id) with Some i => id = i | None => id ∉ reserved end /\
         s !! id = None /\ ~ name_taken s id (new_row a) /\
         s' = <[id := new_row a]> s /\ r = inr (view id (new_row a) None)) \/
      (exists e, r = inl e /\ exn_mentions "unique" e = true /\ s' = s /\
         ((exists id, a.(ia_id) = Some id /\ is_Some (s !! id)) \/
          name_taken s (default "" a.(ia_id)) (new_row a)))
  | IfSave id cs => fun r s' =>
      match s !! id with
      | Some row => (~ name_taken s id (foldl assign row cs) /\ r = inr tt /\ s' = <[id := foldl assign row cs]> s) \/
                    (name_taken s id (foldl assign row cs) /\ s' = s /\ exists e, r = inl e)
      | None => s' = s /\ exists e, r = inl e
      end
  | IfDelete id => fun r s' =>
      match s !! id with
      | Some _ => r = inr tt /\ s' = delete id s
      | None => s' = s /\ exists e, r = inl e
      end
  | IfGetOnSwitch _ _ => fun r s' => s' = s /\ exists x, r = inr x
  | CableSave _ _ _ => fun r s' => s' = s /\ r = inr tt
  | IpGet _ => fun r s' => s' = s /\ exists x, r = inr x
  | IpAssocGet _ => fun r s' => s' = s /\ exists x, r = inr x
  | _ => fun _ s' => s' = s
  end.

End store.

(** ** Tables *)

Definition others (node : string) (s : if_table) : if_table := filter (fun kv => kv.2.(row_device) <> node) s.

Lemma others_insert node s id row :
  row.(row_device) = node -> (forall r0, s !! id = Some r0 -> r0.(row_device) = node) ->
  others node (<[id := row]> s) = others node s.
Proof.
  intros Hrow Hold. apply map_eq. intros k. unfold others. rewrite !map_lookup_filter.
  destruct (decide (id = k)) as [->|]; [|by rewrite lookup_insert_ne].
  rewrite lookup_insert_eq. cbn. rewrite option_guard_False by naive_solver.
  destruct (s !! k) as [r0|] eqn:Hk; cbn; [|done]. rewrite option_guard_False; naive_solver.
Qed.
Lemma others_delete node s id row :
  s !! id = Some row -> row.(row_device) = node -> others node (delete id s) = others node s.
Proof.
  intros Hk Hrow. apply map_eq. intros k. unfold others. rewrite !map_lookup_filter.
  destruct (decide (id = k)) as [->|]; [|by rewrite lookup_delete_ne].
  rewrite lookup_delete_eq, Hk. cbn. rewrite option_guard_False; naive_solver.
Qed.

Lemma names_unique_insert s id row :
  names_unique s -> ~ name_taken s id row -> names_unique (<[id := row]> s).
Proof.
  intros Hs Hrow k r [[-> ->]|[Hk0 Hk]]%lookup_insert_Some
    (k' & r' & [[Hk1 Hr1]|[Hk1 Hk']]%lookup_insert_Some & Hne & Hd & Hn).
  - by destruct Hne.
  - apply Hrow. by exists k', r'.
  - subst. apply Hrow. by exists k, r.
  - apply (Hs k r Hk). by exists k', r'.
Qed.
Lemma names_unique_delete s id : names_unique s -> names_unique (delete id s).
Proof.
  intros Hs k r [Hne Hk]%lookup_delete_Some (k' & r' & [Hne' Hk']%lookup_delete_Some & Hkk & Hd & Hn).
  apply (Hs k r Hk). by exists k', r'.
Qed.
(** Renaming is possible once the holder of the name is gone. *)
Lemma name_taken_delete s id row other orow :
  names_unique s -> s !! other = Some orow -> orow.(row_device) = row.(row_device) ->
  orow.(row_name) = row.(row_name) -> ~ name_taken (delete other s) id row.
Proof.
  intros Hs Ho Hd Hn (k & r & [Hne Hk]%lookup_delete_Some & _ & Hd' & Hn').
  apply (Hs other orow Ho). exists k, r. split_and!; [done|done|congruence|congruence].
Qed.

Lemma and_iff_compat_l_strong (P Q R : Prop) : (P -> (Q <-> R)) -> (P /\ Q <-> P /\ R).
Proof. tauto. Qed.
(** ** One interface *)

Section sync.
Context (node : string) (ifs : list InterfaceInfo).
Context (uuids_distinct : NoDup (map ii_uuid ifs)) (names_distinct : NoDup (map ii_name ifs)).
(** What [_build_interfaces_from_ports] builds for ports whose names are not
    empty and not the name of the management interface. *)
Definition port_interface (i : InterfaceInfo) : Prop :=
  truthy i.(ii_name) = true /\ i.(ii_name) <> "iDRAC" /\ truthy i.(ii_interface_type) = true /\
  i.(ii_device_uuid) = node.
Context (ifs_ok : forall i, i ∈ ifs -> port_interface i).
Abbreviation step := (nb_step (map ii_uuid ifs)).

(** The interface in Nautobot is the one Ironic describes. *)
Definition matches (i : InterfaceInfo) (r : if_row) : Prop :=
  r.(row_name) = i.(ii_name) /\ (truthy i.(ii_mac_address) = true -> r.(row_mac) = Some i.(ii_mac_address)) /\
  r.(row_type) = Some i.(ii_interface_type) /\
  (truthy i.(ii_description) = true -> r.(row_description) = i.(ii_description)) /\
  r.(row_mgmt_only) = i.(ii_mgmt_only) /\ r.(row_device) = node.

Lemma same_uuid i j : i ∈ ifs -> j ∈ ifs -> i.(ii_uuid) = j.(ii_uuid) -> i = j.
Proof. intros. by apply (NoDup_map_inj ii_uuid ifs). Qed.

Lemma changes_match i id row c :
  port_interface i -> row.(row_device) = node ->
  matches i (foldl assign row (if_changes i (view id row c))).
Proof.
  intros (Hn & _ & Ht & _) Hd. unfold if_changes, matches. destruct row as [n m t d g v]; cbn in *. rewrite Hn, Ht.
  cbn. repeat (case_bool_decide; cbn);
    destruct (truthy (ii_mac_address i)) eqn:Hm, (truthy (ii_description i)) eqn:Hdesc; cbn;
    repeat (case_bool_decide; cbn); split_and!; try done; naive_solver.
Qed.

(** The interfaces done so far, where present, are as described. *)
Record inv (P : list InterfaceInfo) (s : if_table) : Prop := {
  inv_unique : names_unique s;
  inv_device : forall i row, i ∈ ifs -> s !! i.(ii_uuid) = Some row -> row.(row_device) = node;
  inv_done : forall i row, i ∈ P -> s !! i.(ii_uuid) = Some row -> matches i row;
}.
(** Only the ports' interfaces and the management interface are left. *)
Definition settled (s : if_table) : Prop := forall id row,
  s !! id = Some row -> row.(row_device) = node ->
  row.(row_name) = "iDRAC" \/ exists i, i ∈ ifs /\ i.(ii_uuid) = id /\ matches i row.
Definition complete (P : list InterfaceInfo) (s : if_table) : Prop :=
  forall i, i ∈ P -> is_Some (s !! i.(ii_uuid)).

(** One step towards the description: the invariant grows, the other devices are
    not touched, and a settled table gains the interface. *)
Definition progress (P : list InterfaceInfo) (i : InterfaceInfo) (s s' : if_table) : Prop :=
  inv (i :: P) s' /\ others node s' = others node s /\
  (settled s -> complete P s -> settled s' /\ complete (i :: P) s').

Lemma inv_put P s i row :
  i ∈ ifs -> (forall j, j ∈ P -> j ∈ ifs) -> inv P s -> matches i row -> ~ name_taken s i.(ii_uuid) row ->
  progress P i s (<[i.(ii_uuid) := row]> s).
Proof.
  intros Hi HP [Hu Hd Hdone] Hm Hfree. pose proof Hm as (_ & _ & _ & _ & _ & Hdev). split_and!.
  - split; [by apply names_unique_insert| |].
    + intros j r Hj [[_ <-]|[_ Hr]]%lookup_insert_Some; [done|by apply (Hd j)].
    + intros j r Hj [[He <-]|[Hne Hr]]%lookup_insert_Some.
      * by rewrite <- (same_uuid i j Hi) by (done || set_solver).
      * apply elem_of_cons in Hj as [->|Hj]; [by destruct Hne|by apply Hdone].
  - apply others_insert; [done|]. intros r0 Hr0. by apply (Hd i).
  - intros Hset Hcomp. split.
    + intros id r [[<- <-]|[_ Hr]]%lookup_insert_Some Hrd; [right; eauto|by apply Hset].
    + intros j Hj. destruct (decide (i.(ii_uuid) = j.(ii_uuid))) as [He|Hne];
        [rewrite He, lookup_insert_eq; eauto|rewrite lookup_insert_ne by done].
      apply elem_of_cons in Hj as [->|Hj]; [done|by apply Hcomp].
Qed.

Lemma inv_delete P s id row :
  inv P s -> s !! id = Some row -> inv P (delete id s).
Proof.
  intros [Hu Hd Hdone] Hrow. split; [by apply names_unique_delete| |];
    intros j r Hj [_ Hr]%lookup_delete_Some; eauto.
Qed.

(** In a settled table nobody else carries the name of a port's interface. *)
Lemma settled_free s i row :
  i ∈ ifs -> settled s -> row.(row_device) = node -> row.(row_name) = i.(ii_name) ->
  ~ name_taken s i.(ii_uuid) row.
Proof.
  intros Hi Hset Hd Hn (id & r & Hr & Hne & Hrd & Hrn).
  destruct (Hset id r Hr) as [Hid|(j & Hj & <- & (Hjn & _))]; [congruence| |].
  - destruct (ifs_ok i Hi) as (_ & Hni & _). congruence.
  - destruct Hne. f_equal. apply (NoDup_map_inj ii_name ifs); [done..|]. congruence.
Qed.

Lemma wp_cable i x g s :
  wp step (_handle_cable_management i (FOne x)) (fun r _ s' => r = inr tt /\ s' = s) g s.
Proof.
  unfold _handle_cable_management. destruct (usable _); [|by wp_pure]. destruct (usable _); [|by wp_pure].
  wp_pure. apply wp_call. intros r s' [-> [y ->]]. destruct (single y); [|by wp_pure].
  destruct (nif_cable x).
  - case_bool_decide; [by wp_pure|]. apply wp_call. by intros r s' [-> ->].
  - wp_pure. wp_pure. apply wp_call. intros [e|a] s' ->; wp_simp; by wp_pure.
Qed.
Lemma wp_delete id row c g s :
  s !! id = Some row ->
  wp step (_delete_nautobot_interface (view id row c)) (fun r _ s' => r = inr tt /\ s' = delete id s) g s.
Proof.
  intros Hrow. assert (wp step (call (IfDelete id)) (fun r _ s' => r = inr tt /\ s' = delete id s) g s) as Hdel.
  { apply wp_call. intros r s' Hs. cbn in Hs. by rewrite Hrow in Hs. }
  unfold _delete_nautobot_interface. wp_pure. destruct c as [cb|]; cbn [nif_cable nif_id view].
  - wp_pure. apply wp_call. intros [e|[]] s' ->; wp_simp; [by wp_pure|done].
  - by wp_pure.
Qed.

Lemma wp_save P i row c g s :
  i ∈ ifs -> (forall j, j ∈ P -> j ∈ ifs) -> inv P s -> s !! i.(ii_uuid) = Some row ->
  (forall row', matches i row' -> ~ name_taken s i.(ii_uuid) row') ->
  wp step (match if_changes i (view i.(ii_uuid) row c) with
           | [] => (mret tt : nbp unit)
           | changes => call (IfSave i.(ii_uuid) changes)
           end) (fun r _ s' => r = inr tt /\ progress P i s s') g s.
Proof.
  intros Hi HP Hinv Hrow Hfree. pose proof (inv_device P s Hinv i row Hi Hrow) as Hd.
  pose proof (changes_match i i.(ii_uuid) row c (ifs_ok i Hi) Hd) as Hm.
  destruct (if_changes _ _) as [|ch cs]; cbn [foldl] in Hm.
  - wp_pure. split; [done|]. rewrite <- (insert_id s _ _ Hrow) at 2. apply inv_put; auto.
  - apply wp_call. intros r s'. cbn -[foldl]. rewrite Hrow.
    intros [(_ & -> & ->)|[Ht _]]; [|by destruct (Hfree _ Hm)]. split; [done|]. apply inv_put; auto.
Qed.

Lemma wp_update P i row c g s :
  i ∈ ifs -> (forall j, j ∈ P -> j ∈ ifs) -> inv P s -> s !! i.(ii_uuid) = Some row ->
  wp step (_update_nautobot_interface i (view i.(ii_uuid) row c))
    (fun r _ s' => r = inr tt /\ progress P i s s') g s.
Proof.
  intros Hi HP Hinv Hrow. pose proof (ifs_ok i Hi) as (Hn & _ & _ & Hdev).
  pose proof (inv_device P s Hinv i row Hi Hrow) as Hd. pose proof (inv_unique P s Hinv) as Hu.
  unfold _update_nautobot_interface. cbn [nif_id view nif_name]. rewrite Hn. wp_pure.
  case_bool_decide as Hname; cbn [andb].
  - wp_pure. apply wp_call. intros r s' [-> Hget]. rewrite Hdev in Hget.
    destruct Hget as [(id & orow & oc & Ho & Hod & Hon & ->)|[Hnone ->]]; wp_simp; cbn [single].
    + cbn [nif_id view]. rewrite bool_decide_true by (intros ->; congruence).
      eapply wp_mono; [|by apply wp_delete]. intros r g' s' [-> ->]; wp_simp.
      eapply wp_mono; [|apply (wp_save P); eauto using inv_delete].
      * intros r g'' s'' (-> & Hp1 & Hp2 & _). split; [done|]. split_and!; [done| |].
        { rewrite Hp2. by apply (others_delete node s id orow). }
        { intros Hset. destruct (settled_free s i orow Hi Hset Hod Hon). exists id, orow.
          split_and!; [done| |done..]. intros ->. congruence. }
      * rewrite lookup_delete_ne; [done|]. intros ->. congruence.
      * intros row' (Hrn & _ & _ & _ & _ & Hrd).
        apply (name_taken_delete s (ii_uuid i) row' id orow); [done|done|by rewrite Hrd|by rewrite Hrn].
    + wp_pure. apply (wp_save P); [done..|]. intros row' (Hrn & _ & _ & _ & _ & Hrd) (k & r & Hk & _ & Hkd & Hkn).
      apply (Hnone k r Hk); congruence.
  - wp_pure. apply (wp_save P); [done..|]. intros row' (Hrn & _ & _ & _ & _ & Hrd) (k & r & Hk & Hne & Hkd & Hkn).
    apply (Hu _ row Hrow). exists k, r. split_and!; congruence.
Qed.

Lemma wp_create P i g s :
  i ∈ ifs -> (forall j, j ∈ P -> j ∈ ifs) -> inv P s -> s !! i.(ii_uuid) = None ->
  wp step (_create_nautobot_interface i)
    (fun r _ s' => progress P i s s' /\ exists x, r = inr x /\ (x = FNone \/ exists nb, x = FOne nb)) g s.
Proof.
  intros Hi HP Hinv Hnone. pose proof (ifs_ok i Hi) as (Hn & _ & _ & Hdev). unfold _create_nautobot_interface.
  set (a := IfAttrs _ _ _ _ _ _ _ _ _).
  assert (matches i (new_row a)) as Hm.
  { split_and!; [done..| |done|done]. cbn. intros Hdesc. by rewrite Hdesc. }
  wp_pure. wp_pure. apply wp_call. intros r s' [(id & -> & _ & Hfree & -> & ->)|(e & -> & He & -> & Hc)].
  - wp_simp. wp_pure. cbn [ia_id a] in *. split; [by apply inv_put|]. eauto.
  - wp_simp. rewrite He. apply wp_call. intros r s' [-> Hr]. rewrite Hnone in Hr. subst r.
    split; [|eauto]. destruct Hinv as [Hu Hd Hdone]. split_and!; [|done|].
    + split; [done|done|]. intros j row [->|Hj]%elem_of_cons Hj'; [congruence|by apply Hdone].
    + intros Hset _. destruct Hc as [(id & [= <-] & Hid)|Ht]; [rewrite Hnone in Hid; by destruct Hid|].
      destruct (settled_free s i (new_row a) Hi Hset); [by apply Hm..|done].
Qed.

Lemma wp_sync_interface P i g s :
  i ∈ ifs -> (forall j, j ∈ P -> j ∈ ifs) -> inv P s ->
  wp step (sync_interface i) (fun r _ s' => r = inr tt /\ progress P i s s') g s.
Proof.
  intros Hi HP Hinv. unfold sync_interface. wp_pure. apply wp_call. intros r s' [-> Hr].
  destruct (s !! ii_uuid i) as [row|] eqn:Hrow.
  - destruct Hr as [c ->]. wp_simp. wp_pure. cbn [truthy truthy_found]. wp_pure.
    eapply wp_mono; [|apply (wp_update P); eauto]. intros r g' s' [-> Hp]; wp_simp. wp_pure.
    eapply wp_mono; [|apply wp_cable]. by intros r g'' s'' [-> ->].
  - subst r. wp_simp. wp_pure. cbn [truthy truthy_found].
    eapply wp_mono; [|apply (wp_create P); eauto].
    intros r g' s' (Hp & x & -> & [-> | [nb ->]]); wp_simp; cbn [truthy truthy_found]; [by wp_pure|].
    eapply wp_mono; [|apply wp_cable]. by intros r g'' s'' [-> ->].
Qed.

(** ** All interfaces *)

Definition after (P : list InterfaceInfo) (s s' : if_table) : Prop :=
  inv ifs s' /\ others node s' = others node s /\ (settled s -> complete P s -> settled s' /\ complete ifs s').

Lemma inv_equiv P P' s : (forall i, i ∈ P <-> i ∈ P') -> inv P s -> inv P' s.
Proof. intros HP [Hu Hd Hdone]. split; [done|done|]. intros i row Hi. by apply Hdone, HP. Qed.

Lemma wp_sync_loop l P g s :
  (forall i, i ∈ ifs <-> i ∈ l \/ i ∈ P) -> inv P s ->
  wp step (for_each l sync_interface) (fun r _ s' => r = inr tt /\ after P s s') g s.
Proof.
  revert P g s. induction l as [|i l IH]; intros P g s HP Hinv.
  - apply wp_mret. split; [done|]. split_and!; [|done|].
    + eapply inv_equiv; [|done]. intros j. rewrite HP. set_solver.
    + intros Hset Hcomp. split; [done|]. intros j Hj. apply Hcomp. apply HP in Hj. set_solver.
  - apply wp_for_each_cons. eapply wp_mono; [|apply (wp_sync_interface P); [|set_solver|done]].
    2: { apply HP. left. left. }
    intros r g' s' (-> & Hp1 & Hp2 & Hp3); wp_simp. eapply wp_mono; [|apply (IH (i :: P)); [|done]].
    2: { intros j. rewrite HP, !elem_of_cons. tauto. }
    intros r g'' s'' (-> & Ha1 & Ha2 & Ha3). split; [done|]. split_and!; [done|congruence|].
    intros Hset Hcomp. destruct (Hp3 Hset Hcomp). auto.
Qed.

Lemma wp_assign_ip id ip g s :
  wp step (_assign_ip_to_interface id ip) (fun r _ s' => r = inr tt /\ s' = s) g s.
Proof.
  unfold _assign_ip_to_interface. destruct (truthy ip); cbn [negb]; [|by wp_pure].
  wp_pure. apply wp_call. intros r s' [-> [x ->]]. wp_simp. wp_pure.
  assert (forall o : option string, wp step
    (match o with
     | None => mret tt
     | Some ip_id =>
         existing_assoc ← call (IpAssocGet ip_id);
         match single existing_assoc with
         | Some _ => mret tt
         | None => try_except (call (IpAssocCreate ip_id id)) (fun _ => mret tt)
         end
     end : nbp unit) (fun r _ s' => r = inr tt /\ s' = s) g s) as Hrest.
  { intros [ip_id|]; [|by wp_pure]. wp_pure. apply wp_call. intros r s' [-> [y ->]]. wp_simp.
    destruct (single y); [by wp_pure|]. wp_pure. apply wp_call. intros [e|[]] s' ->; wp_simp; by try wp_pure. }
  destruct (single x) as [ip_id|]; [wp_pure; exact (Hrest (Some ip_id))|].
  wp_pure. wp_pure. apply wp_call.
  intros [e|o] s' ->; wp_simp; wp_pure; [exact (Hrest None)|exact (Hrest (if truthy o then o else None))].
Qed.

(** The management interface is apart from the ports' interfaces. *)
Lemma idrac_put s id row :
  inv ifs s -> id ∉ map ii_uuid ifs -> row.(row_name) = "iDRAC" -> row.(row_device) = node ->
  (forall r0, s !! id = Some r0 -> r0.(row_device) = node) -> ~ name_taken s id row ->
  after ifs s (<[id := row]> s).
Proof.
  intros [Hu Hd Hdone] Hid Hn Hdev Hold Hfree.
  assert (forall i, i ∈ ifs -> id <> i.(ii_uuid)) as Hne.
  { intros i Hi ->. apply Hid. by apply (list_elem_of_fmap_2 ii_uuid). }
  split_and!.
  - split; [by apply names_unique_insert| |]; intros i r Hi; rewrite lookup_insert_ne by auto; eauto.
  - by apply others_insert.
  - intros Hset Hcomp. split.
    + intros k r [[<- <-]|[_ Hr]]%lookup_insert_Some Hrd; [by left|by apply Hset].
    + intros i Hi. rewrite lookup_insert_ne by auto. by apply Hcomp.
Qed.

Lemma wp_sync_idrac mac ip g s :
  inv ifs s ->
  wp step (sync_idrac_interface node mac ip) (fun r _ s' => r = inr tt /\ after ifs s s') g s.
Proof.
  intros Hinv. pose proof Hinv as [Hu Hd Hdone]. unfold sync_idrac_interface.
  assert (after ifs s s) as Hrefl by (split_and!; auto).
  destruct (truthy mac); cbn [negb]; [|by wp_pure].
  assert (forall nb s', after ifs s s' -> wp step
    (if truthy ip && truthy nb.(nif_id) then _assign_ip_to_interface nb.(nif_id) (default "" ip) else mret tt)
    (fun r _ s' => r = inr tt /\ after ifs s s') g s') as Hrest.
  { intros nb s' Ha. destruct (_ && _); [|by wp_pure]. eapply wp_mono; [|apply wp_assign_ip]. by intros r g' s2 [-> ->]. }
  wp_pure. apply wp_call. intros r s' [-> [(id & row & c & Hrow & Hrd & Hrn & ->)|[Hnone ->]]]; wp_simp; cbn [single].
  - wp_pure. wp_pure. cbn [nif_mac view]. case_decide; [wp_pure; wp_pure; by apply Hrest|].
    apply wp_call. intros r s' Hs. cbn in Hs. rewrite Hrow in Hs. destruct row as [n m t d mg v]; cbn in *. subst.
    destruct Hs as [(Hfree & -> & ->)|[(k & r' & Hk & Hne & Hkd & Hkn) _]].
    + wp_simp. wp_pure. apply Hrest. apply idrac_put; [done| |done|done| |done].
      * intros (i & -> & Hi)%list_elem_of_fmap. apply (Hdone i) in Hrow as (Hn & _); [|done].
        destruct (ifs_ok i Hi) as (_ & Hni & _). by destruct Hni.
      * intros r0 Hr0. rewrite Hrow in Hr0. by injection Hr0 as <-.
    + destruct (Hu id _ Hrow). by exists k, r'.
  - wp_pure. apply wp_call. intros r s' [(id & Hid & Hn0 & Hfree & -> & ->)|(e & -> & _ & -> & Hc)].
    + wp_simp. apply Hrest. apply idrac_put; [done|done|done|done| |done]. intros r0. by rewrite Hn0.
    + destruct Hc as [(id & [=] & _)|(k & r & Hk & _ & Hkd & Hkn)]. by destruct (Hnone k r Hk).
Qed.

(** ** Stale interfaces *)

Definition stale (x : nb_if) : Prop := x.(nif_name) <> "iDRAC" /\ x.(nif_id) ∉ map ii_uuid ifs.
#[local] Instance stale_dec x : Decision (stale x).
Proof. unfold stale. apply _. Defined.

Lemma wp_delete_caught x g s :
  wp step (try_except (_delete_nautobot_interface x) (fun _ => mret tt))
    (fun r _ s' => r = inr tt /\ s' = delete x.(nif_id) s) g s.
Proof.
  clear uuids_distinct names_distinct ifs_ok.
  wp_pure. assert (wp step (call (IfDelete x.(nif_id)))
    (fun r g s' => match r with
                   | inl _ => wp step (mret tt : nbp unit) (fun r _ s' => r = inr tt /\ s' = delete x.(nif_id) s) g s'
                   | inr a => inr a = (inr tt : res unit) /\ s' = delete x.(nif_id) s
                   end) g s) as Hdel.
  { apply wp_call. intros r s' Hs. cbn in Hs. destruct (s !! nif_id x) eqn:Hk; [by destruct Hs as [-> ->]|].
    destruct Hs as [-> [e ->]]. apply wp_mret. by rewrite delete_id. }
  unfold _delete_nautobot_interface. wp_pure. destruct (nif_cable x); [|wp_pure; exact Hdel].
  wp_pure. apply wp_call. intros [e|[]] s' ->; wp_simp; [wp_pure|]; exact Hdel.
Qed.

Lemma wp_cleanup_loop l g s :
  wp step (for_each l (fun intf =>
    if bool_decide (intf.(nif_name) = "iDRAC") then mret tt
    else if bool_decide (intf.(nif_id) ∈ map ii_uuid ifs) then mret tt
    else try_except (_delete_nautobot_interface intf) (fun _ => mret tt)))
    (fun r _ s' => r = inr tt /\
       forall k row, s' !! k = Some row <-> s !! k = Some row /\ forall x, x ∈ l -> stale x -> x.(nif_id) <> k) g s.
Proof.
  clear uuids_distinct names_distinct ifs_ok.
  revert g s. induction l as [|x l IH]; intros g s.
  - apply wp_mret. split; [done|]. set_solver.
  - apply wp_for_each_cons.
    assert (wp step (if bool_decide (x.(nif_name) = "iDRAC") then mret tt
                     else if bool_decide (x.(nif_id) ∈ map ii_uuid ifs) then mret tt
                     else try_except (_delete_nautobot_interface x) (fun _ => mret tt))
      (fun r _ s' => r = inr tt /\ s' = if decide (stale x) then delete x.(nif_id) s else s) g s) as Hx.
    { case_bool_decide; [wp_pure; split; [done|]; rewrite decide_False; [done|intros []; done]|].
      case_bool_decide; [wp_pure; split; [done|]; rewrite decide_False; [done|intros []; done]|].
      rewrite decide_True by done. apply wp_delete_caught. }
    eapply wp_mono; [|exact Hx]. intros r g' s' [-> ->]; wp_simp. eapply wp_mono; [|apply IH].
    intros r g'' s'' [-> Hs]. split; [done|]. intros k row. rewrite Hs. case_decide as Hst.
    + rewrite lookup_delete_Some. setoid_rewrite elem_of_cons. naive_solver.
    + setoid_rewrite elem_of_cons. naive_solver.
Qed.

(** Exactly the device's interfaces that are neither a port's nor the management
    interface go. *)
Lemma wp_cleanup g s :
  wp step (_cleanup_stale_interfaces node (map ii_uuid ifs))
    (fun r _ s' => r = inr tt /\ forall k row, s' !! k = Some row <->
       s !! k = Some row /\ (row.(row_device) = node -> row.(row_name) = "iDRAC" \/ k ∈ map ii_uuid ifs)) g s.
Proof.
  clear uuids_distinct names_distinct ifs_ok.
  unfold _cleanup_stale_interfaces. wp_pure. apply wp_call. intros r s' (-> & l & -> & Hl1 & Hl2). wp_simp.
  eapply wp_mono; [|apply wp_cleanup_loop]. intros r g' s' [-> Hs]. split; [done|]. intros k row. rewrite Hs.
  apply and_iff_compat_l_strong. intros Hk. split.
  - intros Hno Hd. destruct (decide (row_name row = "iDRAC")) as [|Hn]; [by left|].
    destruct (decide (k ∈ map ii_uuid ifs)) as [|Hid]; [by right|].
    destruct (Hl2 k row Hk Hd) as (x & Hx & <-). destruct (Hl1 x Hx) as (row' & c & Hrow' & _ & Heq).
    exfalso. apply (Hno x Hx); [|done]. split; [|done]. rewrite Heq. cbn. congruence.
  - intros Hkeep x Hx [Hn Hid] <-. destruct (Hl1 x Hx) as (row' & c & Hrow' & Hd & Heq).
    assert (row' = row) as -> by congruence. rewrite Heq in Hn. cbn in Hn. by destruct (Hkeep Hd).
Qed.

Lemma after_cleanup s s' :
  inv ifs s ->
  (forall k row, s' !! k = Some row <->
     s !! k = Some row /\ (row.(row_device) = node -> row.(row_name) = "iDRAC" \/ k ∈ map ii_uuid ifs)) ->
  after ifs s s' /\ settled s'.
Proof.
  intros [Hu Hd Hdone] Hs.
  assert (inv ifs s') as Hinv.
  { split.
    - intros k row [Hk _]%Hs (k' & r' & [Hk' _]%Hs & Hne & Hkd & Hkn). apply (Hu k row Hk). by exists k', r'.
    - intros i row Hi [Hk _]%Hs. by apply (Hd i).
    - intros i row Hi [Hk _]%Hs. by apply (Hdone i). }
  split; [split_and!; [done| |]|].
  - apply map_eq. intros k. apply option_eq. intros row. unfold others. rewrite !map_lookup_filter_Some, Hs. naive_solver.
  - intros Hset Hcomp. split.
    + intros k row [Hk _]%Hs. by apply Hset.
    + intros i Hi. destruct (Hcomp i Hi) as [row Hrow]. exists row. apply Hs. split; [done|]. intros _. right.
      by apply (list_elem_of_fmap_2 ii_uuid).
  - intros k row [Hk Hkeep]%Hs Hkd. destruct (Hkeep Hkd) as [|(i & -> & Hi)%list_elem_of_fmap]; [by left|].
    right. exists i. split_and!; [done..|]. by apply Hdone.
Qed.

(** ** The whole run *)

(** The BMC's MAC address, where the inventory has one, is a text. *)
Definition bmc_text (inventory : json) : Prop := exists inv mac ip,
  jget_or "inventory" (JObj []) inventory = inr inv /\ jget "bmc_mac" inv = inr mac /\
  jget "bmc_address" inv = inr ip /\ (truthy mac = false \/ exists t, mac = JStr t).
(** The interfaces that the inventory and the ports describe. *)
Definition describes (inventory : json) (ports : list Port) : Prop := exists m,
  _build_interface_map_from_inventory inventory = inr m /\ _build_interfaces_from_ports node ports m = inr ifs.

Lemma wp_sync_bmc inventory g s :
  bmc_text inventory -> inv ifs s ->
  wp step (sync_bmc node inventory) (fun r _ s' => r = inr tt /\ after ifs s s') g s.
Proof.
  intros (iv & mac & ip & Hiv & Hmac & Hip & Hm) Hinv. unfold sync_bmc.
  wp_pure. rewrite Hiv. wp_pure. wp_simp. wp_pure. wp_pure. rewrite Hmac. wp_simp. wp_pure. wp_pure. rewrite Hip. wp_simp.
  destruct (truthy mac) eqn:Ht; [|wp_pure; split; [done|]; split_and!; auto].
  destruct Hm as [Hm|[t ->]]; [discriminate Hm|]. by apply wp_sync_idrac.
Qed.

Lemma wp_sync_interfaces inventory ports g s :
  truthy node = true -> describes inventory ports -> bmc_text inventory -> inv [] s ->
  wp step (sync_interfaces_from_data node inventory ports)
    (fun r _ s' => r = inr EXIT_STATUS_SUCCESS /\ inv ifs s' /\ settled s' /\ others node s' = others node s /\
       (settled s -> complete ifs s')) g s.
Proof.
  intros Hnode (m & Hmap & Hbuild) Hbmc Hinv. unfold sync_interfaces_from_data. rewrite Hnode. cbn [negb].
  wp_pure. wp_pure. wp_pure. rewrite Hmap. wp_simp. wp_pure. wp_pure. rewrite Hbuild. wp_simp.
  wp_pure. eapply wp_mono; [|apply (wp_sync_loop ifs []); [set_solver|done]].
  intros r g1 s1 (-> & Hi1 & Ho1 & Hs1). wp_simp. wp_pure.
  eapply wp_mono; [|by apply wp_sync_bmc]. intros r g2 s2 (-> & Hi2 & Ho2 & Hs2). wp_simp. wp_pure.
  eapply wp_mono; [|apply wp_cleanup]. intros r g3 s3 [-> Hs]. wp_simp. wp_pure.
  destruct (after_cleanup s2 s3 Hi2 Hs) as [(Hi3 & Ho3 & Hs3) Hset]. split_and!; [done|done|done|congruence|].
  intros Hset0. destruct (Hs1 Hset0) as [? ?]; [intros i Hi; by apply elem_of_nil in Hi|].
  destruct Hs2 as [? ?]; [done..|]. by apply Hs3.
Qed.

Lemma inv_start P s : inv P s -> inv [] s.
Proof. intros [Hu Hd _]. split; [done|done|]. intros i row Hi. by apply elem_of_nil in Hi. Qed.

Lemma wp_two_runs inventory ports g s :
  truthy node = true -> describes inventory ports -> bmc_text inventory ->
  names_unique s -> (forall i row, i ∈ ifs -> s !! i.(ii_uuid) = Some row -> row.(row_device) = node) ->
  wp step (_ ← sync_interfaces_from_data node inventory ports; sync_interfaces_from_data node inventory ports)
    (fun r _ s' => r = inr EXIT_STATUS_SUCCESS /\
       (forall i, i ∈ ifs -> exists row, s' !! i.(ii_uuid) = Some row /\ matches i row) /\
       (forall id row, s' !! id = Some row -> row.(row_device) = node ->
          row.(row_name) = "iDRAC" \/ id ∈ map ii_uuid ifs)) g s.
Proof.
  intros Hnode Hdesc Hbmc Hu Hd. wp_pure.
  eapply wp_mono; [|apply wp_sync_interfaces; [done..|]].
  2: { split; [done|done|]. intros i row Hi. by apply elem_of_nil in Hi. }
  intros r g1 s1 (-> & Hi1 & Hset1 & Ho1 & _). wp_simp.
  eapply wp_mono; [|apply wp_sync_interfaces; [done..|by eapply inv_start]].
  intros r g2 s2 (-> & Hi2 & Hset2 & Ho2 & Hc2). specialize (Hc2 Hset1). split_and!; [done| |].
  - intros i Hi. destruct (Hc2 i Hi) as [row Hrow]. exists row. split; [done|]. by apply (inv_done ifs s2 Hi2).
  - intros id row Hrow Hrd. destruct (Hset2 id row Hrow Hrd) as [|(i & Hi & <- & _)]; [by left|right].
    by apply (list_elem_of_fmap_2 ii_uuid).
Qed.

(** ** Requests that fail *)

Abbreviation fstep := (faulty step).
(** The row of [id], if there is one, belongs to the device. *)
Definition mine (s : if_table) (id : string) : Prop := forall row, s !! id = Some row -> row.(row_device) = node.
(** Only rows of the device have changed, and none went to another device. *)
Definition frame (s s' : if_table) : Prop := others node s' = others node s /\ forall id, mine s id -> mine s' id.
Definition stays_on_device (c : if_assign) : Prop := match c with SetDevice _ => False | _ => True end.
Definition safe {R} (op : NbAPI R) (s : if_table) : Prop :=
  match op with
  | IfCreate a => a.(ia_device) = node
  | IfSave id cs => mine s id /\ Forall stays_on_device cs
  | IfDelete id => mine s id
  | _ => True
  end.

Lemma frame_refl s : frame s s.
Proof. by split. Qed.
Lemma frame_trans s1 s2 s3 : frame s1 s2 -> frame s2 s3 -> frame s1 s3.
Proof. intros [H1 H2] [H3 H4]. split; [congruence|auto]. Qed.
Lemma frame_put s id row : mine s id -> row.(row_device) = node -> frame s (<[id := row]> s).
Proof.
  intros Hm Hd. split; [by apply others_insert|]. intros k Hk r [[_ <-]|[_ Hr]]%lookup_insert_Some; [done|by apply Hk].
Qed.
Lemma frame_delete s id : mine s id -> frame s (delete id s).
Proof.
  intros Hm. split; [|intros k Hk r [_ Hr]%lookup_delete_Some; by apply Hk].
  destruct (s !! id) as [row|] eqn:Hrow; [by apply (others_delete node s id row Hrow), Hm|by rewrite delete_id].
Qed.
Lemma assign_device row cs : Forall stays_on_device cs -> (foldl assign row cs).(row_device) = row.(row_device).
Proof.
  revert row. induction cs as [|c cs IH]; intros row Hcs; [done|]. apply Forall_cons in Hcs as [Hc Hcs].
  cbn [foldl]. rewrite IH by done. by destruct row, c.
Qed.
Lemma step_frame R (op : NbAPI R) s r s' : safe op s -> step R op s r s' -> frame s s'.
Proof.
  destruct op; cbn; intros Hsafe Hs; try (destruct Hs as [-> _]; apply frame_refl); try (subst; apply frame_refl).
  - destruct Hs as [(id & _ & Hn & _ & -> & _)|(e & _ & _ & -> & _)]; [|apply frame_refl].
    apply frame_put; [intros row; by rewrite Hn|done].
  - destruct Hsafe as [Hm Hcs]. destruct (s !! id) as [row|] eqn:Hrow; [|destruct Hs as [-> _]; apply frame_refl].
    destruct Hs as [(_ & _ & ->)|(_ & -> & _)]; [|apply frame_refl]. apply frame_put; [done|].
    rewrite assign_device by done. by apply Hm.
  - destruct (s !! id) as [row|] eqn:Hrow; [|destruct Hs as [-> _]; apply frame_refl].
    destruct Hs as [_ ->]. by apply frame_delete.
Qed.
Lemma fstep_frame R (op : NbAPI R) st r st' : safe op st.1 -> fstep R op st r st' -> frame st.1 st'.1.
Proof.
  intros Hsafe [[Hs _]|(_ & _ & [->|[a Hs]])]; [by eapply step_frame|apply frame_refl|by eapply step_frame].
Qed.

Definition kept {A} (s : if_table) (_ : res A) (_ : unit) (st : if_table * bool) : Prop := frame s st.1.
Lemma kept_call {R} (op : NbAPI R) s g st : frame s st.1 -> safe op st.1 -> wp fstep (call op) (kept s) g st.
Proof. intros Hf Hsafe. apply wp_call. intros r st' Hs. eapply frame_trans; [exact Hf|by eapply fstep_frame]. Qed.
Lemma kept_bind {A B} (p : nbp A) (f : A -> nbp B) s g st :
  wp fstep p (kept s) g st -> (forall a g st, frame s st.1 -> wp fstep (f a) (kept s) g st) ->
  wp fstep (mbind f p) (kept s) g st.
Proof. intros Hp Hf. apply wp_mbind. eapply wp_mono; [|exact Hp]. intros [e|a] g' st' Hk; [exact Hk|by apply Hf]. Qed.
Lemma kept_try {A} (p : nbp A) h s g st :
  wp fstep p (kept s) g st -> (forall e g st, frame s st.1 -> wp fstep (h e) (kept s) g st) ->
  wp fstep (try_except p h) (kept s) g st.
Proof. intros Hp Hh. apply wp_try_except. eapply wp_mono; [|exact Hp]. intros [e|a] g' st' Hk; [by apply Hh|exact Hk]. Qed.
Lemma kept_lift {A} (r : res A) s g st : frame s st.1 -> wp fstep (lift r : nbp A) (kept s) g st.
Proof. intros Hf. by apply wp_lift. Qed.

(** Programs all of whose requests are safe anywhere. *)
Definition idle {R} (op : NbAPI R) : Prop := match op with IfCreate _ | IfSave _ _ | IfDelete _ => False | _ => True end.
Lemma kept_idle {A} (p : nbp A) s g st : calls_only (@idle) p -> frame s st.1 -> wp fstep p (kept s) g st.
Proof.
  revert g st. induction p as [a|e|R op k IH|k IH|g' p IH]; intros g st Hp Hf; [exact Hf|exact Hf| |by apply IH|by apply IH].
  destruct Hp as [Hop Hk]. intros r st' Hs. apply IH; [done|]. eapply frame_trans; [exact Hf|].
  eapply fstep_frame; [|exact Hs]. by destruct op.
Qed.
Lemma cable_idle i x : calls_only (@idle) (_handle_cable_management i x).
Proof.
  unfold _handle_cable_management. destruct (usable _); [|done]. destruct (usable _); [|done]. split; [done|].
  intros [e|y]; [done|]. cbn. destruct (single y); [|done]. destruct x; [done| |done]. destruct (nif_cable a).
  - case_bool_decide; [done|]. split; [done|]. by intros [e|[]].
  - split; [done|]. by intros [e|z].
Qed.
Lemma assign_ip_idle id ip : calls_only (@idle) (_assign_ip_to_interface id ip).
Proof.
  unfold _assign_ip_to_interface. destruct (truthy ip); [|done]. split; [done|]. intros [e|x]; [done|]. cbn.
  assert (forall o, calls_only (@idle) (match o with
     | None => mret tt
     | Some ip_id => existing_assoc ← call (IpAssocGet ip_id);
         match single existing_assoc with
         | Some _ => mret tt
         | None => try_except (call (IpAssocCreate ip_id id)) (fun _ => mret tt)
         end
     end : nbp unit)) as Hrest.
  { intros [o|]; [|done]. split; [done|]. intros [e|y]; [done|]. cbn. destruct (single y); [done|]. split; [done|]. by intros [e|[]]. }
  destruct (single x) as [o|]; [exact (Hrest (Some o))|]. split; [done|].
  intros [e|o]; [exact (Hrest None)|exact (Hrest (if truthy o then o else None))].
Qed.

Lemma kept_delete s g st x : frame s st.1 -> mine st.1 x.(nif_id) -> wp fstep (_delete_nautobot_interface x) (kept s) g st.
Proof.
  intros Hf Hm. unfold _delete_nautobot_interface. apply wp_mbind.
  eapply (wp_mono _ _ (fun _ _ st' => frame s st'.1 /\ mine st'.1 x.(nif_id))).
  - intros [e|u] g' st' [Hf' Hm']; [exact Hf'|]. by apply kept_call.
  - destruct (nif_cable x); [|by apply wp_mret]. apply wp_try_except, wp_call. intros r st' Hs.
    assert (frame st.1 st'.1) as Hfr by (by eapply fstep_frame; [|exact Hs]).
    assert (frame s st'.1 /\ mine st'.1 (nif_id x)) by (split; [by eapply frame_trans|by apply Hfr]).
    destruct r as [e|[]]; [by apply wp_mret|done].
Qed.
(** What a look-up by name finds is an interface of the device. *)
Lemma found_mine n st x st' : fstep _ (IfGetByName node n) st (inr (FOne x)) st' -> frame st.1 st'.1 /\ mine st'.1 x.(nif_id).
Proof.
  intros Hs. split; [by eapply fstep_frame; [|exact Hs]|]. destruct Hs as [[Hs _]|([e [=]] & _)].
  destruct Hs as [-> [(id & row & c & Hrow & Hd & _ & [= ->])|[_ [=]]]]. cbn. intros r Hr. congruence.
Qed.
Lemma changes_stay i x : Forall stays_on_device (if_changes i x).
Proof. unfold if_changes. repeat apply Forall_app_2; case_match; by repeat constructor. Qed.
Lemma kept_save s g st i x : frame s st.1 -> mine st.1 x.(nif_id) ->
  wp fstep (match if_changes i x with [] => (mret tt : nbp unit) | changes => call (IfSave x.(nif_id) changes) end) (kept s) g st.
Proof.
  intros Hf Hm. pose proof (changes_stay i x) as Hc. destruct (if_changes i x); [by apply wp_mret|]. by apply kept_call.
Qed.
Lemma kept_update s g st i x : i.(ii_device_uuid) = node -> frame s st.1 -> mine st.1 x.(nif_id) ->
  wp fstep (_update_nautobot_interface i x) (kept s) g st.
Proof.
  intros Hdev Hf Hm. unfold _update_nautobot_interface. apply wp_mbind.
  eapply (wp_mono _ _ (fun _ _ st' => frame s st'.1 /\ mine st'.1 x.(nif_id))).
  { intros [e|u] g' st' [Hf' Hm']; [exact Hf'|]. by apply kept_save. }
  destruct (_ && _); [|by apply wp_mret]. apply wp_mbind, wp_call. intros r st' Hs. rewrite Hdev in Hs.
  assert (frame st.1 st'.1) as Hfr by (by eapply fstep_frame; [|exact Hs]).
  assert (frame s st'.1 /\ mine st'.1 (nif_id x)) as Hk by (split; [by eapply frame_trans|by apply Hfr]).
  destruct r as [e|[|y|l]]; [done|by apply wp_mret| |by apply wp_mret]. cbn [single].
  destruct (bool_decide _); [|by apply wp_mret]. destruct (found_mine _ _ _ _ Hs) as [_ Hy].
  eapply wp_mono; [|by apply (kept_delete st'.1); [apply frame_refl|]]. intros r g' st2 Hk2.
  split; [by eapply frame_trans; [apply Hk|]|by apply Hk2, Hk].
Qed.
Lemma kept_interface s g st i : i ∈ ifs -> frame s st.1 -> mine st.1 i.(ii_uuid) -> wp fstep (sync_interface i) (kept s) g st.
Proof.
  intros Hi Hf Hm. pose proof (ifs_ok i Hi) as (_ & _ & _ & Hdev). unfold sync_interface. apply wp_mbind, wp_call. intros r st' Hs.
  assert (frame st.1 st'.1) as Hfr by (by eapply fstep_frame; [|exact Hs]).
  assert (frame s st'.1) as Hf' by (by eapply frame_trans).
  destruct r as [e|x]; [exact Hf'|]. apply kept_bind.
  - destruct (truthy x); [|apply kept_try; [apply kept_bind; [by apply kept_call|intros; by apply wp_mret]|]].
    + destruct x as [|x|l]; [by apply wp_raise| |by apply wp_raise]. apply kept_bind; [|intros; by apply wp_mret].
      apply kept_update; [done|done|]. destruct Hs as [[Hs _]|([e [=]] & _)]. destruct Hs as [Heq Hr]. rewrite Heq.
      destruct (st.1 !! ii_uuid i) as [row|] eqn:Hrow; [|done]. destruct Hr as [c [= ->]]. cbn. intros r0 Hr0. apply Hm. congruence.
    + intros e g2 st2 Hf2. destruct (exn_mentions _ e); [by apply kept_call|by apply wp_raise].
  - intros y g2 st2 Hf2. destruct (truthy y); [|by apply wp_mret]. apply kept_idle; [apply cable_idle|done].
Qed.
Lemma kept_bmc s g st inventory : frame s st.1 -> wp fstep (sync_bmc node inventory) (kept s) g st.
Proof.
  intros Hf. unfold sync_bmc. apply kept_bind; [by apply kept_lift|]. intros iv g1 st1 H1.
  apply kept_bind; [by apply kept_lift|]. intros mac g2 st2 H2. apply kept_bind; [by apply kept_lift|]. intros ip g3 st3 H3.
  destruct (truthy mac); [|by apply wp_mret]. destruct mac; try by apply wp_raise. unfold sync_idrac_interface.
  destruct (truthy _); cbn [negb]; [|by apply wp_mret]. apply wp_mbind, wp_call. intros r st4 Hs.
  assert (frame st3.1 st4.1) as Hfr by (by eapply fstep_frame; [|exact Hs]).
  assert (frame s st4.1) as Hf4 by (by eapply frame_trans). destruct r as [e|x]; [exact Hf4|]. apply kept_bind.
  - destruct x as [|x|l]; cbn [single]; [by apply kept_call| |by apply kept_call].
    apply kept_bind; [|intros; by apply wp_mret]. case_decide; [by apply wp_mret|].
    apply kept_call; [done|]. split; [by apply (found_mine _ _ _ _ Hs)|by repeat constructor].
  - intros y g5 st5 Hf5. destruct (_ && _); [|by apply wp_mret]. apply kept_idle; [apply assign_ip_idle|done].
Qed.
Lemma kept_cleanup s g st ids : frame s st.1 -> wp fstep (_cleanup_stale_interfaces node ids) (kept s) g st.
Proof.
  intros Hf. unfold _cleanup_stale_interfaces. apply wp_mbind, wp_call. intros r st' Hs.
  assert (frame st.1 st'.1) as Hfr by (by eapply fstep_frame; [|exact Hs]).
  destruct r as [e|l]; [by eapply frame_trans|].
  assert (forall x, x ∈ l -> mine st'.1 x.(nif_id)) as Hl.
  { intros x Hx. destruct Hs as [[Hs _]|([e [=]] & _)]. destruct Hs as (-> & l' & [= <-] & Hl & _).
    destruct (Hl x Hx) as (row & c & Hrow & Hd & _). intros r Hr. congruence. }
  apply (wp_for_each _ _ _ (fun _ st2 => frame s st2.1 /\ frame st'.1 st2.1)).
  - split; [by eapply frame_trans|apply frame_refl].
  - intros x g2 st2 Hx [H1 H2]. assert (frame s st2.1 /\ frame st'.1 st2.1) as Hk by done.
    do 2 (destruct (bool_decide _); [by apply wp_mret|]). apply wp_try_except.
    eapply wp_mono; [|apply (kept_delete st2.1); [apply frame_refl|by apply H2, Hl]].
    intros [e|[]] g3 st3 Hk3; [apply wp_mret|]; (split; [by eapply frame_trans|by eapply frame_trans]).
  - by intros g2 st2 [H1 _].
Qed.
(** However the requests fail, a synchronisation returns an exit code and touches no other device. *)
Lemma sync_frame inventory ports g st :
  truthy node = true -> describes inventory ports -> (forall i, i ∈ ifs -> mine st.1 i.(ii_uuid)) ->
  wp fstep (sync_interfaces_from_data node inventory ports)
    (fun r _ st' => (r = inr EXIT_STATUS_SUCCESS \/ r = inr EXIT_STATUS_FAILURE) /\ frame st.1 st'.1) g st.
Proof.
  intros Hnode (m & Hmap & Hbuild) Hm. unfold sync_interfaces_from_data. rewrite Hnode. cbn [negb]. apply wp_try_except.
  apply (wp_mono _ _ (fun r _ st' => (forall z, r = inr z -> z = EXIT_STATUS_SUCCESS) /\ frame st.1 st'.1)).
  { intros [e|z] g' st' [Hz Hf]; [by apply wp_mret; auto|]. rewrite (Hz z eq_refl). auto. }
  rewrite Hmap. apply wp_mbind, wp_lift. wp_simp. rewrite Hbuild. apply wp_mbind, wp_lift. wp_simp. apply wp_mbind.
  apply (wp_mono _ _ (kept st.1)).
  2: { apply (wp_for_each _ _ _ (fun _ st2 => frame st.1 st2.1)); [apply frame_refl| |done].
       intros i g2 st2 Hi H2. eapply wp_mono; [|apply (kept_interface st.1); [done|done|by apply H2, Hm]].
       by intros [e|[]] g3 st3 H3. }
  intros [e|u] g1 st1 H1; [by split|]. apply wp_mbind. eapply wp_mono; [|by apply (kept_bmc st.1)].
  intros [e|u2] g2 st2 H2; [by split|]. apply wp_mbind. eapply wp_mono; [|by apply (kept_cleanup st.1)].
  intros [e|u3] g3 st3 H3; [by split|]. apply wp_mret. split; [congruence|done].
Qed.

(** C3. Two synchronisations of a device with the same ports and inventory, against a
    Nautobot that may fail any request, with or without effect.  The ports have distinct
    identifiers and distinct names other than iDRAC, no port's identifier is that of an
    interface of another device, and names of interfaces are unique per device; the
    device's interfaces are any otherwise.  In every case the second run returns an exit
    code and the interfaces of other devices are as they were.  Unless a request failed,
    it returns success; every port has its interface, with the port's identifier, name, MAC
    address, type and description; and every other interface of the device is the
    management interface. *)
Theorem sync_twice_converges inventory ports g s :
  truthy node = true -> describes inventory ports -> bmc_text inventory ->
  names_unique s -> (forall i row, i ∈ ifs -> s !! i.(ii_uuid) = Some row -> row.(row_device) = node) ->
  wp (faulty step) (_ ← sync_interfaces_from_data node inventory ports; sync_interfaces_from_data node inventory ports)
    (fun r _ '(s', failed) =>
       (r = inr EXIT_STATUS_SUCCESS \/ r = inr EXIT_STATUS_FAILURE) /\ others node s' = others node s /\
       (failed = false ->
        r = inr EXIT_STATUS_SUCCESS /\
        (forall i, i ∈ ifs -> exists row, s' !! i.(ii_uuid) = Some row /\ matches i row) /\
        (forall id row, s' !! id = Some row -> row.(row_device) = node ->
          row.(row_name) = "iDRAC" \/ id ∈ map ii_uuid ifs))) g (s, false).
Proof.
  intros Hnode Hdesc Hbmc Hu Hd.
  pose proof (wp_faulty step _ _ _ _ (wp_two_runs inventory ports g s Hnode Hdesc Hbmc Hu Hd)) as Hok.
  assert (wp (faulty step) (_ ← sync_interfaces_from_data node inventory ports; sync_interfaces_from_data node inventory ports)
    (fun r _ st => (r = inr EXIT_STATUS_SUCCESS \/ r = inr EXIT_STATUS_FAILURE) /\ frame s st.1) g (s, false)) as Hframe.
  { apply wp_mbind. eapply wp_mono; [|apply sync_frame; [done|done|intros i Hi row; by apply Hd]]. intros r g1 st1 [Hr Hf1].
    destruct r as [e|z]; [by destruct Hr|]. eapply wp_mono; [|apply sync_frame; [done..|]].
    - intros r2 g2 st2 [Hr2 Hf2]. split; [exact Hr2|]. by eapply frame_trans.
    - intros i Hi. apply Hf1. intros row. by apply Hd. }
  eapply wp_mono; [|exact (wp_conj _ _ _ _ _ _ Hframe Hok)].
  intros r g' [s' f] [[Hr [Hf _]] Hc]. split_and!; [exact Hr|exact Hf|exact Hc].
Qed.

End sync.

(** ** Witnesses *)

Definition example_port : Port :=
  MkPort "u1" (Some "AA:bb:cc:00:00:01") None None None None true {[ "bios_name" := "NIC.Slot.1-1" ]}.
Definition example_interface : InterfaceInfo :=
  MkInterfaceInfo "u1" "NIC.Slot.1-1" "AA:BB:CC:00:00:01" "n1" "NIC in Slot 1 Port 1" "25gbase-x-sfp28" true false true
    None None None None.
Definition example_inventory : json :=
  JObj [("inventory", JObj [("bmc_mac", JStr "aa:bb:cc:00:00:ff"); ("interfaces", JArr [])])].
Definition old_row : if_row := IfRow "NIC.Slot.1-1" (Some "AA:BB:CC:00:00:02") None "" false "n1".

Lemma names_unique_singleton id row : names_unique {[ id := row ]}.
Proof.
  intros k r [<- <-]%lookup_singleton_Some (k' & r' & [<- <-]%lookup_singleton_Some & Hne & _). by destruct Hne.
Qed.

Lemma sync_twice_converges_witness :
  wp (faulty (nb_step ["u1"]))
    (_ ← sync_interfaces_from_data "n1" example_inventory [example_port];
     sync_interfaces_from_data "n1" example_inventory [example_port])
    (fun r _ '(s', failed) =>
       (r = inr 0%Z \/ r = inr 1%Z) /\ others "n1" s' = others "n1" {[ "old" := old_row ]} /\
       (failed = false -> r = inr 0%Z /\
       (forall i, i ∈ [example_interface] -> exists row, s' !! i.(ii_uuid) = Some row /\ matches "n1" i row) /\
       (forall id row, s' !! id = Some row -> row.(row_device) = "n1" -> row.(row_name) = "iDRAC" \/ id ∈ ["u1"])))
    tt ({[ "old" := old_row ]}, false).
Proof.
  apply (sync_twice_converges "n1" [example_interface]).
  - apply NoDup_singleton.
  - apply NoDup_singleton.
  - intros i Hi%list_elem_of_singleton. subst i. by split_and!.
  - reflexivity.
  - exists []. by split; vm_compute.
  - eexists _, _, _. split_and!; [reflexivity..|]. right. by eexists.
  - apply names_unique_singleton.
  - intros i row Hi%list_elem_of_singleton. subst i. by rewrite lookup_singleton_ne.
Defined.

(** One synchronisation is not enough: when a port replaces another under the
    same name, Nautobot refuses the new interface because of the old one, the
    refusal is taken for a race, the old interface is then removed as stale, and
    the run reports success with neither in place. *)
Theorem sync_misses_replaced_port node p name old row g :
  truthy node = true -> interface_name (p.(port_extra) !! "bios_name") (JStr "") p = inr name ->
  name <> "iDRAC" -> old <> p.(port_uuid) -> row.(row_device) = node -> row.(row_name) = name ->
  wp (nb_step [p.(port_uuid)]) (sync_interfaces_from_data node (JObj []) [p])
    (fun r _ s' => r = inr EXIT_STATUS_SUCCESS /\ s' = ∅) g {[ old := row ]}.
Proof.
  intros Hnode Hname Hn Hold Hrd Hrn. unfold sync_interfaces_from_data. rewrite Hnode. cbn [negb].
  wp_pure. wp_pure. wp_pure. change (_build_interface_map_from_inventory (JObj [])) with (inr [] : res (dict json)).
  wp_simp. wp_pure. wp_pure. 
  assert (exists i, _build_interfaces_from_ports node [p] [] = inr [i] /\ i.(ii_uuid) = p.(port_uuid) /\
    i.(ii_name) = name /\ i.(ii_device_uuid) = node) as (i & -> & Hiu & Hin & Hid).
  { unfold _build_interfaces_from_ports. cbn [res_map dict_get].
    change (default (JStr "") None) with (JStr ""). rewrite Hname. by eexists. }
  wp_simp.
  wp_pure. apply wp_for_each_cons. unfold sync_interface at 1. wp_pure. apply wp_call. intros r s' [-> Hr].
  rewrite Hiu, lookup_singleton_ne in Hr by done. subst r. wp_simp. cbn [truthy truthy_found]. wp_pure.
  unfold _create_nautobot_interface at 1. wp_pure. wp_pure. apply wp_call.
  assert (forall a : if_attrs, a.(ia_name) = name -> a.(ia_device) = node -> forall id, id = p.(port_uuid) ->
    name_taken {[ old := row ]} id (new_row a)) as Htaken.
  { intros a Ha Hd id ->. exists old, row. rewrite lookup_singleton_eq. cbn. by rewrite Ha, Hd. }
  intros r s' [(id & -> & _ & Hfree & _)|(e & -> & He & -> & _)]; [by destruct Hfree; apply Htaken|].
  wp_simp. rewrite He. apply wp_call. intros r s' [-> Hr]. rewrite Hiu, lookup_singleton_ne in Hr by done. subst r.
  wp_simp. cbn [truthy truthy_found]. wp_pure. apply wp_mret. wp_simp. wp_pure.
  apply (wp_mono _ _ (fun r _ s' => r = inr tt /\ s' = {[ old := row ]})); [|done].
  intros r g' s' [-> ->]. wp_simp. wp_pure.
  rewrite <- Hiu. eapply wp_mono; [|apply (wp_cleanup node [i])]. intros r g2 s' [-> Hs]. wp_simp. wp_pure. split; [done|].
  apply map_empty. intros k. apply eq_None_not_Some. intros [r Hk].
  apply Hs in Hk as [[<- <-]%lookup_singleton_Some Hkeep]. destruct (Hkeep Hrd) as [|Hin'%list_elem_of_singleton]; congruence.
Qed.
