(* ===== verification/PortEvents.v ===== *)
(** * Port and portgroup events

    Models, under
    [src/python/understack-workflows/understack_workflows/oslo_event/]:
    [ironic_port.py] and [ironic_portgroup.py], the handlers that mirror one
    Ironic port or portgroup as a Nautobot interface.  Events are JSON documents;
    a field whose type is not the one of Ironic's notifications is refused as a
    [TypeError]. *)
From S2P Require Import Prelude PyStr PyData Nautobot InterfaceSync InterfaceStore Portgroup.

(** ** Fields of a notification *)

Definition text_field (k : string) (v : json) : res string :=
  x ← jitem k v; match x with JStr s => Ok s | _ => Err (TypeError [k]) end.
(** [v.get(k)] for a text that may be absent or null. *)
Definition opt_text_field (k : string) (v : json) : res (option string) :=
  x ← jget k v;
  match x with JStr s => Ok (Some s) | JNull => Ok None | _ => Err (TypeError [k]) end.
(** [v.get(k) or {}] *)
Definition dict_field (k : string) (v : json) : res json :=
  x ← jget k v; Ok (if truthy x then x else JObj []).

Definition is_null (v : json) : bool := match v with JNull => true | _ => false end.
(** [payload["ironic_object.data"]] of an event. *)
Definition ironic_object_data (data : json) : res json :=
  payload ← jget "payload" data;
  if is_null payload then Err (PlainException ["Invalid event. No 'payload'"]) else
  payload_data ← jget "ironic_object.data" payload;
  if is_null payload_data
  then Err (PlainException ["Invalid event. No 'ironic_object.data' in payload"]) else Ok payload_data.

(** ** Ports *)

Definition INTERFACE_TYPE : string := "25gbase-x-sfp28".

(* oslo_event/ironic_port.py:17-28 IronicPortEvent *)
Record IronicPortEvent := MkPortEvent {
  pe_uuid : string; pe_name : string; pe_address : string; pe_node_uuid : string; pe_physical_network : string;
  pe_pxe_enabled : bool; pe_bios_name : option string; pe_remote_port_id : option string;
  pe_remote_switch_info : option string; pe_remote_switch_id : option string;
}.

(* oslo_event/ironic_port.py:30-40 IronicPortEvent.interface_name *)
Definition event_interface_name (e : IronicPortEvent) : string :=
  str_or e.(pe_bios_name) (if truthy e.(pe_name) then e.(pe_name) else e.(pe_uuid)).

(* oslo_event/ironic_port.py:42-67 IronicPortEvent.from_event_dict *)
Definition port_event (data : json) : res IronicPortEvent :=
  payload_data ← ironic_object_data data;
  llc ← dict_field "local_link_connection" payload_data;
  extra ← dict_field "extra" payload_data;
  uuid ← text_field "uuid" payload_data;
  name ← opt_text_field "name" payload_data;
  address ← text_field "address" payload_data;
  node_uuid ← text_field "node_uuid" payload_data;
  physical_network ← opt_text_field "physical_network" payload_data;
  pxe_enabled ← jget "pxe_enabled" payload_data;
  bios_name ← opt_text_field "bios_name" extra;
  port_id ← opt_text_field "port_id" llc;
  switch_info ← opt_text_field "switch_info" llc;
  switch_id ← opt_text_field "switch_id" llc;
  Ok (MkPortEvent uuid (default "" name) address node_uuid (default "" physical_network) (truthy pxe_enabled)
        bios_name port_id switch_info switch_id).

(** [x.id] of what [get()] returned. *)
Definition record_of {A} (attr : string) (x : found A) : nbp A :=
  match x with FOne a => mret a | _ => Raise (AttributeError attr) end.

(* oslo_event/ironic_port.py:129-154 _create_cable *)
Definition _create_cable (switch_intf : found nb_if) (event : IronicPortEvent) : nbp Z :=
  try_except
    (sw ← record_of "id" switch_intf;
     _ ← call (CableCreate event.(pe_uuid) sw.(nif_id));
     mret 0%Z)
    (fun _ => mret 1%Z).

(* oslo_event/ironic_port.py:157-183 _update_existing_cable *)
Definition _update_existing_cable (cable : nb_cable) (switch_intf : found nb_if) (event : IronicPortEvent) : nbp Z :=
  sw ← record_of "id" switch_intf;
  if bool_decide (cable.(termination_a_id) = event.(pe_uuid) /\ cable.(termination_b_id) = sw.(nif_id)) ||
     bool_decide (cable.(termination_b_id) = event.(pe_uuid) /\ cable.(termination_a_id) = sw.(nif_id))
  then mret 0%Z
  else _ ← call (CableSave cable.(cable_id) event.(pe_uuid) sw.(nif_id)); mret 0%Z.

(* oslo_event/ironic_port.py:186-215 _handle_cable_management *)
Definition handle_port_cable (server_intf : nb_if) (event : IronicPortEvent) (switch port_id : string) : nbp Z :=
  switch_intf ← call (IfGetOnSwitch switch port_id);
  if negb (truthy switch_intf) then mret 1%Z
  else match server_intf.(nif_cable) with
       | Some cable => _update_existing_cable cable switch_intf event
       | None => _create_cable switch_intf event
       end.

(** [interfaces.get(id=...)], created if it is not there; [None]: the handler
    returns 1. *)
Definition get_or_create (attrs : if_attrs) (uuid : string) (race : exn -> bool) : nbp (option (found nb_if)) :=
  intf ← call (IfGetById uuid);
  if truthy intf then mret (Some intf)
  else Call (IfCreate attrs) (fun r =>
         match r with
         | inr i => mret (Some (FOne i))
         | inl e => if race e then intf ← call (IfGetById uuid);
                                   mret (if truthy intf then Some intf else None)
                    else mret None
         end).

Definition port_assigns (event : IronicPortEvent) : list if_assign :=
  [SetName (event_interface_name event); SetType INTERFACE_TYPE; SetStatus "Active"; SetMac event.(pe_address);
   SetDevice event.(pe_node_uuid)].
(* oslo_event/ironic_port.py:106-126 handle_port_create_update *)
Definition save_port_interface (event : IronicPortEvent) (i : nb_if) : nbp Z :=
  Call (IfSave i.(nif_id) (port_assigns event)) (fun r =>
    match r with
    | inl _ => mret 1%Z
    | inr _ =>
        match event.(pe_remote_port_id), event.(pe_remote_switch_info) with
        | Some port_id, Some switch =>
            if truthy port_id && truthy switch then handle_port_cable i event switch port_id else mret 0%Z
        | _, _ => mret 0%Z
        end
    end).

(* oslo_event/ironic_port.py:70-126 handle_port_create_update *)
Definition handle_port_create_update (event_data : json) : nbp Z :=
  event ← lift (port_event event_data);
  intf ← get_or_create
    (IfAttrs (Some event.(pe_uuid)) (event_interface_name event) INTERFACE_TYPE "Active" (Some event.(pe_address))
       event.(pe_node_uuid) None None None) event.(pe_uuid) (exn_mentions "unique set");
  match intf with
  | None => mret 1%Z
  | Some intf => i ← record_of "name" intf; save_port_interface event i
  end.

(* oslo_event/ironic_port.py:218-246 handle_port_delete *)
Definition handle_port_delete (event_data : json) : nbp Z :=
  event ← lift (port_event event_data);
  intf ← call (IfGetById event.(pe_uuid));
  if negb (truthy intf) then mret 0%Z else
  i ← record_of "id" intf;
  existing_cable ← call (CableGetFrom i.(nif_id));
  _ ← (if truthy existing_cable
       then cable ← record_of "id" existing_cable; call (CableDelete cable.(cable_id)) else mret tt);
  _ ← call (IfDelete i.(nif_id));
  mret 0%Z.

(** ** Portgroups *)

(* oslo_event/ironic_portgroup.py:16-24 IronicPortgroupEvent *)
Record IronicPortgroupEvent := MkPortgroupEvent {
  ge_uuid : string; ge_name : option string; ge_node_uuid : string; ge_address : option string;
  ge_mode : option string; ge_properties : json; ge_standalone_ports_supported : json;
}.

(* oslo_event/ironic_portgroup.py:26-58 IronicPortgroupEvent.lag_name *)
Definition lag_name (e : IronicPortgroupEvent) : string :=
  match e.(ge_name) with
  | Some name => if truthy name then
                   match split_once "_"%char name with Some (_, interface) => interface | None => name end
                 else e.(ge_uuid)
  | None => e.(ge_uuid)
  end.

(* oslo_event/ironic_portgroup.py:60-79 IronicPortgroupEvent.from_event_dict *)
Definition portgroup_event (data : json) : res IronicPortgroupEvent :=
  payload_data ← ironic_object_data data;
  uuid ← text_field "uuid" payload_data;
  name ← opt_text_field "name" payload_data;
  node_uuid ← text_field "node_uuid" payload_data;
  address ← opt_text_field "address" payload_data;
  mode ← opt_text_field "mode" payload_data;
  properties ← dict_field "properties" payload_data;
  standalone ← jget_or "standalone_ports_supported" (JBool true) payload_data;
  Ok (MkPortgroupEvent uuid name node_uuid address mode properties standalone).

(** [e.req.status_code == 400 and "unique set" in str(e).lower()] of a
    [RequestError] *)
Definition lag_race (e : exn) : bool := bool_decide (exn_status e = Some 400%Z) && exn_mentions "unique set" e.

(* oslo_event/ironic_portgroup.py:82-141 handle_portgroup_create_update *)
Definition handle_portgroup_create_update (event_data : json) : nbp Z :=
  event ← lift (portgroup_event event_data);
  let mac := match event.(ge_address) with Some a => if truthy a then Some a else None | None => None end in
  let description := match event.(ge_mode) with
                     | Some m => if truthy m then Some ("Bond mode: " +:+ m) else None
                     | None => None
                     end in
  lag_intf ← get_or_create
    (IfAttrs (Some event.(ge_uuid)) (lag_name event) "lag" "Active" mac event.(ge_node_uuid) None None description)
    event.(ge_uuid) lag_race;
  match lag_intf with
  | None => mret 1%Z
  | Some lag_intf =>
      i ← record_of "name" lag_intf;
      Call (IfSave i.(nif_id)
              ([SetName (lag_name event); SetDevice event.(ge_node_uuid); SetType "lag"; SetStatus "Active"] ++
               match mac with Some m => [SetMac m] | None => [] end ++
               match description with Some d => [SetDescription d] | None => [] end)) (fun r =>
        match r with inl _ => mret 1%Z | inr _ => mret 0%Z end)
  end.

(* oslo_event/ironic_portgroup.py:144-168 handle_portgroup_delete *)
Definition handle_portgroup_delete (event_data : json) : nbp Z :=
  event ← lift (portgroup_event event_data);
  lag_intf ← call (IfGetById event.(ge_uuid));
  if negb (truthy lag_intf) then mret 0%Z
  else try_except (i ← record_of "delete" lag_intf; _ ← call (IfDelete i.(nif_id)); mret 0%Z) (fun _ => mret 1%Z).

(** ** Against Nautobot *)

(** Requests about cables are served. *)
Definition cables_work (R : Type) (op : NbAPI R) : res R -> Prop :=
  match op in NbAPI R return res R -> Prop with
  | CableGetFrom _ => fun r => r = inr FNone \/ exists c, r = inr (FOne c)
  | CableDelete _ => fun r => r = inr tt
  | _ => fun _ => True
  end.
Definition event_step (reserved : list string) (R : Type) (op : NbAPI R) (s : if_table) (r : res R) (s' : if_table) : Prop :=
  nb_step reserved R op s r s' /\ cables_work R op r.

(** The interface that mirrors a port; what the event does not carry stays. *)
Definition mirror (e : IronicPortEvent) (old : option if_row) : if_row :=
  IfRow (event_interface_name e) (Some e.(pe_address)) (Some INTERFACE_TYPE)
    (default "" (row_description <$> old)) (default false (row_mgmt_only <$> old)) e.(pe_node_uuid).
(** The event does not say where the port is connected. *)
Definition unlinked (e : IronicPortEvent) : bool := negb (truthy e.(pe_remote_port_id) && truthy e.(pe_remote_switch_info)).

Section events.
Context (reserved : list string).
Abbreviation step := (event_step reserved).

(** [get_or_create] answers the interface, or [None] when its name is taken. *)
Lemma wp_get_or_create attrs uuid race g s :
  attrs.(ia_id) = Some uuid ->
  wp step (get_or_create attrs uuid race) (fun r _ s' =>
    (exists row c, r = inr (Some (FOne (view uuid row c))) /\ s' = s /\ s !! uuid = Some row) \/
    (exists c, r = inr (Some (FOne (view uuid (new_row attrs) c))) /\ s' = <[uuid := new_row attrs]> s /\
       s !! uuid = None /\ ~ name_taken s uuid (new_row attrs)) \/
    (r = inr None /\ s' = s /\ s !! uuid = None /\ name_taken s uuid (new_row attrs))) g s.
Proof.
  intros Hid. unfold get_or_create. wp_pure. apply wp_call. intros r s' [[-> Hr] _].
  destruct (s !! uuid) as [row|] eqn:Hrow.
  - destruct Hr as [c ->]. wp_simp. cbn [truthy truthy_found]. wp_pure. left. eauto.
  - subst r. wp_simp. cbn [truthy truthy_found]. intros r s' [Hs _]. cbn in Hs. rewrite Hid in Hs.
    destruct Hs as [(id & -> & _ & Hfree & -> & ->)|(e & -> & _ & -> & Ht)]; [wp_pure; right; left; eauto 10|].
    assert (name_taken s uuid (new_row attrs)) as Ht'.
    { destruct Ht as [(id & [= <-] & [? ?])|Ht]; [congruence|done]. }
    destruct (race e); [|wp_pure; right; right; eauto].
    wp_pure. apply wp_call. intros r s' [[-> Hr] _]. rewrite Hrow in Hr. subst r. wp_simp.
    cbn [truthy truthy_found]. wp_pure. right; right; eauto.
Qed.

(** The table after a port event. *)
Definition port_written (e : IronicPortEvent) (s s' : if_table) (r : res Z) : Prop :=
  let row := mirror e (s !! e.(pe_uuid)) in
  (name_taken s e.(pe_uuid) row /\ r = inr 1%Z /\ s' = s) \/
  (~ name_taken s e.(pe_uuid) row /\ s' = <[e.(pe_uuid) := row]> s /\ (unlinked e = true -> r = inr 0%Z)).

Lemma wp_port_cable i e switch port_id g s :
  wp step (handle_port_cable i e switch port_id) (fun _ _ s' => s' = s) g s.
Proof.
  unfold handle_port_cable. wp_pure. apply wp_call. intros r s' [[-> [x ->]] _]. wp_simp.
  destruct (truthy x); cbn [negb]; [|by wp_pure].
  destruct (nif_cable i); unfold _update_existing_cable, _create_cable.
  - wp_pure. destruct x; cbn [record_of]; wp_pure; try done. destruct (_ || _); [by wp_pure|].
    wp_pure. apply wp_call. intros r s' [[-> ->] _]. wp_simp. by wp_pure.
  - wp_pure. wp_pure. destruct x; cbn [record_of]; wp_pure; try by wp_pure.
    wp_pure. apply wp_call. intros [e'|y] s' [-> _]; wp_simp; by wp_pure.
Qed.

Lemma name_taken_insert s id row r : name_taken (<[id := row]> s) id r <-> name_taken s id r.
Proof.
  split; intros (k & r' & Hk & Hne & Hr); exists k, r'; [rewrite lookup_insert_ne in Hk by done; done|].
  by rewrite lookup_insert_ne by done.
Qed.

(** Saving an interface that was read, or has just been created. *)
Lemma wp_save_row uuid row cs target s s0 (k : res unit -> nbp Z) Q g :
  s0 !! uuid = Some row -> foldl assign row cs = target ->
  (s0 = s \/ ~ name_taken s uuid target /\ exists row, s0 = <[uuid := row]> s) ->
  (~ name_taken s uuid target -> wp step (k (inr tt)) Q g (<[uuid := target]> s)) ->
  (forall e, name_taken s uuid target -> wp step (k (inl e)) Q g s) ->
  wp step (Call (IfSave uuid cs) k) Q g s0.
Proof.
  intros Hrow Hm Hs0 Hok Hbad r s' [Hs _]. cbn -[foldl] in Hs. rewrite Hrow, Hm in Hs.
  destruct Hs0 as [-> | [Hf [row' ->]]]; destruct Hs as [(Hfree & -> & ->)|(Ht & -> & [e' ->])]; auto.
  - rewrite insert_insert_eq. auto.
  - by apply name_taken_insert in Ht.
Qed.

Lemma wp_save_port e row c g s s0 :
  s0 !! e.(pe_uuid) = Some row -> foldl assign row (port_assigns e) = mirror e (s !! e.(pe_uuid)) ->
  (s0 = s \/ ~ name_taken s e.(pe_uuid) (mirror e (s !! e.(pe_uuid))) /\ exists row, s0 = <[e.(pe_uuid) := row]> s) ->
  wp step (save_port_interface e (view e.(pe_uuid) row c)) (fun r _ s' => port_written e s s' r) g s0.
Proof.
  intros Hrow Hm Hs0. eapply wp_save_row; [done..| |].
  - intros Hfree. destruct (pe_remote_port_id e) as [pid|] eqn:H1; [|wp_pure; by right].
    destruct (pe_remote_switch_info e) as [sw|] eqn:H2; [|wp_pure; by right].
    destruct (truthy pid && truthy sw) eqn:H3; [|wp_pure; by right].
    eapply wp_mono; [|apply wp_port_cable]. intros r' g' s' ->. right. split_and!; [done..|].
    unfold unlinked. rewrite H1, H2. cbn [truthy truthy_option]. by rewrite H3.
  - intros e' Ht. wp_pure. by left.
Qed.

Lemma wp_port_create_update data e g s :
  port_event data = inr e ->
  wp step (handle_port_create_update data) (fun r _ s' => port_written e s s' r) g s.
Proof.
  intros He. unfold handle_port_create_update. wp_pure. rewrite He. wp_pure. wp_simp. wp_pure.
  eapply wp_mono; [|by apply wp_get_or_create].
  intros r g' s' [(row & c & -> & -> & Hrow)|[(c & -> & -> & Hn & Hf)|(-> & -> & Hn & Ht)]]; wp_simp.
  - wp_pure. cbn [record_of]. wp_pure. apply wp_save_port; [done| |by left]. rewrite Hrow. by destruct row.
  - wp_pure. cbn [record_of]. wp_pure. apply wp_save_port; [by rewrite lookup_insert_eq|by rewrite Hn|].
    right. split; [by rewrite Hn|by eexists].
  - wp_pure. left. by rewrite Hn.
Qed.

(** *** When requests fail *)

(** At most the interface of the port was written; the code is 0 only if it was. *)
Definition port_attempted (e : IronicPortEvent) (s s' : if_table) (r : res Z) : Prop :=
  let row := mirror e (s !! e.(pe_uuid)) in
  (s' = s \/ s' = <[e.(pe_uuid) := row]> s) /\ (r = inr 0%Z -> s' = <[e.(pe_uuid) := row]> s).

(** The cables are not part of the table. *)
Lemma port_cable_attempt i e switch port_id g st :
  wp (faulty step) (handle_port_cable i e switch port_id) (fun _ _ st' => st'.1 = st.1) g st.
Proof.
  assert (forall R (op : NbAPI R) (r : res R) st', match op with IfGetOnSwitch _ _ | CableSave _ _ _ | CableCreate _ _ => True | _ => False end ->
    faulty step R op st r st' -> st'.1 = st.1) as Hsame.
  { intros R op r st' Hop [[[Hs _] _]|(_ & _ & [->|[a [Hs _]]])]; [|done|]; destruct op; try done; cbn in Hs; try (by destruct Hs); done. }
  unfold handle_port_cable. wp_pure. apply wp_call. intros r st' Hs%Hsame; [|done].
  destruct r as [e0|x]; wp_simp; [done|]. destruct (truthy x); cbn [negb]; [|by wp_pure].
  destruct (nif_cable i); unfold _update_existing_cable, _create_cable.
  - wp_pure. destruct x; cbn [record_of]; wp_pure; try done. destruct (_ || _); [by wp_pure|].
    wp_pure. apply wp_call. intros r st2 Hs2. assert (st2.1 = st.1) as Heq.
    { rewrite <- Hs. clear Hsame. destruct Hs2 as [[[H _] _]|(_ & _ & [->|[b [H _]]])]; [by destruct H|done|by destruct H]. }
    destruct r; wp_simp; [done|by wp_pure].
  - wp_pure. wp_pure. destruct x; cbn [record_of]; wp_pure; try by wp_pure.
    wp_pure. apply wp_call. intros r st2 Hs2. assert (st2.1 = st.1) as Heq.
    { rewrite <- Hs. clear Hsame. destruct Hs2 as [[[H _] _]|(_ & _ & [->|[b [H _]]])]; done. }
    destruct r; wp_simp; by wp_pure.
Qed.

(** The answers to a look-up, a creation and a save when any of them may fail. *)
Lemma faulty_get uuid st r st' : faulty step _ (IfGetById uuid) st r st' ->
  st'.1 = st.1 /\ ((exists e, r = inl e) \/ (exists row c, st.1 !! uuid = Some row /\ r = inr (FOne (view uuid row c))) \/
    (st.1 !! uuid = None /\ r = inr FNone)).
Proof.
  intros [[[[Hs Hr] _] _]|(He & _ & Hst)].
  - split; [done|]. destruct (st.1 !! uuid) as [row|] eqn:Hrow; [destruct Hr as [c ->]; eauto 10|by eauto].
  - split; [|by left]. by destruct Hst as [?|(a & [? _] & _)].
Qed.
Lemma faulty_create attrs uuid st r st' : attrs.(ia_id) = Some uuid -> faulty step _ (IfCreate attrs) st r st' ->
  (st'.1 = st.1 /\ exists e, r = inl e) \/
  (st.1 !! uuid = None /\ st'.1 = <[uuid := new_row attrs]> st.1 /\ ((exists e, r = inl e) \/ r = inr (view uuid (new_row attrs) None))).
Proof.
  intros Hid [[[Hs _] _]|(He & _ & [->|[a [Hs _]]])]; [|by left|]; cbn in Hs; rewrite Hid in Hs;
    destruct Hs as [(id & -> & Hn & _ & Heq & Hr)|(e & Hr & _ & Heq & _)]; try discriminate Hr; eauto 10.
Qed.
Lemma faulty_save uuid cs row st r st' : st.1 !! uuid = Some row -> faulty step _ (IfSave uuid cs) st r st' ->
  (exists e, r = inl e) /\ st'.1 = st.1 \/ st'.1 = <[uuid := foldl assign row cs]> st.1.
Proof.
  intros Hrow [[[Hs _] _]|(He & _ & [Heq|[a [Hs _]]])]; [|by left|]; cbn -[foldl] in Hs; rewrite Hrow in Hs;
    destruct Hs as [(_ & _ & Heq)|(_ & Heq & He')]; eauto.
Qed.

Lemma port_save_attempt e row c g st s :
  st.1 !! e.(pe_uuid) = Some row -> foldl assign row (port_assigns e) = mirror e (s !! e.(pe_uuid)) ->
  st.1 = s \/ st.1 = <[e.(pe_uuid) := mirror e (s !! e.(pe_uuid))]> s ->
  wp (faulty step) (save_port_interface e (view e.(pe_uuid) row c)) (fun r _ st' => port_attempted e s st'.1 r) g st.
Proof.
  intros Hrow Hm Hst r st' Hs. apply (faulty_save e.(pe_uuid) _ row) in Hs; [|done]. rewrite Hm in Hs.
  assert (<[e.(pe_uuid) := mirror e (s !! e.(pe_uuid))]> st.1 = <[e.(pe_uuid) := mirror e (s !! e.(pe_uuid))]> s) as Hput
    by (destruct Hst as [->|Heq]; [done|]; rewrite Heq; apply insert_insert_eq).
  destruct r as [e'|u].
  { apply wp_mret. split; [|done]. destruct Hs as [[_ Heq]|Heq]; rewrite Heq; [exact Hst|right; exact Hput]. }
  destruct Hs as [[[? [=]] _]|Heq]. rewrite Hput in Heq.
  assert (forall r : res Z, port_attempted e s st'.1 r) as Hdone by (intros r; split; [by right|done]).
  repeat (case_match; try (apply wp_mret; apply Hdone)).
  eapply wp_mono; [|apply port_cable_attempt]. intros r g' st2 Heq2. rewrite Heq2. apply Hdone.
Qed.
Lemma port_attempt data e g st :
  port_event data = inr e ->
  wp (faulty step) (handle_port_create_update data) (fun r _ st' => port_attempted e st.1 st'.1 r) g st.
Proof.
  intros He. set (s := st.1). assert (forall e' : exn, port_attempted e s s (inl e')) as Hraise by (intros; split; [by left|done]).
  assert (port_attempted e s s (inr 1%Z)) as Hone by (split; [by left|done]).
  unfold handle_port_create_update. wp_pure. rewrite He. wp_pure. wp_simp. wp_pure.
  set (attrs := IfAttrs _ _ _ _ _ _ _ _ _). unfold get_or_create.
  assert (new_row attrs = mirror e None) as Hnew by done.
  (** What follows once the interface, or the failure to get it, is known. *)
  assert (forall row c st', st'.1 !! e.(pe_uuid) = Some row -> (st'.1 = s \/ s !! e.(pe_uuid) = None /\ st'.1 = <[e.(pe_uuid) := mirror e None]> s) ->
    wp (faulty step) (i ← record_of "name" (FOne (view e.(pe_uuid) row c)); save_port_interface e i)
      (fun r _ st2 => port_attempted e s st2.1 r) g st') as Hsave.
  { intros row c st' Hrow Hst. wp_pure. cbn [record_of]. wp_pure.
    destruct Hst as [Heq|[Hn Heq]]; rewrite Heq in Hrow; (apply port_save_attempt; [by rewrite Heq| |]).
    - rewrite Hrow. by destruct row.
    - by left.
    - rewrite lookup_insert_eq in Hrow. injection Hrow as <-. by rewrite Hn.
    - right. by rewrite Hn. }
  wp_pure. apply wp_call. intros r st1 [Hs1 Hr]%faulty_get. fold s in Hs1, Hr.
  destruct Hr as [[e' ->]|[(row & c & Hrow & ->)|[Hn ->]]]; wp_simp.
  - rewrite Hs1. apply Hraise.
  - cbn [truthy truthy_found]. wp_pure. apply Hsave; [by rewrite Hs1|by left].
  - cbn [truthy truthy_found]. intros r st2 Hs2. apply (faulty_create attrs e.(pe_uuid)) in Hs2; [|done]. rewrite Hs1 in Hs2.
    assert (forall e', st2.1 = s \/ st2.1 = <[e.(pe_uuid) := mirror e None]> s ->
      wp (faulty step) (if exn_mentions "unique set" e' then intf ← call (IfGetById (pe_uuid e)); mret (if truthy intf then Some intf else None)
                        else mret None)
        (fun r g st3 => match r with
           | inl e0 => port_attempted e s st3.1 (inl e0)
           | inr intf => wp (faulty step) (match intf with None => mret 1%Z | Some intf => i ← record_of "name" intf; save_port_interface e i end)
               (fun r _ st4 => port_attempted e s st4.1 r) g st3
           end) g st2) as Hrace.
    { intros e' Hst. assert (forall r : res Z, r <> inr 0%Z -> port_attempted e s st2.1 r) as Hat
        by (intros ? ?; split; [rewrite Hn; exact Hst|done]).
      destruct (exn_mentions _ e'); [|wp_pure; wp_pure; by apply Hat].
      wp_pure. apply wp_call. intros r3 st3 [Hs3 Hr]%faulty_get.
      destruct Hr as [[e2 ->]|[(row & c & Hrow & ->)|[Hn3 ->]]]; wp_simp.
      - rewrite Hs3. by apply Hat.
      - wp_pure. cbn [truthy truthy_found]. apply Hsave; [by rewrite Hs3|]. rewrite Hs3. destruct Hst; auto.
      - wp_pure. cbn [truthy truthy_found]. wp_pure. rewrite Hs3. by apply Hat. }
    destruct Hs2 as [[Heq [e' ->]]|(_ & Heq & [[e' ->]| ->])].
    + apply Hrace. by left.
    + apply Hrace. right. by rewrite Heq, Hnew.
    + wp_pure. apply Hsave; [by rewrite Heq, lookup_insert_eq|]. right. by rewrite Heq, Hnew.
Qed.

Lemma wp_port_delete data e g s :
  port_event data = inr e ->
  wp step (handle_port_delete data) (fun r _ s' => r = inr 0%Z /\ s' = delete e.(pe_uuid) s) g s.
Proof.
  intros He. unfold handle_port_delete. wp_pure. rewrite He. wp_pure. wp_simp. wp_pure.
  apply wp_call. intros r s' [[-> Hr] _]. destruct (s !! pe_uuid e) as [row|] eqn:Hrow.
  - destruct Hr as [c ->]. wp_simp. cbn [truthy truthy_found negb]. wp_pure. cbn [record_of]. wp_pure.
    cbn [nif_id view]. wp_pure.
    assert (wp step (_ ← call (IfDelete (pe_uuid e)); mret 0%Z)
      (fun r _ s' => r = inr 0%Z /\ s' = delete e.(pe_uuid) s) g s) as Hdel.
    { wp_pure. apply wp_call. intros r s' [Hs _]. cbn in Hs. rewrite Hrow in Hs. destruct Hs as [-> ->].
      wp_simp. by wp_pure. }
    apply wp_call. intros r s' [-> [-> | [cb ->]]]; wp_simp; cbn [truthy truthy_found]; wp_pure.
    + wp_pure. exact Hdel.
    + wp_pure. cbn [record_of]. wp_pure. apply wp_call. intros r s' [-> ->]. wp_simp. exact Hdel.
  - subst r. wp_simp. cbn [truthy truthy_found negb]. wp_pure. by rewrite delete_id.
Qed.

(** The table after a portgroup event. *)
Definition lag_mirror (e : IronicPortgroupEvent) (old : option if_row) : if_row :=
  IfRow (lag_name e) (if truthy e.(ge_address) then e.(ge_address) else old ≫= row_mac) (Some "lag")
    (match e.(ge_mode) with
     | Some m => if truthy m then "Bond mode: " +:+ m else default "" (row_description <$> old)
     | None => default "" (row_description <$> old)
     end) (default false (row_mgmt_only <$> old)) e.(ge_node_uuid).
Definition lag_written (e : IronicPortgroupEvent) (s s' : if_table) (r : res Z) : Prop :=
  let row := lag_mirror e (s !! e.(ge_uuid)) in
  (name_taken s e.(ge_uuid) row /\ r = inr 1%Z /\ s' = s) \/
  (~ name_taken s e.(ge_uuid) row /\ s' = <[e.(ge_uuid) := row]> s /\ r = inr 0%Z).

Lemma wp_portgroup_create_update data e g s :
  portgroup_event data = inr e ->
  wp step (handle_portgroup_create_update data) (fun r _ s' => lag_written e s s' r) g s.
Proof.
  intros He. unfold handle_portgroup_create_update. wp_pure. rewrite He. wp_pure. wp_simp. wp_pure.
  set (mac := match ge_address e with Some _ => _ | None => _ end).
  set (description := match ge_mode e with Some _ => _ | None => _ end).
  assert (forall row, foldl assign row ([SetName (lag_name e); SetDevice (ge_node_uuid e); SetType "lag"; SetStatus "Active"] ++
      match mac with Some m => [SetMac m] | None => [] end ++
      match description with Some d => [SetDescription d] | None => [] end) = lag_mirror e (Some row)) as Hm.
  { intros [n m t d mg v]. unfold mac, description, lag_mirror.
    destruct (ge_address e) as [[|]|], (ge_mode e) as [[|]|]; done. }
  assert (lag_mirror e (Some (new_row (IfAttrs (Some (ge_uuid e)) (lag_name e) "lag" "Active" mac (ge_node_uuid e)
      None None description))) = lag_mirror e None /\
    new_row (IfAttrs (Some (ge_uuid e)) (lag_name e) "lag" "Active" mac (ge_node_uuid e) None None description) =
      lag_mirror e None) as [Hm1 Hm2].
  { unfold mac, description, lag_mirror. destruct (ge_address e) as [[|]|], (ge_mode e) as [[|]|]; done. }
  eapply wp_mono; [|by apply wp_get_or_create].
  intros r g' s' [(row & c & -> & -> & Hrow)|[(c & -> & -> & Hn & Hf)|(-> & -> & Hn & Ht)]]; wp_simp.
  - wp_pure. cbn [record_of]. wp_pure. cbn [nif_id view].
    eapply wp_save_row; [exact Hrow|apply Hm|by left| |]; rewrite <- Hrow; intros; wp_pure; [by right|by left].
  - wp_pure. cbn [record_of]. wp_pure. cbn [nif_id view].
    eapply wp_save_row; [apply lookup_insert_eq|rewrite Hm; exact Hm1| |intros Hf'|intros e' Ht'].
    + right. rewrite Hm2 in Hf. split; [done|by eexists].
    + wp_pure. right. by rewrite Hn.
    + wp_pure. left. by rewrite Hn.
  - wp_pure. left. rewrite Hn. by rewrite Hm2 in Ht.
Qed.

(** The event of a new port and the event of its removal cancel out: both
    handlers return 0 and Nautobot's interfaces are what they were. *)
Theorem port_create_delete_roundtrip data e g s :
  port_event data = inr e -> s !! e.(pe_uuid) = None -> ~ name_taken s e.(pe_uuid) (mirror e None) ->
  unlinked e = true ->
  wp step (created ← handle_port_create_update data; deleted ← handle_port_delete data; mret (created, deleted))
    (fun r _ s' => r = inr (0%Z, 0%Z) /\ s' = s) g s.
Proof.
  intros He Hn Hf Hl. wp_pure. eapply wp_mono; [|by apply (wp_port_create_update data e)].
  intros r g' s' Hw. unfold port_written in Hw. rewrite Hn in Hw. destruct Hw as [[Ht _]|(_ & -> & Hr)]; [done|].
  rewrite (Hr Hl). wp_simp. wp_pure. eapply wp_mono; [|by apply (wp_port_delete data e)].
  intros r' g'' s' [-> ->]. wp_simp. wp_pure. by rewrite delete_insert_id.
Qed.

End events.

(** The interface synchronisation of a node removes the LAG that a portgroup
    event has created for it: a portgroup's identifier is no port's. *)
Theorem sync_removes_lag node ifs inventory ports data e g s :
  NoDup (map ii_uuid ifs) -> NoDup (map ii_name ifs) -> (forall i, i ∈ ifs -> port_interface node i) ->
  truthy node = true -> describes node ifs inventory ports -> bmc_text inventory -> inv node ifs [] s ->
  portgroup_event data = inr e -> e.(ge_node_uuid) = node -> e.(ge_uuid) ∉ map ii_uuid ifs -> lag_name e <> "iDRAC" ->
  wp (event_step (map ii_uuid ifs))
    (_ ← handle_portgroup_create_update data; sync_interfaces_from_data node inventory ports)
    (fun r _ s' => r = inr EXIT_STATUS_SUCCESS /\
       forall row, s' !! e.(ge_uuid) = Some row -> row.(row_device) = node -> row.(row_name) <> lag_name e) g s.
Proof.
  intros Hu Hn Hok Hnode Hdesc Hbmc Hinv He Hd Hid Hlag. wp_pure.
  eapply wp_mono; [|by apply (wp_portgroup_create_update _ data e)]. intros r g' s' Hw.
  assert (inv node ifs [] s' /\ exists z, r = inr z) as [Hinv' [z ->]].
  { destruct Hw as [(_ & -> & ->)|(Hf & -> & ->)]; [by eauto|]. split; [|by eauto].
    destruct Hinv as [H1 H2 _]. split.
    - by apply names_unique_insert.
    - intros i row Hi [[Heq _]|[_ Hr]]%lookup_insert_Some; [|by apply (H2 i)]. destruct Hid. rewrite Heq.
      by apply (list_elem_of_fmap_2 ii_uuid).
    - intros i row Hi. by apply elem_of_nil in Hi. }
  wp_simp. eapply wp_step_mono; [|eapply wp_mono; [|by apply (wp_sync_interfaces node ifs)]].
  { by intros R op s0 r s1 [? _]. }
  intros r g'' s'' (-> & _ & Hset & _). split; [done|]. intros row Hrow Hrd Hrn.
  destruct (Hset _ row Hrow Hrd) as [Hi|(i & Hi & Heq & _)]; [congruence|].
  destruct Hid. rewrite <- Heq. by apply (list_elem_of_fmap_2 ii_uuid).
Qed.

(** A portgroup name that the Ironic middleware accepts has no node prefix that
    [lag_name] would strip: the separators differ. *)
Lemma lag_name_of_accepted_name e s :
  e.(ge_name) = Some s -> good_name s -> has_char "_"%char s = false -> lag_name e = s.
Proof.
  intros He (x & d & tail & -> & Hx & _) Hs. unfold lag_name. rewrite He, split_once_none by done.
  destruct x; [by destruct Hx|done].
Qed.

(** ** Witnesses *)

Definition port_event_json : json :=
  JObj [("payload", JObj [("ironic_object.data",
    JObj [("uuid", JStr "u1"); ("address", JStr "aa:bb"); ("node_uuid", JStr "n1");
          ("extra", JObj [("bios_name", JStr "NIC.Slot.1-1")])])])].
Definition port_event_example : IronicPortEvent :=
  MkPortEvent "u1" "" "aa:bb" "n1" "" false (Some "NIC.Slot.1-1") None None None.

Lemma port_create_delete_roundtrip_witness :
  wp (event_step [])
    (created ← handle_port_create_update port_event_json; deleted ← handle_port_delete port_event_json;
     mret (created, deleted)) (fun r _ s' => r = inr (0%Z, 0%Z) /\ s' = ∅) tt ∅.
Proof.
  apply (port_create_delete_roundtrip [] port_event_json port_event_example); [by vm_compute|done| |done].
  by intros (k & r & Hk & _).
Defined.
