(* ===== verification/DeviceSync.v ===== *)
(** * Devices, from Ironic to Nautobot

    Models
    [src/python/understack-workflows/understack_workflows/oslo_event/nautobot_device_sync.py].
    The mutable [DeviceInfo] that the source fills in steps is passed through the
    functions that fill it.  The element that [next(iter(locations))] takes of a
    set is any ([pick]); the waiting time between two attempts is left out. *)
From S2P Require Import Prelude PyStr PyData IronicNode Nautobot InterfaceSync.

(** ** Transient errors *)

(** [requests.exceptions.ConnectionError] and its subclasses *)
Definition is_ConnectionError (e : exn) : bool :=
  bool_decide (e.(exn_cls) ∈ ["ConnectionError"; "ProxyError"; "SSLError"; "ConnectTimeout"]).

(* oslo_event/nautobot_device_sync.py:42-56 _is_retryable_error *)
Definition _is_retryable_error (exc : exn) : bool :=
  if is_ConnectionError exc then true
  else if is_RequestError exc then
    match exn_status exc with Some st => bool_decide (st ∈ [502; 503; 504]%Z) | None => false end
  else false.

(* oslo_event/nautobot_device_sync.py:36-39 RETRY_ATTEMPTS *)
Definition RETRY_ATTEMPTS : nat := 5.

(** [tenacity.retry] that stops after [1 + more] attempts and re-raises. *)
Fixpoint retrying {G E A} (more : nat) (p : prog G E A) : prog G E A :=
  match more with
  | O => p
  | S more => try_except p (fun e => if _is_retryable_error e then retrying more p else Raise e)
  end.

(** ** Device information *)

(* oslo_event/nautobot_device_sync.py:59-103 DeviceInfo *)
Record DeviceInfo := MkDeviceInfo {
  di_uuid : string; di_name : option string; di_serial_number : option string; di_manufacturer : option string;
  di_model : option string; di_memory_mb : option Z; di_cpus : option Z; di_cpu_arch : option scalar;
  di_local_gb : option Z; di_traits : list string; di_location_id : option string; di_rack_id : option string;
  di_position : option Z; di_face : option string; di_status : option string; di_role : string;
  di_tenant_id : option string; di_custom_fields : dict (option string); di_external_cmdb_id : option string;
}.
Definition new_device_info (uuid : string) : DeviceInfo :=
  MkDeviceInfo uuid None None None None None None None None [] None None None None None "server" None [] None.

(* oslo_event/nautobot_device_sync.py:106-112 _normalise_manufacturer *)
Definition _normalise_manufacturer (name : string) : res string :=
  if contains "DELL" (upper name) then Ok "Dell"
  else if contains "HP" (upper name) then Ok "HPE"
  else Err (ValueError [name]).

(** [int(props[k])] where [props.get(k)] is true *)
Definition int_property (k : string) (props : dict scalar) : res (option Z) :=
  match dict_get k props with
  | Some v => if truthy v then
                match v with
                | SInt z => Ok (Some z)
                | SStr s => match py_int s with Some z => Ok (Some z) | None => Err (ValueError [s]) end
                | SBool b => Ok (Some (if b then 1 else 0)%Z)
                end
              else Ok None
  | None => Ok None
  end.

(* oslo_event/nautobot_device_sync.py:115-150 _populate_from_node *)
Definition _populate_from_node (d : DeviceInfo) (node : ir_node) : res DeviceInfo :=
  let props := default [] node.(irn_properties) in
  memory_mb ← int_property "memory_mb" props;
  cpus ← int_property "cpus" props;
  let cpu_arch := dict_get "cpu_arch" props in
  local_gb ← int_property "local_gb" props;
  let traits := if truthy node.(irn_traits) then node.(irn_traits) else d.(di_traits) in
  status ← translate_to_nautobot node.(irn_provision_state);
  let tenant_id := match node.(irn_lessee) with
                   | Some lessee => if truthy lessee then
                                       match uuid_int lessee with Some z => Some (uuid_str z) | None => d.(di_tenant_id) end
                                     else d.(di_tenant_id)
                   | None => d.(di_tenant_id)
                   end in
  let external := match dict_get "external_cmdb_id" (default [] node.(irn_extra)) with
                  | Some v => if truthy v then Some (scalar_text v) else None
                  | None => None
                  end in
  Ok (MkDeviceInfo d.(di_uuid) d.(di_name) d.(di_serial_number) d.(di_manufacturer) d.(di_model)
        (if memory_mb is Some _ then memory_mb else d.(di_memory_mb)) (if cpus is Some _ then cpus else d.(di_cpus))
        cpu_arch (if local_gb is Some _ then local_gb else d.(di_local_gb)) traits d.(di_location_id) d.(di_rack_id)
        d.(di_position) d.(di_face) status d.(di_role) tenant_id d.(di_custom_fields) external).

(** The texts of [system_vendor] *)
Definition vendor_text (k : string) (v : json) : res (option string) :=
  x ← jget k v;
  if truthy x then match x with JStr s => Ok (Some s) | _ => Err (TypeError [k]) end else Ok None.

(* oslo_event/nautobot_device_sync.py:153-174 _populate_from_inventory *)
Definition _populate_from_inventory (d : DeviceInfo) (inventory : json) : res DeviceInfo :=
  if negb (truthy inventory) then Ok d else
  inv ← jget_or "inventory" (JObj []) inventory;
  system_vendor ← jget_or "system_vendor" (JObj []) inv;
  vendor ← vendor_text "manufacturer" system_vendor;
  manufacturer ← match vendor with
                 | Some v => m ← _normalise_manufacturer v; Ok (Some m)
                 | None => Ok d.(di_manufacturer)
                 end;
  product_name ← vendor_text "product_name" system_vendor;
  let model := match product_name with
               | Some p => if bool_decide (p <> "System") then Some (drop_parens (String.length p) p) else d.(di_model)
               | None => d.(di_model)
               end in
  serial ← vendor_text "serial_number" system_vendor;
  Ok (MkDeviceInfo d.(di_uuid) d.(di_name) (if serial is Some _ then serial else d.(di_serial_number)) manufacturer
        model d.(di_memory_mb) d.(di_cpus) d.(di_cpu_arch) d.(di_local_gb) d.(di_traits) d.(di_location_id) d.(di_rack_id)
        d.(di_position) d.(di_face) d.(di_status) d.(di_role) d.(di_tenant_id) d.(di_custom_fields)
        d.(di_external_cmdb_id)).

(* oslo_event/nautobot_device_sync.py:177-180 _generate_device_name *)
Definition _generate_device_name (d : DeviceInfo) : DeviceInfo :=
  match d.(di_manufacturer), d.(di_serial_number) with
  | Some m, Some s =>
      if truthy m && truthy s then
        MkDeviceInfo d.(di_uuid) (Some (m +:+ "-" +:+ s)) d.(di_serial_number) d.(di_manufacturer) d.(di_model)
          d.(di_memory_mb) d.(di_cpus) d.(di_cpu_arch) d.(di_local_gb) d.(di_traits) d.(di_location_id) d.(di_rack_id)
          d.(di_position) d.(di_face) d.(di_status) d.(di_role) d.(di_tenant_id) d.(di_custom_fields)
          d.(di_external_cmdb_id)
      else d
  | _, _ => d
  end.

(** Assigning [location_id], [rack_id], [position] and [face]. *)
Definition set_place (d : DeviceInfo) (location rack : option string) (position : option Z) (face : option string)
    : DeviceInfo :=
  MkDeviceInfo d.(di_uuid) d.(di_name) d.(di_serial_number) d.(di_manufacturer) d.(di_model) d.(di_memory_mb)
    d.(di_cpus) d.(di_cpu_arch) d.(di_local_gb) d.(di_traits) location rack position face d.(di_status) d.(di_role)
    d.(di_tenant_id) d.(di_custom_fields) d.(di_external_cmdb_id).

Section device.
Context (pick : gset (string * string) -> string * string).

(* oslo_event/nautobot_device_sync.py:183-239 _set_location_from_switches *)
Definition _set_location_from_switches (d : DeviceInfo) (ports : list Port) : nbp DeviceInfo :=
  try_except
    (locations ← fold_each (fun (locations : gset (string * string)) port =>
       match usable ((default ∅ port.(port_llc) : llc_t) !! "switch_info") with
       | None => mret locations
       | Some switch_info =>
           device ← call (DevGetByName switch_info);
           mret match single device with
                | Some dev => match dev.(dev_location), dev.(dev_rack) with
                              | Some location, Some rack => {[ (location, rack) ]} ∪ locations
                              | _, _ => locations
                              end
                | None => locations
                end
       end) ports ∅;
     if bool_decide (locations = ∅) then mret d
     else let '(location_id, rack_id) := pick locations in
          mret (set_place d (Some location_id) (Some rack_id) d.(di_position) d.(di_face)))
    (fun e => if _is_retryable_error e then Raise e else mret d).

(* oslo_event/nautobot_device_sync.py:242-276 fetch_node_details *)
Definition fetch_node_details (node_uuid : string) : syncp (DeviceInfo * json * list Port) :=
  let device_info := new_device_info node_uuid in
  node ← call (IrNodeGet node_uuid);
  inventory ← Call (IrInventory node_uuid) (fun r =>
    match r with
    | inr inventory => mret inventory
    | inl e => if bool_decide (e.(exn_cls) = "NotFound") then mret (JObj []) else Raise e
    end);
  ports ← call (IrPorts node_uuid);
  device_info ← lift (_populate_from_node device_info node);
  device_info ← lift (_populate_from_inventory device_info inventory);
  let device_info := _generate_device_name device_info in
  device_info ← on_nb (_set_location_from_switches device_info ports);
  mret (device_info, inventory, ports).

(** ** Creation *)

(* oslo_event/nautobot_device_sync.py:279-303 _create_nautobot_device *)
Definition _create_nautobot_device (d : DeviceInfo) : nbp nb_device :=
  match d.(di_location_id) with
  | Some location =>
      if truthy location then
        call (DevCreate (DeviceAttrs d.(di_uuid) (str_or d.(di_name) d.(di_uuid)) "Planned" d.(di_role)
                           d.(di_manufacturer) d.(di_model) location))
      else Raise (ValueError [d.(di_uuid)])
  | None => Raise (ValueError [d.(di_uuid)])
  end.

(** An optional text that is neither absent nor empty. *)
Definition nonempty (v : option string) : option string :=
  match v with Some s => if truthy s then Some s else None | None => None end.

(* oslo_event/nautobot_device_sync.py:444-464 _preserve_location_from_device *)
Definition _preserve_location_from_device (d : DeviceInfo) (dev : nb_device) : DeviceInfo :=
  set_place d
    (if nonempty d.(di_location_id) is Some _ then d.(di_location_id)
     else if nonempty dev.(dev_location) is Some l then Some l else d.(di_location_id))
    (if nonempty d.(di_rack_id) is Some _ then d.(di_rack_id)
     else if nonempty dev.(dev_rack) is Some r then Some r else d.(di_rack_id))
    (if dev.(dev_position) is Some p then Some p else d.(di_position))
    (if nonempty dev.(dev_face) is Some f then Some f else d.(di_face)).

(* oslo_event/nautobot_device_sync.py:471-495 _delete_old_device_by_name *)
Definition _delete_old_device_by_name (d : DeviceInfo) : nbp DeviceInfo :=
  match nonempty d.(di_name) with
  | None => mret d
  | Some name =>
      nautobot_device ← call (DevGetByName name);
      match single nautobot_device with
      | None => mret d
      | Some dev => _ ← call (DevDelete dev.(dev_id)); mret (_preserve_location_from_device d dev)
      end
  end.

(* oslo_event/nautobot_device_sync.py:467-468 DeviceNotReadyError *)
Definition DeviceNotReadyError (uuid : string) : exn := Exn "DeviceNotReadyError" [uuid].
Definition is_DeviceNotReadyError (e : exn) : bool := bool_decide (e.(exn_cls) = "DeviceNotReadyError").

(* oslo_event/nautobot_device_sync.py:498-526 _find_or_create_nautobot_device *)
Definition _find_or_create_nautobot_device (d : DeviceInfo) : nbp (DeviceInfo * found nb_device) :=
  nautobot_device ← call (DevGetById d.(di_uuid));
  if truthy nautobot_device then mret (d, nautobot_device) else
  d ← _delete_old_device_by_name d;
  match nonempty d.(di_location_id) with
  | None => Raise (DeviceNotReadyError d.(di_uuid))
  | Some _ => dev ← _create_nautobot_device d; mret (d, FOne dev)
  end.

(** ** Update *)

(** [cf[key] = value] where it differs; a missing key and [None] are the same. *)
Definition merge_field (acc : dict (option string) * bool) (kv : string * option string) : dict (option string) * bool :=
  if bool_decide (default None (dict_get kv.1 acc.1) <> kv.2) then (dict_set kv.1 kv.2 acc.1, true) else acc.
(** The custom fields after the update, and whether they were changed. *)
Definition merged_fields (d : DeviceInfo) (cf : dict (option string)) : dict (option string) * bool :=
  let new_value := nonempty d.(di_external_cmdb_id) in
  let current_value := nonempty (default None (dict_get "external_cmdb_id" cf)) in
  foldl merge_field
    (if bool_decide (new_value <> current_value) then (dict_set "external_cmdb_id" new_value cf, true) else (cf, false))
    d.(di_custom_fields).
(** [attr = v] where [v] is set and differs from the current value. *)
Definition change {A} (mk : string -> A) (v current : option string) : list A :=
  match nonempty v with
  | Some x => if bool_decide (current <> Some x) then [mk x] else []
  | None => []
  end.

(** The assignments of [_update_nautobot_device], in its order. *)
Definition dev_changes (d : DeviceInfo) (dev : nb_device) : list dev_assign :=
  change DStatus d.(di_status) dev.(dev_status) ++ change DName d.(di_name) dev.(dev_name) ++
  change DSerial d.(di_serial_number) dev.(dev_serial) ++ change DLocation d.(di_location_id) dev.(dev_location) ++
  change DRack d.(di_rack_id) dev.(dev_rack) ++
  match d.(di_position) with
  | Some p =>
      (if bool_decide (dev.(dev_position) <> Some p) then [DPosition p] else []) ++
      (let target_face := str_or d.(di_face) "front" in
       if bool_decide (dev.(dev_face) <> Some target_face) then [DFace target_face] else [])
  | None => []
  end ++
  change DTenant d.(di_tenant_id) dev.(dev_tenant) ++
  (let '(cf, cf_updated) := merged_fields d dev.(dev_custom_fields) in
   if (cf_updated : bool) then [DCustomFields cf] else []).

(* oslo_event/nautobot_device_sync.py:328-441 _update_nautobot_device *)
Definition _update_nautobot_device (d : DeviceInfo) (dev : nb_device) : nbp bool :=
  match dev_changes d dev with
  | [] => mret false
  | changes => _ ← call (DevSave dev.(dev_id) changes); mret true
  end.

(** ** The synchronisation of a node *)

(** One attempt of [sync_device_to_nautobot]. *)
(* oslo_event/nautobot_device_sync.py:561-599 sync_device_to_nautobot *)
Definition sync_device_attempt (node_uuid : string) (sync_interfaces : bool) : syncp Z :=
  if negb (truthy node_uuid) then mret EXIT_STATUS_FAILURE else
  try_except
    (_ ← call NewIronicClient;
     '(d, inventory, ports) ← fetch_node_details node_uuid;
     '(d, nautobot_device) ← on_nb (_find_or_create_nautobot_device d);
     _ ← match nautobot_device with
         | FOne dev => on_nb (_update_nautobot_device d dev)
         | _ => Raise (AttributeError "status")
         end;
     _ ← (if sync_interfaces then on_nb (sync_interfaces_from_data node_uuid inventory ports)
          else mret EXIT_STATUS_SUCCESS);
     mret EXIT_STATUS_SUCCESS)
    (fun e => if is_DeviceNotReadyError e then mret EXIT_STATUS_FAILURE
              else if _is_retryable_error e then Raise e
              else mret EXIT_STATUS_FAILURE).

(* oslo_event/nautobot_device_sync.py:529-543 sync_device_to_nautobot *)
Definition sync_device_to_nautobot (node_uuid : string) (sync_interfaces : bool) : syncp Z :=
  retrying (RETRY_ATTEMPTS - 1) (sync_device_attempt node_uuid sync_interfaces).

(** ** Events *)

(** [d.get("uuid")] of an object that may not be one *)
Definition uuid_of (v : json) : option string :=
  match v with JObj o => nonempty (jtext (default JNull (dict_get "uuid" o))) | _ => None end.

(* oslo_event/nautobot_device_sync.py:602-626 _extract_node_uuid_from_event *)
Definition extract_node_uuid (event_data : json) : res (option string) :=
  payload ← jget_or "payload" (JObj []) event_data;
  from_payload ← (if is_jobj payload then
                    ironic_data ← jget_or "ironic_object.data" (JObj []) payload; Ok (uuid_of ironic_data)
                  else Ok None);
  match from_payload with
  | Some uuid => Ok (Some uuid)
  | None => ironic_object ← jget_or "ironic_object" (JObj []) event_data; Ok (uuid_of ironic_object)
  end.

(* oslo_event/nautobot_device_sync.py:629-657 handle_node_event *)
Definition handle_node_event (event_data : json) : syncp Z :=
  node_uuid ← lift (extract_node_uuid event_data);
  match node_uuid with
  | None => mret EXIT_STATUS_FAILURE
  | Some u => sync_device_to_nautobot u true
  end.

(* oslo_event/nautobot_device_sync.py:660-687 delete_device_from_nautobot *)
Definition delete_device_from_nautobot (node_uuid : string) : nbp Z :=
  if negb (truthy node_uuid) then mret EXIT_STATUS_FAILURE else
  try_except
    (nautobot_device ← call (DevGetById node_uuid);
     match single nautobot_device with
     | None => mret EXIT_STATUS_SUCCESS
     | Some dev => _ ← call (DevDelete dev.(dev_id)); mret EXIT_STATUS_SUCCESS
     end)
    (fun _ => mret EXIT_STATUS_FAILURE).

(* oslo_event/nautobot_device_sync.py:690-709 handle_node_delete_event *)
Definition handle_node_delete_event (event_data : json) : nbp Z :=
  node_uuid ← lift (extract_node_uuid event_data);
  match node_uuid with
  | None => mret EXIT_STATUS_FAILURE
  | Some u => delete_device_from_nautobot u
  end.

End device.

(** ** Attempts *)

(** An attempt starts by logging in to Ironic. *)
Definition is_login {R} (op : syncE R) : bool := match op with NewIronicClient => true | _ => false end.
Definition attempts_in (tr : list (event syncE)) : nat :=
  length (List.filter (fun ev => match ev with Ev op _ => is_login op end) tr).
Lemma attempts_app tr1 tr2 : attempts_in (tr1 ++ tr2) = (attempts_in tr1 + attempts_in tr2)%nat.
Proof. unfold attempts_in. by rewrite List.filter_app, length_app. Qed.
Lemma attempts_none tr : Forall (fun ev => match ev with Ev op _ => is_login op = false end) tr -> attempts_in tr = 0%nat.
Proof. induction 1 as [|[R op r] tr Hop Htr IH]; [done|]. unfold attempts_in in *. cbn. by rewrite Hop. Qed.

(** What one attempt may do. *)
Definition attempt_ok (tr : list (event syncE)) (r : res Z) (tr' : list (event syncE)) : Prop :=
  exists n, (attempts_in tr' = attempts_in tr + n)%nat /\
    match r with
    | inr z => (n <= 1)%nat /\ (z = EXIT_STATUS_SUCCESS \/ z = EXIT_STATUS_FAILURE)
    | inl e => n = 1%nat /\ _is_retryable_error e = true
    end.

Lemma retrying_attempts (p : syncp Z) more g tr :
  (forall g tr, wp step_trace p (fun r _ tr' => attempt_ok tr r tr') g tr) ->
  wp step_trace (retrying more p) (fun r _ tr' => exists n, (attempts_in tr' = attempts_in tr + n)%nat /\
    match r with
    | inr z => (n <= S more)%nat /\ (z = EXIT_STATUS_SUCCESS \/ z = EXIT_STATUS_FAILURE)
    | inl e => n = S more /\ _is_retryable_error e = true
    end) g tr.
Proof.
  intros Hp. revert g tr. induction more as [|more IH]; intros g tr; [apply Hp|]. cbn [retrying].
  apply wp_try_except. eapply wp_mono; [|apply Hp]. intros [e|z] g' tr' (n & Hn & Hr).
  - destruct Hr as [-> Hr]. rewrite Hr. eapply wp_mono; [|apply IH]. intros r g'' tr'' (m & Hm & Hr').
    exists (1 + m)%nat. split; [lia|]. destruct r; [split; [lia|apply Hr']|split; [lia|apply Hr']].
  - exists n. split; [done|]. split; [lia|apply Hr].
Qed.

Lemma attempt_spec pick node_uuid si g tr :
  wp step_trace (sync_device_attempt pick node_uuid si) (fun r _ tr' => attempt_ok tr r tr') g tr.
Proof.
  unfold sync_device_attempt. destruct (truthy node_uuid); cbn [negb].
  2: { apply wp_mret. exists 0%nat. split; [lia|]. split; [lia|by right]. }
  apply wp_try_except. apply wp_mbind. apply wp_call. intros r tr1 ->.
  assert (attempts_in (tr ++ [Ev NewIronicClient r]) = (attempts_in tr + 1)%nat) as Hlogin by by rewrite attempts_app.
  assert (forall (e : exn) g tr', attempts_in tr' = (attempts_in tr + 1)%nat ->
    wp step_trace (if is_DeviceNotReadyError e then mret EXIT_STATUS_FAILURE
                   else if _is_retryable_error e then Raise e else mret EXIT_STATUS_FAILURE : syncp Z)
      (fun r _ tr' => attempt_ok tr r tr') g tr') as Hh.
  { intros e g' tr' Htr. destruct (is_DeviceNotReadyError e).
    { apply wp_mret. exists 1%nat. split; [done|]. split; [lia|by right]. }
    destruct (_is_retryable_error e) eqn:He; [apply wp_raise|apply wp_mret]; exists 1%nat; split; try done.
    split; [lia|by right]. }
  destruct r as [e|[]]; wp_simp; [by apply Hh|].
  match goal with |- wp _ ?p _ _ _ =>
    assert (calls_only (fun R (op : syncE R) => is_login op = false) p) as Hc end.
  { unfold fetch_node_details. calls_go; try (apply calls_embed; by intros); split; [done|].
    intros [e|v]; [destruct (bool_decide _)|]; exact I. }
  eapply wp_mono; [|apply wp_conj; [apply (wp_calls_only _ _ _ _ Hc)|]].
  2: { apply (wp_returns _ _ _ (fun z => z = EXIT_STATUS_SUCCESS)). intros [[d inventory] ports] g' s'.
       apply wp_returns. intros [d' dev] g2 s2. apply wp_returns. intros _ g3 s3.
       apply wp_returns. intros _ g4 s4. by apply wp_mret. }
  intros [e|z] g' tr' [(tr2 & -> & Hall) Hz].
  - apply Hh. rewrite attempts_app, (attempts_none tr2), Hlogin; [lia|done].
  - exists 1%nat. rewrite attempts_app, (attempts_none tr2), Hlogin by done. split; [lia|]. split; [lia|by left; rewrite Hz].
Qed.

(** C33. The synchronisation of a node always ends, against every behaviour of
    Ironic and Nautobot: it returns 0 or 1 after at most five attempts, or it
    raises a transient error, and then only after exactly five attempts that all
    failed with transient errors. *)
Theorem sync_device_attempts_bounded pick node_uuid si :
  every_run (sync_device_to_nautobot pick node_uuid si) tt (fun r _ tr =>
    match r with
    | inr z => (attempts_in tr <= RETRY_ATTEMPTS)%nat /\ (z = EXIT_STATUS_SUCCESS \/ z = EXIT_STATUS_FAILURE)
    | inl e => attempts_in tr = RETRY_ATTEMPTS /\ _is_retryable_error e = true
    end).
Proof.
  eapply wp_mono; [|apply retrying_attempts, attempt_spec]. intros r g tr (n & Hn & Hr).
  cbn in Hn. subst n. destruct r; exact Hr.
Qed.

(** ** Updates *)

Definition apply_dev (dev : nb_device) (c : dev_assign) : nb_device :=
  let 'NbDevice i n se st l r p f t cf := dev in
  match c with
  | DStatus x => NbDevice i n se (Some x) l r p f t cf | DName x => NbDevice i (Some x) se st l r p f t cf
  | DSerial x => NbDevice i n (Some x) st l r p f t cf | DLocation x => NbDevice i n se st (Some x) r p f t cf
  | DRack x => NbDevice i n se st l (Some x) p f t cf | DPosition x => NbDevice i n se st l r (Some x) f t cf
  | DFace x => NbDevice i n se st l r p (Some x) t cf | DTenant x => NbDevice i n se st l r p f (Some x) cf
  | DCustomFields x => NbDevice i n se st l r p f t x
  end.

(** What an update is to achieve for one attribute. *)
Definition agreed (v current : option string) : Prop := match nonempty v with Some x => current = Some x | None => True end.
(** The device carries what the node says; what the node does not say is free. *)
Record synced (d : DeviceInfo) (dev : nb_device) : Prop := {
  sy_status : agreed d.(di_status) dev.(dev_status);
  sy_name : agreed d.(di_name) dev.(dev_name);
  sy_serial : agreed d.(di_serial_number) dev.(dev_serial);
  sy_location : agreed d.(di_location_id) dev.(dev_location);
  sy_rack : agreed d.(di_rack_id) dev.(dev_rack);
  sy_position : forall p, d.(di_position) = Some p ->
    dev.(dev_position) = Some p /\ dev.(dev_face) = Some (str_or d.(di_face) "front");
  sy_tenant : agreed d.(di_tenant_id) dev.(dev_tenant);
  sy_fields : (merged_fields d dev.(dev_custom_fields)).2 = false;
}.

Lemma change_nil {A} (mk : string -> A) v current : change mk v current = [] <-> agreed v current.
Proof. unfold change, agreed. destruct (nonempty v); [|done]. case_bool_decide; naive_solver. Qed.

Lemma dev_changes_nil d dev : dev_changes d dev = [] <-> synced d dev.
Proof.
  unfold dev_changes. rewrite !app_nil, !change_nil. split.
  - intros (H1 & H2 & H3 & H4 & H5 & H6 & H7 & H8). split; try done.
    + intros p Hp. rewrite Hp in H6. repeat case_bool_decide; naive_solver.
    + destruct (merged_fields _ _) as [cf []]; [discriminate H8|done].
  - intros [H1 H2 H3 H4 H5 H6 H7 H8]. split_and!; try done.
    + destruct (di_position d) as [p|]; [|done]. destruct (H6 p eq_refl) as [-> ->].
      by rewrite !bool_decide_false by (by intros []).
    + destruct (merged_fields _ _) as [cf b]. cbn in H8. by rewrite H8.
Qed.

(** *** Custom fields *)

Definition fields_ok (d : DeviceInfo) : Prop :=
  NoDup d.(di_custom_fields).*1 /\ "external_cmdb_id" ∉ d.(di_custom_fields).*1.

Lemma merge_fold_get k acc l :
  k ∉ l.*1 -> dict_get k (foldl merge_field acc l).1 = dict_get k acc.1.
Proof.
  revert acc. induction l as [|[k' v] l IH]; intros acc; [done|]. cbn [fmap list_fmap foldl].
  intros [Hk Hl]%not_elem_of_cons. rewrite IH by done. unfold merge_field. case_bool_decide; [|done]. cbn.
  rewrite dict_get_set, decide_False by (intros ->; by destruct Hk). done.
Qed.
Lemma merge_fold_done acc l :
  NoDup l.*1 -> forall k v, (k, v) ∈ l -> default None (dict_get k (foldl merge_field acc l).1) = v.
Proof.
  revert acc. induction l as [|[k' v'] l IH]; intros acc; [intros _ k v []%elem_of_nil|]. cbn [fmap list_fmap foldl].
  intros [Hk' Hl]%NoDup_cons k v [[= -> ->]|Hin]%elem_of_cons; [|by apply IH].
  rewrite merge_fold_get by done. unfold merge_field. case_bool_decide as Hc; cbn in *.
  - by rewrite dict_get_set, decide_True.
  - exact Hc.
Qed.
Lemma merge_fold_same cf b l :
  (forall k v, (k, v) ∈ l -> default None (dict_get k cf) = v) -> foldl merge_field (cf, b) l = (cf, b).
Proof.
  induction l as [|[k v] l IH]; intros Hl; [done|]. cbn [foldl]. unfold merge_field at 2. cbn.
  rewrite bool_decide_false by (intros H; apply H; apply Hl; left). apply IH. intros. apply Hl. by right.
Qed.
Lemma nonempty_idem v : nonempty (nonempty v) = nonempty v.
Proof. by destruct v as [[|]|]. Qed.

Lemma merged_fields_stable d cf : fields_ok d -> (merged_fields d (merged_fields d cf).1).2 = false.
Proof.
  intros [Hnd Hext]. unfold merged_fields at 1.
  assert (nonempty (default None (dict_get "external_cmdb_id" (merged_fields d cf).1)) =
          nonempty d.(di_external_cmdb_id)) as Hv.
  { unfold merged_fields. rewrite merge_fold_get by done. case_bool_decide as Hc; cbn.
    - rewrite dict_get_set, decide_True by done. apply nonempty_idem.
    - by rewrite Hc. }
  rewrite Hv, bool_decide_false by (by intros []). rewrite merge_fold_same; [done|].
  intros k v. by apply merge_fold_done.
Qed.

(** The value of an attribute after the update. *)
Definition new_value (v current : option string) : option string := if nonempty v is Some x then Some x else current.
Lemma agreed_new v current : agreed v (new_value v current).
Proof. unfold agreed, new_value. by destruct (nonempty v). Qed.
Definition new_position (d : DeviceInfo) (p : option Z) : option Z := if d.(di_position) is Some q then Some q else p.
Definition new_face (d : DeviceInfo) (f : option string) : option string :=
  if d.(di_position) is Some _ then Some (str_or d.(di_face) "front") else f.
Definition new_fields (d : DeviceInfo) (cf : dict (option string)) : dict (option string) :=
  if (merged_fields d cf).2 then (merged_fields d cf).1 else cf.

Lemma merged_fields_unchanged d cf : (merged_fields d cf).2 = false -> (merged_fields d cf).1 = cf.
Proof.
  unfold merged_fields. assert (forall acc l, acc.2 = true -> (foldl merge_field acc l).2 = true) as Htrue.
  { intros acc l. revert acc. induction l as [|kv l IH]; intros acc Hacc; [done|]. cbn. apply IH.
    unfold merge_field. by case_bool_decide. }
  case_bool_decide; [by rewrite Htrue|]. intros Hf.
  assert (forall l, (foldl merge_field (cf, false) l).2 = false -> (foldl merge_field (cf, false) l).1 = cf) as Hl.
  { induction l as [|kv l IH]; [done|]. cbn. unfold merge_field at 2 4. cbn. case_bool_decide; [by rewrite Htrue|done]. }
  by apply Hl.
Qed.
Lemma new_fields_merged d cf : new_fields d cf = (merged_fields d cf).1.
Proof. unfold new_fields. destruct (_.2) eqn:Hm; [done|]. symmetry. by apply merged_fields_unchanged. Qed.

Ltac assigns := unfold change, new_value; destruct (nonempty _); [case_bool_decide; naive_solver|done].
Lemma updated_device d dev :
  foldl apply_dev dev (dev_changes d dev) =
  NbDevice dev.(dev_id) (new_value d.(di_name) dev.(dev_name)) (new_value d.(di_serial_number) dev.(dev_serial))
    (new_value d.(di_status) dev.(dev_status)) (new_value d.(di_location_id) dev.(dev_location))
    (new_value d.(di_rack_id) dev.(dev_rack)) (new_position d dev.(dev_position)) (new_face d dev.(dev_face))
    (new_value d.(di_tenant_id) dev.(dev_tenant)) (new_fields d dev.(dev_custom_fields)).
Proof.
  destruct dev as [i n se st l r p f t cf]. unfold dev_changes. rewrite !foldl_app.
  cbn [dev_id dev_status dev_name dev_serial dev_location dev_rack dev_position dev_face dev_tenant dev_custom_fields].
  replace (foldl apply_dev (NbDevice i n se st l r p f t cf) (change DStatus (di_status d) st))
    with (NbDevice i n se (new_value (di_status d) st) l r p f t cf) by assigns.
  replace (foldl apply_dev _ (change DName (di_name d) n))
    with (NbDevice i (new_value (di_name d) n) se (new_value (di_status d) st) l r p f t cf) by assigns.
  set (n' := new_value (di_name d) n). set (st' := new_value (di_status d) st).
  replace (foldl apply_dev _ (change DSerial _ se))
    with (NbDevice i n' (new_value (di_serial_number d) se) st' l r p f t cf) by assigns.
  set (se' := new_value (di_serial_number d) se).
  replace (foldl apply_dev _ (change DLocation _ l))
    with (NbDevice i n' se' st' (new_value (di_location_id d) l) r p f t cf) by assigns.
  set (l' := new_value (di_location_id d) l).
  replace (foldl apply_dev _ (change DRack _ r))
    with (NbDevice i n' se' st' l' (new_value (di_rack_id d) r) p f t cf) by assigns.
  set (r' := new_value (di_rack_id d) r).
  replace (foldl apply_dev (NbDevice i n' se' st' l' r' p f t cf) (match di_position d with Some _ => _ | None => _ end))
    with (NbDevice i n' se' st' l' r' (new_position d p) (new_face d f) t cf).
  2: { unfold new_position, new_face. destruct (di_position d); [|done]. repeat case_bool_decide; naive_solver. }
  replace (foldl apply_dev _ (change DTenant _ t))
    with (NbDevice i n' se' st' l' r' (new_position d p) (new_face d f) (new_value (di_tenant_id d) t) cf) by assigns.
  unfold new_fields. by destruct (merged_fields d cf) as [cf' []].
Qed.

Lemma updated_synced d dev : fields_ok d -> synced d (foldl apply_dev dev (dev_changes d dev)).
Proof.
  intros Hf. rewrite updated_device. split; cbn; try apply agreed_new.
  - intros p Hp. unfold new_position, new_face. by rewrite Hp.
  - rewrite new_fields_merged. by apply merged_fields_stable.
Qed.

(** Updating a device brings it to the node's description and then rests:
    after the assignments of one update the device carries every attribute the
    node determines (status, name, serial number, location, rack, position with a
    face, tenant and custom fields), and a second update makes no request. *)
Theorem update_device_converges d dev :
  fields_ok d ->
  let dev' := foldl apply_dev dev (dev_changes d dev) in
  synced d dev' /\ dev'.(dev_id) = dev.(dev_id) /\ _update_nautobot_device d dev' = mret false.
Proof.
  intros Hf dev'. pose proof (updated_synced d dev Hf) as Hs. split_and!; [done|subst dev'; by rewrite updated_device|].
  unfold _update_nautobot_device. by rewrite (proj2 (dev_changes_nil d dev') Hs).
Qed.

(** ** Re-enrolment *)

(** What Nautobot documents of its device table: look-ups answer what is there,
    a creation or a save is carried out or refused. *)
Abbreviation dev_table := (gmap string nb_device).
Definition created_device (a : device_attrs) : nb_device :=
  NbDevice a.(da_id) (Some a.(da_name)) None (Some a.(da_status)) (Some a.(da_location)) None None None None [].
Definition dev_step (R : Type) (op : NbAPI R) (s : dev_table) : res R -> dev_table -> Prop :=
  match op in NbAPI R return res R -> dev_table -> Prop with
  | DevGetById id => fun r s' => s' = s /\ r = inr (match s !! id with Some d => FOne d | None => FNone end)
  | DevGetByName n => fun r s' => s' = s /\
      ((exists id d, s !! id = Some d /\ d.(dev_name) = Some n /\ r = inr (FOne d)) \/
       ((forall id d, s !! id = Some d -> d.(dev_name) <> Some n) /\ r = inr FNone))
  | DevDelete id => fun r s' => (r = inr tt /\ s' = delete id s) \/ (s' = s /\ exists e, r = inl e)
  | DevCreate a => fun r s' => (r = inr (created_device a) /\ s' = <[a.(da_id) := created_device a]> s) \/
                               (s' = s /\ exists e, r = inl e)
  | DevSave id cs => fun r s' =>
      (exists d, s !! id = Some d /\ r = inr tt /\ s' = <[id := foldl apply_dev d cs]> s) \/ (s' = s /\ exists e, r = inl e)
  | _ => fun _ s' => s' = s
  end.

(** [_find_or_create_nautobot_device] and [_update_nautobot_device], as
    [sync_device_to_nautobot] runs them. *)
Definition place_device (d : DeviceInfo) : nbp bool :=
  '(d, nautobot_device) ← _find_or_create_nautobot_device d;
  match nautobot_device with
  | FOne dev => _update_nautobot_device d dev
  | _ => Raise (AttributeError "status")
  end.

(** The place of a new device: the one the switches tell, else the old one. *)
Definition keeps_place (d : DeviceInfo) (old new : nb_device) : Prop :=
  new.(dev_location) = (if nonempty d.(di_location_id) is Some l then Some l else old.(dev_location)) /\
  new.(dev_rack) = (if nonempty d.(di_rack_id) is Some r then Some r else nonempty old.(dev_rack)) /\
  (forall p, old.(dev_position) = Some p ->
     new.(dev_position) = Some p /\
     new.(dev_face) = Some (str_or (if nonempty old.(dev_face) is Some f then Some f else d.(di_face)) "front")).

Lemma wp_update_device d dev g s :
  s !! dev.(dev_id) = Some dev ->
  wp dev_step (_update_nautobot_device d dev) (fun r _ s' =>
    (exists e, r = inl e) \/ s' = <[dev.(dev_id) := foldl apply_dev dev (dev_changes d dev)]> s) g s.
Proof.
  intros Hs. unfold _update_nautobot_device. destruct (dev_changes d dev) as [|c cs] eqn:Hc.
  - wp_pure. right. cbn [foldl]. by rewrite insert_id.
  - wp_pure. apply wp_call. intros r s' [(d0 & Hd & -> & ->)|[-> [e ->]]]; wp_simp; [|left; by eexists].
    wp_pure. right. rewrite Hs in Hd. by injection Hd as <-.
Qed.

Lemma preserved_place d old dev :
  dev.(dev_rack) = None -> nonempty old.(dev_location) = old.(dev_location) ->
  dev.(dev_location) = (_preserve_location_from_device d old).(di_location_id) ->
  is_Some (nonempty (_preserve_location_from_device d old).(di_location_id)) ->
  let d' := _preserve_location_from_device d old in
  keeps_place d old (foldl apply_dev dev (dev_changes d' dev)).
Proof.
  intros Hr Ho Hl Hs d'. rewrite updated_device. unfold keeps_place, new_value, new_position, new_face; cbn.
  cbn in Hs, Hl. rewrite Hr. split_and!.
  - destruct (nonempty (di_location_id d)) eqn:H1; [by rewrite H1|]. destruct (nonempty (dev_location old)) eqn:H2.
    + assert (nonempty (Some s) = Some s) as ->; [|done]. rewrite <- H2. apply nonempty_idem.
    + rewrite H1 in Hs. by destruct Hs.
  - destruct (nonempty (di_rack_id d)) eqn:H1; [by rewrite H1|]. destruct (nonempty (dev_rack old)) eqn:H2.
    + assert (nonempty (Some s) = Some s) as ->; [|done]. rewrite <- H2. apply nonempty_idem.
    + by rewrite H1.
  - intros p ->. done.
Qed.

(** C10. A machine that was enrolled again under a new identifier takes the place
    of its old device: unless Nautobot refuses a request, the old device is gone,
    the device with the new identifier stands at the location and in the rack
    that the switches tell, or else at those of the old device, and the old
    position is kept together with a face. *)
Theorem reenrolled_device_keeps_place d name oid old g s :
  nonempty d.(di_name) = Some name -> s !! d.(di_uuid) = None -> s !! oid = Some old -> old.(dev_id) = oid ->
  old.(dev_name) = Some name -> nonempty old.(dev_location) = old.(dev_location) ->
  is_Some old.(dev_location) -> (forall id x, s !! id = Some x -> x.(dev_name) = Some name -> x = old) ->
  wp dev_step (place_device d) (fun r _ s' => (exists e, r = inl e) \/
    s' !! oid = None /\ exists new, s' !! d.(di_uuid) = Some new /\ new.(dev_id) = d.(di_uuid) /\ keeps_place d old new) g s.
Proof.
  intros Hname Hnew Hold Hid Hon Hol [l Hl] Huniq. unfold place_device, _find_or_create_nautobot_device.
  wp_pure. wp_pure. apply wp_call. intros r s' [-> ->]. rewrite Hnew. wp_simp. cbn [truthy truthy_found].
  wp_pure. unfold _delete_old_device_by_name. rewrite Hname. wp_pure. apply wp_call.
  intros r s' [-> [(id & x & Hx & Hxn & ->)|[Hnone ->]]]; [|by destruct (Hnone oid old Hold)].
  wp_simp. cbn [single]. rewrite (Huniq id x Hx Hxn), Hid in *. wp_pure. apply wp_call.
  intros r s' [[-> ->]|[-> [e ->]]]; wp_simp; [|left; by eexists]. wp_pure.
  set (d' := _preserve_location_from_device d old).
  destruct (nonempty (di_location_id d')) as [loc|] eqn:Hloc; [|wp_pure; left; by eexists].
  wp_pure. unfold _create_nautobot_device. assert (di_location_id d' = Some loc /\ truthy loc = true) as [Hdl Hlt].
  { unfold nonempty in Hloc. destruct (di_location_id d') as [x'|]; [|done]. destruct (truthy x') eqn:Ht; naive_solver. }
  rewrite Hdl, Hlt. apply wp_call. intros r s' [[-> ->]|[-> [e ->]]]; wp_simp; [|left; by eexists]. wp_pure.
  eapply wp_mono; [|apply wp_update_device; cbn; by rewrite lookup_insert_eq].
  intros r g' s' [[e ->]| ->]; [left; by eexists|right].
  assert (oid <> di_uuid d) as Hne by (intros ->; congruence). cbn [dev_id created_device da_id di_uuid d'].
  split.
  - change (di_uuid d') with (di_uuid d). rewrite !lookup_insert_ne by done. apply lookup_delete_eq.
  - eexists. split; [change (di_uuid d') with (di_uuid d); apply lookup_insert_eq|]. split; [by rewrite updated_device|].
    apply preserved_place; [done|done|symmetry; exact Hdl|exists loc; exact Hloc].
Qed.

(** ** Witnesses *)

Definition example_info : DeviceInfo :=
  MkDeviceInfo "new" (Some "Dell-ABC") (Some "ABC") (Some "Dell") (Some "PowerEdge R7615") None None None None [] None None
    None None (Some "Staged") "server" None [] (Some "cmdb-1").
Definition example_old : nb_device :=
  NbDevice "old" (Some "Dell-ABC") (Some "ABC") (Some "Active") (Some "loc") (Some "rack") (Some 12%Z) (Some "rear") None [].

Lemma update_device_converges_witness :
  let dev' := foldl apply_dev example_old (dev_changes example_info example_old) in
  synced example_info dev' /\ dev'.(dev_id) = "old" /\ _update_nautobot_device example_info dev' = mret false.
Proof. apply (update_device_converges example_info example_old). split; [constructor|]. apply not_elem_of_nil. Defined.

Lemma reenrolled_device_keeps_place_witness :
  wp dev_step (place_device example_info) (fun r _ s' => (exists e, r = inl e) \/
    s' !! "old" = None /\ exists new, s' !! "new" = Some new /\ new.(dev_id) = "new" /\
      keeps_place example_info example_old new) tt {[ "old" := example_old ]}.
Proof.
  apply (reenrolled_device_keeps_place example_info "Dell-ABC" "old"); try reflexivity; [by eexists|].
  by intros id x [<- <-]%lookup_singleton_Some.
Defined.

(** A transient refusal of the creation loses the device: the old device is
    already deleted, the next attempt no longer finds the place to keep, and the
    run ends with status 1 and no device. *)
Definition flaky_env (R : Type) (op : syncE R) (s : list nb_device * nat) : res R * (list nb_device * nat) :=
  match op in syncE R return res R * (list nb_device * nat) with
  | NewIronicClient => (inr tt, s)
  | IrNodeGet _ => (inr (MkIrNode None [] "manageable" None None), s)
  | IrInventory _ =>
      (inr (JObj [("inventory", JObj [("system_vendor",
         JObj [("manufacturer", JStr "Dell Inc."); ("serial_number", JStr "ABC")])])]), s)
  | IrPorts _ => (inr [], s)
  | IrNodeList => (inr [], s)
  | OnNautobot op =>
      match op in NbAPI R return res R * (list nb_device * nat) with
      | DevGetById id => (inr (match List.find (fun x => bool_decide (x.(dev_id) = id)) s.1 with
                               | Some x => FOne x | None => FNone end), s)
      | DevGetByName n => (inr (match List.find (fun x => bool_decide (x.(dev_name) = Some n)) s.1 with
                                | Some x => FOne x | None => FNone end), s)
      | DevDelete id => (inr tt, (List.filter (fun x => bool_decide (x.(dev_id) <> id)) s.1, s.2))
      | DevCreate a => match s.2 with
                       | S n => (inl (RequestError 503 "Service Unavailable"), (s.1, n))
                       | O => (inr (created_device a), (created_device a :: s.1, O))
                       end
      | DevSave _ _ => (inr tt, s)
      | _ => (inl (RequestError 404 "Not found"), s)
      end
  end.

Example transient_refusal_loses_device pick :
  run flaky_env (sync_device_to_nautobot pick "new" false) tt ([example_old], 1) = (inr 1%Z, tt, ([], 0)).
Proof. by vm_compute. Qed.
Example steady_creation_keeps_device pick :
  (run flaky_env (sync_device_to_nautobot pick "new" false) tt ([example_old], 0)).1.1 = inr 0%Z.
Proof. by vm_compute. Qed.
