(* ===== verification/NetappValues.v ===== *)
(** * NetApp value objects

    Models
    [src/python/understack-workflows/understack_workflows/netapp/value_objects.py]
    and the part of Python's [ipaddress] that it uses: an [IPv4Address] is its
    32-bit value, an [IPv4Network] its network address and prefix length.  A
    pydantic model is a record with a checked constructor; a failed check is a
    [ValidationError], which is a [ValueError]. *)
From S2P Require Import Prelude PyStr PyData Nautobot.
Local Open Scope Z_scope.

Definition ValidationError (args : list string) : exn := Exn "ValidationError" args.
(** [except ValueError] *)
Definition is_ValueError (e : exn) : bool := bool_decide (e.(exn_cls) ∈ ["ValueError"; "ValidationError"]).

(** ** IPv4 *)

Definition octet (i z : Z) : Z := Z.land (Z.shiftr z (8 * i)) 255.
(** [str(IPv4Address(z))] *)
Definition ipv4_str (z : Z) : string :=
  pretty (octet 3 z) +:+ "." +:+ pretty (octet 2 z) +:+ "." +:+ pretty (octet 1 z) +:+ "." +:+ pretty (octet 0 z).

Definition parse_octet (s : string) : option Z :=
  if truthy s && str_all is_digit s && Nat.leb (String.length s) 3 &&
     (bool_decide (s = "0") || negb (startswith "0" s))
  then match digits s with Some n => if n <=? 255 then Some n else None | None => None end
  else None.
(** [int(IPv4Address(text))] *)
Definition parse_ipv4 (text : string) : option Z :=
  match split "."%char text with
  | [a; b; c; d] =>
      match parse_octet a, parse_octet b, parse_octet c, parse_octet d with
      | Some a, Some b, Some c, Some d =>
          Some (Z.lor (Z.shiftl a 24) (Z.lor (Z.shiftl b 16) (Z.lor (Z.shiftl c 8) d)))
      | _, _, _, _ => None
      end
  | _ => None
  end.

(** [IPv4Network]: the masked address and the prefix length. *)
Record network := Network { net_addr : Z; net_prefix : Z }.
#[export] Instance network_eq_dec : EqDecision network.
Proof. solve_decision. Defined.
Definition netmask (prefix : Z) : Z := Z.shiftl (Z.ones prefix) (32 - prefix).
(** [ip in network] *)
Definition in_network (ip : Z) (n : network) : bool := Z.land ip (netmask n.(net_prefix)) =? n.(net_addr).
(** A prefix length, a netmask or a hostmask. *)
Definition parse_prefix (s : string) : option Z :=
  if truthy s && str_all is_digit s then
    match digits s with Some n => if n <=? 32 then Some n else None | None => None end
  else match parse_ipv4 s with
       | None => None
       | Some m =>
           let lens := map Z.of_nat (seq 0 33) in
           match List.find (fun p => netmask p =? m) lens with
           | Some p => Some p
           | None => List.find (fun p => netmask p =? Z.lxor m (Z.ones 32)) lens
           end
       end.
(** [IPv4Network(text, strict=False)] *)
Definition parse_network (text : string) : option network :=
  let build a p := match parse_ipv4 a with Some z => Some (Network (Z.land z (netmask p)) p) | None => None end in
  match split "/"%char text with
  | [a] => build a 32
  | [a; p] => match parse_prefix p with Some p => build a p | None => None end
  | _ => None
  end.
(** [next(network.hosts())]: the hosts of a [/32] are a list, of which [next]
    raises. *)
Definition first_host (n : network) : res Z :=
  if n.(net_prefix) =? 32 then Err (TypeError ["'list' object is not an iterator"])
  else if n.(net_prefix) =? 31 then Ok n.(net_addr)
  else Ok (n.(net_addr) + 1).

(** ** Interfaces read from Nautobot *)

(* netapp/value_objects.py:54-60 InterfaceInfo.validate_vlan *)
Definition validate_vlan (v : Z) : res Z :=
  if (1 <=? v) && (v <=? 4094) then Ok v else Err (ValidationError ["VLAN ID must be between 1 and 4094"]).

(* netapp/value_objects.py:25-52 InterfaceInfo *)
Record InterfaceInfo := MkInterfaceInfo { if_name : string; if_address : string; if_vlan : Z }.

(** An interface of the GraphQL answer; the default of a missing field is the
    source's. *)
Record gql_interface := GqlInterface { gi_name : string; gi_ip_addresses : list string; gi_tagged_vlans : list Z }.

(* netapp/value_objects.py:62-101 InterfaceInfo.from_graphql_interface *)
Definition from_graphql_interface (d : gql_interface) : res InterfaceInfo :=
  match d.(gi_ip_addresses) with
  | [] => Err (ValueError [d.(gi_name)])
  | _ :: _ :: _ => Err (ValueError (d.(gi_name) :: d.(gi_ip_addresses)))
  | [address] =>
      match d.(gi_tagged_vlans) with
      | [] => Err (ValueError [d.(gi_name)])
      | _ :: _ :: _ => Err (ValueError (d.(gi_name) :: map pretty d.(gi_tagged_vlans)))
      | [vlan] => v ← validate_vlan vlan; Ok (MkInterfaceInfo d.(gi_name) address v)
      end
  end.

(* netapp/value_objects.py:104-144 VirtualMachineNetworkInfo *)
Definition from_graphql_vm (interfaces : list gql_interface) : res (list InterfaceInfo) :=
  res_map from_graphql_interface interfaces.

(** ** Interface configurations *)

(** [^N\d-lif-(A|B)$] *)
Definition name_pattern (name : string) : bool :=
  match name with
  | String "N" (String d rest) => is_digit d && (bool_decide (rest = "-lif-A") || bool_decide (rest = "-lif-B"))
  | _ => false
  end.

(* netapp/value_objects.py:147-203 NetappIPInterfaceConfig *)
Record NetappIPInterfaceConfig := MkConfig {
  cfg_name : string; cfg_address : Z; cfg_network : network; cfg_vlan_id : Z; cfg_nic_slot_prefix : string;
}.
Definition make_config (name address : string) (n : network) (vlan_id : Z) (prefix : string)
    : res NetappIPInterfaceConfig :=
  match name_pattern name, parse_ipv4 address, validate_vlan vlan_id with
  | true, Some a, inr v => Ok (MkConfig name a n v prefix)
  | _, _, _ => Err (ValidationError [name; address])
  end.

Definition last_char (s : string) : string := match String.rev s with String c _ => String c "" | "" => "" end.
(* netapp/value_objects.py:208-222 NetappIPInterfaceConfig.side *)
Definition side (c : NetappIPInterfaceConfig) : res string :=
  let last_character := upper (last_char c.(cfg_name)) in
  if bool_decide (last_character ∈ ["A"; "B"]) then Ok last_character else Err (ValueError [c.(cfg_name)]).

(* netapp/value_objects.py:224-244 NetappIPInterfaceConfig.desired_node_number *)
Definition desired_node_number (c : NetappIPInterfaceConfig) : res Z :=
  let name_part := List.hd "" (split "-"%char c.(cfg_name)) in
  if bool_decide (name_part = "N1") then Ok 1
  else if bool_decide (name_part = "N2") then Ok 2
  else Err (ValueError [c.(cfg_name)]).

(* netapp/value_objects.py:246-254 NetappIPInterfaceConfig.base_port_name *)
Definition base_port_name (c : NetappIPInterfaceConfig) : res string :=
  s ← side c; Ok (c.(cfg_nic_slot_prefix) +:+ lower s).

(* netapp/value_objects.py:256-264 NetappIPInterfaceConfig.route_nexthop *)
Definition route_nexthop (c : NetappIPInterfaceConfig) : res Z := first_host c.(cfg_network).

(* netapp/value_objects.py:266-297 NetappIPInterfaceConfig.from_nautobot_response *)
Definition from_nautobot_response (interfaces : list InterfaceInfo) (nic_slot_prefix : string)
    : res (list NetappIPInterfaceConfig) :=
  res_map (fun i =>
    match split "/"%char i.(if_address) with
    | [address; _] =>
        match parse_network i.(if_address) with
        | Some n => make_config i.(if_name) address n i.(if_vlan) nic_slot_prefix
        | None => Err (ValueError [i.(if_address)])
        end
    | _ => Err (ValueError [i.(if_address)])
    end) interfaces.

(** ** Specifications *)

(* netapp/value_objects.py:303-340 SvmSpec *)
Record SvmSpec := MkSvmSpec {
  svm_spec_name : string; svm_aggregate : string; svm_language : string; svm_protocols : list string;
}.
Definition root_volume_name (s : SvmSpec) : string := replace_char "-"%char "_"%char s.(svm_spec_name) +:+ "_root".
(* netapp/value_objects.py:343-369 VolumeSpec *)
Record VolumeSpec := MkVolumeSpec { vol_spec_name : string; vol_svm : string; vol_aggregate : string; vol_size : string }.
(* netapp/value_objects.py:372-448 InterfaceSpec *)
Record InterfaceSpec := MkInterfaceSpec {
  is_name : string; is_address : string; is_netmask : string; is_svm : string; is_home_port : string;
  is_broadcast_domain : string; is_service_policy : string;
}.
Definition make_interface_spec (name address netmask svm home_port broadcast_domain : string) : res InterfaceSpec :=
  match parse_ipv4 address with
  | Some _ => Ok (MkInterfaceSpec name address netmask svm home_port broadcast_domain "default-data-nvme-tcp")
  | None => Err (ValidationError [address])
  end.
(* netapp/value_objects.py:451-522 PortSpec *)
Record PortSpec := MkPortSpec { ps_node : string; ps_vlan_id : Z; ps_base_port : string; ps_broadcast_domain : string }.
Definition make_port_spec (node : string) (vlan_id : Z) (base_port broadcast_domain : string) : res PortSpec :=
  v ← validate_vlan vlan_id; Ok (MkPortSpec node v base_port broadcast_domain).
(* netapp/value_objects.py:525-557 NamespaceSpec *)
Definition query_string (svm_name volume_name : string) : string :=
  "svm.name=" +:+ svm_name +:+ "&location.volume.name=" +:+ volume_name.

(** ** Routes *)

Definition cgn_network : network := Network (Z.lor (Z.shiftl 100 24) (Z.shiftl 64 16)) 10.
Definition low_destination : network := Network (Z.lor (Z.shiftl 100 24) (Z.shiftl 126 16)) 17.
Definition high_destination : network :=
  Network (Z.lor (Z.shiftl 100 24) (Z.lor (Z.shiftl 126 16) (Z.shiftl 128 8))) 17.

(* netapp/value_objects.py:560-639 RouteSpec *)
Record RouteSpec := MkRouteSpec { rs_svm : string; rs_gateway : Z; rs_destination : network }.
Definition make_route_spec (svm_name gateway : string) (destination : network) : res RouteSpec :=
  match parse_ipv4 gateway with
  | Some v => if in_network v cgn_network then Ok (MkRouteSpec svm_name v destination)
              else Err (ValidationError [gateway])
  | None => Err (ValidationError [gateway])
  end.

(* netapp/value_objects.py:662-694 RouteSpec._calculate_destination *)
Definition _calculate_destination (nexthop_ip : string) : res network :=
  match parse_ipv4 nexthop_ip with
  | None => Err (ValueError [nexthop_ip])
  | Some ip =>
      if negb (in_network ip cgn_network) then Err (ValueError [nexthop_ip]) else
      match py_int (nth 2 (split "."%char (ipv4_str ip)) "") with
      | None => Err (ValueError [nexthop_ip])
      | Some third_octet =>
          if (0 <=? third_octet) && (third_octet <=? 127) then Ok low_destination
          else if (128 <=? third_octet) && (third_octet <=? 255) then Ok high_destination
          else Err (ValueError [nexthop_ip])
      end
  end.

(* netapp/value_objects.py:641-660 RouteSpec.from_nexthop_ip *)
Definition from_nexthop_ip (svm_name nexthop_ip : string) : res RouteSpec :=
  destination ← _calculate_destination nexthop_ip;
  make_route_spec svm_name nexthop_ip destination.

(** ** Results *)

(* netapp/value_objects.py:700-723 SvmResult *)
Record SvmResult := MkSvmResult { svm_name : string; svm_uuid : string; svm_state : string }.
(* netapp/value_objects.py:726-755 VolumeResult *)
Record VolumeResult := MkVolumeResult { vr_name : string; vr_uuid : string; vr_size : Z; vr_state : string; vr_svm : string }.
(* netapp/value_objects.py:758-769 AggregateResult *)
Record AggregateResult := MkAggregate { ag_name : string; ag_state : option string; ag_used_percent : option Z }.
(* netapp/value_objects.py:772-792 NodeResult *)
Record NodeResult := MkNodeResult { nr_name : string; nr_uuid : string }.
(* netapp/value_objects.py:795-821 PortResult *)
Record PortResult := MkPortResult { pr_uuid : string; pr_name : string; pr_node : string }.
(* netapp/value_objects.py:824-856 InterfaceResult *)
Record InterfaceResult := MkInterfaceResult { ir_name : string; ir_uuid : string; ir_address : string; ir_netmask : string }.
(* netapp/value_objects.py:859-888 NamespaceResult *)
Record NamespaceResult := MkNamespaceResult { ns_uuid : string; ns_name : string; ns_mapped : bool }.
(* netapp/value_objects.py:891-917 RouteResult *)
Record RouteResult := MkRouteResult { rr_uuid : string; rr_gateway : string; rr_destination : network; rr_svm : string }.

(** ** Addresses and their texts *)

(** *** Octets *)

Definition octets : list Z := map Z.of_nat (seq 0 256).
Lemma elem_of_octets n : n ∈ octets <-> 0 <= n <= 255.
Proof.
  unfold octets. rewrite list_elem_of_In, in_map_iff. split.
  - intros (k & <- & Hk%in_seq). lia.
  - intros Hn. exists (Z.to_nat n). split; [lia|]. apply in_seq. lia.
Qed.
Definition digit_chars : list ascii := ["0"; "1"; "2"; "3"; "4"; "5"; "6"; "7"; "8"; "9"]%char.
Lemma is_digit_elem c : is_digit c = true -> c ∈ digit_chars.
Proof.
  intros Hc. apply (bool_decide_unpack _). revert c Hc.
  assert (forall c, implb (is_digit c) (bool_decide (c ∈ digit_chars)) = true) as H.
  { intros [[] [] [] [] [] [] [] []]; by vm_compute. }
  intros c Hc. specialize (H c). rewrite Hc in H. cbn in H. by rewrite H.
Qed.
(** The texts of up to three digits. *)
Definition short_texts : list string :=
  let one := map (fun c => String c "") digit_chars in
  let two := flat_map (fun s => map (fun c => String c s) digit_chars) one in
  one ++ two ++ flat_map (fun s => map (fun c => String c s) digit_chars) two.
Lemma short_text_elem s : truthy s = true -> str_all is_digit s = true -> (String.length s <= 3)%nat -> s ∈ short_texts.
Proof.
  intros Hs Hd Hl. rewrite list_elem_of_In. unfold short_texts. rewrite !in_app_iff.
  assert (forall c, is_digit c = true -> In c digit_chars) as Hc by (intros; by apply list_elem_of_In, is_digit_elem).
  destruct s as [|a [|b [|c [|]]]]; cbn -[In flat_map map digit_chars] in *; try done; try lia;
    rewrite ?andb_true_iff in Hd; repeat rewrite ?in_flat_map, ?in_map_iff;
    [left; exists a; naive_solver|right; left|right; right].
  - exists (String b ""). rewrite !in_map_iff. split; [exists b|exists a]; naive_solver.
  - exists (String b (String c "")). rewrite in_flat_map, in_map_iff. split; [|exists a; naive_solver].
    exists (String c ""). rewrite !in_map_iff. split; [exists c|exists b]; naive_solver.
Qed.
Lemma parse_octet_iff s n : parse_octet s = Some n <-> 0 <= n <= 255 /\ s = pretty n.
Proof.
  split.
  - intros Hp. assert (s ∈ short_texts) as Hs.
    { unfold parse_octet in Hp. destruct (_ && _) eqn:Hc; [|done]. rewrite !andb_true_iff, Nat.leb_le in Hc.
      destruct Hc as [[[H1 H2] H3] _]. by apply short_text_elem. }
    assert (forallb (fun t => match parse_octet t with
      | Some m => (0 <=? m) && (m <=? 255) && bool_decide (t = pretty m) | None => true end) short_texts = true) as Hall
      by by vm_compute.
    rewrite forallb_forall in Hall. specialize (Hall s). rewrite <- list_elem_of_In, Hp in Hall. specialize (Hall Hs).
    rewrite !andb_true_iff, bool_decide_eq_true in Hall. destruct Hall as [[? ?] ?]. split; [lia|done].
  - intros [Hn ->]. apply elem_of_octets in Hn.
    assert (forallb (fun m => bool_decide (parse_octet (pretty m) = Some m)) octets = true) as Hall by by vm_compute.
    rewrite forallb_forall in Hall. apply (bool_decide_unpack _). specialize (Hall n). rewrite <- list_elem_of_In in Hall.
    by rewrite Hall.
Qed.

Lemma pretty_no_dot n : 0 <= n -> has_char "."%char (pretty n) = false.
Proof. intros Hn. by apply (str_all_no_char is_digit), pretty_Z_digits. Qed.

Lemma octet_bounds i z : 0 <= octet i z <= 255.
Proof.
  unfold octet. change 255 with (Z.ones 8). rewrite Z.land_ones by lia.
  change (2 ^ 8) with 256. pose proof (Z.mod_pos_bound (Z.shiftr z (8 * i)) 256 eq_refl). change (Z.ones 8) with 255. lia.
Qed.
Lemma octet_div i z : 0 <= i -> octet i z = z / 2 ^ (8 * i) mod 256.
Proof. intros Hi. unfold octet. change 255 with (Z.ones 8). by rewrite Z.land_ones, Z.shiftr_div_pow2 by lia. Qed.

Lemma split_ipv4_str z :
  split "."%char (ipv4_str z) = [pretty (octet 3 z); pretty (octet 2 z); pretty (octet 1 z); pretty (octet 0 z)].
Proof.
  assert (forall i, has_char "."%char (pretty (octet i z)) = false) as Hd.
  { intros i. apply pretty_no_dot. pose proof (octet_bounds i z). lia. }
  unfold ipv4_str. cbn [String.append].
  by rewrite split_app, split_app, split_app, split_nil by apply Hd.
Qed.

(** Four octets make a number, and its octets are the four. *)
Lemma join_octets a b c d :
  0 <= a <= 255 -> 0 <= b <= 255 -> 0 <= c <= 255 -> 0 <= d <= 255 ->
  Z.lor (Z.shiftl a 24) (Z.lor (Z.shiftl b 16) (Z.lor (Z.shiftl c 8) d)) = a * 2 ^ 24 + b * 2 ^ 16 + c * 2 ^ 8 + d.
Proof.
  intros Ha Hb Hc Hd.
  assert (forall x k y, 0 <= y < 2 ^ k -> 0 <= k -> Z.lor (Z.shiftl x k) y = x * 2 ^ k + y) as Hlor.
  { intros x k y Hy Hk.
    assert (Z.land (Z.shiftl x k) y = 0) as Hland.
    { apply Z.bits_inj'. intros n Hn. rewrite Z.land_spec, Z.bits_0, Z.shiftl_spec by done.
      destruct (Z.lt_ge_cases n k) as [Hnk|Hnk]; [by rewrite Z.testbit_neg_r by lia|].
      rewrite <- (Z.mod_small y (2 ^ k)) by done. by rewrite Z.mod_pow2_bits_high, andb_false_r by lia. }
    rewrite <- Z.lxor_lor, <- Z.add_nocarry_lxor by done. by rewrite Z.shiftl_mul_pow2. }
  rewrite (Hlor c 8 d), (Hlor b 16), (Hlor a 24); try lia;
    change (2 ^ 24) with 16777216; change (2 ^ 16) with 65536; change (2 ^ 8) with 256; lia.
Qed.

Lemma split_octets z : 0 <= z < 2 ^ 32 -> octet 3 z * 2 ^ 24 + octet 2 z * 2 ^ 16 + octet 1 z * 2 ^ 8 + octet 0 z = z.
Proof.
  intros Hz. rewrite !octet_div by lia. change (8 * 3) with 24. change (8 * 2) with 16. change (8 * 1) with 8.
  change (8 * 0) with 0. rewrite Z.div_1_r. Z.div_mod_to_equations. lia.
Qed.
Lemma octets_of a b c d :
  0 <= a <= 255 -> 0 <= b <= 255 -> 0 <= c <= 255 -> 0 <= d <= 255 ->
  let z := a * 2 ^ 24 + b * 2 ^ 16 + c * 2 ^ 8 + d in
  octet 3 z = a /\ octet 2 z = b /\ octet 1 z = c /\ octet 0 z = d.
Proof.
  intros Ha Hb Hc Hd z. subst z. rewrite !octet_div by lia. change (8 * 3) with 24. change (8 * 2) with 16.
  change (8 * 1) with 8. change (8 * 0) with 0. rewrite Z.div_1_r. split_and!; Z.div_mod_to_equations; lia.
Qed.

(** A text is an address exactly when it is the address's own text: printing and
    parsing are inverse on 32-bit values. *)
Lemma parse_ipv4_iff s z : parse_ipv4 s = Some z <-> 0 <= z < 2 ^ 32 /\ s = ipv4_str z.
Proof.
  unfold parse_ipv4. split.
  - destruct (split "." s) as [|sa [|sb [|sc [|sd [|]]]]] eqn:Hs; try done.
    destruct (parse_octet sa) as [a|] eqn:Ha; [|done]. destruct (parse_octet sb) as [b|] eqn:Hb; [|done].
    destruct (parse_octet sc) as [c|] eqn:Hc; [|done]. destruct (parse_octet sd) as [d|] eqn:Hd; [|done].
    apply parse_octet_iff in Ha as [Ha ->], Hb as [Hb ->], Hc as [Hc ->], Hd as [Hd ->].
    intros [= <-]. rewrite join_octets by done. split; [lia|].
    destruct (split_join "."%char s) as [-> _]. rewrite Hs. unfold ipv4_str.
    destruct (octets_of a b c d Ha Hb Hc Hd) as (-> & -> & -> & ->). done.
  - intros [Hz ->]. rewrite split_ipv4_str.
    rewrite !(proj2 (parse_octet_iff _ _) (conj (octet_bounds _ z) eq_refl)).
    by rewrite join_octets, split_octets by (done || apply octet_bounds).
Qed.

(** *** Networks *)

Lemma land_netmask z p : 0 <= z < 2 ^ 32 -> 0 <= p <= 32 -> Z.land z (netmask p) = z / 2 ^ (32 - p) * 2 ^ (32 - p).
Proof.
  intros Hz Hp. rewrite <- Z.shiftr_div_pow2, <- Z.shiftl_mul_pow2 by lia. apply Z.bits_inj'. intros n Hn.
  unfold netmask. rewrite Z.land_spec, !Z.shiftl_spec by lia.
  destruct (Z.lt_ge_cases n (32 - p)) as [Hlt|Hge]; [rewrite !(Z.testbit_neg_r _ (n - (32 - p))) by lia; by rewrite andb_false_r|].
  rewrite Z.shiftr_spec by lia. replace (n - (32 - p) + (32 - p)) with n by lia.
  destruct (Z.lt_ge_cases n 32) as [Hn32|Hn32]; [rewrite Z.ones_spec_low by lia; apply andb_true_r|].
  rewrite <- (Z.mod_small z (2 ^ 32)) by done. by rewrite Z.mod_pow2_bits_high by lia.
Qed.

Definition cgn_first : Z := 100 * 2 ^ 24 + 64 * 2 ^ 16.
Definition cgn_last : Z := 100 * 2 ^ 24 + 127 * 2 ^ 16 + 255 * 2 ^ 8 + 255.
(** The carrier-grade NAT range is 100.64.0.0 to 100.127.255.255. *)
Lemma in_cgn z : 0 <= z < 2 ^ 32 -> in_network z cgn_network = true <-> cgn_first <= z <= cgn_last.
Proof.
  intros Hz. unfold in_network. cbn [net_prefix net_addr cgn_network]. rewrite land_netmask, Z.eqb_eq by lia.
  change (2 ^ (32 - 10)) with 4194304. change (Z.lor (Z.shiftl 100 24) (Z.shiftl 64 16)) with 1681915904.
  unfold cgn_first, cgn_last. cbn. Z.div_mod_to_equations. lia.
Qed.

Lemma third_octet_bit z : 0 <= z < 2 ^ 32 -> (128 <=? octet 1 z) = Z.testbit z 15.
Proof.
  intros Hz. rewrite octet_div by lia. change (8 * 1) with 8. rewrite Z.testbit_odd, Z.shiftr_div_pow2 by lia.
  replace (2 ^ 15) with (2 ^ 8 * 128) by done. rewrite <- Z.div_div by lia. set (y := z / 2 ^ 8).
  rewrite <- Z.bit0_odd, <- Z.div_pow2_bits with (n := 7) || idtac.
  apply eq_true_iff_eq. rewrite Z.leb_le, Z.odd_spec. unfold Z.Odd. split.
  - intros Hy. exists (y / 256). Z.div_mod_to_equations. lia.
  - intros [m Hm]. Z.div_mod_to_equations. lia.
Qed.

(** ** Properties *)

Lemma calculate_destination_spec z :
  0 <= z < 2 ^ 32 ->
  _calculate_destination (ipv4_str z) =
    if in_network z cgn_network then inr (if Z.testbit z 15 then high_destination else low_destination)
    else inl (ValueError [ipv4_str z]).
Proof.
  intros Hz. unfold _calculate_destination. rewrite (proj2 (parse_ipv4_iff _ z)) by done.
  destruct (in_network z cgn_network); cbn [negb]; [|done]. rewrite split_ipv4_str. cbn [nth].
  pose proof (octet_bounds 1 z) as Ho. rewrite py_int_pretty by lia. rewrite <- third_octet_bit by done.
  destruct (128 <=? octet 1 z) eqn:Hc.
  - rewrite (proj2 (Z.leb_gt (octet 1 z) 127)), andb_false_r by lia. by rewrite (proj2 (Z.leb_le (octet 1 z) 255)) by lia.
  - rewrite (proj2 (Z.leb_le 0 (octet 1 z))), (proj2 (Z.leb_le (octet 1 z) 127)) by lia. done.
Qed.

(** C34. The route for a next hop exists exactly when the next hop is the text of
    an address between 100.64.0.0 and 100.127.255.255, and then it goes through
    that address to 100.126.0.0/17 or 100.126.128.0/17 as bit 15 of the address
    says; every other text is refused as a value error. *)
Theorem route_for_nexthop svm text :
  match from_nexthop_ip svm text with
  | inr spec => exists z, cgn_first <= z <= cgn_last /\ text = ipv4_str z /\
      spec = MkRouteSpec svm z (if Z.testbit z 15 then high_destination else low_destination)
  | inl e => is_ValueError e = true /\ forall z, cgn_first <= z <= cgn_last -> text <> ipv4_str z
  end.
Proof.
  assert (forall z, cgn_first <= z <= cgn_last -> 0 <= z < 2 ^ 32) as Hcgn.
  { unfold cgn_first, cgn_last. lia. }
  unfold from_nexthop_ip. destruct (parse_ipv4 text) as [z|] eqn:Hp.
  - pose proof Hp as [Hz ->]%parse_ipv4_iff. rewrite calculate_destination_spec by done.
    destruct (in_network z cgn_network) eqn:Hin; cbn [mbind res_mbind].
    + unfold make_route_spec. rewrite Hp, Hin. exists z. apply in_cgn in Hin; [|done]. done.
    + split; [done|]. intros z' Hz' Heq. assert (Some z = Some z') as [= <-].
      { rewrite <- Hp, Heq. apply parse_ipv4_iff. auto. }
      apply (in_cgn z Hz) in Hz'. congruence.
  - unfold _calculate_destination. rewrite Hp. split; [done|]. intros z Hz ->.
    rewrite (proj2 (parse_ipv4_iff _ z)) in Hp; [done|]. auto.
Qed.

(** *** Configurations *)

Lemma parse_prefix_bounds s p : parse_prefix s = Some p -> 0 <= p <= 32.
Proof.
  unfold parse_prefix. destruct (truthy s && str_all is_digit s) eqn:Hs.
  - destruct (digits s) as [n|] eqn:Hn; [|done]. destruct (n <=? 32) eqn:Hle; [|done]. intros [= <-].
    apply Z.leb_le in Hle. split; [|done]. apply andb_true_iff in Hs as [_ Hs]. by apply digits_nonneg in Hn.
  - destruct (parse_ipv4 s) as [m|]; [|done].
    assert (forall f q, List.find f (map Z.of_nat (seq 0 33)) = Some q -> 0 <= q <= 32) as Hf.
    { intros f q [Hin _]%List.find_some. apply in_map_iff in Hin as (k & <- & Hk%in_seq). lia. }
    destruct (List.find _ _) eqn:H1; [intros [= <-]; by eapply Hf|intros H2; by eapply Hf].
Qed.
Lemma parse_network_spec a p n :
  split "/"%char (a +:+ String "/" p) = [a; p] -> parse_network (a +:+ String "/" p) = Some n ->
  exists z, parse_ipv4 a = Some z /\ parse_prefix p = Some n.(net_prefix) /\ 0 <= n.(net_prefix) <= 32 /\ n.(net_addr) = Z.land z (netmask n.(net_prefix)).
Proof.
  intros Hs. unfold parse_network. rewrite Hs. destruct (parse_prefix p) as [k|] eqn:Hk; [|done].
  destruct (parse_ipv4 a) as [z|]; [|done]. intros [= <-]. exists z.
  pose proof (parse_prefix_bounds _ _ Hk). done.
Qed.
Lemma in_network_self z p : in_network z (Network (Z.land z (netmask p)) p) = true.
Proof. unfold in_network. by rewrite Z.eqb_refl. Qed.

Lemma first_host_in z p :
  0 <= z < 2 ^ 32 -> 0 <= p <= 31 ->
  exists h, first_host (Network (Z.land z (netmask p)) p) = inr h /\ 0 <= h < 2 ^ 32 /\
    in_network h (Network (Z.land z (netmask p)) p) = true.
Proof.
  intros Hz Hp. unfold first_host, in_network. cbn [net_prefix net_addr]. rewrite (proj2 (Z.eqb_neq p 32)) by lia.
  assert (0 < 2 ^ (32 - p)) as Hpos by (apply Z.pow_pos_nonneg; lia).
  assert (2 ^ 32 = 2 ^ p * 2 ^ (32 - p)) as Hpow by (rewrite <- Z.pow_add_r by lia; f_equal; lia).
  assert (z / 2 ^ (32 - p) <= 2 ^ p - 1) as Hq.
  { apply Z.lt_le_pred. apply Z.div_lt_upper_bound; [lia|]. rewrite Z.mul_comm, <- Hpow. lia. }
  assert (0 <= z / 2 ^ (32 - p)) as Hq0 by (apply Z.div_pos; lia).
  rewrite land_netmask by lia. set (q := z / 2 ^ (32 - p)) in *.
  destruct (Z.eqb_spec p 31) as [->|Hne].
  - exists (q * 2 ^ (32 - 31)). split; [done|]. change (2 ^ (32 - 31)) with 2 in *. change (2 ^ 31) with 2147483648 in *.
    split; [lia|]. rewrite Z.eqb_eq, land_netmask by lia. change (2 ^ (32 - 31)) with 2. rewrite Z.div_mul by lia. done.
  - exists (q * 2 ^ (32 - p) + 1). assert (4 <= 2 ^ (32 - p)) as H4 by (apply (Z.pow_le_mono_r 2 2 (32 - p)); lia).
    split; [done|]. assert (q * 2 ^ (32 - p) + 1 < 2 ^ 32) as Hlt by nia. split; [nia|].
    rewrite Z.eqb_eq, land_netmask by nia. f_equal. symmetry. apply (Z.div_unique _ _ _ 1); nia.
Qed.

(** The addresses that hosts of a network may have: all of a network of two, else
    neither the first nor the last one. *)
Definition host_of (n : network) (h : Z) : Prop :=
  0 <= h < 2 ^ 32 /\ in_network h n = true /\
  (n.(net_prefix) <= 30 -> h <> n.(net_addr) /\ h <> n.(net_addr) + 2 ^ (32 - n.(net_prefix)) - 1).

Lemma first_host_least z p :
  0 <= z < 2 ^ 32 -> 0 <= p <= 31 ->
  exists h, first_host (Network (Z.land z (netmask p)) p) = inr h /\ host_of (Network (Z.land z (netmask p)) p) h /\
    forall h', host_of (Network (Z.land z (netmask p)) p) h' -> h <= h'.
Proof.
  intros Hz Hp. destruct (first_host_in z p Hz Hp) as (h & Hh & Hb & Hin). exists h. split; [done|].
  unfold first_host in Hh. cbn [net_prefix net_addr] in Hh. rewrite (proj2 (Z.eqb_neq p 32)) in Hh by lia.
  assert (forall h', 0 <= h' < 2 ^ 32 -> in_network h' (Network (Z.land z (netmask p)) p) = true -> Z.land z (netmask p) <= h') as Hge.
  { intros h' Hb' Hin'. unfold in_network in Hin'. cbn [net_prefix net_addr] in Hin'. apply Z.eqb_eq in Hin'. rewrite <- Hin'.
    rewrite land_netmask by lia. pose proof (Z.mul_div_le h' (2 ^ (32 - p)) ltac:(apply Z.pow_pos_nonneg; lia)). lia. }
  destruct (Z.eqb_spec p 31) as [->|Hne]; injection Hh as <-; (split; [split; [done|split; [done|]]|]); cbn [net_prefix net_addr].
  - lia.
  - intros h' (Hb' & Hin' & _). by apply Hge.
  - intros _. assert (4 <= 2 ^ (32 - p)) by (apply (Z.pow_le_mono_r 2 2 (32 - p)); lia). lia.
  - intros h' (Hb' & Hin' & Hends). cbn [net_prefix net_addr] in Hends. destruct (Hends ltac:(lia)) as [Hfirst _].
    specialize (Hge h' Hb' Hin'). lia.
Qed.

(** A configuration as the services rely on it. *)
Record wf_config (i : InterfaceInfo) (nic_slot_prefix : string) (c : NetappIPInterfaceConfig) : Prop := {
  wf_name : c.(cfg_name) = i.(if_name);
  wf_vlan : c.(cfg_vlan_id) = i.(if_vlan) /\ 1 <= c.(cfg_vlan_id) <= 4094;
  wf_address : exists a p, i.(if_address) = a +:+ String "/" p /\ parse_ipv4 a = Some c.(cfg_address) /\
    parse_prefix p = Some c.(cfg_network).(net_prefix) /\
    0 <= c.(cfg_address) < 2 ^ 32 /\ in_network c.(cfg_address) c.(cfg_network) = true;
  wf_side : exists d s, c.(cfg_name) = String "N" (String d ("-lif-" +:+ s)) /\ is_digit d = true /\
    (s = "A" \/ s = "B") /\ side c = inr s /\ base_port_name c = inr (nic_slot_prefix +:+ lower s) /\
    desired_node_number c = (if Ascii.eqb d "1" then inr 1 else if Ascii.eqb d "2" then inr 2
                             else inl (ValueError [c.(cfg_name)]));
  wf_nexthop : match route_nexthop c with
    | inr h => c.(cfg_network).(net_prefix) <= 31 /\ host_of c.(cfg_network) h /\
               forall h', host_of c.(cfg_network) h' -> h <= h'
    | inl e => c.(cfg_network).(net_prefix) = 32 /\ e.(exn_cls) = "TypeError"
    end;
}.

Lemma name_pattern_spec name :
  name_pattern name = true -> exists d s, name = String "N" (String d ("-lif-" +:+ s)) /\ is_digit d = true /\ (s = "A" \/ s = "B").
Proof.
  unfold name_pattern. destruct name as [|[[] [] [] [] [] [] [] []] [|d rest]]; try done.
  intros [Hd Hr]%andb_true_iff. rewrite orb_true_iff, !bool_decide_eq_true in Hr.
  exists d. destruct Hr as [-> | ->]; [exists "A"|exists "B"]; auto.
Qed.

Lemma named_config c d s :
  c.(cfg_name) = String "N" (String d ("-lif-" +:+ s)) -> is_digit d = true -> s = "A" \/ s = "B" ->
  side c = inr s /\ base_port_name c = inr (c.(cfg_nic_slot_prefix) +:+ lower s) /\
  desired_node_number c = (if Ascii.eqb d "1" then inr 1 else if Ascii.eqb d "2" then inr 2
                           else inl (ValueError [c.(cfg_name)])).
Proof.
  intros Hn Hd Hs. apply is_digit_elem in Hd. unfold base_port_name, side, desired_node_number. rewrite Hn.
  unfold digit_chars in Hd. rewrite !elem_of_cons in Hd.
  destruct Hs as [-> | ->]; destruct_or? Hd; subst; try (by apply elem_of_nil in Hd); split_and!; reflexivity.
Qed.

(** C35. Every interface configuration built from Nautobot's answer is well
    formed: the VLAN is between 1 and 4094; the address is the 32-bit value that the
    answer gives, inside the network of its prefix; the name tells a side A or B (and
    through it the base port) and a node number, which is defined exactly for N1 and
    N2; the next hop is the first host of that network, neither its network address
    nor its broadcast address (of a /31, the first of the two), and only for a /32,
    whose hosts Python gives as a list, asking for it raises a type error. *)
Theorem configs_well_formed interfaces nic_slot_prefix configs :
  from_nautobot_response interfaces nic_slot_prefix = inr configs ->
  Forall2 (fun i c => wf_config i nic_slot_prefix c) interfaces configs.
Proof.
  intros Hl%res_map_ok_iff.
  eapply Forall2_impl; [exact Hl|]. clear. intros i c. destruct (split_join "/"%char (if_address i)) as [Hj _].
  destruct (split "/" (if_address i)) as [|a [|p [|]]] eqn:Hs; try done. cbn [String.concat] in Hj.
  change ((a +:+ "/" +:+ p)) with (a +:+ String "/" p) in Hj. rewrite Hj in Hs.
  destruct (parse_network (if_address i)) as [n|] eqn:Hn; [|done]. rewrite Hj in Hn.
  destruct (parse_network_spec a p n Hs Hn) as (z & Hz & Hpp & Hp & Ha). unfold make_config.
  destruct (name_pattern (if_name i)) eqn:Hname; [|done]. rewrite Hz. pose proof Hz as [Hzb _]%parse_ipv4_iff.
  unfold validate_vlan. destruct ((1 <=? if_vlan i) && (if_vlan i <=? 4094)) eqn:Hv; [|done]. intros [= <-].
  rewrite andb_true_iff, !Z.leb_le in Hv. apply name_pattern_spec in Hname as (d & s & Hnm & Hd & Hside).
  destruct n as [na np]; cbn in *. subst na. split; cbn; [done|done| | |].
  - exists a, p. split_and!; try done; [lia..|apply in_network_self].
  - exists d, s. destruct (named_config (MkConfig (if_name i) z (Network (Z.land z (netmask np)) np) (if_vlan i) nic_slot_prefix)
      d s Hnm Hd Hside) as (H1 & H2 & H3). auto 10.
  - unfold route_nexthop. cbn [cfg_network]. destruct (Z.eq_dec np 32) as [->|Hne]; [done|].
    destruct (first_host_least z np Hzb ltac:(lia)) as (h & -> & Hh & Hmin). split; [lia|done].
Qed.

(** ** Witnesses *)

Definition example_interfaces : list InterfaceInfo :=
  [MkInterfaceInfo "N1-lif-A" "100.127.0.17/29" 2002; MkInterfaceInfo "N2-lif-B" "100.127.128.17/29" 2002].

Lemma configs_well_formed_witness :
  exists configs, length configs = 2%nat /\ Forall2 (fun i c => wf_config i "e4" c) example_interfaces configs.
Proof.
  eexists. split; [|apply (configs_well_formed example_interfaces "e4"); vm_compute; reflexivity]. reflexivity.
Defined.
Example example_routes :
  map (fun c => h ← route_nexthop c; from_nexthop_ip "os-p" (ipv4_str h)) 
    (match from_nautobot_response example_interfaces "e4" with inr cs => cs | inl _ => [] end) =
  [inr (MkRouteSpec "os-p" (100 * 2 ^ 24 + 127 * 2 ^ 16 + 17) low_destination);
   inr (MkRouteSpec "os-p" (100 * 2 ^ 24 + 127 * 2 ^ 16 + 128 * 2 ^ 8 + 17) high_destination)].
Proof. by vm_compute. Qed.
