(* ===== verification/Netapp.v ===== *)
(** * NetApp storage

    Models, under
    [src/python/understack-workflows/understack_workflows/netapp/]: [config.py],
    [client.py], [svm_service.py], [volume_service.py], [lif_service.py],
    [route_service.py] and [manager.py].

    The NetApp SDK is third-party: its operations are [sdk], and every one goes
    over the connection that the SDK keeps in the module variable
    [config.CONNECTION].  That variable is the program's state here: the host it
    was made for.  Whether a [HostConnection] tells its host (the attribute
    [_host] that the source inspects) is the SDK's business: [host_attr] is any
    function.  The order in which Python walks a set is any ([iter_set]). *)
From S2P Require Import Prelude PyStr PyData Nautobot NetappValues.
Local Open Scope Z_scope.

(** ** Errors *)

(* netapp/exceptions.py:4-76 NetAppManagerError *)
Definition is_NetAppManagerError (e : exn) : bool :=
  bool_decide (e.(exn_cls) ∈ ["NetAppManagerError"; "ConfigurationError"; "SvmOperationError"; "SvmNotFoundError";
                              "VolumeOperationError"; "NetworkOperationError"; "HomeNodeNotFoundError"]).
Definition NetAppManagerError (args : list string) : exn := Exn "NetAppManagerError" args.
Definition ConfigurationError (args : list string) : exn := Exn "ConfigurationError" args.
Definition SvmOperationError (args : list string) : exn := Exn "SvmOperationError" args.
Definition SvmNotFoundError (args : list string) : exn := Exn "SvmNotFoundError" args.
Definition VolumeOperationError (args : list string) : exn := Exn "VolumeOperationError" args.
Definition NetworkOperationError (args : list string) : exn := Exn "NetworkOperationError" args.
Definition HomeNodeNotFoundError (args : list string) : exn := Exn "HomeNodeNotFoundError" args.
(** The SDK's error, with the status code of the response. *)
Definition NetAppRestError (status : Z) (text : string) : exn := Exn "NetAppRestError" [pretty status; text].
Definition is_NetAppRestError (e : exn) : bool := bool_decide (e.(exn_cls) = "NetAppRestError").
Definition rest_status (e : exn) : option Z := match e.(exn_args) with st :: _ => py_int st | [] => None end.

(** ** Backends *)

Record backend := MkBackend {
  be_section : string; be_hostname : string; be_username : string; be_password : string; be_nic_slot_prefix : string;
}.
(** The configuration file as [configparser] reads it: missing, unreadable, or
    sections with their options. *)
Inductive ini_file : Type := IniMissing | IniBroken | Ini (sections : dict (dict string)).

(* netapp/config.py:90-120 validate *)
Definition validate_backend (b : backend) : res unit :=
  let empty_fields := List.filter (fun kv => negb (truthy (strip kv.2)))
    [("hostname", b.(be_hostname)); ("username", b.(be_username)); ("password", b.(be_password))] in
  if truthy empty_fields then Err (ConfigurationError (map fst empty_fields)) else Ok tt.

(* netapp/config.py:31-88 _parse_config *)
Definition _parse_config (file : ini_file) (section : string) : res backend :=
  match file with
  | IniMissing => Err (ConfigurationError ["not found"])
  | IniBroken => Err (ConfigurationError ["parse"])
  | Ini sections =>
      match dict_get section sections with
      | None => Err (ConfigurationError [section])
      | Some options =>
          match dict_get "netapp_server_hostname" options, dict_get "netapp_login" options,
                dict_get "netapp_password" options with
          | Some hostname, Some username, Some password =>
              Ok (MkBackend section hostname username password
                    (default "e4" (dict_get "netapp_nic_slot_prefix" options)))
          | _, _, _ => Err (ConfigurationError [section; "missing"])
          end
      end
  end.
(* netapp/config.py:16-29 NetAppConfig *)
Definition NetAppConfig (file : ini_file) (section : string) : res backend :=
  b ← _parse_config file section; _ ← validate_backend b; Ok b.

(* netapp/config.py:152-192 get_all_backends *)
Definition backends_of (file : ini_file) : res (list backend) :=
  match file with
  | IniMissing => Err (ConfigurationError ["not found"])
  | IniBroken => Err (ConfigurationError ["parse"])
  | Ini sections => if truthy sections then res_map (NetAppConfig file) sections.*1
                    else Err (ConfigurationError ["no sections"])
  end.

(** ** The SDK *)

(** A reported aggregate; attributes may be absent. *)
Record sdk_aggregate := SdkAggregate { sa_name : option string; sa_state : option string; sa_used : option Z }.
Inductive sdk : Type -> Type :=
| SvmPost (spec : SvmSpec) (root_volume : string) : sdk unit
| SvmRefresh (name : string) : sdk SvmResult
| RootVolumeFind (name svm : string) : sdk (option string)
| RootVolumePatch (uuid : string) (size autosize_maximum : Z) : sdk unit
| SvmGet (name : string) : sdk string
| SvmDelete (uuid : string) : sdk unit
| SvmFind (name : string) : sdk (option SvmResult)
| VolumePost (spec : VolumeSpec) : sdk unit
| VolumeRefresh (name svm : string) : sdk VolumeResult
| VolumeGet (name : string) : sdk string
| VolumeDelete (uuid : string) (while_mapped : bool) : sdk unit
| VolumeFind (name svm : string) : sdk (option VolumeResult)
| LifFind (name svm : string) : sdk (option (string * string))
| LifPost (spec : InterfaceSpec) : sdk (string * string)
| PortFind (name node : string) : sdk (option (string * string))
| PortPost (spec : PortSpec) : sdk (string * string)
| BroadcastDomain (node port : string) : sdk (option string)
| NodeCollection : sdk (list NodeResult)
| AggregateCollection : sdk (list sdk_aggregate)
| NamespaceCollection (query : string) : sdk (list NamespaceResult)
| RoutePost (spec : RouteSpec) : sdk string.

(** The requests of the storage workflows: the SDK's over a connection, OpenStack's,
    a GraphQL query, the output files of a workflow. *)
Inductive storageE : Type -> Type :=
| Connect (host : string) : storageE unit
| Sdk {R} (connection : option string) (op : sdk R) : storageE R
| ReadIni (path : string) : storageE ini_file
| ProjectTags (project : string) : storageE (option (list string))
| ServerGet (id : string) : storageE (option (dict string))
| VolumeTypeSpecs (id : string) : storageE (option (dict string))
| VolumeConnectorCreate (node connector : string) : storageE unit
| GraphqlVms (device : string) : storageE (option (list string * list (list gql_interface)))
| SaveOutput (name value : string) : storageE unit.
(** [config.CONNECTION]: the host it was made for. *)
Abbreviation np A := (prog (option string) storageE A).

(** An SDK operation goes over the current connection. *)
Definition on_host {R} (op : sdk R) : np R := c ← get_state; call (Sdk c op).

(** [except C as e] of one class, other exceptions pass. *)
Definition except_when {A} (c : exn -> bool) (h : exn -> np A) (p : np A) : np A :=
  try_except p (fun e => if c e then h e else Raise e).
(** [except NetAppManagerError: raise / except Exception: raise wrap(e)] *)
Definition wrapping {A} (wrap : exn -> exn) (p : np A) : np A :=
  try_except p (fun e => Raise (if is_NetAppManagerError e then e else wrap e)).

Section netapp.
Context (host_attr : string -> option string) (iter_set : gset string -> list string).

(** ** Client *)

Definition needs_connection (c : option string) (b : backend) : bool :=
  match c with
  | None => true
  | Some h => match host_attr h with Some x => bool_decide (x <> b.(be_hostname)) | None => false end
  end.
Definition connect (b : backend) : np unit :=
  c ← get_state;
  if needs_connection c b then _ ← call (Connect b.(be_hostname)); put_state (Some b.(be_hostname)) else mret tt.
(* netapp/client.py:222-254 _setup_connection *)
Definition _setup_connection (b : backend) : np unit :=
  try_except (connect b) (fun e => Raise (ConfigurationError [b.(be_hostname)])).
(* netapp/manager.py:61-146 _setup_dependencies *)
Definition NetAppManager (b : backend) : np unit := _ ← connect b; _setup_connection b.

Definition SVM_ROOT_VOLUME_SIZE_BYTES : Z := 1024 ^ 3.
Definition SVM_ROOT_VOLUME_AUTOSIZE_MAXIMUM_BYTES : Z := 2 * 1024 ^ 3.

(* netapp/client.py:304-335 _configure_svm_root_volume *)
Definition _configure_svm_root_volume (spec : SvmSpec) : np unit :=
  root_volume ← on_host (RootVolumeFind (root_volume_name spec) spec.(svm_spec_name));
  match root_volume with
  | None => Raise (SvmOperationError [spec.(svm_spec_name); root_volume_name spec])
  | Some uuid => on_host (RootVolumePatch uuid SVM_ROOT_VOLUME_SIZE_BYTES SVM_ROOT_VOLUME_AUTOSIZE_MAXIMUM_BYTES)
  end.

(* netapp/client.py:256-302 create_svm *)
Definition client_create_svm (spec : SvmSpec) : np SvmResult :=
  except_when is_NetAppRestError (fun e => Raise (SvmOperationError [spec.(svm_spec_name)]))
    (_ ← on_host (SvmPost spec (root_volume_name spec));
     svm ← on_host (SvmRefresh spec.(svm_spec_name));
     _ ← _configure_svm_root_volume spec;
     mret svm).

(* netapp/client.py:337-363 delete_svm *)
Definition client_delete_svm (svm_name : string) : np bool :=
  try_except (uuid ← on_host (SvmGet svm_name); _ ← on_host (SvmDelete uuid); mret true) (fun _ => mret false).

(* netapp/client.py:365-392 find_svm *)
Definition find_svm (svm_name : string) : np (option SvmResult) :=
  try_except (on_host (SvmFind svm_name))
    (fun e => if is_NetAppRestError e && bool_decide (rest_status e = Some 404) then mret None
              else Raise (SvmOperationError [svm_name])).

(* netapp/client.py:394-446 create_volume *)
Definition client_create_volume (spec : VolumeSpec) : np VolumeResult :=
  except_when is_NetAppRestError (fun e => Raise (VolumeOperationError [spec.(vol_spec_name)]))
    (_ ← on_host (VolumePost spec); on_host (VolumeRefresh spec.(vol_spec_name) spec.(vol_svm))).

(* netapp/client.py:448-483 delete_volume *)
Definition client_delete_volume (volume_name : string) (force : bool) : np bool :=
  try_except (uuid ← on_host (VolumeGet volume_name); _ ← on_host (VolumeDelete uuid force); mret true)
    (fun _ => mret false).

(* netapp/client.py:485-508 find_volume *)
Definition find_volume (volume_name svm_name : string) : np (option VolumeResult) :=
  try_except (on_host (VolumeFind volume_name svm_name)) (fun _ => mret None).

(* netapp/client.py:510-577 get_or_create_ip_interface *)
Definition get_or_create_ip_interface (spec : InterfaceSpec) : np InterfaceResult :=
  except_when is_NetAppRestError (fun e => Raise (NetworkOperationError [spec.(is_name)]))
    (existing ← on_host (LifFind spec.(is_name) spec.(is_svm));
     interface ← match existing with Some i => mret i | None => on_host (LifPost spec) end;
     mret (MkInterfaceResult interface.1 interface.2 spec.(is_address) spec.(is_netmask))).

(* netapp/client.py:579-648 get_or_create_port *)
Definition get_or_create_port (spec : PortSpec) : np PortResult :=
  except_when is_NetAppRestError (fun e => Raise (NetworkOperationError [spec.(ps_node)]))
    (existing ← on_host (PortFind (spec.(ps_base_port) +:+ "-" +:+ pretty spec.(ps_vlan_id)) spec.(ps_node));
     port ← match existing with Some p => mret p | None => on_host (PortPost spec) end;
     mret (MkPortResult port.1 port.2 spec.(ps_node))).

(* netapp/client.py:650-678 get_broadcast_domain_name *)
Definition get_broadcast_domain_name (node_name port_name : string) : np string :=
  except_when is_NetAppRestError (fun e => Raise (NetworkOperationError [node_name; port_name]))
    (domain ← on_host (BroadcastDomain node_name port_name);
     match domain with Some name => mret name | None => Raise (NetworkOperationError [node_name; port_name]) end).

(* netapp/client.py:680-701 get_nodes *)
Definition get_nodes : np (list NodeResult) :=
  except_when is_NetAppRestError (fun e => Raise (NetAppManagerError ["nodes"])) (on_host NodeCollection).

(* netapp/client.py:703-741 get_aggregates *)
Definition get_aggregates : np (list AggregateResult) :=
  except_when is_NetAppRestError (fun e => Raise (NetAppManagerError ["aggregates"]))
    (aggregates ← on_host AggregateCollection;
     mret (omap (fun a => match a.(sa_name) with
                          | Some name => if truthy name then Some (MkAggregate name a.(sa_state) a.(sa_used)) else None
                          | None => None
                          end) (aggregates : list sdk_aggregate))).

(* netapp/client.py:743-797 get_namespaces *)
Definition get_namespaces (svm_name volume_name : string) : np (list NamespaceResult) :=
  except_when is_NetAppRestError (fun e => Raise (NetAppManagerError [svm_name; volume_name]))
    (c ← get_state;
     match c with
     | None => mret []
     | Some _ => on_host (NamespaceCollection (query_string svm_name volume_name))
     end).

(* netapp/client.py:799-861 create_route *)
Definition client_create_route (spec : RouteSpec) : np RouteResult :=
  except_when is_NetAppRestError (fun e => Raise (NetworkOperationError [spec.(rs_svm)]))
    (uuid ← on_host (RoutePost spec);
     mret (MkRouteResult uuid (ipv4_str spec.(rs_gateway)) spec.(rs_destination) spec.(rs_svm))).

(** ** Storage virtual machines and volumes *)

(* netapp/svm_service.py:173-182 get_svm_name *)
Definition get_svm_name (project_id : string) : string := "os-" +:+ project_id.
(* netapp/volume_service.py:149-159 get_volume_name *)
Definition get_volume_name (volume_type_id : string) : string := "vol_" +:+ remove_sub "-" volume_type_id.

(* netapp/svm_service.py:144-171 exists *)
Definition svm_exists (project_id : string) : np bool :=
  try_except (result ← find_svm (get_svm_name project_id); mret (if result is Some _ then true else false))
    (fun _ => mret false).

(* netapp/svm_service.py:29-99 create_svm *)
Definition create_svm (project_id aggregate_name : string) : np string :=
  let name := get_svm_name project_id in
  present ← svm_exists project_id;
  if (present : bool) then Raise (SvmOperationError [name; project_id]) else
  wrapping (fun _ => SvmOperationError [project_id])
    (result ← client_create_svm (MkSvmSpec name aggregate_name "c.utf_8" ["nvme"]); mret result.(svm_name)).

(* netapp/svm_service.py:101-142 delete_svm *)
Definition delete_svm (project_id : string) : np bool :=
  try_except (client_delete_svm (get_svm_name project_id)) (fun _ => mret false).

(* netapp/svm_service.py:184-202 get_svm_result *)
Definition get_svm_result (project_id : string) : np (option SvmResult) :=
  try_except (find_svm (get_svm_name project_id)) (fun _ => mret None).

(* netapp/volume_service.py:30-98 create_volume *)
Definition create_volume (project_id volume_type_id size aggregate_name : string) : np string :=
  wrapping (fun _ => VolumeOperationError [project_id])
    (result ← client_create_volume
                (MkVolumeSpec (get_volume_name volume_type_id) (get_svm_name project_id) aggregate_name size);
     mret result.(vr_name)).

(* netapp/volume_service.py:100-147 delete_volume *)
Definition service_delete_volume (volume_type_id : string) (force : bool) : np bool :=
  try_except (client_delete_volume (get_volume_name volume_type_id) force) (fun _ => mret false).

(* netapp/volume_service.py:161-203 exists *)
Definition volume_exists (project_id : string) : np bool :=
  try_except (result ← find_volume (get_volume_name project_id) (get_svm_name project_id);
              mret (if result is Some _ then true else false))
    (fun _ => mret false).

(* netapp/volume_service.py:205-253 get_mapped_namespaces *)
Definition get_mapped_namespaces (project_id : string) : np (list NamespaceResult) :=
  try_except (get_namespaces (get_svm_name project_id) (get_volume_name project_id)) (fun _ => mret []).

(** ** Logical interfaces and routes *)

(** [re.search(r"\\d+$", name)], as a number *)
Definition trailing_number (name : string) : option Z :=
  let r := String.rev name in
  let d := String.rev (String.substring 0 (String.length r - String.length (lstrip_by is_digit r)) r) in
  if truthy d then py_int d else None.

(* netapp/lif_service.py:187-256 identify_home_node *)
Definition identify_home_node (config : NetappIPInterfaceConfig) : np NodeResult :=
  match desired_node_number config with
  | inl e => Raise e
  | inr desired =>
      try_except
        (nodes ← get_nodes;
         match List.find (fun node => bool_decide (trailing_number node.(nr_name) = Some desired)) nodes with
         | Some node => mret node
         | None => Raise (HomeNodeNotFoundError [config.(cfg_name)])
         end)
        (fun e => Raise (if bool_decide (e.(exn_cls) = "HomeNodeNotFoundError") then e
                         else HomeNodeNotFoundError [config.(cfg_name)]))
  end.

(* netapp/lif_service.py:121-185 create_home_port *)
Definition create_home_port (config : NetappIPInterfaceConfig) (home_node : NodeResult) (broadcast_domain_name : string)
    : np PortResult :=
  wrapping (fun _ => NetworkOperationError [config.(cfg_name)])
    (base_port ← lift (base_port_name config);
     port_spec ← lift (make_port_spec home_node.(nr_name) config.(cfg_vlan_id) base_port broadcast_domain_name);
     get_or_create_port port_spec).

(* netapp/lif_service.py:35-119 create_lif *)
Definition create_lif (project_id : string) (config : NetappIPInterfaceConfig) : np unit :=
  let svm_name := get_svm_name project_id in
  wrapping (fun _ => NetworkOperationError [config.(cfg_name)])
    (svm_result ← find_svm svm_name;
     match svm_result with
     | None => Raise (SvmNotFoundError [svm_name; project_id])
     | Some _ =>
         home_node ← identify_home_node config;
         base_port ← lift (base_port_name config);
         broadcast_domain_name ← get_broadcast_domain_name home_node.(nr_name) base_port;
         home_port ← create_home_port config home_node broadcast_domain_name;
         spec ← lift (make_interface_spec config.(cfg_name) (ipv4_str config.(cfg_address))
                        (ipv4_str (netmask config.(cfg_network).(net_prefix))) svm_name home_port.(pr_uuid)
                        broadcast_domain_name);
         _ ← get_or_create_ip_interface spec;
         mret tt
     end).

(* netapp/route_service.py:101-125 _extract_unique_nexthops *)
Definition _extract_unique_nexthops (configs : list NetappIPInterfaceConfig) : res (list string) :=
  nexthops ← res_map (fun c => h ← route_nexthop c; Ok (ipv4_str h)) configs;
  Ok (iter_set (list_to_set nexthops)).

(* netapp/route_service.py:30-99 create_routes_from_interfaces *)
Definition create_routes_from_interfaces (project_id : string) (configs : list NetappIPInterfaceConfig)
    : np (list RouteResult) :=
  wrapping (fun _ => NetworkOperationError [project_id])
    (unique_nexthops ← lift (_extract_unique_nexthops configs);
     map_each unique_nexthops (fun nexthop =>
       wrapping (fun _ => NetworkOperationError [nexthop])
         (route_spec ← lift (from_nexthop_ip (get_svm_name project_id) nexthop); client_create_route route_spec))).

(** ** Manager *)

(** [min(aggregates, key=lambda a: (a.used_percent, a.name))] of those that are
    online and tell their use *)
Definition eligible (a : AggregateResult) : option (Z * string) :=
  match a.(ag_state), a.(ag_used_percent) with
  | Some "online", Some used => Some (used, a.(ag_name))
  | _, _ => None
  end.
Definition key_le (x y : Z * string) : bool := (x.1 <? y.1) || ((x.1 =? y.1) && bool_decide (str_le x.2 y.2)).
Definition min_key (l : list (Z * string)) : option (Z * string) :=
  foldl (fun acc x => match acc with None => Some x | Some y => if key_le y x then Some y else Some x end) None l.

(* netapp/manager.py:156-174 select_aggregate_name *)
Definition select_aggregate_name : np string :=
  aggregates ← get_aggregates;
  if negb (truthy aggregates) then Raise (NetAppManagerError ["No NetApp aggregates are available"]) else
  match min_key (omap eligible (aggregates : list AggregateResult)) with
  | None => Raise (NetAppManagerError ["No eligible NetApp aggregates are available"])
  | Some (_, name) => mret name
  end.

(* netapp/manager.py:176-207 delete_svm *)
Definition manager_delete_svm (svm_name : string) : np bool :=
  if startswith "os-" svm_name then delete_svm (drop_str 3 svm_name)
  else try_except (client_delete_svm svm_name) (fun _ => mret false).

(* netapp/manager.py:221-249 delete_volume *)
Definition delete_volume (volume_name : string) (force : bool) : np bool :=
  if startswith "vol_" volume_name then service_delete_volume (drop_str 4 volume_name) force
  else try_except (client_delete_volume volume_name force) (fun _ => mret false).

(* netapp/manager.py:254-283 mapped_namespaces *)
Definition mapped_namespaces (svm_name volume_name : string) : np (option (list NamespaceResult)) :=
  if startswith "os-" svm_name && startswith "vol_" volume_name &&
     bool_decide (remove_sub "-" (drop_str 3 svm_name) = drop_str 4 volume_name)
  then l ← get_mapped_namespaces (drop_str 3 svm_name); mret (Some l)
  else c ← get_state;
       match c with
       | None => mret None
       | Some _ => l ← on_host (NamespaceCollection (query_string svm_name volume_name)); mret (Some l)
       end.

(* netapp/manager.py:285-451 cleanup_project *)
Definition cleanup_project (project_id : string) : np (bool * bool) :=
  volume_existed ← try_except (volume_exists project_id) (fun _ => mret true);
  svm_existed ← try_except (svm_exists project_id) (fun _ => mret true);
  delete_vol_result ← (if (volume_existed : bool)
                       then try_except (service_delete_volume project_id true) (fun _ => mret false)
                       else mret true);
  delete_svm_result ← (if (svm_existed : bool) then
                         if (delete_vol_result : bool) || negb volume_existed
                         then try_except (delete_svm project_id) (fun _ => mret false)
                         else mret false
                       else mret true);
  mret (delete_vol_result, delete_svm_result).

(* netapp/manager.py:460-471 create_home_port *)
Definition manager_create_home_port (config : NetappIPInterfaceConfig) : np PortResult :=
  home_node ← identify_home_node config;
  base_port ← lift (base_port_name config);
  broadcast_domain_name ← get_broadcast_domain_name home_node.(nr_name) base_port;
  create_home_port config home_node broadcast_domain_name.

End netapp.
