(* ===== verification/StorageEvents.v ===== *)
(** * Storage workflows

    Models, under [src/python/understack-workflows/understack_workflows/]:
    [oslo_event/keystone_project.py], [oslo_event/cinder_volume_type.py],
    [oslo_event/ironic_node.py] and [main/netapp_configure_net.py]: the handlers
    that create, find and remove a project's storage virtual machine and volumes,
    and the configuration of its network. *)
From S2P Require Import Prelude PyStr PyData Nautobot InterfaceSync NetappValues Netapp.
Local Open Scope Z_scope.

Definition str_bool (b : bool) : string := if b then "True" else "False".
Definition CONFIG_PATH : string := "/etc/netapp/netapp_nvme.conf".
Definition get_all_backends (path : string) : np (list backend) := file ← call (ReadIni path); lift (backends_of file).
(** The outcome of a block as a value. *)
Definition captured {A} (p : np A) : np (res A) := try_except (a ← p; mret (inr a)) (fun e => mret (inl e)).

Section storage.
Context (host_attr : string -> option string) (iter_set : gset string -> list string).
Abbreviation manager := (NetAppManager host_attr).

(** ** Projects *)

Definition SVM_PROJECT_TAG : string := "UNDERSTACK_SVM".

(** [d.get(k)], where [None] raises *)
Definition required_text (k : string) (v : json) : res string :=
  x ← jget k v;
  match x with JStr s => Ok s | JNull => Err (PlainException [k]) | _ => Err (TypeError [k]) end.
Definition required (k : string) (v : json) : res json :=
  x ← jget k v; match x with JNull => Err (PlainException [k]) | _ => Ok x end.

(* oslo_event/keystone_project.py:19-36 KeystoneProjectEvent.from_event_dict *)
Definition project_event (data : json) : res string :=
  payload ← required "payload" data; target ← required "target" payload; required_text "id" target.

Definition quote : string := String (ascii_of_nat 34) "".
(** [json.dumps] of a list of texts without characters to escape *)
Definition dumps (l : list string) : string :=
  "[" +:+ String.concat ", " (map (fun s => quote +:+ s +:+ quote) l) +:+ "]".

(* oslo_event/keystone_project.py:39-44 _keystone_project_tags *)
Definition _keystone_project_tags (project_id : string) : np (list string) :=
  tags ← call (ProjectTags project_id); mret (default [] tags).
(* oslo_event/keystone_project.py:47-51 is_project_svm_enabled *)
Definition is_project_svm_enabled (project_id : string) : np bool :=
  tags ← _keystone_project_tags project_id;
  _ ← call (SaveOutput "project_tags" (dumps tags));
  mret (bool_decide (SVM_PROJECT_TAG ∈ tags)).

(* oslo_event/keystone_project.py:192-196 _create_svm *)
Definition _create_svm (project_id : string) : np string :=
  aggregate_name ← select_aggregate_name; create_svm project_id aggregate_name.

(** [event_data.get("event_type") == t] *)
Definition has_type (t : string) (event_data : json) : res bool :=
  x ← jget "event_type" event_data; Ok (match x with JStr s => bool_decide (s = t) | _ => false end).

(** The loop over the backends: the name returned, the state reached and the
    exception that ended it. *)
(* oslo_event/keystone_project.py:76-82 handle_project_created *)
Fixpoint create_on (project_id : string) (backends : list backend) (svm_name : option string)
    : np (option string * string * option exn) :=
  match backends with
  | [] => mret (svm_name, "unknown", None)
  | b :: rest =>
      r ← captured (_ ← manager b; _create_svm project_id);
      match r with
      | inl e => mret (svm_name, "unknown", Some e)
      | inr name =>
          if truthy name then
            saved ← captured (call (SaveOutput "svm_created" (str_bool true)));
            mret (Some name, if saved is inr _ then "created" else "unknown", if saved is inl e then Some e else None)
          else create_on project_id rest (Some name)
      end
  end.

(** The [finally] block, and what was raised before it. *)
Definition report (svm_name : option string) (svm_state : string) (raised : option exn) : np Z :=
  _ ← call (SaveOutput "svm_name" (str_or svm_name "not_returned"));
  _ ← call (SaveOutput "svm_state" svm_state);
  match raised with Some e => Raise e | None => mret 0 end.

(* oslo_event/keystone_project.py:54-88 handle_project_created *)
Definition handle_project_created (event_data : json) : np Z :=
  ok ← lift (has_type "identity.project.created" event_data);
  if negb ok then mret 1 else
  project_id ← lift (project_event event_data);
  enabled ← is_project_svm_enabled project_id;
  _ ← call (SaveOutput "svm_enabled" (str_bool enabled));
  if negb enabled then _ ← call (SaveOutput "svm_state" "nonexistent"); mret 0 else
  backends ← captured (get_all_backends CONFIG_PATH);
  '(svm_name, svm_state, raised) ← match backends with
                                   | inl e => mret (None, "unknown", Some e)
                                   | inr l => create_on project_id l None
                                   end;
  report svm_name svm_state raised.

(** The first backend on which the project's SVM is found; its manager is the one
    made last. *)
(* oslo_event/keystone_project.py:107-114 handle_project_updated *)
Fixpoint find_backend (project_id : string) (backends : list backend) : np (option backend) :=
  match backends with
  | [] => mret None
  | b :: rest =>
      _ ← manager b;
      found ← svm_exists project_id;
      if (found : bool) then mret (Some b) else find_backend project_id rest
  end.

(** The body of the [try]: the name returned and the state reached. *)
(* oslo_event/keystone_project.py:103-138 handle_project_updated *)
Definition update_project (project_id : string) (enabled : bool) : np (option string * string * option exn) :=
  r ← captured (backends ← get_all_backends CONFIG_PATH;
                existing ← find_backend project_id backends;
                match existing with
                | Some _ =>
                    if negb enabled then _ ← cleanup_project project_id; mret (None, "removed")
                    else _ ← call (SaveOutput "svm_created" (str_bool false)); mret (None, "present")
                | None =>
                    if negb enabled then mret (None, "unknown")
                    else match backends with
                         | [] => Raise IndexError
                         | first :: _ => _ ← manager first;
                                         svm_name ← _create_svm project_id;
                                         mret (Some svm_name, "created")
                         end
                end);
  match r with
  | inl e => mret (None, "unknown", Some e)
  | inr (svm_name, svm_state) =>
      match svm_name with
      | None => mret (None, svm_state, None)
      | Some name => saved ← captured (call (SaveOutput "svm_created" (str_bool true)));
                     mret (Some name, if saved is inr _ then svm_state else "unknown",
                           if saved is inl e then Some e else None)
      end
  end.

(* oslo_event/keystone_project.py:91-143 handle_project_updated *)
Definition handle_project_updated (event_data : json) : np Z :=
  ok ← lift (has_type "identity.project.updated" event_data);
  if negb ok then mret 1 else
  project_id ← lift (project_event event_data);
  enabled ← is_project_svm_enabled project_id;
  _ ← call (SaveOutput "svm_enabled" (str_bool enabled));
  '(svm_name, svm_state, raised) ← update_project project_id enabled;
  report svm_name svm_state raised.

(* oslo_event/keystone_project.py:146-189 handle_project_deleted *)
Definition handle_project_deleted (event_data : json) : np Z :=
  ok ← lift (has_type "identity.project.deleted" event_data);
  if negb ok then mret 1 else
  project_id ← lift (project_event event_data);
  try_except
    (backends ← get_all_backends CONFIG_PATH;
     existing ← find_backend project_id backends;
     _ ← match existing with
         | Some _ => _ ← cleanup_project project_id; call (SaveOutput "svm_state" "removed")
         | None => call (SaveOutput "svm_state" "nonexistent")
         end;
     mret 0)
    (fun _ => _ ← call (SaveOutput "svm_state" "unknown"); mret 1).

(** ** Volume types *)

(* oslo_event/constants.py:1-1 VOLUME_SIZE *)
Definition VOLUME_SIZE : string := "514GB".

(* oslo_event/cinder_volume_type.py:15-35 CinderVolumeTypeAccessEvent.from_event_dict *)
Definition volume_type_event (data : json) : res (string * string) :=
  payload ← jget_or "payload" (JObj []) data;
  project_id ← required_text "project_id" payload;
  volume_type_id ← required_text "volume_type_id" payload;
  Ok (project_id, volume_type_id).

(* oslo_event/cinder_volume_type.py:38-85 handle_volume_type_access_added *)
Definition handle_volume_type_access_added (event_data : json) : np Z :=
  ok ← lift (has_type "volume_type_project.access.add" event_data);
  if negb ok then mret 1 else
  '(project_id, volume_type_id) ← lift (volume_type_event event_data);
  specs ← call (VolumeTypeSpecs volume_type_id);
  let extra_specs := default [] specs in
  let volume_size := default VOLUME_SIZE (dict_get "netapp:flexvol_size" extra_specs) in
  backends ← get_all_backends CONFIG_PATH;
  existing ← find_backend project_id backends;
  match existing with
  | None => _ ← call (SaveOutput "volume_created" (str_bool false)); mret 1
  | Some _ =>
      aggregate_name ← match dict_get "netapp:aggregate_name" extra_specs with
                       | Some a => mret a
                       | None => select_aggregate_name
                       end;
      volume_name ← create_volume project_id volume_type_id volume_size aggregate_name;
      _ ← call (SaveOutput "volume_created" (str_bool true));
      _ ← call (SaveOutput "volume_name" volume_name);
      mret 0
  end.

(* oslo_event/cinder_volume_type.py:88-120 handle_volume_type_access_removed *)
Definition handle_volume_type_access_removed (event_data : json) : np Z :=
  ok ← lift (has_type "volume_type_project.access.remove" event_data);
  if negb ok then mret 1 else
  '(project_id, volume_type_id) ← lift (volume_type_event event_data);
  r ← captured (backends ← get_all_backends CONFIG_PATH;
                existing ← find_backend project_id backends;
                deleted ← match existing with
                          | Some _ => delete_volume (get_volume_name volume_type_id) false
                          | None => mret false
                          end;
                _ ← call (SaveOutput "volume_deleted" (str_bool deleted));
                mret deleted);
  match r with
  | inl _ => mret 1
  | inr deleted => mret (if (deleted : bool) then 0 else 1)
  end.

(** ** Provisioned nodes *)

(* oslo_event/ironic_node.py:125-126 instance_nqn *)
Definition instance_nqn (instance_id : string) : string := "nqn.2014-08.org.nvmexpress:uuid:" +:+ instance_id.

(* oslo_event/ironic_node.py:111-122 create_volume_connector *)
Definition create_volume_connector (node_uuid instance_uuid : string) : np unit :=
  except_when (fun e => bool_decide (e.(exn_cls) = "ConflictException")) (fun _ => mret tt)
    (call (VolumeConnectorCreate node_uuid (instance_nqn instance_uuid))).

(* oslo_event/ironic_node.py:16-40 IronicProvisionSetEvent.from_event_dict *)
Record IronicProvisionSetEvent := MkProvisionSet {
  ev_node_uuid : string; ev_event : json; ev_owner : json; ev_lessee : string; ev_instance_uuid : string;
}.
Definition provision_set_event (payload_data : json) : res IronicProvisionSetEvent :=
  uuid ← jitem "uuid" payload_data; ev ← jitem "event" payload_data; owner ← jitem "owner" payload_data;
  lessee ← jitem "lessee" payload_data; instance ← jitem "instance_uuid" payload_data;
  match uuid, lessee, instance with
  | JStr u, JStr l, JStr i => Ok (MkProvisionSet u ev owner l i)
  | _, _, _ => Err (TypeError ["payload"])
  end.

(* oslo_event/ironic_node.py:42-45 lessee_undashed *)
Definition lessee_undashed (e : IronicProvisionSetEvent) : res string :=
  match uuid_int e.(ev_lessee) with Some z => Ok (uuid_hex z) | None => Err (ValueError [e.(ev_lessee)]) end.

(* oslo_event/ironic_node.py:48-53 _extract_payload_data *)
Definition _extract_payload_data (event_data : json) : res json :=
  payload ← jget_or "payload" (JObj []) event_data;
  if is_jobj payload then jget "ironic_object.data" payload else Ok JNull.

(* oslo_event/ironic_node.py:56-108 handle_provision_end *)
Definition handle_provision_end (event_data : json) : np Z :=
  payload_data ← lift (_extract_payload_data event_data);
  if negb (truthy payload_data) then mret 1 else
  lessee ← lift (jget "lessee" payload_data);
  if negb (truthy lessee) then mret 0 else
  instance ← lift (jget "instance_uuid" payload_data);
  if negb (truthy instance) then mret 0 else
  event ← lift (provision_set_event payload_data);
  project ← lift (lessee_undashed event);
  svm_enabled ← is_project_svm_enabled project;
  server ← call (ServerGet event.(ev_instance_uuid));
  match server with
  | None => _ ← call (SaveOutput "storage" "not-found"); mret 1
  | Some metadata =>
      let wanted := bool_decide (dict_get "storage" metadata = Some "wanted") in
      _ ← call (SaveOutput "storage" (if wanted then if negb svm_enabled then "wanted-but-not-project" else "wanted"
                                      else "not-set"));
      _ ← call (SaveOutput "node_uuid" event.(ev_node_uuid));
      _ ← call (SaveOutput "instance_uuid" event.(ev_instance_uuid));
      _ ← create_volume_connector event.(ev_node_uuid) event.(ev_instance_uuid);
      mret 0
  end.

(** ** Network of a project's SVM *)

(* main/netapp_configure_net.py:25-43 validate_and_normalize_uuid *)
Definition validate_and_normalize_uuid (value : string) : res string :=
  match uuid_int value with Some z => Ok (uuid_hex z) | None => Err (Exn "ArgumentTypeError" [value]) end.

(** [SystemExit] with a code *)
Definition SystemExit (code : Z) : exn := Exn "SystemExit" [pretty code].

(* main/netapp_configure_net.py:85-135 execute_graphql_query *)
Definition execute_graphql_query (project_id : string) : np (list (list gql_interface)) :=
  Call (GraphqlVms (get_svm_name project_id)) (fun r =>
    match r with
    | inl e => Raise (PlainException ["GraphQL query execution failed"])
    | inr None => Raise (PlainException ["GraphQL query returned no data"])
    | inr (Some (errors, vms)) =>
        if truthy errors then Raise (PlainException ("GraphQL query failed with errors" :: errors)) else mret vms
    end).

(* main/netapp_configure_net.py:138-176 validate_and_transform_response *)
Definition validate_and_transform_response (vms : list (list gql_interface)) : res (list (list NetappValues.InterfaceInfo)) :=
  res_map (fun vm => match from_graphql_vm vm with
                     | inl e => Err (if is_ValueError e then ValueError ["Data validation error"] else e)
                     | inr x => Ok x
                     end) vms.

(* main/netapp_configure_net.py:261-297 netapp_create_interfaces_and_routes *)
Definition netapp_create_interfaces_and_routes (vm : list NetappValues.InterfaceInfo) (nic_slot_prefix project_id : string)
    : np unit :=
  configs ← lift (from_nautobot_response vm nic_slot_prefix);
  _ ← for_each configs (fun c => create_lif project_id c);
  _ ← create_routes_from_interfaces iter_set project_id configs;
  mret tt.

(* main/netapp_configure_net.py:179-258 do_action *)
Definition do_action (nic_slot_prefix project_id : string) : np unit :=
  validated_data ← try_except
    (raw_response ← execute_graphql_query project_id; lift (validate_and_transform_response raw_response))
    (fun e => Raise (SystemExit (if is_ValueError e then 3 else 2)));
  match validated_data with
  | [] => mret tt
  | vm :: _ => netapp_create_interfaces_and_routes vm nic_slot_prefix project_id
  end.

(* main/netapp_configure_net.py:349-412 main *)
Definition configure_net_main (project_id config_path : string) : np Z :=
  try_except
    (backends ← get_all_backends config_path;
     existing ← find_backend project_id backends;
     match existing with
     | None => mret 1
     | Some b => _ ← do_action b.(be_nic_slot_prefix) project_id; mret 0
     end)
    (fun e => if bool_decide (e.(exn_cls) = "SystemExit")
              then mret (match e.(exn_args) with c :: _ => default 1 (py_int c) | [] => 1 end)
              else Raise e).

End storage.

(** ** The connection *)

(** Programs that only use the connection they find. *)
Section stays.
Context (P : forall R, storageE R -> Prop).
Fixpoint stays {A} (g : option string) (p : np A) : Prop :=
  match p with
  | Ret _ | Raise _ => True
  | Call op k => P _ op /\ forall r, stays g (k r)
  | Get k => stays g (k g)
  | Put _ _ => False
  end.
Lemma stays_bind {A B} g (p : np A) (f : A -> np B) :
  stays g p -> (forall a, stays g (f a)) -> stays g (mbind f p).
Proof.
  intros Hp Hf. induction p as [a|e|R op k IH|k IH|g' p IH]; cbn in *; [apply Hf|done| |by apply IH|done].
  destruct Hp as [? ?]. split; [done|]. intros r. by apply IH.
Qed.
Lemma stays_try {A} g (p : np A) h : stays g p -> (forall e, stays g (h e)) -> stays g (try_except p h).
Proof.
  intros Hp Hf. induction p as [a|e|R op k IH|k IH|g' p IH]; cbn in *; auto.
  destruct Hp as [? ?]. split; [done|]. intros r. by apply IH.
Qed.
Lemma stays_call {R} g (op : storageE R) : P R op -> stays g (call op).
Proof. intros HP. split; [done|]. by intros []. Qed.
Lemma stays_on_host {R} g (op : sdk R) : P R (Sdk g op) -> stays g (on_host op).
Proof. intros HP. cbn. split; [done|]. by intros []. Qed.
Lemma stays_lift {A} g (r : res A) : stays g (lift r : np A).
Proof. by destruct r. Qed.
Lemma wp_stays {A} g (p : np A) tr :
  stays g p ->
  wp step_trace p (fun _ g' tr' => g' = g /\ exists tr2, tr' = tr ++ tr2 /\
    Forall (fun ev => match ev with Ev op _ => P _ op end) tr2) g tr.
Proof.
  revert tr. induction p as [a|e|R op k IH|k IH|g' p IH]; intros tr Hp.
  - apply wp_mret. split; [done|]. exists []. by rewrite app_nil_r.
  - apply wp_raise. split; [done|]. exists []. by rewrite app_nil_r.
  - destruct Hp as [Hop Hk]. intros r tr' ->. eapply wp_mono; [|by apply IH].
    intros r' g' tr'' (-> & tr2 & -> & Hall). split; [done|]. exists (Ev op r :: tr2).
    split; [by rewrite <- app_assoc|]. by constructor.
  - by apply IH.
  - destruct Hp.
Qed.
End stays.
Ltac stays_go :=
  repeat (first
    [ apply stays_call; exact I
    | apply stays_on_host; first [exact I | reflexivity]
    | apply stays_lift
    | apply stays_try; [|intros ?]
    | lazymatch goal with |- stays _ _ (mbind _ _) => apply stays_bind; [|intros ?] end
    | lazymatch goal with
      | |- stays _ _ (mret _) => exact I
      | |- stays _ _ (Raise _) => exact I
      | |- stays _ _ (match ?x with _ => _ end) => destruct x
      end ]).

(** The connection over which an event deletes something. *)
Definition deletes_on (ev : event storageE) : option (option string) :=
  match ev with
  | Ev op _ => match op with
               | Sdk c o => match o with SvmDelete _ | VolumeDelete _ _ => Some c | _ => None end
               | _ => None
               end
  end.
Definition harmless {R} (op : storageE R) : Prop :=
  match op with Sdk _ (SvmDelete _) | Sdk _ (VolumeDelete _ _) => False | _ => True end.
Definition only_host (c : option string) {R} (op : storageE R) : Prop :=
  match op with Sdk c' _ => c' = c | _ => True end.
(** The project's SVM was found on the host. *)
Definition found_on (project host : string) (tr : list (event storageE)) : Prop :=
  exists svm, Ev (Sdk (Some host) (SvmFind (get_svm_name project))) (inr (Some svm)) ∈ tr.

(** Everything is deleted on a host where the project's SVM was found before. *)
Definition careful (project : string) (tr : list (event storageE)) : Prop :=
  forall tr1 ev tr2 c, tr = tr1 ++ ev :: tr2 -> deletes_on ev = Some c ->
  exists h, c = Some h /\ found_on project h tr1.

Lemma app_inside {A} (l1 l2 : list A) x m1 m2 :
  l1 ++ l2 = m1 ++ x :: m2 -> (exists m2', l1 = m1 ++ x :: m2') \/ (exists k, m1 = l1 ++ k /\ l2 = k ++ x :: m2).
Proof.
  revert m1. induction l1 as [|y l1 IH]; intros m1; cbn; [intros ->; right; by exists m1|].
  destruct m1 as [|z m1]; cbn; intros [= -> Heq]; [left; eauto|].
  destruct (IH m1 Heq) as [[m' ->]|(k & -> & ->)]; [left; by exists m'|right; by exists k].
Qed.
Lemma careful_harmless project tr tr2 :
  careful project tr -> Forall (fun ev => deletes_on ev = None) tr2 -> careful project (tr ++ tr2).
Proof.
  intros Ht Hall tr1 ev tr3 c Heq Hd. destruct (app_inside _ _ _ _ _ Heq) as [[m ->]|(k & -> & ->)]; [by eapply Ht|].
  rewrite Forall_app, Forall_cons in Hall. destruct Hall as (_ & Hev & _). congruence.
Qed.
Lemma careful_found project h tr tr2 :
  careful project tr -> found_on project h tr ->
  Forall (fun ev => forall c, deletes_on ev = Some c -> c = Some h) tr2 -> careful project (tr ++ tr2).
Proof.
  intros Ht [svm Hf] Hall tr1 ev tr3 c Heq Hd.
  destruct (app_inside _ _ _ _ _ Heq) as [[m ->]|(k & -> & ->)]; [by eapply Ht|].
  rewrite Forall_app, Forall_cons in Hall. destruct Hall as (_ & Hev & _). exists h. split; [by apply Hev|].
  exists svm. set_solver.
Qed.

Lemma harmless_events (tr : list (event storageE)) : Forall (fun ev => match ev with Ev op _ => harmless op end) tr ->
  Forall (fun ev => deletes_on ev = None) tr.
Proof.
  intros Hall. eapply Forall_impl; [exact Hall|]. intros [R op r]. cbn.
  destruct op as [|? c o| | | | | | |]; try done. by destruct o.
Qed.
Lemma host_events h (tr : list (event storageE)) : Forall (fun ev => match ev with Ev op _ => only_host (Some h) op end) tr ->
  Forall (fun ev => forall c, deletes_on ev = Some c -> c = Some h) tr.
Proof.
  intros Hall. eapply Forall_impl; [exact Hall|]. intros [R op r] Hop c. cbn. destruct op as [|? c' o| | | | | | |]; try done.
  cbn in Hop. subst c'. by destruct o; intros [= <-].
Qed.

Section careful.
Context (host_attr : string -> option string) (iter_set : gset string -> list string).
Context (project : string).

Lemma wp_harmless {A} (p : np A) g tr :
  stays (@harmless) g p -> careful project tr ->
  wp step_trace p (fun _ g' tr' => g' = g /\ careful project tr' /\ tr `prefix_of` tr') g tr.
Proof.
  intros Hp Ht. eapply wp_mono; [|exact (wp_stays _ _ _ _ Hp)]. intros r g' tr' (-> & tr2 & -> & Hall).
  split_and!; [done| |by apply prefix_app_r]. apply careful_harmless; [done|by apply harmless_events].
Qed.
Lemma wp_on_found {A} (p : np A) h tr :
  stays (@only_host (Some h)) (Some h) p -> careful project tr -> found_on project h tr ->
  wp step_trace p (fun _ g' tr' => g' = Some h /\ careful project tr') (Some h) tr.
Proof.
  intros Hp Ht Hf. eapply wp_mono; [|exact (wp_stays _ _ _ _ Hp)]. intros r g' tr' (-> & tr2 & -> & Hall).
  split; [done|]. eapply careful_found; [done|exact Hf|by apply host_events].
Qed.

Lemma careful_snoc {R} tr (op : storageE R) r : careful project tr -> harmless op -> careful project (tr ++ [Ev op r]).
Proof. intros Ht Hop. apply careful_harmless; [done|]. apply harmless_events. by repeat constructor. Qed.

Lemma wp_connect b g tr :
  careful project tr ->
  wp step_trace (connect host_attr b) (fun r g' tr' => careful project tr' /\ (forall u, r = inr u -> exists h, g' = Some h)) g tr.
Proof.
  intros Ht. unfold connect. apply wp_mbind, wp_get_state. wp_simp. destruct (needs_connection host_attr g b) eqn:Hn.
  - apply wp_mbind, wp_call. intros r tr' ->. destruct r as [e|[]]; wp_simp.
    + split; [by apply careful_snoc|done].
    + apply wp_put_state. split; [by apply careful_snoc|eauto].
  - apply wp_mret. split; [done|]. intros _ _. unfold needs_connection in Hn. destruct g as [h|]; [eauto|done].
Qed.
Lemma wp_manager b g tr :
  careful project tr ->
  wp step_trace (NetAppManager host_attr b)
    (fun r g' tr' => careful project tr' /\ (forall u, r = inr u -> exists h, g' = Some h)) g tr.
Proof.
  intros Ht. unfold NetAppManager, _setup_connection. apply wp_mbind. eapply wp_mono; [|by apply wp_connect].
  intros [e|u] g' tr' [Ht' Hg]; [done|]. apply wp_try_except. eapply wp_mono; [|by apply wp_connect].
  intros [e|u'] g'' tr'' [Ht'' Hg']; [by apply wp_raise|done].
Qed.

Lemma wp_svm_exists h tr :
  careful project tr ->
  wp step_trace (svm_exists project) (fun r g' tr' => g' = Some h /\ careful project tr' /\
    exists x, r = inr x /\ (x = true -> found_on project h tr')) (Some h) tr.
Proof.
  intros Ht. unfold svm_exists, find_svm, on_host. apply wp_try_except, wp_mbind, wp_try_except, wp_mbind, wp_get_state.
  wp_simp. apply wp_call. intros r tr' ->. destruct r as [e|[svm|]]; wp_simp.
  - destruct (_ && _); [apply wp_mret; wp_simp; apply wp_mret|apply wp_raise; wp_simp; apply wp_mret];
      (split_and!; [done|by apply careful_snoc|by exists false]).
  - apply wp_mret. split_and!; [done|by apply careful_snoc|]. exists true. split; [done|]. intros _. exists svm. set_solver.
  - apply wp_mret. split_and!; [done|by apply careful_snoc|by exists false].
Qed.

Lemma wp_find_backend backends g tr :
  careful project tr ->
  wp step_trace (find_backend host_attr project backends) (fun r g' tr' => careful project tr' /\
    forall b, r = inr (Some b) -> exists h, g' = Some h /\ found_on project h tr') g tr.
Proof.
  revert g tr. induction backends as [|b rest IH]; intros g tr Ht; cbn [find_backend]; [by apply wp_mret|].
  apply wp_mbind. eapply wp_mono; [|by apply wp_manager]. intros [e|u] g' tr' [Ht' Hg]; [done|].
  destruct (Hg u eq_refl) as [h ->]. apply wp_mbind. eapply wp_mono; [|by apply wp_svm_exists].
  intros r g'' tr'' (-> & Ht'' & x & -> & Hx). wp_simp. destruct x; [|by apply IH].
  apply wp_mret. split; [done|]. intros b' [= <-]. eauto.
Qed.

Lemma cleanup_stays h : stays (@only_host (Some h)) (Some h) (cleanup_project project).
Proof.
  unfold cleanup_project, volume_exists, svm_exists, find_volume, find_svm, service_delete_volume, client_delete_volume,
    delete_svm, client_delete_svm. stays_go.
Qed.
Lemma delete_volume_stays h name force : stays (@only_host (Some h)) (Some h) (delete_volume name force).
Proof. unfold delete_volume, service_delete_volume, client_delete_volume. stays_go. Qed.
Lemma create_stays g : stays (@harmless) g (_create_svm project).
Proof.
  unfold _create_svm, select_aggregate_name, get_aggregates, except_when, create_svm, svm_exists, find_svm, wrapping,
    client_create_svm, except_when, _configure_svm_root_volume. stays_go.
Qed.

Lemma backends_stays path g : stays (@harmless) g (get_all_backends path).
Proof. unfold get_all_backends. stays_go. Qed.

(** The backends are read and searched, and what follows runs on the one found. *)
Lemma wp_search {A} path (f : list backend -> option backend -> np A) g tr :
  careful project tr ->
  (forall backends b h tr, careful project tr -> found_on project h tr ->
     wp step_trace (f backends (Some b)) (fun _ _ tr' => careful project tr') (Some h) tr) ->
  (forall backends g tr, careful project tr -> wp step_trace (f backends None) (fun _ _ tr' => careful project tr') g tr) ->
  wp step_trace (backends ← get_all_backends path; existing ← find_backend host_attr project backends; f backends existing)
    (fun _ _ tr' => careful project tr') g tr.
Proof.
  intros Ht Hsome Hnone. apply wp_mbind. eapply wp_mono; [|apply wp_harmless; [apply backends_stays|done]].
  intros [e|backends] g1 tr1 (_ & Ht1 & _); [done|]. apply wp_mbind. eapply wp_mono; [|by apply wp_find_backend].
  intros [e|[b|]] g2 tr2 [Ht2 Hb]; [done| |by apply Hnone]. destruct (Hb b eq_refl) as (h & -> & Hf). by apply Hsome.
Qed.
Lemma wp_save_output name value g tr :
  careful project tr -> wp step_trace (@call (option string) _ _ (SaveOutput name value)) (fun _ _ tr' => careful project tr') g tr.
Proof. intros Ht. apply wp_call. intros r tr' ->. by apply careful_snoc. Qed.
Lemma wp_careful_bind {A B} (p : np A) (f : A -> np B) g tr :
  wp step_trace p (fun _ _ tr' => careful project tr') g tr ->
  (forall a g tr, careful project tr -> wp step_trace (f a) (fun _ _ tr' => careful project tr') g tr) ->
  wp step_trace (mbind f p) (fun _ _ tr' => careful project tr') g tr.
Proof. intros Hp Hf. apply wp_mbind. eapply wp_mono; [|exact Hp]. intros [e|a] g' tr' Ht; [done|by apply Hf]. Qed.
Lemma wp_careful_try {A} (p : np A) h g tr :
  wp step_trace p (fun _ _ tr' => careful project tr') g tr ->
  (forall e g tr, careful project tr -> wp step_trace (h e) (fun _ _ tr' => careful project tr') g tr) ->
  wp step_trace (try_except p h) (fun _ _ tr' => careful project tr') g tr.
Proof. intros Hp Hf. apply wp_try_except. eapply wp_mono; [|exact Hp]. intros [e|a] g' tr' Ht; [by apply Hf|done]. Qed.
Lemma wp_careful_harmless {A} (p : np A) g tr :
  stays (@harmless) g p -> careful project tr -> wp step_trace p (fun _ _ tr' => careful project tr') g tr.
Proof. intros Hp Ht. eapply wp_mono; [|by apply wp_harmless]. by intros r g' tr' (_ & ? & _). Qed.
Lemma wp_careful_cleanup h tr :
  careful project tr -> found_on project h tr ->
  wp step_trace (cleanup_project project) (fun _ _ tr' => careful project tr') (Some h) tr.
Proof.
  intros Ht Hf. eapply wp_mono; [|apply (wp_on_found (cleanup_project project) h); [apply cleanup_stays|done|done]].
  by intros r g' tr' [_ ?].
Qed.

Lemma careful_deleted data g :
  project_event data = inr project ->
  wp step_trace (handle_project_deleted host_attr data) (fun _ _ tr => careful project tr) g [].
Proof.
  intros Hp. assert (careful project []) as H0 by (intros tr1 ev tr2 c Heq; by destruct tr1).
  unfold handle_project_deleted. apply wp_careful_bind; [by apply wp_careful_harmless; [apply stays_lift|]|].
  intros ok g1 tr1 H1. destruct ok; cbn [negb]; [|by apply wp_mret]. rewrite Hp. apply wp_mbind, wp_mret. wp_simp.
  apply wp_careful_try; [|intros e g2 tr2 H2; apply wp_careful_bind; [by apply wp_save_output|intros; by apply wp_mret]].
  apply wp_search; [done| |].
  - intros backends b h tr Ht Hf. apply wp_careful_bind; [|intros; by apply wp_mret].
    apply wp_careful_bind; [by apply wp_careful_cleanup|]. intros. by apply wp_save_output.
  - intros backends g2 tr Ht. apply wp_careful_bind; [by apply wp_save_output|]. intros. by apply wp_mret.
Qed.

Lemma careful_updated data g :
  project_event data = inr project ->
  wp step_trace (handle_project_updated host_attr data) (fun _ _ tr => careful project tr) g [].
Proof.
  intros Hp. assert (careful project []) as H0 by (intros tr1 ev tr2 c Heq; by destruct tr1).
  unfold handle_project_updated. apply wp_careful_bind; [by apply wp_careful_harmless; [apply stays_lift|]|].
  intros ok g1 tr1 H1. destruct ok; cbn [negb]; [|by apply wp_mret]. rewrite Hp. apply wp_mbind, wp_mret. wp_simp.
  apply wp_careful_bind.
  { apply wp_careful_harmless; [|done]. unfold is_project_svm_enabled, _keystone_project_tags. stays_go. }
  intros enabled g2 tr2 H2. apply wp_careful_bind; [by apply wp_save_output|]. intros _ g3 tr3 H3.
  apply wp_careful_bind.
  2: { intros [[svm_name svm_state] raised] g4 tr4 H4. apply wp_careful_harmless; [|done]. unfold report. stays_go. }
  unfold update_project. apply wp_careful_bind.
  2: { intros [e|[[name|] st]] g4 tr4 H4; [by apply wp_mret| |by apply wp_mret].
       apply wp_careful_harmless; [|done]. unfold captured. stays_go. }
  apply wp_careful_try; [|intros; by apply wp_mret]. apply wp_careful_bind; [|intros; by apply wp_mret].
  apply wp_search; [done| |].
  - intros backends b h tr Ht Hf. destruct enabled; cbn [negb].
    + apply wp_careful_bind; [by apply wp_save_output|]. intros. by apply wp_mret.
    + apply wp_careful_bind; [by apply wp_careful_cleanup|]. intros. by apply wp_mret.
  - intros backends g4 tr Ht. destruct enabled; cbn [negb]; [|by apply wp_mret].
    destruct backends as [|first rest]; [by apply wp_raise|].
    apply wp_careful_bind; [eapply wp_mono; [|by apply wp_manager]; by intros r g' tr' [? _]|].
    intros u g5 tr5 H5. apply wp_careful_bind; [by apply wp_careful_harmless; [apply create_stays|]|].
    intros. by apply wp_mret.
Qed.

Lemma careful_removed data g volume_type_id :
  volume_type_event data = inr (project, volume_type_id) ->
  wp step_trace (handle_volume_type_access_removed host_attr data) (fun _ _ tr => careful project tr) g [].
Proof.
  intros Hp. assert (careful project []) as H0 by (intros tr1 ev tr2 c Heq; by destruct tr1).
  unfold handle_volume_type_access_removed. apply wp_careful_bind; [by apply wp_careful_harmless; [apply stays_lift|]|].
  intros ok g1 tr1 H1. destruct ok; cbn [negb]; [|by apply wp_mret]. rewrite Hp. apply wp_mbind, wp_mret. wp_simp.
  apply wp_careful_bind; [|intros [e|d] g2 tr2 H2; by apply wp_mret].
  apply wp_careful_try; [|intros; by apply wp_mret]. apply wp_careful_bind; [|intros; by apply wp_mret].
  apply wp_search; [done| |].
  - intros backends b h tr Ht Hf. apply wp_careful_bind.
    + eapply wp_mono; [|apply (wp_on_found _ h); [apply delete_volume_stays|done|exact Hf]].
      by intros r g' tr' [_ ?].
    + intros deleted g2 tr2 H2. apply wp_careful_bind; [by apply wp_save_output|]. intros. by apply wp_mret.
  - intros backends g2 tr Ht. apply wp_careful_bind; [by apply wp_mret|]. intros d g3 tr3 H3.
    apply wp_careful_bind; [by apply wp_save_output|]. intros. by apply wp_mret.
Qed.
End careful.

(** C7. Storage is deleted only over a connection that has just shown the project's
    SVM: in every run of the handlers of a deleted project, of an updated project and of
    a withdrawn volume type, whatever connection the SDK held before, whatever the SDK
    lets the code see of it, and whatever OpenStack and the backends answer, each deletion
    of an SVM or a volume goes to a host on which the look-up of that project's SVM had
    succeeded in the same run. *)
Theorem deletes_only_where_found host_attr project data g :
  (project_event data = inr project ->
     every_run (handle_project_deleted host_attr data) g (fun _ _ tr => careful project tr) /\
     every_run (handle_project_updated host_attr data) g (fun _ _ tr => careful project tr)) /\
  (forall volume_type_id, volume_type_event data = inr (project, volume_type_id) ->
     every_run (handle_volume_type_access_removed host_attr data) g (fun _ _ tr => careful project tr)).
Proof.
  split.
  - intros Hp. split; [by apply careful_deleted|by apply careful_updated].
  - intros vt Hp. by apply (careful_removed host_attr project data g vt).
Qed.

(** ** A backend *)

(** One backend as ONTAP behaves: an SVM with volumes cannot be deleted, a volume
    is found by name among all SVMs when the name is unique there. *)
Record ontap := MkOntap { on_svms : list string; on_volumes : list (string * string); on_outputs : dict string }.
Definition vol_uuid (v : string * string) : string := v.1 +:+ "/" +:+ v.2.
Definition ontap_sdk (R : Type) (op : sdk R) (s : ontap) : res R * ontap :=
  match op in sdk R return res R * ontap with
  | SvmFind n => (inr (if bool_decide (n ∈ s.(on_svms)) then Some (MkSvmResult n n "running") else None), s)
  | SvmGet n => (if bool_decide (n ∈ s.(on_svms)) then inr n else inl (NetAppRestError 404 n), s)
  | SvmDelete u =>
      if existsb (fun v => bool_decide (v.1 = u)) s.(on_volumes) then (inl (NetAppRestError 409 u), s)
      else (inr tt, MkOntap (List.filter (fun x => bool_decide (x <> u)) s.(on_svms)) s.(on_volumes) s.(on_outputs))
  | VolumeFind n svm =>
      (inr (if bool_decide ((svm, n) ∈ s.(on_volumes)) then Some (MkVolumeResult n (vol_uuid (svm, n)) 1 "online" svm)
            else None), s)
  | VolumeGet n => match List.filter (fun v => bool_decide (v.2 = n)) s.(on_volumes) with
                   | [v] => (inr (vol_uuid v), s)
                   | _ => (inl (NetAppRestError 404 n), s)
                   end
  | VolumeDelete u _ =>
      (inr tt, MkOntap s.(on_svms) (List.filter (fun v => bool_decide (vol_uuid v <> u)) s.(on_volumes)) s.(on_outputs))
  | VolumePost spec => (inr tt, MkOntap s.(on_svms) ((spec.(vol_svm), spec.(vol_spec_name)) :: s.(on_volumes)) s.(on_outputs))
  | VolumeRefresh n svm => (inr (MkVolumeResult n (vol_uuid (svm, n)) 1 "online" svm), s)
  | AggregateCollection => (inr [SdkAggregate (Some "aggr1") (Some "online") (Some 10)], s)
  | _ => (inl (NetAppRestError 500 ""), s)
  end.
Definition ontap_env (R : Type) (op : storageE R) (s : ontap) : res R * ontap :=
  match op in storageE R return res R * ontap with
  | Connect _ => (inr tt, s)
  | Sdk _ op => ontap_sdk _ op s
  | ReadIni _ => (inr (Ini [("nvme", [("netapp_server_hostname", "na1"); ("netapp_login", "u"); ("netapp_password", "p")])]), s)
  | ProjectTags _ => (inr (Some [SVM_PROJECT_TAG]), s)
  | ServerGet _ => (inr None, s)
  | VolumeTypeSpecs _ => (inr None, s)
  | VolumeConnectorCreate _ _ => (inr tt, s)
  | GraphqlVms _ => (inr None, s)
  | SaveOutput n v => (inr tt, MkOntap s.(on_svms) s.(on_volumes) (dict_set n v s.(on_outputs)))
  end.

Definition event_json (event_type : string) (payload : list (string * json)) : json :=
  JObj [("event_type", JStr event_type); ("payload", JObj payload)].
Definition access_event (t project volume_type : string) : json :=
  event_json t [("project_id", JStr project); ("volume_type_id", JStr volume_type)].
Definition project_event_json (t project : string) : json :=
  event_json t [("target", JObj [("id", JStr project)])].

(** The clean-up of a deleted project does not know the volumes of its volume
    types: the SVM and the volume stay, and the outcome is reported as removed. *)
Example deleted_project_keeps_volumes :
  run ontap_env
    (_ ← handle_volume_type_access_added Some (access_event "volume_type_project.access.add" "p1" "t-1");
     handle_project_deleted Some (project_event_json "identity.project.deleted" "p1"))
    None (MkOntap ["os-p1"] [] []) =
  (inr 0, Some "na1",
   MkOntap ["os-p1"] [("os-p1", "vol_t1")]
     [("volume_created", "True"); ("volume_name", "vol_t1"); ("svm_state", "removed")]).
Proof. by vm_compute. Qed.

(** Withdrawing a volume type from a project without a volume of that type
    removes the volume that another project has of it. *)
Example withdrawn_access_deletes_other_project :
  run ontap_env
    (handle_volume_type_access_removed Some (access_event "volume_type_project.access.remove" "p1" "t-1"))
    None (MkOntap ["os-p1"; "os-p2"] [("os-p2", "vol_t1")] []) =
  (inr 0, Some "na1", MkOntap ["os-p1"; "os-p2"] [] [("volume_deleted", "True")]).
Proof. by vm_compute. Qed.

Lemma deletes_only_where_found_witness :
  every_run (handle_project_deleted Some (project_event_json "identity.project.deleted" "p1")) (Some "other")
    (fun _ _ tr => careful "p1" tr).
Proof.
  assert (project_event (project_event_json "identity.project.deleted" "p1") = inr "p1") as Hp
    by (vm_compute; reflexivity).
  exact (proj1 (proj1 (deletes_only_where_found Some "p1" (project_event_json "identity.project.deleted" "p1")
    (Some "other")) Hp)).
Defined.

(** ** Aggregates *)

Lemma key_le_spec x y : key_le x y = true <-> x.1 < y.1 \/ (x.1 = y.1 /\ str_le x.2 y.2).
Proof. unfold key_le. by rewrite orb_true_iff, andb_true_iff, Z.ltb_lt, Z.eqb_eq, bool_decide_eq_true. Qed.
Lemma key_le_trans x y z : key_le x y = true -> key_le y z = true -> key_le x z = true.
Proof.
  rewrite !key_le_spec. intros [H1|[H1 H1']] [H2|[H2 H2']]; [left; lia|left; lia|left; lia|right].
  split; [lia|]. by etrans.
Qed.
Lemma key_le_total x y : key_le x y = false -> key_le y x = true.
Proof.
  intros Hxy. apply not_true_iff_false in Hxy. rewrite key_le_spec in *. destruct (Z.lt_trichotomy x.1 y.1) as [H|[H|H]];
    [tauto| |by left]. right. split; [done|]. destruct (total str_le x.2 y.2); tauto.
Qed.
Lemma min_key_spec l x : min_key l = Some x -> x ∈ l /\ forall y, y ∈ l -> key_le x y = true.
Proof.
  assert (forall y, key_le y y = true) as Hrefl.
  { intros y. destruct (key_le y y) eqn:Hy; [done|]. pose proof (key_le_total y y Hy). congruence. }
  unfold min_key. revert x. induction l as [|z l IH] using rev_ind; [done|]. intros x. rewrite foldl_snoc.
  destruct (foldl _ _ l) as [m|] eqn:Hm.
  - destruct (IH m eq_refl) as [Hin Hle]. destruct (key_le m z) eqn:Hmz; intros [= <-]; (split; [set_solver|]);
      intros y [Hy|Hy%list_elem_of_singleton]%elem_of_app; subst; auto.
    apply key_le_total in Hmz. eapply key_le_trans; eauto.
  - intros [= <-]. assert (l = []) as ->.
    { destruct l as [|y l _] using rev_ind; [done|]. rewrite foldl_snoc in Hm. destruct (foldl _ _ l); [|done].
      by destruct (key_le _ _). }
    split; [set_solver|]. intros y Hy%list_elem_of_singleton. by subst.
Qed.
Lemma min_key_none l : min_key l = None -> l = [].
Proof.
  destruct l as [|y l _] using rev_ind; [done|]. unfold min_key. rewrite foldl_snoc. destruct (foldl _ _ l); [|done].
  by destruct (key_le _ _).
Qed.

(** What [select_aggregate_name] is to answer on the aggregates the cluster
    reports. *)
Definition least_used (reported : list sdk_aggregate) (name : string) : Prop :=
  exists used, SdkAggregate (Some name) (Some "online") (Some used) ∈ reported /\ truthy name = true /\
    forall n u, SdkAggregate (Some n) (Some "online") (Some u) ∈ reported -> truthy n = true ->
      used < u \/ (used = u /\ str_le name n).

(** The online aggregates that tell their use, as the cluster reports them. *)
Lemma eligible_elem (l : list sdk_aggregate) u n :
  (u, n) ∈ omap eligible (omap (fun a => match a.(sa_name) with
     | Some name => if truthy name then Some (MkAggregate name a.(sa_state) a.(sa_used)) else None
     | None => None end) l) <->
  SdkAggregate (Some n) (Some "online") (Some u) ∈ l /\ truthy n = true.
Proof.
  rewrite list_elem_of_omap. split.
  - intros (a & ([[name|] st us] & Hin & Ha)%list_elem_of_omap & He); [|done]. cbn in Ha.
    destruct (truthy name) eqn:Ht; [|done]. injection Ha as <-. unfold eligible in He. cbn in He.
    destruct st as [st|]; [|done]. destruct (decide (st = "online")) as [->|Hst].
    + destruct us; [|done]. by injection He as <- <-.
    + exfalso. revert He Hst. repeat (destruct st as [|[[] [] [] [] [] [] [] []] st]; try done).
  - intros [Hin Ht]. exists (MkAggregate n (Some "online") (Some u)). split; [|done].
    apply list_elem_of_omap. eexists. split; [exact Hin|]. cbn. by rewrite Ht.
Qed.

(** The aggregate for a new SVM is the least used one: whatever aggregates
    the cluster reports, the selection answers the named online aggregate of
    least use, the first by name among equals, and raises a manager error exactly
    when no named aggregate is online and tells its use or the report fails with
    an SDK error. *)
Theorem select_aggregate_least_used g :
  every_run select_aggregate_name g (fun r g' tr => g' = g /\ exists answer,
    tr = [Ev (Sdk g AggregateCollection) answer] /\
    match answer with
    | inr reported =>
        match r with
        | inr name => least_used reported name
        | inl e => is_NetAppManagerError e = true /\
                   forall n u, SdkAggregate (Some n) (Some "online") (Some u) ∈ reported -> truthy n = false
        end
    | inl e => r = inl (if is_NetAppRestError e then NetAppManagerError ["aggregates"] else e)
    end).
Proof.
  unfold every_run, select_aggregate_name, get_aggregates, except_when, on_host.
  apply wp_mbind, wp_try_except, wp_mbind, wp_mbind, wp_get_state. wp_simp. apply wp_call. intros answer tr ->.
  destruct answer as [e|reported]; wp_simp.
  { destruct (is_NetAppRestError e) eqn:He; apply wp_raise; wp_simp; (split; [done|]); eexists; (split; [reflexivity|]);
      cbn; by rewrite He. }
  apply wp_mret. wp_simp. set (l := omap _ reported).
  assert (forall u n, (u, n) ∈ omap eligible l <-> SdkAggregate (Some n) (Some "online") (Some u) ∈ reported /\ truthy n = true)
    as Hl by (intros; apply eligible_elem).
  assert (omap eligible l = [] -> forall n u, SdkAggregate (Some n) (Some "online") (Some u) ∈ reported -> truthy n = false) as Hno.
  { intros Hnil n u Hin. destruct (truthy n) eqn:Ht; [|done]. assert ((u, n) ∈ omap eligible l) as Hx by by apply Hl.
    rewrite Hnil in Hx. by apply elem_of_nil in Hx. }
  destruct (truthy l) eqn:Htl; cbn [negb].
  - destruct (min_key (omap eligible l)) as [[used name]|] eqn:Hmin.
    + apply wp_mret. split; [done|]. eexists. split; [reflexivity|]. apply min_key_spec in Hmin as [Hin Hle].
      apply Hl in Hin as [Hin Ht]. exists used. split_and!; [done|done|]. intros n u Hn Htn.
      apply (key_le_spec (used, name) (u, n)), Hle, Hl. done.
    + apply wp_raise. split; [done|]. eexists. split; [reflexivity|]. split; [done|]. by apply Hno, min_key_none.
  - apply wp_raise. split; [done|]. eexists. split; [reflexivity|]. split; [done|]. apply Hno.
    by destruct l.
Qed.
