(* ===== verification/Tenancy.v ===== *)
(** * Tenants and networks in Nautobot

    Models, under [src/python/understack-workflows/understack_workflows/]:
    [oslo_event/neutron_network.py], [oslo_event/neutron_subnet.py],
    [main/sync_keystone.py], [resync.py] and the three [main/resync_*.py].  The
    environment variable [UCVNI_GROUP_NAME] is [env_group]. *)
From S2P Require Import Prelude PyStr PyData Nautobot InterfaceSync DeviceSync.
Local Open Scope Z_scope.

Definition NautobotRequestError (e : exn) : exn := Exn "NautobotRequestError" e.(exn_args).
(** [except RequestError as e: raise NautobotRequestError(e)] *)
Definition as_request_error {A} (p : nbp A) : nbp A :=
  try_except p (fun e => Raise (if is_RequestError e then NautobotRequestError e else e)).

(** [UUID(v)] of a JSON value *)
Definition juuid (v : json) : res Z :=
  match v with
  | JStr s => match uuid_int s with Some z => Ok z | None => Err (ValueError [s]) end
  | _ => Err (AttributeError "replace")
  end.
(** [int(v)] of a JSON value *)
Definition jint (v : json) : res Z :=
  match v with
  | JNum z => Ok z
  | JBool b => Ok (if b then 1 else 0)
  | JStr s => match py_int s with Some z => Ok z | None => Err (ValueError [s]) end
  | _ => Err (TypeError ["int"])
  end.
Definition jtext_item (k : string) (v : json) : res string :=
  x ← jitem k v; match x with JStr s => Ok s | _ => Err (TypeError [k]) end.

Section tenancy.
Context (env_group : option string).

(** ** Networks *)

(* oslo_event/neutron_network.py:17-36 NetworkEvent *)
Record NetworkEvent := MkNetworkEvent {
  ne_event_type : string; ne_network_uuid : Z; ne_network_name : string; ne_tenant_id : Z; ne_external : bool;
  ne_segmentation_id : Z;
}.
Definition network_event (data : json) : res NetworkEvent :=
  payload ← jitem "payload" data; network ← jitem "network" payload;
  event_type ← jtext_item "event_type" data;
  id ← jitem "id" network; id ← juuid id;
  name ← jtext_item "name" network;
  project ← jitem "project_id" network; project ← juuid project;
  external ← jitem "router:external" network;
  seg ← jitem "provider:segmentation_id" network; seg ← jint seg;
  Ok (MkNetworkEvent event_type id name project (truthy external) seg).

(** The name of the VNI group: the argument, else the environment. *)
Definition group_name (ucvni_group_name : option string) : res string :=
  match ucvni_group_name with
  | Some g => Ok g
  | None => match env_group with Some g => Ok g | None => Err (RuntimeError ["UCVNI_GROUP_NAME"]) end
  end.

(* oslo_event/neutron_network.py:66-103 _create_nautobot_ucvni *)
Definition _create_nautobot_ucvni (event : NetworkEvent) (ucvni_group_name : option string) : nbp unit :=
  let id := uuid_str event.(ne_network_uuid) in
  group ← lift (group_name ucvni_group_name);
  try_except
    (call (UcvniCreate (UcvniPayload (Some id) event.(ne_network_name) (uuid_str event.(ne_tenant_id)) group
                          event.(ne_segmentation_id))))
    (fun error =>
       if negb (is_RequestError error) then Raise error
       else if bool_decide (exn_status error = Some 400) && body_mentions "this Id already exists" error then mret tt
       else if bool_decide (exn_status error = Some 400) &&
               body_mentions "UCVNI with this Ucvni group and UCVNI_ID already exists" error
       then Raise (RuntimeError [pretty event.(ne_segmentation_id); group; id; event.(ne_network_name)])
       else Raise (NautobotRequestError error)).

(* oslo_event/neutron_network.py:106-113 _delete_nautotbot_ucvni *)
Definition _delete_nautotbot_ucvni (id : string) : nbp unit := call (UcvniDelete id).

(* oslo_event/neutron_network.py:116-127 _ensure_nautobot_ipam_namespace_exists *)
Definition _ensure_nautobot_ipam_namespace_exists (name : string) : nbp unit :=
  try_except (call (NamespaceCreate name))
    (fun error =>
       if negb (is_RequestError error) then Raise error
       else if bool_decide (exn_status error = Some 400) && body_mentions "namespace with this name already exists" error
       then mret tt else Raise (NautobotRequestError error)).

(* oslo_event/neutron_network.py:145-150 _delete_nautobot_prefixes_in_namespace *)
Definition _delete_nautobot_prefixes_in_namespace (namespace_id : string) : nbp unit :=
  dependent_prefixes ← call (PrefixFilter namespace_id);
  for_each dependent_prefixes (fun prefix => call (PrefixDelete prefix)).

(* oslo_event/neutron_network.py:130-142 _delete_nautobot_ipam_namespace *)
Definition _delete_nautobot_ipam_namespace (name : string) : nbp unit :=
  as_request_error
    (namespace ← call (NamespaceGet name);
     if truthy namespace then
       match namespace with
       | FOne id => _ ← _delete_nautobot_prefixes_in_namespace id; call (NamespaceDelete id)
       | _ => Raise (AttributeError "id")
       end
     else mret tt).

(* oslo_event/neutron_network.py:199-230 _update_nautobot_ucvni *)
Definition _update_nautobot_ucvni (event : NetworkEvent) (ucvni_group_name : option string) : nbp bool :=
  let ucvni_id := uuid_str event.(ne_network_uuid) in
  group ← lift (group_name ucvni_group_name);
  try_except
    (_ ← call (UcvniUpdate ucvni_id (UcvniPayload None event.(ne_network_name) (uuid_str event.(ne_tenant_id)) group
                                      event.(ne_segmentation_id)));
     mret true)
    (fun e => if negb (is_RequestError e) then Raise e
              else if bool_decide (exn_status e = Some 404) then mret false
              else Raise (NautobotRequestError e)).

(* oslo_event/neutron_network.py:153-196 sync_network_to_nautobot *)
Definition sync_network_to_nautobot (network_id network_name tenant_id : string) (segmentation_id : option Z)
    (ucvni_group_name : option string) : nbp Z :=
  try_except
    (_ ← _ensure_nautobot_ipam_namespace_exists network_id;
     _ ← match segmentation_id with
         | Some seg =>
             if truthy seg then
               network_uuid ← lift (juuid (JStr network_id));
               tenant_uuid ← lift (juuid (JStr tenant_id));
               let event := MkNetworkEvent "network.sync" network_uuid network_name tenant_uuid false seg in
               updated ← _update_nautobot_ucvni event ucvni_group_name;
               if (updated : bool) then mret tt else _create_nautobot_ucvni event ucvni_group_name
             else mret tt
         | None => mret tt
         end;
     mret 0)
    (fun _ => mret 1).

(* oslo_event/neutron_network.py:39-53 handle_network_create_or_update *)
Definition handle_network_create_or_update (event_data : json) (ucvni_group_name : option string) : nbp Z :=
  event ← lift (network_event event_data);
  sync_network_to_nautobot (uuid_str event.(ne_network_uuid)) event.(ne_network_name) (uuid_str event.(ne_tenant_id))
    (Some event.(ne_segmentation_id)) ucvni_group_name.

(* oslo_event/neutron_network.py:56-63 handle_network_delete *)
Definition handle_network_delete (event_data : json) : nbp Z :=
  event ← lift (network_event event_data);
  _ ← _delete_nautobot_ipam_namespace (uuid_str event.(ne_network_uuid));
  _ ← _delete_nautotbot_ucvni (uuid_str event.(ne_network_uuid));
  mret 0.

(** ** Subnets *)

(* oslo_event/neutron_subnet.py:15-42 SubnetEvent *)
Record SubnetEvent := MkSubnetEvent {
  se_event_type : string; se_subnet_uuid : Z; se_subnet_name : string; se_tenant_uuid : Z; se_network_uuid : Z;
  se_cidr : string; se_gateway_ip : json; se_external : bool; se_ip_version : json; se_subnetpool : json;
}.
Definition subnet_event (data : json) : res SubnetEvent :=
  payload ← jitem "payload" data; subnet ← jitem "subnet" payload;
  event_type ← jtext_item "event_type" data;
  id ← jitem "id" subnet; id ← juuid id;
  name ← jtext_item "name" subnet;
  project ← jitem "project_id" subnet; project ← juuid project;
  network ← jitem "network_id" subnet; network ← juuid network;
  cidr ← jtext_item "cidr" subnet;
  gateway ← jitem "gateway_ip" subnet;
  external ← jitem "router:external" subnet;
  ip_version ← jitem "ip_version" subnet;
  pool ← jitem "subnetpool_id" subnet;
  _ ← (if truthy pool then juuid pool else Ok 0);
  Ok (MkSubnetEvent event_type id name project network cidr gateway (truthy external) ip_version pool).

(* oslo_event/neutron_subnet.py:77-87 _update_nautobot_prefix *)
Definition _update_nautobot_prefix (id : string) (payload : prefix_payload) : nbp bool :=
  try_except (_ ← call (PrefixUpdate id payload); mret true)
    (fun e => if negb (is_RequestError e) then Raise e
              else if bool_decide (exn_status e = Some 404) then mret false
              else Raise (NautobotRequestError e)).
(* oslo_event/neutron_subnet.py:90-95 _create_nautobot_prefix *)
Definition _create_nautobot_prefix (payload : prefix_payload) : nbp unit := as_request_error (call (PrefixCreate payload)).

(* oslo_event/neutron_subnet.py:98-138 sync_subnet_to_nautobot *)
Definition sync_subnet_to_nautobot (subnet_id network_id tenant_id cidr : string) (is_external : bool) : nbp Z :=
  try_except
    (let namespace := if is_external then "Global" else network_id in
     let payload := PrefixPayload subnet_id cidr namespace tenant_id in
     updated ← _update_nautobot_prefix subnet_id payload;
     _ ← (if (updated : bool) then mret tt else _create_nautobot_prefix payload);
     mret 0)
    (fun _ => mret 1).

(* oslo_event/neutron_subnet.py:45-59 handle_subnet_create_or_update *)
Definition handle_subnet_create_or_update (event_data : json) : nbp Z :=
  s ← lift (subnet_event event_data);
  sync_subnet_to_nautobot (uuid_str s.(se_subnet_uuid)) (uuid_str s.(se_network_uuid)) (uuid_str s.(se_tenant_uuid))
    s.(se_cidr) s.(se_external).

(* oslo_event/neutron_subnet.py:62-74 handle_subnet_delete *)
Definition handle_subnet_delete (event_data : json) : nbp Z :=
  s ← lift (subnet_event event_data);
  as_request_error (_ ← call (PrefixDelete (uuid_str s.(se_subnet_uuid))); mret 0).

End tenancy.

(** ** Projects *)

(** What the tenancy tools read from OpenStack. *)
Record os_project := OsProject {
  pr_id : string; pr_name : string; pr_description : option string; pr_domain_id : option string;
  pr_is_domain : option bool;
}.
Record os_network := OsNetwork {
  on_id : string; on_name : string; on_project_id : option string; on_external : option bool; on_segment : option Z;
}.
Record os_subnet := OsSubnet { os_id : string; os_network_id : string; os_project_id : option string; os_cidr : string }.

Inductive tenE : Type -> Type :=
| InNautobot {R} (op : NbAPI R) : tenE R
| IdProject (id : string) : tenE os_project
| IdDomainName (id : string) : tenE string
| IdProjects : tenE (list os_project)
| NetNetworks : tenE (list os_network)
| NetSubnets : tenE (list os_subnet).
Abbreviation tenp A := (prog unit tenE A).
Definition in_nb {A} (p : nbp A) : tenp A := embed (@InNautobot) p.
(** [str(x)] of an optional text *)
Definition str_opt (x : option string) : string := default "None" x.

Definition _EXIT_API_ERROR : Z := 1.
(* main/sync_keystone.py:26-29 Event *)
Inductive keystone_event := ProjectCreate | ProjectUpdate | ProjectDelete.

(* main/sync_keystone.py:52-54 _get_project *)
Definition _get_project (project_id : Z) : tenp os_project := call (IdProject (uuid_hex project_id)).
(* main/sync_keystone.py:57-68 is_domain *)
Definition is_domain (p : os_project) : bool := truthy p.(pr_is_domain).

(* main/sync_keystone.py:71-89 _tenant_attrs *)
Definition _tenant_attrs (p : os_project) : tenp (string * string) :=
  domain_name ← match p.(pr_domain_id) with
                | Some d => if decide (d = "default") then mret "default"
                            else if truthy d then call (IdDomainName d) else mret "unknown"
                | None => mret "unknown"
                end;
  mret (domain_name +:+ ":" +:+ p.(pr_name), str_opt p.(pr_description)).

(** The devices are sent after each assignment, so the [i]-th request leaves
    the tenants of the later devices as they were read. *)
Fixpoint unmap_each (before : list (string * option string)) (devices : list nb_device) : nbp unit :=
  match devices with
  | [] => mret tt
  | d :: rest =>
      let before := before ++ [(d.(dev_id), None)] in
      _ ← call (DevUpdateTenants (before ++ map (fun d => (d.(dev_id), d.(dev_tenant))) rest));
      unmap_each before rest
  end.
(* main/sync_keystone.py:92-99 _unmap_tenant_from_devices *)
Definition _unmap_tenant_from_devices (tenant_id : Z) : nbp unit :=
  devices ← call (DevFilterTenant (uuid_str tenant_id));
  unmap_each [] devices.

(* main/sync_keystone.py:102-121 handle_project_create *)
Definition handle_project_create (project_id : Z) : tenp Z :=
  project ← _get_project project_id;
  '(tenant_name, tenant_description) ← _tenant_attrs project;
  try_except (_ ← in_nb (call (TenantCreate (uuid_str project_id) tenant_name tenant_description)); mret 0)
    (fun _ => mret _EXIT_API_ERROR).

(* main/sync_keystone.py:124-162 handle_project_update *)
Definition handle_project_update (project_id : Z) : tenp Z :=
  project ← _get_project project_id;
  if is_domain project then mret 0 else
  '(tenant_name, tenant_description) ← _tenant_attrs project;
  existing_tenant ← in_nb (call (TenantGet (uuid_str project_id)));
  try_except
    (_ ← match existing_tenant with
         | FNone => in_nb (call (TenantCreate (uuid_str project_id) tenant_name tenant_description))
         | FOne id => in_nb (call (TenantUpdate id tenant_name tenant_description))
         | FMany _ => Raise (AttributeError "update")
         end; mret 0)
    (fun _ => mret _EXIT_API_ERROR).

(* main/sync_keystone.py:165-181 handle_project_delete *)
Definition handle_project_delete (project_id : Z) : tenp Z :=
  tenant ← in_nb (call (TenantGet (uuid_str project_id)));
  if negb (truthy tenant) then mret 0 else
  _ ← in_nb (_unmap_tenant_from_devices project_id);
  match tenant with
  | FOne id => _ ← in_nb (call (TenantDelete id)); mret 0
  | _ => Raise (AttributeError "delete")
  end.

(* main/sync_keystone.py:184-196 do_action *)
Definition keystone_action (event : keystone_event) (project_id : Z) : tenp Z :=
  match event with
  | ProjectCreate => handle_project_create project_id
  | ProjectUpdate => handle_project_update project_id
  | ProjectDelete => handle_project_delete project_id
  end.

(** ** Resynchronisation *)

(* understack_workflows/resync.py:17-27 SyncResult *)
Record SyncResult := MkSyncResult { sr_total : Z; sr_failed : Z; sr_skipped : Z }.
Definition succeeded (r : SyncResult) : Z := r.(sr_total) - r.(sr_failed) - r.(sr_skipped).
Definition one_more (r : SyncResult) : SyncResult := MkSyncResult (r.(sr_total) + 1) r.(sr_failed) r.(sr_skipped).
Definition one_skipped (r : SyncResult) : SyncResult := MkSyncResult r.(sr_total) r.(sr_failed) (r.(sr_skipped) + 1).
(** [if code != 0: result.failed += 1] *)
Definition count_code (code : Z) (r : SyncResult) : SyncResult :=
  if decide (code = 0) then r else MkSyncResult r.(sr_total) (r.(sr_failed) + 1) r.(sr_skipped).
Definition no_result : SyncResult := MkSyncResult 0 0 0.
(* understack_workflows/resync.py:36-50 log_sync_result *)
Definition log_sync_result (r : SyncResult) : Z := if truthy r.(sr_failed) then 1 else 0.

(* main/resync_ironic_to_nautobot.py:30-43 sync_nodes *)
Definition sync_nodes (pick : gset (string * string) -> string * string) : syncp SyncResult :=
  _ ← call NewIronicClient;
  nodes ← call IrNodeList;
  fold_each (fun result node =>
    code ← sync_device_to_nautobot pick node true; mret (count_code code (one_more result))) nodes no_result.
(* main/resync_ironic_to_nautobot.py:46-53 main *)
Definition resync_ironic_main (pick : gset (string * string) -> string * string) : syncp Z :=
  result ← sync_nodes pick; mret (log_sync_result result).

(* main/resync_keystone_to_nautobot.py:35-53 sync_projects *)
Definition sync_projects : tenp SyncResult :=
  projects ← call IdProjects;
  fold_each (fun result p =>
    let result := one_more result in
    if is_domain p then mret (one_skipped result)
    else id ← lift (juuid (JStr p.(pr_id))); code ← handle_project_update id; mret (count_code code result))
    projects no_result.
(* main/resync_keystone_to_nautobot.py:56-64 main *)
Definition resync_keystone_main : tenp Z := result ← sync_projects; mret (log_sync_result result).

Section resync.
Context (env_group : option string).

(* main/resync_neutron_to_nautobot.py:34-85 sync_neutron_to_nautobot *)
Definition sync_neutron_to_nautobot : tenp (SyncResult * SyncResult) :=
  networks ← call NetNetworks;
  '(external_map, network_result) ←
    fold_each (fun '(external_map, result) network =>
      let external_map := dict_set network.(on_id) (default false network.(on_external)) external_map in
      code ← in_nb (sync_network_to_nautobot env_group network.(on_id) network.(on_name) (str_opt network.(on_project_id))
                      network.(on_segment) None);
      mret (external_map, count_code code (one_more result))) networks ([], no_result);
  subnets ← call NetSubnets;
  subnet_result ←
    fold_each (fun result subnet =>
      let is_external := default false (dict_get subnet.(os_network_id) external_map) in
      code ← in_nb (sync_subnet_to_nautobot subnet.(os_id) subnet.(os_network_id) (str_opt subnet.(os_project_id))
                      subnet.(os_cidr) is_external);
      mret (count_code code (one_more result))) subnets no_result;
  mret (network_result, subnet_result).

(* main/resync_neutron_to_nautobot.py:88-97 main *)
Definition resync_neutron_main : tenp Z :=
  '(network_result, subnet_result) ← sync_neutron_to_nautobot;
  mret (Z.lor (log_sync_result network_result) (log_sync_result subnet_result)).
End resync.

(** ** A Nautobot that keeps tenants and networks *)

Record tn_store := TnStore {
  ts_namespaces : gset string;
  ts_ucvnis : gmap string ucvni_payload;
  ts_prefixes : gmap string prefix_payload;
  ts_tenants : gmap string (string * string);
  ts_devices : gmap string (option string);
}.
Definition unnamed (d : ucvni_payload) : ucvni_payload :=
  UcvniPayload None d.(uv_name) d.(uv_tenant) d.(uv_group) d.(uv_ucvni_id).
Definition add_namespace (n : string) (s : tn_store) : tn_store :=
  TnStore ({[n]} ∪ s.(ts_namespaces)) s.(ts_ucvnis) s.(ts_prefixes) s.(ts_tenants) s.(ts_devices).
Definition put_ucvni (id : string) (d : ucvni_payload) (s : tn_store) : tn_store :=
  TnStore s.(ts_namespaces) (<[id := unnamed d]> s.(ts_ucvnis)) s.(ts_prefixes) s.(ts_tenants) s.(ts_devices).
Definition put_prefix (id : string) (d : prefix_payload) (s : tn_store) : tn_store :=
  TnStore s.(ts_namespaces) s.(ts_ucvnis) (<[id := d]> s.(ts_prefixes)) s.(ts_tenants) s.(ts_devices).
Definition put_tenants (m : gmap string (string * string)) (s : tn_store) : tn_store :=
  TnStore s.(ts_namespaces) s.(ts_ucvnis) s.(ts_prefixes) m s.(ts_devices).
Definition put_devices (m : gmap string (option string)) (s : tn_store) : tn_store :=
  TnStore s.(ts_namespaces) s.(ts_ucvnis) s.(ts_prefixes) s.(ts_tenants) m.
Definition set_tenants (l : list (string * option string)) (m : gmap string (option string)) : gmap string (option string) :=
  foldl (fun m '(id, t) => <[id := t]> m) m l.

(** A request that succeeds has its effect; one that fails has it or not (the
    answer may be lost on the way), and says [says] only where that is true. *)
Definition writes (ok : Prop) (s : tn_store) (r : res unit) (s' t : tn_store) (says : exn -> tn_store -> Prop) : Prop :=
  (ok /\ r = inr tt /\ s' = t) \/ (exists e, r = inl e /\ (s' = s \/ s' = t) /\ says e s').
Definition refused (status : Z) (text : string) (e : exn) : bool :=
  bool_decide (exn_status e = Some status) && body_mentions text e.

Definition tn_nb (R : Type) (op : NbAPI R) : tn_store -> res R -> tn_store -> Prop :=
  match op in NbAPI R return tn_store -> res R -> tn_store -> Prop with
  | NamespaceCreate n => fun s r s' =>
      writes True s r s' (add_namespace n s)
        (fun e s' => refused 400 "namespace with this name already exists" e -> n ∈ s'.(ts_namespaces))
  | UcvniUpdate id d => fun s r s' =>
      writes (is_Some (s.(ts_ucvnis) !! id)) s r s' (put_ucvni id d s)
        (fun e s' => exn_status e = Some 404 -> s'.(ts_ucvnis) !! id = None)
  | UcvniCreate d => fun s r s' =>
      let id := default "" d.(uv_id) in
      writes (s.(ts_ucvnis) !! id = None) s r s' (put_ucvni id d s)
        (fun e s' => refused 400 "this Id already exists" e -> s' = s /\ is_Some (s.(ts_ucvnis) !! id))
  | PrefixUpdate id d => fun s r s' => writes (is_Some (s.(ts_prefixes) !! id)) s r s' (put_prefix id d s) (fun _ _ => True)
  | PrefixCreate d => fun s r s' =>
      writes (s.(ts_prefixes) !! d.(pp_id) = None) s r s' (put_prefix d.(pp_id) d s) (fun _ _ => True)
  | TenantGet id => fun s r s' =>
      s' = s /\ (r = inr (if s.(ts_tenants) !! id then FOne id else FNone) \/ exists e, r = inl e)
  | TenantCreate id n d => fun s r s' =>
      writes (s.(ts_tenants) !! id = None) s r s' (put_tenants (<[id := (n, d)]> s.(ts_tenants)) s) (fun _ _ => True)
  | TenantUpdate id n d => fun s r s' =>
      writes (is_Some (s.(ts_tenants) !! id)) s r s' (put_tenants (<[id := (n, d)]> s.(ts_tenants)) s) (fun _ _ => True)
  | TenantDelete id => fun s r s' =>
      writes (map_Forall (fun _ t => t <> Some id) s.(ts_devices)) s r s' (put_tenants (delete id s.(ts_tenants)) s)
        (fun _ _ => True)
  | DevFilterTenant t => fun s r s' =>
      s' = s /\ ((exists e, r = inl e) \/ exists l, r = inr l /\ Forall (fun d => d.(dev_tenant) = Some t) l /\
                  forall id, id ∈ map dev_id l <-> s.(ts_devices) !! id = Some (Some t))
  | DevUpdateTenants l => fun s r s' => writes True s r s' (put_devices (set_tenants l s.(ts_devices)) s) (fun _ _ => True)
  | _ => fun _ _ _ => True
  end.

(** OpenStack answers from what it holds, or fails. *)
Section mirror.
Context (projects : list os_project) (domain_name : string -> string).
Context (networks : list os_network) (subnets : list os_subnet).

Definition tn_step (R : Type) (op : tenE R) : tn_store -> res R -> tn_store -> Prop :=
  match op in tenE R return tn_store -> res R -> tn_store -> Prop with
  | InNautobot op => tn_nb _ op
  | IdProject id => fun s r s' => s' = s /\
      ((exists e, r = inl e) \/ exists p, r = inr p /\ p ∈ projects /\ uuid_hex <$> uuid_int p.(pr_id) = Some id)
  | IdDomainName d => fun s r s' => s' = s /\ (r = inr (domain_name d) \/ exists e, r = inl e)
  | IdProjects => fun s r s' => s' = s /\ (r = inr projects \/ exists e, r = inl e)
  | NetNetworks => fun s r s' => s' = s /\ (r = inr networks \/ exists e, r = inl e)
  | NetSubnets => fun s r s' => s' = s /\ (r = inr subnets \/ exists e, r = inl e)
  end.

(** *** What a synchronised Nautobot holds *)

Definition tenant_name_of (p : os_project) : string :=
  (match p.(pr_domain_id) with
   | Some d => if decide (d = "default") then "default" else if truthy d then domain_name d else "unknown"
   | None => "unknown"
   end) +:+ ":" +:+ p.(pr_name).
Definition project_key (p : os_project) : option string := uuid_str <$> uuid_int p.(pr_id).
Definition project_mirrored (s : tn_store) (p : os_project) : Prop :=
  is_domain p = false -> exists key, project_key p = Some key /\
    s.(ts_tenants) !! key = Some (tenant_name_of p, str_opt p.(pr_description)).

Definition network_mirrored (env_group : option string) (s : tn_store) (n : os_network) : Prop :=
  n.(on_id) ∈ s.(ts_namespaces) /\
  forall vni, n.(on_segment) = Some vni -> vni <> 0 ->
    exists group tenant, env_group = Some group /\ uuid_int (str_opt n.(on_project_id)) = Some tenant /\
      s.(ts_ucvnis) !! n.(on_id) = Some (UcvniPayload None n.(on_name) (uuid_str tenant) group vni).
Definition on_external_network (sub : os_subnet) : bool :=
  existsb (fun n => bool_decide (n.(on_id) = sub.(os_network_id)) && truthy n.(on_external)) networks.
Definition subnet_mirrored (s : tn_store) (sub : os_subnet) : Prop :=
  s.(ts_prefixes) !! sub.(os_id) =
    Some (PrefixPayload sub.(os_id) sub.(os_cidr)
            (if on_external_network sub then "Global" else sub.(os_network_id)) (str_opt sub.(os_project_id))).

(** A result that counts the items seen, and whose items are all mirrored when
    none has failed. *)
Definition counts {A} (mirrored : tn_store -> A -> Prop) (seen : list A) (r : SyncResult) (s : tn_store) : Prop :=
  r.(sr_total) = Z.of_nat (length seen) /\ 0 <= r.(sr_failed) /\
  (r.(sr_failed) = 0 -> Forall (mirrored s) seen).

Lemma counts_snoc {A} (mirrored : tn_store -> A -> Prop) seen x code r s s' :
  counts mirrored seen r s -> (forall y, y ∈ seen -> mirrored s y -> mirrored s' y) -> (code = 0 -> mirrored s' x) ->
  counts mirrored (seen ++ [x]) (count_code code (one_more r)) s'.
Proof.
  intros (Ht & Hf & Hall) Hkeep Hx. unfold counts, count_code, one_more. rewrite length_app.
  destruct (decide (code = 0)) as [Hc|Hc]; simpl; (split; [lia|]); (split; [lia|]); [|lia].
  intros H0. apply Forall_app. split; [|by auto].
  specialize (Hall H0). rewrite Forall_forall in Hall |- *. auto.
Qed.

(** *** Networks *)

(** The requests for one network touch its own namespace and VNI. *)
Definition frame (id : string) (s s' : tn_store) : Prop :=
  s.(ts_namespaces) ⊆ s'.(ts_namespaces) /\ forall k, k <> id -> s'.(ts_ucvnis) !! k = s.(ts_ucvnis) !! k.
#[local] Instance frame_preorder id : PreOrder (frame id).
Proof.
  split; [by split|]. intros s1 s2 s3 [Hn Hk] [Hn' Hk']. split; [by etrans|]. intros k Hne.
  by rewrite Hk', Hk.
Qed.
Lemma frame_namespace id s : frame id s (add_namespace id s).
Proof. split; simpl; [set_solver|done]. Qed.
Lemma frame_ucvni id d s : frame id s (put_ucvni id d s).
Proof. split; simpl; [done|]. intros k Hne. by rewrite lookup_insert_ne. Qed.
#[local] Hint Resolve frame_namespace frame_ucvni : core.

Lemma writes_frame ok id s r s' t says : frame id s t -> writes ok s r s' t says -> frame id s s'.
Proof. intros Ht [(_ & _ & ->)|(e & _ & [->| ->] & _)]; done || reflexivity. Qed.

Lemma network_mirrored_frame env_group id s s' n :
  n.(on_id) <> id -> frame id s s' -> network_mirrored env_group s n -> network_mirrored env_group s' n.
Proof.
  intros Hne [Hns Hk] [Hn Hv]. split; [by apply Hns|]. intros vni Hs H0.
  destruct (Hv vni Hs H0) as (g & t & ? & ? & Hl). exists g, t. by rewrite Hk.
Qed.

Lemma ensure_namespace_spec id s :
  wp tn_nb (_ensure_nautobot_ipam_namespace_exists id)
    (fun r _ s' => frame id s s' /\ (r = inr tt -> id ∈ s'.(ts_namespaces))) tt s.
Proof.
  unfold _ensure_nautobot_ipam_namespace_exists. wp_pure. apply wp_call. intros r s' Hs.
  assert (frame id s s') as Hf by (by eapply writes_frame in Hs).
  destruct Hs as [(_ & -> & ->)|(e & -> & _ & Hsays)].
  { split; [done|]. simpl. set_solver. }
  destruct (is_RequestError e); simpl; [|by wp_pure].
  fold (refused 400 "namespace with this name already exists" e). case_match; wp_pure; (split; [done|]); [|done].
  intros _. by apply Hsays.
Qed.

Section network.
Context (env_group : option string) (event : NetworkEvent).
Let id := uuid_str event.(ne_network_uuid).
Definition wanted_ucvni (group : string) : ucvni_payload :=
  UcvniPayload None event.(ne_network_name) (uuid_str event.(ne_tenant_id)) group event.(ne_segmentation_id).
(** The VNI is as the network says. *)
Definition has_ucvni (s : tn_store) : Prop :=
  exists group, env_group = Some group /\ s.(ts_ucvnis) !! id = Some (wanted_ucvni group).

Lemma update_ucvni_spec s :
  wp tn_nb (_update_nautobot_ucvni env_group event None)
    (fun r _ s' => frame id s s' /\
       match r with inr true => has_ucvni s' | inr false => s'.(ts_ucvnis) !! id = None | inl _ => True end) tt s.
Proof.
  unfold _update_nautobot_ucvni, group_name. destruct env_group as [group|] eqn:Hg; [|by repeat wp_pure].
  repeat wp_pure. apply wp_call. intros r s' Hs. wp_simp.
  assert (frame id s s') as Hf by (by eapply writes_frame in Hs).
  destruct Hs as [(_ & -> & ->)|(e & -> & _ & Hsays)].
  { wp_pure. split; [done|]. exists group. simpl. by rewrite lookup_insert_eq. }
  destruct (is_RequestError e); simpl; [|by wp_pure].
  case_bool_decide; wp_pure; split; auto.
Qed.

Lemma create_ucvni_spec s :
  s.(ts_ucvnis) !! id = None ->
  wp tn_nb (_create_nautobot_ucvni env_group event None)
    (fun r _ s' => frame id s s' /\ (r = inr tt -> has_ucvni s')) tt s.
Proof.
  intros Hnone. unfold _create_nautobot_ucvni, group_name.
  destruct env_group as [group|] eqn:Hg; [|by repeat wp_pure].
  repeat wp_pure. apply wp_call. intros r s' Hs. wp_simp.
  assert (frame id s s') as Hf by (by eapply writes_frame in Hs).
  destruct Hs as [(_ & -> & ->)|(e & -> & _ & Hsays)].
  { split; [done|]. exists group. simpl. by rewrite lookup_insert_eq. }
  destruct (is_RequestError e); simpl; [|by wp_pure].
  fold (refused 400 "this Id already exists" e). destruct (refused 400 "this Id already exists" e) eqn:Hr.
  { destruct (Hsays I) as [-> [? Hl]]. simpl in Hl. fold id in Hl. congruence. }
  case_match; by wp_pure.
Qed.
End network.

Lemma sync_network_spec env_group n s :
  uuid_str <$> uuid_int n.(on_id) = Some n.(on_id) ->
  wp tn_nb (sync_network_to_nautobot env_group n.(on_id) n.(on_name) (str_opt n.(on_project_id)) n.(on_segment) None)
    (fun r _ s' => frame n.(on_id) s s' /\ exists code, r = inr code /\ (code = 0 -> network_mirrored env_group s' n)) tt s.
Proof.
  intros (z & Hz & Hid)%fmap_Some. unfold sync_network_to_nautobot. repeat wp_pure.
  eapply wp_mono; [|apply (ensure_namespace_spec n.(on_id))].
  intros [e|[]] [] s1 [Hf1 Hns]; [by wp_pure; split; [|eexists; split]|]. specialize (Hns eq_refl).
  repeat wp_pure. destruct (on_segment n) as [vni|] eqn:Hseg.
  2: { repeat wp_pure. split; [done|]. eexists. split; [done|]. intros _. split; [done|]. congruence. }
  unfold truthy, truthy_Z. destruct (Z.eqb_spec vni 0) as [->|Hvni]; simpl.
  { repeat wp_pure. split; [done|]. eexists. split; [done|]. intros _. split; [done|]. congruence. }
  simpl. rewrite Hz. repeat wp_pure.
  destruct (uuid_int (str_opt (on_project_id n))) as [t|] eqn:Ht; repeat wp_pure; [|by split; [|eexists; split]].
  set (event := MkNetworkEvent _ _ _ _ _ _).
  assert (forall s', has_ucvni env_group event s' -> n.(on_id) ∈ s'.(ts_namespaces) -> network_mirrored env_group s' n) as Hdone.
  { intros s' (g & Hg & Hl) Hn. split; [done|]. intros vni'. rewrite Hseg. intros [= <-] _. exists g, t. split; [done|]. split; [done|].
    rewrite Hid. exact Hl. }
  eapply wp_mono; [|apply update_ucvni_spec]. simpl. rewrite <- Hid.
  intros [e|[]] [] s2 [Hf2 Hr]; repeat wp_pure.
  - split; [by etrans|]. by eexists.
  - split; [by etrans|]. eexists. split; [done|]. intros _. apply Hdone; [done|]. by apply Hf2.
  - eapply wp_mono; [|apply create_ucvni_spec; simpl; by rewrite <- Hid]. simpl. rewrite <- Hid.
    intros [e|[]] [] s3 [Hf3 Hr']; repeat wp_pure; (split; [by do 2 (etrans; [done|])|]); (eexists; split; [done|]); [done|].
    intros _. apply Hdone; [by apply Hr'|]. by apply Hf3, Hf2.
Qed.

(** *** Subnets *)

Lemma writes_prefix ok id d s r s' says :
  writes ok s r s' (put_prefix id d s) says ->
  (forall k, k <> id -> s'.(ts_prefixes) !! k = s.(ts_prefixes) !! k) /\
  s'.(ts_namespaces) = s.(ts_namespaces) /\ s'.(ts_ucvnis) = s.(ts_ucvnis) /\ (r = inr tt -> s'.(ts_prefixes) !! id = Some d).
Proof.
  intros [(_ & -> & ->)|(e & -> & [->| ->] & _)]; simpl; split_and!; try done; intros.
  - by rewrite lookup_insert_ne.
  - by rewrite lookup_insert_eq.
  - by rewrite lookup_insert_ne.
Qed.

Lemma sync_subnet_spec sub ext s :
  wp tn_nb (sync_subnet_to_nautobot sub.(os_id) sub.(os_network_id) (str_opt sub.(os_project_id)) sub.(os_cidr) ext)
    (fun r _ s' =>
       (forall k, k <> sub.(os_id) -> s'.(ts_prefixes) !! k = s.(ts_prefixes) !! k) /\
       s'.(ts_namespaces) = s.(ts_namespaces) /\ s'.(ts_ucvnis) = s.(ts_ucvnis) /\
       exists code, r = inr code /\ (code = 0 -> s'.(ts_prefixes) !! sub.(os_id) =
         Some (PrefixPayload sub.(os_id) sub.(os_cidr) (if ext then "Global" else sub.(os_network_id))
                 (str_opt sub.(os_project_id))))) tt s.
Proof.
  unfold sync_subnet_to_nautobot, _update_nautobot_prefix, _create_nautobot_prefix, as_request_error. repeat wp_pure.
  apply wp_call. intros r s1 (Hk & Hn & Hu & Hd)%writes_prefix. destruct r as [e|[]]; wp_simp; repeat wp_pure.
  2: { split_and!; auto. eexists. split; [done|]. intros _. by apply Hd. }
  destruct (is_RequestError e); wp_simp; repeat wp_pure; [|by split_and!; auto; eexists].
  case_bool_decide; repeat wp_pure; [|by split_and!; auto; eexists].
  apply wp_call. intros r s2 (Hk' & Hn' & Hu' & Hd')%writes_prefix. simpl in *.
  assert (forall k, k <> os_id sub -> ts_prefixes s2 !! k = ts_prefixes s !! k) by (intros k Hne; by rewrite Hk', Hk).
  destruct r as [e2|[]]; wp_simp; repeat wp_pure; (split_and!; [done|congruence|congruence|eexists; split; [done|]]).
  - done.
  - intros _. by apply Hd'.
Qed.

(** *** The resynchronisation of Neutron *)

Definition external_in (seen : list os_network) (k : string) : bool :=
  existsb (fun n => bool_decide (n.(on_id) = k) && truthy n.(on_external)) seen.
Lemma external_in_snoc seen n m :
  n.(on_id) ∉ map on_id seen ->
  (forall k, default false (dict_get k m) = external_in seen k) ->
  forall k, default false (dict_get k (dict_set n.(on_id) (default false n.(on_external)) m)) = external_in (seen ++ [n]) k.
Proof.
  intros Hnew Hm k. rewrite dict_get_set. unfold external_in. rewrite existsb_app. simpl.
  destruct (decide (on_id n = k)) as [<-|Hne].
  - rewrite bool_decide_true by done. fold (external_in seen (on_id n)).
    replace (external_in seen (on_id n)) with false; [by destruct (on_external n) as [[]|]|].
    symmetry. apply not_true_iff_false. intros (x & Hx & Hb)%existsb_exists.
    apply andb_true_iff in Hb as [Hb%bool_decide_eq_true _]. apply Hnew. rewrite <- Hb.
    apply list_elem_of_In, in_map, Hx.
  - rewrite bool_decide_false by done. simpl. by rewrite !orb_false_r, Hm.
Qed.

Lemma NoDup_key_seen {A B} (f : A -> B) seen x later :
  NoDup (map f (seen ++ x :: later)) -> f x ∉ map f seen.
Proof.
  rewrite map_app. simpl. intros (_ & Hd & _)%NoDup_app Hin. apply (Hd _ Hin). left.
Qed.
Lemma key_seen_ne {A B} (f : A -> B) seen x y : f x ∉ map f seen -> y ∈ seen -> f y <> f x.
Proof. intros Hx Hy Heq. apply Hx. rewrite <- Heq. apply list_elem_of_In, in_map, list_elem_of_In, Hy. Qed.

Section neutron.
Context (env_group : option string).
Context (Hcanonical : Forall (fun n => uuid_str <$> uuid_int n.(on_id) = Some n.(on_id)) networks).
Context (Hnetworks : NoDup (map on_id networks)) (Hsubnets : NoDup (map os_id subnets)).

Lemma sync_networks_loop (Q : res (dict bool * SyncResult) -> unit -> tn_store -> Prop) s :
  (forall m r s', (forall k, default false (dict_get k m) = external_in networks k) ->
     counts (network_mirrored env_group) networks r s' -> Q (inr (m, r)) tt s') ->
  wp tn_step (fold_each (fun '(external_map, result) network =>
      let external_map := dict_set network.(on_id) (default false network.(on_external)) external_map in
      code ← in_nb (sync_network_to_nautobot env_group network.(on_id) network.(on_name) (str_opt network.(on_project_id))
                      network.(on_segment) None);
      mret (external_map, count_code code (one_more result))) networks ([], no_result)) Q tt s.
Proof.
  intros HQ. apply (wp_fold_each_seen _ _ _ _ (fun seen '(m, r) _ s =>
    (forall k, default false (dict_get k m) = external_in seen k) /\ counts (network_mirrored env_group) seen r s)).
  - split; [done|]. by split_and!.
  - intros seen n later [m r] [] s1 Hl [Hm Hc]. cbn beta iota zeta. wp_pure. unfold in_nb. apply wp_embed.
    assert (n.(on_id) ∉ map on_id seen) as Hnew by (apply (NoDup_key_seen _ _ _ later); by rewrite <- Hl).
    eapply wp_mono; [|apply sync_network_spec; rewrite Hl in Hcanonical; by decompose_Forall].
    intros r' _ s2 [Hf (code & -> & Hcode)]. wp_pure. split; [by apply external_in_snoc|].
    apply (counts_snoc _ _ _ _ _ s1); [done| |done].
    intros y Hy. apply (network_mirrored_frame _ n.(on_id)); [|done]. by apply (key_seen_ne on_id seen).
  - intros [m r] [] s' [Hm Hc]. by apply HQ.
Qed.

Lemma sync_subnets_loop m (Q : res SyncResult -> unit -> tn_store -> Prop) s :
  (forall k, default false (dict_get k m) = external_in networks k) ->
  (forall r s', s'.(ts_namespaces) = s.(ts_namespaces) -> s'.(ts_ucvnis) = s.(ts_ucvnis) ->
     counts subnet_mirrored subnets r s' -> Q (inr r) tt s') ->
  wp tn_step (fold_each (fun result subnet =>
      let is_external := default false (dict_get subnet.(os_network_id) m) in
      code ← in_nb (sync_subnet_to_nautobot subnet.(os_id) subnet.(os_network_id) (str_opt subnet.(os_project_id))
                      subnet.(os_cidr) is_external);
      mret (count_code code (one_more result))) subnets no_result) Q tt s.
Proof.
  intros Hm HQ. apply (wp_fold_each_seen _ _ _ _ (fun seen r _ s' =>
    s'.(ts_namespaces) = s.(ts_namespaces) /\ s'.(ts_ucvnis) = s.(ts_ucvnis) /\ counts subnet_mirrored seen r s')).
  - by split_and!.
  - intros seen sub later r [] s1 Hl (Hn & Hu & Hc). cbn beta iota zeta. wp_pure. unfold in_nb. apply wp_embed.
    assert (sub.(os_id) ∉ map os_id seen) as Hnew by (apply (NoDup_key_seen _ _ _ later); by rewrite <- Hl).
    eapply wp_mono; [|apply sync_subnet_spec].
    intros r' _ s2 (Hk & Hn' & Hu' & code & -> & Hcode). wp_pure. split_and!; [congruence|congruence|].
    apply (counts_snoc _ _ _ _ _ s1); [done| |].
    + intros y Hy. unfold subnet_mirrored. rewrite Hk; [done|]. by apply (key_seen_ne os_id seen).
    + intros H0. unfold subnet_mirrored. rewrite (Hcode H0), Hm. done.
  - intros r [] s' (Hn & Hu & Hc). by apply HQ.
Qed.
End neutron.

Lemma log_sync_result_0 {A} (mirrored : tn_store -> A -> Prop) l r s :
  counts mirrored l r s -> log_sync_result r = 0 -> Forall (mirrored s) l.
Proof.
  intros (_ & Hf & Hall). unfold log_sync_result, truthy, truthy_Z.
  destruct (Z.eqb_spec (sr_failed r) 0) as [H0|H0]; [|done]. intros _. by apply Hall.
Qed.
Lemma log_sync_result_range r : log_sync_result r = 0 \/ log_sync_result r = 1.
Proof. unfold log_sync_result. destruct (truthy _); auto. Qed.
End mirror.

(** C4. The resynchronisation of Neutron exits with 0 only when Nautobot mirrors
    Neutron: every network has its IP namespace and, where it has a segment, its
    VNI with the name, tenant, group and number Neutron gives it; every subnet
    has its prefix, in the [Global] namespace when its network is external and
    in the network's own otherwise.  This holds whatever Nautobot held before,
    and when requests fail, with or without having had their effect.  The
    networks have distinct canonical ids, the subnets distinct ids. *)
Theorem resync_neutron_mirrors projects domain_name networks subnets env_group s :
  Forall (fun n => uuid_str <$> uuid_int n.(on_id) = Some n.(on_id)) networks ->
  NoDup (map on_id networks) -> NoDup (map os_id subnets) ->
  wp (tn_step projects domain_name networks subnets) (resync_neutron_main env_group) (fun r _ s' =>
    r = inr 0 -> Forall (network_mirrored env_group s') networks /\ Forall (subnet_mirrored networks s') subnets) tt s.
Proof.
  intros Hcanon Hnet Hsub. unfold resync_neutron_main, sync_neutron_to_nautobot. repeat wp_pure.
  apply wp_call. intros r s1 [-> [->|[e ->]]]; wp_simp; [|done]. repeat wp_pure.
  apply sync_networks_loop; [done..|]. intros m nr s2 Hm Hn. repeat wp_pure.
  apply wp_call. intros r s3 [-> [->|[e ->]]]; wp_simp; [|done]. repeat wp_pure.
  apply (sync_subnets_loop _ _ networks); [done..|]. intros sr s4 Hns Hu Hs. repeat wp_pure. intros [= H0].
  destruct (log_sync_result_range nr) as [Hnr|Hnr], (log_sync_result_range sr) as [Hsr|Hsr];
    rewrite Hnr, Hsr in H0; try done.
  split; [|by eapply log_sync_result_0].
  eapply Forall_impl; [by eapply log_sync_result_0|]. intros n. unfold network_mirrored. by rewrite Hns, Hu.
Qed.

(** *** The resynchronisation of Keystone *)

Section keystone.
Context (projects : list os_project) (domain_name : string -> string).
Context (networks : list os_network) (subnets : list os_subnet).
Abbreviation step := (tn_step projects domain_name networks subnets).
Context (Hprojects : NoDup (map project_key projects)).

Lemma project_by_key p q : p ∈ projects -> q ∈ projects -> project_key p = project_key q -> p = q.
Proof.
  intros [i Hi]%list_elem_of_lookup [j Hj]%list_elem_of_lookup Hk.
  assert (i = j) as <-; [|congruence].
  apply (NoDup_lookup (map project_key projects) i j (project_key p)); [done| |].
  - etrans; [apply list_lookup_fmap|]. by rewrite Hi.
  - etrans; [apply list_lookup_fmap|]. rewrite Hj. simpl. by rewrite Hk.
Qed.
Lemma project_answer p q z :
  p ∈ projects -> q ∈ projects -> uuid_int p.(pr_id) = Some z -> uuid_hex <$> uuid_int q.(pr_id) = Some (uuid_hex z) -> q = p.
Proof.
  intros Hp Hq Hz (z' & Hz' & Hh)%fmap_Some. apply project_by_key; [done|done|].
  unfold project_key. rewrite Hz, Hz'. simpl. unfold uuid_str. by rewrite Hh.
Qed.

Lemma tenant_attrs_spec p Q s :
  (forall e, Q (inl e) tt s) -> Q (inr (tenant_name_of domain_name p, str_opt p.(pr_description))) tt s ->
  wp step (_tenant_attrs p) Q tt s.
Proof.
  intros Herr Hok. unfold _tenant_attrs, tenant_name_of in *. wp_pure.
  destruct (pr_domain_id p) as [d|]; [|by repeat wp_pure].
  destruct (decide (d = "default")); [by repeat wp_pure|]. destruct (truthy d); [|by repeat wp_pure].
  apply wp_call. intros r s' [-> [->|[e ->]]]; wp_simp; by repeat wp_pure.
Qed.

Lemma writes_tenant ok id v s r s' :
  writes ok s r s' (put_tenants (<[id := v]> s.(ts_tenants)) s) (fun _ _ => True) ->
  (forall k, k <> id -> s'.(ts_tenants) !! k = s.(ts_tenants) !! k) /\ (r = inr tt -> s'.(ts_tenants) !! id = Some v).
Proof.
  intros [(_ & -> & ->)|(e & -> & [->| ->] & _)]; simpl; split; try done; intros.
  - by rewrite lookup_insert_ne.
  - by rewrite lookup_insert_eq.
  - by rewrite lookup_insert_ne.
Qed.

Lemma handle_project_update_spec p z s :
  p ∈ projects -> uuid_int p.(pr_id) = Some z ->
  wp step (handle_project_update z) (fun r _ s' =>
    (forall k, k <> uuid_str z -> s'.(ts_tenants) !! k = s.(ts_tenants) !! k) /\
    (r = inr 0 -> project_mirrored domain_name s' p)) tt s.
Proof.
  intros Hp Hz. unfold handle_project_update, _get_project, in_nb. wp_pure.
  apply wp_call. intros r s1 [-> [[e ->]|(q & -> & Hq & Hhex)]]; wp_simp; [done|].
  rewrite (project_answer p q z) by done. clear q Hq Hhex.
  destruct (is_domain p) eqn:Hd; [wp_pure; split; [done|]; intros _; unfold project_mirrored; by rewrite Hd|].
  wp_pure. apply tenant_attrs_spec; [done|]. wp_simp. wp_pure.
  apply wp_embed, wp_call. intros r s1 [-> [->|[e ->]]]; wp_simp; [|done].
  assert (forall r s', r = @inr exn _ tt ->
    (r = inr tt -> s'.(ts_tenants) !! uuid_str z = Some (tenant_name_of domain_name p, str_opt (pr_description p))) ->
    project_mirrored domain_name s' p) as Hdone.
  { intros r s' -> Hl _. exists (uuid_str z). unfold project_key. rewrite Hz. split; [done|]. by apply Hl. }
  repeat wp_pure. destruct (ts_tenants s !! uuid_str z); wp_simp;
    (apply wp_embed, wp_call; intros r s2 [Hk Hl]%writes_tenant; destruct r as [e|[]]; wp_simp; repeat wp_pure;
     (split; [done|]); [done|intros _; by eapply Hdone]).
Qed.
End keystone.

(** The resynchronisation of Keystone exits with 0 only when every project
    that is not a domain has its tenant in Nautobot, under the project's UUID,
    named [domain:project] and with the project's description, whatever
    Nautobot held before and whichever requests failed.  No two projects have
    the same UUID. *)
Theorem resync_keystone_mirrors projects domain_name networks subnets s :
  NoDup (map project_key projects) ->
  wp (tn_step projects domain_name networks subnets) resync_keystone_main
    (fun r _ s' => r = inr 0 -> Forall (project_mirrored domain_name s') projects) tt s.
Proof.
  intros Hproj. unfold resync_keystone_main, sync_projects. repeat wp_pure.
  apply wp_call. intros r s1 [-> [->|[e ->]]]; wp_simp; [|done].
  apply (wp_fold_each_seen _ _ _ _ (fun seen r _ s => counts (project_mirrored domain_name) seen r s)); [by split_and!| |].
  2: { intros r [] s' Hc. wp_pure. intros [= H0]. by eapply log_sync_result_0. }
  intros seen p later r [] s1 Hl Hc. cbn beta iota zeta.
  destruct (is_domain p) eqn:Hd; [wp_pure|repeat wp_pure].
  { destruct Hc as (Ht & Hf & Hall). unfold counts. rewrite length_app. simpl. split; [lia|]. split; [done|].
    intros H0. apply Forall_app. split; [by apply Hall|]. constructor; [|done]. unfold project_mirrored. by rewrite Hd. }
  unfold juuid. destruct (uuid_int (pr_id p)) as [z|] eqn:Hz; [|done]. wp_simp. repeat wp_pure.
  assert (project_key p = Some (uuid_str z)) as Hkey by (unfold project_key; by rewrite Hz).
  eapply wp_mono; [|apply (handle_project_update_spec projects domain_name networks subnets Hproj p z);
    [rewrite Hl; set_solver|done]].
  intros [e|code] [] s2 [Hk Hcode]; [done|]. wp_pure.
  apply (counts_snoc _ _ _ _ _ s1); [done| |by intros ->; apply Hcode].
  intros y Hy Hm Hdy. destruct (Hm Hdy) as (key & Hy' & Hlk). exists key. split; [done|]. rewrite Hk; [done|].
  intros ->. apply (key_seen_ne project_key seen p y); [|done|congruence].
  apply (NoDup_key_seen _ _ _ later). by rewrite <- Hl.
Qed.

(** *** The deletion of a project *)

Lemma set_tenants_lookup l m id :
  (id ∉ l.*1 /\ set_tenants l m !! id = m !! id) \/ (exists t, (id, t) ∈ l /\ set_tenants l m !! id = Some t).
Proof.
  unfold set_tenants. revert m. induction l as [|[k t] l IH]; intros m; simpl; [left; split; [set_solver|done]|].
  destruct (IH (<[k := t]> m)) as [[Hn ->]|(t' & Hin & ->)]; [|right; exists t'; split; [by right|done]].
  destruct (decide (k = id)) as [<-|Hne].
  - right. exists t. split; [by left|by rewrite lookup_insert_eq].
  - left. split; [set_solver|by rewrite lookup_insert_ne].
Qed.

(** A device keeps its tenant, or loses [t]. *)
Definition unmapped (t : string) (s s' : tn_store) : Prop :=
  s'.(ts_tenants) = s.(ts_tenants) /\
  forall id, s'.(ts_devices) !! id = s.(ts_devices) !! id \/
             (s.(ts_devices) !! id = Some (Some t) /\ s'.(ts_devices) !! id = Some None).
Definition free_of (t : string) (s : tn_store) : Prop := map_Forall (fun _ x => x <> Some t) s.(ts_devices).

Lemma unmapped_update t l s0 s :
  unmapped t s0 s -> (forall id x, (id, x) ∈ l -> s0.(ts_devices) !! id = Some (Some t) /\ (x = None \/ x = Some t)) ->
  unmapped t s0 (put_devices (set_tenants l s.(ts_devices)) s).
Proof.
  intros [Ht Hd] Hl. split; [done|]. intros id. simpl.
  destruct (set_tenants_lookup l (ts_devices s) id) as [[_ ->]|(x & Hin & ->)]; [apply Hd|].
  destruct (Hl id x Hin) as [-> [->| ->]]; auto.
Qed.

Lemma unmap_each_spec t devices before s0 s :
  unmapped t s0 s ->
  Forall (fun p => s0.(ts_devices) !! p.1 = Some (Some t) /\ p.2 = None) before ->
  Forall (fun d => s0.(ts_devices) !! d.(dev_id) = Some (Some t) /\ d.(dev_tenant) = Some t) devices ->
  (forall id, s0.(ts_devices) !! id = Some (Some t) -> id ∈ before.*1 \/ id ∈ map dev_id devices) ->
  (devices = [] -> free_of t s) ->
  wp tn_nb (unmap_each before devices) (fun r _ s' => unmapped t s0 s' /\ (r = inr tt -> free_of t s')) tt s.
Proof.
  revert before s. induction devices as [|d rest IH]; intros before s Hun Hb Hd Hall Hfree; cbn beta zeta iota delta [unmap_each].
  { wp_pure. auto. }
  apply Forall_cons in Hd as [[Hdd Hdt] Hrest]. wp_pure. set (l := (before ++ [_]) ++ _).
  assert (Forall (fun p => s0.(ts_devices) !! p.1 = Some (Some t) /\ p.2 = None) (before ++ [(dev_id d, None)])) as Hb'.
  { apply Forall_app. split; [done|]. by constructor. }
  assert (unmapped t s0 (put_devices (set_tenants l s.(ts_devices)) s)) as Hun'.
  { apply unmapped_update; [done|]. intros id x [Hin|Hin]%elem_of_app.
    - rewrite Forall_forall in Hb'. destruct (Hb' _ Hin) as [? Hx]. simpl in *. auto.
    - apply list_elem_of_In, in_map_iff in Hin as (d' & [= <- <-] & Hin%list_elem_of_In).
      rewrite Forall_forall in Hrest. destruct (Hrest d' Hin) as [? ->]. auto. }
  apply wp_call. intros r s' [(_ & -> & ->)|(e & -> & [->| ->] & _)]; wp_simp; [|done|done].
  apply IH; [done|done|done| |].
  - intros id Hid. destruct (Hall id Hid) as [Hin|Hin]; [left; rewrite fmap_app; set_solver|].
    simpl in Hin. apply elem_of_cons in Hin as [->|Hin]; [left; rewrite fmap_app; set_solver|by right].
  - intros ->. intros id x Hx ->. simpl in Hx.
    destruct (set_tenants_lookup l (ts_devices s) id) as [[Hn Heq]|(y & Hin & Heq)]; rewrite Heq in Hx.
    + destruct Hun as [_ Hun]. destruct (Hun id) as [He|[_ He]]; rewrite He in Hx; [|done].
      apply Hn. subst l. rewrite fmap_app. destruct (Hall id Hx) as [Hin|Hin]; set_solver.
    + injection Hx as ->. subst l. rewrite app_nil_r in Hin. rewrite Forall_forall in Hb'.
      by destruct (Hb' _ Hin) as [_ ?].
Qed.

(** The deletion of a project: when it reports success the tenant is gone
    from Nautobot and, if it was there, no device is left with it; whatever
    fails on the way, other tenants are untouched and a device's tenant changes
    only from this project's to none. *)
Theorem project_delete_unmaps projects domain_name networks subnets z s :
  wp (tn_step projects domain_name networks subnets) (handle_project_delete z) (fun r _ s' =>
    (forall k, k <> uuid_str z -> s'.(ts_tenants) !! k = s.(ts_tenants) !! k) /\
    (forall id, s'.(ts_devices) !! id = s.(ts_devices) !! id \/
                (s.(ts_devices) !! id = Some (Some (uuid_str z)) /\ s'.(ts_devices) !! id = Some None)) /\
    (r = inr 0 -> s'.(ts_tenants) !! uuid_str z = None /\
                  (is_Some (s.(ts_tenants) !! uuid_str z) -> free_of (uuid_str z) s'))) tt s.
Proof.
  unfold handle_project_delete, _unmap_tenant_from_devices, in_nb. set (t := uuid_str z). wp_pure.
  apply wp_embed, wp_call. intros r s1 [-> [->|[e ->]]]; wp_simp; [|by split_and!; auto].
  destruct (ts_tenants s !! t) as [v|] eqn:Ht; cbn beta iota delta [truthy truthy_found negb].
  2: { wp_pure. split_and!; auto. intros _. split; [done|]. by intros []. }
  wp_pure. apply wp_embed. wp_pure. apply wp_call.
  intros r s1 [-> [[e ->]|(l & -> & Htn & Hl)]]; wp_simp; [by split_and!; auto|].
  eapply wp_mono; [|apply (unmap_each_spec t l [] s s); [by split; auto|done| |by right; apply Hl|]].
  3: { intros -> id x Hx ->. apply Hl in Hx. by apply elem_of_nil in Hx. }
  2: { rewrite Forall_forall in Htn |- *. intros d Hd. split; [|by apply Htn]. apply Hl.
       by apply list_elem_of_In, in_map, list_elem_of_In. }
  intros [e|[]] _ s1 [[Htt Hdev] Hfree]; wp_simp; [rewrite Htt; by split_and!; auto|]. specialize (Hfree eq_refl).
  wp_pure. apply wp_embed, wp_call.
  intros r s2 [(_ & -> & ->)|(e & -> & [->| ->] & _)]; wp_simp; repeat wp_pure; simpl; rewrite ?Htt; split_and!; auto.
  all: try (intros; by rewrite lookup_delete_ne).
  - intros _. split; [by rewrite lookup_delete_eq|]. done.
  - done.
Qed.

(** ** An example *)

Definition example_networks : list os_network :=
  [OsNetwork "0b3ccc5e-4a3b-4d5c-8f2d-000000000001" "storage" (Some "5e0bb7d5e5b14ad5b2a4e5d7e7bd66a1") None (Some 200010);
   OsNetwork "0b3ccc5e-4a3b-4d5c-8f2d-000000000002" "internet" (Some "5e0bb7d5e5b14ad5b2a4e5d7e7bd66a1") (Some true) None].
Definition example_subnets : list os_subnet :=
  [OsSubnet "s1" "0b3ccc5e-4a3b-4d5c-8f2d-000000000001" (Some "p") "10.0.0.0/24";
   OsSubnet "s2" "0b3ccc5e-4a3b-4d5c-8f2d-000000000002" (Some "p") "192.0.2.0/24"].
Definition example_projects : list os_project :=
  [OsProject "5e0bb7d5e5b14ad5b2a4e5d7e7bd66a1" "web" (Some "front end") (Some "default") (Some false);
   OsProject "default" "Default" None None (Some true)].

(** A Nautobot and an OpenStack without failures. *)
Definition tn_nb_env (R : Type) (op : NbAPI R) (s : tn_store) : res R * tn_store :=
  match op in NbAPI R return res R * tn_store with
  | NamespaceCreate n =>
      if decide (n ∈ s.(ts_namespaces)) then (inl (RequestError 400 "namespace with this name already exists"), s)
      else (inr tt, add_namespace n s)
  | UcvniUpdate id d =>
      if s.(ts_ucvnis) !! id then (inr tt, put_ucvni id d s) else (inl (RequestError 404 "Not found."), s)
  | UcvniCreate d => (inr tt, put_ucvni (default "" d.(uv_id)) d s)
  | PrefixUpdate id d =>
      if s.(ts_prefixes) !! id then (inr tt, put_prefix id d s) else (inl (RequestError 404 "Not found."), s)
  | PrefixCreate d => (inr tt, put_prefix d.(pp_id) d s)
  | TenantGet id => (inr (if s.(ts_tenants) !! id then FOne id else FNone), s)
  | TenantCreate id n d | TenantUpdate id n d => (inr tt, put_tenants (<[id := (n, d)]> s.(ts_tenants)) s)
  | _ => (inl (RequestError 500 "unused"), s)
  end.
Definition tn_env (R : Type) (op : tenE R) (s : tn_store) : res R * tn_store :=
  match op in tenE R return res R * tn_store with
  | InNautobot op => tn_nb_env _ op s
  | IdProject id =>
      (match List.find (fun p => bool_decide (uuid_hex <$> uuid_int p.(pr_id) = Some id)) example_projects with
       | Some p => inr p | None => inl (Exn "NotFoundException" [id]) end, s)
  | IdDomainName d => (inr d, s)
  | IdProjects => (inr example_projects, s)
  | NetNetworks => (inr example_networks, s)
  | NetSubnets => (inr example_subnets, s)
  end.
Definition empty_store : tn_store := TnStore ∅ ∅ ∅ ∅ ∅.

(** From an empty Nautobot, and again from what that left, both exit with 0. *)
Example resync_runs :
  let '(r1, _, s1) := run tn_env (resync_neutron_main (Some "prod")) tt empty_store in
  let '(r2, _, s2) := run tn_env (resync_neutron_main (Some "prod")) tt s1 in
  let '(r3, _, s3) := run tn_env resync_keystone_main tt s2 in
  r1 = inr 0 /\ r2 = inr 0 /\ r3 = inr 0 /\
  bool_decide (s3.(ts_tenants) = {["5e0bb7d5-e5b1-4ad5-b2a4-e5d7e7bd66a1" := ("default:web", "front end")]}) = true /\
  pp_namespace <$> s3.(ts_prefixes) !! "s2" = Some "Global".
Proof. vm_compute. repeat split. Qed.

Lemma resync_neutron_mirrors_witness :
  wp (tn_step [] (fun d => d) example_networks example_subnets) (resync_neutron_main (Some "prod")) (fun r _ s' =>
    r = inr 0 -> Forall (network_mirrored (Some "prod") s') example_networks /\
                 Forall (subnet_mirrored example_networks s') example_subnets) tt empty_store.
Proof.
  apply (resync_neutron_mirrors [] (fun d => d) example_networks example_subnets (Some "prod") empty_store).
  - repeat constructor; by vm_compute.
  - apply (bool_decide_unpack _). by vm_compute.
  - apply (bool_decide_unpack _). by vm_compute.
Defined.

Lemma resync_keystone_mirrors_witness :
  wp (tn_step example_projects (fun d => d) [] []) resync_keystone_main
    (fun r _ s' => r = inr 0 -> Forall (project_mirrored (fun d => d) s') example_projects) tt empty_store.
Proof.
  apply (resync_keystone_mirrors example_projects (fun d => d) [] [] empty_store).
  apply (bool_decide_unpack _). by vm_compute.
Defined.
