(* ===== verification/Dispatch.v ===== *)
(** * The event receiver

    Models [src/python/understack-workflows/understack_workflows/main/openstack_oslo_event.py]:
    the table of handlers and the dispatch of one event to them.  Reading the
    event and making the two clients are calls of the environment; the handlers
    are those of [PortEvents], [DeviceSync] and [StorageEvents]. *)
From S2P Require Import Prelude PyStr PyData Nautobot InterfaceSync InterfaceStore PortEvents DeviceSync Netapp StorageEvents.
Local Open Scope Z_scope.

(** The calls of the receiver: its own and those of the handlers. *)
Inductive recvE : Type -> Type :=
| ReadEvent : recvE json
| NewOpenstackClient : recvE unit
| NewNautobotClient : recvE unit
| ForSync {R} (op : syncE R) : recvE R
| ForStorage {R} (op : storageE R) : recvE R.
Abbreviation recvp A := (prog (option string) recvE A).

Definition sync_handler (h : json -> syncp Z) (event_data : json) : recvp Z := embed (@ForSync) (h event_data).
Definition nautobot_handler (h : json -> nbp Z) (event_data : json) : recvp Z := sync_handler (fun d => on_nb (h d)) event_data.
Definition storage_handler (h : json -> np Z) (event_data : json) : recvp Z := widen (@ForStorage) (h event_data).

Definition _EXIT_SUCCESS : Z := 0.
Definition _EXIT_PARSE_ERROR : Z := 5.
Definition _EXIT_NO_EVENT_HANDLER : Z := 6.
Definition _EXIT_CLIENT_ERROR : Z := 7.
Definition _EXIT_HANDLER_ERROR : Z := 8.

Definition EventValidationError (text : string) : exn := Exn "EventValidationError" [text].
Definition is_EventValidationError (e : exn) : bool := bool_decide (e.(exn_cls) = "EventValidationError").

Section receiver.
Context (pick : gset (string * string) -> string * string).
Context (host_attr : string -> option string).

(* main/openstack_oslo_event.py:57-80 _event_handlers *)
Definition _event_handlers : dict (list (json -> recvp Z)) :=
  [("baremetal.port.create.end", [nautobot_handler handle_port_create_update]);
   ("baremetal.port.update.end", [nautobot_handler handle_port_create_update]);
   ("baremetal.port.delete.end", [nautobot_handler handle_port_delete]);
   ("baremetal.portgroup.create.end", [nautobot_handler handle_portgroup_create_update]);
   ("baremetal.portgroup.update.end", [nautobot_handler handle_portgroup_create_update]);
   ("baremetal.portgroup.delete.end", [nautobot_handler handle_portgroup_delete]);
   ("baremetal.node.update.end", [sync_handler (handle_node_event pick)]);
   ("baremetal.node.delete.end", [nautobot_handler handle_node_delete_event]);
   ("baremetal.node.provision_set.end", [storage_handler handle_provision_end; sync_handler (handle_node_event pick)]);
   ("identity.project.created", [storage_handler (handle_project_created host_attr)]);
   ("identity.project.updated", [storage_handler (handle_project_updated host_attr)]);
   ("identity.project.deleted", [storage_handler (handle_project_deleted host_attr)]);
   ("volume_type_project.access.add", [storage_handler (handle_volume_type_access_added host_attr)]);
   ("volume_type_project.access.remove", [storage_handler (handle_volume_type_access_removed host_attr)])].

(* main/openstack_oslo_event.py:124-134 validate_event *)
Definition validate_event (event : json) : res string :=
  event_type ← jget "event_type" event;
  if negb (truthy event_type) then Err (EventValidationError "Event must contain 'event_type' field")
  else match event_type with JStr t => Ok t | _ => Err (EventValidationError "Event type must be a string") end.

(** [try: x = p() except Exception: ... else: ...] *)
Definition outcome {A} (p : recvp A) : recvp (res A) := try_except (a ← p; mret (inr a)) (fun e => mret (inl e)).

(* main/openstack_oslo_event.py:137-154 initialize_clients *)
Definition initialize_clients : recvp unit :=
  _ ← try_except (call NewOpenstackClient) (fun _ => Raise (Exn "ClientInitializationError" ["OpenStack"]));
  try_except (call NewNautobotClient) (fun _ => Raise (Exn "ClientInitializationError" ["Nautobot"])).

(* main/openstack_oslo_event.py:194-219 main *)
Fixpoint run_handlers (event_handlers : list (json -> recvp Z)) (event : json) (last_ret : Z) : recvp Z :=
  match event_handlers with
  | [] => mret last_ret
  | event_handler :: rest =>
      ret ← outcome (event_handler event);
      match ret with
      | inl _ => mret _EXIT_HANDLER_ERROR
      | inr ret => run_handlers rest event ret
      end
  end.

(** [sys.exit(n)] ends the program with the code that [return n] gives. *)
(* main/openstack_oslo_event.py:157-192 main *)
Definition main : recvp Z :=
  event ← outcome (call ReadEvent);
  match event with
  | inl _ => mret _EXIT_PARSE_ERROR
  | inr event =>
      match validate_event event with
      | inl e => if is_EventValidationError e then mret _EXIT_PARSE_ERROR else Raise e
      | inr event_type =>
          match dict_get event_type _event_handlers with
          | None => mret _EXIT_NO_EVENT_HANDLER
          | Some event_handlers =>
              clients ← outcome initialize_clients;
              match clients with
              | inl _ => mret _EXIT_CLIENT_ERROR
              | inr _ => run_handlers event_handlers event _EXIT_SUCCESS
              end
          end
      end
  end.

(** ** Exit codes *)

(** The handlers run one after the other; the first that raises is the last that runs.
    [outs] says how each ended. *)
Inductive handled (event : json) : list (json -> recvp Z) -> option string -> list (res Z) -> list (Prelude.event recvE) -> Prop :=
| handled_none c : handled event [] c [] []
| handled_raise h hs c tr e c' : runs (h event) c tr (inl e) c' -> handled event (h :: hs) c [inl e] tr
| handled_code h hs c tr code c' outs tr' :
    runs (h event) c tr (inr code) c' -> handled event hs c' outs tr' ->
    handled event (h :: hs) c (inr code :: outs) (tr ++ tr').
(** 8 when the last handler that ran raised, else its code. *)
Definition exit_code (outs : list (res Z)) : Z :=
  match last outs with Some (inr code) => code | Some (inl _) => _EXIT_HANDLER_ERROR | None => _EXIT_SUCCESS end.

Lemma run_handlers_outcomes hs event last_ret g tr :
  wp step_trace (run_handlers hs event last_ret) (fun r _ tr' => exists outs new, tr' = tr ++ new /\
    handled event hs g outs new /\ r = inr (match outs with [] => last_ret | _ => exit_code outs end)) g tr.
Proof.
  revert last_ret g tr. induction hs as [|h hs IH]; intros last_ret g tr; cbn [run_handlers].
  { wp_pure. exists [], []. rewrite app_nil_r. split_and!; [done|constructor|done]. }
  unfold outcome. repeat wp_pure. eapply wp_mono; [|apply wp_runs].
  intros [e|ret] g' tr' (new & -> & Hrun); repeat wp_pure.
  { exists [inl e], new. split_and!; [done|by econstructor|done]. }
  eapply wp_mono; [|apply IH]. intros r g'' tr'' (outs & new' & -> & Hh & ->). exists (inr ret :: outs), (new ++ new').
  rewrite app_assoc. split_and!; [done|by econstructor|]. by destruct outs.
Qed.

Lemma validate_event_err event e : validate_event event = inl e -> is_EventValidationError e = is_jobj event.
Proof.
  unfold validate_event. destruct event as [| | | | |o]; simpl; try (by intros [= <-]).
  destruct (default JNull (dict_get "event_type" o)) as [|b| |[|]| |]; simpl; repeat case_match; by intros [= <-].
Qed.

(** C15. The exit code of the receiver says how far the event came.  An event that
    cannot be read, or is an object without a usable [event_type], exits with 5
    and one without handlers with 6, before any client is made; a client that
    cannot be made exits with 7 before any handler runs.  Only then do the
    handlers of the event run, in order and as far as the first that raises: when one
    raised the receiver exits with 8, otherwise with the code of the last handler.
    The one exception that escapes is for a document that is not an object. *)
Theorem receiver_exit_codes c :
  every_run main c (fun r _ tr => exists read rest, tr = Ev ReadEvent read :: rest /\
    match read with
    | inl _ => r = inr _EXIT_PARSE_ERROR /\ rest = []
    | inr event =>
        match validate_event event with
        | inl e => rest = [] /\ r = if is_jobj event then inr _EXIT_PARSE_ERROR else inl e
        | inr event_type =>
            match dict_get event_type _event_handlers with
            | Some event_handlers =>
                (exists e, rest = [Ev NewOpenstackClient (inl e)] /\ r = inr _EXIT_CLIENT_ERROR) \/
                (exists e, rest = [Ev NewOpenstackClient (inr tt); Ev NewNautobotClient (inl e)] /\
                   r = inr _EXIT_CLIENT_ERROR) \/
                (exists outs done, rest = [Ev NewOpenstackClient (inr tt); Ev NewNautobotClient (inr tt)] ++ done /\
                   handled event event_handlers c outs done /\ r = inr (exit_code outs))
            | None => r = inr _EXIT_NO_EVENT_HANDLER /\ rest = []
            end
        end
    end).
Proof.
  unfold every_run, main, outcome. repeat wp_pure. apply wp_call. intros read tr ->. simpl app.
  destruct read as [e|event]; wp_simp; repeat wp_pure; [by eexists (inl e), []|].
  destruct (validate_event event) as [e|t] eqn:Hv.
  { rewrite (validate_event_err event e Hv). destruct (is_jobj event) eqn:Hj; wp_pure; exists (inr event), []; rewrite Hv, Hj; done. }
  destruct (dict_get t _event_handlers) as [hs|] eqn:Hhs; [|wp_pure; exists (inr event), []; by rewrite Hv, Hhs].
  unfold initialize_clients. repeat wp_pure. apply wp_call. intros r tr ->. simpl app.
  destruct r as [e|[]]; wp_simp; repeat wp_pure.
  { eexists (inr event), _. split; [done|]. rewrite Hv, Hhs. eauto. }
  apply wp_call. intros r tr ->. simpl app. destruct r as [e|[]]; wp_simp; repeat wp_pure.
  { eexists (inr event), _. split; [done|]. rewrite Hv, Hhs. eauto. }
  eapply wp_mono; [|apply run_handlers_outcomes].
  intros r g tr (outs & new & -> & Hh & ->). exists (inr event). eexists. split; [done|]. rewrite Hv, Hhs. right; right.
  exists outs, new. split_and!; [done|done|]. by destruct outs.
Qed.
End receiver.

(** ** A port event, from the queue to Nautobot *)

(** The event is delivered, the clients can be made, and the requests of the
    handler meet Nautobot's table of interfaces. *)
Definition recv_step (event : json) (reserved : list string) (R : Type) (op : recvE R) : if_table -> res R -> if_table -> Prop :=
  match op in recvE R return if_table -> res R -> if_table -> Prop with
  | ReadEvent => fun s r s' => r = inr event /\ s' = s
  | NewOpenstackClient | NewNautobotClient => fun s r s' => r = inr tt /\ s' = s
  | ForSync op =>
      match op in syncE R return if_table -> res R -> if_table -> Prop with
      | OnNautobot op => event_step reserved _ op
      | _ => fun _ _ _ => True
      end
  | ForStorage _ => fun _ _ _ => True
  end.

Lemma wp_main_one pick host_attr event reserved t h (Q : res Z -> option string -> if_table -> Prop) c s :
  validate_event event = inr t -> dict_get t (_event_handlers pick host_attr) = Some [nautobot_handler h] ->
  wp (event_step reserved) (h event) (fun r _ s' => Q (inr (match r with inl _ => _EXIT_HANDLER_ERROR | inr x => x end)) c s') tt s ->
  wp (recv_step event reserved) (main pick host_attr) Q c s.
Proof.
  intros Ht Hh Hp. unfold main, outcome, initialize_clients. repeat wp_pure.
  apply wp_call. intros r s' [-> ->]. wp_simp. wp_pure. rewrite Ht, Hh. repeat wp_pure.
  apply wp_call. intros r s' [-> ->]. wp_simp. repeat wp_pure.
  apply wp_call. intros r s' [-> ->]. wp_simp. repeat wp_pure. cbn [run_handlers]. unfold outcome. repeat wp_pure.
  unfold nautobot_handler, sync_handler, on_nb. apply wp_embed, wp_embed.
  eapply wp_mono; [|exact Hp]. intros [e|code] [] s' HQ; by repeat wp_pure.
Qed.

(** The same, when any of these requests may fail. *)
Lemma wp_main_faulty pick host_attr event reserved t h (Q : res Z -> option string -> if_table * bool -> Prop) c s :
  validate_event event = inr t -> dict_get t (_event_handlers pick host_attr) = Some [nautobot_handler h] ->
  (forall code f, code <> 0 -> Q (inr code) c (s, f)) ->
  (forall f, wp (faulty (event_step reserved)) (h event)
     (fun r _ st => Q (inr (match r with inl _ => _EXIT_HANDLER_ERROR | inr x => x end)) c st) tt (s, f)) ->
  wp (faulty (recv_step event reserved)) (main pick host_attr) Q c (s, false).
Proof.
  intros Ht Hh Hexit Hp. unfold main, outcome, initialize_clients. repeat wp_pure.
  apply wp_call. intros r [s1 f1] [[[-> Hs] Hf]|([e ->] & Hf & Hs)]; cbn in Hs, Hf.
  2: { wp_simp. assert (s1 = s) as -> by (destruct Hs as [?|(? & _ & ?)]; congruence). do 2 wp_pure. by apply Hexit. }
  subst s1 f1. wp_simp. wp_pure. rewrite Ht, Hh. repeat wp_pure.
  apply wp_call. intros r [s1 f1] [[[-> Hs] Hf]|([e ->] & Hf & Hs)]; cbn in Hs, Hf.
  2: { wp_simp. assert (s1 = s) as -> by (destruct Hs as [?|(? & _ & ?)]; congruence). do 4 try wp_pure. by apply Hexit. }
  subst s1 f1. wp_simp. repeat wp_pure.
  apply wp_call. intros r [s1 f1] [[[-> Hs] Hf]|([e ->] & Hf & Hs)]; cbn in Hs, Hf.
  2: { wp_simp. assert (s1 = s) as -> by (destruct Hs as [?|(? & _ & ?)]; congruence). do 4 try wp_pure. by apply Hexit. }
  subst s1 f1. wp_simp. repeat wp_pure. cbn [run_handlers]. unfold outcome. repeat wp_pure.
  unfold nautobot_handler, sync_handler, on_nb. apply wp_embed, wp_embed.
  eapply wp_mono; [|exact (Hp false)]. intros [e|code] [] s' HQ; by repeat wp_pure.
Qed.

(** C16. From the queue to Nautobot, for the creation or update of a port, when any
    request may fail, with or without effect.  The receiver always exits with a code, and
    either nothing has changed or exactly the port's interface is in Nautobot, with the
    name, MAC address and device of the event; the code is 0 only in the latter case.
    When no request failed: if another interface of the node has the name, it exits
    with 1 and nothing has changed; otherwise the interface is there, and the code is 0
    if the event carries no link. *)
Theorem received_port_event pick host_attr event reserved e c s :
  validate_event event = inr "baremetal.port.create.end" \/ validate_event event = inr "baremetal.port.update.end" ->
  port_event event = inr e ->
  wp (faulty (recv_step event reserved)) (main pick host_attr) (fun r _ '(s', failed) =>
    let row := mirror e (s !! e.(pe_uuid)) in
    exists code, r = inr code /\
    (s' = s \/ s' = <[e.(pe_uuid) := row]> s) /\ (code = 0 -> s' = <[e.(pe_uuid) := row]> s) /\
    (failed = false ->
      (name_taken s e.(pe_uuid) row /\ code = 1 /\ s' = s) \/
      (~ name_taken s e.(pe_uuid) row /\ s' = <[e.(pe_uuid) := row]> s /\ (unlinked e = true -> code = 0)))) c (s, false).
Proof.
  intros Ht He.
  assert (exists t, validate_event event = inr t /\
    dict_get t (_event_handlers pick host_attr) = Some [nautobot_handler handle_port_create_update]) as (t & Hv & Hh)
    by (destruct Ht as [Ht|Ht]; by eexists).
  assert (wp (event_step reserved) (handle_port_create_update event) (fun r _ s' =>
    port_written e s s' (inr (match r with inl _ => _EXIT_HANDLER_ERROR | inr x => x end))) tt s) as Hp.
  { eapply wp_mono; [|by apply wp_port_create_update]. intros r g s' [(Hn & -> & ->)|(Hn & -> & Hr)]; [by left|].
    right. split; [done|]. split; [done|]. intros Hu. by rewrite (Hr Hu). }
  pose proof (Prelude.wp_faulty _ _ _ c s (wp_main_one pick host_attr event reserved t _ (fun r _ s' => port_written e s s' r) c s Hv Hh Hp)) as Hok.
  assert (wp (faulty (recv_step event reserved)) (main pick host_attr) (fun r _ st => exists code, r = inr code /\
    port_attempted e s st.1 (inr code)) c (s, false)) as Hany.
  { eapply wp_main_faulty; [done|done| |].
    - intros code f Hc. exists code. split; [done|]. split; [by left|]. by intros [= ->].
    - intros f. eapply wp_mono; [|by apply port_attempt]. intros r [] st Ha. eexists. split; [done|].
      destruct r as [e'|code]; [|exact Ha]. split; [apply Ha|done]. }
  eapply wp_mono; [|exact (wp_conj _ _ _ _ _ _ Hany Hok)]. intros r g' [s' f] [(code & -> & Hs & H0) Hf]. cbn in *.
  exists code. split_and!; [done|exact Hs|intros ->; by apply H0|]. intros Hff. destruct (Hf Hff) as [(? & [= ->] & ?)|(? & ? & Hu)]; [by left|].
  right. split_and!; [done..|]. intros Hun. by injection (Hu Hun).
Qed.

Definition port_create_json : json :=
  JObj [("event_type", JStr "baremetal.port.create.end");
        ("payload", JObj [("ironic_object.data",
           JObj [("uuid", JStr "u1"); ("address", JStr "aa:bb"); ("node_uuid", JStr "n1");
                 ("extra", JObj [("bios_name", JStr "NIC.Slot.1-1")])])])].
Lemma received_port_event_witness :
  wp (faulty (recv_step port_create_json [])) (main (fun _ => ("", "")) (fun _ => None)) (fun r _ '(s', failed) =>
    let row := mirror port_event_example ((∅ : if_table) !! "u1") in
    exists code, r = inr code /\ (s' = ∅ \/ s' = <["u1" := row]> ∅) /\ (code = 0 -> s' = <["u1" := row]> ∅) /\
    (failed = false ->
      (name_taken ∅ "u1" row /\ code = 1 /\ s' = ∅) \/
      (~ name_taken ∅ "u1" row /\ s' = <["u1" := row]> ∅ /\ (unlinked port_event_example = true -> code = 0)))) None (∅, false).
Proof.
  apply (received_port_event (fun _ => ("", "")) (fun _ => None) port_create_json [] port_event_example).
  - left. by vm_compute.
  - by vm_compute.
Defined.

(** ** Events without handlers, and a masked failure *)

(** No network or subnet event has a handler: the receiver exits with 6. *)
Example neutron_events_not_handled pick host_attr :
  Forall (fun t => dict_get t (_event_handlers pick host_attr) = None)
    ["network.create.end"; "network.update.end"; "network.delete.end";
     "subnet.create.end"; "subnet.update.end"; "subnet.delete.end"].
Proof. repeat constructor. Qed.

(** A server that Nova does not know: the storage handler reports failure with
    code 1, the next handler succeeds, and the receiver exits with 0. *)
Definition provision_json : json :=
  event_json "baremetal.node.provision_set.end"
    [("ironic_object.data",
       JObj [("uuid", JStr "new"); ("event", JStr "done"); ("owner", JNull);
             ("lessee", JStr "5e0bb7d5e5b14ad5b2a4e5d7e7bd66a1"); ("instance_uuid", JStr "i1")])].
Definition recv_env (R : Type) (op : recvE R) (s : ontap * (list nb_device * nat)) : res R * (ontap * (list nb_device * nat)) :=
  match op in recvE R return res R * (ontap * (list nb_device * nat)) with
  | ReadEvent => (inr provision_json, s)
  | NewOpenstackClient | NewNautobotClient => (inr tt, s)
  | ForSync op => let '(r, s2) := flaky_env _ op s.2 in (r, (s.1, s2))
  | ForStorage op => let '(r, s1) := ontap_env _ op s.1 in (r, (s1, s.2))
  end.
Example provision_failure_masked pick host_attr :
  let nothing := MkOntap [] [] [] in
  (run ontap_env (handle_provision_end provision_json) None nothing).1.1 = inr 1 /\
  let '(r, _, s) := run recv_env (main pick host_attr) None (nothing, ([example_old], O)) in
  r = inr 0 /\ dict_get "storage" s.1.(on_outputs) = Some "not-found".
Proof. vm_compute. repeat split. Qed.
