(* ===== verification/VniGroup.v ===== *)
(** * The ranges of a VNI group

    Models [src/python/understack-workflows/understack_workflows/main/sync_ucvni_group_range.py]:
    a Neutron network segment range is recorded in the text of a VNI group's
    ranges and in a Nautobot note, from which its old bounds are read back. *)
From S2P Require Import Prelude PyStr PyData.
Local Open Scope Z_scope.

(** The requests: the notes of Nautobot, and one group with the text of its
    ranges. *)
Inductive rangeE : Type -> Type :=
| OpenNautobot : rangeE unit
| GroupGet (name : string) : rangeE (option (option string))
| GroupUpdate (name range : string) : rangeE bool
| NoteGet (id : string) : rangeE (option (option string))
| NoteUpdate (id note : string) : rangeE unit
| NoteDelete (id : string) : rangeE unit
| NoteCreate (group id note : string) : rangeE unit.
Abbreviation rangep A := (prog unit rangeE A).

(* main/sync_ucvni_group_range.py:24-27 SegmentRangeEvent *)
Inductive SegmentRangeEvent := CREATE | UPDATE | DELETE.

(** [start, end = map(int, r.split("-"))] *)
Definition parse_range (r : string) : res (Z * Z) :=
  match split "-"%char r with
  | [a; b] => match py_int a, py_int b with Some a, Some b => Ok (a, b) | _, _ => Err (ValueError [r]) end
  | _ => Err (ValueError [r])
  end.
(** [f"{a}-{b}"] *)
Definition range_text (a b : Z) : string := pretty a +:+ "-" +:+ pretty b.

(** The loop of [_remove_subrange]. *)
(* main/sync_ucvni_group_range.py:59-76 _remove_subrange *)
Definition remove_one (remove_start remove_end : Z) (updated_ranges : list string) (r : string) : res (list string) :=
  '(start, stop) ← parse_range r;
  if bool_decide (start = remove_start /\ stop = remove_end) then Ok updated_ranges
  else if (stop <? remove_start) || (remove_end <? start) then Ok (updated_ranges ++ [r])
  else Ok (updated_ranges ++ (if start <? remove_start then [range_text start (remove_start - 1)] else [])
                          ++ (if remove_end <? stop then [range_text (remove_end + 1) stop] else [])).
Definition remove_subrange (remove_start remove_end : Z) (ranges : list string) : res (list string) :=
  res_fold (remove_one remove_start remove_end) ranges [].
(* main/sync_ucvni_group_range.py:43-57 _remove_subrange *)
Definition _remove_subrange (ranges : list string) (segment_range_id : string) : rangep (list string) :=
  range_record ← call (NoteGet segment_range_id);
  match range_record with
  | None => Raise (AttributeError "note")
  | Some range_to_remove =>
      if negb (truthy range_to_remove) then mret ranges
      else match parse_range (default "" range_to_remove) with
           | inl _ => mret ranges
           | inr (remove_start, remove_end) => lift (remove_subrange remove_start remove_end ranges)
           end
  end.

Definition ranges_of (existing_range : option string) : list string :=
  if truthy existing_range then split ","%char (default "" existing_range) else [].
Definition text_of (ranges : list string) : string := String.concat "," ranges.
(* main/sync_ucvni_group_range.py:79-110 modify_range *)
Definition modify_range (action : SegmentRangeEvent) (new_range : string) (existing_range : option string)
    (segment_range_id : string) : rangep string :=
  let ranges := ranges_of existing_range in
  ranges ← match action with
           | CREATE => mret (ranges ++ [new_range])
           | DELETE => _remove_subrange ranges segment_range_id
           | UPDATE => ranges ← _remove_subrange ranges segment_range_id; mret (ranges ++ [new_range])
           end;
  mret (text_of ranges).

(* main/sync_ucvni_group_range.py:142-156 capture_segment_range_in_notes *)
Definition capture_segment_range_in_notes (group segment_range_id segment_range : string) (action : SegmentRangeEvent)
    : rangep unit :=
  match action with
  | UPDATE => call (NoteUpdate segment_range_id segment_range)
  | DELETE => call (NoteDelete segment_range_id)
  | CREATE => call (NoteCreate group segment_range_id segment_range)
  end.

(* main/sync_ucvni_group_range.py:113-139 update_ucvni_range *)
Definition update_ucvni_range (action : SegmentRangeEvent) (segment_min segment_max : Z)
    (segment_range_id group : string) (group_range : option string) : rangep bool :=
  let requested_range := range_text segment_min segment_max in
  new_range ← modify_range action requested_range group_range segment_range_id;
  is_updated ← call (GroupUpdate group new_range);
  _ ← (if (is_updated : bool) then capture_segment_range_in_notes group segment_range_id requested_range action
       else mret tt);
  mret is_updated.

(* main/sync_ucvni_group_range.py:159-188 handle_event *)
Definition handle_event (action : SegmentRangeEvent) (segment_name segment_range_id : string)
    (segment_min segment_max : Z) : rangep Z :=
  opened ← try_except (_ ← call OpenNautobot; mret true)
             (fun e => if bool_decide (e.(exn_cls) = "ConnectTimeout") then mret false else Raise e);
  if negb opened then mret 1 else
  ucvni_group ← call (GroupGet segment_name);
  match ucvni_group with
  | None => mret 1
  | Some group_range =>
      is_updated ← update_ucvni_range action segment_min segment_max segment_range_id segment_name group_range;
      mret (if (is_updated : bool) then 0 else 1)
  end.

(** ** Texts of ranges *)

Definition covers (ranges : list string) (v : Z) : Prop :=
  exists r a b, r ∈ ranges /\ parse_range r = inr (a, b) /\ a <= v <= b.
Definition is_range (r : string) : Prop := (exists a b, parse_range r = inr (a, b)) /\ has_char "," r = false.

Lemma has_char_lstrip c f s : has_char c s = false -> has_char c (lstrip_by f s) = false.
Proof.
  induction s as [|a s IH]; cbn; [done|]. intros [Ha Hs]%orb_false_iff. destruct (f a); [by apply IH|].
  cbn. by rewrite Ha, Hs.
Qed.
Lemma has_char_rev c s : has_char c (String.rev s) = has_char c s.
Proof.
  induction s as [|a s IH]; [done|]. rewrite str_rev_cons, has_char_app, IH. cbn. rewrite orb_false_r. apply orb_comm.
Qed.
Lemma has_char_strip c s : has_char c s = false -> has_char c (strip s) = false.
Proof.
  intros Hs. unfold strip, rstrip_by. rewrite has_char_rev. apply has_char_lstrip. rewrite has_char_rev.
  by apply has_char_lstrip.
Qed.
(** Without a sign an integer is not negative. *)
Lemma py_int_nonneg s z : has_char "-" s = false -> py_int s = Some z -> 0 <= z.
Proof.
  intros Hs%has_char_strip. unfold py_int. destruct (strip s) as [|c r]; [done|]. cbn in Hs.
  apply orb_false_iff in Hs as [Hc _]. rewrite Hc. destruct (Ascii.eqb c "+"); apply digits_nonneg.
Qed.
Lemma parse_range_nonneg r a b : parse_range r = inr (a, b) -> 0 <= a /\ 0 <= b.
Proof.
  unfold parse_range. destruct (split_join "-" r) as [_ Hall].
  destruct (split "-" r) as [|x [|y [|]]]; try done. rewrite !Forall_cons in Hall. destruct Hall as (Hx & Hy & _).
  destruct (py_int x) eqn:Ha, (py_int y) eqn:Hb; try done. intros [= <- <-]. split; [by apply (py_int_nonneg x)|by apply (py_int_nonneg y)].
Qed.

Lemma pretty_no_char c (z : Z) : 0 <= z -> is_digit c = false -> has_char c (pretty z) = false.
Proof. intros Hz Hc. apply (str_all_no_char is_digit); [done|]. by apply pretty_Z_digits. Qed.
Lemma parse_range_text a b : 0 <= a -> 0 <= b -> parse_range (range_text a b) = inr (a, b).
Proof.
  intros Ha Hb. unfold parse_range, range_text.
  change (pretty a +:+ "-" +:+ pretty b) with (pretty a +:+ String "-" (pretty b)).
  rewrite split_app, split_nil by (by apply pretty_no_char). by rewrite !py_int_pretty.
Qed.
Lemma is_range_text a b : 0 <= a -> 0 <= b -> is_range (range_text a b).
Proof.
  intros Ha Hb. split; [exists a, b; by apply parse_range_text|]. unfold range_text.
  rewrite !has_char_app, !pretty_no_char by done. done.
Qed.

(** ** The set of VNIs *)

Lemma covers_nil v : ~ covers [] v.
Proof. intros (r & _ & _ & Hr & _). by apply elem_of_nil in Hr. Qed.
Lemma covers_app l k v : covers (l ++ k) v <-> covers l v \/ covers k v.
Proof.
  unfold covers. setoid_rewrite elem_of_app. split.
  - intros (r & a & b & [?|?] & ?); [left|right]; eauto.
  - intros [(r & a & b & ? & ?)|(r & a & b & ? & ?)]; eauto 10.
Qed.
Lemma covers_cons r a b l v : parse_range r = inr (a, b) -> covers (r :: l) v <-> a <= v <= b \/ covers l v.
Proof.
  intros Hr. unfold covers. setoid_rewrite elem_of_cons. split.
  - intros (r' & a' & b' & [->|Hin] & Hp & Hv); [left; rewrite Hr in Hp; by simplify_eq|right; eauto 10].
  - intros [Hv|(r' & a' & b' & Hin & Hp & Hv)]; eauto 10.
Qed.
Lemma covers_text a b v : 0 <= a -> 0 <= b -> covers [range_text a b] v <-> a <= v <= b.
Proof.
  intros Ha Hb. rewrite (covers_cons _ a b) by (by apply parse_range_text).
  split; [intros [?|[]%covers_nil]; done|by left].
Qed.
#[local] Hint Resolve is_range_text : core.

Lemma remove_one_exact rs re acc r :
  0 <= rs -> 0 <= re -> Forall is_range acc -> is_range r ->
  exists out, remove_one rs re acc r = inr out /\ Forall is_range out /\
    forall v, covers out v <-> covers acc v \/ (covers [r] v /\ ~ rs <= v <= re).
Proof.
  intros Hrs Hre Hacc Hrange. pose proof Hrange as [(a & b & Hr) _]. destruct (parse_range_nonneg r a b Hr) as [Ha Hb].
  assert (forall v, covers [r] v <-> a <= v <= b) as Hcov.
  { intros v. rewrite (covers_cons r a b) by done. pose proof (covers_nil v). tauto. }
  unfold remove_one. rewrite Hr. cbn [mbind res_mbind]. setoid_rewrite Hcov.
  case_bool_decide as Heq; [exists acc; split_and!; [done..|]; intros v; destruct Heq; subst; tauto|].
  destruct (Z.ltb_spec b rs); [|destruct (Z.ltb_spec re a)]; cbn [orb]; (eexists; split; [done|]).
  1, 2: split; [apply Forall_app; split; [done|]; by constructor|]; intros v; rewrite covers_app, Hcov; intuition lia.
  split.
  - apply Forall_app. split; [done|]. apply Forall_app.
    split; case_match; try done; (constructor; [|done]); apply is_range_text; rewrite ?Z.ltb_lt in *; lia.
  - intros v. rewrite !covers_app. pose proof (covers_nil v).
    destruct (Z.ltb_spec a rs), (Z.ltb_spec re b); rewrite ?covers_text by lia; intuition lia.
Qed.

(** Removing an interval from the texts removes exactly its members. *)
Lemma remove_subrange_exact rs re ranges :
  0 <= rs -> 0 <= re -> Forall is_range ranges ->
  exists out, remove_subrange rs re ranges = inr out /\ Forall is_range out /\
    forall v, covers out v <-> covers ranges v /\ ~ rs <= v <= re.
Proof.
  intros Hrs Hre Hall. unfold remove_subrange.
  cut (forall acc, Forall is_range acc -> exists out, res_fold (remove_one rs re) ranges acc = inr out /\ Forall is_range out /\
    forall v, covers out v <-> covers acc v \/ (covers ranges v /\ ~ rs <= v <= re)).
  { intros Hcut. destruct (Hcut [] ltac:(done)) as (out & -> & Hout & Hv). exists out. split_and!; [done|done|].
    intros v. rewrite Hv. pose proof (covers_nil v). tauto. }
  induction Hall as [|r ranges Hr Hall IH]; intros acc Hacc; cbn [res_fold].
  { exists acc. split_and!; [done|done|]. intros v. pose proof (covers_nil v). tauto. }
  destruct (remove_one_exact rs re acc r Hrs Hre Hacc Hr) as (acc' & -> & Hacc' & Hc).
  destruct (IH acc' Hacc') as (out & -> & Hout & Hv). exists out. split_and!; [done|done|].
  intros v. rewrite Hv, Hc, (covers_app [r] ranges v : covers (r :: ranges) v <-> _). tauto.
Qed.

Lemma ranges_of_text out : Forall is_range out -> ranges_of (Some (text_of out)) = out.
Proof.
  intros Hall. unfold ranges_of, text_of. destruct out as [|r out]; [done|].
  assert (truthy (Some (String.concat "," (r :: out))) = true) as ->.
  { apply Forall_cons in Hall as [[(a & b & Hr) _] _]. destruct r as [|c r]; [done|]. by destruct out. }
  apply split_concat; [done|]. eapply Forall_impl; [exact Hall|]. by intros x [_ ?].
Qed.

(** ** Against Nautobot *)

(** The text of each group's ranges and the notes by their identifiers. *)
Record range_store := RangeStore { rg_groups : gmap string (option string); rg_notes : gmap string string }.
Definition put_notes (m : gmap string string) (s : range_store) : range_store := RangeStore s.(rg_groups) m.
(** A request is served or fails without effect; [update()] of a record answers
    whether it had something to change. *)
Definition range_step (R : Type) (op : rangeE R) (s : range_store) (r : res R) (s' : range_store) : Prop :=
  (exists e, r = inl e /\ s' = s) \/
  match op in rangeE R return res R -> Prop with
  | OpenNautobot => fun r => r = inr tt /\ s' = s
  | GroupGet n => fun r => r = inr (s.(rg_groups) !! n) /\ s' = s
  | GroupUpdate n t => fun r => r = inr (bool_decide (s.(rg_groups) !! n <> Some (Some t))) /\
      s' = RangeStore (<[n := Some t]> s.(rg_groups)) s.(rg_notes)
  | NoteGet id => fun r => r = inr (Some <$> s.(rg_notes) !! id) /\ s' = s
  | NoteUpdate id t => fun r => is_Some (s.(rg_notes) !! id) /\ r = inr tt /\ s' = put_notes (<[id := t]> s.(rg_notes)) s
  | NoteDelete id => fun r => r = inr tt /\ s' = put_notes (delete id s.(rg_notes)) s
  | NoteCreate _ id t => fun r => r = inr tt /\ s' = put_notes (<[id := t]> s.(rg_notes)) s
  end r.

(** The VNIs of a group. *)
Definition vni_in (s : range_store) (group : string) (v : Z) : Prop := covers (ranges_of (s.(rg_groups) !! group ≫= id)) v.
(** Every text in the group is a range, and every note the text of one. *)
Definition well_formed (s : range_store) (group : string) : Prop :=
  Forall is_range (ranges_of (s.(rg_groups) !! group ≫= id)) /\
  forall i t, s.(rg_notes) !! i = Some t -> exists a b, 0 <= a /\ 0 <= b /\ t = range_text a b.
(** What an event does to the set of a group's VNIs and to the range noted. *)
Definition event_effect (action : SegmentRangeEvent) (id : string) (lo hi : Z) (s s' : range_store) (group : string) : Prop :=
  let noted a b := s.(rg_notes) !! id = Some (range_text a b) in
  match action with
  | CREATE => (forall v, vni_in s' group v <-> vni_in s group v \/ lo <= v <= hi) /\
              s'.(rg_notes) = <[id := range_text lo hi]> s.(rg_notes)
  | UPDATE => exists a b, noted a b /\
              (forall v, vni_in s' group v <-> (vni_in s group v /\ ~ a <= v <= b) \/ lo <= v <= hi) /\
              s'.(rg_notes) = <[id := range_text lo hi]> s.(rg_notes)
  | DELETE => exists a b, noted a b /\
              (forall v, vni_in s' group v <-> vni_in s group v /\ ~ a <= v <= b) /\
              s'.(rg_notes) = delete id s.(rg_notes)
  end.

Lemma wp_remove_subrange ranges id (Q : res (list string) -> unit -> range_store -> Prop) s :
  Forall is_range ranges ->
  (forall i t, s.(rg_notes) !! i = Some t -> exists a b, 0 <= a /\ 0 <= b /\ t = range_text a b) ->
  (forall e, Q (inl e) tt s) ->
  (forall a b out, s.(rg_notes) !! id = Some (range_text a b) -> Forall is_range out ->
     (forall v, covers out v <-> covers ranges v /\ ~ a <= v <= b) -> Q (inr out) tt s) ->
  wp range_step (_remove_subrange ranges id) Q tt s.
Proof.
  intros Hall Hnotes Herr Hok. unfold _remove_subrange. wp_pure. apply wp_call.
  intros r s' [(e & -> & ->)|[-> ->]]; wp_simp; [apply Herr|].
  destruct (rg_notes s !! id) as [t|] eqn:Ht; cbn [fmap option_fmap option_map]; [|wp_pure; apply Herr].
  destruct (Hnotes id t Ht) as (a & b & Ha & Hb & ->).
  assert (truthy (Some (range_text a b)) = true) as ->.
  { destruct (is_range_text a b Ha Hb) as [(x & y & Hp) _]. by destruct (range_text a b). }
  wp_simp. change (default "" (Some (range_text a b))) with (range_text a b).
  rewrite parse_range_text by done. wp_pure.
  destruct (remove_subrange_exact a b ranges Ha Hb Hall) as (out & -> & Hout & Hv). by eapply Hok.
Qed.

Definition notes_after (action : SegmentRangeEvent) (id : string) (lo hi : Z) (m : gmap string string) : gmap string string :=
  match action with DELETE => delete id m | _ => <[id := range_text lo hi]> m end.

(** Writing the new ranges and the note. *)
Lemma wp_write_range action group id lo hi text out s :
  0 <= lo -> 0 <= hi -> s.(rg_groups) !! group = Some text -> Forall is_range out ->
  (forall i t, s.(rg_notes) !! i = Some t -> exists a b, 0 <= a /\ 0 <= b /\ t = range_text a b) ->
  wp range_step
    (is_updated ← call (GroupUpdate group (text_of out));
     _ ← (if (is_updated : bool) then capture_segment_range_in_notes group id (range_text lo hi) action else mret tt);
     mret is_updated)
    (fun r _ s' =>
       (r = inr true -> well_formed s' group /\ s'.(rg_notes) = notes_after action id lo hi s.(rg_notes) /\
                        forall v, vni_in s' group v <-> covers out v) /\
       (r = inr false -> forall v, vni_in s' group v <-> vni_in s group v)) tt s.
Proof.
  intros Hlo Hhi Hg Hout Hnotes. wp_pure. apply wp_call. intros r s1 [(e & -> & ->)|[-> ->]]; wp_simp; [done|].
  rewrite Hg. case_bool_decide as Hne.
  2: { repeat wp_pure. split; [done|]. intros _ v. unfold vni_in. cbn [rg_groups]. rewrite lookup_insert_eq, Hg.
       by injection Hne as ->. }
  set (s1 := RangeStore _ _).
  assert (forall m, (forall i t, m !! i = Some t -> exists a b, 0 <= a /\ 0 <= b /\ t = range_text a b) ->
    well_formed (put_notes m s1) group /\ forall v, vni_in (put_notes m s1) group v <-> covers out v) as Hwf.
  { intros m Hm. unfold well_formed, vni_in. cbn [rg_groups put_notes s1 rg_notes]. rewrite lookup_insert_eq.
    cbn [mbind option_bind Datatypes.id]. rewrite ranges_of_text by done. done. }
  assert (forall i t, notes_after action id lo hi s.(rg_notes) !! i = Some t ->
    exists a b, 0 <= a /\ 0 <= b /\ t = range_text a b) as Hafter.
  { intros i t Hi. unfold notes_after in Hi. destruct action.
    1, 2: apply lookup_insert_Some in Hi as [[_ <-]|[_ Hi]]; [by exists lo, hi|by apply (Hnotes i)].
    apply lookup_delete_Some in Hi as [_ Hi]. by apply (Hnotes i). }
  destruct (Hwf _ Hafter) as [Hwf1 Hcov1].
  wp_pure. unfold capture_segment_range_in_notes.
  destruct action; apply wp_call; intros r s2 [(e & -> & ->)|Hs]; wp_simp; try done.
  1, 3: destruct Hs as [-> ->]. 3: destruct Hs as (_ & -> & ->).
  all: wp_simp; wp_pure; (split; [|done]); intros _; split_and!; done.
Qed.

Lemma wp_update_ucvni_range action group id lo hi text s :
  0 <= lo -> 0 <= hi -> well_formed s group -> s.(rg_groups) !! group = Some text ->
  wp range_step (update_ucvni_range action lo hi id group text) (fun r _ s' =>
    (r = inr true -> well_formed s' group /\ event_effect action id lo hi s s' group) /\
    (r = inr false -> forall v, vni_in s' group v <-> vni_in s group v)) tt s.
Proof.
  intros Hlo Hhi [Hall Hnotes] Hg. unfold update_ucvni_range, modify_range. cbn zeta. wp_pure. wp_pure.
  assert (forall v, vni_in s group v <-> covers (ranges_of text) v) as Hold by (intros v; unfold vni_in; by rewrite Hg).
  rewrite Hg in Hall. change (Forall is_range (ranges_of text)) in Hall.
  assert (forall out, Forall is_range out ->
    (forall s' : range_store, (forall v, vni_in s' group v <-> covers out v) ->
       s'.(rg_notes) = notes_after action id lo hi s.(rg_notes) -> event_effect action id lo hi s s' group) ->
    wp range_step
      (is_updated ← call (GroupUpdate group (text_of out));
       _ ← (if (is_updated : bool) then capture_segment_range_in_notes group id (range_text lo hi) action else mret tt);
       mret is_updated)
      (fun r _ s' => (r = inr true -> well_formed s' group /\ event_effect action id lo hi s s' group) /\
                     (r = inr false -> forall v, vni_in s' group v <-> vni_in s group v)) tt s) as Hwrite.
  { intros out Hout Heff. eapply wp_mono; [|by eapply wp_write_range].
    intros r [] s' [H1 H0]. split; [|done]. intros Hr. destruct (H1 Hr) as (Hwf & Hn & Hc). split; [done|]. by apply Heff. }
  assert (Forall is_range [range_text lo hi]) as Hnew by (constructor; [by apply is_range_text|done]).
  destruct action.
  - wp_pure. wp_pure. apply Hwrite; [by apply Forall_app|]. intros s' Hc Hn. split; [|done].
    intros v. by rewrite Hc, covers_app, covers_text, Hold.
  - wp_pure. apply wp_remove_subrange; [done|done|by intros|]. intros a b out Hn Hout Hv. wp_pure. wp_pure.
    apply Hwrite; [by apply Forall_app|]. intros s' Hc Hn'. exists a, b. split_and!; [done| |done].
    intros v. by rewrite Hc, covers_app, covers_text, Hv, Hold.
  - apply wp_remove_subrange; [done|done|by intros|]. intros a b out Hn Hout Hv. wp_pure.
    apply Hwrite; [done|]. intros s' Hc Hn'. exists a, b. split_and!; [done| |done].
    intros v. by rewrite Hc, Hv, Hold.
Qed.

(** C13. The receiver of segment ranges keeps a group's VNIs and notes in step with
    Neutron.  An event that exits with 0 had exactly its effect: a creation adds
    the range's VNIs and notes the range; an update takes away exactly the VNIs
    of the range noted before, adds the new ones and renews the note; a deletion
    takes away exactly the noted ones and the note.  The texts stay well formed.
    An event that exits with 1 leaves the group's VNIs as they were. *)
Theorem segment_range_events action group id lo hi s :
  0 <= lo -> 0 <= hi -> well_formed s group ->
  wp range_step (handle_event action group id lo hi) (fun r _ s' =>
    (r = inr 0 -> well_formed s' group /\ event_effect action id lo hi s s' group) /\
    (r = inr 1 -> forall v, vni_in s' group v <-> vni_in s group v)) tt s.
Proof.
  intros Hlo Hhi Hwf. unfold handle_event. wp_pure. wp_pure. wp_pure. apply wp_call.
  intros r s' [(e & -> & ->)|[-> ->]]; wp_simp; [case_bool_decide; repeat wp_pure; done|]. wp_pure. wp_pure.
  apply wp_call. intros r s' [(e & -> & ->)|[-> ->]]; wp_simp; [done|].
  destruct (rg_groups s !! group) as [text|] eqn:Hg; [|by wp_pure]. wp_pure.
  eapply wp_mono; [|by apply wp_update_ucvni_range]. intros [e|[]] [] s' [H1 H0]; [done| |]; wp_pure.
  - split; [|done]. intros _. by apply H1.
  - split; [done|]. intros _. by apply H0.
Qed.

Definition example_store : range_store :=
  RangeStore {["prod" := Some "1-100,200-300"]} {["r1" := "1-100"; "r2" := "200-300"]}.
Lemma segment_range_events_witness :
  wp range_step (handle_event UPDATE "prod" "r2" 250 400) (fun r _ s' =>
    (r = inr 0 -> well_formed s' "prod" /\ event_effect UPDATE "r2" 250 400 example_store s' "prod") /\
    (r = inr 1 -> forall v, vni_in s' "prod" v <-> vni_in example_store "prod" v)) tt example_store.
Proof.
  apply (segment_range_events UPDATE "prod" "r2" 250 400 example_store); [lia|lia|]. split.
  - change (Forall is_range ["1-100"; "200-300"]).
    constructor; [split; [exists 1, 100|]; by vm_compute|]. constructor; [split; [exists 200, 300|]; by vm_compute|done].
  - intros i t. unfold example_store. cbn [rg_notes]. intros [[<- <-]|[_ [<- <-]%lookup_singleton_Some]]%lookup_insert_Some; [by exists 1, 100|by exists 200, 300].
Defined.

(** Two events of the example, run: the update moves the range, the deletion
    removes it and its note. *)
Definition range_env (R : Type) (op : rangeE R) (s : range_store) : res R * range_store :=
  match op in rangeE R return res R * range_store with
  | OpenNautobot => (inr tt, s)
  | GroupGet n => (inr (s.(rg_groups) !! n), s)
  | GroupUpdate n t => (inr (bool_decide (s.(rg_groups) !! n <> Some (Some t))), RangeStore (<[n := Some t]> s.(rg_groups)) s.(rg_notes))
  | NoteGet id => (inr (Some <$> s.(rg_notes) !! id), s)
  | NoteUpdate id t | NoteCreate _ id t => (inr tt, put_notes (<[id := t]> s.(rg_notes)) s)
  | NoteDelete id => (inr tt, put_notes (delete id s.(rg_notes)) s)
  end.
Example range_events_run :
  let '(r1, _, s1) := run range_env (handle_event UPDATE "prod" "r2" 250 400) tt example_store in
  let '(r2, _, s2) := run range_env (handle_event DELETE "prod" "r1" 1 100) tt s1 in
  r1 = inr 0 /\ s1.(rg_groups) !! "prod" = Some (Some "1-100,250-400") /\
  r2 = inr 0 /\ s2.(rg_groups) !! "prod" = Some (Some "250-400") /\ s2.(rg_notes) !! "r1" = None.
Proof. vm_compute. repeat split. Qed.

(** An update that changes nothing is reported as a failure with exit code 1. *)
Example unchanged_update_fails :
  (run range_env (handle_event UPDATE "prod" "r2" 200 300) tt example_store).1.1 = inr 1.
Proof. by vm_compute. Qed.
