(* ===== verification/Bmc.v ===== *)
(** * Baseboard management controllers

    Models, under [src/python/understack-workflows/understack_workflows/]:
    [bmc.py], [bmc_credentials.py], [bmc_bios.py], [bmc_settings.py],
    [bmc_hostname.py] and [bmc_chassis_info.py].  A request to a BMC is one HTTP exchange
    ([Http]); the program state is the paths a [Bmc] object has cached. *)
From S2P Require Import Prelude PyStr PyData Nautobot NetappValues.
Local Open Scope Z_scope.

(** ** HTTP *)

Record response := Response {
  rsp_status : Z; rsp_reason : string; rsp_text : string; rsp_json : res json; rsp_headers : dict string;
}.
Inductive redfishE : Type -> Type :=
| Http (host method path : string) (auth : option (string * string)) (token : option string) (payload : option json)
    : redfishE response
| Sleep (seconds : Z) : redfishE unit.

(** The cached paths of a [Bmc] object. *)
Record paths := Paths { base_cache : option string; system_cache : option string; manager_cache : option string }.
Definition no_paths : paths := Paths None None None.
Abbreviation bmcp A := (prog paths redfishE A).

(* understack_workflows/bmc.py:36-48 Bmc *)
Record BmcT := MkBmcT { bm_ip : string; bm_username : string; bm_password : string }.
(* understack_workflows/bmc.py:72-74 url *)
Definition url (bmc : BmcT) : string := "https://" +:+ bmc.(bm_ip).

Definition RedfishRequestError (args : list string) : exn := Exn "RedfishRequestError" args.
Definition is_RedfishRequestError (e : exn) : bool := bool_decide (e.(exn_cls) = "RedfishRequestError").
Definition AuthException (args : list string) : exn := Exn "AuthException" args.

Definition http_failure (bmc : BmcT) (path : string) (r : response) : exn :=
  RedfishRequestError [pretty r.(rsp_status); r.(rsp_reason); url bmc +:+ path; r.(rsp_text)].
(* understack_workflows/bmc.py:199-230 redfish_request *)
Definition redfish_request (bmc : BmcT) (path method : string) (payload : option json) (token : option string) : bmcp json :=
  let auth := if truthy token then None else Some (bmc.(bm_username), bmc.(bm_password)) in
  r ← call (Http bmc.(bm_ip) method path auth (if truthy token then token else None) payload);
  if 400 <=? r.(rsp_status) then Raise (http_failure bmc path r)
  else if truthy r.(rsp_text) then lift r.(rsp_json) else mret (JObj []).
Definition redfish_get (bmc : BmcT) (path : string) : bmcp json := redfish_request bmc path "GET" None None.

(** [v[0]] *)
Definition jfirst (v : json) : res json :=
  match v with
  | JArr (x :: _) => Ok x
  | JArr [] => Err IndexError
  | JStr (String c _) => Ok (JStr (String c ""))
  | JStr "" => Err IndexError
  | JObj _ => Err (KeyError "0")
  | _ => Err (TypeError ["not subscriptable"])
  end.
(** [v[k]] where a text follows *)
Definition jtext_at (k : string) (v : json) : res string :=
  x ← jitem k v; match x with JStr s => Ok s | _ => Err (AttributeError k) end.
Definition rstrip_slash (s : string) : string := rstrip_by (fun c => Ascii.eqb c "/") s.
(** [v["Members"][0]["@odata.id"]] *)
Definition first_member (v : json) : res string :=
  members ← jitem "Members" v; m ← jfirst members; jtext_at "@odata.id" m.

(* understack_workflows/bmc.py:81-84 get_system_path *)
Definition get_system_path (bmc : BmcT) : bmcp string :=
  r ← redfish_get bmc "/redfish/v1/Systems/"; p ← lift (first_member r); mret (rstrip_slash p).
(* understack_workflows/bmc.py:86-89 get_manager_path *)
Definition get_manager_path (bmc : BmcT) : bmcp string :=
  r ← redfish_get bmc "/redfish/v1/Managers/"; p ← lift (first_member r); mret (rstrip_slash p).

(** The assignment is to the cache of the system path. *)
(* understack_workflows/bmc.py:50-54 base_path *)
Definition base_path (bmc : BmcT) : bmcp string :=
  c ← get_state;
  let p := str_or c.(base_cache) "/redfish/v1" in
  _ ← put_state (Paths c.(base_cache) (Some p) c.(manager_cache)); mret p.
(* understack_workflows/bmc.py:56-60 system_path *)
Definition system_path (bmc : BmcT) : bmcp string :=
  c ← get_state;
  p ← (if truthy c.(system_cache) then mret (default "" c.(system_cache)) else get_system_path bmc);
  c ← get_state; _ ← put_state (Paths c.(base_cache) (Some p) c.(manager_cache)); mret p.
(* understack_workflows/bmc.py:62-66 manager_path *)
Definition manager_path (bmc : BmcT) : bmcp string :=
  c ← get_state;
  p ← (if truthy c.(manager_cache) then mret (default "" c.(manager_cache)) else get_manager_path bmc);
  c ← get_state; _ ← put_state (Paths c.(base_cache) c.(system_cache) (Some p)); mret p.

(** ** Accounts and sessions *)

(* understack_workflows/bmc.py:95-100 get_user_accounts *)
Definition get_user_accounts (bmc : BmcT) (token : option string) : bmcp json :=
  path ← base_path bmc;
  r ← redfish_request bmc path "GET" None token; s ← lift (jitem "AccountService" r); path ← lift (jtext_at "@odata.id" s);
  r ← redfish_request bmc path "GET" None token; s ← lift (jitem "Accounts" r); path ← lift (jtext_at "@odata.id" s);
  r ← redfish_request bmc path "GET" None token; lift (jitem "Members" r).

(** The loop over the accounts, up to the first with the user's name. *)
Fixpoint find_account (bmc : BmcT) (token : option string) (accounts : list json) : bmcp (option json) :=
  match accounts with
  | [] => mret None
  | account :: rest =>
      account_url ← lift (jtext_at "@odata.id" account);
      a ← redfish_request bmc account_url "GET" None token;
      name ← lift (jitem "UserName" a);
      if match name with JStr n => bool_decide (bmc.(bm_username) = n) | _ => false end then mret (Some a)
      else find_account bmc token rest
  end.
(* understack_workflows/bmc.py:102-119 set_bmc_creds *)
Definition set_bmc_creds (bmc : BmcT) (password : string) (token : option string) : bmcp unit :=
  accounts ← get_user_accounts bmc token;
  accounts ← lift (jiter accounts);
  matched_account ← find_account bmc token accounts;
  match matched_account with
  | Some a =>
      if truthy a then
        account_uri ← lift (jtext_at "@odata.id" a);
        _ ← redfish_request bmc account_uri "PATCH" (Some (JObj [("Password", JStr password)])) token; mret tt
      else Raise (AuthException [bmc.(bm_username)])
  | None => Raise (AuthException [bmc.(bm_username)])
  end.

(** [text.split(sep)[1]], if there are two parts *)
Fixpoint after_sub (fuel : nat) (sep s : string) : option string :=
  match fuel with
  | O => None
  | S fuel => if startswith sep s then Some (drop_str (String.length sep) s)
              else match s with String _ r => after_sub fuel sep r | "" => None end
  end.
Fixpoint before_sub (fuel : nat) (sep s : string) : string :=
  match fuel with
  | O => s
  | S fuel => if startswith sep s then "" else match s with String c r => String c (before_sub fuel sep r) | "" => "" end
  end.
Definition second_part (sep s : string) : option string :=
  match after_sub (S (String.length s)) sep s with
  | Some rest => Some (before_sub (S (String.length rest)) sep rest)
  | None => None
  end.

(* understack_workflows/bmc.py:148-197 session_request *)
Definition session_request (bmc : BmcT) (path : string) (payload : json) : bmcp (option (string * string)) :=
  r ← call (Http bmc.(bm_ip) "POST" path None None (Some payload));
  if 400 <=? r.(rsp_status) then Raise (http_failure bmc path r)
  else if truthy r.(rsp_text) then
    token ← lift (match dict_get "X-Auth-Token" r.(rsp_headers) with Some t => Ok t | None => Err (KeyError "x-auth-token") end);
    data ← lift r.(rsp_json);
    if negb (truthy token) then Raise (RedfishRequestError ["No token from BMC"; r.(rsp_text)]) else
    has_id ← lift (jin "@odata.id" data);
    location ← (if (has_id : bool) then lift (jtext_at "@odata.id" data)
                else match dict_get "Location" r.(rsp_headers) with
                     | Some h => match second_part bmc.(bm_ip) h with
                                 | Some l => mret l
                                 | None => Raise (RedfishRequestError ["Can't parse Location Header"; url bmc +:+ path;
                                                                      pretty r.(rsp_status); h])
                                 end
                     | None => Raise (RedfishRequestError ["No location from BMC"; r.(rsp_text)])
                     end);
    mret (Some (token, location))
  else mret None.

Definition SESSIONS : string := "/redfish/v1/SessionService/Sessions".
(* understack_workflows/bmc.py:121-132 get_session *)
Definition get_session (bmc : BmcT) (password : string) : bmcp (option (string * string)) :=
  ts ← session_request bmc SESSIONS (JObj [("UserName", JStr bmc.(bm_username)); ("Password", JStr password)]);
  mret (match ts with
        | Some (token, session) => if truthy token && truthy session then ts else None
        | None => None
        end).

(* understack_workflows/bmc.py:144-146 close_session *)
Definition close_session (bmc : BmcT) (session : string) (token : option string) : bmcp unit :=
  _ ← redfish_request bmc session "DELETE" None token; mret tt.

(** [try: p finally: q] *)
Definition finally {G E A} (p : prog G E A) (q : prog G E unit) : prog G E A :=
  r ← try_except (a ← p; mret (inr a)) (fun e => mret (inl e)); _ ← q; lift (r : res A).
(* understack_workflows/bmc.py:134-142 session *)
Definition with_session {A} (bmc : BmcT) (password : string) (body : option string -> bmcp A) : bmcp A :=
  ts ← get_session bmc password;
  finally (body (fst <$> ts))
    (match ts with
     | Some (token, session) => if truthy session then close_session bmc session (Some token) else mret tt
     | None => mret tt
     end).

(** ** The production password *)

(* understack_workflows/bmc_credentials.py:10-11 FACTORY_PASSWORDS *)
Definition FACTORY_PASSWORDS : list string := ["calvin"; "calvincalvin"; "calvin1"; "calvincalvin1"].
(* understack_workflows/bmc_credentials.py:78-83 _remove_dups_and_nulls *)
Definition _remove_dups_and_nulls (args : list (option string)) : list string :=
  foldl (fun result x =>
    match x with
    | Some x => if truthy x && bool_decide (x ∉ result) then result ++ [x] else result
    | None => result
    end) [] args.
(* understack_workflows/bmc_credentials.py:64-75 _log_in_and_set_password *)
Definition _log_in_and_set_password (bmc : BmcT) (password new_password : string) : bmcp unit :=
  _ ← (if bool_decide (password <> new_password)
       then with_session bmc password (fun token => set_bmc_creds bmc new_password token) else mret tt);
  with_session bmc new_password (fun _ => mret tt).
(** The loop over the candidates from number [attempt] on. *)
Fixpoint try_passwords (bmc : BmcT) (new_password : string) (attempt : nat) (candidates : list string) (failures : list exn)
    : bmcp unit :=
  match candidates with
  | [] => Raise (AuthException (bmc.(bm_ip) :: pretty (Z.of_nat (length failures)) :: failures ≫= exn_args))
  | password :: rest =>
      _ ← (if Nat.ltb 1 attempt then call (Sleep 60) else mret tt);
      done ← try_except (_ ← _log_in_and_set_password bmc password new_password; mret None)
               (fun e => if is_RedfishRequestError e then mret (Some e) else Raise e);
      match done with
      | None => mret tt
      | Some e => try_passwords bmc new_password (S attempt) rest (failures ++ [e])
      end
  end.
(** A [Bmc] object of its own for the run of [p]. *)
Definition with_own_bmc {A} (p : bmcp A) : bmcp A :=
  c ← get_state; _ ← put_state no_paths; finally p (put_state c).
Definition candidate_passwords (new_password : string) (old_password : option string) : list string :=
  _remove_dups_and_nulls (Some new_password :: old_password :: map Some FACTORY_PASSWORDS).
(* understack_workflows/bmc_credentials.py:17-61 set_bmc_password *)
Definition set_bmc_password (ip_address new_password username : string) (old_password : option string) : bmcp unit :=
  let bmc := MkBmcT ip_address username "" in
  with_own_bmc (try_passwords bmc new_password 0 (candidate_passwords new_password old_password) []).

(** ** BIOS settings *)

(* understack_workflows/bmc_bios.py:9-38 required_bios_settings *)
Definition required_bios_settings (pxe_interface : option string) : dict string :=
  [("HttpDev1TlsMode", "None"); ("TimeZone", "UTC"); ("OS-BMC.1.AdminState", "Disabled");
   ("IPMILan.1.Enable", "Disabled"); ("SecureBoot", "Disabled"); ("PxeDev1EnDis", "Disabled");
   ("HttpDev1EnDis", "Enabled"); ("HttpDev2EnDis", "Disabled"); ("HttpDev3EnDis", "Disabled");
   ("HttpDev4EnDis", "Disabled")] ++
  (if truthy pxe_interface then [("HttpDev1Interface", default "" pxe_interface)] else []).

Definition is_none (v : json) : bool := match v with JNull => true | _ => false end.
(** [v == s] for a text [s] *)
Definition is_text (v : json) (s : string) : bool := match v with JStr t => bool_decide (t = s) | _ => false end.
(* understack_workflows/bmc_bios.py:41-82 required_change_for_bios_setting *)
Definition required_change_for_bios_setting (key required_value : string) (current_settings pending_settings : dict json)
    : option string :=
  let active_value := default JNull (dict_get key current_settings) in
  let pending_value := default JNull (dict_get key pending_settings) in
  if is_none active_value then None
  else if is_text pending_value required_value then None
  else if negb (is_none pending_value) then Some required_value
  else if is_text active_value required_value then None
  else Some required_value.

Definition jdict (v : json) : res (dict json) := match v with JObj d => Ok d | _ => Err (AttributeError "get") end.
Definition bios_changes (pxe_interface : option string) (current pending : dict json) : dict string :=
  omap (fun '(key, v) => pair key <$> required_change_for_bios_setting key v current pending)
    (required_bios_settings pxe_interface).
(** [text in repr(e)] *)
Definition repr_mentions (text : string) (e : exn) : bool := existsb (contains text) e.(exn_args).
(* understack_workflows/bmc_bios.py:120-133 patch_bios_settings *)
Definition patch_bios_settings (bmc : BmcT) (new_settings : dict string) : bmcp unit :=
  p ← system_path bmc;
  let payload := JObj [("@Redfish.SettingsApplyTime", JObj [("ApplyTime", JStr "OnReset")]);
                       ("Attributes", JObj (prod_map id JStr <$> new_settings))] in
  try_except (_ ← redfish_request bmc (p +:+ "/Bios/Settings") "PATCH" (Some payload) None; mret tt)
    (fun e => if is_RedfishRequestError e && repr_mentions "Pending configuration values" e then mret tt else Raise e).
(* understack_workflows/bmc_bios.py:85-117 update_dell_bios_settings *)
Definition update_dell_bios_settings (bmc : BmcT) (pxe_interface : option string) : bmcp (dict string) :=
  p ← system_path bmc;
  r ← redfish_get bmc (p +:+ "/Bios"); a ← lift (jitem "Attributes" r);
  p ← system_path bmc;
  r ← redfish_get bmc (p +:+ "/Bios/Settings"); b ← lift (jget_or "Attributes" (JObj []) r);
  current_settings ← lift (jdict a); pending_settings ← lift (jdict b);
  let required_changes := bios_changes pxe_interface current_settings pending_settings in
  _ ← (if truthy required_changes then patch_bios_settings bmc required_changes else mret tt);
  mret required_changes.

(** ** Controller settings *)

Section drac.
(** [DNS_SERVER_IPV4_ADDR_1] and [_2] of the environment. *)
Context (dns1 dns2 : option string).

Definition opt_json (v : option string) : json := match v with Some s => JStr s | None => JNull end.
(* understack_workflows/bmc_settings.py:8-18 REQUIRED_VALUES *)
Definition REQUIRED_VALUES : dict json :=
  [("SNMP.1.AgentEnable", JStr "Enabled"); ("SNMP.1.SNMPProtocol", JStr "All"); ("SNMP.1.AgentCommunity", JStr "public");
   ("SNMP.1.AlertPort", JNum 161); ("SwitchConnectionView.1.Enable", JStr "Enabled");
   ("NTPConfigGroup.1.NTPEnable", JStr "Disabled"); ("Time.1.Timezone", JStr "UTC");
   ("IPv4.1.DNS1", opt_json dns1); ("IPv4.1.DNS2", opt_json dns2)].
(* understack_workflows/bmc_settings.py:22-25 VALUES_TO_POST *)
Definition VALUES_TO_POST : dict json :=
  dict_set "SNMP.1.SNMPProtocol" (JStr "0") (dict_set "SNMP.1.AgentEnable" (JStr "1") REQUIRED_VALUES).

(** [x == y] for the values above *)
Definition same_scalar (x y : json) : bool :=
  match x, y with
  | JStr a, JStr b => bool_decide (a = b)
  | JNum a, JNum b => a =? b
  | JBool a, JNum b => (if a then 1 else 0) =? b
  | _, _ => false
  end.
Definition drac_changes (current_values : dict json) : dict json :=
  omap (fun '(key, required_value) =>
    if negb (truthy required_value) then None
    else match dict_get key current_values with
         | None => None
         | Some v => if same_scalar v required_value then None
                     else pair key <$> dict_get key VALUES_TO_POST
         end) REQUIRED_VALUES.
(* understack_workflows/bmc_settings.py:32-65 update_dell_drac_settings *)
Definition update_dell_drac_settings (bmc : BmcT) : bmcp (dict json) :=
  p ← manager_path bmc;
  let attribute_path := p +:+ "/Attributes" in
  r ← redfish_get bmc attribute_path; a ← lift (jitem "Attributes" r); current_values ← lift (jdict a);
  let required_changes := drac_changes current_values in
  _ ← (if truthy required_changes
       then _ ← redfish_request bmc attribute_path "PATCH" (Some (JObj [("Attributes", JObj required_changes)])) None; mret tt
       else mret tt);
  mret required_changes.
End drac.

(** ** Host name *)

(* understack_workflows/bmc_hostname.py:8-12 bmc_get_mgmt_interface *)
Definition bmc_get_mgmt_interface (bmc : BmcT) : bmcp string :=
  p ← manager_path bmc; r ← redfish_get bmc (p +:+ "/EthernetInterfaces"); lift (first_member r).
(* understack_workflows/bmc_hostname.py:15-27 bmc_set_hostname *)
Definition bmc_set_hostname (bmc : BmcT) (current_name new_name : string) : bmcp unit :=
  if negb (truthy current_name) || negb (truthy new_name) then Raise (ValueError ["Invalid input parameters"])
  else if decide (current_name = new_name) then mret tt
  else
    interface_path ← bmc_get_mgmt_interface bmc;
    _ ← redfish_request bmc interface_path "PATCH" (Some (JObj [("HostName", JStr new_name)])) None; mret tt.

(** ** Chassis *)

(** [str(v)] of a scalar; the text of a list or an object is not modelled. *)
Definition json_str (v : json) : res string :=
  match v with
  | JStr s => Ok s
  | JNull => Ok "None"
  | JBool b => Ok (if b then "True" else "False")
  | JNum z => Ok (pretty z)
  | _ => Err (TypeError ["not a scalar"])
  end.

(* understack_workflows/bmc_chassis_info.py:204-210 normalise_manufacturer *)
Definition normalise_manufacturer (name : string) : res string :=
  if contains "DELL" (upper name) then Ok "Dell"
  else if contains "HP" (upper name) then Ok "HP"
  else Err (ValueError [name]).
(* understack_workflows/bmc_chassis_info.py:199-201 server_interface_name *)
Definition server_interface_name (name : string) : string :=
  if startswith "iDRAC.Embedded" name then "iDRAC" else name.

(** The hexadecimal digits of a number, at least [width]. *)
Fixpoint hex_digits (fuel : nat) (n : N) (acc : string) : string :=
  match fuel with
  | O => acc
  | S fuel => if (n =? 0)%N then acc else hex_digits fuel (n / 16) (String (hex_upper (n mod 16)) acc)
  end.
(** [f"{z:02X}"] *)
Definition format_02X (z : Z) : string :=
  let body := hex_digits (S (N.to_nat (N.log2 (Z.to_N (Z.abs z))))) (Z.to_N (Z.abs z)) "" in
  let body := if truthy body then body else "0" in
  if z <? 0 then "-" +:+ body else if Nat.ltb (String.length body) 2 then "0" +:+ body else body.
(* understack_workflows/bmc_chassis_info.py:194-196 normalise_mac *)
Definition normalise_mac (mac : string) : res string :=
  parts ← res_map (fun n => match py_int16 n with Some z => Ok (format_02X z) | None => Err (ValueError [n]) end)
            (split ":"%char mac);
  Ok (String.concat ":" parts).
Example normalise_mac_examples :
  map normalise_mac ["d4:cb:e1:bf:8:2c"; "D4CB"; "x"] = [inr "D4:CB:E1:BF:08:2C"; inr "D4CB"; inl (ValueError ["x"])].
Proof. by vm_compute. Qed.

(* understack_workflows/bmc_chassis_info.py:14-24 InterfaceInfo *)
Record BmcInterface := MkBmcInterface {
  bi_name : string; bi_description : string; bi_mac_address : string; bi_hostname : json;
  bi_ipv4_address : option (Z * Z); bi_ipv4_gateway : option Z; bi_dhcp : bool;
}.
(* understack_workflows/bmc_chassis_info.py:27-53 ChassisInfo *)
Record ChassisInfo := MkChassisInfo {
  ci_manufacturer : string; ci_model_number : json; ci_serial_number : string; ci_bmc_ip_address : string;
  ci_bios_version : json; ci_power_on : bool; ci_bmc_interface : BmcInterface; ci_memory_gib : json; ci_cpu : json;
}.
Definition bmc_hostname (d : ChassisInfo) : res string := json_str d.(ci_bmc_interface).(bi_hostname).

(** [IPv4Interface(text)]: the address and the prefix length. *)
Definition ipv4_interface (text : string) : res (Z * Z) :=
  let build a p := match NetappValues.parse_ipv4 a, p with Some z, Some p => Ok (z, p) | _, _ => Err (ValueError [text]) end in
  match split "/"%char text with
  | [a] => build a (Some 32)
  | [a; p] => build a (parse_prefix p)
  | _ => Err (ValueError [text])
  end.
(* understack_workflows/bmc_chassis_info.py:112-139 parse_ipv4 *)
Definition parse_bmc_ipv4 (data : json) : res (option (Z * Z) * option Z * bool) :=
  if negb (truthy data) then Ok (None, None, false) else
  d ← jfirst data;
  origin ← jitem "AddressOrigin" d; address ← jtext_at "Address" d;
  netmask ← jtext_at "SubnetMask" d; gateway ← jtext_at "Gateway" d;
  i ← ipv4_interface (address +:+ "/" +:+ netmask);
  match NetappValues.parse_ipv4 gateway with
  | Some g => Ok (Some i, Some g, is_text origin "DHCP")
  | None => Err (ValueError [gateway])
  end.
(** The example of its documentation. *)
Example parse_bmc_ipv4_example :
  parse_bmc_ipv4 (JArr [JObj [("Address", JStr "10.46.96.156"); ("AddressOrigin", JStr "Static");
                              ("Gateway", JStr "10.46.96.129"); ("SubnetMask", JStr "255.255.255.192")]]) =
  inr (Some (10 * 2 ^ 24 + 46 * 2 ^ 16 + 96 * 2 ^ 8 + 156, 26), Some (10 * 2 ^ 24 + 46 * 2 ^ 16 + 96 * 2 ^ 8 + 129), false).
Proof. by vm_compute. Qed.

(** [{k.lower(): v for k, v in d.items()}] *)
Definition lower_keys (d : dict json) : dict json := foldl (fun acc '(k, v) => dict_set (lower k) v acc) [] d.

(* understack_workflows/bmc_chassis_info.py:187-191 get_system_vendor *)
Definition get_system_vendor (bmc : BmcT) : bmcp string :=
  p ← system_path bmc; r ← redfish_get bmc p;
  oem ← lift (jitem "Oem" r); keys ← lift (jiter oem);
  match keys with
  | JStr vendor :: _ => lift (normalise_manufacturer vendor)
  | [] => Raise (Exn "StopIteration" [])
  | _ => Raise (AttributeError "upper")
  end.
(* understack_workflows/bmc_chassis_info.py:79-109 bmc_interface *)
Definition bmc_interface (bmc : BmcT) : bmcp BmcInterface :=
  p ← manager_path bmc;
  r ← redfish_get bmc (p +:+ "/EthernetInterfaces/"); interface ← lift (first_member r);
  r ← redfish_get bmc interface; _data ← lift (jdict r);
  addresses ← lift (jitem "IPv4Addresses" r);
  '(ipv4_address, ipv4_gateway, dhcp) ← lift (parse_bmc_ipv4 addresses);
  let data := lower_keys _data in
  let get k := default JNull (dict_get k data) in
  vendor ← get_system_vendor bmc;
  '(bmc_name, bmc_description) ←
    (if decide (vendor = "Dell") then mret ("iDRAC", "Dedicated iDRAC interface")
     else vendor ← get_system_vendor bmc;
          description ← lift (json_str (get "name"));
          mret (if decide (vendor = "HP") then "iLO" else "BMC", description));
  mac ← lift (json_str (get "macaddress")); mac ← lift (normalise_mac mac);
  mret (MkBmcInterface bmc_name bmc_description mac (get "hostname") ipv4_address ipv4_gateway dhcp).

(* understack_workflows/bmc_chassis_info.py:56-76 chassis_info *)
Definition chassis_info (bmc : BmcT) : bmcp ChassisInfo :=
  p ← system_path bmc; chassis_data ← redfish_get bmc p;
  manufacturer ← lift (jtext_at "Manufacturer" chassis_data); manufacturer ← lift (normalise_manufacturer manufacturer);
  model_number ← lift (jitem "Model" chassis_data);
  serial ← lift (jitem "SKU" chassis_data); serial_number ← lift (json_str serial);
  bios_version ← lift (jitem "BiosVersion" chassis_data);
  power_state ← lift (jitem "PowerState" chassis_data);
  memory ← lift (jget_or "MemorySummary" (JObj []) chassis_data); memory_gib ← lift (jget_or "TotalSystemMemoryGiB" (JNum 0) memory);
  interface ← bmc_interface bmc;
  summary ← lift (jget_or "ProcessorSummary" (JObj []) chassis_data); cpu ← lift (jget_or "Model" (JStr "") summary);
  mret (MkChassisInfo manufacturer model_number serial_number bmc.(bm_ip) bios_version (is_text power_state "On")
          interface memory_gib cpu).

(** *** In-band interfaces *)

(** [re.sub(r"-\d$", "", url)], where [re.search(r"-\d$", url)] matches. *)
Definition partition_of (url : string) : option string :=
  match String.rev url with
  | String d (String c r) =>
      if Ascii.eqb d (ascii_of_nat 10) then
        match String c r with
        | String d' (String c' r') =>
            if is_digit d' && Ascii.eqb c' "-" then Some (String.rev r' +:+ String (ascii_of_nat 10) "") else None
        | _ => None
        end
      else if is_digit d && Ascii.eqb c "-" then Some (String.rev r) else None
  | _ => None
  end.
Definition keeps_interface (urls : list string) (u : string) : bool :=
  match partition_of u with None => true | Some b => bool_decide (b ∉ urls) end.
(* understack_workflows/bmc_chassis_info.py:162-184 interface_detail *)
Definition interface_detail (bmc : BmcT) (path : string) : bmcp json :=
  r ← redfish_get bmc path; data ← lift (jdict r);
  let d := lower_keys data in
  let get_or k v := default v (dict_get k d) in
  id ← lift (jtext_at "Id" r);
  let description := get_or "description" (JStr "") in
  let mac := get_or "macaddress" (JStr "") in
  mac ← (if is_text mac "" then mret mac
         else match mac with JStr m => m ← lift (normalise_mac m); mret (JStr m) | _ => Raise (AttributeError "split") end);
  mret (JObj [("name", JStr (server_interface_name id));
              ("description", if is_text description "" then default JNull (dict_get "name" d) else description);
              ("mac_address", mac); ("hostname", get_or "hostname" (JStr ""))]).
(* understack_workflows/bmc_chassis_info.py:142-159 in_band_interfaces *)
Definition in_band_interfaces (bmc : BmcT) : bmcp (list json) :=
  p ← system_path bmc; index_data ← redfish_get bmc (p +:+ "/EthernetInterfaces/");
  members ← lift (jitem "Members" index_data); members ← lift (jiter members);
  urls ← lift (res_map (jtext_at "@odata.id") members);
  map_each (List.filter (keeps_interface urls) urls) (interface_detail bmc).

(** ** The cached paths *)

(** Reading the base path overwrites the cached system path: from then on the
    object takes the service root for the system. *)
Lemma base_path_spoils_system_path {S} (handler : forall R, redfishE R -> S -> res R * S) bmc s :
  run handler (_ ← base_path bmc; system_path bmc) no_paths s =
    (inr "/redfish/v1", Paths None (Some "/redfish/v1") None, s).
Proof. reflexivity. Qed.

(** ** A controller with a password, sessions and a lock-out counter *)

Record bmc_state := BmcState {
  b_password : string; b_open : gset string;
  (** the sessions whose deletion was refused *)
  b_refused : gset string;
  (** refused log-ins since the last wait, and the most there ever were *)
  b_fails : nat; b_worst : nat;
}.
Definition fail_login (s : bmc_state) : bmc_state :=
  BmcState s.(b_password) s.(b_open) s.(b_refused) (S s.(b_fails)) (Nat.max s.(b_worst) (S s.(b_fails))).
Definition open_session (loc : string) (s : bmc_state) : bmc_state :=
  BmcState s.(b_password) ({[loc]} ∪ s.(b_open)) s.(b_refused) s.(b_fails) s.(b_worst).
Definition close_open (loc : string) (s : bmc_state) : bmc_state :=
  BmcState s.(b_password) (s.(b_open) ∖ {[loc]}) s.(b_refused) s.(b_fails) s.(b_worst).
Definition refuse_close (loc : string) (s : bmc_state) : bmc_state :=
  BmcState s.(b_password) s.(b_open) ({[loc]} ∪ s.(b_refused)) s.(b_fails) s.(b_worst).
Definition set_password (pw : string) (s : bmc_state) : bmc_state :=
  BmcState pw s.(b_open) s.(b_refused) s.(b_fails) s.(b_worst).
Definition waited (s : bmc_state) : bmc_state := BmcState s.(b_password) s.(b_open) s.(b_refused) 0 s.(b_worst).

(** The answer to a log-in that was accepted names the new session, in its body or,
    after the controller's address, in the Location header. *)
Definition names_session (ip : string) (rsp : response) (loc : string) : Prop :=
  truthy rsp.(rsp_text) = true /\
  (exists d, rsp.(rsp_json) = inr (JObj d) /\
     (dict_get "@odata.id" d = Some (JStr loc) \/
      dict_get "@odata.id" d = None /\
      exists h, dict_get "Location" rsp.(rsp_headers) = Some h /\ second_part ip h = Some loc)) /\
  (exists tok, dict_get "X-Auth-Token" rsp.(rsp_headers) = Some tok /\ truthy tok = true) /\ truthy loc = true.
(** A log-in succeeds only with the right user and password, and opens a session that
    is named, or none when the answer has no body.  Nothing is assumed of the answers
    to reads, and a change may set any password. *)
Definition bmc_step (user : string) (R : Type) (op : redfishE R) : bmc_state -> res R -> bmc_state -> Prop :=
  match op in redfishE R return bmc_state -> res R -> bmc_state -> Prop with
  | Sleep _ => fun s r s' => r = inr tt /\ s' = waited s
  | Http ip method path _ _ payload => fun s r s' =>
      if decide (method = "POST") then
        (exists e, r = inl e /\ is_RedfishRequestError e = false /\ s' = s) \/
        (exists rsp, r = inr rsp /\ 400 <= rsp.(rsp_status) /\ s' = fail_login s) \/
        (exists rsp, r = inr rsp /\ rsp.(rsp_status) < 400 /\
           payload = Some (JObj [("UserName", JStr user); ("Password", JStr s.(b_password))]) /\
           (rsp.(rsp_text) = "" /\ s' = s \/ exists loc, names_session ip rsp loc /\ s' = open_session loc s))
      else if decide (method = "DELETE") then
        (exists e, r = inl e /\ s' = refuse_close path s) \/
        (exists rsp, r = inr rsp /\ 400 <= rsp.(rsp_status) /\ s' = refuse_close path s) \/
        (exists rsp, r = inr rsp /\ rsp.(rsp_status) < 400 /\ s' = close_open path s)
      else if decide (method = "GET") then s' = s
      else exists pw, s' = set_password pw s
  end.

(** Every session that was opened on the way from [s] to [s'] is closed, or its
    deletion was refused. *)
Definition kept (s s' : bmc_state) : Prop :=
  s'.(b_open) ⊆ s.(b_open) ∪ s'.(b_refused) /\ s.(b_refused) ⊆ s'.(b_refused).
#[local] Instance kept_preorder : PreOrder kept.
Proof.
  split; [intros s; split; set_solver|]. intros s1 s2 s3 [H1 H2] [H3 H4]. split; [|by etrans]. set_solver.
Qed.
(** The same with no log-in counted. *)
Definition quiet (s s' : bmc_state) : Prop := kept s s' /\ s'.(b_fails) = s.(b_fails) /\ s'.(b_worst) = s.(b_worst).
#[local] Instance quiet_preorder : PreOrder quiet.
Proof.
  split; [by split|]. intros s1 s2 s3 (H1 & H2 & H3) (H4 & H5 & H6). split; [by etrans|]. split; congruence.
Qed.
Lemma set_password_quiet pw s : quiet s (set_password pw s).
Proof. split; [|done]. split; simpl; set_solver. Qed.

Section controller.
Context (user : string).
Abbreviation step := (bmc_step user).

Lemma wp_quiet_bind {A B} (p : bmcp A) (f : A -> bmcp B) s0 g s :
  wp step p (fun _ _ s' => quiet s0 s') g s ->
  (forall a g s, quiet s0 s -> wp step (f a) (fun _ _ s' => quiet s0 s') g s) ->
  wp step (mbind f p) (fun _ _ s' => quiet s0 s') g s.
Proof.
  intros Hp Hf. wp_pure. eapply wp_mono; [|exact Hp]. intros [e|a] g' s' Hs; [done|by apply Hf].
Qed.
Lemma wp_quiet_lift {A} (r : res A) s0 (g : paths) s : quiet s0 s -> wp step (lift r) (fun _ _ s' => quiet s0 s') g s.
Proof. intros Hs. by wp_pure. Qed.

(** A request other than a log-in or a deletion opens no session. *)
Lemma wp_quiet_request bmc path method payload token s0 g s :
  method <> "POST" -> method <> "DELETE" -> quiet s0 s ->
  wp step (redfish_request bmc path method payload token) (fun _ _ s' => quiet s0 s') g s.
Proof.
  intros Hp Hd Hs. unfold redfish_request. cbn zeta. apply wp_quiet_bind.
  - apply wp_call. intros r s'. cbn [bmc_step]. rewrite decide_False, decide_False by done. case_decide.
    + by intros ->.
    + intros [pw ->]. etrans; [done|]. apply set_password_quiet.
  - intros r g' s' Hq. repeat case_match; by repeat wp_pure.
Qed.

Lemma wp_set_bmc_creds bmc password token s0 g s :
  quiet s0 s -> wp step (set_bmc_creds bmc password token) (fun _ _ s' => quiet s0 s') g s.
Proof.
  assert (forall accounts g s, quiet s0 s ->
    wp step (find_account bmc token accounts) (fun _ _ s' => quiet s0 s') g s) as Hfind.
  { intros accounts. induction accounts as [|a rest IH]; intros g' s' Hs; cbn [find_account]; [by wp_pure|].
    apply wp_quiet_bind; [by apply wp_quiet_lift|]. intros u g2 s2 H2.
    apply wp_quiet_bind; [by apply wp_quiet_request|]. intros a' g3 s3 H3.
    apply wp_quiet_bind; [by apply wp_quiet_lift|]. intros n g4 s4 H4. case_match; [by wp_pure|by apply IH]. }
  intros Hs. unfold set_bmc_creds, get_user_accounts, base_path.
  repeat first
    [ apply wp_quiet_request; [done|done|assumption]
    | apply wp_quiet_lift; assumption
    | apply Hfind; assumption
    | lazymatch goal with |- wp _ (mbind _ _) _ _ _ => apply wp_quiet_bind; [|intros ? ? ? ?] end
    | case_match
    | wp_pure; assumption ].
Qed.

(** What a log-in with the given password leaves: at most one refusal more, none
    when it succeeds, and then the password was the right one. *)
Definition logged (k : nat) (s s' : bmc_state) : Prop :=
  kept s s' /\ s'.(b_fails) = (s.(b_fails) + k)%nat /\ (s'.(b_worst) <= Nat.max s.(b_worst) s'.(b_fails))%nat.

Lemma wp_get_session bmc password (Q : res (option (string * string)) -> paths -> bmc_state -> Prop) g s :
  bmc.(bm_username) = user ->
  (forall e, Q (inl e) g s) -> (forall e, Q (inl e) g (fail_login s)) ->
  (password = s.(b_password) -> Q (inr None) g s) ->
  (forall token loc, truthy loc = true -> password = s.(b_password) -> Q (inr (Some (token, loc))) g (open_session loc s)) ->
  wp step (get_session bmc password) Q g s.
Proof.
  intros Hu Herr Hrefused Hnone Hok. unfold get_session, session_request. wp_pure. wp_pure. apply wp_call. intros r s'.
  cbn [bmc_step]. rewrite decide_True by done.
  intros [(e & -> & _ & ->)|[(rsp & -> & Hst & ->)|(rsp & -> & Hst & Hpay & Hopen)]]; wp_simp; [apply Herr| |].
  { rewrite (proj2 (Z.leb_le 400 _)) by done. wp_pure. apply Hrefused. }
  assert (password = s.(b_password)) as Hpw by (injection Hpay as Hpay; congruence).
  rewrite (proj2 (Z.leb_gt 400 _)) by done. wp_simp.
  destruct Hopen as [[-> ->]|(loc & Hname & ->)]; [cbn [truthy truthy_string]; repeat wp_pure; by apply Hnone|].
  destruct Hname as (Htext & (d & Hjson & Hid) & (tok & Htok & Htt) & Hloc).
  rewrite Htext, Htok, Hjson. repeat wp_pure. rewrite Htt. wp_simp. wp_pure. unfold jin. wp_pure.
  destruct Hid as [Hid|(Hid & h & Hh & Hpart)].
  - rewrite bool_decide_true by (apply dict_get_keys; by eexists). wp_pure.
    unfold jtext_at, jitem. rewrite Hid. wp_pure. cbn [mbind res_mbind]. repeat wp_pure. rewrite Htt, Hloc. wp_simp. by apply Hok.
  - rewrite bool_decide_false by (rewrite <- dict_get_keys, Hid; by intros [? [=]]). wp_pure. rewrite Hh, Hpart.
    repeat wp_pure. rewrite Htt, Hloc. wp_simp. by apply Hok.
Qed.

Lemma wp_close_session bmc loc token s0 (Q : res unit -> paths -> bmc_state -> Prop) g s :
  quiet (open_session loc s0) s ->
  (forall r s', kept s0 s' -> s'.(b_fails) = s.(b_fails) -> s'.(b_worst) = s.(b_worst) ->
     s'.(b_password) = s.(b_password) -> Q r g s') ->
  wp step (close_session bmc loc token) Q g s.
Proof.
  intros ([Ho Hr] & _ & _) HQ. unfold close_session, redfish_request. cbn zeta. wp_pure. wp_pure. apply wp_call. intros r s'.
  cbn [bmc_step]. rewrite decide_False, decide_True by done. cbn in Ho, Hr.
  intros [(e & -> & ->)|[(rsp & -> & Hst & ->)|(rsp & -> & Hst & ->)]]; wp_simp.
  - apply HQ; try done. split; simpl; set_solver.
  - rewrite (proj2 (Z.leb_le 400 _)) by done. wp_pure. apply HQ; try done. split; simpl; set_solver.
  - rewrite (proj2 (Z.leb_gt 400 _)) by done. wp_simp.
    assert (kept s0 (close_open loc s)) as Hk by (split; simpl; set_solver).
    destruct (truthy (rsp_text rsp)); repeat wp_pure; [|by apply HQ]. destruct (rsp_json rsp); repeat wp_pure; by apply HQ.
Qed.

(** [keep]: the body leaves the password alone. *)
Lemma wp_with_session {A} (keep : Prop) bmc password (body : option string -> bmcp A) g s :
  bmc.(bm_username) = user ->
  (forall token g s, wp step (body token)
     (fun _ _ s' => quiet s s' /\ (keep -> s'.(b_password) = s.(b_password))) g s) ->
  wp step (with_session bmc password body) (fun r _ s' => exists k, logged k s s' /\ (k <= 1)%nat /\
    (forall a, r = inr a -> k = 0%nat /\ (keep -> s'.(b_password) = password))) g s.
Proof.
  intros Hu Hbody. unfold with_session. wp_pure. apply wp_get_session; [done| | | |].
  - intros e. exists 0%nat. split; [|split; [lia|done]]. split; [reflexivity|]. lia.
  - intros e. exists 1%nat. split; [|split; [lia|done]]. split; [split; simpl; set_solver|]. simpl. lia.
  - intros Hpw. wp_simp. unfold finally. wp_pure. wp_pure. wp_pure. eapply wp_mono; [|apply Hbody].
    intros r g' s1 [(Hk & Hf & Hw) Hkeep]. assert (logged 0 s s1) as Hl by (split; [done|]; lia).
    destruct r as [e|a]; repeat wp_pure; exists 0%nat; split; try done; (split; [lia|]); [done|].
    intros a' _. split; [done|]. intros Hkp. rewrite Hkeep by done. done.
  - intros token loc Hloc Hpw. wp_simp. rewrite Hloc. unfold finally. wp_pure. wp_pure. wp_pure.
    eapply wp_mono; [|apply Hbody]. intros r g' s1 [(Hk & Hf & Hw) Hkeep].
    assert (forall rr : res A, wp step (_ ← close_session bmc loc (Some token); lift rr) (fun r _ s' =>
      exists k, logged k s s' /\ (k <= 1)%nat /\
        (forall a, r = inr a -> k = 0%nat /\ (keep -> s'.(b_password) = password))) g' s1) as Hclose.
    { intros rr. wp_pure. apply (wp_close_session _ _ _ s); [by split|]. intros r' s' Hk' Hf' Hw' Hp'.
      assert (logged 0 s s') as Hl by (split; [done|]; rewrite Hf', Hf, Hw', Hw; simpl; lia).
      assert (keep -> b_password s' = password) by (intros Hkp; rewrite Hp', Hkeep by done; done).
      destruct r' as [e|[]]; repeat wp_pure; exists 0%nat; split; (done || (split; [lia|done])). }
    destruct r as [e|a]; wp_pure; apply Hclose.
Qed.

Lemma wp_log_in bmc password new_password g s :
  bmc.(bm_username) = user ->
  wp step (_log_in_and_set_password bmc password new_password) (fun r _ s' => exists k, logged k s s' /\ (k <= 1)%nat /\
    (r = inr tt -> s'.(b_password) = new_password)) g s.
Proof.
  intros Hu. unfold _log_in_and_set_password. wp_pure.
  assert (forall s1 g1, quiet s s1 \/ logged 0 s s1 -> wp step (with_session bmc new_password (fun _ => mret tt))
    (fun r _ s' => exists k, logged k s s' /\ (k <= 1)%nat /\ (r = inr tt -> s'.(b_password) = new_password)) g1 s1) as Hlast.
  { intros s1 g1 H1. eapply wp_mono; [|apply (wp_with_session True); [done|by intros; wp_pure]].
    intros r g2 s2 (k & (Hk & Hf & Hw) & Hk1 & Hr). exists k. split; [|split; [done|]].
    - destruct H1 as [(Hk' & Hf' & Hw')|(Hk' & Hf' & Hw')]; (split; [by etrans|]); lia.
    - intros ->. by destruct (Hr tt eq_refl) as [_ ?]; auto. }
  case_bool_decide; [|wp_pure; apply Hlast; left; reflexivity].
  eapply wp_mono; [|apply (wp_with_session False); [done|]].
  - intros [e|[]] g1 s1 (k & Hl & Hk1 & Hr); [by exists k|]. destruct (Hr tt eq_refl) as [-> _]. apply Hlast. by right.
  - intros token g1 s1. eapply wp_mono; [|by apply wp_set_bmc_creds]. intros r g2 s2 Hq. by split.
Qed.

Lemma wp_try_passwords bmc new_password candidates attempt failures g s :
  bmc.(bm_username) = user -> ((attempt <= 1)%nat -> (s.(b_fails) <= attempt)%nat) ->
  wp step (try_passwords bmc new_password attempt candidates failures) (fun r _ s' =>
    kept s s' /\ (s'.(b_worst) <= Nat.max s.(b_worst) 2)%nat /\
    match r with inr _ => s'.(b_password) = new_password | inl e => is_RedfishRequestError e = false end) g s.
Proof.
  intros Hu. revert attempt failures g s. induction candidates as [|password rest IH]; intros attempt failures g s Ha.
  { cbn [try_passwords]. wp_pure. split; [reflexivity|]. split; [lia|done]. }
  cbn [try_passwords]. wp_pure.
  assert (forall s1 g1, kept s s1 -> (s1.(b_worst) <= s.(b_worst))%nat -> (s1.(b_fails) <= 1)%nat ->
    ((S attempt <= 1)%nat -> s1.(b_fails) = 0%nat) ->
    wp step (done ← try_except (_ ← _log_in_and_set_password bmc password new_password; mret None)
               (fun e => if is_RedfishRequestError e then mret (Some e) else Raise e);
             match done with
             | None => mret tt
             | Some e => try_passwords bmc new_password (S attempt) rest (failures ++ [e])
             end) (fun r _ s' => kept s s' /\ (s'.(b_worst) <= Nat.max s.(b_worst) 2)%nat /\
      match r with inr _ => s'.(b_password) = new_password | inl e => is_RedfishRequestError e = false end) g1 s1) as Hgo.
  { intros s1 g1 Hk Hw Hf Hz. repeat wp_pure. eapply wp_mono; [|by apply wp_log_in].
    intros r g2 s2 (k & (Hk2 & Hf2 & Hw2) & Hk1 & Hr). assert (kept s s2) as Hks by (by etrans).
    destruct r as [e|[]]; [|repeat wp_pure; split; [done|]; split; [lia|by apply Hr]].
    destruct (is_RedfishRequestError e) eqn:He; repeat wp_pure; [|split; [done|]; split; [lia|done]].
    eapply wp_mono; [|apply IH; intros HS; specialize (Hz HS); lia].
    intros r g3 s3 (Hk3 & Hw3 & Hr3). split; [by etrans|]. split; [lia|done]. }
  destruct (Nat.ltb_spec 1 attempt) as [H1|H1].
  - apply wp_call. intros r s1 [-> ->]. wp_simp. apply Hgo; simpl; try lia. split; simpl; set_solver.
  - wp_pure. specialize (Ha H1). apply Hgo; try lia. reflexivity.
Qed.
End controller.

(** C14. Setting the production password.  If the function returns, the password
    of the account is the production one (a log-in with it was accepted), from
    whatever password and whatever the controller answers to the other requests;
    it never raises a Redfish error itself; every session opened on the way is
    closed again unless the controller refuses to; the caller's controller object
    is untouched; and the controller never sees more than two refused log-ins
    without a wait of a minute between them. *)
Theorem set_bmc_password_spec ip new_password user old_password g s :
  s.(b_fails) = 0%nat ->
  wp (bmc_step user) (set_bmc_password ip new_password user old_password) (fun r g' s' =>
    g' = g /\ kept s s' /\ (s'.(b_worst) <= Nat.max s.(b_worst) 2)%nat /\
    match r with inr _ => s'.(b_password) = new_password | inl e => is_RedfishRequestError e = false end) g s.
Proof.
  intros Hf. unfold set_bmc_password, with_own_bmc, finally. cbn zeta. repeat wp_pure.
  eapply wp_mono; [|apply wp_try_passwords; [done|lia]].
  intros [e|[]] g1 s1 (Hk & Hw & Hr); repeat wp_pure; split_and!; done.
Qed.

Lemma set_bmc_password_spec_witness :
  let s := BmcState "calvin" ∅ ∅ 0 0 in
  wp (bmc_step "root") (set_bmc_password "10.0.0.1" "secret" "root" None) (fun r g' s' =>
    g' = no_paths /\ kept s s' /\ (s'.(b_worst) <= Nat.max s.(b_worst) 2)%nat /\
    match r with inr _ => s'.(b_password) = "secret" | inl e => is_RedfishRequestError e = false end) no_paths s.
Proof. apply (set_bmc_password_spec "10.0.0.1" "secret" "root" None no_paths (BmcState "calvin" ∅ ∅ 0 0)). reflexivity. Defined.

(** *** A run *)

Definition ok_json (v : json) : res response := inr (Response 200 "OK" "{..}" (inr v) []).
Definition unauthorized : res response := inr (Response 401 "Unauthorized" "" (inr (JObj [])) []).
Definition link (k path : string) : json := JObj [(k, JObj [("@odata.id", JStr path)])].
(** A controller with one account, [root]; [drops] ends all sessions when the
    password changes.  The state is the password and the open sessions. *)
Definition controller_env (drops : bool) (R : Type) (op : redfishE R) (s : string * list string) : res R * (string * list string) :=
  match op in redfishE R return res R * (string * list string) with
  | Sleep _ => (inr tt, s)
  | Http _ method path _ token payload =>
      if decide (method = "POST") then
        match payload with
        | Some (JObj [(_, JStr u); (_, JStr p)]) =>
            if bool_decide (u = "root" /\ p = s.1) then
              let loc := "/s/" +:+ pretty (Z.of_nat (length s.2)) in
              (inr (Response 201 "Created" "{..}" (inr (JObj [("@odata.id", JStr loc)])) [("X-Auth-Token", loc)]), (s.1, loc :: s.2))
            else (unauthorized, s)
        | _ => (unauthorized, s)
        end
      else if negb (bool_decide (default "" token ∈ s.2)) then (unauthorized, s)
      else if decide (method = "DELETE") then
        (inr (Response 204 "No Content" "" (inr JNull) []), (s.1, List.filter (fun x => bool_decide (x <> path)) s.2))
      else if decide (method = "PATCH") then
        match payload with
        | Some (JObj [(_, JStr p)]) => (ok_json (JObj []), (p, if drops then [] else s.2))
        | _ => (unauthorized, s)
        end
      else
        (ok_json (if decide (path = "/redfish/v1") then link "AccountService" "/as"
                  else if decide (path = "/as") then link "Accounts" "/as/a"
                  else if decide (path = "/as/a") then JObj [("Members", JArr [JObj [("@odata.id", JStr "/as/a/1")]])]
                  else JObj [("@odata.id", JStr "/as/a/1"); ("UserName", JStr "root")]), s)
  end.
Example factory_password_replaced :
  run (controller_env false) (set_bmc_password "10.0.0.1" "secret" "root" None) no_paths ("calvin", []) =
    (inr tt, no_paths, ("secret", [])).
Proof. by vm_compute. Qed.
(** When the change of the password ends the session, closing it is refused and
    counts as a failed attempt: the function raises, though the production
    password is set. *)
Example password_set_but_refused :
  let '(r, _, s) := run (controller_env true) (set_bmc_password "10.0.0.1" "secret" "root" None) no_paths ("calvin", []) in
  s.1 = "secret" /\ exists args, r = inl (AuthException args).
Proof. vm_compute. split; [done|]. by eexists. Qed.

(** ** BIOS settings converge *)

(** What a setting will be after the next boot. *)
Definition effective (key : string) (current pending : dict json) : json :=
  let p := default JNull (dict_get key pending) in
  if is_none p then default JNull (dict_get key current) else p.

Lemma required_change_iff key v current pending :
  required_change_for_bios_setting key v current pending = None <->
  default JNull (dict_get key current) = JNull \/ effective key current pending = JStr v.
Proof.
  unfold required_change_for_bios_setting, effective.
  set (a := default JNull (dict_get key current)). set (p := default JNull (dict_get key pending)).
  assert (forall x, is_none x = true <-> x = JNull) as Hn by (by intros []).
  assert (forall x, is_text x v = true <-> x = JStr v) as Ht.
  { intros []; simpl; try (split; [done|congruence]). case_bool_decide; split; congruence. }
  destruct (is_none a) eqn:Ha; [apply Hn in Ha; split; [by left|done]|].
  assert (a <> JNull) by (intros Hc%Hn; congruence).
  destruct (is_text p v) eqn:Hp.
  { apply Ht in Hp. rewrite Hp. split; [by right|done]. }
  assert (p <> JStr v) by (intros Hc%Ht; congruence).
  destruct (is_none p) eqn:Hpn; simpl; [|split; [done|naive_solver]].
  destruct (is_text a v) eqn:Hav; [apply Ht in Hav; split; [by right|done]|].
  split; [done|]. intros [?|Hc%Ht]; [done|congruence].
Qed.
Lemma required_change_value key v current pending w :
  required_change_for_bios_setting key v current pending = Some w -> w = v.
Proof. unfold required_change_for_bios_setting. repeat case_match; congruence. Qed.

(** Every required setting that the BIOS has is, or will be, as required. *)
Definition settled (pxe_interface : option string) (current pending : dict json) : Prop :=
  forall k v, (k, v) ∈ required_bios_settings pxe_interface ->
    default JNull (dict_get k current) = JNull \/ effective k current pending = JStr v.

Lemma required_keys_NoDup pxe_interface : NoDup (required_bios_settings pxe_interface).*1.
Proof.
  unfold required_bios_settings. apply (bool_decide_unpack _).
  by destruct (truthy pxe_interface); vm_compute.
Qed.
Lemma bios_changes_elem pxe current pending k v :
  (k, v) ∈ bios_changes pxe current pending <->
  (k, v) ∈ required_bios_settings pxe /\ required_change_for_bios_setting k v current pending = Some v.
Proof.
  unfold bios_changes. rewrite list_elem_of_omap. split.
  - intros ([k' v'] & Hin & (w & Hw & [= -> ->])%fmap_Some). pose proof (required_change_value _ _ _ _ _ Hw) as ->. done.
  - intros [Hin Hc]. exists (k, v). split; [done|]. by rewrite Hc.
Qed.
Lemma bios_changes_nil pxe current pending : bios_changes pxe current pending = [] <-> settled pxe current pending.
Proof.
  split.
  - intros Hnil k v Hin. apply required_change_iff.
    destruct (required_change_for_bios_setting k v current pending) as [w|] eqn:Hc; [|done].
    pose proof (required_change_value _ _ _ _ _ Hc) as ->.
    assert ((k, v) ∈ bios_changes pxe current pending) as Hin' by (by apply bios_changes_elem).
    rewrite Hnil in Hin'. by apply elem_of_nil in Hin'.
  - intros Hs. destruct (bios_changes pxe current pending) as [|[k v] l] eqn:He; [done|].
    assert ((k, v) ∈ bios_changes pxe current pending) as [Hin Hc]%bios_changes_elem by (rewrite He; left).
    apply Hs, required_change_iff in Hin. congruence.
Qed.

(** Merging a patch into the pending settings. *)
Definition merge (pending : dict json) (changes : dict string) : dict json :=
  foldl (fun d '(k, v) => dict_set k (JStr v) d) pending changes.
Lemma merge_get changes pending k :
  NoDup changes.*1 ->
  dict_get k (merge pending changes) =
    match dict_get k changes with Some v => Some (JStr v) | None => dict_get k pending end.
Proof. apply (dict_get_update JStr). Qed.
Lemma bios_changes_NoDup pxe current pending : NoDup (bios_changes pxe current pending).*1.
Proof.
  unfold bios_changes. pose proof (required_keys_NoDup pxe) as Hnd.
  induction (required_bios_settings pxe) as [|[k v] l IH]; [constructor|]. apply NoDup_cons in Hnd as [Hnin Hnd]. simpl.
  destruct (required_change_for_bios_setting k v current pending) as [w|]; simpl; [|by apply IH].
  apply NoDup_cons. split; [|by apply IH]. intros ([k' v'] & -> & ([k2 v2] & Hin & (w' & _ & [= -> ->])%fmap_Some)%list_elem_of_omap)%list_elem_of_fmap.
  apply Hnin. apply list_elem_of_fmap. by exists (k2, v2).
Qed.

(** The pending settings after the patch settle everything. *)
Lemma merge_settled pxe current pending : settled pxe current (merge pending (bios_changes pxe current pending)).
Proof.
  intros k v Hin. set (ch := bios_changes pxe current pending).
  destruct (required_change_for_bios_setting k v current pending) as [w|] eqn:Hc.
  - pose proof (required_change_value _ _ _ _ _ Hc) as ->. right. unfold effective.
    rewrite merge_get by apply bios_changes_NoDup.
    assert (dict_get k ch = Some v) as ->; [|done].
    apply dict_get_elem; [apply bios_changes_NoDup|]. by apply bios_changes_elem.
  - pose proof Hc as [?|He]%required_change_iff; [by left|]. right. unfold effective in *.
    rewrite merge_get by apply bios_changes_NoDup.
    destruct (dict_get k ch) as [w|] eqn:Hk; [|done].
    apply dict_get_elem in Hk; [|apply bios_changes_NoDup]. apply bios_changes_elem in Hk as [Hin' Hw].
    assert (w = v) as ->; [|congruence].
    pose proof (required_keys_NoDup pxe) as Hnd. apply (dict_get_elem k v) in Hin; [|done].
    apply (dict_get_elem k w) in Hin'; [|done]. congruence.
Qed.

(** The settings in force, those pending, and whether a patch was refused
    because a job is queued already. *)
Record bios_state := BiosState { bs_current : dict json; bs_pending : dict json; bs_queued : bool }.
Definition answers (r : res response) (v : json) : Prop :=
  exists rsp, r = inr rsp /\ rsp.(rsp_status) < 400 /\ truthy rsp.(rsp_text) = true /\ rsp.(rsp_json) = inr v.
(** Without effect: no answer, or a refusal that does not speak of a queued job. *)
Definition fails (r : res response) : Prop :=
  (exists e, r = inl e /\ is_RedfishRequestError e = false) \/
  (exists rsp, r = inr rsp /\ 400 <= rsp.(rsp_status) /\
     forall bmc path, repr_mentions "Pending configuration values" (http_failure bmc path rsp) = false).
Definition bios_payload (changes : dict string) : json :=
  JObj [("@Redfish.SettingsApplyTime", JObj [("ApplyTime", JStr "OnReset")]);
        ("Attributes", JObj (prod_map id JStr <$> changes))].
Definition bios_step (sys : string) (R : Type) (op : redfishE R) : bios_state -> res R -> bios_state -> Prop :=
  match op in redfishE R return bios_state -> res R -> bios_state -> Prop with
  | Sleep _ => fun s r s' => r = inr tt /\ s' = s
  | Http _ method path _ _ payload => fun s r s' =>
      if decide (method = "PATCH") then
        path = sys +:+ "/Bios/Settings" ->
        (fails r /\ s' = s) \/
        (exists rsp, r = inr rsp /\ 400 <= rsp.(rsp_status) /\ s' = BiosState s.(bs_current) s.(bs_pending) true) \/
        (exists rsp changes, r = inr rsp /\ rsp.(rsp_status) < 400 /\ (exists v, rsp.(rsp_json) = inr v) /\
           payload = Some (bios_payload changes) /\
           s' = BiosState s.(bs_current) (merge s.(bs_pending) changes) s.(bs_queued))
      else
        s' = s /\
        (path = sys +:+ "/Bios" -> fails r \/ answers r (JObj [("Attributes", JObj s.(bs_current))])) /\
        (path = sys +:+ "/Bios/Settings" -> fails r \/ answers r (JObj [("Attributes", JObj s.(bs_pending))]) \/
           (s.(bs_pending) = [] /\ answers r (JObj [])))
  end.

Section bios.
Context (sys : string) (bmc : BmcT) (Hsys : truthy sys = true).
Abbreviation step := (bios_step sys).
Abbreviation here := (fun g : paths => g.(system_cache) = Some sys).

Lemma wp_system_path Q g s : here g -> (forall g', here g' -> Q (inr sys) g' s) -> wp step (system_path bmc) Q g s.
Proof.
  intros Hg HQ. unfold system_path. wp_pure. wp_pure. rewrite Hg. unfold truthy at 1, truthy_option at 1. rewrite Hsys.
  repeat wp_pure. by apply HQ.
Qed.

Lemma wp_get path Q g s :
  (forall e, Q (inl e) g s) ->
  (forall v r, (path = sys +:+ "/Bios" -> fails r \/ answers r (JObj [("Attributes", JObj s.(bs_current))])) /\
     (path = sys +:+ "/Bios/Settings" -> fails r \/ answers r (JObj [("Attributes", JObj s.(bs_pending))]) \/
        (s.(bs_pending) = [] /\ answers r (JObj []))) ->
     ~ fails r -> (forall w, answers r w -> v = w) -> Q (inr v) g s) ->
  wp step (redfish_get bmc path) Q g s.
Proof.
  intros Herr Hok. unfold redfish_get, redfish_request. cbn zeta. wp_pure. apply wp_call. intros r s' Hs.
  cbn [bios_step] in Hs. rewrite decide_False in Hs by done. destruct Hs as (-> & Hs).
  destruct r as [e|rsp]; wp_simp; [apply Herr|].
  destruct (Z.leb_spec 400 (rsp_status rsp)) as [H4|H4]; [wp_pure; apply Herr|].
  assert (~ fails (inr rsp)) as Hnf.
  { intros [(e & [=] & _)|(rsp' & [= <-] & Hst & _)]. lia. }
  destruct (truthy (rsp_text rsp)) eqn:Ht; wp_pure.
  - destruct (rsp_json rsp) as [e|v] eqn:Hj; [apply Herr|].
    apply (Hok v _ Hs Hnf). intros w (rsp' & [= <-] & _ & _ & Hw). congruence.
  - apply (Hok _ _ Hs Hnf). intros w (rsp' & [= <-] & _ & Htw & _). congruence.
Qed.

Lemma wp_patch_bios changes g s (Q : res unit -> paths -> bios_state -> Prop) :
  here g ->
  (forall e g' s', s' = s -> Q (inl e) g' s') -> (forall e g', Q (inl e) g' (BiosState s.(bs_current) s.(bs_pending) true)) ->
  (forall g', Q (inr tt) g' (BiosState s.(bs_current) s.(bs_pending) true)) ->
  (forall g' ch, bios_payload changes = bios_payload ch -> Q (inr tt) g' (BiosState s.(bs_current) (merge s.(bs_pending) ch) s.(bs_queued))) ->
  wp step (patch_bios_settings bmc changes) Q g s.
Proof.
  intros Hg Herr Herr' Hqueued Hok. unfold patch_bios_settings. wp_pure. apply wp_system_path; [done|]. intros g1 Hg1.
  wp_simp. cbn zeta. unfold redfish_request. cbn zeta. repeat wp_pure. apply wp_call. intros r s' Hs.
  cbn [bios_step] in Hs. rewrite decide_True in Hs by done.
  destruct (Hs eq_refl) as [[Hfail ->]|[(rsp & -> & Hst & ->)|(rsp & ch & -> & Hst & [v Hv] & Hpay & ->)]].
  - destruct Hfail as [(e & -> & He)|(rsp & -> & Hst & Hm)]; wp_simp.
    + rewrite He. wp_simp. wp_pure. by apply Herr.
    + rewrite (proj2 (Z.leb_le 400 _)) by done. repeat wp_pure. rewrite Hm, andb_false_r. wp_pure. by apply Herr.
  - wp_simp. rewrite (proj2 (Z.leb_le 400 _)) by done. repeat wp_pure. case_match; wp_pure; [apply Hqueued|apply Herr'].
  - wp_simp. rewrite (proj2 (Z.leb_gt 400 _)) by done. wp_simp. injection Hpay as Hpay.
    destruct (truthy (rsp_text rsp)); [rewrite Hv|]; repeat wp_pure; apply Hok; unfold bios_payload; congruence.
Qed.
End bios.

Lemma bios_payload_inj ch ch' : bios_payload ch = bios_payload ch' -> ch = ch'.
Proof.
  unfold bios_payload. intros [= H]. revert ch' H. induction ch as [|[k v] l IH]; intros [|[k' v'] l']; simpl; try done.
  intros [= -> -> Hl]. by rewrite (IH l').
Qed.
Lemma path_ne sys : sys +:+ "/Bios" <> sys +:+ "/Bios/Settings".
Proof. induction sys as [|c sys IH]; simpl; [done|]. intros [= H]. by apply IH. Qed.

(** C37. The BIOS settings converge.  Whatever is set and pending, the update keeps
    the settings in force; when it returns, every required setting that the BIOS
    has is in force or pending as required, unless the controller said that a
    settings job is queued already; it returns no changes exactly when that was
    so before, and then it writes nothing. *)
Theorem bios_settings_converge sys bmc pxe_interface g s :
  truthy sys = true -> g.(system_cache) = Some sys ->
  wp (bios_step sys) (update_dell_bios_settings bmc pxe_interface) (fun r _ s' =>
    s'.(bs_current) = s.(bs_current) /\
    (settled pxe_interface s.(bs_current) s.(bs_pending) -> s' = s) /\
    forall changes, r = inr changes ->
      (changes = [] <-> settled pxe_interface s.(bs_current) s.(bs_pending)) /\
      (settled pxe_interface s'.(bs_current) s'.(bs_pending) \/ s'.(bs_queued) = true)) g s.
Proof.
  intros Hsys Hg. unfold update_dell_bios_settings, jdict. wp_pure. apply wp_system_path; [done|done|]. intros g1 Hg1. wp_simp.
  wp_pure. apply wp_get; [done|]. intros v1 r1 [H1 _] Hnf1 Hv1. wp_simp.
  destruct (H1 eq_refl) as [?|Ha1]; [done|]. rewrite (Hv1 _ Ha1). wp_pure. wp_pure.
  change (jitem "Attributes" (JObj [("Attributes", JObj (bs_current s))])) with (@inr exn json (JObj (bs_current s))). wp_simp.
  wp_pure. apply wp_system_path; [done|done|]. intros g2 Hg2. wp_simp.
  wp_pure. apply wp_get; [done|]. intros v2 r2 [_ H2] Hnf2 Hv2. wp_simp.
  assert (jget_or "Attributes" (JObj []) v2 = inr (JObj s.(bs_pending))) as Hp.
  { destruct (H2 eq_refl) as [?|[Ha|[He Ha]]]; [done| |]; rewrite (Hv2 _ Ha); [done|]. by rewrite He. }
  wp_pure. wp_pure. rewrite Hp. wp_simp. do 4 wp_pure. cbn zeta. set (ch := bios_changes _ _ _).
  assert (ch = [] <-> settled pxe_interface s.(bs_current) s.(bs_pending)) as Hnil by apply bios_changes_nil.
  wp_pure. destruct (truthy ch) eqn:Ht.
  - assert (settled pxe_interface s.(bs_current) s.(bs_pending) -> False) as Hno by (intros Hs%Hnil; by rewrite Hs in Ht).
    apply wp_patch_bios; [done|done| | | |].
    + intros e g' s' ->. done.
    + intros e g'. split_and!; try done.
    + intros g'. wp_pure. split_and!; try done. intros c [= <-]. auto.
    + intros g' c <-%bios_payload_inj. wp_pure. split_and!; try done. intros c' [= <-]. split; [done|]. left. apply merge_settled.
  - assert (ch = []) as Hch by (by destruct ch). repeat wp_pure. split_and!; try done.
    intros c [= <-]. split; [done|]. left. by apply Hnil.
Qed.

Lemma bios_settings_converge_witness :
  let s := BiosState [("TimeZone", JStr "GMT"); ("SecureBoot", JStr "Disabled")] [] false in
  let g := Paths None (Some "/redfish/v1/Systems/1") None in
  wp (bios_step "/redfish/v1/Systems/1") (update_dell_bios_settings (MkBmcT "10.0.0.1" "root" "pw") (Some "NIC.Slot.1-1"))
    (fun r _ s' => s'.(bs_current) = s.(bs_current) /\
       (settled (Some "NIC.Slot.1-1") s.(bs_current) s.(bs_pending) -> s' = s) /\
       forall changes, r = inr changes ->
         (changes = [] <-> settled (Some "NIC.Slot.1-1") s.(bs_current) s.(bs_pending)) /\
         (settled (Some "NIC.Slot.1-1") s'.(bs_current) s'.(bs_pending) \/ s'.(bs_queued) = true)) g s.
Proof.
  apply (bios_settings_converge "/redfish/v1/Systems/1" (MkBmcT "10.0.0.1" "root" "pw") (Some "NIC.Slot.1-1"));
    reflexivity.
Defined.
