(* ===== verification/Raid.v ===== *)
(** * RAID volumes

    Models [src/python/understack-workflows/understack_workflows/raid.py].  A
    Python set is a [gset]; the order in which it is iterated is [iter_disks], of
    which only that it lists the members once is used. *)
From S2P Require Import Prelude PyStr PyData Nautobot IronicNode Bmc.
Local Open Scope Z_scope.

(* understack_workflows/raid.py:12-16 PhysicalDisk *)
Record PhysicalDisk := MkDisk { disk_id : string; disk_controller : string; disk_size_gb : Z }.
#[export] Instance PhysicalDisk_eq_dec : EqDecision PhysicalDisk.
Proof. solve_decision. Defined.
#[export] Instance PhysicalDisk_countable : Countable PhysicalDisk.
Proof.
  apply (inj_countable' (fun d => (d.(disk_id), d.(disk_controller), d.(disk_size_gb)))
           (fun '(i, c, s) => MkDisk i c s)). by intros [].
Defined.

(** [n // 10**9] of a number *)
Definition jgigabytes (v : json) : res Z :=
  match v with
  | JNum z => Ok (z / 10 ^ 9)
  | JBool _ => Ok 0
  | _ => Err (TypeError ["//"])
  end.
(* understack_workflows/raid.py:86-100 _physical_disks_for_controller *)
Definition _physical_disks_for_controller (storage_controller : json) : res (gset PhysicalDisk) :=
  id ← jget "id" storage_controller; controller_id ← json_str id;
  disks ← jget_or "drives" (JArr []) storage_controller;
  if negb (contains "RAID" (upper controller_id)) then Ok ∅ else
  disks ← jiter disks;
  l ← res_map (fun disk => id ← jtext_at "id" disk; size ← jitem "size" disk; gb ← jgigabytes size;
                           Ok (MkDisk id controller_id gb)) disks;
  Ok (list_to_set l).
(* understack_workflows/raid.py:72-83 _physical_disks_from_inventory *)
Definition _physical_disks_from_inventory (inventory : json) : res (gset PhysicalDisk) :=
  inventory_data ← jget_or "inventory" (JObj []) inventory;
  controllers ← jget_or "storage_controllers" (JArr []) inventory_data; controllers ← jiter controllers;
  sets ← res_map _physical_disks_for_controller controllers;
  Ok (⋃ sets).

Abbreviation volume_key := (Z * string)%type.
Definition key_of (d : PhysicalDisk) : volume_key := (d.(disk_size_gb), d.(disk_controller)).
(** [groups.setdefault(key, []).append(disk)] *)
Fixpoint add_to_group (d : PhysicalDisk) (groups : list (volume_key * list PhysicalDisk)) : list (volume_key * list PhysicalDisk) :=
  match groups with
  | [] => [(key_of d, [d])]
  | (k, l) :: rest => if decide (k = key_of d) then (k, l ++ [d]) :: rest else (k, l) :: add_to_group d rest
  end.
(* understack_workflows/raid.py:103-110 _group_by_size_and_controller *)
Definition _group_by_size_and_controller (disks : list PhysicalDisk) : list (volume_key * list PhysicalDisk) :=
  foldl (fun groups d => add_to_group d groups) [] disks.

(* understack_workflows/raid.py:113-120 _raid_level *)
Definition _raid_level (disk_count : nat) : string :=
  match disk_count with 1%nat => "0" | 2%nat => "1" | _ => "5" end.

Record logical_disk := LogicalDisk {
  ld_controller : string; ld_physical_disks : list string; ld_raid_level : string; ld_is_root_volume : bool;
}.
Definition volume (is_root : bool) (k : volume_key) (l : list PhysicalDisk) : logical_disk :=
  LogicalDisk k.2 (merge_sort str_le (map disk_id l)) (_raid_level (length l)) is_root.
(** The keys of the groups are distinct, so the groups themselves are never
    compared. *)
Definition group_le (a b : volume_key * list PhysicalDisk) : Prop := key_le a.1 b.1.
#[export] Instance group_le_dec : RelDecision group_le.
Proof. intros a b. unfold group_le. apply _. Defined.
(* understack_workflows/raid.py:58-69 _logical_disks *)
Definition _logical_disks (disks : list PhysicalDisk) : list logical_disk :=
  imap (fun i '(k, l) => volume (Nat.eqb i 0) k l) (merge_sort group_le (_group_by_size_and_controller disks)).

Definition json_of_volume (v : logical_disk) : json :=
  JObj [("controller", JStr v.(ld_controller)); ("physical_disks", JArr (map JStr v.(ld_physical_disks)));
        ("raid_level", JStr v.(ld_raid_level)); ("size_gb", JStr "MAX"); ("is_root_volume", JBool v.(ld_is_root_volume))].
(* understack_workflows/raid.py:53-55 _generate_raid_config *)
Definition _generate_raid_config (disks : list PhysicalDisk) : json :=
  JObj [("logical_disks", JArr (map json_of_volume (_logical_disks disks)))].

Definition raid_step (name : string) : json := JObj [("interface", JStr "raid"); ("step", JStr name)].
(* understack_workflows/raid.py:19-50 configure_raid *)
Definition configure_raid (iter_disks : gset PhysicalDisk -> list PhysicalDisk) (node : Node) (inventory : json) : flow unit :=
  physical_disks ← lift (_physical_disks_from_inventory inventory);
  if decide (physical_disks = ∅) then mret tt else
  _ ← set_target_raid_config node (_generate_raid_config (iter_disks physical_disks));
  transition_with node "clean" (Some "manageable")
    (Some (JArr [raid_step "delete_configuration"; raid_step "create_configuration"])) None (Some false).

(** ** The orders *)

#[export] Instance str_le_antisymm : AntiSymm eq str_le.
Proof. intros a b. apply String.leb_antisym. Qed.
#[export] Instance key_le_trans : Transitive key_le.
Proof.
  intros [a s] [b t] [c u]. unfold key_le. simpl. intros [H1|[-> H1]] [H2|[<- H2]]; [left; lia|by left|by left|].
  right. split; [done|]. by eapply str_leb_trans.
Qed.
#[export] Instance key_le_total : Total key_le.
Proof.
  intros [a s] [b t]. unfold key_le. simpl. destruct (Z.lt_trichotomy a b) as [?|[->|?]]; [by left; left| |by right; left].
  destruct (String.leb_total s t); [left|right]; by right.
Qed.
#[export] Instance key_le_antisymm : AntiSymm eq key_le.
Proof.
  intros [a s] [b t]. unfold key_le. simpl. intros [H1|[-> H1]] [H2|[H2 H3]]; try lia.
  f_equal. by apply String.leb_antisym.
Qed.
#[export] Instance group_le_trans : Transitive group_le.
Proof. intros a b c. unfold group_le. apply key_le_trans. Qed.
#[export] Instance group_le_total : Total group_le.
Proof. intros a b. unfold group_le. apply key_le_total. Qed.

Lemma merge_sort_unique {A} (R : relation A) `{!RelDecision R, !Transitive R, !Total R, !AntiSymm eq R} (l k : list A) :
  l ≡ₚ k -> merge_sort R l = merge_sort R k.
Proof.
  intros Hp. apply (StronglySorted_unique R); try (apply StronglySorted_merge_sort; apply _).
  by rewrite !merge_sort_Permutation.
Qed.

(** ** Reference *)

(** The ids of the disks of one size on one controller. *)
Definition ids_of (size : Z) (controller : string) (disks : list PhysicalDisk) : list string :=
  omap (fun d => if decide (d.(disk_size_gb) = size /\ d.(disk_controller) = controller) then Some d.(disk_id) else None) disks.
(** One volume for every pair of a size and a controller that occurs, smallest
    size first: all the disks of the pair, sorted; level 0 of one disk, 1 of two and
    5 of more; the first volume is the root. *)
Definition raid_volumes (disks : list PhysicalDisk) : list json :=
  imap (fun i '(size, controller) =>
      let ids := ids_of size controller disks in
      JObj [("controller", JStr controller);
            ("physical_disks", JArr (map JStr (merge_sort str_le ids)));
            ("raid_level", JStr (if decide (length ids = 1%nat) then "0" else if decide (length ids = 2%nat) then "1" else "5"));
            ("size_gb", JStr "MAX"); ("is_root_volume", JBool (bool_decide (i = 0%nat)))])
    (merge_sort key_le (remove_dups (map (fun d => (d.(disk_size_gb), d.(disk_controller))) disks))).

(** A group holds the disks of its key, in order. *)
Definition grouped (disks : list PhysicalDisk) (groups : list (volume_key * list PhysicalDisk)) : Prop :=
  NoDup groups.*1 /\ (forall k, k ∈ groups.*1 <-> k ∈ map key_of disks) /\
  Forall (fun g => g.2 = filter (fun d => key_of d = g.1) disks) groups.

Lemma add_to_group_keys d groups k : k ∈ (add_to_group d groups).*1 <-> k = key_of d \/ k ∈ groups.*1.
Proof.
  induction groups as [|[k' l] rest IH]; simpl; [set_solver|]. case_decide as Hk; simpl; [subst; set_solver|].
  rewrite !elem_of_cons, IH. naive_solver.
Qed.
Lemma add_to_group_NoDup d groups : NoDup groups.*1 -> NoDup (add_to_group d groups).*1.
Proof.
  induction groups as [|[k' l] rest IH]; simpl; [intros _; apply NoDup_singleton|].
  intros [Hnin Hnd]%NoDup_cons. case_decide as Hk; simpl; [by apply NoDup_cons|].
  apply NoDup_cons. split; [|by apply IH]. rewrite add_to_group_keys. naive_solver.
Qed.
Lemma add_to_group_values d groups disks :
  NoDup groups.*1 -> Forall (fun g => g.2 = filter (fun x => key_of x = g.1) disks) groups ->
  (key_of d ∉ groups.*1 -> key_of d ∉ map key_of disks) ->
  Forall (fun g => g.2 = filter (fun x => key_of x = g.1) (disks ++ [d])) (add_to_group d groups).
Proof.
  intros Hnd Hall Hnew. induction groups as [|[k l] rest IH]; simpl.
  - constructor; [|done]. simpl. rewrite filter_app. rewrite (filter_cons_True (fun x => key_of x = key_of d) d []) by done.
    assert (filter (fun x => key_of x = key_of d) disks = []) as ->; [|done].
    assert (key_of d ∉ map key_of disks) as Hn by (apply Hnew; apply not_elem_of_nil).
    clear -Hn. induction disks as [|x disks IH]; [done|]. rewrite filter_cons_False; [apply IH; intros Hc; apply Hn; by right|].
    intros Heq. apply Hn. simpl. rewrite Heq. left.
  - apply NoDup_cons in Hnd as [Hnin Hnd]. apply Forall_cons in Hall as [Hl Hall]. simpl in Hl, Hnin.
    case_decide as Hk.
    + constructor; simpl.
      * rewrite filter_app, (filter_cons_True _ d []) by done. by rewrite Hl.
      * rewrite Forall_forall in Hall |- *. intros [k' l'] Hin. rewrite (Hall _ Hin). simpl. rewrite filter_app.
        rewrite (filter_cons_False _ d []); [by rewrite app_nil_r|]. intros Heq. apply Hnin.
        apply list_elem_of_fmap. exists (k', l'). split; [|done]. simpl. congruence.
    + constructor; simpl.
      * rewrite filter_app, (filter_cons_False _ d []) by done. by rewrite app_nil_r.
      * apply IH; [done|done|]. intros Hn. apply Hnew. by intros [Heq|Hc]%elem_of_cons; [apply Hk|apply Hn].
Qed.

Lemma group_spec disks : grouped disks (_group_by_size_and_controller disks).
Proof.
  unfold _group_by_size_and_controller. induction disks as [|d disks IH] using rev_ind; [split_and!; [constructor|done|constructor]|].
  rewrite foldl_snoc. destruct IH as (Hnd & Hk & Hall). split_and!.
  - by apply add_to_group_NoDup.
  - intros k. rewrite add_to_group_keys, Hk, map_app, elem_of_app. simpl. rewrite elem_of_cons.
    pose proof (not_elem_of_nil k). tauto.
  - apply add_to_group_values; [done|done|]. by rewrite Hk.
Qed.

Lemma imap_map {A B C} (f : nat -> B -> C) (g : A -> B) (l : list A) : imap f (map g l) = imap (fun i x => f i (g x)) l.
Proof. revert f. induction l as [|x l IH]; intros f; simpl; [done|]. f_equal. apply IH. Qed.

(** The sorted groups are the groups of the sorted keys. *)
Lemma sorted_groups disks :
  merge_sort group_le (_group_by_size_and_controller disks) =
  map (fun k => (k, filter (fun d => key_of d = k) disks)) (merge_sort key_le (remove_dups (map key_of disks))).
Proof.
  destruct (group_spec disks) as (Hnd & Hk & Hall). set (groups := _group_by_size_and_controller disks) in *.
  set (sorted := merge_sort group_le groups).
  assert (sorted ≡ₚ groups) as Hperm by apply merge_sort_Permutation.
  assert (sorted.*1 = merge_sort key_le (remove_dups (map key_of disks))) as <-.
  { apply (StronglySorted_unique key_le).
    - assert (StronglySorted group_le sorted) as Hs by (apply StronglySorted_merge_sort; apply _).
      clear -Hs. induction Hs as [|[k l] s Hs IH Hf]; constructor; [done|].
      apply Forall_fmap. eapply Forall_impl; [exact Hf|]. done.
    - apply StronglySorted_merge_sort; apply _.
    - rewrite merge_sort_Permutation, Hperm. apply NoDup_Permutation; [done|apply NoDup_remove_dups|].
      intros k. by rewrite Hk, elem_of_remove_dups. }
  assert (Forall (fun g => g.2 = filter (fun d => key_of d = g.1) disks) sorted) as Hs.
  { rewrite Forall_forall in Hall |- *. intros g Hg. apply Hall. by rewrite <- Hperm. }
  clear -Hs. induction Hs as [|[k l] s Hkl Hs IH]; simpl; [done|]. simpl in Hkl. f_equal; [by rewrite Hkl|exact IH].
Qed.

Lemma ids_of_filter size controller disks :
  ids_of size controller disks = map disk_id (filter (fun d => key_of d = (size, controller)) disks).
Proof.
  unfold ids_of. induction disks as [|d disks IH]; [done|]. rewrite filter_cons. cbn [omap list_omap].
  unfold key_of in *. destruct (decide (disk_size_gb d = size /\ disk_controller d = controller)) as [[-> ->]|Hne].
  - rewrite decide_True by done. cbn. f_equal. exact IH.
  - rewrite decide_False by (intros [= ? ?]; by apply Hne). exact IH.
Qed.
(** A volume of the configuration, from the ids of its disks. *)
Lemma volume_json i size controller (l : list PhysicalDisk) ids :
  map disk_id l ≡ₚ ids ->
  json_of_volume (volume (Nat.eqb i 0) (size, controller) l) =
  JObj [("controller", JStr controller); ("physical_disks", JArr (map JStr (merge_sort str_le ids)));
        ("raid_level", JStr (if decide (length ids = 1%nat) then "0" else if decide (length ids = 2%nat) then "1" else "5"));
        ("size_gb", JStr "MAX"); ("is_root_volume", JBool (bool_decide (i = 0%nat)))].
Proof.
  intros Hp. unfold json_of_volume, volume. cbn [ld_controller ld_physical_disks ld_raid_level ld_is_root_volume snd].
  assert (length l = length ids) as -> by (rewrite <- Hp; by rewrite length_map).
  rewrite (merge_sort_unique str_le _ _ Hp). do 5 f_equal.
  - do 2 f_equal. by destruct (length ids) as [|[|[|n]]].
  - do 4 f_equal. by destruct i.
Qed.
Lemma map_imap {A B C} (g : B -> C) (f : nat -> A -> B) (l : list A) : map g (imap f l) = imap (fun i x => g (f i x)) l.
Proof. revert f. induction l as [|x l IH]; intros f; cbn; [done|]. f_equal. apply IH. Qed.

(** C36. The RAID configuration depends only on the disks, not on the order in
    which the set of them is iterated: there is one volume for each pair of a
    size and a controller that occurs, holding exactly the disks of that pair,
    sorted; its level is 0, 1 or 5 as it has one, two or more disks;
    the volumes come in the order of their disks' sizes and the first alone, of
    the smallest disks, is the root volume. *)
Theorem raid_config_canonical disks disks' :
  disks ≡ₚ disks' -> _generate_raid_config disks = JObj [("logical_disks", JArr (raid_volumes disks'))].
Proof.
  intros Hp. unfold _generate_raid_config, _logical_disks, raid_volumes. rewrite sorted_groups, imap_map, map_imap.
  change (fun d => (d.(disk_size_gb), d.(disk_controller))) with key_of.
  assert (merge_sort key_le (remove_dups (map key_of disks)) = merge_sort key_le (remove_dups (map key_of disks'))) as ->.
  { apply (merge_sort_unique key_le), NoDup_Permutation; [apply NoDup_remove_dups..|].
    intros k. rewrite !elem_of_remove_dups. by rewrite (fmap_Permutation key_of _ _ Hp). }
  do 4 f_equal. apply imap_ext. intros i [size controller] _. apply volume_json. rewrite ids_of_filter.
  apply (fmap_Permutation disk_id). by rewrite Hp.
Qed.

Definition example_disks : list PhysicalDisk :=
  [MkDisk "Disk.Bay.2" "RAID.Slot.1" 960; MkDisk "Disk.Bay.0" "RAID.Slot.1" 480; MkDisk "Disk.Bay.1" "RAID.Slot.1" 480;
   MkDisk "Disk.Bay.3" "RAID.Slot.1" 960; MkDisk "Disk.Bay.4" "RAID.Slot.1" 960].
Lemma raid_config_canonical_witness :
  _generate_raid_config example_disks = JObj [("logical_disks", JArr (raid_volumes (rev example_disks)))] /\
  raid_volumes (rev example_disks) =
    [JObj [("controller", JStr "RAID.Slot.1"); ("physical_disks", JArr [JStr "Disk.Bay.0"; JStr "Disk.Bay.1"]);
           ("raid_level", JStr "1"); ("size_gb", JStr "MAX"); ("is_root_volume", JBool true)];
     JObj [("controller", JStr "RAID.Slot.1"); ("physical_disks", JArr [JStr "Disk.Bay.2"; JStr "Disk.Bay.3"; JStr "Disk.Bay.4"]);
           ("raid_level", JStr "5"); ("size_gb", JStr "MAX"); ("is_root_volume", JBool false)]].
Proof.
  split; [|by vm_compute]. apply (raid_config_canonical example_disks (rev example_disks)). apply Permutation_rev.
Defined.
