(* ===== verification/Enroll.v ===== *)
(** * The enrolment of a server

    Models [src/python/understack-workflows/understack_workflows/main/enroll_server.py]
    and [bmc_for_ip_address] of [bmc.py]: the workflow that composes the
    controller's set-up ([Bmc]), the node in Ironic ([IronicNode]) and the RAID
    volumes ([Raid]).  [standard_password] derives a password from an address and
    a master key; [dns1] and [dns2] are the name servers of the environment. *)
From S2P Require Import Prelude PyStr PyData Nautobot DeviceSync IronicNode Bmc Raid.
Local Open Scope Z_scope.

Inductive enrolE : Type -> Type :=
| OnBmc {R} (op : redfishE R) : enrolE R
| OnIronic {R} (op : IronicAPI R) : enrolE R
| NodeInventory (uuid : string) : enrolE json
| MasterKey : enrolE string.
Abbreviation enrolp A := (prog paths enrolE A).
Definition on_bmc {A} (p : bmcp A) : enrolp A := widen (@OnBmc) p.
Definition on_ironic {A} (p : flow A) : enrolp A := embed (@OnIronic) p.

Section enrolment.
Context (standard_password : string -> string -> res string).
Context (dns1 dns2 : option string).
Context (iter_disks : gset PhysicalDisk -> list PhysicalDisk).

(* understack_workflows/bmc.py:239-257 bmc_for_ip_address *)
Definition bmc_for_ip_address (ip_address username : string) (password : option string) : enrolp BmcT :=
  password ← match password with
             | Some p => mret p
             | None => bmc_master ← call MasterKey; lift (standard_password ip_address bmc_master)
             end;
  mret (MkBmcT ip_address username password).

(* main/enroll_server.py:191-192 device_name *)
Definition device_name (device_info : ChassisInfo) : string :=
  device_info.(ci_manufacturer) +:+ "-" +:+ device_info.(ci_serial_number).

(* main/enroll_server.py:172-188 initialize_bmc *)
Definition initialize_bmc (bmc : BmcT) (old_password : option string) : bmcp ChassisInfo :=
  _ ← set_bmc_password bmc.(bm_ip) bmc.(bm_password) "root" old_password;
  device_info ← chassis_info bmc;
  _ ← (if decide (device_info.(ci_manufacturer) = "Dell") then _ ← update_dell_drac_settings dns1 dns2 bmc; mret tt
       else mret tt);
  hostname ← lift (bmc_hostname device_info);
  _ ← bmc_set_hostname bmc hostname (device_name device_info);
  mret device_info.

(* main/enroll_server.py:143-169 agent_inspection *)
Definition agent_inspection (node : Node) (virtual_media : bool) : flow unit :=
  boot_interface ← (if virtual_media then
                      refreshed ← refresh node (Some ["driver"]);
                      lift (virtual_media_boot_interface_for refreshed.(driver))
                    else mret STEADY_STATE_BOOT_INTERFACE);
  _ ← patch node ["boot_interface=" +:+ boot_interface];
  _ ← inspect node "agent";
  patch node ["boot_interface=" +:+ STEADY_STATE_BOOT_INTERFACE].

(* main/enroll_server.py:72-140 enroll *)
Definition enroll (ip_address : string) (firmware_update raid_configure : bool) (old_password : option string)
    (external_cmdb_id : option scalar) : enrolp unit :=
  bmc ← bmc_for_ip_address ip_address "root" None;
  device_info ← on_bmc (initialize_bmc bmc old_password);
  node ← on_ironic (create_or_update (MkBmc (url bmc) bmc.(bm_username) bmc.(bm_password)) (device_name device_info)
                      device_info.(ci_manufacturer) external_cmdb_id);
  _ ← on_ironic (inspect_out_of_band node);
  inventory ← call (NodeInventory node.(node_uuid));
  pxe_interface ← on_ironic (pxe_enabled_bios_name node);
  _ ← on_bmc (update_dell_bios_settings bmc pxe_interface);
  _ ← on_ironic (agent_inspection node (negb (truthy pxe_interface)));
  pxe_interface ← on_ironic (pxe_enabled_bios_name node);
  if negb (truthy pxe_interface) then Raise (RuntimeError [node.(node_uuid)]) else
  _ ← on_bmc (update_dell_bios_settings bmc pxe_interface);
  _ ← (if raid_configure then
         _ ← on_ironic (configure_raid iter_disks node inventory); on_ironic (inspect_out_of_band node)
       else mret tt);
  _ ← (if firmware_update then on_ironic (apply_firmware_updates node) else mret tt);
  on_ironic (transition node "provide" "available").
End enrolment.

(** ** When the node is offered *)

Abbreviation tracep := (list (event enrolE)).

(** Requests that do not offer the node, and those of them that write no attribute
    of the node but its inspect interface, which an out-of-band inspection resets. *)
Definition not_offering (R : Type) (op : enrolE R) : Prop :=
  match op with
  | OnIronic (NodeSetProvisionState _ target _ _ _) => target <> "provide"
  | _ => True
  end.
Definition calm (R : Type) (op : enrolE R) : Prop :=
  match op with
  | OnIronic (NodeUpdateAdd _ _) | OnIronic (NodeCreate _) => False
  | OnIronic (NodeSetProvisionState _ target _ _ _) => target <> "provide"
  | _ => True
  end.
Definition unoffered (tr : tracep) : Prop := Forall (fun ev => match ev with Ev op _ => not_offering _ op end) tr.
Definition undisturbed (tr : tracep) : Prop := Forall (fun ev => match ev with Ev op _ => calm _ op end) tr.

Definition on_node {R} (op : IronicAPI R) (answer : res R) : event enrolE := Ev (OnIronic op) answer.

(** The requests of a whole inspection by the agent: the node is known to be
    inspected by the agent, by its answer or by a write; the inspection is started
    and waited for; then the steady boot interface is written. *)
Definition agent_inspected (uuid : string) (tr : tracep) : Prop :=
  exists before n set,
    tr = before ++ on_node (NodeGet uuid (Some ["inspect_interface"])) (inr n) :: set ++
      [on_node (NodeSetProvisionState uuid "inspect" None None None) (inr tt);
       on_node (NodeWaitProvisionState uuid "manageable" NODE_STATE_TIMEOUT_SECS) (inr tt);
       on_node (NodeUpdateAdd uuid ["boot_interface=http-ipxe"]) (inr tt)] /\
    (n.(inspect_interface) = Some "agent" /\ set = [] \/ set = [on_node (NodeUpdateAdd uuid ["inspect_interface=agent"]) (inr tt)]).

(** A port that boots from a network, with the name the BIOS knows it by. *)
Definition bootable (p : Port) : Prop :=
  p.(port_pxe_enabled) = true /\ p.(port_physical_network) <> Some "enrol" /\
  exists name, bios_name p = Some name /\ name <> "".

(** An enrolment up to its offer of the node, and what it still does then. *)
Definition offered_ready (r : res unit) (tr : tracep) : Prop :=
  exists uuid before agent ports settings answer waiting,
    tr = before ++ agent ++ on_node (PortList uuid) (inr ports) :: settings ++
           on_node (NodeSetProvisionState uuid "provide" None None None) answer :: waiting /\
    unoffered (before ++ agent) /\ undisturbed settings /\
    agent_inspected uuid agent /\ Exists bootable ports /\
    match answer with
    | inl e => r = inl e /\ waiting = []
    | inr _ => waiting = [on_node (NodeWaitProvisionState uuid "available" NODE_STATE_TIMEOUT_SECS) r]
    end.

Definition ready_or_unoffered (r : res unit) (tr : tracep) : Prop :=
  ((exists e, r = inl e) /\ unoffered tr) \/ offered_ready r tr.

Lemma calm_not_offering R (op : enrolE R) : calm R op -> not_offering R op.
Proof. by destruct op as [R op|R op| |]; [|destruct op|..]. Qed.
Lemma undisturbed_unoffered tr : undisturbed tr -> unoffered tr.
Proof. intros H. eapply Forall_impl; [exact H|]. intros [R op a]. apply calm_not_offering. Qed.

Lemma first_pxe_bootable ports : truthy (first_pxe_name ports) = true -> Exists bootable ports.
Proof.
  induction ports as [|p ports IH]; cbn [first_pxe_name]; [done|]. destruct (bios_name p) as [name|] eqn:Hn; [|by right; apply IH].
  destruct (port_pxe_enabled p) eqn:Hp; cbn [andb]; [|by right; apply IH].
  case_bool_decide as He; cbn [negb]; [by right; apply IH|]. intros Ht. left. split; [done|]. split; [done|].
  exists name. split; [done|]. intros ->. done.
Qed.

(** *** The pieces of the enrolment *)

Section pieces.
Variable P : forall R, enrolE R -> Prop.
Hypothesis P_calm : forall R op, calm R op -> P R op.
Local Abbreviation quiet p := (calls_only (fun R op => P R (OnIronic op)) p).

Lemma quiet_call {R} (op : IronicAPI R) : calm R (OnIronic op) -> quiet (call (G := unit) op).
Proof. intros Hc. apply calls_call. by apply P_calm. Qed.
Lemma quiet_transition node target expected steps runbook ramdisk :
  target <> "provide" -> quiet (transition_with node target expected steps runbook ramdisk).
Proof.
  intros Ht. unfold transition_with. apply calls_bind; [by apply quiet_call|]. intros _.
  repeat case_match; try done; by apply quiet_call.
Qed.
Lemma quiet_inspect_out_of_band node : quiet (inspect_out_of_band node).
Proof.
  unfold inspect_out_of_band. apply calls_bind; [by apply quiet_call|]. intros _. by apply quiet_transition.
Qed.
Lemma quiet_configure_raid iter_disks node inventory : quiet (configure_raid iter_disks node inventory).
Proof.
  unfold configure_raid. apply calls_bind; [apply calls_lift|]. intros disks. case_decide; [done|].
  apply calls_bind; [by apply quiet_call|]. intros _. by apply quiet_transition.
Qed.
Lemma quiet_firmware node : quiet (apply_firmware_updates node).
Proof.
  unfold apply_firmware_updates. apply calls_bind; [by apply quiet_call|]. intros traits. cbn zeta. case_match; [done|].
  apply calls_for_each. intros t. apply calls_bind; [by apply quiet_call|]. intros b. by apply quiet_transition.
Qed.
Lemma quiet_pxe node : quiet (pxe_enabled_bios_name node).
Proof. unfold pxe_enabled_bios_name. apply calls_bind; [by apply quiet_call|done]. Qed.
Lemma quiet_bmc {A} (p : bmcp A) : calls_only P (on_bmc p).
Proof. apply calls_widen. intros R op. by apply P_calm. Qed.
End pieces.

Lemma not_offering_create_or_update bmc name manufacturer cmdb :
  calls_only (fun R op => not_offering R (OnIronic op)) (create_or_update bmc name manufacturer cmdb).
Proof.
  unfold create_or_update. destruct (_driver_for manufacturer) as [drv insp].
  assert (forall node, calls_only (fun R op => not_offering R (OnIronic op)) (transition node "manage" "manageable")) as Ht.
  { intros node. by apply quiet_transition; [apply calm_not_offering|]. }
  apply calls_try.
  - apply calls_bind; [by apply calls_call|]. intros n. apply calls_bind; [by case_decide|]. intros _.
    apply calls_bind; [case_decide; [done|apply Ht]|]. intros _.
    apply calls_bind; [by apply calls_call|]. done.
  - intros e. unfold create_if_missing. case_match; [|done]. apply calls_bind; [by apply calls_call|]. intros n.
    apply calls_bind; [apply Ht|]. done.
Qed.
Lemma not_offering_agent node vm : calls_only (fun R op => not_offering R (OnIronic op)) (agent_inspection node vm).
Proof.
  unfold agent_inspection, inspect, patch. apply calls_bind.
  { destruct vm; [|done]. apply calls_bind; [by apply calls_call|]. intros n. apply calls_lift. }
  intros boot. apply calls_bind; [by apply calls_call|]. intros _. apply calls_bind; [|intros _; by apply calls_call].
  apply calls_bind; [by apply calls_call|]. intros n. apply calls_bind; [case_decide; [done|by apply calls_call]|].
  intros _. by apply quiet_transition; [apply calm_not_offering|].
Qed.

(** One request of the inspection: an exception ends it. *)
Local Ltac one_request a :=
  apply wp_call; intros [?|a] ? ->; wp_simp; [intros [=]|].
Lemma agent_completes node vm g tr :
  wp step_trace (on_ironic (agent_inspection node vm)) (fun r _ tr' =>
    r = inr tt -> exists new, tr' = tr ++ new /\ agent_inspected node.(node_uuid) new) g tr.
Proof.
  unfold on_ironic. apply wp_embed. unfold agent_inspection. wp_pure.
  assert (forall boot before,
    wp (fun R op => step_trace R (OnIronic op))
      (_ ← patch node ["boot_interface=" +:+ boot]; _ ← inspect node "agent";
       patch node ["boot_interface=" +:+ STEADY_STATE_BOOT_INTERFACE])
      (fun r _ tr' => r = inr tt -> exists new, tr' = tr ++ new /\ agent_inspected node.(node_uuid) new) tt (tr ++ before)) as Hrest.
  { intros boot before. unfold patch, inspect, refresh. cbn [truthy truthy_list negb]. wp_pure. one_request u0. wp_pure. wp_pure.
    one_request n. destruct (decide (inspect_interface n = Some "agent")) as [Ha|Ha]; [wp_pure; wp_pure|wp_pure; one_request u3; destruct u3];
      unfold transition, transition_with; wp_pure; one_request u1; cbn [truthy truthy_string]; one_request u2; destruct u0, u1, u2;
      apply wp_call; intros r s' -> ->; rewrite <- !app_assoc; eexists; (split; [reflexivity|]).
    - eexists (before ++ [_]), n, []. rewrite <- app_assoc. split; [reflexivity|by left].
    - eexists (before ++ [_]), n, [_]. rewrite <- app_assoc. split; [reflexivity|by right]. }
  destruct vm.
  - wp_pure. unfold refresh. one_request n. wp_pure.
    destruct (virtual_media_boot_interface_for (driver n)) as [e|boot]; [intros [=]|]. apply Hrest.
  - wp_pure. pose proof (Hrest STEADY_STATE_BOOT_INTERFACE []) as H0. rewrite app_nil_r in H0. exact H0.
Qed.

Lemma wp_agent_inspection node vm g tr :
  wp step_trace (on_ironic (agent_inspection node vm)) (fun r _ tr' =>
    exists new, tr' = tr ++ new /\ unoffered new /\ (r = inr tt -> agent_inspected node.(node_uuid) new)) g tr.
Proof.
  eapply wp_mono; [|apply wp_conj; [apply agent_completes|apply (wp_calls_only not_offering), calls_embed_only, not_offering_agent]].
  intros r g' tr' [Hok (new & -> & Hun)]. exists new. split; [done|]. split; [done|]. intros Hr.
  destruct (Hok Hr) as (new' & Heq & Hin). by apply app_inj_1 in Heq as [_ ->].
Qed.

(** *** Composition *)

Lemma unoffered_app t1 t2 : unoffered t1 -> unoffered t2 -> unoffered (t1 ++ t2).
Proof. intros. by apply Forall_app. Qed.

Lemma wp_before_offer {B} (p : enrolp B) (f : B -> enrolp unit) g tr :
  unoffered tr -> calls_only not_offering p ->
  (forall b g tr, unoffered tr -> wp step_trace (f b) (fun r _ tr' => ready_or_unoffered r tr') g tr) ->
  wp step_trace (mbind f p) (fun r _ tr' => ready_or_unoffered r tr') g tr.
Proof.
  intros Htr Hp Hf. wp_pure. eapply wp_mono; [|by apply (wp_calls_only not_offering)].
  intros [e|b] g' tr' (new & -> & Hn); [left; split; [by eexists|by apply unoffered_app]|].
  apply Hf. by apply unoffered_app.
Qed.

(** From the report of the ports on: [start] is what was done before it. *)
Section finish.
Variables (uuid : string) (before agent : tracep) (ports : list Port).
Hypothesis before_unoffered : unoffered (before ++ agent).
Hypothesis inspected : agent_inspected uuid agent.
Hypothesis pxe_port : Exists bootable ports.
Local Abbreviation start := (before ++ agent ++ [on_node (PortList uuid) (inr ports)]).

Lemma wp_settings {B} (p : enrolp B) (f : B -> enrolp unit) g settings :
  undisturbed settings -> calls_only calm p ->
  (forall b g settings, undisturbed settings -> wp step_trace (f b) (fun r _ tr' => ready_or_unoffered r tr') g (start ++ settings)) ->
  wp step_trace (mbind f p) (fun r _ tr' => ready_or_unoffered r tr') g (start ++ settings).
Proof.
  intros Hs Hp Hf. wp_pure. eapply wp_mono; [|by apply (wp_calls_only calm)].
  intros [e|b] g' tr' (new & -> & Hn); rewrite <- (app_assoc start).
  - left. split; [by eexists|]. rewrite (app_assoc before).
    apply unoffered_app; [apply unoffered_app; [done|by apply Forall_singleton]|].
    apply unoffered_app; by apply undisturbed_unoffered.
  - apply Hf. by apply Forall_app.
Qed.

Lemma wp_offer node g settings :
  node.(node_uuid) = uuid -> undisturbed settings ->
  wp step_trace (on_ironic (transition node "provide" "available")) (fun r _ tr' => ready_or_unoffered r tr') g (start ++ settings).
Proof.
  intros Hn Hs. unfold on_ironic. apply wp_embed. unfold transition, transition_with. rewrite Hn. wp_pure.
  assert (forall answer waiting r,
    match answer with
    | inl e => r = inl e /\ waiting = []
    | inr _ => waiting = [on_node (NodeWaitProvisionState uuid "available" NODE_STATE_TIMEOUT_SECS) r]
    end ->
    ready_or_unoffered r (((start ++ settings) ++ [on_node (NodeSetProvisionState uuid "provide" None None None) answer]) ++ waiting)) as Hend.
  { intros answer waiting r Hw. right. exists uuid, before, agent, ports, settings, answer, waiting.
    split_and!; try done. by rewrite <- !app_assoc. }
  apply wp_call. intros [e|[]] tr' ->; wp_simp.
  - rewrite <- (app_nil_r (_ ++ [_])). by apply Hend.
  - cbn [truthy truthy_string]. apply wp_call. intros r tr' ->. by apply Hend.
Qed.

Lemma wp_finish iter_disks bmc node inventory pxe firmware raid g :
  node.(node_uuid) = uuid ->
  wp step_trace
    (_ ← on_bmc (update_dell_bios_settings bmc pxe);
     _ ← (if raid : bool then
            _ ← on_ironic (configure_raid iter_disks node inventory); on_ironic (inspect_out_of_band node)
          else mret tt);
     _ ← (if firmware : bool then on_ironic (apply_firmware_updates node) else mret tt);
     on_ironic (transition node "provide" "available")) (fun r _ tr' => ready_or_unoffered r tr') g start.
Proof.
  intros Hn. rewrite <- (app_nil_r start). apply wp_settings; [constructor|by apply quiet_bmc|]. intros _ g1 t1 H1.
  apply wp_settings; [done| |].
  { destruct raid; [|done]. apply calls_bind; [|intros _]; apply calls_embed_only;
      [by apply quiet_configure_raid|by apply quiet_inspect_out_of_band]. }
  intros _ g2 t2 H2. apply wp_settings; [done| |].
  { destruct firmware; [|done]. by apply calls_embed_only, quiet_firmware. }
  intros _ g3 t3 H3. by apply wp_offer.
Qed.
End finish.


(** ** Names *)

(** The name a machine gets in Ironic and the name of its device in Nautobot
    start with the same manufacturer for Dell, but not for HP. *)
Example manufacturer_names :
  map normalise_manufacturer ["Dell Inc."; "HPE"] = [inr "Dell"; inr "HP"] /\
  map _normalise_manufacturer ["Dell Inc."; "HPE"] = [inr "Dell"; inr "HPE"].
Proof. by vm_compute. Qed.
