(* ===== verification/Ovn.v ===== *)
(** * The OVN databases, as the maintenance scripts read them

    Models what [src/scripts/cleanup_dead_ovn_ha_chassis.py] and
    [cleanup_orphaned_ovn_uplinks.py] share: commands run in a shell, the JSON that
    [ovn-nbctl --format=json list] prints, and its decoding into rows. *)
From S2P Require Import Prelude PyStr PyData.
Local Open Scope Z_scope.

(** ** Commands *)

(** What [subprocess.run(cmd, capture_output=True, text=True)] returns; [stdout_json]
    is what [json.loads] reads in [stdout], when it reads anything. *)
Record completed := Completed { returncode : Z; stdout : string; stdout_json : option json; stderr : string }.

(** The calls of the scripts: a command, and a question to the operator. *)
Inductive shellE : Type -> Type :=
| Run (cmd : list string) : shellE completed
| Input (prompt : string) : shellE string.
Abbreviation shell A := (prog unit shellE A).

Definition SystemExit (code : string) : exn := Exn "SystemExit" [code].
Definition JSONDecodeError : exn := Exn "JSONDecodeError" [].

(** [s.splitlines()] for lines that end in a newline. *)
Definition newline : ascii := ascii_of_nat 10.
Definition splitlines (s : string) : list string :=
  match rsplit_once newline s with
  | Some (_, EmptyString) => removelast (split newline s)
  | _ => if truthy s then split newline s else []
  end.

(** ** Values *)

(** What the decoding yields: a Python value, dicts with their entries in order. *)
Inductive val : Type :=
| VNull | VBool (b : bool) | VNum (z : Z) | VStr (s : string)
| VList (l : list val) | VDict (d : list (val * val)).

#[export] Instance truthy_val : Truthy val := fun v =>
  match v with
  | VNull => false | VBool b => b | VNum z => truthy z | VStr s => truthy s
  | VList l => truthy l | VDict d => truthy d
  end.

Fixpoint of_json (v : json) : val :=
  match v with
  | JNull => VNull | JBool b => VBool b | JNum z => VNum z | JStr s => VStr s
  | JArr l => VList (map of_json l)
  | JObj d => VDict (map (fun '(k, v) => (VStr k, of_json v)) d)
  end.

(** [hash(v)]: lists and dicts are not keys. *)
Definition hashable (v : val) : bool := match v with VList _ | VDict _ => false | _ => true end.
Definition unhashable : exn := TypeError ["unhashable type"].

(** [d[k]] and [d.get(k)] of a dict with the entries [d]: the last one counts. *)
Fixpoint entry (k : string) (d : list (val * val)) : option val :=
  match d with
  | [] => None
  | (k', v) :: r => match entry k r with
                    | Some w => Some w
                    | None => match k' with VStr s => if decide (s = k) then Some v else None | _ => None end
                    end
  end.

(* cleanup_dead_ovn_ha_chassis.py:87-98 _unwrap_ovn_value *)
Fixpoint _unwrap_ovn_value (v : json) : res val :=
  match v with
  | JArr (tag :: x :: _) =>
      match tag with
      | JStr "uuid" => Ok (of_json x)
      | JStr "set" =>
          match x with
          | JArr l => l ← res_map _unwrap_ovn_value l; Ok (VList l)
          | JObj d => Ok (VList (map (fun kv => VStr kv.1) d))
          | JStr s => Ok (VList (map VStr (chars s)))
          | _ => Err (TypeError ["object is not iterable"])
          end
      | JStr "map" =>
          let pair (k v : val) : res (val * val) := if hashable k then Ok (k, v) else Err unhashable in
          let two (l : list string) : res (val * val) :=
            match l with [a; b] => Ok (VStr a, VStr b) | _ => Err (ValueError ["values to unpack"]) end in
          let item (y : json) : res (val * val) :=
            match y with
            | JArr [k; w] => k ← _unwrap_ovn_value k; w ← _unwrap_ovn_value w; pair k w
            | JArr _ => Err (ValueError ["values to unpack"])
            | JObj d => two (map fst d)
            | JStr s => two (chars s)
            | _ => Err (TypeError ["cannot unpack"])
            end in
          match x with
          | JArr l => d ← res_map item l; Ok (VDict d)
          | JObj d => d ← res_map (fun kv => two (chars kv.1)) d; Ok (VDict d)
          | JStr s => d ← res_map (fun c => two [c]) (chars s); Ok (VDict d)
          | _ => Err (TypeError ["object is not iterable"])
          end
      | _ => Ok (of_json v)
      end
  | _ => Ok (of_json v)
  end.

Abbreviation row := (list (val * val)).
(* cleanup_dead_ovn_ha_chassis.py:101-107 parse_ovn_json *)
Definition parse_ovn_json (obj : json) : res (list row) :=
  headings ← jitem "headings" obj;
  data ← jitem "data" obj;
  data ← jiter data;
  res_map (fun r =>
    hs ← jiter headings;
    cells ← jiter r;
    res_map (fun '(h, v) => w ← _unwrap_ovn_value v;
                            if hashable (of_json h) then Ok (of_json h, w) else Err unhashable)
      (zip hs cells)) data.

(* cleanup_dead_ovn_ha_chassis.py:110-114 _as_list *)
Definition _as_list (v : val) : list val :=
  match v with
  | VNull => []
  | VStr s => if truthy s then [v] else []
  | VList l => l
  | _ => [v]
  end.

(** ** Rows of the schema's types *)

(** The columns the scripts ask for have the types of the OVN schemas: strings,
    UUIDs, sets of UUIDs and maps of strings.  A value of another type is outside
    the model: reading it raises [SchemaError]. *)
Definition SchemaError (column : string) : exn := Exn "SchemaError" [column].
Definition as_text (column : string) (v : val) : res string :=
  match v with VStr s => Ok s | _ => Err (SchemaError column) end.
(** [r[column]], a string; [_as_list(r.get(column))]; [r.get(column) or {}]. *)
Definition text_column (column : string) (r : row) : res string :=
  match entry column r with Some v => as_text column v | None => Err (KeyError column) end.
Definition set_column (column : string) (r : row) : res (list string) :=
  res_map (as_text column) (_as_list (default VNull (entry column r))).
Definition map_column (column : string) (r : row) : res (gmap string string) :=
  let v := default VNull (entry column r) in
  if negb (truthy v) then Ok ∅ else
  match v with
  | VDict d => res_fold (fun m '(k, w) => k ← as_text column k; w ← as_text column w; Ok (<[k := w]> m)) d ∅
  | _ => Err (AttributeError "get")
  end.

(** ** The encoding *)

(** A cell as the databases print it (RFC 7047, section 5.1): a set with one
    element is printed as that element. *)
Inductive cell : Type :=
| Text (s : string) | Uuid (u : string) | UuidSet (l : list string) | StrMap (l : list (string * string)).
Definition encode_uuid (u : string) : json := JArr [JStr "uuid"; JStr u].
Definition encode_cell (c : cell) : json :=
  match c with
  | Text s => JStr s
  | Uuid u => encode_uuid u
  | UuidSet [u] => encode_uuid u
  | UuidSet l => JArr [JStr "set"; JArr (map encode_uuid l)]
  | StrMap l => JArr [JStr "map"; JArr (map (fun '(k, v) => JArr [JStr k; JStr v]) l)]
  end.
Definition encode_table (headings : list string) (rows : list (list cell)) : json :=
  JObj [("headings", JArr (map JStr headings));
        ("data", JArr (map (fun cells => JArr (map encode_cell cells)) rows))].

(** What the cell is read as. *)
Definition plain (c : cell) : val :=
  match c with
  | Text s | Uuid s | UuidSet [s] => VStr s
  | UuidSet l => VList (map VStr l)
  | StrMap l => VDict (map (fun '(k, v) => (VStr k, VStr v)) l)
  end.
Definition good_cell (c : cell) : Prop :=
  match c with UuidSet l => Forall (fun u => u <> "") l | StrMap l => NoDup l.*1 | _ => True end.
Definition reads (column : string) (c : cell) (r : row) : Prop :=
  match c with
  | Text s | Uuid s => text_column column r = inr s
  | UuidSet l => set_column column r = inr l
  | StrMap l => map_column column r = inr (list_to_map l)
  end.

Lemma res_map_pure {A B} (f : A -> res B) (h : A -> B) l :
  (forall x, x ∈ l -> f x = inr (h x)) -> res_map f l = inr (map h l).
Proof.
  induction l as [|x l IH]; intros Hf; [done|]. cbn. rewrite Hf by left. rewrite IH; [done|].
  intros y Hy. apply Hf. by right.
Qed.
Lemma res_map_fmap {A B C} (f : B -> res C) (h : A -> B) l : res_map f (map h l) = res_map (fun x => f (h x)) l.
Proof. induction l as [|x l IH]; [done|]. cbn. by rewrite IH. Qed.

Lemma unwrap_encode c : _unwrap_ovn_value (encode_cell c) = inr (plain c).
Proof.
  destruct c as [s|u|l|l]; [done|done| |].
  - destruct l as [|u [|v l]]; [done|done|].
    change ((l ← res_map _unwrap_ovn_value (map encode_uuid (u :: v :: l)); inr (VList l)) = inr (plain (UuidSet (u :: v :: l)))).
    rewrite res_map_fmap. by rewrite (res_map_pure _ VStr).
  - cbn -[res_map]. rewrite res_map_fmap. rewrite (res_map_pure _ (fun '(k, v) => (VStr k, VStr v))); [done|]. by intros [k v] _.
Qed.

Definition plain_row (headings : list string) (cells : list cell) : row :=
  map (fun '(h, c) => (VStr h, plain c)) (zip headings cells).
Lemma parse_encoded headings rows :
  parse_ovn_json (encode_table headings rows) = inr (map (plain_row headings) rows).
Proof.
  unfold parse_ovn_json. change (jitem "headings" _) with (inr (A := exn) (JArr (map JStr headings))).
  change (jitem "data" _) with (inr (A := exn) (JArr (map (fun cells => JArr (map encode_cell cells)) rows))).
  cbn -[res_map]. rewrite res_map_fmap. apply res_map_pure. intros cells _.
  cbn -[res_map]. unfold plain_row. clear rows. revert cells.
  induction headings as [|h hs IH]; intros [|c cells]; [done|done|done|].
  cbn [map zip zip_with res_map]. rewrite unwrap_encode. cbn -[res_map]. by rewrite IH.
Qed.

Lemma entry_plain_row headings cells i h c :
  NoDup headings -> headings !! i = Some h -> cells !! i = Some c ->
  entry h (plain_row headings cells) = Some (plain c).
Proof.
  unfold plain_row. revert cells i. induction headings as [|h' hs IH]; intros cells i; [done|].
  intros [Hh' Hnd]%NoDup_cons Hh Hc. destruct cells as [|c' cells]; [done|].
  cbn [map zip zip_with entry]. destruct i as [|i]; cbn in Hh, Hc.
  - simplify_eq. replace (entry h _) with (@None val); [by rewrite decide_True|].
    symmetry. clear IH Hnd. revert cells. induction hs as [|h2 hs IH]; intros [|c2 cells]; [done|done|done|].
    cbn. rewrite not_elem_of_cons in Hh'. rewrite IH by naive_solver. rewrite decide_False; naive_solver.
  - by rewrite (IH _ _ Hnd Hh Hc).
Qed.

Lemma reads_plain column c (r : row) : good_cell c -> entry column r = Some (plain c) -> reads column c r.
Proof.
  intros Hc He. destruct c as [s|u|l|l]; unfold reads, text_column, set_column, map_column; rewrite He; [done|done| |].
  - destruct l as [|u [|v l]]; [done| |].
    + cbn. apply Forall_cons in Hc as [Hu _]. by destruct u.
    + change (res_map (as_text column) (map VStr (u :: v :: l)) = inr (u :: v :: l)). rewrite res_map_fmap. rewrite (res_map_pure _ id); [by rewrite map_id|done].
  - destruct l as [|kv l]; [done|]. cbn -[res_fold list_to_map].
    match goal with |- res_fold _ ?d _ = _ => change d with (map (fun '(k, v) => (VStr k, VStr v)) (kv :: l)) end.
    revert Hc. generalize (kv :: l) as l'. intros l' Hnd. rewrite <- (right_id_L ∅ (∪) (list_to_map l')).
    generalize (∅ : gmap string string) as m. clear kv l He.
    induction l' as [|[k v] l' IH]; intros m; [cbn; by rewrite (left_id_L ∅ (∪))|].
    apply NoDup_cons in Hnd as [Hk Hnd]. cbn [map res_fold as_text mbind res_mbind list_to_map foldr].
    rewrite IH by done. f_equal. cbn. rewrite <- insert_union_l.
    rewrite insert_union_r by (by apply not_elem_of_list_to_map_1). done.
Qed.

(** C28. What the scripts read of a table that [ovn-nbctl --format=json] prints is
    what the table holds, whatever the number of elements of its sets: texts and
    UUIDs as they are, sets as the list of their elements (also when a single
    element is printed bare, or none at all), maps as maps. *)
Theorem ovn_json_roundtrip headings rows :
  NoDup headings -> Forall (fun cells => length cells = length headings /\ Forall good_cell cells) rows ->
  exists rs, parse_ovn_json (encode_table headings rows) = inr rs /\
    Forall2 (fun cells r => forall i h c, headings !! i = Some h -> cells !! i = Some c -> reads h c r) rows rs.
Proof.
  intros Hnd Hrows. eexists. split; [apply parse_encoded|]. apply Forall2_fmap_r.
  induction Hrows as [|cells rows [Hlen Hgood] _ IH]; constructor; [|done].
  intros i h c Hh Hc. apply reads_plain; [by eapply Forall_lookup_1|]. by eapply entry_plain_row.
Qed.
Definition sample_rows : list (list cell) :=
  [[Uuid "g1"; Text "neutron-n1"; UuidSet ["m1"]; StrMap [("neutron:network_id", "n1")]];
   [Uuid "g2"; Text "neutron-n2"; UuidSet []; StrMap []]].
Lemma ovn_json_roundtrip_witness :
  exists rs, parse_ovn_json (encode_table ["_uuid"; "name"; "ha_chassis"; "external_ids"] sample_rows) = inr rs /\
    Forall2 (fun cells r => forall i h c, ["_uuid"; "name"; "ha_chassis"; "external_ids"] !! i = Some h ->
      cells !! i = Some c -> reads h c r) sample_rows rs.
Proof.
  apply ovn_json_roundtrip; [by apply (bool_decide_unpack _); vm_compute|].
  repeat (first [apply Forall_nil_2 | apply Forall_cons_2 | split | constructor]); try done; by apply (bool_decide_unpack _).
Defined.
