(* ===== verification/OvnChassis.v ===== *)
(** * Repair of OVN's HA chassis groups

    Models [src/scripts/cleanup_dead_ovn_ha_chassis.py]: the removal of chassis that
    are gone from the HA chassis groups (phase 1), the repopulation of the groups of
    networks (phase 2), and the removal of networks that Neutron no longer has
    (phase 3).  What is only printed is left out. *)
From S2P Require Import Prelude PyStr PyData Ovn.
Local Open Scope Z_scope.

Definition NB_POD : string := "ovn-ovsdb-nb-0".
Definition SB_POD : string := "ovn-ovsdb-sb-0".
Definition OVN_NAMESPACE : string := "openstack".
Definition NEUTRON_PREFIX : string := "neutron-".
Definition OVN_NETWORK_ID_EXT_ID_KEY : string := "neutron:network_id".
Definition OVN_ROUTER_ID_EXT_ID_KEY : string := "neutron:router_id".
Definition HA_CHASSIS_GROUP_HIGHEST_PRIORITY : Z := 32767.

Section script.
Context (kubectl_base : list string).

(** ** Commands *)

Definition ovn_command (pod ctl : string) (args : list string) : list string :=
  kubectl_base ++ ["exec"; "-n"; OVN_NAMESPACE; pod; "--"; ctl] ++ args.
(* cleanup_dead_ovn_ha_chassis.py:117-124 _ovn_cmd *)
Definition _ovn_cmd (pod ctl : string) (args : list string) : shell completed :=
  call (Run (ovn_command pod ctl args)).

(** [json.loads(result.stdout)] *)
Definition loads (result : completed) : res json :=
  match result.(stdout_json) with Some j => Ok j | None => Err JSONDecodeError end.

(* cleanup_dead_ovn_ha_chassis.py:127-139 _ovn_list *)
Definition _ovn_list (pod ctl table columns : string) : shell (list row) :=
  result ← _ovn_cmd pod ctl ["--columns=" +:+ columns; "--format=json"; "list"; table];
  if negb (result.(returncode) =? 0) then Raise (SystemExit "1") else
  obj ← lift (loads result);
  lift (parse_ovn_json obj).

(** The rows the script works on, with the columns it asks for. *)
Record HaChassis := MkHaChassis { hc_uuid : string; chassis_name : string }.
Record HaChassisGroup := MkGroup { g_uuid : string; g_name : string; ha_chassis : list string; external_ids : gmap string string }.
Record LogicalSwitch := MkSwitch { ls_uuid : string; ls_name : string; ls_ports : list string }.
(** A [Logical_Switch_Port] or [Logical_Router_Port]. *)
Record PortRow := MkPortRow { p_uuid : string; p_name : string; ha_chassis_group : list string }.

Definition decode_ha_chassis (r : row) : res HaChassis :=
  u ← text_column "_uuid" r; c ← text_column "chassis_name" r; Ok (MkHaChassis u c).
Definition decode_group (r : row) : res HaChassisGroup :=
  u ← text_column "_uuid" r; n ← text_column "name" r; m ← set_column "ha_chassis" r;
  e ← map_column "external_ids" r; Ok (MkGroup u n m e).
Definition decode_switch (r : row) : res LogicalSwitch :=
  u ← text_column "_uuid" r; n ← text_column "name" r; p ← set_column "ports" r; Ok (MkSwitch u n p).
Definition decode_port (r : row) : res PortRow :=
  u ← text_column "_uuid" r; n ← text_column "name" r; g ← set_column "ha_chassis_group" r; Ok (MkPortRow u n g).

(* cleanup_dead_ovn_ha_chassis.py:142-145 get_live_chassis_names *)
Definition get_live_chassis_names : shell (gset string) :=
  rows ← _ovn_list SB_POD "ovn-sbctl" "Chassis" "name";
  names ← lift (res_map (text_column "name") rows);
  mret (list_to_set names).

(* cleanup_dead_ovn_ha_chassis.py:148-152 get_all_ha_chassis *)
Definition get_all_ha_chassis : shell (list HaChassis) :=
  rows ← _ovn_list NB_POD "ovn-nbctl" "HA_Chassis" "_uuid,chassis_name,priority";
  lift (res_map decode_ha_chassis rows).

(* cleanup_dead_ovn_ha_chassis.py:155-163 get_all_ha_chassis_groups *)
Definition get_all_ha_chassis_groups : shell (list HaChassisGroup) :=
  rows ← _ovn_list NB_POD "ovn-nbctl" "HA_Chassis_Group" "_uuid,name,ha_chassis,external_ids";
  lift (res_map decode_group rows).

(* cleanup_dead_ovn_ha_chassis.py:166-174 get_router_chassis_by_id *)
Definition get_router_chassis_by_id : shell (gmap string (option string)) :=
  rows ← _ovn_list NB_POD "ovn-nbctl" "Logical_Router" "name,options";
  entries ← lift (res_map (fun r => n ← text_column "name" r; o ← map_column "options" r;
                                    Ok (removeprefix NEUTRON_PREFIX n, o !! "chassis")) rows);
  mret (list_to_map (reverse entries)).

(* cleanup_dead_ovn_ha_chassis.py:754-763 _confirm *)
Definition _confirm (prompt : string) (assume_yes : bool) : shell bool :=
  if assume_yes then mret true else
  answer ← try_except (a ← call (Input prompt); mret (lower (strip a)))
             (fun e => if decide (e.(exn_cls) = "EOFError") then mret "" else Raise e);
  mret (bool_decide (answer = "y") || bool_decide (answer = "yes")).

(** ** Phase 1 *)

(* cleanup_dead_ovn_ha_chassis.py:180-192 find_stale_ha_chassis *)
Definition find_stale_ha_chassis (all_ha_chassis : list HaChassis) (live_chassis : gset string) : list HaChassis :=
  filter (fun r => r.(chassis_name) ∉ live_chassis) all_ha_chassis.

Record cleanup_record := MkCleanup { cr_group : string; cr_group_name : string; cr_member : string; remaining_after : nat }.
(* cleanup_dead_ovn_ha_chassis.py:195-214 map_groups_to_stale_members *)
Definition map_groups_to_stale_members (groups : list HaChassisGroup) (stale_uuids : gset string) : list cleanup_record :=
  flat_map (fun g =>
    let members := g.(ha_chassis) in
    let stale_members := filter (fun m => m ∈ stale_uuids) members in
    map (fun m => MkCleanup g.(g_uuid) g.(g_name) m (length members - length stale_members)%nat) stale_members) groups.

Definition cleanup_args (records : list cleanup_record) : list string :=
  flat_map (fun r => ["--"; "remove"; "HA_Chassis_Group"; r.(cr_group); "ha_chassis"; r.(cr_member)]) records.
(* cleanup_dead_ovn_ha_chassis.py:235-269 execute_cleanup *)
Definition execute_cleanup (records : list cleanup_record) (assume_yes : bool) : shell unit :=
  if negb (truthy records) then mret tt else
  confirmed ← _confirm "Apply these Phase 1 changes?" assume_yes;
  if negb confirmed then mret tt else
  result ← _ovn_cmd NB_POD "ovn-nbctl" (cleanup_args records);
  if negb (result.(returncode) =? 0) then Raise (SystemExit "1") else mret tt.

(** ** Phase 2 *)

Inductive skip_reason :=
| NoRouterId | ChassisNotLive (chassis : string) | RouterGroupNotFound (group : string) | DistinctChassis (n : nat)
| StillInNeutron | NotConfirmedGone | ReferencedElsewhere (switches : list string).

(** The chassis for the group of a network, or why there is none. *)
(* cleanup_dead_ovn_ha_chassis.py:316-351 plan_repopulation *)
Definition target_chassis (groups : list HaChassisGroup) (all_ha_chassis_by_uuid : gmap string string)
    (stale_uuids live_chassis : gset string) (router_chassis_by_id : gmap string (option string)) (router_id : string)
    : skip_reason + string :=
  match router_chassis_by_id !! router_id with
  | Some (Some (String _ _ as centralized_chassis)) =>
      if decide (centralized_chassis ∈ live_chassis) then inr centralized_chassis else inl (ChassisNotLive centralized_chassis)
  | _ =>
      match last (filter (fun g => g.(g_name) = "neutron-" +:+ router_id) groups) with
      | None => inl (RouterGroupNotFound ("neutron-" +:+ router_id))
      | Some router_group =>
          let router_remaining := filter (fun m => m ∉ stale_uuids) router_group.(ha_chassis) in
          let chassis_names : gset string := list_to_set (omap (fun m => all_ha_chassis_by_uuid !! m) router_remaining) in
          match elements chassis_names with
          | [c] => inr c
          | names => inl (DistinctChassis (length names))
          end
      end
  end.

Record repopulation := MkRepop { rp_group : string; rp_name : string; rp_network : string; rp_router : string; rp_chassis : string }.
(* cleanup_dead_ovn_ha_chassis.py:275-362 plan_repopulation *)
Definition plan_repopulation (groups : list HaChassisGroup) (all_ha_chassis_by_uuid : gmap string string)
    (stale_uuids live_chassis : gset string) (router_chassis_by_id : gmap string (option string))
    : list repopulation * list (string * skip_reason) :=
  foldl (fun '(plan, skipped) g =>
    match g.(external_ids) !! OVN_NETWORK_ID_EXT_ID_KEY with
    | Some (String _ _ as network_id) =>
        let remaining := filter (fun m => m ∉ stale_uuids) g.(ha_chassis) in
        if truthy remaining then (plan, skipped) else
        match g.(external_ids) !! OVN_ROUTER_ID_EXT_ID_KEY with
        | Some (String _ _ as router_id) =>
            match target_chassis groups all_ha_chassis_by_uuid stale_uuids live_chassis router_chassis_by_id router_id with
            | inl skip_reason => (plan, skipped ++ [(g.(g_name), skip_reason)])
            | inr c => (plan ++ [MkRepop g.(g_uuid) g.(g_name) network_id router_id c], skipped)
            end
        | _ => (plan, skipped ++ [(g.(g_name), NoRouterId)])
        end
    | _ => (plan, skipped)
    end) ([], []) groups.

Fixpoint enumerate_from {A} (i : nat) (l : list A) : list (nat * A) :=
  match l with [] => [] | x :: r => (i, x) :: enumerate_from (S i) r end.
Definition hc_id (i : nat) : string := "@hc" +:+ pretty i.
Definition repopulation_args (plan : list repopulation) : list string :=
  flat_map (fun '(i, p) =>
    ["--"; "--id=" +:+ hc_id i; "create"; "HA_Chassis"; "chassis_name=" +:+ p.(rp_chassis);
     "priority=" +:+ pretty HA_CHASSIS_GROUP_HIGHEST_PRIORITY;
     "--"; "add"; "HA_Chassis_Group"; p.(rp_group); "ha_chassis"; hc_id i]) (enumerate_from 0 plan).
(* cleanup_dead_ovn_ha_chassis.py:387-427 execute_repopulation *)
Definition execute_repopulation (plan : list repopulation) (assume_yes : bool) : shell unit :=
  if negb (truthy plan) then mret tt else
  confirmed ← _confirm "Apply these Phase 2 changes?" assume_yes;
  if negb confirmed then mret tt else
  result ← _ovn_cmd NB_POD "ovn-nbctl" (repopulation_args plan);
  if negb (result.(returncode) =? 0) then Raise (SystemExit "1") else mret tt.

(** ** Phase 3 *)

Definition openstack_command (os_cloud : option string) (args : list string) : list string :=
  ["openstack"] ++ (if truthy os_cloud then ["--os-cloud"; default "" os_cloud] else []) ++ args.
(* cleanup_dead_ovn_ha_chassis.py:438-442 _openstack_cmd *)
Definition _openstack_cmd (os_cloud : option string) (args : list string) : shell completed :=
  call (Run (openstack_command os_cloud args)).

Definition listed_ids (result : completed) : list string :=
  filter (fun l => truthy l = true) (map strip (splitlines result.(stdout))).
(* cleanup_dead_ovn_ha_chassis.py:445-464 get_live_neutron_network_ids *)
Definition get_live_neutron_network_ids (os_cloud : option string) : shell (gset string) :=
  result ← _openstack_cmd os_cloud ["network"; "list"; "-f"; "value"; "-c"; "ID"];
  if negb (result.(returncode) =? 0) then Raise (SystemExit "1") else
  let ids := listed_ids result in
  if negb (truthy ids) then Raise (SystemExit "1") else mret (list_to_set ids).

Definition not_found_markers : list string :=
  ["no network found"; "network not found"; "could not be found"; "no network with a name or id"].
Definition says_not_found (result : completed) : bool :=
  existsb (fun marker => contains marker (lower result.(stderr))) not_found_markers.
(* cleanup_dead_ovn_ha_chassis.py:467-488 neutron_network_exists *)
Definition neutron_network_exists (network_id : string) (os_cloud : option string) : shell (option bool) :=
  result ← _openstack_cmd os_cloud ["network"; "show"; network_id; "-f"; "value"; "-c"; "id"];
  if result.(returncode) =? 0 then mret (Some true) else
  if says_not_found result then mret (Some false) else mret None.

(* cleanup_dead_ovn_ha_chassis.py:491-495 get_all_logical_switches *)
Definition get_all_logical_switches : shell (list LogicalSwitch) :=
  rows ← _ovn_list NB_POD "ovn-nbctl" "Logical_Switch" "_uuid,name,ports";
  lift (res_map decode_switch rows).
(* cleanup_dead_ovn_ha_chassis.py:498-506 get_lsp_hcg_refs *)
Definition get_lsp_hcg_refs : shell (list PortRow) :=
  rows ← _ovn_list NB_POD "ovn-nbctl" "Logical_Switch_Port" "_uuid,name,ha_chassis_group";
  lift (res_map decode_port rows).
(* cleanup_dead_ovn_ha_chassis.py:509-517 get_lrp_hcg_refs *)
Definition get_lrp_hcg_refs : shell (list PortRow) :=
  rows ← _ovn_list NB_POD "ovn-nbctl" "Logical_Router_Port" "_uuid,name,ha_chassis_group";
  lift (res_map decode_port rows).

(* cleanup_dead_ovn_ha_chassis.py:520-526 build_hcg_ref_map *)
Definition build_hcg_ref_map (rows : list PortRow) : gmap string (list PortRow) :=
  foldl (fun refs r =>
    foldl (fun refs hcg_uuid => <[hcg_uuid := default [] (refs !! hcg_uuid) ++ [r]]> refs) refs r.(ha_chassis_group))
    ∅ rows.

Record orphan := MkOrphan { o_switch : string; o_network : string; o_hcg : option string; o_hcg_name : option string;
  port_count : nat; ref_lsps : list (string * string); ref_lrps : list (string * string) }.

(** One suspect: left out with a reason, or part of the plan. *)
(* cleanup_dead_ovn_ha_chassis.py:582-636 plan_orphan_cleanup *)
Definition plan_one (hcg_by_name : gmap string HaChassisGroup) (lsp_refs lrp_refs : gmap string (list PortRow))
    (switch_of_lsp : gmap string string) (os_cloud : option string) (s : LogicalSwitch) : shell (skip_reason + orphan) :=
  let switch_name := s.(ls_name) in
  let network_id := removeprefix NEUTRON_PREFIX switch_name in
  exists_ ← neutron_network_exists network_id os_cloud;
  match exists_ with
  | Some true => mret (inl StillInNeutron)
  | None => mret (inl NotConfirmedGone)
  | Some false =>
      let hcg := hcg_by_name !! switch_name in
      let hcg_uuid := g_uuid <$> hcg in
      let refs (m : gmap string (list PortRow)) :=
        match hcg_uuid with Some (String _ _ as u) => default [] (m !! u) | _ => [] end in
      let refs_lsps := refs lsp_refs in
      let foreign := filter (fun lsp => switch_of_lsp !! lsp.(p_uuid) <> Some switch_name) refs_lsps in
      if truthy foreign then
        mret (inl (ReferencedElsewhere (merge_sort str_le (map (fun lsp => default "<orphan LSP>" (switch_of_lsp !! lsp.(p_uuid))) foreign))))
      else
      let pair p := (p.(p_uuid), p.(p_name)) in
      mret (inr (MkOrphan switch_name network_id hcg_uuid (g_name <$> hcg) (length s.(ls_ports))
                   (map pair refs_lsps) (map pair (refs lrp_refs))))
  end.

(* cleanup_dead_ovn_ha_chassis.py:529-638 plan_orphan_cleanup *)
Definition plan_orphan_cleanup (switches : list LogicalSwitch) (hcg_by_name : gmap string HaChassisGroup)
    (lsp_refs lrp_refs : gmap string (list PortRow)) (os_cloud : option string) (force : bool)
    : shell (list orphan * list (string * skip_reason)) :=
  live_networks ← get_live_neutron_network_ids os_cloud;
  let net_switches := filter (fun s => startswith NEUTRON_PREFIX s.(ls_name) = true) switches in
  let switch_of_lsp := foldl (fun m s => foldl (fun m u => <[u := s.(ls_name)]> m) m s.(ls_ports)) ∅ net_switches in
  let candidates := filter (fun s => removeprefix NEUTRON_PREFIX s.(ls_name) ∉ live_networks) net_switches in
  (* [len(candidates) / len(net_switches) > 0.5] *)
  if truthy net_switches && (length net_switches <? 2 * length candidates)%nat && negb force then Raise (SystemExit "1") else
  fold_each (fun '(plan, skipped) s =>
    one ← plan_one hcg_by_name lsp_refs lrp_refs switch_of_lsp os_cloud s;
    mret (match one with
          | inl reason => (plan, skipped ++ [(s.(ls_name), reason)])
          | inr o => (plan ++ [o], skipped)
          end)) candidates ([], []).

(* cleanup_dead_ovn_ha_chassis.py:656-680 _orphan_txn_args *)
Definition _orphan_txn_args (p : orphan) : list string :=
  flat_map (fun lsp : string * string => ["--"; "--if-exists"; "clear"; "Logical_Switch_Port"; lsp.1; "ha_chassis_group"]) p.(ref_lsps) ++
  flat_map (fun lrp : string * string => ["--"; "--if-exists"; "clear"; "Logical_Router_Port"; lrp.1; "ha_chassis_group"]) p.(ref_lrps) ++
  ["--"; "--if-exists"; "ls-del"; p.(o_switch)] ++
  match p.(o_hcg) with
  | Some (String _ _ as u) => ["--"; "--if-exists"; "destroy"; "HA_Chassis_Group"; u]
  | _ => []
  end.

(* cleanup_dead_ovn_ha_chassis.py:701-741 execute_orphan_cleanup *)
Definition execute_orphan_cleanup (plan : list orphan) (assume_yes : bool) : shell unit :=
  if negb (truthy plan) then mret tt else
  confirmed ← _confirm "Apply these Phase 3 DELETIONS?" assume_yes;
  if negb confirmed then mret tt else
  failed ← fold_each (fun failed p =>
             result ← _ovn_cmd NB_POD "ovn-nbctl" (_orphan_txn_args p);
             mret (if negb (result.(returncode) =? 0) then failed + 1 else failed)) plan 0;
  if truthy failed then Raise (SystemExit "1") else mret tt.
End script.

(** ** The script *)

(* cleanup_dead_ovn_ha_chassis.py:744-748 build_kubectl_base *)
Definition build_kubectl_base (kube_context : option string) : list string :=
  ["kubectl"] ++ (if truthy kube_context then ["--context"; default "" kube_context] else []).

(* cleanup_dead_ovn_ha_chassis.py:766-772 _resolve_kube_context *)
Definition _resolve_kube_context (kube_context : option string) : shell string :=
  match kube_context with
  | Some (String _ _ as c) => mret c
  | _ => result ← call (Run ["kubectl"; "config"; "current-context"]);
         mret (str_or (Some (strip result.(stdout))) "(unknown)")
  end.

(** Values that are not text are shown as JSON. *)
(* cleanup_dead_ovn_ha_chassis.py:775-799 _openstack_target *)
Definition _openstack_target (os_cloud : option string) : shell (list (string * json)) :=
  result ← _openstack_cmd os_cloud ["configuration"; "show"; "-f"; "json"];
  if negb (result.(returncode) =? 0) then
    mret [("status", JStr ("unavailable (" +:+ default "error" (last (splitlines (strip result.(stderr)))) +:+ ")"))]
  else
  match result.(stdout_json) with
  | None => mret [("status", JStr "unparsable configuration output")]
  | Some cfg =>
      pairs ← lift (res_fold (fun acc '(label, key) => v ← jget key cfg; Ok (if truthy v then acc ++ [(label, v)] else acc))
                [("auth URL", "auth.auth_url"); ("region", "region_name"); ("project", "auth.project_name");
                 ("username", "auth.username")] []);
      mret (if truthy pairs then pairs else [("status", JStr "(no auth details in configuration)")])
  end.

(** The banner is printed; only the commands it runs are visible here. *)
(* cleanup_dead_ovn_ha_chassis.py:802-820 print_connection_banner *)
Definition print_connection_banner (kube_context os_cloud : option string) (phase3_enabled : bool) : shell unit :=
  _ ← _resolve_kube_context kube_context;
  if phase3_enabled && truthy os_cloud then _ ← _openstack_target os_cloud; mret tt else mret tt.

Record arguments := MkArgs { kube_context : option string; execute : bool; skip_repopulate : bool;
  delete_orphaned_networks : bool; os_cloud : option string; force : bool; assume_yes : bool }.

Definition by_uuid (rows : list HaChassis) : gmap string string :=
  list_to_map (reverse (map (fun r => (r.(hc_uuid), r.(chassis_name))) rows)).
(* cleanup_dead_ovn_ha_chassis.py:943-969 main *)
Definition orphaned_networks_phase (args : arguments) (groups : list HaChassisGroup) : shell unit :=
  let kubectl_base := build_kubectl_base args.(kube_context) in
  if negb args.(delete_orphaned_networks) then mret tt else
  if negb (truthy args.(os_cloud)) then Raise (SystemExit "1") else
  switches ← get_all_logical_switches kubectl_base;
  lsps ← get_lsp_hcg_refs kubectl_base;
  lrps ← get_lrp_hcg_refs kubectl_base;
  let hcg_by_name := list_to_map (reverse (map (fun g => (g.(g_name), g)) groups)) in
  orphan_plan ← plan_orphan_cleanup switches hcg_by_name (build_hcg_ref_map lsps) (build_hcg_ref_map lrps)
                  args.(os_cloud) args.(force);
  if negb args.(execute) then mret tt
  else execute_orphan_cleanup kubectl_base orphan_plan.1 args.(assume_yes).

(** From the parsed arguments on. *)
(* cleanup_dead_ovn_ha_chassis.py:891-941 main *)
Definition main (args : arguments) : shell unit :=
  let kubectl_base := build_kubectl_base args.(kube_context) in
  _ ← print_connection_banner args.(kube_context) args.(os_cloud) args.(delete_orphaned_networks);
  live_chassis ← get_live_chassis_names kubectl_base;
  all_ha_chassis ← get_all_ha_chassis kubectl_base;
  let stale_uuids : gset string := list_to_set (map hc_uuid (find_stale_ha_chassis all_ha_chassis live_chassis)) in
  groups ← get_all_ha_chassis_groups kubectl_base;
  let cleanup_records := map_groups_to_stale_members groups stale_uuids in
  _ ← (if negb args.(execute) then mret tt else execute_cleanup kubectl_base cleanup_records args.(assume_yes));
  _ ← (if args.(skip_repopulate) then mret tt else
         router_chassis_by_id ← get_router_chassis_by_id kubectl_base;
         let plan := (plan_repopulation groups (by_uuid all_ha_chassis) stale_uuids live_chassis router_chassis_by_id).1 in
         if negb args.(execute) then mret tt else execute_repopulation kubectl_base plan args.(assume_yes));
  orphaned_networks_phase args groups.

(** ** What is changed, and when *)

Section discipline.
Context (args : arguments).
Abbreviation kubectl_base := (build_kubectl_base args.(kube_context)).
Abbreviation nb := (ovn_command kubectl_base NB_POD "ovn-nbctl").

(** The operator agreed, or said so in advance. *)
Definition agreed (prompt : string) (pre : list (event shellE)) : Prop :=
  args.(assume_yes) = true \/
  exists a, Ev (Input prompt) (inr a) ∈ pre /\ lower (strip a) ∈ ["y"; "yes"].
(** Neutron listed its networks, at least one and not this one, and then said that
    there is no such network. *)
Definition gone (network_id : string) (pre : list (event shellE)) : Prop :=
  exists pre1 pre2 listed shown, pre = pre1 ++ pre2 /\
    Ev (Run (openstack_command args.(os_cloud) ["network"; "list"; "-f"; "value"; "-c"; "ID"])) (inr listed) ∈ pre1 /\
    listed.(returncode) = 0 /\ listed_ids listed <> [] /\ network_id ∉ listed_ids listed /\
    Ev (Run (openstack_command args.(os_cloud) ["network"; "show"; network_id; "-f"; "value"; "-c"; "id"])) (inr shown) ∈ pre2 /\
    shown.(returncode) <> 0 /\ says_not_found shown = true.

Definition reads_only (cmd : list string) : Prop :=
  (exists pod ctl columns table, cmd = ovn_command kubectl_base pod ctl ["--columns=" +:+ columns; "--format=json"; "list"; table]) \/
  (exists a, cmd = openstack_command args.(os_cloud) ("network" :: "list" :: a)) \/
  (exists a, cmd = openstack_command args.(os_cloud) ("network" :: "show" :: a)) \/
  (exists a, cmd = openstack_command args.(os_cloud) ("configuration" :: "show" :: a)) \/
  cmd = ["kubectl"; "config"; "current-context"].

Definition allowed (pre : list (event shellE)) (ev : event shellE) : Prop :=
  match ev with
  | Ev (Input _) _ => args.(execute) = true
  | Ev (Run cmd) _ =>
      reads_only cmd \/
      args.(execute) = true /\
        ((agreed "Apply these Phase 1 changes?" pre /\ exists records, cmd = nb (cleanup_args records)) \/
         (agreed "Apply these Phase 2 changes?" pre /\ exists plan, cmd = nb (repopulation_args plan)) \/
         (agreed "Apply these Phase 3 DELETIONS?" pre /\ args.(delete_orphaned_networks) = true /\
          exists p, cmd = nb (_orphan_txn_args p) /\ p.(o_switch) = NEUTRON_PREFIX +:+ p.(o_network) /\ gone p.(o_network) pre))
  end.

Lemma elem_of_prefix {A} (x : A) l l' : l `prefix_of` l' -> x ∈ l -> x ∈ l'.
Proof. intros [k ->] Hx. apply elem_of_app. by left. Qed.
Lemma agreed_mono prompt tr tr' : tr `prefix_of` tr' -> agreed prompt tr -> agreed prompt tr'.
Proof. intros Hp [?|(a & Ha & ?)]; [by left|right]. exists a. split; [by eapply elem_of_prefix|done]. Qed.
Lemma gone_mono n tr tr' : tr `prefix_of` tr' -> gone n tr -> gone n tr'.
Proof.
  intros [k ->] (pre1 & pre2 & l & s & -> & Hl & Hrest). exists pre1, (pre2 ++ k), l, s.
  rewrite <- app_assoc. split; [done|]. destruct Hrest as (?&?&?&Hs&?&?). rewrite elem_of_app. naive_solver.
Qed.

Abbreviation keeps := (keeps allowed).

Abbreviation reading := (calls_only (fun R (op : shellE R) => forall pre r, allowed pre (Ev op r))).
Lemma reading_run cmd : reads_only cmd -> reading (call (G := unit) (Run cmd)).
Proof. intros Hr. apply calls_call. intros pre r. by left. Qed.
Lemma reading_ovn_list pod ctl table columns : reading (_ovn_list kubectl_base pod ctl table columns).
Proof.
  unfold _ovn_list, _ovn_cmd. apply calls_bind; [apply reading_run; left; eauto|]. intros result.
  case_match; [done|]. apply calls_bind; [apply calls_lift|]. intros obj. apply calls_lift.
Qed.
Lemma reading_table {A} pod ctl table columns (f : list row -> res A) :
  reading (rows ← _ovn_list kubectl_base pod ctl table columns; lift (f rows)).
Proof. apply calls_bind; [apply reading_ovn_list|]. intros rows. apply calls_lift. Qed.
Lemma reading_banner phase3 : reading (print_connection_banner args.(kube_context) args.(os_cloud) phase3).
Proof.
  unfold print_connection_banner, _resolve_kube_context, _openstack_target, _openstack_cmd. apply calls_bind.
  - destruct (kube_context args) as [[|]|]; [|done|]; (apply calls_bind; [apply reading_run; do 4 right; done|done]).
  - intros _. case_match; [|done]. apply calls_bind; [|done].
    apply calls_bind; [apply reading_run; do 3 right; left; eauto|]. intros result.
    repeat case_match; try done. apply calls_bind; [apply calls_lift|done].
Qed.
Lemma keeps_reading {A} (p : shell A) tr : reading p -> disciplined allowed tr -> keeps p tt tr (fun _ _ _ => True).
Proof. intros Hp Hd. by apply keeps_calls. Qed.

Lemma keeps_confirm prompt tr :
  args.(execute) = true -> disciplined allowed tr ->
  keeps (_confirm prompt args.(assume_yes)) tt tr (fun r _ tr' => r = inr true -> agreed prompt tr').
Proof.
  intros Hex Hd. unfold _confirm. destruct (assume_yes args) eqn:Hyes; [apply keeps_ret; [done|by left]|].
  eapply keeps_bind with (Q1 := fun r _ tr' => forall answer, r = inr answer -> answer = "y" \/ answer = "yes" -> agreed prompt tr').
  - eapply keeps_try with (Q1 := fun r _ tr' => forall answer, r = inr answer -> answer = "y" \/ answer = "yes" -> agreed prompt tr').
    + eapply keeps_bind with (Q1 := fun r _ tr' => forall a, r = inr a -> Ev (Input prompt) (inr a) ∈ tr').
      * apply keeps_call; [done|done|]. intros r a ->. apply elem_of_app. right. by left.
      * done.
      * intros a [] tr1 Hd1 Hpre Ha. apply keeps_ret; [done|]. intros answer [= <-] Hy. right. exists a.
        split; [by apply Ha|]. rewrite !elem_of_cons. naive_solver.
    + naive_solver.
    + intros e [] tr1 Hd1 _ _. case_decide; [apply keeps_ret; [done|]|apply keeps_raise; done]. naive_solver.
  - done.
  - intros answer [] tr1 Hd1 _ H1. apply keeps_ret; [done|]. intros [= Ha]. apply (H1 answer eq_refl).
    apply orb_true_iff in Ha. rewrite !bool_decide_eq_true in Ha. done.
Qed.

(** A write after the operator's agreement. *)
Lemma keeps_txn {A} prompt (p : bool -> shell A) tr (Q : res A -> unit -> list (event shellE) -> Prop) :
  args.(execute) = true -> disciplined allowed tr ->
  (forall e tr', Q (inl e) tt tr') ->
  (forall tr', tr `prefix_of` tr' -> disciplined allowed tr' -> agreed prompt tr' -> keeps (p true) tt tr' Q) ->
  (forall tr', disciplined allowed tr' -> keeps (p false) tt tr' Q) ->
  keeps (b ← _confirm prompt args.(assume_yes); p b) tt tr Q.
Proof.
  intros Hex Hd He Ht Hf. eapply keeps_bind; [by apply keeps_confirm|intros e [] *; naive_solver|].
  intros [] [] tr' Hd' Hpre Ha; [apply Ht; auto|by apply Hf].
Qed.
Lemma keeps_execute_cleanup records tr :
  args.(execute) = true -> disciplined allowed tr ->
  keeps (execute_cleanup kubectl_base records args.(assume_yes)) tt tr (fun _ _ _ => True).
Proof.
  intros Hex Hd. unfold execute_cleanup. case_match; [by apply keeps_ret|].
  apply keeps_txn; [done|done|done| |intros tr' Hd'; by apply keeps_ret]. intros tr' _ Hd' Ha. cbn [negb].
  eapply keeps_bind with (Q1 := fun _ _ _ => True); [|done|intros res [] tr2 Hd2 _ _; case_match; [by apply keeps_raise|by apply keeps_ret]].
  apply keeps_call; [done| |done]. intros r. right. split; [done|]. left. eauto.
Qed.
Lemma keeps_execute_repopulation plan tr :
  args.(execute) = true -> disciplined allowed tr ->
  keeps (execute_repopulation kubectl_base plan args.(assume_yes)) tt tr (fun _ _ _ => True).
Proof.
  intros Hex Hd. unfold execute_repopulation. case_match; [by apply keeps_ret|].
  apply keeps_txn; [done|done|done| |intros tr' Hd'; by apply keeps_ret]. intros tr' _ Hd' Ha. cbn [negb].
  eapply keeps_bind with (Q1 := fun _ _ _ => True); [|done|intros res [] tr2 Hd2 _ _; case_match; [by apply keeps_raise|by apply keeps_ret]].
  apply keeps_call; [done| |done]. intros r. right. split; [done|]. right. left. eauto.
Qed.

Definition planned (p : orphan) (tr : list (event shellE)) : Prop :=
  p.(o_switch) = NEUTRON_PREFIX +:+ p.(o_network) /\ gone p.(o_network) tr.

Lemma removeprefix_back p s : startswith p s = true -> s = p +:+ removeprefix p s.
Proof.
  intros Hs. unfold removeprefix. rewrite Hs. apply startswith_spec in Hs as [r ->]. by rewrite drop_str_app.
Qed.

Lemma keeps_plan_one hcg lsps lrps sof s tr pre1 :
  disciplined allowed tr -> startswith NEUTRON_PREFIX s.(ls_name) = true ->
  pre1 `prefix_of` tr ->
  (exists listed, Ev (Run (openstack_command args.(os_cloud) ["network"; "list"; "-f"; "value"; "-c"; "ID"])) (inr listed) ∈ pre1 /\
    listed.(returncode) = 0 /\ listed_ids listed <> [] /\ removeprefix NEUTRON_PREFIX s.(ls_name) ∉ listed_ids listed) ->
  keeps (plan_one hcg lsps lrps sof args.(os_cloud) s) tt tr (fun r _ tr' =>
    match r with inr (inr p) => planned p tr' | _ => True end).
Proof.
  intros Hd Hs [pre2 ->] (listed & Hl & Hrc & Hne & Hni). unfold plan_one.
  set (n := removeprefix NEUTRON_PREFIX (ls_name s)) in *.
  eapply keeps_bind with (Q1 := fun r _ tr' => r = inr (Some false) -> gone n tr').
  - unfold neutron_network_exists, _openstack_cmd.
    eapply keeps_bind with (Q1 := fun r _ tr' => match r with inr shown =>
       exists pre3, tr' = pre1 ++ pre3 /\ Ev (Run (openstack_command args.(os_cloud) ["network"; "show"; n; "-f"; "value"; "-c"; "id"])) (inr shown) ∈ pre3
       | _ => True end).
    + apply keeps_call; [done|intros r; left; right; right; left; eauto|]. intros [e|shown]; [done|].
      eexists. rewrite <- app_assoc. split; [done|]. apply elem_of_app. right. by left.
    + done.
    + intros shown [] tr' Hd' _ (pre3 & -> & Hshown).
      destruct (Z.eqb_spec shown.(returncode) 0) as [|Hrc']; [by apply keeps_ret|].
      destruct (says_not_found shown) eqn:Hnf; [|by apply keeps_ret]. apply keeps_ret; [done|]. intros _.
      exists pre1, pre3, listed, shown. done.
  - done.
  - intros [[]|] [] tr' Hd' _ Hg; [by apply keeps_ret| |by apply keeps_ret]. cbn zeta.
    case_match; apply keeps_ret; try done. split; [by apply removeprefix_back|by apply Hg].
Qed.

Lemma keeps_plan_orphan_cleanup switches hcg lsps lrps force tr :
  disciplined allowed tr ->
  keeps (plan_orphan_cleanup switches hcg lsps lrps args.(os_cloud) force) tt tr (fun r _ tr' =>
    match r with inr (plan, _) => Forall (fun p => planned p tr') plan | _ => True end).
Proof.
  intros Hd. unfold plan_orphan_cleanup.
  eapply keeps_bind with (Q1 := fun r _ tr' => match r with inr live => exists listed,
     Ev (Run (openstack_command args.(os_cloud) ["network"; "list"; "-f"; "value"; "-c"; "ID"])) (inr listed) ∈ tr' /\
     listed.(returncode) = 0 /\ listed_ids listed <> [] /\ live = list_to_set (listed_ids listed) | _ => True end).
  - unfold get_live_neutron_network_ids, _openstack_cmd.
    eapply keeps_bind with (Q1 := fun r _ tr' => match r with inr listed =>
      Ev (Run (openstack_command args.(os_cloud) ["network"; "list"; "-f"; "value"; "-c"; "ID"])) (inr listed) ∈ tr' | _ => True end).
    + apply keeps_call; [done|intros r; left; right; left; eauto|]. intros [e|listed]; [done|]. apply elem_of_app. right. by left.
    + done.
    + intros listed [] tr' Hd' _ Hl. destruct (Z.eqb_spec listed.(returncode) 0); [|by apply keeps_raise]. cbn [negb].
      destruct (listed_ids listed) eqn:Hids; [by apply keeps_raise|]. apply keeps_ret; [done|]. exists listed. by rewrite Hids.
  - done.
  - intros live [] tr1 Hd1 _ (listed & Hl & Hrc & Hne & ->). cbn zeta. case_match; [by apply keeps_raise|].
    eapply keeps_mono; [apply (keeps_fold_each allowed _ _ _ (fun '(plan, _) _ tr' => tr1 `prefix_of` tr' /\ Forall (fun p => planned p tr') plan))|].
    + done.
    + done.
    + intros s [plan skipped] [] tr2 Hs Hd2 [Hpre Hplan].
      apply list_elem_of_filter in Hs as [Hn [Hs _]%list_elem_of_filter].
      eapply keeps_bind; [eapply keeps_plan_one; [done|done|exact Hpre|]|done|].
      * exists listed. rewrite elem_of_list_to_set in Hn. done.
      * intros one [] tr3 Hd3 Hpre3 Hone. apply keeps_ret; [done|].
        assert (Forall (fun p => planned p tr3) plan) as Hplan'.
        { eapply Forall_impl; [exact Hplan|]. intros p [? ?]. split; [done|by eapply gone_mono]. }
        destruct one; (split; [by etrans|]); [done|]. apply Forall_app. split; [done|]. by apply Forall_singleton.
    + intros [e|[plan skipped]] [] tr' _; [done|]. by intros [_ ?].
Qed.

Lemma keeps_execute_orphan_cleanup plan tr :
  args.(execute) = true -> args.(delete_orphaned_networks) = true -> disciplined allowed tr ->
  Forall (fun p => planned p tr) plan ->
  keeps (execute_orphan_cleanup kubectl_base plan args.(assume_yes)) tt tr (fun _ _ _ => True).
Proof.
  intros Hex Hdel Hd Hplan. unfold execute_orphan_cleanup. case_match; [by apply keeps_ret|].
  apply keeps_txn; [done|done|done| |intros tr' Hd'; by apply keeps_ret]. intros tr1 Hpre Hd1 Ha. cbn [negb].
  eapply keeps_bind; [|done|intros failed [] tr2 Hd2 _ _; case_match; [by apply keeps_raise|by apply keeps_ret]].
  eapply keeps_mono; [apply (keeps_fold_each allowed _ _ _ (fun _ _ tr' => tr1 `prefix_of` tr'))|done]; [done|done|].
  intros p failed [] tr2 Hp Hd2 Hpre2. rewrite Forall_forall in Hplan. destruct (Hplan p Hp) as [Hsw Hg].
  eapply keeps_bind with (Q1 := fun _ _ tr' => tr1 `prefix_of` tr'); [|done|intros res [] tr3 Hd3 _ H3; by apply keeps_ret].
  apply keeps_call; [done| |].
  - intros r. right. split; [done|]. right. right. split; [by eapply agreed_mono|]. split; [done|]. exists p.
    split_and!; [done..|]. eapply gone_mono; [|exact Hg]. by etrans.
  - intros r. etrans; [exact Hpre2|]. by apply prefix_app_r.
Qed.

Lemma keeps_main : keeps (main args) tt [] (fun _ _ _ => True).
Proof.
  assert (forall A B (p : shell A) (f : A -> shell B) tr, reading p -> disciplined allowed tr ->
    (forall a tr', disciplined allowed tr' -> keeps (f a) tt tr' (fun _ _ _ => True)) ->
    keeps (mbind f p) tt tr (fun _ _ _ => True)) as Hread.
  { intros A B p f tr Hp Hd Hf. eapply keeps_bind; [by apply keeps_reading|done|]. intros a [] tr' Hd' _ _. by apply Hf. }
  unfold main. apply Hread; [apply reading_banner|apply disciplined_nil|]. intros _ tr1 Hd1.
  apply Hread; [|done|].
  { unfold get_live_chassis_names. apply calls_bind; [apply reading_ovn_list|]. intros rows. apply calls_bind; [apply calls_lift|done]. }
  intros live tr2 Hd2. apply Hread; [apply reading_table|done|]. intros hcs tr3 Hd3. cbn zeta.
  apply Hread; [apply reading_table|done|]. intros groups tr4 Hd4.
  eapply keeps_bind with (Q1 := fun _ _ _ => True); [|done|].
  { destruct (execute args) eqn:Hex; [by apply keeps_execute_cleanup|by apply keeps_ret]. }
  intros _ [] tr5 Hd5 _ _. eapply keeps_bind with (Q1 := fun _ _ _ => True); [|done|].
  { destruct (skip_repopulate args); [by apply keeps_ret|]. apply Hread; [|done|].
    - unfold get_router_chassis_by_id. apply calls_bind; [apply reading_ovn_list|]. intros rows. apply calls_bind; [apply calls_lift|done].
    - intros rc tr6 Hd6. cbn zeta. destruct (execute args) eqn:Hex; [by apply keeps_execute_repopulation|by apply keeps_ret]. }
  intros _ [] tr6 Hd6 _ _. unfold orphaned_networks_phase. cbn zeta.
  destruct (delete_orphaned_networks args) eqn:Hdel; [|by apply keeps_ret]. cbn [negb].
  case_match; [by apply keeps_raise|]. apply Hread; [apply reading_table|done|]. intros switches tr7 Hd7.
  apply Hread; [apply reading_table|done|]. intros lsps tr8 Hd8. apply Hread; [apply reading_table|done|]. intros lrps tr9 Hd9.
  eapply keeps_bind; [by apply keeps_plan_orphan_cleanup|done|]. intros [plan skipped] [] tr10 Hd10 _ Hplan.
  destruct (execute args) eqn:Hex; [by apply keeps_execute_orphan_cleanup|by apply keeps_ret].
Qed.

(** C18. On every run of the script, whatever the commands answer: without
    [--execute] it asks nothing and only reads; with it, each transaction of a phase
    comes after the operator's agreement to that phase (or [--yes]); and a switch
    is deleted only in phase 3, when it was asked for, after Neutron listed its
    networks without the switch's network and then said itself that there is no
    such network: an error of Neutron is never taken for an answer. *)
Theorem chassis_script_disciplined :
  every_run (main args) tt (fun _ _ tr => forall pre ev post, tr = pre ++ ev :: post -> allowed pre ev).
Proof. eapply wp_mono; [|apply keeps_main]. intros r [] tr (Hd & _ & _). exact Hd. Qed.
End discipline.

(** ** The databases *)

(** The Northbound tables of the phases 1 and 2. *)
Record hcg := MkHcg { h_name : string; h_members : gset string; h_ext : gmap string string }.
Record nbdb := MkNb { nb_chassis : gmap string string; nb_groups : gmap string hcg }.
Definition with_members (f : gset string -> gset string) (h : hcg) : hcg := MkHcg h.(h_name) (f h.(h_members)) h.(h_ext).

Definition referenced (s : nbdb) (u : string) : Prop := exists g h, s.(nb_groups) !! g = Some h /\ u ∈ h.(h_members).
(** References are to rows; rows are named by UUIDs and groups have distinct names. *)
Record wf_db (s : nbdb) : Prop := {
  wf_ref u : referenced s u -> is_Some (s.(nb_chassis) !! u);
  wf_word g h : s.(nb_groups) !! g = Some h -> g <> "--" /\ forall u, u ∈ h.(h_members) -> u <> "--";
  wf_names g g' h h' : s.(nb_groups) !! g = Some h -> s.(nb_groups) !! g' = Some h' -> h.(h_name) = h'.(h_name) -> g = g' }.

(** [ovn-nbctl]: the commands between the dashes, one after the other. *)
Definition split_commands (args : list string) : list (list string) :=
  tail (foldr (fun w acc => if decide (w = "--") then [] :: acc
                            else match acc with c :: r => (w :: c) :: r | [] => [[w]] end) [[]] args).
Inductive nb_command : list string -> nbdb * gmap string string -> nbdb * gmap string string -> Prop :=
| NbRemove s names g h u : s.(nb_groups) !! g = Some h ->
    nb_command ["remove"; "HA_Chassis_Group"; g; "ha_chassis"; u] (s, names)
      (MkNb s.(nb_chassis) (<[g := with_members (.∖ {[u]}) h]> s.(nb_groups)), names)
| NbCreate s names i c priority u : s.(nb_chassis) !! u = None -> ~ referenced s u ->
    nb_command ["--id=" +:+ i; "create"; "HA_Chassis"; "chassis_name=" +:+ c; "priority=" +:+ priority] (s, names)
      (MkNb (<[u := c]> s.(nb_chassis)) s.(nb_groups), <[i := u]> names)
| NbAdd s names g h i u : s.(nb_groups) !! g = Some h -> names !! i = Some u ->
    nb_command ["add"; "HA_Chassis_Group"; g; "ha_chassis"; i] (s, names)
      (MkNb s.(nb_chassis) (<[g := with_members ({[u]} ∪.) h]> s.(nb_groups)), names).
Inductive nb_commands : list (list string) -> nbdb * gmap string string -> nbdb * gmap string string -> Prop :=
| NbDone s : nb_commands [] s s
| NbNext c cs s1 s2 s3 : nb_command c s1 s2 -> nb_commands cs s2 s3 -> nb_commands (c :: cs) s1 s3.
(** A transaction: all commands, then chassis that nothing refers to are dropped. *)
Definition nb_transaction (args : list string) (s s' : nbdb) : Prop :=
  exists s1 names, nb_commands (split_commands args) (s, ∅) (s1, names) /\ s'.(nb_groups) = s1.(nb_groups) /\
    (forall u, referenced s1 u -> s'.(nb_chassis) !! u = s1.(nb_chassis) !! u) /\
    (forall u, ~ referenced s1 u -> s'.(nb_chassis) !! u = None).

(** What a listing of a table shows. *)
Definition shows_chassis (s : nbdb) (rows : list HaChassis) : Prop :=
  NoDup (map hc_uuid rows) /\ forall u c, MkHaChassis u c ∈ rows <-> s.(nb_chassis) !! u = Some c.
Definition shows_groups (s : nbdb) (rows : list HaChassisGroup) : Prop :=
  NoDup (map g_uuid rows) /\
  (forall g h, s.(nb_groups) !! g = Some h -> exists members, MkGroup g h.(h_name) members h.(h_ext) ∈ rows) /\
  (forall r, r ∈ rows -> exists h, s.(nb_groups) !! r.(g_uuid) = Some h /\ h.(h_name) = r.(g_name) /\
     h.(h_members) = list_to_set r.(ha_chassis) /\ h.(h_ext) = r.(external_ids)).
Definition shows_routers (routers : gmap string (option string)) (entries : list row) : Prop :=
  exists l, res_map (fun r => n ← text_column "name" r; o ← map_column "options" r;
                              Ok (removeprefix NEUTRON_PREFIX n, o !! "chassis")) entries = inr l /\
            list_to_map (reverse l) = routers.

Section databases.
Context (args : arguments) (live : gset string) (routers : gmap string (option string)).
Abbreviation kubectl_base := (build_kubectl_base args.(kube_context)).
Abbreviation nb := (ovn_command kubectl_base NB_POD "ovn-nbctl").
Definition list_command (pod ctl table columns : string) : list string :=
  ovn_command kubectl_base pod ctl ["--columns=" +:+ columns; "--format=json"; "list"; table].

(** What the rows of a listing are. *)
Definition shown (cmd : list string) (s : nbdb) (rows : list row) : Prop :=
  (cmd = list_command SB_POD "ovn-sbctl" "Chassis" "name" ->
     forall l, res_map (text_column "name") rows = inr l -> list_to_set l = live) /\
  (cmd = list_command NB_POD "ovn-nbctl" "HA_Chassis" "_uuid,chassis_name,priority" ->
     forall l, res_map decode_ha_chassis rows = inr l -> shows_chassis s l) /\
  (cmd = list_command NB_POD "ovn-nbctl" "HA_Chassis_Group" "_uuid,name,ha_chassis,external_ids" ->
     forall l, res_map decode_group rows = inr l -> shows_groups s l) /\
  (cmd = list_command NB_POD "ovn-nbctl" "Logical_Router" "name,options" -> shows_routers routers rows).
(** A command may fail, and then changes nothing; one that succeeds shows the
    tables, or is a transaction; the live chassis and the routers do not change. *)
Definition ovn_step (R : Type) (op : shellE R) : nbdb -> res R -> nbdb -> Prop :=
  match op in shellE R return nbdb -> res R -> nbdb -> Prop with
  | Input _ => fun s _ s' => s' = s
  | Run cmd => fun s r s' =>
      match r with
      | inl _ => s' = s
      | inr c =>
          if c.(returncode) =? 0 then
            (forall a, cmd = nb ("--" :: a) -> nb_transaction ("--" :: a) s s') /\
            ((forall a, cmd <> nb ("--" :: a)) -> s' = s) /\
            forall obj rows, c.(stdout_json) = Some obj -> parse_ovn_json obj = inr rows -> shown cmd s rows
          else s' = s
      end
  end.

(** *** What is repaired *)

Definition is_alive (s : nbdb) (u : string) : bool :=
  match s.(nb_chassis) !! u with Some c => bool_decide (c ∈ live) | None => false end.
Definition alive (s : nbdb) (members : gset string) : gset string := filter (fun u => is_alive s u = true) members.
Definition text_of (h : hcg) (key : string) : option string :=
  match h.(h_ext) !! key with Some (String _ _ as x) => Some x | _ => None end.

(** A network's group without a live chassis, and the router it belongs to. *)
Definition lacks (s : nbdb) (h : hcg) (router_id : string) : Prop :=
  is_Some (text_of h OVN_NETWORK_ID_EXT_ID_KEY) /\ alive s h.(h_members) = ∅ /\
  text_of h OVN_ROUTER_ID_EXT_ID_KEY = Some router_id.
(** The chassis it should have: the router's own, else the only live one of the
    router's group. *)
Definition target (s : nbdb) (router_id c : string) : Prop :=
  match routers !! router_id with
  | Some (Some (String _ _ as own)) => c = own /\ own ∈ live
  | _ => exists g h, s.(nb_groups) !! g = Some h /\ h.(h_name) = "neutron-" +:+ router_id /\
           forall c', c' = c <-> exists u, u ∈ alive s h.(h_members) /\ s.(nb_chassis) !! u = Some c'
  end.
Definition repaired_group (s s' : nbdb) (h h' : hcg) : Prop :=
  h'.(h_name) = h.(h_name) /\ h'.(h_ext) = h.(h_ext) /\
  ((exists router_id c u, lacks s h router_id /\ target s router_id c /\
      h'.(h_members) = {[u]} /\ s'.(nb_chassis) !! u = Some c /\ c ∈ live) \/
   (~ (exists router_id c, lacks s h router_id /\ target s router_id c) /\
      h'.(h_members) = alive s h.(h_members) /\
      forall u, u ∈ h'.(h_members) -> s'.(nb_chassis) !! u = s.(nb_chassis) !! u)).
Definition repaired (s s' : nbdb) : Prop :=
  forall g, match s.(nb_groups) !! g with
            | None => s'.(nb_groups) !! g = None
            | Some h => exists h', s'.(nb_groups) !! g = Some h' /\ repaired_group s s' h h'
            end.

(** *** Listings *)

Lemma elem_of_alive s members u : u ∈ alive s members <-> u ∈ members /\ exists c, s.(nb_chassis) !! u = Some c /\ c ∈ live.
Proof.
  unfold alive, is_alive. rewrite elem_of_filter. destruct (nb_chassis s !! u) as [c|] eqn:Hc; [|naive_solver].
  rewrite bool_decide_eq_true. naive_solver.
Qed.

Section listings.
Context (s : nbdb) (hcs : list HaChassis) (groups : list HaChassisGroup).
Hypothesis (Hwf : wf_db s) (Hhcs : shows_chassis s hcs) (Hgroups : shows_groups s groups).
Abbreviation stale := (list_to_set (map hc_uuid (find_stale_ha_chassis hcs live)) : gset string).

Lemma by_uuid_shows : by_uuid hcs = s.(nb_chassis).
Proof.
  destruct Hhcs as [Hnd Hrows]. apply map_eq. intros u. unfold by_uuid. apply option_eq. intros c.
  rewrite <- elem_of_list_to_map; [|rewrite fmap_reverse; apply (NoDup_Permutation_proper _ _ (reverse_Permutation _)); by rewrite <- list_fmap_compose].
  rewrite elem_of_reverse, list_elem_of_fmap, <- Hrows. split; [by intros ([u' c'] & [= -> ->] & ?)|].
  intros Hin. by exists (MkHaChassis u c).
Qed.
Lemma stale_spec u : u ∈ stale <-> exists c, s.(nb_chassis) !! u = Some c /\ c ∉ live.
Proof.
  destruct Hhcs as [_ Hrows]. rewrite elem_of_list_to_set, list_elem_of_fmap. unfold find_stale_ha_chassis.
  split.
  - intros ([u' c] & -> & [Hc Hin]%list_elem_of_filter). exists c. by rewrite <- Hrows.
  - intros (c & Hc & Hl). exists (MkHaChassis u c). split; [done|]. apply list_elem_of_filter. by rewrite Hrows.
Qed.
Lemma alive_not_stale g h u : s.(nb_groups) !! g = Some h -> u ∈ h.(h_members) -> u ∉ stale <-> u ∈ alive s h.(h_members).
Proof.
  intros Hg Hu. rewrite stale_spec, elem_of_alive. destruct (wf_ref s Hwf u) as [c Hc]; [by exists g, h|].
  split; [|naive_solver]. intros Hn. split; [done|]. exists c. split; [done|]. destruct (decide (c ∈ live)); naive_solver.
Qed.

Lemma group_row g h : s.(nb_groups) !! g = Some h -> exists members,
  MkGroup g h.(h_name) members h.(h_ext) ∈ groups /\ h.(h_members) = list_to_set members.
Proof.
  destruct Hgroups as (_ & Hex & Hall). intros Hg. destruct (Hex g h Hg) as [members Hin]. exists members. split; [done|].
  destruct (Hall _ Hin) as (h' & Hg' & _ & Hm & _). cbn in *. by simplify_eq.
Qed.
Lemma remaining_alive r h : s.(nb_groups) !! r.(g_uuid) = Some h -> h.(h_members) = list_to_set r.(ha_chassis) ->
  forall u, u ∈ filter (fun m => m ∉ stale) r.(ha_chassis) <-> u ∈ alive s h.(h_members).
Proof.
  intros Hg Hm u. rewrite list_elem_of_filter. split.
  - intros [Hs Hu]. apply (alive_not_stale _ _ _ Hg); [|done]. by rewrite Hm, elem_of_list_to_set.
  - intros Ha. assert (u ∈ h.(h_members)) as Hu by (by apply elem_of_alive in Ha as [? _]).
    split; [by apply (alive_not_stale _ _ _ Hg)|]. by rewrite Hm, elem_of_list_to_set in Hu.
Qed.

Lemma target_chassis_spec router_id c :
  target_chassis groups (by_uuid hcs) stale live routers router_id = inr c <-> target s router_id c.
Proof.
  assert (match last (filter (fun g => g.(g_name) = "neutron-" +:+ router_id) groups) with
      | None => inl (RouterGroupNotFound ("neutron-" +:+ router_id))
      | Some router_group =>
          let router_remaining := filter (fun m => m ∉ stale) router_group.(ha_chassis) in
          let chassis_names : gset string := list_to_set (omap (fun m => by_uuid hcs !! m) router_remaining) in
          match elements chassis_names with [c] => inr c | names => inl (DistinctChassis (length names)) end
      end = inr c <->
    exists g h, s.(nb_groups) !! g = Some h /\ h.(h_name) = "neutron-" +:+ router_id /\
      forall c', c' = c <-> exists u, u ∈ alive s h.(h_members) /\ s.(nb_chassis) !! u = Some c') as Hgroup.
  { destruct (last _) as [r|] eqn:Hlast; cycle 1.
    - apply last_None in Hlast. split; [done|]. intros (g & h & Hg & Hn & _). destruct (group_row g h Hg) as (ms & Hin & _).
      assert (MkGroup g (h_name h) ms (h_ext h) ∈ filter (fun g => g.(g_name) = "neutron-" +:+ router_id) groups) as Hf
        by (by apply list_elem_of_filter). rewrite Hlast in Hf. by apply elem_of_nil in Hf.
    - apply last_Some_elem_of, list_elem_of_filter in Hlast as [Hname Hin].
      destruct Hgroups as (_ & _ & Hall). destruct (Hall r Hin) as (h & Hg & Hn & Hm & _). cbn zeta.
      set (names := list_to_set _ : gset string).
      assert (forall c', c' ∈ names <-> exists u, u ∈ alive s h.(h_members) /\ s.(nb_chassis) !! u = Some c') as Hnames.
      { intros c'. unfold names. rewrite elem_of_list_to_set, list_elem_of_omap, by_uuid_shows.
        by setoid_rewrite (remaining_alive r h Hg Hm). }
      transitivity (names = {[c]}).
      + split; [|intros ->; by rewrite elements_singleton].
        destruct (elements names) as [|c1 [|]] eqn:He; try done. intros [= ->]. apply set_eq. intros x.
        rewrite <- elem_of_elements, He. set_solver.
      + split.
        * intros Heq. exists r.(g_uuid), h. split_and!; [done|congruence|]. intros c'. rewrite <- Hnames, Heq. set_solver.
        * intros (g' & h' & Hg' & Hn' & Hc). assert (g' = r.(g_uuid)) as -> by (eapply (wf_names s Hwf); [done|done|congruence]).
          simplify_eq. apply set_eq. intros x. rewrite Hnames, <- Hc. set_solver. }
  unfold target_chassis, target. destruct (routers !! router_id) as [[[|a own]|]|]; try exact Hgroup.
  case_decide; naive_solver.
Qed.

Definition plan_for (r : HaChassisGroup) : option repopulation :=
  match r.(external_ids) !! OVN_NETWORK_ID_EXT_ID_KEY, r.(external_ids) !! OVN_ROUTER_ID_EXT_ID_KEY with
  | Some (String _ _ as n), Some (String _ _ as rid) =>
      if truthy (filter (fun m => m ∉ stale) r.(ha_chassis)) then None else
      match target_chassis groups (by_uuid hcs) stale live routers rid with
      | inr c => Some (MkRepop r.(g_uuid) r.(g_name) n rid c)
      | inl _ => None
      end
  | _, _ => None
  end.
Lemma plan_omap : (plan_repopulation groups (by_uuid hcs) stale live routers).1 = omap plan_for groups.
Proof.
  unfold plan_repopulation. match goal with |- (foldl ?f _ _).1 = _ => set (F := f) end.
  assert (forall l plan skipped, (foldl F (plan, skipped) l).1 = plan ++ omap plan_for l) as Hgo; [|by rewrite Hgo].
  induction l as [|r l IH]; intros plan skipped; [by rewrite app_nil_r|]. cbn [foldl omap list_omap].
  assert (F (plan, skipped) r = (plan ++ option_list (plan_for r), (F (plan, skipped) r).2)) as ->.
  { unfold F, plan_for. destruct (external_ids r !! OVN_NETWORK_ID_EXT_ID_KEY) as [[|]|]; try by rewrite app_nil_r.
    destruct (truthy (filter _ (ha_chassis r))).
    - destruct (external_ids r !! _) as [[|]|]; by rewrite app_nil_r.
    - destruct (external_ids r !! _) as [[|]|]; try by rewrite app_nil_r.
      by destruct (target_chassis _ _ _ _ _ _); rewrite ?app_nil_r. }
  rewrite IH. destruct (plan_for r); cbn; by rewrite <- app_assoc.
Qed.
Lemma plan_for_spec r h p : r ∈ groups -> s.(nb_groups) !! r.(g_uuid) = Some h ->
  plan_for r = Some p ->
  p.(rp_group) = r.(g_uuid) /\ lacks s h p.(rp_router) /\ target s p.(rp_router) p.(rp_chassis).
Proof.
  destruct Hgroups as (_ & _ & Hall). intros Hin Hg. destruct (Hall r Hin) as (h' & Hg' & Hn & Hm & He).
  assert (h' = h) as -> by congruence. clear Hg'.
  unfold plan_for, lacks, text_of. rewrite He.
  destruct (external_ids r !! OVN_NETWORK_ID_EXT_ID_KEY) as [[|]|]; try done.
  destruct (external_ids r !! _) as [[|]|]; try done. destruct (filter _ _) as [|m l] eqn:Hrem; [|done]. cbn [truthy truthy_list].
  destruct (target_chassis _ _ _ _ _ _) as [|c] eqn:Ht; [done|]. intros [= <-]. apply target_chassis_spec in Ht. cbn.
  split_and!; try done. apply set_eq. intros u. rewrite <- (remaining_alive r h Hg Hm), Hrem. set_solver.
Qed.
Lemma plan_for_none r h : r ∈ groups -> s.(nb_groups) !! r.(g_uuid) = Some h ->
  plan_for r = None -> ~ exists router_id c, lacks s h router_id /\ target s router_id c.
Proof.
  destruct Hgroups as (_ & _ & Hall). intros Hin Hg. destruct (Hall r Hin) as (h' & Hg' & Hn & Hm & He).
  assert (h' = h) as -> by congruence. clear Hg'.
  intros Hp (rid & c & ([n Hnet] & Hal & Hrid) & Ht%target_chassis_spec). revert Hp Hnet Hrid.
  unfold plan_for, text_of. rewrite He.
  destruct (external_ids r !! OVN_NETWORK_ID_EXT_ID_KEY) as [[|]|]; try done.
  destruct (external_ids r !! _) as [[|]|]; try done. intros Hp _ [= <-].
  destruct (filter _ _) as [|m l] eqn:Hrem; [|].
  - cbn [truthy truthy_list] in Hp. by rewrite Ht in Hp.
  - assert (m ∈ alive s (h_members h)) as Hm'; [|rewrite Hal in Hm'; set_solver].
    apply (remaining_alive r h Hg Hm). rewrite Hrem. left.
Qed.
End listings.
End databases.

(** *** Transactions *)

Lemma split_commands_flat (cmds : list (list string)) :
  Forall (Forall (fun w => w <> "--")) cmds -> split_commands (flat_map (fun c => "--" :: c) cmds) = cmds.
Proof.
  intros Hall. unfold split_commands.
  set (F := fun w acc => if decide (w = "--") then [] :: acc else match acc with c :: r => (w :: c) :: r | [] => [[w]] end).
  assert (foldr F [[]] (flat_map (fun c => "--" :: c) cmds) = [] :: cmds) as ->; [|done].
  induction Hall as [|c cmds Hc _ IH]; [done|]. cbn [flat_map]. cbn [app foldr]. unfold F at 1. rewrite decide_True by done. f_equal.
  rewrite foldr_app, IH. clear IH. induction Hc as [|w c Hw _ IH]; [done|]. cbn [foldr app]. rewrite IH. unfold F. by rewrite decide_False.
Qed.

Definition cleanup_commands (records : list cleanup_record) : list (list string) :=
  map (fun r => ["remove"; "HA_Chassis_Group"; r.(cr_group); "ha_chassis"; r.(cr_member)]) records.
Lemma split_cleanup records :
  Forall (fun r => r.(cr_group) <> "--" /\ r.(cr_member) <> "--") records ->
  split_commands (cleanup_args records) = cleanup_commands records.
Proof.
  intros Hall. rewrite <- (split_commands_flat (cleanup_commands records)).
  - f_equal. clear Hall. unfold cleanup_args, cleanup_commands.
    induction records as [|r records IH]; [done|]. cbn [map flat_map app]. by rewrite IH.
  - apply Forall_fmap. eapply Forall_impl; [exact Hall|]. intros r [? ?]. cbn. by repeat constructor.
Qed.
(** The members that the records take from a group. *)
Definition removed (records : list cleanup_record) (g : string) : gset string :=
  list_to_set (map cr_member (filter (fun r => r.(cr_group) = g) records)).
Lemma cleanup_steps records s names s' names' :
  nb_commands (cleanup_commands records) (s, names) (s', names') ->
  s'.(nb_chassis) = s.(nb_chassis) /\
  forall g, s'.(nb_groups) !! g = with_members (.∖ removed records g) <$> s.(nb_groups) !! g.
Proof.
  revert s names. induction records as [|r records IH]; intros s names.
  - inversion 1; subst. split; [done|]. intros g. unfold removed. destruct (_ !! g) as [[n m e]|]; [|done].
    unfold with_members. cbn. by rewrite difference_empty_L.
  - inversion 1 as [|? ? ? s2 ? Hc Hcs]; subst. inversion Hc as [? ? g h u Hg| |]; subst. destruct (IH _ _ Hcs) as [-> Hgs].
    split; [done|]. intros g'. rewrite Hgs. cbn [nb_groups]. unfold removed. rewrite filter_cons.
    destruct (decide (cr_group r = g')) as [<-|Hne].
    + rewrite lookup_insert_eq, Hg. unfold with_members. cbn. do 2 f_equal. set_solver.
    + by rewrite lookup_insert_ne.
Qed.

Definition repopulation_commands (i : nat) (plan : list repopulation) : list (list string) :=
  flat_map (fun '(i, p) =>
    [["--id=" +:+ hc_id i; "create"; "HA_Chassis"; "chassis_name=" +:+ p.(rp_chassis);
      "priority=" +:+ pretty HA_CHASSIS_GROUP_HIGHEST_PRIORITY];
     ["add"; "HA_Chassis_Group"; p.(rp_group); "ha_chassis"; hc_id i]]) (enumerate_from i plan).
Lemma split_repopulation plan :
  Forall (fun p => p.(rp_group) <> "--") plan ->
  split_commands (repopulation_args plan) = repopulation_commands 0 plan.
Proof.
  intros Hall. rewrite <- (split_commands_flat (repopulation_commands 0 plan)).
  - f_equal. unfold repopulation_args, repopulation_commands. generalize 0%nat as i. clear Hall.
    induction plan as [|p plan IH]; intros i; [done|]. cbn [enumerate_from flat_map app]. by rewrite (IH (S i)).
  - unfold repopulation_commands. generalize 0%nat as i. induction Hall as [|p plan Hp _ IH]; intros i; [constructor|].
    cbn [enumerate_from flat_map app]. constructor; [|constructor; [|apply IH]]; by repeat constructor.
Qed.
Lemma repopulation_steps plan i s names s' names' :
  nb_commands (repopulation_commands i plan) (s, names) (s', names') -> NoDup (map rp_group plan) ->
  (forall u c, s.(nb_chassis) !! u = Some c -> s'.(nb_chassis) !! u = Some c) /\
  (forall g, (forall p, p ∈ plan -> p.(rp_group) <> g) -> s'.(nb_groups) !! g = s.(nb_groups) !! g) /\
  (forall p h, p ∈ plan -> s.(nb_groups) !! p.(rp_group) = Some h -> exists u,
     s'.(nb_groups) !! p.(rp_group) = Some (with_members ({[u]} ∪.) h) /\ s'.(nb_chassis) !! u = Some p.(rp_chassis)).
Proof.
  revert i s names. induction plan as [|p plan IH]; intros i s names.
  - inversion 1; subst. intros _. split_and!; [done|done|]. intros p h Hp. by apply elem_of_nil in Hp.
  - cbn [repopulation_commands enumerate_from flat_map app]. fold (repopulation_commands (S i) plan).
    inversion 1 as [|? ? ? s2 ? Hc Hcs]; subst. inversion Hc as [|s0 n0 j c prio u Hfresh Hnref Hid|]; subst.
    inversion Hcs as [|? ? ? s3 ? Hc2 Hcs2]; subst. inversion Hc2 as [| |s1 n1 g h j' u' Hg Hu']; subst.
    intros [Hnotin Hnd]%NoDup_cons. destruct (IH _ _ _ Hcs2 Hnd) as (Hch & Hother & Hplan).
    cbn [nb_chassis nb_groups] in *. rewrite lookup_insert_eq in Hu'. simplify_eq.
    assert (forall q, q ∈ plan -> rp_group q <> rp_group p) as Hdist.
    { intros q Hq Heq. apply Hnotin. rewrite <- Heq. by apply list_elem_of_fmap_2. }
    split_and!.
    + intros v c Hv. apply Hch. by rewrite lookup_insert_ne by congruence.
    + intros g Hg'. rewrite Hother by (intros q Hq; apply Hg'; by right). rewrite lookup_insert_ne; [done|]. apply Hg'. left.
    + intros q hq [->|Hq]%elem_of_cons Hgq.
      * simplify_eq. exists u'. split; [by rewrite Hother, lookup_insert_eq|]. apply Hch. by rewrite lookup_insert_eq.
      * apply Hplan; [done|]. rewrite lookup_insert_ne; [done|]. intros Heq. by apply (Hdist q).
Qed.

(** *** The run *)

Section repair.
Context (args : arguments) (live : gset string) (routers : gmap string (option string)).
Abbreviation kubectl_base := (build_kubectl_base args.(kube_context)).
Abbreviation nb := (ovn_command kubectl_base NB_POD "ovn-nbctl").
Abbreviation step := (ovn_step args live routers).
Abbreviation alive := (alive live).

Lemma ovn_command_inj pod ctl a pod' ctl' a' :
  ovn_command kubectl_base pod ctl a = ovn_command kubectl_base pod' ctl' a' -> a = a'.
Proof. unfold ovn_command. intros Heq%app_inv_head. by simplify_eq. Qed.

Lemma wp_unchanged cmd (Q : res completed -> unit -> nbdb -> Prop) s :
  (forall a, cmd <> nb ("--" :: a)) ->
  (forall r, (forall c obj rows, r = inr c -> c.(returncode) = 0 -> c.(stdout_json) = Some obj ->
                parse_ovn_json obj = inr rows -> shown args live routers cmd s rows) -> Q r tt s) ->
  wp step (call (Run cmd)) Q tt s.
Proof.
  intros Hcmd HQ. apply wp_call. intros [e|c] s' Hs; cbn in Hs; [subst; by apply HQ|].
  destruct (Z.eqb_spec c.(returncode) 0) as [Hrc|Hrc].
  - destruct Hs as (_ & Hsame & Hshown). rewrite (Hsame Hcmd). apply HQ. intros c' obj rows [= <-] _. apply Hshown.
  - subst. apply HQ. intros c' obj rows [= <-]. done.
Qed.
Lemma wp_ovn_list pod ctl table columns s :
  wp step (_ovn_list kubectl_base pod ctl table columns) (fun r _ s' => s' = s /\
    match r with inr rows => shown args live routers (list_command args pod ctl table columns) s rows | _ => True end) tt s.
Proof.
  unfold _ovn_list, _ovn_cmd. wp_pure. apply wp_unchanged; [intros a Heq%ovn_command_inj; done|].
  intros [e|c] Hc; wp_simp; [done|]. destruct (Z.eqb_spec c.(returncode) 0) as [Hrc|Hrc]; wp_simp; [|by wp_pure].
  unfold loads. destruct (stdout_json c) as [obj|] eqn:Hobj; repeat wp_pure; [|done].
  split; [done|]. destruct (parse_ovn_json obj) as [|rows] eqn:Hrows; [done|]. by eapply Hc.
Qed.
Lemma wp_table {A} pod ctl table columns (f : list row -> res A) s :
  wp step (rows ← _ovn_list kubectl_base pod ctl table columns; lift (f rows)) (fun r _ s' => s' = s /\
    match r with inr l => exists rows, f rows = inr l /\ shown args live routers (list_command args pod ctl table columns) s rows
    | _ => True end) tt s.
Proof.
  wp_pure. eapply wp_mono; [|apply wp_ovn_list]. intros [e|rows] [] s' [-> Hrows]; [done|]. wp_pure. split; [done|].
  destruct (f rows) eqn:Hf; [done|]. eauto.
Qed.

(** A transaction, or nothing when there is nothing to do. *)
Lemma wp_transaction a s (Q : res unit -> unit -> nbdb -> Prop) :
  (forall e, Q (inl e) tt s) ->
  (forall s', nb_transaction ("--" :: a) s s' -> Q (inr tt) tt s') ->
  wp step (result ← _ovn_cmd kubectl_base NB_POD "ovn-nbctl" ("--" :: a);
           if negb (result.(returncode) =? 0) then Raise (SystemExit "1") else mret tt) Q tt s.
Proof.
  intros He HQ. unfold _ovn_cmd. wp_pure. apply wp_call. intros [e|c] s' Hs; cbn in Hs; wp_simp; [subst; apply He|].
  destruct (Z.eqb_spec c.(returncode) 0) as [Hrc|Hrc]; wp_simp; wp_pure.
  - apply HQ. by apply Hs.
  - subst. apply He.
Qed.

(** After phase 1 the groups have their live members. *)
Definition cleaned (s s1 : nbdb) : Prop :=
  (forall g, s1.(nb_groups) !! g = with_members (alive s) <$> s.(nb_groups) !! g) /\
  (forall u, referenced s1 u -> s1.(nb_chassis) !! u = s.(nb_chassis) !! u).

Section phases.
Context (s : nbdb) (hcs : list HaChassis) (groups : list HaChassisGroup).
Hypothesis (Hwf : wf_db s) (Hhcs : shows_chassis s hcs) (Hgroups : shows_groups s groups).
Abbreviation stale := (list_to_set (map hc_uuid (find_stale_ha_chassis hcs live)) : gset string).
Abbreviation records := (map_groups_to_stale_members groups stale).

Lemma removed_spec g h : s.(nb_groups) !! g = Some h -> h.(h_members) ∖ removed records g = alive s h.(h_members).
Proof.
  intros Hg. apply set_eq. intros u. rewrite elem_of_difference.
  assert (u ∈ removed records g <-> u ∈ h.(h_members) /\ u ∈ stale) as ->.
  { unfold removed, map_groups_to_stale_members. rewrite elem_of_list_to_set, list_elem_of_fmap.
    setoid_rewrite list_elem_of_filter. setoid_rewrite list_elem_of_In. setoid_rewrite in_flat_map. split.
    - intros (rec & -> & <- & r & Hr%list_elem_of_In & Hrec%list_elem_of_In).
      apply list_elem_of_fmap in Hrec as (m & -> & [Hst Hm]%list_elem_of_filter). cbn in *.
      destruct Hgroups as (_ & _ & Hall). destruct (Hall r Hr) as (h' & Hg' & _ & Hm' & _). simplify_eq.
      rewrite Hm'. by rewrite elem_of_list_to_set.
    - intros [Hu Hst]. destruct (group_row s groups Hgroups g h Hg) as (ms & Hin & Hms). eexists (MkCleanup g h.(h_name) u _).
      split; [done|]. split; [done|]. exists (MkGroup g h.(h_name) ms h.(h_ext)). split; [by apply list_elem_of_In|].
      apply list_elem_of_In, list_elem_of_fmap. exists u. split; [done|]. apply list_elem_of_filter. split; [done|].
      by rewrite Hms, elem_of_list_to_set in Hu. }
  split.
  - intros [Hu Hn]. apply (alive_not_stale live s hcs Hwf Hhcs g h u Hg Hu). naive_solver.
  - intros Ha. assert (u ∈ h.(h_members)) as Hu by (by apply elem_of_alive in Ha as [? _]). split; [done|].
    apply (alive_not_stale live s hcs Hwf Hhcs g h u Hg Hu) in Ha. naive_solver.
Qed.
Lemma records_words : Forall (fun r => r.(cr_group) <> "--" /\ r.(cr_member) <> "--") records.
Proof.
  apply Forall_forall. intros rec Hin%list_elem_of_In. apply in_flat_map in Hin as (r & Hr%list_elem_of_In & Hrec%list_elem_of_In).
  apply list_elem_of_fmap in Hrec as (m & -> & [_ Hm]%list_elem_of_filter). cbn.
  destruct Hgroups as (_ & _ & Hall). destruct (Hall r Hr) as (h & Hg & _ & Hms & _).
  destruct (wf_word s Hwf _ _ Hg) as [? Hw]. split; [done|]. apply Hw. by rewrite Hms, elem_of_list_to_set.
Qed.
Lemma wp_phase1 : args.(assume_yes) = true ->
  wp step (execute_cleanup kubectl_base records args.(assume_yes)) (fun r _ s1 => r = inr tt -> cleaned s s1) tt s.
Proof.
  intros ->. unfold execute_cleanup, _confirm.
  assert (forall g, with_members (.∖ removed records g) <$> s.(nb_groups) !! g = with_members (alive s) <$> s.(nb_groups) !! g) as Heq.
  { intros g. destruct (nb_groups s !! g) as [h|] eqn:Hg; [|done]. cbn. unfold with_members. by rewrite (removed_spec g h). }
  pose proof records_words as Hwords. destruct records as [|r rest] eqn:Hrec; cbn [truthy truthy_list negb].
  - wp_pure. intros _. split; [|done]. intros g. rewrite <- Heq. unfold removed. cbn.
    destruct (_ !! g) as [[n m e]|]; [|done]. unfold with_members. cbn. by rewrite difference_empty_L.
  - do 2 wp_pure. apply wp_transaction; [done|]. intros s1 (s2 & names & Hcmds & Hgs & Hch & _) _.
    change ("--" :: _) with (cleanup_args (r :: rest)) in Hcmds. rewrite split_cleanup in Hcmds by done.
    apply cleanup_steps in Hcmds as [Hsame Hall]. split; [intros g; rewrite Hgs, Hall; apply Heq|].
    intros u (g & h & Hg & Hu). rewrite Hch, Hsame; [done|]. exists g, h. by rewrite <- Hgs.
Qed.

Abbreviation plan := (omap (plan_for live routers hcs groups) groups).
Lemma plan_groups_sublist l : map rp_group (omap (plan_for live routers hcs groups) l) `sublist_of` map g_uuid l.
Proof.
  induction l as [|r l IH]; [constructor|]. cbn [omap list_omap].
  assert (forall p, plan_for live routers hcs groups r = Some p -> rp_group p = g_uuid r) as Hp.
  { intros p. unfold plan_for. repeat case_match; naive_solver. }
  destruct (plan_for _ _ _ _ r) as [p|]; cbn; [rewrite (Hp p) by done|]; by constructor.
Qed.
Lemma plan_mem p : p ∈ plan -> exists r h, r ∈ groups /\ s.(nb_groups) !! r.(g_uuid) = Some h /\ plan_for live routers hcs groups r = Some p /\
  p.(rp_group) = r.(g_uuid) /\ lacks live s h p.(rp_router) /\ target live routers s p.(rp_router) p.(rp_chassis).
Proof.
  intros (r & Hr & Hp)%list_elem_of_omap. destruct Hgroups as (_ & _ & Hall). destruct (Hall r Hr) as (h & Hg & _).
  destruct (plan_for_spec live routers s hcs groups Hwf Hhcs Hgroups r h p Hr Hg Hp) as (? & ? & ?). by exists r, h.
Qed.
Lemma target_live router_id c : target live routers s router_id c -> c ∈ live.
Proof.
  unfold target. repeat case_match; try naive_solver.
  all: intros (g & h & _ & _ & Hc); destruct (proj1 (Hc c) eq_refl) as (u & (_ & c' & Hc' & Hl)%elem_of_alive & Hu); naive_solver.
Qed.

(** The state that the plan leaves, from the one that phase 1 leaves. *)
Lemma repaired_after s1 s2 s3 names :
  cleaned s s1 -> nb_commands (repopulation_commands 0 plan) (s1, ∅) (s2, names) ->
  s3.(nb_groups) = s2.(nb_groups) -> (forall u, referenced s2 u -> s3.(nb_chassis) !! u = s2.(nb_chassis) !! u) ->
  repaired live routers s s3.
Proof.
  intros [Hgs Hch] Hcmds Hgs3 Hch3.
  destruct (repopulation_steps _ _ _ _ _ _ Hcmds) as (Hkeep & Hother & Hplan).
  { eapply sublist_NoDup; [|apply plan_groups_sublist]. apply Hgroups. }
  intros g. rewrite Hgs3. specialize (Hgs g). destruct (nb_groups s !! g) as [h|] eqn:Hg; cycle 1.
  { rewrite Hother; [done|]. intros p (r & h & _ & Hr & _ & -> & _)%plan_mem <-. congruence. }
  cbn in Hgs. destruct (group_row s groups Hgroups g h Hg) as (ms & Hin & Hms).
  set (r := MkGroup g h.(h_name) ms h.(h_ext)) in *.
  destruct (plan_for live routers hcs groups r) as [p|] eqn:Hp.
  - assert (p ∈ plan) as Hpin by (apply list_elem_of_omap; eauto).
    destruct (plan_for_spec live routers s hcs groups Hwf Hhcs Hgroups r h p Hin Hg Hp) as (Hpg & Hlacks & Htarget).
    destruct (Hplan p (with_members (alive s) h) Hpin) as (u & Hu & Hc); [by rewrite Hpg|]. rewrite Hpg in Hu. eexists. split; [exact Hu|].
    split; [done|]. split; [done|]. left. exists p.(rp_router), p.(rp_chassis), u.
    assert (h_members (with_members (union {[u]}) (with_members (alive s) h)) = {[u]}) as Hm.
    { cbn. destruct Hlacks as (_ & -> & _). set_solver. }
    split_and!; [done|done|done| |by eapply target_live]. rewrite Hch3; [done|].
    eexists g, _. split; [exact Hu|]. rewrite Hm. set_solver.
  - assert (nb_groups s2 !! g = Some (with_members (alive s) h)) as Hs2.
    { rewrite Hother; [done|]. intros p (r' & h' & Hr' & _ & Hp' & Hpg & _)%plan_mem Heq. rewrite Heq in Hpg.
      assert (r' = r) as ->; [|congruence]. destruct Hgroups as (Hnd & _ & _).
      by apply (NoDup_map_inj g_uuid groups). }
    eexists. split; [exact Hs2|]. split; [done|]. split; [done|]. right.
    split; [by eapply (plan_for_none live routers s hcs groups Hwf Hhcs Hgroups r)|]. split; [done|]. intros u Hu.
    assert (referenced s1 u) as Href by (by exists g, (with_members (alive s) h)).
    rewrite Hch3 by (by exists g, (with_members (alive s) h)). rewrite <- (Hch u Href).
    apply elem_of_alive in Hu as (_ & c & Hc & _). rewrite <- Hch in Hc by done. rewrite Hc. by apply Hkeep.
Qed.

Lemma wp_phase2 s1 : args.(assume_yes) = true -> cleaned s s1 ->
  wp step (execute_repopulation kubectl_base plan args.(assume_yes)) (fun r _ s2 => r = inr tt -> repaired live routers s s2) tt s1.
Proof.
  intros -> Hs1. unfold execute_repopulation, _confirm.
  assert (Forall (fun p => p.(rp_group) <> "--") plan) as Hwords.
  { apply Forall_forall. intros p (r & h & _ & Hg & _ & -> & _)%plan_mem. by destruct (wf_word s Hwf _ _ Hg). }
  pose proof (repaired_after s1) as Hafter. destruct plan as [|p rest] eqn:Hplan; cbn [truthy truthy_list negb].
  - wp_pure. intros _. eapply Hafter; [done|constructor|done|done].
  - do 2 wp_pure. apply wp_transaction; [done|]. intros s3 (s2 & names & Hcmds & Hgs & Hch & _) _.
    change ("--" :: _) with (repopulation_args (p :: rest)) in Hcmds. rewrite split_repopulation in Hcmds by done.
    by eapply Hafter.
Qed.
End phases.

(** C17. Against OVN databases that execute transactions as documented, a run with
    [--execute --yes] that returns has repaired every HA chassis group: the dead
    chassis are out of every group; a network's group left without a live chassis
    has exactly one, live, chassis, the router's own or the only live one of the
    router's group, whenever there is such a chassis; and every other group keeps
    exactly its live members. *)
Theorem chassis_groups_repaired s :
  wf_db s -> args.(execute) = true -> args.(assume_yes) = true -> args.(skip_repopulate) = false ->
  args.(delete_orphaned_networks) = false ->
  wp step (main args) (fun r _ s' => r = inr tt -> repaired live routers s s') tt s.
Proof.
  intros Hwf Hex Hyes Hskip Hdel. unfold main. rewrite Hex, Hskip, Hdel. cbn [negb].
  wp_pure. eapply wp_mono with (Q := fun _ _ s' => s' = s).
  2: { unfold print_connection_banner, _resolve_kube_context. cbn [andb]. wp_pure.
       destruct (kube_context args) as [[|]|] eqn:Hctx; [|by repeat wp_pure|]; wp_pure.
       all: apply wp_unchanged; [intros a Heq; unfold ovn_command, build_kubectl_base in Heq; by rewrite Hctx in Heq|].
       all: by intros [e|c] _; wp_simp; repeat wp_pure. }
  intros [e|[]] [] s' ->; [done|]. wp_pure. unfold get_live_chassis_names. wp_pure.
  eapply wp_mono; [|apply wp_ovn_list]. intros [e|rows] [] s' [-> Hrows]; [done|]. wp_pure. wp_pure.
  destruct Hrows as (Hlive & _). destruct (res_map (text_column "name") rows) as [|names] eqn:Hnames; [done|]. wp_simp.
  wp_pure. rewrite (Hlive eq_refl names eq_refl). clear Hlive Hnames rows names.
  wp_pure. eapply wp_mono; [|apply wp_table]. intros [e|hcs] [] s' [-> Hhcs]; [done|]. cbn beta iota.
  destruct Hhcs as (rows & Hdec & _ & Hhcs & _). specialize (Hhcs eq_refl hcs Hdec). clear rows Hdec. cbn zeta.
  wp_pure. eapply wp_mono; [|apply wp_table]. intros [e|groups] [] s' [-> Hgroups]; [done|]. cbn beta iota.
  destruct Hgroups as (rows & Hdec & _ & _ & Hgroups & _). specialize (Hgroups eq_refl groups Hdec). clear rows Hdec.
  wp_pure. eapply wp_mono; [|by apply (wp_phase1 s)]. intros [e|[]] [] s1 Hs1; [done|]. specialize (Hs1 eq_refl). cbn beta iota.
  wp_pure. wp_pure. unfold get_router_chassis_by_id. wp_pure. eapply wp_mono; [|apply wp_ovn_list].
  intros [e|rows] [] s' [-> Hrows]; [done|]. wp_pure. destruct Hrows as (_ & _ & _ & Hrouters).
  destruct (Hrouters eq_refl) as (l & Hl & Hroute). wp_pure. rewrite Hl. wp_simp. wp_pure. rewrite Hroute. cbn zeta.
  rewrite plan_omap. eapply wp_mono; [|by apply (wp_phase2 s)]. intros [e|[]] [] s2 Hs2; [done|]. cbn beta iota.
  unfold orphaned_networks_phase. rewrite Hdel. cbn [negb]. by wp_pure.
Qed.
End repair.

(** ** A run *)

Definition sample_args : arguments := MkArgs None true false false None false true.
Definition sample_db : nbdb :=
  MkNb {[ "m1" := "dead-host" ]}
       {[ "g1" := MkHcg "neutron-n1" {[ "m1" ]} {[ OVN_NETWORK_ID_EXT_ID_KEY := "n1"; OVN_ROUTER_ID_EXT_ID_KEY := "r1" ]} ]}.
Definition sample_routers : gmap string (option string) := {[ "r1" := Some "gw1" ]}.

Lemma sample_db_wf : wf_db sample_db.
Proof.
  assert (forall g h, sample_db.(nb_groups) !! g = Some h -> g = "g1" /\ h.(h_members) = {[ "m1" ]}) as Hg.
  { intros g h Hg. unfold sample_db in Hg. cbn [nb_groups] in Hg. by apply lookup_singleton_Some in Hg as [<- <-]. }
  constructor.
  - intros u (g & h & [_ Hm]%Hg & Hu). rewrite Hm in Hu. apply elem_of_singleton in Hu as ->. by exists "dead-host".
  - intros g h [-> ->]%Hg. split; [done|]. by intros u ->%elem_of_singleton.
  - by intros g g' h h' [-> _]%Hg [-> _]%Hg.
Qed.
Lemma chassis_groups_repaired_witness :
  wp (ovn_step sample_args {[ "gw1" ]} sample_routers) (main sample_args)
     (fun r _ s' => r = inr tt -> repaired {[ "gw1" ]} sample_routers sample_db s') tt sample_db.
Proof. apply (chassis_groups_repaired sample_args); [exact sample_db_wf|reflexivity..]. Defined.

(** The same databases as a function: rows printed as [ovn-nbctl] prints them. *)
Definition printed (headings : list string) (rows : list (list cell)) : res completed :=
  inr (Completed 0 "" (Some (encode_table headings rows)) "").
Definition drop_name (w : string) : string := default "" (snd <$> split_once "=" w).
Definition execute_command (c : list string) (s : nbdb * gmap string string) : nbdb * gmap string string :=
  let '(MkNb chassis groups, names) := s in
  match c with
  | ["remove"; _; g; _; u] => (MkNb chassis (alter (with_members (.∖ {[u]})) g groups), names)
  | [i; "create"; _; c; _] =>
      let u := "new-" +:+ drop_name i in (MkNb (<[u := drop_name c]> chassis) groups, <[drop_name i := u]> names)
  | ["add"; _; g; _; i] =>
      match names !! i with Some u => (MkNb chassis (alter (with_members ({[u]} ∪.)) g groups), names) | None => s end
  | _ => s
  end.
Definition sample_env (R : Type) (op : shellE R) (s : nbdb) : res R * nbdb :=
  match op in shellE R return res R * nbdb with
  | Input _ => (inr "yes", s)
  | Run cmd =>
      match drop 7 cmd with
      | _ :: _ :: "list" :: "Chassis" :: _ => (printed ["name"] [[Text "gw1"]], s)
      | _ :: _ :: "list" :: "HA_Chassis" :: _ =>
          (printed ["_uuid"; "chassis_name"] (map (fun '(u, c) => [Uuid u; Text c]) (map_to_list s.(nb_chassis))), s)
      | _ :: _ :: "list" :: "HA_Chassis_Group" :: _ =>
          (printed ["_uuid"; "name"; "ha_chassis"; "external_ids"]
             (map (fun '(g, h) => [Uuid g; Text h.(h_name); UuidSet (elements h.(h_members)); StrMap (map_to_list h.(h_ext))])
                (map_to_list s.(nb_groups))), s)
      | _ :: _ :: "list" :: "Logical_Router" :: _ => (printed ["name"; "options"] [[Text "neutron-r1"; StrMap [("chassis", "gw1")]]], s)
      | args => (inr (Completed 0 "" None ""), (foldl (fun s c => execute_command c s) (s, ∅) (split_commands args)).1)
      end
  end.
(** The dead chassis is replaced by the router's own. *)
Example dead_chassis_replaced :
  let '(r, _, s') := run sample_env (main sample_args) tt sample_db in
  r = inr tt /\ (elements ∘ h_members <$> s'.(nb_groups) !! "g1") = Some ["new-@hc0"] /\
  s'.(nb_chassis) !! "new-@hc0" = Some "gw1".
Proof. vm_compute. repeat split. Qed.
