(* ===== verification/UplinkScripts.v ===== *)
(** * Removal of leftover uplinks

    Models [src/scripts/cleanup_orphaned_ovn_uplinks.py] and
    [cleanup_flavored_router_uplinks.py]: the search for uplink ports of OVN without
    a port in Neutron, and for uplinks of networks that only flavored routers use,
    with their removal. *)
From S2P Require Import Prelude PyStr PyData Ovn.
Local Open Scope Z_scope.

Definition OVN_POD : string := "ovn-ovsdb-nb-0".
Definition DEVICE_OWNER_ROUTER_INTF : string := "network:router_interface".

Record NeutronPort := MkNPort { np_id : string; np_name : option string; np_network : string; np_device : option string }.
Record NRouter := MkNRouter { nr_id : string; nr_flavor : option string }.

(** The calls of the scripts: commands, and the OpenStack SDK. *)
Inductive uplinkE : Type -> Type :=
| Shell {R} (op : shellE R) : uplinkE R
| Connect : uplinkE unit
| FindNetwork (network_id : string) : uplinkE unit
| FindPort (name_or_id : string) : uplinkE bool
| PortsNamed (name : string) : uplinkE (list NeutronPort)
| Trunks : uplinkE (list string)
| TrunkSubports (trunk_id : string) : uplinkE (list string)
| Routers : uplinkE (list NRouter)
| RouterPorts (device_id : string) : uplinkE (list NeutronPort)
| NetworkPorts (network_id : string) (device_owner : option string) : uplinkE (list NeutronPort)
| DeleteTrunkSubports (trunk_id port_id : string) : uplinkE unit
| DeletePort (port_id : string) : uplinkE unit.
Abbreviation up A := (prog unit uplinkE A).

Definition nb_command (kubectl_base args : list string) : list string :=
  kubectl_base ++ ["exec"; "-n"; "openstack"; OVN_POD; "--"; "ovn-nbctl"] ++ args.

(** ** Ports of OVN that Neutron does not have *)

(* cleanup_orphaned_ovn_uplinks.py:49-56 _ovn_cmd *)
Definition _ovn_cmd (kubectl_base args : list string) : up completed :=
  call (Shell (Run (nb_command kubectl_base args))).

(** [.startswith] of a value that is a text, by the schema. *)
Definition text_val (v : val) : res string := match v with VStr s => Ok s | _ => Err (AttributeError "startswith") end.

Record lsp := MkLsp { lport_name : string; lsp_uuid : string; neutron_port_name : string }.
(** One row of the listing. *)
(* cleanup_orphaned_ovn_uplinks.py:84-97 list_ovn_uplink_lsps *)
Definition uplink_lsp (r : row) : res (list lsp) :=
  lport_name ← text_val (default (VStr "") (entry "name" r));
  let ext_ids := default VNull (entry "external_ids" r) in
  neutron_port_name ← match ext_ids with
                      | VDict d => text_val (default (VStr "") (entry "neutron:port_name" d))
                      | _ => Ok ""
                      end;
  if startswith "uplink-" lport_name || startswith "uplink-" neutron_port_name then
    uuid ← text_column "_uuid" r;
    Ok [MkLsp lport_name uuid neutron_port_name]
  else Ok [].

(** The rows of a listing. *)
Definition ovn_rows (kubectl_base : list string) (columns table : string) : up (list row) :=
  result ← _ovn_cmd kubectl_base ["--columns=" +:+ columns; "--format=json"; "list"; table];
  if negb (result.(returncode) =? 0) then Raise (SystemExit "1") else
  match result.(stdout_json) with
  | None => Raise JSONDecodeError
  | Some obj => lift (parse_ovn_json obj)
  end.

(* cleanup_orphaned_ovn_uplinks.py:59-98 list_ovn_uplink_lsps *)
Definition list_ovn_uplink_lsps (kubectl_base : list string) : up (list lsp) :=
  rows ← ovn_rows kubectl_base "name,_uuid,external_ids" "logical_switch_port";
  lsps ← lift (res_map uplink_lsp rows);
  mret (List.concat lsps).

(* cleanup_orphaned_ovn_uplinks.py:101-130 build_lsp_network_map *)
Definition build_lsp_network_map (kubectl_base : list string) : up (gmap string string) :=
  rows ← ovn_rows kubectl_base "name,ports" "logical_switch";
  lift (res_fold (fun mapping row =>
    match default (VStr "") (entry "name" row) with
    | VStr switch_name =>
        if negb (startswith "neutron-" switch_name) then Ok mapping else
        let network_id := removeprefix "neutron-" switch_name in
        ports ← match default (VList []) (entry "ports" row) with
                | VStr p => Ok [VStr p]
                | VList l => Ok l
                | VDict d => Ok (map fst d)
                | _ => Err (TypeError ["object is not iterable"])
                end;
        Ok (foldl (fun m p => match p with VStr u => <[u := network_id]> m | _ => m end) mapping ports)
    | _ => Ok mapping
    end) rows ∅).

(* cleanup_orphaned_ovn_uplinks.py:133-151 verify_neutron_matches_ovn *)
Definition verify_neutron_matches_ovn (network_id : string) : up unit :=
  try_except (call (FindNetwork network_id))
    (fun e => if decide (e.(exn_cls) = "ResourceNotFound") then Raise (SystemExit "1") else Raise e).

Record orphaned_lsp := MkOLsp { ol_display : string; ol_lport : string; ol_uuid : string; ol_network : string }.
(* cleanup_orphaned_ovn_uplinks.py:154-202 find_orphaned_lsps *)
Definition find_orphaned_lsps (kubectl_base : list string) : up (list orphaned_lsp) :=
  lsps ← list_ovn_uplink_lsps kubectl_base;
  if negb (truthy lsps) then mret [] else
  lsp_network ← build_lsp_network_map kubectl_base;
  let sample_ids := omap (fun l => lsp_network !! l.(lsp_uuid)) lsps in
  _ ← match sample_ids with n :: _ => verify_neutron_matches_ovn n | [] => mret tt end;
  fold_each (fun orphans l =>
    found ← (if truthy l.(neutron_port_name) then
               port ← call (FindPort l.(lport_name)); mret (port, l.(neutron_port_name))
             else
               ports ← call (PortsNamed l.(lport_name)); mret (truthy ports, l.(lport_name)));
    let '(exists_, display_name) := (found : bool * string) in
    mret (if exists_ then orphans
          else orphans ++ [MkOLsp display_name l.(lport_name) l.(lsp_uuid) (default "" (lsp_network !! l.(lsp_uuid)))]))
    lsps [].

(* cleanup_orphaned_ovn_uplinks.py:221-225 build_kubectl_base *)
Definition build_kubectl_base (kube_context : option string) : list string :=
  ["kubectl"] ++ (if truthy kube_context then ["--context"; default "" kube_context] else []).

(* cleanup_orphaned_ovn_uplinks.py:228-251 execute_cleanup *)
Definition delete_orphaned_lsps (orphans : list orphaned_lsp) (kubectl_base : list string) : up unit :=
  if negb (truthy orphans) then mret tt else
  errors ← fold_each (fun errors o =>
             result ← _ovn_cmd kubectl_base ["lsp-del"; o.(ol_lport)];
             mret (if negb (result.(returncode) =? 0) then errors + 1 else errors)) orphans 0;
  if truthy errors then Raise (SystemExit "1") else mret tt.

(** From the parsed arguments on. *)
(* cleanup_orphaned_ovn_uplinks.py:289-306 main *)
Definition orphaned_lsps_main (kube_context : option string) (execute : bool) : up unit :=
  _ ← try_except (call Connect) (fun _ => Raise (SystemExit "1"));
  let kubectl_base := build_kubectl_base kube_context in
  orphans ← find_orphaned_lsps kubectl_base;
  if negb execute then mret tt else delete_orphaned_lsps orphans kubectl_base.

(** ** Uplinks of networks that only flavored routers use *)

(** The subports of a trunk that cannot be read are left out. *)
(* cleanup_flavored_router_uplinks.py:29-39 build_subport_trunk_map *)
Definition build_subport_trunk_map : up (gmap string string) :=
  trunks ← call Trunks;
  fold_each (fun mapping trunk =>
    try_except (sub_ports ← call (TrunkSubports trunk);
                mret (foldl (fun m port_id => <[port_id := trunk]> m) mapping sub_ports))
      (fun _ => mret mapping)) trunks ∅.

Record orphaned_uplink := MkUplink { ou_routers : list string; ou_network : string; ou_port : string; ou_name : string;
  ou_segment : string; ou_trunk : option string }.

(** [setdefault(network, set()).add(router)]: networks in the order they are met. *)
Fixpoint add_router (network router : string) (m : list (string * gset string)) : list (string * gset string) :=
  match m with
  | [] => [(network, {[router]})]
  | (n, rs) :: m => if decide (n = network) then (n, {[router]} ∪ rs) :: m else (n, rs) :: add_router network router m
  end.

(** The keys of [{k: ... for k in l}], in the order they are met. *)
Definition keys_of (l : list string) : list string := foldl (fun acc k => if decide (k ∈ acc) then acc else acc ++ [k]) [] l.

(** One network: none when a router without flavor is on it. *)
(* cleanup_flavored_router_uplinks.py:68-104 find_orphaned_uplinks *)
Definition network_uplinks (subport_trunk : gmap string string) (network_id : string) (flavored : gset string)
    : up (list orphaned_uplink) :=
  all_intf_ports ← call (NetworkPorts network_id (Some DEVICE_OWNER_ROUTER_INTF));
  let all_router_ids : gset string :=
    list_to_set (omap (fun p => match p.(np_device) with Some (String _ _ as d) => Some d | _ => None end) all_intf_ports) in
  if decide (all_router_ids ∖ flavored ≠ ∅) then mret [] else
  ports ← call (NetworkPorts network_id None);
  mret (omap (fun p =>
    match p.(np_name) with
    | Some name =>
        if startswith "uplink-" name then
          Some (MkUplink (merge_sort str_le (elements flavored)) network_id p.(np_id) name (removeprefix "uplink-" name)
                  (subport_trunk !! p.(np_id)))
        else None
    | None => None
    end) ports).

(* cleanup_flavored_router_uplinks.py:42-106 find_orphaned_uplinks *)
Definition find_orphaned_uplinks : up (list orphaned_uplink) :=
  subport_trunk ← build_subport_trunk_map;
  routers ← call Routers;
  let flavored_routers := keys_of (map nr_id (filter (fun r => truthy r.(nr_flavor) = true) routers)) in
  if negb (truthy flavored_routers) then mret [] else
  network_to_flavored ← fold_each (fun m router_id =>
      ports ← call (RouterPorts router_id);
      mret (foldl (fun m p => add_router p.(np_network) router_id m) m ports)) flavored_routers [];
  fold_each (fun orphans '(network_id, flavored) =>
    more ← network_uplinks subport_trunk network_id flavored;
    mret (orphans ++ more)) network_to_flavored [].

(* cleanup_flavored_router_uplinks.py:141-171 verify_ovn_matches_openstack *)
Definition verify_ovn_matches_openstack (network_id : string) (kubectl_base : list string) : up unit :=
  result ← call (Shell (Run (nb_command kubectl_base ["show"; "neutron-" +:+ network_id])));
  if negb (result.(returncode) =? 0) || negb (contains network_id result.(stdout)) then Raise (SystemExit "1") else mret tt.

(** One uplink; whether it counts as an error. *)
(* cleanup_flavored_router_uplinks.py:180-249 execute_cleanup *)
Definition remove_uplink (kubectl_base : list string) (o : orphaned_uplink) : up bool :=
  removed ← match o.(ou_trunk) with
            | Some (String _ _ as trunk_id) =>
                try_except (_ ← call (DeleteTrunkSubports trunk_id o.(ou_port)); mret true) (fun _ => mret false)
            | _ => mret true
            end;
  if negb removed then mret true else
  deleted ← try_except (_ ← call (DeletePort o.(ou_port)); mret true) (fun _ => mret false);
  if negb deleted then mret true else
  _ ← call (Shell (Run (nb_command kubectl_base ["lsp-del"; "uplink-" +:+ o.(ou_segment)])));
  mret false.

(* cleanup_flavored_router_uplinks.py:174-253 execute_cleanup *)
Definition remove_orphaned_uplinks (orphans : list orphaned_uplink) (kubectl_base : list string) : up unit :=
  if negb (truthy orphans) then mret tt else
  errors ← fold_each (fun errors o =>
             error ← remove_uplink kubectl_base o; mret (if (error : bool) then errors + 1 else errors)) orphans 0;
  if truthy errors then Raise (SystemExit "1") else mret tt.

(** From the parsed arguments on. *)
(* cleanup_flavored_router_uplinks.py:294-312 main *)
Definition flavored_uplinks_main (kube_context : option string) (execute : bool) : up unit :=
  _ ← try_except (call Connect) (fun _ => Raise (SystemExit "1"));
  orphans ← find_orphaned_uplinks;
  let kubectl_base := build_kubectl_base kube_context in
  _ ← match orphans with
      | o :: _ => verify_ovn_matches_openstack o.(ou_network) kubectl_base
      | [] => mret tt
      end;
  if negb execute then mret tt else remove_orphaned_uplinks orphans kubectl_base.

(** ** What is deleted in OVN, and when *)

Section lsps.
Context (kube_context : option string) (execute : bool).
Abbreviation kubectl_base := (build_kubectl_base kube_context).
Abbreviation list_command columns table :=
  (nb_command kubectl_base ["--columns=" +:+ columns; "--format=json"; "list"; table]).

(** OVN listed the port as an uplink, and Neutron said that it has no such port. *)
Definition lsp_orphaned (name : string) (pre : list (event uplinkE)) : Prop :=
  exists pre1 pre2 result obj rows lsps l, pre = pre1 ++ pre2 /\
    Ev (Shell (Run (list_command "name,_uuid,external_ids" "logical_switch_port"))) (inr result) ∈ pre1 /\
    result.(returncode) = 0 /\ result.(stdout_json) = Some obj /\ parse_ovn_json obj = inr rows /\
    res_map uplink_lsp rows = inr lsps /\ l ∈ List.concat lsps /\ l.(lport_name) = name /\
    if truthy l.(neutron_port_name) then Ev (FindPort name) (inr false) ∈ pre2 else Ev (PortsNamed name) (inr []) ∈ pre2.

Definition lsp_allowed (pre : list (event uplinkE)) (ev : event uplinkE) : Prop :=
  match ev with
  | Ev (Shell (Run cmd)) _ =>
      (exists columns table, cmd = list_command columns table) \/
      (exists name, cmd = nb_command kubectl_base ["lsp-del"; name] /\ execute = true /\ lsp_orphaned name pre)
  | Ev (DeleteTrunkSubports _ _) _ | Ev (DeletePort _) _ => False
  | _ => True
  end.
Abbreviation keeps := (keeps lsp_allowed).
Abbreviation disciplined := (disciplined lsp_allowed).

Lemma lsp_orphaned_mono name tr k : lsp_orphaned name tr -> lsp_orphaned name (tr ++ k).
Proof.
  intros (p1 & p2 & res & ob & rs & lss & l' & -> & ? & ? & ? & ? & ? & ? & ? & Hev).
  exists p1, (p2 ++ k), res, ob, rs, lss, l'. rewrite <- app_assoc. split_and!; [done..|].
  by destruct (truthy (neutron_port_name l')); apply elem_of_app; left.
Qed.
Lemma lsps_orphaned_mono orphans tr k :
  Forall (fun o => lsp_orphaned o.(ol_lport) tr) orphans -> Forall (fun o => lsp_orphaned o.(ol_lport) (tr ++ k)) orphans.
Proof. intros Hor. eapply Forall_impl; [exact Hor|]. intros o. apply lsp_orphaned_mono. Qed.
Lemma keeps_ovn_rows columns table tr :
  disciplined tr -> keeps (ovn_rows kubectl_base columns table) tt tr (fun r _ tr' =>
    match r with inr rows => exists result obj, Ev (Shell (Run (list_command columns table))) (inr result) ∈ tr' /\
      result.(returncode) = 0 /\ result.(stdout_json) = Some obj /\ parse_ovn_json obj = inr rows | inl _ => True end).
Proof.
  intros Hd. unfold ovn_rows, _ovn_cmd. eapply keeps_bind with (Q1 := fun r _ tr' =>
    match r with inr result => Ev (Shell (Run (list_command columns table))) (inr result) ∈ tr' | inl _ => True end).
  - apply keeps_call; [done|intros r; left; eauto|]. intros [e|result]; [done|]. apply elem_of_app. right. by left.
  - done.
  - intros result [] tr' Hd' _ Hin. destruct (Z.eqb_spec result.(returncode) 0); cbn [negb]; [|by apply keeps_raise].
    destruct (stdout_json result) as [obj|] eqn:Hobj; [|by apply keeps_raise]. apply keeps_lift; [done|].
    destruct (parse_ovn_json obj) eqn:Hp; [done|]. exists result, obj. done.
Qed.

Lemma keeps_find_orphaned tr :
  disciplined tr -> keeps (find_orphaned_lsps kubectl_base) tt tr (fun r _ tr' =>
    match r with inr orphans => Forall (fun o => lsp_orphaned o.(ol_lport) tr') orphans | inl _ => True end).
Proof.
  intros Hd. unfold find_orphaned_lsps.
  eapply keeps_bind with (Q1 := fun r _ tr' => match r with inr ls => exists result obj rows lsps,
    Ev (Shell (Run (list_command "name,_uuid,external_ids" "logical_switch_port"))) (inr result) ∈ tr' /\
    result.(returncode) = 0 /\ result.(stdout_json) = Some obj /\ parse_ovn_json obj = inr rows /\
    res_map uplink_lsp rows = inr lsps /\ ls = List.concat lsps | inl _ => True end).
  { unfold list_ovn_uplink_lsps. eapply keeps_bind; [by apply keeps_ovn_rows|done|].
    intros rows [] tr1 Hd1 _ (result & obj & Hin & ? & ? & ?). eapply keeps_bind with (Q1 := fun r _ tr' => tr' = tr1 /\ r = res_map uplink_lsp rows).
    - by apply keeps_lift.
    - done.
    - intros lsps [] tr2 Hd2 _ [-> Hl]. apply keeps_ret; [done|]. exists result, obj, rows, lsps. done. }
  { done. }
  intros ls [] tr1 Hd1 _ (result & obj & rows & lsps & Hin & Hrc & Hobj & Hrows & Hl & ->).
  case_match; [by apply keeps_ret|]. eapply keeps_bind with (Q1 := fun _ _ _ => True); [|done|].
  { unfold build_lsp_network_map. eapply keeps_bind; [by apply keeps_ovn_rows|done|]. intros r [] tr' Hd' _ _. by apply keeps_lift. }
  intros nets [] tr2 Hd2 Hpre2 _. cbn zeta. eapply keeps_bind with (Q1 := fun _ _ _ => True); [|done|].
  { case_match; [by apply keeps_ret|]. unfold verify_neutron_matches_ovn. eapply keeps_try with (Q1 := fun _ _ _ => True); [|done|].
    - by apply keeps_call.
    - intros e [] tr' Hd' _ _. case_decide; by apply keeps_raise. }
  intros _ [] tr3 Hd3 Hpre3 _.
  eapply keeps_mono; [apply (keeps_fold_each lsp_allowed _ _ _ (fun orphans _ tr' => tr1 `prefix_of` tr' /\ Forall (fun o => lsp_orphaned o.(ol_lport) tr') orphans))|].
  - done.
  - split; [by etrans|constructor].
  - intros l orphans [] tr4 Hll Hd4 [[k ->] Hor].
    eapply keeps_bind with (Q1 := fun r _ tr' => match r with inr (false, _) => lsp_orphaned l.(lport_name) tr' | _ => True end).
    + destruct (truthy (neutron_port_name l)) eqn:Hname.
      * eapply keeps_bind with (Q1 := fun r _ tr' => tr' = (tr1 ++ k) ++ [Ev (FindPort l.(lport_name)) r]); [by apply keeps_call|done|].
        intros [] [] tr5 Hd5 _ ->; apply keeps_ret; try done.
        exists tr1. eexists. exists result, obj, rows, lsps, l. rewrite <- app_assoc. split; [done|]. split_and!; [done..|].
        rewrite Hname. apply elem_of_app. right. by left.
      * eapply keeps_bind with (Q1 := fun r _ tr' => tr' = (tr1 ++ k) ++ [Ev (PortsNamed l.(lport_name)) r]); [by apply keeps_call|done|].
        intros [|p ports] [] tr5 Hd5 _ ->; apply keeps_ret; try done.
        exists tr1. eexists. exists result, obj, rows, lsps, l. rewrite <- app_assoc. split; [done|]. split_and!; [done..|].
        rewrite Hname. apply elem_of_app. right. by left.
    + done.
    + intros [exists_ name] [] tr5 Hd5 [k5 ->] H5. apply keeps_ret; [done|]. split; [rewrite <- app_assoc; by apply prefix_app_r|].
      apply (lsps_orphaned_mono _ _ k5) in Hor.
      destruct exists_; [done|]. apply Forall_app. split; [done|]. by apply Forall_singleton.
  - intros [e|orphans] [] tr' _; [done|]. by intros [_ ?].
Qed.

(** On every run of the script, whatever OVN and Neutron answer, nothing is
    deleted in Neutron, and a logical switch port is deleted in OVN only with
    [--execute], when OVN itself listed it as an uplink and Neutron then
    answered that it has no such port (looked up by identifier when OVN records a
    Neutron port, by name otherwise); an error of Neutron deletes nothing. *)
Theorem orphaned_lsps_disciplined :
  every_run (orphaned_lsps_main kube_context execute) tt (fun _ _ tr =>
    forall pre ev post, tr = pre ++ ev :: post -> lsp_allowed pre ev).
Proof.
  eapply wp_mono with (Q := fun r g tr => disciplined tr /\ [] `prefix_of` tr /\ True); [intros r [] tr (Hd & _); exact Hd|].
  unfold orphaned_lsps_main. eapply keeps_bind with (Q1 := fun _ _ _ => True).
  - eapply keeps_try with (Q1 := fun _ _ _ => True); [apply keeps_call; [apply disciplined_nil|done|done]|done|].
    intros e [] tr Hd _ _. by apply keeps_raise.
  - done.
  - intros [] [] tr1 Hd1 _ _. cbn zeta. eapply keeps_bind; [by apply keeps_find_orphaned|done|].
    intros orphans [] tr2 Hd2 _ Hor. destruct execute eqn:Hex; cbn [negb]; [|by apply keeps_ret].
    unfold delete_orphaned_lsps. case_match; [by apply keeps_ret|].
    eapply keeps_bind; [|done|intros n [] tr3 Hd3 _ _; case_match; [by apply keeps_raise|by apply keeps_ret]].
    eapply keeps_mono; [apply (keeps_fold_each lsp_allowed _ _ _ (fun _ _ tr' => tr2 `prefix_of` tr'))|done]; [done|done|].
    intros o n [] tr3 Ho Hd3 [k ->]. eapply keeps_bind with (Q1 := fun _ _ tr' => tr2 `prefix_of` tr').
    + apply keeps_call; [done| |intros r; rewrite <- app_assoc; by apply prefix_app_r]. intros r. right. exists o.(ol_lport). split; [done|]. split; [done|].
      apply lsp_orphaned_mono. rewrite Forall_forall in Hor. by apply Hor.
    + done.
    + intros res [] tr4 Hd4 _ Hp. by apply keeps_ret.
Qed.
End lsps.

(** ** What is removed with the flavored routers' uplinks *)

(** Neutron's ports, trunks and routers. *)
Record port_row := MkPRow { pr_name : option string; pr_network : string; pr_device : option string; pr_owner : string }.
Record cloud := MkCloud { cl_routers : list NRouter; cl_ports : gmap string port_row; cl_trunks : gmap string (gset string) }.
Definition as_port (id : string) (p : port_row) : NeutronPort := MkNPort id p.(pr_name) p.(pr_network) p.(pr_device).
Definition lists (s : cloud) (P : port_row -> Prop) (l : list NeutronPort) : Prop :=
  forall np, np ∈ l <-> exists id p, s.(cl_ports) !! id = Some p /\ P p /\ np = as_port id p.

(** Requests may fail and then change nothing; a port that is a trunk's subport
    cannot be deleted. *)
Definition cloud_step (R : Type) (op : uplinkE R) : cloud -> res R -> cloud -> Prop :=
  match op in uplinkE R return cloud -> res R -> cloud -> Prop with
  | Routers => fun s r s' => s' = s /\ forall l, r = inr l -> l = s.(cl_routers)
  | RouterPorts d => fun s r s' => s' = s /\
      forall l, r = inr l -> lists s (fun p => p.(pr_device) = Some d /\ p.(pr_owner) = DEVICE_OWNER_ROUTER_INTF) l
  | NetworkPorts n owner => fun s r s' => s' = s /\
      forall l, r = inr l -> lists s (fun p => p.(pr_network) = n /\ forall o, owner = Some o -> p.(pr_owner) = o) l
  | DeleteTrunkSubports t id => fun s r s' =>
      match r with
      | inr _ => s' = MkCloud s.(cl_routers) s.(cl_ports) (alter (.∖ {[id]}) t s.(cl_trunks))
      | inl _ => s' = s
      end
  | DeletePort id => fun s r s' =>
      match r with
      | inr _ => (forall t subs, s.(cl_trunks) !! t = Some subs -> id ∉ subs) /\
                 s' = MkCloud s.(cl_routers) (delete id s.(cl_ports)) s.(cl_trunks)
      | inl _ => s' = s
      end
  | _ => fun s r s' => s' = s
  end.

Definition flavored_router (s : cloud) (d : string) : Prop :=
  exists r, r ∈ s.(cl_routers) /\ r.(nr_id) = d /\ truthy r.(nr_flavor) = true.
(** A router interface of the router [d] on the network. *)
Definition interface_on (s : cloud) (network d : string) : Prop :=
  exists id p, s.(cl_ports) !! id = Some p /\ p.(pr_network) = network /\ p.(pr_owner) = DEVICE_OWNER_ROUTER_INTF /\ p.(pr_device) = Some d.
(** An uplink port on a network with flavored routers and no others. *)
Definition removable (s : cloud) (id : string) : Prop :=
  exists p name, s.(cl_ports) !! id = Some p /\ p.(pr_name) = Some name /\ startswith "uplink-" name = true /\
    (exists d, flavored_router s d /\ interface_on s p.(pr_network) d) /\
    (forall d, interface_on s p.(pr_network) d -> d <> "" -> flavored_router s d).

(** Only removable ports are touched. *)
Definition only_removable (s s' : cloud) : Prop :=
  s'.(cl_routers) = s.(cl_routers) /\
  (forall id, ~ removable s id -> s'.(cl_ports) !! id = s.(cl_ports) !! id) /\
  (forall id, s'.(cl_ports) !! id = None \/ s'.(cl_ports) !! id = s.(cl_ports) !! id) /\
  (forall t, match s.(cl_trunks) !! t, s'.(cl_trunks) !! t with
             | None, None => True
             | Some subs, Some subs' => subs' ⊆ subs /\ forall id, id ∈ subs -> ~ removable s id -> id ∈ subs'
             | _, _ => False
             end).
(** All of them are gone, from the trunks too. *)
Definition all_removed (s s' : cloud) : Prop :=
  forall id, removable s id -> s'.(cl_ports) !! id = None /\ forall t subs, s'.(cl_trunks) !! t = Some subs -> id ∉ subs.

Lemma keys_of_elem l k : k ∈ keys_of l <-> k ∈ l.
Proof.
  unfold keys_of. assert (forall acc, k ∈ foldl (fun acc k => if decide (k ∈ acc) then acc else acc ++ [k]) acc l <-> k ∈ acc \/ k ∈ l) as H.
  { induction l as [|x l IH]; intros acc; cbn; [set_solver|]. rewrite IH. case_decide; set_solver. }
  rewrite H. set_solver.
Qed.

(** Which routers the map of networks names. *)
Definition routers_on (m : list (string * gset string)) (n d : string) : Prop := exists rs, (n, rs) ∈ m /\ d ∈ rs.
Lemma routers_on_nil n d : routers_on [] n d <-> False.
Proof. split; [|done]. intros (rs & Hin & _). by apply elem_of_nil in Hin. Qed.
Lemma routers_on_cons n' rs m n d : routers_on ((n', rs) :: m) n d <-> (n = n' /\ d ∈ rs) \/ routers_on m n d.
Proof.
  unfold routers_on. setoid_rewrite elem_of_cons. split.
  - intros (rs' & [[= -> ->]|Hin] & Hd); [by left|right; eauto].
  - intros [[-> Hd]|(rs' & Hin & Hd)]; [exists rs|exists rs']; auto.
Qed.
Lemma add_router_spec network router m n d :
  routers_on (add_router network router m) n d <-> routers_on m n d \/ (n = network /\ d = router).
Proof.
  induction m as [|[n' rs] m IH]; cbn [add_router].
  - rewrite routers_on_cons, routers_on_nil. set_solver.
  - case_decide as Hn; rewrite !routers_on_cons; [subst|rewrite IH]; set_solver.
Qed.
Lemma add_router_dom network router m k : k ∈ (add_router network router m).*1 <-> k = network \/ k ∈ m.*1.
Proof. induction m as [|[n rs] m IH]; cbn; [set_solver|]. case_decide; cbn; set_solver. Qed.
(** Every network once, with at least one router. *)
Definition grouped (m : list (string * gset string)) : Prop := NoDup m.*1 /\ Forall (fun e => e.2 <> ∅) m.
Lemma add_router_grouped network router m : grouped m -> grouped (add_router network router m).
Proof.
  intros [Hnd Hall]. split.
  - clear Hall. induction m as [|[n rs] m IH]; cbn; [apply NoDup_singleton|]. apply NoDup_cons in Hnd as [Hn Hnd].
    case_decide; [by apply NoDup_cons|]. cbn. apply NoDup_cons. rewrite add_router_dom. naive_solver.
  - clear Hnd. induction Hall as [|[n rs] m Hrs Hall IH]; cbn; [repeat constructor; set_solver|].
    case_decide; constructor; try done. cbn. set_solver.
Qed.

(** *** The search *)

Lemma lists_device s l d network :
  lists s (fun p => p.(pr_device) = Some d /\ p.(pr_owner) = DEVICE_OWNER_ROUTER_INTF) l ->
  (exists np, np ∈ l /\ np.(np_network) = network) <-> interface_on s network d.
Proof.
  intros Hl. unfold interface_on. split.
  - intros (np & (id & p & Hp & [Hd Ho] & ->)%Hl & Hn). exists id, p. done.
  - intros (id & p & Hp & Hn & Ho & Hd). exists (as_port id p). split; [apply Hl; by exists id, p|done].
Qed.

(** The map of networks names the flavored routers with interfaces there. *)
Lemma wp_networks s routers :
  wp cloud_step (fold_each (fun m router_id =>
      ports ← call (RouterPorts router_id);
      mret (foldl (fun m p => add_router p.(np_network) router_id m) m ports)) routers [])
    (fun r _ s' => s' = s /\ match r with
       | inr m => grouped m /\ forall n d, routers_on m n d <-> d ∈ routers /\ interface_on s n d
       | inl _ => True end) tt s.
Proof.
  apply (wp_fold_each_seen _ _ _ _ (fun seen m _ s' => s' = s /\ grouped m /\
    forall n d, routers_on m n d <-> d ∈ seen /\ interface_on s n d)).
  - split; [done|]. split; [by repeat constructor|]. intros n d. rewrite routers_on_nil. set_solver.
  - intros seen router later m [] s1 _ (-> & Hnd & Hm). wp_pure. apply wp_call. intros r s1 [-> Hl].
    destruct r as [e|l]; wp_simp; [done|]. wp_pure. specialize (Hl l eq_refl).
    assert (forall l m, grouped m -> grouped (foldl (fun m p => add_router p.(np_network) router m) m l)) as Hkeys.
    { clear. induction l as [|p l IH]; intros m Hm; [done|]. cbn. by apply IH, add_router_grouped. }
    assert (forall l m n d, routers_on (foldl (fun m p => add_router p.(np_network) router m) m l) n d <->
      routers_on m n d \/ (d = router /\ exists np, np ∈ l /\ np.(np_network) = n)) as Hon.
    { clear. induction l as [|p l IH]; intros m n d; cbn; [set_solver|]. rewrite IH, add_router_spec.
      setoid_rewrite elem_of_cons. naive_solver. }
    split; [done|]. split; [by apply Hkeys|]. intros n d. rewrite Hon, Hm, (lists_device s l router n Hl).
    rewrite elem_of_app, list_elem_of_singleton. naive_solver.
  - intros m [] s1 (-> & H). done.
Qed.

(** The uplinks found on one network. *)
Lemma wp_network_uplinks s subports n flavored :
  (forall d, d ∈ flavored <-> flavored_router s d /\ interface_on s n d) -> flavored <> ∅ ->
  wp cloud_step (network_uplinks subports n flavored) (fun r _ s' => s' = s /\ match r with
    | inr l => forall id, (exists o, o ∈ l /\ o.(ou_port) = id) <->
                 removable s id /\ exists p, s.(cl_ports) !! id = Some p /\ p.(pr_network) = n
    | inl _ => True end) tt s.
Proof.
  intros Hfl Hne. unfold network_uplinks. wp_pure. apply wp_call. intros r s1 [-> Hl].
  destruct r as [e|intf]; wp_simp; [done|]. specialize (Hl intf eq_refl). cbn zeta.
  set (ids := list_to_set _ : gset string).
  assert (forall d, d ∈ ids <-> interface_on s n d /\ d <> "") as Hids.
  { intros d. unfold ids. rewrite elem_of_list_to_set, list_elem_of_omap. split.
    - intros (np & (id & p & Hp & [Hn Ho] & ->)%Hl & Hd). cbn in Hd. destruct (pr_device p) as [[|]|] eqn:Hdev; try done.
      simplify_eq. split; [|done]. exists id, p. split_and!; [done..|by apply Ho|done].
    - intros [(id & p & Hp & Hn & Ho & Hd) Hnd]. exists (as_port id p). split.
      + apply Hl. exists id, p. split_and!; [done..| |done]. by intros o [= <-].
      + cbn. rewrite Hd. by destruct d. }
  case_decide as Hunfl.
  - wp_pure. split; [done|]. intros id. split; [intros (o & Ho & _); by apply elem_of_nil in Ho|].
    intros ((p & name & Hp & _ & _ & _ & Hall) & p' & Hp' & <-). assert (p' = p) as -> by congruence.
    destruct Hunfl. apply set_eq. intros d. rewrite elem_of_difference, Hids, Hfl. set_solver.
  - wp_pure. apply wp_call. intros r s1 [-> Hports]. destruct r as [e|ports]; wp_simp; [done|]. wp_pure. split; [done|].
    specialize (Hports ports eq_refl). intros id. setoid_rewrite list_elem_of_omap. split.
    + intros (o & (np & (id' & p & Hp & [Hn _] & ->)%Hports & Ho) & <-). cbn [as_port np_name np_id] in Ho.
      destruct (pr_name p) as [name|] eqn:Hname; [|done]. destruct (startswith _ name) eqn:Hs; [|done]. simplify_eq. cbn [ou_port].
      split; [|by exists p]. exists p, name. split_and!; [done..| |].
      * apply set_choose_L in Hne as [d Hd]. exists d. by apply Hfl.
      * intros d Hd Hd'. assert (d ∈ flavored) as Hin; [|by apply Hfl].
        destruct (decide (d ∈ flavored)); [done|]. assert (d ∈ ids ∖ flavored) as Hbad; [|rewrite Hunfl in Hbad; set_solver].
        apply elem_of_difference. by rewrite Hids.
    + intros ((p & name & Hp & Hname & Hs & _) & p' & Hp' & Hn). assert (p' = p) as -> by congruence.
      exists (MkUplink (merge_sort str_le (elements flavored)) n id name (removeprefix "uplink-" name) (subports !! id)).
      split; [|done]. exists (as_port id p). split; [apply Hports; by exists id, p|].
      cbn [as_port np_name np_id]. by rewrite Hname, Hs.
Qed.

Lemma wp_find s :
  wp cloud_step find_orphaned_uplinks (fun r _ s' => s' = s /\ match r with
    | inr l => forall id, (exists o, o ∈ l /\ o.(ou_port) = id) <-> removable s id
    | inl _ => True end) tt s.
Proof.
  unfold find_orphaned_uplinks. wp_pure. eapply wp_mono with (Q := fun _ _ s' => s' = s).
  2: { unfold build_subport_trunk_map. wp_pure. apply wp_call. intros r s1 ->. destruct r as [e|trunks]; wp_simp; [done|].
       apply (wp_fold_each _ _ _ _ (fun _ _ s' => s' = s)); [done| |done]. intros t m [] s1 _ ->. repeat wp_pure.
       apply wp_call. intros r s1 ->. destruct r; wp_simp; by wp_pure. }
  intros [e|subports] [] s1 ->; [done|]. wp_pure. apply wp_call. intros r s1 [-> Hr]. destruct r as [e|routers]; wp_simp; [done|].
  rewrite (Hr routers eq_refl). cbn zeta. clear Hr routers. set (fl := keys_of _).
  assert (forall d, d ∈ fl <-> flavored_router s d) as Hfl.
  { intros d. unfold fl. rewrite keys_of_elem, list_elem_of_fmap. unfold flavored_router. setoid_rewrite list_elem_of_filter. naive_solver. }
  assert (forall id, removable s id -> exists d, d ∈ fl) as Hsome.
  { intros id (p & name & _ & _ & _ & (d & Hd & _) & _). exists d. by apply Hfl. }
  destruct (truthy fl) eqn:Ht; cbn [negb].
  2: { wp_pure. split; [done|]. intros id. split; [intros (o & Ho & _); by apply elem_of_nil in Ho|].
       intros [d Hd]%Hsome. destruct fl; [by apply elem_of_nil in Hd|done]. }
  wp_pure. eapply wp_mono; [|apply wp_networks]. intros [e|m] [] s1 [-> Hm]; [done|]. cbn beta iota. destruct Hm as [[Hkeys Hnonempty] Hon].
  apply (wp_fold_each_seen _ _ _ _ (fun seen orphans _ s' => s' = s /\ forall id, (exists o, o ∈ orphans /\ o.(ou_port) = id) <->
    removable s id /\ exists p, s.(cl_ports) !! id = Some p /\ p.(pr_network) ∈ seen.*1)).
  - split; [done|]. intros id. split; [intros (o & Ho & _); by apply elem_of_nil in Ho|]. intros (_ & p & _ & Hp). by apply elem_of_nil in Hp.
  - intros seen [n rs] later orphans [] s1 Heq [-> Hor]. wp_pure.
    assert ((n, rs) ∈ m) as Hin by (rewrite Heq; set_solver).
    assert (forall d, d ∈ rs <-> flavored_router s d /\ interface_on s n d) as Hrs.
    { intros d. rewrite <- Hfl, <- Hon. split; [by exists rs|]. intros (rs' & Hin' & Hd).
      assert (rs' = rs) as ->; [|done]. apply (dict_get_elem n rs' m Hkeys) in Hin'. apply (dict_get_elem n rs m Hkeys) in Hin. congruence. }
    assert (rs <> ∅) as Hne by (rewrite Forall_forall in Hnonempty; by apply (Hnonempty (n, rs))).
    eapply wp_mono; [|by apply wp_network_uplinks]. intros [e|more] [] s1 [-> Hmore]; [done|]. wp_simp. wp_pure. split; [done|].
    intros id. rewrite fmap_app. setoid_rewrite elem_of_app. cbn.
    assert ((exists o, (o ∈ orphans \/ o ∈ more) /\ ou_port o = id) <->
      (exists o, o ∈ orphans /\ ou_port o = id) \/ (exists o, o ∈ more /\ ou_port o = id)) as -> by naive_solver.
    rewrite Hor, Hmore. setoid_rewrite list_elem_of_singleton. naive_solver.
  - intros orphans [] s1 [-> Hor]. split; [done|]. intros id. rewrite Hor. split; [naive_solver|]. intros Hrem. split; [done|].
    destruct Hrem as (p & name & Hp & _ & _ & (d & Hd & Hi) & _). exists p. split; [done|].
    assert (routers_on m p.(pr_network) d) as (rs & Hin & _) by (apply Hon; by rewrite Hfl).
    apply list_elem_of_fmap. by exists (pr_network p, rs).
Qed.

(** *** The removal *)

Definition port_gone (s : cloud) (id : string) : Prop :=
  s.(cl_ports) !! id = None /\ forall t subs, s.(cl_trunks) !! t = Some subs -> id ∉ subs.

Lemma only_removable_refl s : only_removable s s.
Proof. split_and!; [done|done|by right|]. intros t. destruct (cl_trunks s !! t); [|done]. split; [done|]. auto. Qed.
Lemma only_removable_subport s s1 t id :
  only_removable s s1 -> removable s id ->
  only_removable s (MkCloud s1.(cl_routers) s1.(cl_ports) (alter (.∖ {[id]}) t s1.(cl_trunks))).
Proof.
  intros (Hr & Hp & Hp' & Ht) Hrem. split_and!; [done..|]. intros t'. specialize (Ht t'). cbn.
  destruct (decide (t' = t)) as [->|]; [|by rewrite lookup_alter_ne].
  rewrite lookup_alter_eq. destruct (cl_trunks s !! t) as [subs|]; destruct (cl_trunks s1 !! t) as [subs1|]; try done. cbn.
  destruct Ht as [Hsub Hkeep]. split; [set_solver|]. intros x Hx Hnr. apply elem_of_difference. split; [by apply Hkeep|].
  intros ->%elem_of_singleton. done.
Qed.
Lemma only_removable_port s s1 id :
  only_removable s s1 -> removable s id ->
  only_removable s (MkCloud s1.(cl_routers) (delete id s1.(cl_ports)) s1.(cl_trunks)).
Proof.
  intros (Hr & Hp & Hp' & Ht) Hrem. split_and!; [done| | |done]; intros id'; cbn; destruct (decide (id' = id)) as [->|Hne].
  - done.
  - by rewrite lookup_delete_ne by done; apply Hp.
  - rewrite lookup_delete_eq. by left.
  - by rewrite lookup_delete_ne by done.
Qed.
Lemma gone_subport s1 t id x :
  port_gone s1 x -> port_gone (MkCloud s1.(cl_routers) s1.(cl_ports) (alter (.∖ {[id]}) t s1.(cl_trunks))) x.
Proof.
  intros [Hp Ht]. split; [done|]. intros t' subs Hsubs. cbn in Hsubs. destruct (decide (t' = t)) as [->|].
  - rewrite lookup_alter_eq in Hsubs. destruct (cl_trunks s1 !! t) as [subs1|] eqn:H1; [|done]. cbn in Hsubs. simplify_eq.
    specialize (Ht _ _ H1). set_solver.
  - rewrite lookup_alter_ne in Hsubs by done. by eapply Ht.
Qed.
Lemma gone_port s1 id x :
  port_gone s1 x -> port_gone (MkCloud s1.(cl_routers) (delete id s1.(cl_ports)) s1.(cl_trunks)) x.
Proof. intros [Hp Ht]. split; [|done]. cbn. apply lookup_delete_None. by right. Qed.

Lemma wp_remove_uplink kubectl_base o s s1 :
  removable s o.(ou_port) -> only_removable s s1 ->
  wp cloud_step (remove_uplink kubectl_base o) (fun r _ s2 => only_removable s s2 /\ (forall id, port_gone s1 id -> port_gone s2 id) /\
    (r = inr false -> port_gone s2 o.(ou_port))) tt s1.
Proof.
  intros Hrem Hs1. unfold remove_uplink. wp_pure.
  eapply wp_mono with (Q := fun r _ s2 => only_removable s s2 /\ (forall id, port_gone s1 id -> port_gone s2 id) /\ exists b, r = inr b).
  2: { destruct (ou_trunk o) as [[|a t]|]; [by wp_pure; eauto| |by wp_pure; eauto]. repeat wp_pure. apply wp_call.
       intros [e|[]] s2 Hs2; cbn in Hs2; subst; wp_simp; repeat wp_pure; [by eauto|].
       split; [by apply only_removable_subport|]. split; [intros id; apply gone_subport|eauto]. }
  intros r [] s2 (Hs2 & Hg2 & b & ->). cbn beta iota. destruct b; cbn [negb]; [|by wp_pure].
  wp_pure. wp_pure. wp_pure. apply wp_call. intros [e|[]] s3 Hs3; cbn in Hs3; wp_simp; repeat wp_pure; [by subst|].
  destruct Hs3 as [Hfree ->]. apply wp_call. intros r s4 ->. wp_simp.
  assert (only_removable s (MkCloud s2.(cl_routers) (delete o.(ou_port) s2.(cl_ports)) s2.(cl_trunks))) as Ho by (by apply only_removable_port).
  assert (forall id, port_gone s1 id -> port_gone (MkCloud s2.(cl_routers) (delete o.(ou_port) s2.(cl_ports)) s2.(cl_trunks)) id) as Hg
    by (intros id Hid; by apply gone_port, Hg2).
  destruct r as [e|c]; repeat wp_pure; [done|]. split_and!; [done|done|]. intros _. split; [cbn; apply lookup_delete_eq|done].
Qed.

(** C26. Against a Neutron that keeps ports, trunks and routers and may refuse any
    request, the script for flavored routers touches only uplink ports on networks
    where every router interface belongs to a flavored router, and only with
    [--execute]; if it then returns without error, all of these ports are gone,
    from Neutron and from their trunks. *)
Theorem flavored_uplinks_removed kube_context execute s :
  wp cloud_step (flavored_uplinks_main kube_context execute) (fun r _ s' =>
    if execute : bool then only_removable s s' /\ (r = inr tt -> all_removed s s') else s' = s) tt s.
Proof.
  unfold flavored_uplinks_main. repeat wp_pure. apply wp_call. intros r s1 ->.
  pose proof (only_removable_refl s) as Hrefl. destruct r as [e|[]]; wp_simp; [wp_pure; by destruct execute|].
  repeat wp_pure. eapply wp_mono; [|apply wp_find]. intros [e|orphans] [] s1 [-> Hor]; [by destruct execute|]. cbn beta iota zeta.
  wp_pure. eapply wp_mono with (Q := fun _ _ s' => s' = s).
  2: { destruct orphans as [|o orphans]; [by wp_pure|]. unfold verify_ovn_matches_openstack. wp_pure. apply wp_call. intros r s1 ->.
       destruct r as [e|c]; wp_simp; [done|]. case_match; by wp_pure. }
  intros [e|[]] [] s1 ->; [by destruct execute|]. cbn beta iota. destruct execute; cbn [negb]; [|by wp_pure].
  unfold remove_orphaned_uplinks. destruct (truthy orphans) eqn:Ht; cbn [negb].
  2: { wp_pure. split; [done|]. intros _ id Hid%Hor. destruct orphans; [|done]. destruct Hid as (o & Ho & _). by apply elem_of_nil in Ho. }
  wp_pure. eapply (wp_fold_each_seen _ _ _ _ (fun seen errors _ s' => 0 <= errors /\ only_removable s s' /\
    (errors = 0 -> forall o, o ∈ seen -> port_gone s' o.(ou_port)))).
  - split_and!; [done|done|]. intros _ o Ho. by apply elem_of_nil in Ho.
  - intros seen o later errors [] s1 Heq (Herr & Hs1 & Hdone). wp_pure.
    assert (removable s o.(ou_port)) as Hrem by (apply Hor; exists o; split; [rewrite Heq; set_solver|done]).
    eapply wp_mono; [|by apply wp_remove_uplink]. intros [e|b] [] s2 (Hs2 & Hgone & Hb); [done|]. cbn beta iota. wp_pure.
    split; [destruct b; lia|]. split; [done|]. intros Hz o' [Ho'| ->%list_elem_of_singleton]%elem_of_app.
    + apply Hgone, Hdone; [destruct b; lia|done].
    + destruct b; [lia|by apply Hb].
  - intros errors [] s1 (Herr & Hs1 & Hdone). destruct (Z.eqb_spec errors 0) as [->|Hne].
    + cbn. wp_pure. split; [done|]. intros _ id (o & Ho & <-)%Hor. by apply Hdone.
    + unfold truthy, truthy_Z. rewrite (proj2 (Z.eqb_neq _ _)) by done. cbn [negb]. by wp_pure.
Qed.
