(* ===== verification/CinderDriver.v ===== *)
(** * The Cinder volume driver

    Models [src/python/cinder-understack/cinder_understack/dynamic_netapp_driver.py]:
    one NetApp library per SVM, found on the cluster, and the dispatch of volume
    operations to the library of the volume's SVM.  The upstream library, its
    client and the configuration of Cinder are calls of the environment. *)
From S2P Require Import Prelude PyStr PyData.
Local Open Scope Z_scope.

(** A library object: its handle, the configuration group it reads, and the fields
    that [do_setup] sets. *)
Record library := MkLib { l_id : nat; backend_name : string; l_vserver : option string;
  namespace_ostype : string; host_type : string }.

Inductive cinderE : Type -> Type :=
| RegisterOptions (group : string) : cinderE unit
| ParentOption (name : string) : cinderE json
| SetOverride (name : string) (value : json) (group : string) : cinderE unit
| NewLibrary (group : string) : cinderE nat
| CheckFlags (group : string) : cinderE unit
| ConfigText (group name : string) : cinderE string
| NewRestClient (group : option string) : cinderE (option string)
| NewCapabilities (lib : nat) (vserver : option string) : cinderE unit
| CheckApiPermissions (lib : nat) : cinderE unit
| ClusterUserSupported (lib : nat) : cinderE bool
| NewPerformance (lib : nat) : cinderE unit
| GetRecords (query : dict string) : cinderE json
| LibCheck (lib : nat) : cinderE unit
| StopTasks (lib : nat) : cinderE unit
| StartLoop (interval : Z) : cinderE unit
| LibStats (lib : nat) (refresh : bool) : cinderE json
| LibOp (lib : nat) (operation volume host : string) (arguments : list json) : cinderE json
| BaseFilterFunction : cinderE (option string)
| GoodnessFunction : cinderE json.

(** The driver's fields, and the [host] of the volume objects it is handed. *)
Record driver := MkDriver { libraries : dict library; stats : dict json; looping_call : bool; cluster_made : bool;
  vol_host : gmap string string }.
Abbreviation drv A := (prog driver cinderE A).

Definition set_libraries (l : dict library) (d : driver) : driver :=
  MkDriver l d.(stats) d.(looping_call) d.(cluster_made) d.(vol_host).
Definition set_host (v host : string) (d : driver) : driver :=
  MkDriver d.(libraries) d.(stats) d.(looping_call) d.(cluster_made) (<[v := host]> d.(vol_host)).
Definition set_stats (s : dict json) (d : driver) : driver :=
  MkDriver d.(libraries) s d.(looping_call) d.(cluster_made) d.(vol_host).
Definition set_looping (d : driver) : driver :=
  MkDriver d.(libraries) d.(stats) true d.(cluster_made) d.(vol_host).
Definition set_cluster (d : driver) : driver :=
  MkDriver d.(libraries) d.(stats) d.(looping_call) true d.(vol_host).
Definition modify (f : driver -> driver) : drv unit := d ← get_state; put_state (f d).
(** [del d[k]] of a key that is there. *)
Definition dict_del {V} (k : string) (d : dict V) : dict V := filter (fun e => e.1 <> k) d.

Definition InvalidInput (reason : string) (args : list string) : exn := Exn "InvalidInput" (reason :: args).
Definition DriverNotInitialized : exn := Exn "DriverNotInitialized" [].
Definition _SVM_NAME_DELIM : string := "+".
Definition DRIVER_NAME : string := "NetApp_Dynamic_NVMe".
Definition VERSION : string := "1.0.0".

Section driver.
(** The configuration of the backend: its group, the options of the driver, the
    SVM prefix, the interval of the discovery, the backend's name. *)
Context (config_group : string) (driver_options : list string) (prefix : string) (interval : option Z)
  (volume_backend_name : option string).
(** Constants of the upstream library. *)
Context (DEFAULT_NAMESPACE_OS DEFAULT_HOST_TYPE : string).
(** [volume_utils.extract_host(host, level="pool")], and the first group of the
    pool name pattern of [na_utils]. *)
Context (extract_pool : string -> option string) (pool_match : string -> option string).
(** The order in which a set is visited. *)
Context (iter : gset string -> list string).

(** ** Libraries *)

Definition child_group (svm_name : string) : string := config_group +:+ "_" +:+ svm_name.
(* dynamic_netapp_driver.py:164-197 _create_svm_lib *)
Definition _create_svm_lib (svm_name : string) : drv library :=
  let child_grp := child_group svm_name in
  _ ← call (RegisterOptions child_grp);
  _ ← for_each driver_options (fun name =>
        try_except (v ← call (ParentOption name); call (SetOverride name v child_grp))
          (fun e => if decide (e.(exn_cls) = "NoSuchOptError") then mret tt else Raise e));
  _ ← call (SetOverride "netapp_vserver" (JStr svm_name) child_grp);
  _ ← call (SetOverride "volume_backend_name" (JStr child_grp) child_grp);
  id ← call (NewLibrary child_grp);
  mret (MkLib id child_grp None "" "").

(* dynamic_netapp_driver.py:87-135 do_setup *)
Definition lib_do_setup (lib : library) : drv library :=
  let group := lib.(backend_name) in
  _ ← call (CheckFlags group);
  ostype ← call (ConfigText group "netapp_namespace_ostype");
  htype ← call (ConfigText group "netapp_host_type");
  _ ← call (CheckFlags group);
  vserver ← call (NewRestClient (Some group));
  _ ← call (NewCapabilities lib.(l_id) vserver);
  _ ← call (CheckApiPermissions lib.(l_id));
  _ ← call (ClusterUserSupported lib.(l_id));
  _ ← call (NewPerformance lib.(l_id));
  mret (MkLib lib.(l_id) group vserver (str_or (Some ostype) DEFAULT_NAMESPACE_OS) (str_or (Some htype) DEFAULT_HOST_TYPE)).

(** The client of the cluster is made once. *)
(* dynamic_netapp_driver.py:204-221 cluster *)
Definition cluster : drv unit :=
  d ← get_state;
  if d.(cluster_made) then mret tt else
  _ ← call (NewRestClient None);
  modify set_cluster.

(* dynamic_netapp_driver.py:223-234 _get_svms *)
Definition _get_svms : drv (list string) :=
  _ ← cluster;
  ret ← call (GetRecords [("state", "running"); ("nvme.enabled", "true"); ("name", prefix +:+ "*"); ("fields", "name,uuid")]);
  records ← lift (jitem "records" ret);
  records ← lift (jiter records);
  lift (res_map (fun r => n ← jitem "name" r; match n with JStr s => Ok s | _ => Err (TypeError ["name"]) end) records).

(* dynamic_netapp_driver.py:236-249 do_setup *)
Definition do_setup : drv unit :=
  svms ← _get_svms;
  for_each svms (fun svm_name =>
    d ← get_state;
    if decide (svm_name ∈ d.(libraries).*1) then mret tt else
    lib ← _create_svm_lib svm_name;
    lib ← lib_do_setup lib;
    modify (fun d => set_libraries (dict_set svm_name lib d.(libraries)) d)).

(* dynamic_netapp_driver.py:251-256 _remove_svm_lib *)
Definition _remove_svm_lib (lib : library) : drv unit := call (StopTasks lib.(l_id)).

(** A library that has gone. *)
(* dynamic_netapp_driver.py:273-277 _actual_refresh_svm_libraries *)
Definition drop_library (svm_name : string) : drv unit :=
  d ← get_state;
  match dict_get svm_name d.(libraries) with
  | None => Raise (KeyError svm_name)
  | Some lib =>
      _ ← _remove_svm_lib lib;
      modify (fun d => set_libraries (dict_del svm_name d.(libraries)) d)
  end.
(** A library for an SVM that is new; what fails is cleaned up and skipped. *)
(* dynamic_netapp_driver.py:281-295 _actual_refresh_svm_libraries *)
Definition add_library (svm_name : string) : drv unit :=
  lib ← _create_svm_lib svm_name;
  try_except (
    lib ← lib_do_setup lib;
    _ ← call (LibCheck lib.(l_id));
    modify (fun d => set_libraries (dict_set svm_name lib d.(libraries)) d))
    (fun _ => _remove_svm_lib lib).

(* dynamic_netapp_driver.py:261-296 _actual_refresh_svm_libraries *)
Definition _actual_refresh_svm_libraries : drv unit :=
  d ← get_state;
  let existing_libs : gset string := list_to_set d.(libraries).*1 in
  svms ← _get_svms;
  let current_svms : gset string := list_to_set svms in
  _ ← for_each (iter (existing_libs ∖ current_svms)) drop_library;
  for_each (iter (current_svms ∖ existing_libs)) add_library.

(** One library at start-up: a library that fails its check is dropped. *)
(* dynamic_netapp_driver.py:306-315 check_for_setup_error *)
Definition check_library (svm_name : string) : drv unit :=
  d ← get_state;
  match dict_get svm_name d.(libraries) with
  | None => Raise (KeyError svm_name)
  | Some lib =>
      try_except (call (LibCheck lib.(l_id)))
        (fun _ => _ ← _remove_svm_lib lib;
                  modify (fun d => set_libraries (dict_del svm_name d.(libraries)) d))
  end.
(* dynamic_netapp_driver.py:298-330 check_for_setup_error *)
Definition check_for_setup_error : drv unit :=
  d ← get_state;
  _ ← for_each (iter (list_to_set d.(libraries).*1)) check_library;
  d ← get_state;
  if d.(looping_call) then mret tt else
  match interval with
  | Some i => if truthy i && (0 <? i) then _ ← modify set_looping; call (StartLoop i) else mret tt
  | None => mret tt
  end.

(** ** Pools *)

(* dynamic_netapp_driver.py:332-370 _svmify_pool *)
Definition _svmify_pool (pool : dict json) (svm_name : string) (filter_function : json) : res (dict json) :=
  match dict_get "pool_name" pool with
  | Some (JStr pool_name) =>
      let pool := dict_set "pool_name" (JStr (svm_name +:+ _SVM_NAME_DELIM +:+ pool_name)) pool in
      let pool := dict_set "netapp_vserver" (JStr svm_name) pool in
      let pool := dict_set "netapp_project_id" (JStr (removeprefix prefix svm_name)) pool in
      let netapp_volume_type_id :=
        match pool_match pool_name with
        | Some raw_id => match uuid_int raw_id with Some z => uuid_str z | None => "" end
        | None => ""
        end in
      let pool := dict_set "netapp_volume_type_id" (JStr netapp_volume_type_id) pool in
      Ok (dict_set "filter_function" filter_function pool)
  | Some _ => Err (TypeError ["expected string or bytes-like object"])
  | None => Err (KeyError "pool_name")
  end.

(* dynamic_netapp_driver.py:471-484 get_filter_function *)
Definition get_filter_function : drv string :=
  base_filter ← call BaseFilterFunction;
  let svm_filter := "(capabilities.netapp_project_id == volume.project_id)" in
  let quote := String (ascii_of_nat 34) "" in
  let vol_type_filter := "(capabilities.netapp_volume_type_id == " +:+ quote +:+ quote +:+
    " or capabilities.netapp_volume_type_id == volume.volume_type_id)" in
  let combined := svm_filter +:+ " and " +:+ vol_type_filter in
  mret (match base_filter with
        | Some (String _ _ as b) => combined +:+ " and " +:+ b
        | _ => combined
        end).

(* dynamic_netapp_driver.py:486-503 _empty_volume_stats *)
Definition _empty_volume_stats : drv (dict json) :=
  filter_function ← get_filter_function;
  goodness_function ← call GoodnessFunction;
  mret [("volume_backend_name", JStr (str_or volume_backend_name DRIVER_NAME)); ("vendor_name", JStr "NetApp");
        ("driver_version", JStr VERSION); ("storage_protocol", JStr "NVMe"); ("sparse_copy_volume", JBool true);
        ("replication_enabled", JBool false); ("total_capacity_gb", JStr "unknown"); ("free_capacity_gb", JStr "unknown");
        ("filter_function", JStr filter_function); ("goodness_function", goodness_function); ("pools", JArr [])].

Definition pool_entries (v : json) : res (dict json) :=
  match v with JObj d => Ok d | _ => Err (TypeError ["indices must be integers"]) end.
(* dynamic_netapp_driver.py:505-521 get_volume_stats *)
Definition get_volume_stats (refresh : bool) : drv (dict json) :=
  if negb refresh then d ← get_state; mret d.(stats) else
  data ← _empty_volume_stats;
  d ← get_state;
  let filter_function := default JNull (dict_get "filter_function" data) in
  pools ← fold_each (fun pools '(svm_name, lib) =>
            ret ← call (LibStats lib.(l_id) refresh);
            ps ← lift (jitem "pools" ret);
            ps ← lift (jiter ps);
            more ← lift (res_map (fun p => p ← pool_entries p; p ← _svmify_pool p svm_name filter_function; Ok (JObj p)) ps);
            mret (pools ++ more)) d.(libraries) [];
  let data := dict_set "pools" (JArr pools) data in
  _ ← modify (set_stats data);
  mret data.

(** ** Volumes *)

(** [s.partition(c)] without the separator. *)
Definition partition (c : ascii) (s : string) : string * string := default (s, "") (split_once c s).

(** The library of a volume, and the host it is shown. *)
(* dynamic_netapp_driver.py:378-418 _volume_to_library *)
Definition volume_library (libs : dict library) (original_host : string) : res (library * string) :=
  match extract_pool original_host with
  | Some (String _ _ as qualified_pool) =>
      let '(svm_name, flexvol_name) := partition "+"%char qualified_pool in
      if negb (truthy flexvol_name) then Err (InvalidInput "missing delimiter" [qualified_pool]) else
      match dict_get svm_name libs with
      | None => Err DriverNotInitialized
      | Some lib =>
          if decide (lib.(l_vserver) = Some svm_name) then Ok (lib, remove_sub (svm_name +:+ _SVM_NAME_DELIM) original_host)
          else Err (InvalidInput "vserver mismatch" [])
      end
  | _ => Err (InvalidInput "pool name not found" [original_host])
  end.

(** [with self._volume_to_library(volume) as lib: return body(lib)]: the host is put
    back when the body returns, not when it raises. *)
(* dynamic_netapp_driver.py:372-420 _volume_to_library *)
Definition _volume_to_library {A} (volume : string) (body : library -> string -> drv A) : drv A :=
  d ← get_state;
  match d.(vol_host) !! volume with
  | None => Raise (KeyError "host")
  | Some original_host =>
      found ← lift (volume_library d.(libraries) original_host);
      let '(lib, inner) := (found : library * string) in
      _ ← modify (set_host volume inner);
      ret ← body lib inner;
      _ ← modify (set_host volume original_host);
      mret ret
  end.

Definition with_library (operation volume : string) (arguments : list json) : drv json :=
  _volume_to_library volume (fun lib host => call (LibOp lib.(l_id) operation volume host arguments)).
(* dynamic_netapp_driver.py:422-425 create_volume *)
Definition create_volume (volume : string) : drv json := with_library "create_volume" volume [].
(* dynamic_netapp_driver.py:427-430 delete_volume *)
Definition delete_volume (volume : string) : drv json := with_library "delete_volume" volume [].
(** A snapshot is its volume and what identifies it. *)
(* dynamic_netapp_driver.py:432-435 create_snapshot *)
Definition create_snapshot (snapshot : string * json) : drv json := with_library "create_snapshot" snapshot.1 [snapshot.2].
(* dynamic_netapp_driver.py:437-440 delete_snapshot *)
Definition delete_snapshot (snapshot : string * json) : drv json := with_library "delete_snapshot" snapshot.1 [snapshot.2].
(* dynamic_netapp_driver.py:442-445 create_volume_from_snapshot *)
Definition create_volume_from_snapshot (volume : string) (snapshot : string * json) : drv json :=
  with_library "create_volume_from_snapshot" volume [snapshot.2].
(* dynamic_netapp_driver.py:447-450 create_cloned_volume *)
Definition create_cloned_volume (volume : string) (src_vref : json) : drv json :=
  with_library "create_cloned_volume" volume [src_vref].
(* dynamic_netapp_driver.py:452-455 extend_volume *)
Definition extend_volume (volume : string) (new_size : Z) : drv json := with_library "extend_volume" volume [JNum new_size].
(* dynamic_netapp_driver.py:457-464 initialize_connection *)
Definition initialize_connection (volume : string) (connector : dict json) : drv json :=
  let connector := match dict_get "initiator" connector, dict_get "nqn" connector with
                   | Some i, None => dict_set "nqn" i connector
                   | _, _ => connector
                   end in
  with_library "initialize_connection" volume [JObj connector].
(* dynamic_netapp_driver.py:466-469 terminate_connection *)
Definition terminate_connection (volume : string) (connector : dict json) : drv json :=
  with_library "terminate_connection" volume [JObj connector].
(** The connector is not handed on. *)
(* dynamic_netapp_driver.py:523-526 create_export *)
Definition create_export (volume : string) (connector : dict json) : drv json := with_library "create_export" volume [].
(* dynamic_netapp_driver.py:528-531 ensure_export *)
Definition ensure_export (volume : string) : drv json := with_library "ensure_export" volume [].
(* dynamic_netapp_driver.py:533-536 remove_export *)
Definition remove_export (volume : string) : drv json := with_library "remove_export" volume [].

(** The driver as it is made, before its set-up. *)
(* dynamic_netapp_driver.py:149-162 __init__ *)
Definition init_driver : drv unit :=
  _ ← call (RegisterOptions config_group);
  d ← get_state;
  _ ← put_state (MkDriver [] [] false false d.(vol_host));
  data ← _empty_volume_stats;
  modify (set_stats data).
End driver.

(** ** Pools and volumes *)

Lemma split_once_unique c a a' b b' :
  has_char c a = false -> has_char c a' = false -> a +:+ String c b = a' +:+ String c b' -> a = a' /\ b = b'.
Proof.
  intros Ha Ha' Heq. pose proof (split_once_app c a b Ha) as H1. rewrite Heq, (split_once_app c a' b' Ha') in H1. by simplify_eq.
Qed.
Lemma remove_sub_none c p s n : has_char c s = false -> remove_sub_go n (p +:+ String c "") s = s.
Proof.
  revert s. induction n as [|n IH]; intros s Hs; [done|]. destruct s as [|x s]; [done|].
  cbn [remove_sub_go]. destruct (startswith _ _) eqn:Hst.
  - apply startswith_spec in Hst as [r Hr]. rewrite Hr in Hs. rewrite <- str_app_assoc in Hs. rewrite has_char_app in Hs.
    cbn in Hs. rewrite Ascii.eqb_refl in Hs. by destruct (has_char c p).
  - cbn in Hs. apply orb_false_iff in Hs as [_ Hs]. by rewrite IH.
Qed.
(** The only occurrence of a pattern that ends in [c] is where [c] is. *)
Lemma remove_sub_once c a p b :
  has_char c a = false -> has_char c p = false -> has_char c b = false ->
  remove_sub (p +:+ String c "") (a +:+ p +:+ String c b) = a +:+ b.
Proof.
  intros Ha Hp Hb. unfold remove_sub. assert (String.length (a +:+ p +:+ String c b) <= String.length (a +:+ p +:+ String c b))%nat as Hn by lia.
  revert Hn. generalize (String.length (a +:+ p +:+ String c b)) at 2 3 as n. intros n. revert n.
  induction a as [|x a IH]; intros n Hn; cbn [String.append] in *.
  - destruct n as [|n]; [rewrite str_length_app in Hn; cbn in Hn; lia|].
    assert (startswith (p +:+ String c "") (p +:+ String c b) = true) as Hst.
    { apply startswith_spec. exists b. by rewrite <- str_app_assoc. }
    replace (p +:+ String c b) with ((p +:+ String c "") +:+ b) in * by (by rewrite <- str_app_assoc).
    destruct ((p +:+ String c "") +:+ b) as [|y r] eqn:Hs; [by destruct p|]. cbn [remove_sub_go]. rewrite Hst, <- Hs, drop_str_app.
    by apply remove_sub_none.
  - destruct n as [|n]; [cbn in Hn; lia|]. cbn [remove_sub_go]. cbn in Hn.
    cbn in Ha. apply orb_false_iff in Ha as [Hx Ha]. destruct (startswith _ _) eqn:Hst.
    + apply startswith_spec in Hst as [r Hr]. rewrite <- str_app_assoc in Hr. cbn [String.append] in Hr.
      change (String x (a +:+ p +:+ String c b)) with (String x a +:+ (p +:+ String c b)) in Hr. rewrite str_app_assoc in Hr.
      apply split_once_unique in Hr as [Hr _]; [|by cbn; rewrite has_char_app, Hx, Ha, Hp|done].
      apply (f_equal String.length) in Hr. rewrite str_length_app in Hr. cbn in Hr. lia.
    + rewrite IH; [done|done|lia].
Qed.

Section pools.
Context (prefix : string) (extract_pool pool_match : string -> option string).
(** [extract_host]: the pool of [host@backend#pool]. *)
Hypothesis extract_pool_spec : forall base pool,
  has_char "#" base = false -> has_char "#" pool = false -> extract_pool (base +:+ String "#" pool) = Some pool.

Lemma svmify_pool_name pool svm ff pool' flexvol :
  _svmify_pool prefix pool_match pool svm ff = inr pool' -> dict_get "pool_name" pool = Some (JStr flexvol) ->
  dict_get "pool_name" pool' = Some (JStr (svm +:+ "+" +:+ flexvol)) /\
  dict_get "netapp_project_id" pool' = Some (JStr (removeprefix prefix svm)).
Proof.
  unfold _svmify_pool. intros H Hp. rewrite Hp in H. injection H as <-. by rewrite !dict_get_set, !decide_False, !decide_True by done.
Qed.

Lemma volume_library_pool base svm flexvol libs lib :
  has_char "#" base = false -> has_char "+" base = false -> has_char "#" svm = false -> has_char "+" svm = false ->
  has_char "#" flexvol = false -> has_char "+" flexvol = false -> flexvol <> "" ->
  dict_get svm libs = Some lib -> lib.(l_vserver) = Some svm ->
  volume_library extract_pool libs (base +:+ "#" +:+ svm +:+ "+" +:+ flexvol) = inr (lib, base +:+ "#" +:+ flexvol).
Proof.
  intros Hb Hb' Hs Hs' Hf Hf' Hne Hlib Hv. unfold volume_library. cbn [String.append].
  rewrite extract_pool_spec; [|done|by rewrite has_char_app, Hs; cbn; rewrite Hf].
  destruct (svm +:+ String "+" flexvol) as [|x q] eqn:Hq; [by destruct svm|]. rewrite <- Hq.
  unfold partition. rewrite (split_once_app "+" svm flexvol Hs'). cbn.
  destruct (truthy flexvol) eqn:Ht; [|by destruct flexvol]. cbn [negb]. rewrite Hlib, decide_True by done. do 2 f_equal.
  change (base +:+ String "#" (svm +:+ String "+" flexvol)) with (base +:+ String "#" "" +:+ (svm +:+ String "+" flexvol)).
  rewrite (str_app_assoc base (String "#" "") (svm +:+ _)).
  change (svm +:+ _SVM_NAME_DELIM) with (svm +:+ String "+" "").
  rewrite remove_sub_once; [by rewrite <- str_app_assoc|by rewrite has_char_app, Hb'|done|done].
Qed.

(** C21. A pool that the driver reports for an SVM names the project of the SVM, and
    every operation on a volume placed in that pool is one call of the library of
    that SVM, which sees the host with the plain name of the FlexVol; the host of
    the volume is afterwards what it was if the call succeeds, and stays without
    the SVM if it raises. *)
Theorem volume_reaches_its_svm pool svm ff pool' flexvol base project lib operation arguments volume d :
  _svmify_pool prefix pool_match pool svm ff = inr pool' -> dict_get "pool_name" pool = Some (JStr flexvol) ->
  svm = prefix +:+ project -> has_char "#" svm = false -> has_char "+" svm = false ->
  has_char "#" base = false -> has_char "+" base = false ->
  has_char "#" flexvol = false -> has_char "+" flexvol = false -> flexvol <> "" ->
  dict_get svm d.(libraries) = Some lib -> lib.(l_vserver) = Some svm ->
  exists name, dict_get "pool_name" pool' = Some (JStr name) /\ dict_get "netapp_project_id" pool' = Some (JStr project) /\
    (d.(vol_host) !! volume = Some (base +:+ "#" +:+ name) ->
     every_run (with_library extract_pool operation volume arguments) d (fun r d' tr => exists answer,
       tr = [Ev (LibOp lib.(l_id) operation volume (base +:+ "#" +:+ flexvol) arguments) answer] /\ r = answer /\
       d'.(libraries) = d.(libraries) /\
       d'.(vol_host) = <[volume := base +:+ "#" +:+ match answer with inr _ => name | inl _ => flexvol end]> d.(vol_host))).
Proof.
  intros Hsv Hp -> Hs Hs' Hb Hb' Hf Hf' Hne Hlib Hv.
  destruct (svmify_pool_name _ _ _ _ _ Hsv Hp) as [Hname Hproj].
  eexists. split; [exact Hname|]. split.
  { rewrite Hproj. unfold removeprefix. by rewrite (proj2 (startswith_spec _ _)), drop_str_app by eauto. }
  intros Hhost. unfold every_run, with_library, _volume_to_library. wp_pure. wp_pure. rewrite Hhost.
  wp_pure. wp_pure. rewrite (volume_library_pool base _ flexvol _ lib) by done. wp_simp. unfold modify. repeat wp_pure.
  apply wp_call. intros answer tr ->. destruct answer as [e|ret]; wp_simp; repeat wp_pure.
  - exists (inl e). done.
  - exists (inr ret). split_and!; [done..|]. cbn. by rewrite insert_insert_eq.
Qed.
End pools.
Definition sample_extract (host : string) : option string := snd <$> split_once "#" host.
Definition sample_lib : library := MkLib 1 "backend_os-p1" (Some "os-p1") "linux" "linux".
Definition sample_driver : driver := MkDriver [("os-p1", sample_lib)] [] false true {[ "v1" := "pod@backend#os-p1+vol_1" ]}.
Lemma volume_reaches_its_svm_witness :
  exists name, dict_get "pool_name" [("pool_name", JStr "os-p1+vol_1"); ("netapp_vserver", JStr "os-p1");
      ("netapp_project_id", JStr "p1"); ("netapp_volume_type_id", JStr ""); ("filter_function", JNull)] = Some (JStr name) /\
    dict_get "netapp_project_id" [("pool_name", JStr "os-p1+vol_1"); ("netapp_vserver", JStr "os-p1");
      ("netapp_project_id", JStr "p1"); ("netapp_volume_type_id", JStr ""); ("filter_function", JNull)] = Some (JStr "p1") /\
    (sample_driver.(vol_host) !! "v1" = Some ("pod@backend" +:+ "#" +:+ name) ->
     every_run (with_library sample_extract "create_volume" "v1" []) sample_driver (fun r d' tr => exists answer,
       tr = [Ev (LibOp 1 "create_volume" "v1" ("pod@backend" +:+ "#" +:+ "vol_1") []) answer] /\ r = answer /\
       d'.(libraries) = sample_driver.(libraries) /\
       d'.(vol_host) = <["v1" := "pod@backend" +:+ "#" +:+ match answer with inr _ => name | inl _ => "vol_1" end]> sample_driver.(vol_host))).
Proof.
  apply (volume_reaches_its_svm "os-" sample_extract (fun _ => None)
    (fun base pool Hb _ => f_equal (fmap snd) (split_once_app "#" base pool Hb)) [("pool_name", JStr "vol_1")] "os-p1" JNull
    _ "vol_1" "pod@backend" "p1" sample_lib); reflexivity || done.
Defined.

(** ** The discovery of SVMs *)

Lemma dict_get_del {V} k k' (d : dict V) : dict_get k' (dict_del k d) = if decide (k = k') then None else dict_get k' d.
Proof.
  unfold dict_del. induction d as [|[k0 v] d IH]; [by case_decide|]. rewrite filter_cons. cbn [fst].
  destruct (decide (k0 <> k)) as [Hne|Heq]; cbn [dict_get].
  - rewrite IH. repeat case_decide; congruence.
  - apply dec_stable in Heq as ->. rewrite IH. repeat case_decide; congruence.
Qed.

Section discovery.
Context (config_group : string) (driver_options : list string) (prefix : string).
Context (DEFAULT_NAMESPACE_OS DEFAULT_HOST_TYPE : string).
Context (iter : gset string -> list string).
(** A set is visited element by element. *)
Hypothesis iter_elem : forall X x, x ∈ iter X <-> x ∈ X.
Hypothesis iter_NoDup : forall X, NoDup (iter X).

Definition svm_query : dict string :=
  [("state", "running"); ("nvme.enabled", "true"); ("name", prefix +:+ "*"); ("fields", "name,uuid")].
Definition svm_names (ret : json) : res (list string) :=
  records ← jitem "records" ret; records ← jiter records;
  res_map (fun r => n ← jitem "name" r; match n with JStr s => Ok s | _ => Err (TypeError ["name"]) end) records.
(** The cluster listed these SVMs. *)
Definition listed (svms : list string) (tr : list (event cinderE)) : Prop :=
  exists ret, Ev (GetRecords svm_query) (inr ret) ∈ tr /\ svm_names ret = inr svms.
(** The library was made for the SVM and passed its check, or was stopped. *)
Definition set_up (svm : string) (lib : library) (tr : list (event cinderE)) : Prop :=
  Ev (NewLibrary (child_group config_group svm)) (inr lib.(l_id)) ∈ tr /\
  Ev (NewRestClient (Some (child_group config_group svm))) (inr lib.(l_vserver)) ∈ tr /\
  Ev (LibCheck lib.(l_id)) (inr tt) ∈ tr.
Definition given_up (svm : string) (tr : list (event cinderE)) : Prop :=
  exists id, Ev (NewLibrary (child_group config_group svm)) (inr id) ∈ tr /\ Ev (StopTasks id) (inr tt) ∈ tr.

(** A step that leaves the driver alone. *)
Definition quiet {A} (Q : res A -> list (event cinderE) -> Prop) (d : driver) (tr : list (event cinderE))
    (r : res A) (d' : driver) (tr' : list (event cinderE)) : Prop :=
  d' = d /\ tr `prefix_of` tr' /\ Q r tr'.
Ltac calls_quietly :=
  repeat (wp_pure; apply wp_call; intros [?|?] ? ->; wp_simp;
          [split_and!; [done|rewrite <- ?app_assoc; by apply prefix_app_r|done]|]).

Lemma wp_create_svm_lib svm d tr :
  wp step_trace (_create_svm_lib config_group driver_options svm) (quiet (fun r tr' =>
    forall lib, r = inr lib -> lib.(backend_name) = child_group config_group svm /\
      Ev (NewLibrary (child_group config_group svm)) (inr lib.(l_id)) ∈ tr') d tr) d tr.
Proof.
  unfold _create_svm_lib. cbn zeta. calls_quietly. wp_pure.
  apply (wp_for_each _ _ _ (fun d' tr' => d' = d /\ tr `prefix_of` tr')).
  - split; [done|by apply prefix_app_r].
  - intros name d' tr' _ [-> [k ->]]. repeat wp_pure. apply wp_call. intros [e|v] tr' ->; wp_simp.
    + case_decide; wp_pure; [split|split_and!]; try done; rewrite <- app_assoc; by apply prefix_app_r.
    + apply wp_call. intros [e|[]] tr' ->; wp_simp; [case_decide; wp_pure; [split|split_and!]|split]; try done;
        rewrite <- !app_assoc; by apply prefix_app_r.
  - intros d' tr' [-> [k ->]]. calls_quietly. wp_pure. split_and!; [done|rewrite <- !app_assoc; by apply prefix_app_r|].
    intros lib [= <-]. split; [done|]. apply elem_of_app. right. by left.
Qed.
Lemma wp_lib_do_setup lib d tr :
  wp step_trace (lib_do_setup DEFAULT_NAMESPACE_OS DEFAULT_HOST_TYPE lib) (quiet (fun r tr' =>
    forall lib', r = inr lib' -> lib'.(l_id) = lib.(l_id) /\
      Ev (NewRestClient (Some lib.(backend_name))) (inr lib'.(l_vserver)) ∈ tr') d tr) d tr.
Proof.
  unfold lib_do_setup. cbn zeta. calls_quietly. wp_pure. split_and!; [done|rewrite <- !app_assoc; by apply prefix_app_r|].
  intros lib' [= <-]. split; [done|]. rewrite !elem_of_app. do 4 left. right. by left.
Qed.

Lemma prefix_mono {A} (l l' : list A) x : l `prefix_of` l' -> x ∈ l -> x ∈ l'.
Proof. intros [k ->] Hx. apply elem_of_app. by left. Qed.

(** What a refresh has done so far: libraries are dropped only when their SVM is not
    listed, and added only when it is. *)
Definition refreshing (svms : list string) (d d' : driver) (tr : list (event cinderE)) : Prop :=
  d'.(vol_host) = d.(vol_host) /\ listed svms tr /\ NoDup d'.(libraries).*1 /\
  (forall svm lib, dict_get svm d'.(libraries) = Some lib ->
     dict_get svm d.(libraries) = Some lib \/ (dict_get svm d.(libraries) = None /\ svm ∈ svms /\ set_up svm lib tr)) /\
  (forall svm lib, dict_get svm d.(libraries) = Some lib ->
     dict_get svm d'.(libraries) = Some lib \/
     (dict_get svm d'.(libraries) = None /\ svm ∉ svms /\ Ev (StopTasks lib.(l_id)) (inr tt) ∈ tr)).
Lemma set_up_mono svm lib tr tr' : tr `prefix_of` tr' -> set_up svm lib tr -> set_up svm lib tr'.
Proof. intros Hp (? & ? & ?). split_and!; by eapply prefix_mono. Qed.
Lemma refreshing_mono svms d d' tr tr' : tr `prefix_of` tr' -> refreshing svms d d' tr -> refreshing svms d d' tr'.
Proof.
  intros Hp (Hv & (ret & Hret & ?) & Hnd & Hnew & Hold). split_and!; [done| |done| |].
  - exists ret. split; [by eapply prefix_mono|done].
  - intros svm lib Hlib. destruct (Hnew svm lib Hlib) as [?|(? & ? & ?)]; [by left|right]. split_and!; [done..|by eapply set_up_mono].
  - intros svm lib Hlib. destruct (Hold svm lib Hlib) as [?|(? & ? & ?)]; [by left|right]. split_and!; [done..|by eapply prefix_mono].
Qed.

Lemma dict_del_NoDup {V} k (d : dict V) : NoDup d.*1 -> NoDup (dict_del k d).*1.
Proof.
  unfold dict_del. induction d as [|[k' v] d IH]; [done|]. rewrite filter_cons, fmap_cons. intros [Hk Hnd]%NoDup_cons.
  case_decide; [|by apply IH]. rewrite fmap_cons. apply NoDup_cons. split; [|by apply IH].
  intros ([k2 v2] & Heq & [_ Hin]%list_elem_of_filter)%list_elem_of_fmap. apply Hk. apply list_elem_of_fmap. by exists (k2, v2).
Qed.

Lemma wp_drop_library svms d d1 tr svm :
  svm ∉ svms -> refreshing svms d d1 tr -> is_Some (dict_get svm d.(libraries)) -> is_Some (dict_get svm d1.(libraries)) ->
  wp step_trace (drop_library svm) (fun r d' tr' => refreshing svms d d' tr' /\ tr `prefix_of` tr' /\
    (forall x, x <> svm -> dict_get x d'.(libraries) = dict_get x d1.(libraries)) /\
    (r = inr tt -> dict_get svm d'.(libraries) = None)) d1 tr.
Proof.
  intros Hsvm Href [lib Hlib] [lib1 Hlib1]. unfold drop_library, _remove_svm_lib, modify. wp_pure. wp_pure. rewrite Hlib1.
  assert (lib1 = lib) as -> by (destruct Href as (_ & _ & _ & _ & Hold); destruct (Hold _ _ Hlib); naive_solver).
  wp_pure. apply wp_call. intros [e|[]] tr' ->; wp_simp.
  { split_and!; [|by apply prefix_app_r|done|done]. eapply refreshing_mono; [|exact Href]. by apply prefix_app_r. }
  repeat wp_pure. split_and!; [|by apply prefix_app_r| |].
  2: { intros x Hx. cbn. rewrite dict_get_del. by rewrite decide_False. }
  2: { intros _. cbn. by rewrite dict_get_del, decide_True. }
  eapply (refreshing_mono _ _ _ tr (tr ++ [Ev (StopTasks (l_id lib)) (inr tt)])) in Href; [|by apply prefix_app_r].
  destruct Href as (Hv & Hl & Hnd & Hnew & Hold). split_and!; [done|done|by apply dict_del_NoDup| |].
  - intros x l. cbn. rewrite dict_get_del. case_decide; [done|]. apply Hnew.
  - intros x l Hx. cbn. rewrite dict_get_del. case_decide as Heq; [|by apply Hold]. subst x. right.
    split_and!; [done|done|]. assert (l = lib) as -> by congruence. apply elem_of_app. right. by left.
Qed.

Lemma wp_add_library svms d d1 tr svm :
  svm ∈ svms -> refreshing svms d d1 tr -> dict_get svm d.(libraries) = None -> dict_get svm d1.(libraries) = None ->
  wp step_trace (add_library config_group driver_options DEFAULT_NAMESPACE_OS DEFAULT_HOST_TYPE svm) (fun r d' tr' =>
    refreshing svms d d' tr' /\ tr `prefix_of` tr' /\
    (forall x, x <> svm -> dict_get x d'.(libraries) = dict_get x d1.(libraries)) /\
    (r = inr tt -> is_Some (dict_get svm d'.(libraries)) \/ given_up svm tr')) d1 tr.
Proof.
  intros Hsvm Href Hnone Hnone1. unfold add_library. wp_pure. eapply wp_mono; [|apply wp_create_svm_lib].
  intros [e|lib] d2 tr2 (-> & Hp2 & Hlib); [split_and!; [by eapply refreshing_mono|done..]|]. cbn beta iota.
  destruct (Hlib lib eq_refl) as [Hgrp Hnew]. clear Hlib.
  assert (forall tr3, tr2 `prefix_of` tr3 -> wp step_trace (_remove_svm_lib lib) (fun r d' tr' =>
    refreshing svms d d' tr' /\ tr `prefix_of` tr' /\ (forall x, x <> svm -> dict_get x d'.(libraries) = dict_get x d1.(libraries)) /\
    (r = inr tt -> is_Some (dict_get svm d'.(libraries)) \/ given_up svm tr')) d1 tr3) as Hstop.
  { intros tr3 Hp3. unfold _remove_svm_lib. apply wp_call. intros r tr4 Htr4. unfold step_trace in Htr4. subst tr4.
    assert (tr `prefix_of` tr3 ++ [Ev (StopTasks (l_id lib)) r]) as Hp4 by (etrans; [exact Hp2|]; etrans; [exact Hp3|by apply prefix_app_r]).
    split_and!; [by eapply refreshing_mono|done|done|]. intros ->. right. exists lib.(l_id).
    split; [apply elem_of_app; left; by eapply prefix_mono|apply elem_of_app; right; by left]. }
  repeat wp_pure. eapply wp_mono; [|apply wp_lib_do_setup]. intros [e|lib'] d3 tr3 (-> & Hp3 & Hset); [exact (Hstop tr3 Hp3)|]. cbn beta iota.
  destruct (Hset lib' eq_refl) as [Hid Hrest]. clear Hset. wp_pure. apply wp_call. intros [e|[]] tr4 ->; wp_simp.
  { apply Hstop. etrans; [exact Hp3|by apply prefix_app_r]. }
  unfold modify. repeat wp_pure.
  assert (tr `prefix_of` tr3 ++ [Ev (LibCheck (l_id lib')) (inr tt)]) as Hp4 by (etrans; [exact Hp2|]; etrans; [exact Hp3|by apply prefix_app_r]).
  apply (refreshing_mono _ _ _ _ _ Hp4) in Href as (Hv & Hl & Hnd & Hnewl & Hold).
  split; [split; [done|split; [done|split; [by apply dict_set_NoDup|split]]]|split; [done|split]]; cbn.
  - intros x l. rewrite dict_get_set. case_decide; [|by apply Hnewl]. intros [= <-]. subst x. right. split_and!; [done|done|].
    split; [apply elem_of_app; left; rewrite Hid; exact (prefix_mono _ _ _ Hp3 Hnew)|].
    split; [apply elem_of_app; left; by rewrite <- Hgrp|]. apply elem_of_app. right. by left.
  - intros x l Hx. rewrite dict_get_set. case_decide; [congruence|]. by apply Hold.
  - intros x Hx. rewrite dict_get_set. by rewrite decide_False by congruence.
  - intros _. left. rewrite dict_get_set, decide_True by done. eauto.
Qed.

Lemma wp_get_svms d tr :
  wp step_trace (_get_svms prefix) (fun r d' tr' => d'.(libraries) = d.(libraries) /\ d'.(vol_host) = d.(vol_host) /\
    forall svms, r = inr svms -> listed svms tr') d tr.
Proof.
  unfold _get_svms, cluster. wp_pure. eapply wp_mono with (Q := fun _ d' tr' => d'.(libraries) = d.(libraries) /\ d'.(vol_host) = d.(vol_host)).
  2: { repeat wp_pure. destruct (cluster_made d); [by wp_pure|]. wp_pure. apply wp_call. intros [e|c] tr' ->; wp_simp; [done|].
       unfold modify. by repeat wp_pure. }
  intros [e|[]] d1 tr1 [Hd Hv]; [done|]. cbn beta iota. wp_pure. apply wp_call. intros [e|ret] tr2 ->; wp_simp; [done|].
  repeat wp_pure. destruct (jitem "records" ret) as [|recs] eqn:Hrecs; [done|]. wp_simp. repeat wp_pure.
  destruct (jiter recs) as [|l] eqn:Hl; [done|]. wp_simp. wp_pure. split_and!; [done|done|]. intros svms Hsvms.
  exists ret. split; [apply elem_of_app; right; by left|]. unfold svm_names. rewrite Hrecs. cbn. by rewrite Hl.
Qed.

Lemma later_not_seen X seen (x : string) later : iter X = seen ++ x :: later -> x ∈ X /\ x ∉ seen.
Proof.
  intros Heq. split; [apply iter_elem; rewrite Heq; apply elem_of_app; right; by left|]. pose proof (iter_NoDup X) as Hn. rewrite Heq in Hn.
  apply NoDup_app in Hn as (_ & Hdis & _). intros Hs. apply (Hdis x Hs). left.
Qed.

Abbreviation existing d := (list_to_set d.(libraries).*1 : gset string).
Lemma elem_of_existing d x : x ∈ existing d <-> is_Some (dict_get x d.(libraries)).
Proof. by rewrite elem_of_list_to_set, dict_get_keys. Qed.

(** All libraries whose SVM is not listed are dropped, or the refresh raises. *)
Lemma wp_drop_stale svms d d0 tr0 :
  refreshing svms d d0 tr0 -> d0.(libraries) = d.(libraries) ->
  wp step_trace (for_each (iter (existing d ∖ list_to_set svms)) drop_library) (fun r d1 tr1 => refreshing svms d d1 tr1 /\
    (r = inr tt -> (forall x, is_Some (dict_get x d1.(libraries)) -> x ∈ svms) /\
       forall x, x ∈ svms -> dict_get x d1.(libraries) = dict_get x d.(libraries))) d0 tr0.
Proof.
  intros H0 Hd0. eapply (wp_for_each_seen _ _ _ (fun seen d' tr' => refreshing svms d d' tr' /\
    (forall x, x ∈ seen -> dict_get x d'.(libraries) = None) /\ forall x, x ∉ seen -> dict_get x d'.(libraries) = dict_get x d.(libraries))).
  { split; [done|]. rewrite Hd0. split; [intros x Hx; by apply elem_of_nil in Hx|done]. }
  - intros seen svm later d1 tr1 [Hin Hns]%later_not_seen (H1 & Hgone & Hrest).
    apply elem_of_difference in Hin as [Hin Hni]. rewrite elem_of_existing in Hin. rewrite elem_of_list_to_set in Hni.
    eapply wp_mono; [|apply (wp_drop_library svms d d1 tr1 svm Hni H1 Hin); by rewrite Hrest].
    intros [e|[]] d2 tr2 (H2 & Hp2 & Hother & Hsvm); [done|]. cbn beta iota. specialize (Hsvm eq_refl). split; [done|]. split.
    + intros x [Hx| ->%list_elem_of_singleton]%elem_of_app; [|done]. rewrite Hother; [by apply Hgone|]. by intros ->.
    + intros x [Hx Hx']%not_elem_of_app. rewrite Hother; [by apply Hrest|]. intros ->. apply Hx'. by left.
  - intros d1 tr1 (H1 & Hgone & Hrest). split; [done|]. intros _. split.
    + intros x [lib Hx]. destruct (decide (x ∈ svms)) as [|Hni]; [done|]. rewrite Hgone in Hx; [done|]. apply iter_elem.
      apply elem_of_difference. rewrite elem_of_existing, elem_of_list_to_set. split; [|done].
      destruct H1 as (_ & _ & _ & Hnew & _). destruct (Hnew _ _ Hx) as [->|(_ & ? & _)]; [eauto|done].
    + intros x Hx. apply Hrest. intros [_ Hn]%iter_elem%elem_of_difference. by apply Hn, elem_of_list_to_set.
Qed.

(** Every listed SVM without a library gets one, or is given up. *)
Lemma wp_add_new svms d d1 tr1 :
  refreshing svms d d1 tr1 -> (forall x, x ∈ svms -> dict_get x d1.(libraries) = dict_get x d.(libraries)) ->
  wp step_trace (for_each (iter (list_to_set svms ∖ existing d))
      (add_library config_group driver_options DEFAULT_NAMESPACE_OS DEFAULT_HOST_TYPE)) (fun r d2 tr2 => refreshing svms d d2 tr2 /\
    (r = inr tt -> forall x, (x ∈ svms -> is_Some (dict_get x d2.(libraries)) \/ given_up x tr2) /\
       (x ∉ svms -> dict_get x d2.(libraries) = dict_get x d1.(libraries)))) d1 tr1.
Proof.
  intros H1 Hsame. eapply (wp_for_each_seen _ _ _ (fun seen d' tr' => refreshing svms d d' tr' /\
    (forall x, x ∈ seen -> is_Some (dict_get x d'.(libraries)) \/ given_up x tr') /\
    (forall x, x ∉ seen -> dict_get x d'.(libraries) = dict_get x d1.(libraries)))).
  - split; [done|]. split; [intros x Hx; by apply elem_of_nil in Hx|done].
  - intros seen svm later d2 tr2 [Hin Hns]%later_not_seen (H2 & Hdone & Hother).
    apply elem_of_difference in Hin as [Hin Hni]. rewrite elem_of_existing in Hni. rewrite elem_of_list_to_set in Hin.
    apply eq_None_not_Some in Hni. eapply wp_mono; [|apply (wp_add_library svms d d2 tr2 svm Hin H2 Hni); by rewrite Hother, Hsame].
    intros [e|[]] d3 tr3 (H3 & Hp3 & Hoth3 & Hres); [done|]. cbn beta iota. split; [done|]. split.
    + intros x [Hx| ->%list_elem_of_singleton]%elem_of_app; [|by apply Hres].
      destruct (Hdone x Hx) as [Hs|(id & ? & ?)]; [left; rewrite Hoth3; [done|by intros ->]|].
      right. exists id. split; by eapply prefix_mono.
    + intros x [Hx Hx']%not_elem_of_app. rewrite Hoth3; [by apply Hother|]. intros ->. apply Hx'. by left.
  - intros d2 tr2 (H2 & Hdone & Hother). split; [done|]. intros _ x.
    destruct (decide (x ∈ iter (list_to_set svms ∖ existing d))) as [Hi|Hi].
    + split; [intros _; by apply Hdone|]. intros Hn. apply iter_elem, elem_of_difference in Hi as [Hi _].
      by rewrite elem_of_list_to_set in Hi.
    + rewrite Hother by done. split; [|done]. intros Hs. left. rewrite Hsame by done. apply elem_of_existing.
      destruct (decide (x ∈ existing d)); [done|]. destruct Hi. apply iter_elem, elem_of_difference. by rewrite elem_of_list_to_set.
Qed.

(** C20. A refresh of the SVMs, whatever fails on the way: a library is dropped only
    when the cluster listed its SVMs without that one, after its tasks were
    stopped; the libraries of listed SVMs are kept as they are; a library is added
    only for a listed SVM, with a configuration and a client of its own and after
    its check passed.  A refresh that returns leaves libraries exactly for listed
    SVMs, and a listed SVM has no library only when the new one was stopped. *)
Theorem refresh_svm_libraries d :
  NoDup d.(libraries).*1 ->
  every_run (_actual_refresh_svm_libraries config_group driver_options prefix DEFAULT_NAMESPACE_OS DEFAULT_HOST_TYPE iter) d
    (fun r d' tr =>
      (d'.(libraries) = d.(libraries) /\ d'.(vol_host) = d.(vol_host) /\ exists e, r = inl e) \/
      exists svms, refreshing svms d d' tr /\
        (r = inr tt -> forall svm, (is_Some (dict_get svm d'.(libraries)) -> svm ∈ svms) /\
           (svm ∈ svms -> is_Some (dict_get svm d'.(libraries)) \/ given_up svm tr))).
Proof.
  intros Hnd. unfold every_run, _actual_refresh_svm_libraries. wp_pure. wp_pure. wp_pure.
  eapply wp_mono; [|apply wp_get_svms]. intros [e|svms] d0 tr0 (Hd0 & Hv0 & Hlist); [left; eauto|]. cbn beta iota zeta.
  assert (refreshing svms d d0 tr0) as H0.
  { unfold refreshing. rewrite Hd0. split_and!; [done|by apply Hlist|done|by left|by left]. }
  wp_pure. eapply wp_mono; [|by apply (wp_drop_stale svms d)]. intros [e|[]] d1 tr1 [H1 Hd1]; [right; exists svms; done|].
  destruct (Hd1 eq_refl) as [Hsub Hsame]. eapply wp_mono; [|by apply (wp_add_new svms d)].
  intros r d2 tr2 [H2 Hd2]. right. exists svms. split; [done|]. intros -> svm. destruct (Hd2 eq_refl svm) as [Hin Hout].
  split; [|done]. intros Hs. destruct (decide (svm ∈ svms)); [done|]. apply Hsub. by rewrite <- Hout.
Qed.
End discovery.

Lemma refresh_svm_libraries_witness :
  every_run (_actual_refresh_svm_libraries "backend" [] "os-" "linux" "linux" elements) sample_driver
    (fun r d' tr =>
      (d'.(libraries) = sample_driver.(libraries) /\ d'.(vol_host) = sample_driver.(vol_host) /\ exists e, r = inl e) \/
      exists svms, refreshing "backend" "os-" svms sample_driver d' tr /\
        (r = inr tt -> forall svm, (is_Some (dict_get svm d'.(libraries)) -> svm ∈ svms) /\
           (svm ∈ svms -> is_Some (dict_get svm d'.(libraries)) \/ given_up "backend" svm tr))).
Proof.
  apply (refresh_svm_libraries "backend" [] "os-" "linux" "linux" elements (fun X x => elem_of_elements X x) (fun X => NoDup_elements X)).
  apply (bool_decide_unpack _). vm_compute. exact I.
Defined.
