(* ===== verification/NovaNetwork.v ===== *)
(** * Storage networks of a Nova instance

    Models [src/python/nova-understack/ironic_understack/nautobot_client.py] and the
    options of [conf.py]: the interfaces that Nautobot lists for a node, read from a
    GraphQL response, and the [network_data] made of those in the storage subnet.
    Addresses are Python's [ipaddress] objects, IPv6 included: the integer and the
    prefix length.  [AddressValueError] and [NetmaskValueError] are [ValueError]s for
    every handler here and are written so. *)
From S2P Require Import Prelude PyStr PyData NetappValues.
Local Open Scope Z_scope.

(** ** Options *)

(* nova-understack/ironic_understack/conf.py:6-52 setup_conf *)
Record options := Options {
  nautobot_base_url : string; nautobot_api_key : string; argo_api_url : string;
  ansible_playbook_filename : string; ip_injection_enabled : bool;
  storage_target_a_prefix : string; storage_target_b_prefix : string;
  storage_client_a_prefix : string; storage_client_b_prefix : string }.
(* nova-understack/ironic_understack/conf.py:6-52 setup_conf *)
Definition default_options : options := {|
  nautobot_base_url := "https://nautobot.nautobot.svc"; nautobot_api_key := "";
  argo_api_url := "https://argo-server.argo.svc:2746";
  ansible_playbook_filename := "storage_on_server_create.yml"; ip_injection_enabled := true;
  storage_target_a_prefix := "100.127.0.0/17"; storage_target_b_prefix := "100.127.128.0/17";
  storage_client_a_prefix := "100.126.0.0/17"; storage_client_b_prefix := "100.126.128.0/17" |}.

(** ** [ipaddress] *)

Definition parse_hextet (s : string) : option Z :=
  if truthy s && (String.length s <=? 4)%nat && str_all (fun c => match hex_digit c with Some _ => true | None => false end) s
  then hex_unsigned s else None.
Fixpoint hextets (acc : Z) (l : list string) : option Z :=
  match l with
  | [] => Some acc
  | s :: l => match parse_hextet s with Some h => hextets (Z.lor (Z.shiftl acc 16) h) l | None => None end
  end.
(** The places of an empty part, the ends excepted. *)
Definition skips (parts : list string) : list nat :=
  filter (fun i => (1 <= i)%nat /\ (i + 1 < length parts)%nat /\ parts !! i = Some "") (seq 0 (length parts)).
(** An address without its scope: at most one [::], which may touch an end and
    stands for at least one part. *)
Definition ipv6_int (text : string) : option Z :=
  let parts := split ":"%char text in
  if (length parts <? 3)%nat then None else
  let parts := match last parts with
    | Some s => if has_char "."%char s then
        match parse_ipv4 s with
        | Some z => Some (removelast parts ++ [hex_fixed 4 (Z.land (Z.shiftr z 16) 65535); hex_fixed 4 (Z.land z 65535)])
        | None => None
        end else Some parts
    | None => Some parts
    end in
  match parts with
  | None => None
  | Some parts =>
      let n := length parts in
      let head := bool_decide (head parts = Some "") in
      let tail := bool_decide (last parts = Some "") in
      if (9 <? n)%nat then None else
      match skips parts with
      | [] => if (n =? 8)%nat && negb head && negb tail then hextets 0 parts else None
      | [i] =>
          let hi := if head then (i - 1)%nat else i in
          let lo := if tail then (n - i - 2)%nat else (n - i - 1)%nat in
          if (head && (0 <? hi)%nat) || (tail && (0 <? lo)%nat) || (8 <=? hi + lo)%nat then None
          else match hextets 0 (take hi parts) with
               | Some z => hextets (Z.shiftl z (16 * Z.of_nat (8 - (hi + lo)))) (drop (n - lo) parts)
               | None => None
               end
      | _ => None
      end
  end.
(** [int(IPv6Address(text))]; a scope, when there is a [%], is one non-empty word. *)
Definition parse_ipv6 (text : string) : option Z :=
  match split_once "%"%char text with
  | None => ipv6_int text
  | Some (addr, scope) => if truthy scope && negb (has_char "%"%char scope) then ipv6_int addr else None
  end.

(** [IPv4Interface] and [IPv6Interface]: the address and the prefix length. *)
Inductive ip_iface := IPv4Interface (ip prefix : Z) | IPv6Interface (ip prefix : Z).
#[export] Instance ip_iface_eq_dec : EqDecision ip_iface.
Proof. solve_decision. Defined.

Definition parse_prefix6 (s : string) : option Z :=
  if truthy s && str_all is_digit s then
    match digits s with Some n => if n <=? 128 then Some n else None | None => None end
  else None.
Definition text_iface (text : string) : option ip_iface :=
  let build {A} (parse : string -> option Z) (mk : Z -> Z -> A) (a : string) (p : option Z) :=
    match parse a, p with Some z, Some p => Some (mk z p) | _, _ => None end in
  match split "/"%char text with
  | [a] => match build parse_ipv4 IPv4Interface a (Some 32) with
           | Some i => Some i
           | None => build parse_ipv6 IPv6Interface a (Some 128)
           end
  | [a; p] => match build parse_ipv4 IPv4Interface a (parse_prefix p) with
              | Some i => Some i
              | None => build parse_ipv6 IPv6Interface a (parse_prefix6 p)
              end
  | _ => None
  end.
(** [ipaddress.ip_interface(address)]: a number is the address itself; the text of
    any other value is no address. *)
Definition ip_interface (address : json) : res ip_iface :=
  let number z := if (0 <=? z) && (z <? 2 ^ 32) then Some (IPv4Interface z 32)
                  else if (0 <=? z) && (z <? 2 ^ 128) then Some (IPv6Interface z 128) else None in
  match (match address with
         | JStr text => text_iface text
         | JNum z => number z
         | JBool b => number (if b then 1 else 0)
         | _ => None
         end) with
  | Some i => Ok i
  | None => Err (ValueError ["does not appear to be an IPv4 or IPv6 interface"])
  end.
(** [IPv4Network(text)], with no host bits set. *)
Definition IPv4Network (text : string) : res network :=
  match parse_network text, parse_ipv4 (List.hd "" (split "/"%char text)) with
  | Some n, Some z => if z =? n.(net_addr) then Ok n else Err (ValueError [text; "has host bits set"])
  | _, _ => Err (ValueError [text])
  end.
(** The first and the last address of a network. *)
Definition broadcast (width addr prefix : Z) : Z := addr + 2 ^ (width - prefix) - 1.
Definition net_of (width ip prefix : Z) : Z := Z.land ip (Z.shiftl (Z.ones prefix) (width - prefix)).
(** [ipaddress.ip_network(text)] of an IPv4 or IPv6 network. *)
Definition ip_network (text : string) : res ip_iface :=
  match text_iface text with
  | Some (IPv4Interface z p) => if z =? net_of 32 z p then Ok (IPv4Interface z p) else Err (ValueError [text; "has host bits set"])
  | Some (IPv6Interface z p) => if z =? net_of 128 z p then Ok (IPv6Interface z p) else Err (ValueError [text; "has host bits set"])
  | None => Err (ValueError [text])
  end.
(** [a.network.subnet_of(b)] for a network [b]. *)
Definition subnet_of (a b : ip_iface) : res bool :=
  let sub w a p b q := (b <=? net_of w a p) && (broadcast w (net_of w a p) p <=? broadcast w b q) in
  match a, b with
  | IPv4Interface a p, IPv4Interface b q => Ok (sub 32 a p b q)
  | IPv6Interface a p, IPv6Interface b q => Ok (sub 128 a p b q)
  | _, _ => Err (TypeError ["are not of the same version"])
  end.

(** ** Addresses *)

(** [IPAddress] holds the interface; the properties asked only of IPv4 addresses
    take an [ipv4]. *)
Record ipv4 := Ipv4 { ip : Z; prefix : Z }.
#[export] Instance ipv4_eq_dec : EqDecision ipv4.
Proof. solve_decision. Defined.
(* nova-understack/ironic_understack/nautobot_client.py:16-24 from_address_string *)
Definition from_address_string (address : json) : res ip_iface := ip_interface address.
(* nova-understack/ironic_understack/nautobot_client.py:68-70 is_ipv4 *)
Definition as_ipv4 (i : ip_iface) : option ipv4 :=
  match i with IPv4Interface ip p => Some (Ipv4 ip p) | IPv6Interface _ _ => None end.
(* nova-understack/ironic_understack/nautobot_client.py:72-78 is_in_subnet *)
Definition is_in_subnet (i : ip_iface) (subnet : string) : res bool :=
  match (target ← ip_network subnet; subnet_of i target) with
  | Err e => if is_ValueError e then Ok false else Err e
  | Ok b => Ok b
  end.
(* nova-understack/ironic_understack/nautobot_client.py:26-29 address *)
Definition address (i : ipv4) : string := ipv4_str i.(ip).
(* nova-understack/ironic_understack/nautobot_client.py:54-57 network *)
Definition ip_net (i : ipv4) : network := Network (Z.land i.(ip) (netmask i.(prefix))) i.(prefix).
(* nova-understack/ironic_understack/nautobot_client.py:59-61 netmask *)
Definition netmask_str (i : ipv4) : string := ipv4_str (netmask i.(prefix)).
(** The address after the last one raises. *)
(* nova-understack/ironic_understack/nautobot_client.py:80-84 calculated_gateway *)
Definition calculated_gateway (i : ipv4) : res string :=
  let first := (ip_net i).(net_addr) + 1 in
  if first <? 2 ^ 32 then Ok (ipv4_str first) else Err (ValueError ["is not permitted as an IPv4 address"]).
(* nova-understack/ironic_understack/nautobot_client.py:31-47 target_network *)
Definition target_network (conf : options) (i : ipv4) : res network :=
  target_a_prefix ← IPv4Network conf.(storage_target_a_prefix);
  target_b_prefix ← IPv4Network conf.(storage_target_b_prefix);
  client_a_prefix ← IPv4Network conf.(storage_client_a_prefix);
  client_b_prefix ← IPv4Network conf.(storage_client_b_prefix);
  if in_network i.(ip) client_a_prefix then Ok target_a_prefix
  else if in_network i.(ip) client_b_prefix then Ok target_b_prefix
  else Err (ValueError ["Cannot determine the target-side network from"; address i]).

(** ** Interfaces and devices *)

(* nova-understack/ironic_understack/nautobot_client.py:94-100 Interface *)
Record interface := Interface { if_id : json; mac_address : json; ip_address_assignments : list ip_iface }.
(* nova-understack/ironic_understack/nautobot_client.py:102-108 get_ipv4_assignments *)
Definition get_ipv4_assignments (f : interface) : list ipv4 := omap as_ipv4 f.(ip_address_assignments).
(* nova-understack/ironic_understack/nautobot_client.py:110-113 get_first_ipv4_assignment *)
Definition get_first_ipv4_assignment (f : interface) : option ipv4 := head (get_ipv4_assignments f).
(** [any(f(x) for x in l)] *)
Fixpoint res_any {A} (f : A -> res bool) (l : list A) : res bool :=
  match l with
  | [] => Ok false
  | x :: l => match f x with Err e => Err e | Ok true => Ok true | Ok false => res_any f l end
  end.
(* nova-understack/ironic_understack/nautobot_client.py:115-120 has_ip_in_subnet *)
Definition has_ip_in_subnet (subnet : string) (f : interface) : res bool :=
  res_any (fun i => is_in_subnet i subnet) f.(ip_address_assignments).
(* nova-understack/ironic_understack/nautobot_client.py:122-128 is_valid_for_config *)
Definition is_valid_for_config (f : interface) : bool :=
  match f.(mac_address) with JNull => false | _ =>
    truthy f.(ip_address_assignments) && match get_first_ipv4_assignment f with Some _ => true | None => false end
  end.
(* nova-understack/ironic_understack/nautobot_client.py:161-166 Device *)
Record device := Device { dev_id : json; interfaces : list interface }.
(* nova-understack/ironic_understack/nautobot_client.py:168-174 get_active_interfaces *)
Definition get_active_interfaces (d : device) : list interface := List.filter is_valid_for_config d.(interfaces).
(** [[x for x in l if f(x)]] *)
Fixpoint res_filter {A} (f : A -> res bool) (l : list A) : res (list A) :=
  match l with
  | [] => Ok []
  | x :: l => match f x with
              | Err e => Err e
              | Ok b => match res_filter f l with Err e => Err e | Ok ys => Ok (if b then x :: ys else ys) end
              end
  end.
Definition storage_subnet : string := "100.126.0.0/16".
(* nova-understack/ironic_understack/nautobot_client.py:176-184 get_storage_interfaces *)
Definition get_storage_interfaces (d : device) : res (list interface) :=
  res_filter (has_ip_in_subnet storage_subnet) (get_active_interfaces d).

(** ** The response *)

(* nova-understack/ironic_understack/nautobot_client.py:207-218 from_graphql_response *)
Definition read_assignment (data : json) : res (option ip_iface) :=
  ip_data ← jget_or "ip_address" (JObj []) data;
  address ← jget_or "address" (JStr "") ip_data;
  if truthy address then
    match from_address_string address with
    | Ok i => Ok (Some i)
    | Err e => if is_ValueError e then Ok None else Err e
    end
  else Ok None.
(* nova-understack/ironic_understack/nautobot_client.py:203-226 from_graphql_response *)
Definition read_interface (data : json) : res interface :=
  l ← jget_or "ip_address_assignments" (JArr []) data;
  l ← jiter l;
  assignments ← res_map read_assignment l;
  id ← jget "id" data;
  mac ← jget "mac_address" data;
  Ok (Interface id mac (omap (fun x => x) assignments)).
(* nova-understack/ironic_understack/nautobot_client.py:193-230 from_graphql_response *)
Definition from_graphql_response (response : json) : res (list device) :=
  data ← jget_or "data" (JObj []) response;
  devices ← jget_or "devices" (JArr []) data;
  devices ← jiter devices;
  res_map (fun d =>
    l ← jget_or "interfaces" (JArr []) d;
    l ← jiter l;
    ifs ← res_map read_interface l;
    id ← jget_or "id" (JStr "") d;
    Ok (Device id ifs)) devices.

(** ** The network configuration *)

(** The calls of the drivers; the clock reads nanoseconds. *)
Inductive novaE : Type -> Type :=
| Post (url token : string) (payload : json) : novaE json
| GetUrl (url token : string) : novaE json
| Uuid4 : novaE string
| ReadFile (path : string) : novaE string
| Time : novaE Z
| Sleep (seconds : Z) : novaE unit
| GetNetworkMetadata : novaE json
| MakeDrive (extra_md files network_metadata : json) : novaE (list Z)
| Gzip (data : list Z) : novaE (list Z).
Abbreviation nova A := (prog unit novaE A).

(* nova-understack/ironic_understack/nautobot_client.py:130-137 as_openstack_link *)
Definition as_openstack_link (f : interface) (if_index : Z) : json :=
  JObj [("id", JStr ("tap-stor-" +:+ pretty if_index)); ("vif_id", f.(if_id)); ("type", JStr "phy");
        ("mtu", JNum 9000); ("ethernet_mac_address", f.(mac_address))].
(* nova-understack/ironic_understack/nautobot_client.py:139-158 as_openstack_network *)
Definition as_openstack_network (conf : options) (f : interface) (if_index : Z) : nova json :=
  match get_first_ipv4_assignment f with
  | None => mret (JObj [])
  | Some ip =>
      target ← lift (target_network conf ip);
      gateway ← lift (calculated_gateway ip);
      network_id ← call Uuid4;
      mret (JObj [("id", JStr ("network-for-if" +:+ pretty if_index)); ("type", JStr "ipv4");
                  ("link", JStr ("tap-stor-" +:+ pretty if_index)); ("ip_address", JStr (address ip));
                  ("netmask", JStr (netmask_str ip));
                  ("routes", JArr [JObj [("network", JStr (ipv4_str target.(net_addr)));
                                         ("netmask", JStr (ipv4_str (netmask target.(net_prefix))));
                                         ("gateway", JStr gateway)]]);
                  ("network_id", JStr network_id)])
  end.
Record network_config := Config { links : list json; networks : list json }.
(** One interface: the configuration so far and the next index. *)
(* nova-understack/ironic_understack/nautobot_client.py:337-350 generate_network_config *)
Definition add_interface (conf : options) (acc : network_config * Z) (f : interface) : nova (network_config * Z) :=
  let '(config, interface_count) := acc in
  match get_first_ipv4_assignment f with
  | None => mret acc
  | Some _ =>
      net ← as_openstack_network conf f interface_count;
      mret (Config (config.(links) ++ [as_openstack_link f interface_count]) (config.(networks) ++ [net]),
            interface_count + 1)
  end.
(* nova-understack/ironic_understack/nautobot_client.py:312-352 generate_network_config *)
Definition generate_network_config (conf : options) (response : list device) (ignore_non_storage : bool) : nova network_config :=
  acc ← fold_each (fun acc d =>
    ifs ← lift (if ignore_non_storage then get_storage_interfaces d else Ok (get_active_interfaces d));
    fold_each (add_interface conf) ifs acc) response (Config [] [], 100);
  mret acc.1.

(** ** The client *)

(* nova-understack/ironic_understack/nautobot_client.py:236-245 __init__ *)
Record nautobot_client := NautobotClient { nb_url : string; nb_key : string }.
Definition make_nautobot (base_url api_key : string) : nautobot_client :=
  NautobotClient (rstrip_by (Ascii.eqb "/"%char) base_url) api_key.
(** The test of the response; [in] looks into lists and texts too. *)
(* nova-understack/ironic_understack/nautobot_client.py:275-278 _make_graphql_request *)
Definition check_errors (data : json) : res json :=
  match data with
  | JObj d => match dict_get "errors" d with
              | Some _ => Err (ValueError ["GraphQL errors"])
              | None => Ok data
              end
  | JArr l => if existsb (fun x => match x with JStr "errors" => true | _ => false end) l
              then Err (TypeError ["list indices must be integers"]) else Ok data
  | JStr s => if contains "errors" s then Err (TypeError ["string indices must be integers"]) else Ok data
  | _ => Err (TypeError ["argument is not iterable"])
  end.
(* nova-understack/ironic_understack/nautobot_client.py:247-278 _make_graphql_request *)
Definition _make_graphql_request (c : nautobot_client) (query : string) (variables : dict json) : nova json :=
  data ← call (Post (c.(nb_url) +:+ "/api/graphql/") ("Token " +:+ c.(nb_key))
                 (JObj [("query", JStr query); ("variables", JObj variables)]));
  lift (check_errors data).
Definition quote : string := String (ascii_of_nat 34) "".
Definition device_query : string :=
  "query ($device_id: String) { devices(id: [$device_id]) { id interfaces(status: " +:+ quote +:+ "Active" +:+ quote +:+
  ") { id mac_address ip_address_assignments { ip_address { address ip_version } } } } }".
(* nova-understack/ironic_understack/nautobot_client.py:280-310 get_device_interfaces *)
Definition get_device_interfaces (c : nautobot_client) (device_id : string) : nova (list device) :=
  response ← _make_graphql_request c device_query [("device_id", JStr device_id)];
  lift (from_graphql_response response).
(* nova-understack/ironic_understack/nautobot_client.py:354-356 storage_network_config_for_node *)
Definition storage_network_config_for_node (conf : options) (c : nautobot_client) (node_id : string) : nova network_config :=
  response ← get_device_interfaces c node_id;
  generate_network_config conf response true.

(** ** Properties *)

(** *** The storage subnet *)

(** What the readers of a response yield. *)
Definition wf_iface (i : ip_iface) : Prop :=
  match i with IPv4Interface z p => 0 <= z < 2 ^ 32 /\ 0 <= p <= 32 | IPv6Interface _ _ => True end.
Definition wf_interface (f : interface) : Prop := Forall wf_iface f.(ip_address_assignments).

Lemma ip_interface_wf a i : ip_interface a = inr i -> wf_iface i.
Proof.
  assert (forall s z, parse_ipv4 s = Some z -> 0 <= z < 2 ^ 32) as H4 by (intros s z [? _]%parse_ipv4_iff; done).
  assert (forall text i, text_iface text = Some i -> wf_iface i) as Htext.
  { intros text j. unfold text_iface. destruct (split _ _) as [|s [|p [|]]]; try done.
    - destruct (parse_ipv4 s) as [z|] eqn:Hz; [intros [= <-]; cbn; apply H4 in Hz; lia|].
      destruct (parse_ipv6 s); [by intros [= <-]|done].
    - destruct (parse_ipv4 s) as [z|] eqn:Hz; [destruct (parse_prefix p) as [q|] eqn:Hq|].
      + intros [= <-]. cbn. split; [by eapply H4|by eapply parse_prefix_bounds].
      + destruct (parse_ipv6 s), (parse_prefix6 p); try done. by intros [= <-].
      + destruct (parse_ipv6 s), (parse_prefix6 p); try done. by intros [= <-]. }
  unfold ip_interface. intros Hi.
  destruct a as [|b|z|s|l|d]; try done;
    [| |by destruct (text_iface s) as [j|] eqn:Hj; [injection Hi as <-; eapply Htext|]];
    (destruct ((0 <=? _) && (_ <? 2 ^ 32)) eqn:Hr;
      [injection Hi as <-; apply andb_true_iff in Hr as [?%Z.leb_le ?%Z.ltb_lt]; cbn; lia|]);
    destruct ((0 <=? _) && (_ <? 2 ^ 128)); [by injection Hi as <-|done|by injection Hi as <-|done].
Qed.

(** An address of the storage subnet [100.126.0.0/16], in a network inside it. *)
Definition storage_network : network := Network (100 * 2 ^ 24 + 126 * 2 ^ 16) 16.
Definition storage_ip (i : ip_iface) : bool :=
  match i with IPv4Interface z p => (16 <=? p) && in_network z storage_network | IPv6Interface _ _ => false end.

Lemma is_in_subnet_v4 z p :
  wf_iface (IPv4Interface z p) -> is_in_subnet (IPv4Interface z p) storage_subnet = inr (storage_ip (IPv4Interface z p)).
Proof.
  intros [Hz Hp]. unfold is_in_subnet. change (ip_network storage_subnet) with (inr (IPv4Interface 1685979136 16) : res ip_iface).
  unfold mbind, res_mbind, subnet_of, storage_ip. f_equal. unfold broadcast. change (net_of 32 z p) with (Z.land z (netmask p)).
  unfold in_network, storage_network. cbn [net_addr net_prefix]. rewrite !land_netmask by lia.
  change (2 ^ (32 - 16)) with 65536. change (100 * 2 ^ 24 + 126 * 2 ^ 16) with (25726 * 65536). change 1685979136 with (25726 * 65536).
  set (k := 32 - p). assert (0 < 2 ^ k) as Hpos by (apply Z.pow_pos_nonneg; lia).
  pose proof (Z.div_mod z (2 ^ k) ltac:(lia)) as Hd. pose proof (Z.mod_pos_bound z (2 ^ k) Hpos) as Hm.
  pose proof (Z.div_mod z 65536 ltac:(lia)) as Hd'. pose proof (Z.mod_pos_bound z 65536 ltac:(lia)) as Hm'.
  apply eq_true_iff_eq. rewrite !andb_true_iff, !Z.leb_le, Z.eqb_eq. split.
  - intros [Hlo Hhi]. split; [|nia]. destruct (Z.le_gt_cases 16 p) as [|Hlt]; [done|].
    assert (2 ^ 17 <= 2 ^ k) by (apply Z.pow_le_mono_r; lia). lia.
  - intros [Hp16 Heq]. assert (65536 = 2 ^ k * 2 ^ (16 - k)) as Hsplit by (change 65536 with (2 ^ 16); rewrite <- Z.pow_add_r by lia; f_equal; lia).
    assert (0 < 2 ^ (16 - k)) by (apply Z.pow_pos_nonneg; lia).
    set (a := 2 ^ k) in *. set (m := 2 ^ (16 - k)) in *.
    assert (25726 * m <= z / a) by (apply Z.div_le_lower_bound; nia).
    assert (z / a < 25727 * m) by (apply Z.div_lt_upper_bound; nia). nia.
Qed.

(** An IPv6 address cannot be compared with the subnet. *)
Lemma is_in_subnet_v6 z p : exists e, is_in_subnet (IPv6Interface z p) storage_subnet = inl e /\ e.(exn_cls) = "TypeError".
Proof. eexists. split; reflexivity. Qed.

(** An IPv6 address before any address of the storage subnet. *)
Definition ipv6_first (l : list ip_iface) : Prop :=
  exists before z p after, l = before ++ IPv6Interface z p :: after /\ Forall (fun i => storage_ip i = false) before.

Lemma has_ip_in_subnet_spec f :
  wf_interface f ->
  match has_ip_in_subnet storage_subnet f with
  | inr b => b = existsb storage_ip f.(ip_address_assignments)
  | inl e => e.(exn_cls) = "TypeError" /\ ipv6_first f.(ip_address_assignments)
  end.
Proof.
  unfold wf_interface, has_ip_in_subnet. generalize (ip_address_assignments f) as l. intros l Hl.
  induction Hl as [|[z p|z p] l Hi Hl IH]; [done| |].
  - cbn [res_any existsb]. rewrite is_in_subnet_v4 by done. destruct (storage_ip _) eqn:Hst; [done|]. cbn [orb].
    destruct (res_any _ l) as [e|b]; [|done]. destruct IH as (? & before & z' & p' & after & -> & Hb). split; [done|].
    exists (IPv4Interface z p :: before), z', p', after. split; [done|by constructor].
  - cbn [res_any]. destruct (is_in_subnet_v6 z p) as (e & -> & He). split; [done|]. by exists [], z, p, l.
Qed.

(** The interfaces to configure, in the order of the response. *)
Definition is_storage (f : interface) : bool := is_valid_for_config f && existsb storage_ip f.(ip_address_assignments).
Definition storage_interfaces (devs : list device) : list interface := List.filter is_storage (mjoin (interfaces <$> devs)).

Lemma res_filter_spec {A} (f : A -> res bool) (b : A -> bool) (P : exn -> A -> Prop) l :
  (forall x, x ∈ l -> match f x with inr y => y = b x | inl e => P e x end) ->
  match res_filter f l with inr ys => ys = List.filter b l | inl e => exists x, x ∈ l /\ P e x end.
Proof.
  induction l as [|x l IH]; intros Hf; [done|]. cbn [res_filter List.filter].
  pose proof (Hf x ltac:(left)) as Hx. destruct (f x) as [e|y]; [exists x; split; [left|done]|]. subst y.
  specialize (IH (fun y Hy => Hf y ltac:(by right))). destruct (res_filter f l) as [e|ys].
  - destruct IH as (y & ? & ?). exists y. split; [by right|done].
  - subst ys. by destruct (b x).
Qed.

(** A dual-stack interface that stops the choice. *)
Definition dual_stack (e : exn) (f : interface) : Prop :=
  e.(exn_cls) = "TypeError" /\ is_valid_for_config f = true /\ ipv6_first f.(ip_address_assignments).

Lemma filter_filter {A} (f g : A -> bool) l : List.filter g (List.filter f l) = List.filter (fun x => f x && g x) l.
Proof. induction l as [|x l IH]; cbn; [done|]. destruct (f x); cbn; [destruct (g x)|]; by rewrite IH. Qed.

Lemma get_storage_interfaces_spec d :
  Forall wf_interface d.(interfaces) ->
  match get_storage_interfaces d with
  | inr ifs => ifs = List.filter is_storage d.(interfaces)
  | inl e => exists f, f ∈ d.(interfaces) /\ dual_stack e f
  end.
Proof.
  intros Hd. unfold get_storage_interfaces.
  pose proof (res_filter_spec (has_ip_in_subnet storage_subnet) (fun f => existsb storage_ip f.(ip_address_assignments))
    dual_stack (get_active_interfaces d)) as Hs.
  assert (forall f, f ∈ get_active_interfaces d -> f ∈ interfaces d /\ is_valid_for_config f = true) as Hact.
  { intros f Hf. unfold get_active_interfaces in Hf. apply list_elem_of_In, filter_In in Hf as [Hf ?].
    split; [by apply list_elem_of_In|done]. }
  specialize (Hs ltac:(intros f [Hin Hv]%Hact; pose proof (has_ip_in_subnet_spec f (proj1 (Forall_forall _ _) Hd f Hin)) as Hsp;
    destruct (has_ip_in_subnet _ f); [destruct Hsp; by split_and!|done])).
  destruct (res_filter _ _) as [e|ys].
  - destruct Hs as (f & [? _]%Hact & ?). eauto.
  - rewrite Hs. apply filter_filter.
Qed.

(** *** Addresses of the configuration *)

Lemma netmask_prefix p : 0 <= p <= 32 -> parse_prefix (ipv4_str (netmask p)) = Some p.
Proof.
  intros Hp. assert (forallb (fun p => bool_decide (parse_prefix (ipv4_str (netmask p)) = Some p)) (map Z.of_nat (seq 0 33)) = true)
    as Hall by (vm_compute; reflexivity).
  rewrite forallb_forall in Hall. specialize (Hall p). rewrite bool_decide_eq_true in Hall. apply Hall.
  apply in_map_iff. exists (Z.to_nat p). split; [lia|]. apply in_seq. lia.
Qed.

(** The gateway is the second address of the network, inside it but for a [/32]. *)
Lemma gateway_in_network i gw :
  0 <= i.(ip) < 2 ^ 32 -> 0 <= i.(prefix) <= 32 -> calculated_gateway i = inr gw ->
  exists g, parse_ipv4 gw = Some g /\ g = (ip_net i).(net_addr) + 1 /\ (i.(prefix) <= 31 -> in_network g (ip_net i) = true).
Proof.
  intros Hip Hp. unfold calculated_gateway. destruct (_ <? _) eqn:Hlt; [|done]. intros [= <-]. apply Z.ltb_lt in Hlt.
  assert (0 <= net_addr (ip_net i)) as H0.
  { unfold ip_net. cbn. rewrite land_netmask by lia. apply Z.mul_nonneg_nonneg; [apply Z.div_pos; [lia|]|];
      [apply Z.pow_pos_nonneg; lia|apply Z.pow_nonneg; lia]. }
  exists (net_addr (ip_net i) + 1). split; [apply parse_ipv4_iff; split; [lia|done]|]. split; [done|]. intros Hp31.
  unfold in_network. change (net_prefix (ip_net i)) with (prefix i). rewrite land_netmask by lia.
  unfold ip_net. cbn [net_addr]. rewrite land_netmask by lia. set (k := 32 - prefix i).
  assert (2 <= 2 ^ k) as H2 by (apply (Z.pow_le_mono_r 2 1); lia).
  apply Z.eqb_eq. f_equal. symmetry. apply (Z.div_unique _ _ _ 1); lia.
Qed.

(** What an instance needs of the [k]th storage interface: a link of its own with
    the MAC, an IPv4 network on that link with the first IPv4 address, and a route
    to the target side of the same letter through an address next to it. *)
Record wired (conf : options) (k : nat) (f : interface) (link net : json) : Prop := {
  wired_id : jitem "id" link = inr (JStr ("tap-stor-" +:+ pretty (100 + Z.of_nat k)));
  wired_on : jitem "link" net = jitem "id" link;
  wired_vif : jitem "vif_id" link = inr f.(if_id);
  wired_mac : jitem "ethernet_mac_address" link = inr f.(mac_address);
  wired_ip : exists i a m n t tm gw g client_a client_b target,
    get_first_ipv4_assignment f = Some i /\
    jitem "ip_address" net = inr (JStr a) /\ parse_ipv4 a = Some i.(ip) /\
    jitem "netmask" net = inr (JStr m) /\ parse_prefix m = Some i.(prefix) /\
    jitem "routes" net = inr (JArr [JObj [("network", JStr n); ("netmask", JStr tm); ("gateway", JStr gw)]]) /\
    n = ipv4_str target.(net_addr) /\ tm = ipv4_str (netmask target.(net_prefix)) /\
    IPv4Network conf.(storage_client_a_prefix) = inr client_a /\ IPv4Network conf.(storage_client_b_prefix) = inr client_b /\
    IPv4Network t = inr target /\
    (in_network i.(ip) client_a = true /\ t = conf.(storage_target_a_prefix) \/
     in_network i.(ip) client_a = false /\ in_network i.(ip) client_b = true /\ t = conf.(storage_target_b_prefix)) /\
    parse_ipv4 gw = Some g /\ g = i.(ip) - i.(ip) mod 2 ^ (32 - i.(prefix)) + 1 /\
    (i.(prefix) <= 31 -> in_network g (ip_net i) = true) }.

(** Why one interface cannot be configured: an option that is no network, a first
    address that is on the client network of neither side, or the last address of
    all alone in its network, which leaves none for a gateway. *)
Definition unconfigurable (conf : options) (e : exn) (f : interface) : Prop :=
  e.(exn_cls) = "ValueError" /\ exists i, get_first_ipv4_assignment f = Some i /\
  ((exists text, text ∈ [conf.(storage_target_a_prefix); conf.(storage_target_b_prefix);
                         conf.(storage_client_a_prefix); conf.(storage_client_b_prefix)] /\
      forall n, IPv4Network text <> inr n) \/
   (forall text, text ∈ [conf.(storage_client_a_prefix); conf.(storage_client_b_prefix)] ->
      exists n, IPv4Network text = inr n /\ in_network i.(ip) n = false) \/
   i = Ipv4 (2 ^ 32 - 1) 32).

Lemma IPv4Network_error text e : IPv4Network text = inl e -> e.(exn_cls) = "ValueError" /\ forall n, IPv4Network text <> inr n.
Proof.
  intros He. split; [|intros n; by rewrite He]. revert He. unfold IPv4Network.
  repeat case_match; try done; by intros [= <-].
Qed.
Lemma target_network_fails conf i f e :
  get_first_ipv4_assignment f = Some i -> target_network conf i = inl e -> unconfigurable conf e f.
Proof.
  intros Hf. unfold target_network, mbind, res_mbind.
  assert (forall text, text ∈ [conf.(storage_target_a_prefix); conf.(storage_target_b_prefix);
      conf.(storage_client_a_prefix); conf.(storage_client_b_prefix)] ->
    forall e', IPv4Network text = inl e' -> unconfigurable conf e' f) as Hopt.
  { intros text Ht e' [? ?]%IPv4Network_error. split; [done|]. exists i. split; [done|]. left. by exists text. }
  destruct (IPv4Network (storage_target_a_prefix conf)) as [e'|ta] eqn:Hta; [intros [= <-]; eapply Hopt; [|exact Hta]; set_solver|].
  destruct (IPv4Network (storage_target_b_prefix conf)) as [e'|tb] eqn:Htb; [intros [= <-]; eapply Hopt; [|exact Htb]; set_solver|].
  destruct (IPv4Network (storage_client_a_prefix conf)) as [e'|ca] eqn:Hca; [intros [= <-]; eapply Hopt; [|exact Hca]; set_solver|].
  destruct (IPv4Network (storage_client_b_prefix conf)) as [e'|cb] eqn:Hcb; [intros [= <-]; eapply Hopt; [|exact Hcb]; set_solver|].
  destruct (in_network (ip i) ca) eqn:Ha; [done|]. destruct (in_network (ip i) cb) eqn:Hb; [done|]. intros [= <-].
  split; [done|]. exists i. split; [done|]. right. left.
  intros text [->|[->|[]%elem_of_nil]%elem_of_cons]%elem_of_cons; [by exists ca|by exists cb].
Qed.
Lemma calculated_gateway_fails conf i f e :
  0 <= i.(ip) < 2 ^ 32 -> 0 <= i.(prefix) <= 32 ->
  get_first_ipv4_assignment f = Some i -> calculated_gateway i = inl e -> unconfigurable conf e f.
Proof.
  intros Hip Hp Hf. unfold calculated_gateway. destruct (_ <? _) eqn:Hlt; [done|]. intros [= <-]. apply Z.ltb_ge in Hlt.
  split; [done|]. exists i. split; [done|]. right. right. destruct i as [a p]. cbn in *. rewrite land_netmask in Hlt by lia.
  set (k := 32 - p) in *. assert (0 < 2 ^ k) as Hpos by (apply Z.pow_pos_nonneg; lia).
  pose proof (Z.div_mod a (2 ^ k) ltac:(lia)). pose proof (Z.mod_pos_bound a (2 ^ k) Hpos).
  assert (a = 2 ^ 32 - 1) as -> by lia. f_equal. destruct (Z.eq_dec p 32) as [|Hne]; [done|]. exfalso.
  assert (2 ^ k = 2 * 2 ^ (k - 1)) as Hk by (rewrite <- Z.pow_succ_r by lia; f_equal; lia).
  assert ((2 ^ 32 - 1) / 2 ^ k * 2 ^ k = 2 ^ 32 - 1) as Heq by lia. rewrite Hk in Heq at 2.
  assert (2 ^ 32 = 2 * 2 ^ 31) as H32 by reflexivity. nia.
Qed.

Lemma target_network_inv conf i target :
  target_network conf i = inr target ->
  exists client_a client_b t, IPv4Network conf.(storage_client_a_prefix) = inr client_a /\
    IPv4Network conf.(storage_client_b_prefix) = inr client_b /\ IPv4Network t = inr target /\
    (in_network i.(ip) client_a = true /\ t = conf.(storage_target_a_prefix) \/
     in_network i.(ip) client_a = false /\ in_network i.(ip) client_b = true /\ t = conf.(storage_target_b_prefix)).
Proof.
  unfold target_network, mbind, res_mbind.
  destruct (IPv4Network (storage_target_a_prefix conf)) as [|ta] eqn:Hta; [done|].
  destruct (IPv4Network (storage_target_b_prefix conf)) as [|tb] eqn:Htb; [done|].
  destruct (IPv4Network (storage_client_a_prefix conf)) as [|ca]; [done|].
  destruct (IPv4Network (storage_client_b_prefix conf)) as [|cb]; [done|].
  destruct (in_network (ip i) ca) eqn:Ha; [intros [= <-]; exists ca, cb, (storage_target_a_prefix conf); by eauto 6|].
  destruct (in_network (ip i) cb) eqn:Hb; [|done]. intros [= <-]. exists ca, cb, (storage_target_b_prefix conf). by eauto 8.
Qed.

Lemma first_ipv4_wf f i : wf_interface f -> get_first_ipv4_assignment f = Some i -> 0 <= i.(ip) < 2 ^ 32 /\ 0 <= i.(prefix) <= 32.
Proof.
  unfold wf_interface, get_first_ipv4_assignment, get_ipv4_assignments. intros Hf Hi. apply head_Some_elem_of in Hi.
  apply list_elem_of_omap in Hi as ([z p|z p] & Hin & Heq); [|done]. cbn in Heq. injection Heq as <-.
  by apply (proj1 (Forall_forall _ _) Hf (IPv4Interface z p) Hin).
Qed.

Lemma wp_as_openstack_network conf f k tr :
  wf_interface f -> is_Some (get_first_ipv4_assignment f) ->
  wp step_trace (as_openstack_network conf f (100 + Z.of_nat k)) (fun r _ tr' =>
    match r with
    | inr net => wired conf k f (as_openstack_link f (100 + Z.of_nat k)) net
    | inl e => unconfigurable conf e f \/ Ev Uuid4 (inl e) ∈ tr'
    end) tt tr.
Proof.
  intros Hf [i Hi]. unfold as_openstack_network. rewrite Hi. destruct (first_ipv4_wf f i Hf Hi) as [Hip Hp].
  repeat wp_pure. destruct (target_network conf i) as [e|target] eqn:Ht; [left; by eapply target_network_fails|]. wp_simp.
  repeat wp_pure. destruct (calculated_gateway i) as [e|gw] eqn:Hg; [left; by eapply calculated_gateway_fails|]. wp_simp.
  wp_pure. apply wp_call. intros [e|u] tr' ->; wp_simp; [right; apply elem_of_app; right; by left|]. wp_pure.
  destruct (target_network_inv _ _ _ Ht) as (ca & cb & t & Hca & Hcb & Htt & Hside).
  destruct (gateway_in_network i gw Hip Hp Hg) as (g & Hpg & Hgv & Hin).
  assert (g = i.(ip) - i.(ip) mod 2 ^ (32 - i.(prefix)) + 1) as Hgm.
  { rewrite Hgv. unfold ip_net. cbn [net_addr]. rewrite land_netmask by lia.
    pose proof (Z.div_mod i.(ip) (2 ^ (32 - i.(prefix))) ltac:(apply Z.pow_nonzero; lia)). lia. }
  split; [done|done|done|done|]. exists i, (address i), (netmask_str i), (ipv4_str (net_addr target)), t, (ipv4_str (netmask (net_prefix target))), gw, g, ca, cb, target.
  split_and!; try done; [by apply parse_ipv4_iff|by apply netmask_prefix].
Qed.

(** *** The configuration *)

(** The configuration of the interfaces [ifs], and no other. *)
Definition built (conf : options) (ifs : list interface) (config : network_config) : Prop :=
  length config.(links) = length ifs /\ length config.(networks) = length ifs /\
  forall k f, ifs !! k = Some f -> exists link net,
    config.(links) !! k = Some link /\ config.(networks) !! k = Some net /\ wired conf k f link net.

Lemma built_snoc conf ifs config f link net :
  built conf ifs config -> wired conf (length ifs) f link net ->
  built conf (ifs ++ [f]) (Config (config.(links) ++ [link]) (config.(networks) ++ [net])).
Proof.
  intros (Hl & Hn & Hall) Hw. split; [cbn; rewrite !length_app; cbn; lia|]. split; [cbn; rewrite !length_app; cbn; lia|].
  intros k g. rewrite lookup_app_Some. intros [Hk|[Hk Hg]].
  - destruct (Hall k g Hk) as (link' & net' & H1 & H2 & H3). exists link', net'.
    split; [by apply lookup_app_l_Some|]. split; [by apply lookup_app_l_Some|done].
  - apply list_lookup_singleton_Some in Hg as [Hk0 <-]. assert (k = length ifs) as -> by lia. exists link, net.
    cbn. rewrite !lookup_app_r by lia. rewrite Hl, Hn, Nat.sub_diag. done.
Qed.

Lemma is_storage_inv f : is_storage f = true -> is_Some (get_first_ipv4_assignment f).
Proof.
  unfold is_storage, is_valid_for_config. intros [Hv _]%andb_true_iff. destruct (mac_address f); [done|..];
    apply andb_true_iff in Hv as [_ Hv]; by destruct (get_first_ipv4_assignment f).
Qed.

(** Why a configuration cannot be made. *)
Definition cannot_configure (conf : options) (devs : list device) (tr : list (event novaE)) (e : exn) : Prop :=
  (exists f, f ∈ storage_interfaces devs /\ unconfigurable conf e f) \/
  (exists d f, d ∈ devs /\ f ∈ d.(interfaces) /\ dual_stack e f) \/ Ev Uuid4 (inl e) ∈ tr.

Section configuration.
Variable conf : options.

Lemma wp_add_interfaces ifs0 ifs config tr :
  built conf ifs0 config -> Forall wf_interface ifs -> Forall (fun f => is_storage f = true) ifs ->
  wp step_trace (fold_each (add_interface conf) ifs (config, 100 + Z.of_nat (length ifs0))) (fun r _ tr' =>
    match r with
    | inr acc => built conf (ifs0 ++ ifs) acc.1 /\ acc.2 = 100 + Z.of_nat (length (ifs0 ++ ifs))
    | inl e => (exists f, f ∈ ifs /\ unconfigurable conf e f) \/ Ev Uuid4 (inl e) ∈ tr'
    end) tt tr.
Proof.
  intros H0 Hwf Hst. apply (wp_fold_each_seen _ _ _ _ (fun seen acc _ _ => built conf (ifs0 ++ seen) acc.1 /\
    acc.2 = 100 + Z.of_nat (length (ifs0 ++ seen)))); [by rewrite app_nil_r| |done].
  intros seen f later [c n] [] tr' Heq [Hb Hn]. cbn in Hb, Hn. subst n.
  assert (f ∈ ifs) as Hin by (rewrite Heq; apply elem_of_app; right; left).
  pose proof (proj1 (Forall_forall _ _) Hst f Hin) as [i Hi]%is_storage_inv. unfold add_interface. rewrite Hi. wp_pure.
  eapply wp_mono; [|apply wp_as_openstack_network; [exact (proj1 (Forall_forall _ _) Hwf f Hin)|eauto]].
  intros [e|net] [] tr2; cbn beta iota; [intros [?|?]; eauto|]. intros Hw. wp_pure. rewrite app_assoc. split; [by apply built_snoc|].
  cbn. rewrite (length_app (ifs0 ++ seen)). cbn. lia.
Qed.

Lemma wp_generate_network_config devs tr :
  Forall (fun d => Forall wf_interface d.(interfaces)) devs ->
  wp step_trace (generate_network_config conf devs true) (fun r _ tr' =>
    match r with inr c => built conf (storage_interfaces devs) c | inl e => cannot_configure conf devs tr' e end) tt tr.
Proof.
  intros Hwf. unfold generate_network_config. wp_pure.
  apply (wp_fold_each_seen _ _ _ _ (fun seen acc _ _ => built conf (storage_interfaces seen) acc.1 /\
    acc.2 = 100 + Z.of_nat (length (storage_interfaces seen)))); [by split| |intros acc [] tr' [? _]; by wp_pure].
  intros seen d later [c n] [] tr' Heq [Hb Hn]. cbn in Hb, Hn. subst n. wp_pure. wp_pure.
  assert (d ∈ devs) as Hd by (rewrite Heq; apply elem_of_app; right; left).
  pose proof (proj1 (Forall_forall _ _) Hwf d Hd) as Hdw. pose proof (get_storage_interfaces_spec d Hdw) as Hs.
  destruct (get_storage_interfaces d) as [e|ifs]; [destruct Hs as (f & ? & ?); right; left; eauto|]. subst ifs.
  assert (storage_interfaces (seen ++ [d]) = storage_interfaces seen ++ List.filter is_storage (interfaces d)) as Hsn.
  { unfold storage_interfaces. rewrite fmap_app, join_app, List.filter_app. cbn. by rewrite app_nil_r. }
  assert (forall f, f ∈ List.filter is_storage (interfaces d) -> f ∈ interfaces d /\ is_storage f = true) as Hf.
  { intros f [? ?]%list_elem_of_In%filter_In. split; [by apply list_elem_of_In|done]. }
  eapply wp_mono; [|apply (wp_add_interfaces (storage_interfaces seen)); [done|..]].
  - intros [e|acc] [] tr2; [|by rewrite Hsn]. intros [(f & [Hfd Hfs]%Hf & Hu)|?]; [|by right; right].
    left. exists f. split; [|done]. apply list_elem_of_In, filter_In. split; [|done]. apply list_elem_of_In.
    apply list_elem_of_join. exists (interfaces d). split; [done|]. apply list_elem_of_fmap. eauto.
  - apply Forall_forall. intros f [Hfd _]%Hf. exact (proj1 (Forall_forall _ _) Hdw f Hfd).
  - apply Forall_forall. by intros f [_ ?]%Hf.
Qed.
End configuration.

Lemma res_map_Forall {A B} (f : A -> res B) (P : B -> Prop) l ys :
  (forall x y, f x = inr y -> P y) -> res_map f l = inr ys -> Forall P ys.
Proof. intros Hf Hl%res_map_ok_iff. induction Hl; constructor; eauto. Qed.

Lemma from_graphql_response_wf response devs :
  from_graphql_response response = inr devs -> Forall (fun d => Forall wf_interface d.(interfaces)) devs.
Proof.
  unfold from_graphql_response, mbind, res_mbind. destruct (jget_or _ _ response) as [|data]; [done|].
  destruct (jget_or _ _ data) as [|ds]; [done|]. destruct (jiter ds) as [|l]; [done|]. apply res_map_Forall.
  intros d dev. destruct (jget_or "interfaces" _ d) as [|fs]; [done|]. destruct (jiter fs) as [|fl]; [done|].
  destruct (res_map read_interface fl) as [|ifs] eqn:Hifs; [done|]. destruct (jget_or "id" _ d); [done|]. intros [= <-]. cbn.
  revert Hifs. apply res_map_Forall. intros fd f. unfold read_interface, mbind, res_mbind.
  destruct (jget_or _ _ fd) as [|al]; [done|]. destruct (jiter al) as [|as_]; [done|].
  destruct (res_map read_assignment as_) as [|rs] eqn:Hrs; [done|]. destruct (jget "id" fd); [done|].
  destruct (jget "mac_address" fd); [done|]. intros [= <-]. unfold wf_interface. cbn.
  assert (Forall (fun o => match o with Some i => wf_iface i | None => True end) rs) as Hall.
  { revert Hrs. apply res_map_Forall. intros a o. unfold read_assignment, mbind, res_mbind. destruct (jget_or _ _ a) as [|ipd]; [done|].
    destruct (jget_or _ _ ipd) as [|ad]; [done|]. destruct (truthy ad); [|by intros [= <-]]. unfold from_address_string.
    destruct (ip_interface ad) as [e|i] eqn:Hi; [destruct (is_ValueError e); [by intros [= <-]|done]|].
    intros [= <-]. by eapply ip_interface_wf. }
  clear Hrs. induction Hall as [|[i|] rs Hi Hall IH]; cbn; [constructor|by constructor|done].
Qed.

(** The devices that an answer of Nautobot lists. *)
Definition devices_of (answer : res json) : res (list device) :=
  match answer with
  | inl e => Err e
  | inr response => data ← check_errors response; from_graphql_response data
  end.
Definition only_uuids (tr : list (event novaE)) : Prop :=
  Forall (fun ev => match ev with Ev Uuid4 _ => True | _ => False end) tr.

Lemma calls_generate conf devs :
  calls_only (fun R (op : novaE R) => match op with Uuid4 => True | _ => False end) (generate_network_config conf devs true).
Proof.
  apply calls_bind; [|done]. apply calls_fold_each. intros acc d. apply calls_bind; [apply calls_lift|]. intros ifs.
  apply calls_fold_each. intros [c n] f. cbn. destruct (get_first_ipv4_assignment f) eqn:Hf; [|done]. apply calls_bind; [|done].
  unfold as_openstack_network. rewrite Hf.
  apply calls_bind; [apply calls_lift|]. intros t. apply calls_bind; [apply calls_lift|]. intros g.
  apply calls_bind; [by apply calls_call|done].
Qed.

(** What a node's storage configuration asks for and yields. *)
Definition storage_answer (conf : options) (c : nautobot_client) (node : string) (r : res network_config) (tr : list (event novaE)) : Prop :=
  exists answer rest,
    tr = Ev (Post (c.(nb_url) +:+ "/api/graphql/") ("Token " +:+ c.(nb_key))
              (JObj [("query", JStr device_query); ("variables", JObj [("device_id", JStr node)])])) answer :: rest /\
    only_uuids rest /\
    match r with
    | inr config => exists devs, devices_of answer = inr devs /\ built conf (storage_interfaces devs) config
    | inl e => devices_of answer = inl e \/ exists devs, devices_of answer = inr devs /\ cannot_configure conf devs rest e
    end.

Lemma storage_config_run conf c node :
  every_run (storage_network_config_for_node conf c node) tt (fun r _ tr => storage_answer conf c node r tr).
Proof.
  unfold every_run, storage_network_config_for_node, get_device_interfaces, _make_graphql_request.
  do 3 wp_pure. apply wp_call. intros answer tr Htr. unfold step_trace in Htr. subst tr. cbn [app].
  destruct answer as [e|response]; wp_simp; [eexists _, []; split; [done|]; split; [constructor|by left]|].
  repeat wp_pure. destruct (check_errors response) as [e|data] eqn:Hc; wp_simp.
  { eexists _, []. split; [done|]. split; [constructor|]. left. cbn. unfold mbind, res_mbind. by rewrite Hc. }
  repeat wp_pure. destruct (from_graphql_response data) as [e|devs] eqn:Hg; wp_simp.
  { eexists _, []. split; [done|]. split; [constructor|]. left. cbn. unfold mbind, res_mbind. by rewrite Hc, Hg. }
  assert (devices_of (inr response) = inr devs) as Hdev by (cbn; unfold mbind, res_mbind; by rewrite Hc).
  eapply wp_mono; [|apply wp_conj; [apply wp_calls_only, (calls_generate conf devs)|
    apply wp_generate_network_config; by eapply from_graphql_response_wf]].
  intros r [] tr' [(rest & -> & Hrest) Hr]. cbn [app] in *. eexists _, rest. split; [done|]. split.
  { eapply Forall_impl; [exact Hrest|]. by intros [? []]. }
  destruct r as [e|config]; [right|]; exists devs; (split; [done|]); [|done].
  destruct Hr as [?|[?|[Hp|Hu]%elem_of_cons]]; [by left|by right; left|done|by right; right].
Qed.

(** C19. The storage configuration of a node: one query of Nautobot and fresh ids are all
    it asks for.  A configuration that is returned has exactly the active interfaces
    with an address in the storage subnet, in order; each has a link of its own
    ([tap-stor-100], [tap-stor-101], ...) with its MAC, its first IPv4 address and
    mask, and a route to the target network of its side through the first host of its
    own network.  It fails only on a failed query, a malformed response, an option
    that is no network, a first address on neither side's client network (or
    255.255.255.255/32), an active interface with an IPv6 address before any
    address of the storage subnet, or an id that cannot be made. *)
Theorem storage_config_complete conf c node :
  every_run (storage_network_config_for_node conf c node) tt (fun r _ tr =>
    exists answer rest,
      tr = Ev (Post (c.(nb_url) +:+ "/api/graphql/") ("Token " +:+ c.(nb_key))
                (JObj [("query", JStr device_query); ("variables", JObj [("device_id", JStr node)])])) answer :: rest /\
      only_uuids rest /\
      match r with
      | inr config => exists devs, devices_of answer = inr devs /\ built conf (storage_interfaces devs) config
      | inl e => devices_of answer = inl e \/ exists devs, devices_of answer = inr devs /\ cannot_configure conf devs rest e
      end).
Proof. exact (storage_config_run conf c node). Qed.

(** A node with a storage interface gets no configuration at all when another of its
    interfaces has both an IPv4 and an IPv6 address. *)
Definition iface_json (mac : string) (addresses : list string) : json :=
  JObj [("id", JStr mac); ("mac_address", JStr mac);
        ("ip_address_assignments", JArr (map (fun a => JObj [("ip_address", JObj [("address", JStr a)])]) addresses))].
Definition node_json (ifs : list json) : json := JObj [("data", JObj [("devices", JArr [JObj [("id", JStr "d"); ("interfaces", JArr ifs)]])])].
Example dual_stack_refused :
  (devs ← from_graphql_response (node_json [iface_json "m1" ["100.126.0.5/24"]; iface_json "m2" ["10.0.0.4/24"]]);
   ifs ← res_map get_storage_interfaces devs; Ok (map (fun f => f.(mac_address)) (mjoin ifs))) = inr [JStr "m1"] /\
  (devs ← from_graphql_response (node_json [iface_json "m1" ["100.126.0.5/24"]; iface_json "m2" ["10.0.0.4/24"; "fd00::4/64"]]);
   ifs ← res_map get_storage_interfaces devs; Ok (map (fun f => f.(mac_address)) (mjoin ifs)))
  = inl (TypeError ["are not of the same version"]).
Proof. split; vm_compute; reflexivity. Qed.
