(* ===== verification/NovaDriver.v ===== *)
(** * The Nova driver

    Models [src/python/nova-understack/ironic_understack/driver.py] and
    [argo_client.py]: the config drive of an instance, with the storage networks of
    its node once an Ansible playbook has run.  The base driver, the config drive
    builder and the HTTP services are calls ([NovaNetwork.novaE]); a request includes
    its [raise_for_status] and the decoding of its JSON. *)
From S2P Require Import Prelude PyStr PyData NovaNetwork.
Local Open Scope Z_scope.

(** ** Argo *)

(* nova-understack/ironic_understack/argo_client.py:10-33 __init__ *)
Record argo_client := ArgoClient { url : string; token : string; namespace : string }.
Definition make_argo (base_url : string) (tok : option string) : nova argo_client :=
  token ← (match tok with
           | Some t => if truthy t then mret t else call (ReadFile "/var/run/secrets/kubernetes.io/serviceaccount/token")
           | None => call (ReadFile "/var/run/secrets/kubernetes.io/serviceaccount/token")
           end);
  mret (ArgoClient (rstrip_by (Ascii.eqb "/"%char) base_url) ("Bearer " +:+ token) "argo-events").

(* nova-understack/ironic_understack/argo_client.py:35-54 _generate_workflow_name *)
Definition _generate_workflow_name (playbook_name : string) : string :=
  let base_name := replace_char "_"%char "-"%char playbook_name in
  let base_name := if endswith ".yaml" base_name || endswith ".yml" base_name
                   then match rsplit_once "."%char base_name with Some (b, _) => b | None => base_name end
                   else base_name in
  "ansible-" +:+ base_name +:+ "-".

Definition workflows_url (c : argo_client) : string := c.(url) +:+ "/api/v1/workflows/" +:+ c.(namespace).

(** [workflow.get("status", {}).get(k)] and the message of a failed workflow. *)
Definition status_of (k : string) (workflow : json) : res json :=
  status ← jget_or "status" (JObj []) workflow;
  jget k status.
(** [v == text] *)
Definition is_text (text : string) (v : json) : bool :=
  match v with JStr s => bool_decide (s = text) | _ => false end.
Definition nanoseconds : Z := 1000000000.
(** The rounds of the loop that [fuel] bounds; running out of it is an exception that
    the code does not have. *)
Definition OutOfFuel : exn := Exn "OutOfFuel" [].
(* nova-understack/ironic_understack/argo_client.py:141-165 _wait_for_completion *)
Fixpoint poll (fuel : nat) (c : argo_client) (workflow_name : string) (timeout poll_interval start_time : Z) : nova json :=
  match fuel with
  | O => Raise OutOfFuel
  | S fuel =>
      now ← call Time;
      if now - start_time <? timeout * nanoseconds then
        workflow ← call (GetUrl (workflows_url c +:+ "/" +:+ workflow_name) c.(token));
        phase ← lift (status_of "phase" workflow);
        if is_text "Succeeded" phase then mret workflow
        else if is_text "Failed" phase then
          _ ← lift (status_of "message" workflow); Raise (RuntimeError [workflow_name; "failed"])
        else if is_text "Error" phase then
          _ ← lift (status_of "message" workflow); Raise (RuntimeError [workflow_name; "encountered an error"])
        else
          _ ← call (Sleep poll_interval);
          poll fuel c workflow_name timeout poll_interval start_time
      else Raise (RuntimeError [workflow_name; "timed out after"; pretty timeout])
  end.
(* nova-understack/ironic_understack/argo_client.py:123-165 _wait_for_completion *)
Definition _wait_for_completion (fuel : nat) (c : argo_client) (workflow_name : string) (timeout poll_interval : Z) : nova json :=
  start_time ← call Time;
  poll fuel c workflow_name timeout poll_interval start_time.

(* nova-understack/ironic_understack/argo_client.py:86-109 run_playbook *)
Definition workflow_request (playbook_name : string) (extra_vars : dict string) : json :=
  let extra_vars_str := String.concat " " (map (fun '(key, value) => key +:+ "=" +:+ value) extra_vars) in
  JObj [("workflow", JObj [
    ("metadata", JObj [("generateName", JStr (_generate_workflow_name playbook_name))]);
    ("spec", JObj [
      ("workflowTemplateRef", JObj [("name", JStr "ansible-workflow-template")]);
      ("entrypoint", JStr "ansible-run");
      ("arguments", JObj [("parameters", JArr [
        JObj [("name", JStr "playbook"); ("value", JStr playbook_name)];
        JObj [("name", JStr "extra_vars"); ("value", JStr extra_vars_str)]])])])])].
(** The name in the answer is formatted into the URL: a name that is no text is
    outside the model. *)
Definition text_of (v : json) : res string :=
  match v with JStr s => Ok s | _ => Err (Exn "SchemaError" ["name"]) end.
Definition created_name (workflow : json) : res string :=
  metadata ← jitem "metadata" workflow;
  name ← jitem "name" metadata;
  text_of name.
(* nova-understack/ironic_understack/argo_client.py:68-121 run_playbook *)
Definition run_playbook (fuel : nat) (c : argo_client) (playbook_name : string) (extra_vars : dict string) : nova json :=
  workflow ← call (Post (workflows_url c) c.(token) (workflow_request playbook_name extra_vars));
  workflow_name ← lift (created_name workflow);
  _wait_for_completion fuel c workflow_name 600 5.

(** ** The driver *)

Record driver := Driver { nautobot : nautobot_client; argo : argo_client; conf : options }.
(* nova-understack/ironic_understack/driver.py:23-31 __init__ *)
Definition init (conf : options) : nova driver :=
  argo ← make_argo conf.(argo_api_url) None;
  mret (Driver (make_nautobot conf.(nautobot_base_url) conf.(nautobot_api_key)) argo conf).

(** What the driver reads of an instance. *)
Record instance := Instance { metadata : dict string; project_id : string }.
(** [d[k].append(x)] *)
Definition append_to (k : string) (x : json) (v : json) : res json :=
  w ← jitem k v;
  match v, w with
  | JObj d, JArr l => Ok (JObj (dict_set k (JArr (l ++ [x])) d))
  | _, _ => Err (AttributeError "append")
  end.
(** [str(UUID(text))] *)
Definition uuid_of (text : string) : res string :=
  match uuid_int text with Some z => Ok (uuid_str z) | None => Err (ValueError ["badly formed hexadecimal UUID string"]) end.
(* nova-understack/ironic_understack/driver.py:33-52 _get_network_metadata_with_storage *)
Definition _get_network_metadata_with_storage (d : driver) (node_uuid : string) : nova json :=
  base_metadata ← call GetNetworkMetadata;
  if negb (truthy base_metadata) then mret base_metadata else
  id ← lift (uuid_of node_uuid);
  extra_interfaces ← storage_network_config_for_node d.(conf) d.(nautobot) id;
  lift (base ← res_fold (fun base link => append_to "links" link base) extra_interfaces.(links) base_metadata;
        res_fold (fun base network => append_to "networks" network base) extra_interfaces.(networks) base).
Definition storage_wanted (d : driver) (i : instance) : bool :=
  bool_decide (dict_get "storage" i.(metadata) = Some "wanted") && d.(conf).(ip_injection_enabled).
(* nova-understack/ironic_understack/driver.py:54-94 _understack_get_network_metadata *)
Definition _understack_get_network_metadata (fuel : nat) (d : driver) (i : instance) (node_uuid : string) : nova json :=
  if storage_wanted d i then
    project_id ← lift (uuid_of i.(project_id));
    _ ← run_playbook fuel d.(argo) d.(conf).(ansible_playbook_filename) [("device_id", node_uuid); ("project_id", project_id)];
    _get_network_metadata_with_storage d node_uuid
  else call GetNetworkMetadata.

(** [base64.b64encode] of a list of bytes. *)
Definition base64_char (n : Z) : ascii :=
  ascii_of_N (Z.to_N (if n <? 26 then n + 65 else if n <? 52 then n + 71 else if n <? 62 then n - 4 else if n =? 62 then 43 else 47)).
Fixpoint b64encode (l : list Z) : string :=
  let c n := base64_char (Z.land n 63) in
  match l with
  | [] => ""
  | [a] => String (c (Z.shiftr a 2)) (String (c (Z.shiftl a 4)) "==")
  | [a; b] => String (c (Z.shiftr a 2)) (String (c (Z.lor (Z.shiftl a 4) (Z.shiftr b 4))) (String (c (Z.shiftl b 2)) "="))
  | a :: b :: d :: l =>
      String (c (Z.shiftr a 2)) (String (c (Z.lor (Z.shiftl a 4) (Z.shiftr b 4)))
        (String (c (Z.lor (Z.shiftl b 2) (Z.shiftr d 6))) (String (c d) (b64encode l))))
  end.
(* nova-understack/ironic_understack/driver.py:99-143 _generate_configdrive *)
Definition _generate_configdrive (fuel : nat) (d : driver) (i : instance) (node_uuid : string) (extra_md files : json) : nova string :=
  let extra_md := if truthy extra_md then extra_md else JObj [] in
  network_metadata ← _understack_get_network_metadata fuel d i node_uuid;
  uncompressed ← call (MakeDrive extra_md files network_metadata);
  compressed ← call (Gzip uncompressed);
  mret (b64encode compressed).

(** ** Properties *)

(** *** Waiting for a workflow *)

(** The calls made so far and the wall clock, which is not set back; a sleep lasts at
    least as long as it was asked to. *)
Record world := World { clock : Z; calls : list (event novaE) }.
Definition clock_step (R : Type) (op : novaE R) (s : world) (r : res R) (s' : world) : Prop :=
  s'.(calls) = s.(calls) ++ [Ev op r] /\ s.(clock) <= s'.(clock) /\
  match op in novaE R return res R -> Prop with
  | Time => fun r => r = inr s'.(clock)
  | Sleep n => fun r => r = inr tt /\ s.(clock) + n * nanoseconds <= s'.(clock)
  | _ => fun _ => True
  end r.

Lemma wp_clock_prefix {A} (p : nova A) g s : wp clock_step p (fun _ _ s' => s.(calls) `prefix_of` s'.(calls)) g s.
Proof.
  revert g s. induction p as [a|e|R op k IH|k IH|g' p IH]; intros g s; [by apply wp_mret|by apply wp_raise| |apply IH|apply IH].
  intros r s' (Hc & _ & _). eapply wp_mono; [|apply IH]. intros r' g'' s'' Hp. etrans; [|exact Hp].
  rewrite Hc. by apply prefix_app_r.
Qed.

Definition is_get (ev : event novaE) : bool := match ev with Ev (GetUrl _ _) _ => true | _ => false end.
Definition gets (tr : list (event novaE)) : nat := length (List.filter is_get tr).
Lemma gets_snoc tr ev : gets (tr ++ [ev]) = (gets tr + if is_get ev then 1 else 0)%nat.
Proof. unfold gets. rewrite List.filter_app, length_app. cbn. by destruct (is_get ev). Qed.

(** The last answer of the workflow [nm] has the phase [p]. *)
Definition last_phase (c : argo_client) (nm p : string) (w : json) (tr : list (event novaE)) : Prop :=
  last tr = Some (Ev (GetUrl (workflows_url c +:+ "/" +:+ nm) c.(token)) (inr w)) /\ status_of "phase" w = inr (JStr p).
(** An answer that is no workflow. *)
Definition malformed (e : exn) (tr : list (event novaE)) : Prop :=
  exists u t w, Ev (GetUrl u t) (inr w) ∈ tr /\ status_of "phase" w = inl e.
Definition raised (e : exn) (tr : list (event novaE)) : Prop := exists R (op : novaE R), Ev op (inl e) ∈ tr.

(** How the wait for [nm] from the clock [t0] ends. *)
Definition waited (c : argo_client) (nm : string) (t0 timeout : Z) (r : res json) (s : world) : Prop :=
  match r with
  | inr w => last_phase c nm "Succeeded" w s.(calls)
  | inl e => raised e s.(calls) \/ malformed e s.(calls) \/
      (exists w, last_phase c nm "Failed" w s.(calls) /\ e = RuntimeError [nm; "failed"]) \/
      (exists w, last_phase c nm "Error" w s.(calls) /\ e = RuntimeError [nm; "encountered an error"]) \/
      (t0 + timeout * nanoseconds <= s.(clock) /\ e = RuntimeError [nm; "timed out after"; pretty timeout])
  end.

Lemma status_of_message w v : status_of "phase" w = inr v -> exists m, status_of "message" w = inr m.
Proof.
  unfold status_of, mbind, res_mbind. destruct (jget_or _ _ w) as [|st]; [done|]. destruct st; try done. cbn. eauto.
Qed.

Lemma is_text_true text v : is_text text v = true -> v = JStr text.
Proof. unfold is_text. destruct v; try done. by intros ->%bool_decide_eq_true. Qed.

Lemma wp_poll c nm timeout poll_interval (n : nat) t0 fuel : forall j s,
  0 < poll_interval -> timeout <= poll_interval * Z.of_nat n -> (n < fuel + j)%nat -> (j <= n)%nat ->
  t0 + poll_interval * Z.of_nat j * nanoseconds <= s.(clock) ->
  wp clock_step (poll fuel c nm timeout poll_interval t0) (fun r _ s' =>
    (gets s'.(calls) + j <= gets s.(calls) + n)%nat /\ waited c nm t0 timeout r s') tt s.
Proof.
  induction fuel as [|fuel IH]; intros j s Hp Hn Hf Hj Ht; [lia|]. cbn [poll]. wp_pure.
  apply wp_call. intros r s1 (Hc1 & Hle1 & ->). wp_simp. destruct (_ <? _) eqn:Hlt.
  2: { wp_pure. apply Z.ltb_ge in Hlt. rewrite Hc1, gets_snoc. cbn [is_get]. split; [lia|]. do 4 right. split; [lia|done]. }
  apply Z.ltb_lt in Hlt. assert (j < n)%nat as Hjn by (unfold nanoseconds in *; nia).
  wp_pure. apply wp_call. intros r s2 (Hc2 & Hle2 & _).
  assert (gets (calls s2) = S (gets (calls s))) as Hg by (rewrite Hc2, Hc1, !gets_snoc; cbn [is_get]; lia).
  destruct r as [e|w]; wp_simp.
  { split; [lia|]. left. eexists _, _. rewrite Hc2. apply elem_of_app. right. by left. }
  do 2 wp_pure. destruct (status_of "phase" w) as [e|phase] eqn:Hph; wp_simp.
  { split; [lia|]. right. left. eexists _, _, w. split; [rewrite Hc2; apply elem_of_app; right; by left|done]. }
  destruct (status_of_message w phase Hph) as [m Hm].
  assert (forall p, is_text p phase = true -> last_phase c nm p w (calls s2)) as Hlast.
  { intros p ->%is_text_true. split; [by rewrite Hc2, last_snoc|done]. }
  destruct (is_text "Succeeded" phase) eqn:Hs; [wp_pure; split; [lia|by apply Hlast]|].
  destruct (is_text "Failed" phase) eqn:Hfl; [rewrite Hm; repeat wp_pure; split; [lia|]; do 2 right; left; eauto|].
  destruct (is_text "Error" phase) eqn:He; [rewrite Hm; repeat wp_pure; split; [lia|]; do 3 right; left; eauto|].
  wp_pure. apply wp_call. intros r s3 (Hc3 & Hle3 & -> & Hsl). wp_simp.
  assert (gets (calls s3) = gets (calls s2)) as Hg3 by (rewrite Hc3, gets_snoc; cbn [is_get]; lia).
  eapply wp_mono; [|apply (IH (S j)); [done|done|lia|lia|]].
  - intros r [] s4 [Hc4 Hw]. split; [lia|done].
  - rewrite Nat2Z.inj_succ. unfold nanoseconds in *. lia.
Qed.

(** C22. Running a playbook ends: with a clock that is not set back, 121 rounds of the
    loop are enough and at most 120 times the workflow is read.  A result is the last
    answer about the workflow that was created, and has succeeded; an exception is
    that of a call, an answer that is no workflow, a failed workflow, or the end of
    the ten minutes. *)
Theorem playbook_waits fuel c playbook extra_vars s :
  (120 < fuel)%nat ->
  wp clock_step (run_playbook fuel c playbook extra_vars) (fun r _ s' =>
    exists answer, Ev (Post (workflows_url c) c.(token) (workflow_request playbook extra_vars)) answer ∈ s'.(calls) /\
    (gets s'.(calls) <= gets s.(calls) + 120)%nat /\
    match answer with
    | inl e => r = inl e
    | inr workflow => match created_name workflow with
                      | inl e => r = inl e
                      | inr nm => exists t0, s.(clock) <= t0 /\ waited c nm t0 600 r s'
                      end
    end) tt s.
Proof.
  intros Hfuel. unfold run_playbook. wp_pure. apply wp_call. intros answer s1 (Hc1 & Hle1 & _).
  assert (Ev (Post (workflows_url c) (token c) (workflow_request playbook extra_vars)) answer ∈ calls s1) as Hin
    by (rewrite Hc1; apply elem_of_app; right; by left).
  assert (gets (calls s1) = gets (calls s)) as Hg1 by (rewrite Hc1, gets_snoc; cbn [is_get]; lia).
  destruct answer as [e|workflow]; wp_simp; [exists (inl e); split_and!; [done|lia|done]|].
  do 2 wp_pure. destruct (created_name workflow) as [e|nm] eqn:Hnm; wp_simp.
  { exists (inr workflow). rewrite Hnm. split_and!; [done|lia|done]. }
  unfold _wait_for_completion. wp_pure. apply wp_call. intros r s2 (Hc2 & Hle2 & ->). wp_simp.
  assert (gets (calls s2) = gets (calls s1)) as Hg2 by (rewrite Hc2, gets_snoc; cbn [is_get]; lia).
  eapply wp_mono; [|apply wp_conj; [apply wp_clock_prefix|apply (wp_poll c nm 600 5 120 (clock s2) fuel 0); lia]].
  intros r [] s3 [Hpre [Hg3 Hw]]. exists (inr workflow). rewrite Hnm. split_and!; [|lia|exists (clock s2); split; [lia|done]].
  destruct Hpre as [k ->]. rewrite Hc2, !elem_of_app. by do 2 left.
Qed.

Definition sample_argo : argo_client := ArgoClient "https://argo" "Bearer t" "argo-events".
Lemma playbook_waits_witness :
  (120 < 121)%nat /\
  wp clock_step (run_playbook 121 sample_argo "p.yml" []) (fun r _ s' =>
    exists answer, Ev (Post (workflows_url sample_argo) sample_argo.(token) (workflow_request "p.yml" [])) answer ∈ s'.(calls) /\
    (gets s'.(calls) <= 0 + 120)%nat /\
    match answer with
    | inl e => r = inl e
    | inr workflow => match created_name workflow with
                      | inl e => r = inl e
                      | inr nm => exists t0, 0 <= t0 /\ waited sample_argo nm t0 600 r s'
                      end
    end) tt (World 0 []).
Proof. split; [lia|]. apply (playbook_waits 121 sample_argo "p.yml" [] (World 0 [])). lia. Defined.

(** A workflow that never ends is given up after 120 reads. *)
Definition stuck (R : Type) (op : novaE R) (s : world) : res R * world :=
  match op in novaE R return res R * world with
  | Post _ _ _ => (inr (JObj [("metadata", JObj [("name", JStr "w")])]), s)
  | GetUrl u t => (inr (JObj []), World s.(clock) (s.(calls) ++ [Ev (GetUrl u t) (inr (JObj []))]))
  | Time => (inr s.(clock), s)
  | Sleep n => (inr tt, World (s.(clock) + n * nanoseconds) s.(calls))
  | Uuid4 | ReadFile _ => (inr "", s)
  | GetNetworkMetadata => (inr JNull, s)
  | MakeDrive _ _ _ | Gzip _ => (inr [], s)
  end.
Example stuck_workflow_times_out :
  let '(r, _, s) := run stuck (run_playbook 121 sample_argo "storage_on_server_create.yml" []) tt (World 0 []) in
  r = inl (RuntimeError ["w"; "timed out after"; "600"]) /\ gets s.(calls) = 120%nat.
Proof. vm_compute. split; reflexivity. Qed.

(** The name of the workflow has hyphens where the playbook has underscores. *)
Example workflow_name_hyphens : _generate_workflow_name "storage_on_server_create.yml" = "ansible-storage-on-server-create-".
Proof. reflexivity. Qed.

(** *** Metadata *)

(** [m] is [base] with the storage links and networks at the end of its lists. *)
Definition extended (base : json) (config : network_config) (m : json) : Prop :=
  (forall k, k <> "links" -> k <> "networks" -> jitem k m = jitem k base) /\
  (forall l, jitem "links" base = inr (JArr l) -> jitem "links" m = inr (JArr (l ++ config.(links)))) /\
  (forall l, jitem "networks" base = inr (JArr l) -> jitem "networks" m = inr (JArr (l ++ config.(networks)))).

Lemma append_to_inv k x v v' :
  append_to k x v = inr v' ->
  (forall k', k' <> k -> jitem k' v' = jitem k' v) /\ forall l, jitem k v = inr (JArr l) -> jitem k v' = inr (JArr (l ++ [x])).
Proof.
  unfold append_to, mbind, res_mbind. destruct (jitem k v) as [|w] eqn:Hw; [done|].
  destruct v as [| | | | |d]; try done. destruct w as [| | | |l|]; try done. intros [= <-]. split.
  - intros k' Hk. cbn. by rewrite dict_get_set, decide_False by congruence.
  - intros l' [= <-]. cbn. by rewrite dict_get_set, decide_True.
Qed.
Lemma append_all_inv k xs : forall v v',
  res_fold (fun base x => append_to k x base) xs v = inr v' ->
  (forall k', k' <> k -> jitem k' v' = jitem k' v) /\ forall l, jitem k v = inr (JArr l) -> jitem k v' = inr (JArr (l ++ xs)).
Proof.
  induction xs as [|x xs IH]; intros v v'; cbn; [intros [= <-]; split; [done|intros l ?; by rewrite app_nil_r]|].
  destruct (append_to k x v) as [|v1] eqn:Hv1; [done|]. intros [Ho Hk]%IH. apply append_to_inv in Hv1 as [Ho1 Hk1]. split.
  - intros k' Hk'. by rewrite Ho, Ho1.
  - intros l Hl. rewrite (Hk _ (Hk1 _ Hl)). by rewrite <- app_assoc.
Qed.
Lemma extended_intro base config m :
  (base' ← res_fold (fun base link => append_to "links" link base) config.(links) base;
   res_fold (fun base network => append_to "networks" network base) config.(networks) base') = inr m ->
  extended base config m.
Proof.
  unfold mbind, res_mbind. destruct (res_fold _ _ base) as [|mid] eqn:Hmid; [done|].
  intros [Ho Hn]%append_all_inv. apply append_all_inv in Hmid as [Ho1 Hl]. split; [|split].
  - intros k H1 H2. by rewrite Ho, Ho1.
  - intros l Hb. rewrite Ho by done. by apply Hl.
  - intros l Hb. apply Hn. by rewrite Ho1.
Qed.

(** What a run of the playbook that succeeds has seen. *)
Definition played (d : driver) (vars : dict string) (tr : list (event novaE)) : Prop :=
  exists created nm w,
    head tr = Some (Ev (Post (workflows_url d.(argo)) d.(argo).(token) (workflow_request d.(conf).(ansible_playbook_filename) vars)) (inr created)) /\
    created_name created = inr nm /\ last_phase d.(argo) nm "Succeeded" w tr.

Lemma wp_poll_trace c nm timeout poll_interval t0 fuel : forall tr,
  wp step_trace (poll fuel c nm timeout poll_interval t0) (fun r _ tr' =>
    match r with inr w => last_phase c nm "Succeeded" w tr' | inl _ => True end) tt tr.
Proof.
  induction fuel as [|fuel IH]; intros tr; [done|]. cbn [poll]. wp_pure. apply wp_call. intros [e|now] tr1 Htr1; wp_simp; [done|].
  destruct (_ <? _); [|by wp_pure]. wp_pure. apply wp_call. intros [e|w] tr2 Htr2; wp_simp; [done|].
  do 2 wp_pure. destruct (status_of "phase" w) as [e|phase] eqn:Hph; wp_simp; [done|].
  destruct (is_text "Succeeded" phase) eqn:Hs.
  { wp_pure. apply is_text_true in Hs as ->. unfold step_trace in Htr2. subst tr2. split; [by rewrite last_snoc|done]. }
  destruct (is_text "Failed" phase); [repeat wp_pure; by destruct (status_of "message" w)|].
  destruct (is_text "Error" phase); [repeat wp_pure; by destruct (status_of "message" w)|].
  wp_pure. apply wp_call. intros [e|[]] tr3 Htr3; wp_simp; [done|]. apply IH.
Qed.

Lemma run_playbook_played fuel d vars :
  every_run (run_playbook fuel d.(argo) d.(conf).(ansible_playbook_filename) vars) tt (fun r _ tr =>
    match r with inr _ => played d vars tr | inl _ => True end).
Proof.
  unfold every_run, run_playbook. wp_pure. apply wp_call. intros [e|created] tr1 Htr1; wp_simp; [done|].
  do 2 wp_pure. destruct (created_name created) as [e|nm] eqn:Hnm; wp_simp; [done|].
  unfold _wait_for_completion. wp_pure. apply wp_call. intros [e|t0] tr2 Htr2; wp_simp; [done|].
  unfold step_trace in *. subst tr1 tr2. eapply wp_mono; [|apply wp_conj; [apply wp_trace_prefix|apply wp_poll_trace]].
  intros [e|w] [] tr3 [[k ->] Hw]; [done|]. exists created, nm, w. by split_and!.
Qed.

Definition not_metadata (R : Type) (op : novaE R) : Prop := match op with GetNetworkMetadata => False | _ => True end.
Lemma calls_run_playbook fuel c playbook vars : calls_only not_metadata (run_playbook fuel c playbook vars).
Proof.
  apply calls_bind; [by apply calls_call|]. intros w. apply calls_bind; [apply calls_lift|]. intros nm.
  apply calls_bind; [by apply calls_call|]. intros t0. induction fuel as [|fuel IH]; [done|]. cbn [poll].
  apply calls_bind; [by apply calls_call|]. intros now. destruct (_ <? _); [|done].
  apply calls_bind; [by apply calls_call|]. intros wf. apply calls_bind; [apply calls_lift|]. intros p.
  destruct (is_text _ p); [done|]. destruct (is_text _ p); [by apply calls_bind; [apply calls_lift|]|].
  destruct (is_text _ p); [by apply calls_bind; [apply calls_lift|]|]. apply calls_bind; [by apply calls_call|done].
Qed.

(** What is added to the metadata [base] of the base driver for a node. *)
Definition with_storage (d : driver) (node_uuid : string) (base : res json) (r : res json) (tr : list (event novaE)) : Prop :=
  match base with
  | inl e => r = inl e /\ tr = []
  | inr b =>
      if truthy b then
        match uuid_of node_uuid with
        | inl e => r = inl e /\ tr = []
        | inr id => exists config, storage_answer d.(conf) d.(nautobot) id config tr /\
            match config, r with
            | inl e, _ => r = inl e
            | inr config, inr m => extended b config m
            | inr _, inl _ => True
            end
        end
      else r = inr b /\ tr = []
  end.

Lemma with_storage_run d node_uuid :
  every_run (_get_network_metadata_with_storage d node_uuid) tt (fun r _ tr =>
    exists base rest, tr = Ev GetNetworkMetadata base :: rest /\ with_storage d node_uuid base r rest).
Proof.
  unfold every_run, _get_network_metadata_with_storage. wp_pure. apply wp_call. intros base tr Htr. unfold step_trace in Htr. subst tr.
  cbn [app]. destruct base as [e|b]; wp_simp; [by eexists _, []|]. unfold with_storage.
  destruct (truthy b) eqn:Hb; cbn [negb]; [|wp_pure; eexists _, []; split; [done|]; cbn beta iota; by rewrite Hb].
  do 2 wp_pure. destruct (uuid_of node_uuid) as [e|id] eqn:Hid; wp_simp; [eexists _, []; split; [done|]; cbn beta iota; by rewrite Hb|].
  wp_pure. eapply wp_mono; [|apply wp_trace_frame, storage_config_run]. intros config [] tr (new & -> & Hconf). cbn [app].
  destruct config as [e|config]; [eexists _, new; split; [done|]; cbn beta iota; rewrite Hb; by exists (inl e)|]. wp_pure.
  eexists _, new. split; [done|]. cbn beta iota. rewrite Hb. exists (inr config). split; [done|].
  destruct (mbind _ _) as [e|m] eqn:Hm; [done|]. by apply extended_intro.
Qed.

(** The network metadata of an instance.  An instance that does not want storage, or a
    driver that does not inject addresses, gets the base driver's metadata and
    nothing else is asked.  Otherwise the playbook is run for the node and the
    project; only when its workflow has succeeded is the metadata read and extended,
    at the end of its links and networks, by the storage configuration of the node.
    A failure on the way is the outcome. *)
Theorem storage_after_playbook fuel d i node_uuid :
  every_run (_understack_get_network_metadata fuel d i node_uuid) tt (fun r _ tr =>
    if storage_wanted d i then
      match uuid_of i.(project_id) with
      | inl e => r = inl e /\ tr = []
      | inr project =>
          ((exists e, r = inl e) /\ Forall (fun ev => match ev with Ev op _ => not_metadata _ op end) tr) \/
          exists tr1 base rest, tr = tr1 ++ Ev GetNetworkMetadata base :: rest /\
            played d [("device_id", node_uuid); ("project_id", project)] tr1 /\ with_storage d node_uuid base r rest
      end
    else tr = [Ev GetNetworkMetadata r]).
Proof.
  unfold every_run, _understack_get_network_metadata. destruct (storage_wanted d i); [|apply wp_call; by intros r tr ->].
  do 2 wp_pure. destruct (uuid_of (project_id i)) as [e|project]; wp_simp; [done|]. wp_pure.
  eapply wp_mono; [|apply wp_conj; [apply run_playbook_played|apply wp_calls_only, calls_run_playbook]].
  intros [e|w] [] tr1 [Hp (tr1' & -> & Hc)]; [left; eauto|]. cbn [app] in *.
  eapply wp_mono; [|apply wp_trace_frame, with_storage_run]. intros r [] tr (new & -> & base & rest & -> & Hw). right. by eauto 8.
Qed.

(** The test vectors of RFC 4648. *)
Example b64encode_vectors :
  map b64encode [[]; [102]; [102; 111]; [102; 111; 111]; [102; 111; 111; 98]; [251; 255; 254]]
  = [""; "Zg=="; "Zm8="; "Zm9v"; "Zm9vYg=="; "+//+"].
Proof. reflexivity. Qed.
