(* ===== verification/PortAudit.v ===== *)
(** * Ports without a physical network

    Models [src/scripts/audit_ports_missing_physical_network.py]: the scan of the
    Neutron ports whose binding profile has local links but no physical network, the
    look-up of the physical network at the matching Ironic ports, and the repair.
    [json.loads] is a parameter ([None]: not JSON).  The reasons of the report are
    constructors, not texts. *)
From S2P Require Import Prelude PyStr PyData NetappValues.

(** ** Resources *)

(** A resource of the SDK: a dict, or an object with or without a callable [get]; the
    methods answer [None] for [_MISSING]. *)
Inductive resource :=
| RDict (d : dict json)
| RObj (getter : option ((string -> res (option json)) * (string -> res json))) (attrs : dict json).
Definition is_TypeError (e : exn) : bool := bool_decide (e.(exn_cls) = "TypeError").
(* audit_ports_missing_physical_network.py:168-187 _resource_value *)
Definition _resource_value (r : resource) (name : string) : option json :=
  match r with
  | RDict d => dict_get name d
  | RObj getter attrs =>
      let value := match getter with
        | None => None
        | Some (get2, get1) =>
            match get2 name with
            | Ok v => v
            | Err e => if is_TypeError e then match get1 name with Ok v => Some v | Err _ => None end else None
            end
        end in
      match value with Some v => Some v | None => dict_get name attrs end
  end.
(** [None] of Python is [JNull]. *)
(* audit_ports_missing_physical_network.py:190-195 get_value *)
Fixpoint get_value (r : resource) (names : list string) : json :=
  match names with
  | [] => JNull
  | name :: names => match _resource_value r name with
                     | None | Some JNull => get_value r names
                     | Some v => v
                     end
  end.
(* audit_ports_missing_physical_network.py:198-199 has_field *)
Definition has_field (r : resource) (names : list string) : bool :=
  existsb (fun name => match _resource_value r name with Some _ => true | None => false end) names.
(* audit_ports_missing_physical_network.py:202-203 has_value *)
Definition has_value (v : json) : bool := match v with JNull => false | JStr s => truthy s | _ => true end.

(* audit_ports_missing_physical_network.py:24-24 BINDING_PROFILE_FIELDS *)
Definition BINDING_PROFILE_FIELDS := ["binding_profile"; "binding:profile"].
(* audit_ports_missing_physical_network.py:25-25 BINDING_HOST_ID_FIELDS *)
Definition BINDING_HOST_ID_FIELDS := ["binding_host_id"; "binding:host_id"].
(* audit_ports_missing_physical_network.py:26-26 BINDING_VNIC_TYPE_FIELDS *)
Definition BINDING_VNIC_TYPE_FIELDS := ["binding_vnic_type"; "binding:vnic_type"].
(* audit_ports_missing_physical_network.py:30-30 ID_PORT_FIELDS *)
Definition ID_PORT_FIELDS := ["id"].
(* audit_ports_missing_physical_network.py:31-37 PORT_FIELDS *)
Definition PORT_FIELDS := ["id"; "name"; "network_id"; "binding:host_id"; "binding:profile"].

(** ** Records *)

(* audit_ports_missing_physical_network.py:27-42 TERMINAL_LOOKUP_FAILURE_PREFIXES *)
Inductive reason :=
| NoMatch | NoPhysicalNetwork | NoUsableLink
| LookupFailed (e : exn) | NoService | NoPortsMethod.
(* audit_ports_missing_physical_network.py:140-143 is_terminal_failure *)
Definition is_terminal_failure (r : option reason) : bool :=
  match r with Some (LookupFailed _ | NoService | NoPortsMethod) => true | _ => false end.

(* audit_ports_missing_physical_network.py:70-121 NeutronPortRecord *)
Record record := Record_ {
  rec_port_id : json; rec_port_name : json; rec_network_id : json; rec_mac_address : json; rec_device_id : json;
  rec_device_owner : json; rec_status : json; rec_binding_host_id : json; rec_binding_vnic_type : json;
  rec_binding_profile : dict json; rec_physical_network : json;
  baremetal_port_physical_network : json; rec_reason : option reason }.

Section audit.
Variable loads : string -> option json.

(* audit_ports_missing_physical_network.py:206-228 normalize_binding_profile *)
Definition normalize_binding_profile (port : resource) : res (dict json) :=
  match get_value port BINDING_PROFILE_FIELDS with
  | JNull | JStr EmptyString => Ok []
  | JObj d => Ok d
  | JStr raw_profile =>
      match loads raw_profile with
      | None => Err (ValueError ["has invalid JSON binding_profile"])
      | Some (JObj profile) => Ok profile
      | Some _ => Err (ValueError ["binding_profile is not a JSON object"])
      end
  | _ => Err (ValueError ["binding_profile has unsupported type"])
  end.
(* audit_ports_missing_physical_network.py:231-237 local_link_information *)
Definition local_link_information (binding_profile : dict json) : list json :=
  match dict_get "local_link_information" binding_profile with
  | None | Some JNull | Some (JStr EmptyString) => []
  | Some (JArr l) => l
  | Some value => [value]
  end.
(* audit_ports_missing_physical_network.py:240-245 local_link_connections *)
Definition local_link_connections (binding_profile : dict json) : list (dict json) :=
  omap (fun entry => match entry with JObj d => Some d | _ => None end) (local_link_information binding_profile).
(* audit_ports_missing_physical_network.py:248-249 port_id *)
Definition port_id (port : resource) : json := get_value port ["id"].
(* audit_ports_missing_physical_network.py:86-104 from_port *)
Definition port_record (port : resource) (binding_profile : dict json) : record := {|
  rec_port_id := port_id port; rec_port_name := get_value port ["name"]; rec_network_id := get_value port ["network_id"];
  rec_mac_address := get_value port ["mac_address"]; rec_device_id := get_value port ["device_id"];
  rec_device_owner := get_value port ["device_owner"]; rec_status := get_value port ["status"];
  rec_binding_host_id := get_value port BINDING_HOST_ID_FIELDS; rec_binding_vnic_type := get_value port BINDING_VNIC_TYPE_FIELDS;
  rec_binding_profile := binding_profile; rec_physical_network := default JNull (dict_get "physical_network" binding_profile);
  baremetal_port_physical_network := JNull; rec_reason := None |}.
(* audit_ports_missing_physical_network.py:275-278 is_missing_physical_network_record *)
Definition is_missing_physical_network_record (r : record) : bool :=
  truthy (local_link_information r.(rec_binding_profile)) && negb (has_value r.(rec_physical_network)).
(** [record.update(...)] *)
(* audit_ports_missing_physical_network.py:151-155 to_record_update *)
Definition record_update (r : record) (u : json * option reason) : record := {|
  rec_port_id := r.(rec_port_id); rec_port_name := r.(rec_port_name); rec_network_id := r.(rec_network_id);
  rec_mac_address := r.(rec_mac_address); rec_device_id := r.(rec_device_id); rec_device_owner := r.(rec_device_owner);
  rec_status := r.(rec_status); rec_binding_host_id := r.(rec_binding_host_id); rec_binding_vnic_type := r.(rec_binding_vnic_type);
  rec_binding_profile := r.(rec_binding_profile); rec_physical_network := r.(rec_physical_network);
  baremetal_port_physical_network := u.1; rec_reason := u.2 |}.

(** ** Calls *)

(** What the connection offers for Ironic. *)
(* audit_ports_missing_physical_network.py:281-290 get_baremetal_service *)
Inductive service := Exposed | NotExposed | NoPorts.
(** A listing yields ports until it ends or fails; the first matching Ironic port, if
    any. *)
Inductive auditE : Type -> Type :=
| Connect : auditE unit
| ListPorts (fields : list string) : auditE (list resource * option exn)
| GetPort (id : json) : auditE (option resource)
| BaremetalService : auditE service
| BaremetalPort (local_link_connection : dict json) : auditE (option resource)
| UpdatePort (id : json) (binding_profile : dict json) : auditE unit
| Print (columns : list json) (why : option reason) : auditE unit.
Abbreviation audit A := (prog unit auditE A).

(** ** Look-up *)

(* audit_ports_missing_physical_network.py:293-319 _lookup_baremetal_port_physical_network *)
Definition _lookup_baremetal_port_physical_network (local_link_connection : dict json) : audit (json * option reason) :=
  s ← call BaremetalService;
  match s with
  | NotExposed => mret (JNull, Some NoService)
  | NoPorts => mret (JNull, Some NoPortsMethod)
  | Exposed =>
      found ← try_except (p ← call (BaremetalPort local_link_connection); mret (inr p)) (fun e => mret (inl e));
      match found with
      | inl e => mret (JNull, Some (LookupFailed e))
      | inr None => mret (JNull, Some NoMatch)
      | inr (Some port) =>
          let physical_network := get_value port ["physical_network"] in
          if has_value physical_network then mret (physical_network, None) else mret (JNull, Some NoPhysicalNetwork)
      end
  end.
(** The rest of the candidates, with the reason kept so far. *)
(* audit_ports_missing_physical_network.py:343-363 derive_baremetal_port_physical_network *)
Fixpoint derive_from (last_reason : reason) (candidates : list (dict json)) : audit (json * option reason) :=
  match candidates with
  | [] => mret (JNull, Some last_reason)
  | local_link_connection :: candidates =>
      lookup ← _lookup_baremetal_port_physical_network local_link_connection;
      if has_value lookup.1 then mret (lookup.1, None)
      else if is_terminal_failure lookup.2 then mret (JNull, lookup.2)
      else derive_from (default last_reason lookup.2) candidates
  end.
(* audit_ports_missing_physical_network.py:332-363 derive_baremetal_port_physical_network *)
Definition derive_baremetal_port_physical_network (binding_profile : dict json) : audit (json * option reason) :=
  match local_link_connections binding_profile with
  | [] => mret (JNull, Some NoUsableLink)
  | candidates => derive_from NoMatch candidates
  end.

(** ** Scan *)

(* audit_ports_missing_physical_network.py:373-393 build_port_record *)
Definition build_port_record (port : resource) (derive_baremetal : bool) : audit (option record) :=
  match normalize_binding_profile port with
  | Err e => if is_ValueError e then mret None else Raise e
  | Ok profile =>
      let record := port_record port profile in
      if negb (is_missing_physical_network_record record) then mret None
      else if derive_baremetal then
        u ← derive_baremetal_port_physical_network profile;
        mret (Some (record_update record u))
      else mret (Some record)
  end.
(* audit_ports_missing_physical_network.py:396-410 detailed_neutron_port *)
Definition detailed_neutron_port (port : resource) : audit (option resource) :=
  if negb (truthy (port_id port)) then mret None
  else try_except (call (GetPort (port_id port))) (fun _ => mret None).

(* audit_ports_missing_physical_network.py:413-422 build_missing_physical_network_record *)
Definition build_missing_physical_network_record (port : resource) (derive_baremetal : bool) : audit (option record) :=
  detailed_port ← detailed_neutron_port port;
  match detailed_port with
  | None => mret None
  | Some port => build_port_record port derive_baremetal
  end.

(* audit_ports_missing_physical_network.py:63-67 AuditResult *)
Record audit_result := AuditResult { records : list record; scanned : Z; saw_binding_profile_field : bool }.
(** The generators: what a listed port is a candidate for, if it is one. *)
(* audit_ports_missing_physical_network.py:425-430 fast_port_candidates *)
Definition fast_port_candidates (port : resource) : audit (option (resource * bool)) :=
  mret (Some (port, has_field port BINDING_PROFILE_FIELDS)).
(* audit_ports_missing_physical_network.py:433-437 detailed_port_candidates *)
Definition detailed_port_candidates (port : resource) : audit (option (resource * bool)) :=
  detailed ← detailed_neutron_port port;
  mret (match detailed with Some p => Some (p, false) | None => None end).
(** A listing that fails raises after the ports it has yielded. *)
(* audit_ports_missing_physical_network.py:440-466 scan_candidates *)
Definition scan_candidates (fields : list string) (candidates : resource -> audit (option (resource * bool)))
    (derive_baremetal : bool) : audit audit_result :=
  listing ← call (ListPorts fields);
  result ← fold_each (fun acc port =>
      candidate ← candidates port;
      match candidate with
      | None => mret acc
      | Some (port, has_binding_profile_field) =>
          r ← build_port_record port derive_baremetal;
          mret (AuditResult (match r with Some r => acc.(records) ++ [r] | None => acc.(records) end)
                  (acc.(scanned) + 1) (acc.(saw_binding_profile_field) || has_binding_profile_field))
      end) listing.1 (AuditResult [] 0 false);
  match listing.2 with Some e => Raise e | None => mret result end.
(* audit_ports_missing_physical_network.py:469-470 scan_fast *)
Definition scan_fast : bool -> audit audit_result := scan_candidates PORT_FIELDS fast_port_candidates.
(* audit_ports_missing_physical_network.py:473-474 scan_slow *)
Definition scan_slow : bool -> audit audit_result := scan_candidates ID_PORT_FIELDS detailed_port_candidates.
(* audit_ports_missing_physical_network.py:477-485 build_missing_physical_network_report *)
Definition build_missing_physical_network_report (derive_baremetal : bool) : audit (list record) :=
  result ← scan_fast derive_baremetal;
  if result.(saw_binding_profile_field) then mret result.(records)
  else result ← scan_slow derive_baremetal; mret result.(records).

(** ** Repair *)

(* audit_ports_missing_physical_network.py:158-165 FixSummary *)
Record fix_summary := FixSummary { updated : Z; failed : Z; skipped : Z }.
(* audit_ports_missing_physical_network.py:488-498 apply_fix *)
Definition apply_fix (r : record) : audit bool :=
  let profile := dict_set "physical_network" r.(baremetal_port_physical_network) r.(rec_binding_profile) in
  try_except (_ ← call (UpdatePort r.(rec_port_id) profile); mret true) (fun _ => mret false).
(* audit_ports_missing_physical_network.py:501-516 apply_fix_summary *)
Definition apply_fix_summary (records : list record) : audit fix_summary :=
  fold_each (fun acc r =>
    if negb (truthy r.(baremetal_port_physical_network)) then mret (FixSummary acc.(updated) acc.(failed) (acc.(skipped) + 1))
    else ok ← apply_fix r;
         mret (if (ok : bool) then FixSummary (acc.(updated) + 1) acc.(failed) acc.(skipped)
               else FixSummary acc.(updated) (acc.(failed) + 1) acc.(skipped))) records (FixSummary 0 0 0).

(** ** Report *)

(* audit_ports_missing_physical_network.py:526-535 record_to_tsv *)
Definition record_to_tsv (r : record) : list json :=
  [r.(rec_binding_host_id); r.(rec_port_id); r.(rec_port_name); r.(rec_network_id); r.(baremetal_port_physical_network)].
(* audit_ports_missing_physical_network.py:43-50 OUTPUT_COLUMNS *)
Definition OUTPUT_COLUMNS : list json :=
  map JStr ["NODE_ID"; "PORT_ID"; "NAME"; "NETWORK_ID"; "BAREMETAL_PORT_PHYSICAL_NETWORK"; "REASON"].
(* audit_ports_missing_physical_network.py:538-541 print_tsv_report *)
Definition print_tsv_report (records : list record) : audit unit :=
  _ ← call (Print OUTPUT_COLUMNS None);
  for_each records (fun r => call (Print (record_to_tsv r) r.(rec_reason))).

(** [try: p except Exception: return 1] before the rest. *)
Definition or_exit {A} (p : audit A) (k : A -> audit Z) : audit Z :=
  r ← try_except (a ← p; mret (Some a)) (fun _ => mret None);
  match r with Some a => k a | None => mret 1%Z end.
(* audit_ports_missing_physical_network.py:599-651 main *)
Definition main (derive_option execute : bool) : audit Z :=
  let derive_baremetal := derive_option || execute in
  or_exit (call Connect) (fun _ =>
  or_exit (scan_fast derive_baremetal) (fun result =>
  let finish result :=
    summary ← (if execute then apply_fix_summary result.(records) else mret (FixSummary 0 0 0));
    _ ← print_tsv_report result.(records);
    mret (if truthy summary.(failed) then 1%Z else 0%Z) in
  if result.(saw_binding_profile_field) then finish result
  else or_exit (scan_slow derive_baremetal) finish)).

(** ** Properties *)

(** A port that a run has read. *)
Definition seen (p : resource) (tr : list (event auditE)) : Prop :=
  (exists fields ports failure, Ev (ListPorts fields) (inr (ports, failure)) ∈ tr /\ p ∈ ports) \/
  (exists id, Ev (GetPort id) (inr (Some p)) ∈ tr).
(** A matching Ironic port that a run has found has the physical network [v]. *)
Definition found (profile : dict json) (v : json) (tr : list (event auditE)) : Prop :=
  exists link q, link ∈ local_link_connections profile /\ Ev (BaremetalPort link) (inr (Some q)) ∈ tr /\
    get_value q ["physical_network"] = v /\ has_value v = true.
(** A record made of a port that was read, with the network that was found. *)
Definition sound (r : record) (tr : list (event auditE)) : Prop :=
  (exists p, seen p tr /\ normalize_binding_profile p = inr r.(rec_binding_profile) /\ port_id p = r.(rec_port_id)) /\
  local_link_information r.(rec_binding_profile) <> [] /\
  has_value (default JNull (dict_get "physical_network" r.(rec_binding_profile))) = false /\
  (truthy r.(baremetal_port_physical_network) = true -> found r.(rec_binding_profile) r.(baremetal_port_physical_network) tr).

(** A port is written only when asked to, as a sound record says. *)
Definition allowed (execute : bool) (pre : list (event auditE)) (ev : event auditE) : Prop :=
  match ev with
  | Ev (UpdatePort id profile) _ => execute = true /\ exists r, sound r pre /\ id = r.(rec_port_id) /\
      truthy r.(baremetal_port_physical_network) = true /\
      profile = dict_set "physical_network" r.(baremetal_port_physical_network) r.(rec_binding_profile)
  | _ => True
  end.

Lemma seen_mono p tr tr' : tr `prefix_of` tr' -> seen p tr -> seen p tr'.
Proof. intros [k ->] [(f & l & x & H & ?)|(id & H)]; [left; exists f, l, x|right; exists id]; rewrite elem_of_app; eauto. Qed.
Lemma found_mono profile v tr tr' : tr `prefix_of` tr' -> found profile v tr -> found profile v tr'.
Proof. intros [k ->] (l & q & ? & H & ?). exists l, q. rewrite elem_of_app. eauto. Qed.
Lemma sound_mono r tr tr' : tr `prefix_of` tr' -> sound r tr -> sound r tr'.
Proof.
  intros Hp ((p & Hs & Hn) & Hl & Hv & Hf). split_and!; [|done|done|]; [exists p; split; [by eapply seen_mono|done]|].
  intros Ht. eapply found_mono; eauto.
Qed.

Lemma truthy_has_value v : truthy v = true -> has_value v = true.
Proof. by destruct v. Qed.

(** *** Reading *)

Definition reads (R : Type) (op : auditE R) : Prop := match op with UpdatePort _ _ => False | _ => True end.
Lemma keeps_reads execute {A} (p : audit A) tr Q :
  calls_only reads p -> disciplined (allowed execute) tr -> wp step_trace p Q tt tr -> keeps (allowed execute) p tt tr Q.
Proof.
  intros Hc Hd Hw. assert (keeps (allowed execute) p tt tr (fun _ _ _ => True)) as Hk.
  { apply keeps_calls; [|done]. clear -Hc. induction p as [a|e|R op k IH|k IH|g' p IH]; cbn in *; [done|done| |auto|auto].
    destruct Hc as [Hop Hk]. split; [|auto]. intros pre r. by destruct op. }
  unfold keeps in *. eapply wp_mono; [|exact (wp_conj _ _ _ _ _ _ Hk Hw)]. intros r g' tr' [(? & ? & _) ?]. done.
Qed.

Lemma calls_lookup link : calls_only reads (_lookup_baremetal_port_physical_network link).
Proof. unfold _lookup_baremetal_port_physical_network. calls_go; try done; by apply calls_call. Qed.
Lemma calls_derive_from candidates : forall why, calls_only reads (derive_from why candidates).
Proof.
  induction candidates as [|l candidates IH]; intros why; [done|]. cbn [derive_from].
  apply calls_bind; [apply calls_lookup|]. intros u. destruct (has_value u.1); [done|]. destruct (is_terminal_failure u.2); [done|apply IH].
Qed.
Lemma calls_build port derive : calls_only reads (build_port_record port derive).
Proof.
  unfold build_port_record. destruct (normalize_binding_profile port) as [e|profile]; [by destruct (is_ValueError e)|].
  cbn zeta. destruct (is_missing_physical_network_record _); [|done]. destruct derive; [|done]. cbn [negb].
  apply calls_bind; [|done]. unfold derive_baremetal_port_physical_network.
  destruct (local_link_connections profile); [done|apply calls_derive_from].
Qed.
Lemma calls_detailed port : calls_only reads (detailed_port_candidates port).
Proof.
  apply calls_bind; [|done]. unfold detailed_neutron_port. destruct (truthy (port_id port)); [|done].
  apply calls_try; [by apply calls_call|done].
Qed.
Lemma calls_scan fields candidates derive :
  (forall x, calls_only reads (candidates x)) -> calls_only reads (scan_candidates fields candidates derive).
Proof.
  intros Hc. apply calls_bind; [by apply calls_call|]. intros listing. apply calls_bind; [|intros r; by destruct listing.2].
  apply calls_fold_each. intros acc x. apply calls_bind; [done|]. intros [[p b]|]; [|done].
  apply calls_bind; [apply calls_build|done].
Qed.

Lemma wp_lookup link tr :
  wp step_trace (_lookup_baremetal_port_physical_network link) (fun r _ tr' =>
    match r with
    | inr u => has_value u.1 = true -> exists q, Ev (BaremetalPort link) (inr (Some q)) ∈ tr' /\ get_value q ["physical_network"] = u.1
    | inl _ => True
    end) tt tr.
Proof.
  unfold _lookup_baremetal_port_physical_network. wp_pure. apply wp_call. intros [e|[| |]] tr1 _; wp_simp; [done| |by wp_pure..].
  do 3 wp_pure. apply wp_call. intros [e|o] tr2 Htr2; wp_simp; [by repeat wp_pure|]. repeat wp_pure.
  destruct o as [q|]; [|by wp_pure]. cbn zeta. destruct (has_value (get_value q _)) eqn:Hv; wp_pure; [|done].
  intros _. exists q. unfold step_trace in Htr2. subst tr2. split; [|done]. apply elem_of_app. right. by left.
Qed.
Lemma wp_derive_from profile candidates : forall why tr,
  Forall (fun l => l ∈ local_link_connections profile) candidates ->
  wp step_trace (derive_from why candidates) (fun r _ tr' =>
    match r with inr u => has_value u.1 = true -> found profile u.1 tr' | inl _ => True end) tt tr.
Proof.
  induction candidates as [|l candidates IH]; intros why tr Hall; [done|]. apply Forall_cons in Hall as [Hl Hall]. cbn [derive_from].
  wp_pure. eapply wp_mono; [|apply wp_lookup]. intros [e|u] [] tr1 Hu; [done|]. cbn beta iota.
  destruct (has_value u.1) eqn:Hv.
  { wp_pure. intros _. destruct (Hu eq_refl) as (q & ? & ?). exists l, q. done. }
  destruct (is_terminal_failure u.2); [by wp_pure|]. by apply IH.
Qed.

(** *** What is to be reported *)

(** The binding profile of a port, if it is one: a dict, nothing, or the JSON text of
    a dict. *)
Definition profile_of (p : resource) : option (dict json) :=
  match get_value p ["binding_profile"; "binding:profile"] with
  | JNull => Some []
  | JObj d => Some d
  | JStr text => if decide (text = "") then Some []
                 else match loads text with Some (JObj d) => Some d | _ => None end
  | _ => None
  end.
(** The links of a profile that can be looked up: one dict, or the dicts of a list. *)
Definition links_of (profile : dict json) : list (dict json) :=
  match dict_get "local_link_information" profile with
  | Some (JObj d) => [d]
  | Some (JArr l) => omap (fun v => match v with JObj d => Some d | _ => None end) l
  | _ => []
  end.
(** Nothing is there: no value, [None], an empty text; or, of links, an empty list. *)
Definition absent (v : option json) : bool :=
  match v with None | Some JNull => true | Some (JStr text) => bool_decide (text = "") | _ => false end.
Definition no_links (v : option json) : bool := absent v || match v with Some (JArr l) => bool_decide (length l = 0%nat) | _ => false end.
(** A port is to be reported when its profile has links and no physical network. *)
Definition missing (p : resource) : bool :=
  match profile_of p with
  | Some profile => negb (no_links (dict_get "local_link_information" profile)) && absent (dict_get "physical_network" profile)
  | None => false
  end.

Lemma normalize_profile_of p :
  match normalize_binding_profile p with
  | inr profile => profile_of p = Some profile
  | inl e => profile_of p = None /\ is_ValueError e = true
  end.
Proof.
  unfold normalize_binding_profile, profile_of. change BINDING_PROFILE_FIELDS with ["binding_profile"; "binding:profile"].
  destruct (get_value p _) as [| | |text| |]; try done. destruct text as [|c text]; [done|].
  rewrite decide_False by done. by destruct (loads _) as [[]|].
Qed.
Lemma links_of_connections profile : local_link_connections profile = links_of profile.
Proof.
  unfold local_link_connections, local_link_information, links_of.
  destruct (dict_get _ profile) as [[| | |[]| |]|]; done.
Qed.
Lemma missing_record p profile :
  profile_of p = Some profile -> missing p = is_missing_physical_network_record (port_record p profile).
Proof.
  intros Hp. unfold missing, is_missing_physical_network_record. rewrite Hp.
  assert (forall v, has_value (default JNull v) = negb (absent v)) as Habs by by intros [[| | |[]| |]|].
  cbn [port_record rec_binding_profile rec_physical_network]. rewrite Habs, negb_involutive. f_equal. unfold local_link_information.
  destruct (dict_get "local_link_information" profile) as [[| | |[]|[]|]|]; done.
Qed.

(** The look-ups for the links of one port, and the network they yield: that of the
    first link whose first matching Ironic port has one, if no look-up before failed. *)
Inductive looked_up : list (dict json) -> list (event auditE) -> json -> Prop :=
| looked_none : looked_up [] [] JNull
| looked_found link links q :
    absent (Some (get_value q ["physical_network"])) = false ->
    looked_up (link :: links) [Ev BaremetalService (inr Exposed); Ev (BaremetalPort link) (inr (Some q))]
      (get_value q ["physical_network"])
| looked_on link links o tr v :
    (forall q, o = Some q -> absent (Some (get_value q ["physical_network"])) = true) -> looked_up links tr v ->
    looked_up (link :: links) (Ev BaremetalService (inr Exposed) :: Ev (BaremetalPort link) (inr o) :: tr) v
| looked_failed link links e :
    looked_up (link :: links) [Ev BaremetalService (inr Exposed); Ev (BaremetalPort link) (inl e)] JNull
| looked_nowhere link links s : s <> Exposed -> looked_up (link :: links) [Ev BaremetalService (inr s)] JNull.

(** The record of a port: its columns, its profile, and the network that was looked
    up for it. *)
Record describes (derive : bool) (tr : list (event auditE)) (p : resource) (r : record) : Prop := {
  described_columns : record_to_tsv r =
    [get_value p ["binding_host_id"; "binding:host_id"]; get_value p ["id"]; get_value p ["name"];
     get_value p ["network_id"]; r.(baremetal_port_physical_network)];
  described_id : r.(rec_port_id) = get_value p ["id"];
  described_profile : profile_of p = Some r.(rec_binding_profile);
  described_network :
    if derive then exists before looked after, tr = before ++ looked ++ after /\
      looked_up (links_of r.(rec_binding_profile)) looked r.(baremetal_port_physical_network)
    else r.(baremetal_port_physical_network) = JNull }.
Lemma describes_mono derive p r tr tr' : tr `prefix_of` tr' -> describes derive tr p r -> describes derive tr' p r.
Proof.
  intros [k ->] [Hc Hi Hp Hn]. split; [done|done|done|]. destruct derive; [|done].
  destruct Hn as (before & looked & after & -> & Hl). exists before, looked, (after ++ k). by rewrite <- !app_assoc.
Qed.

Lemma has_value_absent v : has_value v = negb (absent (Some v)).
Proof. by destruct v as [| | |[]| |]. Qed.
Lemma wp_derive_looked candidates : forall why tr,
  wp step_trace (derive_from why candidates) (fun r _ tr' =>
    match r with inr u => exists looked, tr' = tr ++ looked /\ looked_up candidates looked u.1 | inl _ => True end) tt tr.
Proof.
  induction candidates as [|link candidates IH]; intros why tr; cbn [derive_from].
  { wp_pure. exists []. rewrite app_nil_r. split; [done|constructor]. }
  wp_pure. unfold _lookup_baremetal_port_physical_network. wp_pure. apply wp_call. intros [e|sv] tr1 ->; wp_simp; [done|].
  assert (sv = Exposed \/ sv <> Exposed) as [->|Hsv] by (destruct sv; auto).
  2: { destruct sv; [done|..]; repeat wp_pure; cbn [fst snd has_value is_terminal_failure]; wp_pure; eexists; (split; [done|]); by constructor. }
  do 3 wp_pure. apply wp_call. intros [e|o] tr2 ->; wp_simp.
  { repeat wp_pure. cbn [fst snd has_value is_terminal_failure]. wp_pure. rewrite <- app_assoc. eexists. split; [done|constructor]. }
  repeat wp_pure.
  assert (forall why', (forall q, o = Some q -> absent (Some (get_value q ["physical_network"])) = true) ->
    wp step_trace (derive_from why' candidates) (fun r _ tr' =>
      match r with inr u => exists looked, tr' = tr ++ looked /\ looked_up (link :: candidates) looked u.1 | inl _ => True end) tt
      ((tr ++ [Ev BaremetalService (inr Exposed)]) ++ [Ev (BaremetalPort link) (inr o)])) as Hnext.
  { intros why' Ho. eapply wp_mono; [|apply IH]. intros [e|u] [] tr3; [done|]. intros (looked & -> & Hl).
    rewrite <- !app_assoc. eexists. split; [done|]. by apply looked_on. }
  destruct o as [q|]; [|wp_pure; cbn [fst snd has_value is_terminal_failure]; by apply Hnext]. cbn zeta.
  rewrite has_value_absent. destruct (absent (Some (get_value q _))) eqn:Hv; cbn [negb]; wp_pure; cbn [fst snd].
  - cbn [has_value is_terminal_failure]. apply Hnext. by intros q' [= <-].
  - rewrite has_value_absent, Hv. cbn [negb]. wp_pure. rewrite <- app_assoc. eexists. split; [done|by constructor].
Qed.

Lemma wp_build_port_record p derive tr :
  seen p tr ->
  wp step_trace (build_port_record p derive) (fun r _ tr' => tr `prefix_of` tr' /\
    match r with
    | inr o => match o with Some r => missing p = true /\ describes derive tr' p r /\ sound r tr' | None => missing p = false end
    | inl _ => True
    end) tt tr.
Proof.
  intros Hp. apply wp_conj; [apply wp_trace_prefix|]. unfold build_port_record. pose proof (normalize_profile_of p) as Hprof.
  destruct (normalize_binding_profile p) as [e|profile] eqn:Hn.
  { destruct Hprof as [Hnone ->]. wp_pure. unfold missing. by rewrite Hnone. }
  cbn zeta. rewrite (missing_record p profile Hprof).
  destruct (is_missing_physical_network_record _) eqn:Hm; cbn [negb]; [|by wp_pure].
  unfold is_missing_physical_network_record in Hm. apply andb_true_iff in Hm as [Hl Hv%negb_true_iff].
  assert (local_link_information profile <> []) as Hne by (intros Heq; cbn in Hl; by rewrite Heq in Hl).
  destruct derive.
  - wp_pure.
    eapply wp_mono with (Q := fun r _ tr' => match r with
      | inr u => exists looked, tr' = tr ++ looked /\ looked_up (links_of profile) looked u.1 /\ (has_value u.1 = true -> found profile u.1 tr')
      | inl _ => True end).
    2: { unfold derive_baremetal_port_physical_network. rewrite <- (links_of_connections profile).
         destruct (local_link_connections profile) as [|l cs] eqn:Hcs.
         - apply wp_mret. exists []. rewrite app_nil_r. split; [done|]. split; [constructor|done].
         - rewrite <- Hcs. eapply wp_mono; [|apply wp_conj; [apply wp_derive_looked|apply (wp_derive_from profile); by apply Forall_forall]].
           intros [e|u] [] tr1 [Hlk Hf]; [done|]. destruct Hlk as (looked & -> & Hlk). eauto. }
    intros [e|u] [] tr1 Hu; [done|]. destruct Hu as (looked & -> & Hlk & Hf). wp_pure. split_and!; [done| |].
    + split; [done|done|done|]. exists tr, looked, []. by rewrite app_nil_r.
    + split; [|split; [done|split; [done|]]].
      * exists p. split; [|done]. eapply seen_mono; [|done]. by apply prefix_app_r.
      * intros Ht. apply Hf. by apply truthy_has_value.
  - wp_pure. split_and!; [done|by split|]. split; [by exists p|]. split; [done|]. split; [done|]. intros Ht. discriminate Ht.
Qed.

(** *** Scanning *)

(** The candidates [os] of the ports [ps], one by one. *)
Section scanning.
Variable candidates : resource -> audit (option (resource * bool)).
Variable yields : resource -> option (resource * bool) -> list (event auditE) -> Prop.
Hypothesis yields_mono : forall x o tr tr', tr `prefix_of` tr' -> yields x o tr -> yields x o tr'.
Hypothesis yields_seen : forall x p b tr, yields x (Some (p, b)) tr -> (exists f l e, Ev (ListPorts f) (inr (l, e)) ∈ tr /\ x ∈ l) -> seen p tr.
Hypothesis wp_candidates : forall x tr, wp step_trace (candidates x) (fun r _ tr' => tr `prefix_of` tr' /\
  match r with inr o => yields x o tr' | inl _ => False end) tt tr.

(** The result of a scan of [ports]. *)
Definition scanned_as (derive : bool) (ports : list resource) (result : audit_result) (tr : list (event auditE)) : Prop :=
  exists os, Forall2 (fun x o => yields x o tr) ports os /\
    let cs := omap (fun o => o) os in
    Forall2 (describes derive tr) (List.filter missing (map fst cs)) result.(records) /\
    result.(saw_binding_profile_field) = existsb snd cs /\
    Forall (fun r => sound r tr) result.(records).

Lemma wp_scan fields derive tr :
  wp step_trace (scan_candidates fields candidates derive) (fun r _ tr' =>
    match r with
    | inr result => exists ports, Ev (ListPorts fields) (inr (ports, None)) ∈ tr' /\ scanned_as derive ports result tr'
    | inl _ => True
    end) tt tr.
Proof.
  unfold scan_candidates. wp_pure. apply wp_call. intros [e|[ports failure]] tr1 Htr1; wp_simp; [done|]. cbn [fst snd].
  assert (Ev (ListPorts fields) (inr (ports, failure)) ∈ tr1) as Hlist
    by (unfold step_trace in Htr1; subst tr1; apply elem_of_app; right; by left). clear Htr1. wp_pure.
  eapply wp_mono; [|apply (wp_fold_each_seen _ _ _ _ (fun done acc _ tr' => tr1 `prefix_of` tr' /\ scanned_as derive done acc tr')
    (fun r _ tr' => match r with inr acc => tr1 `prefix_of` tr' /\ scanned_as derive ports acc tr' | inl _ => True end))].
  - intros [e|result] [] tr2 Hr; [done|]. destruct Hr as [[k ->] Hs]. destruct failure; wp_pure; [done|].
    exists ports. split; [|done]. apply elem_of_app. by left.
  - split; [done|]. exists []. by repeat split.
  - intros done x later acc [] tr2 Heq [Hp2 (os & Hos & Hids & Hsaw & Hall)]. wp_pure.
    eapply wp_mono; [|apply wp_candidates]. intros [e|o] [] tr3 [Hp3 Hy]; [done|]. cbn beta iota.
    assert (forall tr4, tr3 `prefix_of` tr4 -> Forall2 (fun x o => yields x o tr4) (done ++ [x]) (os ++ [o])) as Hos4.
    { intros tr4 Hp4. apply Forall2_app; [|by constructor; [eapply yields_mono|constructor]].
      eapply Forall2_impl; [exact Hos|]. intros y oy Hyo. apply (yields_mono y oy tr2); [by etrans|exact Hyo]. }
    assert (forall tr4, tr3 `prefix_of` tr4 -> Forall (fun r => sound r tr4) (records acc)) as Hall4.
    { intros tr4 Hp4. eapply Forall_impl; [exact Hall|]. intros r Hr. apply (sound_mono r tr2); [by etrans|exact Hr]. }
    assert (forall tr4, tr3 `prefix_of` tr4 ->
      Forall2 (describes derive tr4) (List.filter missing (map fst (omap (fun o => o) os))) (records acc)) as Hids4.
    { intros tr4 Hp4. eapply Forall2_impl; [exact Hids|]. intros q r. apply (describes_mono derive q r tr2). by etrans. }
    assert (forall o', omap (fun o => o) (os ++ [o']) = omap (fun o : option (resource * bool) => o) os ++ omap (fun o => o) [o']) as Homap.
    { intros o'. clear. induction os as [|[y|] os IH]; [done| |done]. cbn. f_equal. exact IH. }
    destruct o as [[p b]|].
    + wp_pure. eapply wp_mono; [|apply wp_build_port_record; eapply yields_seen; [exact Hy|]].
      2: { exists fields, ports, failure. split; [|rewrite Heq; apply elem_of_app; right; by left].
           destruct Hp2 as [k2 ->], Hp3 as [k3 ->]. rewrite !elem_of_app. left. by left. }
      intros [e|rec] [] tr4 [Hp4 Hr]; [done|]. cbn beta iota. wp_pure.
      split; [by etrans; [exact Hp2|]; etrans|]. exists (os ++ [Some (p, b)]). split; [by apply Hos4|]. cbn zeta.
      rewrite Homap, map_app, List.filter_app, existsb_app. cbn [records saw_binding_profile_field omap list_omap map List.filter existsb fst snd].
      rewrite Hsaw, orb_false_r. destruct rec as [rec|].
      * destruct Hr as (Hm & Hid & Hs). rewrite Hm.
        split; [apply Forall2_app; [by apply Hids4|constructor; [exact Hid|constructor]]|]. split; [done|].
        apply Forall_app. split; [by apply Hall4|by constructor].
      * rewrite Hr, app_nil_r. split; [by apply Hids4|]. split; [done|by apply Hall4].
    + wp_pure. split; [by etrans|]. exists (os ++ [None]). split; [by apply Hos4|]. cbn zeta. rewrite Homap. cbn [omap list_omap].
      rewrite app_nil_r. split; [by apply Hids4|]. split; [done|by apply Hall4].
  - done.
Qed.
End scanning.

Definition fast_yields (x : resource) (o : option (resource * bool)) (_ : list (event auditE)) : Prop :=
  o = Some (x, has_field x BINDING_PROFILE_FIELDS).
(** A port with an id is read; one that cannot be is left out. *)
Definition slow_yields (x : resource) (o : option (resource * bool)) (tr : list (event auditE)) : Prop :=
  match o with
  | Some (p, b) => b = false /\ Ev (GetPort (port_id x)) (inr (Some p)) ∈ tr
  | None => truthy (port_id x) = false \/ Ev (GetPort (port_id x)) (inr None) ∈ tr \/ exists e, Ev (GetPort (port_id x)) (inl e) ∈ tr
  end.
Lemma slow_yields_mono x o tr tr' : tr `prefix_of` tr' -> slow_yields x o tr -> slow_yields x o tr'.
Proof.
  intros [k ->]. unfold slow_yields. destruct o as [[p b]|].
  - intros [? ?]. split; [done|]. apply elem_of_app. by left.
  - intros [?|[?|[e ?]]]; [by left|right; left; apply elem_of_app; by left|right; right; exists e; apply elem_of_app; by left].
Qed.
Lemma wp_detailed x tr :
  wp step_trace (detailed_port_candidates x) (fun r _ tr' => tr `prefix_of` tr' /\
    match r with inr o => slow_yields x o tr' | inl _ => False end) tt tr.
Proof.
  apply wp_conj; [apply wp_trace_prefix|]. unfold detailed_port_candidates, detailed_neutron_port. wp_pure.
  destruct (truthy (port_id x)) eqn:Hid; cbn [negb]; [|repeat wp_pure; by left]. wp_pure. apply wp_call.
  intros r tr' Htr. unfold step_trace in Htr. subst tr'.
  destruct r as [e|[p|]]; repeat wp_pure; cbn [slow_yields].
  - right. right. exists e. apply elem_of_app. right. by left.
  - split; [done|]. apply elem_of_app. right. by left.
  - right. left. apply elem_of_app. right. by left.
Qed.

Lemma wp_scan_fast derive tr :
  wp step_trace (scan_fast derive) (fun r _ tr' =>
    match r with
    | inr result => exists ports, Ev (ListPorts PORT_FIELDS) (inr (ports, None)) ∈ tr' /\ scanned_as fast_yields derive ports result tr'
    | inl _ => True
    end) tt tr.
Proof.
  apply wp_scan; [done| |].
  - intros x p b tr0 [= -> ->] (f & l & e & ? & ?). left. eauto.
  - intros x tr0. unfold fast_port_candidates. wp_pure. done.
Qed.
Lemma wp_scan_slow derive tr :
  wp step_trace (scan_slow derive) (fun r _ tr' =>
    match r with
    | inr result => exists ports, Ev (ListPorts ID_PORT_FIELDS) (inr (ports, None)) ∈ tr' /\ scanned_as slow_yields derive ports result tr'
    | inl _ => True
    end) tt tr.
Proof. apply wp_scan; [apply slow_yields_mono|intros x p b tr0 [_ ?] _; right; eauto|apply wp_detailed]. Qed.

(** *** Repair *)

Definition fix_call (r : record) : auditE unit :=
  UpdatePort r.(rec_port_id) (dict_set "physical_network" r.(baremetal_port_physical_network) r.(rec_binding_profile)).
Definition failed_update (ev : event auditE) : bool :=
  match ev with Ev (UpdatePort _ _) (inl _) => true | _ => false end.
Definition failures (tr : list (event auditE)) : nat := length (List.filter failed_update tr).
Lemma failures_app tr1 tr2 : failures (tr1 ++ tr2) = (failures tr1 + failures tr2)%nat.
Proof. unfold failures. by rewrite List.filter_app, length_app. Qed.
Lemma failures_reads tr : Forall (fun ev => match ev with Ev op _ => reads _ op end) tr -> failures tr = 0%nat.
Proof. unfold failures. induction 1 as [|[R op r] tr Hop _ IH]; [done|]. cbn. destruct op; done. Qed.

(** The calls that repair the records [rs]: one for each with a network, in order. *)
Definition repairs (rs : list record) (tr : list (event auditE)) : Prop :=
  Forall2 (fun r ev => exists answer, ev = Ev (fix_call r) answer)
    (List.filter (fun r => truthy r.(baremetal_port_physical_network)) rs) tr.

Lemma wp_apply_fix_summary rs tr :
  wp step_trace (apply_fix_summary rs) (fun r _ tr' => exists new summary, tr' = tr ++ new /\ r = inr summary /\ repairs rs new /\
    summary.(failed) = Z.of_nat (failures new) /\
    (summary.(updated) + summary.(failed) + summary.(skipped))%Z = Z.of_nat (length rs)) tt tr.
Proof.
  apply (wp_fold_each_seen _ _ _ _ (fun seen_ acc _ tr' => exists new, tr' = tr ++ new /\ repairs seen_ new /\
    acc.(failed) = Z.of_nat (failures new) /\ (acc.(updated) + acc.(failed) + acc.(skipped))%Z = Z.of_nat (length seen_))).
  - exists []. rewrite app_nil_r. repeat split. constructor.
  - intros seen_ r later acc [] tr1 _ (new & -> & Hrep & Hf & Hsum). unfold repairs in *.
    assert (forall acc' new', failed acc' = Z.of_nat (failures (new ++ new')) ->
      (updated acc' + failed acc' + skipped acc')%Z = (Z.of_nat (length seen_) + 1)%Z ->
      Forall2 (fun r ev => exists answer, ev = Ev (fix_call r) answer) (if truthy (baremetal_port_physical_network r) then [r] else []) new' ->
      exists new0, tr ++ new ++ new' = tr ++ new0 /\
        Forall2 (fun r ev => exists answer, ev = Ev (fix_call r) answer)
          (List.filter (fun r => truthy (baremetal_port_physical_network r)) (seen_ ++ [r])) new0 /\
        failed acc' = Z.of_nat (failures new0) /\
        (updated acc' + failed acc' + skipped acc')%Z = Z.of_nat (length (seen_ ++ [r]))) as Hleaf.
    { intros acc' new' Hf' Hs' Hnew. exists (new ++ new'). split; [done|]. rewrite List.filter_app, length_app. cbn [List.filter length].
      split; [by apply Forall2_app; [|destruct (truthy _)]|]. split; [done|lia]. }
    destruct (truthy (baremetal_port_physical_network r)) eqn:Ht; cbn [negb].
    2: { wp_pure. specialize (Hleaf (FixSummary (updated acc) (failed acc) (skipped acc + 1)) []). rewrite app_nil_r in Hleaf.
         apply Hleaf; cbn; [done|lia|constructor]. }
    unfold apply_fix. cbn zeta. do 3 wp_pure. apply wp_call. intros answer tr2 ->. rewrite <- app_assoc.
    destruct answer as [e|[]]; repeat wp_pure; apply Hleaf; cbn; rewrite ?failures_app; cbn; try lia; by repeat econstructor.
  - intros acc [] tr1 (new & -> & ?). exists new, acc. done.
Qed.

Lemma keeps_apply_fix_summary rs tr :
  disciplined (allowed true) tr -> Forall (fun r => sound r tr) rs ->
  keeps (allowed true) (apply_fix_summary rs) tt tr (fun _ _ _ => True).
Proof.
  intros Hd Hall. eapply keeps_mono; [|done].
  apply (keeps_fold_each (allowed true) _ _ _ (fun _ _ tr' => tr `prefix_of` tr')); [done|done|].
  intros r acc [] tr1 Hr Hd1 Hpre. case_match; [by apply keeps_ret|].
  assert (sound r tr1) as Hs by (eapply sound_mono; [done|]; by apply (proj1 (Forall_forall _ _) Hall)).
  eapply keeps_bind with (Q1 := fun _ _ tr' => tr1 `prefix_of` tr'); [|done|intros ok [] tr2 Hd2 _ H2; apply keeps_ret; [done|by etrans]].
  unfold apply_fix. eapply keeps_try with (Q1 := fun _ _ tr' => tr1 `prefix_of` tr'); [|done|intros e [] tr2 Hd2 _ ?; by apply keeps_ret].
  eapply keeps_bind with (Q1 := fun _ _ tr' => tr1 `prefix_of` tr'); [|done|intros [] [] tr2 Hd2 _ ?; by apply keeps_ret].
  apply keeps_call; [done| |intros answer; by apply prefix_app_r].
  intros answer. split; [done|]. exists r. split; [done|]. split; [done|]. split; [|done]. by destruct (truthy _).
Qed.

(** *** The script *)

(** The ports of a scan: those listed with their profiles, or, when no listed port
    has one, those read one by one. *)
Definition audited (ps : list resource) (tr : list (event auditE)) : Prop :=
  exists listed, Ev (ListPorts PORT_FIELDS) (inr (listed, None)) ∈ tr /\
    if existsb (fun p => has_field p BINDING_PROFILE_FIELDS) listed then ps = listed
    else exists ids os, Ev (ListPorts ID_PORT_FIELDS) (inr (ids, None)) ∈ tr /\
           Forall2 (fun x o => slow_yields x o tr) ids os /\ ps = map fst (omap (fun o => o) os).
(** The records of these ports that lack a physical network. *)
Definition reported (derive : bool) (rs : list record) (tr : list (event auditE)) : Prop :=
  exists ps, audited ps tr /\ Forall2 (describes derive tr) (List.filter missing ps) rs.

Lemma fast_scanned derive ports result tr :
  scanned_as fast_yields derive ports result tr ->
  Forall2 (describes derive tr) (List.filter missing ports) result.(records) /\
  result.(saw_binding_profile_field) = existsb (fun p => has_field p BINDING_PROFILE_FIELDS) ports.
Proof.
  intros (os & Hos & Hids & Hsaw & _). assert (os = map (fun p => Some (p, has_field p BINDING_PROFILE_FIELDS)) ports) as ->.
  { clear -Hos. induction Hos as [|x o ports os Hy _ IH]; [done|]. cbn. by rewrite Hy, IH. }
  assert (omap (fun o => o) (map (fun p => Some (p, has_field p BINDING_PROFILE_FIELDS)) ports) = map (fun p => (p, has_field p BINDING_PROFILE_FIELDS)) ports) as Ho.
  { clear. induction ports as [|p ports IH]; [done|]. cbn. f_equal. exact IH. }
  cbn zeta in *. rewrite Ho in *. rewrite map_map, map_id in Hids. split; [done|]. rewrite Hsaw.
  clear. induction ports as [|p ports IH]; [done|]. cbn. f_equal. exact IH.
Qed.

(** The part of the script after a scan. *)
Definition conclude (execute : bool) (result : audit_result) : audit Z :=
  summary ← (if execute then apply_fix_summary result.(records) else mret (FixSummary 0 0 0));
  _ ← print_tsv_report result.(records);
  mret (if truthy summary.(failed) then 1%Z else 0%Z).
Lemma main_conclude derive_option execute :
  main derive_option execute =
  or_exit (call Connect) (fun _ => or_exit (scan_fast (derive_option || execute)) (fun result =>
    if result.(saw_binding_profile_field) then conclude execute result
    else or_exit (scan_slow (derive_option || execute)) (conclude execute))).
Proof. reflexivity. Qed.

(** A step of the script that fails ends it with 1. *)
Lemma wp_or_exit {A} (p : audit A) k Q tr :
  wp step_trace p (fun r _ tr' => match r with inr a => wp step_trace (k a) Q tt tr' | inl _ => Q (inr 1%Z) tt tr' end) tt tr ->
  wp step_trace (or_exit p k) Q tt tr.
Proof.
  intros Hp. unfold or_exit. do 3 wp_pure. eapply wp_mono; [|exact Hp]. intros [e|a] [] tr' Hr; wp_simp; repeat wp_pure; done.
Qed.
Lemma keeps_or_exit execute {A} (p : audit A) k tr (Q1 : A -> list (event auditE) -> Prop) :
  disciplined (allowed execute) tr ->
  keeps (allowed execute) p tt tr (fun r _ tr' => match r with inr a => Q1 a tr' | inl _ => True end) ->
  (forall a tr', disciplined (allowed execute) tr' -> Q1 a tr' -> keeps (allowed execute) (k a) tt tr' (fun _ _ _ => True)) ->
  keeps (allowed execute) (or_exit p k) tt tr (fun _ _ _ => True).
Proof.
  intros Hd Hp Hk. unfold or_exit.
  eapply keeps_bind with (Q1 := fun r _ tr' => match r with inr (Some a) => Q1 a tr' | _ => True end); [|done|].
  - eapply keeps_try with (Q1 := fun r _ tr' => match r with inr (Some a) => Q1 a tr' | _ => True end); [|done|intros e [] tr' ? _ _; by apply keeps_ret].
    eapply keeps_bind; [exact Hp|done|]. intros a [] tr' Hd' _ Ha. by apply keeps_ret.
  - intros [a|] [] tr' Hd' _ Ha; [by apply Hk|by apply keeps_ret].
Qed.

(** C24. The audit writes only when it is executed, and then only ports that it has read
    with local links and without a physical network; it writes back the profile it
    read with nothing changed but the physical network, which is that of an Ironic
    port found for one of these links. *)
Theorem audit_disciplined derive_option execute :
  every_run (main derive_option execute) tt (fun _ _ tr => disciplined (allowed execute) tr).
Proof.
  assert (keeps (allowed execute) (main derive_option execute) tt [] (fun _ _ _ => True)) as Hk.
  2: { eapply wp_mono; [|exact Hk]. by intros r [] tr (? & _ & _). }
  assert (forall result tr, disciplined (allowed execute) tr -> Forall (fun r => sound r tr) result.(records) ->
    keeps (allowed execute) (conclude execute result) tt tr (fun _ _ _ => True)) as Hconc.
  { intros result tr Hd Hs. unfold conclude. eapply keeps_bind with (Q1 := fun _ _ _ => True); [|done|].
    - destruct execute; [by apply keeps_apply_fix_summary|by apply keeps_ret].
    - intros summary [] tr1 Hd1 _ _. apply keeps_reads; [|done|apply wp_true].
      apply calls_bind; [|done]. apply calls_bind; [by apply calls_call|]. intros [].
      apply calls_for_each. intros r. by apply calls_call. }
  rewrite main_conclude. apply (keeps_or_exit _ _ _ _ (fun _ _ => True)); [apply disciplined_nil|apply keeps_reads; [by apply calls_call|apply disciplined_nil|apply wp_call; by intros [] ? _]|].
  intros [] tr Hd _. apply (keeps_or_exit _ _ _ _ (fun result tr' => Forall (fun r => sound r tr') result.(records))); [done| |].
  - apply keeps_reads; [by apply calls_scan|done|]. eapply wp_mono; [|apply wp_scan_fast].
    intros [e|result] [] tr' Hr; [done|]. by destruct Hr as (? & _ & ? & _ & _ & _ & ?).
  - intros result tr1 Hd1 Hs. destruct (saw_binding_profile_field result); [by apply Hconc|].
    apply (keeps_or_exit _ _ _ _ (fun result tr' => Forall (fun r => sound r tr') result.(records))); [done| |by intros; apply Hconc].
    apply keeps_reads; [apply calls_scan, calls_detailed|done|]. eapply wp_mono; [|apply wp_scan_slow].
    intros [e|res] [] tr' Hr; [done|]. by destruct Hr as (? & _ & ? & _ & _ & _ & ?).
Qed.

(** The report of the records [rs]. *)
Definition report (rs : list record) : list (event auditE) :=
  Ev (Print OUTPUT_COLUMNS None) (inr tt) :: map (fun r => Ev (Print (record_to_tsv r) r.(rec_reason)) (inr tt)) rs.

Definition all_reads (tr : list (event auditE)) : Prop := Forall (fun ev => match ev with Ev op _ => reads _ op end) tr.

Lemma wp_print_tsv_report rs tr :
  wp step_trace (print_tsv_report rs) (fun r _ tr' => exists new, tr' = tr ++ new /\
    match r with inr _ => new = report rs | inl _ => all_reads new end) tt tr.
Proof.
  unfold print_tsv_report. wp_pure. apply wp_call. intros [e|[]] tr1 ->; wp_simp; [eexists; split; [done|by constructor]|].
  apply (wp_for_each_seen _ _ _ (fun seen_ _ tr' => tr' = tr ++ report seen_)); [done| |intros [] tr' ->; eauto].
  intros seen_ r later [] tr2 _ ->. apply wp_call. intros [e|[]] tr3 ->.
  - eexists. rewrite <- app_assoc. split; [done|]. apply Forall_app. split; [|by constructor].
    constructor; [done|]. apply Forall_forall. intros ev Hev. apply list_elem_of_fmap in Hev as (r' & -> & _). done.
  - rewrite <- app_assoc. f_equal. unfold report. by rewrite map_app.
Qed.

Lemma wp_conclude execute result tr :
  wp step_trace (conclude execute result) (fun r _ tr' => exists fixes post, tr' = tr ++ fixes ++ post /\
    (if execute then repairs result.(records) fixes else fixes = []) /\
    match r with
    | inr code => post = report result.(records) /\ code = (if (failures fixes =? 0)%nat then 0%Z else 1%Z)
    | inl _ => all_reads post
    end) tt tr.
Proof.
  unfold conclude. wp_pure.
  eapply wp_mono with (Q := fun r _ tr' => exists fixes summary, tr' = tr ++ fixes /\ r = inr summary /\
    (if execute then repairs result.(records) fixes else fixes = []) /\ summary.(failed) = Z.of_nat (failures fixes)).
  - intros r [] tr1 (fixes & summary & -> & -> & Hrep & Hf). wp_pure. eapply wp_mono; [|apply wp_print_tsv_report].
    intros [e|[]] [] tr2 (post & -> & Hpost); [exists fixes, post; by rewrite <- app_assoc|]. wp_pure.
    exists fixes, post. rewrite <- app_assoc. split_and!; [done|done|done|]. rewrite Hf.
    destruct (failures fixes); [done|]. cbn. by destruct (Z.pos (Pos.of_succ_nat n) =? 0)%Z.
  - destruct execute; [|wp_pure; exists [], (FixSummary 0 0 0); by rewrite app_nil_r].
    eapply wp_mono; [|apply wp_apply_fix_summary]. intros r [] tr1 (new & summary & -> & -> & ? & ? & _). eauto 8.
Qed.

(** C23. What an audit does and returns.  Without a connection or a complete scan it
    returns 1 and has written nothing.  Otherwise it reports exactly the scanned
    ports that have links and no physical network (scanned from the listing, or one
    by one when the listing shows no profile), each with its own columns and, if
    asked for, the network of the first of its links that has one in Ironic (none if
    a look-up before it failed); when executed, it has first written each of them
    whose network was found, once and in order; and it returns 0 exactly when none
    of these writes failed. *)
Theorem audit_reports_missing derive_option execute :
  every_run (main derive_option execute) tt (fun r _ tr =>
    (r = inr 1%Z /\ all_reads tr) \/
    exists rs scan fixes post, tr = scan ++ fixes ++ post /\ all_reads scan /\
      reported (derive_option || execute) rs scan /\
      (if execute then repairs rs fixes else fixes = []) /\
      match r with
      | inr code => post = report rs /\ code = (if (failures fixes =? 0)%nat then 0%Z else 1%Z)
      | inl _ => all_reads post
      end).
Proof.
  unfold every_run. rewrite main_conclude. apply wp_or_exit. apply wp_call. intros [e|[]] tr0 ->; [left; split; [done|by constructor]|].
  apply wp_or_exit. eapply wp_mono; [|apply wp_conj; [apply wp_scan_fast|apply wp_calls_only with (P := reads); by apply calls_scan]].
  assert (all_reads [Ev Connect (inr tt)]) as H0 by by constructor.
  intros [e|result] [] tr1 [Hr (new & -> & Hnew)]; [left; split; [done|by apply Forall_app]|].
  destruct Hr as (ports & Hports & Hs). pose proof (fast_scanned _ _ _ _ Hs) as [Hids Hsaw].
  destruct Hs as (_ & _ & _ & _ & Hsound). assert (all_reads (([] ++ [Ev Connect (inr tt)]) ++ new)) as H1 by by apply Forall_app.
  destruct (saw_binding_profile_field result) eqn:Hb.
  { eapply wp_mono; [|apply wp_conclude]. intros r [] tr2 (fixes & post & -> & Hfix & Hpost). right.
    eexists _, _, fixes, post. split; [done|]. split; [done|]. split; [|by split].
    exists ports. split; [|done]. exists ports. split; [done|]. by rewrite <- Hsaw. }
  apply wp_or_exit. eapply wp_mono; [|apply wp_conj; [apply wp_scan_slow|apply wp_calls_only with (P := reads), calls_scan, calls_detailed]].
  intros [e|res2] [] tr2 [Hr (new2 & -> & Hnew2)]; [left; split; [done|by apply Forall_app]|].
  destruct Hr as (ids & Hl & os & Hos & Hids2 & _ & Hsound2).
  eapply wp_mono; [|apply wp_conclude]. intros r [] tr3 (fixes & post & -> & Hfix & Hpost). right.
  eexists _, _, fixes, post. split; [done|]. split; [by apply Forall_app|]. split; [|by split].
  eexists. split; [|exact Hids2]. exists ports. split; [apply elem_of_app; by left|]. rewrite <- Hsaw. eauto 6.
Qed.
End audit.
