(* ===== verification/SvmCleanup.v ===== *)
(** * Deletion of a project's storage

    Models [src/scripts/delete_volumes_and_svms_netapp.py]: the network interfaces
    (LIFs) of a project's SVM, its volume and the SVM itself are deleted through the
    REST interface of ONTAP.  A request is a call, answered by a status and a body;
    [sys.exit] is the result of [main].  Names and ids are texts in ONTAP: where the
    code puts one into a set, a value of another type is outside the model and raises
    [SchemaError]. *)
From S2P Require Import Prelude PyStr PyData.
Local Open Scope Z_scope.

(** ** Requests *)

(** [body] is what [response.json()] returns or raises. *)
Record response := Response { status_code : Z; body : res json }.
(** [Fetch kind params] is [GET /api/{kind}], [FetchOne] and [Delete] are requests of
    [/api/{kind}/{uuid}]. *)
Inductive ontapE : Type -> Type :=
| Getenv (name : string) : ontapE (option string)
| Fetch (kind : string) (params : dict string) : ontapE response
| FetchOne (kind : string) (uuid : json) : ontapE response
| Delete (kind : string) (uuid : json) : ontapE response.
Abbreviation ontap A := (prog unit ontapE A).

Definition SchemaError : exn := Exn "SchemaError" [].
Definition jtext (v : json) : res string := match v with JStr s => Ok s | _ => Err SchemaError end.
Definition INTERFACES : string := "network/ip/interfaces".
Definition PORTS : string := "network/ethernet/ports".
Definition VOLUMES : string := "storage/volumes".
Definition SVMS : string := "svm/svms".

(** ** LIFs *)

(** What is kept of a LIF. *)
(* delete_volumes_and_svms_netapp.py:61-68 get_svm_lifs *)
Record lif := Lif { lif_uuid : json; lif_name : json; lif_svm_name : json; home_port : json; home_node : json; ip_address : json }.
(* delete_volumes_and_svms_netapp.py:57-80 get_svm_lifs *)
Definition read_lif (v : json) : res lif :=
  uuid ← jget "uuid" v;
  name ← jget "name" v;
  svm ← jget_or "svm" (JObj []) v;
  svm_name ← jget "name" svm;
  location ← jget_or "location" (JObj []) v;
  home_port ← jget_or "home_port" (JObj []) location;
  home_node ← jget_or "home_node" (JObj []) location;
  ip ← jget_or "ip" (JObj []) v;
  address ← jget "address" ip;
  _ ← jget "name" home_port;
  _ ← jget "name" home_node;
  Ok (Lif uuid name svm_name home_port home_node address).
(** The LIFs in the body of an answer. *)
Definition read_lifs (r : response) : res (list lif) :=
  data ← r.(body);
  lifs ← jget_or "records" (JArr []) data;
  l ← jiter lifs;
  res_map read_lif l.
Definition lif_params (svm_name : string) : dict string :=
  [("svm.name", svm_name);
   ("fields", "uuid,name,svm.name,location.home_port.name,location.home_port.uuid,location.home_node.name,ip.address")].
(* delete_volumes_and_svms_netapp.py:13-87 get_svm_lifs *)
Definition get_svm_lifs (svm_name : string) : ontap (list lif) :=
  try_except
    (response ← call (Fetch INTERFACES (lif_params svm_name));
     if negb (response.(status_code) =? 200) then mret []
     else lift (read_lifs response))
    (fun _ => mret []).

(** ** Home ports *)

(** A port is told by its name, its UUID and its node. *)
Abbreviation port := (string * string * string)%type.
(** The port named by [home_port], on the node named by [home_node], if both its name
    and its UUID are given. *)
(* delete_volumes_and_svms_netapp.py:111-126 analyze_home_ports *)
Definition port_of (home_port home_node : json) : res (option port) :=
  name ← jget "name" home_port;
  uuid ← jget "uuid" home_port;
  if truthy name && truthy uuid then
    node ← jget_or "name" (JStr "unknown") home_node;
    name ← jtext name; uuid ← jtext uuid; node ← jtext node;
    Ok (Some (name, uuid, node))
  else Ok None.
(** The port of a listed LIF of another SVM. *)
(* delete_volumes_and_svms_netapp.py:164-180 analyze_home_ports *)
Definition other_port (svm_name : string) (v : json) : res (option port) :=
  svm ← jget_or "svm" (JObj []) v;
  lif_svm_name ← jget "name" svm;
  match lif_svm_name with
  | JStr s => if decide (s = svm_name) then Ok None else
      location ← jget_or "location" (JObj []) v;
      home_port ← jget_or "home_port" (JObj []) location;
      home_node ← jget_or "home_node" (JObj []) location;
      port_of home_port home_node
  | _ =>
      location ← jget_or "location" (JObj []) v;
      home_port ← jget_or "home_port" (JObj []) location;
      home_node ← jget_or "home_node" (JObj []) location;
      port_of home_port home_node
  end.
Definition all_params : dict string :=
  [("fields", "uuid,name,svm.name,location.home_port.name,location.home_port.uuid,location.home_node.name")].
Definition other_ports (svm_name : string) (r : response) : res (list (option port)) :=
  data ← r.(body);
  all_lifs ← jget_or "records" (JArr []) data;
  l ← jiter all_lifs;
  res_map (other_port svm_name) l.
Section cleanup.
(** [list(s)] of a set, in some order. *)
Variable iter : gset port -> list port.

(* delete_volumes_and_svms_netapp.py:90-215 analyze_home_ports *)
Definition analyze_home_ports (svm_lifs : list lif) (svm_name : string) : ontap (list port) :=
  if negb (truthy svm_lifs) then mret [] else
  ports ← lift (res_map (fun l => port_of l.(home_port) l.(home_node)) svm_lifs);
  let target_svm_ports : gset port := list_to_set (omap (fun o => o) ports) in
  if decide (target_svm_ports = ∅) then mret [] else
  try_except
    (response ← call (Fetch INTERFACES all_params);
     if negb (response.(status_code) =? 200) then mret []
     else
       others ← lift (other_ports svm_name response);
       let ports_used_by_others : gset port := list_to_set (List.filter (fun p => bool_decide (p ∈ target_svm_ports)) (omap (fun o => o) others)) in
       mret (iter (target_svm_ports ∖ ports_used_by_others)))
    (fun _ => mret []).

(** One port: whether it counts as cleaned. *)
(* delete_volumes_and_svms_netapp.py:291-372 cleanup_home_ports *)
Definition cleanup_home_port (overall_success : bool) (p : port) : ontap bool :=
  let '(port_name, port_uuid, node) := p in
  if negb (truthy port_name) || negb (truthy port_uuid) then mret overall_success else
  try_except
    (response ← call (FetchOne PORTS (JStr port_uuid));
     if response.(status_code) =? 200 then
       port_data ← lift response.(body);
       port_type ← lift (jget_or "type" (JStr "unknown") port_data);
       _ ← lift (match port_type with JStr s => Ok (upper s) | _ => Err (AttributeError "upper") end);
       mret overall_success
     else if response.(status_code) =? 404 then mret overall_success
     else mret false)
    (fun _ => mret false).
(* delete_volumes_and_svms_netapp.py:266-385 cleanup_home_ports *)
Definition cleanup_home_ports (home_ports : list port) : ontap bool :=
  if negb (truthy home_ports) then mret true
  else fold_each cleanup_home_port home_ports true.

(** ** Deletion *)

Definition is_deleted (r : response) : bool := (r.(status_code) =? 200) || (r.(status_code) =? 202).
(* delete_volumes_and_svms_netapp.py:218-263 delete_lif *)
Definition delete_lif (uuid : json) : ontap bool :=
  if negb (truthy uuid) then mret false else
  try_except (response ← call (Delete INTERFACES uuid); mret (is_deleted response)) (fun _ => mret false).
(** One LIF of the loop: whether all were deleted so far. *)
(* delete_volumes_and_svms_netapp.py:445-462 cleanup_svm_lifs *)
Definition delete_one (lif_deletion_success : bool) (l : lif) : ontap bool :=
  if negb (truthy l.(lif_uuid)) then mret lif_deletion_success
  else ok ← delete_lif l.(lif_uuid); mret (if (ok : bool) then lif_deletion_success else false).
(* delete_volumes_and_svms_netapp.py:388-517 cleanup_svm_lifs *)
Definition cleanup_svm_lifs (project_id : string) : ontap bool :=
  let svm_name := "os-" +:+ project_id in
  try_except
    (svm_lifs ← get_svm_lifs svm_name;
     if negb (truthy svm_lifs) then mret true else
     exclusive_home_ports ← analyze_home_ports svm_lifs svm_name;
     lif_deletion_success ← fold_each delete_one svm_lifs true;
     overall_success ← (if truthy exclusive_home_ports then cleanup_home_ports exclusive_home_ports else mret true);
     mret (if (lif_deletion_success : bool) then overall_success else false))
    (fun _ => mret false).

(** [response.json().get("records", [])], and the UUID of its first entry. *)
Definition first_record (r : response) : res (option json) :=
  data ← r.(body);
  records ← jget_or "records" (JArr []) data;
  if negb (truthy records) then Ok None else
  match records with
  | JArr (x :: _) => uuid ← jitem "uuid" x; Ok (Some uuid)
  | JObj _ => Err (KeyError "0")
  | _ => Err (TypeError ["not subscriptable"])
  end.
(** [delete_volume] and [delete_svm] differ in the kind and the name. *)
Definition delete_named (kind name : string) : ontap bool :=
  response ← call (Fetch kind [("name", name)]);
  if negb (response.(status_code) =? 200) then mret false else
  found ← lift (first_record response);
  match found with
  | None => mret false
  | Some uuid => response ← call (Delete kind uuid); mret (response.(status_code) =? 202)
  end.
(* delete_volumes_and_svms_netapp.py:520-557 delete_volume *)
Definition delete_volume (project_id : string) : ontap bool := delete_named VOLUMES ("vol_" +:+ project_id).
(* delete_volumes_and_svms_netapp.py:560-595 delete_svm *)
Definition delete_svm (project_id : string) : ontap bool := delete_named SVMS ("os-" +:+ project_id).

(** The exit status. *)
(* delete_volumes_and_svms_netapp.py:598-641 main *)
Definition main (project_id : string) : ontap Z :=
  hostname ← call (Getenv "NETAPP_HOST");
  login ← call (Getenv "NETAPP_LOGIN");
  password ← call (Getenv "NETAPP_PASSWORD");
  if negb (truthy hostname) || negb (truthy login) || negb (truthy password) then mret 1 else
  lif_success ← cleanup_svm_lifs project_id;
  volume_success ← delete_volume project_id;
  svm_success ← delete_svm project_id;
  mret (if (lif_success : bool) && (volume_success : bool) && (svm_success : bool) then 0 else 1).

(** ** Properties *)

(** *** What may be deleted *)

(** An answer that lists the LIF [uuid] for the project's SVM. *)
Definition lif_listed (project_id : string) (uuid : json) (tr : list (event ontapE)) : Prop :=
  exists r lifs l, Ev (Fetch INTERFACES (lif_params ("os-" +:+ project_id))) (inr r) ∈ tr /\ r.(status_code) = 200 /\
    read_lifs r = inr lifs /\ l ∈ lifs /\ l.(lif_uuid) = uuid /\ truthy uuid = true.
(** The answer just before shows [uuid] first among those called [name]. *)
Definition just_found (kind name : string) (uuid : json) (tr : list (event ontapE)) : Prop :=
  exists r, last tr = Some (Ev (Fetch kind [("name", name)]) (inr r)) /\ r.(status_code) = 200 /\ first_record r = inr (Some uuid).

Definition allowed_delete (project_id kind : string) (uuid : json) (tr : list (event ontapE)) : Prop :=
  (kind = INTERFACES /\ lif_listed project_id uuid tr /\ Forall (fun ev => match ev with Ev (Delete k _) _ => k = INTERFACES | _ => True end) tr) \/
  (kind = VOLUMES /\ just_found VOLUMES ("vol_" +:+ project_id) uuid tr) \/
  (kind = SVMS /\ just_found SVMS ("os-" +:+ project_id) uuid tr).
Definition allowed (project_id : string) (pre : list (event ontapE)) (ev : event ontapE) : Prop :=
  match ev with Ev (Delete kind uuid) _ => allowed_delete project_id kind uuid pre | _ => True end.

(** Programs that delete nothing. *)
Definition fetches (R : Type) (op : ontapE R) : Prop := match op with Delete _ _ => False | _ => True end.
Definition lifs_only (tr : list (event ontapE)) : Prop :=
  Forall (fun ev => match ev with Ev (Delete k _) _ => k = INTERFACES | _ => True end) tr.

Lemma fetches_lifs_only tr : Forall (fun ev => match ev with Ev op _ => fetches _ op end) tr -> lifs_only tr.
Proof. intros H. eapply Forall_impl; [exact H|]. intros [R op r] Hop. by destruct op. Qed.

Lemma calls_get_svm_lifs svm : calls_only fetches (get_svm_lifs svm).
Proof. apply calls_try; [|done]. apply calls_bind; [by apply calls_call|]. intros r. case_match; [done|apply calls_lift]. Qed.
Lemma calls_analyze lifs svm : calls_only fetches (analyze_home_ports lifs svm).
Proof.
  unfold analyze_home_ports. case_match; [done|]. apply calls_bind; [apply calls_lift|]. intros ports. cbn zeta. case_decide; [done|].
  apply calls_try; [|done]. apply calls_bind; [by apply calls_call|]. intros r. case_match; [done|].
  apply calls_bind; [apply calls_lift|done].
Qed.
(** No port is ever changed. *)
Lemma calls_cleanup_home_ports ports : calls_only fetches (cleanup_home_ports ports).
Proof.
  unfold cleanup_home_ports. case_match; [done|]. apply calls_fold_each. intros ok [[n u] nd]. unfold cleanup_home_port. case_match; [done|].
  apply calls_try; [|done]. apply calls_bind; [by apply calls_call|]. intros r. case_match; [|by case_match].
  apply calls_bind; [apply calls_lift|]. intros d. apply calls_bind; [apply calls_lift|]. intros t.
  apply calls_bind; [apply calls_lift|done].
Qed.

Section keeping.
Variable project_id : string.
Abbreviation keeps := (keeps (allowed project_id)).
Abbreviation disciplined := (disciplined (allowed project_id)).

Lemma keeps_fetches {A} (p : ontap A) tr Q :
  calls_only fetches p -> disciplined tr -> lifs_only tr -> wp step_trace p Q tt tr ->
  keeps p tt tr (fun r g tr' => lifs_only tr' /\ Q r g tr').
Proof.
  intros Hc Hd Hl Hw. assert (keeps p tt tr (fun _ _ _ => True)) as Hk.
  { apply keeps_calls; [|done]. clear -Hc. induction p as [a|e|R op k IH|k IH|g' p IH]; cbn in *; [done|done| |auto|auto].
    destruct Hc as [Hop Hk]. split; [|auto]. intros pre r. by destruct op. }
  unfold Prelude.keeps in *. eapply wp_mono; [|exact (wp_conj _ _ _ _ _ _ (wp_calls_only _ _ tt tr Hc) (wp_conj _ _ _ _ _ _ Hk Hw))].
  intros r g' tr' [(new & -> & Hnew) [(? & ? & _) ?]]. split; [done|]. split; [done|]. split; [|done].
  apply Forall_app. split; [done|by apply fetches_lifs_only].
Qed.

Lemma wp_get_svm_lifs tr :
  wp step_trace (get_svm_lifs ("os-" +:+ project_id)) (fun r _ tr' =>
    match r with
    | inr lifs => Forall (fun l => truthy l.(lif_uuid) = true -> lif_listed project_id l.(lif_uuid) tr') lifs
    | inl _ => True
    end) tt tr.
Proof.
  unfold get_svm_lifs. do 2 wp_pure. apply wp_call. intros [e|r] tr' Htr; wp_simp; [by wp_pure|].
  destruct (Z.eqb_spec (status_code r) 200) as [Hst|]; cbn [negb]; [|by wp_pure]. wp_pure.
  destruct (read_lifs r) as [e|lifs] eqn:Hr; [by wp_pure|]. apply Forall_forall. intros l Hl Ht.
  unfold step_trace in Htr. subst tr'. exists r, lifs, l. split; [apply elem_of_app; right; by left|done].
Qed.

Lemma lif_listed_mono uuid tr tr' : tr `prefix_of` tr' -> lif_listed project_id uuid tr -> lif_listed project_id uuid tr'.
Proof. intros [k ->] (r & lifs & l & H & ?). exists r, lifs, l. rewrite elem_of_app. eauto. Qed.

Lemma keeps_delete_lifs lifs tr :
  disciplined tr -> lifs_only tr -> Forall (fun l => truthy l.(lif_uuid) = true -> lif_listed project_id l.(lif_uuid) tr) lifs ->
  keeps (fold_each delete_one lifs true) tt tr (fun r _ tr' => match r with inr _ => lifs_only tr' | inl _ => True end).
Proof.
  intros Hd Hl Hall. eapply keeps_mono.
  - apply (keeps_fold_each (allowed project_id) _ _ _ (fun _ _ tr' => tr `prefix_of` tr' /\ lifs_only tr')); [done|done|].
    intros l acc [] tr1 Hin Hd1 [Hpre Hl1]. unfold delete_one.
    destruct (truthy (lif_uuid l)) eqn:Ht; cbn [negb]; [|by apply keeps_ret].
    eapply keeps_bind with (Q1 := fun r _ tr' => tr `prefix_of` tr' /\ lifs_only tr'); [|done|intros ok [] tr2 Hd2 _ ?; by apply keeps_ret].
    unfold delete_lif. rewrite Ht. cbn [negb].
    eapply keeps_try with (Q1 := fun r _ tr' => tr `prefix_of` tr' /\ lifs_only tr'); [|done|intros e [] tr2 ? _ ?; by apply keeps_ret].
    eapply keeps_bind with (Q1 := fun r _ tr' => tr `prefix_of` tr' /\ lifs_only tr'); [|done|intros r [] tr2 Hd2 _ ?; by apply keeps_ret].
    apply keeps_call; [done| |intros r; split; [by etrans; [|apply prefix_app_r]|apply Forall_app; by split; [|constructor]]].
    intros r. left. split; [done|]. split; [|done]. eapply lif_listed_mono; [done|]. by apply (proj1 (Forall_forall _ _) Hall).
  - intros [e|ok] [] tr' _ Hq; [done|]. by destruct Hq.
Qed.

Lemma keeps_cleanup_svm_lifs tr :
  disciplined tr -> lifs_only tr -> keeps (cleanup_svm_lifs project_id) tt tr (fun _ _ _ => True).
Proof.
  intros Hd Hl. unfold cleanup_svm_lifs. eapply keeps_try with (Q1 := fun _ _ _ => True); [|done|intros; by apply keeps_ret].
  eapply keeps_bind; [apply keeps_fetches; [apply calls_get_svm_lifs|done|done|apply wp_get_svm_lifs]|done|].
  intros lifs [] tr1 Hd1 _ [Hl1 Hall]. case_match; [by apply keeps_ret|].
  eapply keeps_bind; [apply keeps_fetches; [apply calls_analyze|done|done|apply wp_trace_prefix]|done|].
  intros ports [] tr2 Hd2 Hpre [Hl2 _].
  eapply keeps_bind; [apply keeps_delete_lifs; [done|done|]|done|].
  { eapply Forall_impl; [exact Hall|]. intros l Hlist Ht. eapply lif_listed_mono; [exact Hpre|by apply Hlist]. }
  intros ok [] tr3 Hd3 _ Hl3. eapply keeps_bind with (Q1 := fun _ _ _ => True); [|done|intros; by apply keeps_ret].
  case_match; [|by apply keeps_ret]. eapply keeps_mono; [apply keeps_fetches; [apply calls_cleanup_home_ports|done|done|apply wp_true]|done].
Qed.

Lemma keeps_delete_named kind name tr :
  (kind = VOLUMES /\ name = "vol_" +:+ project_id) \/ (kind = SVMS /\ name = "os-" +:+ project_id) ->
  disciplined tr -> keeps (delete_named kind name) tt tr (fun _ _ _ => True).
Proof.
  intros Hk Hd. unfold delete_named.
  eapply keeps_bind with (Q1 := fun r _ tr' => match r with inr r => last tr' = Some (Ev (Fetch kind [("name", name)]) (inr r)) | inl _ => True end); [|done|].
  { apply keeps_call; [done|done|]. intros [e|r]; [done|]. by rewrite last_snoc. }
  intros r [] tr1 Hd1 _ Hlast. destruct (Z.eqb_spec (status_code r) 200) as [Hst|]; cbn [negb]; [|by apply keeps_ret].
  destruct (first_record r) as [e|[uuid|]] eqn:Hf; [by apply keeps_raise| |by apply keeps_ret].
  apply (keeps_bind _ _ _ _ _ (fun r g tr' => tr' = tr1 /\ r = inr (Some uuid))); [by apply keeps_ret|naive_solver|].
  intros o [] tr2 Hd2 _ [-> [= ->]].
  eapply keeps_bind with (Q1 := fun _ _ _ => True); [|done|intros; by apply keeps_ret]. apply keeps_call; [done| |done].
  intros r2. right. destruct Hk as [[-> ->]|[-> ->]]; [left|right]; (split; [done|]); by exists r.
Qed.
End keeping.

(** C27. Nothing of another project is deleted: a network interface only if the cluster
    has listed it for the project's SVM, and before any volume or SVM; a volume or an
    SVM only if the request just before has shown it as the first one with the
    project's name.  Home ports are only read. *)
Theorem cleanup_disciplined project_id :
  every_run (main project_id) tt (fun _ _ tr => disciplined (allowed project_id) tr).
Proof.
  assert (keeps (allowed project_id) (main project_id) tt [] (fun _ _ _ => True)) as Hk.
  2: { eapply wp_mono; [|exact Hk]. by intros r [] tr (? & _ & _). }
  unfold main. do 3 (eapply keeps_bind; [apply keeps_fetches with (Q := fun _ _ _ => True);
    [by apply calls_call|first [done|apply disciplined_nil]|first [done|constructor]|apply wp_true]|done|]; intros ? [] ? ? _ [? _]).
  case_match; [by apply keeps_ret|].
  eapply keeps_bind; [by apply keeps_cleanup_svm_lifs|done|]. intros ls [] tr1 Hd1 _ _.
  eapply keeps_bind; [apply keeps_delete_named; [by left|done]|done|]. intros vs [] tr2 Hd2 _ _.
  eapply keeps_bind; [apply keeps_delete_named; [by right|done]|done|]. intros ss [] tr3 Hd3 _ _. by apply keeps_ret.
Qed.

(** *** What the exit status says *)

(** The LIFs that an answer lists, none if it cannot be read. *)
Definition lifs_of (answer : res response) : list lif :=
  match answer with
  | inr r => if r.(status_code) =? 200 then match read_lifs r with inr lifs => lifs | inl _ => [] end else []
  | inl _ => []
  end.
Definition lif_deleted (tr : list (event ontapE)) (l : lif) : Prop :=
  truthy l.(lif_uuid) = true -> exists r, Ev (Delete INTERFACES l.(lif_uuid)) (inr r) ∈ tr /\ is_deleted r = true.
Definition lifs_cleaned (project_id : string) (tr : list (event ontapE)) : Prop :=
  exists answer, Ev (Fetch INTERFACES (lif_params ("os-" +:+ project_id))) answer ∈ tr /\ Forall (lif_deleted tr) (lifs_of answer).
(** The first one called [name] was found and its deletion accepted. *)
Definition named_deleted (kind name : string) (tr : list (event ontapE)) : Prop :=
  exists r uuid d, tr = [Ev (Fetch kind [("name", name)]) (inr r); Ev (Delete kind uuid) (inr d)] /\
    r.(status_code) = 200 /\ first_record r = inr (Some uuid) /\ d.(status_code) = 202.

Lemma lif_deleted_mono l tr tr' : tr `prefix_of` tr' -> lif_deleted tr l -> lif_deleted tr' l.
Proof. intros [k ->] Hl Ht. destruct (Hl Ht) as (r & ? & ?). exists r. rewrite elem_of_app. eauto. Qed.

Lemma wp_delete_lifs lifs tr :
  wp step_trace (fold_each delete_one lifs true) (fun r _ tr' => tr `prefix_of` tr' /\
    exists ok, r = inr ok /\ (ok = true -> Forall (lif_deleted tr') lifs)) tt tr.
Proof.
  apply (wp_fold_each_seen _ _ _ _ (fun seen ok _ tr' => tr `prefix_of` tr' /\ (ok = true -> Forall (lif_deleted tr') seen))).
  - split; [done|]. intros _. constructor.
  - intros seen l later ok [] tr1 _ [Hpre Hok].
    assert (forall tr2, tr1 `prefix_of` tr2 -> ok = true -> lif_deleted tr2 l -> Forall (lif_deleted tr2) (seen ++ [l])) as Hnext.
    { intros tr2 Hp2 Hok' Hl. apply Forall_app. split; [|by constructor]. eapply Forall_impl; [by apply Hok|].
      intros x. by apply lif_deleted_mono. }
    unfold delete_one. destruct (truthy (lif_uuid l)) eqn:Ht; cbn [negb].
    2: { wp_pure. split; [done|]. intros Hok'. apply Hnext; [done|done|]. intros Ht'. congruence. }
    unfold delete_lif. rewrite Ht. cbn [negb]. do 3 wp_pure. apply wp_call. intros r tr2 Htr2.
    assert (tr1 `prefix_of` tr2) as Hp2 by (unfold step_trace in Htr2; subst tr2; by apply prefix_app_r).
    destruct r as [e|r]; repeat wp_pure; (split; [by etrans|]); [done|].
    destruct (is_deleted r) eqn:Hdel; [|done]. intros Hok'. apply Hnext; [done|done|]. intros _. exists r. split; [|done].
    unfold step_trace in Htr2. subst tr2. apply elem_of_app. right. by left.
  - intros ok [] tr1 [Hpre Hok]. split; [done|]. eauto.
Qed.

Definition delete_status (ev : event ontapE) : option Z :=
  match ev with
  | Ev op r => match op in ontapE R return res R -> option Z with
               | Delete _ _ => fun r => match r with inr d => Some d.(status_code) | inl _ => None end
               | _ => fun _ => None
               end r
  end.
Lemma delete_named_run kind name :
  every_run (delete_named kind name) tt (fun r _ tr => forall b, r = inr b -> b = true <-> named_deleted kind name tr).
Proof.
  unfold every_run, delete_named. wp_pure. apply wp_call. intros [e|r] tr1 ->; wp_simp; [done|].
  assert (forall tr, length tr = 1%nat -> ~ named_deleted kind name tr) as Hone by (by intros tr Hl (? & ? & ? & -> & _)).
  destruct (Z.eqb_spec (status_code r) 200) as [Hst|]; cbn [negb]; [|wp_pure; intros b [= <-]; split; [done|by intros ?%Hone]].
  do 2 wp_pure. destruct (first_record r) as [e|[uuid|]] eqn:Hf; wp_simp; [done| |wp_pure; intros b [= <-]; split; [done|by intros ?%Hone]].
  wp_pure. apply wp_call. intros [e|d] tr2 ->; wp_simp; [done|]. wp_pure. intros b [= <-]. rewrite Z.eqb_eq. split.
  - intros Hd. by exists r, uuid, d.
  - intros (r' & u' & d' & Heq & _ & _ & Hd). apply (f_equal (fun l => default 0 (last l ≫= delete_status))) in Heq. cbn in Heq. lia.
Qed.

Lemma cleanup_svm_lifs_run project_id :
  every_run (cleanup_svm_lifs project_id) tt (fun r _ tr => exists b, r = inr b /\ (b = true -> lifs_cleaned project_id tr)).
Proof.
  unfold every_run, cleanup_svm_lifs. cbn zeta. wp_pure.
  eapply wp_mono with (Q := fun r _ tr => forall b, r = inr b -> b = true -> lifs_cleaned project_id tr).
  { intros [e|b] [] tr Hb; [wp_pure; by exists false|]. exists b. eauto. }
  wp_pure. eapply wp_mono with (Q := fun r _ tr' => forall lifs, r = inr lifs -> exists answer,
    Ev (Fetch INTERFACES (lif_params ("os-" +:+ project_id))) answer ∈ tr' /\ lifs = lifs_of answer).
  2: { unfold get_svm_lifs. do 2 wp_pure. apply wp_call. intros answer tr Htr.
       assert (Ev (Fetch INTERFACES (lif_params ("os-" +:+ project_id))) answer ∈ tr) as Hin
         by (unfold step_trace in Htr; subst tr; apply elem_of_app; right; by left).
       destruct answer as [e|r]; wp_simp; [wp_pure; intros lifs [= <-]; by exists (inl e)|].
       destruct (status_code r =? 200) eqn:Hst; cbn [negb]; [|wp_pure; intros lifs [= <-]; exists (inr r); cbn; by rewrite Hst].
       wp_pure. destruct (read_lifs r) as [e|lifs] eqn:Hr; [wp_pure|]; intros l [= <-]; exists (inr r); cbn; by rewrite Hst, Hr. }
  intros [e|lifs] [] tr1 Hlifs; [done|]. cbn beta iota. destruct (Hlifs _ eq_refl) as (answer & Hin & ->). clear Hlifs.
  destruct (lifs_of answer) as [|l lifs] eqn:Hl; cbn [truthy truthy_list negb].
  { wp_pure. intros b _ _. exists answer. by rewrite Hl. }
  wp_pure. eapply wp_mono; [|apply wp_trace_prefix]. intros [e|ports] [] tr2 Hp2; [done|]. cbn beta iota. wp_pure.
  eapply wp_mono; [|apply wp_delete_lifs]. intros r [] tr3 [Hp3 (ok & -> & Hok)]. cbn beta iota. wp_pure.
  eapply wp_mono; [|apply wp_trace_prefix]. intros [e|ok2] [] tr4 Hp4; [done|]. cbn beta iota. wp_pure. intros b [= <-].
  destruct ok; [|done]. intros _. exists answer. rewrite Hl. split.
  - destruct Hp2 as [? ->], Hp3 as [? ->], Hp4 as [? ->]. rewrite !elem_of_app. by do 3 left.
  - eapply Forall_impl; [by apply Hok|]. intros x. by apply lif_deleted_mono.
Qed.

(** The exit status.  Without credentials it is 1.  Otherwise the interfaces, the volume
    and the SVM are dealt with in this order, and the status is 0 exactly when the
    first part reports success, the project's volume was found and its deletion
    accepted, and so for the SVM.  The first part reports success only when every
    interface that the cluster listed was deleted (an interface without an id, or a
    listing that cannot be read, is passed over). *)
Theorem cleanup_exit_status project_id :
  every_run (main project_id) tt (fun r _ tr => forall code, r = inr code ->
    (code = 1 /\ Forall (fun ev => match ev with Ev (Getenv _) _ => True | _ => False end) tr) \/
    exists env lifs volume svm ok, tr = env ++ lifs ++ volume ++ svm /\
      (ok = true -> lifs_cleaned project_id lifs) /\
      (code = 0 \/ code = 1) /\
      (code = 0 <-> ok = true /\ named_deleted VOLUMES ("vol_" +:+ project_id) volume /\ named_deleted SVMS ("os-" +:+ project_id) svm)).
Proof.
  unfold every_run, main. wp_pure. apply wp_call. intros [e|host] t1 ->; wp_simp; [done|].
  wp_pure. apply wp_call. intros [e|login] t2 ->; wp_simp; [done|]. wp_pure. apply wp_call. intros [e|pw] t3 ->; wp_simp; [done|].
  case_match; [wp_pure; intros code [= <-]; left; split; [done|by repeat constructor]|]. set (env := (_ ++ _) ++ _). clearbody env.
  wp_pure. eapply wp_mono; [|apply wp_trace_frame, cleanup_svm_lifs_run]. intros r [] t4 (lifs & -> & ok & -> & Hok). cbn beta iota.
  wp_pure. eapply wp_mono; [|apply wp_trace_frame, delete_named_run]. intros [e|vs] [] t5 (volume & -> & Hvol); [done|]. cbn beta iota.
  wp_pure. eapply wp_mono; [|apply wp_trace_frame, delete_named_run]. intros [e|ss] [] t6 (svm & -> & Hsvm); [done|]. cbn beta iota.
  wp_pure. intros code [= <-]. right. exists env, lifs, volume, svm, ok. rewrite <- !app_assoc. split; [done|]. split; [done|].
  split; [destruct (_ && _); auto|]. rewrite <- (Hvol vs eq_refl), <- (Hsvm ss eq_refl). destruct ok, vs, ss; cbn; naive_solver.
Qed.

(** *** Home ports *)

Section exclusive.
Hypothesis iter_elem : forall X p, p ∈ iter X <-> p ∈ X.

(** The ports found exclusive to an SVM are exactly the home ports of its interfaces
    that no listed interface of another SVM has. *)
Theorem exclusive_ports svm_lifs svm_name :
  every_run (analyze_home_ports svm_lifs svm_name) tt (fun r _ tr =>
    match r with
    | inr ports => ports = [] \/ exists targets answer others,
        res_map (fun l => port_of l.(home_port) l.(home_node)) svm_lifs = inr targets /\
        tr = [Ev (Fetch INTERFACES all_params) (inr answer)] /\ other_ports svm_name answer = inr others /\
        forall p, p ∈ ports <-> Some p ∈ targets /\ Some p ∉ others
    | inl e => exists l, l ∈ svm_lifs /\ port_of l.(home_port) l.(home_node) = inl e
    end).
Proof.
  unfold every_run, analyze_home_ports. case_match; [wp_pure; by left|]. do 2 wp_pure.
  destruct (res_map _ svm_lifs) as [e|targets] eqn:Ht; wp_simp; [by apply res_map_err_elem in Ht|].
  case_decide; [wp_pure; by left|]. do 2 wp_pure. apply wp_call. intros [e|answer] tr ->; wp_simp; [wp_pure; by left|].
  case_match; [wp_pure; by left|]. do 2 wp_pure. destruct (other_ports svm_name answer) as [e|others] eqn:Ho; wp_simp; [wp_pure; by left|].
  wp_pure. right. exists targets, answer, others. split; [done|]. split; [done|]. split; [done|]. intros p.
  assert (forall (l : list (option port)) p, p ∈ omap (fun o => o) l <-> Some p ∈ l) as Hom.
  { intros l q. rewrite list_elem_of_omap. split; [by intros (o & ? & ->)|]. eauto. }
  assert (forall (X : gset port) l q, q ∈ List.filter (fun p => bool_decide (p ∈ X)) l <-> q ∈ l /\ q ∈ X) as Hfi.
  { intros X l q. by rewrite list_elem_of_In, filter_In, <- list_elem_of_In, bool_decide_eq_true. }
  rewrite iter_elem, elem_of_difference, !elem_of_list_to_set, Hfi, elem_of_list_to_set, !Hom. tauto.
Qed.
End exclusive.
End cleanup.

(** A listing of the interfaces that fails leaves them in place and still counts as
    success. *)
Definition failing_listing (R : Type) (op : ontapE R) (s : unit) : res R * unit :=
  match op in ontapE R return res R * unit with
  | Getenv _ => (inr (Some "x"), s)
  | Fetch kind _ => (inr (if decide (kind = INTERFACES) then Response 500 (inr JNull)
                          else Response 200 (inr (JObj [("records", JArr [JObj [("uuid", JStr "u")]])]))), s)
  | FetchOne _ _ => (inr (Response 500 (inr JNull)), s)
  | Delete _ _ => (inr (Response 202 (inr JNull)), s)
  end.
Example failed_listing_is_success :
  let '(r, _, _) := run failing_listing (main elements "p") tt tt in r = inr 0.
Proof. vm_compute. reflexivity. Qed.

Definition sample_lif : lif := Lif (JStr "u") (JStr "n") (JStr "os-p") (JObj [("name", JStr "e0a"); ("uuid", JStr "pu")]) (JObj [("name", JStr "n1")]) JNull.
Lemma exclusive_ports_witness :
  every_run (analyze_home_ports elements [sample_lif] "os-p") tt (fun r _ tr =>
    match r with
    | inr ports => ports = [] \/ exists targets answer others,
        res_map (fun l => port_of l.(home_port) l.(home_node)) [sample_lif] = inr targets /\
        tr = [Ev (Fetch INTERFACES all_params) (inr answer)] /\ other_ports "os-p" answer = inr others /\
        forall p, p ∈ ports <-> Some p ∈ targets /\ Some p ∉ others
    | inl e => exists l, l ∈ [sample_lif] /\ port_of l.(home_port) l.(home_node) = inl e
    end).
Proof. apply (exclusive_ports elements). intros X p. apply elem_of_elements. Defined.
