(* ===== verification/CiscoAsa.v ===== *)
(** * Floating IPs on a Cisco ASA

    Models [src/python/neutron-understack/neutron_understack/cisco_asa.py] and
    [l3_service_cisco_asa.py]: the update of a floating IP becomes one request to the
    firewall named in the description of its network, whose URL carries the
    commands.  The receivers that only log are left out. *)
From S2P Require Import Prelude PyStr PyData.

(** ** Commands in a URL *)

(** [urllib.parse.quote_plus] *)
Fixpoint quote_plus (s : string) : string :=
  match s with
  | "" => ""
  | String c r =>
      if Ascii.eqb c " " then String "+" (quote_plus r)
      else if is_alnum c || has_char c "_.-~" then String c (quote_plus r)
      else let n := Ascii.N_of_ascii c in
           String "%" (String (hex_upper (n / 16)%N) (String (hex_upper (n mod 16)%N) (quote_plus r)))
  end.
(* neutron_understack/cisco_asa.py:57-60 _cmd_str *)
Definition _cmd_str (cmds : list string) : string := String.concat "/" (map quote_plus cmds).

(** A firewall and the login. *)
(* neutron_understack/cisco_asa.py:63-71 CiscoAsaAsdm *)
Record CiscoAsaAsdm := Asdm { mgmt_url : string; asa_username : option string; asa_password : option string; asa_user_agent : string }.
(* neutron_understack/cisco_asa.py:73-74 _make_url *)
Definition _make_url (asa : CiscoAsaAsdm) (cmd_str : string) : string := asa.(mgmt_url) +:+ "/admin/exec/" +:+ cmd_str.

(** The calls: the description of a network ([None]: it has none), and a request with
    the answered status. *)
Inductive asaE : Type -> Type :=
| GetNetwork (network_id : string) : asaE (option string)
| AsaGet (asa : CiscoAsaAsdm) (url : string) : asaE Z.
Abbreviation asa A := (prog unit asaE A).

(* neutron_understack/cisco_asa.py:76-86 _make_request *)
Definition _make_request (a : CiscoAsaAsdm) (cmds : list string) : asa bool :=
  let url := _make_url a (_cmd_str cmds) in
  try_except (_ ← call (AsaGet a url); mret true) (fun _ => mret false).
(* neutron_understack/cisco_asa.py:95-99 create_nat *)
Definition create_commands (float_ip_addr asa_outside_inf inside_ip_addr asa_inside_inf : string) : list string :=
  ["object network OBJ-" +:+ inside_ip_addr; "host " +:+ inside_ip_addr;
   "nat (" +:+ asa_inside_inf +:+ "," +:+ asa_outside_inf +:+ ") static " +:+ float_ip_addr].
(* neutron_understack/cisco_asa.py:88-101 create_nat *)
Definition create_nat (a : CiscoAsaAsdm) (float_ip_addr asa_outside_inf inside_ip_addr asa_inside_inf : string) : asa bool :=
  _make_request a (create_commands float_ip_addr asa_outside_inf inside_ip_addr asa_inside_inf).
(* neutron_understack/cisco_asa.py:104-106 delete_nat *)
Definition delete_commands (inside_ip_addr : string) : list string := ["no object network OBJ-" +:+ inside_ip_addr].
(* neutron_understack/cisco_asa.py:103-108 delete_nat *)
Definition delete_nat (a : CiscoAsaAsdm) (inside_ip_addr : string) : asa bool := _make_request a (delete_commands inside_ip_addr).

(** ** The service provider *)

(* neutron_understack/config.py:82-101 _l3_svc_cisco_asa_opts *)
Record asa_options := AsaOptions { user_agent : string; username : option string; password : option string; outside_interface : string }.
(** A floating IP, as the events carry it. *)
Record floating_ip := FloatingIp {
  floating_ip_address : option string; fixed_ip_address : option string;
  port_details : option (dict string); floating_network_id : option string }.
(** The payload: the states and [association_event] of the metadata. *)
Record payload := Payload { states : list floating_ip; association_event : option bool }.

Definition item {A} (l : list A) (n : nat) : res A := match l !! n with Some x => Ok x | None => Err IndexError end.
(** [text.split("=")[-1]] *)
Definition last_part (text : string) : string := default "" (last (split "="%char text)).
(* neutron_understack/l3_service_cisco_asa.py:50-135 _process_floatingip_update *)
Definition _process_floatingip_update (conf : asa_options) (p : payload) : asa unit :=
  assoc_disassoc ← lift (match p.(association_event) with Some b => Ok b | None => Err (KeyError "association_event") end);
  fip ← lift (item p.(states) (if (assoc_disassoc : bool) then 1 else 0));
  asa_inside_inf ← lift (match fip.(port_details) with
                         | None | Some [] => Ok None
                         | Some info => match dict_get "network_id" info with
                                        | Some n => Ok (Some n) | None => Err (KeyError "network_id") end
                         end);
  match fip.(floating_network_id) with
  | None | Some "" => mret tt
  | Some network_id =>
      float_ip_net ← try_except (d ← call (GetNetwork network_id); mret (Some d)) (fun _ => mret None);
      match float_ip_net with
      | None | Some None => mret tt
      | Some (Some description) =>
          let asa_mgmt := last_part description in
          match asa_inside_inf, fip.(fixed_ip_address), fip.(floating_ip_address) with
          | Some inside_inf, Some inside_ip_addr, Some float_ip_addr =>
              if truthy asa_mgmt && truthy inside_inf && truthy inside_ip_addr && truthy float_ip_addr then
                let a := Asdm ("https://" +:+ asa_mgmt) conf.(username) conf.(password) conf.(user_agent) in
                _ ← (if (assoc_disassoc : bool) then create_nat a float_ip_addr conf.(outside_interface) inside_ip_addr inside_inf
                     else delete_nat a inside_ip_addr);
                mret tt
              else mret tt
          | _, _, _ => mret tt
          end
      end
  end.

(** ** Properties *)

(** How the firewall reads a command back: [urllib.parse.unquote_plus]. *)
Fixpoint unquote_plus (s : string) : string :=
  match s with
  | "" => ""
  | String c r =>
      if Ascii.eqb c "+" then String " " (unquote_plus r)
      else if Ascii.eqb c "%" then
        match r with
        | String a (String b r') =>
            match hex_digit a, hex_digit b with
            | Some x, Some y => String (Ascii.ascii_of_N (Z.to_N (16 * x + y))) (unquote_plus r')
            | _, _ => String c (unquote_plus r)
            end
        | _ => String c (unquote_plus r)
        end
      else String c (unquote_plus r)
  end.
(** The commands in the last part of a URL. *)
Definition read_commands (cmd_str : string) : list string := map unquote_plus (split "/"%char cmd_str).

Lemma unquote_quote s : unquote_plus (quote_plus s) = s.
Proof. induction s as [|c s IH]; [done|]. destruct c as [[] [] [] [] [] [] [] []]; exact (f_equal (String _) IH). Qed.
Lemma quote_no_slash s : has_char "/"%char (quote_plus s) = false.
Proof. induction s as [|c s IH]; [done|]. destruct c as [[] [] [] [] [] [] [] []]; exact IH. Qed.

Lemma cmd_str_roundtrip cmds : cmds <> [] -> read_commands (_cmd_str cmds) = cmds.
Proof.
  intros Hne. unfold read_commands, _cmd_str. rewrite split_concat.
  - rewrite map_map. clear Hne. induction cmds as [|c cmds IH]; [done|]. cbn. by rewrite unquote_quote, IH.
  - by destruct cmds.
  - apply Forall_forall. intros x Hx. apply list_elem_of_fmap in Hx as (c & -> & _). apply quote_no_slash.
Qed.

(** The request that an update makes: to the firewall of the network's description,
    with these commands, whatever characters the values have. *)
Definition requests (conf : asa_options) (description : string) (cmds : list string) (ev : event asaE) : Prop :=
  exists url_cmds answer,
    ev = Ev (AsaGet (Asdm ("https://" +:+ last_part description) conf.(username) conf.(password) conf.(user_agent))
               ("https://" +:+ last_part description +:+ "/admin/exec/" +:+ url_cmds)) answer /\
    read_commands url_cmds = cmds.

(** The commands for an update, when everything they need is known. *)
Definition commands (conf : asa_options) (assoc : bool) (fip : floating_ip) (description : string) : option (list string) :=
  inside_inf ← (info ← fip.(port_details); dict_get "network_id" info);
  inside_ip ← fip.(fixed_ip_address);
  float_ip ← fip.(floating_ip_address);
  if truthy (last_part description) && truthy inside_inf && truthy inside_ip && truthy float_ip then
    Some (if assoc then create_commands float_ip conf.(outside_interface) inside_ip inside_inf else delete_commands inside_ip)
  else None.
(** Port details have the network, when there are any. *)
Definition wf_details (f : floating_ip) : Prop :=
  match f.(port_details) with Some ((_ :: _) as d) => is_Some (dict_get "network_id" d) | _ => True end.

(** The calls of an update: the network, and the request for it if there is one. *)
Definition update_calls (conf : asa_options) (assoc : bool) (fip : floating_ip) (net : string) (tr : list (event asaE)) : Prop :=
  exists answer rest, tr = Ev (GetNetwork net) answer :: rest /\
    match (match answer with inr (Some description) =>
             option_map (pair description) (commands conf assoc fip description) | _ => None end) with
    | Some (description, cmds) => exists ev, rest = [ev] /\ requests conf description cmds ev
    | None => rest = []
    end.

Lemma wp_make_request conf description cmds tr :
  cmds <> [] ->
  wp step_trace (_make_request (Asdm ("https://" +:+ last_part description) conf.(username) conf.(password) conf.(user_agent)) cmds)
    (fun r _ tr' => exists b ev, r = inr b /\ tr' = tr ++ [ev] /\ requests conf description cmds ev) tt tr.
Proof.
  intros Hne. unfold _make_request. cbn zeta. do 2 wp_pure. apply wp_call. intros answer tr' ->.
  assert (requests conf description cmds (Ev (AsaGet (Asdm ("https://" +:+ last_part description) conf.(username) conf.(password) conf.(user_agent))
    (_make_url (Asdm ("https://" +:+ last_part description) conf.(username) conf.(password) conf.(user_agent)) (_cmd_str cmds))) answer)) as Hreq.
  { exists (_cmd_str cmds), answer. split; [|by apply cmd_str_roundtrip]. unfold _make_url. cbn [mgmt_url]. by rewrite <- !str_app_assoc. }
  destruct answer; repeat wp_pure; eauto 6.
Qed.

(** The update of a floating IP: an association is done with the new state and a
    disassociation with the old one; the network's description is read, and one
    request made exactly when the firewall, the inside network and both addresses
    are known.  From it the firewall reads exactly the commands for this address,
    whatever characters the values have.  Whatever fails, the receiver does not
    raise. *)
Theorem floatingip_update conf before after assoc :
  wf_details before -> wf_details after ->
  every_run (_process_floatingip_update conf (Payload [before; after] (Some assoc))) tt (fun r _ tr =>
    r = inr tt /\
    let fip := if assoc then after else before in
    match fip.(floating_network_id) with
    | None | Some "" => tr = []
    | Some net => update_calls conf assoc fip net tr
    end).
Proof.
  intros Hb Ha. unfold every_run, _process_floatingip_update. cbn [association_event states]. do 4 wp_pure.
  replace (item [before; after] (if assoc then 1 else 0)%nat) with (inr (if assoc then after else before) : res floating_ip) by by destruct assoc.
  wp_simp. assert (wf_details (if assoc then after else before)) as Hfip by by destruct assoc.
  generalize dependent (if assoc then after else before). intros fip Hfip. clear Hb Ha. do 2 wp_pure.
  assert (exists inf, (match port_details fip with
      | None | Some [] => Ok None
      | Some info => match dict_get "network_id" info with Some n => Ok (Some n) | None => Err (KeyError "network_id") end
      end) = (inr inf : res (option string)) /\ (info ← port_details fip; dict_get "network_id" info) = inf) as (inf & -> & Hinf).
  { unfold wf_details in Hfip. destruct (port_details fip) as [[|kv d]|]; [by eexists| |by eexists]. destruct Hfip as [n Hn].
    exists (Some n). by rewrite Hn. }
  wp_simp. destruct (floating_network_id fip) as [[|c net]|]; [by wp_pure| |by wp_pure].
  do 3 wp_pure. apply wp_call. intros answer tr Htr. unfold step_trace in Htr. subst tr. cbn [app].
  destruct answer as [e|[description|]]; repeat wp_pure; [split; [done|]; by eexists _, []| |split; [done|]; by eexists _, []].
  cbn zeta. assert (forall cmds, cmds <> [] -> commands conf assoc fip description = Some cmds ->
    wp step_trace (_ ← _make_request (Asdm ("https://" +:+ last_part description) conf.(username) conf.(password) conf.(user_agent)) cmds; mret tt)
      (fun r _ tr => r = inr tt /\ update_calls conf assoc fip (String c net) tr) tt [Ev (GetNetwork (String c net)) (inr (Some description))]) as Hreq.
  { intros cmds Hne Hcmds. wp_pure. eapply wp_mono; [|by apply wp_make_request]. intros r [] tr (b & ev & -> & -> & Hev). wp_pure.
    split; [done|]. eexists _, [ev]. split; [done|]. cbn beta iota. rewrite Hcmds. cbn. eauto. }
  assert (commands conf assoc fip description = None ->
    update_calls conf assoc fip (String c net) [Ev (GetNetwork (String c net)) (inr (Some description))]) as Hno.
  { intros Hnone. eexists _, []. split; [done|]. cbn beta iota. by rewrite Hnone. }
  unfold commands in Hreq, Hno. rewrite Hinf in Hreq, Hno.
  destruct inf as [inf|]; [|wp_pure; split; [done|]; by apply Hno].
  destruct (fixed_ip_address fip) as [inside|]; [|wp_pure; split; [done|]; by apply Hno].
  destruct (floating_ip_address fip) as [float|]; [|wp_pure; split; [done|]; by apply Hno].
  cbn [mbind option_bind] in Hreq, Hno. destruct (_ && _); [|wp_pure; split; [done|]; by apply Hno].
  destruct assoc; by apply Hreq.
Qed.

Definition sample_fip : floating_ip := FloatingIp (Some "203.0.113.5") (Some "10.0.0.4") (Some [("network_id", "net/1")]) (Some "ext").
Definition sample_options : asa_options := AsaOptions "ASDM" (Some "u") (Some "p") "OUTSIDE".
Lemma floatingip_update_witness :
  wf_details sample_fip /\
  every_run (_process_floatingip_update sample_options (Payload [sample_fip; sample_fip] (Some true))) tt (fun r _ tr =>
    r = inr tt /\ update_calls sample_options true sample_fip "ext" tr).
Proof.
  split; [vm_compute; eauto|]. apply (floatingip_update sample_options sample_fip sample_fip true); vm_compute; eauto.
Defined.
(** A slash or a space in a value does not make another command. *)
Example slash_is_quoted : _cmd_str ["host 10.0.0.4"; "nat (a/b,OUTSIDE)"] = "host+10.0.0.4/nat+%28a%2Fb%2COUTSIDE%29".
Proof. reflexivity. Qed.
(** A request that the firewall refuses counts as done. *)
Example refused_request_is_success :
  let '(r, _, _) := run (fun R (op : asaE R) (s : unit) =>
    match op in asaE R return res R * unit with GetNetwork _ => (inr None, s) | AsaGet _ _ => (inr 401%Z, s) end)
    (delete_nat (Asdm "https://fw" None None "ASDM") "10.0.0.4") tt tt in r = inr true.
Proof. reflexivity. Qed.
