(* ===== verification/OpenstackSync.v ===== *)
(** * The openstack-sync hooks

    Models [src/python/openstack-sync/openstack_sync]: [utils.py] (credentials from a
    Kubernetes secret and the connections made with them, one per secret and cloud),
    [hooks/router_flavors.py] and [hooks/placeholder.py].  The environment is a
    function; [json.loads] ([None]: not JSON) and the decoding of a secret are
    parameters; Kubernetes and OpenStack are calls. *)
From S2P Require Import Prelude PyStr PyData NovaNetwork.

(** ** Connections *)

(** A connection is known by an identity that the service chooses. *)
Abbreviation key := (option string * option string)%type.
Inductive hookE : Type -> Type :=
| LoadIncluster : hookE unit
| LoadKubeConfig : hookE unit
| ReadSecret (name : option string) (namespace : string) : hookE (option (dict string))
| Connection (clouds_yaml : string) (cloud : option string) : hookE Z
| CheckToken (conn : Z) : hookE unit
| ReadFile (path : string) : hookE string
| Print (text : json) : hookE unit.
(** The state is [_connection_cache]. *)
Abbreviation hook A := (prog (gmap key Z) hookE A).

Section hooks.
Variable environ : string -> option string.
Variable loads : string -> option json.
Variable b64decode : string -> res string.

Definition is_ConfigException (e : exn) : bool := bool_decide (e.(exn_cls) = "ConfigException").
(* openstack_sync/utils.py:20-51 read_secret_key *)
Definition read_secret_key (secret_name : option string) (secret_key namespace : string) : hook string :=
  _ ← try_except (call LoadIncluster) (fun e => if is_ConfigException e then call LoadKubeConfig else Raise e);
  data ← call (ReadSecret secret_name namespace);
  match dict_get secret_key (default [] data) with
  | None => Raise (KeyError secret_key)
  | Some raw => lift (b64decode raw)
  end.
(* openstack_sync/utils.py:54-60 pod_namespace *)
Definition pod_namespace : string := default "openstack" (environ "POD_NAMESPACE").
(* openstack_sync/utils.py:67-103 get_openstack_connection *)
Definition get_openstack_connection (secret_name cloud_name : option string) : hook Z :=
  cache ← get_state;
  match cache !! (secret_name, cloud_name) with
  | Some conn => mret conn
  | None =>
      clouds_yaml_text ← read_secret_key secret_name "clouds.yaml" pod_namespace;
      conn ← call (Connection clouds_yaml_text cloud_name);
      cache ← get_state;
      _ ← put_state (<[(secret_name, cloud_name) := conn]> cache);
      mret conn
  end.

(** ** Hook configurations *)

(* hooks/router_flavors.py:14-14 TRUTHY_VALUES *)
Definition TRUTHY_VALUES : list string := ["1"; "true"; "yes"; "on"].
(* hooks/router_flavors.py:17-18 env_is_truthy *)
Definition env_is_truthy (name : string) : bool := bool_decide (lower (default "false" (environ name)) ∈ TRUTHY_VALUES).
(* hooks/router_flavors.py:21-26 router_flavor_namespace *)
Definition router_flavor_namespace : option string :=
  match environ "NEUTRON_ROUTER_FLAVOR_NAMESPACE" with
  | Some ((String _ _) as n) => Some n
  | _ => match environ "POD_NAMESPACE" with Some ((String _ _) as n) => Some n | _ => None end
  end.
Definition base_config : dict json :=
  [("configVersion", JStr "v1"); ("settings", JObj [("executionMinInterval", JStr "30s"); ("executionBurst", JNum 1)])].
(* hooks/router_flavors.py:66-106 build_hook_config *)
Definition build_hook_config : json :=
  if negb (env_is_truthy "NEUTRON_ROUTER_FLAVOR_ENABLED") then JObj (base_config ++ [("onStartup", JNum 10)])
  else
    let binding := [("name", JStr "neutron-router-flavors"); ("apiVersion", JStr "neutron.understack.rackspace.net/v1alpha1");
                    ("kind", JStr "NeutronRouterFlavor"); ("executeHookOnEvent", JArr [JStr "Added"; JStr "Modified"; JStr "Deleted"]);
                    ("jqFilter", JStr "."); ("includeSnapshotsFrom", JArr [JStr "neutron-router-flavors"])] in
    let binding := match router_flavor_namespace with
                   | Some namespace => binding ++ [("namespace", JObj [("nameSelector", JObj [("matchNames", JArr [JStr namespace])])])]
                   | None => binding
                   end in
    JObj (base_config ++ [("kubernetes", JArr [JObj binding]);
      ("schedule", JArr [JObj [("name", JStr "hourly sync");
                               ("crontab", JStr (default "0 * * * *" (environ "NEUTRON_ROUTER_FLAVOR_SYNC_CRONTAB")));
                               ("includeSnapshotsFrom", JArr [JStr "neutron-router-flavors"])]])]).
(* hooks/placeholder.py:27-36 build_hook_config *)
Definition build_placeholder_config : json := JObj (base_config ++ [("onStartup", JNum 10)]).

(** ** Reconciliation *)

(** A name in a resource is a text; a value of another type is outside the model. *)
Definition jtext (v : json) : res string := match v with JStr s => Ok s | _ => Err (Exn "SchemaError" []) end.
(** The secret and the cloud that a resource names. *)
(* hooks/router_flavors.py:41-53 reconcile_router_flavor *)
Definition credentials (event : json) : res (string * string) :=
  obj ← jitem "object" event;
  spec ← jget_or "spec" (JObj []) obj;
  creds_ref ← jget_or "cloudCredentialsRef" (JObj []) spec;
  secret_name ← jget "secretName" creds_ref;
  cloud_name ← jget "cloudName" creds_ref;
  if negb (truthy secret_name) || negb (truthy cloud_name) then Err (ValueError ["is missing spec.cloudCredentialsRef"])
  else s ← jtext secret_name; c ← jtext cloud_name; Ok (s, c).
(* hooks/router_flavors.py:34-54 reconcile_router_flavor *)
Definition reconcile_router_flavor (event : json) : hook unit :=
  c ← lift (credentials event);
  _ ← get_openstack_connection (Some c.1) (Some c.2);
  mret tt.

(** The contexts of a run, after the ways out before them: [None] is the exit status
    that is returned without a context. *)
(* hooks/router_flavors.py:118-134 main *)
Definition contexts_of (config : json) (argv : list string) : hook (Z + json) :=
  if bool_decide (argv !! 1 = Some "--config") then _ ← call (Print config); mret (inl 0%Z) else
  match environ "BINDING_CONTEXT_PATH" with
  | None | Some "" => mret (inl 0%Z)
  | Some context_path =>
      raw ← call (ReadFile context_path);
      if negb (truthy (strip raw)) then mret (inl 0%Z) else
      match loads raw with
      | None => mret (inl 1%Z)
      | Some binding_contexts => mret (inr binding_contexts)
      end
  end.
(** One context: its objects, when it is of the hook's binding. *)
(* hooks/router_flavors.py:136-140 main *)
Definition reconcile_context (context : json) : hook unit :=
  binding ← lift (jget_or "binding" (JStr "") context);
  if match binding with JStr s => bool_decide (s = "neutron-router-flavors") | _ => false end then
    objects ← lift (o ← jget_or "objects" (JArr []) context; jiter o);
    for_each objects reconcile_router_flavor
  else mret tt.
(* hooks/router_flavors.py:117-142 main *)
Definition router_flavors_main (argv : list string) : hook Z :=
  c ← contexts_of build_hook_config argv;
  match c with
  | inl code => mret code
  | inr binding_contexts =>
      l ← lift (jiter binding_contexts);
      _ ← for_each l reconcile_context;
      mret 0%Z
  end.

(** ** The connectivity check *)

(* hooks/placeholder.py:42-67 check_openstack_connectivity *)
Definition check_openstack_connectivity : hook unit :=
  conn ← get_openstack_connection (environ "OPENSTACK_PLACEHOLDER_DEFAULT_SECRET") (environ "OPENSTACK_PLACEHOLDER_DEFAULT_CLOUD");
  call (CheckToken conn).
(** The rest of the contexts: the exit status. *)
(* hooks/placeholder.py:89-107 main *)
Fixpoint check_contexts (l : list json) : hook Z :=
  match l with
  | [] => mret 0%Z
  | context :: l =>
      binding ← lift (jget "binding" context);
      if match binding with JStr s => bool_decide (s = "onStartup") | _ => false end then
        if negb (env_is_truthy "OPENSTACK_PLACEHOLDER_ENABLED") then check_contexts l
        else
          ok ← try_except (_ ← check_openstack_connectivity; mret true) (fun _ => mret false);
          if (ok : bool) then check_contexts l else mret 1%Z
      else check_contexts l
  end.
(* hooks/placeholder.py:70-109 main *)
Definition placeholder_main (argv : list string) : hook Z :=
  c ← contexts_of build_placeholder_config argv;
  match c with
  | inl code => mret code
  | inr binding_contexts => l ← lift (jiter binding_contexts); check_contexts l
  end.

(** ** Properties *)

(** A connection that was made. *)
Definition made (ev : event hookE) : bool := match ev with Ev (Connection _ _) (inr _) => true | _ => false end.
Definition connections (tr : list (event hookE)) : nat := length (List.filter made tr).
Lemma connections_snoc tr ev : connections (tr ++ [ev]) = (connections tr + if made ev then 1 else 0)%nat.
Proof. unfold connections. rewrite List.filter_app, length_app. cbn. by destruct (made ev). Qed.
(** Every connection made is in the cache, under a key of its own. *)
Definition counted (cache : gmap key Z) (tr : list (event hookE)) : Prop := connections tr = size cache.

Lemma wp_read_secret_key name k ns cache tr :
  wp step_trace (read_secret_key name k ns) (fun r cache' tr' => cache' = cache /\ connections tr' = connections tr) cache tr.
Proof.
  unfold read_secret_key. wp_pure. eapply wp_mono with (Q := fun r cache' tr' => cache' = cache /\ connections tr' = connections tr).
  - intros [e|[]] g tr1 [-> Hc]; [done|]. cbn beta iota. wp_pure. apply wp_call. intros [e|data] tr2 ->; wp_simp;
      rewrite <- Hc, ?connections_snoc; [cbn; split; [done|lia]|].
    destruct (dict_get _ _) as [raw|]; repeat wp_pure; rewrite connections_snoc; cbn; split; [done|lia|done|lia].
  - wp_pure. apply wp_call. intros [e|[]] tr1 ->; wp_simp; [|rewrite connections_snoc; cbn; split; [done|lia]].
    destruct (is_ConfigException e); [|wp_pure; rewrite connections_snoc; cbn; split; [done|lia]].
    apply wp_call. intros r tr2 ->. rewrite !connections_snoc. cbn. split; [done|lia].
Qed.

Lemma wp_get_connection secret cloud cache tr :
  counted cache tr ->
  wp step_trace (get_openstack_connection secret cloud) (fun r cache' tr' => counted cache' tr' /\ cache ⊆ cache' /\
    (forall conn, r = inr conn -> cache' !! (secret, cloud) = Some conn)) cache tr.
Proof.
  intros Hc. unfold get_openstack_connection. do 2 wp_pure. destruct (cache !! (secret, cloud)) as [conn|] eqn:Hk.
  { wp_pure. split; [done|]. split; [done|]. by intros ? [= <-]. }
  wp_pure. eapply wp_mono; [|apply wp_read_secret_key]. intros [e|text] g tr1 [-> Hc1]; [split; [unfold counted in *; lia|done]|].
  cbn beta iota. wp_pure. apply wp_call. intros [e|conn] tr2 ->; wp_simp.
  { unfold counted in *. rewrite connections_snoc. cbn. split; [lia|done]. }
  repeat wp_pure. unfold counted in *. rewrite connections_snoc, map_size_insert_None by done. cbn. split; [lia|].
  split; [by apply insert_subseteq|]. intros ? [= <-]. by rewrite lookup_insert_eq.
Qed.

(** The connection that a resource asks for is in the cache. *)
Definition connected (cache : gmap key Z) (event : json) : Prop :=
  exists s c, credentials event = inr (s, c) /\ is_Some (cache !! (Some s, Some c)).
Lemma connected_mono cache cache' event : cache ⊆ cache' -> connected cache event -> connected cache' event.
Proof. intros Hsub (s & c & ? & conn & ?). exists s, c. split; [done|]. exists conn. by eapply lookup_weaken. Qed.

Lemma wp_reconcile event cache tr :
  counted cache tr ->
  wp step_trace (reconcile_router_flavor event) (fun r cache' tr' => counted cache' tr' /\ cache ⊆ cache' /\
    (r = inr tt -> connected cache' event)) cache tr.
Proof.
  intros Hc. unfold reconcile_router_flavor. do 2 wp_pure. destruct (credentials event) as [e|[s c]] eqn:Hcr; wp_simp; [done|].
  wp_pure. eapply wp_mono; [|by apply wp_get_connection]. intros [e|conn] cache' tr' (Hc' & Hsub & Hconn); [done|]. cbn beta iota. wp_pure.
  split; [done|]. split; [done|]. intros _. exists s, c. split; [done|]. exists conn. by apply Hconn.
Qed.

(** The resources of a context that are the hook's to reconcile. *)
Definition objects_of (context : json) : list json :=
  match jget_or "binding" (JStr "") context, (o ← jget_or "objects" (JArr []) context; jiter o) with
  | inr (JStr s), inr l => if bool_decide (s = "neutron-router-flavors") then l else []
  | _, _ => []
  end.

Lemma wp_reconcile_context context cache tr :
  counted cache tr ->
  wp step_trace (reconcile_context context) (fun r cache' tr' => counted cache' tr' /\ cache ⊆ cache' /\
    (r = inr tt -> Forall (connected cache') (objects_of context))) cache tr.
Proof.
  intros Hc. unfold reconcile_context, objects_of. do 2 wp_pure. destruct (jget_or "binding" _ context) as [e|b]; wp_simp; [done|].
  destruct b as [| | |s| |]; try (wp_pure; split_and!; done). destruct (bool_decide (s = _)).
  2: { wp_pure. split; [done|]. split; [done|]. intros _. destruct (_ ≫= _); constructor. }
  do 2 wp_pure. destruct (jget_or "objects" _ context ≫= _) as [e|l] eqn:Hl; wp_simp; [done|].
  eapply (wp_for_each_seen _ _ _ (fun seen cache' tr' => counted cache' tr' /\ cache ⊆ cache' /\ Forall (connected cache') seen)).
  - split; [done|]. split; [done|constructor].
  - intros seen event later cache1 tr1 _ (Hc1 & Hs1 & Hseen). eapply wp_mono; [|by apply wp_reconcile].
    intros [e|[]] cache2 tr2 (Hc2 & Hs2 & Hev); [split; [done|]; split; [by etrans|done]|]. split; [done|]. split; [by etrans|].
    apply Forall_app. split; [|by constructor; [apply Hev|]]. eapply Forall_impl; [exact Hseen|]. intros x. by apply connected_mono.
  - intros cache1 tr1 (? & ? & ?). done.
Qed.

(** The contexts that a run has been given. *)
Definition given (tr : list (event hookE)) (contexts : list json) : Prop :=
  exists path raw v, environ "BINDING_CONTEXT_PATH" = Some path /\ Ev (ReadFile path) (inr raw) ∈ tr /\
    truthy (strip raw) = true /\ loads raw = Some v /\ jiter v = inr contexts.

(** A run of the router flavor hook makes each connection once: as many as the cache
    ends up with, one for each secret and cloud.  A run that returns 0 on contexts
    has a connection for every resource of the hook's binding; one without contexts
    makes none; contexts that are no JSON give 1. *)
Theorem hook_connects_once argv :
  every_run (router_flavors_main argv) ∅ (fun r cache tr =>
    counted cache tr /\
    (cache = ∅ \/ exists contexts, given tr contexts /\ (r = inr 0%Z -> Forall (fun c => Forall (connected cache) (objects_of c)) contexts)) /\
    (forall code, r = inr code -> code = 0%Z \/ (code = 1%Z /\ cache = ∅))).
Proof.
  unfold every_run, router_flavors_main. wp_pure.
  eapply wp_mono with (Q := fun r cache tr => cache = ∅ /\ counted cache tr /\
    match r with inr (inr v) => forall l, jiter v = inr l -> given tr l | inr (inl code) => code = 0%Z \/ code = 1%Z | inl _ => True end).
  2: { unfold contexts_of. destruct (bool_decide _).
       - wp_pure. apply wp_call. intros [e|[]] tr ->; wp_simp; [done|]. wp_pure. split; [done|]. split; [done|by left].
       - destruct (environ "BINDING_CONTEXT_PATH") as [[|c path]|] eqn:Hpath; [wp_pure; split; [done|]; split; [done|by left]| |wp_pure; split; [done|]; split; [done|by left]].
         wp_pure. apply wp_call. intros [e|raw] tr ->; wp_simp; [done|]. destruct (truthy (strip raw)) eqn:Hraw; cbn [negb]; [|wp_pure; split; [done|]; split; [done|by left]].
         destruct (loads raw) as [v|] eqn:Hv; wp_pure; (split; [done|]); (split; [done|]); [|by right].
         intros l Hl. eexists _, raw, v. split; [exact Hpath|]. split; [by left|done]. }
  intros [e|[code|v]] g tr (-> & Hc & Hr); cbn beta iota; [split; [done|]; split; [by left|done]| |].
  { wp_pure. split; [done|]. split; [by left|]. intros ? [= <-]. naive_solver. }
  do 2 wp_pure. destruct (jiter v) as [e|l] eqn:Hl; wp_simp; [split; [done|]; split; [by left|done]|]. specialize (Hr l eq_refl).
  wp_pure. assert (forall tr', tr `prefix_of` tr' -> given tr' l) as Hgiven.
  { intros tr' [k ->]. destruct Hr as (path & raw & w & ? & ? & ?). exists path, raw, w. rewrite elem_of_app. eauto. }
  eapply (wp_for_each_seen _ _ _ (fun seen cache tr' => counted cache tr' /\ tr `prefix_of` tr' /\
    Forall (fun c => Forall (connected cache) (objects_of c)) seen)).
  - split; [done|]. split; [done|constructor].
  - intros seen context later cache1 tr1 _ (Hc1 & Hp1 & Hseen).
    eapply wp_mono; [|apply wp_conj; [apply wp_trace_prefix|by apply wp_reconcile_context]].
    intros [e|[]] cache2 tr2 [Hp2 (Hc2 & Hs2 & Hcon)].
    + split; [done|]. split; [|done]. right. exists l. split; [|done]. apply Hgiven. by etrans.
    + split; [done|]. split; [by etrans|]. apply Forall_app. split; [|by constructor; [apply Hcon|]].
      eapply Forall_impl; [exact Hseen|]. intros c Hcc. eapply Forall_impl; [exact Hcc|]. intros x. by apply connected_mono.
  - intros cache tr' (Hc' & Hp' & Hall). wp_pure. split; [done|]. split; [|intros code [= <-]; by left].
    right. exists l. split; [by apply Hgiven|done].
Qed.
End hooks.

(** The hook asks for an hourly run, and does nothing in it: the context of the
    schedule is that of another binding. *)
Definition enabled (name : string) : option string :=
  if decide (name = "NEUTRON_ROUTER_FLAVOR_ENABLED") then Some "true"
  else if decide (name = "BINDING_CONTEXT_PATH") then Some "/ctx" else None.
Definition hourly : json :=
  JObj [("binding", JStr "hourly sync"); ("snapshots", JObj [("neutron-router-flavors", JArr [JObj [("object", JObj [])]])])].
Example hourly_sync_ignored :
  (exists schedule, jitem "schedule" (build_hook_config enabled) = inr (JArr [JObj (("name", JStr "hourly sync") :: schedule)])) /\
  run (fun R (op : hookE R) (s : list string) =>
         match op in hookE R return res R * list string with
         | ReadFile _ => (inr "[...]", s) | LoadIncluster | LoadKubeConfig | CheckToken _ | Print _ => (inr tt, s ++ ["other"])
         | ReadSecret _ _ => (inr None, s ++ ["secret"]) | Connection _ _ => (inr 0%Z, s ++ ["connection"]) end)
    (router_flavors_main enabled (fun _ => Some (JArr [hourly])) inr ["hook"]) ∅ [] = (inr 0%Z, ∅, []).
Proof. split; [eexists; vm_compute; reflexivity|vm_compute; reflexivity]. Qed.
