(* ===== verification/UsNet.v ===== *)
(** * The operator tool for routers

    Models [src/python/kubectl-us-net/us_net]: [connection.py], [kube.py], [ovn.py],
    [osclient.py], [commands/router.py] and [commands/raw.py].  Commands and the OpenStack SDK are
    calls, printed lines too; the state is the [switch_row_cache] of [show].  Columns
    have the types of the OVN schemas ([Ovn]).  Headings and rules of the output are
    left out. *)
From S2P Require Import Prelude PyStr PyData Ovn NovaNetwork.
Local Open Scope Z_scope.

(** ** Calls *)

(* us_net/connection.py:16-22 ConnectionContext *)
Record ConnectionContext := Ctx { kube_context : option string; namespace : string; nb_pod : string; sb_pod : string; os_cloud : option string }.
(* us_net/connection.py:23-27 kubectl_base *)
Definition kubectl_base (c : ConnectionContext) : list string :=
  "kubectl" :: (if truthy c.(kube_context) then ["--context"; default "" c.(kube_context)] else []).

(** What the tool reads of Neutron's objects. *)
Record os_port := OsPort { p_id : string; p_name : option string; device_owner : option string; device_id : option string; fixed_ips : list string }.
Record os_router := OsRouter { r_id : string; r_name : string; flavor_id : option string }.
(** [Connect] answers the configuration of the connection. *)
Inductive netE : Type -> Type :=
| RunCmd (cmd : list string) : netE completed
| Connect (cloud : option string) : netE json
| FindRouter (name_or_id : string) : netE (option os_router)
| PortsOf (device_id : string) : netE (list os_port)
| PortsAt (ip_address : string) : netE (list os_port)
| GetPort (id : string) : netE os_port
| GetServer (id : string) : netE string
| Routers : netE (list os_router)
| Echo (line : string) : netE unit.
Abbreviation tool A := (prog (gmap string (option row)) netE A).
Definition Exit (code : Z) : exn := Exn "Exit" [pretty code].
Definition echo (line : string) : tool unit := call (Echo line).

(** ** Pods *)

(* us_net/kube.py:12-19 _exec_argv *)
Definition _exec_argv (c : ConnectionContext) (pod : string) (container : option string) (argv : list string) : list string :=
  kubectl_base c ++ ["exec"; "-n"; c.(namespace); pod] ++
  (if truthy container then ["-c"; default "" container] else []) ++ "--" :: argv.
(* us_net/kube.py:22-28 exec_in_pod *)
Definition exec_in_pod (c : ConnectionContext) (pod : string) (container : option string) (argv : list string) : tool completed :=
  call (RunCmd (_exec_argv c pod container argv)).
(* us_net/kube.py:31-36 stream_exec_in_pod *)
Definition stream_exec_in_pod (c : ConnectionContext) (pod : string) (container : option string) (argv : list string) : tool Z :=
  result ← call (RunCmd (_exec_argv c pod container argv));
  mret result.(returncode).
Definition loads (result : completed) : res json :=
  match result.(stdout_json) with Some v => Ok v | None => Err JSONDecodeError end.
(** One pod of the list, when it is on the node and named so. *)
(* us_net/kube.py:49-54 pods_on_node *)
Definition pod_on_node (node_name name_prefix : string) (item : json) : res (option string) :=
  spec ← jget_or "spec" (JObj []) item;
  node ← jget "nodeName" spec;
  if match node with JStr s => bool_decide (s = node_name) | _ => false end then
    metadata ← jitem "metadata" item;
    name ← jitem "name" metadata;
    match name with
    | JStr s => Ok (if startswith name_prefix s then Some s else None)
    | _ => Err (AttributeError "startswith")
    end
  else Ok None.
Definition pods_of (node_name name_prefix : string) (result : completed) : res (list string) :=
  pods ← loads result;
  items ← jget_or "items" (JArr []) pods;
  items ← jiter items;
  found ← res_map (pod_on_node node_name name_prefix) items;
  Ok (somes found).
(* us_net/kube.py:39-54 pods_on_node *)
Definition pods_on_node (c : ConnectionContext) (node_name name_prefix : string) : tool (list string) :=
  result ← call (RunCmd (kubectl_base c ++ ["get"; "pods"; "-n"; c.(namespace); "-o"; "json"]));
  if negb (result.(returncode) =? 0) then Raise (Exit 1) else
  lift (pods_of node_name name_prefix result).
(* us_net/kube.py:57-83 resolve_node_pod *)
Definition resolve_node_pod (c : ConnectionContext) (node_name name_prefix : string) (explicit_pod : option string) : tool string :=
  if truthy explicit_pod then mret (default "" explicit_pod) else
  candidates ← pods_on_node c node_name name_prefix;
  match candidates with [pod] => mret pod | _ => Raise (Exit 1) end.

(** ** OVN *)

(** [parse_ovn_json] with rows as long as the headings. *)
(* us_net/ovn.py:33-40 parse_ovn_json *)
Definition parse_rows (obj : json) : res (list row) :=
  headings ← jitem "headings" obj;
  data ← jitem "data" obj;
  data ← jiter data;
  res_map (fun r =>
    hs ← jiter headings;
    cells ← jiter r;
    cs ← res_map (fun '(h, v) => w ← _unwrap_ovn_value v;
                            if hashable (of_json h) then Ok (of_json h, w) else Err unhashable) (zip hs cells);
    if (length hs =? length cells)%nat then Ok cs else Err (ValueError ["zip() arguments of different lengths"])) data.
(* us_net/ovn.py:43-47 as_list *)
Definition as_list (v : val) : list val :=
  match v with VNull | VStr "" => [] | VList l => l | _ => [v] end.
(* us_net/ovn.py:50-58 _run *)
Definition _run (c : ConnectionContext) (pod ctl : string) (args : list string) : tool completed :=
  result ← exec_in_pod c pod (Some "ovsdb") (ctl :: args);
  if negb (result.(returncode) =? 0) then Raise (SystemExit "1") else mret result.
Definition rows_of (result : completed) : res (list row) := obj ← loads result; parse_rows obj.
(* us_net/ovn.py:71-73 nbctl_list *)
Definition nbctl_list (c : ConnectionContext) (table : string) : tool (list row) :=
  result ← _run c c.(nb_pod) "ovn-nbctl" ["--format=json"; "list"; table];
  lift (rows_of result).
(* us_net/ovn.py:76-78 sbctl_list *)
Definition sbctl_list (c : ConnectionContext) (table : string) : tool (list row) :=
  result ← _run c c.(sb_pod) "ovn-sbctl" ["--format=json"; "list"; table];
  lift (rows_of result).
(* us_net/ovn.py:81-83 nbctl_find *)
Definition nbctl_find (c : ConnectionContext) (table condition : string) : tool (list row) :=
  result ← _run c c.(nb_pod) "ovn-nbctl" ["--format=json"; "find"; table; condition];
  lift (rows_of result).
(* us_net/ovn.py:86-88 sbctl_lflow_list *)
Definition sbctl_lflow_list (c : ConnectionContext) (datapath_name : string) : tool string :=
  result ← _run c c.(sb_pod) "ovn-sbctl" ["lflow-list"; datapath_name];
  mret result.(stdout).

(** Columns: [r.get(c)] of an optional text, [as_list(r.get(c))] of texts, and [r.get(c) or {}]
    ([Ovn.map_column]). *)
Definition opt_column (column : string) (r : row) : res (option string) :=
  match default VNull (entry column r) with
  | VNull | VList [] => Ok None
  | VStr s => Ok (Some s)
  | _ => Err (SchemaError column)
  end.
Definition texts_column (column : string) (r : row) : res (list string) :=
  res_map (as_text column) (as_list (default VNull (entry column r))).
Definition num_column (column : string) (r : row) : res Z :=
  match entry column r with Some (VNum z) => Ok z | Some _ => Err (SchemaError column) | None => Err (KeyError column) end.
(** [{row[c]: row for row in rows}] *)
Definition rows_by (column : string) (rows : list row) : res (gmap string row) :=
  res_fold (fun m r => k ← text_column column r; Ok (<[k := r]> m)) rows ∅.

(** ** The connection *)

(* us_net/connection.py:30-37 resolve_kube_context *)
Definition resolve_kube_context (kube_context : option string) : tool string :=
  match kube_context with
  | Some ((String _ _) as c) => mret c
  | _ => result ← call (RunCmd ["kubectl"; "config"; "current-context"]);
         let s := strip result.(stdout) in mret (if truthy s then s else "(unknown)")
  end.
Definition shown (label : string) (v : res json) : res (option (string * string)) :=
  v ← v; Ok (match v with JStr ((String _ _) as s) => Some (label, s) | _ => None end).
(* us_net/osclient.py:20-31 describe_target *)
Definition target_pairs (config : json) : res (list (string * string)) :=
  auth ← jget_or "auth" (JObj []) config;
  pairs ← res_map (fun '(label, v) => shown label v)
    [("auth URL", jget "auth_url" auth); ("region", jget "region_name" config);
     ("project", jget "project_name" auth); ("username", jget "username" auth)];
  Ok (somes pairs).
(* us_net/osclient.py:14-32 describe_target *)
Definition describe_target (os_cloud : option string) : tool (list (string * string)) :=
  conn ← try_except (c ← call (Connect os_cloud); mret (Some c)) (fun _ => mret None);
  match conn with
  | None => mret [("status", "unavailable")]
  | Some config =>
      pairs ← lift (target_pairs config);
      mret (if truthy pairs then pairs else [("status", "(no auth details in configuration)")])
  end.
(* us_net/connection.py:40-55 print_connection_banner *)
Definition print_connection_banner (c : ConnectionContext) (include_openstack : bool) : tool unit :=
  kube ← resolve_kube_context c.(kube_context);
  _ ← echo ("  Kubernetes context : " +:+ kube);
  _ ← echo ("  OVN namespace/pods : " +:+ c.(namespace) +:+ " (nb=" +:+ c.(nb_pod) +:+ ", sb=" +:+ c.(sb_pod) +:+ ")");
  if include_openstack then
    _ ← echo ("  OpenStack cloud    : " +:+ str_or c.(os_cloud) "(default via OS_CLOUD / clouds.yaml)");
    pairs ← describe_target c.(os_cloud);
    for_each pairs (fun '(label, v) => echo (label +:+ " : " +:+ v))
  else mret tt.
(** [try: conn = get_connection() ... except Exception: raise typer.Exit(1)] *)
Definition or_exit {A} (p : tool A) : tool A := try_except p (fun _ => Raise (Exit 1)).

(** ** [router list] *)

(** The table row of a router id. *)
Record table_row := TableRow { t_name : string; t_id : string; in_openstack : string; in_ovn : string }.
(* us_net/commands/router.py:402-415 list_routers *)
Definition router_row (openstack_routers : gmap string os_router) (ovn_router_names : gset string) (router_id : string) : table_row :=
  let os_router := openstack_routers !! router_id in
  let flavored := match os_router with Some r => truthy r.(flavor_id) | None => false end in
  TableRow (match os_router with Some r => r.(r_name) | None => "(unknown)" end) router_id
    (match os_router with Some _ => "yes" | None => "NO" end)
    (if flavored then "n/a (flavored)" else if decide (router_id ∈ ovn_router_names) then "yes" else "NO").
(* us_net/commands/router.py:18-18 NEUTRON_PREFIX *)
Definition NEUTRON_PREFIX : string := "neutron-".
(** The ids of the logical routers that Neutron has made. *)
(* us_net/commands/router.py:394-398 list_routers *)
Definition add_ovn_id (ids : gset string) (r : row) : res (gset string) :=
  name ← opt_column "name" r;
  let name := default "" name in
  Ok (if startswith NEUTRON_PREFIX name then {[ removeprefix NEUTRON_PREFIX name ]} ∪ ids else ids).
Definition ovn_ids (rows : list row) : res (gset string) := res_fold add_ovn_id rows ∅.
(** [f"{s:<{n}}"] *)
Fixpoint spaces (n : nat) : string := match n with O => "" | S n => String " " (spaces n) end.
Definition ljust (n : nat) (s : string) : string := s +:+ spaces (n - String.length s).
Definition width (title : string) (l : list string) : nat := foldr Nat.max (String.length title) (map String.length l).
Definition table_line (name_width id_width : nat) (r : table_row) : string :=
  ljust name_width r.(t_name) +:+ "  " +:+ ljust id_width r.(t_id) +:+ "  " +:+ ljust 9 r.(in_openstack) +:+ "  " +:+ r.(in_ovn).
(** [l.sort(...)], which is stable: [leb x y] is whether [x] may stay before [y]. *)
Fixpoint insert_stable {A} (leb : A -> A -> bool) (x : A) (l : list A) : list A :=
  match l with
  | [] => [x]
  | y :: l' => if leb x y then x :: l else y :: insert_stable leb x l'
  end.
Definition sort_stable {A} (leb : A -> A -> bool) (l : list A) : list A := foldr (insert_stable leb) [] l.
Definition row_leb (a b : table_row) : bool := String.leb (lower a.(t_name)) (lower b.(t_name)).

Section listing.
(** The order in which a set is walked. *)
Variable iter : gset string -> list string.
(* us_net/commands/router.py:380-432 list_routers *)
Definition list_routers (c : ConnectionContext) : tool unit :=
  _ ← print_connection_banner c true;
  _ ← or_exit (call (Connect c.(os_cloud)));
  routers ← call Routers;
  let openstack_routers : gmap string os_router := foldl (fun m r => <[r.(r_id) := r]> m) ∅ routers in
  rows ← nbctl_list c "Logical_Router";
  ovn_router_names ← lift (ovn_ids rows);
  let table_rows := sort_stable row_leb (map (router_row openstack_routers ovn_router_names)
                      (iter (dom openstack_routers ∪ ovn_router_names))) in
  _ ← echo "";
  if negb (truthy table_rows) then echo "(no routers found)" else
  let name_width := width "NAME" (map t_name table_rows) in
  let id_width := width "ID" (map t_id table_rows) in
  _ ← echo (table_line name_width id_width (TableRow "NAME" "ID" "OPENSTACK" "OVN"));
  for_each table_rows (fun r => echo (table_line name_width id_width r)).
End listing.

(** ** [router show] *)

(* us_net/commands/router.py:24-32 _lrp_role *)
Definition _lrp_role (lrp_name : string) (gateway_port_id : option string) (interface_port_ids : list string) : string :=
  let port_id := removeprefix "lrp-" lrp_name in
  if truthy gateway_port_id && bool_decide (gateway_port_id = Some port_id) then "gateway"
  else if bool_decide (port_id ∈ interface_port_ids) then "internal" else "unknown".
(* us_net/commands/router.py:35-37 _rows_by_uuid *)
Definition _rows_by_uuid (rows : list row) (uuids : list string) : list row :=
  List.filter (fun r => match entry "_uuid" r with Some (VStr u) => bool_decide (u ∈ uuids) | _ => false end) rows.
(* us_net/commands/router.py:40-47 _chassis_physical_networks *)
Definition _chassis_physical_networks (chassis_row : option row) : res string :=
  match chassis_row with
  | None => Ok "(chassis not in SB)"
  | Some r =>
      other_config ← map_column "other_config" r;
      match other_config !! "ovn-bridge-mappings" with
      | None | Some "" => Ok "(no ovn-bridge-mappings configured)"
      | Some mappings =>
          Ok (String.concat ", " (map (fun pair => match split_once ":"%char pair with Some (a, _) => a | None => pair end)
                (List.filter (fun p => truthy p) (split ","%char mappings))))
      end
  end.

Definition is_not_found (e : exn) : bool := bool_decide (e.(exn_cls) ∈ ["ResourceNotFound"; "NotFoundException"]).
(** The id of the port, and the port when it exists. *)
(* us_net/commands/router.py:50-73 _resolve_nat_port *)
Definition _resolve_nat_port (nat : row) : tool (option string * option os_port) :=
  external_ids ← lift (map_column "external_ids" nat);
  logical_port ← lift (opt_column "logical_port" nat);
  let port_id := match external_ids !! "neutron:fip_port_id" with
                 | Some ((String _ _) as p) => Some p
                 | _ => match logical_port with Some ((String _ _) as p) => Some p | _ => None end
                 end in
  match port_id with
  | Some id =>
      try_except (p ← call (GetPort id); mret (Some id, Some p))
        (fun e => if is_not_found e then mret (Some id, None) else Raise e)
  | None =>
      logical_ip ← lift (opt_column "logical_ip" nat);
      match logical_ip with
      | Some ((String _ _) as ip) =>
          if has_char "/"%char ip then mret (None, None)
          else matches ← call (PortsAt ip);
               match matches with p :: _ => mret (Some p.(p_id), Some p) | [] => mret (None, None) end
      | _ => mret (None, None)
      end
  end.
(* us_net/commands/router.py:76-88 _describe_port_owner *)
Definition _describe_port_owner (p : os_port) : tool string :=
  match p.(device_owner) with
  | Some ((String _ _) as owner) =>
      if startswith "compute:" owner && truthy p.(device_id) then
        let id := default "" p.(device_id) in
        try_except (name ← call (GetServer id); mret ("server " +:+ id +:+ " (" +:+ name +:+ ")")) (fun _ => mret ("server " +:+ id))
      else mret ("device_owner=" +:+ owner)
  | _ => mret "unbound"
  end.
Definition or_text (s other : string) : string := if truthy s then s else other.
(* us_net/commands/router.py:96-103 _describe_lsp *)
Definition _describe_lsp (lsp_row : option row) : res string :=
  match lsp_row with
  | None => Ok "NOT FOUND (dangling?)"
  | Some r =>
      lsp_type ← opt_column "type" r;
      addresses ← texts_column "addresses" r;
      let up := if truthy (default VNull (entry "up" r)) then "up" else "down" in
      Ok ("type=" +:+ str_or lsp_type "(normal)" +:+ ", " +:+ up +:+ ", addresses=" +:+ or_text (String.concat ", " addresses) "(none)")
  end.

(** A row of [HA_Chassis] or [Gateway_Chassis]. *)
Definition read_chassis (r : row) : res (Z * string) :=
  p ← num_column "priority" r; n ← text_column "chassis_name" r; Ok (p, n).
(** Highest priority first. *)
Definition by_priority : list (Z * string) -> list (Z * string) := sort_stable (fun a b => b.1 <=? a.1).
(* us_net/commands/router.py:119-126 _describe_chassis_refs *)
Definition describe_chassis (sb_chassis_by_name : gmap string row) (c : Z * string) : res string :=
  let sb_row := sb_chassis_by_name !! c.2 in
  physnets ← _chassis_physical_networks sb_row;
  Ok (c.2 +:+ " (priority=" +:+ pretty c.1 +:+ ", " +:+ (match sb_row with Some _ => "alive" | None => "DEAD" end) +:+ ", physnets=" +:+ physnets +:+ ")").
(* us_net/commands/router.py:106-127 _describe_chassis_refs *)
Definition _describe_chassis_refs (chassis_uuids : list string) (chassis_rows sb_chassis_by_name : gmap string row) : res string :=
  rows ← res_map read_chassis (omap (fun u => chassis_rows !! u) chassis_uuids);
  descr ← res_map (describe_chassis sb_chassis_by_name) (by_priority rows);
  Ok (or_text (String.concat "; " descr) "(empty)").
(* us_net/commands/router.py:130-143 ChassisTables *)
Record ChassisTables := Tables { hcg_rows : gmap string row; ha_chassis_rows : gmap string row; gateway_chassis_rows : gmap string row; sb_chassis_by_name : gmap string row }.
(* us_net/commands/router.py:146-158 _describe_hcg *)
Definition _describe_hcg (hcg_uuid : option string) (tables : ChassisTables) : res string :=
  match hcg_uuid with
  | Some ((String _ _) as u) =>
      match tables.(hcg_rows) !! u with
      | None => Ok (u +:+ " (row not found!)")
      | Some hcg =>
          refs ← texts_column "ha_chassis" hcg;
          summary ← _describe_chassis_refs refs tables.(ha_chassis_rows) tables.(sb_chassis_by_name);
          name ← text_column "name" hcg;
          Ok (name +:+ " -> " +:+ summary)
      end
  | _ => Ok "NOT LINKED"
  end.

(** [str(tag)] of a tag. *)
Definition tag_text (v : val) : res string :=
  match v with VNum z => Ok (pretty z) | VStr s => Ok s | _ => Err (SchemaError "tag") end.
(* us_net/commands/router.py:182-190 _localnet_tags *)
Definition tags_of (all_lsp_rows : list row) (switch_row : row) : res string :=
  lsp_uuids ← texts_column "ports" switch_row;
  tags ← res_map tag_text (mjoin (map (fun lsp => match entry "type" lsp with
           | Some (VStr "localnet") => as_list (default VNull (entry "tag" lsp))
           | _ => []
           end) (_rows_by_uuid all_lsp_rows lsp_uuids)));
  Ok (if truthy tags then String.concat ", " tags else "(no localnet port)").
(* us_net/commands/router.py:161-190 _localnet_tags *)
Definition _localnet_tags (c : ConnectionContext) (switch_name : option string) (all_lsp_rows : list row) : tool string :=
  match switch_name with
  | Some ((String _ _) as name) =>
      cache ← get_state;
      _ ← (match cache !! name with
           | Some _ => mret tt
           | None =>
               rows ← nbctl_find c "Logical_Switch" ("name=" +:+ name);
               cache ← get_state;
               put_state (<[name := head rows]> cache)
           end);
      cache ← get_state;
      match cache !! name with
      | Some (Some switch_row) => lift (tags_of all_lsp_rows switch_row)
      | _ => mret "(switch not found)"
      end
  | _ => mret "(unknown network)"
  end.

(** What [show] knows of the router when it prints its ports. *)
Record router_view := View {
  gateway_port_id : option string; interface_port_ids : list string; port_fixed_ips : gmap string (list string);
  chassis_option : option string; chassis_note : string; tables : ChassisTables;
  all_lsp_rows : list row; lsp_by_name : gmap string row }.
(** The Neutron ports of a router: the gateway, the interfaces and the addresses. *)
(* us_net/commands/router.py:215-223 show *)
Definition view_ports (ports : list os_port) : option string * list string * gmap string (list string) :=
  foldl (fun '(gw, ifs, ips) p =>
    let ips := <[p.(p_id) := p.(fixed_ips)]> ips in
    if bool_decide (p.(device_owner) = Some "network:router_gateway") then (Some p.(p_id), ifs, ips)
    else if bool_decide (p.(device_owner) = Some "network:router_interface") then (gw, ifs ++ [p.(p_id)], ips)
    else (gw, ifs, ips)) (None, [], ∅) ports.
(** Where the chassis of a port comes from. *)
(* us_net/commands/router.py:299-335 show *)
Definition chassis_line (v : router_view) (lrp : row) (role : string) : res string :=
  hcg_uuid ← opt_column "ha_chassis_group" lrp;
  gw_chassis_uuids ← texts_column "gateway_chassis" lrp;
  if truthy hcg_uuid then
    summary ← _describe_hcg hcg_uuid v.(tables); Ok ("      HA_Chassis_Group  : " +:+ summary)
  else if truthy gw_chassis_uuids then
    summary ← _describe_chassis_refs gw_chassis_uuids v.(tables).(gateway_chassis_rows) v.(tables).(sb_chassis_by_name);
    Ok ("      Gateway_Chassis   : " +:+ summary)
  else if truthy v.(chassis_option) then Ok ("      Pinned chassis    : " +:+ default "" v.(chassis_option) +:+ v.(chassis_note))
  else if bool_decide (role = "internal") then Ok "      HA_Chassis_Group  : (none) -- not set by default on internal ports"
  else Ok "      HA_Chassis_Group  : NOT LINKED (likely bug -- no ha_chassis_group or gateway_chassis found; see scripts/cleanup_dead_ovn_ha_chassis.py)".
(** The name of the switch of a port, from its logical switch port. *)
(* us_net/commands/router.py:292-295 show *)
Definition network_name (v : router_view) (port_id : string) : res (option string) :=
  match v.(lsp_by_name) !! port_id with
  | Some lsp => ids ← map_column "external_ids" lsp; Ok (ids !! "neutron:network_name")
  | None => Ok None
  end.
(* us_net/commands/router.py:280-335 show *)
Definition show_port (c : ConnectionContext) (v : router_view) (lrp : row) : tool unit :=
  lrp_name ← lift (text_column "name" lrp);
  let port_id := removeprefix "lrp-" lrp_name in
  let role := _lrp_role lrp_name v.(gateway_port_id) v.(interface_port_ids) in
  networks ← lift (texts_column "networks" lrp);
  let neutron_ips := String.concat ", " (default [] (v.(port_fixed_ips) !! port_id)) in
  _ ← echo ("  - " +:+ lrp_name +:+ " [" +:+ role +:+ "]");
  _ ← echo ("      Neutron port      : " +:+ port_id);
  _ ← echo ("      OVN networks      : " +:+ or_text (String.concat ", " networks) "(none)");
  _ ← echo ("      Neutron fixed IPs : " +:+ or_text neutron_ips "(none)");
  switch_name ← lift (network_name v port_id);
  tags ← _localnet_tags c switch_name v.(all_lsp_rows);
  _ ← echo ("      Network VLAN tag  : " +:+ tags);
  line ← lift (chassis_line v lrp role);
  echo line.
(** One NAT rule: the ports resolved so far, by id and in order. *)
(* us_net/commands/router.py:344-359 show *)
Definition show_nat (resolved : dict os_port) (nat : row) : tool (dict os_port) :=
  nat_type ← lift (opt_column "type" nat);
  external_ip ← lift (opt_column "external_ip" nat);
  logical_ip ← lift (opt_column "logical_ip" nat);
  let line := "  " +:+ ljust 14 (default "?" nat_type) +:+ " external=" +:+ ljust 16 (str_or external_ip "-") +:+ " logical=" +:+ str_or logical_ip "-" in
  found ← try_except (r ← _resolve_nat_port nat; mret (Some r)) (fun _ => mret None);
  match found with
  | None => _ ← echo (line +:+ "  -> ERROR resolving port"); mret resolved
  | Some (_, Some p) => _ ← echo (line +:+ "  -> port " +:+ p.(p_id)); mret (dict_set p.(p_id) p resolved)
  | Some (Some id, None) => _ ← echo (line +:+ "  -> port " +:+ id +:+ " NOT FOUND (dangling NAT rule?)"); mret resolved
  | Some (None, None) => _ ← echo line; mret resolved
  end.
(* us_net/commands/router.py:364-373 show *)
Definition show_resolved (v : router_view) (p : os_port) : tool unit :=
  _ ← echo ("  " +:+ p.(p_id) +:+ " (" +:+ str_or p.(p_name) "(unnamed)" +:+ ")");
  _ ← echo ("      Fixed IPs        : " +:+ or_text (String.concat ", " p.(fixed_ips)) "(none)");
  owner ← _describe_port_owner p;
  _ ← echo ("      Owner            : " +:+ owner);
  let lsp_row := v.(lsp_by_name) !! p.(p_id) in
  descr ← lift (_describe_lsp lsp_row);
  _ ← echo ("      OVN LSP          : " +:+ descr);
  hcg ← lift (match lsp_row with Some r => opt_column "ha_chassis_group" r | None => Ok None end);
  summary ← lift (_describe_hcg hcg v.(tables));
  echo ("      HA_Chassis_Group : " +:+ summary).
(* us_net/osclient.py:35-40 resolve_router *)
Definition resolve_router (name_or_id : string) : tool os_router :=
  router ← call (FindRouter name_or_id);
  match router with Some r => mret r | None => Raise (Exn "LookupError" [name_or_id]) end.
(** The tables and the ports of the router, read once. *)
(* us_net/commands/router.py:214-276 show *)
Definition read_view (c : ConnectionContext) (router : os_router) : tool (router_view * row * list row) :=
  ports ← call (PortsOf router.(r_id));
  let '(gw, ifs, ips) := view_ports ports in
  let ovn_name := NEUTRON_PREFIX +:+ router.(r_id) in
  _ ← echo ("Router " +:+ router.(r_name) +:+ " (" +:+ router.(r_id) +:+ ")");
  _ ← echo ("OVN Logical_Router: " +:+ ovn_name);
  lr_rows ← nbctl_find c "Logical_Router" ("name=" +:+ ovn_name);
  match lr_rows with
  | [] => Raise (Exit 1)
  | lr :: _ =>
      opts ← lift (map_column "options" lr);
      let chassis_option := opts !! "chassis" in
      _ ← echo (if truthy chassis_option then "Type: centralized (options:chassis=" +:+ default "" chassis_option +:+ ")" else "Type: distributed");
      lrp_uuids ← lift (texts_column "ports" lr);
      all_lrps ← nbctl_list c "Logical_Router_Port";
      hcgs ← nbctl_list c "HA_Chassis_Group"; hcg_rows ← lift (rows_by "_uuid" hcgs);
      has ← nbctl_list c "HA_Chassis"; ha_chassis_rows ← lift (rows_by "_uuid" has);
      gws ← nbctl_list c "Gateway_Chassis"; gateway_chassis_rows ← lift (rows_by "_uuid" gws);
      sbs ← sbctl_list c "Chassis"; sb_chassis_by_name ← lift (rows_by "name" sbs);
      let sb_row := (name ← chassis_option; sb_chassis_by_name !! name) in
      physnets ← lift (_chassis_physical_networks sb_row);
      let note := " (" +:+ (match sb_row with Some _ => "alive" | None => "DEAD" end) +:+ ", physnets=" +:+ physnets +:+ ")" in
      all_lsp_rows ← nbctl_list c "Logical_Switch_Port";
      lsp_by_name ← lift (rows_by "name" all_lsp_rows);
      mret (View gw ifs ips chassis_option note (Tables hcg_rows ha_chassis_rows gateway_chassis_rows sb_chassis_by_name)
              all_lsp_rows lsp_by_name, lr, _rows_by_uuid all_lrps lrp_uuids)
  end.
(* us_net/commands/router.py:193-377 show *)
Definition show (c : ConnectionContext) (name_or_id : string) (flows : bool) : tool unit :=
  _ ← print_connection_banner c true;
  router ← or_exit (_ ← call (Connect c.(os_cloud)); resolve_router name_or_id);
  vr ← read_view c router;
  let '(v, lr, lrps) := vr in
  _ ← put_state ∅;
  _ ← for_each lrps (show_port c v);
  nat_uuids ← lift (texts_column "nat" lr);
  all_nat_rows ← nbctl_list c "NAT";
  let nat_rows := _rows_by_uuid all_nat_rows nat_uuids in
  _ ← (if truthy nat_rows then mret tt else echo "  (none)");
  resolved_ports ← fold_each show_nat nat_rows [];
  _ ← (if truthy resolved_ports then mret tt else echo "  (none)");
  _ ← for_each (map snd resolved_ports) (show_resolved v);
  if flows then
    text ← sbctl_lflow_list c (NEUTRON_PREFIX +:+ router.(r_id));
    echo (rstrip_by is_space text)
  else mret tt.

(** ** Passthrough *)

(* us_net/commands/raw.py:22-29 nbctl *)
Definition nbctl (c : ConnectionContext) (args : list string) : tool unit :=
  _ ← print_connection_banner c false;
  rc ← stream_exec_in_pod c c.(nb_pod) (Some "ovsdb") ("ovn-nbctl" :: args);
  Raise (Exit rc).
(* us_net/commands/raw.py:32-39 sbctl *)
Definition sbctl (c : ConnectionContext) (args : list string) : tool unit :=
  _ ← print_connection_banner c false;
  rc ← stream_exec_in_pod c c.(sb_pod) (Some "ovsdb") ("ovn-sbctl" :: args);
  Raise (Exit rc).
(* us_net/commands/raw.py:42-58 vsctl *)
Definition vsctl (c : ConnectionContext) (node : string) (pod container : option string) (args : list string) : tool unit :=
  _ ← print_connection_banner c false;
  target_pod ← resolve_node_pod c node "ovn-controller" pod;
  rc ← stream_exec_in_pod c target_pod container ("ovs-vsctl" :: args);
  Raise (Exit rc).
(* us_net/commands/raw.py:61-82 appctl *)
Definition appctl (c : ConnectionContext) (node target : string) (pod container : option string) (args : list string) : tool unit :=
  _ ← print_connection_banner c false;
  target_pod ← resolve_node_pod c node target pod;
  rc ← stream_exec_in_pod c target_pod container ("ovs-appctl" :: args);
  Raise (Exit rc).

(** ** Properties *)

(** *** Sorting *)

Section sorting.
Context {A : Type} (leb : A -> A -> bool).
Hypothesis leb_total : forall x y, leb x y = true \/ leb y x = true.

Lemma insert_stable_perm x l : insert_stable leb x l ≡ₚ x :: l.
Proof. induction l as [|y l IH]; cbn; [done|]. destruct (leb x y); [done|]. rewrite IH. by apply Permutation_swap. Qed.
Lemma sort_stable_perm l : sort_stable leb l ≡ₚ l.
Proof. induction l as [|x l IH]; cbn; [done|]. rewrite insert_stable_perm. by rewrite IH. Qed.
Lemma insert_stable_sorted x l :
  Sorted (fun x y => leb x y = true) l -> Sorted (fun x y => leb x y = true) (insert_stable leb x l).
Proof.
  induction 1 as [|y l Hs IH Hhd]; cbn [insert_stable]; [repeat constructor|].
  destruct (leb x y) eqn:Hxy; [by repeat constructor|]. assert (leb y x = true) as Hyx by (destruct (leb_total x y); congruence).
  constructor; [done|]. destruct Hhd as [|z l Hyz]; cbn [insert_stable]; [by constructor|]. by destruct (leb x z); constructor.
Qed.
Lemma sort_stable_sorted l : Sorted (fun x y => leb x y = true) (sort_stable leb l).
Proof. induction l as [|x l IH]; [constructor|]. by apply insert_stable_sorted. Qed.
End sorting.

(** *** The list of routers *)

(** [id] is a router that Neutron lists, or of a logical router named after it. *)
Definition in_neutron (routers : list os_router) (id : string) : Prop := exists r, r ∈ routers /\ r.(r_id) = id.
Definition has_logical_router (rows : list row) (id : string) : Prop :=
  exists r, r ∈ rows /\ opt_column "name" r = inr (Some (NEUTRON_PREFIX +:+ id)).

(** What a line of the table says of a router. *)
Record says (routers : list os_router) (rows : list row) (t : table_row) : Prop := {
  says_openstack : t.(in_openstack) = "yes" <-> in_neutron routers t.(t_id);
  says_ovn : t.(in_ovn) = "yes" -> has_logical_router rows t.(t_id);
  says_no : t.(in_ovn) = "NO" -> ~ has_logical_router rows t.(t_id);
  says_flavored : t.(in_ovn) = "n/a (flavored)" -> exists r, r ∈ routers /\ r.(r_id) = t.(t_id) /\ truthy r.(flavor_id) = true;
  says_one : t.(in_ovn) = "yes" \/ t.(in_ovn) = "NO" \/ t.(in_ovn) = "n/a (flavored)" }.

Lemma routers_by_id_lookup routers id :
  (is_Some ((foldl (fun m r => <[r.(r_id) := r]> m) ∅ routers : gmap string os_router) !! id) <-> in_neutron routers id) /\
  forall r, (foldl (fun m r => <[r.(r_id) := r]> m) ∅ routers : gmap string os_router) !! id = Some r -> r ∈ routers /\ r.(r_id) = id.
Proof.
  induction routers as [|r0 routers IH] using rev_ind.
  - cbn. rewrite lookup_empty. split; [|done]. split; [by intros [? ?]|]. intros (r & Hr & _). by apply elem_of_nil in Hr.
  - rewrite foldl_app. cbn. set (m := foldl _ _ _) in *. destruct IH as [IH1 IH2].
    destruct (decide (r_id r0 = id)) as [<-|Hne].
    + rewrite lookup_insert_eq. split.
      * split; [|by eauto]. intros _. exists r0. split; [apply elem_of_app; right; by left|done].
      * intros r [= <-]. split; [apply elem_of_app; right; by left|done].
    + rewrite lookup_insert_ne by done. rewrite IH1. split.
      * unfold in_neutron. split; intros (r & Hr & Hid); exists r; rewrite elem_of_app, ?list_elem_of_singleton in *; naive_solver.
      * intros r Hr. destruct (IH2 r Hr). rewrite elem_of_app. eauto.
Qed.

Lemma ovn_ids_spec rows : forall ids0 ids,
  res_fold add_ovn_id rows ids0 = inr ids ->
  forall id, id ∈ ids <-> id ∈ ids0 \/ has_logical_router rows id.
Proof.
  unfold has_logical_router. induction rows as [|r rows IH]; intros ids0 ids; cbn [res_fold].
  - intros [= <-] id. split; [by left|]. intros [?|(r & Hr & _)]; [done|]. by apply elem_of_nil in Hr.
  - unfold add_ovn_id at 1, mbind, res_mbind. destruct (opt_column "name" r) as [e|name] eqn:Hn; [done|]. cbn zeta. intros Hf id.
    rewrite (IH _ _ Hf). clear IH Hf.
    assert ((id ∈ (if startswith NEUTRON_PREFIX (default "" name) then {[removeprefix NEUTRON_PREFIX (default "" name)]} ∪ ids0 else ids0 : gset string)) <->
      id ∈ ids0 \/ name = Some (NEUTRON_PREFIX +:+ id)) as ->.
    { destruct (startswith NEUTRON_PREFIX (default "" name)) eqn:Hs.
      - destruct name as [name|]; [|done]. change (default "" (Some name)) with name in *. unfold removeprefix. rewrite Hs. apply startswith_spec in Hs as [rest ->].
        rewrite drop_str_app, elem_of_union, elem_of_singleton. split; [intros [->|?]; eauto|]. intros [?|Heq%(inj Some)]; [by right|].
        left. by apply (inj (String.append NEUTRON_PREFIX)) in Heq.
      - split; [by left|]. intros [?| ->]; [done|]. change (default "" (Some ?x)) with x in Hs. rewrite (proj2 (startswith_spec _ _)) in Hs; [done|eauto]. }
    setoid_rewrite elem_of_cons. split.
    + intros [[?| ->]|(r' & ? & ?)]; [by left|right; exists r; eauto|right; exists r'; eauto].
    + intros [?|(r' & [->|?] & Hr')]; [by left; left| |right; eauto]. left. right. congruence.
Qed.

Section routers.
Variable iter : gset string -> list string.
Hypothesis iter_elem : forall X x, x ∈ iter X <-> x ∈ X.
Hypothesis iter_NoDup : forall X, NoDup (iter X).

Lemma row_leb_total a b : row_leb a b = true \/ row_leb b a = true.
Proof. unfold row_leb. destruct (String.leb_total (lower (t_name a)) (lower (t_name b))); auto. Qed.

(** The table of the routers that Neutron and OVN list: one line for each router of
    either, by name, that says where it is. *)
Definition is_table (routers : list os_router) (rows : list row) (table : list table_row) : Prop :=
  NoDup (map t_id table) /\
  (forall id, id ∈ map t_id table <-> in_neutron routers id \/ has_logical_router rows id) /\
  Forall (says routers rows) table /\ Sorted (fun a b => row_leb a b = true) table.

Lemma table_correct routers rows ids :
  ovn_ids rows = inr ids ->
  is_table routers rows (sort_stable row_leb (map (router_row (foldl (fun m r => <[r.(r_id) := r]> m) ∅ routers) ids)
    (iter (dom (foldl (fun m r => <[r.(r_id) := r]> m) ∅ routers : gmap string os_router) ∪ ids)))).
Proof.
  intros Hids. pose proof (routers_by_id_lookup routers) as Hm. set (m := foldl _ _ _) in *.
  assert (forall id, id ∈ ids <-> has_logical_router rows id) as Hovn.
  { intros id. rewrite (ovn_ids_spec rows ∅ ids Hids id). split; [intros [?%elem_of_empty|?]; done|by right]. }
  assert (forall (f : string -> table_row) l, (forall id, t_id (f id) = id) -> map t_id (map f l) = l) as Hmap.
  { intros f l Hf. rewrite map_map. induction l as [|x l IH]; [done|]. cbn. by rewrite Hf, IH. }
  unfold is_table. set (rs := map (router_row m ids) _). pose proof (sort_stable_perm row_leb rs) as Hperm.
  pose proof (Permutation_map t_id Hperm) as Hidp. subst rs. rewrite Hmap in Hidp by done. split; [rewrite Hidp; apply iter_NoDup|]. split; [|split].
  - intros id. rewrite Hidp, iter_elem, elem_of_union, elem_of_dom. destruct (Hm id) as [-> _]. by rewrite Hovn.
  - rewrite Hperm. apply Forall_forall. intros t Ht. apply list_elem_of_fmap in Ht as (id & -> & _). destruct (Hm id) as [Hdom Hlook].
    unfold router_row. destruct (m !! id) as [r|] eqn:Hr; cbn.
    + destruct (Hlook r eq_refl) as [Hin Hid]. assert (in_neutron routers id) as Hneu by by exists r.
      destruct (truthy (flavor_id r)) eqn:Hfl; [|case_decide as Hdec; rewrite Hovn in Hdec]; split; cbn; naive_solver.
    + assert (~ in_neutron routers id) by (rewrite <- Hdom; by intros [? ?]).
      case_decide as Hdec; rewrite Hovn in Hdec; split; cbn; naive_solver.
  - apply sort_stable_sorted, row_leb_total.
Qed.

(** What the table looks like. *)
Definition table_lines (table : list table_row) : list string :=
  if truthy table then
    let name_width := width "NAME" (map t_name table) in
    let id_width := width "ID" (map t_id table) in
    table_line name_width id_width (TableRow "NAME" "ID" "OPENSTACK" "OVN") :: map (table_line name_width id_width) table
  else ["(no routers found)"].
Definition printed (lines : list string) : list (event netE) := map (fun line => Ev (Echo line) (inr tt)) lines.
Definition list_command (c : ConnectionContext) (table : string) : list string :=
  _exec_argv c c.(nb_pod) (Some "ovsdb") ["ovn-nbctl"; "--format=json"; "list"; table].

Lemma wp_nbctl_list c table g tr :
  wp step_trace (nbctl_list c table) (fun r g' tr' => g' = g /\ tr `prefix_of` tr' /\ forall rows, r = inr rows ->
    exists result, Ev (RunCmd (list_command c table)) (inr result) ∈ tr' /\ result.(returncode) = 0 /\ rows_of result = inr rows) g tr.
Proof.
  unfold nbctl_list, _run, exec_in_pod. do 2 wp_pure. apply wp_call. intros [e|result] tr' Htr; wp_simp;
    (assert (tr `prefix_of` tr') as Hpre by (unfold step_trace in Htr; subst tr'; by apply prefix_app_r)); [done|].
  destruct (Z.eqb_spec (returncode result) 0) as [Hrc|]; cbn [negb]; repeat wp_pure; [|done].
  split; [done|]. split; [done|]. intros rows Hrows. exists result. split; [|done].
  unfold step_trace in Htr. subst tr'. apply elem_of_app. right. by left.
Qed.

Lemma wp_print_lines (lines : list string) g tr :
  wp step_trace (for_each lines echo) (fun r g' tr' => r = inr tt -> tr' = tr ++ printed lines) g tr.
Proof.
  apply (wp_for_each_seen _ _ _ (fun seen _ tr' => tr' = tr ++ printed seen)); [by rewrite app_nil_r| |done].
  intros seen line later g' tr' _ ->. apply wp_call. intros [e|[]] tr2 ->; [done|]. rewrite <- app_assoc. unfold printed. by rewrite map_app.
Qed.
Lemma for_each_map {A} (f : A -> string) (l : list A) : for_each l (fun x => echo (f x)) = for_each (map f l) echo.
Proof. induction l as [|x l IH]; cbn; [done|]. f_equal. by rewrite IH. Qed.

(** The list of routers: when it is printed, it has one line for each router that
    Neutron lists or that has a logical router named after it, sorted by name; each
    says whether Neutron has the router, and whether OVN has it, or that its flavor
    is not OVN's to handle. *)
Theorem router_list_complete c g :
  every_run (list_routers iter c) g (fun r _ tr => r = inr tt ->
    exists routers result rows table start,
      Ev Routers (inr routers) ∈ tr /\ Ev (RunCmd (list_command c "Logical_Router")) (inr result) ∈ tr /\
      rows_of result = inr rows /\ is_table routers rows table /\ tr = start ++ printed (table_lines table)).
Proof.
  unfold every_run, list_routers. wp_pure. eapply wp_mono; [|apply wp_true]. intros [e|[]] g0 tr0 _; [done|]. cbn beta iota.
  wp_pure. eapply wp_mono; [|apply wp_true]. intros [e|cfg] g1 tr1 _; [done|]. cbn beta iota.
  wp_pure. apply wp_call. intros [e|routers] tr2 Htr2; wp_simp; [done|].
  assert (Ev Routers (inr routers) ∈ tr2) as Hrt by (unfold step_trace in Htr2; subst tr2; apply elem_of_app; right; by left). clear Htr2.
  wp_pure. eapply wp_mono; [|apply wp_nbctl_list]. intros [e|rows] g2 tr3 (-> & Hp3 & Hrows); [done|]. cbn beta iota.
  destruct (Hrows _ eq_refl) as (result & Hres & _ & Hr). do 2 wp_pure.
  destruct (ovn_ids rows) as [e|ids] eqn:Hids; wp_simp; [done|].
  pose proof (table_correct routers rows ids Hids) as Htab. set (table := sort_stable _ _) in *. clearbody table.
  wp_pure. apply wp_call. intros [e|[]] tr4 Htr4; wp_simp; [done|].
  assert (forall lines tr5, tr5 = tr4 ++ printed lines -> lines = table_lines table -> exists routers result rows table start,
    Ev Routers (inr routers) ∈ tr5 /\ Ev (RunCmd (list_command c "Logical_Router")) (inr result) ∈ tr5 /\
    rows_of result = inr rows /\ is_table routers rows table /\ tr5 = start ++ printed (table_lines table)) as Hend.
  { intros lines tr5 -> ->. unfold step_trace in Htr4. subst tr4. destruct Hp3 as [k ->].
    exists routers, result, rows, table, ((tr2 ++ k) ++ [Ev (Echo "") (inr tt)]). rewrite !elem_of_app in *. split_and!; try done; tauto. }
  destruct (truthy table) eqn:Ht; cbn [negb].
  - wp_pure. apply wp_call. intros [e|[]] tr5 Htr5; wp_simp; [done|]. rewrite for_each_map.
    eapply wp_mono; [|apply wp_print_lines]. intros r g6 tr6 Hl Hok. eapply Hend; [|unfold table_lines; by rewrite Ht].
    rewrite (Hl Hok). unfold step_trace in Htr5. subst tr5. by rewrite <- app_assoc.
  - apply wp_call. intros r tr5 Htr5 Hok. subst r. apply (Hend ["(no routers found)"]); [exact Htr5|]. unfold table_lines. by rewrite Ht.
Qed.
End routers.

Lemma router_list_complete_witness :
  every_run (list_routers elements (Ctx None "openstack" "nb" "sb" None)) ∅ (fun r _ tr => r = inr tt ->
    exists routers result rows table start,
      Ev Routers (inr routers) ∈ tr /\ Ev (RunCmd (list_command (Ctx None "openstack" "nb" "sb" None) "Logical_Router")) (inr result) ∈ tr /\
      rows_of result = inr rows /\ is_table routers rows table /\ tr = start ++ printed (table_lines table)).
Proof. apply (router_list_complete elements); [intros X x; apply elem_of_elements|intros X; apply NoDup_elements]. Defined.

(** *** Look-ups of switches *)

(** The name that a command looks up among the switches. *)
Definition switch_find (ev : event netE) : option string :=
  match ev with
  | Ev (RunCmd cmd) _ =>
      match rev cmd with
      | cond :: table :: verb :: _ => if decide (table = "Logical_Switch" /\ verb = "find") then Some cond else None
      | _ => None
      end
  | _ => None
  end.
Definition finds (tr : list (event netE)) : list string := omap switch_find tr.
Definition no_find (R : Type) (op : netE R) : Prop := forall r, switch_find (Ev op r) = None.
Lemma finds_app tr1 tr2 : finds (tr1 ++ tr2) = finds tr1 ++ finds tr2.
Proof. unfold finds. apply omap_app. Qed.
Lemma finds_one ev : finds [ev] = option_list (switch_find ev).
Proof. unfold finds. cbn -[switch_find]. by destruct (switch_find ev). Qed.
Lemma finds_none tr : Forall (fun ev => match ev with Ev op _ => no_find _ op end) tr -> finds tr = [].
Proof.
  unfold finds. induction 1 as [|[R op r] tr Hop _ IH]; [done|]. change (omap switch_find (Ev op r :: tr)) with
    (match switch_find (Ev op r) with Some x => x :: omap switch_find tr | None => omap switch_find tr end).
  by rewrite Hop.
Qed.

Lemma rev_exec c pod container argv :
  rev (_exec_argv c pod container argv) = rev argv ++ rev (kubectl_base c ++ ["exec"; "-n"; namespace c; pod] ++
    (if truthy container then ["-c"; default "" container] else []) ++ ["--"]).
Proof.
  unfold _exec_argv. rewrite <- rev_app_distr. f_equal. rewrite <- !app_assoc. done.
Qed.

Lemma calls_echo line : calls_only no_find (echo line).
Proof. apply calls_call. by intros r. Qed.
Lemma calls_run c pod ctl args :
  (forall r, switch_find (Ev (RunCmd (_exec_argv c pod (Some "ovsdb") (ctl :: args))) r) = None) -> calls_only no_find (_run c pod ctl args).
Proof. intros Hn. apply calls_bind; [by apply calls_call|]. intros r. by destruct (negb _). Qed.
Lemma calls_nbctl_list c table : calls_only no_find (nbctl_list c table).
Proof.
  apply calls_bind; [|intros; apply calls_lift]. apply calls_run. intros r. cbn [switch_find]. by rewrite rev_exec.
Qed.
Lemma calls_sbctl_list c table : calls_only no_find (sbctl_list c table).
Proof.
  apply calls_bind; [|intros; apply calls_lift]. apply calls_run. intros r. cbn [switch_find]. by rewrite rev_exec.
Qed.
Lemma calls_find_router c cond : calls_only no_find (nbctl_find c "Logical_Router" cond).
Proof.
  apply calls_bind; [|intros; apply calls_lift]. apply calls_run. intros r. cbn [switch_find]. by rewrite rev_exec.
Qed.
#[local] Ltac calls_tool :=
  repeat lazymatch goal with
  | |- calls_only _ (mbind _ _) => apply calls_bind; [|intros ?]
  | |- calls_only _ (mret _) => exact I
  | |- calls_only _ (Raise _) => exact I
  | |- calls_only _ (echo _) => apply calls_echo
  | |- calls_only _ (nbctl_list _ _) => apply calls_nbctl_list
  | |- calls_only _ (sbctl_list _ _) => apply calls_sbctl_list
  | |- calls_only _ (nbctl_find _ _ _) => apply calls_find_router
  | |- calls_only _ (lift _) => apply calls_lift
  | |- calls_only _ (call _) => apply calls_call; by intros ?
  | |- calls_only _ (fold_each _ _ _) => apply calls_fold_each; intros ? ?
  | |- calls_only _ (for_each _ _) => apply calls_for_each; intros ?
  | |- calls_only _ (try_except _ _) => apply calls_try; [|intros ?]
  | |- calls_only _ (match ?x with _ => _ end) => destruct x
  end.

Lemma calls_banner c os : calls_only no_find (print_connection_banner c os).
Proof.
  unfold print_connection_banner, resolve_kube_context, describe_target. calls_tool.
Qed.
Lemma calls_read_view c router : calls_only no_find (read_view c router).
Proof. unfold read_view. calls_tool. Qed.
Lemma calls_show_nat resolved nat : calls_only no_find (show_nat resolved nat).
Proof. unfold show_nat, _resolve_nat_port. calls_tool. Qed.
Lemma calls_show_resolved v p : calls_only no_find (show_resolved v p).
Proof. unfold show_resolved, _describe_port_owner. calls_tool. Qed.

(** Each switch looked up so far is in the cache, and was looked up once. *)
Definition cached (cache : gmap string (option row)) (tr : list (event netE)) : Prop :=
  NoDup (finds tr) /\ forall name, ("name=" +:+ name) ∈ finds tr -> name ∈ dom cache.
(** What a step of the loop leaves: also when it fails, no switch was looked up twice. *)
Definition keeps_cache {A} (r : res A) (cache : gmap string (option row)) (tr : list (event netE)) : Prop :=
  match r with inr _ => cached cache tr | inl _ => NoDup (finds tr) end.

Lemma cached_quiet cache tr (ev : event netE) : switch_find ev = None -> cached cache tr -> cached cache (tr ++ [ev]).
Proof.
  intros Hev [Hnd Hin]. unfold cached. rewrite finds_app. unfold finds at 2 4. cbn. rewrite Hev, app_nil_r. done.
Qed.
Lemma wp_echo_cached line cache tr Q :
  cached cache tr -> (forall tr', cached cache tr' -> Q (inr tt) cache tr') -> (forall e tr', NoDup (finds tr') -> Q (inl e) cache tr') ->
  wp step_trace (echo line) Q cache tr.
Proof.
  intros Hc Hok He. apply wp_call. intros r tr' Htr. unfold step_trace in Htr. subst tr'.
  assert (cached cache (tr ++ [Ev (Echo line) r])) as Hc' by by apply cached_quiet.
  destruct r as [e|[]]; [apply He; by destruct Hc'|by apply Hok].
Qed.

Lemma wp_localnet_tags c switch_name lsps cache tr :
  cached cache tr -> wp step_trace (_localnet_tags c switch_name lsps) keeps_cache cache tr.
Proof.
  intros Hc. unfold _localnet_tags. destruct switch_name as [[|a name]|]; [by wp_pure| |by wp_pure]. set (nm := String a name). do 3 wp_pure.
  eapply wp_mono with (Q := keeps_cache).
  - intros [e|[]] cache' tr' Hk; [done|]. cbn beta iota. do 2 wp_pure. destruct (cache' !! nm) as [[sw|]|]; [|by wp_pure..].
    wp_pure. destruct (tags_of lsps sw); [by destruct Hk|done].
  - destruct (cache !! nm) as [o|] eqn:Hn; [by wp_pure|]. destruct Hc as [Hnd Hin].
    unfold nbctl_find, _run, exec_in_pod. do 3 wp_pure. apply wp_call. intros r tr' Htr. unfold step_trace in Htr. subst tr'.
    set (cmd := _exec_argv _ _ _ _). assert (forall r, finds (tr ++ [Ev (RunCmd cmd) r]) = finds tr ++ ["name=" +:+ nm]) as Hf.
    { intros r'. rewrite finds_app, finds_one. f_equal. subst cmd. cbn [switch_find]. by rewrite rev_exec. }
    assert (NoDup (finds (tr ++ [Ev (RunCmd cmd) r]))) as Hnd'.
    { rewrite Hf. apply NoDup_app. split; [done|]. split; [|apply NoDup_singleton].
      intros x Hx ->%list_elem_of_singleton. apply Hin, elem_of_dom in Hx. rewrite Hn in Hx. by destruct Hx. }
    destruct r as [e|result]; wp_simp; [done|]. destruct (negb _); repeat wp_pure; [done|].
    destruct (rows_of result) as [e|rows]; wp_simp; [done|]. repeat wp_pure. split; [done|]. rewrite Hf.
    intros nm' [Hx|Hx%list_elem_of_singleton]%elem_of_app; rewrite dom_insert, elem_of_union, elem_of_singleton; [right; by apply Hin|].
    left. by apply (inj (String.append "name=")) in Hx.
Qed.

Lemma wp_show_port c v lrp cache tr :
  cached cache tr -> wp step_trace (show_port c v lrp) keeps_cache cache tr.
Proof.
  intros Hc. unfold show_port. do 2 wp_pure. destruct (text_column "name" lrp) as [e|nm]; wp_simp; [by destruct Hc|].
  do 2 wp_pure. destruct (texts_column "networks" lrp) as [e|nets]; wp_simp; [by destruct Hc|].
  do 4 (wp_pure; apply wp_echo_cached; [done| |done]; clear dependent tr; intros tr Hc; wp_simp).
  do 2 wp_pure. destruct (network_name v _) as [e|sw]; wp_simp; [by destruct Hc|].
  wp_pure. eapply wp_mono; [|by apply wp_localnet_tags]. intros [e|tags] cache' tr' Hk; [done|]. cbn beta iota.
  wp_pure. apply wp_echo_cached; [done| |done]. clear dependent tr tr'. intros tr Hc. wp_simp.
  do 2 wp_pure. destruct (chassis_line _ _ _) as [e|line]; wp_simp; [by destruct Hc|]. by apply wp_echo_cached.
Qed.

(** However many ports of a router share a network, [router show] looks each logical
    switch up at most once: the others are answered from the cache, also when the
    switch was not found. *)
Theorem show_finds_switch_once c name_or_id flows cache :
  every_run (show c name_or_id flows) cache (fun _ _ tr => NoDup (finds tr)).
Proof.
  unfold every_run, show. wp_pure.
  assert (forall A B (p : tool A) (k : A -> tool B) g tr, calls_only no_find p ->
    NoDup (finds tr) -> (forall a g' tr', finds tr' = finds tr -> wp step_trace (k a) (fun _ _ tr => NoDup (finds tr)) g' tr') ->
    wp step_trace p (fun r g' tr' => match r with inl e => NoDup (finds tr') | inr a => wp step_trace (k a) (fun _ _ tr => NoDup (finds tr)) g' tr' end) g tr) as Hquiet.
  { intros A B p k g tr Hp Hnd Hk. eapply wp_mono; [|by apply wp_calls_only]. intros [e|a] g' tr' (new & -> & Hnew%finds_none);
      [|apply Hk]; by rewrite finds_app, Hnew, app_nil_r. }
  apply Hquiet; [apply calls_banner|constructor|]. intros [] g1 tr1 H1. wp_pure.
  apply Hquiet; [unfold or_exit, resolve_router; calls_tool|rewrite H1; constructor|]. intros router g2 tr2 H2. wp_pure.
  apply Hquiet; [apply calls_read_view|rewrite H2, H1; constructor|]. intros [[v lr] lrps] g3 tr3 H3.
  assert (finds tr3 = []) as Hnil by (rewrite H3, H2, H1; done). clear H1 H2 H3. do 3 wp_pure.
  apply (wp_for_each _ _ _ (fun cache' tr' => cached cache' tr')); [split; rewrite Hnil; [constructor|by intros ? ?%elem_of_nil]| |].
  { intros lrp g tr _ Hc. eapply wp_mono; [|by apply wp_show_port]. by intros [e|[]] g' tr'. }
  intros g4 tr4 [Hnd _]. do 2 wp_pure. destruct (texts_column "nat" lr) as [e|nats]; wp_simp; [done|]. wp_pure.
  apply Hquiet; [apply calls_nbctl_list|done|]. intros rows g5 tr5 H5. cbn zeta. wp_pure.
  apply Hquiet; [calls_tool|by rewrite H5|]. intros [] g6 tr6 H6. wp_pure.
  apply Hquiet; [apply calls_fold_each; intros; apply calls_show_nat|by rewrite H6, H5|]. intros resolved g7 tr7 H7. wp_pure.
  apply Hquiet; [calls_tool|by rewrite H7, H6, H5|]. intros [] g8 tr8 H8. wp_pure.
  apply Hquiet; [apply calls_for_each; intros; apply calls_show_resolved|by rewrite H8, H7, H6, H5|]. intros [] g9 tr9 H9.
  eapply wp_mono; [|apply wp_calls_only with (P := no_find)].
  - intros r g10 tr10 (new & -> & Hnew%finds_none). by rewrite finds_app, Hnew, app_nil_r, H9, H8, H7, H6, H5.
  - destruct flows; [|done]. apply calls_bind; [|intros; apply calls_echo]. apply calls_bind; [|done]. apply calls_run.
    intros r. cbn [switch_find]. by rewrite rev_exec.
Qed.
