(* ===== verification/ImageConvert.v ===== *)
(** * Disk images for 4096-byte sectors

    Models [src/scripts/convert_image_to_4k.py]: the partition table of an image with
    512-byte sectors is rescaled, the partitions are copied to the same bytes, the FAT
    of an EFI system partition is rebuilt, and qcow2 images are converted through
    temporary files.  Commands and file operations are calls; regular expressions are
    the scans they stand for.  Messages and the closing notes are left out. *)
From S2P Require Import Prelude PyStr PyData Ovn.
Local Open Scope Z_scope.

(* convert_image_to_4k.py:32-32 SRC_SECTOR *)
Definition SRC_SECTOR : Z := 512.
(* convert_image_to_4k.py:33-33 DST_SECTOR *)
Definition DST_SECTOR : Z := 4096.
(* convert_image_to_4k.py:34-34 RATIO *)
Definition RATIO : Z := DST_SECTOR / SRC_SECTOR.
(* convert_image_to_4k.py:35-35 HEADROOM *)
Definition HEADROOM : Z := 64 * 1024 * 1024.
(* convert_image_to_4k.py:38-38 ESP_TYPE_GUID *)
Definition ESP_TYPE_GUID : string := "C12A7328-F81F-11D2-BA4B-00A0C93EC93B".
(* convert_image_to_4k.py:41-43 die *)
Definition die : exn := SystemExit "1".

(** ** The partition table *)

(** [key=\s*([f]+)] at the start of [s]: the value and what follows it. *)
Definition value_at (key : string) (f : ascii -> bool) (s : string) : option (string * string) :=
  if startswith (key +:+ "=") s then
    let '(v, rest) := span f (lstrip_by is_space (drop_str (String.length (key +:+ "=")) s)) in
    if truthy v then Some (v, rest) else None
  else None.
(** [re.search]: the first one. *)
Fixpoint search (key : string) (f : ascii -> bool) (s : string) : option string :=
  match value_at key f s with
  | Some (v, _) => Some v
  | None => match s with String _ r => search key f r | "" => None end
  end.
Definition number_at (key : string) (s : string) : option (Z * string) :=
  match value_at key is_digit s with
  | Some (v, rest) => match digits v with Some n => Some (n, rest) | None => None end
  | None => None
  end.

(* convert_image_to_4k.py:63-71 rescale_value *)
Definition rescale_value (key : string) (num : Z) : res string :=
  if negb (num mod RATIO =? 0) then Err die else Ok (key +:+ "=" +:+ pretty (num / RATIO)).
(** [re.sub(r"(start|size)=\s*(\d+)", rescale_value, line)]; [skip] characters were
    matched before. *)
Fixpoint rescale_line (skip : nat) (s : string) : res string :=
  match s with
  | "" => Ok ""
  | String c r =>
      match skip with
      | S skip => rescale_line skip r
      | O =>
          let matched key := match number_at key s with Some (n, rest) => Some (key, n, String.length s - String.length rest)%nat | None => None end in
          match (match matched "start" with Some m => Some m | None => matched "size" end) with
          | Some (key, n, len) =>
              text ← rescale_value key n;
              rest ← rescale_line (len - 1) r;
              Ok (text +:+ rest)
          | None => rest ← rescale_line 0 r; Ok (String c rest)
          end
      end
  end.
(** The lines that are left out, and those that stay. *)
Definition dropped (line : string) : bool :=
  startswith "first-lba:" line || startswith "last-lba:" line || startswith "device:" line.
(* convert_image_to_4k.py:75-84 transform_table *)
Definition transform_line (line : string) : res (option string) :=
  if dropped line then Ok None
  else if startswith "sector-size:" line then Ok (Some ("sector-size: " +:+ pretty DST_SECTOR))
  else if contains "start=" line then l ← rescale_line 0 line; Ok (Some l)
  else Ok (Some line).
(* convert_image_to_4k.py:74-86 transform_table *)
Definition transform_lines (dump : string) : res (list string) :=
  lines ← res_map transform_line (splitlines dump);
  Ok (somes lines).
Definition unlines (l : list string) : string := String.concat (String newline "") l +:+ String newline "".
Definition transform_table (dump : string) : res string :=
  match transform_lines dump with inr l => Ok (unlines l) | inl e => Err e end.

Definition is_guid_char (c : ascii) : bool :=
  is_digit c || in_codes 65 70 c || in_codes 97 102 c || Ascii.eqb c "-".
(** The partition of a line: offset and size in bytes, and the type, for sectors of
    the given size. *)
(* convert_image_to_4k.py:93-105 partitions *)
Definition partition_of (sector : Z) (line : string) : option (Z * Z * string) :=
  match search "start" is_digit line, search "size" is_digit line with
  | Some start, Some size =>
      match digits start, digits size with
      | Some start, Some size =>
          Some (start * sector, size * sector, match search "type" is_guid_char line with Some t => upper t | None => "" end)
      | _, _ => None
      end
  | _, _ => None
  end.
(* convert_image_to_4k.py:89-105 partitions *)
Definition partitions (dump : string) : list (Z * Z * string) := omap (partition_of SRC_SECTOR) (splitlines dump).

Example rescaled :
  transform_lines (unlines ["label: gpt"; "device: a.img"; "first-lba: 34"; "sector-size: 512"; "";
    "a.img1 : start=        2048, size=     1048576, type=C12A7328-F81F-11D2-BA4B-00A0C93EC93B"])
  = inr ["label: gpt"; "sector-size: 4096"; ""; "a.img1 : start=256, size=131072, type=C12A7328-F81F-11D2-BA4B-00A0C93EC93B"].
Proof. vm_compute. reflexivity. Qed.

(** ** Calls *)

(** A command with its input; [stdout] of the answer is what it printed.  Opening a file for writing and [truncate] is
    one call; [listdir] is sorted by the caller. *)
Inductive imgE : Type -> Type :=
| RunCmd (cmd : list string) (input : option string) : imgE completed
| Which (cmd : string) : imgE bool
| GetSize (path : string) : imgE Z
| IsFile (path : string) : imgE bool
| Exists (path : string) : imgE bool
| Remove (path : string) : imgE unit
| Truncate (path : string) (size : Z) : imgE unit
| ReadHead (path : string) (n : Z) : imgE (list Z)
| MkTemp (dir prefix suffix : string) : imgE string
| MkDtemp (dir prefix : string) : imgE string
| RmTree (path : string) : imgE unit
| ListDir (path : string) : imgE (list string).
Abbreviation img A := (prog unit imgE A).

(** [try: p finally: f] *)
Definition finally {A} (p : img A) (f : img unit) : img A :=
  r ← try_except (a ← p; mret (inr a)) (fun e => mret (inl e));
  _ ← f;
  lift r.
(* convert_image_to_4k.py:50-60 run *)
Definition run_cmd (cmd : list string) (input : option string) : img string :=
  res ← call (RunCmd cmd input);
  if negb (res.(returncode) =? 0) then Raise die else mret res.(stdout).
Definition require (cmd : string) : img unit :=
  found ← call (Which cmd);
  if (found : bool) then mret tt else Raise die.

(** [os.path.dirname] and [os.path.basename] *)
Definition is_slash (c : ascii) : bool := Ascii.eqb c "/".
Definition dirname (p : string) : string :=
  match rsplit_once "/"%char p with
  | Some (d, _) => if str_all is_slash d then d +:+ "/" else rstrip_by is_slash d
  | None => ""
  end.
Definition basename (p : string) : string := match rsplit_once "/"%char p with Some (_, b) => b | None => p end.

(** ** Formats *)

Definition bytes_of (s : string) : list Z := map (fun c => Z.of_N (N_of_ascii c)) (String.list_ascii_of_string s).
(* convert_image_to_4k.py:111-117 _CONTAINER_MAGICS *)
Definition _CONTAINER_MAGICS : list (list Z * string) :=
  [(bytes_of "QFI" ++ [251], "qcow2"); (bytes_of "KDMV", "vmdk (monolithicSparse)");
   (bytes_of "# Disk DescriptorFile", "vmdk (descriptor)"); (bytes_of "vhdxfile", "vhdx"); (bytes_of "connectix", "vhd")].
(* convert_image_to_4k.py:120-127 detect_container_format *)
Definition detect_container_format (path : string) : img (option string) :=
  head ← call (ReadHead path 32);
  mret (option_map snd (List.find (fun m => bool_decide (take (length m.1) head = m.1)) _CONTAINER_MAGICS)).

(** ** The EFI system partition *)

(** [re.search] of a key followed by [:] and a number, in the output of [minfo]. *)
Fixpoint search_colon (key s : string) : option Z :=
  match (if startswith (key +:+ ":") s then
           let v := (span is_digit (lstrip_by is_space (drop_str (String.length (key +:+ ":")) s))).1 in
           if truthy v then digits v else None
         else None) with
  | Some n => Some n
  | None => match s with String _ r => search_colon key r | "" => None end
  end.
(** [s.split(" (")[0]] *)
Fixpoint before_paren (s : string) : string :=
  if startswith " (" s then "" else match s with String c r => String c (before_paren r) | "" => "" end.
(* convert_image_to_4k.py:312-319 _fat_label *)
Definition _fat_label (image : string) : img string :=
  out ← run_cmd ["mlabel"; "-i"; image; "-s"; "::"] None;
  mret (match List.find (fun line => startswith "Volume label is " line) (map strip (splitlines out)) with
        | Some line => strip (before_paren (removeprefix "Volume label is " line))
        | None => ""
        end).
Definition little (a b : Z) : Z := a + 256 * b.
(** A slice past the end is shorter: the missing bytes count as zero. *)
Definition byte_at (l : list Z) (i : nat) : Z := default 0 (l !! i).
(* convert_image_to_4k.py:322-328 _fat_is_fat32 *)
Definition _fat_is_fat32 (image : string) : img bool :=
  bpb ← call (ReadHead image 512);
  mret ((little (byte_at bpb 17) (byte_at bpb 18) =? 0) && (little (byte_at bpb 22) (byte_at bpb 23) =? 0)).
(* convert_image_to_4k.py:331-349 _verify_esp_geometry *)
Definition _verify_esp_geometry (image : string) (sz : Z) : img unit :=
  out ← run_cmd ["minfo"; "-i"; image; "::"] None;
  if negb (bool_decide (search_colon "sector size" out = Some DST_SECTOR)) then Raise die else
  let total := match search_colon "big size" out with
               | Some n => if truthy n then n else default 0 (search_colon "small size" out)
               | None => default 0 (search_colon "small size" out)
               end in
  if total =? sz / DST_SECTOR then mret tt else Raise die.
(* convert_image_to_4k.py:352-366 _esp_extract *)
Definition _esp_extract (image dest_dir : string) : img (list string) :=
  res ← call (RunCmd ["mcopy"; "-s"; "-n"; "-m"; "-i"; image; "::/*"; dest_dir +:+ "/"] None);
  names ← call (ListDir dest_dir);
  let entries := map (fun e => dest_dir +:+ "/" +:+ e) (merge_sort str_le names) in
  if negb (res.(returncode) =? 0) && negb (truthy entries) then mret []
  else if negb (res.(returncode) =? 0) then Raise die else mret entries.
(* convert_image_to_4k.py:400-404 _mktemp *)
Definition _mktemp (directory prefix suffix : string) : img string := call (MkTemp directory prefix suffix).
(** [try: os.remove(path) except FileNotFoundError: pass] *)
Definition is_FileNotFoundError (e : exn) : bool := bool_decide (e.(exn_cls) = "FileNotFoundError").
Definition remove_temp (path : string) : img unit :=
  try_except (call (Remove path)) (fun e => if is_FileNotFoundError e then mret tt else Raise e).

Section conversion.
(** [os.path.abspath], which depends on the working directory. *)
Variable abspath : string -> string.

Definition dd (args : list string) : img string := run_cmd ("dd" :: args) None.
(* convert_image_to_4k.py:229-302 rebuild_esp *)
Definition rebuild_in (src dst : string) (off sz : Z) (src_esp dst_esp files : string) : img unit :=
  _ ← dd ["if=" +:+ src; "of=" +:+ src_esp; "bs=8M"; "iflag=skip_bytes,count_bytes"; "skip=" +:+ pretty off; "count=" +:+ pretty sz];
  label ← _fat_label src_esp;
  fat32 ← _fat_is_fat32 src_esp;
  _ ← call (Truncate dst_esp sz);
  _ ← run_cmd (["mformat"; "-i"; dst_esp; "-S"; "5"; "-c"; "1"; "-H"; "0"; "-T"; pretty (sz / DST_SECTOR)] ++
               (if (fat32 : bool) then ["-F"] else []) ++ (if truthy label then ["-v"; label] else []) ++ ["::"]) None;
  _ ← _verify_esp_geometry dst_esp sz;
  entries ← _esp_extract src_esp files;
  _ ← (if truthy entries then run_cmd (["mcopy"; "-s"; "-n"; "-m"; "-i"; dst_esp] ++ entries ++ ["::/"]) None else mret "");
  _ ← dd ["if=" +:+ dst_esp; "of=" +:+ dst; "bs=8M"; "conv=notrunc,fsync"; "oflag=seek_bytes"; "seek=" +:+ pretty off];
  mret tt.
(* convert_image_to_4k.py:207-309 rebuild_esp *)
Definition rebuild_esp (src dst : string) (off sz : Z) : img unit :=
  _ ← for_each ["mformat"; "mcopy"; "minfo"; "mlabel"] require;
  let outdir := dirname (abspath dst) in
  src_esp ← _mktemp outdir "esp-src-" ".raw";
  dst_esp ← _mktemp outdir "esp-dst-" ".raw";
  files ← call (MkDtemp outdir "esp-files-");
  finally (rebuild_in src dst off sz src_esp dst_esp files)
    (_ ← for_each [src_esp; dst_esp] remove_temp;
     try_except (call (RmTree files)) (fun _ => mret tt)).

(** ** The conversion *)

(** The size of the result: a whole number of sectors with room for the backup table. *)
(* convert_image_to_4k.py:132-136 convert_raw *)
Definition dst_size (src_size : Z) : Z := (src_size + HEADROOM + DST_SECTOR - 1) / DST_SECTOR * DST_SECTOR.
Definition copy_args (src dst : string) (off sz : Z) : list string :=
  ["if=" +:+ src; "of=" +:+ dst; "bs=8M"; "conv=notrunc,fsync"; "iflag=skip_bytes,count_bytes"; "oflag=seek_bytes";
   "skip=" +:+ pretty off; "seek=" +:+ pretty off; "count=" +:+ pretty sz; "status=progress"].
(* convert_image_to_4k.py:173-197 convert_raw *)
Definition copy_partition (src dst : string) (p : Z * Z * string) : img unit :=
  let '(off, sz, type_guid) := p in
  if bool_decide (type_guid = ESP_TYPE_GUID) then rebuild_esp src dst off sz
  else _ ← dd (copy_args src dst off sz); mret tt.
(* convert_image_to_4k.py:130-204 convert_raw *)
Definition convert_raw (src dst : string) : img unit :=
  src_size ← call (GetSize src);
  dump ← run_cmd ["sfdisk"; "-d"; src] None;
  table ← lift (transform_table dump);
  exists_ ← call (Exists dst);
  _ ← (if (exists_ : bool) then call (Remove dst) else mret tt);
  _ ← call (Truncate dst (dst_size src_size));
  _ ← run_cmd ["sfdisk"; "--sector-size"; pretty DST_SECTOR; dst] (Some table);
  _ ← for_each (partitions dump) (copy_partition src dst);
  _ ← run_cmd ["sfdisk"; "--sector-size"; pretty DST_SECTOR; "--verify"; dst] None;
  mret tt.
(* convert_image_to_4k.py:369-397 convert_qcow2 *)
Definition convert_qcow2 (src dst : string) : img unit :=
  _ ← require "qemu-img";
  let outdir := dirname (abspath dst) in
  let base := basename dst in
  tmp_in ← _mktemp outdir (base +:+ ".in-") ".raw";
  tmp_out ← _mktemp outdir (base +:+ ".out-") ".raw";
  finally
    (_ ← run_cmd ["qemu-img"; "convert"; "-O"; "raw"; src; tmp_in] None;
     _ ← convert_raw tmp_in tmp_out;
     exists_ ← call (Exists dst);
     _ ← (if (exists_ : bool) then call (Remove dst) else mret tt);
     _ ← run_cmd ["qemu-img"; "convert"; "-O"; "qcow2"; tmp_out; dst] None;
     mret tt)
    (for_each [tmp_in; tmp_out] remove_temp).
(* convert_image_to_4k.py:434-465 main *)
Definition main (argv : list string) : img unit :=
  match argv with
  | [src; dst] =>
      is_file ← call (IsFile src);
      if negb (is_file : bool) then Raise die
      else if bool_decide (abspath src = abspath dst) then Raise die else
      _ ← for_each ["sfdisk"; "dd"] require;
      fmt ← detect_container_format src;
      match fmt with
      | None => convert_raw src dst
      | Some "qcow2" => convert_qcow2 src dst
      | Some _ => Raise die
      end
  | _ => Raise die
  end.
End conversion.

(** ** The table keeps every byte where it was *)

Lemma span_spec f s : s = (span f s).1 +:+ (span f s).2 /\ str_all f (span f s).1 = true /\
  match (span f s).2 with String c _ => f c = false | "" => True end.
Proof.
  induction s as [|c s (Heq & Hall & Hhd)]; cbn; [done|]. destruct (f c) eqn:Hc; [|by cbn].
  destruct (span f s) as [a b]. cbn in *. rewrite Hc. split; [by rewrite Heq at 1|done].
Qed.
Lemma span_app f v rest :
  str_all f v = true -> match rest with String c _ => f c = false | "" => True end -> span f (v +:+ rest) = (v, rest).
Proof.
  intros Hv Hr. induction v as [|c v IH]; cbn in *.
  - destruct rest as [|c rest]; [done|]. cbn. by rewrite Hr.
  - apply andb_true_iff in Hv as [Hc Hv]. by rewrite Hc, IH.
Qed.
Lemma lstrip_app ws s :
  str_all is_space ws = true -> match s with String c _ => is_space c = false | "" => True end -> lstrip_by is_space (ws +:+ s) = s.
Proof.
  intros Hws Hs. induction ws as [|c ws IH]; cbn in *.
  - destruct s as [|c s]; [done|]. cbn. by rewrite Hs.
  - apply andb_true_iff in Hws as [Hc Hws]. by rewrite Hc, IH.
Qed.
Lemma lstrip_split s : exists ws, str_all is_space ws = true /\ s = ws +:+ lstrip_by is_space s.
Proof.
  induction s as [|c s (ws & Hws & Heq)]; [by exists ""|]. cbn. destruct (is_space c) eqn:Hc; [|by exists ""].
  exists (String c ws). cbn. rewrite Hc. split; [done|]. by rewrite Heq at 1.
Qed.

(** What a value looks like in a line. *)
Lemma value_at_inv key f s v rest :
  value_at key f s = Some (v, rest) ->
  exists ws, s = key +:+ "=" +:+ ws +:+ v +:+ rest /\ str_all is_space ws = true /\ str_all f v = true /\ v <> "" /\
    match rest with String c _ => f c = false | "" => True end.
Proof.
  unfold value_at. destruct (startswith (key +:+ "=") s) eqn:Hs; [|done]. apply startswith_spec in Hs as [r ->]. rewrite drop_str_app.
  destruct (lstrip_split r) as (ws & Hws & Hr). pose proof (span_spec f (lstrip_by is_space r)) as (Heq & Hall & Hhd).
  destruct (span f (lstrip_by is_space r)) as [a b]. cbn in *. destruct a as [|c a]; cbn [truthy truthy_string]; [done|]. intros [= <- <-].
  exists ws. split_and!; try done. rewrite <- !str_app_assoc. f_equal. rewrite Hr at 1. by rewrite Heq at 1.
Qed.
Lemma value_at_intro key f ws v rest :
  (forall c, f c = true -> is_space c = false) -> str_all is_space ws = true -> str_all f v = true -> v <> "" ->
  match rest with String c _ => f c = false | "" => True end ->
  value_at key f (key +:+ "=" +:+ ws +:+ v +:+ rest) = Some (v, rest).
Proof.
  intros Hf Hws Hv Hne Hr. unfold value_at. rewrite (str_app_assoc key "="). rewrite (proj2 (startswith_spec _ _)) by eauto.
  rewrite drop_str_app. destruct v as [|c v]; [done|]. rewrite lstrip_app; [|done|].
  - by rewrite span_app.
  - cbn in *. apply andb_true_iff in Hv as [Hc _]. by apply Hf.
Qed.
Lemma digit_not_spc c : is_digit c = true -> is_space c = false.
Proof. intros Hc%digit_not_space. by apply negb_true_iff. Qed.

Lemma number_at_inv key s n rest :
  number_at key s = Some (n, rest) -> exists v, value_at key is_digit s = Some (v, rest) /\ digits v = Some n.
Proof. unfold number_at. destruct (value_at key is_digit s) as [[v r]|]; [|done]. destruct (digits v) as [m|] eqn:Hm; [|done]. intros [= <- <-]. eauto. Qed.
Lemma digits_total v : str_all is_digit v = true -> v <> "" -> exists n, digits v = Some n /\ 0 <= n.
Proof.
  assert (forall s acc, str_all is_digit s = true -> exists n, digits_go acc s = Some n) as Hgo.
  { induction s as [|c s IH]; intros acc; cbn; [eauto|]. intros [Hc Hs]%andb_true_iff. unfold digit. rewrite Hc. by apply IH. }
  destruct v as [|c v]; [done|]. intros [Hc Hv]%andb_true_iff _.
  assert (exists n, digits (String c v) = Some n) as [n Hn] by (cbn; unfold digit; rewrite Hc; by apply Hgo).
  exists n. split; [done|]. by apply (digits_nonneg (String c v)).
Qed.

Lemma rescale_skip p rest : rescale_line (String.length p) (p +:+ rest) = rescale_line 0 rest.
Proof. induction p as [|c p IH]; [done|]. exact IH. Qed.

(** The number to rescale at the start of a text. *)
Definition hit (s : string) : option (string * Z * string) :=
  match number_at "start" s with
  | Some (n, rest) => Some ("start", n, rest)
  | None => match number_at "size" s with Some (n, rest) => Some ("size", n, rest) | None => None end
  end.
Lemma hit_inv s key n rest :
  hit s = Some (key, n, rest) ->
  (key = "start" \/ key = "size") /\ exists ws v, s = key +:+ "=" +:+ ws +:+ v +:+ rest /\ str_all is_space ws = true /\
    str_all is_digit v = true /\ v <> "" /\ digits v = Some n /\ match rest with String c _ => is_digit c = false | "" => True end.
Proof.
  unfold hit. destruct (number_at "start" s) as [[m r]|] eqn:H1.
  - intros [= <- <- <-]. split; [by left|]. apply number_at_inv in H1 as (v & (ws & ? & ? & ? & ? & ?)%value_at_inv & ?). exists ws, v. done.
  - destruct (number_at "size" s) as [[m r]|] eqn:H2; [|done]. intros [= <- <- <-]. split; [by right|].
    apply number_at_inv in H2 as (v & (ws & ? & ? & ? & ? & ?)%value_at_inv & ?). exists ws, v. done.
Qed.
Lemma rescale_unfold c r :
  rescale_line 0 (String c r) =
  match hit (String c r) with
  | Some (key, n, rest) => text ← rescale_value key n; t ← rescale_line 0 rest; Ok (text +:+ t)
  | None => t ← rescale_line 0 r; Ok (String c t)
  end.
Proof.
  destruct (hit (String c r)) as [[[key n] rest]|] eqn:Hh.
  - pose proof (hit_inv _ _ _ _ Hh) as (Hkey & ws & v & Hs & _).
    assert (exists p, r = p +:+ rest) as [p Hr].
    { destruct key as [|k key]; [by destruct Hkey|].
      change (String c r = String k (key +:+ "=" +:+ ws +:+ v +:+ rest)) in Hs. injection Hs as _ ->.
      exists (key +:+ "=" +:+ ws +:+ v). by rewrite <- !str_app_assoc. }
    subst r. clear Hs Hkey. assert ((String.length (String c (p +:+ rest)) - String.length rest - 1)%nat = String.length p) as Hlen
      by (cbn [String.length]; rewrite str_length_app; lia).
    unfold hit in Hh. cbn [rescale_line]. destruct (number_at "start" (String c (p +:+ rest))) as [[m q]|].
    + injection Hh as <- <- <-. rewrite Hlen, rescale_skip. reflexivity.
    + destruct (number_at "size" (String c (p +:+ rest))) as [[m q]|]; [|discriminate Hh].
      injection Hh as <- <- <-. rewrite Hlen, rescale_skip. reflexivity.
  - unfold hit in Hh. cbn [rescale_line]. destruct (number_at "start" (String c r)) as [[? ?]|]; [done|].
    by destruct (number_at "size" (String c r)) as [[? ?]|].
Qed.

(** *** Copied texts *)

Definition no_s (c : ascii) : bool := negb (Ascii.eqb c "s").
Lemma hit_s c r key n rest : hit (String c r) = Some (key, n, rest) -> c = "s"%char.
Proof. intros ([-> | ->] & ws & v & Hs & _)%hit_inv; cbn in Hs; by injection Hs. Qed.

(** A character that cannot start a match is copied. *)
Lemma rescale_copy_char c r t :
  no_s c = true -> rescale_line 0 (String c r) = inr t -> exists t', t = String c t' /\ rescale_line 0 r = inr t'.
Proof.
  intros Hc. rewrite rescale_unfold. destruct (hit (String c r)) as [[[key n] rest]|] eqn:Hh; [apply hit_s in Hh as ->; done|].
  unfold mbind, res_mbind. destruct (rescale_line 0 r) as [|t']; [done|]. intros [= <-]. eauto.
Qed.
Lemma rescale_head s t : rescale_line 0 s = inr t ->
  match s, t with String a _, String b _ => a = b | "", "" => True | _, _ => False end.
Proof.
  destruct s as [|c r]; [by intros [= <-]|]. rewrite rescale_unfold. destruct (hit (String c r)) as [[[key n] rest]|] eqn:Hh.
  - pose proof (hit_s _ _ _ _ _ Hh) as ->. apply hit_inv in Hh as (Hkey & _). unfold mbind, res_mbind, rescale_value.
    destruct (negb _); [done|]. destruct (rescale_line 0 rest); [done|]. intros [= <-]. by destruct Hkey as [-> | ->].
  - unfold mbind, res_mbind. destruct (rescale_line 0 r) as [|t']; [done|]. by intros [= <-].
Qed.
Lemma rescale_copy p : forall s t, str_all no_s p = true -> rescale_line 0 s = inr t ->
  (forall u', s = p +:+ u' -> exists u, t = p +:+ u /\ rescale_line 0 u' = inr u) /\
  (forall u, t = p +:+ u -> exists u', s = p +:+ u' /\ rescale_line 0 u' = inr u).
Proof.
  induction p as [|c p IH]; intros s t Hp Hs.
  - split; [intros u' ->; eauto|intros u ->; eauto].
  - cbn in Hp. apply andb_true_iff in Hp as [Hc Hp]. split.
    + intros u' ->. destruct (rescale_copy_char _ _ _ Hc Hs) as (t' & -> & Ht'). destruct (IH _ _ Hp Ht') as [H1 _].
      destruct (H1 u' eq_refl) as (u & -> & ?). exists u. done.
    + intros u ->. pose proof (rescale_head _ _ Hs) as Hh. destruct s as [|a s]; [done|]. cbn in Hh. subst a.
      destruct (rescale_copy_char _ _ _ Hc Hs) as (t' & [= <-] & Ht'). destruct (IH _ _ Hp Ht') as [_ H2].
      destruct (H2 u eq_refl) as (u' & -> & ?). exists u'. done.
Qed.

(** *** Values in a rescaled line *)

Lemma search_cons key f c r :
  search key f (String c r) = match value_at key f (String c r) with Some (v, _) => Some v | None => search key f r end.
Proof. reflexivity. Qed.
Lemma search_miss key f c r : startswith (key +:+ "=") (String c r) = false -> search key f (String c r) = search key f r.
Proof. intros Hs. rewrite search_cons. unfold value_at. by rewrite Hs. Qed.
Lemma search_blank k0 key f q x :
  is_space k0 = false -> is_digit k0 = false -> str_all (fun c => is_space c || is_digit c) q = true ->
  search (String k0 key) f (q +:+ x) = search (String k0 key) f x.
Proof.
  intros Hsp Hd. induction q as [|c q IH]; [done|]. cbn [str_all]. intros [Hc Hq]%andb_true_iff.
  change (String c q +:+ x) with (String c (q +:+ x)). rewrite search_miss; [by apply IH|].
  change (Ascii.eqb k0 c && startswith (key +:+ "=") (q +:+ x) = false). destruct (Ascii.eqb_spec k0 c) as [->|]; [|done].
  by rewrite Hsp, Hd in Hc.
Qed.
(** The text of another key is passed over. *)
Lemma search_over key0 key f q x :
  (key0, key) ∈ [("start", "size"); ("size", "start"); ("start", "type"); ("size", "type")] ->
  str_all (fun c => is_space c || is_digit c) q = true ->
  search key f (key0 +:+ "=" +:+ q +:+ x) = search key f x.
Proof.
  intros Hk Hq. repeat (apply elem_of_cons in Hk as [[= -> ->]|Hk]); [..|by apply elem_of_nil in Hk].
  - change ("start" +:+ "=" +:+ q +:+ x) with (String "s" (String "t" (String "a" (String "r" (String "t" (String "=" (q +:+ x))))))).
    do 6 (rewrite search_miss by reflexivity). by apply search_blank.
  - change ("size" +:+ "=" +:+ q +:+ x) with (String "s" (String "i" (String "z" (String "e" (String "=" (q +:+ x)))))).
    do 5 (rewrite search_miss by reflexivity). by apply search_blank.
  - change ("start" +:+ "=" +:+ q +:+ x) with (String "s" (String "t" (String "a" (String "r" (String "t" (String "=" (q +:+ x))))))).
    do 6 (rewrite search_miss by reflexivity). by apply search_blank.
  - change ("size" +:+ "=" +:+ q +:+ x) with (String "s" (String "i" (String "z" (String "e" (String "=" (q +:+ x)))))).
    do 5 (rewrite search_miss by reflexivity). by apply search_blank.
Qed.

Lemma str_all_no_s f s : (forall c, f c = true -> no_s c = true) -> str_all f s = true -> str_all no_s s = true.
Proof. intros Hf. apply str_all_impl. exact Hf. Qed.
Lemma space_no_s c : is_space c = true -> no_s c = true.
Proof. destruct c as [[] [] [] [] [] [] [] []]; done. Qed.
Lemma digit_no_s c : is_digit c = true -> no_s c = true.
Proof. destruct c as [[] [] [] [] [] [] [] []]; done. Qed.
Lemma guid_no_s c : is_guid_char c = true -> no_s c = true.
Proof. destruct c as [[] [] [] [] [] [] [] []]; done. Qed.
Lemma guid_not_space c : is_guid_char c = true -> is_space c = false.
Proof. destruct c as [[] [] [] [] [] [] [] []]; done. Qed.

(** Before a match, a value starts in the rescaled text where it does in the line. *)
Lemma value_at_copied k0 key f c r t :
  str_all no_s key = true -> (forall c, f c = true -> no_s c = true) -> (forall c, f c = true -> is_space c = false) ->
  rescale_line 0 r = inr t ->
  option_map fst (value_at (String k0 key) f (String c r)) = option_map fst (value_at (String k0 key) f (String c t)).
Proof.
  intros Hkey Hfs Hfsp Hr.
  assert (forall ws v, str_all is_space ws = true -> str_all f v = true -> str_all no_s (key +:+ "=" +:+ ws +:+ v) = true) as Hp.
  { intros ws v Hws Hv. rewrite !str_all_app, Hkey. rewrite (str_all_no_s is_space ws space_no_s Hws), (str_all_no_s f v Hfs Hv). done. }
  assert (forall ws v rest, String k0 key +:+ "=" +:+ ws +:+ v +:+ rest = String k0 ((key +:+ "=" +:+ ws +:+ v) +:+ rest)) as Hshape.
  { intros ws v rest. change (String k0 key +:+ "=" +:+ ws +:+ v +:+ rest) with (String k0 (key +:+ "=" +:+ ws +:+ v +:+ rest)). f_equal.
    by rewrite <- !str_app_assoc. }
  assert (forall ws v rest, str_all is_space ws = true -> str_all f v = true -> v <> "" ->
    match rest with String c _ => f c = false | "" => True end ->
    value_at (String k0 key) f (String k0 ((key +:+ "=" +:+ ws +:+ v) +:+ rest)) = Some (v, rest)) as Hintro.
  { intros ws v rest ? ? ? ?. rewrite <- Hshape. by apply value_at_intro. }
  assert (forall u u', rescale_line 0 u' = inr u -> match u' with String c _ => f c = false | "" => True end <-> match u with String c _ => f c = false | "" => True end) as Hhead.
  { intros u u' Hu. apply rescale_head in Hu. destruct u', u; try done. by subst. }
  destruct (value_at (String k0 key) f (String c r)) as [[v rest]|] eqn:H1.
  - apply value_at_inv in H1 as (ws & Heq & Hws & Hv & Hne & Hrest). rewrite Hshape in Heq. injection Heq as -> Hr'.
    destruct (rescale_copy _ _ _ (Hp ws v Hws Hv) Hr) as [Hc _]. destruct (Hc rest Hr') as (u & -> & Hu).
    rewrite Hintro; [done|done|done|done|]. by apply (Hhead u rest).
  - destruct (value_at (String k0 key) f (String c t)) as [[v rest]|] eqn:H2; [|done].
    apply value_at_inv in H2 as (ws & Heq & Hws & Hv & Hne & Hrest). rewrite Hshape in Heq. injection Heq as -> Ht'.
    destruct (rescale_copy _ _ _ (Hp ws v Hws Hv) Hr) as [_ Hc]. destruct (Hc rest Ht') as (u' & -> & Hu).
    rewrite Hintro in H1; [done|done|done|done|]. by apply (Hhead rest u').
Qed.

(** The value of [key] in a rescaled text: its number divided. *)
Definition divided (key s t : string) : Prop :=
  match search key is_digit s with
  | Some v => exists m, digits v = Some m /\ m mod RATIO = 0 /\ search key is_digit t = Some (pretty (m / RATIO))
  | None => search key is_digit t = None
  end.

Lemma no_hit key c r : (key = "start" \/ key = "size") -> hit (String c r) = None -> value_at key is_digit (String c r) = None.
Proof.
  intros Hkey Hh. destruct (value_at key is_digit (String c r)) as [[v rest]|] eqn:Hv; [|done].
  pose proof (value_at_inv _ _ _ _ _ Hv) as (ws & _ & _ & Hall & Hne & _). destruct (digits_total v Hall Hne) as (n & Hn & _).
  unfold hit, number_at in Hh. destruct Hkey as [-> | ->].
  - by rewrite Hv, Hn in Hh.
  - destruct (value_at "start" is_digit (String c r)) as [[v' rest']|]; [destruct (digits v')|]; by rewrite ?Hv, ?Hn in Hh.
Qed.
Lemma pretty_digits_ne n : 0 <= n -> str_all is_digit (pretty n) = true /\ pretty n <> "".
Proof.
  intros Hn. split; [by apply pretty_Z_digits|]. intros Heq. pose proof (py_int_pretty n Hn) as Hp. by rewrite Heq in Hp.
Qed.

Lemma search_rescaled n : forall s t, (String.length s <= n)%nat -> rescale_line 0 s = inr t ->
  divided "start" s t /\ divided "size" s t /\ search "type" is_guid_char t = search "type" is_guid_char s.
Proof.
  induction n as [|n IH]; intros s t Hlen; (destruct s as [|c r]; [by intros [= <-]|]); cbn in Hlen; [lia|].
  rewrite rescale_unfold. destruct (hit (String c r)) as [[[key m] rest]|] eqn:Hh.
  - apply hit_inv in Hh as (Hkey & ws & v & Hs & Hws & Hv & Hne & Hm & Hrest). unfold mbind, res_mbind, rescale_value.
    destruct (Z.eqb_spec (m mod RATIO) 0) as [Hmod|]; [|done]. cbn [negb]. destruct (rescale_line 0 rest) as [|t'] eqn:Ht'; [done|].
    intros [= <-]. rewrite Hs in *.
    assert (String.length rest <= n)%nat as Hlen'.
    { apply (f_equal String.length) in Hs. rewrite !str_length_app in Hs. cbn in Hs. destruct Hkey as [-> | ->]; cbn in Hs; lia. }
    destruct (IH rest t' Hlen' Ht') as (Hst & Hsz & Hty). clear IH.
    destruct (digits_total v Hv Hne) as (m' & Hm' & Hm0). assert (m' = m) as -> by congruence.
    destruct (pretty_digits_ne (m / RATIO)) as [Hpd Hpne]; [apply Z.div_pos; [done|reflexivity]|].
    assert (match t' with String c _ => is_digit c = false | "" => True end) as Hrest'.
    { apply rescale_head in Ht'. destruct rest, t'; try done. by subst. }
    assert (str_all (fun c => is_space c || is_digit c) (ws +:+ v) = true) as Hq1.
    { rewrite str_all_app. apply andb_true_iff. split; (eapply str_all_impl; [|eassumption]); intros x ->; [done|by rewrite orb_true_r]. }
    assert (str_all (fun c => is_space c || is_digit c) (pretty (m / RATIO)) = true) as Hq2.
    { eapply str_all_impl; [|exact Hpd]. intros x ->. by rewrite orb_true_r. }
    assert (forall k f, (key, k) ∈ [("start", "size"); ("size", "start"); ("start", "type"); ("size", "type")] ->
      search k f (key +:+ "=" +:+ ws +:+ v +:+ rest) = search k f rest /\
      search k f ((key +:+ "=" +:+ pretty (m / RATIO)) +:+ t') = search k f t') as Hover.
    { intros k f Hk. split; [rewrite (str_app_assoc ws v); by apply search_over|]. rewrite <- !str_app_assoc. by apply search_over. }
    assert (divided key (key +:+ "=" +:+ ws +:+ v +:+ rest) ((key +:+ "=" +:+ pretty (m / RATIO)) +:+ t')) as Hown.
    { unfold divided. assert (forall x y, value_at key is_digit x = Some y -> search key is_digit x = Some y.1) as Hsv.
      { intros x [y1 y2] Hx. destruct x as [|a x]; [by destruct Hkey as [-> | ->]|]. rewrite search_cons. by rewrite Hx. }
      rewrite (Hsv _ (v, rest)); [|by apply value_at_intro; [apply digit_not_spc|..]]. cbn [fst]. exists m. split; [done|]. split; [done|].
      rewrite <- !str_app_assoc. rewrite (Hsv _ (pretty (m / RATIO), t')); [done|].
      apply (value_at_intro key is_digit "" (pretty (m / RATIO)) t'); [apply digit_not_spc|done..]. }
    destruct Hkey as [-> | ->].
    + destruct (Hover "type" is_guid_char ltac:(set_solver)) as [H1 H2], (Hover "size" is_digit ltac:(set_solver)) as [H3 H4].
      split; [exact Hown|]. split; [|by etrans; [exact H2|]; etrans; [exact Hty|symmetry; exact H1]].
      revert Hsz. unfold divided. rewrite <- H3, <- H4. exact id.
    + destruct (Hover "type" is_guid_char ltac:(set_solver)) as [H1 H2], (Hover "start" is_digit ltac:(set_solver)) as [H3 H4].
      split; [|split; [exact Hown|by etrans; [exact H2|]; etrans; [exact Hty|symmetry; exact H1]]].
      revert Hst. unfold divided. rewrite <- H3, <- H4. exact id.
  - unfold mbind, res_mbind. destruct (rescale_line 0 r) as [|t'] eqn:Ht'; [done|]. intros [= <-].
    destruct (IH r t') as (Hst & Hsz & Hty); [lia|done|]. clear IH.
    assert (forall k0 key, (String k0 key = "start" \/ String k0 key = "size") -> str_all no_s key = true ->
      divided (String k0 key) r t' -> divided (String k0 key) (String c r) (String c t')) as Hdiv.
    { intros k0 key Hk Hno Hd. unfold divided. rewrite !search_cons.
      pose proof (value_at_copied k0 key is_digit c r t' Hno digit_no_s digit_not_spc Ht') as Hc.
      rewrite (no_hit _ _ _ Hk Hh) in *. destruct (value_at _ _ (String c t')) as [[? ?]|]; [done|exact Hd]. }
    split; [apply Hdiv; [by left|done|done]|]. split; [apply Hdiv; [by right|done|done]|].
    rewrite !search_cons. pose proof (value_at_copied "t" "ype" is_guid_char c r t' eq_refl guid_no_s guid_not_space Ht') as Hc.
    destruct (value_at "type" is_guid_char (String c r)) as [[v rest]|], (value_at "type" is_guid_char (String c t')) as [[v' rest']|]; cbn in Hc; simplify_eq; done.
Qed.

Lemma digits_pretty_Z z : 0 <= z -> digits (pretty z) = Some z.
Proof. intros Hz. rewrite <- py_int_digits by by apply pretty_Z_digits. by apply py_int_pretty. Qed.

(** A rescaled line describes the same bytes. *)
Lemma partition_rescaled line l : rescale_line 0 line = inr l -> partition_of DST_SECTOR l = partition_of SRC_SECTOR line.
Proof.
  intros Hl. destruct (search_rescaled _ line l (le_n _) Hl) as (Hst & Hsz & Hty). unfold partition_of, divided in *. rewrite Hty.
  destruct (search "start" is_digit line) as [a|]; [|by rewrite Hst]. destruct Hst as (m & Hm & Hm8 & ->).
  destruct (search "size" is_digit line) as [b|]; [|by rewrite Hsz]. destruct Hsz as (k & Hk & Hk8 & ->). rewrite Hm, Hk.
  pose proof (digits_nonneg _ _ Hm). pose proof (digits_nonneg _ _ Hk). unfold RATIO, DST_SECTOR, SRC_SECTOR in *.
  change (4096 / 512) with 8 in *. rewrite !digits_pretty_Z by (apply Z.div_pos; lia).
  f_equal. f_equal. f_equal; apply Z.div_exact in Hm8, Hk8; lia.
Qed.

Lemma search_contains key f s v : search key f s = Some v -> contains (key +:+ "=") s = true.
Proof.
  induction s as [|c s IH].
  - cbn. unfold value_at. destruct (startswith (key +:+ "=") ""); [done|]. done.
  - rewrite search_cons. unfold value_at.
    change (contains (key +:+ "=") (String c s)) with (startswith (key +:+ "=") (String c s) || contains (key +:+ "=") s).
    destruct (startswith (key +:+ "=") (String c s)); [done|]. exact IH.
Qed.
Lemma sector_size_line : partition_of DST_SECTOR ("sector-size: " +:+ pretty DST_SECTOR) = None.
Proof. reflexivity. Qed.

(** The lines of a dump that describe partitions, not the disk. *)
Definition described (line : string) : bool := negb (dropped line) && negb (startswith "sector-size:" line).

Lemma transform_line_partition line o :
  transform_line line = inr o ->
  (o ≫= partition_of DST_SECTOR) = if described line then partition_of SRC_SECTOR line else None.
Proof.
  unfold transform_line, described. destruct (dropped line); [by intros [= <-]|].
  destruct (startswith "sector-size:" line); [intros [= <-]; exact sector_size_line|]. cbn [negb andb].
  destruct (contains "start=" line) eqn:Hc.
  - unfold mbind at 1, res_mbind. destruct (rescale_line 0 line) as [|l] eqn:Hl; [done|]. intros [= <-]. by apply partition_rescaled.
  - intros [= <-]. unfold partition_of. cbn [mbind option_bind].
    assert (search "start" is_digit line = None) as ->; [|done].
    destruct (search "start" is_digit line) eqn:Hs; [|done]. apply search_contains in Hs. cbn [String.append] in Hs. congruence.
Qed.

Lemma omap_cons {A B} (f : A -> option B) x (l : list A) : omap f (x :: l) = match f x with Some y => y :: omap f l | None => omap f l end.
Proof. done. Qed.

(** A number in a line that no table with larger sectors can have. *)
Definition unaligned (line : string) : Prop :=
  exists before s key n rest, line = before +:+ s /\ number_at key s = Some (n, rest) /\ n mod RATIO <> 0.
Lemma rescale_fails n : forall s e, (String.length s <= n)%nat -> rescale_line 0 s = inl e -> e = die /\ unaligned s.
Proof.
  induction n as [|n IH]; intros s e Hlen; (destruct s as [|c r]; [done|]); cbn in Hlen; [lia|].
  rewrite rescale_unfold. destruct (hit (String c r)) as [[[key m] rest]|] eqn:Hh.
  - pose proof (hit_inv _ _ _ _ Hh) as (Hkey & ws & v & Hs & _). unfold mbind, res_mbind, rescale_value.
    destruct (Z.eqb_spec (m mod RATIO) 0) as [Hmod|Hmod]; cbn [negb].
    + destruct (rescale_line 0 rest) as [e'|t'] eqn:Ht'; [|done]. intros [= <-]. destruct (IH rest e') as (-> & b & s & k & x & q & -> & ? & ?); [|done|].
      { apply (f_equal String.length) in Hs. rewrite !str_length_app in Hs. cbn in Hs. destruct Hkey as [-> | ->]; cbn in Hs; lia. }
      split; [done|]. exists (key +:+ "=" +:+ ws +:+ v +:+ b), s, k, x, q. split; [|done]. rewrite Hs. by rewrite <- !str_app_assoc.
    + intros [= <-]. split; [done|]. exists "", (String c r), key, m, rest. split; [done|]. split; [|done].
      unfold hit in Hh. destruct (number_at "start" (String c r)) as [[? ?]|] eqn:H1; [injection Hh as <- <- <-; done|].
      destruct (number_at "size" (String c r)) as [[? ?]|] eqn:H2; [injection Hh as <- <- <-; done|discriminate Hh].
  - unfold mbind, res_mbind. destruct (rescale_line 0 r) as [e'|t'] eqn:Ht'; [|done]. intros [= <-].
    destruct (IH r e') as (-> & b & s & k & x & q & -> & ? & ?); [lia|done|]. split; [done|]. exists (String c b), s, k, x, q. done.
Qed.

(** C25. The table that is written describes the same bytes: read with 4096-byte sectors,
    its partitions have the offsets, sizes and types of the partitions of the dump,
    in order, read with 512-byte sectors.  The conversion of the table is refused
    only for a number that is not a multiple of eight sectors. *)
Theorem partitions_preserved dump :
  match transform_lines dump with
  | inr lines => omap (partition_of DST_SECTOR) lines = omap (partition_of SRC_SECTOR) (List.filter described (splitlines dump))
  | inl e => e = die /\ exists line, line ∈ splitlines dump /\ unaligned line
  end.
Proof.
  unfold transform_lines, mbind at 1, res_mbind. generalize (splitlines dump) as l. intros l.
  destruct (res_map transform_line l) as [e|os] eqn:Hm.
  - apply res_map_err_elem in Hm as (line & Hin & He). unfold transform_line in He.
    destruct (dropped line); [done|]. destruct (startswith _ line); [done|]. destruct (contains _ line); [|done].
    unfold mbind, res_mbind in He. destruct (rescale_line 0 line) as [e'|] eqn:Hr; [|done]. injection He as ->.
    destruct (rescale_fails _ line e (le_n _) Hr). eauto.
  - apply res_map_ok_iff in Hm. induction Hm as [|line o l os Ho _ IH]; [done|]. apply transform_line_partition in Ho.
    cbn [List.filter]. destruct o as [x|]; cbn [mbind option_bind] in Ho.
    + change (somes (Some x :: os)) with (x :: somes os). destruct (described line); [by rewrite !omap_cons, Ho, IH|by rewrite omap_cons, Ho, IH].
    + change (somes (None :: os)) with (somes os). destruct (described line); [by rewrite omap_cons, <- Ho|done].
Qed.
