(* ===== verification/TenantCleanup.v ===== *)
(** * Removal of a tenant's objects from Nautobot

    Models [src/scripts/cleanup_storage_stuff_in_nautobot.py]: the VRFs, prefixes,
    addresses, virtual machines and UCVNIs of a tenant and then the tenant itself are
    deleted, by default only for show.  Listings, look-ups, deletions and the
    operator's answer are calls; [sys.exit] raises [SystemExit].  What is printed is
    left out. *)
From S2P Require Import Prelude PyStr PyData.
Local Open Scope Z_scope.

Inductive kind := VRFs | Prefixes | IPAddresses | VirtualMachines | UCVNIs.
(** [Filter] lists the ids of a tenant's objects, [GetTenant] finds the tenant's own
    id, [Input] asks the operator about a number of objects. *)
Inductive tenantE : Type -> Type :=
| Connect : tenantE unit
| Filter (k : kind) (tenant : string) : tenantE (list string)
| GetTenant (tenant : string) : tenantE (option string)
| DeleteObj (k : kind) (id : string) : tenantE unit
| DeleteTenant (id : string) : tenantE unit
| Input (total : nat) : tenantE string.
Abbreviation cleanup A := (prog unit tenantE A).

Definition SystemExit (code : Z) : exn := Exn "SystemExit" [pretty code].
Definition exit_with {A} (code : Z) : cleanup A := Raise (SystemExit code).

(* cleanup_storage_stuff_in_nautobot.py:17-23 validate_uuid *)
Definition validate_uuid (uuid_string : string) : res string :=
  match uuid_int uuid_string with
  | Some z => Ok (uuid_str z)
  | None => Err (Exn "ArgumentTypeError" [uuid_string])
  end.

(** The dictionary of the objects that were found. *)
Record objects := Objects {
  vrfs : list string; prefixes : list string; ip_addresses : list string; virtual_machines : list string; ucvnis : list string }.
Definition of_kind (o : objects) (k : kind) : list string :=
  match k with
  | VRFs => o.(vrfs) | Prefixes => o.(prefixes) | IPAddresses => o.(ip_addresses)
  | VirtualMachines => o.(virtual_machines) | UCVNIs => o.(ucvnis)
  end.
(* cleanup_storage_stuff_in_nautobot.py:26-58 get_objects_to_delete *)
Definition get_objects_to_delete (tenant_uuid : string) : cleanup objects :=
  try_except (
    vrfs ← call (Filter VRFs tenant_uuid);
    prefixes ← call (Filter Prefixes tenant_uuid);
    ip_addresses ← call (Filter IPAddresses tenant_uuid);
    virtual_machines ← call (Filter VirtualMachines tenant_uuid);
    ucvnis ← call (Filter UCVNIs tenant_uuid);
    mret (Objects vrfs prefixes ip_addresses virtual_machines ucvnis)) (fun _ => exit_with 1).

(* cleanup_storage_stuff_in_nautobot.py:105-111 delete_objects *)
Definition deletion_order : list kind := [VirtualMachines; IPAddresses; Prefixes; VRFs; UCVNIs].

Section cleanup.
(** [str(e)] of an exception of the client. *)
Variable str_exn : exn -> string.

(** Whether the object is already gone. *)
(* cleanup_storage_stuff_in_nautobot.py:128-131 delete_objects *)
Definition already_gone (e : exn) : bool :=
  contains "could not be found" (str_exn e) || contains "404" (str_exn e).
(* cleanup_storage_stuff_in_nautobot.py:116-138 delete_objects *)
Definition delete_object (dry_run : bool) (k : kind) (success : bool) (id : string) : cleanup bool :=
  try_except (if dry_run then mret success else _ ← call (DeleteObj k id); mret success)
    (fun e => mret (if already_gone e then success else false)).
(* cleanup_storage_stuff_in_nautobot.py:98-143 delete_objects *)
Definition delete_objects (o : objects) (dry_run : bool) : cleanup bool :=
  fold_each (fun success k => fold_each (delete_object dry_run k) (of_kind o k) success) deletion_order true.
(* cleanup_storage_stuff_in_nautobot.py:146-163 delete_tenant *)
Definition delete_tenant (tenant_uuid : string) (dry_run : bool) : cleanup bool :=
  try_except (
    tenant ← call (GetTenant tenant_uuid);
    match tenant with
    | None => mret false
    | Some id => _ ← (if dry_run then mret tt else call (DeleteTenant id)); mret true
    end) (fun _ => mret false).

Definition total_objects (o : objects) : nat := sum_list_with (fun k => length (of_kind o k)) deletion_order.
(** [main] after the arguments are parsed *)
(* cleanup_storage_stuff_in_nautobot.py:189-268 main *)
Definition clean_up (tenant_uuid : string) (really_delete : bool) : cleanup unit :=
  _ ← try_except (call Connect) (fun _ => exit_with 1);
  let dry_run := negb really_delete in
  o ← get_objects_to_delete tenant_uuid;
  tenant ← try_except (call (GetTenant tenant_uuid)) (fun _ => exit_with 1);
  if bool_decide (tenant = None) then exit_with 1
  else if (total_objects o =? 0)%nat then
    if dry_run then mret tt else _ ← delete_tenant tenant_uuid dry_run; mret tt
  else
    _ ← (if dry_run then mret tt
         else response ← call (Input (total_objects o));
              if bool_decide (lower response = "yes") then mret tt else exit_with 0);
    _ ← delete_objects o dry_run;
    deleted ← delete_tenant tenant_uuid dry_run;
    if (deleted : bool) then mret tt else exit_with 1.
(* cleanup_storage_stuff_in_nautobot.py:166-268 main *)
Definition main (tenant_uuid : string) (really_delete : bool) : cleanup unit :=
  match validate_uuid tenant_uuid with
  | inl _ => exit_with 2
  | inr tenant_uuid => clean_up tenant_uuid really_delete
  end.

(** ** Properties *)

Definition deletes (ev : event tenantE) : bool :=
  match ev with
  | Ev op _ => match op with DeleteObj _ _ | DeleteTenant _ => true | _ => false end
  end.
Definition nothing_deleted (tr : list (event tenantE)) : Prop := Forall (fun ev => deletes ev = false) tr.

(** The listings of a tenant's objects, answered by [o]. *)
Definition listed (t : string) (o : objects) : list (event tenantE) :=
  [Ev (Filter VRFs t) (inr o.(vrfs)); Ev (Filter Prefixes t) (inr o.(prefixes)); Ev (Filter IPAddresses t) (inr o.(ip_addresses));
   Ev (Filter VirtualMachines t) (inr o.(virtual_machines)); Ev (Filter UCVNIs t) (inr o.(ucvnis))].
(** The objects in the order of their deletion: what refers to others before these. *)
Definition in_order (o : objects) : list (kind * string) :=
  map (pair VirtualMachines) o.(virtual_machines) ++ map (pair IPAddresses) o.(ip_addresses) ++
  map (pair Prefixes) o.(prefixes) ++ map (pair VRFs) o.(vrfs) ++ map (pair UCVNIs) o.(ucvnis).
Definition attempted (x : kind * string) (ev : event tenantE) : Prop := exists answer, ev = Ev (DeleteObj x.1 x.2) answer.
(** The deletion of the tenant and whether it was accepted. *)
Definition tenant_deletion (t : string) (tr : list (event tenantE)) (ok : bool) : Prop :=
  (exists answer, tr = [Ev (GetTenant t) answer] /\ (forall id, answer <> inr (Some id)) /\ ok = false) \/
  exists id answer, tr = [Ev (GetTenant t) (inr (Some id)); Ev (DeleteTenant id) answer] /\
    ok = match answer with inr _ => true | inl _ => false end.
(** The calls of a run that deletes, and how it ends. *)
Definition deletion (t : string) (r : res unit) (tr : list (event tenantE)) : Prop :=
  exists o id work last ok, tr = Ev Connect (inr tt) :: listed t o ++ Ev (GetTenant t) (inr (Some id)) :: work ++ last /\
    tenant_deletion t last ok /\
    if bool_decide (in_order o = []) then work = [] /\ r = inr tt
    else exists answer attempts, work = Ev (Input (length (in_order o))) (inr answer) :: attempts /\ lower answer = "yes" /\
           Forall2 attempted (in_order o) attempts /\ r = if ok then inr tt else inl (SystemExit 1).

Lemma length_in_order o : length (in_order o) = total_objects o.
Proof. unfold in_order, total_objects. cbn. rewrite !length_app, !length_map. lia. Qed.

Lemma wp_delete_kind k ids success : every_run (fold_each (delete_object false k) ids success) tt (fun r _ tr =>
  Forall2 attempted (map (pair k) ids) tr /\ exists b, r = inr b).
Proof.
  unfold every_run. apply (wp_fold_each_seen _ _ _ _ (fun seen _ _ tr => Forall2 attempted (map (pair k) seen) tr)); [constructor| |eauto].
  intros seen id later acc [] tr _ Hseen. unfold delete_object. do 2 wp_pure. apply wp_call. intros answer tr' Htr.
  assert (Forall2 attempted (map (pair k) (seen ++ [id])) tr') as Hnext.
  { unfold step_trace in Htr. subst tr'. rewrite map_app. apply Forall2_app; [done|]. repeat constructor. by exists answer. }
  by destruct answer; repeat wp_pure.
Qed.
Lemma delete_objects_run o : every_run (delete_objects o false) tt (fun r _ tr =>
  Forall2 attempted (in_order o) tr /\ exists b, r = inr b).
Proof.
  unfold every_run, delete_objects.
  apply (wp_fold_each_seen _ _ _ _ (fun seen _ _ tr => Forall2 attempted (flat_map (fun k => map (pair k) (of_kind o k)) seen) tr)).
  - constructor.
  - intros seen k later acc [] tr _ Hseen. eapply wp_mono; [|apply wp_trace_frame, wp_delete_kind].
    intros r [] tr' (new & -> & Hnew & b & ->). rewrite flat_map_app. apply Forall2_app; [done|]. cbn. by rewrite app_nil_r.
  - intros b [] tr Hall. split; [|by eexists]. revert Hall. cbn. by rewrite app_nil_r.
Qed.
Lemma delete_tenant_run t : every_run (delete_tenant t false) tt (fun r _ tr => exists ok, r = inr ok /\ tenant_deletion t tr ok).
Proof.
  unfold every_run, delete_tenant. do 2 wp_pure. apply wp_call. intros [e|[id|]] tr ->.
  - repeat wp_pure. exists false. split; [done|]. left. by eexists.
  - wp_simp. wp_pure. apply wp_call. intros answer tr ->.
    destruct answer as [e|[]]; repeat wp_pure; eexists; (split; [done|]); right; by eexists id, _.
  - repeat wp_pure. exists false. split; [done|]. left. by eexists.
Qed.

(** A dry run makes no call that deletes. *)
Lemma dry_run_reads t p : p = clean_up t false -> calls_only (fun R (op : tenantE R) => forall r, deletes (Ev op r) = false) p.
Proof.
  intros ->. unfold clean_up, get_objects_to_delete, delete_objects, delete_tenant, delete_object, exit_with. cbn zeta beta iota delta [negb].
  repeat (first [by apply calls_call | calls_go]).
Qed.

Lemma get_objects_run t : every_run (get_objects_to_delete t) tt (fun r _ tr =>
  (exists o, r = inr o /\ tr = listed t o) \/ (r = inl (SystemExit 1) /\ nothing_deleted tr)).
Proof.
  unfold every_run, get_objects_to_delete, exit_with. wp_pure.
  assert (forall (tr : list (event tenantE)), nothing_deleted tr ->
    (exists o, inl (SystemExit 1) = inr o /\ tr = listed t o) \/ (inl (SystemExit 1) = (inl (SystemExit 1) : res objects) /\ nothing_deleted tr))
    as Hstop by (intros tr Htr; by right).
  do 5 (wp_pure; apply wp_call; intros [?|?] ? ->; [wp_simp; wp_pure; apply Hstop; by repeat constructor|wp_simp]).
  wp_pure. left. by eexists (Objects _ _ _ _ _).
Qed.

Lemma clean_up_run t : every_run (clean_up t true) tt (fun r _ tr => (nothing_deleted tr /\ r <> inr tt) \/ deletion t r tr).
Proof.
  unfold every_run, clean_up, exit_with. cbn zeta. cbn beta iota delta [negb]. do 2 wp_pure. apply wp_call. intros [e|[]] tr0 ->.
  { repeat wp_pure. left. split; [by repeat constructor|done]. }
  wp_simp. wp_pure. eapply wp_mono; [|apply wp_trace_frame, get_objects_run].
  intros r [] tr1 (new & -> & [(o & -> & ->)|[-> Hnew]]); [|left; split; [by constructor|done]].
  wp_simp. do 2 wp_pure. apply wp_call. intros answer tr2 Htr2. unfold step_trace in Htr2.
  assert (nothing_deleted tr2) as Hnone2 by (subst tr2; by repeat constructor).
  destruct answer as [e|[id|]]; [repeat wp_pure; by left| |rewrite bool_decide_eq_true_2 by done; wp_pure; by left].
  rewrite bool_decide_eq_false_2 by done.
  assert (forall work last ok r tr, tr = tr2 ++ work ++ last -> tenant_deletion t last ok ->
    (if bool_decide (in_order o = []) then work = [] /\ r = inr tt
     else exists answer attempts, work = Ev (Input (length (in_order o))) (inr answer) :: attempts /\ lower answer = "yes" /\
           Forall2 attempted (in_order o) attempts /\ r = if ok then inr tt else inl (SystemExit 1)) -> deletion t r tr) as Hdone.
  { intros work last ok r tr -> Hlast Hwork. exists o, id, work, last, ok. subst tr2. split; [|done]. by rewrite <- !app_assoc. }
  clear Htr2. rewrite <- length_in_order. destruct (Nat.eqb_spec (length (in_order o)) 0) as [Hz|Hz].
  - apply nil_length_inv in Hz. rewrite Hz in Hdone. wp_pure. eapply wp_mono; [|apply wp_trace_frame, delete_tenant_run].
    intros r [] tr (last & -> & ok & -> & Hlast). wp_simp. wp_pure. right. by eapply (Hdone []).
  - rewrite bool_decide_eq_false_2 in Hdone by (intros Heq; by rewrite Heq in Hz). do 2 wp_pure. apply wp_call. intros answer tr3 Htr3. unfold step_trace in Htr3.
    assert (nothing_deleted tr3) as Hnone3 by (subst tr3; apply Forall_app; split; [done|by repeat constructor]).
    destruct answer as [e|answer]; [by left|]. wp_simp. case_bool_decide as Hyes; [|wp_pure; by left].
    do 2 wp_pure. eapply wp_mono; [|apply wp_trace_frame, delete_objects_run]. intros r [] tr4 (attempts & -> & Hatt & b & ->).
    wp_simp. wp_pure. eapply wp_mono; [|apply wp_trace_frame, delete_tenant_run].
    intros r [] tr (last & -> & ok & -> & Hlast). wp_simp. subst tr3.
    assert (deletion t (if ok then inr tt else inl (SystemExit 1)) (((tr2 ++ [Ev (Input (length (in_order o))) (inr answer)]) ++ attempts) ++ last)).
    { eapply (Hdone (Ev (Input (length (in_order o))) (inr answer) :: attempts)); [by rewrite <- !app_assoc|done|]. by eexists _, _. }
    by destruct ok; wp_pure; right.
Qed.

(** Every run of the script.  A malformed UUID ends it before any call.  Otherwise,
    unless [--really-delete] is given, nothing is deleted; with it, either nothing is
    deleted and the script exits by [SystemExit], or all listings and the look-up of
    the tenant succeeded, the operator agreed if there are objects, the deletion of
    every listed object was tried, once and in the order of their dependencies,
    whichever were refused, and the tenant came last; the exit status then says
    whether the tenant is gone, unless it had no objects. *)
Theorem tenant_cleanup text really_delete :
  every_run (main text really_delete) tt (fun r _ tr =>
    match uuid_int text with
    | None => tr = [] /\ r = inl (SystemExit 2)
    | Some z => if really_delete then (nothing_deleted tr /\ r <> inr tt) \/ deletion (uuid_str z) r tr else nothing_deleted tr
    end).
Proof.
  unfold main, validate_uuid. destruct (uuid_int text) as [z|]; [|done]. destruct really_delete; [apply clean_up_run|].
  eapply wp_mono; [|by eapply wp_calls_only, dry_run_reads]. intros r [] tr (tr2 & -> & Hall). cbn.
  eapply Forall_impl; [exact Hall|]. by intros [R op a] Ha.
Qed.
End cleanup.

(** A tenant without objects whose deletion is refused: nobody is asked, and the
    script exits with 0. *)
Example refused_empty_tenant :
  let '(r, _, (_, tr)) := run (traced (fun R (op : tenantE R) (s : unit) =>
    match op in tenantE R return res R * unit with
    | Connect => (inr tt, s) | Filter _ _ => (inr [], s) | GetTenant t => (inr (Some t), s)
    | DeleteObj _ _ => (inr tt, s) | DeleteTenant _ => (inl (Exn "RequestError" ["409"]), s) | Input _ => (inr "no", s)
    end)) (main (fun _ => "") "123e4567-e89b-12d3-a456-426614174000" true) tt (tt, []) in
  r = inr tt /\ last tr = Some (Ev (DeleteTenant "123e4567-e89b-12d3-a456-426614174000") (inl (Exn "RequestError" ["409"]))).
Proof. split; reflexivity. Qed.
