(* ===== verification/WorkflowClients.v ===== *)
(** * Clients of the workflows

    Models, under [src/python/understack-workflows/understack_workflows]: the client
    of Undersync and the command that calls it ([undersync/client.py],
    [main/undersync_switch.py], [boolean_args] and [credential] of [helpers.py]), and
    the class [Nautobot] of [nautobot.py]. *)
From S2P Require Import Prelude PyStr PyData.
Local Open Scope Z_scope.

Definition SystemExit (code : Z) : exn := Exn "SystemExit" [pretty code].

(** ** Undersync *)

(** An answer: its status and what [response.json()] returns or raises. *)
Record response := Response { status_code : Z; body : res json }.
(** A file that is read, and a [POST] with the token of the client. *)
Inductive syncE : Type -> Type :=
| ReadFile (path : string) : syncE string
| Post (url token : string) : syncE response.
Abbreviation sync_prog A := (prog unit syncE A).

(* understack_workflows/undersync/client.py:8-15 Undersync.__init__ *)
Record Undersync := MkUndersync { us_token : string; us_api_url : string }.
Definition DEFAULT_API_URL : string := "http://undersync.undersync.svc.cluster.local:8080".
Definition HTTPError (status : Z) : exn := Exn "HTTPError" [pretty status].
(** [response.raise_for_status()] *)
Definition raise_for_status (r : response) : res response :=
  if (400 <=? r.(status_code)) && (r.(status_code) <? 600) then Err (HTTPError r.(status_code)) else Ok r.
Definition post_action (action : string) (u : Undersync) (physical_network : string) : sync_prog response :=
  let physnet := url_quote physical_network in
  response ← call (Post (u.(us_api_url) +:+ "/v1/vlan-group/" +:+ physnet +:+ "/" +:+ action) u.(us_token));
  lift (raise_for_status response).
(* understack_workflows/undersync/client.py:34-38 Undersync.sync *)
Definition sync : Undersync -> string -> sync_prog response := post_action "sync".
(* understack_workflows/undersync/client.py:40-44 Undersync.dry_run *)
Definition dry_run : Undersync -> string -> sync_prog response := post_action "dry-run".
(* understack_workflows/undersync/client.py:46-50 Undersync.force *)
Definition force : Undersync -> string -> sync_prog response := post_action "force".
#[export] Instance truthy_option_bool : Truthy (option bool) := fun o => match o with Some b => b | None => false end.
(* understack_workflows/undersync/client.py:17-23 Undersync.sync_devices *)
Definition sync_devices (u : Undersync) (physical_network : string) (force_ dry_run_ : option bool) : sync_prog response :=
  if truthy dry_run_ then dry_run u physical_network
  else if truthy force_ then force u physical_network
  else sync u physical_network.

(* understack_workflows/helpers.py:67-74 boolean_args *)
Definition boolean_args (val : string) : res bool :=
  let normalised := upper val in
  if existsb (String.eqb normalised) ["YES"; "TRUE"; "T"; "1"] then Ok true
  else if existsb (String.eqb normalised) ["NO"; "FALSE"; "F"; "N"; "0"] then Ok false
  else Err (Exn "ArgumentTypeError" ["boolean expected"]).
(* understack_workflows/helpers.py:102-105 credential *)
Definition credential (subpath item : string) : sync_prog string :=
  text ← call (ReadFile ("/etc/" +:+ subpath +:+ "/" +:+ item)); mret (strip text).

Record sync_args := SyncArgs { sa_physical_network : string; sa_force : option bool; sa_dry_run : option bool }.
(* understack_workflows/main/undersync_switch.py:12-34 call_undersync *)
Definition call_undersync (args : sync_args) : sync_prog response :=
  undersync_token ← credential "undersync" "token";
  if negb (truthy undersync_token) then Raise (SystemExit 1) else
  let undersync := MkUndersync undersync_token DEFAULT_API_URL in
  try_except (sync_devices undersync args.(sa_physical_network) args.(sa_force) args.(sa_dry_run))
    (fun _ => Raise (SystemExit 2)).
(** An optional argument; one that is refused ends the program. *)
Definition optional_bool (o : option string) : res (option bool) :=
  match o with
  | None => Ok None
  | Some v => match boolean_args v with inr b => Ok (Some b) | inl _ => Err (SystemExit 2) end
  end.
(* understack_workflows/main/undersync_switch.py:37-61 argument_parser *)
Definition argument_parser (physical_network : string) (force_text dry_run_text : option string) : res sync_args :=
  f ← optional_bool force_text;
  d ← optional_bool dry_run_text;
  Ok (SyncArgs physical_network f d).
(* understack_workflows/main/undersync_switch.py:64-70 main *)
Definition undersync_main (physical_network : string) (force_text dry_run_text : option string) : sync_prog unit :=
  args ← lift (argument_parser physical_network force_text dry_run_text);
  response ← call_undersync args;
  _ ← lift response.(body);
  mret tt.

(** ** Nautobot *)

Record device := Device { dv_id : string; dv_custom_fields : dict string; dv_tenant : option string; dv_status : string }.
Record nb_interface := NbInterface { nif_id : string; nif_connected_endpoint : option string; nif_status : string }.
Inductive nbotE : Type -> Type :=
| GetDevice (device_id : string) : nbotE (option device)
| GetInterface (interface_id : string) : nbotE (option nb_interface)
| FindMember (device_id mac_address : string) : nbotE (option nb_interface)
| FindTenant (tenant_id : string) : nbotE (option string)
| SaveDevice (d : device) : nbotE bool
| SaveInterface (i : nb_interface) : nbotE bool.
Abbreviation nbot A := (prog unit nbotE A).

(** A record that must be there, or [exit_with_error]. *)
(* understack_workflows/nautobot.py:34-36 Nautobot.exit_with_error *)
Definition found {A} (o : option A) : nbot A := match o with Some x => mret x | None => Raise (SystemExit 1) end.
(* understack_workflows/nautobot.py:41-45 Nautobot.device_by_id *)
Definition device_by_id (device_id : string) : nbot device := d ← call (GetDevice device_id); found d.
(* understack_workflows/nautobot.py:47-51 Nautobot.interface_by_id *)
Definition interface_by_id (interface_id : string) : nbot nb_interface := i ← call (GetInterface interface_id); found i.
(* understack_workflows/nautobot.py:53-65 Nautobot.non_lag_interface_by_mac *)
Definition non_lag_interface_by_mac (device_id mac_address : string) : nbot nb_interface :=
  i ← call (FindMember device_id mac_address); found i.
(* understack_workflows/nautobot.py:67-72 Nautobot.tenancy_by_id *)
Definition tenancy_by_id (tenant_id : option string) : nbot (option string) :=
  match tenant_id with
  | Some (String _ _ as tenant_id) => call (FindTenant tenant_id)
  | _ => mret None
  end.
Definition set_fields (fields custom_fields : dict string) : dict string :=
  foldl (fun d '(k, v) => dict_set k v d) custom_fields fields.
(* understack_workflows/nautobot.py:74-93 Nautobot.update_cf *)
Definition update_cf (device_id : string) (tenant_id : option string) (fields : option (dict string)) : nbot bool :=
  d ← device_by_id device_id;
  if negb (truthy d.(dv_custom_fields)) then Raise (PlainException [device_id; "has no custom fields"]) else
  let custom_fields := set_fields (default [] fields) d.(dv_custom_fields) in
  tenant ← tenancy_by_id tenant_id;
  call (SaveDevice (Device d.(dv_id) custom_fields tenant d.(dv_status))).
(* understack_workflows/nautobot.py:95-138 Nautobot.update_switch_interface_status *)
Definition update_switch_interface_status (device_id server_interface_mac new_status : string) : nbot nb_interface :=
  server_interface ← non_lag_interface_by_mac device_id server_interface_mac;
  match server_interface.(nif_connected_endpoint) with
  | None => Raise (PlainException [server_interface_mac; "is not connected in Nautobot"])
  | Some switch_interface_id =>
      switch_interface ← interface_by_id switch_interface_id;
      let switch_interface := NbInterface switch_interface.(nif_id) switch_interface.(nif_connected_endpoint) new_status in
      _ ← call (SaveInterface switch_interface);
      mret switch_interface
  end.
(* understack_workflows/nautobot.py:140-147 Nautobot.update_device_status *)
Definition update_device_status (device_id device_status : string) : nbot bool :=
  d ← device_by_id device_id;
  call (SaveDevice (Device d.(dv_id) d.(dv_custom_fields) d.(dv_tenant) device_status)).

(** ** Properties *)

(** How the service reads a part of the path: [urllib.parse.unquote]. *)
Fixpoint url_unquote (s : string) : string :=
  match s with
  | "" => ""
  | String c r =>
      if Ascii.eqb c "%" then
        match r with
        | String a (String b r') =>
            match hex_digit a, hex_digit b with
            | Some x, Some y => String (Ascii.ascii_of_N (Z.to_N (16 * x + y))) (url_unquote r')
            | _, _ => String c (url_unquote r)
            end
        | _ => String c (url_unquote r)
        end
      else String c (url_unquote r)
  end.
Lemma url_unquote_quote s : url_unquote (url_quote s) = s.
Proof. induction s as [|c s IH]; [done|]. destruct c as [[] [] [] [] [] [] [] []]; exact (f_equal (String _) IH). Qed.
Lemma url_quote_no_slash s : has_char "/"%char (url_quote s) = false.
Proof. induction s as [|c s IH]; [done|]. destruct c as [[] [] [] [] [] [] [] []]; exact IH. Qed.

(** What is asked of Undersync: a dry run if that is wanted, whatever else is. *)
Definition action_of (force_ dry_run_ : option bool) : string :=
  if truthy dry_run_ then "dry-run" else if truthy force_ then "force" else "sync".
(** A request from which the service reads this action on this group. *)
Definition asks (action physical_network token : string) (answer : res response) (ev : event syncE) : Prop :=
  exists part, ev = Ev (Post (DEFAULT_API_URL +:+ "/v1/vlan-group/" +:+ part +:+ "/" +:+ action) token) answer /\
    has_char "/"%char part = false /\ url_unquote part = physical_network.
(** How the command ends after an answer. *)
Definition sync_outcome (answer : res response) : res unit :=
  match answer with
  | inl _ => inl (SystemExit 2)
  | inr r => if (400 <=? r.(status_code)) && (r.(status_code) <? 600) then inl (SystemExit 2)
             else match r.(body) with inl e => inl e | inr _ => inr tt end
  end.

Lemma sync_devices_run u physical_network f d :
  u.(us_api_url) = DEFAULT_API_URL ->
  every_run (sync_devices u physical_network f d) tt (fun r _ tr => exists answer ev,
    tr = [ev] /\ asks (action_of f d) physical_network u.(us_token) answer ev /\
    r = match answer with inl e => inl e | inr a => raise_for_status a end).
Proof.
  intros Hurl. assert (forall action, every_run (post_action action u physical_network) tt (fun r _ tr => exists answer ev,
    tr = [ev] /\ asks action physical_network u.(us_token) answer ev /\
    r = match answer with inl e => inl e | inr a => raise_for_status a end)) as Hpost.
  { intros action. unfold every_run, post_action. cbn zeta. wp_pure. apply wp_call. intros answer tr ->. rewrite Hurl.
    assert (asks action physical_network u.(us_token) answer
      (Ev (Post (DEFAULT_API_URL +:+ "/v1/vlan-group/" +:+ url_quote physical_network +:+ "/" +:+ action) u.(us_token)) answer)) as Hasks.
    { eexists. split; [done|]. by rewrite url_quote_no_slash, url_unquote_quote. }
    destruct answer; repeat wp_pure; by eexists _, _. }
  unfold sync_devices, action_of. destruct (truthy d); [|destruct (truthy f)]; apply Hpost.
Qed.

(** The calls of the command with accepted arguments, and how it ends. *)
Definition sync_calls (physical_network : string) (f d : option bool) (r : res unit) (tr : list (event syncE)) : Prop :=
  exists token rest, tr = Ev (ReadFile "/etc/undersync/token") token :: rest /\
    match token with
    | inl e => r = inl e /\ rest = []
    | inr text => if negb (truthy (strip text)) then r = inl (SystemExit 1) /\ rest = []
                  else exists answer ev, rest = [ev] /\ asks (action_of f d) physical_network (strip text) answer ev /\ r = sync_outcome answer
    end.

(** The command: a refused argument ends it before any call, a token that cannot be
    read or is blank before any request.  Otherwise it makes one request, from which
    Undersync reads the given group whatever characters its name has, and a dry run if
    that was wanted, also when force was; it fails with 2 exactly when the request
    fails or is refused. *)
Theorem undersync_switch_run physical_network force_text dry_run_text :
  every_run (undersync_main physical_network force_text dry_run_text) tt (fun r _ tr =>
    match optional_bool force_text, optional_bool dry_run_text with
    | inr f, inr d => sync_calls physical_network f d r tr
    | _, _ => r = inl (SystemExit 2) /\ tr = []
    end).
Proof.
  assert (forall o e, optional_bool o = inl e -> e = SystemExit 2) as Hrefused.
  { intros [v|] e; [|done]. cbn. destruct (boolean_args v); congruence. }
  unfold every_run, undersync_main, argument_parser. do 2 wp_pure.
  destruct (optional_bool force_text) as [e|f] eqn:Hf; [by apply Hrefused in Hf as ->|].
  destruct (optional_bool dry_run_text) as [e|d] eqn:Hd; [by apply Hrefused in Hd as ->|]. cbn [mbind res_mbind]. wp_simp.
  wp_pure. unfold call_undersync, credential. do 2 wp_pure. apply wp_call. intros [e|text] tr ->; repeat wp_pure; [by eexists _, []|].
  destruct (truthy (strip text)) eqn:Ht; wp_simp; [|wp_pure; eexists _, []; split; [done|]; cbn beta iota; by rewrite Ht].
  cbn zeta. wp_pure. eapply wp_mono; [|by apply wp_trace_frame, sync_devices_run]. intros r [] tr (new & -> & answer & ev & -> & Hasks & ->).
  assert (forall r, r = sync_outcome answer -> sync_calls physical_network f d r ([Ev (ReadFile "/etc/undersync/token") (inr text)] ++ [ev])) as Hend.
  { intros r ->. eexists _, [ev]. split; [done|]. cbn beta iota. rewrite Ht. cbn [negb]. by exists answer, ev. }
  destruct answer as [e|a]; [wp_simp; wp_pure; by apply Hend|]. unfold sync_outcome in Hend. unfold raise_for_status.
  destruct ((400 <=? status_code a) && (status_code a <? 600)); wp_simp; repeat wp_pure; [by apply Hend|].
  destruct (body a); repeat wp_pure; by apply Hend.
Qed.

(** *** Nautobot *)

Definition saves (ev : event nbotE) : bool :=
  match ev with Ev op _ => match op with SaveDevice _ | SaveInterface _ => true | _ => false end end.
Definition nothing_saved (tr : list (event nbotE)) : Prop := Forall (fun ev => saves ev = false) tr.

Lemma wp_found_record {R} (o : option R) (Q : res R -> unit -> list (event nbotE) -> Prop) tr :
  (match o with Some x => Q (inr x) tt tr | None => Q (inl (SystemExit 1)) tt tr end) -> wp step_trace (found o) Q tt tr.
Proof. by destruct o. Qed.

(** The status of a switch port: either nothing is saved and the call raises, or one
    interface is saved last, the one at the other end of the server's interface with
    this MAC address, which is not a LAG, as it was but for the status. *)
Theorem switch_port_status device_id mac new_status :
  every_run (update_switch_interface_status device_id mac new_status) tt (fun r _ tr =>
    (nothing_saved tr /\ exists e, r = inl e) \/
    exists server port switch answer,
      tr = [Ev (FindMember device_id mac) (inr (Some server)); Ev (GetInterface port) (inr (Some switch));
            Ev (SaveInterface (NbInterface switch.(nif_id) switch.(nif_connected_endpoint) new_status)) answer] /\
      server.(nif_connected_endpoint) = Some port /\
      r = match answer with inl e => inl e | inr _ => inr (NbInterface switch.(nif_id) switch.(nif_connected_endpoint) new_status) end).
Proof.
  assert (forall (tr : list (event nbotE)) e (P : Prop), nothing_saved tr -> (nothing_saved tr /\ exists e', (inl e : res nb_interface) = inl e') \/ P) as Hstop by eauto.
  unfold every_run, update_switch_interface_status, non_lag_interface_by_mac, interface_by_id. do 2 wp_pure.
  apply wp_call. intros [e|server] tr ->; wp_simp; [apply Hstop; by repeat constructor|]. apply wp_found_record.
  destruct server as [server|]; [|apply Hstop; by repeat constructor]. wp_simp.
  destruct (nif_connected_endpoint server) as [port|] eqn:Hport; [|wp_pure; apply Hstop; by repeat constructor]. do 2 wp_pure.
  apply wp_call. intros [e|switch] tr ->; wp_simp; [apply Hstop; by repeat constructor|]. apply wp_found_record.
  destruct switch as [switch|]; [|apply Hstop; by repeat constructor]. wp_simp. cbn zeta. wp_pure. apply wp_call. intros answer tr ->.
  destruct answer; repeat wp_pure; right; by eexists _, _, _, _.
Qed.

(** Custom fields: either nothing is saved, or the device is saved last with exactly
    the given fields changed, the status kept, and the tenant that was found, which
    is none when none is given. *)
Theorem update_cf_run device_id tenant_id fields :
  NoDup (default [] fields).*1 ->
  every_run (update_cf device_id tenant_id fields) tt (fun r _ tr =>
    (nothing_saved tr /\ exists e, r = inl e) \/
    exists d tenant start saved,
      tr = Ev (GetDevice device_id) (inr (Some d)) :: start ++ [Ev (SaveDevice saved) r] /\
      match tenant_id with
      | Some (String _ _ as t) => start = [Ev (FindTenant t) (inr tenant)]
      | _ => start = [] /\ tenant = None
      end /\
      saved.(dv_id) = d.(dv_id) /\ saved.(dv_status) = d.(dv_status) /\ saved.(dv_tenant) = tenant /\
      forall k, dict_get k saved.(dv_custom_fields) =
        match dict_get k (default [] fields) with Some v => Some v | None => dict_get k d.(dv_custom_fields) end).
Proof.
  intros Hnd. assert (forall (tr : list (event nbotE)) e (P : Prop), nothing_saved tr -> (nothing_saved tr /\ exists e', (inl e : res bool) = inl e') \/ P) as Hstop by eauto.
  unfold every_run, update_cf, device_by_id. do 2 wp_pure.
  apply wp_call. intros [e|d] tr ->; wp_simp; [apply Hstop; by repeat constructor|]. apply wp_found_record.
  destruct d as [d|]; [|apply Hstop; by repeat constructor]. wp_simp.
  destruct (truthy (dv_custom_fields d)); wp_simp; [|wp_pure; apply Hstop; by repeat constructor]. cbn zeta. wp_pure.
  set (base := [] ++ [Ev (GetDevice device_id) (inr (Some d))]). assert (nothing_saved base) as Hbase by by repeat constructor.
  eapply wp_mono with (Q := fun r _ tr => match r with
    | inl e => nothing_saved tr
    | inr tenant => exists start, tr = base ++ start /\
        match tenant_id with Some (String _ _ as t) => start = [Ev (FindTenant t) (inr tenant)] | _ => start = [] /\ tenant = None end
    end).
  - intros [e|tenant] [] tr; [by apply Hstop|]. intros (start & -> & Hstart). apply wp_call. intros answer tr Htr.
    right. unfold step_trace in Htr. subst tr. eexists d, tenant, start, _. split; [by rewrite <- app_assoc|].
    split_and!; [done..|]. intros k. by apply (dict_get_update (fun v => v)).
  - unfold tenancy_by_id. destruct tenant_id as [[|c t]|]; [wp_pure; by exists []| |wp_pure; by exists []].
    apply wp_call. intros [e|tenant] tr Htr; unfold step_trace in Htr; subst tr; [|by eexists]. apply Forall_app. by repeat constructor.
Qed.
