(* ===== verification/DiffTool.v ===== *)
(** * Comparison of OpenStack with Nautobot

    Models [src/python/diff-nautobot-understack/diff_nautobot_understack]: the client
    of Nautobot with its pages, the adapters that load projects, tenants, networks and
    UCVNIs, and the comparisons.  Requests, listings, the adapters' stores and the
    comparison itself (of the library diffsync) are calls; a listing answers what its
    generator yields and the exception that ends it, if any.  Ids of objects in JSON
    are texts: another value where the code builds a URL from it raises
    [SchemaError]. *)
From S2P Require Import Prelude PyStr PyData Tenancy.
Local Open Scope Z_scope.

(** ** Calls *)

(** An answer: whether it has content, what [json()] returns or raises, the status. *)
Record response := Response { content : bool; resp_json : res json; status_code : Z }.
Record os_project := OsProject { p_id : json; p_name : json; p_description : json }.
Record os_network := OsNetwork { n_id : json; n_name : json; n_status : json; n_physical_network : json; n_segmentation_id : json }.
(** The two sides of a comparison. *)
Inductive side := Openstack | Nautobot.
Inductive diffE : Type -> Type :=
| ConnectCloud : diffE unit
| HttpGet (url : string) : diffE response
| GetProject (name : string) : diffE (option os_project)
| ListProjects : diffE (list os_project * option exn)
| ListNetworks : diffE (list os_network * option exn)
| Add (s : side) (obj : dict json) : diffE unit
| DiffFrom (destination source : side) : diffE json.
Abbreviation diff A := (prog unit diffE A).

Definition SchemaError : exn := Exn "SchemaError" [].
Definition jtext (v : json) : res string := match v with JStr s => Ok s | _ => Err SchemaError end.

(** ** URLs *)

(** The scheme and host of a URL: the text before its third slash. *)
Definition origin (base : string) : string :=
  match split_once "/"%char base with
  | Some (scheme, rest) =>
      match rest with
      | String "/" rest => scheme +:+ "//" +:+ match split_once "/"%char rest with Some (h, _) => h | None => rest end
      | _ => ""
      end
  | None => ""
  end.
(** An empty query is dropped. *)
Definition normalised (url : string) : string :=
  match split_once "?"%char url with Some (u, "") => if has_char "#"%char u then url else u | _ => url end.
(** [urllib.parse.urljoin] for a base that is an address with a host: nothing, a path
    from the root, or an address; other relative references are outside the model. *)
Definition urljoin (base : string) (url : json) : res string :=
  match url with
  | JStr u => if negb (truthy u) then Ok base
              else if contains "://" u then Ok (normalised u)
              else if startswith "/" u && negb (startswith "//" u) then Ok (origin base +:+ normalised u)
              else Err SchemaError
  | v => if truthy v then Err (TypeError ["Cannot mix str and non-str arguments"]) else Ok base
  end.

(** ** The client of Nautobot *)

Definition HTTPError (status : Z) : exn := Exn "HTTPError" [pretty status].
(* diff_nautobot_understack/clients/nautobot.py:65-70 _log_and_raise_for_status *)
Definition _log_and_raise_for_status (resp : response) : res unit :=
  if (400 <=? resp.(status_code)) && (resp.(status_code) <? 600) then Err (HTTPError resp.(status_code)) else Ok tt.
(* diff_nautobot_understack/clients/nautobot.py:51-63 _process_response *)
Definition _process_response (resp : response) : res json :=
  resp_data ← (if resp.(content) then resp.(resp_json) else Ok (JObj [("status_code", JNum resp.(status_code))]));
  _ ← _log_and_raise_for_status resp;
  Ok resp_data.
Definition OutOfFuel : exn := Exn "OutOfFuel" [].
Definition MissingSchema : exn := Exn "MissingSchema" [].
(** [self.s.get(url)] of a URL found in an answer *)
Definition get_url (url : json) : diff response :=
  match url with JStr u => call (HttpGet u) | _ => Raise MissingSchema end.
(** [while url is not None: ...] *)
(* diff_nautobot_understack/clients/nautobot.py:36-49 _fetch_paginated_data *)
Fixpoint _fetch_paginated_data (fuel : nat) (url : json) (response_items : list json) : diff (list json) :=
  match url with
  | JNull => mret response_items
  | _ =>
      match fuel with
      | O => Raise OutOfFuel
      | S fuel =>
          resp ← get_url url;
          resp_data ← lift (_process_response resp);
          results ← lift (jget_or "results" (JArr []) resp_data);
          items ← lift (jiter results);
          next ← lift (jget "next" resp_data);
          _fetch_paginated_data fuel next (response_items ++ items)
      end
  end.

Section tool.
Context (fuel : nat).
(** [settings.nautobot_url] and [settings.os_project] *)
Context (nautobot_url default_project : string).
(** The constructor of a class of models from its fields, which validates them. *)
Variable construct : string -> dict json -> res (dict json).

(* diff_nautobot_understack/clients/nautobot.py:19-34 make_api_request *)
Definition make_api_request (url : json) : diff json :=
  endpoint_url ← lift (urljoin nautobot_url url);
  resp ← call (HttpGet endpoint_url);
  lift (_process_response resp).
(* diff_nautobot_understack/clients/nautobot.py:19-34 make_api_request *)
Definition make_paginated_request (url : string) : diff (list json) :=
  endpoint_url ← lift (urljoin nautobot_url (JStr url));
  _fetch_paginated_data fuel (JStr endpoint_url) [].

(** [self.add(self.project(...))] *)
Definition add_model (s : side) (model : string) (fields : dict json) : diff unit :=
  obj ← lift (construct model fields); call (Add s obj).
(** A loop over what a generator yields. *)
Definition each_yielded {A} (yielded : list A * option exn) (f : A -> diff unit) : diff unit :=
  _ ← for_each yielded.1 f;
  match yielded.2 with Some e => Raise e | None => mret tt end.

(** ** Projects and tenants *)

(* diff_nautobot_understack/project/models.py:4-14 ProjectModel *)
Definition project_fields (id name description : json) : dict json := [("id", id); ("name", name); ("description", description)].
Definition os_project_fields (p : os_project) : dict json := project_fields p.(p_id) p.(p_name) p.(p_description).
(* diff_nautobot_understack/project/adapters/openstack_project.py:23-35 Project.load *)
Definition load_project (project_name : string) : diff unit :=
  os_project ← call (GetProject project_name);
  match os_project with
  | None => mret tt
  | Some p => add_model Openstack "ProjectModel" (os_project_fields p)
  end.
(* diff_nautobot_understack/project/adapters/openstack_project.py:48-56 Projects.load *)
Definition load_projects : diff unit :=
  yielded ← call ListProjects;
  each_yielded yielded (fun p => add_model Openstack "ProjectModel" (os_project_fields p)).
(* diff_nautobot_understack/project/adapters/nautobot_tenant.py:9-11 _remove_hyphens *)
Definition _remove_hyphens (tenant_id : json) : res json :=
  match tenant_id with
  | JStr s => match uuid_int s with Some z => Ok (JStr (uuid_hex z)) | None => Err (ValueError ["badly formed hexadecimal UUID string"]) end
  | JNull => Err (TypeError ["one of the hex, bytes, bytes_le, fields, or int arguments must be given"])
  | _ => Err (AttributeError "replace")
  end.
(* diff_nautobot_understack/project/adapters/nautobot_tenant.py:32-39 Tenant.load *)
Definition tenant_fields (tenant : json) : res (dict json) :=
  tenant_id ← jget "id" tenant;
  id ← _remove_hyphens tenant_id;
  name ← jget "name" tenant;
  description ← jget "description" tenant;
  Ok (project_fields id name description).
Definition add_tenants (tenants_response : list json) : diff unit :=
  for_each tenants_response (fun tenant => fields ← lift (tenant_fields tenant); add_model Nautobot "ProjectModel" fields).
(* diff_nautobot_understack/project/adapters/nautobot_tenant.py:25-39 Tenant.load *)
Definition load_tenant (tenant_name : string) : diff unit :=
  tenants_response ← make_paginated_request ("/api/tenancy/tenants/?name=" +:+ tenant_name +:+ "&include=relationships");
  add_tenants tenants_response.
(* diff_nautobot_understack/project/adapters/nautobot_tenant.py:52-63 Tenants.load *)
Definition load_tenants : diff unit :=
  tenants_response ← make_paginated_request "/api/tenancy/tenants/?include=relationships";
  add_tenants tenants_response.
(* diff_nautobot_understack/project/main.py:11-21 openstack_project_diff_from_nautobot_tenant *)
Definition openstack_project_diff_from_nautobot_tenant (os_project : option string) : diff json :=
  let project_name := default default_project os_project in
  _ ← call ConnectCloud;
  _ ← load_project project_name;
  _ ← load_tenant project_name;
  call (DiffFrom Nautobot Openstack).
(* diff_nautobot_understack/project/main.py:24-33 openstack_all_projects_diff_from_nautobot_tenant *)
Definition openstack_all_projects_diff_from_nautobot_tenant : diff json :=
  _ ← call ConnectCloud;
  _ ← load_projects;
  _ ← load_tenants;
  call (DiffFrom Nautobot Openstack).

(** ** Networks and UCVNIs *)

(** [v.lower()] *)
Definition jlower (v : json) : res json := match v with JStr s => Ok (JStr (lower s)) | _ => Err (AttributeError "lower") end.
(* diff_nautobot_understack/network/models.py:4-18 NetworkModel *)
Definition network_fields (id name status provider_physical_network vni_id : json) : dict json :=
  [("id", id); ("name", name); ("status", status); ("provider_physical_network", provider_physical_network); ("vni_id", vni_id)].
(* diff_nautobot_understack/network/adapters/openstack_network.py:18-28 Network.load *)
Definition load_networks : diff unit :=
  yielded ← call ListNetworks;
  each_yielded yielded (fun n =>
    status ← lift (jlower n.(n_status));
    add_model Openstack "NetworkModel" (network_fields n.(n_id) n.(n_name) status n.(n_physical_network) n.(n_segmentation_id))).
(** [d.setdefault(k, []).append(v)] *)
Definition append_to (k : string) (v : json) (d : dict (list json)) : dict (list json) :=
  dict_set k (default [] (dict_get k d) ++ [v]) d.
(** One VLAN of the answer. *)
(* diff_nautobot_understack/network/adapters/ucvni.py:92-103 get_vlan_details *)
Definition add_vlan (vlan_details : dict (list json)) (vlan_response : json) : diff (dict (list json)) :=
  vlan_group ← lift (jget_or "vlan_group" (JObj []) vlan_response);
  vlan_group_url ← lift (jget "url" vlan_group);
  if negb (truthy vlan_group_url) then mret vlan_details else
  vlan_group_response ← make_api_request vlan_group_url;
  vlan_group_name ← lift (jget "name" vlan_group_response);
  vlan_id ← lift (jget "vid" vlan_response);
  if negb (truthy vlan_group_name) then mret vlan_details else
  name ← lift (jtext vlan_group_name);
  mret (append_to name vlan_id vlan_details).
Definition vlans_query (uuids : list string) : string := "/api/ipam/vlans/?" +:+ String.concat "&" (map (fun v => "id=" +:+ v) uuids).
(* diff_nautobot_understack/network/adapters/ucvni.py:83-105 get_vlan_details *)
Definition get_vlan_details (vlan_uuid_objects : json) : diff (dict (list json)) :=
  objects ← lift (jiter vlan_uuid_objects);
  vlan_uuids ← lift (res_map (fun o => v ← jitem "id" o; jtext v) objects);
  vlans_response ← make_paginated_request (vlans_query vlan_uuids);
  fold_each add_vlan vlans_response [].
Definition StopIteration : exn := Exn "StopIteration" [].
(** [int(v)] *)
Definition jint (v : json) : res Z :=
  match v with
  | JNum z => Ok z
  | JBool b => Ok (if b then 1 else 0)
  | JStr s => match py_int s with Some z => Ok z | None => Err (ValueError [s]) end
  | _ => Err (TypeError ["int() argument"])
  end.
(* diff_nautobot_understack/network/adapters/ucvni.py:56-80 ucvni_get *)
Definition ucvni_details (ucvni_item : json) : diff (dict json) :=
  group ← lift (jget_or "ucvni_group" (JObj []) ucvni_item);
  group_url ← lift (jget "url" group);
  ucvni_group ← make_api_request group_url;
  status_ref ← lift (jget_or "status" (JObj []) ucvni_item);
  status_url ← lift (jget "url" status_ref);
  status ← make_api_request status_url;
  relationships ← lift (jget_or "relationships" (JObj []) ucvni_item);
  ucvni_vlans ← lift (jget_or "ucvni_vlans" (JObj []) relationships);
  destination ← lift (jget "destination" ucvni_vlans);
  vlan_uuid_objects ← lift (jget "objects" destination);
  vlan_details ← get_vlan_details vlan_uuid_objects;
  match vlan_details with
  | [] => Raise StopIteration
  | (vlan_group, vlan_ids) :: _ =>
      id ← lift (jget "id" ucvni_item);
      name ← lift (jget "name" ucvni_item);
      ucvni_id ← lift (jget "ucvni_id" ucvni_item);
      group_name ← lift (jget "name" ucvni_group);
      status_name ← lift (jget "name" status);
      status ← lift (jlower status_name);
      vlan_id ← lift (v ← match vlan_ids with v :: _ => Ok v | [] => Err IndexError end; jint v);
      lift (construct "UcvniDetails" [("id", id); ("name", name); ("ucvni_id", ucvni_id); ("ucvni_group", group_name);
              ("status", status); ("vlan_group", JStr vlan_group); ("vlan_id", JNum vlan_id)])
  end.
Definition ucvnis_url : string := "/api/plugins/undercloud-vni/ucvnis/?include=relationship" +:+ "/?include=relationships".
(* diff_nautobot_understack/network/adapters/ucvni.py:45-81 ucvni_get *)
Definition ucvni_get : diff (list (dict json)) :=
  ucvnis_response ← make_paginated_request ucvnis_url;
  map_each ucvnis_response ucvni_details.
(** An attribute of a model *)
Definition attribute (k : string) (d : dict json) : json := default JNull (dict_get k d).
(* diff_nautobot_understack/network/adapters/ucvni.py:33-43 Network.load *)
Definition load_ucvnis : diff unit :=
  ucvni_data ← ucvni_get;
  for_each ucvni_data (fun u => add_model Nautobot "NetworkModel"
    (network_fields (attribute "id" u) (attribute "name" u) (attribute "status" u) (attribute "vlan_group" u) (attribute "vlan_id" u))).
(* diff_nautobot_understack/network/main.py:11-25 openstack_network_diff_from_ucvni_network *)
Definition openstack_network_diff_from_ucvni_network : diff json :=
  _ ← call ConnectCloud;
  _ ← try_except load_networks (fun _ => mret tt);
  _ ← try_except load_ucvnis (fun _ => mret tt);
  call (DiffFrom Nautobot Openstack).
End tool.

(** ** Properties *)

(** *** Pages *)

(** The items of a page and where the next one is. *)
Definition page (resp : response) : res (list json * json) :=
  data ← _process_response resp;
  results ← jget_or "results" (JArr []) data;
  items ← jiter results;
  next ← jget "next" data;
  Ok (items, next).
(** The requests that read all pages from an address on, and the items on them. *)
Inductive paged : json -> list (event diffE) -> list json -> Prop :=
| paged_end : paged JNull [] []
| paged_page url resp items next tr rest :
    page resp = inr (items, next) -> paged next tr rest ->
    paged (JStr url) (Ev (HttpGet url) (inr resp) :: tr) (items ++ rest).

Lemma wp_page {S A} step (resp : response) (k : list json -> json -> diff A) Q (s : S) :
  match page resp with inl e => Q (inl e) tt s | inr (items, next) => wp step (k items next) Q tt s end ->
  wp step (resp_data ← lift (_process_response resp); results ← lift (jget_or "results" (JArr []) resp_data);
    items ← lift (jiter results); next ← lift (jget "next" resp_data); k items next) Q tt s.
Proof.
  unfold page. intros H. wp_pure. wp_pure. destruct (_process_response resp) as [e|data]; [done|]. cbn [mbind res_mbind] in H |- *.
  wp_pure. wp_pure. destruct (jget_or "results" (JArr []) data) as [e|results]; [done|]. cbn [mbind res_mbind] in H.
  wp_pure. wp_pure. destruct (jiter results) as [e|items]; [done|]. cbn [mbind res_mbind] in H.
  wp_pure. wp_pure. by destruct (jget "next" data) as [e|next].
Qed.

(** What is returned is what all pages hold, in order. *)
Lemma fetch_run fuel : forall url acc, every_run (_fetch_paginated_data fuel url acc) tt (fun r _ tr =>
  forall l, r = inr l -> exists items, l = acc ++ items /\ paged url tr items).
Proof.
  unfold every_run. induction fuel as [|fuel IH]; intros url acc; destruct url as [| | |u| |]; cbn [_fetch_paginated_data];
    try (wp_pure; intros l [= <-]; exists []; by rewrite app_nil_r; split; [|constructor]); try done.
  wp_pure. cbn [get_url]. apply wp_call. intros [e|resp] tr ->; wp_simp; [done|].
  apply (wp_page _ resp (fun items next => _fetch_paginated_data fuel next (acc ++ items))).
  destruct (page resp) as [e|[items next]] eqn:Hp; [done|].
  eapply wp_mono; [|apply wp_trace_frame, IH]. intros r [] tr (new & -> & Hr) l Hl. destruct (Hr l Hl) as (rest & -> & Hpaged).
  exists (items ++ rest). rewrite app_assoc. split; [done|]. by apply (paged_page u resp items next).
Qed.

(** A Nautobot that answers every address always alike. *)
Definition site_step (pages : string -> response) (R : Type) (op : diffE R) (requests : nat) : res R -> nat -> Prop :=
  match op in diffE R return res R -> nat -> Prop with
  | HttpGet url => fun r s' => r = inr (pages url) /\ s' = S requests
  | _ => fun _ s' => s' = requests
  end.
(** Following the pages from an address ends after [n] of them with these items. *)
Inductive ends (pages : string -> response) : json -> list json -> nat -> Prop :=
| ends_here : ends pages JNull [] 0
| ends_after url items next rest n :
    page (pages url) = inr (items, next) -> ends pages next rest n -> ends pages (JStr url) (items ++ rest) (S n).

(** Reading all pages ends: as many rounds as there are pages are enough, each page is
    asked for once, and the items of all pages are returned in order. *)
Theorem pagination_complete pages url items n fuel acc requests :
  ends pages url items n -> (n <= fuel)%nat ->
  wp (site_step pages) (_fetch_paginated_data fuel url acc) (fun r _ s' => r = inr (acc ++ items) /\ s' = (requests + n)%nat) tt requests.
Proof.
  intros Hends. revert fuel acc requests. induction Hends as [|url items next rest n Hp Hends IH]; intros fuel acc requests Hle.
  - destruct fuel; cbn [_fetch_paginated_data]; wp_pure; rewrite app_nil_r; (split; [done|lia]).
  - destruct fuel as [|fuel]; [lia|]. cbn [_fetch_paginated_data get_url]. wp_pure. apply wp_call. intros r s' [-> ->]. wp_simp.
    apply (wp_page _ (pages url) (fun items next => _fetch_paginated_data fuel next (acc ++ items))). rewrite Hp.
    eapply wp_mono; [|apply (IH fuel); lia]. intros r [] s' [-> ->]. rewrite app_assoc. split; [done|lia].
Qed.

(** *** Projects *)

Section projects.
Context (fuel : nat) (nautobot_url : string).
Variable construct : string -> dict json -> res (dict json).

(** Objects added to a side, one after the other. *)
Definition adds (s : side) (objs : list (dict json)) : list (event diffE) := map (fun o => Ev (Add s o) (inr tt)) objs.

Lemma add_all_run {A} s model (fields : A -> res (dict json)) l :
  every_run (for_each l (fun x => f ← lift (fields x); add_model construct s model f)) tt (fun r _ tr =>
    r = inr tt -> exists objs, res_map (fun x => f ← fields x; construct model f) l = inr objs /\ tr = adds s objs).
Proof.
  unfold every_run. apply (wp_for_each_seen _ _ _ (fun seen _ tr => exists objs,
    res_map (fun x => f ← fields x; construct model f) seen = inr objs /\ tr = adds s objs)); [by exists []| |eauto].
  intros seen x later [] tr _ (objs & Hobjs & ->). wp_pure. wp_pure. destruct (fields x) as [e|f] eqn:Hf; [done|].
  unfold add_model. wp_pure. wp_pure. destruct (construct model f) as [e|obj] eqn:Ho; [done|]. apply wp_call.
  intros [e|[]] tr ->; [done|]. exists (objs ++ [obj]). split; [|unfold adds; by rewrite map_app].
  apply res_map_ok_iff. apply Forall2_app; [by apply res_map_ok_iff|]. constructor; [|constructor]. rewrite Hf. exact Ho.
Qed.

(** The comparison of all projects: what it returns is the difference of two sides
    that were loaded completely and in order, one with every project that OpenStack
    listed, the other with every tenant on all pages of Nautobot, under the
    hexadecimal form of its UUID, which is the form of OpenStack's ids. *)
Theorem projects_compared :
  every_run (openstack_all_projects_diff_from_nautobot_tenant fuel nautobot_url construct) tt (fun r _ tr => forall d, r = inr d ->
    exists projects os url pages tenants nb,
      tr = [Ev ConnectCloud (inr tt); Ev ListProjects (inr (projects, None))] ++ adds Openstack os ++
           pages ++ adds Nautobot nb ++ [Ev (DiffFrom Nautobot Openstack) (inr d)] /\
      res_map (fun p => construct "ProjectModel" (os_project_fields p)) projects = inr os /\
      urljoin nautobot_url (JStr "/api/tenancy/tenants/?include=relationships") = inr url /\ paged (JStr url) pages tenants /\
      res_map (fun t => f ← tenant_fields t; construct "ProjectModel" f) tenants = inr nb).
Proof.
  unfold every_run, openstack_all_projects_diff_from_nautobot_tenant. wp_pure. apply wp_call. intros [e|[]] tr ->; [done|]. wp_simp.
  wp_pure. unfold load_projects, each_yielded. wp_pure. apply wp_call. intros [e|[projects err]] tr ->; [done|]. wp_simp. wp_pure.
  eapply wp_mono; [|apply wp_trace_frame, (add_all_run Openstack "ProjectModel" (fun p => inr (os_project_fields p)) projects)].
  intros [e|[]] [] tr (new & -> & Hnew); [done|]. destruct (Hnew eq_refl) as (os & Hos & ->). cbn [fst snd].
  destruct err as [e|]; [done|]. wp_pure. wp_pure. unfold load_tenants, make_paginated_request. wp_pure. wp_pure.
  wp_pure. destruct (urljoin _ _) as [e|url] eqn:Hurl; [done|]. eapply wp_mono; [|apply wp_trace_frame, fetch_run].
  intros [e|l] [] tr (pages & -> & Hpages); [done|]. destruct (Hpages l eq_refl) as (tenants & -> & Hpaged). cbn [app].
  unfold add_tenants. eapply wp_mono; [|apply wp_trace_frame, (add_all_run Nautobot "ProjectModel" tenant_fields tenants)].
  intros [e|[]] [] tr (new & -> & Hn); [done|]. destruct (Hn eq_refl) as (nb & Hnb & ->). wp_simp. apply wp_call. intros r tr -> d ->.
  exists projects, os, url, pages, tenants, nb. split_and!; [|done|done|done|done]. rewrite <- !app_assoc. cbn [app]. by rewrite <- !app_assoc.
Qed.
End projects.

(** *** Examples *)

Lemma str_app_ne (p s : string) : p <> "" -> p +:+ s <> s.
Proof. intros Hp Heq. apply (f_equal String.length) in Heq. rewrite str_length_app in Heq. destruct p; [done|]. cbn in Heq. lia. Qed.
(** The tenant that the workflows keep for a project ([Tenancy]) is named after the
    project's domain too, so its name always differs from the project's: a project in
    step is reported as different. *)
Theorem synchronised_project_differs domain_name (p : Tenancy.os_project) t fields :
  jget "name" t = inr (JStr (Tenancy.tenant_name_of domain_name p)) -> tenant_fields t = inr fields ->
  dict_get "name" fields <> Some (JStr p.(Tenancy.pr_name)).
Proof.
  unfold tenant_fields. intros Hname Hf. destruct (jget "id" t) as [e|id]; [done|]. cbn [mbind res_mbind] in Hf.
  destruct (_remove_hyphens id) as [e|hex]; [done|]. cbn [mbind res_mbind] in Hf. rewrite Hname in Hf. cbn [mbind res_mbind] in Hf.
  destruct (jget "description" t) as [e|d]; [done|]. injection Hf as <-. cbn. unfold Tenancy.tenant_name_of. rewrite str_app_assoc.
  intros [= Heq]. revert Heq. apply str_app_ne. by destruct (match Tenancy.pr_domain_id p with Some _ => _ | None => _ end).
Qed.
(** A UCVNI without VLANs asks for all VLANs there are. *)
Example no_vlans_lists_all : urljoin "https://nautobot.example/" (JStr (vlans_query [])) = inr "https://nautobot.example/api/ipam/vlans/".
Proof. reflexivity. Qed.
(** The name of a project is not quoted: the query for [R&D] is one for [R]. *)
Example ampersand_ends_name :
  split "&"%char ("/api/tenancy/tenants/?name=" +:+ "R&D" +:+ "&include=relationships") =
    ["/api/tenancy/tenants/?name=R"; "D"; "include=relationships"].
Proof. reflexivity. Qed.
