(* ===== verification/ArgoDepends.v ===== *)
(** * Dependencies of workflow tasks

    Models [parse_depends] of [src/scripts/argo-workflows-to-mkdocs.py]: a
    recursive-descent parser of the boolean expressions in which a task of an Argo
    workflow names the tasks it waits for, and its relation to the grammar. *)
From S2P Require Import Prelude PyStr PyData.

(** ** Texts *)

(** [s.replace(p, new)] for a non-empty [p]; [skip] characters were matched before. *)
Fixpoint replace_go (p new : string) (skip : nat) (s : string) : string :=
  match s with
  | "" => ""
  | String c r =>
      match skip with
      | S k => replace_go p new k r
      | O => if startswith p s then new +:+ replace_go p new (String.length p - 1) r else String c (replace_go p new 0 r)
      end
  end.
Definition replace_sub (p new s : string) : string := replace_go p new 0 s.
(** [s.split()]; [word] is what was read of the current part. *)
Fixpoint split_ws_go (word s : string) : list string :=
  match s with
  | "" => if truthy word then [word] else []
  | String c r => if is_space c then (if truthy word then [word] else []) ++ split_ws_go "" r
                  else split_ws_go (word +:+ String c "") r
  end.
Definition split_ws (s : string) : list string := split_ws_go "" s.
(** [list(dict.fromkeys(l))] *)
Fixpoint unique_go (seen l : list string) : list string :=
  match l with
  | [] => []
  | x :: r => if decide (x ∈ seen) then unique_go seen r else x :: unique_go (x :: seen) r
  end.
Definition unique (l : list string) : list string := unique_go [] l.

(** ** The parser *)

Definition OPERATORS : list string := ["||"; "&&"; "!"; "("; ")"].
(* argo-workflows-to-mkdocs.py:666-670 __init__ *)
Definition Tokenizer (input_string : string) : list string :=
  split_ws (foldl (fun s op => replace_sub op (" " +:+ op +:+ " ") s) input_string OPERATORS).

(** The tokens that are left, and the names that were found. *)
(* argo-workflows-to-mkdocs.py:687-689 __init__ *)
Record parser := Parser { tokens : list string; term_prefixes : list string }.
Definition OutOfFuel : exn := Exn "OutOfFuel" [].
(* argo-workflows-to-mkdocs.py:680-684 peek *)
Definition peek (p : parser) : option string := head p.(tokens).
(* argo-workflows-to-mkdocs.py:672-678 consume *)
Definition consume (p : parser) : option string * parser :=
  match p.(tokens) with [] => (None, p) | t :: r => (Some t, Parser r p.(term_prefixes)) end.
Definition next (p : parser) : parser := (consume p).2.
(** [token.split(".")[0]] *)
Definition prefix_of_term (token : string) : string := default "" (head (split "."%char token)).
(* argo-workflows-to-mkdocs.py:703-708 parse_term *)
Definition parse_term (p : parser) : res parser :=
  let '(token, p) := consume p in
  match token with
  | None => Err (ValueError ["Unexpected token"; "None"])
  | Some token => if decide (token ∈ ["&&"; "||"; "!"; ")"]) then Err (ValueError ["Unexpected token"; token])
                  else Ok (Parser p.(tokens) (p.(term_prefixes) ++ [prefix_of_term token]))
  end.
(** The five functions call each other; the loops of [parse_and] and [parse_or] are
    functions of their own. *)
(* argo-workflows-to-mkdocs.py:694-737 Parser *)
Fixpoint parse_expression (fuel : nat) (p : parser) {struct fuel} : res parser :=
  match fuel with
  | O => Err OutOfFuel
  | S fuel =>
      if bool_decide (peek p = Some "(") then
        p ← parse_or fuel (next p);
        let '(token, p) := consume p in
        if bool_decide (token = Some ")") then Ok p else Err (ValueError ["Missing closing parenthesis"])
      else if bool_decide (peek p = Some "!") then parse_expression fuel (next p)
      else parse_term p
  end
with parse_and (fuel : nat) (p : parser) {struct fuel} : res parser :=
  match fuel with
  | O => Err OutOfFuel
  | S fuel => p ← parse_expression fuel p; and_loop fuel p
  end
with and_loop (fuel : nat) (p : parser) {struct fuel} : res parser :=
  match fuel with
  | O => Err OutOfFuel
  | S fuel => if bool_decide (peek p = Some "&&") then p ← parse_expression fuel (next p); and_loop fuel p else Ok p
  end
with parse_or (fuel : nat) (p : parser) {struct fuel} : res parser :=
  match fuel with
  | O => Err OutOfFuel
  | S fuel => p ← parse_and fuel p; or_loop fuel p
  end
with or_loop (fuel : nat) (p : parser) {struct fuel} : res parser :=
  match fuel with
  | O => Err OutOfFuel
  | S fuel => if bool_decide (peek p = Some "||") then p ← parse_and fuel (next p); or_loop fuel p else Ok p
  end.
Definition enough (p : parser) : nat := 3 * length p.(tokens) + 3.
(** A list of dependencies is taken as it is; its elements must be texts. *)
Definition SchemaError : exn := Exn "SchemaError" [].
Definition jtext (v : json) : res string := match v with JStr s => Ok s | _ => Err SchemaError end.
(* argo-workflows-to-mkdocs.py:657-742 parse_depends *)
Definition parse_depends (depends : json) : res (list string) :=
  if negb (truthy depends) then Ok [] else
  match depends with
  | JArr l => res_map jtext l
  | JStr s =>
      let p := Parser (Tokenizer s) [] in
      p ← parse_or (enough p) p;
      Ok (unique p.(term_prefixes))
  | _ => Err (ValueError ["Invalid depends (not a string)"])
  end.

(** ** The grammar *)

(** An expression is a name, a negation or an expression in parentheses; [&&] binds
    stronger than [||].  [derives x ts names]: the tokens [ts] are an [x], in which the
    tasks [names] occur. *)
Inductive nonterminal := Expr | And | AndTail | Or | OrTail.
Inductive derives : nonterminal -> list string -> list string -> Prop :=
| d_term t : t ∉ OPERATORS -> derives Expr [t] [prefix_of_term t]
| d_paren ts n : derives Or ts n -> derives Expr ("(" :: ts ++ [")"]) n
| d_not ts n : derives Expr ts n -> derives Expr ("!" :: ts) n
| d_and a n b m : derives Expr a n -> derives AndTail b m -> derives And (a ++ b) (n ++ m)
| d_and_end : derives AndTail [] []
| d_and_more a n b m : derives Expr a n -> derives AndTail b m -> derives AndTail ("&&" :: a ++ b) (n ++ m)
| d_or a n b m : derives And a n -> derives OrTail b m -> derives Or (a ++ b) (n ++ m)
| d_or_end : derives OrTail [] []
| d_or_more a n b m : derives And a n -> derives OrTail b m -> derives OrTail ("||" :: a ++ b) (n ++ m).

Definition parse (x : nonterminal) : nat -> parser -> res parser :=
  match x with Expr => parse_expression | And => parse_and | AndTail => and_loop | Or => parse_or | OrTail => or_loop end.
(** Fuel that is enough for a number of tokens. *)
Definition need (x : nonterminal) (n : nat) : nat :=
  match x with Expr => 3 * n + 1 | And => 3 * n + 2 | AndTail => 3 * n + 1 | Or => 3 * n + 3 | OrTail => 3 * n + 1 end.
(** What may come after an [x] that was read as far as possible. *)
Definition follow (x : nonterminal) (rest : list string) : Prop :=
  match x with
  | Expr => True
  | And | AndTail => head rest <> Some "&&"
  | Or | OrTail => head rest <> Some "&&" /\ head rest <> Some "||"
  end.

Lemma or_tail_head b m rest : derives OrTail b m -> follow OrTail rest -> follow And (b ++ rest).
Proof. intros Hb [Ha Ho]. inversion Hb; subst; [exact Ha|done]. Qed.
Lemma expr_ne ts n : derives Expr ts n -> ts <> [].
Proof. by inversion 1. Qed.
Lemma and_ne ts n : derives And ts n -> ts <> [].
Proof. inversion 1 as [| | |a n' b m Ha| | | | |]; subst. apply expr_ne in Ha. by destruct a. Qed.

(** Whatever the grammar derives is read, up to what follows. *)
Lemma parse_complete x ts names : derives x ts names -> forall rest acc fuel,
  follow x rest -> (need x (length ts) <= fuel)%nat ->
  parse x fuel (Parser (ts ++ rest) acc) = Ok (Parser rest (acc ++ names)).
Proof.
  induction 1 as [t Ht|ts n _ IH|ts n _ IH|a n b m Ha IHa _ IHb| |a n b m Ha IHa _ IHb|a n b m _ IHa Hb IHb| |a n b m _ IHa Hb IHb];
    intros rest acc [|fuel] Hrest Hfuel; cbn [need] in Hfuel; cbn [length] in Hfuel; rewrite ?length_app in Hfuel; cbn [length] in Hfuel; try lia;
    cbn [parse parse_expression parse_and and_loop parse_or or_loop peek head tokens app].
  - rewrite !bool_decide_eq_false_2 by (intros [= ->]; apply Ht; unfold OPERATORS; set_solver).
    unfold parse_term, consume. cbn. rewrite decide_False; [done|]. intros Hin. apply Ht. unfold OPERATORS. set_solver.
  - rewrite bool_decide_eq_true_2 by done. rewrite <- app_assoc. unfold next, consume. cbn [snd tokens term_prefixes app].
    change (parse_or fuel) with (parse Or fuel). rewrite IH by (cbn [need follow head]; first [by split|lia]). cbn.
    by rewrite bool_decide_eq_true_2.
  - rewrite bool_decide_eq_false_2, bool_decide_eq_true_2 by done. by apply (IH rest acc fuel I); cbn [need]; lia.
  - change (parse_expression fuel) with (parse Expr fuel). change (and_loop fuel) with (parse AndTail fuel).
    rewrite <- app_assoc, IHa by (cbn [need]; first [exact I|lia]). cbn [mbind res_mbind]. rewrite IHb by (cbn [need]; first [done|lia]).
    by rewrite app_assoc.
  - rewrite bool_decide_eq_false_2 by exact Hrest. by rewrite app_nil_r.
  - rewrite bool_decide_eq_true_2 by done. unfold next, consume. cbn [snd tokens term_prefixes].
    change (parse_expression fuel) with (parse Expr fuel). change (and_loop fuel) with (parse AndTail fuel).
    rewrite <- app_assoc, IHa by (cbn [need]; first [exact I|lia]). cbn [mbind res_mbind]. rewrite IHb by (cbn [need]; first [done|lia]).
    by rewrite app_assoc.
  - change (parse_and fuel) with (parse And fuel). change (or_loop fuel) with (parse OrTail fuel).
    rewrite <- app_assoc, IHa by (cbn [need]; first [by eapply or_tail_head|lia]). cbn [mbind res_mbind].
    rewrite IHb by (cbn [need]; first [done|lia]). by rewrite app_assoc.
  - rewrite bool_decide_eq_false_2 by apply Hrest. by rewrite app_nil_r.
  - rewrite bool_decide_eq_true_2 by done. unfold next, consume. cbn [snd tokens term_prefixes].
    change (parse_and fuel) with (parse And fuel). change (or_loop fuel) with (parse OrTail fuel).
    rewrite <- app_assoc, IHa by (cbn [need]; first [by eapply or_tail_head|lia]). cbn [mbind res_mbind].
    rewrite IHb by (cbn [need]; first [done|lia]). by rewrite app_assoc.
Qed.

(** What is read is derived by the grammar and as long as possible; the parser runs
    out of fuel only when it had less than it needs, and otherwise raises a value
    error. *)
Definition outcome (x : nonterminal) (fuel : nat) (p : parser) (r : res parser) : Prop :=
  match r with
  | inr p' => exists ts names, p.(tokens) = ts ++ p'.(tokens) /\ derives x ts names /\
                p'.(term_prefixes) = p.(term_prefixes) ++ names /\ follow x p'.(tokens)
  | inl e => (e = OutOfFuel /\ (fuel < need x (length p.(tokens)))%nat) \/ e.(exn_cls) = "ValueError"
  end.
(** A failure of a part with no more tokens and enough fuel is a failure of the whole. *)
Lemma outcome_fails x y fuel fuel' p p' e :
  outcome y fuel' p' (inl e) -> (fuel' < need y (length p'.(tokens)) -> fuel < need x (length p.(tokens)))%nat -> outcome x fuel p (inl e).
Proof. intros [[-> Hlt]|Hv] Hneed; [left; auto|by right]. Qed.

Lemma outcome_term fuel ts acc : head ts <> Some "(" -> head ts <> Some "!" -> outcome Expr fuel (Parser ts acc) (parse_term (Parser ts acc)).
Proof.
  intros Hopen Hnot. unfold parse_term, consume. cbn [tokens term_prefixes]. destruct ts as [|t ts]; [by right|].
  case_decide as Hin; [by right|]. exists [t], [prefix_of_term t]. split_and!; [done| |done|exact I]. constructor.
  unfold OPERATORS. intros Ht. repeat (apply elem_of_cons in Ht as [->|Ht]; [first [done|destruct Hin; set_solver]|]). by apply elem_of_nil in Ht.
Qed.

Lemma need_mono x n m : (n <= m)%nat -> (need x n <= need x m)%nat.
Proof. destruct x; cbn; lia. Qed.
(** A part followed by the rest of a sequence: [parse_and] and [parse_or] and their loops. *)
Lemma outcome_then x y z fuel p k :
  (forall a n b m, derives y a n -> derives z b m -> derives x (a ++ b) (n ++ m)) ->
  (forall a n, derives y a n -> a <> []) ->
  (forall rest, follow z rest -> follow x rest) ->
  (forall n, need x n = S (need y n)) -> (forall n, need z n <= need y (S n))%nat ->
  outcome y fuel p (parse y fuel p) ->
  (forall p', follow y p'.(tokens) -> outcome z fuel p' (k p')) ->
  outcome x (S fuel) p (p' ← parse y fuel p; k p').
Proof.
  intros Hd Hne Hfol Hx Hz Hy Hk. destruct (parse y fuel p) as [e|p1] eqn:Hp.
  - eapply outcome_fails; [exact Hy|]. rewrite Hx. lia.
  - destruct Hy as (a & n & Htok & Ha & Hacc & Hpre). cbn [mbind res_mbind]. specialize (Hk p1 Hpre). destruct (k p1) as [e|p2].
    + eapply outcome_fails; [exact Hk|]. intros Hlt. rewrite Hx, Htok, length_app. pose proof (Hz (length (tokens p1))).
      assert (need y (S (length (tokens p1))) <= need y (length a + length (tokens p1)))%nat; [|lia].
      apply need_mono. apply Hne in Ha. destruct a; [done|cbn; lia].
    + destruct Hk as (b & m & Htok2 & Hb & Hacc2 & Hf). exists (a ++ b), (n ++ m).
      split_and!; [by rewrite Htok, Htok2, app_assoc|by apply Hd|by rewrite Hacc2, Hacc, app_assoc|by apply Hfol].
Qed.
(** A sequence after its operator is the rest of a sequence. *)
Lemma outcome_tail x z op fuel fuel' ts acc r :
  (forall ts n, derives x ts n -> derives z (op :: ts) n) -> (forall rest, follow x rest -> follow z rest) ->
  (forall n, fuel < need x n -> fuel' < need z (S n))%nat ->
  outcome x fuel (Parser ts acc) r -> outcome z fuel' (Parser (op :: ts) acc) r.
Proof.
  intros Hd Hf Hn. destruct r as [e|p'].
  - intros Hr. eapply outcome_fails; [exact Hr|]. apply Hn.
  - intros (a & n & Htok & Ha & Hacc & Hfol). exists (op :: a), n. cbn [tokens] in *. split_and!; [by rewrite Htok|auto|done|auto].
Qed.
Lemma outcome_stop z fuel p : derives z [] [] -> follow z p.(tokens) -> outcome z fuel p (Ok p).
Proof. intros Hd Hf. exists [], []. split_and!; [done|done|by rewrite app_nil_r|done]. Qed.
Lemma peek_op op ts acc : peek (Parser ts acc) = Some op -> exists r, ts = op :: r.
Proof. destruct ts; [done|]. intros [= ->]. eauto. Qed.

(** The loop of [parse_or] starts after a complete [And]. *)
Definition starts (x : nonterminal) (ts : list string) : Prop := match x with OrTail => follow And ts | _ => True end.
Lemma parse_sound fuel : forall x p, starts x p.(tokens) -> outcome x fuel p (parse x fuel p).
Proof.
  induction fuel as [|fuel IH]; intros x [ts acc] Hst; [destruct x; left; (split; [done|cbn; lia])|].
  assert (forall p, outcome And (S fuel) p (p' ← parse_expression fuel p; and_loop fuel p')) as Hand.
  { intros p. eapply (outcome_then And Expr AndTail); [apply d_and|apply expr_ne|done|cbn; lia|cbn; lia|by apply (IH Expr)|intros; by apply (IH AndTail)]. }
  assert (forall p, outcome Or (S fuel) p (p' ← parse_and fuel p; or_loop fuel p')) as Hor.
  { intros p. eapply (outcome_then Or And OrTail); [apply d_or|apply and_ne|done|cbn; lia|cbn; lia|by apply (IH And)|intros; by apply (IH OrTail)]. }
  destruct x; cbn [parse parse_expression parse_and and_loop parse_or or_loop]; [|apply Hand| |apply Hor|].
  - destruct (bool_decide_reflect (peek (Parser ts acc) = Some "(")) as [Hp|Hopen].
    { apply peek_op in Hp as [r ->]. unfold next, consume. cbn [snd tokens term_prefixes].
      pose proof (IH Or (Parser r acc) I) as Hr. cbn [parse] in Hr. destruct (parse_or fuel (Parser r acc)) as [e|p1].
      { eapply outcome_fails; [exact Hr|]. cbn. lia. }
      destruct Hr as (a & n & Htok & Ha & Hacc & _). cbn [mbind res_mbind tokens term_prefixes] in *.
      destruct p1 as [[|t rest] acc1]; cbn [tokens term_prefixes] in *; case_bool_decide as Ht; [done|by right| |by right].
      injection Ht as ->. exists ("(" :: a ++ [")"]), n. cbn. subst r acc1. split_and!; [by rewrite <- app_assoc|by constructor|done|done]. }
    destruct (bool_decide_reflect (peek (Parser ts acc) = Some "!")) as [Hp|Hnot]; [|by apply outcome_term].
    apply peek_op in Hp as [r ->]. unfold next, consume. cbn [snd tokens term_prefixes].
    eapply (outcome_tail Expr Expr "!" fuel); [apply d_not|done|cbn; lia|exact (IH Expr (Parser r acc) I)].
  - destruct (bool_decide_reflect (peek (Parser ts acc) = Some "&&")) as [Hp|Hno]; [|by apply outcome_stop; [constructor|]].
    apply peek_op in Hp as [r ->]. unfold next, consume. cbn [snd tokens term_prefixes].
    eapply (outcome_tail And AndTail "&&" (S fuel)); [|done|cbn; lia|apply Hand]. inversion 1; subst. by constructor.
  - destruct (bool_decide_reflect (peek (Parser ts acc) = Some "||")) as [Hp|Hno]; [|by apply outcome_stop; [constructor|]].
    apply peek_op in Hp as [r ->]. unfold next, consume. cbn [snd tokens term_prefixes].
    eapply (outcome_tail Or OrTail "||" (S fuel)); [|done|cbn; lia|apply Hor]. inversion 1; subst. by constructor.
Qed.

(** C29. The parser and the grammar agree: the names that are returned, without repetition
    and in order, are those of an expression at the start of the tokens that no further
    [&&] or [||] follows; a value error is raised exactly when there is no such
    expression (so [a &&] is refused, although [a] is one), and parsing always ends. *)
Theorem depends_parsed s :
  match parse_depends (JStr s) with
  | inr names => if decide (s = "") then names = []
                 else exists front rest ns, Tokenizer s = front ++ rest /\ derives Or front ns /\
                        head rest ∉ [Some "&&"; Some "||"] /\ names = unique ns
  | inl e => e.(exn_cls) = "ValueError" /\
             forall front rest ns, Tokenizer s = front ++ rest -> head rest ∉ [Some "&&"; Some "||"] -> ~ derives Or front ns
  end.
Proof.
  assert (forall rest, head rest ∉ [Some "&&"; Some "||"] <-> follow Or rest) as Hfollow by (intros rest; cbn; set_solver).
  unfold parse_depends. destruct s as [|c s]; [done|]. change (truthy (JStr (String c s))) with true. cbn [negb].
  set (s0 := String c s). set (p := Parser (Tokenizer s0) []). cbn zeta.
  pose proof (parse_sound (enough p) Or p I) as Hp. cbn [parse] in Hp. destruct (parse_or (enough p) p) as [e|p'] eqn:Hr; cbn [mbind res_mbind].
  - split.
    { destruct Hp as [[_ Hlt]|Hv]; [unfold enough in Hlt; cbn in Hlt; lia|done]. }
    intros front rest ns Htok Hrest%Hfollow Hd. unfold p in Hr. rewrite Htok in Hr. change (parse_or) with (parse Or) in Hr.
    rewrite (parse_complete Or front ns Hd) in Hr; [done|done|]. unfold enough. cbn. rewrite length_app. lia.
  - rewrite decide_False by done. destruct Hp as (front & ns & Htok & Hd & Hacc & Hf). exists front, (tokens p'), ns. cbn [term_prefixes] in Hacc.
    rewrite Hfollow, Hacc. done.
Qed.

(** *** Texts *)

(** A text as written: names, operators and blanks. *)
Inductive piece := Word (w : string) | Op (o : string) | Space (blanks : string).
Definition word_char (c : ascii) : bool := negb (is_space c) && negb (has_char c "|&!()").
Definition ok_piece (p : piece) : Prop :=
  match p with
  | Word w => w <> "" /\ str_all word_char w = true
  | Op o => o ∈ OPERATORS
  | Space b => b <> "" /\ str_all is_space b = true
  end.
Fixpoint separated (ps : list piece) : Prop :=
  match ps with
  | Word _ :: ((Word _ :: _) as r) => False
  | _ :: r => separated r
  | [] => True
  end.
(** The text after the operators in [done] were set off by blanks. *)
Fixpoint flatten (done : list string) (ps : list piece) : string :=
  match ps with
  | [] => ""
  | Word w :: r => w +:+ flatten done r
  | Op o :: r => (if decide (o ∈ done) then " " +:+ o +:+ " " else o) +:+ flatten done r
  | Space b :: r => b +:+ flatten done r
  end.
Definition text : list piece -> string := flatten [].
Fixpoint toks (ps : list piece) : list string :=
  match ps with [] => [] | (Word w | Op w) :: r => w :: toks r | Space _ :: r => toks r end.

(** Nothing is replaced in a text without the first character of the pattern. *)
Lemma replace_skip c p new a s : has_char c a = false -> replace_sub (String c p) new (a +:+ s) = a +:+ replace_sub (String c p) new s.
Proof.
  unfold replace_sub. induction a as [|x a IH]; [done|]. cbn [has_char]. intros [Hx Ha]%orb_false_iff.
  change (replace_go (String c p) new 0 (String x a +:+ s)) with
    (if (Ascii.eqb c x && startswith p (a +:+ s))%bool then new +:+ replace_go (String c p) new (String.length p - 0) (a +:+ s)
     else String x (replace_go (String c p) new 0 (a +:+ s))).
  rewrite Ascii.eqb_sym, Hx. cbn [andb]. by rewrite IH.
Qed.
Lemma replace_go_skip p new a s : replace_go p new (String.length a) (a +:+ s) = replace_go p new 0 s.
Proof. induction a as [|x a IH]; [done|]. exact IH. Qed.
Lemma replace_here c p new s : replace_sub (String c p) new (String c p +:+ s) = new +:+ replace_sub (String c p) new s.
Proof.
  unfold replace_sub.
  change (replace_go (String c p) new 0 (String c p +:+ s)) with
    (if (Ascii.eqb c c && startswith p (p +:+ s))%bool then new +:+ replace_go (String c p) new (String.length p - 0) (p +:+ s)
     else String c (replace_go (String c p) new 0 (p +:+ s))).
  rewrite Ascii.eqb_refl, (proj2 (startswith_spec p (p +:+ s))) by eauto. cbn [andb]. by rewrite Nat.sub_0_r, replace_go_skip.
Qed.

(** The first characters of the operators tell them apart. *)
Definition first_char (o : string) : ascii := match o with String c _ => c | "" => " " end.
Lemma other_op o o' : o ∈ OPERATORS -> o' ∈ OPERATORS -> o <> o' -> has_char (first_char o) o' = false /\ has_char (first_char o) (" " +:+ o' +:+ " ") = false.
Proof.
  intros Ho Ho' Hne. assert (Forall (fun o => Forall (fun o' => o <> o' ->
    has_char (first_char o) o' = false /\ has_char (first_char o) (" " +:+ o' +:+ " ") = false) OPERATORS) OPERATORS) as Hall
    by (by repeat constructor).
  rewrite Forall_forall in Hall. specialize (Hall o Ho). rewrite Forall_forall in Hall. by apply Hall.
Qed.
Lemma op_not_word o w : o ∈ OPERATORS -> str_all word_char w = true -> has_char (first_char o) w = false.
Proof.
  intros Ho. induction w as [|c w IH]; [done|]. cbn [str_all has_char]. intros [Hc Hw]%andb_true_iff. rewrite (IH Hw), orb_false_r.
  apply Ascii.eqb_neq. intros ->. unfold OPERATORS in Ho. unfold word_char in Hc.
  repeat (apply elem_of_cons in Ho as [->|Ho]); [done..|by apply elem_of_nil in Ho].
Qed.
Lemma op_not_space o w : o ∈ OPERATORS -> str_all is_space w = true -> has_char (first_char o) w = false.
Proof.
  intros Ho. induction w as [|c w IH]; [done|]. cbn [str_all has_char]. intros [Hc Hw]%andb_true_iff. rewrite (IH Hw), orb_false_r.
  apply Ascii.eqb_neq. intros ->. unfold OPERATORS in Ho.
  repeat (apply elem_of_cons in Ho as [->|Ho]); [done..|by apply elem_of_nil in Ho].
Qed.

Lemma replace_flatten o done ps : o ∈ OPERATORS -> o ∉ done -> Forall ok_piece ps ->
  replace_sub o (" " +:+ o +:+ " ") (flatten done ps) = flatten (o :: done) ps.
Proof.
  intros Ho Hdone Hok. assert (exists c p, o = String c p /\ first_char o = c) as (c & p & Hop & Hc).
  { unfold OPERATORS in Ho. repeat (apply elem_of_cons in Ho as [->|Ho]); [by eauto..|by apply elem_of_nil in Ho]. }
  induction Hok as [|[w|o'|b] ps Hp Hok IH]; [by rewrite Hop| | |]; cbn [flatten].
  - rewrite Hop at 1. rewrite replace_skip, <- Hop, IH; [done|]. rewrite <- Hc. by apply op_not_word, Hp.
  - destruct (decide (o' = o)) as [->|Hne].
    + rewrite decide_False, decide_True by (done || left). rewrite Hop at 1. rewrite Hop at 2. rewrite replace_here, <- Hop, IH. done.
    + destruct (other_op o o') as [H1 H2]; [done|done|done|]. rewrite Hc in H1, H2.
      rewrite Hop at 1. case_decide as Hd; rewrite replace_skip, <- Hop, IH by done.
      * by rewrite decide_True by (by right).
      * rewrite decide_False; [done|]. intros [->|?]%elem_of_cons; done.
  - rewrite Hop at 1. rewrite replace_skip, <- Hop, IH; [done|]. rewrite <- Hc. by apply op_not_space, Hp.
Qed.

Lemma str_snoc_cons w c s : (w +:+ String c "") +:+ s = w +:+ String c s.
Proof. by rewrite <- str_app_assoc. Qed.
Lemma split_word w s acc : str_all (fun c => negb (is_space c)) w = true -> split_ws_go acc (w +:+ s) = split_ws_go (acc +:+ w) s.
Proof.
  revert acc. induction w as [|c w IH]; intros acc; [by rewrite str_app_nil_r|]. cbn [str_all String.append split_ws_go].
  intros [Hc Hw]%andb_true_iff. apply negb_true_iff in Hc. rewrite Hc, IH by done. by rewrite str_snoc_cons.
Qed.
Lemma split_space b s acc : str_all is_space b = true -> b <> "" ->
  split_ws_go acc (b +:+ s) = (if truthy acc then [acc] else []) ++ split_ws_go "" s.
Proof.
  revert acc. induction b as [|c b IH]; intros acc; [done|]. cbn [str_all String.append split_ws_go]. intros [Hc Hb]%andb_true_iff _.
  rewrite Hc. f_equal. destruct b as [|c' b]; [done|]. by rewrite IH.
Qed.
Lemma word_no_space w : str_all word_char w = true -> str_all (fun c => negb (is_space c)) w = true.
Proof. induction w as [|c w IH]; [done|]. cbn. unfold word_char at 1. intros [[Hc _]%andb_true_iff Hw]%andb_true_iff. by rewrite Hc, IH. Qed.

Lemma split_pieces ps : Forall ok_piece ps -> separated ps -> forall acc,
  (acc <> "" -> match ps with Word _ :: _ => False | _ => True end) ->
  split_ws_go acc (flatten OPERATORS ps) = (if truthy acc then [acc] else []) ++ toks ps.
Proof.
  induction 1 as [|[w|o|b] ps Hp Hok IH]; intros Hsep acc Hacc; cbn [flatten toks].
  - by rewrite app_nil_r.
  - destruct acc as [|c acc]; [|by destruct (Hacc ltac:(done))]. destruct Hp as [Hw Hchars]. rewrite split_word by by apply word_no_space.
    rewrite IH; [by destruct w| |]; destruct ps as [|[] ps]; try done; by destruct Hsep.
  - rewrite decide_True by done. assert (str_all (fun c => negb (is_space c)) o = true /\ truthy o = true) as [Ho Ht].
    { cbn in Hp. clear -Hp. revert o Hp. apply Forall_forall. by repeat constructor. }
    rewrite <- !str_app_assoc, (split_space " ") by done. f_equal. rewrite split_word by done. change ("" +:+ o) with o.
    rewrite (split_space " ") by done. rewrite Ht. cbn [app]. f_equal. by rewrite IH.
  - destruct Hp as [Hb Hblank]. rewrite split_space by done. f_equal. rewrite IH; [done| |done]. exact Hsep.
Qed.

(** The tokens of a text are its names and operators. *)
Lemma tokenizer_pieces ps : Forall ok_piece ps -> separated ps -> Tokenizer (text ps) = toks ps.
Proof.
  intros Hok Hsep. unfold Tokenizer, text, split_ws.
  assert (forall todo off, Forall (fun o => o ∈ OPERATORS) todo -> NoDup todo -> (forall o, o ∈ todo -> o ∉ off) ->
    foldl (fun s op => replace_sub op (" " +:+ op +:+ " ") s) (flatten off ps) todo = flatten (rev todo ++ off) ps) as Hall.
  { induction todo as [|o todo IH]; intros off Hops Hnd Hfresh; [done|]. apply NoDup_cons in Hnd as [Hno Hnd].
    apply Forall_cons in Hops as [Ho Hops]. cbn [foldl rev]. rewrite replace_flatten by (try done; apply Hfresh; left).
    rewrite IH; [by rewrite <- app_assoc|done|done|]. intros o' Ho' [->|Hin]%elem_of_cons; [done|]. by eapply Hfresh; [right|]. }
  assert (NoDup OPERATORS) as Hnd by (apply (bool_decide_eq_true (NoDup OPERATORS)); reflexivity).
  rewrite (Hall OPERATORS []); [|by apply Forall_forall|exact Hnd|intros o _ H; by apply elem_of_nil in H].
  assert (forall ps, flatten (rev OPERATORS ++ []) ps = flatten OPERATORS ps) as ->.
  { clear. induction ps as [|[w|o|b] ps IH]; cbn [flatten]; rewrite ?IH; try done. f_equal.
    assert (o ∈ rev OPERATORS ++ [] <-> o ∈ OPERATORS) as Hrev by (rewrite app_nil_r, !list_elem_of_In; symmetry; apply in_rev).
    destruct (decide (o ∈ OPERATORS)) as [Hin|Hin]; [rewrite decide_True|rewrite decide_False]; tauto. }
  by rewrite split_pieces.
Qed.

(** Expressions, printed with the parentheses they need: [0] for a disjunction, [1] for
    a conjunction, [2] for an operand. *)
Inductive dep := Term (t : string) | Not (e : dep) | Both (a b : dep) | Either (a b : dep).
Definition parens (b : bool) (ts : list string) : list string := if b then "(" :: ts ++ [")"] else ts.
Fixpoint show (level : nat) (e : dep) : list string :=
  match e with
  | Term t => [t]
  | Not e => "!" :: show 2 e
  | Both a b => parens (2 <=? level)%nat (show 2 a ++ "&&" :: show 1 b)
  | Either a b => parens (1 <=? level)%nat (show 1 a ++ "||" :: show 0 b)
  end.
Fixpoint terms (e : dep) : list string :=
  match e with Term t => [t] | Not e => terms e | Both a b | Either a b => terms a ++ terms b end.
Definition names (e : dep) : list string := map prefix_of_term (terms e).

Lemma derives_and_expr ts n : derives Expr ts n -> derives And ts n.
Proof. intros H. rewrite <- (app_nil_r ts), <- (app_nil_r n). apply d_and; [done|constructor]. Qed.
Lemma derives_or_and ts n : derives And ts n -> derives Or ts n.
Proof. intros H. rewrite <- (app_nil_r ts), <- (app_nil_r n). apply d_or; [done|constructor]. Qed.
Lemma derives_show e : Forall (fun t => t ∉ OPERATORS) (terms e) ->
  derives Expr (show 2 e) (names e) /\ derives And (show 1 e) (names e) /\ derives Or (show 0 e) (names e).
Proof.
  assert (forall x y, derives Expr x (names y) -> derives Expr x (names y) /\ derives And x (names y) /\ derives Or x (names y)) as Hup
    by (intros; split_and!; eauto using derives_and_expr, derives_or_and).
  unfold names. induction e as [t|e IH|a IHa b IHb|a IHa b IHb]; cbn [terms show parens map Nat.leb]; rewrite ?map_app, ?Forall_app.
  - intros [Ht _]%Forall_cons. apply (Hup _ (Term t)). by constructor.
  - intros H. apply (Hup _ e). constructor. by apply IH.
  - intros [(Ea & _ & _)%IHa (_ & Ab & _)%IHb].
    assert (derives And (show 2 a ++ "&&" :: show 1 b) (map prefix_of_term (terms a) ++ map prefix_of_term (terms b))) as Hand.
    { apply d_and; [done|]. inversion Ab; subst. by constructor. }
    split_and!; [constructor; by apply derives_or_and|done|by apply derives_or_and].
  - intros [(_ & Aa & _)%IHa (_ & _ & Ob)%IHb].
    assert (derives Or (show 1 a ++ "||" :: show 0 b) (map prefix_of_term (terms a) ++ map prefix_of_term (terms b))) as Hor.
    { apply d_or; [done|]. inversion Ob; subst. by constructor. }
    assert (derives Expr ("(" :: (show 1 a ++ "||" :: show 0 b) ++ [")"]) (map prefix_of_term (terms a) ++ map prefix_of_term (terms b))) by by constructor.
    split_and!; [done|by apply derives_and_expr|done].
Qed.

(** C30. A dependency that is written down is read back: whatever the expression and
    however its text is spaced, the parser returns the tasks that occur in it, each
    once, in order. *)
Theorem depends_roundtrip e ps :
  Forall ok_piece ps -> separated ps -> toks ps = show 0 e -> Forall (fun t => t ∉ OPERATORS) (terms e) ->
  parse_depends (JStr (text ps)) = Ok (unique (names e)).
Proof.
  intros Hok Hsep Htoks Hterms. pose proof (tokenizer_pieces ps Hok Hsep) as Htok. rewrite Htoks in Htok.
  destruct (derives_show e Hterms) as (_ & _ & Hd). unfold parse_depends.
  destruct (text ps) as [|c s] eqn:Htext.
  { exfalso. change (Tokenizer "") with (@nil string) in Htok. rewrite <- Htok in Hd. inversion Hd as [| | | | | |a ? b ? Ha| |].
    apply and_ne in Ha. by destruct a. }
  change (truthy (JStr (String c s))) with true. cbn [negb]. cbn zeta. rewrite Htok.
  change parse_or with (parse Or). rewrite <- (app_nil_r (show 0 e)) at 2.
  rewrite (parse_complete Or (show 0 e) (names e) Hd); [done|done|unfold enough; cbn; lia].
Qed.

Definition sample_dep : dep := Either (Term "a.Succeeded") (Both (Not (Term "b")) (Either (Term "c") (Term "a.Failed"))).
Definition sample_text : list piece :=
  [Word "a.Succeeded"; Op "||"; Op "!"; Word "b"; Space " "; Op "&&"; Space "  "; Op "("; Word "c"; Op "||"; Word "a.Failed"; Op ")"].
Lemma depends_roundtrip_witness :
  text sample_text = "a.Succeeded||!b &&  (c||a.Failed)" /\ parse_depends (JStr (text sample_text)) = Ok ["a"; "b"; "c"].
Proof.
  split; [reflexivity|]. apply (depends_roundtrip sample_dep sample_text); [|exact I|reflexivity|].
  - repeat (apply Forall_cons; split; [first [split; [discriminate|reflexivity]|apply (bool_decide_eq_true (_ ∈ OPERATORS)); reflexivity]|]).
    apply Forall_nil. exact I.
  - repeat (apply Forall_cons; split; [apply (bool_decide_eq_true (_ ∉ OPERATORS)); reflexivity|]). apply Forall_nil. exact I.
Defined.
(** What follows a complete expression is dropped: the missing operator in [a b]
    makes the dependency on [b] disappear. *)
Example trailing_tokens_dropped : parse_depends (JStr "a b") = Ok ["a"].
Proof. reflexivity. Qed.
Example unbalanced_refused : parse_depends (JStr "(a && b") = Err (ValueError ["Missing closing parenthesis"]).
Proof. reflexivity. Qed.
