(* ===== verification/ArgoDocs.v ===== *)
(** * Documentation of Argo workflows

    Models [src/scripts/argo-workflows-to-mkdocs.py]: workflow templates are read into
    nodes with tasks and steps, drawn as a diagram for mermaid, and written as one page
    per template file.  A YAML document is a JSON value; its names, images and
    parameters are texts, and where another value would be printed the model raises
    [SchemaError].  Directories, YAML files and the pages are calls. *)
From S2P Require Import Prelude PyStr PyData ArgoDepends.
Local Open Scope Z_scope.

(** ** Values *)

(** [k in v] *)
Definition jhas (k : string) (v : json) : res bool :=
  match v with
  | JObj d => Ok (bool_decide (is_Some (dict_get k d)))
  | JStr s => Ok (contains k s)
  | JArr l => Ok (existsb (fun x => match x with JStr s => String.eqb s k | _ => false end) l)
  | _ => Err (TypeError ["argument is not iterable"])
  end.
Definition text_item (k : string) (v : json) : res string := x ← jitem k v; jtext x.
(** [v.get(k, {}).get(k', default)] *)
Definition get_in (k k' : string) (d v : json) : res json := x ← jget_or k (JObj []) v; jget_or k' d x.
(** [for x in v or []] *)
Definition iter_or_empty (v : json) : res (list json) := if truthy v then jiter v else Ok [].
(** [s.strip("\n")] *)
Definition newline : ascii := ascii_of_nat 10.
Definition nl : string := String newline "".
Definition strip_newlines (s : string) : string := let f := Ascii.eqb newline in rstrip_by f (lstrip_by f s).

(** ** The data *)

(* argo-workflows-to-mkdocs.py:52-60 Task *)
Record task := Task {
  t_id : string; t_name : string; dependencies : list string; t_when : json; ref_node : option string;
  t_input_params : dict json; t_input_artifacts : list string }.
(** A step has the fields of a task. *)
(* argo-workflows-to-mkdocs.py:63-71 Step *)
Definition step : Type := task.
(* argo-workflows-to-mkdocs.py:36-49 Node *)
Record node := Node {
  n_id : string; n_name : string; image : string; script : string; incoming_count : Z;
  input_params : dict json; output_params : dict json; input_artifacts : list string; output_artifacts : list string;
  is_entrypoint : bool; tasks : list task; steps : list step }.
(* argo-workflows-to-mkdocs.py:27-33 Workflow *)
Record workflow := Workflow { w_name : string; w_title : string; w_description : string; w_nodes : list node }.

(* argo-workflows-to-mkdocs.py:21-24 SHOW_ARTIFACTS *)
Definition SHOW_ARTIFACTS : bool := true.
Definition SHOW_ALL_TEMPLATES : bool := true.
Definition SHOW_SHARED_TEMPLATES : bool := false.
Definition SHOW_WORKFLOW_DESCRIPTIONS : bool := false.

(** ** Artifacts in expressions *)

Definition word_class (c : ascii) : bool := is_alnum c || Ascii.eqb c "_".
Definition name_class (c : ascii) : bool := word_class c || Ascii.eqb c "-".
(** A literal in which a dot matches every character of the line. *)
Fixpoint match_dots (pat s : string) : option string :=
  match pat, s with
  | "", _ => Some s
  | String p pat, String c s => if (if Ascii.eqb p "." then negb (Ascii.eqb c newline) else Ascii.eqb p c) then match_dots pat s else None
  | _, "" => None
  end.
(** The longest of the first [n] lengths that is accepted: backtracking. *)
Fixpoint longest (ok : nat -> bool) (n : nat) : option nat :=
  match n with O => None | S k => if ok n then Some n else longest ok k end.
Definition is_word_at (s : string) (i : nat) : bool := match String.get i s with Some c => word_class c | None => false end.
(** A name after a literal; [\b] if [boundary]. *)
Definition match_name (boundary : bool) (pat s : string) : option (string * nat) :=
  rest ← match_dots pat s;
  let run := (span name_class rest).1 in
  k ← longest (fun k => negb boundary || xorb (is_word_at rest (k - 1)) (is_word_at rest k)) (String.length run);
  Some (String.substring 0 k rest, (String.length pat + k)%nat).
(** [tasks.([\w\-_]+).outputs.artifacts.([\w\-_]+)] *)
Definition match_output (s : string) : option (string * nat) :=
  rest ← match_dots "tasks." s;
  let run := (span name_class rest).1 in
  let second k := match_name false ".outputs.artifacts." (drop_str k rest) in
  k ← longest (fun k => bool_decide (is_Some (second k))) (String.length run);
  '(name, len) ← second k;
  Some (String.substring 0 k rest +:+ "__" +:+ name, (6 + k + len)%nat).
(** [re.findall]: matches from left to right that do not overlap. *)
Fixpoint findall {A} (m : string -> option (A * nat)) (skip : nat) (s : string) : list A :=
  match s with
  | "" => []
  | String c r =>
      match skip with
      | S k => findall m k r
      | O => match m s with Some (a, len) => a :: findall m (len - 1) r | None => findall m 0 r end
      end
  end.
(* argo-workflows-to-mkdocs.py:274-290 parse_artifacts *)
Definition parse_artifacts (s : string) : list string :=
  let s := strip s in
  let s := if startswith "{{" s && endswith "}}" s then strip (String.substring 2 (String.length s - 4) s) else s in
  let ret := unique (findall (match_name true "inputs.artifacts.") 0 s ++ findall (match_name false "input.artifacts.") 0 s ++
                     findall match_output 0 s) in
  if truthy ret then ret else [s].
(** [re.match(r"(.*)\?(.*):(.*)", s)]: the second and the third group. *)
Definition match_choice (s : string) : option (string * string) :=
  let line := match split_once newline s with Some (l, _) => l | None => s end in
  '(before, third) ← rsplit_once ":"%char line;
  '(_, second) ← rsplit_once "?"%char before;
  Some (second, third).

(** ** Reading a workflow *)

Definition UnknownArtifact : exn := ValueError ["Unknown artifact type"].
(* argo-workflows-to-mkdocs.py:292-311 make_workflow *)
Definition read_artifact (n_id : string) (i_yaml : json) : res (list string) :=
  from ← jget "from" i_yaml;
  expr ← jget "fromExpression" i_yaml;
  let qualified s := map (fun a_id => n_id +:+ "__" +:+ a_id) (parse_artifacts s) in
  if truthy from then match from with JStr s => Ok (qualified s) | _ => Err (AttributeError "strip") end
  else if truthy expr then
    match expr with
    | JStr s => match match_choice s with Some (a1, a2) => Ok (qualified a1 ++ qualified a2) | None => Err UnknownArtifact end
    | _ => Err (TypeError ["expected string or bytes-like object"])
    end
  else Err UnknownArtifact.
(** The parameters with a fixed value. *)
(* argo-workflows-to-mkdocs.py:219-222 make_workflow *)
Definition read_param (params : dict json) (p_yaml : json) : res (dict json) :=
  has ← jhas "value" p_yaml;
  if negb has then Ok params else
  value ← jitem "value" p_yaml;
  templated ← jhas "{{" value;
  if (templated : bool) then Ok params else
  name ← text_item "name" p_yaml;
  Ok (dict_set name value params).
Definition read_params (k : string) (v : json) : res (dict json) :=
  l ← get_in k "parameters" (JArr []) v; l ← jiter l; res_fold read_param l [].
Definition read_names (k : string) (v : json) : res (list string) :=
  l ← get_in k "artifacts" (JArr []) v; l ← jiter l; res_map (text_item "name") l.
(* argo-workflows-to-mkdocs.py:259-267 make_workflow *)
Definition read_ref (w_name : string) (t_yaml : json) : res (option string) :=
  templateRef ← jhas "templateRef" t_yaml;
  template ← jhas "template" t_yaml;
  if (templateRef : bool) then
    ref ← jitem "templateRef" t_yaml;
    a ← text_item "name" ref;
    b ← text_item "template" ref;
    Ok (Some (a +:+ "__" +:+ b))
  else if (template : bool) then b ← text_item "template" t_yaml; Ok (Some (w_name +:+ "__" +:+ b))
  else Ok None.
(* argo-workflows-to-mkdocs.py:251-321 make_workflow *)
Definition read_task (w_name n_id : string) (t_yaml : json) : res task :=
  name ← text_item "name" t_yaml;
  ds ← jget_or "dependencies" (JArr []) t_yaml;
  ds ← jiter ds;
  ds ← res_map jtext ds;
  has ← jhas "depends" t_yaml;
  more ← (if (has : bool) then d ← jitem "depends" t_yaml; parse_depends d else Ok []);
  let dependencies := unique (map (fun d => n_id +:+ "__" +:+ d) (ds ++ more)) in
  ref ← read_ref w_name t_yaml;
  params ← read_params "arguments" t_yaml;
  arts ← get_in "arguments" "artifacts" (JArr []) t_yaml;
  arts ← jiter arts;
  arts ← res_map (read_artifact n_id) arts;
  w ← jget "when" t_yaml;
  Ok (Task (n_id +:+ "__" +:+ name) name dependencies w ref params (concat arts)).
(** Of steps that run in parallel only the first is read. *)
(* argo-workflows-to-mkdocs.py:328-404 make_workflow *)
Definition read_step (w_name n_id : string) (t_yaml : json) : res step :=
  match t_yaml with
  | JArr (s :: _) => read_task w_name n_id s
  | JArr [] => Err IndexError
  | s => read_task w_name n_id s
  end.
Definition last_part (c : ascii) (s : string) : string := default "" (last (split c s)).
Definition first_part (c : ascii) (s : string) : string := default "" (head (split c s)).
(* argo-workflows-to-mkdocs.py:208-411 make_workflow *)
Definition read_node (w_yaml : json) (w_name : string) (n_yaml : json) : res node :=
  name ← text_item "name" n_yaml;
  let n_id := w_name +:+ "__" +:+ name in
  img ← get_in "container" "image" (JStr "") n_yaml;
  img ← jtext img;
  let image := remove_sub "ai-workflow-" (first_part ":"%char (last_part "/"%char img)) in
  script ← get_in "script" "image" (JStr "") n_yaml;
  script ← jtext script;
  input_params ← read_params "inputs" n_yaml;
  output_params ← read_params "outputs" n_yaml;
  input_artifacts ← read_names "inputs" n_yaml;
  output_artifacts ← read_names "outputs" n_yaml;
  tasks_yaml ← get_in "dag" "tasks" (JArr []) n_yaml;
  tasks_yaml ← iter_or_empty tasks_yaml;
  tasks ← res_map (read_task w_name n_id) tasks_yaml;
  steps_yaml ← jget_or "steps" (JArr []) n_yaml;
  steps_yaml ← iter_or_empty steps_yaml;
  steps ← res_map (read_step w_name n_id) steps_yaml;
  entrypoint ← get_in "spec" "entrypoint" JNull w_yaml;
  let entry := match entrypoint with JStr e => String.eqb e name | _ => false end in
  Ok (Node n_id name image script 0 input_params output_params input_artifacts output_artifacts entry tasks steps).
Definition annotation (k d : string) (w_yaml : json) : res json :=
  metadata ← jitem "metadata" w_yaml; get_in "annotations" k (JStr d) metadata.
(** The name, title and description in the metadata. *)
(* argo-workflows-to-mkdocs.py:189-201 make_workflow *)
Definition read_metadata (w_yaml : json) : res (string * string * string) :=
  metadata ← jitem "metadata" w_yaml;
  name ← text_item "name" metadata;
  title ← annotation "workflows.argoproj.io/title" "Title not set in workflow" w_yaml;
  title ← jtext title;
  description ← annotation "workflows.argoproj.io/description" "Description not set in workflow" w_yaml;
  description ← match description with JStr s => Ok (strip_newlines s) | _ => Err (AttributeError "strip") end;
  Ok (name, title, description).
(* argo-workflows-to-mkdocs.py:188-412 make_workflow *)
Definition make_workflow (w_yaml : json) : res workflow :=
  '(name, title, description) ← read_metadata w_yaml;
  spec ← jitem "spec" w_yaml;
  templates ← jitem "templates" spec;
  templates ← jiter templates;
  nodes ← res_map (read_node w_yaml name) templates;
  Ok (Workflow name title description nodes).

(** ** The diagram *)

(* argo-workflows-to-mkdocs.py:415-426 show_node *)
Definition show_node (n : node) : bool :=
  if n.(is_entrypoint) then true
  else if truthy n.(tasks) then true
  else if truthy n.(steps) then true
  else if SHOW_ALL_TEMPLATES then true
  else if SHOW_SHARED_TEMPLATES then 1 <? n.(incoming_count)
  else false.
(** [nodes.get(t.ref_node)] *)
Definition referred (nodes : dict node) (t : task) : option node := r ← t.(ref_node); dict_get r nodes.

Definition quote : string := String (ascii_of_nat 34) "".
(** An element of HTML with a style. *)
Definition open_tag (tag style : string) : string := "<" +:+ tag +:+ " style=" +:+ quote +:+ style +:+ quote +:+ ">".
Definition titled (name : string) : string := open_tag "span" "font-size:20px" +:+ name +:+ "</span>".
Definition gold (a_id a : string) : list string :=
  ["    " +:+ a_id +:+ "(<b>" +:+ titled a +:+ "</b>)"; "    style " +:+ a_id +:+ " fill:gold,stroke:#222;"].
(** A parameter of a node; both braces become the same entity. *)
(* argo-workflows-to-mkdocs.py:453-460 generate_mermaid *)
Definition node_param (p : string * json) : res string :=
  match p.2 with
  | JStr v => Ok (p.1 +:+ "=" +:+ replace_sub "}" "&#123;" (replace_sub "{" "&#123;" v) +:+ "<br>")
  | _ => Err (AttributeError "replace")
  end.
Definition task_param (p : string * json) : res string := v ← jtext p.2; Ok (p.1 +:+ "=" +:+ v +:+ "<br>").
Definition params_block (style : string) (param : string * json -> res string) (params : dict json) : res string :=
  if truthy params then ps ← res_map param params; Ok (open_tag "pre" style +:+ String.concat "" ps +:+ "</pre>") else Ok "".
(* argo-workflows-to-mkdocs.py:444-470 generate_mermaid *)
Definition node_bases (n : node) : res (list string) :=
  params ← params_block "color:blue;margin-top:8px" node_param n.(input_params);
  let label := titled n.(n_name) +:+
    (if truthy n.(image) then nl +:+ open_tag "span" "color:green" +:+ "image: " +:+ n.(image) +:+ "</span>" else "") +:+
    (if truthy n.(script) then nl +:+ open_tag "span" "color:green" +:+ "script: " +:+ n.(script) +:+ "</span>" else "") +:+ params in
  Ok (["    " +:+ n.(n_id) +:+ "{{" +:+ label +:+ "}}"; "    style " +:+ n.(n_id) +:+ " fill:lightgray,stroke:#aaa;"] ++
      (if SHOW_ARTIFACTS then flat_map (fun a => gold (n.(n_id) +:+ "__" +:+ a) a) n.(input_artifacts) else [])).
(* argo-workflows-to-mkdocs.py:471-504 generate_mermaid *)
Definition task_bases (nodes : dict node) (t : task) : res (list string) :=
  cond ← (if truthy t.(t_when) then
            match t.(t_when) with
            | JStr w => Ok (open_tag "pre" "color:red" +:+ "when: " +:+ replace_sub "}}" "" (replace_sub "{{" "" w) +:+ "</pre>")
            | _ => Err (AttributeError "replace")
            end
          else Ok "");
  let hidden := match referred nodes t with
    | Some n => if negb (show_node n) then
        (if truthy n.(image) then open_tag "pre" "color:green" +:+ "image: " +:+ n.(image) +:+ "</pre>" else "") +:+
        (if truthy n.(script) then open_tag "pre" "color:green" +:+ "script: " +:+ n.(script) +:+ "</pre>" else "")
      else ""
    | None => ""
    end in
  params ← params_block "color:dimgray;margin-top:8px" task_param t.(t_input_params);
  Ok (["    " +:+ t.(t_id) +:+ "[" +:+ titled t.(t_name) +:+ cond +:+ hidden +:+ params +:+ "]"; "    style " +:+ t.(t_id) +:+ " fill:white;"] ++
      match referred nodes t with
      | Some n => if SHOW_ARTIFACTS then flat_map (fun a => gold (t.(t_id) +:+ "__" +:+ a) a) n.(output_artifacts) else []
      | None => []
      end).
(* argo-workflows-to-mkdocs.py:507-540 generate_mermaid *)
Definition step_bases : dict node -> step -> res (list string) := task_bases.
(* argo-workflows-to-mkdocs.py:432-542 generate_mermaid *)
Definition workflow_bases (nodes : dict node) (w : workflow) : res (list string) :=
  body ← res_map (fun n =>
    own ← (if show_node n then node_bases n else Ok []);
    ts ← res_map (task_bases nodes) n.(tasks);
    ss ← res_map (step_bases nodes) n.(steps);
    Ok (own ++ concat ts ++ concat ss)) w.(w_nodes);
  Ok (["subgraph " +:+ w.(w_name); "    direction TB"; "    style " +:+ w.(w_name) +:+ " fill:#fafaff;"] ++
      (if SHOW_WORKFLOW_DESCRIPTIONS then
         ["    subgraph Description"; "      direction TB"; "      description[" +:+ w.(w_description) +:+ "]"; "    end"] else []) ++
      concat body ++ ["end"]).

(** The links and the numbers of those of each style. *)
(* argo-workflows-to-mkdocs.py:545-548 generate_mermaid *)
Record drawing := Drawing { links : list string; flow_lines : list string; interpackage_lines : list string; artifact_lines : list string }.
(** [lines.append(str(len(links))); links.append(link)] *)
Definition number (d : drawing) : string := pretty (length d.(links)).
Definition add_flow (link : string) (d : drawing) : drawing :=
  Drawing (d.(links) ++ [link]) (d.(flow_lines) ++ [number d]) d.(interpackage_lines) d.(artifact_lines).
Definition add_interpackage (link : string) (d : drawing) : drawing :=
  Drawing (d.(links) ++ [link]) d.(flow_lines) (d.(interpackage_lines) ++ [number d]) d.(artifact_lines).
Definition add_artifact (link : string) (d : drawing) : drawing :=
  Drawing (d.(links) ++ [link]) d.(flow_lines) d.(interpackage_lines) (d.(artifact_lines) ++ [number d]).
Definition arrow (a kind b : string) : string := a +:+ " " +:+ kind +:+ " " +:+ b.
(* argo-workflows-to-mkdocs.py:564-585 generate_mermaid *)
Definition task_links (nodes : dict node) (d : drawing) (t : task) : drawing :=
  let d := foldl (fun d dep => add_flow (arrow dep "-->" t.(t_id)) d) d t.(dependencies) in
  let d := match t.(ref_node), referred nodes t with
           | Some r, Some n => if show_node n then add_interpackage (arrow t.(t_id) "-.->" r) d else d
           | _, _ => d
           end in
  if SHOW_ARTIFACTS then
    let d := match referred nodes t with
             | Some n => foldl (fun d a => add_artifact (arrow t.(t_id) "-.->" (t.(t_id) +:+ "__" +:+ a)) d) d n.(output_artifacts)
             | None => d
             end in
    foldl (fun d a => add_artifact (arrow a "-.->" t.(t_id)) d) d t.(t_input_artifacts)
  else d.
(* argo-workflows-to-mkdocs.py:600-621 generate_mermaid *)
Definition step_links : dict node -> drawing -> step -> drawing := task_links.
(** Every step is linked to the one before it, the first to the node. *)
(* argo-workflows-to-mkdocs.py:587-597 generate_mermaid *)
Fixpoint step_chain (previous : string) (d : drawing) (steps : list step) : drawing :=
  match steps with
  | [] => d
  | t :: r => step_chain t.(t_id) (add_flow (arrow previous "-->" t.(t_id)) d) r
  end.
(* argo-workflows-to-mkdocs.py:551-621 generate_mermaid *)
Definition node_links (nodes : dict node) (d : drawing) (n : node) : drawing :=
  let d := if show_node n && SHOW_ARTIFACTS then
             foldl (fun d a => add_artifact (arrow (n.(n_id) +:+ "__" +:+ a) "---" n.(n_id)) d) d n.(input_artifacts) else d in
  let d := foldl (fun d t => if truthy t.(dependencies) then d else add_flow (arrow n.(n_id) "-->" t.(t_id)) d) d n.(tasks) in
  let d := foldl (task_links nodes) d n.(tasks) in
  let d := step_chain n.(n_id) d n.(steps) in
  foldl (step_links nodes) d n.(steps).
(* argo-workflows-to-mkdocs.py:545-621 generate_mermaid *)
Definition render_links (workflows : list workflow) (nodes : dict node) : drawing :=
  foldl (fun d w => foldl (node_links nodes) d w.(w_nodes)) (Drawing [] [] [] []) workflows.

Definition link_style (lines : list string) (colour : string) : list string :=
  if truthy lines then ["linkStyle " +:+ String.concat "," lines +:+ " stroke:" +:+ colour +:+ ",stroke-width:2px;"] else [].
(* argo-workflows-to-mkdocs.py:623-637 generate_mermaid *)
Definition mermaid_output (bases : list string) (d : drawing) : string :=
  String.concat nl (["graph TB;"] ++ bases ++ d.(links) ++ link_style d.(flow_lines) "#888" ++
    link_style d.(interpackage_lines) "#888" ++ link_style d.(artifact_lines) "#fa0").
Definition fence : string := "```".
(** The page that is written. *)
(* argo-workflows-to-mkdocs.py:429-654 generate_mermaid *)
Definition generate_mermaid (workflows : list workflow) (nodes : dict node) (output_name workflow_readme : string) : res string :=
  bases ← res_map (workflow_bases nodes) workflows;
  Ok ("# " +:+ output_name +:+ nl +:+ nl +:+ workflow_readme +:+ nl +:+ "## Workflow Diagram" +:+ nl +:+ nl +:+
      "{% raw %}" +:+ nl +:+ nl +:+ fence +:+ "mermaid" +:+ nl +:+ mermaid_output (concat bases) (render_links workflows nodes) +:+ nl +:+
      fence +:+ nl +:+ nl +:+ "{% endraw %}" +:+ nl +:+ nl).

(** ** The command *)

Record entry := Entry { e_name : string; e_path : string; e_is_dir : bool }.
(** [LoadYaml] is [parse_yaml]: [None] for a document that is malformed or empty. *)
Inductive docsE : Type -> Type :=
| ScanDir (path : string) : docsE (list entry)
| ListDir (path : string) : docsE (list string)
| LoadYaml (path : string) : docsE json
| WriteFile (path content : string) : docsE unit.
Abbreviation docs A := (prog unit docsE A).

Definition SystemExit (code : Z) : exn := Exn "SystemExit" [pretty code].
(** One more reference to a node, if it is there. *)
(* argo-workflows-to-mkdocs.py:168-174 main *)
Definition count_reference (nodes : dict node) (t : task) : dict node :=
  match t.(ref_node), referred nodes t with
  | Some r, Some n =>
      dict_set r (Node n.(n_id) n.(n_name) n.(image) n.(script) (n.(incoming_count) + 1) n.(input_params) n.(output_params)
        n.(input_artifacts) n.(output_artifacts) n.(is_entrypoint) n.(tasks) n.(steps)) nodes
  | _, _ => nodes
  end.
(* argo-workflows-to-mkdocs.py:162-174 main *)
Definition make_nodes (w : workflow) : dict node :=
  let nodes := foldl (fun d n => dict_set n.(n_id) n d) [] w.(w_nodes) in
  foldl (fun d n => foldl count_reference (foldl count_reference d n.(tasks)) n.(steps)) nodes w.(w_nodes).
(** The name and the content of the page for a document. *)
(* argo-workflows-to-mkdocs.py:133-185 main *)
Definition make_page (w_yaml : json) : res (string * string) :=
  '(workflow_name, workflow_title, workflow_description) ← read_metadata w_yaml;
  let workflow_readme := "## " +:+ workflow_title +:+ " " +:+ nl +:+ nl +:+ " " +:+ workflow_description in
  w ← make_workflow w_yaml;
  content ← generate_mermaid [w] (make_nodes w) workflow_name workflow_readme;
  Ok (workflow_name, content).
(* argo-workflows-to-mkdocs.py:128-185 main *)
Definition document (output_dir workflow_file : string) : docs unit :=
  w_yaml ← call (LoadYaml workflow_file);
  '(workflow_name, content) ← lift (make_page w_yaml);
  call (WriteFile (output_dir +:+ "/" +:+ workflow_name +:+ ".md") content).
Definition is_FileNotFoundError (e : exn) : bool := bool_decide (e.(exn_cls) = "FileNotFoundError").
Definition is_template (fn : string) : bool := endswith ".yml" fn || endswith ".yaml" fn.
Definition templates_path (e : entry) : string := e.(e_path) +:+ "/workflowtemplates/".
(* argo-workflows-to-mkdocs.py:112-185 main *)
Definition document_folder (output_dir : string) (workflow : entry) : docs unit :=
  names ← try_except (l ← call (ListDir (templates_path workflow)); mret (Some l))
            (fun e => if is_FileNotFoundError e then mret None else Raise e);
  match names with
  | None => mret tt
  | Some names => for_each (map (fun fn => templates_path workflow +:+ "/" +:+ fn) (List.filter is_template names)) (document output_dir)
  end.
(* argo-workflows-to-mkdocs.py:101-185 main *)
Definition main (argv : list string) : docs unit :=
  match argv with
  | input_dir :: output_dir :: _ =>
      entries ← call (ScanDir input_dir);
      for_each (List.filter e_is_dir entries) (document_folder output_dir)
  | _ => Raise (SystemExit 1)
  end.

(** ** Properties *)

(** *** Links *)

(** What the links are meant to be: for every node its input artifacts, the tasks that
    depend on nothing, the dependencies, templates and artifacts of its tasks, the
    chain of its steps, and the same of these. *)
Inductive style := Flow | Interpackage | Artifact.
#[export] Instance style_eq_dec : EqDecision style.
Proof. solve_decision. Defined.
Definition task_edges (nodes : dict node) (t : task) : list (style * string) :=
  map (fun dep => (Flow, arrow dep "-->" t.(t_id))) t.(dependencies) ++
  match t.(ref_node), referred nodes t with
  | Some r, Some n => [(Interpackage, arrow t.(t_id) "-.->" r)]
  | _, _ => []
  end ++
  match referred nodes t with
  | Some n => map (fun a => (Artifact, arrow t.(t_id) "-.->" (t.(t_id) +:+ "__" +:+ a))) n.(output_artifacts)
  | None => []
  end ++
  map (fun a => (Artifact, arrow a "-.->" t.(t_id))) t.(t_input_artifacts).
Definition node_edges (nodes : dict node) (n : node) : list (style * string) :=
  map (fun a => (Artifact, arrow (n.(n_id) +:+ "__" +:+ a) "---" n.(n_id))) n.(input_artifacts) ++
  map (fun t => (Flow, arrow n.(n_id) "-->" t.(t_id))) (List.filter (fun t => negb (truthy t.(dependencies))) n.(tasks)) ++
  flat_map (task_edges nodes) n.(tasks) ++
  zip_with (fun previous t => (Flow, arrow previous "-->" t.(t_id))) (n.(n_id) :: map t_id n.(steps)) n.(steps) ++
  flat_map (task_edges nodes) n.(steps).
Definition edges (workflows : list workflow) (nodes : dict node) : list (style * string) :=
  flat_map (fun w => flat_map (node_edges nodes) w.(w_nodes)) workflows.
(** The numbers, as they are printed, of the links of a style. *)
Definition numbers (k : style) (l : list (style * string)) : list string :=
  omap (fun '(i, e) => if decide (e.1 = k) then Some (pretty i) else None) (imap (fun i e => (i, e)) l).

Definition draws (l : list (style * string)) (d : drawing) : Prop :=
  d.(links) = l.*2 /\ d.(flow_lines) = numbers Flow l /\ d.(interpackage_lines) = numbers Interpackage l /\ d.(artifact_lines) = numbers Artifact l.

Lemma numbers_snoc k l e : numbers k (l ++ [e]) = numbers k l ++ (if decide (e.1 = k) then [pretty (length l)] else []).
Proof.
  unfold numbers. rewrite imap_app, omap_app. f_equal. cbn. rewrite Nat.add_0_r. by case_decide.
Qed.
Lemma number_of l d : draws l d -> number d = pretty (length l).
Proof. intros (Hl & _). unfold number. by rewrite Hl, length_fmap. Qed.
Lemma draws_flow l d s : draws l d -> draws (l ++ [(Flow, s)]) (add_flow s d).
Proof.
  intros Hd. pose proof (number_of l d Hd) as Hn. destruct Hd as (Hl & Hf & Hi & Ha). unfold draws, add_flow. cbn.
  rewrite !numbers_snoc, fmap_app, Hn, Hl, Hf, Hi, Ha. cbn. by rewrite !app_nil_r.
Qed.
Lemma draws_interpackage l d s : draws l d -> draws (l ++ [(Interpackage, s)]) (add_interpackage s d).
Proof.
  intros Hd. pose proof (number_of l d Hd) as Hn. destruct Hd as (Hl & Hf & Hi & Ha). unfold draws, add_interpackage. cbn.
  rewrite !numbers_snoc, fmap_app, Hn, Hl, Hf, Hi, Ha. cbn. by rewrite !app_nil_r.
Qed.
Lemma draws_artifact l d s : draws l d -> draws (l ++ [(Artifact, s)]) (add_artifact s d).
Proof.
  intros Hd. pose proof (number_of l d Hd) as Hn. destruct Hd as (Hl & Hf & Hi & Ha). unfold draws, add_artifact. cbn.
  rewrite !numbers_snoc, fmap_app, Hn, Hl, Hf, Hi, Ha. cbn. by rewrite !app_nil_r.
Qed.
(** A loop that draws what each element stands for. *)
Lemma draws_foldl {A} (f : drawing -> A -> drawing) (g : A -> list (style * string)) xs :
  (forall l d x, draws l d -> draws (l ++ g x) (f d x)) ->
  forall l d, draws l d -> draws (l ++ flat_map g xs) (foldl f d xs).
Proof.
  intros Hf. induction xs as [|x xs IH]; intros l d Hd; cbn; [by rewrite app_nil_r|]. rewrite app_assoc. by apply IH, Hf.
Qed.
Lemma flat_map_single {A B} (f : A -> B) l : flat_map (fun x => [f x]) l = map f l.
Proof. induction l; cbn; congruence. Qed.
Lemma draws_map {A} (f : drawing -> A -> drawing) (g : A -> style * string) xs l d :
  (forall l d x, draws l d -> draws (l ++ [g x]) (f d x)) -> draws l d -> draws (l ++ map g xs) (foldl f d xs).
Proof. intros Hf Hd. rewrite <- flat_map_single. by apply draws_foldl. Qed.
Lemma draws_task nodes l d t : draws l d -> draws (l ++ task_edges nodes t) (task_links nodes d t).
Proof.
  intros Hd. unfold task_links, task_edges. rewrite !app_assoc. change SHOW_ARTIFACTS with true. cbn iota.
  apply draws_map; [intros; by apply draws_artifact|].
  assert (forall n, show_node n = true) as Hshow.
  { intros n. unfold show_node. destruct (is_entrypoint n), (truthy (tasks n)), (truthy (steps n)); reflexivity. }
  set (l1 := l ++ map _ _). set (d1 := foldl _ d _).
  assert (draws l1 d1) as H1 by (apply draws_map; [intros; by apply draws_flow|done]).
  destruct (ref_node t) as [r|], (referred nodes t) as [n|]; rewrite ?Hshow, ?app_nil_r; try done;
    (apply draws_map; [intros; by apply draws_artifact|]); by try apply draws_interpackage.
Qed.
Lemma draws_chain steps : forall previous l d, draws l d ->
  draws (l ++ zip_with (fun previous t => (Flow, arrow previous "-->" t.(t_id))) (previous :: map t_id steps) steps) (step_chain previous d steps).
Proof.
  induction steps as [|t steps IH]; intros previous l d Hd; cbn [step_chain]; [by rewrite app_nil_r|].
  cbn [map zip_with]. rewrite cons_middle, app_assoc. apply IH. by apply draws_flow.
Qed.
Lemma draws_independent nid ts l d : draws l d ->
  draws (l ++ map (fun t => (Flow, arrow nid "-->" t.(t_id))) (List.filter (fun t => negb (truthy t.(dependencies))) ts))
    (foldl (fun d t => if truthy t.(dependencies) then d else add_flow (arrow nid "-->" t.(t_id)) d) d ts).
Proof.
  revert l d. induction ts as [|t ts IH]; intros l d Hd; cbn [foldl List.filter map]; [by rewrite app_nil_r|].
  destruct (truthy (dependencies t)); cbn [negb map]; [by apply IH|]. rewrite cons_middle, app_assoc. by apply IH, draws_flow.
Qed.
Lemma draws_node nodes l d n : draws l d -> draws (l ++ node_edges nodes n) (node_links nodes d n).
Proof.
  intros Hd. unfold node_links, node_edges. rewrite !app_assoc.
  replace (show_node n) with true by (unfold show_node; by destruct (is_entrypoint n), (truthy (tasks n)), (truthy (steps n))).
  change (true && SHOW_ARTIFACTS) with true. cbn iota.
  apply draws_foldl; [intros; by apply draws_task|]. apply draws_chain. apply draws_foldl; [intros; by apply draws_task|].
  apply draws_independent. apply draws_map; [intros; by apply draws_artifact|done].
Qed.
Lemma draws_all workflows nodes : draws (edges workflows nodes) (render_links workflows nodes).
Proof.
  unfold edges, render_links. rewrite <- (app_nil_l (flat_map _ _)). apply (draws_foldl (fun d w => foldl (node_links nodes) d w.(w_nodes))).
  - intros l d w Hd. apply draws_foldl; [intros; by apply draws_node|done].
  - by split_and!.
Qed.

(** The numbers of the three styles are those of all links, each once. *)
Lemma numbers_partition l : numbers Flow l ++ numbers Interpackage l ++ numbers Artifact l ≡ₚ map pretty (seq 0 (length l)).
Proof.
  induction l as [|[k s] l IH] using rev_ind; [done|]. rewrite !numbers_snoc, length_app, seq_app, map_app, <- IH. cbn.
  destruct k; cbn; rewrite ?app_nil_r; solve_Permutation.
Qed.

(** Every link is drawn once and in order, and styled once: the links of the diagram
    are exactly those that the workflows describe, and the numbers in the three
    [linkStyle] lines are those of the flow links, of the links to templates and of the
    links to artifacts, which together are all links, none twice and none beyond. *)
Theorem links_styled_once workflows nodes :
  let d := render_links workflows nodes in
  d.(links) = (edges workflows nodes).*2 /\
  d.(flow_lines) = numbers Flow (edges workflows nodes) /\
  d.(interpackage_lines) = numbers Interpackage (edges workflows nodes) /\
  d.(artifact_lines) = numbers Artifact (edges workflows nodes) /\
  d.(flow_lines) ++ d.(interpackage_lines) ++ d.(artifact_lines) ≡ₚ map pretty (seq 0 (length d.(links))).
Proof.
  cbn zeta. destruct (draws_all workflows nodes) as (Hl & Hf & Hi & Ha). split_and!; [done..|].
  rewrite Hf, Hi, Ha, Hl, length_fmap. apply numbers_partition.
Qed.

(** *** Pages *)

(** The calls for one file, for one folder and for all. *)
Definition page_calls (output_dir file : string) (tr : list (event docsE)) : Prop :=
  exists w_yaml name content, make_page w_yaml = inr (name, content) /\
    tr = [Ev (LoadYaml file) (inr w_yaml); Ev (WriteFile (output_dir +:+ "/" +:+ name +:+ ".md") content) (inr tt)].
Definition folder_calls (output_dir : string) (workflow : entry) (tr : list (event docsE)) : Prop :=
  exists answer pages, tr = Ev (ListDir (templates_path workflow)) answer :: concat pages /\
    match answer with
    | inl e => is_FileNotFoundError e = true /\ pages = []
    | inr names => Forall2 (page_calls output_dir) (map (fun fn => templates_path workflow +:+ "/" +:+ fn) (List.filter is_template names)) pages
    end.

(** A loop whose iterations are known: if it returns, every iteration was made. *)
Lemma for_each_run {G E A} (f : A -> prog G E unit) (P : A -> list (event E) -> Prop) l g :
  (forall x g, every_run (f x) g (fun r _ tr => r = inr tt -> P x tr)) ->
  every_run (for_each l f) g (fun r _ tr => r = inr tt -> exists parts, tr = concat parts /\ Forall2 P l parts).
Proof.
  intros Hf. unfold every_run. apply (wp_for_each_seen _ _ _ (fun seen _ tr => exists parts, tr = concat parts /\ Forall2 P seen parts));
    [by exists []| |eauto].
  intros seen x later g' tr _ (parts & -> & Hparts). eapply wp_mono; [|apply wp_trace_frame, Hf].
  intros [e|[]] g2 tr (new & -> & Hnew); [done|]. exists (parts ++ [new]). rewrite concat_app. cbn. rewrite app_nil_r. split; [done|].
  apply Forall2_app; [done|]. constructor; [by apply Hnew|constructor].
Qed.
(** The command: when it returns, every template file of every folder was read and
    its page written right after, in order, under the workflow's name; a folder
    without templates is passed over.  A page comes from nothing but its file. *)
Theorem every_template_documented input_dir output_dir args :
  every_run (main (input_dir :: output_dir :: args)) tt (fun r _ tr => r = inr tt ->
    exists entries folders, tr = Ev (ScanDir input_dir) (inr entries) :: concat folders /\
      Forall2 (folder_calls output_dir) (List.filter e_is_dir entries) folders).
Proof.
  unfold every_run, main. wp_pure. apply wp_call. intros [e|entries] tr ->; [done|]. wp_simp.
  eapply wp_mono; [|apply wp_trace_frame, (for_each_run _ (folder_calls output_dir))].
  { intros r [] tr (new & -> & Hnew) Hr. destruct (Hnew Hr) as (folders & -> & Hall). eauto. }
  intros workflow []. unfold every_run, document_folder. do 3 wp_pure. apply wp_call. intros [e|names] tr ->; wp_simp; repeat wp_pure.
  { destruct (is_FileNotFoundError e) eqn:He; repeat wp_pure; [|done]. intros _. by exists (inl e), []. }
  eapply wp_mono; [|apply wp_trace_frame, (for_each_run _ (page_calls output_dir))].
  { intros r [] tr (new & -> & Hnew) Hr. destruct (Hnew Hr) as (pages & -> & Hall). by exists (inr names), pages. }
  intros file []. unfold every_run, document. wp_pure. apply wp_call. intros [e|w_yaml] tr ->; [done|]. wp_simp. do 2 wp_pure.
  destruct (make_page w_yaml) as [e|[name content]] eqn:Hp; [done|]. apply wp_call. intros r tr -> ->. by exists w_yaml, name, content.
Qed.

Definition sample_task (name : string) (more : dict json) : json := JObj ([("name", JStr name); ("template", JStr "t")] ++ more).
Definition sample_yaml : json :=
  JObj [("metadata", JObj [("name", JStr "wf")]);
        ("spec", JObj [("entrypoint", JStr "main");
          ("templates", JArr [
            JObj [("name", JStr "main");
                  ("dag", JObj [("tasks", JArr [sample_task "a" []; sample_task "b" [("depends", JStr "a.Succeeded || a.Failed")]])])];
            JObj [("name", JStr "t"); ("container", JObj [("image", JStr "ghcr.io/x/ai-workflow-tool:1")]);
                  ("steps", JArr [JArr [sample_task "s1" []; sample_task "parallel" []]; JArr [sample_task "s2" []]])]])])].
(** A dependency is drawn once, and of steps that run in parallel only the first. *)
Example sample_links :
  (w ← make_workflow sample_yaml; Ok (let d := render_links [w] (make_nodes w) in (d.(links), d.(flow_lines), d.(interpackage_lines)))) =
    Ok (["wf__main --> wf__main__a"; "wf__main__a -.-> wf__t"; "wf__main__a --> wf__main__b"; "wf__main__b -.-> wf__t";
         "wf__t --> wf__t__s1"; "wf__t__s1 --> wf__t__s2"; "wf__t__s1 -.-> wf__t"; "wf__t__s2 -.-> wf__t"],
        ["0"; "2"; "4"; "5"], ["1"; "3"; "6"; "7"]).
Proof. vm_compute. reflexivity. Qed.
(** A closing brace is shown as an opening one. *)
Example closing_brace : node_param ("p", JStr "{}") = Ok "p=&#123;&#123;<br>".
Proof. reflexivity. Qed.
(** A document that cannot be parsed stops the run instead of being passed over. *)
Example malformed_yaml_raises : make_page JNull = Err (TypeError ["not subscriptable by a string"]).
Proof. reflexivity. Qed.
Example artifact_names :
  parse_artifacts "{{tasks.build-it.outputs.artifacts.image}}" = ["build-it__image"] /\
  parse_artifacts "{{inputs.artifacts.src-}}" = ["src"] /\ parse_artifacts "{{item}}" = ["item"].
Proof. by split_and!; vm_compute. Qed.
