(* ===== verification/BmcTools.v ===== *)
(** * Tools around a management controller

    Models, under [src/python/understack-workflows/understack_workflows/]:
    [bmc_password_standard.py] and [main/print_bmc_password.py] (the key derivation
    [pbkdf2_hmac] is a parameter), [bmc_network_config.py], [bmc_power.py] and
    [bmc_disk.py].  Sizes of disks are whole numbers of bytes below [2 ^ 53], for which
    the division in floating point, rounded up, is the exact one. *)
From S2P Require Import Prelude PyStr PyData NetappValues NovaNetwork Bmc.
Local Open Scope Z_scope.

(** ** The standard password *)

Definition ALPHABET : string := "ABCDEFGHIJKLMNOPQRSTUVWXYZabcdefghijklmnopqrstuvwxyz0123456789+/".
Definition sextet (n : Z) : ascii := default "="%char (String.get (Z.to_nat n) ALPHABET).
(** [base64.b64encode(l).decode("utf8")] *)
Fixpoint b64encode (l : list Z) : string :=
  match l with
  | a :: b :: c :: r =>
      String (sextet (a / 4)) (String (sextet (a mod 4 * 16 + b / 16)) (String (sextet (b mod 16 * 4 + c / 64)) (String (sextet (c mod 64)) (b64encode r))))
  | [a; b] => String (sextet (a / 4)) (String (sextet (a mod 4 * 16 + b / 16)) (String (sextet (b mod 16 * 4)) "="))
  | [a] => String (sextet (a / 4)) (String (sextet (a mod 4 * 16)) "==")
  | [] => ""
  end.
Definition bytes_of (s : string) : list Z := map (fun c => Z.of_N (Ascii.N_of_ascii c)) (String.list_ascii_of_string s).

Section password.
(** [pbkdf2_hmac("sha256", password, salt, iterations, dklen)] *)
Variable pbkdf2_hmac : list Z -> list Z -> Z -> Z -> list Z.

(* understack_workflows/bmc_password_standard.py:6-6 PASSWORD_LENGTH *)
Definition PASSWORD_LENGTH : Z := 20.
(* understack_workflows/bmc_password_standard.py:26-36 _password *)
Definition _password (text : string) : string :=
  let password_bits := PASSWORD_LENGTH * 6 in
  b64encode (pbkdf2_hmac (bytes_of text) (bytes_of "NaCl") 100000 (password_bits / 8)).
(** [ipaddress.ip_address(text)] returns. *)
Definition is_ip_address (text : string) : bool :=
  match NetappValues.parse_ipv4 text, parse_ipv6 text with None, None => false | _, _ => true end.
(* understack_workflows/bmc_password_standard.py:9-23 standard_password *)
Definition standard_password (ip_addr master_key : string) : res string :=
  if negb (is_ip_address ip_addr) then Err (ValueError ["Need an IPv4 address, not"; ip_addr])
  else if negb (truthy master_key) then Err (ValueError ["Missing/empty master_key!"])
  else Ok (_password (master_key +:+ ip_addr)).

Inductive printE : Type -> Type :=
| Getenv (name : string) : printE (option string)
| Print (text : string) : printE unit.
Definition SystemExit (code : Z) : exn := Exn "SystemExit" [pretty code].
(* understack_workflows/main/print_bmc_password.py:7-21 main *)
Definition print_main (bmc_ip_address : option string) : prog unit printE unit :=
  match bmc_ip_address with
  | None => Raise (SystemExit 1)
  | Some ip =>
      master ← call (Getenv "BMC_MASTER");
      match master with
      | None => Raise (SystemExit 1)
      | Some _ =>
          master ← call (Getenv "BMC_MASTER");
          password ← lift (standard_password ip (default "None" master));
          call (Print password)
      end
  end.
End password.

(** ** Network and power *)

(* understack_workflows/bmc_network_config.py:9-33 bmc_set_permanent_ip_addr *)
Definition bmc_set_permanent_ip_addr (bmc : BmcT) (i : BmcInterface) : bmcp unit :=
  if negb i.(bi_dhcp) then mret tt else
  match i.(bi_ipv4_address), i.(bi_ipv4_gateway) with
  | Some (ip, prefix), Some gateway =>
      let payload := JObj [("Attributes", JObj [
        ("IPv4.1.DHCPEnable", JStr "Disabled"); ("IPv4.1.Address", JStr (NetappValues.ipv4_str ip));
        ("IPv4.1.Gateway", JStr (NetappValues.ipv4_str gateway)); ("IPv4.1.Netmask", JStr (NetappValues.ipv4_str (NetappValues.netmask prefix)))])] in
      p ← manager_path bmc;
      _ ← redfish_request bmc (p +:+ "/Attributes") "PATCH" (Some payload) None;
      mret tt
  | _, _ => Raise (ValueError ["BMC InterfaceInfo has missing IP information"])
  end.
(* understack_workflows/bmc_power.py:8-14 bmc_power_on *)
Definition bmc_power_on (bmc : BmcT) : bmcp unit :=
  p ← system_path bmc;
  _ ← redfish_request bmc (p +:+ "/Actions/ComputerSystem.Reset") "POST" (Some (JObj [("ResetType", JStr "On")])) None;
  mret tt.

(** ** Disks *)

(* understack_workflows/bmc_disk.py:11-28 Disk *)
Record disk := Disk { media_type : json; d_model : json; d_name : json; d_health : json; capacity_bytes : Z }.
Definition GIGA : Z := 10 ^ 9.
(** [math.ceil(self.capacity_bytes / 10**9)] *)
(* understack_workflows/bmc_disk.py:25-28 capacity_gb *)
Definition capacity_gb (d : disk) : Z := - (- d.(capacity_bytes) / GIGA).
(* understack_workflows/bmc_disk.py:30-33 get_capacity_bytes *)
Definition get_capacity_bytes (number : Z) : Z := number * GIGA.
Definition jnum (v : json) : res Z := match v with JNum z => Ok z | _ => Err (TypeError ["unsupported operand"]) end.
(* understack_workflows/bmc.py:91-93 get_manufacturer *)
Definition get_manufacturer (bmc : BmcT) : bmcp string :=
  p ← system_path bmc; r ← redfish_get bmc p; m ← lift (jtext_at "Manufacturer" r); mret (lower m).
(* understack_workflows/bmc_disk.py:35-52 from_path *)
Definition from_path (bmc : BmcT) (path : string) : bmcp disk :=
  disk_data ← redfish_get bmc path;
  bmc_type ← get_manufacturer bmc;
  '(bytes, name) ← lift (if contains "dell" bmc_type then
      b ← jitem "CapacityBytes" disk_data; b ← jnum b; n ← jitem "Name" disk_data; Ok (b, n)
    else
      b ← jitem "CapacityGB" disk_data; b ← jnum b; n ← jitem "Location" disk_data; Ok (get_capacity_bytes b, n));
  media ← lift (jitem "MediaType" disk_data);
  model ← lift (jitem "Model" disk_data);
  status ← lift (jget_or "Status" (JObj []) disk_data);
  health ← lift (jget_or "Health" (JStr "Unknown") status);
  mret (Disk media model name health bytes).
(** [[x["@odata.id"] for x in v]] *)
Definition links (v : json) : res (list string) := l ← jiter v; res_map (jtext_at "@odata.id") l.
Definition member_paths (bmc : BmcT) (path : string) : bmcp (list string) :=
  p ← system_path bmc; r ← redfish_get bmc (p +:+ path); m ← lift (jitem "Members" r); lift (links m).
Definition get_item (bmc : BmcT) (k path : string) : bmcp (list json) :=
  r ← redfish_get bmc path; v ← lift (jitem k r); lift (jiter v).
Definition disks_at (bmc : BmcT) (disk_paths : list json) : bmcp (list disk) :=
  map_each disk_paths (fun d => path ← lift (jtext_at "@odata.id" d); from_path bmc path).
(** On a Dell machine every drive is read twice. *)
(* understack_workflows/bmc_disk.py:55-93 physical_disks *)
Definition physical_disks (bmc : BmcT) : bmcp (list disk) :=
  bmc_type ← get_manufacturer bmc;
  disks ← (if contains "dell" bmc_type then
      storage ← member_paths bmc "/Storage";
      disks ← map_each storage (get_item bmc "Drives");
      _ ← disks_at bmc (concat disks);
      mret disks
    else
      controllers ← member_paths bmc "/SmartStorage/ArrayControllers";
      storage ← map_each controllers (fun path =>
        r ← redfish_get bmc path; l ← lift (jitem "links" r); d ← lift (jitem "PhysicalDrives" l); lift (jtext_at "href" d));
      map_each storage (get_item bmc "Members"));
  disks_at bmc (concat disks).
(** [min(l, key=...)]: the first of the least. *)
Fixpoint min_by (key : disk -> Z) (best : disk) (l : list disk) : disk :=
  match l with [] => best | d :: r => min_by key (if key d <? key best then d else best) r end.
Definition smallest_of (disks : list disk) : bmcp Z :=
  match disks with
  | [] => Raise (ValueError ["min() arg is an empty sequence"])
  | d :: r => mret (capacity_gb (min_by capacity_gb d r))
  end.
(* understack_workflows/bmc_disk.py:96-98 smallest_disk_size *)
Definition smallest_disk_size (bmc : BmcT) : bmcp Z :=
  disks ← physical_disks bmc;
  smallest_of disks.

(** ** Properties *)

(** *** Base 64 *)

Fixpoint index_of (c : ascii) (s : string) : Z :=
  match s with "" => 0 | String x r => if Ascii.eqb x c then 0 else 1 + index_of c r end.
Definition value_of (c : ascii) : Z := index_of c ALPHABET.
(** What a text without padding stands for. *)
Fixpoint b64decode (s : string) : list Z :=
  match s with
  | String a (String b (String c (String d r))) =>
      let '(w, x, y, z) := (value_of a, value_of b, value_of c, value_of d) in
      (w * 4 + x / 16) :: (x mod 16 * 16 + y / 4) :: (y mod 4 * 64 + z) :: b64decode r
  | _ => []
  end.
Definition is_byte (z : Z) : Prop := 0 <= z < 256.
Lemma value_sextet n : 0 <= n < 64 -> value_of (sextet n) = n /\ has_char (sextet n) ALPHABET = true.
Proof.
  intros Hn. assert (Forall (fun i => value_of (sextet (Z.of_nat i)) = Z.of_nat i /\ has_char (sextet (Z.of_nat i)) ALPHABET = true) (seq 0 64)) as Hall
    by (by repeat constructor).
  rewrite Forall_forall in Hall. specialize (Hall (Z.to_nat n)). rewrite Z2Nat.id in Hall by lia. apply Hall. apply elem_of_seq. lia.
Qed.
Lemma b64_roundtrip n l : length l = (3 * n)%nat -> Forall is_byte l ->
  b64decode (b64encode l) = l /\ String.length (b64encode l) = (4 * n)%nat /\ str_all (fun c => has_char c ALPHABET) (b64encode l) = true.
Proof.
  revert l. induction n as [|n IH]; intros l Hl Hb; [by destruct l|]. destruct l as [|a [|b [|c r]]]; cbn in Hl; try lia.
  repeat (apply Forall_cons in Hb as [? Hb]). unfold is_byte in *. destruct (IH r) as (Hd & Hlen & Hall); [lia|done|].
  destruct (value_sextet (a / 4)) as [V1 A1]; [Z.div_mod_to_equations; lia|].
  destruct (value_sextet (a mod 4 * 16 + b / 16)) as [V2 A2]; [Z.div_mod_to_equations; lia|].
  destruct (value_sextet (b mod 16 * 4 + c / 64)) as [V3 A3]; [Z.div_mod_to_equations; lia|].
  destruct (value_sextet (c mod 64)) as [V4 A4]; [Z.div_mod_to_equations; lia|].
  cbn [b64encode b64decode String.length str_all]. rewrite V1, V2, V3, V4, Hd, Hlen, Hall, A1, A2, A3, A4.
  split_and!; [|lia|done]. f_equal; [|f_equal; [|f_equal]]; Z.div_mod_to_equations; lia.
Qed.

(** The standard password: it is refused exactly for a text that is no address and for
    an empty key; otherwise it has 20 characters of the alphabet of base 64 and
    carries the whole derived key.  Both kinds of addresses are accepted. *)
Theorem standard_password_spec pbkdf2_hmac ip_addr master_key :
  (forall password salt iterations n, 0 <= n -> length (pbkdf2_hmac password salt iterations n) = Z.to_nat n /\ Forall is_byte (pbkdf2_hmac password salt iterations n)) ->
  match standard_password pbkdf2_hmac ip_addr master_key with
  | inr password => is_ip_address ip_addr = true /\ master_key <> "" /\
      String.length password = 20%nat /\ str_all (fun c => has_char c ALPHABET) password = true /\
      b64decode password = pbkdf2_hmac (bytes_of (master_key +:+ ip_addr)) (bytes_of "NaCl") 100000 15
  | inl e => e.(exn_cls) = "ValueError" /\ (is_ip_address ip_addr = false \/ master_key = "")
  end.
Proof.
  intros Hkdf. unfold standard_password. destruct (is_ip_address ip_addr); cbn [negb]; [|by eauto].
  destruct master_key as [|c k]; [split; [done|by right]|]. change (truthy (String c k)) with true. cbn [negb].
  unfold _password. change (PASSWORD_LENGTH * 6 / 8) with 15. set (key := pbkdf2_hmac _ _ _ _).
  destruct (Hkdf (bytes_of (String c k +:+ ip_addr)) (bytes_of "NaCl") 100000 15) as [Hlen Hbytes]; [lia|]. fold key in Hlen, Hbytes.
  destruct (b64_roundtrip 5 key) as (Hd & Hl & Ha); [exact Hlen|done|]. by split_and!.
Qed.

Definition zeros (_ _ : list Z) (_ n : Z) : list Z := repeat 0 (Z.to_nat n).
(** An address of either version is accepted, although the message asks for IPv4. *)
Example ipv6_accepted : standard_password zeros "2001:db8::1" "key" = Ok "AAAAAAAAAAAAAAAAAAAA".
Proof. vm_compute. reflexivity. Qed.

(** *** Network *)

(** A controller on DHCP keeps its address: the only change that is requested is one
    of the attributes that turn DHCP off and set the address, the gateway and the mask
    that it has; an interface that is not on DHCP is left alone, and one without
    addresses refused, without any request. *)
Definition attributes_of (ip prefix gateway : Z) : json :=
  JObj [("Attributes", JObj [("IPv4.1.DHCPEnable", JStr "Disabled"); ("IPv4.1.Address", JStr (NetappValues.ipv4_str ip));
    ("IPv4.1.Gateway", JStr (NetappValues.ipv4_str gateway)); ("IPv4.1.Netmask", JStr (NetappValues.ipv4_str (NetappValues.netmask prefix)))])].
Definition writes (ev : event redfishE) : option (string * option json) :=
  match ev with
  | Ev op _ => match op with Http _ method path _ _ payload => if String.eqb method "GET" then None else Some (path, payload) | _ => None end
  end.
Theorem permanent_address bmc i g :
  every_run (bmc_set_permanent_ip_addr bmc i) g (fun r _ tr =>
    if negb i.(bi_dhcp) then r = inr tt /\ tr = []
    else match i.(bi_ipv4_address), i.(bi_ipv4_gateway) with
         | Some (ip, prefix), Some gateway =>
             (omap writes tr = [] /\ exists e, r = inl e) \/
             exists path, omap writes tr = [(path +:+ "/Attributes", Some (attributes_of ip prefix gateway))]
         | _, _ => tr = [] /\ exists args, r = inl (ValueError args)
         end).
Proof.
  unfold every_run, bmc_set_permanent_ip_addr. destruct (bi_dhcp i); cbn [negb]; [|by wp_pure].
  destruct (bi_ipv4_address i) as [[ip prefix]|]; [|wp_pure; eauto]. destruct (bi_ipv4_gateway i) as [gateway|]; [|wp_pure; eauto].
  cbn zeta. wp_pure. eapply wp_mono with (Q := fun r _ tr => omap writes tr = []).
  - intros [e|p] g1 tr Htr; [left; eauto|]. wp_pure. unfold redfish_request. cbn zeta. wp_pure. apply wp_call. intros r tr' Htr'.
    assert (omap writes tr' = [(p +:+ "/Attributes", Some (attributes_of ip prefix gateway))]) as Hw.
    { unfold step_trace in Htr'. subst tr'. by rewrite omap_app, Htr. }
    destruct r as [e|resp]; wp_simp; [right; eauto|]. destruct (400 <=? rsp_status resp); [wp_pure; right; eauto|].
    destruct (truthy (rsp_text resp)); wp_pure; [destruct (rsp_json resp)|]; repeat wp_pure; right; eauto.
  - unfold manager_path. do 3 wp_pure. destruct (truthy (manager_cache g)); [by repeat wp_pure|].
    unfold get_manager_path, redfish_get, redfish_request. cbn zeta. wp_pure. wp_pure. apply wp_call. intros r tr ->.
    destruct r as [e|resp]; wp_simp; [done|]. destruct (400 <=? rsp_status resp); [by wp_pure|].
    destruct (truthy (rsp_text resp)); wp_pure; [destruct (rsp_json resp) as [e|v]; [done|]|]; wp_simp; do 2 wp_pure;
      destruct (first_member _); by repeat wp_pure.
Qed.

(** *** Disks *)

Lemma min_by_spec key l : forall best, min_by key best l ∈ best :: l /\ Forall (fun d => key (min_by key best l) <= key d) (best :: l).
Proof.
  induction l as [|d l IH]; intros best; cbn [min_by]; [split; [left|by repeat constructor]|].
  destruct (IH (if key d <? key best then d else best)) as [Hin Hall]. apply Forall_cons in Hall as [Hb Hall].
  destruct (Z.ltb_spec (key d) (key best)) as [Hlt|Hge]; split; [set_solver| |set_solver|]; repeat constructor; try done; lia.
Qed.
(** The size of a machine's smallest disk: it is that of one of its disks, no disk is
    smaller, and it is the number of bytes in gigabytes, rounded up; a machine without
    disks raises. *)
Theorem smallest_disk bmc g :
  every_run (disks ← physical_disks bmc; size ← smallest_of disks; mret (disks, size)) g (fun r _ _ =>
    forall disks size, r = inr (disks, size) ->
      exists d, d ∈ disks /\ Forall (fun d' => size <= capacity_gb d') disks /\ size = capacity_gb d /\
        (size - 1) * GIGA < d.(capacity_bytes) <= size * GIGA).
Proof.
  unfold every_run. wp_pure. eapply wp_mono; [|apply wp_true]. intros [e|disks] g1 tr _; [done|]. wp_pure. unfold smallest_of.
  destruct disks as [|d l]; [by wp_pure|]. repeat wp_pure. intros disks size [= <- <-].
  destruct (min_by_spec capacity_gb l d) as [Hin Hall]. eexists. split_and!; [exact Hin|exact Hall|done| |];
    unfold capacity_gb, GIGA; Z.div_mod_to_equations; lia.
Qed.
