(* ===== verification/NodeConfiguration.v ===== *)
(** * The configuration a node is created from

    Models, under [src/python/understack-workflows/understack_workflows/],
    [node_configuration.py] and [redfish_driver_info.py]: the two dataclasses and the
    request [create_node] makes of them. *)
From S2P Require Import Prelude PyStr PyData.

(* understack_workflows/redfish_driver_info.py:4-33 RedfishDriverInfo *)
Record RedfishDriverInfo := DriverInfo {
  redfish_address : option string;
  redfish_system_id : option string;
  redfish_username : option string;
  redfish_password : option string;
  (** a bool, a path, or nothing *)
  redfish_verify_ca : json;
  redfish_auth_type : option string
}.
Definition no_driver_info : RedfishDriverInfo := DriverInfo None None None None JNull None.
(* understack_workflows/node_configuration.py:17-150 IronicNodeConfiguration *)
Record IronicNodeConfiguration := NodeConfiguration {
  uuid : string;
  name : string;
  driver : string;
  driver_info : RedfishDriverInfo;
  boot_interface : option string;
  conductor_group : option string;
  console_interface : option string;
  deploy_interface : option string;
  extra : dict json;
  inspect_interface : option string;
  management_interface : option string;
  network_interface : option string;
  power_interface : option string;
  properties : dict json;
  raid_interface : option string;
  rescue_interface : option string;
  resource_class : string;
  storage_interface : option string;
  vendor_interface : option string;
  owner : string;
  description : string;
  lessee : string;
  shard : string;
  automated_clean : bool;
  bios_interface : option string;
  chassis_uuid : option string;
  instance_info : dict json;
  instance_uuid : string;
  maintenance : bool;
  maintenance_reason : string;
  network_data : dict json;
  parent_node : string;
  protected : bool;
  protected_reason : string;
  retired : bool;
  retired_reason : string
}.
(** The defaults of the dataclass. *)
Definition node_configuration (uuid name driver : string) : IronicNodeConfiguration :=
  NodeConfiguration uuid name driver no_driver_info None None None None [] None None None None [] None None "" None None "" "" "" "" false None (Some "") [] "" false "" [] "" false "" false "".

Definition is_none (v : json) : bool := match v with JNull => true | _ => false end.
(* understack_workflows/node_configuration.py:13-14 dict_without_none *)
Definition dict_without_none (data : list (string * json)) : dict json :=
  filter (fun kv => is_none kv.2 = false) data.
Definition text_or_none (s : option string) : json := match s with Some s => JStr s | None => JNull end.
(** [asdict(self.driver_info, dict_factory=dict_without_none)]: the factory is applied to
    the nested dataclass as well, and not to plain dicts. *)
Definition asdict_driver_info (i : RedfishDriverInfo) : json :=
  JObj (dict_without_none [
    ("redfish_address", text_or_none i.(redfish_address)); ("redfish_system_id", text_or_none i.(redfish_system_id));
    ("redfish_username", text_or_none i.(redfish_username)); ("redfish_password", text_or_none i.(redfish_password));
    ("redfish_verify_ca", i.(redfish_verify_ca)); ("redfish_auth_type", text_or_none i.(redfish_auth_type))]).
(** [asdict(self, dict_factory=dict_without_none)] *)
Definition asdict (c : IronicNodeConfiguration) : dict json :=
  dict_without_none [
    ("uuid", JStr c.(uuid));
    ("name", JStr c.(name));
    ("driver", JStr c.(driver));
    ("driver_info", asdict_driver_info c.(driver_info));
    ("boot_interface", text_or_none c.(boot_interface));
    ("conductor_group", text_or_none c.(conductor_group));
    ("console_interface", text_or_none c.(console_interface));
    ("deploy_interface", text_or_none c.(deploy_interface));
    ("extra", JObj c.(extra));
    ("inspect_interface", text_or_none c.(inspect_interface));
    ("management_interface", text_or_none c.(management_interface));
    ("network_interface", text_or_none c.(network_interface));
    ("power_interface", text_or_none c.(power_interface));
    ("properties", JObj c.(properties));
    ("raid_interface", text_or_none c.(raid_interface));
    ("rescue_interface", text_or_none c.(rescue_interface));
    ("resource_class", JStr c.(resource_class));
    ("storage_interface", text_or_none c.(storage_interface));
    ("vendor_interface", text_or_none c.(vendor_interface));
    ("owner", JStr c.(owner));
    ("description", JStr c.(description));
    ("lessee", JStr c.(lessee));
    ("shard", JStr c.(shard));
    ("automated_clean", JBool c.(automated_clean));
    ("bios_interface", text_or_none c.(bios_interface));
    ("chassis_uuid", text_or_none c.(chassis_uuid));
    ("instance_info", JObj c.(instance_info));
    ("instance_uuid", JStr c.(instance_uuid));
    ("maintenance", JBool c.(maintenance));
    ("maintenance_reason", JStr c.(maintenance_reason));
    ("network_data", JObj c.(network_data));
    ("parent_node", JStr c.(parent_node));
    ("protected", JBool c.(protected));
    ("protected_reason", JStr c.(protected_reason));
    ("retired", JBool c.(retired));
    ("retired_reason", JStr c.(retired_reason))].
Definition field_list : list string := ["uuid"; "name"; "driver"; "driver_info"].
Inductive ironicE : Type -> Type :=
| CreateNode (fields : dict json) : ironicE json.
(* understack_workflows/node_configuration.py:168-177 create_node *)
Definition create_node (c : IronicNodeConfiguration) : prog unit ironicE json :=
  let fields := filter (fun kv => existsb (String.eqb kv.1) field_list && negb (is_none kv.2) = true) (asdict c) in
  call (CreateNode fields).

(** ** Properties *)

(** The fields of the request. *)
Definition sent (data : list (string * json)) : dict json :=
  filter (fun kv => existsb (String.eqb kv.1) field_list && negb (is_none kv.2) = true) (dict_without_none data).
Lemma sent_other k v data : existsb (String.eqb k) field_list = false -> sent ((k, v) :: data) = sent data.
Proof.
  intros Hk. unfold sent, dict_without_none. rewrite filter_cons. case_decide; [|done].
  rewrite filter_cons, decide_False; [done|]. cbn [fst]. by rewrite Hk.
Qed.
Lemma sent_field k v data : existsb (String.eqb k) field_list = true -> is_none v = false -> sent ((k, v) :: data) = (k, v) :: sent data.
Proof.
  intros Hk Hv. unfold sent, dict_without_none. rewrite filter_cons, decide_True by done.
  rewrite filter_cons, decide_True; [done|]. cbn [fst snd]. by rewrite Hk, Hv.
Qed.
Lemma get_without_none k data : NoDup data.*1 ->
  dict_get k (dict_without_none data) = (v ← dict_get k data; if is_none v then None else Some v).
Proof.
  unfold dict_without_none. induction data as [|[k' v] data IH]; [done|]. intros [Hk Hnd]%NoDup_cons. rewrite filter_cons. cbn [snd fst fmap list_fmap] in *.
  case_decide as Hv; cbn [dict_get]; case_decide; subst; cbn; rewrite ?Hv; auto.
  apply not_false_is_true in Hv. rewrite Hv, IH by done. destruct (dict_get k data) as [w|] eqn:Hw; [|done].
  destruct Hk. apply dict_get_keys. eauto.
Qed.
Lemma text_or_none_set s : (if is_none (text_or_none s) then None else Some (text_or_none s)) = JStr <$> s.
Proof. by destruct s. Qed.
(** A field of the driver's information is sent exactly when it is set. *)
Lemma driver_info_fields i : exists info, asdict_driver_info i = JObj info /\
  dict_get "redfish_address" info = JStr <$> i.(redfish_address) /\
  dict_get "redfish_system_id" info = JStr <$> i.(redfish_system_id) /\
  dict_get "redfish_username" info = JStr <$> i.(redfish_username) /\
  dict_get "redfish_password" info = JStr <$> i.(redfish_password) /\
  dict_get "redfish_verify_ca" info = (if is_none i.(redfish_verify_ca) then None else Some i.(redfish_verify_ca)) /\
  dict_get "redfish_auth_type" info = JStr <$> i.(redfish_auth_type).
Proof.
  eexists. split; [done|]. rewrite <- !text_or_none_set.
  rewrite !get_without_none by (apply (bool_decide_unpack _); by vm_compute). by split_and!.
Qed.

(** Creating a node makes one call, and the request holds exactly four of the 36 fields,
    whatever the others are set to; of the driver's information it holds the fields
    that are set, so a node never gets an explicit null for a credential. *)
Theorem create_node_request c : exists info,
  every_run (create_node c) tt (fun r _ tr => tr =
    [Ev (CreateNode [("uuid", JStr c.(uuid)); ("name", JStr c.(name)); ("driver", JStr c.(driver)); ("driver_info", JObj info)]) r]) /\
  dict_get "redfish_address" info = JStr <$> c.(driver_info).(redfish_address) /\
  dict_get "redfish_system_id" info = JStr <$> c.(driver_info).(redfish_system_id) /\
  dict_get "redfish_username" info = JStr <$> c.(driver_info).(redfish_username) /\
  dict_get "redfish_password" info = JStr <$> c.(driver_info).(redfish_password) /\
  dict_get "redfish_verify_ca" info = (if is_none c.(driver_info).(redfish_verify_ca) then None else Some c.(driver_info).(redfish_verify_ca)) /\
  dict_get "redfish_auth_type" info = JStr <$> c.(driver_info).(redfish_auth_type).
Proof.
  destruct (driver_info_fields c.(driver_info)) as (info & Hinfo & Hget). exists info. split; [|exact Hget]. clear Hget.
  unfold create_node, asdict. match goal with |- context [dict_without_none ?l] => fold (sent l) end. rewrite Hinfo.
  do 4 (rewrite sent_field by done). repeat (rewrite sent_other by done). change (sent []) with (@nil (string * json)).
  intros r tr Htr. unfold step_trace in Htr. subst tr. by destruct r.
Qed.
