(* ===== verification/ComponentDocs.v ===== *)
(** * The documentation of the deployed components

    Models [src/docs/macros.py], which writes from the front matter of a page what
    ArgoCD builds, and [src/scripts/check-component-docs.py], which checks that every
    template of an Application has a page.  Front matter is a [json] value, directories
    are the lists of the names in them. *)
From S2P Require Import Prelude PyStr PyData.

(** ** Values *)

(** [v == w] for a [w] that is neither a list nor a dict: a bool is a number. *)
Definition same (v w : json) : bool :=
  let num v := match v with JBool b => Some (Z.b2z b) | JNum z => Some z | _ => None end in
  match v, w with
  | JNull, JNull => true
  | JStr s, JStr t => String.eqb s t
  | _, _ => match num v, num w with Some a, Some b => Z.eqb a b | _, _ => false end
  end.

(** ** What ArgoCD builds *)

(* docs/macros.py:4-9 _as_list *)
Definition _as_list (value : json) : list json :=
  if existsb (same value) [JNull; JBool false] then []
  else match value with JArr l => l | _ => [value] end.
(* docs/macros.py:12-20 _join_with_and *)
Definition _join_with_and (items : list string) : string :=
  match items with
  | [] => ""
  | [a] => a
  | [a; b] => a +:+ " and " +:+ b
  | _ => String.concat ", " (take (length items - 1) items) +:+ ", and " +:+ default "" (last items)
  end.
Definition quoted (v : json) : string := "`" +:+ py_str v +:+ "`".
(* docs/macros.py:23-34 _render_sources *)
Definition _render_sources (meta : json) : res json :=
  source_text ← jget "source_text" meta;
  if truthy source_text then Ok source_text else
  charts ← jget "charts" meta;
  paths ← jget "kustomize_paths" meta;
  let parts := map (fun chart => "Helm chart " +:+ quoted chart) (_as_list charts)
    ++ map (fun path => "Kustomize path " +:+ quoted path) (_as_list paths) in
  if negb (truthy parts) then Ok (JStr "") else Ok (JStr ("ArgoCD renders " +:+ _join_with_and parts +:+ ".")).
(** A list cannot be looked up in a dict. *)
Definition lookup_mode (value : json) (compat_modes : list (json * string)) : res (option string) :=
  match value with
  | JArr _ | JObj _ => Err (TypeError ["unhashable type"])
  | _ => Ok (snd <$> find (fun kv => same value kv.1) compat_modes)
  end.
(* docs/macros.py:37-46 _normalize_override *)
Definition _normalize_override (value : json) (compat_modes : list (json * string)) : res (option json) :=
  match value with
  | JNull => Ok None
  | JObj _ => Ok (Some value)
  | _ =>
      mode ← lookup_mode value compat_modes;
      match mode with
      | Some mode => Ok (Some (JObj [("mode", JStr mode)]))
      | None =>
          match value with
          | JArr _ => Ok (Some (JObj [("mode", JStr "values_files"); ("paths", value)]))
          | _ => Err (ValueError ["Unsupported deploy override value: "; py_repr value])
          end
      end
  end.
Definition HELM_NONE : string := "The current template does not read a deploy-repo `values.yaml` for this component.".
Definition HELM_VALUES : string := "The deploy repo contributes `values.yaml` for this component.".
(* docs/macros.py:49-71 _render_helm_override *)
Definition _render_helm_override (deploy_overrides : json) : res string :=
  helm ← jget "helm" deploy_overrides;
  override ← _normalize_override helm [(JBool false, "none"); (JBool true, "values")];
  match override with
  | None => Ok ""
  | Some override =>
      mode ← jget "mode" override;
      if same mode (JStr "none") then Ok HELM_NONE
      else if same mode (JStr "values") then Ok HELM_VALUES
      else if same mode (JStr "values_files") then
        paths ← jget "paths" override;
        Ok ("The deploy repo contributes " +:+ _join_with_and (map quoted (_as_list paths)) +:+ " for this component.")
      else Err (ValueError ["Unsupported helm deploy override mode: "; py_repr mode])
  end.
Definition KUSTOMIZE_NONE : string := "The current template does not apply a deploy-repo overlay directory for this component.".
Definition KUSTOMIZE_ONLY : string := "The deploy repo overlay directory for this component is the only source for this Application, so `kustomization.yaml` and any referenced manifests are the final Application content.".
Definition KUSTOMIZE_SECOND : string := "The deploy repo overlay directory for this component is applied as a second source, so `kustomization.yaml` and any referenced manifests are part of the final Application.".
(* docs/macros.py:74-100 _render_kustomize_override *)
Definition _render_kustomize_override (deploy_overrides : json) : res string :=
  kustomize ← jget "kustomize" deploy_overrides;
  override ← _normalize_override kustomize [(JBool false, "none"); (JBool true, "second_source"); (JStr "only", "only_source")];
  match override with
  | None => Ok ""
  | Some override =>
      mode ← jget "mode" override;
      if same mode (JStr "none") then Ok KUSTOMIZE_NONE
      else if same mode (JStr "only_source") then Ok KUSTOMIZE_ONLY
      else if same mode (JStr "second_source") then Ok KUSTOMIZE_SECOND
      else Err (ValueError ["Unsupported kustomize deploy override mode: "; py_repr mode])
  end.
Definition bullet (text : string) : string := "- " +:+ text.
Definition bullet_if (line : string) : list string := if truthy line then [bullet line] else [].
(** [page_meta] is [None] when there is no page, or it has no [meta]. *)
(* docs/macros.py:109-133 component_argocd_builds *)
Definition component_argocd_builds (page_meta : option json) : res string :=
  let meta := match page_meta with Some m => if truthy m then m else JObj [] | None => JObj [] end in
  source_line ← _render_sources meta;
  let lines := if truthy source_line then [bullet (py_str source_line)] else [] in
  argocd_extra ← jget "argocd_extra" meta;
  let lines := lines ++ map (fun line => bullet (py_str line)) (_as_list argocd_extra) in
  deploy_overrides ← jget "deploy_overrides" meta;
  let deploy_overrides := if truthy deploy_overrides then deploy_overrides else JObj [] in
  helm_line ← _render_helm_override deploy_overrides;
  let lines := lines ++ bullet_if helm_line in
  kustomize_line ← _render_kustomize_override deploy_overrides;
  let lines := lines ++ bullet_if kustomize_line in
  Ok (String.concat (String (ascii_of_nat 10) "") lines).

(** ** The check *)

(* scripts/check-component-docs.py:11-14 DOC_ALIASES *)
Definition DOC_ALIASES : dict string :=
  [("mariadb-operator-crds", "mariadb-operator"); ("prometheus-operator-crds", "monitoring")].
Definition prefix : string := "application-".
Definition suffix : string := ".yaml".
(** [s[:-n]] for a positive [n] *)
Definition drop_last (n : nat) (s : string) : string := String.rev (drop_str n (String.rev s)).
(** The name matches the pattern [p*e]. *)
Definition glob_match (p e name : string) : bool :=
  startswith p name && endswith e name && Nat.leb (String.length p + String.length e) (String.length name).
(** [path.stem] *)
Definition stem (name : string) : string :=
  match rsplit_once "."%char name with
  | Some (a, b) => if truthy a && truthy b then a else name
  | None => name
  end.
(* scripts/check-component-docs.py:17-23 _component_name_from_template *)
Definition _component_name_from_template (name : string) : res string :=
  if negb (startswith prefix name && endswith suffix name) then Err (ValueError ["Unexpected template filename: "; name])
  else Ok (drop_last (String.length suffix) (drop_str (String.length prefix) name)).
Definition alias (component : string) : string := default component (dict_get component DOC_ALIASES).
Definition PASSED : string := "Component docs check passed: every application template has a matching docs/deploy-guide/components/<component>.md page.".
Definition page_path (component : string) : string := "docs/deploy-guide/components/" +:+ component +:+ ".md".
(** The exit code and what is printed. *)
(* scripts/check-component-docs.py:26-58 main *)
Definition check_main (template_dir docs_dir : list string) : res (Z * list string) :=
  template_components ← res_map _component_name_from_template (filter (fun n => glob_match prefix suffix n = true) template_dir);
  let doc_components := filter (fun s => s <> "index") (map stem (filter (fun n => glob_match "" ".md" n = true) docs_dir)) in
  let required_docs := map alias template_components in
  let missing_docs := merge_sort str_le (remove_dups (filter (fun c => c ∉ doc_components) required_docs)) in
  if negb (truthy missing_docs) then Ok (0%Z, [PASSED]) else
  Ok (1%Z, ["ERROR: Missing component docs for ArgoCD application templates:"] ++ map bullet missing_docs
     ++ [String (ascii_of_nat 10) "Create these files:"] ++ map (fun c => bullet (page_path c)) missing_docs).

(** ** Properties *)

(** *** The check is exact *)

Lemma str_length_rev s : String.length (String.rev s) = String.length s.
Proof. induction s as [|c s IH]; [done|]. rewrite str_rev_cons, str_length_app, IH. cbn. lia. Qed.
Lemma drop_last_app a b : drop_last (String.length b) (a +:+ b) = a.
Proof.
  unfold drop_last. rewrite str_rev_app, <- (str_length_rev b), drop_str_app. apply str_rev_involutive.
Qed.
Definition template_of (component : string) : string := prefix +:+ component +:+ suffix.
Lemma template_name component : _component_name_from_template (template_of component) = Ok component.
Proof.
  unfold _component_name_from_template, template_of.
  rewrite (proj2 (startswith_spec _ _)) by eauto.
  rewrite (proj2 (endswith_spec suffix _)) by (exists (prefix +:+ component); by rewrite str_app_assoc).
  cbn [andb negb]. by rewrite drop_str_app, drop_last_app.
Qed.
Lemma common_suffix p r r' e : p +:+ r = r' +:+ e -> (String.length e <= String.length r)%nat -> exists m, r = m +:+ e.
Proof.
  revert r'. induction p as [|x p IH]; intros r' Heq Hle; [by exists r'|]. destruct r' as [|y r'].
  - cbn in Heq. subst e. cbn in Hle. rewrite str_length_app in Hle. lia.
  - injection Heq as _ Heq. by apply (IH r').
Qed.
Lemma glob_match_spec p e name : glob_match p e name = true <-> exists m, name = p +:+ m +:+ e.
Proof.
  unfold glob_match. rewrite !andb_true_iff, startswith_spec, endswith_spec, Nat.leb_le. split.
  - intros [[[r ->] [r' Hr]] Hlen]. rewrite str_length_app in Hlen.
    destruct (common_suffix _ _ _ _ Hr) as [m ->]; [lia|]. by exists m.
  - intros [m ->]. split_and!; [by exists (m +:+ e)|exists (p +:+ m); apply str_app_assoc|]. rewrite !str_length_app. lia.
Qed.
(** The page of a component: a file named [.md] is its own stem. *)
Definition has_page (docs_dir : list string) (c : string) : Prop :=
  c <> "index" /\ ((c <> "" /\ (c +:+ ".md") ∈ docs_dir) \/ (c = ".md" /\ c ∈ docs_dir)).
Lemma stem_md m : stem (m +:+ ".md") = if truthy m then m else ".md".
Proof. unfold stem. rewrite (rsplit_once_app "."%char m "md") by done. by destruct m. Qed.
Lemma doc_components_spec docs_dir c :
  c ∈ filter (fun s => s <> "index") (map stem (filter (fun n => glob_match "" ".md" n = true) docs_dir)) <-> has_page docs_dir c.
Proof.
  rewrite list_elem_of_filter, list_elem_of_fmap. unfold has_page. split.
  - intros (Hi & name & -> & (Hg & Hin)%list_elem_of_filter). split; [done|].
    apply glob_match_spec in Hg as [m ->]. cbn [String.append] in *. rewrite stem_md in *.
    destruct m as [|x m]; [by right|left]. by split.
  - intros [Hi Hd]. split; [done|]. destruct Hd as [[Hc Hin]|[-> Hin]].
    + exists (c +:+ ".md"). rewrite stem_md. split; [by destruct c|]. apply list_elem_of_filter.
      split; [apply glob_match_spec; by exists c|done].
    + exists ".md". split; [done|]. apply list_elem_of_filter. by split.
Qed.
Lemma template_components_spec template_dir : exists l,
  res_map _component_name_from_template (filter (fun n => glob_match prefix suffix n = true) template_dir) = Ok l /\
  forall c, c ∈ l <-> template_of c ∈ template_dir.
Proof.
  induction template_dir as [|name r (l & Hl & Hspec)]; [exists []; split; [done|intros c; by rewrite !elem_of_nil]|].
  rewrite filter_cons. case_decide as Hg.
  - apply glob_match_spec in Hg as Hm. destruct Hm as [m Hm]. exists (m :: l). split.
    + cbn [res_map]. rewrite Hm. change (prefix +:+ m +:+ suffix) with (template_of m). rewrite template_name. cbn. by rewrite Hl.
    + intros c. rewrite !elem_of_cons, Hspec, Hm. split; [intros [->|?]; [by left|by right]|].
      intros [Hc|?]; [left|by right]. apply (f_equal _component_name_from_template) in Hc.
      change (prefix +:+ m +:+ suffix) with (template_of m) in Hc. rewrite !template_name in Hc. by injection Hc.
  - exists l. split; [done|]. intros c. rewrite elem_of_cons, Hspec. split; [by right|].
    intros [<-|?]; [|done]. destruct Hg. apply glob_match_spec. by exists c.
Qed.

(** The check of the component pages, for every content of the two directories: it
    never raises; it exits with 0 exactly when every [application-<c>.yaml] has the page of
    [c] (of its parent where [c] is an alias); otherwise it exits with 1 and lists exactly
    the missing pages, each once and in order. *)
Theorem docs_check_exact template_dir docs_dir : exists missing out code,
  check_main template_dir docs_dir = Ok (code, out) /\
  (forall c, c ∈ missing <-> exists t, template_of t ∈ template_dir /\ c = alias t /\ ~ has_page docs_dir c) /\
  NoDup missing /\ StronglySorted str_le missing /\
  (code = 0%Z <-> forall t, template_of t ∈ template_dir -> has_page docs_dir (alias t)) /\
  (code <> 0%Z -> code = 1%Z /\ out = ["ERROR: Missing component docs for ArgoCD application templates:"] ++ map bullet missing
     ++ [String (ascii_of_nat 10) "Create these files:"] ++ map (fun c => bullet (page_path c)) missing).
Proof.
  destruct (template_components_spec template_dir) as (l & Hl & Hspec). unfold check_main. rewrite Hl. cbn [mbind res_mbind].
  set (docs := filter _ (map stem _)). set (missing := merge_sort str_le _).
  assert (forall c, c ∈ missing <-> exists t, template_of t ∈ template_dir /\ c = alias t /\ ~ has_page docs_dir c) as Hm.
  { intros c. unfold missing. rewrite merge_sort_Permutation, elem_of_remove_dups, list_elem_of_filter, list_elem_of_fmap.
    split; [intros (Hn & t & -> & Ht%Hspec)|intros (t & Ht%Hspec & -> & Hn)]; rewrite <- ?doc_components_spec in *; eauto.
    exists t. by rewrite <- doc_components_spec. }
  assert (NoDup missing) as Hnd by (unfold missing; rewrite merge_sort_Permutation; apply NoDup_remove_dups).
  assert (StronglySorted str_le missing) as Hss by (apply StronglySorted_merge_sort; apply _).
  assert (missing = [] <-> forall t, template_of t ∈ template_dir -> has_page docs_dir (alias t)) as Hnil.
  { split.
    - intros He t Ht. rewrite He in Hm. destruct (decide (alias t ∈ docs)) as [Hd|Hd]; [by apply doc_components_spec|].
      destruct (not_elem_of_nil (alias t)). apply Hm. exists t. rewrite <- doc_components_spec. done.
    - intros Hall. destruct missing as [|c r]; [done|]. destruct (proj1 (Hm c)) as (t & Ht & -> & Hn); [left|]. by destruct Hn; apply Hall. }
  clearbody missing. destruct missing as [|c r]; cbn [truthy truthy_list negb].
  - exists [], [PASSED], 0%Z. split_and!; try done. split; [|done]. intros _. by apply Hnil.
  - eexists (c :: r), _, 1%Z. split_and!; try done. split; [done|]. intros Hall. by apply Hnil in Hall.
Qed.

(** *** The overrides that are accepted *)

Definition mode_in (modes : list string) (d : dict json) : bool :=
  match dict_get "mode" d with Some (JStr m) => existsb (String.eqb m) modes | _ => false end.
Definition override_ok (names modes : list string) (v : json) : bool :=
  match v with
  | JNull | JBool _ => true
  | JNum z => Z.eqb z 0 || Z.eqb z 1
  | JStr s => existsb (String.eqb s) names
  | JArr _ => false
  | JObj d => mode_in modes d
  end.
Definition overrides_ok (o : json) : bool :=
  negb (truthy o) ||
  match o with
  | JObj d => override_ok [] ["none"; "values"; "values_files"] (default JNull (dict_get "helm" d))
              && override_ok ["only"] ["none"; "only_source"; "second_source"] (default JNull (dict_get "kustomize" d))
  | _ => false
  end.
Definition returns {A} (r : res A) : bool := match r with inr _ => true | inl _ => false end.
Lemma helm_returns d : returns (_render_helm_override (JObj d)) = override_ok [] ["none"; "values"; "values_files"] (default JNull (dict_get "helm" d)).
Proof.
  unfold _render_helm_override. cbn [jget mbind res_mbind]. set (v := default _ _). clearbody v.
  destruct v as [|[]|z|s|l|o]; try done.
  - unfold _normalize_override, lookup_mode. cbn. destruct (Z.eqb_spec z 0) as [->|]; [done|]. by destruct (Z.eqb_spec z 1) as [->|].
  - cbn [_normalize_override mbind res_mbind override_ok jget]. unfold mode_in. destruct (dict_get "mode" o) as [[| | |m| |]|]; cbn; try done;
      repeat (destruct (String.eqb m _); cbn; try done).
    all: try by destruct b.
Qed.
Lemma kustomize_returns d : returns (_render_kustomize_override (JObj d)) =
  override_ok ["only"] ["none"; "only_source"; "second_source"] (default JNull (dict_get "kustomize" d)).
Proof.
  unfold _render_kustomize_override. cbn [jget mbind res_mbind]. set (v := default _ _). clearbody v.
  destruct v as [|[]|z|s|l|o]; try done.
  - unfold _normalize_override, lookup_mode. cbn. destruct (Z.eqb_spec z 0) as [->|]; [done|]. by destruct (Z.eqb_spec z 1) as [->|].
  - unfold _normalize_override, lookup_mode. cbn. by destruct (String.eqb s "only").
  - cbn [_normalize_override mbind res_mbind override_ok jget]. unfold mode_in.
    destruct (dict_get "mode" o) as [[|[]| |m| |]|]; cbn; try done. repeat (destruct (String.eqb m _); cbn; try done).
Qed.

(** What ArgoCD builds is rendered for every page exactly when its overrides have one of
    the forms the macros know; the rest of the front matter never makes it fail. *)
Theorem builds_rendered d :
  returns (component_argocd_builds (Some (JObj d))) = overrides_ok (default JNull (dict_get "deploy_overrides" d)).
Proof.
  unfold component_argocd_builds. change (truthy (JObj d)) with (truthy d).
  replace (if truthy d then JObj d else JObj []) with (JObj d) by (by destruct d).
  assert (exists v, _render_sources (JObj d) = Ok v) as [src ->]
    by (unfold _render_sources; cbn [jget mbind res_mbind]; repeat case_match; eauto).
  cbn [jget mbind res_mbind]. set (o := default JNull (dict_get "deploy_overrides" d)). clearbody o. unfold overrides_ok.
  destruct (truthy o) eqn:Ho; cbn [negb orb]; [|done].
  destruct o as [| | | | |o]; try done. rewrite <- helm_returns, <- kustomize_returns.
  destruct (_render_helm_override (JObj o)); [done|]. by destruct (_render_kustomize_override (JObj o)).
Qed.

(** A list of value files is not accepted as an override, although the code has a branch for it. *)
Example list_override_raises :
  _normalize_override (JArr [JStr "values.yaml"]) [(JBool false, "none"); (JBool true, "values")] = Err (TypeError ["unhashable type"]).
Proof. reflexivity. Qed.
(** The page of a component with two charts and a path. *)
Example rendered_page :
  component_argocd_builds (Some (JObj [("charts", JArr [JStr "keystone"; JStr "nova"]); ("kustomize_paths", JArr [JStr "components/x"]);
    ("deploy_overrides", JObj [("helm", JObj [("mode", JStr "values")]); ("kustomize", JStr "only")])]))
  = Ok (String.concat (String (ascii_of_nat 10) "") [
      "- ArgoCD renders Helm chart `keystone`, Helm chart `nova`, and Kustomize path `components/x`.";
      bullet HELM_VALUES; bullet KUSTOMIZE_ONLY]).
Proof. reflexivity. Qed.
Example missing_page :
  check_main ["_helpers.tpl"; "application-nova.yaml"; "application-mariadb-operator-crds.yaml"] ["index.md"; "mariadb-operator.md"]
  = Ok (1%Z, ["ERROR: Missing component docs for ArgoCD application templates:"; "- nova";
       String (ascii_of_nat 10) "Create these files:"; "- docs/deploy-guide/components/nova.md"]).
Proof. reflexivity. Qed.
