(* ===== verification/RedfishModels.v ===== *)
(** * The inventory classes

    Models [understack_workflows/models.py]: a chassis with its network cards
    and their interfaces, read through sushy or, on an iLO 4, from the page
    [/json/comm_controller_info].  The reads sushy makes are the calls of [redfishE]; the
    attributes of its resources are the fields of [chassis_data], [adapter] and [port]. *)
From S2P Require Import Prelude PyStr PyData.
Local Open Scope Z_scope.

(** ** Values *)

(** [a == b] *)
Fixpoint jeq (a b : json) : bool :=
  match a, b with
  | JNull, JNull => true
  | JBool a, JBool b => Bool.eqb a b
  | JBool a, JNum b => Z.b2z a =? b
  | JNum a, JBool b => a =? Z.b2z b
  | JNum a, JNum b => a =? b
  | JStr a, JStr b => String.eqb a b
  | JArr l, JArr l' =>
      (fix all l l' := match l, l' with [], [] => true | x :: l, y :: l' => jeq x y && all l l' | _, _ => false end) l l'
  | JObj d, JObj d' => Nat.eqb (length d) (length d') &&
      forallb (fun kv => match dict_get kv.1 d' with Some w => jeq kv.2 w | None => false end) d
  | _, _ => false
  end.
(** [l.index(v)] *)
Fixpoint index (v : json) (l : list json) : res Z :=
  match l with
  | [] => Err (ValueError ["is not in list"])
  | w :: r => if jeq w v then Ok 0 else n ← index v r; Ok (1 + n)
  end.
(** [v[0]] *)
Definition first_item (v : json) : res json :=
  match v with
  | JArr (x :: _) => Ok x
  | JStr (String c _) => Ok (JStr (String c ""))
  | JArr [] | JStr "" => Err IndexError
  | JObj _ => Err (KeyError "0")
  | _ => Err (TypeError ["object is not subscriptable"])
  end.
Definition is_text (s : string) (v : json) : bool := jeq v (JStr s).

(** ** The resources *)

Record adapter := Adapter { a_identity : json; a_json : json; a_model : json }.
(** [p_root] is the document of the service root, where the port has one. *)
Record port := Port { p_identity : json; p_root : option json; physical_port_number : json;
  associated_network_addresses : json; current_link_speed_mbps : json }.
Record chassis_data := ChassisData { c_name : json; redfish_version : json; manufacturer : json;
  sku : json; c_serial_number : json; c_model : json }.
(** A response: what [raise_for_status] does, and the body. *)
Record response := Response { raise_for_status : res unit; body : res json }.
Inductive redfishE : Type -> Type :=
| MembersIdentities : redfishE (list string)
| GetChassis (id : string) : redfishE chassis_data
| AdapterMembers (c : chassis_data) : redfishE (list adapter)
| PortMembers (a : adapter) : redfishE (list port)
| EthernetInterfacesPath : redfishE string
| MacAddress (path : string) : redfishE json
| SetHttpBasicAuth : redfishE unit
| HttpGet (path : string) : redfishE response.
Abbreviation redfish := (prog unit redfishE).

(** ** The classes *)

(* understack_workflows/models.py:52-58 Interface *)
Record Interface := MkInterface { i_name : json; mac_addr : json; i_location : json; current_speed_mbps : json; nic_model : json }.
(* understack_workflows/models.py:16-21 NIC *)
Record NIC := MkNIC { n_name : json; location : json; interfaces : list Interface; model : json }.
(* understack_workflows/models.py:100-104 Systeminfo *)
Record Systeminfo := MkSysteminfo { asset_tag : json; serial_number : json; platform : json }.
(* understack_workflows/models.py:115-120 Chassis *)
Record Chassis := MkChassis { ch_name : json; nics : list NIC; network_interfaces : list Interface; system_info : option Systeminfo }.

(* understack_workflows/models.py:37-45 nic_location *)
Definition nic_location (nic : adapter) : res json :=
  let j := if truthy nic.(a_json) then nic.(a_json) else JObj [] in
  controllers ← jget_or "Controllers" (JArr []) j;
  controller ← first_item controllers;
  let controller := if truthy controller then controller else JObj [] in
  l ← jget_or "Location" (JObj []) controller;
  l ← jget_or "PartLocation" (JObj []) l;
  jget_or "ServiceLabel" nic.(a_identity) l.
(* understack_workflows/models.py:88-97 fetch_macaddr_from_sys_resource *)
Definition fetch_macaddr_from_sys_resource (data : port) : redfish json :=
  try_except
    (match data.(p_root) with
     | None => Raise (AttributeError "get_system")
     | Some _ =>
         base ← call EthernetInterfacesPath;
         call (MacAddress (base +:+ "/" +:+ py_str data.(p_identity)))
     end)
    (fun e => if String.eqb e.(exn_cls) "ResourceNotFoundError" then mret (JStr "") else Raise e).
(* understack_workflows/models.py:60-74 Interface.from_redfish *)
Definition interface_from_redfish (nic : NIC) (data : port) : redfish Interface :=
  hpe ← lift (match data.(p_root) with None => Ok false | Some j => v ← jitem "Vendor" j; Ok (is_text "HPE" v) end);
  '(name, macaddr) ← (if hpe : bool then
      macaddr ← lift (first_item data.(associated_network_addresses));
      mret (JStr (py_str nic.(n_name) +:+ "_" +:+ py_str data.(physical_port_number)), macaddr)
    else
      macaddr ← fetch_macaddr_from_sys_resource data;
      mret (data.(p_identity), macaddr));
  mret (MkInterface name macaddr nic.(location) data.(current_link_speed_mbps) nic.(model)).
(* understack_workflows/models.py:23-28 NIC.from_redfish *)
Definition nic_from_redfish (data : adapter) : redfish NIC :=
  l ← lift (nic_location data);
  let nic := MkNIC data.(a_identity) l [] data.(a_model) in
  ports ← call (PortMembers data);
  ifs ← map_each ports (interface_from_redfish nic);
  mret (MkNIC nic.(n_name) nic.(location) ifs nic.(model)).
Definition text_attr (v : json) : res string := match v with JStr s => Ok s | _ => Err (AttributeError "replace") end.
(* understack_workflows/models.py:76-86 Interface.from_hp_json *)
Definition interface_from_hp_json (nic : NIC) (ports : list json) (data : json) : res Interface :=
  p_num ← jget "port_num" data;
  p_num ← (if truthy p_num then Ok p_num else n ← index data ports; Ok (JNum (n + 1)));
  l ← text_attr nic.(location);
  let interface_name := "NIC." +:+ replace_char " "%char "."%char l +:+ "_" +:+ py_str p_num in
  mac ← jitem "mac_addr" data;
  speed ← jget_or "speed" (JNum 0) data;
  Ok (MkInterface (JStr interface_name) mac nic.(location) speed nic.(model)).
(* understack_workflows/models.py:30-35 NIC.from_hp_json *)
Definition nic_from_hp_json (data : json) : res NIC :=
  name ← jitem "name" data;
  l ← jitem "location" data;
  let nic := MkNIC name l [] name in
  ports ← jget "network_ports" data;
  ports ← (if truthy ports then Ok ports else jget_or "unknown_ports" (JArr []) data);
  ports ← jiter ports;
  ifs ← res_map (interface_from_hp_json nic ports) ports;
  Ok (MkNIC name l ifs name).
(* understack_workflows/models.py:106-112 Systeminfo.from_redfish *)
Definition systeminfo_from_redfish (c : chassis_data) : Systeminfo := MkSysteminfo c.(sku) c.(c_serial_number) c.(c_model).
(* understack_workflows/models.py:12-13 ManufacturerNotSupported *)
Definition ManufacturerNotSupported (m : json) : exn := Exn "ManufacturerNotSupported" ["Manufacturer"; py_str m; "not supported."; "HPE, Dell Inc."].
(* understack_workflows/models.py:122-129 check_manufacturer *)
Definition check_manufacturer (m : json) : res unit :=
  if negb (existsb (fun s => is_text s m) ["HPE"; "Dell Inc."]) then Err (ManufacturerNotSupported m) else Ok tt.
(* understack_workflows/models.py:131-136 bmc_is_ilo4 *)
Definition bmc_is_ilo4 (c : chassis_data) : bool := is_text "1.0.0" c.(redfish_version) && is_text "HPE" c.(manufacturer).
(* understack_workflows/models.py:167-169 interfaces_from_nics *)
Definition interfaces_from_nics (l : list NIC) : list Interface := nic ← l; nic.(interfaces).
(* understack_workflows/models.py:171-180 chassis_hp_json_data *)
Definition chassis_hp_json_data : redfish json :=
  _ ← call SetHttpBasicAuth;
  resp ← call (HttpGet "/json/comm_controller_info");
  _ ← lift resp.(raise_for_status);
  b ← lift resp.(body);
  lift (jitem "comm_controllers" b).
(* understack_workflows/models.py:160-165 Chassis.from_hp_json *)
Definition chassis_from_hp_json (chassis_name : json) : redfish Chassis :=
  data ← chassis_hp_json_data;
  nics ← lift (l ← jiter data; res_map nic_from_hp_json l);
  mret (MkChassis chassis_name nics (interfaces_from_nics nics) None).
Definition members_first (l : list string) : res string := match l with x :: _ => Ok x | [] => Err IndexError end.
(* understack_workflows/models.py:138-158 Chassis.from_redfish *)
Definition chassis_from_redfish : redfish Chassis :=
  ids ← call MembersIdentities;
  id ← lift (members_first ids);
  c ← call (GetChassis id);
  _ ← lift (check_manufacturer c.(manufacturer));
  if bmc_is_ilo4 c then chassis_from_hp_json c.(c_name) else
  adapters ← call (AdapterMembers c);
  nics ← map_each adapters nic_from_redfish;
  mret (MkChassis c.(c_name) nics (interfaces_from_nics nics) (Some (systeminfo_from_redfish c))).

(** ** Properties *)

(** *** What is read of a chassis *)

Section chassis.
Variable c : chassis_data.
(** The chassis of the machine is [c]; every other answer is free. *)
Definition answers {R} (op : redfishE R) : res R -> Prop :=
  match op with GetChassis _ => fun r => r = inr c | _ => fun _ => True end.
Definition chassis_step R (op : redfishE R) (tr : list (event redfishE)) (r : res R) (tr' : list (event redfishE)) : Prop :=
  step_trace R op tr r tr' /\ answers op r.
Definition supported (m : json) : bool := existsb (fun s => is_text s m) ["HPE"; "Dell Inc."].
(** What a read inventory says of the chassis. *)
Definition describes (ch : Chassis) : Prop :=
  ch.(ch_name) = c.(c_name) /\ ch.(network_interfaces) = concat (map interfaces ch.(nics)) /\
  ch.(system_info) = if bmc_is_ilo4 c then None else Some (systeminfo_from_redfish c).
Definition read_ok (r : res Chassis) : Prop := match r with inr ch => describes ch | inl _ => True end.

Lemma interfaces_concat l : interfaces_from_nics l = concat (map interfaces l).
Proof. unfold interfaces_from_nics. induction l as [|n l IH]; [done|]. cbn. by f_equal. Qed.
Lemma hp_json_read tr : bmc_is_ilo4 c = true -> wp chassis_step (chassis_from_hp_json c.(c_name)) (fun r _ _ => read_ok r) tt tr.
Proof.
  intros Hi. unfold chassis_from_hp_json. apply wp_returns. intros data g s. apply wp_returns. intros l g' s'. cbn.
  unfold describes. rewrite Hi, interfaces_concat. done.
Qed.

(** The inventory of a machine whose chassis is [c], against every other answer: an
    unsupported manufacturer is refused after the two reads that find it; otherwise an
    inventory that is returned names the chassis, lists the interfaces of its cards in
    the order of the cards, and has the system's data except on an iLO 4. *)
Theorem inventory_read :
  wp chassis_step chassis_from_redfish (fun r _ tr =>
    if supported c.(manufacturer) then read_ok r else (length tr <= 2)%nat /\ exists e, r = inl e) tt [].
Proof.
  unfold chassis_from_redfish. apply wp_mbind. wp_answer r tr Htr. destruct Htr as [Htr _]. unfold step_trace in Htr. subst tr.
  destruct r as [e|ids]; wp_simp; [destruct (supported _); [done|by eauto]|]. do 2 wp_pure.
  destruct (members_first ids) as [e|id]; wp_simp; [destruct (supported _); [done|by eauto]|]. apply wp_mbind. wp_answer r tr Htr.
  destruct Htr as [Htr Hc]. unfold step_trace in Htr. subst tr. cbn in Hc. subst r. wp_simp. do 2 wp_pure.
  unfold check_manufacturer. fold (supported c.(manufacturer)). destruct (supported _); wp_simp; [|by eauto].
  destruct (bmc_is_ilo4 c) eqn:Hi; [by apply hp_json_read|].
  apply wp_returns. intros adapters g s. apply wp_returns. intros l g' s'. cbn. unfold describes. by rewrite Hi, interfaces_concat.
Qed.
End chassis.

(** *** Numbers of the ports on an iLO 4 *)

Definition mac_of (v : json) : json := match v with JObj d => default JNull (dict_get "mac_addr" d) | _ => JNull end.
(** A port of the page: it has an address, and no number of its own. *)
Definition plain_port (v : json) : Prop :=
  exists d s, v = JObj d /\ dict_get "mac_addr" d = Some (JStr s) /\ truthy (default JNull (dict_get "port_num" d)) = false.
Lemma jeq_mac v w : plain_port v -> plain_port w -> jeq v w = true -> mac_of v = mac_of w.
Proof.
  intros (d & s & -> & Hd & _) (d' & s' & -> & Hd' & _). cbn [jeq mac_of]. rewrite andb_true_iff. intros [_ Hall]. rewrite Hd, Hd'. cbn.
  assert (forall l, dict_get "mac_addr" l = Some (JStr s) ->
    forallb (fun kv => match dict_get kv.1 d' with Some w => jeq kv.2 w | None => false end) l = true -> s = s') as Hl.
  { induction l as [|[k v] l IH]; [done|]. cbn [dict_get forallb fst snd]. rewrite andb_true_iff. case_decide as Hk; [|by intros ? [_ ?]; apply IH].
    intros [= ->] [Hv _]. subst k. rewrite Hd' in Hv. by apply String.eqb_eq in Hv. }
  by rewrite (Hl d Hd Hall).
Qed.
(** The keys of a dict are distinct. *)
Fixpoint well_formed (v : json) : bool :=
  match v with
  | JArr l => forallb well_formed l
  | JObj d => bool_decide (NoDup d.*1) && forallb (fun kv => well_formed kv.2) d
  | _ => true
  end.
Lemma jeq_refl : forall v, well_formed v = true -> jeq v v = true.
Proof.
  fix IH 1. intros [|b|z|s|l|d]; cbn [well_formed jeq]; intros Hw; auto using Bool.eqb_reflx, Z.eqb_refl, String.eqb_refl.
  - induction l as [|x l IHl]; [done|]. cbn [forallb] in Hw. apply andb_true_iff in Hw as [Hx Hl]. rewrite (IH x Hx). by apply IHl.
  - rewrite Nat.eqb_refl. apply andb_true_iff in Hw as [Hnd Hw]. apply bool_decide_eq_true in Hnd. cbn [andb].
    assert (forall kv, kv ∈ d -> jeq kv.2 kv.2 = true) as Hall.
    { clear Hnd. induction d as [|[k v] d IHd]; [by intros kv ?%elem_of_nil|]. cbn [forallb] in Hw. apply andb_true_iff in Hw as [Hv Hd].
      intros kv [->|Hin]%elem_of_cons; [exact (IH v Hv)|by apply IHd]. }
    apply forallb_forall. intros [k v] Hin%list_elem_of_In. cbn [fst snd]. rewrite (proj2 (dict_get_elem k v d Hnd) Hin). exact (Hall _ Hin).
Qed.
Lemma index_at pre v post : Forall plain_port (pre ++ v :: post) -> well_formed v = true -> NoDup (map mac_of (pre ++ v :: post)) ->
  index v (pre ++ v :: post) = Ok (Z.of_nat (length pre)).
Proof.
  intros Hp Hw. induction pre as [|w pre IH]; intros Hnd; [cbn [app index]; by rewrite (jeq_refl v Hw)|].
  cbn [app map index length] in *. apply Forall_cons in Hp as [Hpw Hp]. apply NoDup_cons in Hnd as [Hn Hnd].
  destruct (jeq w v) eqn:Heq.
  - destruct Hn. apply list_elem_of_fmap. exists v. split; [|apply elem_of_app; right; left].
    apply jeq_mac; [done| |done]. rewrite Forall_forall in Hp. apply Hp, elem_of_app. right. left.
  - rewrite IH by done. cbn. f_equal. lia.
Qed.

(** The ports an iLO 4 lists without numbers are numbered by their place, from 1: when
    their addresses differ, every interface has a name of its own and keeps the
    address of its port. *)
Theorem hp_ports_numbered nic loc ports :
  nic.(location) = JStr loc -> Forall (fun p => plain_port p /\ well_formed p = true) ports -> NoDup (map mac_of ports) ->
  exists ifs, res_map (interface_from_hp_json nic ports) ports = Ok ifs /\
    map (fun i => (i.(i_name), i.(mac_addr))) ifs =
    imap (fun i p => (JStr ("NIC." +:+ replace_char " "%char "."%char loc +:+ "_" +:+ pretty (Z.of_nat i + 1)), mac_of p)) ports.
Proof.
  intros Hloc Hp Hnd.
  assert (forall post pre, ports = pre ++ post -> exists ifs, res_map (interface_from_hp_json nic ports) post = Ok ifs /\
    map (fun i => (i.(i_name), i.(mac_addr))) ifs =
    imap (fun i p => (JStr ("NIC." +:+ replace_char " "%char "."%char loc +:+ "_" +:+ pretty (Z.of_nat (length pre + i) + 1)), mac_of p)) post) as Hgen.
  { induction post as [|p post IH]; intros pre Hports; [by exists []|].
    assert (Forall plain_port ports) as Hpl by (eapply Forall_impl; [exact Hp|by intros ? [? _]]).
    assert (plain_port p /\ well_formed p = true) as [Hplain Hwf] by (rewrite Forall_forall in Hp; apply Hp; rewrite Hports; apply elem_of_app; right; left).
    destruct (IH (pre ++ [p])) as (ifs & Hifs & Hnames); [by rewrite <- app_assoc|].
    assert (index p ports = Ok (Z.of_nat (length pre))) as Hi by (rewrite Hports; apply index_at; [by rewrite <- Hports|done|by rewrite <- Hports]).
    destruct Hplain as (d & m & -> & Hm & Hnum). eexists. split.
    - cbn [res_map]. unfold interface_from_hp_json at 1. cbn [jget mbind res_mbind]. rewrite Hnum, Hi, Hloc. cbn [mbind res_mbind text_attr jitem jget_or].
      rewrite Hm. cbn [mbind res_mbind]. rewrite Hifs. cbn [mbind res_mbind]. reflexivity.
    - cbn [map imap i_name mac_addr mac_of]. rewrite Hm, Hnames, Nat.add_0_r. cbn [default]. f_equal.
      apply imap_ext. intros i x _. cbn. by rewrite length_app, <- Nat.add_assoc. }
  apply (Hgen ports []). done.
Qed.
(** Two ports with the same record get the same name. *)
Example equal_ports_share_name :
  let port := JObj [("mac_addr", JStr "aa:bb")] in
  option_map (map i_name) (match nic_from_hp_json (JObj [("name", JStr "n"); ("location", JStr "Slot 2"); ("network_ports", JArr [port; port])]) with
    inr nic => Some nic.(interfaces) | inl _ => None end)
  = Some [JStr "NIC.Slot.2_1"; JStr "NIC.Slot.2_1"].
Proof. reflexivity. Qed.
